(* ===== verification/_CoqProject ===== *)
-Q . S2P
Prelude.v
Mmu.v
Bytes.v
Mem.v
State.v
Spinlock.v
Printk.v
Critical.v
Cprintf.v
Kalloc.v
Vm.v
VmSpec.v
Umem.v
Sched.v
Sleeplock.v
Disk.v
Bio.v
BioSpec.v
CacheSpec.v
Log.v
LogSpec.v
Inode.v
Console.v
Fs.v
Mkfs.v
MkfsSpec.v
FsSpec.v
WriteSpec.v
Pipe.v
File.v
ProcLife.v
Exec.v
Sysfile.v
Trap.v
TrapSpec.v
Shared.v
SharedSpec.v
Hw3Sys.v
Shlex.v
Hwsh.v
Shell.v
ShellPrint.v
ShellRun.v
Grep.v
Umalloc.v
Boot.v
Mp.v
Ulib.v
ShellMain.v
Uprog.v
Ls.v
Init.v
