(* ===== verification/Prelude.v ===== *)
(** * A verification library for the CS450 operating-systems repository

    The repository holds the xv6 teaching kernel and its user programs as changed for
    two assignments ([src/HW2/src], which adds counters of traps and system calls, and
    [src/HW3/xv6-src], which adds pages of memory that processes share), a small shell
    for Linux ([src/HW1/hwsh.c]), and test programs.  This library models the C code of
    the kernel, of its boot loader and file-system builder, and of most user programs,
    and proves what makes each part correct.

    ** How the code is modelled

    A C function that works on state is a computation [M S A] (below): from a state it
    returns a value and a new state, panics, switches to the scheduler, spins in a
    state, faults, or exhausts the loop bound of the model.  Kernel functions run in [K], whose state
    [kstate] (State.v) has one field per global variable and one record per struct;
    pointers into tables are indices.  Integers are [Z] with the wrap-around of their C
    type written out ([u8], [u16], [u32], [s8], [s16], [s32]).  Physical memory is a
    function from addresses to bytes; page tables and the free list live in it.  A
    context switch is the outcome [Switch]: the process is resumed in whatever state
    the rest of the machine has produced, so a theorem about code that sleeps holds
    for every such state, or for every one that satisfies a stated relation; [waits]
    follows a run through any number of such resumptions.  Interleavings of several
    processors are step relations of their own, tied to the sequential code: [Smp] in
    Spinlock.v by [acquire_refines], [Wake] in Sched.v by [sleep_steps] and
    [wakeup_steps].

    ** The parts, their files, what the theorems say

    - Foundations.  Prelude.v (outcomes, frames, arithmetic, tactics [frame], [dlia],
      [case_Z], hint databases [kernel] and [frame]); Mmu.v (mmu.h, memlayout.h,
      param.h, fs.h, stat.h, fcntl.h); Bytes.v (little-endian fields and slices of
      blocks); Mem.v (string.c, x86.h; [memmove_spec]: right for every overlap);
      State.v (the structs of proc.h, file.h, buf.h, spinlock.h and the globals).
    - Locks.  Spinlock.v (spinlock.c, [mycpu] of proc.c): [acquire_release_balanced],
      and over all interleavings [Smp.mutual_exclusion], [Smp.acquire_refines].
      Critical.v is what critical sections promise to every client.  Sleeplock.v
      (sleeplock.c): [sleeplock_owner], through any number of vain wakeups.
    - Output and input.  Printk.v and Cprintf.v (console.c, uart.c): [cprintf_renders],
      equality with a reference expansion of formats into positional notation.  Console.v (console.c, kbd.c,
      uart.c): [console_line_editing], the interrupt handler refines a line editor.
    - Memory.  Kalloc.v (kalloc.c): [kalloc_kfree_stack], the linked free list refines
      a stack of distinct pages; [freerange_adds_pages].  Vm.v (vm.c) and VmSpec.v:
      [mappages_correct], a two-level table seen as a function, changed at exactly the
      pages asked for, or an error with the allocator empty.  Umem.v: user memory
      through [%cr3].
    - Processes.  Sched.v (proc.c): [allocproc_correct], [sleep_protocol],
      [wakeup_exact], [kill_correct], and [Wake.no_lost_wakeup] over the interleavings
      of any number of sleepers and wakers.
      ProcLife.v ([userinit], [fork], [exit], [wait], [growproc]); Exec.v (exec.c,
      [loaduvm], the argument functions of syscall.c); Trap.v and TrapSpec.v (trap.c,
      syscall.c, sysproc.c): [trap_counts], [sys_countTraps_report],
      [syscall_unknown].
    - Disk and file system.  Disk.v (ide.c, memide.c, picirq.c, ioapic.c): the class
      [DiskDriver] is the interface of a driver, [SyncDriver] what the cache needs of
      it; [ide_equivalent]: the interrupt-driven driver serves its queue, request by
      request, with the effect of the memory disk.  Bio.v, BioSpec.v, CacheSpec.v (bio.c): [bget_searches_end],
      [bread_coherent], [bwrite_durable], [brelse_lru].  Log.v and LogSpec.v (log.c):
      [commit_atomic], [recovery_idempotent], over the driver [crash_driver], whose
      every request is followed by a point where the machine may stop.  Inode.v and
      Fs.v (fs.c): [iget_unique], [bitmap_allocation], [dinode_roundtrip],
      [dirent_roundtrip].  WriteSpec.v composes them with the log: [write_atomic],
      writing into a file between [begin_op] and [end_op] is all or nothing across a
      crash.  Pipe.v (pipe.c): [piperead_takes], and [pipewrite_appends] across any
      number of sleeps on a full pipe.  File.v (file.c), Sysfile.v (sysfile.c).
    - The image.  Mkfs.v and MkfsSpec.v (mkfs.c): [mkfs_builds], every file given reads
      back through its inode, no two places share a block, the bitmap is exact.
      FsSpec.v puts the image under the kernel: [host_file_read], what [namei], [ilock]
      and [readi] return is the file that [mkfs] was given, whatever the caches hold.
    - Starting the machine.  Boot.v (bootmain.c): [bootmain_loads].  Mp.v (mp.c,
      lapic.c, main.c): [mpinit_enumerates], [mpinit_unknown_hangs], the clock
      ([cmostime_quiet]), the boot page table ([entrypgdir_maps]).
    - Shared memory of HW3.  Shared.v (vm.c, proc.c, sysproc.c of HW3) and SharedSpec.v:
      [shared_memory_agrees], two processes see the same physical bytes;
      [leave_correct], references are counted and the last to leave frees.  Hw3Sys.v:
      the functions that call a changed one, and the system-call table.
    - Shells.  Shlex.v (shared lexical layer).  Hwsh.v (hwsh.c): [parsecmd_grammar],
      [runcmd_order].  Shell.v, ShellPrint.v, ShellRun.v, ShellMain.v (sh.c of HW2 and
      of HW3): [parsecmd_total], [print_parse], [runcmd_connects], and end to end
      [shell_runs_script]; the shell of HW3 connects no pipes ([hw3_pipe_unconnected]).
    - User programs.  Umalloc.v (umalloc.c): [malloc_correct], [free_correct] (no two
      free blocks touch), [units_bounds].  Ulib.v (ulib.c, printf.c): [printf_renders], [atoi_printint],
      [strcmp_lex].  Grep.v (grep.c): [match_correct], [grep_file].  Uprog.v (wc.c,
      cat.c, echo.c, kill.c, [main] of grep.c): [wc_counts], [cat_copies],
      [echo_prints], [grep_files_print].  Ls.v (ls.c, mkdir.c, rm.c, ln.c):
      [ls_directory].  Init.v (init.c), an interaction tree of system calls:
      [init_supervises], the console set up, then one shell at a time, for ever,
      whatever the kernel answers.

    ** Bounds

    A loop that is not structural has a loop bound, and a theorem that such code
    returns names a bound that is enough.  Loops over memory ranges get the number of
    pages or bytes; the searches of [bget] the length of the list of buffers; the
    parsers the length of the line; [malloc] twice the length of the free list and
    four, [free] that length; the table scan of [mpinit] one more than the entries;
    the shells one more than the lines.  Waiting loops ([sleep] in a [while]) take
    their bound from the field [k_wait], which is no variable of the kernel: it says
    how often the model lets a waiter be woken up in vain.

    ** Parameters

    What the C code takes from elsewhere is a parameter or a field of the state: the
    addresses and bytes that the linker provides, the answers of devices, the contents
    of disks, for user programs the results of the system calls, for [mkfs] the files
    of the host.  [malloc] in the shells is assumed to succeed.  The theorems on the
    file system from CacheSpec.v on follow one process in the kernel, with no other in
    between: a request to the disk is where the machine may stop, not where others run.

    ** Not modelled

    Assembly (bootasm.S, entry.S, entryother.S, swtch.S, trapasm.S, initcode.S, usys.S,
    the generated vectors) works on registers; the model has its effect as [Switch], as
    the trap frame and as tables of addresses.  Test programs (usertests.c, forktest.c,
    stressfs.c, zombie.c, test0.c, test1.c, memLeakTest.c) are tests of what is stated
    here about the kernel; their loops make system calls and compare the answers.
    Where HW3 repeats a function of HW2 word for word and it calls nothing that HW3
    changed, the definition of HW2 stands for both.  Timing, caches, the TLB and the reordering
    of memory accesses by the processor are left out: [Smp] interleaves atomic
    accesses, as the locked [xchg] and its barriers make the code behave. *)

From stdpp Require Export base numbers list strings tactics sets.
From Stdlib Require Export ZArith Lia.
From Stdlib Require Import Ascii.

Open Scope Z_scope.

Declare Scope k_scope.
Delimit Scope k_scope with k.

(* ------------------------------------------------------------------ *)
(** ** Machine integers

    A C object of unsigned type of width [w] is a [Z] in [[0, 2^w)]; signed
    objects are [Z] in [[-2^(w-1), 2^(w-1))].  The conversions below are the
    wrap-around of the i386 target. *)

Definition u8 (z : Z) : Z := z mod 2 ^ 8.
Definition u16 (z : Z) : Z := z mod 2 ^ 16.
Definition u32 (z : Z) : Z := z mod 2 ^ 32.
Definition s32 (z : Z) : Z :=
  let m := z mod 2 ^ 32 in if m <? 2 ^ 31 then m else m - 2 ^ 32.
Definition s8 (z : Z) : Z :=
  let m := z mod 2 ^ 8 in if m <? 2 ^ 7 then m else m - 2 ^ 8.
Definition s16 (z : Z) : Z :=
  let m := z mod 2 ^ 16 in if m <? 2 ^ 15 then m else m - 2 ^ 16.

(** C's truth value of an integer and the integer of a comparison. *)
Definition truth (z : Z) : bool := negb (z =? 0).
Definition b2z (b : bool) : Z := if b then 1 else 0.
(** [x & mask] tested for non-zero. *)
Definition has_bits (x mask : Z) : bool := negb (Z.land x mask =? 0).

(** The bytes of a string literal. *)
Fixpoint bytes (s : string) : list Z :=
  match s with
  | EmptyString => []
  | String a s' => Z.of_nat (nat_of_ascii a) :: bytes s'
  end.
Definition NL : Z := 10.

(* ------------------------------------------------------------------ *)
(** ** Outcomes of kernel code

    A run of a C function in state [s] returns ([Ret]), calls [panic]
    ([Panic]), switches to the scheduler and is later resumed in a state the
    rest of the machine has produced ([Switch]), goes round in a loop in a state
    that only another processor or a device can change ([Spin]), leaves every modelled object
    ([Fault]: null dereference or out-of-range index), or exhausts the loop
    bound of the model ([Fuel]). *)

Inductive out (S A : Type) : Type :=
| Ret (a : A) (s : S)
| Panic (msg : string)
| Switch (s : S) (k : S -> out S A)
| Spin (s : S)
| Fault
| Fuel.
Arguments Ret {S A} a s.
Arguments Panic {S A} msg.
Arguments Switch {S A} s k.
Arguments Spin {S A} s.
Arguments Fault {S A}.
Arguments Fuel {S A}.

Definition M (S A : Type) : Type := S -> out S A.

Definition ret {S A} (a : A) : M S A := fun s => Ret a s.

Fixpoint obind {S A B} (o : out S A) (f : A -> M S B) : out S B :=
  match o with
  | Ret a s => f a s
  | Panic msg => Panic msg
  | Switch s k => Switch s (fun s' => obind (k s') f)
  | Spin s => Spin s
  | Fault => Fault
  | Fuel => Fuel
  end.

Definition bind {S A B} (m : M S A) (f : A -> M S B) : M S B :=
  fun s => obind (m s) f.

Notation "x <- m ;; k" := (bind m (fun x => k))
  (at level 20, m at level 99, k at level 200, right associativity) : k_scope.
Notation "' p <- m ;; k" := (bind m (fun x => match x with p => k end))
  (at level 20, p pattern, m at level 99, k at level 200, right associativity) : k_scope.
Notation "m ;; k" := (bind m (fun _ => k))
  (at level 100, k at level 200, right associativity) : k_scope.
Open Scope k_scope.

Definition panic {S A} (msg : string) : M S A := fun _ => Panic msg.
Definition fault {S A} : M S A := fun _ => Fault.
Definition spin {S A} : M S A := fun s => Spin s.
Definition nofuel {S A} : M S A := fun _ => Fuel.
Definition gets {S A} (f : S -> A) : M S A := fun s => Ret (f s) s.
Definition modify {S} (f : S -> S) : M S unit := fun s => Ret tt (f s).
(** Transfer of control to the scheduler: the rest of the machine decides
    the state in which the caller continues. *)
Definition switch {S} : M S unit := fun s => Switch s (fun s' => Ret tt s').

Definition when {S} (b : bool) (m : M S unit) : M S unit := if b then m else ret tt.
(** Dereference: an absent object is a fault. *)
Definition deref {S A} (o : option A) : M S A :=
  match o with Some a => ret a | None => fault end.

(** Loops.  [for_list] is [for(x in l) body] with an early exit value;
    [while] is a loop bounded by [fuel]. *)
Fixpoint for_list {S A B} (l : list A) (body : A -> M S (option B)) : M S (option B) :=
  match l with
  | [] => ret None
  | x :: l' => r <- body x ;; match r with Some b => ret (Some b) | None => for_list l' body end
  end.

Fixpoint iter_list {S A} (l : list A) (body : A -> M S unit) : M S unit :=
  match l with [] => ret tt | x :: l' => body x ;; iter_list l' body end.

(* ------------------------------------------------------------------ *)
(** ** Reasoning about outcomes *)

(** [returns m s Q]: the run returns without switching, and [Q] holds. *)
Definition returns {S A} (m : M S A) (s : S) (Q : A -> S -> Prop) : Prop :=
  exists a s', m s = Ret a s' /\ Q a s'.

(** [safe G E P Q o]: no execution of [o] faults, deadlocks or runs out of
    fuel, every panic message is allowed by [P], every state handed to the scheduler satisfies [G], and,
    if each resumption state is related to the one handed over by [E], every
    returned result satisfies [Q]. *)
Fixpoint safe {S A} (G : S -> Prop) (E : S -> S -> Prop) (P : string -> Prop)
    (Q : A -> S -> Prop) (o : out S A) : Prop :=
  match o with
  | Ret a s => Q a s
  | Panic msg => P msg
  | Switch s k => G s /\ forall s', E s s' -> safe G E P Q (k s')
  | Spin _ | Fuel | Fault => False
  end.

(** [waits G E Q n x s0 o]: the run [o], begun or resumed in [s0] at stage [x] of its
    work, returns with [Q], or hands the processor over in a state [s] and goes on to
    a stage [x'] as [G] allows; resumed in any state that [E] relates to [s] it does
    so again, through [n] resumptions. *)
Fixpoint waits {S A X} (G : X -> S -> S -> X -> Prop) (E : S -> S -> Prop) (Q : X -> S -> A -> S -> Prop)
    (n : nat) (x : X) (s0 : S) (o : out S A) {struct o} : Prop :=
  match o with
  | Ret a s => Q x s0 a s
  | Switch s k => exists x', G x s0 s x' /\
      match n with O => True | Datatypes.S n' => forall t, E s t -> waits G E Q n' x' t (k t) end
  | _ => False
  end.

Lemma returns_bind {S A B} (m : M S A) (f : A -> M S B) s P Q :
  returns m s P -> (forall a s', P a s' -> returns (f a) s' Q) ->
  returns (bind m f) s Q.
Proof.
  intros (a & s' & Hm & HP) Hf. destruct (Hf a s' HP) as (b & s'' & Hb & HQ).
  exists b, s''. unfold bind. by rewrite Hm.
Qed.

Lemma returns_mono {S A} (m : M S A) s (P Q : A -> S -> Prop) :
  returns m s P -> (forall a s', P a s' -> Q a s') -> returns m s Q.
Proof. intros (a & s' & Hm & HP) HQ. exists a, s'. eauto. Qed.

Lemma safe_obind {S A B} G E P (Q : A -> S -> Prop) (R : B -> S -> Prop) (o : out S A) f :
  safe G E P Q o -> (forall a s, Q a s -> safe G E P R (f a s)) ->
  safe G E P R (obind o f).
Proof.
  induction o as [a s|msg|s k IH|s| |]; simpl; try done.
  - eauto.
  - intros [HG Hk] Hf. split; [done|]. intros s' HE. eauto.
Qed.

Lemma safe_mono {S A} G E P (Q R : A -> S -> Prop) (o : out S A) :
  safe G E P Q o -> (forall a s, Q a s -> R a s) -> safe G E P R o.
Proof.
  induction o as [a s|msg|s k IH|s| |]; simpl; try done.
  - eauto.
  - intros [HG Hk] HQR. split; [done|]. intros s' HE. eauto.
Qed.

(** A wait, and what is done after it. *)
Lemma waits_obind {S A B X} (G : X -> S -> S -> X -> Prop) E (Q : X -> S -> A -> S -> Prop) (R : X -> S -> B -> S -> Prop) o f :
  forall n x s0, waits G E Q n x s0 o ->
  (forall n' x' t a s, (n' <= n)%nat -> Q x' t a s -> waits G E R n' x' t (f a s)) -> waits G E R n x s0 (obind o f).
Proof.
  induction o as [a s|msg|s k IH|s| |]; simpl; try done.
  - intros n x s0 HQ Hf. by apply Hf.
  - intros n x s0 (x' & HG & Hk) Hf. exists x'. split; [done|]. destruct n as [|n]; [done|].
    intros t HE. apply IH; [by apply Hk|]. intros n' y u a s' Hn. apply Hf. lia.
Qed.

(** The continuation of a computation whose run is known. *)
Lemma bind_Ret {S A B} (m : M S A) (f : A -> M S B) s a s' :
  m s = Ret a s' -> bind m f s = f a s'.
Proof. unfold bind. by intros ->. Qed.
Lemma bind_Panic {S A B} (m : M S A) (f : A -> M S B) s msg :
  m s = Panic msg -> bind m f s = Panic msg.
Proof. unfold bind. by intros ->. Qed.
Lemma bind_Switch {S A B} (m : M S A) (f : A -> M S B) s s' k :
  m s = Switch s' k -> bind m f s = Switch s' (fun t => obind (k t) f).
Proof. unfold bind. by intros ->. Qed.
Lemma bind_Spin {S A B} (m : M S A) (f : A -> M S B) s s' : m s = Spin s' -> bind m f s = Spin s'.
Proof. unfold bind. by intros ->. Qed.
Lemma bind_Ret_inv {S A B} (m : M S A) (f : A -> M S B) s b s'' :
  bind m f s = Ret b s'' -> exists a s', m s = Ret a s' /\ f a s' = Ret b s''.
Proof. unfold bind. destruct (m s); simpl; try done. eauto. Qed.

Lemma list_last_cons {A} (l : list A) : forall a d, List.last (a :: l) d = List.last l a.
Proof. induction l as [|b l IH]; intros a d; [done|]. change (List.last (b :: l) d = List.last (b :: l) a). by rewrite !IH. Qed.

Lemma for_list_app {S A B} (l1 l2 : list A) (body : A -> M S (option B)) s :
  forall s', for_list l1 body s = Ret None s' ->
  for_list (l1 ++ l2) body s = for_list l2 body s'.
Proof.
  revert s. induction l1 as [|x l1 IH]; simpl; intros s s' H.
  - by inversion H.
  - apply bind_Ret_inv in H as (r & s1 & Hx & Hr). rewrite (bind_Ret _ _ _ _ _ Hx).
    destruct r; [done|]. by apply IH.
Qed.

(** A searching loop: the body acts only on the first element that passes the
    test. *)
Lemma for_list_find {S A B} (t : A -> bool) (l : list A) (body : A -> M S (option B)) s :
  (forall x, x ∈ l -> t x = false -> body x s = Ret None s) ->
  match List.find t l with
  | None => for_list l body s = Ret None s
  | Some x => forall b s', body x s = Ret (Some b) s' -> for_list l body s = Ret (Some b) s'
  end.
Proof.
  induction l as [|x l IH]; intros Hb; simpl; [done|]. destruct (t x) eqn:Ht.
  - intros b s' Hx. by rewrite (bind_Ret _ _ _ _ _ Hx).
  - rewrite (bind_Ret _ _ _ _ _ (Hb x ltac:(left) Ht)).
    assert (forall y, y ∈ l -> t y = false -> body y s = Ret None s) as Hb' by (intros; apply Hb; [by right|done]).
    specialize (IH Hb'). by destruct (List.find t l).
Qed.

(** The first index that passes a test. *)
Lemma find_seq (t : nat -> bool) n : forall a,
  match List.find t (seq a n) with
  | Some i => (a <= i < a + n)%nat /\ t i = true /\ forall j, (a <= j < i)%nat -> t j = false
  | None => forall j, (a <= j < a + n)%nat -> t j = false
  end.
Proof.
  induction n as [|n IH]; intros a; simpl; [intros j Hj; lia|]. destruct (t a) eqn:Ht.
  - split; [lia|]. split; [done|]. intros j Hj. lia.
  - specialize (IH (Datatypes.S a)). destruct (List.find t (seq (Datatypes.S a) n)) as [i|].
    + destruct IH as (H1 & H2 & H3). split; [lia|]. split; [done|]. intros j Hj.
      destruct (decide (j = a)) as [->|]; [done|]. apply H3. lia.
    + intros j Hj. destruct (decide (j = a)) as [->|]; [done|]. apply IH. lia.
Qed.

(** ** Frames

    [preserves f m]: every run of [m] that returns leaves the part [f] of the
    state as it was. *)
Definition preserves {S A B} (f : S -> B) (m : M S A) : Prop :=
  forall s a s', m s = Ret a s' -> f s' = f s.

Section Preserves.
Context {S B : Type} (f : S -> B).

Lemma preserves_ret {A} (a : A) : preserves f (ret a).
Proof. intros s b s' H. by inversion H. Qed.
Lemma preserves_bind {A C} (m : M S A) (k : A -> M S C) :
  preserves f m -> (forall a, preserves f (k a)) -> preserves f (bind m k).
Proof.
  intros Hm Hk s a s' H. apply bind_Ret_inv in H as (b & s1 & H1 & H2).
  rewrite (Hk _ _ _ _ H2). by apply (Hm _ _ _ H1).
Qed.
Lemma preserves_gets {A} (g : S -> A) : preserves f (gets g).
Proof. intros s a s' H. by inversion H. Qed.
Lemma preserves_modify (g : S -> S) : (forall s, f (g s) = f s) -> preserves f (modify g).
Proof. intros Hg s a s' H. inversion H. apply Hg. Qed.
Lemma preserves_panic {A} msg : preserves f (panic msg : M S A).
Proof. by intros s a s' H. Qed.
Lemma preserves_fault {A} : preserves f (fault : M S A).
Proof. by intros s a s' H. Qed.
Lemma preserves_spin {A} : preserves f (spin : M S A).
Proof. by intros s a s' H. Qed.
Lemma preserves_nofuel {A} : preserves f (nofuel : M S A).
Proof. by intros s a s' H. Qed.
Lemma preserves_switch : preserves f (switch : M S unit).
Proof. by intros s a s' H. Qed.
Lemma preserves_when b (m : M S unit) : preserves f m -> preserves f (when b m).
Proof. destruct b; [done|]. intros _. apply preserves_ret. Qed.
Lemma preserves_deref {A} (o : option A) : preserves f (deref o : M S A).
Proof. destruct o; [apply preserves_ret | apply preserves_fault]. Qed.
Lemma preserves_iter_list {A} (l : list A) (body : A -> M S unit) :
  (forall x, preserves f (body x)) -> preserves f (iter_list l body).
Proof.
  intros Hb. induction l as [|x l IH]; simpl; [apply preserves_ret|]. by apply preserves_bind.
Qed.
Lemma preserves_for_list {A C} (l : list A) (body : A -> M S (option C)) :
  (forall x, preserves f (body x)) -> preserves f (for_list l body).
Proof.
  intros Hb. induction l as [|x l IH]; simpl; [apply preserves_ret|].
  apply preserves_bind; [done|]. intros [c|]; [apply preserves_ret | done].
Qed.
End Preserves.

(* ------------------------------------------------------------------ *)
(** ** Arithmetic shared by the components *)

Lemma u32_small z : 0 <= z < 2 ^ 32 -> u32 z = z.
Proof. apply Z.mod_small. Qed.
Lemma u32_range z : 0 <= u32 z < 2 ^ 32.
Proof. apply Z.mod_pos_bound. lia. Qed.
Lemma s32_small z : - 2 ^ 31 <= z < 2 ^ 31 -> s32 z = z.
Proof.
  intros H. unfold s32. destruct (decide (0 <= z)).
  - rewrite Z.mod_small by lia. destruct (Z.ltb_spec z (2 ^ 31)); lia.
  - assert (z mod 2 ^ 32 = z + 2 ^ 32) as ->.
    { symmetry. apply Z.mod_unique with (-1); lia. }
    destruct (Z.ltb_spec (z + 2 ^ 32) (2 ^ 31)); lia.
Qed.
Lemma s16_small z : - 2 ^ 15 <= z < 2 ^ 15 -> s16 (z mod 2 ^ 16) = z.
Proof.
  intros H. unfold s16. rewrite Z.mod_mod by lia. destruct (Z.ltb_spec (z mod 2 ^ 16) (2 ^ 15)).
  - destruct (decide (0 <= z)); [by rewrite Z.mod_small by lia|]. assert (z mod 2 ^ 16 = z + 2 ^ 16) by
      (symmetry; apply Z.mod_unique with (-1); lia). lia.
  - destruct (decide (0 <= z)); [rewrite Z.mod_small in * by lia; lia|].
    assert (z mod 2 ^ 16 = z + 2 ^ 16) as -> by (symmetry; apply Z.mod_unique with (-1); lia). lia.
Qed.
Lemma u8_small z : 0 <= z < 256 -> u8 z = z.
Proof. apply Z.mod_small. Qed.
Lemma u8_range z : 0 <= u8 z < 256.
Proof. apply Z.mod_pos_bound. lia. Qed.
Lemma truth_true z : truth z = true <-> z <> 0.
Proof. unfold truth. rewrite negb_true_iff, Z.eqb_neq. done. Qed.
Lemma truth_false z : truth z = false <-> z = 0.
Proof. unfold truth. rewrite negb_false_iff, Z.eqb_eq. done. Qed.

(** A mask with one bit tests that bit. *)
Lemma mask_bit x k : 0 <= k -> (Z.land x (Z.shiftl 1 k) =? 0) = negb (Z.testbit x k).
Proof.
  intros Hk. rewrite Z.shiftl_1_l. destruct (Z.testbit x k) eqn:E; simpl.
  - apply Z.eqb_neq. intros H0. assert (Z.testbit (Z.land x (2 ^ k)) k = true) as Ht
      by (rewrite Z.land_spec, E, Z.pow2_bits_true by done; done). by rewrite H0, Z.bits_0 in Ht.
  - apply Z.eqb_eq, Z.bits_inj'. intros n Hn. rewrite Z.land_spec, Z.bits_0, Z.pow2_bits_eqb by done.
    destruct (Z.eqb_spec k n) as [<-|]; [by rewrite E|apply andb_false_r].
Qed.

Lemma has_bit x k : 0 <= k -> has_bits x (Z.shiftl 1 k) = Z.testbit x k.
Proof. intros Hk. unfold has_bits. by rewrite mask_bit, negb_involutive. Qed.

Create HintDb kernel.
#[export] Hint Resolve u32_range u8_range : kernel.

Create HintDb frame.
#[export] Hint Resolve preserves_ret preserves_gets preserves_panic preserves_fault preserves_spin
  preserves_nofuel preserves_switch preserves_deref : frame.
(** Prove a frame: follow the structure of the code, use the known frames of
    the operations it calls. *)
Ltac frame :=
  repeat first
    [ solve [eauto with frame]
    | progress intros
    | apply preserves_bind
    | apply preserves_when
    | apply preserves_iter_list
    | apply preserves_for_list
    | apply preserves_modify; solve [intros; reflexivity]
    | match goal with |- preserves _ (if ?b then _ else _) => destruct b end
    | match goal with |- preserves _ (match ?x with _ => _ end) => destruct x end ].

(** Case analysis on a boolean integer comparison in the goal. *)
Ltac case_Z :=
  match goal with
  | |- context [Z.eqb ?a ?b] => destruct (Z.eqb_spec a b)
  | |- context [Z.ltb ?a ?b] => destruct (Z.ltb_spec a b)
  | |- context [Z.leb ?a ?b] => destruct (Z.leb_spec a b)
  end.
(** Linear arithmetic with division and remainder by constants. *)
Ltac dlia := Z.div_mod_to_equations; lia.
(** Split a run of a sequence that returned. *)
Ltac inv_ret H :=
  let a := fresh "a" in let s := fresh "s" in let H1 := fresh "Hrun" in
  apply bind_Ret_inv in H as (a & s & H1 & H).
