(* ===== verification/Mmu.v ===== *)
(** * Machine constants and the x86 memory-management macros

    [param.h], [memlayout.h], [mmu.h], [fs.h], [stat.h], [fcntl.h]: the
    constants of the kernel, the page-address macros, and the segment and
    gate descriptors of [mmu.h] as records of their bit fields. *)

From S2P Require Import Prelude.

(** [param.h] *)
Definition NPROC : Z := 64.
Definition KSTACKSIZE : Z := 4096.
Definition NCPU : Z := 8.
Definition NOFILE : Z := 16.
Definition NFILE : Z := 100.
Definition NINODE : Z := 50.
Definition NDEV : Z := 10.
Definition ROOTDEV : Z := 1.
Definition MAXARG : Z := 32.
Definition MAXOPBLOCKS : Z := 10.
Definition LOGSIZE : Z := MAXOPBLOCKS * 3.
Definition NBUF : Z := MAXOPBLOCKS * 3.
Definition FSSIZE : Z := 1000.

(** [memlayout.h] *)
Definition EXTMEM : Z := 0x100000.
Definition PHYSTOP : Z := 0xE000000.
Definition DEVSPACE : Z := 0xFE000000.
Definition KERNBASE : Z := 0x80000000.
Definition KERNLINK : Z := KERNBASE + EXTMEM.
Definition V2P (a : Z) : Z := u32 (u32 a - KERNBASE).
Definition P2V (a : Z) : Z := u32 (a + KERNBASE).

(** [mmu.h]: flags *)
Definition FL_IF : Z := 0x200.
Definition SEG_KCODE : Z := 1.
Definition SEG_KDATA : Z := 2.
Definition SEG_UCODE : Z := 3.
Definition SEG_UDATA : Z := 4.
Definition SEG_TSS : Z := 5.
Definition NSEGS : Z := 6.
Definition DPL_USER : Z := 3.
Definition STA_X : Z := 0x8.
Definition STA_W : Z := 0x2.
Definition STA_R : Z := 0x2.
Definition STS_T32A : Z := 0x9.
Definition STS_IG32 : Z := 0xE.
Definition STS_TG32 : Z := 0xF.

Definition NPDENTRIES : Z := 1024.
Definition NPTENTRIES : Z := 1024.
Definition PGSIZE : Z := 4096.
Definition PTXSHIFT : Z := 12.
Definition PDXSHIFT : Z := 22.
Definition PTE_P : Z := 0x001.
Definition PTE_W : Z := 0x002.
Definition PTE_U : Z := 0x004.
Definition PTE_PS : Z := 0x080.

(** [mmu.h]: address macros, on [uint] *)
Definition PDX (va : Z) : Z := Z.land (Z.shiftr (u32 va) PDXSHIFT) 0x3FF.
Definition PTX (va : Z) : Z := Z.land (Z.shiftr (u32 va) PTXSHIFT) 0x3FF.
Definition PGADDR (d t o : Z) : Z :=
  u32 (Z.lor (Z.lor (u32 (Z.shiftl d PDXSHIFT)) (u32 (Z.shiftl t PTXSHIFT))) o).
Definition PGROUNDUP (sz : Z) : Z := Z.land (u32 (sz + PGSIZE - 1)) (u32 (Z.lnot (PGSIZE - 1))).
Definition PGROUNDDOWN (a : Z) : Z := Z.land (u32 a) (u32 (Z.lnot (PGSIZE - 1))).
Definition PTE_ADDR (pte : Z) : Z := Z.land (u32 pte) (u32 (Z.lnot 0xFFF)).
Definition PTE_FLAGS (pte : Z) : Z := Z.land (u32 pte) 0xFFF.

(** [mmu.h]: segment descriptors, one field per bit field of the source. *)
Record segdesc := mk_segdesc {
  sd_lim_15_0 : Z; sd_base_15_0 : Z; sd_base_23_16 : Z; sd_type : Z; sd_s : Z; sd_dpl : Z;
  sd_p : Z; sd_lim_19_16 : Z; sd_avl : Z; sd_rsv1 : Z; sd_db : Z; sd_g : Z; sd_base_31_24 : Z }.

(** Assignment to a bit field of width [w] truncates. *)
Definition bf (w z : Z) : Z := z mod 2 ^ w.

Definition SEG (type base lim dpl : Z) : segdesc :=
  mk_segdesc (bf 16 (Z.land (Z.shiftr lim 12) 0xffff)) (bf 16 (Z.land (u32 base) 0xffff))
    (bf 8 (Z.land (Z.shiftr (u32 base) 16) 0xff)) (bf 4 type) 1 (bf 2 dpl) 1
    (bf 4 (Z.shiftr (u32 lim) 28)) 0 0 1 1 (bf 8 (Z.shiftr (u32 base) 24)).
Definition SEG16 (type base lim dpl : Z) : segdesc :=
  mk_segdesc (bf 16 (Z.land lim 0xffff)) (bf 16 (Z.land (u32 base) 0xffff))
    (bf 8 (Z.land (Z.shiftr (u32 base) 16) 0xff)) (bf 4 type) 1 (bf 2 dpl) 1
    (bf 4 (Z.shiftr (u32 lim) 16)) 0 0 1 0 (bf 8 (Z.shiftr (u32 base) 24)).

(** The base address and the byte limit the processor computes from a descriptor. *)
Definition seg_base (d : segdesc) : Z :=
  sd_base_31_24 d * 2 ^ 24 + sd_base_23_16 d * 2 ^ 16 + sd_base_15_0 d.
Definition seg_limit (d : segdesc) : Z :=
  let l := sd_lim_19_16 d * 2 ^ 16 + sd_lim_15_0 d in
  if sd_g d =? 1 then l * 2 ^ 12 + 0xfff else l.

(** [mmu.h]: gate descriptors. *)
Record gatedesc := mk_gatedesc {
  gd_off_15_0 : Z; gd_cs : Z; gd_args : Z; gd_rsv1 : Z; gd_type : Z; gd_s : Z; gd_dpl : Z;
  gd_p : Z; gd_off_31_16 : Z }.
Definition SETGATE (istrap : bool) (sel off d : Z) : gatedesc :=
  mk_gatedesc (bf 16 (Z.land (u32 off) 0xffff)) (bf 16 sel) 0 0
    (if istrap then STS_TG32 else STS_IG32) 0 (bf 2 d) 1 (bf 16 (Z.shiftr (u32 off) 16)).
Definition gate_off (g : gatedesc) : Z := gd_off_31_16 g * 2 ^ 16 + gd_off_15_0 g.

(** [fs.h] *)
Definition ROOTINO : Z := 1.
Definition BSIZE : Z := 512.
Definition NDIRECT : Z := 12.
Definition NINDIRECT : Z := BSIZE / 4.
Definition MAXFILE : Z := NDIRECT + NINDIRECT.
Definition BPB : Z := BSIZE * 8.
Definition DIRSIZ : Z := 14.
(** [sizeof(struct dinode)] and [sizeof(struct dirent)] *)
Definition sizeof_dinode : Z := 64.
Definition sizeof_dirent : Z := 16.
Definition IPB : Z := BSIZE / sizeof_dinode.

(** [stat.h], [fcntl.h] *)
Definition T_DIR : Z := 1.
Definition T_FILE : Z := 2.
Definition T_DEV : Z := 3.
Definition O_RDONLY : Z := 0x000.
Definition O_WRONLY : Z := 0x001.
Definition O_RDWR : Z := 0x002.
Definition O_CREATE : Z := 0x200.

(* ------------------------------------------------------------------ *)
(** ** Bit-level lemmas *)

Lemma land_ones_mod z w : 0 <= w -> Z.land z (2 ^ w - 1) = z mod 2 ^ w.
Proof. intros Hw. rewrite <- Z.land_ones by lia. by rewrite Z.ones_equiv, Z.sub_1_r. Qed.

Lemma shiftr_div z w : 0 <= w -> Z.shiftr z w = z / 2 ^ w.
Proof. apply Z.shiftr_div_pow2. Qed.

(** Clearing the low twelve bits of a [uint]. *)
Lemma land_page_mask z : Z.land (u32 z) (u32 (Z.lnot (PGSIZE - 1))) = u32 z / PGSIZE * PGSIZE.
Proof.
  change (u32 (Z.lnot (PGSIZE - 1))) with (Z.shiftl (2 ^ 20 - 1) 12).
  pose proof (u32_range z) as Hr. set (x := u32 z) in *.
  transitivity (Z.shiftl (Z.shiftr x 12) 12).
  - apply Z.bits_inj'. intros n Hn. rewrite Z.land_spec, !Z.shiftl_spec by lia.
    destruct (decide (n < 12)).
    + rewrite !(Z.testbit_neg_r _ (n - 12)) by lia. apply andb_false_r.
    + rewrite Z.shiftr_spec by lia. replace (n - 12 + 12) with n by lia.
      change (2 ^ 20 - 1) with (Z.ones 20). destruct (decide (n < 32)).
      * rewrite Z.ones_spec_low by lia. apply andb_true_r.
      * rewrite (Z.bits_above_log2 x n); [done|lia|].
        destruct (decide (x = 0)) as [->|]; [simpl; lia|].
        apply Z.log2_lt_pow2; [lia|]. apply Z.lt_le_trans with (2 ^ 32); [lia|].
        apply Z.pow_le_mono_r; lia.
  - rewrite Z.shiftl_mul_pow2, Z.shiftr_div_pow2 by lia. done.
Qed.

Lemma PGROUNDDOWN_eq a : 0 <= a < 2 ^ 32 -> PGROUNDDOWN a = a / PGSIZE * PGSIZE.
Proof. intros H. unfold PGROUNDDOWN. rewrite land_page_mask. by rewrite u32_small. Qed.

Lemma PGROUNDUP_eq sz : PGROUNDUP sz = u32 (sz + PGSIZE - 1) / PGSIZE * PGSIZE.
Proof. unfold PGROUNDUP. apply land_page_mask. Qed.

Lemma PTE_ADDR_eq a : 0 <= a < 2 ^ 32 -> PTE_ADDR a = a / PGSIZE * PGSIZE.
Proof. intros H. unfold PTE_ADDR. change 0xFFF with (PGSIZE - 1). rewrite land_page_mask. by rewrite u32_small. Qed.

Lemma PTE_FLAGS_eq a : 0 <= a < 2 ^ 32 -> PTE_FLAGS a = a mod PGSIZE.
Proof.
  intros H. unfold PTE_FLAGS. rewrite u32_small by done.
  change 0xFFF with (2 ^ 12 - 1). by rewrite land_ones_mod by lia.
Qed.

Lemma PDX_eq va : 0 <= va < 2 ^ 32 -> PDX va = va / 2 ^ 22.
Proof.
  intros H. unfold PDX, PDXSHIFT. rewrite u32_small by done.
  change 0x3FF with (2 ^ 10 - 1). rewrite land_ones_mod, shiftr_div by lia.
  apply Z.mod_small. split; [apply Z.div_pos; lia|]. apply Z.div_lt_upper_bound; lia.
Qed.

Lemma PTX_eq va : 0 <= va < 2 ^ 32 -> PTX va = va / 2 ^ 12 mod 1024.
Proof.
  intros H. unfold PTX, PTXSHIFT. rewrite u32_small by done.
  change 0x3FF with (2 ^ 10 - 1). by rewrite land_ones_mod, shiftr_div by lia.
Qed.

Lemma lor_disjoint_add a b w : 0 <= w -> 0 <= b < 2 ^ w -> Z.lor (Z.shiftl a w) b = a * 2 ^ w + b.
Proof.
  intros Hw Hb. destruct (decide (b = 0)) as [->|Hb0].
  { rewrite Z.lor_0_r, Z.shiftl_mul_pow2; lia. }
  rewrite <- Z.add_lor_land, <- Z.shiftl_mul_pow2 by lia.
  assert (Z.land (Z.shiftl a w) b = 0) as ->; [|lia].
  apply Z.bits_inj'. intros n Hn. rewrite Z.land_spec, Z.bits_0.
  destruct (decide (n < w)).
  - by rewrite Z.shiftl_spec_low.
  - rewrite (Z.bits_above_log2 b n), ?andb_false_r; [done|lia|].
    apply Z.log2_lt_pow2; [lia|]. apply Z.lt_le_trans with (2 ^ w); [lia|].
    apply Z.pow_le_mono_r; lia.
Qed.

Lemma PGADDR_eq d t o :
  0 <= d < 1024 -> 0 <= t < 1024 -> 0 <= o < PGSIZE ->
  PGADDR d t o = d * 2 ^ 22 + t * 2 ^ 12 + o.
Proof.
  intros Hd Ht Ho. unfold PGADDR, PDXSHIFT, PTXSHIFT, PGSIZE in *.
  rewrite (u32_small (Z.shiftl d 22)) by (rewrite Z.shiftl_mul_pow2; lia).
  rewrite (u32_small (Z.shiftl t 12)) by (rewrite Z.shiftl_mul_pow2; lia).
  rewrite <- Z.lor_assoc, (lor_disjoint_add t o 12) by lia.
  rewrite (lor_disjoint_add d _ 22) by lia. rewrite u32_small; lia.
Qed.


(** the three fields of a linear address and [PGADDR] are inverse to each
    other: taking an address apart and putting it together is the identity, and
    an address built from in-range indices yields exactly these indices. *)
Theorem PGADDR_roundtrip :
  (forall va, 0 <= va < 2 ^ 32 -> PGADDR (PDX va) (PTX va) (PTE_FLAGS va) = va) /\
  (forall d t o, 0 <= d < 1024 -> 0 <= t < 1024 -> 0 <= o < PGSIZE ->
     PDX (PGADDR d t o) = d /\ PTX (PGADDR d t o) = t /\ PTE_FLAGS (PGADDR d t o) = o).
Proof.
  unfold PGSIZE. split.
  - intros va H. rewrite PTE_FLAGS_eq, PDX_eq, PTX_eq by lia. unfold PGSIZE.
    rewrite PGADDR_eq; unfold PGSIZE; dlia.
  - intros d t o Hd Ht Ho. rewrite PGADDR_eq by done.
    rewrite PTE_FLAGS_eq, PDX_eq, PTX_eq by lia. unfold PGSIZE. dlia.
Qed.

(** as long as the sum does not wrap, [PGROUNDUP(sz)] is the least multiple
    of the page size that is not below [sz]; in the last page of the address
    space it wraps to 0. *)
Theorem PGROUNDUP_least sz :
  (0 <= sz <= 2 ^ 32 - PGSIZE ->
     PGROUNDUP sz mod PGSIZE = 0 /\ sz <= PGROUNDUP sz /\
     forall k, sz <= k * PGSIZE -> PGROUNDUP sz <= k * PGSIZE) /\
  (2 ^ 32 - PGSIZE < sz < 2 ^ 32 -> PGROUNDUP sz = 0).
Proof.
  rewrite PGROUNDUP_eq. unfold PGSIZE. split.
  - intros H. rewrite u32_small by lia. repeat split; [|dlia|intros k Hk; dlia].
    apply Z.mod_mul. lia.
  - intros H. unfold u32. dlia.
Qed.

(** a gate descriptor stores the whole handler address: the offset the
    processor reassembles from the two halves is the one given to [SETGATE],
    and only the user-callable gate gets the requested privilege level. *)
Theorem SETGATE_offset istrap sel off d :
  gate_off (SETGATE istrap sel off d) = u32 off /\
  (0 <= d < 4 -> gd_dpl (SETGATE istrap sel off d) = d) /\
  gd_type (SETGATE istrap sel off d) = (if istrap then STS_TG32 else STS_IG32).
Proof.
  pose proof (u32_range off). unfold gate_off, SETGATE; simpl. unfold bf.
  change 0xffff with (2 ^ 16 - 1). rewrite land_ones_mod, shiftr_div by lia.
  repeat split; [|intros; apply Z.mod_small; lia]. dlia.
Qed.
