(* ===== verification/Bytes.v ===== *)
(** * Structures in byte blocks

    Reading and writing little-endian fields and slices of a byte list, as C
    code does through pointers into [b->data]; the on-disk structures of
    [fs.h] and [log.c]. *)

From S2P Require Import Prelude Mmu.

Definition slice (off n : Z) (l : list Z) : list Z := take (Z.to_nat n) (drop (Z.to_nat off) l).
(** [memmove(l + off, bs, length bs)]. *)
Definition put (off : Z) (bs l : list Z) : list Z :=
  take (Z.to_nat off) l ++ bs ++ drop (Z.to_nat off + length bs) l.

Fixpoint le_value (l : list Z) : Z := match l with [] => 0 | b :: l' => b + 256 * le_value l' end.
Fixpoint le_bytes (n : nat) (v : Z) : list Z :=
  match n with O => [] | S n' => v mod 256 :: le_bytes n' (v / 256) end.

Definition get16 (off : Z) (l : list Z) : Z := le_value (slice off 2 l).
Definition get32 (off : Z) (l : list Z) : Z := le_value (slice off 4 l).
Definition put16 (off v : Z) (l : list Z) : list Z := put off (le_bytes 2 v) l.
Definition put32 (off v : Z) (l : list Z) : list Z := put off (le_bytes 4 v) l.

(** ** Lemmas *)

Lemma length_le_bytes n v : length (le_bytes n v) = n.
Proof. revert v. induction n as [|n IH]; intros v; simpl; [done|]. by rewrite IH. Qed.

Lemma le_value_bytes n : forall v, le_value (le_bytes n v) = v mod 256 ^ Z.of_nat n.
Proof.
  induction n as [|n IH]; intros v; simpl le_value; [by rewrite Z.mod_1_r|].
  rewrite IH. replace (256 ^ Z.of_nat (S n)) with (256 * 256 ^ Z.of_nat n)
    by (rewrite Nat2Z.inj_succ, Z.pow_succ_r by lia; done).
  rewrite Z.rem_mul_r by lia. done.
Qed.

Lemma le_bytes_value l : Forall (fun b => 0 <= b < 256) l -> le_bytes (length l) (le_value l) = l.
Proof.
  induction 1 as [|b l Hb Hl IH]; [done|]. cbn [length le_bytes le_value].
  assert ((b + 256 * le_value l) / 256 = le_value l) as -> by dlia.
  rewrite IH. f_equal. dlia.
Qed.

Lemma le_bytes_range n v : Forall (fun b => 0 <= b < 256) (le_bytes n v).
Proof.
  revert v. induction n as [|n IH]; intros v; simpl; constructor; [|done]. apply Z.mod_pos_bound. lia.
Qed.

Lemma length_put off bs l :
  0 <= off -> (Z.to_nat off + length bs <= length l)%nat -> length (put off bs l) = length l.
Proof. intros H0 H. unfold put. rewrite !length_app, length_take, length_drop. lia. Qed.

Lemma slice_put_same off bs l :
  0 <= off -> (Z.to_nat off <= length l)%nat -> slice off (Z.of_nat (length bs)) (put off bs l) = bs.
Proof.
  intros H0 H. unfold slice, put. rewrite Nat2Z.id.
  rewrite drop_app_length' by (rewrite length_take; lia). by rewrite take_app_length.
Qed.

(** A slice left of or right of a store is unchanged. *)
Lemma slice_put_other off off' n bs l :
  0 <= off -> 0 <= off' -> 0 <= n -> (Z.to_nat off + length bs <= length l)%nat ->
  off' + n <= off \/ off + Z.of_nat (length bs) <= off' ->
  slice off' n (put off bs l) = slice off' n l.
Proof.
  intros H0 H1 H2 Hl Hor. unfold slice. apply list_eq. intros k.
  destruct (decide (k < Z.to_nat n)%nat) as [Hk|]; [|by rewrite !lookup_take_ge by lia].
  rewrite !lookup_take_lt, !lookup_drop by lia. unfold put.
  destruct Hor.
  - rewrite lookup_app_l by (rewrite length_take; lia). rewrite lookup_take_lt by lia. done.
  - rewrite lookup_app_r by (rewrite length_take; lia). rewrite length_take, Nat.min_l by lia.
    rewrite lookup_app_r by lia. rewrite lookup_drop. f_equal. lia.
Qed.

Lemma get32_put32_same off v l :
  0 <= off -> (Z.to_nat off <= length l)%nat -> get32 off (put32 off v l) = u32 v.
Proof.
  intros H0 H. unfold get32, put32. replace 4 with (Z.of_nat (length (le_bytes 4 v))) at 1 by (by rewrite length_le_bytes).
  rewrite slice_put_same by done. rewrite le_value_bytes. done.
Qed.
Lemma get32_put32_other off off' v l :
  0 <= off -> 0 <= off' -> (Z.to_nat off + 4 <= length l)%nat -> off' + 4 <= off \/ off + 4 <= off' ->
  get32 off' (put32 off v l) = get32 off' l.
Proof.
  intros. unfold get32, put32. rewrite slice_put_other; rewrite ?length_le_bytes; try done; lia.
Qed.

(** Two adjacent stores are one. *)
Lemma put_put off a b l :
  0 <= off -> (Z.to_nat off + length a + length b <= length l)%nat ->
  put (off + Z.of_nat (length a)) b (put off a l) = put off (a ++ b) l.
Proof.
  intros H0 Hl. unfold put. replace (Z.to_nat (off + Z.of_nat (length a))) with (Z.to_nat off + length a)%nat by lia.
  assert (length (take (Z.to_nat off) l) = Z.to_nat off) as Et by (rewrite length_take; lia).
  rewrite (take_app_ge (take _ l)) by lia. rewrite Et, Nat.add_comm, Nat.add_sub, take_app_length.
  rewrite drop_app_ge by lia. rewrite Et. rewrite drop_app_ge by lia. rewrite drop_drop, length_app.
  rewrite <- !app_assoc. do 4 f_equal. lia.
Qed.
Lemma put_adj off k a b l :
  0 <= off -> k = Z.of_nat (length a) -> (Z.to_nat off + length a + length b <= length l)%nat ->
  put (off + k) b (put off a l) = put off (a ++ b) l.
Proof. intros H0 -> Hl. by apply put_put. Qed.
(** A slice inside a store. *)
Lemma slice_put_in off k n a l :
  0 <= off -> 0 <= k -> 0 <= n -> (Z.to_nat off <= length l)%nat -> k + n <= Z.of_nat (length a) ->
  slice (off + k) n (put off a l) = slice k n a.
Proof.
  intros H0 Hk Hn Hl Ha. unfold slice, put. rewrite Z2Nat.inj_add, <- drop_drop by done.
  rewrite drop_app_length' by (rewrite length_take; lia). rewrite drop_app_le by lia.
  by rewrite take_app_le by (rewrite length_drop; lia).
Qed.
Lemma slice_app k n a b :
  0 <= k -> slice (Z.of_nat (length a) + k) n (a ++ b) = slice k n b.
Proof.
  intros Hk. unfold slice. rewrite Z2Nat.inj_add, Nat2Z.id by lia. by rewrite <- drop_drop, drop_app_length.
Qed.

(** Arrays of 32-bit words. *)
Definition words (l : list Z) : list Z := l ≫= le_bytes 4.
Lemma words_length l : length (words l) = (4 * length l)%nat.
Proof. induction l as [|x l IH]; [done|]. unfold words in *. cbn [mbind list_bind]. rewrite length_app, IH, length_le_bytes. simpl. lia. Qed.
Lemma get32_words l : forall k v, l !! k = Some v -> get32 (4 * Z.of_nat k) (words l) = u32 v.
Proof.
  induction l as [|x l IH]; intros k v Hk; [done|]. unfold words in *. cbn [mbind list_bind]. destruct k as [|k].
  - inversion Hk; subst. unfold get32. change (4 * Z.of_nat 0) with 0. unfold slice. rewrite drop_0.
    change (Z.to_nat 4) with (length (le_bytes 4 v)). rewrite take_app_length, le_value_bytes. done.
  - rewrite <- (IH k v Hk). unfold get32. replace (4 * Z.of_nat (S k)) with (Z.of_nat (length (le_bytes 4 x)) + 4 * Z.of_nat k)
      by (rewrite length_le_bytes; lia). rewrite slice_app by lia. done.
Qed.

(* ------------------------------------------------------------------ *)
(** ** Ring buffers

    An array of [size] bytes used modulo its size, as the pipe and the console
    input do: position [i] of the stream is slot [i mod size]. *)
Section Ring.
Context (size : Z) (Hsize : 0 < size).

Definition ring_at (d : list Z) (i : Z) : Z := nth (Z.to_nat (i mod size)) d 0.
(** The [n] bytes of the stream from position [a]. *)
Definition ring (d : list Z) (a : Z) (n : nat) : list Z := (fun k => ring_at d (a + Z.of_nat k)) <$> seq 0 n.

Lemma ring_length d a n : length (ring d a n) = n.
Proof. unfold ring. by rewrite length_fmap, length_seq. Qed.
Lemma ring_at_congr d a b : a mod size = b mod size -> ring_at d a = ring_at d b.
Proof. unfold ring_at. by intros ->. Qed.
Lemma ring_congr d a b n : a mod size = b mod size -> ring d a n = ring d b n.
Proof.
  intros E. apply list_fmap_ext. intros k y _. apply ring_at_congr.
  rewrite <- (Zplus_mod_idemp_l a), E. by rewrite Zplus_mod_idemp_l.
Qed.
Lemma ring_app d a n m : ring d a (n + m) = ring d a n ++ ring d (a + Z.of_nat n) m.
Proof.
  unfold ring. rewrite seq_app, fmap_app. f_equal. rewrite (Nat.add_comm 0 n), <- fmap_add_seq, <- list_fmap_compose.
  apply list_fmap_ext. intros k y _. simpl. f_equal. lia.
Qed.
Lemma ring_S d a n : ring d a (S n) = ring_at d a :: ring d (a + 1) n.
Proof. change (S n) with (1 + n)%nat. rewrite ring_app. unfold ring at 1. simpl. by rewrite Z.add_0_r. Qed.
Lemma ring_snoc d a n : ring d a (S n) = ring d a n ++ [ring_at d (a + Z.of_nat n)].
Proof. unfold ring. by rewrite seq_S, fmap_app. Qed.

(** Storing the byte at position [i]. *)
Lemma ring_store_same d i v : length d = Z.to_nat size -> ring_at (<[Z.to_nat (i mod size) := v]> d) i = v.
Proof.
  intros Hd. unfold ring_at. pose proof (Z.mod_pos_bound i size Hsize).
  by rewrite nth_lookup, list_lookup_insert_eq by lia.
Qed.
Lemma ring_store_out d a n i v :
  a + Z.of_nat n <= i < a + size -> ring (<[Z.to_nat (i mod size) := v]> d) a n = ring d a n.
Proof.
  intros Hi. apply list_fmap_ext. intros k y Hk. apply lookup_seq in Hk as [-> Hk]. unfold ring_at.
  rewrite !nth_lookup. f_equal. apply list_lookup_insert_ne. intros E.
  apply Z2Nat.inj in E; [|apply Z.mod_pos_bound; lia..].
  pose proof (Z.div_mod i size ltac:(lia)). pose proof (Z.div_mod (a + Z.of_nat (0 + k)) size ltac:(lia)).
  assert (i / size = (a + Z.of_nat (0 + k)) / size \/ i / size < (a + Z.of_nat (0 + k)) / size \/
    (a + Z.of_nat (0 + k)) / size < i / size) as [|[|]] by lia; nia.
Qed.
Lemma ring_store d a n i v :
  length d = Z.to_nat size -> Z.of_nat n < size -> i mod size = (a + Z.of_nat n) mod size ->
  ring (<[Z.to_nat (i mod size) := v]> d) a (S n) = ring d a n ++ [v].
Proof.
  intros Hd Hn ->. rewrite ring_snoc, ring_store_same by done. f_equal. apply ring_store_out. lia.
Qed.
End Ring.

