(* ===== verification/Mem.v ===== *)
(** * Byte memory and [string.c]

    Kernel memory is a total map from addresses to bytes.  [string.c] is
    translated on top of it: [memset] with its word-wise fast path, [memmove]
    with its two copy directions, and the string routines with their loops. *)

From S2P Require Import Prelude Mmu.

Definition mem : Type := Z -> Z.

(** Every cell holds a byte. *)
Definition mem_ok (m : mem) : Prop := forall a, 0 <= m a < 256.

Definition st8 (m : mem) (a v : Z) : mem := fun x => if x =? a then u8 v else m x.
Definition ld32 (m : mem) (a : Z) : Z :=
  m a + m (a + 1) * 2 ^ 8 + m (a + 2) * 2 ^ 16 + m (a + 3) * 2 ^ 24.
(** Byte [i] of the little-endian representation of a word. *)
Definition byte_of (w i : Z) : Z := u8 (Z.shiftr (u32 w) (8 * i)).
Definition st32 (m : mem) (a v : Z) : mem :=
  fun x => if (a <=? x) && (x <? a + 4) then byte_of v (x - a) else m x.

(** [x86.h]: the string instructions. *)
Definition stosb (m : mem) (addr data cnt : Z) : mem :=
  fun x => if (addr <=? x) && (x <? addr + cnt) then u8 data else m x.
Definition stosl (m : mem) (addr data cnt : Z) : mem :=
  fun x => if (addr <=? x) && (x <? addr + 4 * cnt) then byte_of data ((x - addr) mod 4) else m x.

(** [string.c] *)
Definition memset (m : mem) (dst c n : Z) : mem :=
  if (dst mod 4 =? 0) && (n mod 4 =? 0) then
    let c := Z.land c 0xFF in
    stosl m dst (Z.lor (Z.lor (Z.lor (Z.shiftl c 24) (Z.shiftl c 16)) (Z.shiftl c 8)) c) (n / 4)
  else stosb m dst c n.

Fixpoint memcmp_loop (m : mem) (s1 s2 : Z) (n : nat) : Z :=
  match n with
  | O => 0
  | S n' => if m s1 =? m s2 then memcmp_loop m (s1 + 1) (s2 + 1) n' else m s1 - m s2
  end.
Definition memcmp (m : mem) (v1 v2 n : Z) : Z := memcmp_loop m v1 v2 (Z.to_nat n).

(** [*--d = *--s], counting down. *)
Fixpoint copy_down (m : mem) (d s : Z) (n : nat) : mem :=
  match n with
  | O => m
  | S n' => copy_down (st8 m (d - 1) (m (s - 1))) (d - 1) (s - 1) n'
  end.
(** [*d++ = *s++]. *)
Fixpoint copy_up (m : mem) (d s : Z) (n : nat) : mem :=
  match n with
  | O => m
  | S n' => copy_up (st8 m d (m s)) (d + 1) (s + 1) n'
  end.
Definition memmove (m : mem) (dst src n : Z) : mem :=
  if (src <? dst) && (dst <? src + n) then copy_down m (dst + n) (src + n) (Z.to_nat n)
  else copy_up m dst src (Z.to_nat n).
Definition memcpy (m : mem) (dst src n : Z) : mem := memmove m dst src n.

Fixpoint strncmp_loop (m : mem) (p q : Z) (n : nat) : Z :=
  match n with
  | O => 0
  | S n' => if truth (m p) && (m p =? m q) then strncmp_loop m (p + 1) (q + 1) n' else m p - m q
  end.
Definition strncmp (m : mem) (p q n : Z) : Z := strncmp_loop m p q (Z.to_nat n).

Fixpoint zero_fill (m : mem) (s : Z) (n : nat) : mem :=
  match n with O => m | S n' => zero_fill (st8 m s 0) (s + 1) n' end.
Fixpoint strncpy_loop (m : mem) (s t : Z) (n : nat) : mem :=
  match n with
  | O => m
  | S n' =>
      let c := m t in
      let m1 := st8 m s c in
      if truth c then strncpy_loop m1 (s + 1) (t + 1) n' else zero_fill m1 (s + 1) n'
  end.
Definition strncpy (m : mem) (s t n : Z) : mem := strncpy_loop m s t (Z.to_nat n).

(** [n] is the number of copies still allowed by [--n > 0]. *)
Fixpoint safestrcpy_loop (m : mem) (s t : Z) (n : nat) : mem :=
  match n with
  | O => st8 m s 0
  | S n' =>
      let c := m t in
      let m1 := st8 m s c in
      if truth c then safestrcpy_loop m1 (s + 1) (t + 1) n' else st8 m1 (s + 1) 0
  end.
Definition safestrcpy (m : mem) (s t n : Z) : mem :=
  if n <=? 0 then m else safestrcpy_loop m s t (Z.to_nat (n - 1)).

Fixpoint strlen_loop (fuel : nat) (m : mem) (s n : Z) : option Z :=
  match fuel with
  | O => None
  | S f => if truth (m (s + n)) then strlen_loop f m s (n + 1) else Some n
  end.
Definition strlen (fuel : nat) (m : mem) (s : Z) : option Z := strlen_loop fuel m s 0.

(* ------------------------------------------------------------------ *)
(** ** Lemmas *)

Ltac mem_case :=
  repeat match goal with
  | |- context [(?a <=? ?b) && (?c <? ?d)] =>
      destruct (Z.leb_spec a b), (Z.ltb_spec c d); cbn [andb]
  | |- context [?a =? ?b] => destruct (Z.eqb_spec a b)
  end.

Lemma st8_same m a v : st8 m a v a = u8 v.
Proof. unfold st8. by rewrite Z.eqb_refl. Qed.
Lemma st8_other m a v x : x <> a -> st8 m a v x = m x.
Proof. intros H. unfold st8. apply Z.eqb_neq in H. by rewrite H. Qed.
Lemma st8_ok m a v : mem_ok m -> mem_ok (st8 m a v).
Proof. intros Hm x. unfold st8. mem_case; [apply u8_range | apply Hm]. Qed.

Lemma byte_of_range w i : 0 <= byte_of w i < 256.
Proof. apply u8_range. Qed.

Lemma byte_of_eq w i : 0 <= i -> byte_of w i = u32 w / 2 ^ (8 * i) mod 256.
Proof. intros Hi. unfold byte_of, u8. by rewrite Z.shiftr_div_pow2 by lia. Qed.

Lemma st32_ok m a v : mem_ok m -> mem_ok (st32 m a v).
Proof. intros Hm x. unfold st32. mem_case; try apply byte_of_range; apply Hm. Qed.

Lemma ld32_st32_same m a v : ld32 (st32 m a v) a = u32 v.
Proof.
  unfold ld32, st32. pose proof (u32_range v).
  repeat match goal with |- context [(?p <=? ?q) && (?r <? ?t)] =>
    replace ((p <=? q) && (r <? t)) with true by (symmetry; apply andb_true_intro; lia) end.
  rewrite !byte_of_eq by lia.
  replace (a - a) with 0 by lia. replace (a + 1 - a) with 1 by lia.
  replace (a + 2 - a) with 2 by lia. replace (a + 3 - a) with 3 by lia.
  simpl. change (2 ^ 0) with 1. change (2 ^ 8) with 256. change (2 ^ 16) with 65536.
  change (2 ^ 24) with 16777216. dlia.
Qed.

Lemma st32_other m a v x : x < a \/ a + 4 <= x -> st32 m a v x = m x.
Proof. intros H. unfold st32. mem_case; (done || lia). Qed.

Lemma ld32_ext m m' a : (forall x, a <= x < a + 4 -> m x = m' x) -> ld32 m a = ld32 m' a.
Proof. intros H. unfold ld32. rewrite !H by lia. done. Qed.

Lemma ld32_st32_other m a v b : b + 4 <= a \/ a + 4 <= b -> ld32 (st32 m a v) b = ld32 m b.
Proof. intros H. apply ld32_ext. intros x Hx. apply st32_other. lia. Qed.

Lemma ld32_range m a : mem_ok m -> 0 <= ld32 m a < 2 ^ 32.
Proof.
  intros Hm. unfold ld32. pose proof (Hm a). pose proof (Hm (a + 1)).
  pose proof (Hm (a + 2)). pose proof (Hm (a + 3)). lia.
Qed.

Lemma stosb_ok m a d n : mem_ok m -> mem_ok (stosb m a d n).
Proof. intros Hm x. unfold stosb. mem_case; try apply u8_range; apply Hm. Qed.

Lemma rep_word_byte c i :
  0 <= i < 4 ->
  byte_of (let c := Z.land c 0xFF in
           Z.lor (Z.lor (Z.lor (Z.shiftl c 24) (Z.shiftl c 16)) (Z.shiftl c 8)) c) i = u8 c.
Proof.
  intros Hi. cbv zeta. change 0xFF with (2 ^ 8 - 1). rewrite land_ones_mod by lia.
  change (c mod 2 ^ 8) with (u8 c). pose proof (u8_range c) as Hc. set (b := u8 c) in *.
  rewrite <- !Z.lor_assoc.
  rewrite (lor_disjoint_add b b 8) by lia.
  rewrite (lor_disjoint_add b _ 16) by lia.
  rewrite (lor_disjoint_add b _ 24) by lia.
  rewrite byte_of_eq, u32_small by lia.
  assert (i = 0 \/ i = 1 \/ i = 2 \/ i = 3) as [->|[->|[->| ->]]] by lia; simpl;
    change (2 ^ 0) with 1; change (2 ^ 8) with 256; change (2 ^ 16) with 65536;
    change (2 ^ 24) with 16777216; dlia.
Qed.

(** The word-wise and the byte-wise branch of [memset] agree. *)
Lemma memset_spec m dst c n x :
  0 <= n ->
  memset m dst c n x = if (dst <=? x) && (x <? dst + n) then u8 c else m x.
Proof.
  intros Hn. unfold memset.
  destruct (Z.eqb_spec (dst mod 4) 0), (Z.eqb_spec (n mod 4) 0); try done.
  cbn [andb]. unfold stosl. replace (4 * (n / 4)) with n by dlia.
  mem_case; try done. apply rep_word_byte. apply Z.mod_pos_bound. lia.
Qed.

Lemma memset_ok m dst c n : 0 <= n -> mem_ok m -> mem_ok (memset m dst c n).
Proof. intros Hn Hm x. rewrite memset_spec by done. mem_case; try apply u8_range; apply Hm. Qed.

Lemma ld32_memset_in m dst c n a :
  0 <= n -> dst <= a -> a + 4 <= dst + n -> ld32 (memset m dst c n) a = u8 c * 0x01010101.
Proof.
  intros Hn H1 H2. unfold ld32. rewrite !memset_spec by lia.
  repeat match goal with |- context [(?p <=? ?q) && (?r <? ?t)] =>
    replace ((p <=? q) && (r <? t)) with true by (symmetry; apply andb_true_intro; lia) end.
  lia.
Qed.

Lemma ld32_memset_out m dst c n a :
  0 <= n -> a + 4 <= dst \/ dst + n <= a -> ld32 (memset m dst c n) a = ld32 m a.
Proof.
  intros Hn H. apply ld32_ext. intros x Hx. rewrite memset_spec by done. mem_case; (done || lia).
Qed.

Lemma copy_up_spec n : forall m d s x,
  mem_ok m -> ~ (s < d < s + Z.of_nat n) ->
  copy_up m d s n x = if (d <=? x) && (x <? d + Z.of_nat n) then m (s + (x - d)) else m x.
Proof.
  induction n as [|n IH]; intros m d s x Hm Hov.
  - simpl. mem_case; (done || lia).
  - cbn [copy_up]. rewrite IH; [|by apply st8_ok|lia].
    destruct (decide (x = d)) as [->|].
    + mem_case; try lia. rewrite st8_same. replace (s + (d - d)) with s by lia.
      apply u8_small, Hm.
    + mem_case; try lia.
      * rewrite st8_other by lia. f_equal. lia.
      * by rewrite st8_other by lia.
      * by rewrite st8_other by lia.
Qed.

Lemma copy_down_spec n : forall m d s x,
  mem_ok m -> s <= d ->
  copy_down m d s n x =
    if (d - Z.of_nat n <=? x) && (x <? d) then m (s - (d - x)) else m x.
Proof.
  induction n as [|n IH]; intros m d s x Hm Hov.
  - simpl. mem_case; (done || lia).
  - cbn [copy_down]. rewrite IH; [|by apply st8_ok|lia].
    destruct (decide (x = d - 1)) as [->|].
    + mem_case; try lia. rewrite st8_same. rewrite u8_small by apply Hm. f_equal. lia.
    + mem_case; try lia.
      * rewrite st8_other by lia. f_equal. lia.
      * by rewrite st8_other by lia.
      * by rewrite st8_other by lia.
Qed.

(** The byte at [x] after a copy. *)
Lemma memmove_at m dst src n x :
  mem_ok m -> 0 <= n ->
  memmove m dst src n x = if (dst <=? x) && (x <? dst + n) then m (src + (x - dst)) else m x.
Proof.
  intros Hm Hn. unfold memmove.
  destruct (Z.ltb_spec src dst), (Z.ltb_spec dst (src + n)); cbn [andb].
  2-4: rewrite copy_up_spec by (done || lia); by rewrite Z2Nat.id by done.
  rewrite copy_down_spec by (done || lia). rewrite Z2Nat.id by done.
  replace (dst + n - n) with dst by lia. mem_case; try done. f_equal. lia.
Qed.

(** [memmove] copies [n] bytes as if through a temporary buffer, whatever
    the overlap of source and destination, and touches nothing else. *)
Theorem memmove_spec m dst src n x :
  mem_ok m -> 0 <= n ->
  memmove m dst src n x = if (dst <=? x) && (x <? dst + n) then m (src + (x - dst)) else m x.
Proof. apply memmove_at. Qed.

Lemma memmove_spec_witness :
  let m := st8 (st8 (fun _ => 0) 0 7) 1 9 in memmove m 1 0 2 2 = 9.
Proof.
  cbv zeta. rewrite (memmove_spec _ 1 0 2 2); [reflexivity | | lia].
  apply st8_ok, st8_ok. intros a. lia.
Defined.

Lemma memmove_ok m dst src n : 0 <= n -> mem_ok m -> mem_ok (memmove m dst src n).
Proof. intros Hn Hm x. rewrite memmove_at by done. mem_case; apply Hm. Qed.

(** The C string at an address: its bytes up to the first NUL. *)
Definition cstring (m : mem) (s : Z) (l : list Z) : Prop :=
  (forall i, 0 <= i < Z.of_nat (length l) -> m (s + i) = nth (Z.to_nat i) l 0 /\ m (s + i) <> 0) /\
  m (s + Z.of_nat (length l)) = 0.

Lemma strlen_loop_spec m s l : cstring m s l -> forall k fuel,
  (k <= length l)%nat -> (length l - k < fuel)%nat ->
  strlen_loop fuel m s (Z.of_nat k) = Some (Z.of_nat (length l)).
Proof.
  intros [Hl H0] k fuel. revert k. induction fuel as [|f IH]; intros k Hk Hf; [lia|]. simpl.
  destruct (decide (k = length l)) as [->|].
  - rewrite H0. done.
  - destruct (Hl (Z.of_nat k)) as [_ Hnz]; [lia|].
    apply truth_true in Hnz. rewrite Hnz. replace (Z.of_nat k + 1) with (Z.of_nat (S k)) by lia.
    apply IH; lia.
Qed.

(** Whatever the source, [safestrcpy(s, t, n)] with [n > 0] leaves a NUL among
    the first [n] bytes of [s] and writes no byte outside them. *)
Lemma safestrcpy_loop_bounds n : forall m s t,
  (exists i, 0 <= i <= Z.of_nat n /\ safestrcpy_loop m s t n (s + i) = 0) /\
  (forall x, x < s \/ s + Z.of_nat n < x -> safestrcpy_loop m s t n x = m x).
Proof.
  induction n as [|n IH]; intros m s t; cbn [safestrcpy_loop].
  - split; [exists 0; split; [lia|]; rewrite Z.add_0_r; by rewrite st8_same|].
    intros x Hx. rewrite st8_other by lia. done.
  - destruct (truth (m t)).
    + destruct (IH (st8 m s (m t)) (s + 1) (t + 1)) as [(i & Hi & H0) Hout]. split.
      * exists (i + 1). split; [lia|]. by replace (s + (i + 1)) with (s + 1 + i) by lia.
      * intros x Hx. rewrite Hout by lia. by rewrite st8_other by lia.
    + split; [exists 1; split; [lia|]; by rewrite st8_same|].
      intros x Hx. by rewrite !st8_other by lia.
Qed.

(** [safestrcpy] always NUL-terminates within the [n] bytes it is given and
    never writes beyond them, for every source string and every [n > 0]; for
    [n <= 0] it writes nothing. *)
Theorem safestrcpy_terminates m s t n :
  (0 < n ->
     (exists i, 0 <= i < n /\ safestrcpy m s t n (s + i) = 0) /\
     (forall x, x < s \/ s + n <= x -> safestrcpy m s t n x = m x)) /\
  (n <= 0 -> safestrcpy m s t n = m).
Proof.
  unfold safestrcpy. split.
  - intros Hn. destruct (Z.leb_spec n 0); [lia|].
    destruct (safestrcpy_loop_bounds (Z.to_nat (n - 1)) m s t) as [(i & Hi & H0) Hout].
    rewrite Z2Nat.id in * by lia. split; [exists i; split; [lia|done]|].
    intros x Hx. apply Hout. lia.
  - intros Hn. by destruct (Z.leb_spec n 0); [|lia].
Qed.
