(* ===== verification/State.v ===== *)
(** * The data model of the kernel

    The structures of [spinlock.h], [sleeplock.h], [proc.h], [x86.h], [buf.h],
    [file.h], [fs.h], [pipe.c], [log.c], [kalloc.c], [console.c] and of the
    shared-memory extension of [HW3/xv6-src/proc.h], and the state of the whole
    kernel as one record with a field per global variable of the source.

    Pointers into a fixed table ([struct proc *], [struct file *],
    [struct inode *], [struct buf *]) are indices into that table, the null
    pointer is [None]; page and frame addresses are integers.  Locks embedded in
    a structure live in a store indexed by the lock's identity. *)

From S2P Require Import Prelude Mmu Mem.

(** Update of a total map at one point. *)
Definition fupd {A B} `{EqDecision A} (f : A -> B) (a : A) (b : B) : A -> B :=
  fun x => if decide (x = a) then b else f x.

Lemma fupd_same {A B} `{EqDecision A} (f : A -> B) a b : fupd f a b a = b.
Proof. unfold fupd. by destruct (decide (a = a)). Qed.
Lemma fupd_other {A B} `{EqDecision A} (f : A -> B) a b x : x <> a -> fupd f a b x = f x.
Proof. intros H. unfold fupd. by destruct (decide (x = a)). Qed.

(** Identities of sleep locks, spin locks and sleep channels. *)
Inductive slid := Sl_buf (i : nat) | Sl_inode (i : nat).
#[export] Instance slid_eq_dec : EqDecision slid.
Proof. solve_decision. Defined.

Inductive lockid :=
| Lk_kmem | Lk_ptable | Lk_tickslock | Lk_ftable | Lk_icache | Lk_bcache | Lk_log | Lk_cons
| Lk_ide | Lk_pipe (p : Z) | Lk_sleep (l : slid).
#[export] Instance lockid_eq_dec : EqDecision lockid.
Proof. solve_decision. Defined.

(** [void *chan]: the address a process sleeps on. *)
Inductive chan :=
| Ch_proc (p : nat) | Ch_ticks | Ch_buf (b : nat) | Ch_log | Ch_nread (p : Z) | Ch_nwrite (p : Z)
| Ch_sleeplock (l : slid) | Ch_input.
#[export] Instance chan_eq_dec : EqDecision chan.
Proof. solve_decision. Defined.

(** [spinlock.h]: [struct spinlock]; [lk_cpu] is the index of the holding cpu. *)
Record spinlock := mk_spinlock {
  lk_locked : Z;
  lk_name : string;
  lk_cpu : option nat;
  lk_pcs : list Z }.

(** [sleeplock.h]: [struct sleeplock]; its inner spin lock is [Lk_sleep] of its identity. *)
Record sleeplock := mk_sleeplock {
  sl_locked : Z;
  sl_name : string;
  sl_pid : Z }.

(** [x86.h]: [struct trapframe] without its padding. *)
Record trapframe := mk_trapframe {
  tf_edi : Z;
  tf_esi : Z;
  tf_ebp : Z;
  tf_oesp : Z;
  tf_ebx : Z;
  tf_edx : Z;
  tf_ecx : Z;
  tf_eax : Z;
  tf_gs : Z;
  tf_fs : Z;
  tf_es : Z;
  tf_ds : Z;
  tf_trapno : Z;
  tf_err : Z;
  tf_eip : Z;
  tf_cs : Z;
  tf_eflags : Z;
  tf_esp : Z;
  tf_ss : Z }.
Definition set_tf_eax (v : Z) (x : trapframe) : trapframe :=
  mk_trapframe (tf_edi x) (tf_esi x) (tf_ebp x) (tf_oesp x) (tf_ebx x) (tf_edx x) (tf_ecx x) v (tf_gs x) (tf_fs x) (tf_es x) (tf_ds x) (tf_trapno x) (tf_err x) (tf_eip x) (tf_cs x) (tf_eflags x) (tf_esp x) (tf_ss x).
Definition set_tf_es (v : Z) (x : trapframe) : trapframe :=
  mk_trapframe (tf_edi x) (tf_esi x) (tf_ebp x) (tf_oesp x) (tf_ebx x) (tf_edx x) (tf_ecx x) (tf_eax x) (tf_gs x) (tf_fs x) v (tf_ds x) (tf_trapno x) (tf_err x) (tf_eip x) (tf_cs x) (tf_eflags x) (tf_esp x) (tf_ss x).
Definition set_tf_ds (v : Z) (x : trapframe) : trapframe :=
  mk_trapframe (tf_edi x) (tf_esi x) (tf_ebp x) (tf_oesp x) (tf_ebx x) (tf_edx x) (tf_ecx x) (tf_eax x) (tf_gs x) (tf_fs x) (tf_es x) v (tf_trapno x) (tf_err x) (tf_eip x) (tf_cs x) (tf_eflags x) (tf_esp x) (tf_ss x).
Definition set_tf_eip (v : Z) (x : trapframe) : trapframe :=
  mk_trapframe (tf_edi x) (tf_esi x) (tf_ebp x) (tf_oesp x) (tf_ebx x) (tf_edx x) (tf_ecx x) (tf_eax x) (tf_gs x) (tf_fs x) (tf_es x) (tf_ds x) (tf_trapno x) (tf_err x) v (tf_cs x) (tf_eflags x) (tf_esp x) (tf_ss x).
Definition set_tf_cs (v : Z) (x : trapframe) : trapframe :=
  mk_trapframe (tf_edi x) (tf_esi x) (tf_ebp x) (tf_oesp x) (tf_ebx x) (tf_edx x) (tf_ecx x) (tf_eax x) (tf_gs x) (tf_fs x) (tf_es x) (tf_ds x) (tf_trapno x) (tf_err x) (tf_eip x) v (tf_eflags x) (tf_esp x) (tf_ss x).
Definition set_tf_eflags (v : Z) (x : trapframe) : trapframe :=
  mk_trapframe (tf_edi x) (tf_esi x) (tf_ebp x) (tf_oesp x) (tf_ebx x) (tf_edx x) (tf_ecx x) (tf_eax x) (tf_gs x) (tf_fs x) (tf_es x) (tf_ds x) (tf_trapno x) (tf_err x) (tf_eip x) (tf_cs x) v (tf_esp x) (tf_ss x).
Definition set_tf_esp (v : Z) (x : trapframe) : trapframe :=
  mk_trapframe (tf_edi x) (tf_esi x) (tf_ebp x) (tf_oesp x) (tf_ebx x) (tf_edx x) (tf_ecx x) (tf_eax x) (tf_gs x) (tf_fs x) (tf_es x) (tf_ds x) (tf_trapno x) (tf_err x) (tf_eip x) (tf_cs x) (tf_eflags x) v (tf_ss x).
Definition set_tf_ss (v : Z) (x : trapframe) : trapframe :=
  mk_trapframe (tf_edi x) (tf_esi x) (tf_ebp x) (tf_oesp x) (tf_ebx x) (tf_edx x) (tf_ecx x) (tf_eax x) (tf_gs x) (tf_fs x) (tf_es x) (tf_ds x) (tf_trapno x) (tf_err x) (tf_eip x) (tf_cs x) (tf_eflags x) (tf_esp x) v.

(** [proc.h]: [struct context]. *)
Record context := mk_context {
  cx_edi : Z;
  cx_esi : Z;
  cx_ebx : Z;
  cx_ebp : Z;
  cx_eip : Z }.
Definition set_cx_eip (v : Z) (x : context) : context :=
  mk_context (cx_edi x) (cx_esi x) (cx_ebx x) (cx_ebp x) v.

(** [mmu.h]: [struct taskstate] without its padding. *)
Record taskstate := mk_taskstate {
  ts_link : Z;
  ts_esp0 : Z;
  ts_ss0 : Z;
  ts_esp1 : Z;
  ts_ss1 : Z;
  ts_esp2 : Z;
  ts_ss2 : Z;
  ts_cr3 : Z;
  ts_eip : Z;
  ts_eflags : Z;
  ts_eax : Z;
  ts_ecx : Z;
  ts_edx : Z;
  ts_ebx : Z;
  ts_esp : Z;
  ts_ebp : Z;
  ts_esi : Z;
  ts_edi : Z;
  ts_es : Z;
  ts_cs : Z;
  ts_ss : Z;
  ts_ds : Z;
  ts_fs : Z;
  ts_gs : Z;
  ts_ldt : Z;
  ts_t : Z;
  ts_iomb : Z }.
Definition set_ts_esp0 (v : Z) (x : taskstate) : taskstate :=
  mk_taskstate (ts_link x) v (ts_ss0 x) (ts_esp1 x) (ts_ss1 x) (ts_esp2 x) (ts_ss2 x) (ts_cr3 x) (ts_eip x) (ts_eflags x) (ts_eax x) (ts_ecx x) (ts_edx x) (ts_ebx x) (ts_esp x) (ts_ebp x) (ts_esi x) (ts_edi x) (ts_es x) (ts_cs x) (ts_ss x) (ts_ds x) (ts_fs x) (ts_gs x) (ts_ldt x) (ts_t x) (ts_iomb x).
Definition set_ts_ss0 (v : Z) (x : taskstate) : taskstate :=
  mk_taskstate (ts_link x) (ts_esp0 x) v (ts_esp1 x) (ts_ss1 x) (ts_esp2 x) (ts_ss2 x) (ts_cr3 x) (ts_eip x) (ts_eflags x) (ts_eax x) (ts_ecx x) (ts_edx x) (ts_ebx x) (ts_esp x) (ts_ebp x) (ts_esi x) (ts_edi x) (ts_es x) (ts_cs x) (ts_ss x) (ts_ds x) (ts_fs x) (ts_gs x) (ts_ldt x) (ts_t x) (ts_iomb x).
Definition set_ts_iomb (v : Z) (x : taskstate) : taskstate :=
  mk_taskstate (ts_link x) (ts_esp0 x) (ts_ss0 x) (ts_esp1 x) (ts_ss1 x) (ts_esp2 x) (ts_ss2 x) (ts_cr3 x) (ts_eip x) (ts_eflags x) (ts_eax x) (ts_ecx x) (ts_edx x) (ts_ebx x) (ts_esp x) (ts_ebp x) (ts_esi x) (ts_edi x) (ts_es x) (ts_cs x) (ts_ss x) (ts_ds x) (ts_fs x) (ts_gs x) (ts_ldt x) (ts_t x) v.

(** [proc.h]: [struct cpu]; the scheduler context is the [Switch] of the outcome type. *)
Record cpu := mk_cpu {
  c_apicid : Z;
  c_ts : taskstate;
  c_gdt : list segdesc;
  c_started : Z;
  c_ncli : Z;
  c_intena : Z;
  c_proc : option nat }.
Definition set_c_apicid (v : Z) (x : cpu) : cpu :=
  mk_cpu v (c_ts x) (c_gdt x) (c_started x) (c_ncli x) (c_intena x) (c_proc x).
Definition set_c_ts (v : taskstate) (x : cpu) : cpu :=
  mk_cpu (c_apicid x) v (c_gdt x) (c_started x) (c_ncli x) (c_intena x) (c_proc x).
Definition set_c_gdt (v : list segdesc) (x : cpu) : cpu :=
  mk_cpu (c_apicid x) (c_ts x) v (c_started x) (c_ncli x) (c_intena x) (c_proc x).
Definition set_c_started (v : Z) (x : cpu) : cpu :=
  mk_cpu (c_apicid x) (c_ts x) (c_gdt x) v (c_ncli x) (c_intena x) (c_proc x).
Definition set_c_ncli (v : Z) (x : cpu) : cpu :=
  mk_cpu (c_apicid x) (c_ts x) (c_gdt x) (c_started x) v (c_intena x) (c_proc x).
Definition set_c_intena (v : Z) (x : cpu) : cpu :=
  mk_cpu (c_apicid x) (c_ts x) (c_gdt x) (c_started x) (c_ncli x) v (c_proc x).
Definition set_c_proc (v : option nat) (x : cpu) : cpu :=
  mk_cpu (c_apicid x) (c_ts x) (c_gdt x) (c_started x) (c_ncli x) (c_intena x) v.

(** [proc.h]: [enum procstate]. *)
Inductive procstate := UNUSED | EMBRYO | SLEEPING | RUNNABLE | RUNNING | ZOMBIE.
#[export] Instance procstate_eq_dec : EqDecision procstate.
Proof. solve_decision. Defined.

(** Numbers of the shared-memory extension, [HW3/xv6-src/proc.h]. *)
Definition MAX_SH_PAGES : Z := NPROC.
Definition MAX_SH_KEY : Z := NPROC.

(** [HW3/xv6-src/proc.h]: a region of shared memory. *)
Record sharedRegion_t := mk_region {
  sr_valid : Z;
  sr_refCount : Z;
  sr_pageCount : Z;
  sr_pages : list Z }.
Definition set_sr_valid (v : Z) (x : sharedRegion_t) : sharedRegion_t :=
  mk_region v (sr_refCount x) (sr_pageCount x) (sr_pages x).
Definition set_sr_refCount (v : Z) (x : sharedRegion_t) : sharedRegion_t :=
  mk_region (sr_valid x) v (sr_pageCount x) (sr_pages x).
Definition set_sr_pageCount (v : Z) (x : sharedRegion_t) : sharedRegion_t :=
  mk_region (sr_valid x) (sr_refCount x) v (sr_pages x).
Definition set_sr_pages (v : list Z) (x : sharedRegion_t) : sharedRegion_t :=
  mk_region (sr_valid x) (sr_refCount x) (sr_pageCount x) v.

(** [HW3/xv6-src/proc.h]: a reference of a process to a region. *)
Record sharedReference_t := mk_reference {
  sh_region : option nat;
  sh_va : Z }.
Definition set_sh_region (v : option nat) (x : sharedReference_t) : sharedReference_t :=
  mk_reference v (sh_va x).
Definition set_sh_va (v : Z) (x : sharedReference_t) : sharedReference_t :=
  mk_reference (sh_region x) v.

(** [proc.h]: [struct proc] with the counters of HW2 and the shared-memory fields of HW3. *)
Record proc := mk_proc {
  p_sz : Z;
  p_pgdir : Z;
  p_kstack : Z;
  p_state : procstate;
  p_pid : Z;
  p_parent : option nat;
  p_tf : trapframe;
  p_context : context;
  p_chan : option chan;
  p_killed : Z;
  p_ofile : list (option nat);
  p_cwd : option nat;
  p_name : list Z;
  p_trapcounts : list Z;
  p_syscounts : list Z;
  p_shaddr : Z;
  p_shared : list sharedReference_t }.
Definition set_p_sz (v : Z) (x : proc) : proc :=
  mk_proc v (p_pgdir x) (p_kstack x) (p_state x) (p_pid x) (p_parent x) (p_tf x) (p_context x) (p_chan x) (p_killed x) (p_ofile x) (p_cwd x) (p_name x) (p_trapcounts x) (p_syscounts x) (p_shaddr x) (p_shared x).
Definition set_p_pgdir (v : Z) (x : proc) : proc :=
  mk_proc (p_sz x) v (p_kstack x) (p_state x) (p_pid x) (p_parent x) (p_tf x) (p_context x) (p_chan x) (p_killed x) (p_ofile x) (p_cwd x) (p_name x) (p_trapcounts x) (p_syscounts x) (p_shaddr x) (p_shared x).
Definition set_p_kstack (v : Z) (x : proc) : proc :=
  mk_proc (p_sz x) (p_pgdir x) v (p_state x) (p_pid x) (p_parent x) (p_tf x) (p_context x) (p_chan x) (p_killed x) (p_ofile x) (p_cwd x) (p_name x) (p_trapcounts x) (p_syscounts x) (p_shaddr x) (p_shared x).
Definition set_p_state (v : procstate) (x : proc) : proc :=
  mk_proc (p_sz x) (p_pgdir x) (p_kstack x) v (p_pid x) (p_parent x) (p_tf x) (p_context x) (p_chan x) (p_killed x) (p_ofile x) (p_cwd x) (p_name x) (p_trapcounts x) (p_syscounts x) (p_shaddr x) (p_shared x).
Definition set_p_pid (v : Z) (x : proc) : proc :=
  mk_proc (p_sz x) (p_pgdir x) (p_kstack x) (p_state x) v (p_parent x) (p_tf x) (p_context x) (p_chan x) (p_killed x) (p_ofile x) (p_cwd x) (p_name x) (p_trapcounts x) (p_syscounts x) (p_shaddr x) (p_shared x).
Definition set_p_parent (v : option nat) (x : proc) : proc :=
  mk_proc (p_sz x) (p_pgdir x) (p_kstack x) (p_state x) (p_pid x) v (p_tf x) (p_context x) (p_chan x) (p_killed x) (p_ofile x) (p_cwd x) (p_name x) (p_trapcounts x) (p_syscounts x) (p_shaddr x) (p_shared x).
Definition set_p_tf (v : trapframe) (x : proc) : proc :=
  mk_proc (p_sz x) (p_pgdir x) (p_kstack x) (p_state x) (p_pid x) (p_parent x) v (p_context x) (p_chan x) (p_killed x) (p_ofile x) (p_cwd x) (p_name x) (p_trapcounts x) (p_syscounts x) (p_shaddr x) (p_shared x).
Definition set_p_context (v : context) (x : proc) : proc :=
  mk_proc (p_sz x) (p_pgdir x) (p_kstack x) (p_state x) (p_pid x) (p_parent x) (p_tf x) v (p_chan x) (p_killed x) (p_ofile x) (p_cwd x) (p_name x) (p_trapcounts x) (p_syscounts x) (p_shaddr x) (p_shared x).
Definition set_p_chan (v : option chan) (x : proc) : proc :=
  mk_proc (p_sz x) (p_pgdir x) (p_kstack x) (p_state x) (p_pid x) (p_parent x) (p_tf x) (p_context x) v (p_killed x) (p_ofile x) (p_cwd x) (p_name x) (p_trapcounts x) (p_syscounts x) (p_shaddr x) (p_shared x).
Definition set_p_killed (v : Z) (x : proc) : proc :=
  mk_proc (p_sz x) (p_pgdir x) (p_kstack x) (p_state x) (p_pid x) (p_parent x) (p_tf x) (p_context x) (p_chan x) v (p_ofile x) (p_cwd x) (p_name x) (p_trapcounts x) (p_syscounts x) (p_shaddr x) (p_shared x).
Definition set_p_ofile (v : list (option nat)) (x : proc) : proc :=
  mk_proc (p_sz x) (p_pgdir x) (p_kstack x) (p_state x) (p_pid x) (p_parent x) (p_tf x) (p_context x) (p_chan x) (p_killed x) v (p_cwd x) (p_name x) (p_trapcounts x) (p_syscounts x) (p_shaddr x) (p_shared x).
Definition set_p_cwd (v : option nat) (x : proc) : proc :=
  mk_proc (p_sz x) (p_pgdir x) (p_kstack x) (p_state x) (p_pid x) (p_parent x) (p_tf x) (p_context x) (p_chan x) (p_killed x) (p_ofile x) v (p_name x) (p_trapcounts x) (p_syscounts x) (p_shaddr x) (p_shared x).
Definition set_p_name (v : list Z) (x : proc) : proc :=
  mk_proc (p_sz x) (p_pgdir x) (p_kstack x) (p_state x) (p_pid x) (p_parent x) (p_tf x) (p_context x) (p_chan x) (p_killed x) (p_ofile x) (p_cwd x) v (p_trapcounts x) (p_syscounts x) (p_shaddr x) (p_shared x).
Definition set_p_trapcounts (v : list Z) (x : proc) : proc :=
  mk_proc (p_sz x) (p_pgdir x) (p_kstack x) (p_state x) (p_pid x) (p_parent x) (p_tf x) (p_context x) (p_chan x) (p_killed x) (p_ofile x) (p_cwd x) (p_name x) v (p_syscounts x) (p_shaddr x) (p_shared x).
Definition set_p_syscounts (v : list Z) (x : proc) : proc :=
  mk_proc (p_sz x) (p_pgdir x) (p_kstack x) (p_state x) (p_pid x) (p_parent x) (p_tf x) (p_context x) (p_chan x) (p_killed x) (p_ofile x) (p_cwd x) (p_name x) (p_trapcounts x) v (p_shaddr x) (p_shared x).
Definition set_p_shaddr (v : Z) (x : proc) : proc :=
  mk_proc (p_sz x) (p_pgdir x) (p_kstack x) (p_state x) (p_pid x) (p_parent x) (p_tf x) (p_context x) (p_chan x) (p_killed x) (p_ofile x) (p_cwd x) (p_name x) (p_trapcounts x) (p_syscounts x) v (p_shared x).
Definition set_p_shared (v : list sharedReference_t) (x : proc) : proc :=
  mk_proc (p_sz x) (p_pgdir x) (p_kstack x) (p_state x) (p_pid x) (p_parent x) (p_tf x) (p_context x) (p_chan x) (p_killed x) (p_ofile x) (p_cwd x) (p_name x) (p_trapcounts x) (p_syscounts x) (p_shaddr x) v.

(** [file.h]: the type tag of [struct file]. *)
Inductive fdtype := FD_NONE | FD_PIPE | FD_INODE.
#[export] Instance fdtype_eq_dec : EqDecision fdtype.
Proof. solve_decision. Defined.

(** [file.h]: [struct file]. *)
Record file := mk_file {
  f_type : fdtype;
  f_ref : Z;
  f_readable : Z;
  f_writable : Z;
  f_pipe : Z;
  f_ip : option nat;
  f_off : Z }.
Definition set_f_type (v : fdtype) (x : file) : file :=
  mk_file v (f_ref x) (f_readable x) (f_writable x) (f_pipe x) (f_ip x) (f_off x).
Definition set_f_ref (v : Z) (x : file) : file :=
  mk_file (f_type x) v (f_readable x) (f_writable x) (f_pipe x) (f_ip x) (f_off x).
Definition set_f_readable (v : Z) (x : file) : file :=
  mk_file (f_type x) (f_ref x) v (f_writable x) (f_pipe x) (f_ip x) (f_off x).
Definition set_f_writable (v : Z) (x : file) : file :=
  mk_file (f_type x) (f_ref x) (f_readable x) v (f_pipe x) (f_ip x) (f_off x).
Definition set_f_pipe (v : Z) (x : file) : file :=
  mk_file (f_type x) (f_ref x) (f_readable x) (f_writable x) v (f_ip x) (f_off x).
Definition set_f_ip (v : option nat) (x : file) : file :=
  mk_file (f_type x) (f_ref x) (f_readable x) (f_writable x) (f_pipe x) v (f_off x).
Definition set_f_off (v : Z) (x : file) : file :=
  mk_file (f_type x) (f_ref x) (f_readable x) (f_writable x) (f_pipe x) (f_ip x) v.

(** [file.h]: the in-memory [struct inode]; its lock is [Sl_inode]. *)
Record inode := mk_inode {
  i_dev : Z;
  i_inum : Z;
  i_ref : Z;
  i_valid : Z;
  i_type : Z;
  i_major : Z;
  i_minor : Z;
  i_nlink : Z;
  i_size : Z;
  i_addrs : list Z }.
Definition set_i_dev (v : Z) (x : inode) : inode :=
  mk_inode v (i_inum x) (i_ref x) (i_valid x) (i_type x) (i_major x) (i_minor x) (i_nlink x) (i_size x) (i_addrs x).
Definition set_i_inum (v : Z) (x : inode) : inode :=
  mk_inode (i_dev x) v (i_ref x) (i_valid x) (i_type x) (i_major x) (i_minor x) (i_nlink x) (i_size x) (i_addrs x).
Definition set_i_ref (v : Z) (x : inode) : inode :=
  mk_inode (i_dev x) (i_inum x) v (i_valid x) (i_type x) (i_major x) (i_minor x) (i_nlink x) (i_size x) (i_addrs x).
Definition set_i_valid (v : Z) (x : inode) : inode :=
  mk_inode (i_dev x) (i_inum x) (i_ref x) v (i_type x) (i_major x) (i_minor x) (i_nlink x) (i_size x) (i_addrs x).
Definition set_i_type (v : Z) (x : inode) : inode :=
  mk_inode (i_dev x) (i_inum x) (i_ref x) (i_valid x) v (i_major x) (i_minor x) (i_nlink x) (i_size x) (i_addrs x).
Definition set_i_major (v : Z) (x : inode) : inode :=
  mk_inode (i_dev x) (i_inum x) (i_ref x) (i_valid x) (i_type x) v (i_minor x) (i_nlink x) (i_size x) (i_addrs x).
Definition set_i_minor (v : Z) (x : inode) : inode :=
  mk_inode (i_dev x) (i_inum x) (i_ref x) (i_valid x) (i_type x) (i_major x) v (i_nlink x) (i_size x) (i_addrs x).
Definition set_i_nlink (v : Z) (x : inode) : inode :=
  mk_inode (i_dev x) (i_inum x) (i_ref x) (i_valid x) (i_type x) (i_major x) (i_minor x) v (i_size x) (i_addrs x).
Definition set_i_size (v : Z) (x : inode) : inode :=
  mk_inode (i_dev x) (i_inum x) (i_ref x) (i_valid x) (i_type x) (i_major x) (i_minor x) (i_nlink x) v (i_addrs x).
Definition set_i_addrs (v : list Z) (x : inode) : inode :=
  mk_inode (i_dev x) (i_inum x) (i_ref x) (i_valid x) (i_type x) (i_major x) (i_minor x) (i_nlink x) (i_size x) v.

(** [pipe.c]: [struct pipe]; its lock is [Lk_pipe]. *)
Record pipe := mk_pipe {
  pi_data : list Z;
  pi_nread : Z;
  pi_nwrite : Z;
  pi_readopen : Z;
  pi_writeopen : Z }.
Definition set_pi_data (v : list Z) (x : pipe) : pipe :=
  mk_pipe v (pi_nread x) (pi_nwrite x) (pi_readopen x) (pi_writeopen x).
Definition set_pi_nread (v : Z) (x : pipe) : pipe :=
  mk_pipe (pi_data x) v (pi_nwrite x) (pi_readopen x) (pi_writeopen x).
Definition set_pi_nwrite (v : Z) (x : pipe) : pipe :=
  mk_pipe (pi_data x) (pi_nread x) v (pi_readopen x) (pi_writeopen x).
Definition set_pi_readopen (v : Z) (x : pipe) : pipe :=
  mk_pipe (pi_data x) (pi_nread x) (pi_nwrite x) v (pi_writeopen x).
Definition set_pi_writeopen (v : Z) (x : pipe) : pipe :=
  mk_pipe (pi_data x) (pi_nread x) (pi_nwrite x) (pi_readopen x) v.

(** [buf.h]: [struct buf]; its lock is [Sl_buf], index [NBUF] is [bcache.head]. *)
Record buf := mk_buf {
  b_flags : Z;
  b_dev : Z;
  b_blockno : Z;
  b_refcnt : Z;
  b_prev : nat;
  b_next : nat;
  b_qnext : option nat;
  b_data : list Z }.
Definition set_b_flags (v : Z) (x : buf) : buf :=
  mk_buf v (b_dev x) (b_blockno x) (b_refcnt x) (b_prev x) (b_next x) (b_qnext x) (b_data x).
Definition set_b_dev (v : Z) (x : buf) : buf :=
  mk_buf (b_flags x) v (b_blockno x) (b_refcnt x) (b_prev x) (b_next x) (b_qnext x) (b_data x).
Definition set_b_blockno (v : Z) (x : buf) : buf :=
  mk_buf (b_flags x) (b_dev x) v (b_refcnt x) (b_prev x) (b_next x) (b_qnext x) (b_data x).
Definition set_b_refcnt (v : Z) (x : buf) : buf :=
  mk_buf (b_flags x) (b_dev x) (b_blockno x) v (b_prev x) (b_next x) (b_qnext x) (b_data x).
Definition set_b_prev (v : nat) (x : buf) : buf :=
  mk_buf (b_flags x) (b_dev x) (b_blockno x) (b_refcnt x) v (b_next x) (b_qnext x) (b_data x).
Definition set_b_next (v : nat) (x : buf) : buf :=
  mk_buf (b_flags x) (b_dev x) (b_blockno x) (b_refcnt x) (b_prev x) v (b_qnext x) (b_data x).
Definition set_b_qnext (v : option nat) (x : buf) : buf :=
  mk_buf (b_flags x) (b_dev x) (b_blockno x) (b_refcnt x) (b_prev x) (b_next x) v (b_data x).
Definition set_b_data (v : list Z) (x : buf) : buf :=
  mk_buf (b_flags x) (b_dev x) (b_blockno x) (b_refcnt x) (b_prev x) (b_next x) (b_qnext x) v.

(** [fs.h]: [struct superblock]. *)
Record superblock := mk_superblock {
  sb_size : Z;
  sb_nblocks : Z;
  sb_ninodes : Z;
  sb_nlog : Z;
  sb_logstart : Z;
  sb_inodestart : Z;
  sb_bmapstart : Z }.

(** [log.c]: [struct log] with its [struct logheader] ([lg_n], [lg_block]). *)
Record logstate := mk_log {
  lg_start : Z;
  lg_size : Z;
  lg_outstanding : Z;
  lg_committing : Z;
  lg_dev : Z;
  lg_n : Z;
  lg_block : list Z }.
Definition set_lg_start (v : Z) (x : logstate) : logstate :=
  mk_log v (lg_size x) (lg_outstanding x) (lg_committing x) (lg_dev x) (lg_n x) (lg_block x).
Definition set_lg_size (v : Z) (x : logstate) : logstate :=
  mk_log (lg_start x) v (lg_outstanding x) (lg_committing x) (lg_dev x) (lg_n x) (lg_block x).
Definition set_lg_outstanding (v : Z) (x : logstate) : logstate :=
  mk_log (lg_start x) (lg_size x) v (lg_committing x) (lg_dev x) (lg_n x) (lg_block x).
Definition set_lg_committing (v : Z) (x : logstate) : logstate :=
  mk_log (lg_start x) (lg_size x) (lg_outstanding x) v (lg_dev x) (lg_n x) (lg_block x).
Definition set_lg_dev (v : Z) (x : logstate) : logstate :=
  mk_log (lg_start x) (lg_size x) (lg_outstanding x) (lg_committing x) v (lg_n x) (lg_block x).
Definition set_lg_n (v : Z) (x : logstate) : logstate :=
  mk_log (lg_start x) (lg_size x) (lg_outstanding x) (lg_committing x) (lg_dev x) v (lg_block x).
Definition set_lg_block (v : list Z) (x : logstate) : logstate :=
  mk_log (lg_start x) (lg_size x) (lg_outstanding x) (lg_committing x) (lg_dev x) (lg_n x) v.

(** [kalloc.c]: [kmem]. *)
Record kmem_t := mk_kmem {
  km_use_lock : Z;
  km_freelist : Z }.
Definition set_km_use_lock (v : Z) (x : kmem_t) : kmem_t :=
  mk_kmem v (km_freelist x).
Definition set_km_freelist (v : Z) (x : kmem_t) : kmem_t :=
  mk_kmem (km_use_lock x) v.

(** [console.c]: [input]. *)
Record inputbuf := mk_input {
  in_buf : list Z;
  in_r : Z;
  in_w : Z;
  in_e : Z }.
Definition set_in_buf (v : list Z) (x : inputbuf) : inputbuf :=
  mk_input v (in_r x) (in_w x) (in_e x).
Definition set_in_r (v : Z) (x : inputbuf) : inputbuf :=
  mk_input (in_buf x) v (in_w x) (in_e x).
Definition set_in_w (v : Z) (x : inputbuf) : inputbuf :=
  mk_input (in_buf x) (in_r x) v (in_e x).
Definition set_in_e (v : Z) (x : inputbuf) : inputbuf :=
  mk_input (in_buf x) (in_r x) (in_w x) v.

(** [file.h]: an entry of [devsw]; the console is the only device that installs one. *)
Inductive devfn := Dev_console.
(** [file.h]: [struct devsw]. *)
Record devsw_t := mk_devsw {
  dv_read : option devfn;
  dv_write : option devfn }.

(** The CGA text screen: cursor position and character cells. *)
Record crt_t := mk_crt {
  crt_pos : Z;
  crt_cell : Z -> Z }.
Definition set_crt_pos (v : Z) (x : crt_t) : crt_t :=
  mk_crt v (crt_cell x).
Definition set_crt_cell (v : Z -> Z) (x : crt_t) : crt_t :=
  mk_crt (crt_pos x) v.

(** Registers of the processor that runs the code and the devices it reaches:
    [hw_frame] is the address of the running function's first argument on the
    kernel stack, [hw_lapic] the interrupt controller's mapped address (0 before
    [mpinit]), [hw_disk] the blocks of disk 1, [hw_disk0] those of disk 0,
    [hw_uart] whether there is a serial port, [hw_ports] the byte last written to
    each I/O port, [hw_idests] the status register of the IDE controller and
    [hw_latch] the sector its last read command fetched, [hw_ioapic] and
    [hw_lapicreg] the registers of the interrupt controllers, [hw_kbd] and
    [hw_uartin] the scan codes and bytes waiting in the keyboard and serial ports. *)
Record hardware := mk_hw {
  hw_apicid : Z;
  hw_eflags : Z;
  hw_cr2 : Z;
  hw_cr3 : Z;
  hw_tr : Z;
  hw_frame : Z;
  hw_lapic : Z;
  hw_disk : Z -> list Z;
  hw_uart : Z;
  hw_ports : Z -> Z;
  hw_idests : Z;
  hw_latch : list Z;
  hw_disk0 : Z -> list Z;
  hw_ioapic : Z -> Z;
  hw_lapicreg : Z -> Z;
  hw_idtr : Z;
  hw_kbd : list Z;
  hw_uartin : list Z;
  hw_gdtr : option (nat * Z) }.  (* the processor whose table it points to, and the limit *)
Definition set_hw_apicid (v : Z) (x : hardware) : hardware :=
  mk_hw v (hw_eflags x) (hw_cr2 x) (hw_cr3 x) (hw_tr x) (hw_frame x) (hw_lapic x) (hw_disk x) (hw_uart x) (hw_ports x) (hw_idests x) (hw_latch x) (hw_disk0 x) (hw_ioapic x) (hw_lapicreg x) (hw_idtr x) (hw_kbd x) (hw_uartin x) (hw_gdtr x).
Definition set_hw_eflags (v : Z) (x : hardware) : hardware :=
  mk_hw (hw_apicid x) v (hw_cr2 x) (hw_cr3 x) (hw_tr x) (hw_frame x) (hw_lapic x) (hw_disk x) (hw_uart x) (hw_ports x) (hw_idests x) (hw_latch x) (hw_disk0 x) (hw_ioapic x) (hw_lapicreg x) (hw_idtr x) (hw_kbd x) (hw_uartin x) (hw_gdtr x).
Definition set_hw_cr2 (v : Z) (x : hardware) : hardware :=
  mk_hw (hw_apicid x) (hw_eflags x) v (hw_cr3 x) (hw_tr x) (hw_frame x) (hw_lapic x) (hw_disk x) (hw_uart x) (hw_ports x) (hw_idests x) (hw_latch x) (hw_disk0 x) (hw_ioapic x) (hw_lapicreg x) (hw_idtr x) (hw_kbd x) (hw_uartin x) (hw_gdtr x).
Definition set_hw_cr3 (v : Z) (x : hardware) : hardware :=
  mk_hw (hw_apicid x) (hw_eflags x) (hw_cr2 x) v (hw_tr x) (hw_frame x) (hw_lapic x) (hw_disk x) (hw_uart x) (hw_ports x) (hw_idests x) (hw_latch x) (hw_disk0 x) (hw_ioapic x) (hw_lapicreg x) (hw_idtr x) (hw_kbd x) (hw_uartin x) (hw_gdtr x).
Definition set_hw_tr (v : Z) (x : hardware) : hardware :=
  mk_hw (hw_apicid x) (hw_eflags x) (hw_cr2 x) (hw_cr3 x) v (hw_frame x) (hw_lapic x) (hw_disk x) (hw_uart x) (hw_ports x) (hw_idests x) (hw_latch x) (hw_disk0 x) (hw_ioapic x) (hw_lapicreg x) (hw_idtr x) (hw_kbd x) (hw_uartin x) (hw_gdtr x).
Definition set_hw_frame (v : Z) (x : hardware) : hardware :=
  mk_hw (hw_apicid x) (hw_eflags x) (hw_cr2 x) (hw_cr3 x) (hw_tr x) v (hw_lapic x) (hw_disk x) (hw_uart x) (hw_ports x) (hw_idests x) (hw_latch x) (hw_disk0 x) (hw_ioapic x) (hw_lapicreg x) (hw_idtr x) (hw_kbd x) (hw_uartin x) (hw_gdtr x).
Definition set_hw_lapic (v : Z) (x : hardware) : hardware :=
  mk_hw (hw_apicid x) (hw_eflags x) (hw_cr2 x) (hw_cr3 x) (hw_tr x) (hw_frame x) v (hw_disk x) (hw_uart x) (hw_ports x) (hw_idests x) (hw_latch x) (hw_disk0 x) (hw_ioapic x) (hw_lapicreg x) (hw_idtr x) (hw_kbd x) (hw_uartin x) (hw_gdtr x).
Definition set_hw_disk (v : Z -> list Z) (x : hardware) : hardware :=
  mk_hw (hw_apicid x) (hw_eflags x) (hw_cr2 x) (hw_cr3 x) (hw_tr x) (hw_frame x) (hw_lapic x) v (hw_uart x) (hw_ports x) (hw_idests x) (hw_latch x) (hw_disk0 x) (hw_ioapic x) (hw_lapicreg x) (hw_idtr x) (hw_kbd x) (hw_uartin x) (hw_gdtr x).
Definition set_hw_uart (v : Z) (x : hardware) : hardware :=
  mk_hw (hw_apicid x) (hw_eflags x) (hw_cr2 x) (hw_cr3 x) (hw_tr x) (hw_frame x) (hw_lapic x) (hw_disk x) v (hw_ports x) (hw_idests x) (hw_latch x) (hw_disk0 x) (hw_ioapic x) (hw_lapicreg x) (hw_idtr x) (hw_kbd x) (hw_uartin x) (hw_gdtr x).
Definition set_hw_ports (v : Z -> Z) (x : hardware) : hardware :=
  mk_hw (hw_apicid x) (hw_eflags x) (hw_cr2 x) (hw_cr3 x) (hw_tr x) (hw_frame x) (hw_lapic x) (hw_disk x) (hw_uart x) v (hw_idests x) (hw_latch x) (hw_disk0 x) (hw_ioapic x) (hw_lapicreg x) (hw_idtr x) (hw_kbd x) (hw_uartin x) (hw_gdtr x).
Definition set_hw_idests (v : Z) (x : hardware) : hardware :=
  mk_hw (hw_apicid x) (hw_eflags x) (hw_cr2 x) (hw_cr3 x) (hw_tr x) (hw_frame x) (hw_lapic x) (hw_disk x) (hw_uart x) (hw_ports x) v (hw_latch x) (hw_disk0 x) (hw_ioapic x) (hw_lapicreg x) (hw_idtr x) (hw_kbd x) (hw_uartin x) (hw_gdtr x).
Definition set_hw_latch (v : list Z) (x : hardware) : hardware :=
  mk_hw (hw_apicid x) (hw_eflags x) (hw_cr2 x) (hw_cr3 x) (hw_tr x) (hw_frame x) (hw_lapic x) (hw_disk x) (hw_uart x) (hw_ports x) (hw_idests x) v (hw_disk0 x) (hw_ioapic x) (hw_lapicreg x) (hw_idtr x) (hw_kbd x) (hw_uartin x) (hw_gdtr x).
Definition set_hw_disk0 (v : Z -> list Z) (x : hardware) : hardware :=
  mk_hw (hw_apicid x) (hw_eflags x) (hw_cr2 x) (hw_cr3 x) (hw_tr x) (hw_frame x) (hw_lapic x) (hw_disk x) (hw_uart x) (hw_ports x) (hw_idests x) (hw_latch x) v (hw_ioapic x) (hw_lapicreg x) (hw_idtr x) (hw_kbd x) (hw_uartin x) (hw_gdtr x).
Definition set_hw_ioapic (v : Z -> Z) (x : hardware) : hardware :=
  mk_hw (hw_apicid x) (hw_eflags x) (hw_cr2 x) (hw_cr3 x) (hw_tr x) (hw_frame x) (hw_lapic x) (hw_disk x) (hw_uart x) (hw_ports x) (hw_idests x) (hw_latch x) (hw_disk0 x) v (hw_lapicreg x) (hw_idtr x) (hw_kbd x) (hw_uartin x) (hw_gdtr x).
Definition set_hw_lapicreg (v : Z -> Z) (x : hardware) : hardware :=
  mk_hw (hw_apicid x) (hw_eflags x) (hw_cr2 x) (hw_cr3 x) (hw_tr x) (hw_frame x) (hw_lapic x) (hw_disk x) (hw_uart x) (hw_ports x) (hw_idests x) (hw_latch x) (hw_disk0 x) (hw_ioapic x) v (hw_idtr x) (hw_kbd x) (hw_uartin x) (hw_gdtr x).
Definition set_hw_idtr (v : Z) (x : hardware) : hardware :=
  mk_hw (hw_apicid x) (hw_eflags x) (hw_cr2 x) (hw_cr3 x) (hw_tr x) (hw_frame x) (hw_lapic x) (hw_disk x) (hw_uart x) (hw_ports x) (hw_idests x) (hw_latch x) (hw_disk0 x) (hw_ioapic x) (hw_lapicreg x) v (hw_kbd x) (hw_uartin x) (hw_gdtr x).
Definition set_hw_kbd (v : list Z) (x : hardware) : hardware :=
  mk_hw (hw_apicid x) (hw_eflags x) (hw_cr2 x) (hw_cr3 x) (hw_tr x) (hw_frame x) (hw_lapic x) (hw_disk x) (hw_uart x) (hw_ports x) (hw_idests x) (hw_latch x) (hw_disk0 x) (hw_ioapic x) (hw_lapicreg x) (hw_idtr x) v (hw_uartin x) (hw_gdtr x).
Definition set_hw_uartin (v : list Z) (x : hardware) : hardware :=
  mk_hw (hw_apicid x) (hw_eflags x) (hw_cr2 x) (hw_cr3 x) (hw_tr x) (hw_frame x) (hw_lapic x) (hw_disk x) (hw_uart x) (hw_ports x) (hw_idests x) (hw_latch x) (hw_disk0 x) (hw_ioapic x) (hw_lapicreg x) (hw_idtr x) (hw_kbd x) v (hw_gdtr x).

Definition set_hw_gdtr (v : option (nat * Z)) (x : hardware) : hardware :=
  mk_hw (hw_apicid x) (hw_eflags x) (hw_cr2 x) (hw_cr3 x) (hw_tr x) (hw_frame x) (hw_lapic x) (hw_disk x) (hw_uart x) (hw_ports x) (hw_idests x) (hw_latch x) (hw_disk0 x) (hw_ioapic x) (hw_lapicreg x) (hw_idtr x) (hw_kbd x) (hw_uartin x) v.
(** The kernel: one field per global variable.  [k_end] and [k_data] are the
    addresses the linker gives to [end] and [data], [k_tsaddr i] the address of
    [cpus[i].ts], [k_trapret], [k_forkret] and [k_vectors] those of the assembly
    entry points, [k_initcode] the linked first program; [k_out] is what the
    serial port has received, most recent byte last.  [k_wait] is not a variable
    of the kernel: it bounds how often a waiting loop of the model is woken up
    in vain before the run counts as [Fuel]. *)
Record kstate := mk_kstate {
  k_hw : hardware;
  k_end : Z;
  k_data : Z;
  k_tsaddr : nat -> Z;
  k_cpus : list cpu;
  k_ncpu : Z;
  k_locks : lockid -> spinlock;
  k_slocks : slid -> sleeplock;
  k_mem : mem;
  k_kmem : kmem_t;
  k_kpgdir : Z;
  k_procs : list proc;
  k_initproc : option nat;
  k_nextpid : Z;
  k_first : Z;
  k_ticks : Z;
  k_files : list file;
  k_pipes : Z -> pipe;
  k_bufs : list buf;
  k_idequeue : option nat;
  k_havedisk1 : Z;
  k_log : logstate;
  k_sb : superblock;
  k_inodes : list inode;
  k_devsw : list devsw_t;
  k_cons_locking : Z;
  k_panicked : Z;
  k_input : inputbuf;
  k_out : list Z;
  k_crt : crt_t;
  k_regions : list sharedRegion_t;
  k_trapret : Z;
  k_forkret : Z;
  k_wait : nat;
  k_idt : list gatedesc;
  k_vectors : list Z;
  k_disksize : Z;
  k_kbdshift : Z;
  k_ismp : Z;
  k_ioapicid : Z;
  k_initcode : list Z }.
Definition set_k_hw (v : hardware) (x : kstate) : kstate :=
  mk_kstate v (k_end x) (k_data x) (k_tsaddr x) (k_cpus x) (k_ncpu x) (k_locks x) (k_slocks x) (k_mem x) (k_kmem x) (k_kpgdir x) (k_procs x) (k_initproc x) (k_nextpid x) (k_first x) (k_ticks x) (k_files x) (k_pipes x) (k_bufs x) (k_idequeue x) (k_havedisk1 x) (k_log x) (k_sb x) (k_inodes x) (k_devsw x) (k_cons_locking x) (k_panicked x) (k_input x) (k_out x) (k_crt x) (k_regions x) (k_trapret x) (k_forkret x) (k_wait x) (k_idt x) (k_vectors x) (k_disksize x) (k_kbdshift x) (k_ismp x) (k_ioapicid x) (k_initcode x).
Definition set_k_end (v : Z) (x : kstate) : kstate :=
  mk_kstate (k_hw x) v (k_data x) (k_tsaddr x) (k_cpus x) (k_ncpu x) (k_locks x) (k_slocks x) (k_mem x) (k_kmem x) (k_kpgdir x) (k_procs x) (k_initproc x) (k_nextpid x) (k_first x) (k_ticks x) (k_files x) (k_pipes x) (k_bufs x) (k_idequeue x) (k_havedisk1 x) (k_log x) (k_sb x) (k_inodes x) (k_devsw x) (k_cons_locking x) (k_panicked x) (k_input x) (k_out x) (k_crt x) (k_regions x) (k_trapret x) (k_forkret x) (k_wait x) (k_idt x) (k_vectors x) (k_disksize x) (k_kbdshift x) (k_ismp x) (k_ioapicid x) (k_initcode x).
Definition set_k_data (v : Z) (x : kstate) : kstate :=
  mk_kstate (k_hw x) (k_end x) v (k_tsaddr x) (k_cpus x) (k_ncpu x) (k_locks x) (k_slocks x) (k_mem x) (k_kmem x) (k_kpgdir x) (k_procs x) (k_initproc x) (k_nextpid x) (k_first x) (k_ticks x) (k_files x) (k_pipes x) (k_bufs x) (k_idequeue x) (k_havedisk1 x) (k_log x) (k_sb x) (k_inodes x) (k_devsw x) (k_cons_locking x) (k_panicked x) (k_input x) (k_out x) (k_crt x) (k_regions x) (k_trapret x) (k_forkret x) (k_wait x) (k_idt x) (k_vectors x) (k_disksize x) (k_kbdshift x) (k_ismp x) (k_ioapicid x) (k_initcode x).
Definition set_k_tsaddr (v : nat -> Z) (x : kstate) : kstate :=
  mk_kstate (k_hw x) (k_end x) (k_data x) v (k_cpus x) (k_ncpu x) (k_locks x) (k_slocks x) (k_mem x) (k_kmem x) (k_kpgdir x) (k_procs x) (k_initproc x) (k_nextpid x) (k_first x) (k_ticks x) (k_files x) (k_pipes x) (k_bufs x) (k_idequeue x) (k_havedisk1 x) (k_log x) (k_sb x) (k_inodes x) (k_devsw x) (k_cons_locking x) (k_panicked x) (k_input x) (k_out x) (k_crt x) (k_regions x) (k_trapret x) (k_forkret x) (k_wait x) (k_idt x) (k_vectors x) (k_disksize x) (k_kbdshift x) (k_ismp x) (k_ioapicid x) (k_initcode x).
Definition set_k_cpus (v : list cpu) (x : kstate) : kstate :=
  mk_kstate (k_hw x) (k_end x) (k_data x) (k_tsaddr x) v (k_ncpu x) (k_locks x) (k_slocks x) (k_mem x) (k_kmem x) (k_kpgdir x) (k_procs x) (k_initproc x) (k_nextpid x) (k_first x) (k_ticks x) (k_files x) (k_pipes x) (k_bufs x) (k_idequeue x) (k_havedisk1 x) (k_log x) (k_sb x) (k_inodes x) (k_devsw x) (k_cons_locking x) (k_panicked x) (k_input x) (k_out x) (k_crt x) (k_regions x) (k_trapret x) (k_forkret x) (k_wait x) (k_idt x) (k_vectors x) (k_disksize x) (k_kbdshift x) (k_ismp x) (k_ioapicid x) (k_initcode x).
Definition set_k_ncpu (v : Z) (x : kstate) : kstate :=
  mk_kstate (k_hw x) (k_end x) (k_data x) (k_tsaddr x) (k_cpus x) v (k_locks x) (k_slocks x) (k_mem x) (k_kmem x) (k_kpgdir x) (k_procs x) (k_initproc x) (k_nextpid x) (k_first x) (k_ticks x) (k_files x) (k_pipes x) (k_bufs x) (k_idequeue x) (k_havedisk1 x) (k_log x) (k_sb x) (k_inodes x) (k_devsw x) (k_cons_locking x) (k_panicked x) (k_input x) (k_out x) (k_crt x) (k_regions x) (k_trapret x) (k_forkret x) (k_wait x) (k_idt x) (k_vectors x) (k_disksize x) (k_kbdshift x) (k_ismp x) (k_ioapicid x) (k_initcode x).
Definition set_k_locks (v : lockid -> spinlock) (x : kstate) : kstate :=
  mk_kstate (k_hw x) (k_end x) (k_data x) (k_tsaddr x) (k_cpus x) (k_ncpu x) v (k_slocks x) (k_mem x) (k_kmem x) (k_kpgdir x) (k_procs x) (k_initproc x) (k_nextpid x) (k_first x) (k_ticks x) (k_files x) (k_pipes x) (k_bufs x) (k_idequeue x) (k_havedisk1 x) (k_log x) (k_sb x) (k_inodes x) (k_devsw x) (k_cons_locking x) (k_panicked x) (k_input x) (k_out x) (k_crt x) (k_regions x) (k_trapret x) (k_forkret x) (k_wait x) (k_idt x) (k_vectors x) (k_disksize x) (k_kbdshift x) (k_ismp x) (k_ioapicid x) (k_initcode x).
Definition set_k_slocks (v : slid -> sleeplock) (x : kstate) : kstate :=
  mk_kstate (k_hw x) (k_end x) (k_data x) (k_tsaddr x) (k_cpus x) (k_ncpu x) (k_locks x) v (k_mem x) (k_kmem x) (k_kpgdir x) (k_procs x) (k_initproc x) (k_nextpid x) (k_first x) (k_ticks x) (k_files x) (k_pipes x) (k_bufs x) (k_idequeue x) (k_havedisk1 x) (k_log x) (k_sb x) (k_inodes x) (k_devsw x) (k_cons_locking x) (k_panicked x) (k_input x) (k_out x) (k_crt x) (k_regions x) (k_trapret x) (k_forkret x) (k_wait x) (k_idt x) (k_vectors x) (k_disksize x) (k_kbdshift x) (k_ismp x) (k_ioapicid x) (k_initcode x).
Definition set_k_mem (v : mem) (x : kstate) : kstate :=
  mk_kstate (k_hw x) (k_end x) (k_data x) (k_tsaddr x) (k_cpus x) (k_ncpu x) (k_locks x) (k_slocks x) v (k_kmem x) (k_kpgdir x) (k_procs x) (k_initproc x) (k_nextpid x) (k_first x) (k_ticks x) (k_files x) (k_pipes x) (k_bufs x) (k_idequeue x) (k_havedisk1 x) (k_log x) (k_sb x) (k_inodes x) (k_devsw x) (k_cons_locking x) (k_panicked x) (k_input x) (k_out x) (k_crt x) (k_regions x) (k_trapret x) (k_forkret x) (k_wait x) (k_idt x) (k_vectors x) (k_disksize x) (k_kbdshift x) (k_ismp x) (k_ioapicid x) (k_initcode x).
Definition set_k_kmem (v : kmem_t) (x : kstate) : kstate :=
  mk_kstate (k_hw x) (k_end x) (k_data x) (k_tsaddr x) (k_cpus x) (k_ncpu x) (k_locks x) (k_slocks x) (k_mem x) v (k_kpgdir x) (k_procs x) (k_initproc x) (k_nextpid x) (k_first x) (k_ticks x) (k_files x) (k_pipes x) (k_bufs x) (k_idequeue x) (k_havedisk1 x) (k_log x) (k_sb x) (k_inodes x) (k_devsw x) (k_cons_locking x) (k_panicked x) (k_input x) (k_out x) (k_crt x) (k_regions x) (k_trapret x) (k_forkret x) (k_wait x) (k_idt x) (k_vectors x) (k_disksize x) (k_kbdshift x) (k_ismp x) (k_ioapicid x) (k_initcode x).
Definition set_k_kpgdir (v : Z) (x : kstate) : kstate :=
  mk_kstate (k_hw x) (k_end x) (k_data x) (k_tsaddr x) (k_cpus x) (k_ncpu x) (k_locks x) (k_slocks x) (k_mem x) (k_kmem x) v (k_procs x) (k_initproc x) (k_nextpid x) (k_first x) (k_ticks x) (k_files x) (k_pipes x) (k_bufs x) (k_idequeue x) (k_havedisk1 x) (k_log x) (k_sb x) (k_inodes x) (k_devsw x) (k_cons_locking x) (k_panicked x) (k_input x) (k_out x) (k_crt x) (k_regions x) (k_trapret x) (k_forkret x) (k_wait x) (k_idt x) (k_vectors x) (k_disksize x) (k_kbdshift x) (k_ismp x) (k_ioapicid x) (k_initcode x).
Definition set_k_procs (v : list proc) (x : kstate) : kstate :=
  mk_kstate (k_hw x) (k_end x) (k_data x) (k_tsaddr x) (k_cpus x) (k_ncpu x) (k_locks x) (k_slocks x) (k_mem x) (k_kmem x) (k_kpgdir x) v (k_initproc x) (k_nextpid x) (k_first x) (k_ticks x) (k_files x) (k_pipes x) (k_bufs x) (k_idequeue x) (k_havedisk1 x) (k_log x) (k_sb x) (k_inodes x) (k_devsw x) (k_cons_locking x) (k_panicked x) (k_input x) (k_out x) (k_crt x) (k_regions x) (k_trapret x) (k_forkret x) (k_wait x) (k_idt x) (k_vectors x) (k_disksize x) (k_kbdshift x) (k_ismp x) (k_ioapicid x) (k_initcode x).
Definition set_k_initproc (v : option nat) (x : kstate) : kstate :=
  mk_kstate (k_hw x) (k_end x) (k_data x) (k_tsaddr x) (k_cpus x) (k_ncpu x) (k_locks x) (k_slocks x) (k_mem x) (k_kmem x) (k_kpgdir x) (k_procs x) v (k_nextpid x) (k_first x) (k_ticks x) (k_files x) (k_pipes x) (k_bufs x) (k_idequeue x) (k_havedisk1 x) (k_log x) (k_sb x) (k_inodes x) (k_devsw x) (k_cons_locking x) (k_panicked x) (k_input x) (k_out x) (k_crt x) (k_regions x) (k_trapret x) (k_forkret x) (k_wait x) (k_idt x) (k_vectors x) (k_disksize x) (k_kbdshift x) (k_ismp x) (k_ioapicid x) (k_initcode x).
Definition set_k_nextpid (v : Z) (x : kstate) : kstate :=
  mk_kstate (k_hw x) (k_end x) (k_data x) (k_tsaddr x) (k_cpus x) (k_ncpu x) (k_locks x) (k_slocks x) (k_mem x) (k_kmem x) (k_kpgdir x) (k_procs x) (k_initproc x) v (k_first x) (k_ticks x) (k_files x) (k_pipes x) (k_bufs x) (k_idequeue x) (k_havedisk1 x) (k_log x) (k_sb x) (k_inodes x) (k_devsw x) (k_cons_locking x) (k_panicked x) (k_input x) (k_out x) (k_crt x) (k_regions x) (k_trapret x) (k_forkret x) (k_wait x) (k_idt x) (k_vectors x) (k_disksize x) (k_kbdshift x) (k_ismp x) (k_ioapicid x) (k_initcode x).
Definition set_k_first (v : Z) (x : kstate) : kstate :=
  mk_kstate (k_hw x) (k_end x) (k_data x) (k_tsaddr x) (k_cpus x) (k_ncpu x) (k_locks x) (k_slocks x) (k_mem x) (k_kmem x) (k_kpgdir x) (k_procs x) (k_initproc x) (k_nextpid x) v (k_ticks x) (k_files x) (k_pipes x) (k_bufs x) (k_idequeue x) (k_havedisk1 x) (k_log x) (k_sb x) (k_inodes x) (k_devsw x) (k_cons_locking x) (k_panicked x) (k_input x) (k_out x) (k_crt x) (k_regions x) (k_trapret x) (k_forkret x) (k_wait x) (k_idt x) (k_vectors x) (k_disksize x) (k_kbdshift x) (k_ismp x) (k_ioapicid x) (k_initcode x).
Definition set_k_ticks (v : Z) (x : kstate) : kstate :=
  mk_kstate (k_hw x) (k_end x) (k_data x) (k_tsaddr x) (k_cpus x) (k_ncpu x) (k_locks x) (k_slocks x) (k_mem x) (k_kmem x) (k_kpgdir x) (k_procs x) (k_initproc x) (k_nextpid x) (k_first x) v (k_files x) (k_pipes x) (k_bufs x) (k_idequeue x) (k_havedisk1 x) (k_log x) (k_sb x) (k_inodes x) (k_devsw x) (k_cons_locking x) (k_panicked x) (k_input x) (k_out x) (k_crt x) (k_regions x) (k_trapret x) (k_forkret x) (k_wait x) (k_idt x) (k_vectors x) (k_disksize x) (k_kbdshift x) (k_ismp x) (k_ioapicid x) (k_initcode x).
Definition set_k_files (v : list file) (x : kstate) : kstate :=
  mk_kstate (k_hw x) (k_end x) (k_data x) (k_tsaddr x) (k_cpus x) (k_ncpu x) (k_locks x) (k_slocks x) (k_mem x) (k_kmem x) (k_kpgdir x) (k_procs x) (k_initproc x) (k_nextpid x) (k_first x) (k_ticks x) v (k_pipes x) (k_bufs x) (k_idequeue x) (k_havedisk1 x) (k_log x) (k_sb x) (k_inodes x) (k_devsw x) (k_cons_locking x) (k_panicked x) (k_input x) (k_out x) (k_crt x) (k_regions x) (k_trapret x) (k_forkret x) (k_wait x) (k_idt x) (k_vectors x) (k_disksize x) (k_kbdshift x) (k_ismp x) (k_ioapicid x) (k_initcode x).
Definition set_k_pipes (v : Z -> pipe) (x : kstate) : kstate :=
  mk_kstate (k_hw x) (k_end x) (k_data x) (k_tsaddr x) (k_cpus x) (k_ncpu x) (k_locks x) (k_slocks x) (k_mem x) (k_kmem x) (k_kpgdir x) (k_procs x) (k_initproc x) (k_nextpid x) (k_first x) (k_ticks x) (k_files x) v (k_bufs x) (k_idequeue x) (k_havedisk1 x) (k_log x) (k_sb x) (k_inodes x) (k_devsw x) (k_cons_locking x) (k_panicked x) (k_input x) (k_out x) (k_crt x) (k_regions x) (k_trapret x) (k_forkret x) (k_wait x) (k_idt x) (k_vectors x) (k_disksize x) (k_kbdshift x) (k_ismp x) (k_ioapicid x) (k_initcode x).
Definition set_k_bufs (v : list buf) (x : kstate) : kstate :=
  mk_kstate (k_hw x) (k_end x) (k_data x) (k_tsaddr x) (k_cpus x) (k_ncpu x) (k_locks x) (k_slocks x) (k_mem x) (k_kmem x) (k_kpgdir x) (k_procs x) (k_initproc x) (k_nextpid x) (k_first x) (k_ticks x) (k_files x) (k_pipes x) v (k_idequeue x) (k_havedisk1 x) (k_log x) (k_sb x) (k_inodes x) (k_devsw x) (k_cons_locking x) (k_panicked x) (k_input x) (k_out x) (k_crt x) (k_regions x) (k_trapret x) (k_forkret x) (k_wait x) (k_idt x) (k_vectors x) (k_disksize x) (k_kbdshift x) (k_ismp x) (k_ioapicid x) (k_initcode x).
Definition set_k_idequeue (v : option nat) (x : kstate) : kstate :=
  mk_kstate (k_hw x) (k_end x) (k_data x) (k_tsaddr x) (k_cpus x) (k_ncpu x) (k_locks x) (k_slocks x) (k_mem x) (k_kmem x) (k_kpgdir x) (k_procs x) (k_initproc x) (k_nextpid x) (k_first x) (k_ticks x) (k_files x) (k_pipes x) (k_bufs x) v (k_havedisk1 x) (k_log x) (k_sb x) (k_inodes x) (k_devsw x) (k_cons_locking x) (k_panicked x) (k_input x) (k_out x) (k_crt x) (k_regions x) (k_trapret x) (k_forkret x) (k_wait x) (k_idt x) (k_vectors x) (k_disksize x) (k_kbdshift x) (k_ismp x) (k_ioapicid x) (k_initcode x).
Definition set_k_havedisk1 (v : Z) (x : kstate) : kstate :=
  mk_kstate (k_hw x) (k_end x) (k_data x) (k_tsaddr x) (k_cpus x) (k_ncpu x) (k_locks x) (k_slocks x) (k_mem x) (k_kmem x) (k_kpgdir x) (k_procs x) (k_initproc x) (k_nextpid x) (k_first x) (k_ticks x) (k_files x) (k_pipes x) (k_bufs x) (k_idequeue x) v (k_log x) (k_sb x) (k_inodes x) (k_devsw x) (k_cons_locking x) (k_panicked x) (k_input x) (k_out x) (k_crt x) (k_regions x) (k_trapret x) (k_forkret x) (k_wait x) (k_idt x) (k_vectors x) (k_disksize x) (k_kbdshift x) (k_ismp x) (k_ioapicid x) (k_initcode x).
Definition set_k_log (v : logstate) (x : kstate) : kstate :=
  mk_kstate (k_hw x) (k_end x) (k_data x) (k_tsaddr x) (k_cpus x) (k_ncpu x) (k_locks x) (k_slocks x) (k_mem x) (k_kmem x) (k_kpgdir x) (k_procs x) (k_initproc x) (k_nextpid x) (k_first x) (k_ticks x) (k_files x) (k_pipes x) (k_bufs x) (k_idequeue x) (k_havedisk1 x) v (k_sb x) (k_inodes x) (k_devsw x) (k_cons_locking x) (k_panicked x) (k_input x) (k_out x) (k_crt x) (k_regions x) (k_trapret x) (k_forkret x) (k_wait x) (k_idt x) (k_vectors x) (k_disksize x) (k_kbdshift x) (k_ismp x) (k_ioapicid x) (k_initcode x).
Definition set_k_sb (v : superblock) (x : kstate) : kstate :=
  mk_kstate (k_hw x) (k_end x) (k_data x) (k_tsaddr x) (k_cpus x) (k_ncpu x) (k_locks x) (k_slocks x) (k_mem x) (k_kmem x) (k_kpgdir x) (k_procs x) (k_initproc x) (k_nextpid x) (k_first x) (k_ticks x) (k_files x) (k_pipes x) (k_bufs x) (k_idequeue x) (k_havedisk1 x) (k_log x) v (k_inodes x) (k_devsw x) (k_cons_locking x) (k_panicked x) (k_input x) (k_out x) (k_crt x) (k_regions x) (k_trapret x) (k_forkret x) (k_wait x) (k_idt x) (k_vectors x) (k_disksize x) (k_kbdshift x) (k_ismp x) (k_ioapicid x) (k_initcode x).
Definition set_k_inodes (v : list inode) (x : kstate) : kstate :=
  mk_kstate (k_hw x) (k_end x) (k_data x) (k_tsaddr x) (k_cpus x) (k_ncpu x) (k_locks x) (k_slocks x) (k_mem x) (k_kmem x) (k_kpgdir x) (k_procs x) (k_initproc x) (k_nextpid x) (k_first x) (k_ticks x) (k_files x) (k_pipes x) (k_bufs x) (k_idequeue x) (k_havedisk1 x) (k_log x) (k_sb x) v (k_devsw x) (k_cons_locking x) (k_panicked x) (k_input x) (k_out x) (k_crt x) (k_regions x) (k_trapret x) (k_forkret x) (k_wait x) (k_idt x) (k_vectors x) (k_disksize x) (k_kbdshift x) (k_ismp x) (k_ioapicid x) (k_initcode x).
Definition set_k_devsw (v : list devsw_t) (x : kstate) : kstate :=
  mk_kstate (k_hw x) (k_end x) (k_data x) (k_tsaddr x) (k_cpus x) (k_ncpu x) (k_locks x) (k_slocks x) (k_mem x) (k_kmem x) (k_kpgdir x) (k_procs x) (k_initproc x) (k_nextpid x) (k_first x) (k_ticks x) (k_files x) (k_pipes x) (k_bufs x) (k_idequeue x) (k_havedisk1 x) (k_log x) (k_sb x) (k_inodes x) v (k_cons_locking x) (k_panicked x) (k_input x) (k_out x) (k_crt x) (k_regions x) (k_trapret x) (k_forkret x) (k_wait x) (k_idt x) (k_vectors x) (k_disksize x) (k_kbdshift x) (k_ismp x) (k_ioapicid x) (k_initcode x).
Definition set_k_cons_locking (v : Z) (x : kstate) : kstate :=
  mk_kstate (k_hw x) (k_end x) (k_data x) (k_tsaddr x) (k_cpus x) (k_ncpu x) (k_locks x) (k_slocks x) (k_mem x) (k_kmem x) (k_kpgdir x) (k_procs x) (k_initproc x) (k_nextpid x) (k_first x) (k_ticks x) (k_files x) (k_pipes x) (k_bufs x) (k_idequeue x) (k_havedisk1 x) (k_log x) (k_sb x) (k_inodes x) (k_devsw x) v (k_panicked x) (k_input x) (k_out x) (k_crt x) (k_regions x) (k_trapret x) (k_forkret x) (k_wait x) (k_idt x) (k_vectors x) (k_disksize x) (k_kbdshift x) (k_ismp x) (k_ioapicid x) (k_initcode x).
Definition set_k_panicked (v : Z) (x : kstate) : kstate :=
  mk_kstate (k_hw x) (k_end x) (k_data x) (k_tsaddr x) (k_cpus x) (k_ncpu x) (k_locks x) (k_slocks x) (k_mem x) (k_kmem x) (k_kpgdir x) (k_procs x) (k_initproc x) (k_nextpid x) (k_first x) (k_ticks x) (k_files x) (k_pipes x) (k_bufs x) (k_idequeue x) (k_havedisk1 x) (k_log x) (k_sb x) (k_inodes x) (k_devsw x) (k_cons_locking x) v (k_input x) (k_out x) (k_crt x) (k_regions x) (k_trapret x) (k_forkret x) (k_wait x) (k_idt x) (k_vectors x) (k_disksize x) (k_kbdshift x) (k_ismp x) (k_ioapicid x) (k_initcode x).
Definition set_k_input (v : inputbuf) (x : kstate) : kstate :=
  mk_kstate (k_hw x) (k_end x) (k_data x) (k_tsaddr x) (k_cpus x) (k_ncpu x) (k_locks x) (k_slocks x) (k_mem x) (k_kmem x) (k_kpgdir x) (k_procs x) (k_initproc x) (k_nextpid x) (k_first x) (k_ticks x) (k_files x) (k_pipes x) (k_bufs x) (k_idequeue x) (k_havedisk1 x) (k_log x) (k_sb x) (k_inodes x) (k_devsw x) (k_cons_locking x) (k_panicked x) v (k_out x) (k_crt x) (k_regions x) (k_trapret x) (k_forkret x) (k_wait x) (k_idt x) (k_vectors x) (k_disksize x) (k_kbdshift x) (k_ismp x) (k_ioapicid x) (k_initcode x).
Definition set_k_out (v : list Z) (x : kstate) : kstate :=
  mk_kstate (k_hw x) (k_end x) (k_data x) (k_tsaddr x) (k_cpus x) (k_ncpu x) (k_locks x) (k_slocks x) (k_mem x) (k_kmem x) (k_kpgdir x) (k_procs x) (k_initproc x) (k_nextpid x) (k_first x) (k_ticks x) (k_files x) (k_pipes x) (k_bufs x) (k_idequeue x) (k_havedisk1 x) (k_log x) (k_sb x) (k_inodes x) (k_devsw x) (k_cons_locking x) (k_panicked x) (k_input x) v (k_crt x) (k_regions x) (k_trapret x) (k_forkret x) (k_wait x) (k_idt x) (k_vectors x) (k_disksize x) (k_kbdshift x) (k_ismp x) (k_ioapicid x) (k_initcode x).
Definition set_k_crt (v : crt_t) (x : kstate) : kstate :=
  mk_kstate (k_hw x) (k_end x) (k_data x) (k_tsaddr x) (k_cpus x) (k_ncpu x) (k_locks x) (k_slocks x) (k_mem x) (k_kmem x) (k_kpgdir x) (k_procs x) (k_initproc x) (k_nextpid x) (k_first x) (k_ticks x) (k_files x) (k_pipes x) (k_bufs x) (k_idequeue x) (k_havedisk1 x) (k_log x) (k_sb x) (k_inodes x) (k_devsw x) (k_cons_locking x) (k_panicked x) (k_input x) (k_out x) v (k_regions x) (k_trapret x) (k_forkret x) (k_wait x) (k_idt x) (k_vectors x) (k_disksize x) (k_kbdshift x) (k_ismp x) (k_ioapicid x) (k_initcode x).
Definition set_k_regions (v : list sharedRegion_t) (x : kstate) : kstate :=
  mk_kstate (k_hw x) (k_end x) (k_data x) (k_tsaddr x) (k_cpus x) (k_ncpu x) (k_locks x) (k_slocks x) (k_mem x) (k_kmem x) (k_kpgdir x) (k_procs x) (k_initproc x) (k_nextpid x) (k_first x) (k_ticks x) (k_files x) (k_pipes x) (k_bufs x) (k_idequeue x) (k_havedisk1 x) (k_log x) (k_sb x) (k_inodes x) (k_devsw x) (k_cons_locking x) (k_panicked x) (k_input x) (k_out x) (k_crt x) v (k_trapret x) (k_forkret x) (k_wait x) (k_idt x) (k_vectors x) (k_disksize x) (k_kbdshift x) (k_ismp x) (k_ioapicid x) (k_initcode x).
Definition set_k_trapret (v : Z) (x : kstate) : kstate :=
  mk_kstate (k_hw x) (k_end x) (k_data x) (k_tsaddr x) (k_cpus x) (k_ncpu x) (k_locks x) (k_slocks x) (k_mem x) (k_kmem x) (k_kpgdir x) (k_procs x) (k_initproc x) (k_nextpid x) (k_first x) (k_ticks x) (k_files x) (k_pipes x) (k_bufs x) (k_idequeue x) (k_havedisk1 x) (k_log x) (k_sb x) (k_inodes x) (k_devsw x) (k_cons_locking x) (k_panicked x) (k_input x) (k_out x) (k_crt x) (k_regions x) v (k_forkret x) (k_wait x) (k_idt x) (k_vectors x) (k_disksize x) (k_kbdshift x) (k_ismp x) (k_ioapicid x) (k_initcode x).
Definition set_k_forkret (v : Z) (x : kstate) : kstate :=
  mk_kstate (k_hw x) (k_end x) (k_data x) (k_tsaddr x) (k_cpus x) (k_ncpu x) (k_locks x) (k_slocks x) (k_mem x) (k_kmem x) (k_kpgdir x) (k_procs x) (k_initproc x) (k_nextpid x) (k_first x) (k_ticks x) (k_files x) (k_pipes x) (k_bufs x) (k_idequeue x) (k_havedisk1 x) (k_log x) (k_sb x) (k_inodes x) (k_devsw x) (k_cons_locking x) (k_panicked x) (k_input x) (k_out x) (k_crt x) (k_regions x) (k_trapret x) v (k_wait x) (k_idt x) (k_vectors x) (k_disksize x) (k_kbdshift x) (k_ismp x) (k_ioapicid x) (k_initcode x).
Definition set_k_wait (v : nat) (x : kstate) : kstate :=
  mk_kstate (k_hw x) (k_end x) (k_data x) (k_tsaddr x) (k_cpus x) (k_ncpu x) (k_locks x) (k_slocks x) (k_mem x) (k_kmem x) (k_kpgdir x) (k_procs x) (k_initproc x) (k_nextpid x) (k_first x) (k_ticks x) (k_files x) (k_pipes x) (k_bufs x) (k_idequeue x) (k_havedisk1 x) (k_log x) (k_sb x) (k_inodes x) (k_devsw x) (k_cons_locking x) (k_panicked x) (k_input x) (k_out x) (k_crt x) (k_regions x) (k_trapret x) (k_forkret x) v (k_idt x) (k_vectors x) (k_disksize x) (k_kbdshift x) (k_ismp x) (k_ioapicid x) (k_initcode x).
Definition set_k_idt (v : list gatedesc) (x : kstate) : kstate :=
  mk_kstate (k_hw x) (k_end x) (k_data x) (k_tsaddr x) (k_cpus x) (k_ncpu x) (k_locks x) (k_slocks x) (k_mem x) (k_kmem x) (k_kpgdir x) (k_procs x) (k_initproc x) (k_nextpid x) (k_first x) (k_ticks x) (k_files x) (k_pipes x) (k_bufs x) (k_idequeue x) (k_havedisk1 x) (k_log x) (k_sb x) (k_inodes x) (k_devsw x) (k_cons_locking x) (k_panicked x) (k_input x) (k_out x) (k_crt x) (k_regions x) (k_trapret x) (k_forkret x) (k_wait x) v (k_vectors x) (k_disksize x) (k_kbdshift x) (k_ismp x) (k_ioapicid x) (k_initcode x).
Definition set_k_vectors (v : list Z) (x : kstate) : kstate :=
  mk_kstate (k_hw x) (k_end x) (k_data x) (k_tsaddr x) (k_cpus x) (k_ncpu x) (k_locks x) (k_slocks x) (k_mem x) (k_kmem x) (k_kpgdir x) (k_procs x) (k_initproc x) (k_nextpid x) (k_first x) (k_ticks x) (k_files x) (k_pipes x) (k_bufs x) (k_idequeue x) (k_havedisk1 x) (k_log x) (k_sb x) (k_inodes x) (k_devsw x) (k_cons_locking x) (k_panicked x) (k_input x) (k_out x) (k_crt x) (k_regions x) (k_trapret x) (k_forkret x) (k_wait x) (k_idt x) v (k_disksize x) (k_kbdshift x) (k_ismp x) (k_ioapicid x) (k_initcode x).
Definition set_k_disksize (v : Z) (x : kstate) : kstate :=
  mk_kstate (k_hw x) (k_end x) (k_data x) (k_tsaddr x) (k_cpus x) (k_ncpu x) (k_locks x) (k_slocks x) (k_mem x) (k_kmem x) (k_kpgdir x) (k_procs x) (k_initproc x) (k_nextpid x) (k_first x) (k_ticks x) (k_files x) (k_pipes x) (k_bufs x) (k_idequeue x) (k_havedisk1 x) (k_log x) (k_sb x) (k_inodes x) (k_devsw x) (k_cons_locking x) (k_panicked x) (k_input x) (k_out x) (k_crt x) (k_regions x) (k_trapret x) (k_forkret x) (k_wait x) (k_idt x) (k_vectors x) v (k_kbdshift x) (k_ismp x) (k_ioapicid x) (k_initcode x).
Definition set_k_kbdshift (v : Z) (x : kstate) : kstate :=
  mk_kstate (k_hw x) (k_end x) (k_data x) (k_tsaddr x) (k_cpus x) (k_ncpu x) (k_locks x) (k_slocks x) (k_mem x) (k_kmem x) (k_kpgdir x) (k_procs x) (k_initproc x) (k_nextpid x) (k_first x) (k_ticks x) (k_files x) (k_pipes x) (k_bufs x) (k_idequeue x) (k_havedisk1 x) (k_log x) (k_sb x) (k_inodes x) (k_devsw x) (k_cons_locking x) (k_panicked x) (k_input x) (k_out x) (k_crt x) (k_regions x) (k_trapret x) (k_forkret x) (k_wait x) (k_idt x) (k_vectors x) (k_disksize x) v (k_ismp x) (k_ioapicid x) (k_initcode x).
Definition set_k_ismp (v : Z) (x : kstate) : kstate :=
  mk_kstate (k_hw x) (k_end x) (k_data x) (k_tsaddr x) (k_cpus x) (k_ncpu x) (k_locks x) (k_slocks x) (k_mem x) (k_kmem x) (k_kpgdir x) (k_procs x) (k_initproc x) (k_nextpid x) (k_first x) (k_ticks x) (k_files x) (k_pipes x) (k_bufs x) (k_idequeue x) (k_havedisk1 x) (k_log x) (k_sb x) (k_inodes x) (k_devsw x) (k_cons_locking x) (k_panicked x) (k_input x) (k_out x) (k_crt x) (k_regions x) (k_trapret x) (k_forkret x) (k_wait x) (k_idt x) (k_vectors x) (k_disksize x) (k_kbdshift x) v (k_ioapicid x) (k_initcode x).
Definition set_k_ioapicid (v : Z) (x : kstate) : kstate :=
  mk_kstate (k_hw x) (k_end x) (k_data x) (k_tsaddr x) (k_cpus x) (k_ncpu x) (k_locks x) (k_slocks x) (k_mem x) (k_kmem x) (k_kpgdir x) (k_procs x) (k_initproc x) (k_nextpid x) (k_first x) (k_ticks x) (k_files x) (k_pipes x) (k_bufs x) (k_idequeue x) (k_havedisk1 x) (k_log x) (k_sb x) (k_inodes x) (k_devsw x) (k_cons_locking x) (k_panicked x) (k_input x) (k_out x) (k_crt x) (k_regions x) (k_trapret x) (k_forkret x) (k_wait x) (k_idt x) (k_vectors x) (k_disksize x) (k_kbdshift x) (k_ismp x) v (k_initcode x).
Definition set_k_initcode (v : list Z) (x : kstate) : kstate :=
  mk_kstate (k_hw x) (k_end x) (k_data x) (k_tsaddr x) (k_cpus x) (k_ncpu x) (k_locks x) (k_slocks x) (k_mem x) (k_kmem x) (k_kpgdir x) (k_procs x) (k_initproc x) (k_nextpid x) (k_first x) (k_ticks x) (k_files x) (k_pipes x) (k_bufs x) (k_idequeue x) (k_havedisk1 x) (k_log x) (k_sb x) (k_inodes x) (k_devsw x) (k_cons_locking x) (k_panicked x) (k_input x) (k_out x) (k_crt x) (k_regions x) (k_trapret x) (k_forkret x) (k_wait x) (k_idt x) (k_vectors x) (k_disksize x) (k_kbdshift x) (k_ismp x) (k_ioapicid x) v.

Notation K A := (M kstate A).

(** Access to the tables by index. *)
Definition upd_proc (i : nat) (f : proc -> proc) : K unit :=
  p <- gets (fun s => k_procs s !! i) ;; p <- deref p ;;
  modify (fun s => set_k_procs (<[i := f p]> (k_procs s)) s).
Definition get_proc (i : nat) : K proc := p <- gets (fun s => k_procs s !! i) ;; deref p.
Definition upd_file (i : nat) (f : file -> file) : K unit :=
  p <- gets (fun s => k_files s !! i) ;; p <- deref p ;;
  modify (fun s => set_k_files (<[i := f p]> (k_files s)) s).
Definition get_file (i : nat) : K file := p <- gets (fun s => k_files s !! i) ;; deref p.
Definition upd_inode (i : nat) (f : inode -> inode) : K unit :=
  p <- gets (fun s => k_inodes s !! i) ;; p <- deref p ;;
  modify (fun s => set_k_inodes (<[i := f p]> (k_inodes s)) s).
Definition get_inode (i : nat) : K inode := p <- gets (fun s => k_inodes s !! i) ;; deref p.
Definition upd_buf (i : nat) (f : buf -> buf) : K unit :=
  p <- gets (fun s => k_bufs s !! i) ;; p <- deref p ;;
  modify (fun s => set_k_bufs (<[i := f p]> (k_bufs s)) s).
Definition get_buf (i : nat) : K buf := p <- gets (fun s => k_bufs s !! i) ;; deref p.
Definition upd_cpu (i : nat) (f : cpu -> cpu) : K unit :=
  p <- gets (fun s => k_cpus s !! i) ;; p <- deref p ;;
  modify (fun s => set_k_cpus (<[i := f p]> (k_cpus s)) s).
Definition upd_pipe (a : Z) (f : pipe -> pipe) : K unit :=
  modify (fun s => set_k_pipes (fupd (k_pipes s) a (f (k_pipes s a))) s).
Definition upd_log (f : logstate -> logstate) : K unit :=
  modify (fun s => set_k_log (f (k_log s)) s).
Definition upd_hw (f : hardware -> hardware) : K unit :=
  modify (fun s => set_k_hw (f (k_hw s)) s).

(** Indices of a table, in order. *)
Definition upto (n : Z) : list nat := seq 0 (Z.to_nat n).

(** ** The state of the loaded kernel before [main]: zeroed globals. *)
Definition tf0 : trapframe := mk_trapframe 0 0 0 0 0 0 0 0 0 0 0 0 0 0 0 0 0 0 0.
Definition cx0 : context := mk_context 0 0 0 0 0.
Definition ts0 : taskstate := mk_taskstate 0 0 0 0 0 0 0 0 0 0 0 0 0 0 0 0 0 0 0 0 0 0 0 0 0 0 0.
Definition sd0 : segdesc := mk_segdesc 0 0 0 0 0 0 0 0 0 0 0 0 0.
Definition cpu0 (apicid : Z) : cpu := mk_cpu apicid ts0 (replicate 6 sd0) 0 0 0 None.
Definition proc0 : proc :=
  mk_proc 0 0 0 UNUSED 0 None tf0 cx0 None 0 (replicate 16 None) None (replicate 16 0)
    (replicate 23 0) (replicate 23 0) 0 (replicate 64 (mk_reference None 0)).
Definition file0 : file := mk_file FD_NONE 0 0 0 0 None 0.
Definition inode0 : inode := mk_inode 0 0 0 0 0 0 0 0 0 (replicate 13 0).
Definition pipe0 : pipe := mk_pipe (replicate 512 0) 0 0 0 0.
Definition buf0 : buf := mk_buf 0 0 0 0 0 0 None (replicate 512 0).
Definition lock0 : spinlock := mk_spinlock 0 "" None (replicate 10 0).
Definition slock0 : sleeplock := mk_sleeplock 0 "" 0.
Definition region0 : sharedRegion_t := mk_region 0 0 0 (replicate 64 0).

(** One processor with the given disk image and kernel end address. *)
Definition boot_state (kend kdata : Z) (disk : Z -> list Z) : kstate :=
  mk_kstate (mk_hw 0 0 0 0 0 0 0 disk 0 (fun _ => 0) 0x40 [] disk (fun _ => 0) (fun _ => 0) 0 [] [] None) kend kdata (fun i => kdata + 4096 * Z.of_nat i) [cpu0 0] 1 (fun _ => lock0) (fun _ => slock0)
    (fun _ => 0) (mk_kmem 0 0) 0 (replicate 64 proc0) None 1 1 0 (replicate 100 file0)
    (fun _ => pipe0) (replicate 31 buf0) None 0 (mk_log 0 0 0 0 0 0 (replicate 30 0))
    (mk_superblock 0 0 0 0 0 0 0) (replicate 50 inode0) (replicate 10 (mk_devsw None None))
    0 0 (mk_input (replicate 128 0) 0 0 0) [] (mk_crt 0 (fun _ => 0)) (replicate 64 region0)
    0x80105d00 0x80103a00 8 (replicate 256 (mk_gatedesc 0 0 0 0 0 0 0 0 0)) (replicate 256 0x80106000) 1000 0 0 0 [].
