(* ===== verification/Spinlock.v ===== *)
(** * Processors and spin locks

    [spinlock.c], and the part of [proc.c] it needs: [mycpu], [cpuid],
    [myproc]; [lapic.c]: [lapicid].  The first half runs the code on the current
    processor; the second half interleaves the atomic steps of [acquire] and
    [release] on all processors and proves mutual exclusion. *)

From S2P Require Import Prelude Mmu Mem State.

(** [x86.h]: the interrupt flag. *)
Definition readeflags : K Z := gets (fun s => hw_eflags (k_hw s)).
Definition cli : K unit := upd_hw (fun h => set_hw_eflags (Z.ldiff (hw_eflags h) FL_IF) h).
Definition sti : K unit := upd_hw (fun h => set_hw_eflags (Z.lor (hw_eflags h) FL_IF) h).

(** [lapic.c] *)
Definition lapicid (s : kstate) : Z := if hw_lapic (k_hw s) =? 0 then 0 else hw_apicid (k_hw s).

(** [proc.c]: the search of [mycpu]. *)
Definition find_cpu (s : kstate) : option nat :=
  List.find (fun i => match k_cpus s !! i with
                      | Some c => c_apicid c =? lapicid s | None => false end)
    (upto (k_ncpu s)).

Definition mycpu : K nat :=
  eflags <- readeflags ;;
  if has_bits eflags FL_IF then panic "mycpu called with interrupts enabled\n"
  else
    r <- gets find_cpu ;;
    match r with Some i => ret i | None => panic "unknown apicid\n" end.

Definition cpuid : K Z := c <- mycpu ;; ret (Z.of_nat c).

Definition get_cpu (i : nat) : K cpu := c <- gets (fun s => k_cpus s !! i) ;; deref c.

(** [spinlock.c] *)
Definition pushcli : K unit :=
  eflags <- readeflags ;;
  cli ;;
  i <- mycpu ;; c <- get_cpu i ;;
  when (c_ncli c =? 0) (i <- mycpu ;; upd_cpu i (set_c_intena (Z.land eflags FL_IF))) ;;
  i <- mycpu ;; upd_cpu i (fun c => set_c_ncli (c_ncli c + 1) c).

Definition popcli : K unit :=
  eflags <- readeflags ;;
  if has_bits eflags FL_IF then panic "popcli - interruptible" else
  i <- mycpu ;; upd_cpu i (fun c => set_c_ncli (c_ncli c - 1) c) ;;
  c <- get_cpu i ;;
  if c_ncli c <? 0 then panic "popcli" else
  i <- mycpu ;; c <- get_cpu i ;;
  when ((c_ncli c =? 0) && truth (c_intena c)) sti.

Definition initlock (lk : lockid) (name : string) : K unit :=
  modify (fun s => set_k_locks (fupd (k_locks s) lk (mk_spinlock 0 name None (lk_pcs (k_locks s lk)))) s).

Definition holding (lk : lockid) : K bool :=
  pushcli ;;
  l <- gets (fun s => k_locks s lk) ;;
  r <- (if truth (lk_locked l) then i <- mycpu ;; ret (bool_decide (lk_cpu l = Some i)) else ret false) ;;
  popcli ;;
  ret r.

(** The first loop of [getcallerpcs] fills, the second zeroes the rest. *)
Fixpoint getcallerpcs_loop (m : mem) (ebp : Z) (n : nat) : list Z :=
  match n with
  | O => []
  | S n' =>
      if (ebp =? 0) || (ebp <? KERNBASE) || (ebp =? 0xffffffff) then replicate (S n') 0
      else ld32 m (ebp + 4) :: getcallerpcs_loop m (ld32 m ebp) n'
  end.
Definition getcallerpcs (m : mem) (v : Z) : list Z := getcallerpcs_loop m (u32 (v - 8)) 10.

(** [x86.h]: atomic exchange on the lock word. *)
Definition xchg_locked (lk : lockid) (newval : Z) : K Z :=
  l <- gets (fun s => k_locks s lk) ;;
  modify (fun s => set_k_locks (fupd (k_locks s) lk
    (mk_spinlock newval (lk_name l) (lk_cpu l) (lk_pcs l))) s) ;;
  ret (lk_locked l).

Definition acquire (lk : lockid) : K unit :=
  pushcli ;;
  h <- holding lk ;;
  if h then panic "acquire" else
  r <- xchg_locked lk 1 ;;
  if negb (r =? 0) then spin else
  i <- mycpu ;;
  modify (fun s => let l := k_locks s lk in
    set_k_locks (fupd (k_locks s) lk
      (mk_spinlock (lk_locked l) (lk_name l) (Some i)
         (getcallerpcs (k_mem s) (hw_frame (k_hw s))))) s).

Definition release (lk : lockid) : K unit :=
  h <- holding lk ;;
  if negb h then panic "release" else
  modify (fun s => let l := k_locks s lk in
    set_k_locks (fupd (k_locks s) lk (mk_spinlock (lk_locked l) (lk_name l) None (<[0%nat := 0]> (lk_pcs l)))) s) ;;
  modify (fun s => let l := k_locks s lk in
    set_k_locks (fupd (k_locks s) lk (mk_spinlock 0 (lk_name l) (lk_cpu l) (lk_pcs l))) s) ;;
  popcli.

(** [proc.c] *)
Definition myproc : K (option nat) :=
  pushcli ;;
  i <- mycpu ;; c <- get_cpu i ;;
  popcli ;;
  ret (c_proc c).

(* ------------------------------------------------------------------ *)
(** ** The current processor *)

(** [cpu_inv s i c]: the code runs on processor [i] whose record is [c], and
    interrupts are off whenever some [pushcli] is open. *)
Record cpu_inv (s : kstate) (i : nat) (c : cpu) : Prop := mk_cpu_inv {
  ci_find : find_cpu s = Some i;
  ci_cpu : k_cpus s !! i = Some c;
  ci_ncli : 0 <= c_ncli c;
  ci_if : 0 < c_ncli c -> has_bits (hw_eflags (k_hw s)) FL_IF = false }.

(** The processor state after [pushcli] and after [popcli]. *)
Definition push_cpu (s : kstate) (c : cpu) : cpu :=
  set_c_ncli (c_ncli c + 1)
    (if c_ncli c =? 0 then set_c_intena (Z.land (hw_eflags (k_hw s)) FL_IF) c else c).
Definition push_state (i : nat) (c : cpu) (s : kstate) : kstate :=
  set_k_cpus (<[i := push_cpu s c]> (k_cpus s))
    (set_k_hw (set_hw_eflags (Z.ldiff (hw_eflags (k_hw s)) FL_IF) (k_hw s)) s).
Definition pop_state (i : nat) (c : cpu) (s : kstate) : kstate :=
  let s1 := set_k_cpus (<[i := set_c_ncli (c_ncli c - 1) c]> (k_cpus s)) s in
  if (c_ncli c - 1 =? 0) && truth (c_intena c)
  then set_k_hw (set_hw_eflags (Z.lor (hw_eflags (k_hw s1)) FL_IF) (k_hw s1)) s1 else s1.

Lemma ldiff_FL_IF x : has_bits (Z.ldiff x FL_IF) FL_IF = false.
Proof.
  unfold has_bits. assert (Z.land (Z.ldiff x FL_IF) FL_IF = 0) as ->; [|done].
  apply Z.bits_inj'. intros n Hn. rewrite Z.land_spec, Z.ldiff_spec, Z.bits_0.
  destruct (Z.testbit FL_IF n); simpl; by rewrite ?andb_false_r.
Qed.

Lemma lor_FL_IF x : has_bits (Z.lor x FL_IF) FL_IF = true.
Proof.
  unfold has_bits. apply negb_true_iff, Z.eqb_neq. intros H.
  assert (Z.testbit (Z.land (Z.lor x FL_IF) FL_IF) 9 = true) as Ht.
  { rewrite Z.land_spec, Z.lor_spec. change (Z.testbit FL_IF 9) with true. by rewrite orb_true_r. }
  rewrite H in Ht. done.
Qed.

Lemma has_bits_FL_IF x : has_bits x FL_IF = Z.testbit x 9.
Proof.
  unfold has_bits. change FL_IF with (2 ^ 9).
  destruct (Z.testbit x 9) eqn:E.
  - apply negb_true_iff, Z.eqb_neq. intros H.
    assert (Z.testbit (Z.land x (2 ^ 9)) 9 = true) as Ht by (rewrite Z.land_spec, E; done).
    by rewrite H in Ht.
  - apply negb_false_iff, Z.eqb_eq, Z.bits_inj'. intros n Hn.
    rewrite Z.land_spec, Z.bits_0. destruct (decide (n = 9)) as [->|].
    + by rewrite E.
    + rewrite Z.pow2_bits_false by done. apply andb_false_r.
Qed.

(** Which processor runs the code depends on the identifiers only. *)
Lemma find_cpu_ext s s' :
  (forall j, c_apicid <$> k_cpus s' !! j = c_apicid <$> k_cpus s !! j) ->
  lapicid s' = lapicid s -> k_ncpu s' = k_ncpu s -> find_cpu s' = find_cpu s.
Proof.
  intros Hc Hl Hn. unfold find_cpu. rewrite Hl, Hn.
  induction (upto (k_ncpu s)) as [|j l IH]; [done|]. simpl. rewrite IH.
  specialize (Hc j). destruct (k_cpus s !! j), (k_cpus s' !! j); simpl in Hc; simplify_eq; by rewrite ?Hc.
Qed.

Lemma apicid_insert (l : list cpu) i c c' j :
  l !! i = Some c -> c_apicid c' = c_apicid c ->
  c_apicid <$> <[i := c']> l !! j = c_apicid <$> l !! j.
Proof.
  intros Hc Ha. destruct (decide (i = j)) as [<-|Hne].
  - rewrite list_lookup_insert_eq by (by eapply lookup_lt_Some). rewrite Hc. simpl. by rewrite Ha.
  - by rewrite list_lookup_insert_ne.
Qed.

(** Rewrite the head of a sequence with a known run. *)
Ltac run H := cbv beta match; rewrite (bind_Ret _ _ _ _ _ H); cbv beta match.
(** Run the next step when its result is definitional or a hypothesis. *)
Ltac rstep :=
  cbv beta match; erewrite bind_Ret; [| first [reflexivity | eassumption]]; cbv beta match.

Lemma mycpu_ok s i : find_cpu s = Some i -> has_bits (hw_eflags (k_hw s)) FL_IF = false -> mycpu s = Ret i s.
Proof. intros Hf He. unfold mycpu. rstep. rewrite He. rstep. by rewrite Hf. Qed.
Lemma get_cpu_ok s i c : k_cpus s !! i = Some c -> get_cpu i s = Ret c s.
Proof. intros Hc. unfold get_cpu. rstep. by rewrite Hc. Qed.
Lemma upd_cpu_ok s i c f :
  k_cpus s !! i = Some c -> upd_cpu i f s = Ret tt (set_k_cpus (<[i := f c]> (k_cpus s)) s).
Proof. intros Hc. unfold upd_cpu. rstep. rewrite Hc. done. Qed.

(** The counters of processor [i] change, nothing else. *)
Lemma mycpu_after_update s i c c' :
  find_cpu s = Some i -> k_cpus s !! i = Some c -> c_apicid c' = c_apicid c ->
  has_bits (hw_eflags (k_hw s)) FL_IF = false ->
  mycpu (set_k_cpus (<[i := c']> (k_cpus s)) s) = Ret i (set_k_cpus (<[i := c']> (k_cpus s)) s).
Proof.
  intros Hf Hc Ha He. apply mycpu_ok; [|done]. rewrite <- Hf. apply find_cpu_ext; try done.
  intros j. by apply apicid_insert with c.
Qed.

Lemma pushcli_ok s i c : cpu_inv s i c -> pushcli s = Ret tt (push_state i c s).
Proof.
  intros [Hf Hc Hn Hi]. unfold pushcli, push_state, push_cpu. rstep. rstep.
  set (s1 := set_k_hw _ s).
  assert (find_cpu s1 = Some i) as Hf1 by (rewrite <- Hf; by apply find_cpu_ext).
  assert (has_bits (hw_eflags (k_hw s1)) FL_IF = false) as He1 by apply ldiff_FL_IF.
  pose proof (mycpu_ok s1 i Hf1 He1) as Hm1. pose proof (get_cpu_ok s1 i c Hc) as Hg1.
  assert (i < length (k_cpus s))%nat as Hlt by (by eapply lookup_lt_Some).
  run Hm1. run Hg1. unfold when. destruct (Z.eqb_spec (c_ncli c) 0) as [E|E].
  - erewrite bind_Ret; [|run Hm1; by apply (upd_cpu_ok s1 i c)]. cbv beta.
    erewrite bind_Ret; [|by apply (mycpu_after_update s1 i c)]. cbv beta.
    erewrite upd_cpu_ok; [|by apply list_lookup_insert_eq].
    f_equal. unfold set_k_cpus; simpl. by rewrite list_insert_insert_eq.
  - rstep. run Hm1. by erewrite upd_cpu_ok.
Qed.

Lemma popcli_ok s i c :
  cpu_inv s i c -> 0 < c_ncli c -> popcli s = Ret tt (pop_state i c s).
Proof.
  intros [Hf Hc Hn Hi] Hpos. specialize (Hi Hpos). unfold popcli, pop_state.
  assert (i < length (k_cpus s))%nat as Hlt by (by eapply lookup_lt_Some).
  rstep. rewrite Hi. run (mycpu_ok s i Hf Hi). run (upd_cpu_ok s i c (fun c => set_c_ncli (c_ncli c - 1) c) Hc).
  erewrite bind_Ret; [|apply get_cpu_ok; by apply list_lookup_insert_eq]. cbv beta.
  destruct (Z.ltb_spec (c_ncli (set_c_ncli (c_ncli c - 1) c)) 0); [simpl in *; lia|].
  erewrite bind_Ret; [|by apply (mycpu_after_update s i c)]. cbv beta.
  erewrite bind_Ret; [|apply get_cpu_ok; by apply list_lookup_insert_eq]. cbv beta. simpl.
  by destruct ((c_ncli c - 1 =? 0) && truth (c_intena c)).
Qed.

Lemma cpu_inv_push s i c : cpu_inv s i c -> cpu_inv (push_state i c s) i (push_cpu s c).
Proof.
  intros [Hf Hc Hn Hi]. split.
  - rewrite <- Hf. apply find_cpu_ext; try done. intros j.
    apply apicid_insert with c; [done|]. unfold push_cpu. by destruct (c_ncli c =? 0).
  - simpl. apply list_lookup_insert_eq. by eapply lookup_lt_Some.
  - unfold push_cpu; simpl. lia.
  - intros _. apply ldiff_FL_IF.
Qed.

(** Leaving a [pushcli] restores the interrupt flag and the nesting depth. *)
Definition pop_cpu (c : cpu) : cpu := set_c_ncli (c_ncli c - 1) c.

Lemma cpu_inv_pop s i c :
  cpu_inv s i c -> 0 < c_ncli c -> cpu_inv (pop_state i c s) i (pop_cpu c).
Proof.
  intros [Hf Hc Hn Hi] Hpos. unfold pop_state, pop_cpu.
  assert (i < length (k_cpus s))%nat as Hlt by (by eapply lookup_lt_Some).
  destruct (Z.eqb_spec (c_ncli c - 1) 0) as [E|E]; simpl.
  - destruct (truth (c_intena c)); split; simpl; try (rewrite list_lookup_insert_eq by done); try done; try lia.
    all: rewrite <- Hf; apply find_cpu_ext; try done; intros j; by apply apicid_insert with c.
  - split; simpl; try (rewrite list_lookup_insert_eq by done); try done; try lia.
    2: intros _; by apply Hi.
    rewrite <- Hf. apply find_cpu_ext; try done. intros j. by apply apicid_insert with c.
Qed.

(** The record of a processor after a balanced [pushcli]/[popcli]: only
    [intena] may have been refreshed. *)
Definition touch_cpu (s : kstate) (c : cpu) : cpu :=
  if c_ncli c =? 0 then set_c_intena (Z.land (hw_eflags (k_hw s)) FL_IF) c else c.

Lemma set_ncli_roundtrip c : set_c_ncli (c_ncli c + 1 - 1) c = c.
Proof. destruct c; unfold set_c_ncli; simpl. f_equal. lia. Qed.
Lemma ldiff_off x : has_bits x FL_IF = false -> Z.ldiff x FL_IF = x.
Proof.
  rewrite has_bits_FL_IF. intros H. apply Z.bits_inj'. intros n Hn. rewrite Z.ldiff_spec.
  change FL_IF with (2 ^ 9). destruct (decide (n = 9)) as [->|].
  - by rewrite H.
  - by rewrite Z.pow2_bits_false, andb_true_r by done.
Qed.
Lemma lor_ldiff_on x : has_bits x FL_IF = true -> Z.lor (Z.ldiff x FL_IF) FL_IF = x.
Proof.
  rewrite has_bits_FL_IF. intros H. apply Z.bits_inj'. intros n Hn. rewrite Z.lor_spec, Z.ldiff_spec.
  change FL_IF with (2 ^ 9). destruct (decide (n = 9)) as [->|].
  - by rewrite H.
  - rewrite Z.pow2_bits_false by done. by rewrite andb_true_r, orb_false_r.
Qed.

Lemma set_hw_eflags_id s : set_k_hw (set_hw_eflags (hw_eflags (k_hw s)) (k_hw s)) s = s.
Proof. destruct s as [[] ]; done. Qed.
Lemma set_k_cpus_id s : set_k_cpus (k_cpus s) s = s.
Proof. by destruct s. Qed.
Lemma touch_pos s c : 0 < c_ncli c -> touch_cpu s c = c.
Proof. intros H. unfold touch_cpu. destruct (Z.eqb_spec (c_ncli c) 0); [lia|done]. Qed.
Lemma touch_ncli s c : c_ncli (touch_cpu s c) = c_ncli c.
Proof. unfold touch_cpu. by destruct (c_ncli c =? 0). Qed.
Lemma touch_proc s c : c_proc (touch_cpu s c) = c_proc c.
Proof. unfold touch_cpu. by destruct (c_ncli c =? 0). Qed.

(** Interrupts come back exactly as they were. *)
Lemma push_pop s i c :
  cpu_inv s i c ->
  pop_state i (push_cpu s c) (push_state i c s) =
    set_k_cpus (<[i := touch_cpu s c]> (k_cpus s)) s.
Proof.
  intros [Hf Hc Hn Hi]. unfold pop_state, push_state. cbv zeta.
  assert (set_c_ncli (c_ncli (push_cpu s c) - 1) (push_cpu s c) = touch_cpu s c) as ->.
  { unfold push_cpu, touch_cpu. destruct (c_ncli c =? 0); destruct c; unfold set_c_ncli, set_c_intena; simpl; f_equal; lia. }
  cbn [k_cpus set_k_cpus set_k_hw k_hw hw_eflags set_hw_eflags]. rewrite list_insert_insert_eq.
  unfold push_cpu; simpl. replace (c_ncli c + 1 - 1) with (c_ncli c) by lia.
  destruct (Z.eqb_spec (c_ncli c) 0) as [E|E]; simpl.
  - destruct (has_bits (hw_eflags (k_hw s)) FL_IF) eqn:He.
    + unfold truth, has_bits in *. rewrite He. unfold set_k_hw, set_k_cpus, set_hw_eflags; simpl.
      rewrite lor_ldiff_on by done. destruct s as [[]]; done.
    + unfold truth, has_bits in *. rewrite He. unfold set_k_hw, set_k_cpus, set_hw_eflags; simpl.
      rewrite ldiff_off by done. destruct s as [[]]; done.
  - unfold set_k_hw, set_k_cpus, set_hw_eflags; simpl.
    rewrite ldiff_off by (apply Hi; lia). destruct s as [[]]; done.
Qed.

Lemma cpu_inv_touch s i c :
  cpu_inv s i c -> cpu_inv (set_k_cpus (<[i := touch_cpu s c]> (k_cpus s)) s) i (touch_cpu s c).
Proof.
  intros [Hf Hc Hn Hi]. assert (i < length (k_cpus s))%nat by (by eapply lookup_lt_Some). split.
  - rewrite <- Hf. apply find_cpu_ext; try done. intros j. apply apicid_insert with c; [done|].
    unfold touch_cpu. by destruct (c_ncli c =? 0).
  - simpl. by apply list_lookup_insert_eq.
  - by rewrite touch_ncli.
  - rewrite touch_ncli. done.
Qed.

Lemma cpu_inv_ext s s' i c :
  k_hw s' = k_hw s -> k_cpus s' = k_cpus s -> k_ncpu s' = k_ncpu s ->
  cpu_inv s i c -> cpu_inv s' i c.
Proof.
  intros Hh Hc Hn [Hf Hi Hp Hif]. split; [|by rewrite Hc|done|by rewrite Hh].
  rewrite <- Hf. apply find_cpu_ext; [intros j; by rewrite Hc| |done].
  unfold lapicid. by rewrite Hh.
Qed.

Lemma holding_ok s i c lk :
  cpu_inv s i c ->
  holding lk s = Ret (truth (lk_locked (k_locks s lk)) && bool_decide (lk_cpu (k_locks s lk) = Some i))
                     (set_k_cpus (<[i := touch_cpu s c]> (k_cpus s)) s).
Proof.
  intros HI. unfold holding. run (pushcli_ok s i c HI). pose proof (cpu_inv_push s i c HI) as HI'.
  assert (mycpu (push_state i c s) = Ret i (push_state i c s)) as Hm
    by (apply mycpu_ok; [apply HI' | apply ldiff_FL_IF]).
  assert (popcli (push_state i c s) = Ret tt (set_k_cpus (<[i := touch_cpu s c]> (k_cpus s)) s)) as Hp.
  { rewrite (popcli_ok _ i (push_cpu s c)); [by rewrite push_pop|done|]. destruct HI. unfold push_cpu; simpl. lia. }
  rstep. change (k_locks (push_state i c s)) with (k_locks s).
  destruct (truth (lk_locked (k_locks s lk))).
  - erewrite bind_Ret; [|by run Hm]. cbv beta. run Hp. done.
  - rstep. run Hp. done.
Qed.

Lemma holding_ok' s i c lk :
  cpu_inv s i c -> 0 < c_ncli c ->
  holding lk s = Ret (truth (lk_locked (k_locks s lk)) && bool_decide (lk_cpu (k_locks s lk) = Some i)) s.
Proof.
  intros HI Hpos. rewrite (holding_ok s i c lk HI), touch_pos by done.
  rewrite list_insert_id by apply HI. by rewrite set_k_cpus_id.
Qed.

(** The state after [acquire] of a free lock and after [release] of a held one. *)
Definition acquired (lk : lockid) (i : nat) (c : cpu) (s : kstate) : kstate :=
  let l := k_locks s lk in
  let l1 := mk_spinlock 1 (lk_name l) (lk_cpu l) (lk_pcs l) in
  let l2 := mk_spinlock 1 (lk_name l) (Some i) (getcallerpcs (k_mem s) (hw_frame (k_hw s))) in
  set_k_locks (fupd (fupd (k_locks s) lk l1) lk l2) (push_state i c s).
Definition released (lk : lockid) (i : nat) (c : cpu) (s : kstate) : kstate :=
  let l := k_locks s lk in
  let l1 := mk_spinlock (lk_locked l) (lk_name l) None (<[0%nat := 0]> (lk_pcs l)) in
  let l2 := mk_spinlock 0 (lk_name l) None (<[0%nat := 0]> (lk_pcs l)) in
  pop_state i c (set_k_locks (fupd (fupd (k_locks s) lk l1) lk l2) s).

Definition unlocked (lk : lockid) (s : kstate) : Prop := lk_locked (k_locks s lk) = 0.
Definition held_by (lk : lockid) (i : nat) (s : kstate) : Prop :=
  lk_locked (k_locks s lk) = 1 /\ lk_cpu (k_locks s lk) = Some i.

Lemma acquire_ok s i c lk :
  cpu_inv s i c -> unlocked lk s -> acquire lk s = Ret tt (acquired lk i c s).
Proof.
  intros HI Hu. unfold unlocked in Hu. unfold acquire. run (pushcli_ok s i c HI).
  pose proof (cpu_inv_push s i c HI) as HI'.
  run (holding_ok' _ i _ lk HI' ltac:(destruct HI; unfold push_cpu; simpl; lia)).
  change (k_locks (push_state i c s)) with (k_locks s). rewrite Hu. simpl.
  unfold xchg_locked. erewrite bind_Ret; [|rstep; rstep; reflexivity]. cbv beta.
  change (k_locks (push_state i c s)) with (k_locks s). rewrite Hu. simpl.
  erewrite bind_Ret; [|apply mycpu_ok; [|apply ldiff_FL_IF]].
  - unfold modify, acquired. cbv beta zeta. simpl. by rewrite fupd_same.
  - rewrite <- (ci_find _ _ _ HI'). by apply find_cpu_ext.
Qed.

Lemma acquire_mine s i c lk :
  cpu_inv s i c -> ~ unlocked lk s -> lk_cpu (k_locks s lk) = Some i -> acquire lk s = Panic "acquire".
Proof.
  intros HI Hl Hc. unfold acquire. run (pushcli_ok s i c HI). pose proof (cpu_inv_push s i c HI) as HI'.
  run (holding_ok' _ i _ lk HI' ltac:(destruct HI; unfold push_cpu; simpl; lia)).
  change (k_locks (push_state i c s)) with (k_locks s). apply truth_true in Hl. by rewrite Hl, bool_decide_eq_true_2.
Qed.
Lemma acquire_held s i c lk :
  cpu_inv s i c -> held_by lk i s -> acquire lk s = Panic "acquire".
Proof. intros HI [Hl Hc]. apply (acquire_mine s i c); [done| |done]. unfold unlocked. by rewrite Hl. Qed.

(** [acquire] of a lock that is taken elsewhere goes round in the [xchg] loop. *)
Definition spun (lk : lockid) (i : nat) (c : cpu) (s : kstate) : kstate :=
  let l := k_locks s lk in
  set_k_locks (fupd (k_locks s) lk (mk_spinlock 1 (lk_name l) (lk_cpu l) (lk_pcs l))) (push_state i c s).
Lemma acquire_spins s i c lk :
  cpu_inv s i c -> ~ unlocked lk s -> lk_cpu (k_locks s lk) <> Some i -> acquire lk s = Spin (spun lk i c s).
Proof.
  intros HI Hl Hc. unfold acquire. run (pushcli_ok s i c HI). pose proof (cpu_inv_push s i c HI) as HI'.
  run (holding_ok' _ i _ lk HI' ltac:(destruct HI; unfold push_cpu; simpl; lia)).
  change (k_locks (push_state i c s)) with (k_locks s). rewrite bool_decide_eq_false_2, andb_false_r by done.
  unfold xchg_locked. erewrite bind_Ret; [|rstep; rstep; reflexivity]. cbv beta.
  change (k_locks (push_state i c s)) with (k_locks s). by destruct (Z.eqb_spec (lk_locked (k_locks s lk)) 0).
Qed.

Lemma release_mine s i c lk :
  cpu_inv s i c -> 0 < c_ncli c -> truth (lk_locked (k_locks s lk)) = true -> lk_cpu (k_locks s lk) = Some i ->
  release lk s = Ret tt (released lk i c s).
Proof.
  intros HI Hpos Hl Hc. unfold release. run (holding_ok' s i c lk HI Hpos).
  rewrite Hl, Hc, bool_decide_eq_true_2 by done. simpl. rstep. rstep.
  rewrite (popcli_ok _ i c); [|by apply (cpu_inv_ext s)|done].
  unfold released. simpl. by rewrite fupd_same.
Qed.
Lemma release_ok s i c lk :
  cpu_inv s i c -> 0 < c_ncli c -> held_by lk i s -> release lk s = Ret tt (released lk i c s).
Proof. intros HI Hpos [Hl Hc]. apply release_mine; try done. by rewrite Hl. Qed.

Lemma release_not_held s i c lk :
  cpu_inv s i c -> unlocked lk s \/ lk_cpu (k_locks s lk) <> Some i -> release lk s = Panic "release".
Proof.
  intros HI Hu. unfold release. run (holding_ok s i c lk HI).
  assert (truth (lk_locked (k_locks s lk)) && bool_decide (lk_cpu (k_locks s lk) = Some i) = false) as ->; [|done].
  destruct Hu as [Hu|Hu]; [unfold unlocked in Hu; by rewrite Hu|].
  rewrite bool_decide_eq_false_2 by done. apply andb_false_r.
Qed.

Lemma held_acquired lk i c s : held_by lk i (acquired lk i c s).
Proof. unfold held_by, acquired; simpl. by rewrite !fupd_same. Qed.
Lemma locks_acquired_other lk lk' i c s :
  lk' <> lk -> k_locks (acquired lk i c s) lk' = k_locks s lk'.
Proof. intros H. unfold acquired; simpl. by rewrite !fupd_other. Qed.
Lemma cpu_inv_acquired lk i c s : cpu_inv s i c -> cpu_inv (acquired lk i c s) i (push_cpu s c).
Proof. intros HI. apply (cpu_inv_ext (push_state i c s)); try done. by apply cpu_inv_push. Qed.
Lemma pop_state_locks i c s : k_locks (pop_state i c s) = k_locks s.
Proof. unfold pop_state. simpl. by destruct ((c_ncli c - 1 =? 0) && truth (c_intena c)). Qed.
Lemma unlocked_released lk i c s : unlocked lk (released lk i c s).
Proof. unfold unlocked, released. rewrite pop_state_locks. simpl. by rewrite fupd_same. Qed.
Lemma locks_released_other lk lk' i c s :
  lk' <> lk -> k_locks (released lk i c s) lk' = k_locks s lk'.
Proof. intros H. unfold released. rewrite pop_state_locks. simpl. by rewrite !fupd_other. Qed.
Lemma cpu_inv_released lk i c s :
  cpu_inv s i c -> 0 < c_ncli c -> cpu_inv (released lk i c s) i (pop_cpu c).
Proof. intros HI Hp. apply cpu_inv_pop; [|done]. by apply (cpu_inv_ext s). Qed.
Lemma push_ncli s c : c_ncli (push_cpu s c) = c_ncli c + 1.
Proof. done. Qed.

(** C30: on one processor, [acquire] of a free lock followed by [release] gives
    the interrupt flag and the nesting depth back exactly, frees the lock, and
    leaves every other lock alone; taking a held lock again panics, and so does
    releasing a lock that this processor does not hold. *)
Theorem acquire_release_balanced s i c lk :
  cpu_inv s i c ->
  (unlocked lk s ->
     exists s', (acquire lk ;; release lk) s = Ret tt s' /\
       k_hw s' = k_hw s /\ unlocked lk s' /\
       (exists c', cpu_inv s' i c' /\ c_ncli c' = c_ncli c /\ c_proc c' = c_proc c) /\
       forall lk', lk' <> lk -> k_locks s' lk' = k_locks s lk') /\
  (held_by lk i s -> acquire lk s = Panic "acquire") /\
  (lk_cpu (k_locks s lk) <> Some i -> release lk s = Panic "release").
Proof.
  intros HI. split; [|split].
  - intros Hu. pose proof (cpu_inv_acquired lk i c s HI) as HA.
    assert (0 < c_ncli (push_cpu s c)) as Hp by (rewrite push_ncli; destruct HI; lia).
    exists (released lk i (push_cpu s c) (acquired lk i c s)).
    run (acquire_ok s i c lk HI Hu). rewrite (release_ok _ i (push_cpu s c) lk HA Hp (held_acquired lk i c s)).
    repeat split.
    + transitivity (k_hw (pop_state i (push_cpu s c) (push_state i c s))).
      * unfold released, pop_state; simpl. by destruct (_ && _).
      * by rewrite push_pop.
    + apply unlocked_released.
    + exists (pop_cpu (push_cpu s c)). split; [by apply cpu_inv_released|].
      unfold push_cpu; simpl. split; [lia|]. by destruct (c_ncli c =? 0).
    + intros lk' Hne. rewrite locks_released_other, locks_acquired_other by done. done.
  - by apply acquire_held with c.
  - intros Hc. by apply (release_not_held s i c); [|right].
Qed.

(** A freshly booted processor. *)
Definition boot : kstate := boot_state 0x80112000 0x80108000 (fun _ => []).
Lemma boot_cpu : cpu_inv boot 0 (cpu0 0).
Proof. by split. Qed.

Lemma acquire_release_balanced_witness :
  exists s', (acquire Lk_ptable ;; release Lk_ptable) boot = Ret tt s' /\ unlocked Lk_ptable s'.
Proof.
  destruct (acquire_release_balanced boot 0 (cpu0 0) Lk_ptable boot_cpu) as [H _].
  destruct (H eq_refl) as (s' & H1 & _ & H2 & _). exists s'. exact (conj H1 H2).
Defined.

(* ------------------------------------------------------------------ *)
(** ** All processors

    The interleaving of the atomic accesses of [acquire] and [release] to one
    lock: the [xchg], the assignment of [lk->cpu], its clearing, and the final
    [movl $0]. *)
Module Smp.

Inductive pc := Out | Want | Got | In | Leaving.

Record smp := mk_smp { word : Z; owner : option nat; at_pc : nat -> pc }.

(** What [holding] answers on processor [j]. *)
Definition holds (st : smp) (j : nat) : bool :=
  truth (word st) && bool_decide (owner st = Some j).

Definition moves (st st' : smp) (j : nat) (p : pc) : Prop :=
  at_pc st' j = p /\ forall k, k <> j -> at_pc st' k = at_pc st k.

Inductive step (st st' : smp) (j : nat) : Prop :=
| st_enter : at_pc st j = Out -> holds st j = false -> moves st st' j Want ->
    word st' = word st -> owner st' = owner st -> step st st' j
| st_xchg_fail : at_pc st j = Want -> word st <> 0 -> moves st st' j Want ->
    word st' = 1 -> owner st' = owner st -> step st st' j
| st_xchg_ok : at_pc st j = Want -> word st = 0 -> moves st st' j Got ->
    word st' = 1 -> owner st' = owner st -> step st st' j
| st_record : at_pc st j = Got -> moves st st' j In ->
    word st' = word st -> owner st' = Some j -> step st st' j
| st_clear : at_pc st j = In -> holds st j = true -> moves st st' j Leaving ->
    word st' = word st -> owner st' = None -> step st st' j
| st_free : at_pc st j = Leaving -> moves st st' j Out ->
    word st' = 0 -> owner st' = owner st -> step st st' j.

Inductive steps : smp -> smp -> Prop :=
| steps_refl st : steps st st
| steps_step st st' st'' j : step st st' j -> steps st' st'' -> steps st st''.

Definition initial (st : smp) : Prop := word st = 0 /\ owner st = None /\ forall j, at_pc st j = Out.
Definition reachable (st : smp) : Prop := exists st0, initial st0 /\ steps st0 st.

(** Processors between their successful [xchg] and the final store. *)
Definition inside (p : pc) : bool := match p with Got | In | Leaving => true | _ => false end.

Record inv (st : smp) : Prop := mk_inv {
  inv_word : forall j, inside (at_pc st j) = true -> word st = 1;
  inv_free : (forall j, inside (at_pc st j) = false) -> word st = 0;
  inv_one : forall j k, inside (at_pc st j) = true -> inside (at_pc st k) = true -> j = k;
  inv_owner : forall j, owner st = Some j <-> at_pc st j = In }.

Lemma inv_init st : initial st -> inv st.
Proof.
  intros (Hw & Ho & Hp). split; intros.
  - rewrite Hp in *. done.
  - done.
  - rewrite Hp in *. done.
  - rewrite Ho, Hp. done.
Qed.

Ltac pcs j k := destruct (decide (k = j)) as [->|?].

(** The processor inside is alone there. *)
Lemma inv_alone st j k : inv st -> inside (at_pc st j) = true -> k <> j -> inside (at_pc st k) = false.
Proof. intros HI Hj Hk. destruct (inside (at_pc st k)) eqn:E; [|done]. exfalso. by apply Hk, (inv_one _ HI). Qed.
(** A processor that moves outside the critical section. *)
Lemma inv_outside st st' j p : inv st -> inside (at_pc st j) = false -> inside p = false -> moves st st' j p ->
  word st' = word st -> owner st' = owner st -> inv st'.
Proof.
  intros [Hw Hf H1 Ho] Hj Hp [Hm Hrest] Ew Eo. rewrite <- Hm in Hp. split.
  - intros k Hk. rewrite Ew. pcs j k; [congruence|]. rewrite Hrest in Hk by done. eauto.
  - intros Hall. rewrite Ew. apply Hf. intros k. pcs j k; [done|]. by rewrite <- Hrest.
  - intros k l Hk Hl. pcs j k; [congruence|]. pcs j l; [congruence|]. rewrite !Hrest in * by done. eauto.
  - intros k. rewrite Eo, Ho. pcs j k; [|by rewrite Hrest]. split; intros E; rewrite E in *; done.
Qed.
(** A processor that comes to be the one inside, or moves there. *)
Lemma inv_inside st st' j p : inv st -> (forall k, k <> j -> inside (at_pc st k) = false) -> inside p = true -> moves st st' j p ->
  word st' = 1 -> (owner st' = Some j <-> p = In) -> (forall k, k <> j -> owner st' <> Some k) -> inv st'.
Proof.
  intros [Hw Hf H1 Ho] Hnone Hp [Hm Hrest] Ew Hj Hk'. split.
  - done.
  - intros Hall. specialize (Hall j). by rewrite Hm, Hp in Hall.
  - intros k l Hk Hl. pcs j k; pcs j l; try done; rewrite Hrest, Hnone in * by done; done.
  - intros k. pcs j k; [by rewrite Hm|]. rewrite Hrest by done. split; [intros E; by apply Hk' in E|].
    intros HIn. specialize (Hnone k ltac:(done)). by rewrite HIn in Hnone.
Qed.

Lemma inv_step st st' j : inv st -> step st st' j -> inv st'.
Proof.
  intros HI Hs. pose proof HI as [Hw Hf H1 Ho].
  destruct Hs as [Hj Hh Hm Ew Eo|Hj Hn Hm Ew Eo|Hj Hz Hm Ew Eo|Hj Hm Ew Eo|Hj Hh Hm Ew Eo|Hj Hm Ew Eo].
  - (* enter *) apply (inv_outside st st' j Want); try done. by rewrite Hj.
  - (* xchg fails: somebody is inside *) apply (inv_outside st st' j Want); try done; [by rewrite Hj|]. rewrite Ew.
    destruct (decide (word st = 1)) as [->|Hne]; [done|]. exfalso. apply Hn, Hf. intros k.
    destruct (inside (at_pc st k)) eqn:E; [|done]. by apply Hw in E.
  - (* xchg succeeds: nobody was inside *) assert (forall k, inside (at_pc st k) = false) as Hnone.
    { intros k. destruct (inside (at_pc st k)) eqn:E; [|done]. apply Hw in E. lia. }
    apply (inv_inside st st' j Got); try done; [split; [|done]|intros k _]; rewrite Eo, Ho; intros E.
    + by rewrite Hj in E.
    + specialize (Hnone k). by rewrite E in Hnone.
  - (* record *) apply (inv_inside st st' j In); try done; [intros k; apply inv_alone; [done|by rewrite Hj]| |].
    + rewrite Ew. apply (Hw j). by rewrite Hj.
    + intros k Hk. rewrite Eo. congruence.
  - (* clear *) apply (inv_inside st st' j Leaving); try done; [intros k; apply inv_alone; [done|by rewrite Hj]| |by rewrite Eo|by rewrite Eo].
    rewrite Ew. apply (Hw j). by rewrite Hj.
  - (* free *) assert (forall k, inside (at_pc st' k) = false) as Hnone.
    { destruct Hm as [Hm Hrest]. intros k. pcs j k; [by rewrite Hm|]. rewrite Hrest by done. apply (inv_alone st j); [done|by rewrite Hj|done]. }
    split; [intros k Hk|done|intros k l Hk|intros k]; try by rewrite Hnone in Hk.
    destruct Hm as [Hm Hrest]. rewrite Eo, Ho. pcs j k; [by rewrite Hj, Hm|]. by rewrite Hrest.
Qed.

Lemma inv_steps st st' : steps st st' -> inv st -> inv st'.
Proof. induction 1; eauto using inv_step. Qed.

(** C5: mutual exclusion: in every interleaving of any number of processors, at
    most one of them is between its successful [xchg] and the store that frees
    the lock; [holding] is exact: it answers yes on a processor precisely while
    that processor is in its critical section. *)
Theorem mutual_exclusion st :
  reachable st ->
  (forall j k, inside (at_pc st j) = true -> inside (at_pc st k) = true -> j = k) /\
  (forall j, holds st j = true <-> at_pc st j = In).
Proof.
  intros (st0 & Hi & Hs). destruct (inv_steps _ _ Hs (inv_init _ Hi)) as [Hw Hf H1 Ho].
  split; [done|]. intros j. unfold holds. rewrite andb_true_iff, bool_decide_eq_true, Ho. split; [tauto|].
  intros HIn. split; [|done]. rewrite (Hw j) by (by rewrite HIn). done.
Qed.

Lemma mutual_exclusion_witness :
  let st := mk_smp 1 None (fupd (fun _ => Out) 3%nat Got) in
  reachable st /\ (forall j, holds st j = true <-> at_pc st j = In).
Proof.
  cbv zeta. assert (reachable (mk_smp 1 None (fupd (fun _ => Out) 3%nat Got))) as H.
  { exists (mk_smp 0 None (fun _ => Out)). split; [by split|].
    eapply (steps_step _ (mk_smp 0 None (fupd (fun _ => Out) 3%nat Want)) _ 3).
    - apply st_enter; try done. split; [by apply fupd_same|]. intros k Hk. by apply fupd_other.
    - eapply (steps_step _ _ _ 3); [|apply steps_refl]. apply st_xchg_ok; try done.
      split; [by apply fupd_same|]. intros k Hk. simpl. by rewrite !fupd_other. }
  split; [exact H|]. exact (proj2 (mutual_exclusion _ H)).
Defined.

(** The lock in the state of the sequential code, with the processors at [p]. *)
Definition view (lk : lockid) (s : kstate) (p : nat -> pc) : smp :=
  mk_smp (lk_locked (k_locks s lk)) (lk_cpu (k_locks s lk)) p.

Lemma moves_to st st' p i q : at_pc st = p -> at_pc st' = fupd p i q -> moves st st' i q.
Proof. intros E1 E2. split; rewrite E2; [by apply fupd_same|]. intros k Hk. by rewrite fupd_other, E1. Qed.

(** C29: [acquire] and [release] as translated refine the interleaving model, in every
    state of the lock.  On a free lock the run of [acquire] is the step sequence
    enter, exchange, record of this processor.  On a lock that this processor holds
    it panics, where the model has no step for it.  On a lock taken elsewhere it
    enters, its exchange fails, and it never returns: it goes round in the loop, still
    wanting the lock.  [release] of a held lock is clear, free; of any other lock it
    panics. *)
Theorem acquire_refines s i c lk p :
  cpu_inv s i c ->
  (p i = Out ->
   match acquire lk s with
   | Ret _ s' => unlocked lk s /\ steps (view lk s p) (view lk s' (fupd p i In))
   | Panic msg => msg = "acquire"%string /\ holds (view lk s p) i = true
   | Spin s' => ~ unlocked lk s /\ holds (view lk s p) i = false /\ steps (view lk s p) (view lk s' (fupd p i Want))
   | _ => False
   end) /\
  (p i = In -> 0 < c_ncli c ->
   match release lk s with
   | Ret _ s' => holds (view lk s p) i = true /\ unlocked lk s' /\ steps (view lk s p) (view lk s' (fupd p i Out))
   | Panic msg => msg = "release"%string /\ holds (view lk s p) i = false
   | _ => False
   end).
Proof.
  intros HI. split; intros Hp.
  - destruct (decide (lk_locked (k_locks s lk) = 0)) as [Hu|Hu].
    { rewrite (acquire_ok s i c lk HI Hu). split; [done|]. set (o := lk_cpu (k_locks s lk)).
      eapply (steps_step _ (mk_smp 0 o (fupd p i Want)) _ i).
      { apply st_enter; try done; [unfold holds; simpl; by rewrite Hu|by eapply moves_to]. }
      eapply (steps_step _ (mk_smp 1 o (fupd (fupd p i Want) i Got)) _ i).
      { apply st_xchg_ok; simpl; rewrite ?fupd_same; try done. by eapply moves_to. }
      eapply steps_step; [|apply steps_refl]. apply (st_record _ _ i); simpl; rewrite ?fupd_same; try done.
      split; simpl; [by rewrite fupd_same|]. intros k Hk. by rewrite !fupd_other. }
    destruct (decide (lk_cpu (k_locks s lk) = Some i)) as [Hc|Hc].
    { rewrite (acquire_mine s i c lk HI Hu Hc). split; [done|]. unfold holds; simpl. rewrite bool_decide_eq_true_2, andb_true_r by done.
      by apply truth_true. }
    assert (holds (view lk s p) i = false) as Hh by (unfold holds; simpl; by rewrite bool_decide_eq_false_2, andb_false_r).
    rewrite (acquire_spins s i c lk HI Hu Hc). split; [done|]. split; [done|].
    eapply (steps_step _ (mk_smp (lk_locked (k_locks s lk)) (lk_cpu (k_locks s lk)) (fupd p i Want)) _ i).
    { apply st_enter; try done. by eapply moves_to. }
    eapply steps_step; [|apply steps_refl]. apply (st_xchg_fail _ _ i); simpl; rewrite ?fupd_same; try done.
    split; simpl; [by apply fupd_same|done].
  - intros Hpos. destruct (holds (view lk s p) i) eqn:Hh.
    + unfold holds in Hh. apply andb_true_iff in Hh as [Hl Hc]. simpl in Hl, Hc. apply bool_decide_eq_true in Hc.
      rewrite (release_mine s i c lk HI Hpos Hl Hc). split; [done|]. split; [apply unlocked_released|].
      eapply (steps_step _ (mk_smp (lk_locked (k_locks s lk)) None (fupd p i Leaving)) _ i).
      { apply st_clear; unfold holds; simpl; rewrite ?Hl, ?Hc, ?bool_decide_eq_true_2; try done. by eapply moves_to. }
      eapply steps_step; [|apply steps_refl]. apply (st_free _ _ i); simpl; rewrite ?fupd_same; try done.
      * split; simpl; [by rewrite fupd_same|]. intros k Hk. by rewrite !fupd_other.
      * apply unlocked_released.
      * unfold released. rewrite pop_state_locks. simpl. by rewrite fupd_same.
    + rewrite (release_not_held s i c lk HI); [done|]. unfold holds in Hh. apply andb_false_iff in Hh as [Hl|Hc]; simpl in *.
      * left. by apply truth_false in Hl.
      * right. by apply bool_decide_eq_false in Hc.
Qed.

(** Another processor holds the table's lock. *)
Definition taken_elsewhere : kstate := set_k_locks (fupd (k_locks boot) Lk_ptable (mk_spinlock 1 "ptable" (Some 1%nat) [])) boot.
Lemma acquire_refines_witness :
  (exists s', acquire Lk_ptable boot = Ret tt s' /\
     steps (view Lk_ptable boot (fun _ => Out)) (view Lk_ptable s' (fupd (fun _ => Out) 0%nat In))) /\
  exists s', acquire Lk_ptable taken_elsewhere = Spin s' /\
     steps (view Lk_ptable taken_elsewhere (fun _ => Out)) (view Lk_ptable s' (fupd (fun _ => Out) 0%nat Want)).
Proof.
  assert (cpu_inv taken_elsewhere 0 (cpu0 0)) as HI by (by split).
  assert (lk_cpu (k_locks taken_elsewhere Lk_ptable) <> Some 0%nat) as Hc by discriminate.
  split.
  - destruct (acquire_refines boot 0 (cpu0 0) Lk_ptable (fun _ => Out) boot_cpu) as [H _]. specialize (H eq_refl).
    rewrite (acquire_ok boot 0 (cpu0 0) Lk_ptable boot_cpu eq_refl) in H. destruct H as [_ H].
    eexists. split; [exact (acquire_ok boot 0 (cpu0 0) Lk_ptable boot_cpu eq_refl)|exact H].
  - destruct (acquire_refines taken_elsewhere 0 (cpu0 0) Lk_ptable (fun _ => Out) HI) as [H _]. specialize (H eq_refl).
    rewrite (acquire_spins taken_elsewhere 0 (cpu0 0) Lk_ptable HI ltac:(discriminate) Hc) in H. destruct H as (_ & _ & H).
    eexists. split; [exact (acquire_spins taken_elsewhere 0 (cpu0 0) Lk_ptable HI ltac:(discriminate) Hc)|exact H].
Defined.

End Smp.
