(* ===== verification/Printk.v ===== *)
(** * Console output

    The printing half of [console.c]: [printint], [cprintf], [panic],
    [cgaputc], [consputc], with [uartputc] of [uart.c].  Formats and strings are
    lists of bytes without their terminating NUL. *)

From S2P Require Import Prelude Mmu Mem State Spinlock.

Definition BACKSPACE : Z := 0x100.

(** [uart.c]: the delay loop has no effect; the byte goes to the port. *)
Definition uartputc (c : Z) : K unit :=
  u <- gets (fun s => hw_uart (k_hw s)) ;;
  if u =? 0 then ret tt
  else modify (fun s => set_k_out (k_out s ++ [u8 c]) s).

(** [cgaputc] computes on the cursor position and the screen cells. *)
Definition cgaputc (c : Z) : K unit :=
  crt <- gets k_crt ;;
  let pos := crt_pos crt in
  let '(pos, cell) :=
    if c =? NL then (pos + (80 - pos mod 80), crt_cell crt)
    else if c =? BACKSPACE then (if 0 <? pos then pos - 1 else pos, crt_cell crt)
    else (pos + 1, fupd (crt_cell crt) pos (Z.lor (Z.land c 0xff) 0x0700)) in
  if (pos <? 0) || (25 * 80 <? pos) then panic "pos under/overflow" else
  let '(pos, cell) :=
    if 24 <=? pos / 80 then
      let moved := fun x => if (0 <=? x) && (x <? 23 * 80) then cell (x + 80) else cell x in
      let pos' := pos - 80 in
      (pos', fun x => if (pos' <=? x) && (x <? pos' + (24 * 80 - pos')) then 0 else moved x)
    else (pos, cell) in
  modify (set_k_crt (mk_crt pos (fupd cell pos (Z.lor 32 0x0700)))).

Definition consputc (c : Z) : K unit :=
  p <- gets k_panicked ;;
  if truth p then cli ;; spin else
  (if c =? BACKSPACE then uartputc 8 ;; uartputc 32 ;; uartputc 8 else uartputc c) ;;
  cgaputc c.

Definition digit_char (digits : list Z) (d : Z) : Z := nth (Z.to_nat d) digits 0.

(** [do buf[i++] = digits[x % base]; while((x /= base) != 0)] *)
Fixpoint digit_loop (fuel : nat) (digits : list Z) (x base : Z) : list Z :=
  match fuel with
  | O => []
  | S f =>
      digit_char digits (x mod base) ::
      (if x / base =? 0 then [] else digit_loop f digits (x / base) base)
  end.
(** [uint] values have at most 32 digits in any base above 1. *)
Definition digit_fuel : nat := 32.

(** The bytes in [buf], in the order they are stored. *)
Definition printint_buf (digits : list Z) (xx base : Z) (sign : bool) : list Z :=
  let neg := sign && (xx <? 0) in
  let x := if neg then u32 (- xx) else u32 xx in
  digit_loop digit_fuel digits x base ++ (if neg then [45] else []).

Definition kdigits : list Z := bytes "0123456789abcdef".
Definition printint (xx base : Z) (sign : bool) : K unit :=
  iter_list (rev (printint_buf kdigits xx base sign)) consputc.

(** Arguments of [cprintf]: a word, or a pointer to a string ([None] is null). *)
Inductive parg := PInt (z : Z) | PStr (s : option (list Z)).

Fixpoint cprintf_loop (fmt : list Z) (args : list parg) : K unit :=
  match fmt with
  | [] => ret tt
  | c :: fmt' =>
      if negb (c =? 37) then consputc c ;; cprintf_loop fmt' args
      else match fmt' with
      | [] => ret tt
      | d :: fmt'' =>
          if d =? 100 then (* d *)
            match args with
            | PInt z :: args' => printint (s32 z) 10 true ;; cprintf_loop fmt'' args'
            | _ => fault end
          else if (d =? 120) || (d =? 112) then (* x p *)
            match args with
            | PInt z :: args' => printint (s32 z) 16 false ;; cprintf_loop fmt'' args'
            | _ => fault end
          else if d =? 115 then (* s *)
            match args with
            | PStr s :: args' =>
                iter_list (match s with Some l => l | None => bytes "(null)" end) consputc ;;
                cprintf_loop fmt'' args'
            | _ => fault end
          else if d =? 37 then consputc 37 ;; cprintf_loop fmt'' args
          else consputc 37 ;; consputc d ;; cprintf_loop fmt'' args
      end
  end.

(** [None] is the null pointer; every call in the kernel passes a literal, or the
    message of [panic]. *)
Definition cprintf_ptr (fmt : option (list Z)) (args : list parg) : K unit :=
  locking <- gets k_cons_locking ;;
  when (truth locking) (acquire Lk_cons) ;;
  match fmt with
  | None => panic "null fmt"
  | Some fmt => cprintf_loop fmt args ;; when (truth locking) (release Lk_cons)
  end.
Definition cprintf (fmt : list Z) (args : list parg) : K unit := cprintf_ptr (Some fmt) args.

(** What [panic] does before it stops: in the rest of the development a call of
    [panic] is the outcome [Panic]. *)
Definition panic_body (msg : list Z) : K unit :=
  cli ;;
  modify (set_k_cons_locking 0) ;;
  id <- gets lapicid ;;
  cprintf (bytes "lapicid %d: panic: ") [PInt id] ;;
  cprintf msg [] ;;
  cprintf [NL] [] ;;
  pcs <- gets (fun s => getcallerpcs (k_mem s) (hw_frame (k_hw s))) ;;
  iter_list pcs (fun pc => cprintf (bytes " %p") [PInt pc]) ;;
  modify (set_k_panicked 1) ;;
  spin.

(* ------------------------------------------------------------------ *)
(** ** Numbers print and read back *)

(** The value of digits, least significant first. *)
Fixpoint digits_value (base : Z) (ds : list Z) : Z :=
  match ds with [] => 0 | d :: ds' => d + base * digits_value base ds' end.

(** Reading a digit character back. *)
Definition char_digit (digits : list Z) (c : Z) : Z :=
  match list_find (fun d => d = c) digits with Some (i, _) => Z.of_nat i | None => -1 end.

(** A digit table is readable if it has sixteen distinct characters, none a
    minus sign. *)
Definition digit_table_ok (digits : list Z) : bool :=
  forallb (fun d => char_digit digits (digit_char digits d) =? d) (Z.of_nat <$> seq 0 16).

Lemma digit_roundtrip digits d :
  digit_table_ok digits = true -> 0 <= d < 16 -> char_digit digits (digit_char digits d) = d.
Proof.
  intros Hok Hd. unfold digit_table_ok in Hok. rewrite forallb_forall in Hok.
  apply Z.eqb_eq, Hok. apply in_map_iff. exists (Z.to_nat d). split; [lia|]. apply in_seq. lia.
Qed.

Lemma digit_loop_value digits base : digit_table_ok digits = true -> 2 <= base <= 16 ->
  forall fuel x, 0 <= x < base ^ Z.of_nat fuel -> (0 < fuel)%nat ->
  digits_value base (char_digit digits <$> digit_loop fuel digits x base) = x.
Proof.
  intros Hok Hb fuel. induction fuel as [|f IH]; intros x Hx Hf; [lia|].
  cbn [digit_loop fmap list_fmap digits_value].
  pose proof (Z.mod_pos_bound x base ltac:(lia)) as Hm. pose proof (Z.div_mod x base ltac:(lia)) as Hdm.
  rewrite digit_roundtrip by (first [exact Hok | lia]).
  destruct (Z.eqb_spec (x / base) 0) as [E|E]; simpl; [lia|].
  assert (0 <= x / base) by (apply Z.div_pos; lia).
  destruct (decide (f = 0)%nat) as [->|].
  - exfalso. change (base ^ Z.of_nat 1) with (base ^ 1) in Hx. rewrite Z.pow_1_r in Hx.
    apply E, Z.div_small. lia.
  - rewrite IH; [lia| |lia]. split; [done|]. apply Z.div_lt_upper_bound; [lia|].
    rewrite <- Z.pow_succ_r by lia. replace (Z.succ (Z.of_nat f)) with (Z.of_nat (S f)) by lia. lia.
Qed.

Lemma digit_loop_length digits base : 2 <= base ->
  forall fuel x (k : nat), 0 <= x < base ^ Z.of_nat k -> (0 < k)%nat ->
  (length (digit_loop fuel digits x base) <= k)%nat.
Proof.
  intros Hb fuel. induction fuel as [|f IH]; intros x k Hx Hk; simpl; [lia|].
  destruct (Z.eqb_spec (x / base) 0) as [E|E]; simpl; [lia|].
  destruct k as [|k]; [lia|]. destruct (decide (k = 0)%nat) as [->|].
  - exfalso. change (base ^ Z.of_nat 1) with (base ^ 1) in Hx. rewrite Z.pow_1_r in Hx.
    apply E, Z.div_small. lia.
  - apply le_n_S, IH; [|lia]. split; [apply Z.div_pos; lia|]. apply Z.div_lt_upper_bound; [lia|].
    rewrite <- Z.pow_succ_r by lia. replace (Z.succ (Z.of_nat k)) with (Z.of_nat (S k)) by lia. lia.
Qed.

Lemma printint_buf_spec digits xx base sign :
  digit_table_ok digits = true -> base = 10 \/ base = 16 -> - 2 ^ 31 <= xx < 2 ^ 31 ->
  let b := printint_buf digits xx base sign in
  (length b <= 11)%nat /\
  (sign && (xx <? 0) = false -> digits_value base (char_digit digits <$> b) = u32 xx) /\
  (sign && (xx <? 0) = true ->
     exists ds, b = ds ++ [45] /\ digits_value base (char_digit digits <$> ds) = - xx).
Proof.
  intros Hok Hb Hx b. subst b. unfold printint_buf, digit_fuel.
  set (x := if sign && (xx <? 0) then u32 (- xx) else u32 xx).
  assert (0 <= x < 2 ^ 32) as Hr by (subst x; destruct (sign && (xx <? 0)); apply u32_range).
  assert (x < base ^ 10) as Hx10 by (destruct Hb as [-> | ->]; lia).
  assert (x < base ^ Z.of_nat 32) as Hx32.
  { apply Z.lt_le_trans with (base ^ 10); [done|]. apply Z.pow_le_mono_r; [lia|done]. }
  assert (length (digit_loop 32 digits x base) <= 10)%nat as Hlen
    by (apply digit_loop_length; [lia| split; [lia|exact Hx10] | apply Nat.lt_0_succ]).
  assert (digits_value base (char_digit digits <$> digit_loop 32 digits x base) = x) as Hval
    by (apply digit_loop_value; [exact Hok | lia | split; [lia | exact Hx32] | lia]).
  set (L := digit_loop 32 digits x base) in *. clearbody L. repeat split.
  - rewrite length_app. destruct (sign && (xx <? 0)); simpl; lia.
  - intros E. subst x. rewrite E in *. by rewrite app_nil_r.
  - intros E. subst x. rewrite E in *. eexists. split; [done|]. rewrite Hval.
    apply andb_true_iff in E as [_ E%Z.ltb_lt]. apply u32_small. lia.
Qed.

(** [printint] never overruns its 16-byte buffer (it stores at most 11
    bytes), and what it stores reads back as the number: the unsigned value in
    decimal or hexadecimal, or, signed and negative, a minus sign after the
    digits of the absolute value. *)
Theorem printint_correct xx base sign :
  base = 10 \/ base = 16 -> - 2 ^ 31 <= xx < 2 ^ 31 ->
  let b := printint_buf kdigits xx base sign in
  (length b <= 11)%nat /\
  (sign && (xx <? 0) = false -> digits_value base (char_digit kdigits <$> b) = u32 xx) /\
  (sign && (xx <? 0) = true ->
     exists ds, b = ds ++ [45] /\ digits_value base (char_digit kdigits <$> ds) = - xx).
Proof. intros. apply printint_buf_spec; [vm_compute; reflexivity | done | done]. Qed.

Lemma printint_correct_witness : printint_buf kdigits (-450) 10 true = bytes "054-" /\ (length (printint_buf kdigits (-450) 10 true) <= 11)%nat.
Proof. split; [reflexivity|]. apply (printint_correct (-450) 10 true); [by left | lia]. Defined.

(* ------------------------------------------------------------------ *)
(** ** Printing changes the output and the screen only *)

(** A part of the state that neither locks nor console output live in. *)
Record io_free {B} (f : kstate -> B) : Prop := mk_io_free {
  io_hw : forall e s, f (set_k_hw (set_hw_eflags e (k_hw s)) s) = f s;
  io_cpus : forall v s, f (set_k_cpus v s) = f s;
  io_locks : forall v s, f (set_k_locks v s) = f s;
  io_out : forall v s, f (set_k_out v s) = f s;
  io_crt : forall v s, f (set_k_crt v s) = f s }.

Section IoFree.
Context {B} (f : kstate -> B) (Hf : io_free f).

Lemma frame_cli : preserves f cli.
Proof. apply preserves_modify. intros s. apply Hf. Qed.
Lemma frame_sti : preserves f sti.
Proof. apply preserves_modify. intros s. apply Hf. Qed.
Lemma frame_upd_cpu i g : preserves f (upd_cpu i g).
Proof. unfold upd_cpu. frame. apply preserves_modify. intros s. apply Hf. Qed.
Lemma frame_mycpu : preserves f mycpu.
Proof. unfold mycpu, readeflags. frame. Qed.
Lemma frame_pushcli : preserves f pushcli.
Proof. unfold pushcli, readeflags, get_cpu. pose proof frame_cli. pose proof frame_upd_cpu. pose proof frame_mycpu. frame. Qed.
Lemma frame_popcli : preserves f popcli.
Proof. unfold popcli, readeflags, get_cpu. pose proof frame_sti. pose proof frame_upd_cpu. pose proof frame_mycpu. frame. Qed.
Lemma frame_locks g : preserves f (modify (fun s => set_k_locks (g s) s)).
Proof. apply preserves_modify. intros s. apply Hf. Qed.
Lemma frame_holding lk : preserves f (holding lk).
Proof. unfold holding. pose proof frame_pushcli. pose proof frame_popcli. pose proof frame_mycpu. frame. Qed.
Lemma frame_acquire lk : preserves f (acquire lk).
Proof.
  unfold acquire, xchg_locked. pose proof frame_pushcli. pose proof (frame_holding lk). pose proof frame_mycpu.
  frame; apply frame_locks.
Qed.
Lemma frame_release lk : preserves f (release lk).
Proof. unfold release. pose proof frame_popcli. pose proof (frame_holding lk). frame; apply frame_locks. Qed.
Lemma frame_myproc : preserves f myproc.
Proof. unfold myproc, get_cpu. pose proof frame_pushcli. pose proof frame_popcli. pose proof frame_mycpu. frame. Qed.
Lemma frame_consputc c : preserves f (consputc c).
Proof.
  unfold consputc, uartputc, cgaputc. pose proof frame_cli. frame;
    apply preserves_modify; intros s; apply Hf.
Qed.
Lemma frame_cprintf_loop fmt : forall args, preserves f (cprintf_loop fmt args).
Proof.
  pose proof frame_consputc. enough (forall n fmt args, (length fmt <= n)%nat -> preserves f (cprintf_loop fmt args)) by eauto.
  clear fmt. induction n as [|n IH]; intros [|c fmt] args Hn; simpl in *; try (by apply preserves_ret); [lia|].
  destruct (negb (c =? 37)); [apply preserves_bind; [done|intros; apply IH; lia]|].
  destruct fmt as [|d fmt]; [apply preserves_ret|]. simpl in Hn. unfold printint.
  repeat match goal with
  | |- preserves _ (cprintf_loop _ _) => apply IH; lia
  | |- _ => progress frame
  end.
Qed.
Lemma frame_cprintf fmt args : preserves f (cprintf fmt args).
Proof.
  unfold cprintf. pose proof frame_cprintf_loop. pose proof (frame_acquire Lk_cons). pose proof (frame_release Lk_cons). frame.
Qed.
End IoFree.

#[export] Hint Resolve frame_mycpu frame_pushcli frame_popcli frame_acquire frame_release frame_myproc
  frame_holding frame_consputc frame_cprintf : frame.

(** The data fields are of this kind. *)
Ltac io_free_tac := split; intros; reflexivity.
Lemma io_free_mem : io_free k_mem. Proof. io_free_tac. Qed.
Lemma io_free_kmem : io_free k_kmem. Proof. io_free_tac. Qed.
Lemma io_free_end : io_free k_end. Proof. io_free_tac. Qed.
Lemma io_free_procs : io_free k_procs. Proof. io_free_tac. Qed.
Lemma io_free_files : io_free k_files. Proof. io_free_tac. Qed.
Lemma io_free_bufs : io_free k_bufs. Proof. io_free_tac. Qed.
Lemma io_free_slocks : io_free k_slocks. Proof. io_free_tac. Qed.
Lemma io_free_disk : io_free (fun s => hw_disk (k_hw s)). Proof. io_free_tac. Qed.
Lemma io_free_log : io_free k_log. Proof. io_free_tac. Qed.
Lemma io_free_nextpid : io_free k_nextpid. Proof. io_free_tac. Qed.
Lemma io_free_inodes : io_free k_inodes. Proof. io_free_tac. Qed.
Lemma io_free_pipes : io_free k_pipes. Proof. io_free_tac. Qed.
Lemma io_free_sb : io_free k_sb. Proof. io_free_tac. Qed.
Lemma io_free_wait : io_free k_wait. Proof. io_free_tac. Qed.
Lemma io_free_ncpu : io_free k_ncpu. Proof. io_free_tac. Qed.
Lemma io_free_disksize : io_free k_disksize. Proof. io_free_tac. Qed.
#[export] Hint Resolve io_free_mem io_free_kmem io_free_end io_free_procs io_free_files io_free_bufs io_free_slocks
  io_free_disk io_free_log io_free_nextpid io_free_inodes io_free_pipes io_free_sb io_free_wait io_free_ncpu
  io_free_disksize : frame.

(* ------------------------------------------------------------------ *)
(** ** The screen *)

(** The kernel has not panicked and the cursor is on one of the first 24 lines. *)
Definition screen_ok (s : kstate) : Prop := k_panicked s = 0 /\ 0 <= crt_pos (k_crt s) < 24 * 80.
(** The bytes a character sends to the serial port. *)
Definition sent (s : kstate) (c : Z) : list Z :=
  if hw_uart (k_hw s) =? 0 then [] else if c =? BACKSPACE then [8; 32; 8] else [u8 c].

Lemma cgaputc_run s c :
  0 <= crt_pos (k_crt s) < 24 * 80 ->
  exists crt, cgaputc c s = Ret tt (set_k_crt crt s) /\ 0 <= crt_pos crt < 24 * 80 /\
    forall x, x < 0 \/ 25 * 80 <= x -> crt_cell crt x = crt_cell (k_crt s) x.
Proof.
  intros Hp. unfold cgaputc. rstep. cbv zeta.
  set (pos := crt_pos (k_crt s)) in *. set (cell := crt_cell (k_crt s)).
  assert (exists pos1 cell1, (if c =? NL then (pos + (80 - pos mod 80), cell)
      else if c =? BACKSPACE then (if 0 <? pos then pos - 1 else pos, cell)
      else (pos + 1, fupd cell pos (Z.lor (Z.land c 0xff) 0x0700))) = (pos1, cell1) /\ 0 <= pos1 <= 24 * 80 /\
      forall x, x < 0 \/ 25 * 80 <= x -> cell1 x = cell x) as (pos1 & cell1 & -> & H1 & Hc1).
  { destruct (c =? NL); [eexists _, _; split; [done|]; split; [dlia|done]|].
    destruct (c =? BACKSPACE); [eexists _, _; split; [done|]; split; [destruct (Z.ltb_spec 0 pos); lia|done]|].
    eexists _, _. split; [done|]. split; [lia|]. intros x Hx. apply fupd_other. lia. }
  destruct (Z.ltb_spec pos1 0); [lia|]. destruct (Z.ltb_spec (25 * 80) pos1); [lia|]. cbn [orb].
  destruct (Z.leb_spec 24 (pos1 / 80)).
  - eexists. split; [reflexivity|]. assert (pos1 = 24 * 80) as -> by dlia. split; [simpl; lia|].
    intros x Hx. cbn [crt_cell]. rewrite fupd_other by lia. repeat case_Z; simpl; try lia; by apply Hc1.
  - eexists. split; [reflexivity|]. split; [simpl; dlia|]. intros x Hx. cbn [crt_cell].
    rewrite fupd_other by lia. by apply Hc1.
Qed.

Lemma uartputc_run s c :
  uartputc c s = Ret tt (set_k_out (k_out s ++ if hw_uart (k_hw s) =? 0 then [] else [u8 c]) s).
Proof. unfold uartputc. rstep. destruct (_ =? 0); [rewrite app_nil_r; by destruct s|done]. Qed.

Lemma consputc_run s c :
  screen_ok s ->
  exists crt, consputc c s = Ret tt (set_k_crt crt (set_k_out (k_out s ++ sent s c) s)) /\
    0 <= crt_pos crt < 24 * 80 /\ forall x, x < 0 \/ 25 * 80 <= x -> crt_cell crt x = crt_cell (k_crt s) x.
Proof.
  intros [H0 Hp]. destruct (cgaputc_run (set_k_out (k_out s ++ sent s c) s) c Hp) as (crt & Hr & H).
  exists crt. split; [|done]. unfold consputc. rstep. rewrite H0. cbn [truth negb Z.eqb].
  assert ((if c =? BACKSPACE then uartputc 8 ;; uartputc 32 ;; uartputc 8 else uartputc c) s =
    Ret tt (set_k_out (k_out s ++ sent s c) s)) as Hu.
  { unfold sent. destruct (c =? BACKSPACE); [|by rewrite uartputc_run].
    run (uartputc_run s 8). run (uartputc_run (set_k_out (k_out s ++ if hw_uart (k_hw s) =? 0 then [] else [u8 8]) s) 32).
    rewrite uartputc_run. cbn [k_hw k_out set_k_out]. unfold set_k_out; simpl.
    destruct (hw_uart (k_hw s) =? 0); by rewrite <- ?app_assoc, ?app_nil_r. }
  run Hu. exact Hr.
Qed.

(** while the cursor is on the first 24 lines, [consputc] always returns: it
    never panics on the cursor, leaves it there again, and touches no memory
    outside the 25 lines of 80 cells, scrolling included; the serial port
    receives exactly the bytes of the character. *)
Theorem consputc_total s c :
  screen_ok s ->
  exists s', consputc c s = Ret tt s' /\ screen_ok s' /\ k_out s' = k_out s ++ sent s c /\
    forall x, x < 0 \/ 25 * 80 <= x -> crt_cell (k_crt s') x = crt_cell (k_crt s) x.
Proof.
  intros H. destruct (consputc_run s c H) as (crt & Hr & Hp & Hc). eexists. split; [exact Hr|].
  split; [split; [apply H|exact Hp]|]. done.
Qed.
Lemma consputc_total_witness :
  exists s', consputc 65 boot = Ret tt s' /\ screen_ok s'.
Proof.
  destruct (consputc_total boot 65) as (s' & H & Hs & _); [split; [done|simpl; lia]|]. by exists s'.
Defined.
