(* ===== verification/Critical.v ===== *)
(** * Critical sections

    What [acquire] and [release] of [spinlock.c] promise to their clients: the
    processor context they need, and that a section changes nothing but
    processors and locks.  The clients' proofs use these lemmas only. *)

From S2P Require Import Prelude Mmu Mem State Spinlock Printk.

(** The processor context in which a lock can be taken: processor [i] at
    nesting depth [n], running process [p], the lock free. *)
Definition ready (s : kstate) (i : nat) (n : Z) (p : option nat) (lk : lockid) : Prop :=
  exists c, cpu_inv s i c /\ c_ncli c = n /\ c_proc c = p /\ unlocked lk s.

Lemma ready_ext s s' i n p lk :
  k_hw s' = k_hw s -> k_cpus s' = k_cpus s -> k_ncpu s' = k_ncpu s -> k_locks s' = k_locks s ->
  ready s i n p lk -> ready s' i n p lk.
Proof.
  intros H1 H2 H3 H4 (c & HI & Hn & Hp & Hu). exists c.
  split; [by apply (cpu_inv_ext s)|]. unfold unlocked. by rewrite H4.
Qed.

(** A critical section whose body leaves processors and locks alone. *)
Lemma ready_section s s1 i c lk :
  cpu_inv s i c -> unlocked lk s ->
  k_hw s1 = k_hw (acquired lk i c s) -> k_cpus s1 = k_cpus (acquired lk i c s) ->
  k_ncpu s1 = k_ncpu s -> k_locks s1 = k_locks (acquired lk i c s) ->
  acquire lk s = Ret tt (acquired lk i c s) /\
  release lk s1 = Ret tt (released lk i (push_cpu s c) s1) /\
  ready (released lk i (push_cpu s c) s1) i (c_ncli c) (c_proc c) lk /\
  (forall lk', lk' <> lk -> k_locks (released lk i (push_cpu s c) s1) lk' = k_locks s lk').
Proof.
  intros HI Hu E1 E2 E3 E4. pose proof (cpu_inv_acquired lk i c s HI) as HA.
  assert (cpu_inv s1 i (push_cpu s c)) as H1 by (by apply (cpu_inv_ext (acquired lk i c s))).
  assert (0 < c_ncli (push_cpu s c)) as Hpos by (rewrite push_ncli; destruct HI; lia).
  split; [by apply acquire_ok|]. split; [|split].
  - apply release_ok; [done|done|]. unfold held_by. rewrite E4. apply held_acquired.
  - exists (pop_cpu (push_cpu s c)). split; [by apply cpu_inv_released|].
    unfold push_cpu; simpl. split; [lia|]. split; [by destruct (c_ncli c =? 0)|]. apply unlocked_released.
  - intros lk' Hne. rewrite locks_released_other by done. rewrite E4. by apply locks_acquired_other.
Qed.

(** A part of the state that neither processors nor locks live in. *)
Record lock_free {B} (f : kstate -> B) : Prop := mk_lock_free {
  lf_hw : forall e s, f (set_k_hw (set_hw_eflags e (k_hw s)) s) = f s;
  lf_cpus : forall v s, f (set_k_cpus v s) = f s;
  lf_locks : forall v s, f (set_k_locks v s) = f s }.
Lemma io_lock_free {B} (f : kstate -> B) : io_free f -> lock_free f.
Proof. intros [H1 H2 H3 _ _]. by split. Qed.
#[export] Hint Resolve io_lock_free : frame.
Ltac lock_free_tac := split; intros; reflexivity.

Lemma released_data {B} (f : kstate -> B) lk i c s :
  lock_free f -> f (released lk i c s) = f s.
Proof.
  intros Hf. unfold released, pop_state. cbv zeta.
  destruct (_ && _); rewrite ?(lf_hw f Hf), (lf_cpus f Hf), (lf_locks f Hf); done.
Qed.
Lemma acquired_data {B} (f : kstate -> B) lk i c s : lock_free f -> f (acquired lk i c s) = f s.
Proof.
  intros Hf. unfold acquired, push_state. cbv zeta.
  by rewrite (lf_locks f Hf), (lf_cpus f Hf), (lf_hw f Hf).
Qed.

(* ------------------------------------------------------------------ *)
(** ** Critical sections, with the rest of the state abstracted *)

(** Processor [i] runs process [p] at nesting depth [n]. *)
Definition on_cpu (s : kstate) (i : nat) (n : Z) (p : option nat) : Prop :=
  exists c, cpu_inv s i c /\ c_ncli c = n /\ c_proc c = p.

(** All data but processors and locks agree. *)
Definition same_data (s s' : kstate) : Prop := forall B (f : kstate -> B), lock_free f -> f s' = f s.

#[export] Instance same_data_refl : Reflexive same_data.
Proof. intros s B f Hf. done. Qed.
#[export] Instance same_data_trans : Transitive same_data.
Proof. intros s1 s2 s3 H1 H2 B f Hf. rewrite (H2 B f Hf). by apply H1. Qed.

(** An assignment to a data field acts on agreeing states alike. *)
Ltac same_data_tac :=
  let s1 := fresh in let s2 := fresh in intros v ? <- s1 s2 Hsd B f Hf;
  match goal with |- f (?g ?v _) = _ =>
    apply (Hsd B (fun s => f (g v s))); split; intros x y;
    first [exact (lf_hw f Hf x (g v y)) | exact (lf_cpus f Hf x (g v y)) | exact (lf_locks f Hf x (g v y))]
  end.
#[export] Instance same_data_procs : Proper (eq ==> same_data ==> same_data) set_k_procs.
Proof. same_data_tac. Qed.

Lemma same_data_field {B} (f : kstate -> B) s s' : same_data s s' -> lock_free f -> f s' = f s.
Proof. intros H Hf. by apply H. Qed.

(** [lk] apart, the locks agree. *)
Definition same_locks (except : lockid) (s s' : kstate) : Prop :=
  forall lk, lk <> except -> k_locks s' lk = k_locks s lk.

Lemma ready_on_cpu s i n p lk : ready s i n p lk <-> on_cpu s i n p /\ unlocked lk s.
Proof. unfold ready, on_cpu. firstorder. Qed.

Lemma on_cpu_ext s s' i n p :
  k_hw s' = k_hw s -> k_cpus s' = k_cpus s -> k_ncpu s' = k_ncpu s -> on_cpu s i n p -> on_cpu s' i n p.
Proof. intros E1 E2 E3 (c & HI & H). exists c. split; [by apply (cpu_inv_ext s)|done]. Qed.

Lemma acquire_cpu s i n p lk :
  on_cpu s i n p -> unlocked lk s ->
  exists s', acquire lk s = Ret tt s' /\ on_cpu s' i (n + 1) p /\ held_by lk i s' /\
    same_locks lk s s' /\ same_data s s'.
Proof.
  intros (c & HI & Hn & Hp) Hu. exists (acquired lk i c s). split; [by apply acquire_ok|].
  split; [|split; [apply held_acquired|split]].
  - exists (push_cpu s c). split; [by apply cpu_inv_acquired|]. rewrite push_ncli. split; [lia|].
    unfold push_cpu. by destruct (c_ncli c =? 0).
  - intros lk' H. by apply locks_acquired_other.
  - intros B f Hf. by apply acquired_data.
Qed.

(** The lock is taken on another processor: [acquire] goes round in its loop. *)
Lemma acquire_taken s i n p lk :
  on_cpu s i n p -> ~ unlocked lk s -> lk_cpu (k_locks s lk) <> Some i ->
  exists s', acquire lk s = Spin s' /\ on_cpu s' i (n + 1) p /\ ~ unlocked lk s' /\
    lk_cpu (k_locks s' lk) = lk_cpu (k_locks s lk) /\ same_locks lk s s' /\ same_data s s'.
Proof.
  intros (c & HI & Hn & Hp) Hu Hc. exists (spun lk i c s). split; [by apply acquire_spins|].
  unfold unlocked, spun; simpl. rewrite fupd_same; simpl. split; [|split; [done|split; [done|split]]].
  - exists (push_cpu s c). split; [apply (cpu_inv_ext (push_state i c s)); try done; by apply cpu_inv_push|].
    rewrite push_ncli. split; [lia|]. unfold push_cpu. by destruct (c_ncli c =? 0).
  - intros lk' H. simpl. by rewrite fupd_other.
  - intros B f Hf. by rewrite (lf_locks f Hf); unfold push_state; rewrite (lf_cpus f Hf), (lf_hw f Hf).
Qed.

Lemma release_cpu s i n p lk :
  on_cpu s i n p -> 0 < n -> held_by lk i s ->
  exists s', release lk s = Ret tt s' /\ on_cpu s' i (n - 1) p /\ unlocked lk s' /\
    same_locks lk s s' /\ same_data s s'.
Proof.
  intros (c & HI & Hn & Hp) Hpos Hh. exists (released lk i c s).
  split; [apply release_ok; [done|lia|done]|]. split; [|split; [apply unlocked_released|split]].
  - exists (pop_cpu c). split; [apply cpu_inv_released; [done|lia]|]. simpl. split; [lia|done].
  - intros lk' H. by apply locks_released_other.
  - intros B f Hf. by apply released_data.
Qed.

Lemma myproc_cpu s i n p :
  on_cpu s i n p ->
  exists s', myproc s = Ret p s' /\ on_cpu s' i n p /\ k_locks s' = k_locks s /\ same_data s s' /\
    (0 < n -> s' = s).
Proof.
  intros (c & HI & Hn & Hp). exists (set_k_cpus (<[i := touch_cpu s c]> (k_cpus s)) s).
  pose proof (cpu_inv_push s i c HI) as HI'.
  split; [|split; [|split; [done|split]]].
  - unfold myproc. run (pushcli_ok s i c HI).
    erewrite bind_Ret; [|apply mycpu_ok; [apply HI'|apply ldiff_FL_IF]]. cbv beta.
    erewrite bind_Ret; [|apply get_cpu_ok, HI']. cbv beta.
    erewrite bind_Ret; [|apply (popcli_ok _ i (push_cpu s c)); [done|rewrite push_ncli; destruct HI; lia]].
    unfold ret. rewrite push_pop by done. f_equal. rewrite <- Hp. unfold push_cpu. by destruct (c_ncli c =? 0).
  - exists (touch_cpu s c). split; [by apply cpu_inv_touch|]. by rewrite touch_ncli, touch_proc.
  - intros B f Hf. apply (lf_cpus f Hf).
  - intros Hpos. rewrite touch_pos by lia. rewrite list_insert_id by apply HI. apply set_k_cpus_id.
Qed.

Lemma pushcli_cpu s i n p :
  on_cpu s i n p ->
  exists s', pushcli s = Ret tt s' /\ on_cpu s' i (n + 1) p /\ k_locks s' = k_locks s /\ same_data s s'.
Proof.
  intros (c & HI & Hn & Hp). exists (push_state i c s). split; [by apply pushcli_ok|]. split; [|split; [done|]].
  - exists (push_cpu s c). split; [by apply cpu_inv_push|]. rewrite push_ncli. split; [lia|].
    unfold push_cpu. by destruct (c_ncli c =? 0).
  - intros B f Hf. unfold push_state. by rewrite (lf_cpus f Hf), (lf_hw f Hf).
Qed.
Lemma popcli_cpu s i n p :
  on_cpu s i n p -> 0 < n ->
  exists s', popcli s = Ret tt s' /\ on_cpu s' i (n - 1) p /\ k_locks s' = k_locks s /\ same_data s s'.
Proof.
  intros (c & HI & Hn & Hp) Hpos. exists (pop_state i c s). split; [apply popcli_ok; [done|lia]|].
  split; [|split; [apply pop_state_locks|]].
  - exists (pop_cpu c). split; [apply cpu_inv_pop; [done|lia]|]. simpl. split; [lia|done].
  - intros B f Hf. unfold pop_state. cbv zeta. destruct (_ && _); rewrite ?(lf_hw f Hf), (lf_cpus f Hf); done.
Qed.
