(* ===== verification/Cprintf.v ===== *)
(** * What the kernel prints

    [cprintf] of [console.c] against a reference definition: [render] takes a format
    apart into its conversions and writes each argument in positional notation.
    [cprintf] prints exactly that text, on the serial port and on a screen whose
    cursor stays in range, and changes nothing else. *)

From S2P Require Import Prelude Mmu Mem State Spinlock Printk Critical.

(** ** Positional notation *)

(** The character of a digit, and the digits of [x] at the places [n-1 .. 0]. *)
Definition digit (d : Z) : Z := if d <? 10 then 48 + d else 97 + (d - 10).
Definition places (base : Z) (n : nat) (x : Z) : list Z :=
  (fun k => (x / base ^ Z.of_nat k) mod base) <$> rev (seq 0 n).
Fixpoint drop_zeros (l : list Z) : list Z :=
  match l with d :: l' => if d =? 0 then drop_zeros l' else l | [] => [] end.
(** The numeral of a 32-bit number: its digits without leading zeros, "0" for none. *)
Definition numeral (base x : Z) : list Z :=
  digit <$> (match drop_zeros (places base 32 x) with [] => [0] | l => l end).
Definition decimal (z : Z) : list Z := if z <? 0 then 45 :: numeral 10 (- z) else numeral 10 z.
Definition hexadecimal (z : Z) : list Z := numeral 16 (z mod 2 ^ 32).

#[global] Arguments decimal : simpl never.
#[global] Arguments hexadecimal : simpl never.

(** ** Formats *)
Inductive piece := Lit (txt : list Z) | Dec | Hex | Str.
Definition conversion (d : Z) : piece :=
  if d =? 100 then Dec else if (d =? 120) || (d =? 112) then Hex else if d =? 115 then Str
  else if d =? 37 then Lit [37] else Lit [37; d].
Fixpoint pieces (fmt : list Z) : list piece :=
  match fmt with
  | [] => []
  | c :: fmt' =>
      if c =? 37 then match fmt' with [] => [] | d :: fmt'' => conversion d :: pieces fmt'' end
      else Lit [c] :: pieces fmt'
  end.
(** The text of an argument; [None] if it is of the wrong kind. *)
Definition argument (p : piece) (a : parg) : option (list Z) :=
  match p, a with
  | Dec, PInt z => Some (decimal (s32 z))
  | Hex, PInt z => Some (hexadecimal z)
  | Str, PStr s => Some (default (bytes "(null)") s)
  | _, _ => None
  end.
Fixpoint expand (ps : list piece) (args : list parg) : option (list Z) :=
  match ps with
  | [] => Some []
  | Lit txt :: ps' => app txt <$> expand ps' args
  | p :: ps' => match args with a :: args' => w ← argument p a; app w <$> expand ps' args' | [] => None end
  end.
Definition render (fmt : list Z) (args : list parg) : option (list Z) := expand (pieces fmt) args.

(** ** [printint] writes numerals *)
Lemma places_S base n x : 2 <= base -> places base (S n) x = places base n (x / base) ++ [x mod base].
Proof.
  intros Hb. unfold places. cbn [seq rev]. rewrite <- seq_shift. change (List.map S (seq 0 n)) with (S <$> seq 0 n).
  rewrite <- (map_rev S). change (List.map S (rev (seq 0 n))) with (S <$> rev (seq 0 n)).
  rewrite fmap_app, <- list_fmap_compose. simpl. rewrite Z.div_1_r. f_equal. apply list_fmap_ext.
  intros _ k _. simpl. rewrite Z.div_div by lia. do 2 f_equal. rewrite Nat2Z.inj_succ, Z.pow_succ_r by lia. lia.
Qed.
Lemma places_zero base n : places base n 0 = replicate n 0.
Proof.
  unfold places. rewrite <- (length_seq n 0) at 2. rewrite <- length_rev. generalize (rev (seq 0 n)).
  induction l as [|k l IH]; [done|]. cbn [fmap list_fmap length replicate]. by rewrite IH, Zdiv_0_l, Zmod_0_l.
Qed.
Lemma drop_zeros_app l d : drop_zeros (l ++ [d]) = match drop_zeros l with [] => drop_zeros [d] | r => r ++ [d] end.
Proof. induction l as [|c l IH]; [done|]. simpl. destruct (c =? 0); [done|done]. Qed.
Lemma drop_zeros_replicate n : drop_zeros (replicate n 0) = [].
Proof. by induction n. Qed.

(** The digits in the order in which the loop stores them, as numbers. *)
Lemma digit_loop_places base : 2 <= base -> forall f x, 0 < x < base ^ Z.of_nat f ->
  rev (digit_loop f kdigits x base) = digit_char kdigits <$> drop_zeros (places base f x) /\ drop_zeros (places base f x) <> [].
Proof.
  intros Hb. induction f as [|f IH]; intros x Hx; [simpl in Hx; lia|]. rewrite places_S, drop_zeros_app by done. cbn [digit_loop rev].
  rewrite Nat2Z.inj_succ, Z.pow_succ_r in Hx by lia.
  destruct (Z.eqb_spec (x / base) 0) as [E|E].
  - rewrite E, places_zero, drop_zeros_replicate. assert (0 < x mod base) as Hm by (rewrite Z.mod_eq, E by lia; lia).
    simpl. destruct (Z.eqb_spec (x mod base) 0); [lia|done].
  - assert (0 < x / base < base ^ Z.of_nat f) as Hx'.
    { pose proof (Z.div_pos x base ltac:(lia) ltac:(lia)). split; [lia|]. apply Z.div_lt_upper_bound; lia. }
    destruct (IH _ Hx') as [H1 H2]. rewrite H1. destruct (drop_zeros (places base f (x / base))) as [|c l]; [done|].
    by rewrite fmap_app.
Qed.
Lemma kdigits_digit d : 0 <= d < 16 -> digit_char kdigits d = digit d.
Proof.
  intros Hd. assert (forallb (fun d => digit_char kdigits d =? digit d) (Z.of_nat <$> seq 0 16) = true) as H by reflexivity.
  rewrite forallb_forall in H. apply Z.eqb_eq, H, in_map_iff. exists (Z.to_nat d). split; [lia|]. apply in_seq. lia.
Qed.
Lemma drop_zeros_sub l x : x ∈ drop_zeros l -> x ∈ l.
Proof. induction l as [|c l IH]; simpl; [done|]. destruct (c =? 0); [intros; right; auto|done]. Qed.
Lemma digit_loop_numeral base x : 2 <= base <= 16 -> 0 <= x < 2 ^ 32 ->
  rev (digit_loop digit_fuel kdigits x base) = numeral base x.
Proof.
  intros Hb Hx. unfold numeral, digit_fuel. destruct (decide (x = 0)) as [->|Hne].
  { rewrite places_zero, drop_zeros_replicate. cbn [digit_loop]. rewrite Zdiv_0_l, Zmod_0_l. reflexivity. }
  destruct (digit_loop_places base ltac:(lia) 32 x) as [-> Hnil].
  { split; [lia|]. apply Z.lt_le_trans with (2 ^ 32); [lia|]. apply Z.pow_le_mono_l. lia. }
  assert (forall d, d ∈ drop_zeros (places base 32 x) -> digit_char kdigits d = digit d) as Hd.
  { intros d Hd%drop_zeros_sub. apply kdigits_digit. unfold places in Hd. apply list_elem_of_fmap in Hd as (k & -> & _).
    pose proof (Z.mod_pos_bound (x / base ^ Z.of_nat k) base ltac:(lia)). lia. }
  destruct (drop_zeros (places base 32 x)) as [|c l]; [done|]. apply list_fmap_ext. intros k d Hk. by apply Hd, list_elem_of_lookup_2 with k.
Qed.
Lemma printint_decimal z : rev (printint_buf kdigits (s32 z) 10 true) = decimal (s32 z).
Proof.
  assert (- 2 ^ 31 <= s32 z < 2 ^ 31) as Hz by (unfold s32; cbv zeta; destruct (Z.ltb_spec (z mod 2 ^ 32) (2 ^ 31)); dlia).
  unfold printint_buf, decimal. cbn [andb]. destruct (Z.ltb_spec (s32 z) 0).
  - rewrite rev_app_distr, u32_small by lia. cbn [rev app]. f_equal. apply digit_loop_numeral; lia.
  - rewrite app_nil_r, u32_small by lia. apply digit_loop_numeral; lia.
Qed.
Lemma printint_hexadecimal z : rev (printint_buf kdigits (s32 z) 16 false) = hexadecimal z.
Proof.
  unfold printint_buf, hexadecimal. cbn [andb]. rewrite app_nil_r.
  assert (u32 (s32 z) = z mod 2 ^ 32) as -> by (unfold u32, s32; cbv zeta; destruct (Z.ltb_spec (z mod 2 ^ 32) (2 ^ 31)); dlia).
  apply digit_loop_numeral; [lia|]. apply Z.mod_pos_bound. lia.
Qed.

(** ** The printed text *)

(** The state after [txt] has been printed, with the screen [crt]. *)
Definition shown (crt : crt_t) (txt : list Z) (s : kstate) : kstate :=
  set_k_crt crt (set_k_out (k_out s ++ flat_map (sent s) txt) s).
Definition shows {A} (m : K A) (a : A) (txt : list Z) : Prop :=
  forall s, screen_ok s -> exists crt, m s = Ret a (shown crt txt s) /\ 0 <= crt_pos crt < 24 * 80.

Lemma shown_shown crt crt' l l' s : shown crt' l' (shown crt l s) = shown crt' (l ++ l') s.
Proof. unfold shown, set_k_crt, set_k_out; simpl. f_equal. by rewrite flat_map_app, app_assoc. Qed.
Lemma shown_nil s : shown (k_crt s) [] s = s.
Proof. unfold shown. simpl. rewrite app_nil_r. by destruct s. Qed.

Lemma shows_ret {A} (a : A) : shows (ret a) a [].
Proof. intros s H. exists (k_crt s). rewrite shown_nil. split; [done|apply H]. Qed.
Lemma shows_bind {A B} (m : K A) (f : A -> K B) a b l l' : shows m a l -> shows (f a) b l' -> shows (bind m f) b (l ++ l').
Proof.
  intros Hm Hf s Hs. destruct (Hm s Hs) as (c1 & H1 & P1).
  destruct (Hf (shown c1 l s)) as (c2 & H2 & P2); [split; [apply Hs|done]|].
  exists c2. unfold bind. rewrite H1; simpl. rewrite H2, shown_shown. done.
Qed.
Lemma shows_putc c : shows (consputc c) tt [c].
Proof.
  intros s Hs. destruct (consputc_run s c Hs) as (crt & Hr & Hp & _). exists crt. split; [|done].
  unfold shown. simpl. by rewrite app_nil_r.
Qed.
Lemma shows_iter l : shows (iter_list l consputc) tt l.
Proof.
  induction l as [|c l IH]; [apply shows_ret|]. apply (shows_bind _ _ tt tt [c] l); [apply shows_putc|done].
Qed.

Lemma cprintf_loop_shows fmt args txt : render fmt args = Some txt -> shows (cprintf_loop fmt args) tt txt.
Proof.
  remember (length fmt) as k eqn:Hk. revert fmt args txt Hk.
  induction k as [k IH] using lt_wf_ind. intros [|c fmt] args txt -> H; [by injection H as <-; apply shows_ret|].
  assert (forall fmt' args' r pre m, (length fmt' < S (length fmt))%nat -> render fmt' args' = Some r -> shows m tt pre ->
    shows (m ;; cprintf_loop fmt' args') tt (pre ++ r)) as Hstep.
  { intros fmt' args' r pre m Hl Hr Hm. eapply shows_bind; [exact Hm|]. by eapply IH. }
  unfold render in H. cbn [pieces cprintf_loop] in *. destruct (c =? 37) eqn:Ec; cbn [negb].
  - destruct fmt as [|d fmt]; [by injection H as <-; apply shows_ret|]. fold (render fmt) in *. unfold conversion in H.
    destruct (d =? 100); [|destruct (_ || _); [|destruct (d =? 115); [|destruct (d =? 37)]]]; cbn [expand] in H.
    + destruct args as [|[z|str] args]; try done. cbn [argument mbind option_bind] in H. apply fmap_Some in H as (r & Hr & ->).
      rewrite <- printint_decimal. apply Hstep; [simpl; lia|done|apply shows_iter].
    + destruct args as [|[z|str] args]; try done. cbn [argument mbind option_bind] in H. apply fmap_Some in H as (r & Hr & ->).
      rewrite <- printint_hexadecimal. apply Hstep; [simpl; lia|done|apply shows_iter].
    + destruct args as [|[z|str] args]; try done. cbn [argument mbind option_bind] in H. apply fmap_Some in H as (r & Hr & ->).
      apply Hstep; [simpl; lia|done|]. destruct str; apply shows_iter.
    + apply fmap_Some in H as (r & Hr & ->). apply (Hstep fmt args r [37]); [simpl; lia|done|apply shows_putc].
    + apply fmap_Some in H as (r & Hr & ->). apply (shows_bind _ _ tt tt [37] (d :: r)); [apply shows_putc|].
      apply (Hstep fmt args r [d]); [simpl; lia|done|apply shows_putc].
  - apply fmap_Some in H as (r & Hr & ->). apply (Hstep fmt args r [c]); [lia|done|apply shows_putc].
Qed.

(** A process (or the idle loop) that can take the console's lock. *)
Record console_free (s : kstate) (i : nat) (n : Z) (p : option nat) : Prop := mk_console_free {
  cf_cpu : on_cpu s i n p;
  cf_depth : 0 <= n;
  cf_cons : unlocked Lk_cons s;
  cf_screen : screen_ok s }.
(** From [s] to [s'] only the text [txt] has been printed. *)
Record printed (s s' : kstate) (txt : list Z) : Prop := mk_printed {
  pr_out : k_out s' = k_out s ++ flat_map (sent s) txt;
  pr_locks : same_locks Lk_cons s s';
  pr_rest : forall B (f : kstate -> B), io_free f -> f s' = f s }.

Lemma same_sent s s' c : hw_uart (k_hw s') = hw_uart (k_hw s) -> sent s' c = sent s c.
Proof. unfold sent. by intros ->. Qed.
Lemma flat_sent s s' l : hw_uart (k_hw s') = hw_uart (k_hw s) -> flat_map (sent s') l = flat_map (sent s) l.
Proof. intros E. induction l; simpl; [done|]. by rewrite (same_sent s s'), IHl. Qed.

Lemma cprintf_run s i n p fmt args txt :
  console_free s i n p -> render fmt args = Some txt ->
  exists s', cprintf fmt args s = Ret tt s' /\ console_free s' i n p /\ printed s s' txt.
Proof.
  intros [H1 H2 H3 H4] Hr. pose proof (cprintf_loop_shows _ _ _ Hr) as Hl. unfold cprintf, cprintf_ptr. rstep.
  destruct (truth (k_cons_locking s)); cbn [when].
  - destruct (acquire_cpu s i n p Lk_cons H1 H3) as (s1 & Ha & Hc1 & Hh1 & Hl1 & Hd1).
    assert (hw_uart (k_hw s1) = hw_uart (k_hw s)) as Eu by (apply (Hd1 _ (fun s => hw_uart (k_hw s))); lock_free_tac).
    destruct (Hl s1) as (crt & H5 & H6).
    { split; [rewrite (Hd1 _ k_panicked) by lock_free_tac|rewrite (Hd1 _ k_crt) by lock_free_tac]; apply H4. }
    destruct (release_cpu (shown crt txt s1) i (n + 1) p Lk_cons) as (s2 & Hre & Hc2 & Hu2 & Hl2 & Hd2);
      [by apply (on_cpu_ext s1)|lia|done|].
    replace (n + 1 - 1) with n in Hc2 by lia. exists s2. run Ha. run H5. split; [exact Hre|]. split; [split; try done|split].
    + split; [rewrite (Hd2 _ k_panicked) by lock_free_tac|rewrite (Hd2 _ k_crt) by lock_free_tac]; [|done].
      simpl. rewrite (Hd1 _ k_panicked) by lock_free_tac. apply H4.
    + rewrite (Hd2 _ k_out) by lock_free_tac. simpl. rewrite (Hd1 _ k_out) by lock_free_tac. by rewrite (flat_sent s).
    + intros lk Hne. rewrite Hl2 by done. simpl. by apply Hl1.
    + intros B f Hf. rewrite (Hd2 _ f) by (by apply io_lock_free). unfold shown.
      rewrite (io_crt f Hf), (io_out f Hf). apply Hd1. by apply io_lock_free.
  - destruct (Hl s H4) as (crt & H5 & H6). exists (shown crt txt s). rstep. run H5. split; [done|]. split; [split|split].
    + by apply (on_cpu_ext s). + done. + done. + split; [apply H4|done]. + done. + by intros lk _.
    + intros B f Hf. unfold shown. by rewrite (io_crt f Hf), (io_out f Hf).
Qed.

Lemma printed_refl s : printed s s [].
Proof. split; [by rewrite app_nil_r|by intros lk _|done]. Qed.
Lemma printed_trans s1 s2 s3 l l' : printed s1 s2 l -> printed s2 s3 l' -> printed s1 s3 (l ++ l').
Proof.
  intros [A1 A2 A3] [B1 B2 B3]. split.
  - rewrite B1, A1, flat_map_app, app_assoc, (flat_sent s1 s2); [done|]. apply (A3 _ (fun s => hw_uart (k_hw s))). io_free_tac.
  - intros lk Hne. by rewrite B2, A2.
  - intros B f Hf. by rewrite B3, A3.
Qed.

(** A null format is found under the lock. *)
Lemma cprintf_null s i n p args : console_free s i n p -> cprintf_ptr None args s = Panic "null fmt".
Proof.
  intros [H1 H2 H3 H4]. unfold cprintf_ptr. rstep. destruct (truth (k_cons_locking s)); cbn [when]; [|done].
  destruct (acquire_cpu s i n p Lk_cons H1 H3) as (s1 & Ha & _). by run Ha.
Qed.

(** C35: [cprintf] prints what its format says.  Whenever the arguments fit the
    format and the console's lock is free, [cprintf] returns; the serial port has
    received the bytes of the expanded text, where a number stands in positional
    notation, decimal with a minus sign or hexadecimal, without leading zeros; the
    lock is free again, and nothing but the output and the screen has changed.  A null
    format panics. *)
Theorem cprintf_renders s i n p fmt args txt :
  console_free s i n p ->
  (render fmt args = Some txt ->
   exists s', cprintf fmt args s = Ret tt s' /\ console_free s' i n p /\
     k_out s' = k_out s ++ flat_map (sent s) txt /\ forall B (f : kstate -> B), io_free f -> f s' = f s) /\
  cprintf_ptr None args s = Panic "null fmt".
Proof.
  intros H. split; [|by apply (cprintf_null s i n p)].
  intros Hr. destruct (cprintf_run s i n p fmt args txt H Hr) as (s' & H1 & H2 & [H3 _ H4]). by exists s'.
Qed.

(** A machine with a serial port. *)
Definition serial : kstate := set_k_hw (set_hw_uart 1 (k_hw boot)) (set_k_cons_locking 1 boot).
Lemma serial_free : console_free serial 0 0 None.
Proof. split; [exists (cpu0 0); by repeat split|done|done|split; [done|simpl; lia]]. Qed.
Lemma cprintf_renders_witness :
  exists s', cprintf (bytes "cpu%d: %s %x" ++ [NL]) [PInt (-3); PStr (Some (bytes "ok")); PInt 255] serial = Ret tt s' /\
    k_out s' = bytes "cpu-3: ok ff" ++ [NL].
Proof.
  destruct (cprintf_renders serial 0 0 None (bytes "cpu%d: %s %x" ++ [NL]) [PInt (-3); PStr (Some (bytes "ok")); PInt 255]
    (bytes "cpu-3: ok ff" ++ [NL]) serial_free) as [H _]. destruct (H ltac:(by vm_compute)) as (s' & H1 & _ & H2 & _).
  exists s'. exact (conj H1 H2).
Defined.
