(* ===== verification/Kalloc.v ===== *)
(** * The physical page allocator

    [kalloc.c].  The free list is threaded through the free pages themselves:
    the first word of a free page is the address of the next one. *)

From S2P Require Import Prelude Mmu Mem State Spinlock Printk Critical.

(** The memory as a whole. *)
Definition mem_store (f : mem -> mem) : K unit := modify (fun s => set_k_mem (f (k_mem s)) s).

Definition upd_kmem (f : kmem_t -> kmem_t) : K unit := modify (fun s => set_k_kmem (f (k_kmem s)) s).
Definition use_lock : K bool := gets (fun s => truth (km_use_lock (k_kmem s))).

Definition kfree (v : Z) : K unit :=
  kend <- gets k_end ;;
  if negb (u32 v mod PGSIZE =? 0) || (v <? kend) || (PHYSTOP <=? V2P v) then panic "kfree" else
  mem_store (fun m => memset m v 1 PGSIZE) ;;
  l <- use_lock ;; when l (acquire Lk_kmem) ;;
  let r := v in
  next <- gets (fun s => km_freelist (k_kmem s)) ;;
  mem_store (fun m => st32 m r next) ;;
  upd_kmem (set_km_freelist r) ;;
  l <- use_lock ;; when l (release Lk_kmem).

Definition kalloc : K Z :=
  l <- use_lock ;; when l (acquire Lk_kmem) ;;
  r <- gets (fun s => km_freelist (k_kmem s)) ;;
  when (truth r) (next <- gets (fun s => ld32 (k_mem s) r) ;; upd_kmem (set_km_freelist next)) ;;
  l <- use_lock ;; when l (release Lk_kmem) ;;
  ret r.

(** The loop frees at most one page per [PGSIZE] bytes below [vend]. *)
Fixpoint freerange_loop (fuel : nat) (p vend : Z) : K unit :=
  if p + PGSIZE <=? vend then
    match fuel with O => nofuel | S f => kfree p ;; freerange_loop f (p + PGSIZE) vend end
  else ret tt.
Definition freerange (vstart vend : Z) : K unit :=
  let p := PGROUNDUP (u32 vstart) in
  freerange_loop (Z.to_nat ((vend - p) / PGSIZE)) p vend.

Definition kinit1 (vstart vend : Z) : K unit :=
  initlock Lk_kmem "kmem" ;;
  upd_kmem (set_km_use_lock 0) ;;
  freerange vstart vend.
Definition kinit2 (vstart vend : Z) : K unit :=
  freerange vstart vend ;;
  upd_kmem (set_km_use_lock 1).

(* ------------------------------------------------------------------ *)
(** ** The invariant *)

(** The list threaded through memory from address [a]. *)
Fixpoint linked (m : mem) (a : Z) (l : list Z) : Prop :=
  match l with
  | [] => a = 0
  | p :: l' => a = p /\ linked m (ld32 m p) l'
  end.

(** A page [kfree] accepts: aligned, above the kernel image, below [PHYSTOP]. *)
Definition page_ok (kend p : Z) : Prop :=
  p mod PGSIZE = 0 /\ kend <= p /\ KERNBASE <= p < KERNBASE + PHYSTOP.

Record kmem_inv (s : kstate) (l : list Z) : Prop := mk_kmem_inv {
  ki_linked : linked (k_mem s) (km_freelist (k_kmem s)) l;
  ki_nodup : NoDup l;
  ki_pages : Forall (page_ok (k_end s)) l }.

Lemma linked_ext m m' a l :
  linked m a l -> (forall p, p ∈ l -> ld32 m' p = ld32 m p) -> linked m' a l.
Proof.
  revert a. induction l as [|p l IH]; intros a; simpl; [done|].
  intros [-> Hl] Hm. split; [done|]. rewrite Hm by set_solver. apply IH; set_solver.
Qed.

Lemma page_ok_bounds kend p : page_ok kend p -> 0 < p /\ p + PGSIZE <= 2 ^ 32.
Proof. unfold page_ok, PGSIZE, KERNBASE, PHYSTOP. lia. Qed.

Lemma pages_disjoint p q : p mod PGSIZE = 0 -> q mod PGSIZE = 0 -> p <> q -> p + PGSIZE <= q \/ q + PGSIZE <= p.
Proof. unfold PGSIZE. dlia. Qed.

(** [kfree]'s sanity test is exactly [page_ok] on kernel addresses. *)
Lemma kfree_check kend v :
  0 <= v < 2 ^ 32 ->
  (negb (u32 v mod PGSIZE =? 0) || (v <? kend) || (PHYSTOP <=? V2P v) = false <-> page_ok kend v).
Proof.
  intros Hv. unfold page_ok, V2P. rewrite !u32_small by (done || (apply u32_range)).
  rewrite !orb_false_iff, negb_false_iff, Z.eqb_eq, Z.ltb_ge, Z.leb_gt.
  unfold u32, KERNBASE, PHYSTOP. dlia.
Qed.

(** Both variants of the lock test reduce to the unlocked state. *)
Section Frames.
Context {B} (f : kstate -> B) (Hf : io_free f)
  (Hk : forall v s, f (set_k_kmem v s) = f s) (Hm : forall v s, f (set_k_mem v s) = f s).

Lemma frame_kfree v : preserves f (kfree v).
Proof.
  unfold kfree, use_lock, mem_store, upd_kmem.
  pose proof (frame_acquire f Hf Lk_kmem). pose proof (frame_release f Hf Lk_kmem). frame;
    apply preserves_modify; intros s; auto.
Qed.
Lemma frame_kalloc : preserves f kalloc.
Proof.
  unfold kalloc, use_lock, upd_kmem.
  pose proof (frame_acquire f Hf Lk_kmem). pose proof (frame_release f Hf Lk_kmem). frame;
    apply preserves_modify; intros s; auto.
Qed.
End Frames.
#[export] Hint Resolve frame_kfree frame_kalloc : frame.

Lemma kalloc_run s i n p l :
  ready s i n p Lk_kmem -> kmem_inv s l ->
  exists s', kalloc s = Ret (hd 0 l) s' /\ kmem_inv s' (tl l) /\ k_mem s' = k_mem s /\
    ready s' i n p Lk_kmem /\ km_use_lock (k_kmem s') = km_use_lock (k_kmem s) /\ same_locks Lk_kmem s s'.
Proof.
  intros (c & HI & Hn & Hp & Hu) [Hl Hd Hg].
  set (k' := if truth (km_freelist (k_kmem s))
             then set_km_freelist (ld32 (k_mem s) (km_freelist (k_kmem s))) (k_kmem s) else k_kmem s).
  assert (km_freelist (k_kmem s) = hd 0 l) as Hhd by (destruct l; simpl in Hl; [done|apply Hl]).
  assert (forall s1, k_kmem s1 = k' -> k_mem s1 = k_mem s -> k_end s1 = k_end s ->
            kmem_inv s1 (tl l) /\ km_use_lock (k_kmem s1) = km_use_lock (k_kmem s)) as Hinv.
  { intros s1 E1 E2 E3. rewrite E1. unfold k'. destruct l as [|q l]; simpl in *.
    - rewrite Hl. simpl. split; [|done]. split; rewrite ?E1, ?E2, ?E3; unfold k'; rewrite ?Hl; done.
    - destruct Hl as [Hq Hl]. apply Forall_cons in Hg as [H1 Hg]. apply NoDup_cons in Hd as [_ Hd].
      assert (truth (km_freelist (k_kmem s)) = true) as Ht.
      { apply truth_true. rewrite Hhd. destruct (page_ok_bounds _ _ H1). lia. }
      split; [|by rewrite Ht]. split; rewrite ?E1, ?E2, ?E3; unfold k'; rewrite ?Ht, ?Hhd; simpl; try done. }
  unfold kalloc, use_lock. rstep. destruct (truth (km_use_lock (k_kmem s))) eqn:Elk; simpl when.
  - destruct (ready_section s (set_k_kmem k' (acquired Lk_kmem i c s)) i c Lk_kmem) as (Ha & Hr & Hrd & Hoth); try done.
    exists (released Lk_kmem i (push_cpu s c) (set_k_kmem k' (acquired Lk_kmem i c s))).
    destruct (Hinv (released Lk_kmem i (push_cpu s c) (set_k_kmem k' (acquired Lk_kmem i c s)))) as [Hi1 Hi2];
      try (by rewrite released_data by eauto with frame).
    rewrite Hn, Hp in Hrd. repeat split; try apply Hi1; try done; [|by rewrite released_data by eauto with frame].
    run Ha. rstep. change (k_kmem (acquired Lk_kmem i c s)) with (k_kmem s).
    erewrite (bind_Ret _ _ _ tt (set_k_kmem k' (acquired Lk_kmem i c s))).
    2: { unfold k', when. destruct (truth (km_freelist (k_kmem s))); done. }
    rstep. simpl. replace (truth (km_use_lock k')) with true by (unfold k'; destruct (truth (km_freelist _)); done).
    simpl when. run Hr. unfold ret. f_equal. exact Hhd.
  - exists (set_k_kmem k' s). destruct (Hinv (set_k_kmem k' s)) as [Hi1 Hi2]; try done.
    repeat split; try apply Hi1; try done; [|by apply (ready_ext s); [..|exists c]].
    rstep. rstep. erewrite (bind_Ret _ _ _ tt (set_k_kmem k' s)).
    2: { unfold k', when. destruct (truth (km_freelist (k_kmem s))); [done|by destruct s]. }
    rstep. simpl. replace (truth (km_use_lock k')) with false by (unfold k'; destruct (truth (km_freelist _)); done).
    simpl. by rewrite <- Hhd.
Qed.

(** The memory and the list head [kfree] leaves. *)
Definition freed_mem (s : kstate) (v : Z) : mem :=
  st32 (memset (k_mem s) v 1 PGSIZE) v (km_freelist (k_kmem s)).

Lemma freed_mem_out s v a : a < v \/ v + PGSIZE <= a -> freed_mem s v a = k_mem s a.
Proof.
  unfold freed_mem, PGSIZE. intros H. rewrite st32_other by lia. rewrite memset_spec by lia.
  mem_case; (done || lia).
Qed.

Lemma freed_inv s s1 v l :
  kmem_inv s l -> page_ok (k_end s) v -> v ∉ l ->
  k_mem s1 = freed_mem s v -> km_freelist (k_kmem s1) = v -> k_end s1 = k_end s ->
  kmem_inv s1 (v :: l).
Proof.
  intros [Hl Hd Hg] Hv Hnin E1 E2 E3. split.
  - rewrite E1, E2. simpl. split; [done|]. unfold freed_mem. rewrite ld32_st32_same, u32_small.
    + apply (linked_ext (k_mem s)); [done|]. intros p Hp.
      rewrite Forall_forall in Hg. specialize (Hg p Hp).
      assert (p + PGSIZE <= v \/ v + PGSIZE <= p) as Hdis.
      { apply pages_disjoint; [apply Hg|apply Hv|]. intros ->. done. }
      unfold PGSIZE in *. rewrite ld32_st32_other by lia. by rewrite ld32_memset_out by lia.
    + destruct l as [|p l]; simpl in Hl; [lia|]. destruct Hl as [-> _].
      apply Forall_cons in Hg as [Hp _]. apply page_ok_bounds in Hp. unfold PGSIZE in *. lia.
  - by apply NoDup_cons.
  - rewrite E3. by apply Forall_cons.
Qed.

Lemma kfree_run s i n p l v :
  ready s i n p Lk_kmem -> kmem_inv s l -> page_ok (k_end s) v -> v ∉ l ->
  exists s', kfree v s = Ret tt s' /\ kmem_inv s' (v :: l) /\
    (forall a, a < v \/ v + PGSIZE <= a -> k_mem s' a = k_mem s a) /\
    ready s' i n p Lk_kmem /\ km_use_lock (k_kmem s') = km_use_lock (k_kmem s) /\
    (mem_ok (k_mem s) -> mem_ok (k_mem s')).
Proof.
  intros (c & HI & Hn & Hp & Hu) Hinv Hv Hnin. pose proof (page_ok_bounds _ _ Hv) as Hb.
  unfold PGSIZE in Hb. unfold kfree. rstep.
  replace (negb _ || _ || _) with false by (symmetry; apply kfree_check; [lia|done]).
  rstep. set (s0 := set_k_mem (memset (k_mem s) v 1 PGSIZE) s).
  set (k' := set_km_freelist v (k_kmem s)).
  unfold use_lock. rstep. change (k_kmem s0) with (k_kmem s).
  destruct (truth (km_use_lock (k_kmem s))) eqn:Elk; simpl when.
  - set (s1 := set_k_kmem k' (set_k_mem (freed_mem s v) (acquired Lk_kmem i c s0))).
    destruct (ready_section s0 s1 i c Lk_kmem) as (Ha & Hr & Hrd & _); try done; [by apply (cpu_inv_ext s)|].
    exists (released Lk_kmem i (push_cpu s0 c) s1). rewrite Hn, Hp in Hrd.
    split; [|split; [|split; [|split; [|split]]]]; try done.
    + run Ha. rstep. rstep. rstep. rstep. simpl. rewrite Elk. simpl when. exact Hr.
    + apply (freed_inv s); try done; by rewrite released_data by eauto with frame.
    + intros a Hx. rewrite released_data by eauto with frame. simpl. by apply freed_mem_out.
    + by rewrite released_data by eauto with frame.
    + intros Hok. rewrite released_data by eauto with frame. apply st32_ok, memset_ok; done.
  - exists (set_k_kmem k' (set_k_mem (freed_mem s v) s)).
    split; [|split; [|split; [|split; [|split]]]]; try done.
    + rstep. rstep. rstep. rstep. rstep. simpl. rewrite Elk. done.
    + by apply (freed_inv s).
    + intros a Hx. simpl. by apply freed_mem_out.
    + apply (ready_ext s); try done. by exists c.
    + intros Hok. apply st32_ok, memset_ok; done.
Qed.

Lemma kfree_bad s v :
  0 <= v < 2 ^ 32 -> ~ page_ok (k_end s) v -> kfree v s = Panic "kfree".
Proof.
  intros Hv Hbad. unfold kfree. rstep.
  destruct (negb _ || _ || _) eqn:E; [done|]. exfalso. by apply Hbad, kfree_check.
Qed.

(** The pages [freerange] frees, in the order it frees them. *)
Fixpoint pages_from (p : Z) (n : nat) : list Z :=
  match n with O => [] | S n' => p :: pages_from (p + PGSIZE) n' end.

Lemma elem_of_pages_from q p n :
  q ∈ pages_from p n <-> exists k, 0 <= k < Z.of_nat n /\ q = p + k * PGSIZE.
Proof.
  revert p. induction n as [|n IH]; intros p; simpl.
  - split; [by intros H%not_elem_of_nil|intros (k & Hk & _); lia].
  - rewrite elem_of_cons, IH. split.
    + intros [->|(k & Hk & ->)]; [exists 0; lia|]. exists (k + 1). lia.
    + intros (k & Hk & ->). destruct (decide (k = 0)) as [->|]; [left; lia|].
      right. exists (k - 1). lia.
Qed.

Lemma freerange_loop_run m : forall s i n p l q vend,
  ready s i n p Lk_kmem -> kmem_inv s l ->
  m = Z.to_nat ((vend - q) / PGSIZE) ->
  Forall (page_ok (k_end s)) (pages_from q m) -> (forall x, x ∈ pages_from q m -> x ∉ l) ->
  exists s', freerange_loop m q vend s = Ret tt s' /\ kmem_inv s' (rev (pages_from q m) ++ l) /\
    ready s' i n p Lk_kmem /\ km_use_lock (k_kmem s') = km_use_lock (k_kmem s) /\ k_end s' = k_end s.
Proof.
  induction m as [|m IH]; intros s i n p l q vend Hrd Hinv Hm Hpg Hfresh; cbn [freerange_loop].
  - destruct (Z.leb_spec (q + PGSIZE) vend); [exfalso; unfold PGSIZE in *; dlia|].
    exists s. simpl. done.
  - destruct (Z.leb_spec (q + PGSIZE) vend) as [Hle|]; [|exfalso; unfold PGSIZE in *; dlia].
    cbn [pages_from] in Hpg, Hfresh. apply Forall_cons in Hpg as [Hq Hpg].
    destruct (kfree_run s i n p l q Hrd Hinv Hq) as (s1 & Hk & Hi1 & _ & Hr1 & Hu1 & _); [apply Hfresh; set_solver|].
    assert (k_end s1 = k_end s) as He by (apply (frame_kfree k_end) in Hk; eauto with frame).
    destruct (IH s1 i n p (q :: l) (q + PGSIZE) vend) as (s2 & Hl & Hi2 & Hr2 & Hu2 & He2); try done.
    + unfold PGSIZE in *. dlia.
    + by rewrite He.
    + intros x Hx. rewrite not_elem_of_cons. split; [|apply Hfresh; set_solver].
      apply elem_of_pages_from in Hx as (k & Hk0 & ->). unfold PGSIZE. lia.
    + exists s2. run Hk. rewrite Hl. split; [done|]. cbn [pages_from rev]. rewrite <- app_assoc. simpl.
      rewrite Hu2, He2. done.
Qed.

(** C8: [kalloc] and [kfree] implement a stack of distinct free pages.  With the
    free list [l] intact, [kalloc] returns its first page and leaves the rest
    (0 and the empty list if there is none) without touching memory; [kfree] of a
    valid page that is not free pushes it and writes only inside that page;
    [kfree] panics on every address that is misaligned, inside the kernel image or
    beyond [PHYSTOP].  In both cases the lock is free and the interrupt nesting
    unchanged afterwards. *)
Theorem kalloc_kfree_stack s i n p l :
  ready s i n p Lk_kmem -> kmem_inv s l ->
  (exists s', kalloc s = Ret (hd 0 l) s' /\ kmem_inv s' (tl l) /\ k_mem s' = k_mem s /\
     ready s' i n p Lk_kmem) /\
  (forall v, page_ok (k_end s) v -> v ∉ l ->
     exists s', kfree v s = Ret tt s' /\ kmem_inv s' (v :: l) /\ ready s' i n p Lk_kmem /\
       forall a, a < v \/ v + PGSIZE <= a -> k_mem s' a = k_mem s a) /\
  (forall v, 0 <= v < 2 ^ 32 -> ~ page_ok (k_end s) v -> kfree v s = Panic "kfree").
Proof.
  intros Hrd Hinv. split; [|split].
  - destruct (kalloc_run s i n p l Hrd Hinv) as (s' & H1 & H2 & H3 & H4 & _). eauto 10.
  - intros v Hv Hnin. destruct (kfree_run s i n p l v Hrd Hinv Hv Hnin) as (s' & H1 & H2 & H3 & H4 & _). eauto 10.
  - intros v Hv Hbad. by apply kfree_bad.
Qed.

(** Two free pages on a booted processor. *)
Definition two_pages : kstate :=
  set_k_kmem (mk_kmem 1 0x80200000)
    (set_k_mem (st32 (st32 (fun _ => 0) 0x80201000 0) 0x80200000 0x80201000) boot).
Lemma two_pages_ready : ready two_pages 0 0 None Lk_kmem.
Proof. exists (cpu0 0). by split. Qed.
Lemma two_pages_inv : kmem_inv two_pages [0x80200000; 0x80201000].
Proof.
  split; [by repeat split| |].
  - apply NoDup_cons. split; [|apply NoDup_singleton]. rewrite list_elem_of_singleton. lia.
  - repeat (apply Forall_cons; split); try apply Forall_nil; repeat split; done.
Qed.

Lemma kalloc_kfree_stack_witness :
  (exists s', kalloc two_pages = Ret 0x80200000 s' /\ kmem_inv s' [0x80201000]) /\
  kfree 0x80200004 two_pages = Panic "kfree".
Proof.
  destruct (kalloc_kfree_stack two_pages 0 0 None _ two_pages_ready two_pages_inv) as (H1 & _ & H3).
  split.
  - destruct H1 as (s' & H & Hi & _). exists s'. exact (conj H Hi).
  - apply H3; [lia|]. intros [H _]. by vm_compute in H.
Defined.

(** [freerange] of a range inside the managed memory terminates and puts
    exactly the whole pages between the rounded-up start and the end on the free
    list, each once, on top of what was there. *)
Theorem freerange_adds_pages s i n p l vstart vend :
  ready s i n p Lk_kmem -> kmem_inv s l ->
  Z.max KERNBASE (k_end s) <= vstart <= vend -> vend <= KERNBASE + PHYSTOP ->
  (forall x, x ∈ l -> x < vstart) ->
  let ps := pages_from (PGROUNDUP vstart) (Z.to_nat ((vend - PGROUNDUP vstart) / PGSIZE)) in
  (exists s', freerange vstart vend s = Ret tt s' /\ kmem_inv s' (rev ps ++ l) /\
     ready s' i n p Lk_kmem /\ km_use_lock (k_kmem s') = km_use_lock (k_kmem s)) /\
  (forall x, x ∈ ps <-> x mod PGSIZE = 0 /\ vstart <= x /\ x + PGSIZE <= vend).
Proof.
  intros Hrd Hinv Hs He Hl ps.
  assert (PGROUNDUP vstart = (vstart + 4095) / 4096 * 4096) as Hup.
  { rewrite PGROUNDUP_eq. unfold PGSIZE, KERNBASE, PHYSTOP in *. rewrite u32_small by lia.
    by replace (vstart + 4096 - 1) with (vstart + 4095) by lia. }
  assert (forall x, x ∈ ps <-> x mod PGSIZE = 0 /\ vstart <= x /\ x + PGSIZE <= vend) as Hps.
  { intros x. unfold ps. rewrite elem_of_pages_from, Hup. unfold PGSIZE. split.
    - intros (k & Hk & ->). dlia.
    - intros (H1 & H2 & H3). exists ((x - (vstart + 4095) / 4096 * 4096) / 4096). dlia. }
  split; [|done].
  destruct (freerange_loop_run (Z.to_nat ((vend - PGROUNDUP vstart) / PGSIZE)) s i n p l (PGROUNDUP vstart) vend)
    as (s' & H1 & H2 & H3 & H4 & _); try done.
  - apply Forall_forall. intros x Hx. apply Hps in Hx. unfold page_ok, PGSIZE in *. lia.
  - intros x Hx Hin. apply Hps in Hx. specialize (Hl x Hin). lia.
  - exists s'. unfold freerange. cbv zeta. rewrite (u32_small vstart) by (unfold KERNBASE, PHYSTOP in *; lia).
    rewrite H1. eauto.
Qed.

Lemma freerange_adds_pages_witness :
  exists s', freerange 0x80300001 0x80302000 two_pages = Ret tt s' /\
    kmem_inv s' [0x80301000; 0x80200000; 0x80201000].
Proof.
  destruct (freerange_adds_pages two_pages 0 0 None _ 0x80300001 0x80302000 two_pages_ready two_pages_inv)
    as [(s' & H1 & H2 & _) _].
  - split; vm_compute; congruence.
  - vm_compute. congruence.
  - intros x. rewrite !elem_of_cons. intros [->|[->|H]]; [lia|lia|by apply elem_of_nil in H].
  - exists s'. exact (conj H1 H2).
Defined.
