(* ===== verification/Vm.v ===== *)
(** * Virtual memory

    [vm.c] of HW2: the two-level page tables in kernel memory, the kernel map,
    growing and shrinking user memory, copying an address space, and the copy of
    data into another address space.  [loaduvm] reads a file and is in [Exec.v]. *)

From S2P Require Import Prelude Mmu Mem State Spinlock Printk Critical Kalloc.

Definition ld (a : Z) : K Z := gets (fun s => ld32 (k_mem s) a).
Definition st (a v : Z) : K unit := mem_store (fun m => st32 m a v).

(** [x86.h]: the register of the segment table; [size] is in bytes. *)
Definition lgdt (i : nat) (size : Z) : K unit := upd_hw (set_hw_gdtr (Some (i, u16 (size - 1)))).
Definition sizeof_segdesc : Z := 8.
(** [seginit] builds the flat segments of the running processor and loads them. *)
Definition seginit : K unit :=
  id <- cpuid ;;
  let i := Z.to_nat id in
  upd_cpu i (fun c => set_c_gdt (<[Z.to_nat SEG_KCODE := SEG (Z.lor STA_X STA_R) 0 0xffffffff 0]> (c_gdt c)) c) ;;
  upd_cpu i (fun c => set_c_gdt (<[Z.to_nat SEG_KDATA := SEG STA_W 0 0xffffffff 0]> (c_gdt c)) c) ;;
  upd_cpu i (fun c => set_c_gdt (<[Z.to_nat SEG_UCODE := SEG (Z.lor STA_X STA_R) 0 0xffffffff DPL_USER]> (c_gdt c)) c) ;;
  upd_cpu i (fun c => set_c_gdt (<[Z.to_nat SEG_UDATA := SEG STA_W 0 0xffffffff DPL_USER]> (c_gdt c)) c) ;;
  lgdt i (sizeof_segdesc * NSEGS).

(** Returns the address of the page-table entry, 0 for the null pointer. *)
Definition walkpgdir (pgdir va : Z) (alloc : bool) : K Z :=
  let pde := pgdir + 4 * PDX va in
  e <- ld pde ;;
  if has_bits e PTE_P then ret (P2V (PTE_ADDR e) + 4 * PTX va)
  else if negb alloc then ret 0
  else
    pgtab <- kalloc ;;
    if pgtab =? 0 then ret 0
    else
      mem_store (fun m => memset m pgtab 0 PGSIZE) ;;
      st pde (Z.lor (Z.lor (Z.lor (V2P pgtab) PTE_P) PTE_W) PTE_U) ;;
      ret (pgtab + 4 * PTX va).

Fixpoint mappages_loop (fuel : nat) (pgdir a last pa perm : Z) : K Z :=
  match fuel with
  | O => nofuel
  | S f =>
      pte <- walkpgdir pgdir a true ;;
      if pte =? 0 then ret (-1) else
      e <- ld pte ;;
      if has_bits e PTE_P then panic "remap" else
      st pte (Z.lor (Z.lor pa perm) PTE_P) ;;
      if a =? last then ret 0
      else mappages_loop f pgdir (u32 (a + PGSIZE)) last (u32 (pa + PGSIZE)) perm
  end.
(** The loop visits the pages from [a] to [last], modulo the address space. *)
Definition mappages (pgdir va size pa perm : Z) : K Z :=
  let a := PGROUNDDOWN va in
  let last := PGROUNDDOWN (u32 (va + size - 1)) in
  mappages_loop (S (Z.to_nat (u32 (last - a) / PGSIZE))) pgdir a last pa perm.

(** [struct kmap] and the table [kmap]. *)
Record kmap_t := mk_kmap { km_virt : Z; km_phys_start : Z; km_phys_end : Z; km_perm : Z }.
Definition kmap (data : Z) : list kmap_t :=
  [ mk_kmap KERNBASE 0 EXTMEM PTE_W;
    mk_kmap KERNLINK (V2P KERNLINK) (V2P data) 0;
    mk_kmap data (V2P data) PHYSTOP PTE_W;
    mk_kmap DEVSPACE DEVSPACE 0 PTE_W ].

Fixpoint deallocuvm_loop (fuel : nat) (pgdir a oldsz : Z) : K unit :=
  if a <? oldsz then
    match fuel with
    | O => nofuel
    | S f =>
        pte <- walkpgdir pgdir a false ;;
        if pte =? 0 then
          deallocuvm_loop f pgdir (u32 (u32 (PGADDR (PDX a + 1) 0 0 - PGSIZE) + PGSIZE)) oldsz
        else
          e <- ld pte ;;
          when (has_bits e PTE_P) (
            let pa := PTE_ADDR e in
            (if pa =? 0 then panic "kfree" else ret tt) ;;
            let v := P2V pa in
            kfree v ;;
            st pte 0) ;;
          deallocuvm_loop f pgdir (u32 (a + PGSIZE)) oldsz
    end
  else ret tt.
Definition deallocuvm (pgdir oldsz newsz : Z) : K Z :=
  if oldsz <=? newsz then ret oldsz else
  let a := PGROUNDUP newsz in
  deallocuvm_loop (Z.to_nat ((oldsz - a + PGSIZE - 1) / PGSIZE)) pgdir a oldsz ;;
  ret newsz.

Definition freevm (pgdir : Z) : K unit :=
  if pgdir =? 0 then panic "freevm: no pgdir" else
  deallocuvm pgdir KERNBASE 0 ;;
  iter_list (upto NPDENTRIES) (fun i =>
    e <- ld (pgdir + 4 * Z.of_nat i) ;;
    when (has_bits e PTE_P) (let v := P2V (PTE_ADDR e) in kfree v)) ;;
  kfree pgdir.

Definition setupkvm : K Z :=
  pgdir <- kalloc ;;
  if pgdir =? 0 then ret 0 else
  mem_store (fun m => memset m pgdir 0 PGSIZE) ;;
  (if DEVSPACE <? P2V PHYSTOP then panic "PHYSTOP too high" else ret tt) ;;
  data <- gets k_data ;;
  r <- for_list (kmap data) (fun k =>
    r <- mappages pgdir (km_virt k) (u32 (km_phys_end k - km_phys_start k)) (km_phys_start k) (km_perm k) ;;
    if r <? 0 then freevm pgdir ;; ret (Some 0) else ret None) ;;
  match r with Some z => ret z | None => ret pgdir end.

(** [x86.h]: control registers. *)
Definition lcr3 (v : Z) : K unit := upd_hw (set_hw_cr3 v).
Definition ltr (sel : Z) : K unit := upd_hw (set_hw_tr sel).

Definition switchkvm : K unit := p <- gets k_kpgdir ;; lcr3 (V2P p).
Definition kvmalloc : K unit :=
  p <- setupkvm ;; modify (set_k_kpgdir p) ;; switchkvm.

Definition sizeof_ts : Z := 104.
Definition switchuvm (op : option nat) : K unit :=
  match op with
  | None => panic "switchuvm: no process"
  | Some ip =>
      p <- get_proc ip ;;
      if p_kstack p =? 0 then panic "switchuvm: no kstack" else
      if p_pgdir p =? 0 then panic "switchuvm: no pgdir" else
      pushcli ;;
      i <- mycpu ;; tsa <- gets (fun s => k_tsaddr s i) ;;
      upd_cpu i (fun c => set_c_gdt (<[Z.to_nat SEG_TSS := SEG16 STS_T32A tsa (sizeof_ts - 1) 0]> (c_gdt c)) c) ;;
      upd_cpu i (fun c => set_c_gdt (alter (fun d =>
        mk_segdesc (sd_lim_15_0 d) (sd_base_15_0 d) (sd_base_23_16 d) (sd_type d) 0 (sd_dpl d) (sd_p d)
          (sd_lim_19_16 d) (sd_avl d) (sd_rsv1 d) (sd_db d) (sd_g d) (sd_base_31_24 d))
        (Z.to_nat SEG_TSS) (c_gdt c)) c) ;;
      upd_cpu i (fun c => set_c_ts (set_ts_ss0 (Z.shiftl SEG_KDATA 3) (c_ts c)) c) ;;
      upd_cpu i (fun c => set_c_ts (set_ts_esp0 (u32 (p_kstack p + KSTACKSIZE)) (c_ts c)) c) ;;
      upd_cpu i (fun c => set_c_ts (set_ts_iomb (u16 0xFFFF) (c_ts c)) c) ;;
      ltr (Z.shiftl SEG_TSS 3) ;;
      lcr3 (V2P (p_pgdir p)) ;;
      popcli
  end.

(** The bytes of [init] are copied to the new page. *)
Fixpoint store_bytes (m : mem) (a : Z) (l : list Z) : mem :=
  match l with [] => m | b :: l' => store_bytes (st8 m a b) (a + 1) l' end.

Definition inituvm (pgdir : Z) (init : list Z) (sz : Z) : K unit :=
  if PGSIZE <=? sz then panic "inituvm: more than a page" else
  mem <- kalloc ;;
  mem_store (fun m => memset m mem 0 PGSIZE) ;;
  mappages pgdir 0 PGSIZE (V2P mem) (Z.lor PTE_W PTE_U) ;;
  mem_store (fun m => store_bytes m mem (take (Z.to_nat sz) init)).

Fixpoint allocuvm_loop (fuel : nat) (pgdir oldsz newsz a : Z) : K Z :=
  if a <? newsz then
    match fuel with
    | O => nofuel
    | S f =>
        mem <- kalloc ;;
        if mem =? 0 then
          cprintf (bytes "allocuvm out of memory" ++ [NL]) [] ;;
          deallocuvm pgdir newsz oldsz ;; ret 0
        else
          mem_store (fun m => memset m mem 0 PGSIZE) ;;
          r <- mappages pgdir a PGSIZE (V2P mem) (Z.lor PTE_W PTE_U) ;;
          if r <? 0 then
            cprintf (bytes "allocuvm out of memory (2)" ++ [NL]) [] ;;
            deallocuvm pgdir newsz oldsz ;; kfree mem ;; ret 0
          else allocuvm_loop f pgdir oldsz newsz (u32 (a + PGSIZE))
    end
  else ret newsz.
(** [limit] is [KERNBASE] in HW2 and the lower end of the shared region in HW3. *)
Definition allocuvm_below (limit pgdir oldsz newsz : Z) : K Z :=
  if limit <=? newsz then ret 0 else
  if newsz <? oldsz then ret oldsz else
  let a := PGROUNDUP oldsz in
  allocuvm_loop (Z.to_nat ((newsz - a + PGSIZE - 1) / PGSIZE)) pgdir oldsz newsz a.
Definition allocuvm (pgdir oldsz newsz : Z) : K Z := allocuvm_below KERNBASE pgdir oldsz newsz.

Definition clearpteu (pgdir uva : Z) : K unit :=
  pte <- walkpgdir pgdir uva false ;;
  if pte =? 0 then panic "clearpteu" else
  e <- ld pte ;; st pte (Z.land e (u32 (Z.lnot PTE_U))).

(** The result is false when memory runs out and the code jumps to [bad]. *)
Fixpoint copyuvm_loop (fuel : nat) (pgdir d i sz : Z) : K bool :=
  if i <? sz then
    match fuel with
    | O => nofuel
    | S f =>
        pte <- walkpgdir pgdir i false ;;
        if pte =? 0 then panic "copyuvm: pte should exist" else
        e <- ld pte ;;
        if negb (has_bits e PTE_P) then panic "copyuvm: page not present" else
        let pa := PTE_ADDR e in
        let flags := PTE_FLAGS e in
        mem <- kalloc ;;
        if mem =? 0 then ret false else
        mem_store (fun m => memmove m mem (P2V pa) PGSIZE) ;;
        r <- mappages d i PGSIZE (V2P mem) flags ;;
        if r <? 0 then kfree mem ;; ret false
        else copyuvm_loop f pgdir d (u32 (i + PGSIZE)) sz
    end
  else ret true.
Definition copyuvm (pgdir sz : Z) : K Z :=
  d <- setupkvm ;;
  if d =? 0 then ret 0 else
  ok <- copyuvm_loop (Z.to_nat ((sz + PGSIZE - 1) / PGSIZE)) pgdir d 0 sz ;;
  if ok : bool then ret d else freevm d ;; ret 0.

(** A null page-table entry pointer is dereferenced: a fault. *)
Definition uva2ka (pgdir uva : Z) : K Z :=
  pte <- walkpgdir pgdir uva false ;;
  if pte =? 0 then fault else
  e <- ld pte ;;
  if negb (has_bits e PTE_P) then ret 0 else
  if negb (has_bits e PTE_U) then ret 0 else
  ret (P2V (PTE_ADDR e)).

(** [p] is given by the bytes it points to. *)
Fixpoint copyout_loop (fuel : nat) (pgdir va : Z) (buf : list Z) (len : Z) : K Z :=
  if 0 <? len then
    match fuel with
    | O => nofuel
    | S f =>
        let va0 := PGROUNDDOWN va in
        pa0 <- uva2ka pgdir va0 ;;
        if pa0 =? 0 then ret (-1) else
        let n := PGSIZE - (va - va0) in
        let n := if len <? n then len else n in
        mem_store (fun m => store_bytes m (pa0 + (va - va0)) (take (Z.to_nat n) buf)) ;;
        copyout_loop f pgdir (u32 (va0 + PGSIZE)) (drop (Z.to_nat n) buf) (len - n)
    end
  else ret 0.
Definition copyout (pgdir va : Z) (p : list Z) (len : Z) : K Z :=
  copyout_loop (S (Z.to_nat ((len + PGSIZE - 1) / PGSIZE))) pgdir va p len.
