(* ===== verification/VmSpec.v ===== *)
(** * Page tables: invariant and behaviour

    A page table is seen as the function from page numbers to page-table entries
    that the two-level structure in memory encodes.  The operations of [Vm.v] are
    shown to update that function at the pages they are about and nowhere else. *)

From S2P Require Import Prelude Mmu Mem State Spinlock Printk Critical Kalloc Vm.

Definition present (e : Z) : bool := has_bits e PTE_P.
Definition pde (m : mem) (pgdir d : Z) : Z := ld32 m (pgdir + 4 * d).
Definition tab (m : mem) (pgdir d : Z) : Z := P2V (PTE_ADDR (pde m pgdir d)).

(** Where the entry for [va] lies, and its value (0 if there is no table). *)
Definition pte_addr (m : mem) (pgdir va : Z) : option Z :=
  if present (pde m pgdir (PDX va)) then Some (tab m pgdir (PDX va) + 4 * PTX va) else None.
Definition pte_val (m : mem) (pgdir va : Z) : Z :=
  match pte_addr m pgdir va with Some a => ld32 m a | None => 0 end.

(** The directory and the tables are distinct valid pages, none of them free. *)
Record pt_inv (kend : Z) (m : mem) (l : list Z) (pgdir : Z) : Prop := mk_pt_inv {
  pt_mem : mem_ok m;
  pt_dir : (page_ok kend pgdir) /\ pgdir ∉ l;
  pt_tab : forall d, 0 <= d < 1024 -> present (pde m pgdir d) = true ->
    page_ok kend (tab m pgdir d) /\ (tab m pgdir d ∉ l) /\ tab m pgdir d <> pgdir;
  pt_sep : forall d d', 0 <= d < 1024 -> 0 <= d' < 1024 ->
    present (pde m pgdir d) = true -> present (pde m pgdir d') = true -> d <> d' ->
    tab m pgdir d <> tab m pgdir d' }.

Definition in_page (p a : Z) : Prop := p <= a < p + PGSIZE.

(* ------------------------------------------------------------------ *)
(** ** Entries *)

Lemma present_odd e : present e = true <-> e mod 2 = 1.
Proof.
  unfold present, has_bits. change PTE_P with (2 ^ 1 - 1). rewrite land_ones_mod by lia.
  rewrite negb_true_iff, Z.eqb_neq. change (2 ^ 1) with 2. dlia.
Qed.

Lemma entry_lor x f : x mod PGSIZE = 0 -> 0 <= f < PGSIZE -> Z.lor x f = x + f.
Proof.
  unfold PGSIZE. intros Hx Hf.
  replace x with (Z.shiftl (x / 4096) 12) at 1 by (rewrite Z.shiftl_mul_pow2; dlia).
  rewrite lor_disjoint_add by lia. dlia.
Qed.

Lemma entry_parts x f :
  0 <= x < 2 ^ 32 -> x mod PGSIZE = 0 -> 0 <= f < PGSIZE ->
  PTE_ADDR (x + f) = x /\ PTE_FLAGS (x + f) = f /\ 0 <= x + f < 2 ^ 32.
Proof.
  unfold PGSIZE. intros Hx Hm Hf.
  assert (0 <= x + f < 2 ^ 32) as Hr by dlia. split; [|split; [|done]].
  - rewrite PTE_ADDR_eq by done. unfold PGSIZE. dlia.
  - rewrite PTE_FLAGS_eq by done. unfold PGSIZE. dlia.
Qed.

Lemma page_V2P kend p :
  page_ok kend p -> V2P p = p - KERNBASE /\ V2P p mod PGSIZE = 0 /\ 0 <= V2P p < PHYSTOP /\ P2V (V2P p) = p.
Proof.
  unfold page_ok, V2P, P2V. intros (Hm & Hk & Hb).
  rewrite (u32_small p) by (unfold KERNBASE, PHYSTOP in *; lia).
  rewrite (u32_small (p - KERNBASE)) by (unfold KERNBASE, PHYSTOP in *; lia).
  rewrite u32_small by (unfold KERNBASE, PHYSTOP in *; lia).
  unfold KERNBASE, PGSIZE, PHYSTOP in *. dlia.
Qed.

Lemma new_pde kend t :
  page_ok kend t ->
  let e := Z.lor (Z.lor (Z.lor (V2P t) PTE_P) PTE_W) PTE_U in
  u32 e = e /\ present e = true /\ P2V (PTE_ADDR e) = t.
Proof.
  intros Ht e. destruct (page_V2P _ _ Ht) as (E & Hm & Hr & Hback).
  assert (e = V2P t + 7) as ->.
  { unfold e. rewrite <- !Z.lor_assoc. change (Z.lor PTE_P (Z.lor PTE_W PTE_U)) with 7.
    apply entry_lor; [done|unfold PGSIZE; lia]. }
  destruct (entry_parts (V2P t) 7) as (HA & HF & Hb); try (unfold PGSIZE, PHYSTOP in *; lia).
  split; [by apply u32_small|]. split; [apply present_odd; unfold PGSIZE in *; dlia|].
  by rewrite HA.
Qed.

Lemma PDX_range va : 0 <= va < 2 ^ 32 -> 0 <= PDX va < 1024.
Proof. intros H. rewrite PDX_eq by done. dlia. Qed.
Lemma PTX_range va : 0 <= va < 2 ^ 32 -> 0 <= PTX va < 1024.
Proof. intros H. rewrite PTX_eq by done. dlia. Qed.
Lemma same_entry va va' :
  0 <= va < 2 ^ 32 -> 0 <= va' < 2 ^ 32 ->
  PDX va = PDX va' -> PTX va = PTX va' -> va / PGSIZE = va' / PGSIZE.
Proof. intros H H'. rewrite !PDX_eq, !PTX_eq by done. unfold PGSIZE. dlia. Qed.
Lemma entry_same_page va va' :
  0 <= va < 2 ^ 32 -> 0 <= va' < 2 ^ 32 -> va / PGSIZE = va' / PGSIZE ->
  PDX va = PDX va' /\ PTX va = PTX va'.
Proof. intros H H'. rewrite !PDX_eq, !PTX_eq by done. unfold PGSIZE. dlia. Qed.

(** A directory entry read after a change of memory outside the directory. *)
Lemma pde_ext m m' pgdir d :
  0 <= d < 1024 -> (forall a, in_page pgdir a -> m' a = m a) -> pde m' pgdir d = pde m pgdir d.
Proof. intros Hd H. apply ld32_ext. intros x Hx. apply H. unfold in_page, PGSIZE. lia. Qed.

(** Storing into a page-table entry. *)
Section SetPte.
Context (kend : Z) (m : mem) (l : list Z) (pgdir va r e : Z).
Context (HI : pt_inv kend m l pgdir) (Hva : 0 <= va < 2 ^ 32)
  (Hr : pte_addr m pgdir va = Some r).

Let m' := st32 m r e.

Lemma pte_slot :
  present (pde m pgdir (PDX va)) = true /\ r = tab m pgdir (PDX va) + 4 * PTX va /\
  in_page (tab m pgdir (PDX va)) r /\ r + 4 <= tab m pgdir (PDX va) + PGSIZE.
Proof.
  unfold pte_addr in Hr. destruct (present _); [|done]. simplify_eq.
  pose proof (PTX_range va Hva). unfold in_page, PGSIZE. repeat split; lia.
Qed.

Lemma set_pte_pde d : 0 <= d < 1024 -> pde m' pgdir d = pde m pgdir d.
Proof.
  intros Hd. apply pde_ext; [done|]. intros a Ha. destruct pte_slot as (Hp & _ & Hin & Hle).
  destruct (pt_tab _ _ _ _ HI (PDX va) (PDX_range va Hva) Hp) as (Ht & _ & Hne).
  destruct (pages_disjoint (tab m pgdir (PDX va)) pgdir) as [|];
    [apply Ht | apply (pt_dir _ _ _ _ HI) | done | |];
    apply st32_other; unfold in_page in *; lia.
Qed.

Lemma set_pte_tab d : 0 <= d < 1024 -> tab m' pgdir d = tab m pgdir d.
Proof. intros Hd. unfold tab. by rewrite set_pte_pde. Qed.

Lemma set_pte_inv : pt_inv kend m' l pgdir.
Proof.
  split.
  - apply st32_ok, HI.
  - apply HI.
  - intros d Hd. rewrite set_pte_pde, set_pte_tab by done. by apply HI.
  - intros d d' Hd Hd'. rewrite !set_pte_pde, !set_pte_tab by done. by apply HI.
Qed.

Lemma set_pte_same va' : 0 <= va' < 2 ^ 32 -> va' / PGSIZE = va / PGSIZE -> pte_val m' pgdir va' = u32 e.
Proof.
  intros Hv' Heq. destruct (entry_same_page va' va Hv' Hva Heq) as [E1 E2].
  unfold pte_val, pte_addr. rewrite E1, E2. rewrite set_pte_pde, set_pte_tab by (by apply PDX_range).
  destruct pte_slot as (Hp & <- & _ & _). rewrite Hp. apply ld32_st32_same.
Qed.

Lemma set_pte_other va' :
  0 <= va' < 2 ^ 32 -> va' / PGSIZE <> va / PGSIZE -> pte_val m' pgdir va' = pte_val m pgdir va'.
Proof.
  intros Hv' Hne. unfold pte_val, pte_addr. rewrite set_pte_pde, set_pte_tab by (by apply PDX_range).
  destruct (present (pde m pgdir (PDX va'))) eqn:Hp'; [|done]. apply ld32_st32_other.
  destruct pte_slot as (Hp & -> & Hin & Hle). pose proof (PTX_range va Hva). pose proof (PTX_range va' Hv').
  destruct (decide (PDX va = PDX va')) as [E|E].
  - rewrite E in *. assert (PTX va <> PTX va') by (intros E2; by apply Hne; symmetry; apply same_entry). lia.
  - pose proof (PDX_range va Hva). pose proof (PDX_range va' Hv').
    pose proof (pt_sep _ _ _ _ HI (PDX va) (PDX va') ltac:(done) ltac:(done) Hp Hp' E) as Hsep.
    destruct (pt_tab _ _ _ _ HI (PDX va)) as ((Ha & _) & _); [done|done|].
    destruct (pt_tab _ _ _ _ HI (PDX va')) as ((Hb & _) & _); [done|done|].
    destruct (pages_disjoint _ _ Ha Hb Hsep); unfold PGSIZE in *; lia.
Qed.
End SetPte.

(** Installing a fresh, zeroed page table for a directory entry. *)
Definition newtab_mem (m : mem) (pgdir d t : Z) : mem :=
  st32 (memset m t 0 PGSIZE) (pgdir + 4 * d) (Z.lor (Z.lor (Z.lor (V2P t) PTE_P) PTE_W) PTE_U).

Section NewTable.
Context (kend : Z) (m : mem) (l : list Z) (pgdir va t : Z).
Context (HI : pt_inv kend m (t :: l) pgdir) (Hva : 0 <= va < 2 ^ 32) (Ht : page_ok kend t)
  (Hnd : NoDup (t :: l)) (Hp : present (pde m pgdir (PDX va)) = false).

Let m' := newtab_mem m pgdir (PDX va) t.

Lemma newtab_dir_disjoint : t + PGSIZE <= pgdir \/ pgdir + PGSIZE <= t.
Proof.
  destruct (pt_dir _ _ _ _ HI) as [Hd Hn]. apply pages_disjoint; [apply Ht|apply Hd|].
  intros ->. apply Hn. set_solver.
Qed.

Lemma newtab_out a : ~ in_page pgdir a -> ~ in_page t a -> m' a = m a.
Proof.
  pose proof (PDX_range va Hva). unfold in_page, m', newtab_mem, PGSIZE in *. intros H1 H2.
  rewrite st32_other by lia. rewrite memset_spec by lia. mem_case; (done || lia).
Qed.

Lemma newtab_pde d : 0 <= d < 1024 ->
  pde m' pgdir d = if d =? PDX va then Z.lor (Z.lor (Z.lor (V2P t) PTE_P) PTE_W) PTE_U
                   else pde m pgdir d.
Proof.
  intros Hd. pose proof (PDX_range va Hva). pose proof newtab_dir_disjoint as Hdis.
  unfold pde, m', newtab_mem. destruct (Z.eqb_spec d (PDX va)) as [->|Hne].
  - rewrite ld32_st32_same. by destruct (new_pde _ _ Ht) as (-> & _).
  - unfold PGSIZE in *. rewrite ld32_st32_other by lia. by rewrite ld32_memset_out by lia.
Qed.

Lemma newtab_tab d : 0 <= d < 1024 ->
  tab m' pgdir d = if d =? PDX va then t else tab m pgdir d.
Proof.
  intros Hd. unfold tab. rewrite newtab_pde by done.
  destruct (d =? PDX va); [|done]. by destruct (new_pde _ _ Ht) as (_ & _ & ->).
Qed.

Lemma newtab_addr : pte_addr m' pgdir va = Some (t + 4 * PTX va).
Proof.
  pose proof (PDX_range va Hva). unfold pte_addr. rewrite newtab_pde, newtab_tab by done.
  rewrite Z.eqb_refl. by destruct (new_pde _ _ Ht) as (_ & -> & _).
Qed.

Lemma newtab_val va' : 0 <= va' < 2 ^ 32 -> pte_val m' pgdir va' = pte_val m pgdir va'.
Proof.
  intros Hv'. pose proof (PDX_range va' Hv') as Hd. pose proof (PTX_range va' Hv') as Hx.
  pose proof (PDX_range va Hva) as Hd0. pose proof newtab_dir_disjoint as Hdis.
  unfold pte_val, pte_addr. rewrite newtab_pde, newtab_tab by done.
  destruct (Z.eqb_spec (PDX va') (PDX va)) as [->|Hne].
  - destruct (new_pde _ _ Ht) as (_ & -> & _). rewrite Hp. unfold m', newtab_mem, PGSIZE in *.
    rewrite ld32_st32_other by lia. by rewrite ld32_memset_in by lia.
  - destruct (present (pde m pgdir (PDX va'))) eqn:Hp'; [|done].
    destruct (pt_tab _ _ _ _ HI (PDX va') Hd Hp') as ((Ha & _) & Hnin & Hnd').
    apply ld32_ext. intros x Hx'. apply newtab_out.
    + destruct (pages_disjoint (tab m pgdir (PDX va')) pgdir);
        [done|apply (pt_dir _ _ _ _ HI)|done| |]; unfold in_page, PGSIZE in *; lia.
    + destruct (pages_disjoint (tab m pgdir (PDX va')) t);
        [done|apply Ht|set_solver| |]; unfold in_page, PGSIZE in *; lia.
Qed.

Lemma newtab_inv : pt_inv kend m' l pgdir.
Proof.
  pose proof (PDX_range va Hva) as Hd0. pose proof Hnd as Hnd2. apply NoDup_cons in Hnd2 as [Htl _].
  destruct (new_pde _ _ Ht) as (_ & Hpn & _). destruct (pt_dir _ _ _ _ HI) as [Hdok Hdn]. split.
  - apply st32_ok, memset_ok; [done|apply HI].
  - split; [done|set_solver].
  - intros d Hd. rewrite newtab_pde, newtab_tab by done.
    destruct (Z.eqb_spec d (PDX va)) as [->|Hne]; [set_solver|].
    intros Hpr. destruct (pt_tab _ _ _ _ HI d Hd Hpr) as (H1 & H2 & H3). set_solver.
  - intros d d' Hd Hd'. rewrite !newtab_pde, !newtab_tab by done.
    destruct (Z.eqb_spec d (PDX va)) as [->|Hne], (Z.eqb_spec d' (PDX va)) as [->|Hne']; try done.
    + intros _ Hpr _. destruct (pt_tab _ _ _ _ HI d' Hd' Hpr) as (_ & H2 & _). set_solver.
    + intros Hpr _ _. destruct (pt_tab _ _ _ _ HI d Hd Hpr) as (_ & H2 & _). set_solver.
    + by apply HI.
Qed.
End NewTable.

(* ------------------------------------------------------------------ *)
(** ** [walkpgdir] *)

(** The state a walk or a mapping works in: a processor that can take the
    allocator's lock, an intact free list [l], an intact page table. *)
Record vm_ctx (s : kstate) (i : nat) (n : Z) (p : option nat) (l : list Z) (pgdir : Z) : Prop := mk_vm_ctx {
  vc_ready : ready s i n p Lk_kmem;
  vc_free : kmem_inv s l;
  vc_pt : pt_inv (k_end s) (k_mem s) l pgdir }.

(** Without allocation the walk only reads. *)
Lemma walk_lookup s pgdir va :
  walkpgdir pgdir va false s =
    Ret (match pte_addr (k_mem s) pgdir va with Some a => a | None => 0 end) s.
Proof.
  unfold walkpgdir, ld. rstep. unfold pte_addr, present, pde.
  by destruct (has_bits (ld32 (k_mem s) (pgdir + 4 * PDX va)) PTE_P).
Qed.

Lemma pte_addr_pos kend m l pgdir va a :
  pt_inv kend m l pgdir -> 0 <= va < 2 ^ 32 -> pte_addr m pgdir va = Some a -> 0 < a < 2 ^ 32.
Proof.
  intros HI Hva Ha. unfold pte_addr in Ha. destruct (present _) eqn:Hp; [|done]. simplify_eq.
  destruct (pt_tab _ _ _ _ HI (PDX va) (PDX_range va Hva) Hp) as (Ht & _).
  apply page_ok_bounds in Ht. pose proof (PTX_range va Hva). unfold PGSIZE in *. lia.
Qed.

(** With allocation the walk finds the entry or installs a zeroed table, and
    the entries of all pages keep their values. *)
Lemma walk_alloc s i n p l pgdir va :
  vm_ctx s i n p l pgdir -> 0 <= va < 2 ^ 32 ->
  exists r s', walkpgdir pgdir va true s = Ret r s' /\
   ((r = 0 /\ l = [] /\ k_mem s' = k_mem s /\ vm_ctx s' i n p l pgdir) \/
    exists l', r <> 0 /\ l' `suffix_of` l /\ vm_ctx s' i n p l' pgdir /\
      pte_addr (k_mem s') pgdir va = Some r /\
      (forall d, 0 <= d < 1024 -> present (pde (k_mem s') pgdir d) = true ->
        tab (k_mem s') pgdir d ∈ l \/
        (present (pde (k_mem s) pgdir d) = true /\ tab (k_mem s') pgdir d = tab (k_mem s) pgdir d)) /\
      (forall va', 0 <= va' < 2 ^ 32 -> pte_val (k_mem s') pgdir va' = pte_val (k_mem s) pgdir va') /\
      (forall a, ~ in_page pgdir a -> (forall q, q ∈ l -> ~ in_page q a) -> k_mem s' a = k_mem s a)).
Proof.
  intros [Hrd Hfr Hpt] Hva. unfold walkpgdir, ld. rstep.
  fold (pde (k_mem s) pgdir (PDX va)). fold (present (pde (k_mem s) pgdir (PDX va))).
  destruct (present (pde (k_mem s) pgdir (PDX va))) eqn:Hp.
  - exists (tab (k_mem s) pgdir (PDX va) + 4 * PTX va), s. split; [done|]. right. exists l.
    assert (pte_addr (k_mem s) pgdir va = Some (tab (k_mem s) pgdir (PDX va) + 4 * PTX va)) as Ha
      by (unfold pte_addr; by rewrite Hp).
    pose proof (pte_addr_pos _ _ _ _ _ _ Hpt Hva Ha). split; [lia|]. repeat (split; [by auto|]). by auto.
  - change (negb true) with false. cbv iota. destruct (kalloc_run s i n p l Hrd Hfr) as (s1 & Hk & Hfr1 & Hm1 & Hrd1 & _).
    assert (k_end s1 = k_end s) as He by (apply (frame_kalloc k_end) in Hk; eauto with frame).
    run Hk. destruct l as [|t l]; cbn [hd tl] in *.
    + exists 0, s1. split; [done|]. left. split; [done|]. split; [done|]. split; [done|].
      split; [done|done|]. by rewrite He, Hm1.
    + destruct Hfr as [_ Hnd Hg]. apply Forall_cons in Hg as [Ht Hg].
      destruct (Z.eqb_spec t 0) as [->|Hz]; [destruct (page_ok_bounds _ _ Ht); lia|].
      rstep. unfold st. rstep.
      exists (t + 4 * PTX va). eexists. split; [reflexivity|]. right. exists l.
      pose proof (PTX_range va Hva). pose proof (page_ok_bounds _ _ Ht).
      change (k_mem (set_k_mem ?x _)) with x. cbn [k_mem set_k_mem]. rewrite Hm1.
      fold (newtab_mem (k_mem s) pgdir (PDX va) t).
      split; [lia|]. split; [by exists [t]|]. split; [|split; [|split; [|split]]].
      * split; [by apply (ready_ext s1)| |].
        -- destruct Hfr1 as [Hl1 Hd1 Hg1]. split; try done. apply (linked_ext (k_mem s1)); [done|].
           intros q Hq. simpl. rewrite Hm1. fold (newtab_mem (k_mem s) pgdir (PDX va) t).
           assert (page_ok (k_end s) q) as Hqo by (rewrite Forall_forall in Hg; by apply Hg).
           destruct (pt_dir _ _ _ _ Hpt) as [Hdo Hdn]. apply NoDup_cons in Hnd as [Htn Hnd'].
           apply ld32_ext. intros x Hx. apply newtab_out; try done.
           ++ destruct (pages_disjoint q pgdir); [apply Hqo|apply Hdo|set_solver| |]; unfold in_page, PGSIZE in *; lia.
           ++ destruct (pages_disjoint q t); [apply Hqo|apply Ht|set_solver| |]; unfold in_page, PGSIZE in *; lia.
        -- simpl. rewrite ?Hm1, He. by apply newtab_inv.
      * by apply (newtab_addr (k_end s) _ l).
      * intros d Hd. rewrite (newtab_tab (k_end s) _ l), (newtab_pde (k_end s) _ l) by done.
        destruct (d =? PDX va); [left; set_solver|by right].
      * intros va' Hv'. by apply (newtab_val (k_end s) _ l).
      * intros a H1 H2. apply newtab_out; [done|done|]. apply H2. set_solver.
Qed.

(* ------------------------------------------------------------------ *)
(** ** [mappages] *)

Lemma lor_bound x y w : 0 <= w -> 0 <= x < 2 ^ w -> 0 <= y < 2 ^ w -> 0 <= Z.lor x y < 2 ^ w.
Proof.
  intros Hw Hx Hy. split; [apply Z.lor_nonneg; lia|].
  destruct (decide (Z.lor x y = 0)) as [->|Hne]; [lia|].
  assert (0 <= Z.lor x y) by (apply Z.lor_nonneg; lia).
  apply Z.log2_lt_pow2; [lia|]. rewrite Z.log2_lor by lia.
  destruct (decide (x = 0)), (decide (y = 0)); subst; rewrite ?Z.lor_0_l, ?Z.lor_0_r in *; try done;
    apply Z.max_lub_lt; try (apply Z.log2_lt_pow2; lia); simpl;
    (apply Z.le_lt_trans with (Z.log2 x) || apply Z.le_lt_trans with (Z.log2 y));
    try (apply Z.log2_nonneg); apply Z.log2_lt_pow2; lia.
Qed.

(** The entry written for physical page [pa]. *)
Definition entry (pa perm : Z) : Z := Z.lor (Z.lor pa perm) PTE_P.

Lemma entry_eq pa perm :
  0 <= pa < 2 ^ 32 -> pa mod PGSIZE = 0 -> 0 <= perm < PGSIZE ->
  u32 (entry pa perm) = entry pa perm /\ present (entry pa perm) = true /\
  PTE_ADDR (entry pa perm) = pa /\ PTE_FLAGS (entry pa perm) = Z.lor perm PTE_P.
Proof.
  intros Hpa Hm Hperm. unfold entry. rewrite <- Z.lor_assoc.
  assert (0 <= Z.lor perm PTE_P < 2 ^ 12) as Hf by (apply lor_bound; unfold PGSIZE, PTE_P in *; lia).
  rewrite entry_lor by (unfold PGSIZE; done || lia).
  destruct (entry_parts pa (Z.lor perm PTE_P) Hpa Hm) as (HA & HF & Hr); [unfold PGSIZE; lia|].
  split; [by apply u32_small|]. split; [|done].
  unfold present. rewrite <- entry_lor by (unfold PGSIZE; done || lia).
  unfold has_bits. apply negb_true_iff, Z.eqb_neq. intros E.
  assert (Z.testbit (Z.land (Z.lor pa (Z.lor perm PTE_P)) PTE_P) 0 = true) as Ht
    by (rewrite Z.land_spec, !Z.lor_spec; change (Z.testbit PTE_P 0) with true; by rewrite !orb_true_r).
  by rewrite E in Ht.
Qed.

(** Memory a change of the page table may touch: the directory, its tables, and
    the pages that were free. *)
Definition pt_footprint (m : mem) (l : list Z) (pgdir a : Z) : Prop :=
  in_page pgdir a \/ (exists q, q ∈ l /\ in_page q a) \/
  (exists d, 0 <= d < 1024 /\ present (pde m pgdir d) = true /\ in_page (tab m pgdir d) a).

Lemma page_index v : v * PGSIZE / PGSIZE = v.
Proof. by apply Z.div_mul. Qed.

Section Mappages.
Context (i : nat) (n : Z) (p : option nat) (pgdir perm : Z) (Hperm : 0 <= perm < PGSIZE).

(** One page. *)
Lemma map_one s l a pa :
  vm_ctx s i n p l pgdir -> 0 <= a < 2 ^ 32 -> 0 <= pa < 2 ^ 32 -> pa mod PGSIZE = 0 ->
  present (pte_val (k_mem s) pgdir a) = false ->
  exists r s', walkpgdir pgdir a true s = Ret r s' /\
    ((r = 0 /\ l = [] /\ k_mem s' = k_mem s /\ vm_ctx s' i n p l pgdir) \/
     (exists l', r <> 0 /\ l' `suffix_of` l /\ present (ld32 (k_mem s') r) = false /\
      let m' := st32 (k_mem s') r (entry pa perm) in
      vm_ctx (set_k_mem m' s') i n p l' pgdir /\
      (forall va, 0 <= va < 2 ^ 32 -> pte_val m' pgdir va =
         if va / PGSIZE =? a / PGSIZE then entry pa perm else pte_val (k_mem s) pgdir va) /\
      (forall x, pt_footprint m' l' pgdir x -> pt_footprint (k_mem s) l pgdir x) /\
      (forall x, ~ pt_footprint (k_mem s) l pgdir x -> m' x = k_mem s x))).
Proof.
  intros Hc Ha Hpa Hpm Hfree.
  destruct (walk_alloc s i n p l pgdir a Hc Ha) as (r & s' & Hw & [H|H]);
    exists r, s'; (split; [done|]); [by left|right].
  destruct H as (l' & Hr & Hsuf & Hc' & Haddr & Htab & Hval & Hout). exists l'.
  assert (ld32 (k_mem s') r = pte_val (k_mem s) pgdir a) as Hld.
  { rewrite <- Hval by done. unfold pte_val. by rewrite Haddr. }
  pose proof (vc_pt _ _ _ _ _ _ Hc') as Hpt.
  destruct (entry_eq pa perm Hpa Hpm Hperm) as (Hu & _).
  split; [done|]. split; [done|]. split; [by rewrite Hld|]. cbv zeta. split; [|split; [|split]].
  - destruct Hc' as [Hrd Hfr _]. split; [by apply (ready_ext s')| |exact (set_pte_inv _ _ _ _ _ _ _ Hpt Ha Haddr)].
    destruct Hfr as [Hl Hd Hg]. split; try done. apply (linked_ext (k_mem s')); [done|].
    intros q Hq. simpl. rewrite Forall_forall in Hg.
    destruct (pte_slot _ _ _ _ 0 Ha Haddr) as (Hp & _ & Hin & Hle).
    destruct (pt_tab _ _ _ _ Hpt (PDX a) (PDX_range a Ha) Hp) as (Ht & Hnin & _).
    apply ld32_st32_other.
    destruct (pages_disjoint (tab (k_mem s') pgdir (PDX a)) q) as [|];
      [apply Ht|by apply Hg|intros E; by rewrite E in Hnin| |]; unfold in_page, PGSIZE in *; lia.
  - intros va Hva. destruct (Z.eqb_spec (va / PGSIZE) (a / PGSIZE)) as [E|E].
    + by rewrite (set_pte_same _ _ _ _ _ _ _ Hpt Ha Haddr).
    + rewrite (set_pte_other _ _ _ _ _ _ _ Hpt Ha Haddr) by done. by apply Hval.
  - intros x [Hx|[(q & Hq & Hx)|(d & Hd & Hpd & Hx)]]; [by left| |].
    + right. left. exists q. split; [|done]. destruct Hsuf as [z ->]. set_solver.
    + rewrite (set_pte_pde _ _ _ _ _ _ _ Hpt Ha Haddr) in Hpd by done.
      rewrite (set_pte_tab _ _ _ _ _ _ _ Hpt Ha Haddr) in Hx by done.
      destruct (Htab d Hd Hpd) as [Hin|[Hp' E']]; right; [left|right]; eexists; [by split|].
      rewrite <- E'. by split.
  - intros x Hx.
    assert (~ in_page pgdir x) as Hx1 by (intros ?; apply Hx; by left).
    assert (forall q, q ∈ l -> ~ in_page q x) as Hx2 by (intros q Hq ?; apply Hx; right; left; eauto).
    rewrite st32_other; [by apply Hout|].
    destruct (pte_slot _ _ _ _ 0 Ha Haddr) as (Hp & _ & Hin & Hle).
    destruct (decide (x < r \/ r + 4 <= x)); [done|exfalso].
    assert (in_page (tab (k_mem s') pgdir (PDX a)) x) as Hxt by (unfold in_page in *; lia).
    (* the table is either an old one or a page that was free *)
    destruct (Htab (PDX a)) as [Hin'|[Hp' E']]; [by apply PDX_range|done|by apply (Hx2 _ Hin')|].
    apply Hx. right. right. exists (PDX a). rewrite <- E'. auto using PDX_range.
Qed.

(** [k + 1] pages from virtual page [v] to physical page [f]: all of them, or
    the first [j] when the free list runs out. *)
Lemma mappages_loop_run k : forall fuel s l v f,
  (k < fuel)%nat -> vm_ctx s i n p l pgdir ->
  0 <= v -> v + Z.of_nat k < 2 ^ 20 -> 0 <= f -> f + Z.of_nat k < 2 ^ 20 ->
  (forall j, 0 <= j <= Z.of_nat k -> present (pte_val (k_mem s) pgdir ((v + j) * PGSIZE)) = false) ->
  exists r s' l' j, mappages_loop fuel pgdir (v * PGSIZE) ((v + Z.of_nat k) * PGSIZE) (f * PGSIZE) perm s = Ret r s' /\
    l' `suffix_of` l /\ vm_ctx s' i n p l' pgdir /\
    ((j = Z.of_nat k + 1 /\ r = 0) \/ (0 <= j <= Z.of_nat k /\ r = -1 /\ l' = [])) /\
    (forall va, 0 <= va < 2 ^ 32 -> pte_val (k_mem s') pgdir va =
       if (v <=? va / PGSIZE) && (va / PGSIZE <? v + j)
       then entry ((f + (va / PGSIZE - v)) * PGSIZE) perm else pte_val (k_mem s) pgdir va) /\
    (forall x, pt_footprint (k_mem s') l' pgdir x -> pt_footprint (k_mem s) l pgdir x) /\
    (forall x, ~ pt_footprint (k_mem s) l pgdir x -> k_mem s' x = k_mem s x).
Proof.
  induction k as [|k IH]; intros fuel s l v f Hfuel Hc Hv Hvk Hf Hfk Hfree;
    (destruct fuel as [|fuel]; [lia|]); cbn [mappages_loop];
    pose proof (Hfree 0 ltac:(lia)) as H0; rewrite Z.add_0_r in H0;
    (destruct (map_one s l (v * PGSIZE) (f * PGSIZE)) as (r & s1 & Hw & H);
      [done|unfold PGSIZE; lia|unfold PGSIZE; lia|by apply Z.mod_mul|done|]); run Hw;
    (destruct H as [(-> & -> & Hm & Hc1)|(l1 & Hr & Hsuf & Hnp & Hc1 & Hval & Hfoot & Hout)];
     [exists (-1), s1, [], 0; split; [done|]; split; [done|]; split; [done|]; split; [right; split_and!; done || lia|];
      rewrite Hm; split; [intros va Hva; repeat case_Z; (done || lia)|split; done]|]);
    (destruct (Z.eqb_spec r 0); [done|]); unfold ld; rstep; unfold present in Hnp; rewrite Hnp;
    unfold st; rstep; fold (entry (f * PGSIZE) perm);
    pose proof (page_index v) as Hvd.
  - rewrite Z.add_0_r, Z.eqb_refl. eexists 0, _, l1, 1. split; [reflexivity|]. split; [done|].
    split; [done|]. split; [left; lia|]. split; [|split; done].
    intros va Hva. cbn [k_mem set_k_mem]. rewrite Hval, Hvd by done.
    repeat case_Z; try (done || lia). simpl. f_equal. lia.
  - destruct (Z.eqb_spec (v * PGSIZE) ((v + Z.of_nat (S k)) * PGSIZE)); [unfold PGSIZE in *; lia|].
    rewrite !u32_small by (unfold PGSIZE in *; lia).
    destruct (IH fuel (set_k_mem (st32 (k_mem s1) r (entry (f * PGSIZE) perm)) s1) l1 (v + 1) (f + 1))
      as (r' & s2 & l2 & j & Hl & Hs2 & Hc2 & Hj & Hval2 & Hfoot2 & Hout2); try done; try lia.
    + intros j Hj. cbn [k_mem set_k_mem]. rewrite Hval, Hvd, Z.div_mul by (unfold PGSIZE in *; lia).
      destruct (Z.eqb_spec (v + 1 + j) v); [lia|]. replace (v + 1 + j) with (v + (j + 1)) by lia.
      apply Hfree. lia.
    + replace (v * PGSIZE + PGSIZE) with ((v + 1) * PGSIZE) by lia.
      replace (f * PGSIZE + PGSIZE) with ((f + 1) * PGSIZE) by lia.
      replace (v + Z.of_nat (S k)) with (v + 1 + Z.of_nat k) by lia.
      exists r', s2, l2, (j + 1). split; [done|]. split; [by etrans|]. split; [done|].
      split; [destruct Hj as [[-> ->]|(? & ? & ?)]; [left|right]; split_and!; done || lia|]. split; [|split].
      * intros va Hva. rewrite Hval2 by done. cbn [k_mem set_k_mem]. rewrite Hval, Hvd by done.
        repeat case_Z; try (done || lia); simpl; f_equal; lia.
      * intros x Hx. by apply Hfoot, Hfoot2.
      * intros x Hx. rewrite Hout2; [by apply Hout|]. intros Hx'. apply Hx. by apply Hfoot.
Qed.
End Mappages.

(** What the paging hardware makes of linear address [x]. *)
Definition translate (m : mem) (pgdir x : Z) : option Z :=
  let e := pte_val m pgdir x in
  if present e then Some (PTE_ADDR e + x mod PGSIZE) else None.

Lemma pte_val_page m pgdir x y :
  0 <= x < 2 ^ 32 -> 0 <= y < 2 ^ 32 -> x / PGSIZE = y / PGSIZE -> pte_val m pgdir x = pte_val m pgdir y.
Proof.
  intros Hx Hy E. destruct (entry_same_page x y Hx Hy E) as [E1 E2].
  unfold pte_val, pte_addr. by rewrite E1, E2.
Qed.

Lemma translate_None m pgdir x : translate m pgdir x = None <-> present (pte_val m pgdir x) = false.
Proof. unfold translate. by destruct (present _). Qed.

(** The pages of a byte range. *)
Lemma page_in_range va size j :
  0 <= va -> 0 < size -> 0 <= j <= (va + size - 1) / PGSIZE - va / PGSIZE ->
  exists x, va <= x < va + size /\ x / PGSIZE = va / PGSIZE + j /\ (va / PGSIZE + j) * PGSIZE <= x.
Proof.
  unfold PGSIZE. intros Hva Hs Hj. destruct (decide (j = 0)) as [->|].
  - exists va. dlia.
  - exists ((va / 4096 + j) * 4096). rewrite Z.div_mul by done. dlia.
Qed.

Lemma mappages_run s i n p l pgdir va size pa perm :
  vm_ctx s i n p l pgdir -> 0 <= perm < PGSIZE ->
  0 <= va -> 0 < size -> va + size <= 2 ^ 32 -> 0 <= pa -> pa mod PGSIZE = 0 ->
  pa + ((va + size - 1) / PGSIZE - va / PGSIZE) * PGSIZE < 2 ^ 32 ->
  (forall x, va <= x < va + size -> translate (k_mem s) pgdir x = None) ->
  exists r s' l', mappages pgdir va size pa perm s = Ret r s' /\
    l' `suffix_of` l /\ vm_ctx s' i n p l' pgdir /\
    ((r = 0 /\ forall x, va <= x < va + size ->
        translate (k_mem s') pgdir x = Some (pa + (x - PGROUNDDOWN va)) /\
        PTE_FLAGS (pte_val (k_mem s') pgdir x) = Z.lor perm PTE_P) \/
     (r = -1 /\ l' = [])) /\
    (forall x, 0 <= x < 2 ^ 32 -> x / PGSIZE < va / PGSIZE \/ (va + size - 1) / PGSIZE < x / PGSIZE ->
       translate (k_mem s') pgdir x = translate (k_mem s) pgdir x) /\
    (forall a, ~ pt_footprint (k_mem s) l pgdir a -> k_mem s' a = k_mem s a) /\
    (forall a, pt_footprint (k_mem s') l' pgdir a -> pt_footprint (k_mem s) l pgdir a).
Proof.
  intros Hc Hperm Hva Hsz Htop Hpa Hpm Hptop Hfree.
  set (v := va / PGSIZE). set (k := (va + size - 1) / PGSIZE - v). set (f := pa / PGSIZE).
  assert (0 <= v /\ v + k < 2 ^ 20 /\ 0 <= k /\ 0 <= f /\ f + k < 2 ^ 20 /\ pa = f * PGSIZE) as Hb
    by (unfold k, v, f, PGSIZE in *; dlia).
  assert (PGROUNDDOWN va = v * PGSIZE) as Ev by (rewrite PGROUNDDOWN_eq by lia; done).
  assert (PGROUNDDOWN (u32 (va + size - 1)) = (v + k) * PGSIZE) as El
    by (rewrite u32_small, PGROUNDDOWN_eq by lia; unfold k; f_equal; lia).
  destruct (mappages_loop_run i n p pgdir perm Hperm (Z.to_nat k) (S (Z.to_nat k)) s l v f)
    as (r & s' & l' & j & Hrun & Hsuf & Hc' & Hj & Hval & Hfoot & Hout); try lia; try done.
  { intros j Hj. rewrite Z2Nat.id in Hj by lia.
    destruct (page_in_range va size j Hva Hsz) as (x & Hx & Ex & Hle); [done|].
    rewrite (pte_val_page _ _ _ x); [by apply translate_None, Hfree|unfold v, PGSIZE in *; dlia|lia|].
    by rewrite page_index, Ex. }
  exists r, s', l'. unfold mappages. rewrite Ev, El. rewrite Z2Nat.id in * by lia.
  replace (u32 ((v + k) * PGSIZE - v * PGSIZE) / PGSIZE) with k
    by (rewrite u32_small by (unfold PGSIZE; lia); unfold PGSIZE; dlia).
  destruct Hb as (Hb1 & Hb2 & Hb3 & Hb4 & Hb5 & Epa). rewrite Epa at 1.
  split; [done|]. split; [done|]. split; [done|]. split; [|split; [|split; done]].
  - destruct Hj as [[-> ->]|(_ & -> & ->)]; [left|by right]. split; [done|]. intros x Hx.
    assert (v <= x / PGSIZE <= v + k) as Hxv by (unfold k, v, PGSIZE in *; dlia).
    unfold translate. rewrite Hval by lia.
    destruct (Z.leb_spec v (x / PGSIZE)), (Z.ltb_spec (x / PGSIZE) (v + (k + 1))); try lia. simpl.
    destruct (entry_eq ((f + (x / PGSIZE - v)) * PGSIZE) perm) as (_ & -> & -> & ->);
      [unfold PGSIZE in *; lia|by apply Z.mod_mul|done|].
    split; [|done]. f_equal. unfold v, PGSIZE in *. dlia.
  - intros x Hx Hor. unfold translate. rewrite Hval by done.
    replace ((v <=? x / PGSIZE) && (x / PGSIZE <? v + j)) with false; [done|].
    symmetry. apply andb_false_iff. rewrite Z.leb_gt, Z.ltb_ge. lia.
Qed.

(** C4: [mappages] on a range none of whose pages is mapped: it returns 0 and
    the hardware then translates every address of the range to the physical
    range from [pa] on, with the requested permission bits; or it returns -1,
    and then the free list is exhausted.  In both cases translations outside
    the range keep their value, the page-table invariant and the free list's
    invariant hold, and no memory but the directory, its tables and formerly
    free pages is written. *)
Theorem mappages_correct s i n p l pgdir va size pa perm :
  vm_ctx s i n p l pgdir -> 0 <= perm < PGSIZE ->
  0 <= va -> 0 < size -> va + size <= 2 ^ 32 -> 0 <= pa -> pa mod PGSIZE = 0 ->
  pa + ((va + size - 1) / PGSIZE - va / PGSIZE) * PGSIZE < 2 ^ 32 ->
  (forall x, va <= x < va + size -> translate (k_mem s) pgdir x = None) ->
  exists r s' l', mappages pgdir va size pa perm s = Ret r s' /\
    l' `suffix_of` l /\ vm_ctx s' i n p l' pgdir /\
    ((r = 0 /\ forall x, va <= x < va + size ->
        translate (k_mem s') pgdir x = Some (pa + (x - PGROUNDDOWN va)) /\
        PTE_FLAGS (pte_val (k_mem s') pgdir x) = Z.lor perm PTE_P) \/
     (r = -1 /\ l' = [])) /\
    (forall x, 0 <= x < 2 ^ 32 -> x / PGSIZE < va / PGSIZE \/ (va + size - 1) / PGSIZE < x / PGSIZE ->
       translate (k_mem s') pgdir x = translate (k_mem s) pgdir x) /\
    (forall a, ~ pt_footprint (k_mem s) l pgdir a -> k_mem s' a = k_mem s a).
Proof.
  intros Hc Hperm Hva Hsz Htop Hpa Hpm Hptop Hfree.
  destruct (mappages_run s i n p l pgdir va size pa perm) as (r & s' & l' & H1 & H2 & H3 & H4 & H5 & H6 & _); try done.
  by exists r, s', l'.
Qed.

Lemma empty_dir_ctx : vm_ctx two_pages 0 0 None [0x80200000; 0x80201000] 0x80202000.
Proof.
  assert (forall d, 0 <= d < 1024 -> pde (k_mem two_pages) 0x80202000 d = 0) as H0.
  { intros d Hd. unfold pde. simpl. rewrite !ld32_st32_other by lia. done. }
  split; [apply two_pages_ready|apply two_pages_inv|]. split.
  - apply st32_ok, st32_ok. intros a. lia.
  - split; [by repeat split|]. rewrite !not_elem_of_cons. repeat split; try lia. apply not_elem_of_nil.
  - intros d Hd. by rewrite H0.
  - intros d d' Hd _. by rewrite H0.
Qed.

Lemma mappages_correct_witness :
  exists r s' l', mappages 0x80202000 0x1000 0x1800 0x300000 PTE_W two_pages = Ret r s' /\
    vm_ctx s' 0 0 None l' 0x80202000.
Proof.
  destruct (mappages_correct two_pages 0 0 None _ 0x80202000 0x1000 0x1800 0x300000 PTE_W empty_dir_ctx)
    as (r & s' & l' & H & _ & Hc & _);
    [unfold PTE_W, PGSIZE; lia|lia|lia|lia|lia|reflexivity|reflexivity| |].
  - intros x Hx. apply translate_None. unfold pte_val, pte_addr.
    assert (PDX x = 0) as -> by (rewrite PDX_eq by lia; dlia). done.
  - exists r, s', l'. exact (conj H Hc).
Defined.
