(* ===== verification/Umem.v ===== *)
(** * Memory as the running process addresses it

    The kernel reads and writes user memory through the page table of the
    running process, by plain loads and stores at user addresses ([*addr], and
    [memmove] to and from user pointers).  A load or store is translated by the
    page directory in [%cr3]; an address without a translation, or a store to a
    page that is not writable, is a fault in kernel mode. *)

From S2P Require Import Prelude Mmu Bytes Mem State Spinlock Printk Critical Kalloc Vm VmSpec.

Definition cur_pgdir (s : kstate) : Z := P2V (hw_cr3 (k_hw s)).

Definition load8 (va : Z) : K Z := fun s =>
  match translate (k_mem s) (cur_pgdir s) (u32 va) with
  | Some pa => Ret (k_mem s (P2V pa)) s
  | None => Fault
  end.
Definition store8 (va v : Z) : K unit := fun s =>
  match translate (k_mem s) (cur_pgdir s) (u32 va) with
  | Some pa =>
      if has_bits (pte_val (k_mem s) (cur_pgdir s) (u32 va)) PTE_W
      then Ret tt (set_k_mem (st8 (k_mem s) (P2V pa) v) s) else Fault
  | None => Fault
  end.

Fixpoint load_bytes (va : Z) (n : nat) : K (list Z) :=
  match n with
  | O => ret []
  | S n' => b <- load8 va ;; bs <- load_bytes (va + 1) n' ;; ret (b :: bs)
  end.
Fixpoint copy_bytes (va : Z) (bs : list Z) : K unit :=
  match bs with
  | [] => ret tt
  | b :: bs' => store8 va b ;; copy_bytes (va + 1) bs'
  end.
Definition load32 (va : Z) : K Z := bs <- load_bytes va 4 ;; ret (le_value bs).
Definition store32 (va v : Z) : K unit := copy_bytes va (le_bytes 4 v).

(* ------------------------------------------------------------------ *)
(** ** A user buffer *)

(** Where the byte at user address [va] lies, and whether [a] is outside the two
    table entries that say so. *)
Definition cell (m : mem) (pd va : Z) : option Z := P2V <$> translate m pd (u32 va).
Definition apart (m : mem) (pd va a : Z) : Prop :=
  (a < pd + 4 * PDX (u32 va) \/ pd + 4 * PDX (u32 va) + 4 <= a) /\
  forall e, pte_addr m pd (u32 va) = Some e -> a < e \/ e + 4 <= a.

(** [n] bytes at [va] are mapped writable, at distinct places, none of which
    holds the table entries that map them. *)
Record user_buf (m : mem) (pd va : Z) (n : nat) : Prop := mk_user_buf {
  ub_map : forall i, (i < n)%nat -> is_Some (cell m pd (va + Z.of_nat i));
  ub_write : forall i, (i < n)%nat -> has_bits (pte_val m pd (u32 (va + Z.of_nat i))) PTE_W = true;
  ub_inj : forall i j a, (i < n)%nat -> (j < n)%nat ->
    cell m pd (va + Z.of_nat i) = Some a -> cell m pd (va + Z.of_nat j) = Some a -> i = j;
  ub_apart : forall i j a, (i < n)%nat -> (j < n)%nat ->
    cell m pd (va + Z.of_nat i) = Some a -> apart m pd (va + Z.of_nat j) a }.

(** Its contents. *)
Definition ubyte (m : mem) (pd va : Z) : Z := from_option m 0 (cell m pd va).
Definition ubytes (m : mem) (pd va : Z) (n : nat) : list Z := (fun i => ubyte m pd (va + Z.of_nat i)) <$> seq 0 n.

Lemma apart_pte m pd va a v :
  apart m pd va a ->
  pte_addr (st8 m a v) pd (u32 va) = pte_addr m pd (u32 va) /\ pte_val (st8 m a v) pd (u32 va) = pte_val m pd (u32 va).
Proof.
  intros [H1 H2].
  assert (pde (st8 m a v) pd (PDX (u32 va)) = pde m pd (PDX (u32 va))) as E
    by (apply ld32_ext; intros x Hx; apply st8_other; lia).
  assert (pte_addr (st8 m a v) pd (u32 va) = pte_addr m pd (u32 va)) as Ea
    by (unfold pte_addr, tab; by rewrite E).
  split; [done|]. unfold pte_val. rewrite Ea. destruct (pte_addr m pd (u32 va)) as [e|] eqn:He; [|done].
  specialize (H2 e eq_refl). apply ld32_ext. intros x Hx. apply st8_other. lia.
Qed.
Lemma apart_cell m pd va a v : apart m pd va a -> cell (st8 m a v) pd va = cell m pd va.
Proof. intros H. unfold cell, translate. by rewrite (proj2 (apart_pte m pd va a v H)). Qed.

Lemma user_buf_store m pd va n i a v :
  user_buf m pd va n -> (i < n)%nat -> cell m pd (va + Z.of_nat i) = Some a ->
  user_buf (st8 m a v) pd va n /\
  forall j, (j < n)%nat -> cell (st8 m a v) pd (va + Z.of_nat j) = cell m pd (va + Z.of_nat j).
Proof.
  intros [H1 H2 H3 H4] Hi Ha.
  assert (forall j, (j < n)%nat -> apart m pd (va + Z.of_nat j) a) as Hap by (intros j Hj; by apply (H4 i j)).
  assert (forall j, (j < n)%nat -> cell (st8 m a v) pd (va + Z.of_nat j) = cell m pd (va + Z.of_nat j)) as Hc
    by (intros j Hj; by apply apart_cell, Hap).
  split; [|done]. split.
  - intros j Hj. rewrite Hc by done. auto.
  - intros j Hj. rewrite (proj2 (apart_pte _ _ _ _ v (Hap j Hj))). auto.
  - intros j k b Hj Hk. rewrite !Hc by done. by apply H3.
  - intros j k b Hj Hk. rewrite Hc by done. intros Hb. destruct (H4 j k b Hj Hk Hb) as [H5 H6].
    split; [done|]. by rewrite (proj1 (apart_pte _ _ _ _ v (Hap k Hk))).
Qed.

Lemma ubyte_store m pd va n i j a v :
  user_buf m pd va n -> (i < n)%nat -> (j < n)%nat -> cell m pd (va + Z.of_nat i) = Some a ->
  ubyte (st8 m a v) pd (va + Z.of_nat j) = if decide (j = i) then u8 v else ubyte m pd (va + Z.of_nat j).
Proof.
  intros HB Hi Hj Ha. unfold ubyte. rewrite (proj2 (user_buf_store m pd va n i a v HB Hi Ha) j Hj).
  destruct (decide (j = i)) as [->|Hne].
  - rewrite Ha. cbn [from_option]. apply st8_same.
  - destruct (ub_map _ _ _ _ HB j Hj) as [b Hb]. rewrite Hb. simpl. apply st8_other. intros ->.
    apply Hne. eapply ub_inj; eauto.
Qed.

(** Loads and stores of the running process inside such a buffer. *)
Lemma load8_run s va :
  is_Some (cell (k_mem s) (cur_pgdir s) va) -> load8 va s = Ret (ubyte (k_mem s) (cur_pgdir s) va) s.
Proof.
  unfold load8, ubyte, cell. intros [a Ha]. destruct (translate _ _ _) as [pa|]; [|done]. done.
Qed.
Lemma store8_run s va n i v :
  user_buf (k_mem s) (cur_pgdir s) va n -> (i < n)%nat ->
  exists a, cell (k_mem s) (cur_pgdir s) (va + Z.of_nat i) = Some a /\
    store8 (va + Z.of_nat i) v s = Ret tt (set_k_mem (st8 (k_mem s) a v) s).
Proof.
  intros HB Hi. pose proof (ub_write _ _ _ _ HB i Hi) as Hw. destruct (ub_map _ _ _ _ HB i Hi) as [a Ha].
  exists a. split; [done|]. unfold store8. unfold cell in Ha. destruct (translate _ _ _) as [pa|]; [|done].
  rewrite Hw. simpl in Ha. by inversion Ha.
Qed.

Lemma ubytes_length m pd va n : length (ubytes m pd va n) = n.
Proof. unfold ubytes. by rewrite length_fmap, length_seq. Qed.
Lemma ubytes_S m pd va n : ubytes m pd va (S n) = ubyte m pd va :: ubytes m pd (va + 1) n.
Proof.
  unfold ubytes. cbn [seq fmap list_fmap]. rewrite Z.add_0_r. f_equal.
  rewrite <- fmap_S_seq, <- list_fmap_compose. apply list_fmap_ext. intros k y _. simpl. f_equal. lia.
Qed.
Lemma ubytes_snoc m pd va n : ubytes m pd va (S n) = ubytes m pd va n ++ [ubyte m pd (va + Z.of_nat n)].
Proof. unfold ubytes. by rewrite seq_S, fmap_app. Qed.
Lemma ubytes_ext m m' pd va n :
  (forall i, (i < n)%nat -> ubyte m' pd (va + Z.of_nat i) = ubyte m pd (va + Z.of_nat i)) ->
  ubytes m' pd va n = ubytes m pd va n.
Proof. intros H. apply list_fmap_ext. intros k y Hk. apply lookup_seq in Hk as [-> Hk]. by apply H. Qed.
