(* ===== verification/Sched.v ===== *)
(** * Processes: allocation, sleeping and scheduling

    [proc.c]: [pinit], [allocproc], [scheduler], [sched], [yield], [sleep],
    [wakeup1], [wakeup], [kill], [procdump].  The trap frame and the saved
    context of a process, which lie on its kernel stack in the source, are
    fields of its record.  [fork], [exit], [wait] and [userinit] are in
    [ProcLife]. *)

From S2P Require Import Prelude Mmu Mem State Spinlock Printk Critical Kalloc Vm.

Definition pinit : K unit := initlock Lk_ptable "ptable".

(** [sizeof(struct trapframe)], [sizeof(struct context)] *)
Definition sizeof_trapframe : Z := 76.
Definition sizeof_context : Z := 20.

(** The trap frame at address [a], field by field. *)
Definition load_tf (m : mem) (a : Z) : trapframe :=
  let w k := ld32 m (a + 4 * k) in
  let h k := Z.land (w k) 0xffff in
  mk_trapframe (w 0) (w 1) (w 2) (w 3) (w 4) (w 5) (w 6) (w 7) (h 8) (h 9) (h 10) (h 11)
    (w 12) (w 13) (w 14) (h 15) (w 16) (w 17) (h 18).

Definition state_is (st : procstate) (p : proc) : bool := bool_decide (p_state p = st).

(** The first slot of the process table that satisfies [f]. *)
Definition find_proc (f : proc -> bool) (s : kstate) : option nat :=
  List.find (fun i => match k_procs s !! i with Some p => f p | None => false end) (upto NPROC).

(** The second half of [allocproc]: the kernel stack of slot [i]. *)
Definition allocproc_stack (i : nat) : K (option nat) :=
  ks <- kalloc ;;
  upd_proc i (set_p_kstack ks) ;;
  if ks =? 0 then upd_proc i (set_p_state UNUSED) ;; ret None else
  let sp := ks + KSTACKSIZE - sizeof_trapframe in
  m <- gets k_mem ;;
  upd_proc i (set_p_tf (load_tf m sp)) ;;
  trapret <- gets k_trapret ;; forkret <- gets k_forkret ;;
  st (sp - 4) trapret ;;
  upd_proc i (set_p_context (set_cx_eip forkret cx0)) ;;
  ret (Some i).
Definition allocproc : K (option nat) :=
  acquire Lk_ptable ;;
  r <- gets (find_proc (state_is UNUSED)) ;;
  match r with
  | None => release Lk_ptable ;; ret None
  | Some i =>
      upd_proc i (set_p_state EMBRYO) ;;
      pid <- gets k_nextpid ;;
      modify (set_k_nextpid (s32 (pid + 1))) ;;
      upd_proc i (set_p_pid pid) ;;
      release Lk_ptable ;;
      allocproc_stack i
  end.

(** [swtch] to the scheduler is the [switch] of the outcome type. *)
Definition sched : K unit :=
  op <- myproc ;;
  h <- holding Lk_ptable ;;
  if negb h then panic "sched ptable.lock" else
  i <- mycpu ;; c <- get_cpu i ;;
  if negb (c_ncli c =? 1) then panic "sched locks" else
  ip <- deref op ;; p <- get_proc ip ;;
  if state_is RUNNING p then panic "sched running" else
  e <- readeflags ;;
  if has_bits e FL_IF then panic "sched interruptible" else
  i <- mycpu ;; c <- get_cpu i ;;
  let intena := c_intena c in
  switch ;;
  i <- mycpu ;; upd_cpu i (set_c_intena intena).

Definition yield : K unit :=
  acquire Lk_ptable ;;
  op <- myproc ;; ip <- deref op ;;
  upd_proc ip (set_p_state RUNNABLE) ;;
  sched ;;
  release Lk_ptable.

(** [lk] is [None] for the null pointer. *)
Definition sleep (ch : chan) (lk : option lockid) : K unit :=
  op <- myproc ;;
  match op with
  | None => panic "sleep"
  | Some ip =>
      match lk with
      | None => panic "sleep without lk"
      | Some lk =>
          (if decide (lk = Lk_ptable) then ret tt else acquire Lk_ptable ;; release lk) ;;
          upd_proc ip (set_p_chan (Some ch)) ;;
          upd_proc ip (set_p_state SLEEPING) ;;
          sched ;;
          upd_proc ip (set_p_chan None) ;;
          (if decide (lk = Lk_ptable) then ret tt else release Lk_ptable ;; acquire lk)
      end
  end.

Definition wake_one (ch : chan) (p : proc) : proc :=
  if state_is SLEEPING p && bool_decide (p_chan p = Some ch) then set_p_state RUNNABLE p else p.
Definition wakeup1 (ch : chan) : K unit :=
  iter_list (upto NPROC) (fun i => upd_proc i (wake_one ch)).

Definition wakeup (ch : chan) : K unit :=
  acquire Lk_ptable ;; wakeup1 ch ;; release Lk_ptable.

Definition kill (pid : Z) : K Z :=
  acquire Lk_ptable ;;
  r <- for_list (upto NPROC) (fun i =>
    p <- get_proc i ;;
    if p_pid p =? pid then
      upd_proc i (set_p_killed 1) ;;
      p <- get_proc i ;;
      when (state_is SLEEPING p) (upd_proc i (set_p_state RUNNABLE)) ;;
      release Lk_ptable ;;
      ret (Some 0)
    else ret None) ;;
  match r with Some z => ret z | None => release Lk_ptable ;; ret (-1) end.

(** One iteration of the [for] loop over the table. *)
Definition scheduler_try (c i : nat) : K unit :=
  p <- get_proc i ;;
  if negb (state_is RUNNABLE p) then ret tt else
  upd_cpu c (set_c_proc (Some i)) ;;
  switchuvm (Some i) ;;
  upd_proc i (set_p_state RUNNING) ;;
  switch ;;
  switchkvm ;;
  upd_cpu c (set_c_proc None).
Definition scheduler_round (c : nat) : K unit :=
  sti ;;
  acquire Lk_ptable ;;
  iter_list (upto NPROC) (scheduler_try c) ;;
  release Lk_ptable.
(** [for(;;)]: [fuel] rounds. *)
Fixpoint scheduler_loop (fuel : nat) (c : nat) : K unit :=
  match fuel with O => nofuel | S f => scheduler_round c ;; scheduler_loop f c end.
Definition scheduler (fuel : nat) : K unit :=
  c <- mycpu ;; upd_cpu c (set_c_proc None) ;; scheduler_loop fuel c.

Definition state_name (st : procstate) : list Z :=
  bytes match st with
        | UNUSED => "unused" | EMBRYO => "embryo" | SLEEPING => "sleep "
        | RUNNABLE => "runble" | RUNNING => "run   " | ZOMBIE => "zombie"
        end.
(** The C string in a character array. *)
Fixpoint cstr (l : list Z) : list Z :=
  match l with [] => [] | c :: l' => if c =? 0 then [] else c :: cstr l' end.
Fixpoint print_pcs (pcs : list Z) : K unit :=
  match pcs with
  | [] => ret tt
  | pc :: pcs' => if pc =? 0 then ret tt else cprintf (bytes " %p") [PInt pc] ;; print_pcs pcs'
  end.
Definition procdump : K unit :=
  iter_list (upto NPROC) (fun i =>
    p <- get_proc i ;;
    if state_is UNUSED p then ret tt else
    cprintf (bytes "%d %s %s") [PInt (p_pid p); PStr (Some (state_name (p_state p))); PStr (Some (cstr (p_name p)))] ;;
    when (state_is SLEEPING p) (
      m <- gets k_mem ;; print_pcs (getcallerpcs m (u32 (cx_ebp (p_context p) + 8)))) ;;
    cprintf [NL] []).

(* ------------------------------------------------------------------ *)
(** Table updates. *)
Lemma get_proc_ok s i p : k_procs s !! i = Some p -> get_proc i s = Ret p s.
Proof. intros H. unfold get_proc. rstep. by rewrite H. Qed.
Lemma upd_proc_ok s i p f :
  k_procs s !! i = Some p -> upd_proc i f s = Ret tt (set_k_procs (<[i := f p]> (k_procs s)) s).
Proof. intros H. unfold upd_proc. rstep. by rewrite H. Qed.

(** The loops over the table that change every slot independently. *)
Lemma set_k_procs_id s : set_k_procs (k_procs s) s = s.
Proof. by destruct s. Qed.
Lemma iter_procs (f : proc -> proc) l1 : forall l2 s,
  k_procs s = l1 ++ l2 ->
  iter_list (seq (length l1) (length l2)) (fun i => upd_proc i f) s = Ret tt (set_k_procs (l1 ++ (f <$> l2)) s).
Proof.
  intros l2. revert l1. induction l2 as [|p l2 IH]; intros l1 s Hs; simpl.
  - rewrite app_nil_r in *. by rewrite <- Hs, set_k_procs_id.
  - erewrite bind_Ret; [|apply (upd_proc_ok _ _ p); by rewrite Hs, list_lookup_middle]. cbv beta.
    specialize (IH (l1 ++ [f p]) (set_k_procs (<[length l1:=f p]> (k_procs s)) s)).
    rewrite length_app, Nat.add_1_r, <- !app_assoc in IH. simpl in IH. rewrite IH; [done|].
    rewrite Hs, insert_app_r_alt, Nat.sub_diag by done. done.
Qed.

Definition table_size (s : kstate) : Prop := length (k_procs s) = Z.to_nat NPROC.

Lemma wakeup1_run ch s :
  table_size s -> wakeup1 ch s = Ret tt (set_k_procs (wake_one ch <$> k_procs s) s).
Proof.
  intros H. unfold wakeup1, upto. rewrite <- H. by apply (iter_procs (wake_one ch) [] (k_procs s) s).
Qed.

Lemma wakeup_run ch s i n p :
  table_size s -> on_cpu s i n p -> unlocked Lk_ptable s -> 0 <= n ->
  exists s', wakeup ch s = Ret tt s' /\ on_cpu s' i n p /\ unlocked Lk_ptable s' /\
    same_locks Lk_ptable s s' /\ same_data (set_k_procs (wake_one ch <$> k_procs s) s) s'.
Proof.
  intros Ht Hc Hu Hn. destruct (acquire_cpu s i n p Lk_ptable Hc Hu) as (s1 & Ha & Hc1 & Hh1 & Hl1 & Hd1).
  assert (k_procs s1 = k_procs s) as E1 by (apply Hd1; eauto with frame).
  set (s2 := set_k_procs (wake_one ch <$> k_procs s1) s1).
  destruct (release_cpu s2 i (n + 1) p Lk_ptable) as (s3 & Hr & Hc3 & Hu3 & Hl3 & Hd3);
    [by apply (on_cpu_ext s1)|lia|done|].
  exists s3. split; [|split; [|split; [done|split]]].
  - unfold wakeup. run Ha. erewrite bind_Ret; [|apply wakeup1_run; unfold table_size; by rewrite E1]. done.
  - by replace n with (n + 1 - 1) by lia.
  - intros lk Hlk. rewrite (Hl3 lk Hlk). by apply Hl1.
  - transitivity s2; [|done]. unfold s2. rewrite E1. by apply same_data_procs.
Qed.

(* ------------------------------------------------------------------ *)
(** ** Giving up the processor *)

(** [sched] hands over exactly the caller's state; on resumption, on whatever
    processor, it restores the caller's interrupt setting. *)
Definition resched (intena : Z) : K unit := i <- mycpu ;; upd_cpu i (set_c_intena intena).

Lemma sched_run s i c ip p :
  cpu_inv s i c -> c_ncli c = 1 -> c_proc c = Some ip -> held_by Lk_ptable i s ->
  k_procs s !! ip = Some p -> p_state p <> RUNNING ->
  sched s = Switch s (resched (c_intena c)).
Proof.
  intros HI Hn Hp [Hl Hlc] Hip Hst.
  destruct (myproc_cpu s i 1 (Some ip)) as (s' & Hm & _ & _ & _ & Hs'); [by exists c|].
  rewrite (Hs' ltac:(lia)) in Hm. unfold sched. run Hm.
  run (holding_ok' s i c Lk_ptable HI ltac:(lia)). rewrite Hl, Hlc, bool_decide_eq_true_2 by done. simpl.
  assert (has_bits (hw_eflags (k_hw s)) FL_IF = false) as He by (apply (ci_if _ _ _ HI); lia).
  run (mycpu_ok s i (ci_find _ _ _ HI) He). run (get_cpu_ok s i c (ci_cpu _ _ _ HI)).
  rewrite Hn. simpl. rstep. run (get_proc_ok s ip p Hip).
  unfold state_is. rewrite bool_decide_eq_false_2 by done. rstep. rewrite He.
  run (mycpu_ok s i (ci_find _ _ _ HI) He). run (get_cpu_ok s i c (ci_cpu _ _ _ HI)). done.
Qed.

Lemma resched_run s i p v :
  on_cpu s i 1 p ->
  exists s', resched v s = Ret tt s' /\ k_locks s' = k_locks s /\ same_data s s' /\
    exists c, cpu_inv s' i c /\ c_ncli c = 1 /\ c_proc c = p /\ c_intena c = v.
Proof.
  intros (c & HI & Hn & Hp). exists (set_k_cpus (<[i := set_c_intena v c]> (k_cpus s)) s).
  split; [|split; [done|split]].
  - unfold resched. erewrite bind_Ret; [|apply mycpu_ok; [apply HI|apply HI; lia]]. by apply upd_cpu_ok, HI.
  - intros B f Hf. apply (lf_cpus f Hf).
  - exists (set_c_intena v c). split; [|done]. destruct HI as [Hf Hc Hpos Hif].
    assert (i < length (k_cpus s))%nat by (by eapply lookup_lt_Some). split; try done.
    + rewrite <- Hf. apply find_cpu_ext; try done. intros j. by apply apicid_insert with c.
    + simpl. by apply list_lookup_insert_eq.
Qed.

(** What [sleep] promises, split at the switch. *)
Definition asleep (ch : chan) (p : proc) : proc := set_p_state SLEEPING (set_p_chan (Some ch) p).

Lemma sleep_enter s i ip p ch lk :
  on_cpu s i 1 (Some ip) -> held_by lk i s -> lk <> Lk_ptable -> unlocked Lk_ptable s ->
  k_procs s !! ip = Some p ->
  exists s1 c1, cpu_inv s1 i c1 /\ c_ncli c1 = 1 /\ c_proc c1 = Some ip /\
    held_by Lk_ptable i s1 /\ unlocked lk s1 /\
    same_data (set_k_procs (<[ip := asleep ch p]> (k_procs s)) s) s1 /\
    sleep ch (Some lk) s = Switch s1 (fun s2 => obind (resched (c_intena c1) s2) (fun _ =>
      upd_proc ip (set_p_chan None) ;; release Lk_ptable ;; acquire lk)).
Proof.
  intros Hc Hh Hne Hu Hip.
  destruct (myproc_cpu s i 1 (Some ip) Hc) as (s0 & Hm & _ & _ & _ & Hs0). rewrite (Hs0 ltac:(lia)) in Hm. clear Hs0.
  destruct (acquire_cpu s i 1 (Some ip) Lk_ptable Hc Hu) as (s1 & Ha & Hc1 & Hh1 & Hl1 & Hd1).
  assert (held_by lk i s1) as Hh1' by (unfold held_by; rewrite Hl1 by done; done).
  destruct (release_cpu s1 i 2 (Some ip) lk Hc1 ltac:(lia) Hh1') as (s2 & Hr & (c2 & HI2 & Hn2 & Hp2) & Hu2 & Hl2 & Hd2).
  assert (held_by Lk_ptable i s2) as Hh2 by (unfold held_by; rewrite Hl2 by done; done).
  assert (same_data s s2) as Hd by (by transitivity s1).
  assert (k_procs s2 !! ip = Some p) as Hip2 by (rewrite (Hd _ k_procs); eauto with frame).
  set (s3 := set_k_procs (<[ip := asleep ch p]> (k_procs s2)) s2).
  exists s3, c2. split; [by apply (cpu_inv_ext s2)|]. split; [lia|]. do 3 (split; [done|]). split.
  { unfold s3. rewrite (Hd _ k_procs) by eauto with frame. by apply same_data_procs. }
  unfold sleep. run Hm. destruct (decide (lk = Lk_ptable)) as [|_]; [done|].
  erewrite bind_Ret; [|by run Ha]. cbv beta. run (upd_proc_ok s2 ip p (set_p_chan (Some ch)) Hip2).
  erewrite bind_Ret; [|apply upd_proc_ok; simpl; apply list_lookup_insert_eq; by eapply lookup_lt_Some].
  cbv beta. match goal with |- bind sched _ ?x = _ => assert (x = s3) as -> end.
  { unfold s3, asleep, set_k_procs; simpl. by rewrite list_insert_insert_eq. }
  unfold bind at 1.
  erewrite (sched_run s3 i c2 ip (asleep ch p)); [done|by apply (cpu_inv_ext s2)|lia|done|done| |done].
  simpl. apply list_lookup_insert_eq. by eapply lookup_lt_Some.
Qed.

(** The other half, up to [acquire(lk)]. *)
Definition sleep_back (ip : nat) (lk : lockid) (intena : Z) (s2 : kstate) : out kstate unit :=
  obind (resched intena s2) (fun _ => upd_proc ip (set_p_chan None) ;; release Lk_ptable ;; acquire lk).
Lemma sleep_back_run s2 j q p2 ip lk v :
  on_cpu s2 j 1 q -> held_by Lk_ptable j s2 -> lk <> Lk_ptable -> k_procs s2 !! ip = Some p2 ->
  exists s5, sleep_back ip lk v s2 = acquire lk s5 /\ on_cpu s5 j 0 q /\ unlocked Lk_ptable s5 /\
    k_locks s5 lk = k_locks s2 lk /\ same_data (set_k_procs (<[ip := set_p_chan None p2]> (k_procs s2)) s2) s5.
Proof.
  intros Hc2 Hh2 Hne Hip2.
  destruct (resched_run s2 j q v Hc2) as (s3 & Hr & El & Hd3 & c3 & HI3 & Hn3 & Hp3 & _).
  assert (k_procs s3 !! ip = Some p2) as Hip3 by (rewrite (Hd3 _ k_procs); eauto with frame).
  set (s4 := set_k_procs (<[ip := set_p_chan None p2]> (k_procs s3)) s3).
  assert (on_cpu s4 j 1 q) as Hc4 by (apply (on_cpu_ext s3); try done; by exists c3).
  destruct (release_cpu s4 j 1 q Lk_ptable Hc4 ltac:(lia)) as (s5 & Hr5 & Hc5 & Hu5 & Hl5 & Hd5);
    [unfold held_by; simpl; by rewrite El|].
  exists s5. split; [|split; [done|split; [done|split]]].
  - unfold sleep_back. rewrite Hr. cbn [obind]. run (upd_proc_ok s3 ip p2 (set_p_chan None) Hip3). fold s4. by run Hr5.
  - rewrite Hl5 by done. simpl. by rewrite El.
  - transitivity s4; [|done]. unfold s4. rewrite (Hd3 _ k_procs) by eauto with frame. by apply same_data_procs.
Qed.
Lemma sleep_back_taken s2 j q p2 ip lk v :
  on_cpu s2 j 1 q -> held_by Lk_ptable j s2 -> lk <> Lk_ptable -> k_procs s2 !! ip = Some p2 ->
  ~ unlocked lk s2 -> lk_cpu (k_locks s2 lk) <> Some j ->
  exists s3, sleep_back ip lk v s2 = Spin s3 /\ unlocked Lk_ptable s3 /\
    same_data (set_k_procs (<[ip := set_p_chan None p2]> (k_procs s2)) s2) s3.
Proof.
  intros Hc Hh Hne Hp Hu Ho. destruct (sleep_back_run s2 j q p2 ip lk v Hc Hh Hne Hp) as (s5 & -> & Hc5 & Hu5 & El & Hd).
  destruct (acquire_taken s5 j 0 q lk Hc5) as (s6 & Ha & _ & _ & _ & Hl & Hd6); [unfold unlocked; by rewrite El|by rewrite El|].
  exists s6. split; [done|]. split; [|by transitivity s5]. unfold unlocked. by rewrite Hl.
Qed.

(** A call of [sleep], split at the switch. *)
Lemma sleep_run s i ip p ch lk :
  on_cpu s i 1 (Some ip) -> held_by lk i s -> lk <> Lk_ptable -> unlocked Lk_ptable s ->
  k_procs s !! ip = Some p ->
  exists s1 k, sleep ch (Some lk) s = Switch s1 k /\
    on_cpu s1 i 1 (Some ip) /\ held_by Lk_ptable i s1 /\ unlocked lk s1 /\
    same_data (set_k_procs (<[ip := asleep ch p]> (k_procs s)) s) s1 /\
    forall s2 j q p2, on_cpu s2 j 1 q -> held_by Lk_ptable j s2 -> unlocked lk s2 ->
      k_procs s2 !! ip = Some p2 ->
      exists s3, k s2 = Ret tt s3 /\ on_cpu s3 j 1 q /\ held_by lk j s3 /\ unlocked Lk_ptable s3 /\
        same_data (set_k_procs (<[ip := set_p_chan None p2]> (k_procs s2)) s2) s3.
Proof.
  intros Hc Hh Hne Hu Hip.
  destruct (sleep_enter s i ip p ch lk Hc Hh Hne Hu Hip) as (s1 & c1 & HI1 & Hn1 & Hp1 & Hh1 & Hu1 & Hd1 & Hrun).
  eexists s1, _. split; [exact Hrun|]. split; [by exists c1|]. do 3 (split; [done|]).
  intros s2 j q p2 Hc2 Hh2 Hu2 Hip2.
  destruct (sleep_back_run s2 j q p2 ip lk (c_intena c1) Hc2 Hh2 Hne Hip2) as (s5 & Hb & Hc5 & Hu5 & El & Hd5).
  destruct (acquire_cpu s5 j 0 q lk Hc5) as (s6 & Ha6 & Hc6 & Hh6 & Hl6 & Hd6); [unfold unlocked; by rewrite El|].
  exists s6. split; [exact (eq_trans Hb Ha6)|]. split; [done|]. split; [done|]. split; [unfold unlocked; by rewrite Hl6|]. by transitivity s5.
Qed.

(** While the table's lock is taken on another processor, [sleep] goes round in
    [acquire] and still holds [lk]. *)
Lemma sleep_spins s i ip ch lk :
  on_cpu s i 1 (Some ip) -> held_by lk i s -> lk <> Lk_ptable ->
  ~ unlocked Lk_ptable s -> lk_cpu (k_locks s Lk_ptable) <> Some i ->
  exists s', sleep ch (Some lk) s = Spin s' /\ held_by lk i s' /\ same_data s s'.
Proof.
  intros Hc Hh Hne Hu Ho.
  destruct (myproc_cpu s i 1 (Some ip) Hc) as (s0 & Hm & _ & _ & _ & Hs0). rewrite (Hs0 ltac:(lia)) in Hm. clear Hs0.
  destruct (acquire_taken s i 1 (Some ip) Lk_ptable Hc Hu Ho) as (s1 & Ha & _ & _ & _ & Hl & Hd).
  exists s1. split; [|split; [|done]].
  - unfold sleep. run Hm. destruct (decide (lk = Lk_ptable)) as [|_]; [done|]. by apply bind_Spin, bind_Spin.
  - unfold held_by. by rewrite Hl.
Qed.

(** C27: [sleep(chan, lk)] called with [lk] (not [ptable.lock]) held as the only
    lock hands [lk] over atomically.  As long as [ptable.lock] is taken elsewhere it
    waits for it with [lk] still held and the process still awake, so that no one who
    needs [lk] to wake it can come in between; when it has [ptable.lock] it switches
    away in a state where the process is SLEEPING on [chan], [lk] is free and
    [ptable.lock] is held at depth 1, and nothing else has changed.  However long that
    takes and whichever processor [j] resumes it, provided [ptable.lock] is held there
    at depth 1, it clears [p->chan] and gives [ptable.lock] up; then it returns with
    [lk] held again, or waits for [lk] without holding [ptable.lock]. *)
Theorem sleep_protocol s i ip p ch lk :
  on_cpu s i 1 (Some ip) -> held_by lk i s -> lk <> Lk_ptable -> k_procs s !! ip = Some p ->
  (~ unlocked Lk_ptable s -> lk_cpu (k_locks s Lk_ptable) <> Some i ->
   exists s', sleep ch (Some lk) s = Spin s' /\ held_by lk i s' /\ same_data s s') /\
  (unlocked Lk_ptable s ->
   exists s1 k, sleep ch (Some lk) s = Switch s1 k /\
     on_cpu s1 i 1 (Some ip) /\ held_by Lk_ptable i s1 /\ unlocked lk s1 /\
     same_data (set_k_procs (<[ip := asleep ch p]> (k_procs s)) s) s1 /\
     forall s2 j q p2, on_cpu s2 j 1 q -> held_by Lk_ptable j s2 -> k_procs s2 !! ip = Some p2 ->
       let s2' := set_k_procs (<[ip := set_p_chan None p2]> (k_procs s2)) s2 in
       (unlocked lk s2 ->
        exists s3, k s2 = Ret tt s3 /\ on_cpu s3 j 1 q /\ held_by lk j s3 /\ unlocked Lk_ptable s3 /\ same_data s2' s3) /\
       (~ unlocked lk s2 -> lk_cpu (k_locks s2 lk) <> Some j ->
        exists s3, k s2 = Spin s3 /\ unlocked Lk_ptable s3 /\ same_data s2' s3)).
Proof.
  intros Hc Hh Hne Hip. split; [intros Hu Ho; by apply (sleep_spins s i ip)|]. intros Hu.
  destruct (sleep_run s i ip p ch lk Hc Hh Hne Hu Hip) as (s1 & k & Hrun & H1 & H2 & H3 & H4 & Hk).
  exists s1, k. do 5 (split; [done|]). intros s2 j q p2 Hc2 Hh2 Hip2 s2'. split; [intros Hl; by apply Hk|].
  intros Hl Ho. destruct (sleep_enter s i ip p ch lk Hc Hh Hne Hu Hip) as (s1' & c1 & _ & _ & _ & _ & _ & _ & Hrun').
  rewrite Hrun in Hrun'. injection Hrun' as -> ->. by apply (sleep_back_taken s2 j q p2 ip).
Qed.

(** A booted machine whose processor runs process 0 and holds the log lock. *)
Definition one_running : kstate :=
  set_k_procs (<[0%nat := set_p_state RUNNING (set_p_pid 1 proc0)]> (k_procs boot))
    (set_k_cpus [set_c_ncli 1 (set_c_proc (Some 0%nat) (cpu0 0))] boot).
Definition holding_log : kstate :=
  set_k_locks (fupd (k_locks boot) Lk_log (mk_spinlock 1 "log" (Some 0%nat) [])) one_running.

Lemma sleep_protocol_witness :
  exists s1 k, sleep Ch_log (Some Lk_log) holding_log = Switch s1 k /\ held_by Lk_ptable 0 s1 /\ unlocked Lk_log s1.
Proof.
  destruct (sleep_protocol holding_log 0 0 (set_p_state RUNNING (set_p_pid 1 proc0)) Ch_log Lk_log) as [_ H]; try done.
  - exists (set_c_ncli 1 (set_c_proc (Some 0%nat) (cpu0 0))). by repeat split.
  - destruct (H eq_refl) as (s1 & k & H0 & _ & H1 & H2 & _). exists s1, k. exact (conj H0 (conj H1 H2)).
Defined.

(** [wakeup(chan)] makes exactly the processes that sleep on [chan] runnable:
    no other field of any process and no other part of the kernel changes, and
    the table's lock is free again. *)
Theorem wakeup_exact s i n p ch :
  table_size s -> on_cpu s i n p -> 0 <= n -> unlocked Lk_ptable s ->
  exists s', wakeup ch s = Ret tt s' /\ on_cpu s' i n p /\ unlocked Lk_ptable s' /\
    same_data (set_k_procs (k_procs s') s) s' /\ length (k_procs s') = length (k_procs s) /\
    forall j q, k_procs s !! j = Some q -> exists q', k_procs s' !! j = Some q' /\
      (p_state q = SLEEPING /\ p_chan q = Some ch -> q' = set_p_state RUNNABLE q) /\
      (p_state q <> SLEEPING \/ p_chan q <> Some ch -> q' = q).
Proof.
  intros Ht Hc Hn Hu. destruct (wakeup_run ch s i n p Ht Hc Hu Hn) as (s' & Hr & Hc' & Hu' & _ & Hd).
  assert (k_procs s' = wake_one ch <$> k_procs s) as E by (apply (Hd _ k_procs); eauto with frame).
  exists s'. do 3 (split; [done|]). split; [by rewrite E|]. split; [by rewrite E, length_fmap|].
  intros j q Hj. exists (wake_one ch q). split; [by rewrite E, list_lookup_fmap, Hj|].
  unfold wake_one, state_is. split.
  - intros [H1 H2]. by rewrite !bool_decide_eq_true_2.
  - intros [H1|H1]; rewrite (bool_decide_eq_false_2 _ H1); by rewrite ?andb_false_r.
Qed.

Lemma wakeup_exact_witness :
  exists s', wakeup Ch_ticks one_running = Ret tt s' /\ unlocked Lk_ptable s'.
Proof.
  destruct (wakeup_exact one_running 0 1 (Some 0%nat) Ch_ticks) as (s' & H & _ & H1 & _); try done.
  - exists (set_c_ncli 1 (set_c_proc (Some 0%nat) (cpu0 0))). by repeat split.
  - exists s'. exact (conj H H1).
Defined.

(** What [find_proc] finds. *)
Lemma find_proc_spec f s :
  table_size s ->
  match find_proc f s with
  | Some i => exists p, k_procs s !! i = Some p /\ f p = true /\
      forall j q, (j < i)%nat -> k_procs s !! j = Some q -> f q = false
  | None => forall j q, k_procs s !! j = Some q -> f q = false
  end.
Proof.
  intros Ht. unfold find_proc, upto.
  pose proof (find_seq (fun i => match k_procs s !! i with Some p => f p | None => false end) (Z.to_nat NPROC) 0) as H.
  destruct (List.find _ _) as [i|].
  - destruct H as (Hi & Hf & Hmin). destruct (k_procs s !! i) as [p|] eqn:E; [|done]. exists p.
    split; [done|]. split; [done|]. intros j q Hj Hq. specialize (Hmin j ltac:(lia)). by rewrite Hq in Hmin.
  - intros j q Hq. specialize (H j). rewrite Hq in H. apply H. apply lookup_lt_Some in Hq.
    unfold table_size in Ht. lia.
Qed.

Definition killed (p : proc) : proc :=
  let p := set_p_killed 1 p in if state_is SLEEPING p then set_p_state RUNNABLE p else p.

(** [kill(pid)] marks the first process of the table whose pid matches,
    making it runnable if it sleeps, changes nothing else and returns 0; it
    returns -1 and changes nothing exactly when no slot has that pid. *)
Theorem kill_correct s i n p pid :
  table_size s -> on_cpu s i n p -> 0 <= n -> unlocked Lk_ptable s ->
  exists r s', kill pid s = Ret r s' /\ on_cpu s' i n p /\ unlocked Lk_ptable s' /\
    ((r = -1 /\ (forall j q, k_procs s !! j = Some q -> p_pid q <> pid) /\ same_data s s') \/
     (r = 0 /\ exists j q, k_procs s !! j = Some q /\ p_pid q = pid /\
        (forall j' q', (j' < j)%nat -> k_procs s !! j' = Some q' -> p_pid q' <> pid) /\
        same_data (set_k_procs (<[j := killed q]> (k_procs s)) s) s')).
Proof.
  intros Ht Hc Hn Hu. destruct (acquire_cpu s i n p Lk_ptable Hc Hu) as (s1 & Ha & Hc1 & Hh1 & _ & Hd1).
  assert (k_procs s1 = k_procs s) as E1 by (apply Hd1; eauto with frame).
  unfold kill. run Ha.
  match goal with |- context [for_list (upto NPROC) ?b] => set (body := b) end.
  assert (forall j q, k_procs s1 !! j = Some q -> (p_pid q =? pid) = false -> body j s1 = Ret None s1) as Hmiss.
  { intros j q Hq Hp. unfold body. run (get_proc_ok s1 j q Hq). by rewrite Hp. }
  pose proof (find_proc_spec (fun q => p_pid q =? pid) s1) as Hfs.
  pose proof (for_list_find (fun j => match k_procs s1 !! j with Some q => p_pid q =? pid | None => false end)
    (upto NPROC) body s1) as Hfl.
  unfold find_proc in Hfs. destruct (List.find _ _) as [j|].
  - destruct Hfs as (q & Hq & Hp & Hmin); [unfold table_size; by rewrite E1|]. apply Z.eqb_eq in Hp.
    set (s2 := set_k_procs (<[j := killed q]> (k_procs s1)) s1).
    destruct (release_cpu s2 i (n + 1) p Lk_ptable) as (s3 & Hr & Hc3 & Hu3 & _ & Hd3);
      [by apply (on_cpu_ext s1)|lia|done|].
    assert (body j s1 = Ret (Some 0) s3) as Hb.
    { unfold body. run (get_proc_ok s1 j q Hq). rewrite Hp, Z.eqb_refl.
      run (upd_proc_ok s1 j q (set_p_killed 1) Hq).
      assert (<[j:=set_p_killed 1 q]> (k_procs s1) !! j = Some (set_p_killed 1 q)) as Hq'
        by (apply list_lookup_insert_eq; by eapply lookup_lt_Some).
      erewrite bind_Ret; [|by apply get_proc_ok]. cbv beta.
      erewrite (bind_Ret _ _ _ tt s2); [by run Hr|]. unfold s2, killed. cbv zeta.
      destruct (state_is SLEEPING (set_p_killed 1 q)); simpl; [|done].
      erewrite upd_proc_ok by done. unfold set_k_procs; simpl. by rewrite list_insert_insert_eq. }
    exists 0, s3. erewrite bind_Ret.
    2: { apply Hfl; [|exact Hb]. intros x Hx Hf. apply elem_of_seq in Hx.
         destruct (lookup_lt_is_Some_2 (k_procs s1) x) as [y Hy]; [rewrite E1, Ht; lia|].
         rewrite Hy in Hf. by apply (Hmiss x y). }
    split; [done|]. split; [by replace n with (n + 1 - 1) by lia|]. split; [done|]. right. split; [done|].
    exists j, q. rewrite <- E1. split; [done|]. split; [done|]. split.
    + intros j' q' Hj' Hq'. specialize (Hmin j' q' Hj' Hq'). by apply Z.eqb_neq in Hmin.
    + transitivity s2; [|done]. by apply same_data_procs.
  - destruct (release_cpu s1 i (n + 1) p Lk_ptable) as (s3 & Hr & Hc3 & Hu3 & _ & Hd3); [done|lia|done|].
    exists (-1), s3. erewrite bind_Ret.
    2: { apply Hfl. intros x Hx Hf. apply elem_of_seq in Hx.
         destruct (lookup_lt_is_Some_2 (k_procs s1) x) as [y Hy]; [rewrite E1, Ht; lia|].
         rewrite Hy in Hf. by apply (Hmiss x y). }
    cbv beta. run Hr. split; [done|]. split; [by replace n with (n + 1 - 1) by lia|]. split; [done|]. left.
    split; [done|]. split; [|by transitivity s1]. intros j q Hq. rewrite <- E1 in Hq.
    assert (table_size s1) as Ht1 by (unfold table_size; by rewrite E1).
    specialize (Hfs Ht1 j q Hq). by apply Z.eqb_neq in Hfs.
Qed.

Lemma kill_correct_witness :
  exists r s', kill 1 one_running = Ret r s' /\ unlocked Lk_ptable s'.
Proof.
  destruct (kill_correct one_running 0 1 (Some 0%nat) 1) as (r & s' & H & _ & Hu & _); try done.
  - exists (set_c_ncli 1 (set_c_proc (Some 0%nat) (cpu0 0))). by repeat split.
  - exists r, s'. exact (conj H Hu).
Defined.

(** Pid 0 matches a slot that is not in use: [kill(0)] returns 0 and marks it. *)
Example kill_zero_marks_unused :
  match kill 0 one_running with
  | Ret r s' => r = 0 /\ (fun q => (p_state q, p_killed q)) <$> k_procs s' !! 1%nat = Some (UNUSED, 1)
  | _ => False
  end.
Proof. vm_compute. by split. Qed.

(* ------------------------------------------------------------------ *)
(** ** The process table *)

(** Live processes have distinct pids below the counter. *)
Record procs_inv (s : kstate) : Prop := mk_procs_inv {
  pi_size : table_size s;
  pi_pid : forall i p, k_procs s !! i = Some p -> p_state p <> UNUSED -> 0 < p_pid p < k_nextpid s;
  pi_uniq : forall i j p q, k_procs s !! i = Some p -> k_procs s !! j = Some q ->
    p_state p <> UNUSED -> p_state q <> UNUSED -> p_pid p = p_pid q -> i = j;
  pi_next : 0 < k_nextpid s }.

(** Only the pid and the liveness of slots matter. *)
Lemma procs_inv_ext s s' :
  k_nextpid s' = k_nextpid s ->
  (forall i, (fun p => (p_pid p, bool_decide (p_state p = UNUSED))) <$> k_procs s' !! i =
             (fun p => (p_pid p, bool_decide (p_state p = UNUSED))) <$> k_procs s !! i) ->
  procs_inv s -> procs_inv s'.
Proof.
  intros En Ep [Ht Hp Hu Hn].
  assert (forall i p', k_procs s' !! i = Some p' -> exists p, k_procs s !! i = Some p /\ p_pid p = p_pid p' /\
    (p_state p' <> UNUSED -> p_state p <> UNUSED)) as Hback.
  { intros i p' Hi. specialize (Ep i). rewrite Hi in Ep. destruct (k_procs s !! i) as [p|]; [|done].
    simpl in Ep. exists p. inversion Ep as [[E1 E2]]. split; [done|]. split; [done|].
    intros H1 H2. apply H1. rewrite (bool_decide_eq_true_2 _ H2) in E2. by apply bool_decide_eq_true in E2. }
  split.
  - unfold table_size in *. rewrite <- Ht.
    apply Nat.le_antisymm; apply Nat.nlt_ge; intros Hlt; apply lookup_lt_is_Some in Hlt as [x Hx].
    + rewrite Ht in Hx. specialize (Ep (Z.to_nat NPROC)). rewrite Hx in Ep.
      rewrite (lookup_ge_None_2 (k_procs s)) in Ep by lia. done.
    + specialize (Ep (length (k_procs s'))). rewrite Hx, lookup_ge_None_2 in Ep by lia. done.
  - intros i p Hi Hs. destruct (Hback i p Hi) as (q & Hq & E & Hl). rewrite <- E, En. eauto.
  - intros i j p q Hi Hj Hs1 Hs2 E. destruct (Hback i p Hi) as (p0 & Hp0 & E0 & L0).
    destruct (Hback j q Hj) as (q0 & Hq0 & E1 & L1). apply (Hu i j p0 q0); auto. congruence.
  - by rewrite En.
Qed.

(** A free slot is given the next pid. *)
Lemma procs_inv_alloc s s' j q q' :
  procs_inv s -> k_procs s !! j = Some q ->
  k_procs s' = <[j := q']> (k_procs s) -> p_pid q' = k_nextpid s -> k_nextpid s' = k_nextpid s + 1 ->
  procs_inv s'.
Proof.
  intros [Ht Hp Hu Hn] Hj E Eq En. assert (j < length (k_procs s))%nat as Hlt by (by eapply lookup_lt_Some).
  assert (forall x y, k_procs s' !! x = Some y -> (x = j /\ y = q') \/ (x <> j /\ k_procs s !! x = Some y)) as Hl.
  { intros x y. rewrite E. rewrite list_lookup_insert_Some. naive_solver. }
  split.
  - unfold table_size. by rewrite E, length_insert.
  - intros x y Hx Hy. rewrite En. destruct (Hl x y Hx) as [[-> ->]|[_ Hx']]; [lia|]. specialize (Hp x y Hx' Hy). lia.
  - intros x y p1 p2 Hx Hy L1 L2 Epid.
    destruct (Hl x p1 Hx) as [[-> ->]|[Hnx Hx']], (Hl y p2 Hy) as [[-> ->]|[Hny Hy']]; [done| | |by eapply Hu].
    + specialize (Hp y p2 Hy' L2). lia.
    + specialize (Hp x p1 Hx' L1). lia.
  - lia.
Qed.

#[export] Instance same_data_nextpid : Proper (eq ==> same_data ==> same_data) set_k_nextpid.
Proof. same_data_tac. Qed.

(** The first half of [allocproc]: the slot is claimed under the lock. *)
Lemma allocproc_claim s i n p :
  table_size s -> on_cpu s i n p -> 0 <= n -> unlocked Lk_ptable s -> 0 < k_nextpid s < 2 ^ 31 - 1 ->
  match find_proc (state_is UNUSED) s with
  | None => exists s', allocproc s = Ret None s' /\ on_cpu s' i n p /\ unlocked Lk_ptable s' /\
      same_locks Lk_ptable s s' /\ same_data s s'
  | Some j => forall q, k_procs s !! j = Some q ->
      exists s2, on_cpu s2 i n p /\ unlocked Lk_ptable s2 /\ same_locks Lk_ptable s s2 /\
        same_data (set_k_procs (<[j := set_p_pid (k_nextpid s) (set_p_state EMBRYO q)]> (k_procs s))
                     (set_k_nextpid (k_nextpid s + 1) s)) s2 /\
        allocproc s = allocproc_stack j s2
  end.
Proof.
  intros Ht Hc Hn Hu Hnp. destruct (acquire_cpu s i n p Lk_ptable Hc Hu) as (s1 & Ha & Hc1 & Hh1 & Hl1 & Hd1).
  assert (k_procs s1 = k_procs s) as E1 by (apply Hd1; eauto with frame).
  assert (k_nextpid s1 = k_nextpid s) as E2 by (apply Hd1; eauto with frame).
  assert (find_proc (state_is UNUSED) s1 = find_proc (state_is UNUSED) s) as Ef by (unfold find_proc; by rewrite E1).
  unfold allocproc. destruct (find_proc (state_is UNUSED) s) as [j|] eqn:Ej.
  - intros q Hq.
    set (q' := set_p_pid (k_nextpid s) (set_p_state EMBRYO q)).
    set (sa := set_k_procs (<[j := q']> (k_procs s)) (set_k_nextpid (k_nextpid s + 1) s1)).
    destruct (release_cpu sa i (n + 1) p Lk_ptable) as (s2 & Hr & Hc2 & Hu2 & Hl2 & Hd2);
      [by apply (on_cpu_ext s1)|lia|done|].
    exists s2. split; [by replace n with (n + 1 - 1) by lia|]. split; [done|]. split.
    { intros lk Hlk. rewrite (Hl2 lk Hlk). by apply Hl1. }
    split. { transitivity sa; [|done]. unfold sa. apply same_data_procs; [done|]. by apply same_data_nextpid. }
    run Ha. rstep. rewrite Ef. cbv iota.
    erewrite bind_Ret; [|apply upd_proc_ok; rewrite E1; exact Hq]. cbv beta.
    rstep. rstep. erewrite bind_Ret; [|apply upd_proc_ok; simpl; apply list_lookup_insert_eq; rewrite E1; by eapply lookup_lt_Some].
    cbv beta. match goal with |- bind (release _) _ ?x = _ => assert (x = sa) as -> end; [|by run Hr].
    unfold sa, q', set_k_procs, set_k_nextpid; simpl. rewrite list_insert_insert_eq, E1, E2.
    by rewrite s32_small by lia.
  - destruct (release_cpu s1 i (n + 1) p Lk_ptable) as (s2 & Hr & Hc2 & Hu2 & Hl2 & Hd2); [done|lia|done|].
    exists s2. run Ha. rstep. rewrite Ef. cbv iota. run Hr. split; [done|].
    split; [by replace n with (n + 1 - 1) by lia|]. split; [done|]. split; [|by transitivity s1].
    intros lk Hlk. rewrite (Hl2 lk Hlk). by apply Hl1.
Qed.

Lemma kmem_inv_data s s' l :
  k_mem s' = k_mem s -> k_kmem s' = k_kmem s -> k_end s' = k_end s -> kmem_inv s l -> kmem_inv s' l.
Proof. intros E1 E2 E3 [H1 H2 H3]. split; rewrite ?E1, ?E2, ?E3; done. Qed.

(** A store inside a page that is not free keeps the free list. *)
Lemma kmem_inv_store s l a v pg :
  kmem_inv s l -> page_ok (k_end s) pg -> pg ∉ l -> pg <= a -> a + 4 <= pg + PGSIZE ->
  kmem_inv (set_k_mem (st32 (k_mem s) a v) s) l.
Proof.
  intros [Hl Hd Hg] Hpg Hnin H1 H2. split; try done. apply (linked_ext (k_mem s)); [done|].
  intros q Hq. simpl. apply ld32_st32_other. rewrite Forall_forall in Hg. specialize (Hg q Hq).
  destruct (pages_disjoint q pg); [apply Hg|apply Hpg|by intros ->| |]; unfold PGSIZE in *; lia.
Qed.

(** What the stack set-up leaves in the slot. *)
Definition stack_done (s : kstate) (q : proc) (pg : Z) (q' : proc) : Prop :=
  p_state q' = p_state q /\ p_pid q' = p_pid q /\ p_kstack q' = pg /\
  p_context q' = set_cx_eip (k_forkret s) cx0.

Lemma allocproc_stack_run s i n p l j q :
  on_cpu s i n p -> unlocked Lk_kmem s -> kmem_inv s l -> k_procs s !! j = Some q ->
  exists r s', allocproc_stack j s = Ret r s' /\ on_cpu s' i n p /\ unlocked Lk_kmem s' /\
    same_locks Lk_kmem s s' /\ k_nextpid s' = k_nextpid s /\
    ((r = None /\ l = [] /\ kmem_inv s' l /\
      k_procs s' = <[j := set_p_state UNUSED (set_p_kstack 0 q)]> (k_procs s)) \/
     (r = Some j /\ l <> [] /\ kmem_inv s' (tl l) /\
      ld32 (k_mem s') (hd 0 l + KSTACKSIZE - sizeof_trapframe - 4) = u32 (k_trapret s) /\
      exists q', k_procs s' = <[j := q']> (k_procs s) /\ stack_done s q (hd 0 l) q')).
Proof.
  intros Hc Hu Hk Hj. destruct (kalloc_run s i n p l) as (s1 & Hka & Hk1 & Hm1 & Hrd & _ & Hl1);
    [by apply ready_on_cpu|done|]. apply ready_on_cpu in Hrd as [Hc1 Hu1].
  assert (forall B (f : kstate -> B), io_free f -> (forall v s, f (set_k_kmem v s) = f s) ->
    (forall v s, f (set_k_mem v s) = f s) -> f s1 = f s) as Hd.
  { intros B f H1 H2 H3. by apply (frame_kalloc f H1 H2) in Hka. }
  assert (k_procs s1 = k_procs s) as E1 by (apply Hd; eauto with frame).
  assert (k_nextpid s1 = k_nextpid s) as E2 by (apply Hd; eauto with frame).
  assert (k_forkret s1 = k_forkret s) as E3 by (apply Hd; try done; io_free_tac).
  assert (k_trapret s1 = k_trapret s) as E4 by (apply Hd; try done; io_free_tac).
  assert (k_end s1 = k_end s) as E5 by (apply Hd; eauto with frame).
  assert (j < length (k_procs s))%nat as Hlt by (by eapply lookup_lt_Some).
  assert (forall x v, k_procs x = <[j := v]> (k_procs s) -> k_procs x !! j = Some v) as Hlk
    by (intros x v ->; by apply list_lookup_insert_eq).
  unfold allocproc_stack. run Hka.
  erewrite bind_Ret; [|apply (upd_proc_ok _ _ q); by rewrite E1]. cbv beta. rewrite E1.
  destruct l as [|pg l]; cbn [hd tl] in *.
  - rewrite Z.eqb_refl. eexists None, _. erewrite bind_Ret; [|by apply upd_proc_ok, Hlk]. split; [reflexivity|].
    split; [by apply (on_cpu_ext s1)|]. split; [done|]. split; [done|]. split; [done|]. left.
    split; [done|]. split; [done|]. split; [by apply (kmem_inv_data s1)|]. simpl. by rewrite list_insert_insert_eq.
  - destruct Hk as [_ Hnd Hg]. apply Forall_cons in Hg as [Hpg _]. apply NoDup_cons in Hnd as [Hnin _].
    pose proof (page_ok_bounds _ _ Hpg). destruct (Z.eqb_spec pg 0); [lia|]. cbv zeta.
    rstep. erewrite bind_Ret; [|by apply upd_proc_ok, Hlk]. cbv beta. rstep. rstep. unfold st. rstep.
    erewrite bind_Ret; [|apply upd_proc_ok, Hlk; simpl; by rewrite list_insert_insert_eq]. cbv beta.
    eexists (Some j), _. split; [reflexivity|].
    split; [by apply (on_cpu_ext s1)|]. split; [done|]. split; [done|]. split; [done|]. right.
    split; [done|]. split; [done|]. split; [|split].
    + eapply (kmem_inv_data (set_k_mem (st32 (k_mem s1) _ _) s1)); [done..|].
      apply (kmem_inv_store s1 l _ _ pg); rewrite ?E5; try done; unfold KSTACKSIZE, sizeof_trapframe, PGSIZE; lia.
    + simpl. by rewrite ld32_st32_same, E4.
    + eexists. simpl. rewrite !list_insert_insert_eq. split; [reflexivity|].
      unfold stack_done; simpl. by rewrite E3.
Qed.

(** The process [allocproc] returns in slot [j]: embryonic, with the next pid, a
    kernel stack, and a context that starts at [forkret] and returns to
    [trapret]. *)
Record embryo (s s' : kstate) (q : proc) (pg : Z) : Prop := mk_embryo {
  em_state : p_state q = EMBRYO;
  em_pid : p_pid q = k_nextpid s;
  em_kstack : p_kstack q = pg;
  em_eip : p_context q = set_cx_eip (k_forkret s) cx0;
  em_ret : ld32 (k_mem s') (pg + KSTACKSIZE - sizeof_trapframe - 4) = u32 (k_trapret s) }.

(** C28: [allocproc] either returns a slot that was UNUSED, now an embryo whose
    pid is fresh and whose kernel stack is the first free page, every other slot
    untouched; or it returns 0, and then there was no UNUSED slot, and the table is
    as it was, or no free page, and the slot it had claimed is UNUSED again with
    every other slot untouched.  Live processes keep distinct pids in both cases, and
    the free list is intact. *)
Theorem allocproc_correct s i n p l :
  procs_inv s -> on_cpu s i n p -> 0 <= n -> unlocked Lk_ptable s -> unlocked Lk_kmem s ->
  kmem_inv s l -> k_nextpid s < 2 ^ 31 - 1 ->
  exists r s', allocproc s = Ret r s' /\ on_cpu s' i n p /\ unlocked Lk_ptable s' /\ unlocked Lk_kmem s' /\
    procs_inv s' /\
    match r with
    | Some j => exists q q', k_procs s !! j = Some q /\ p_state q = UNUSED /\
        k_procs s' = <[j := q']> (k_procs s) /\ l <> [] /\ kmem_inv s' (tl l) /\ embryo s s' q' (hd 0 l)
    | None => kmem_inv s' l /\
        ((forall j q, k_procs s !! j = Some q -> p_state q <> UNUSED) /\ k_procs s' = k_procs s \/
         l = [] /\ exists j q, k_procs s !! j = Some q /\ p_state q = UNUSED /\
           k_procs s' = <[j := set_p_kstack 0 (set_p_pid (k_nextpid s) q)]> (k_procs s))
    end.
Proof.
  intros HP Hc Hn Hu Huk Hk Hmax. pose proof HP as [Ht Hp Hq Hnp].
  pose proof (allocproc_claim s i n p Ht Hc Hn Hu ltac:(lia)) as Hcl.
  pose proof (find_proc_spec (state_is UNUSED) s Ht) as Hf.
  destruct (find_proc (state_is UNUSED) s) as [j|].
  2: { destruct Hcl as (s' & Hr & Hc' & Hu' & Hl & Hd). exists None, s'. split; [done|]. split; [done|]. split; [done|].
       split; [unfold unlocked; by rewrite Hl|]. split.
       { apply (procs_inv_ext s); [apply Hd; eauto with frame| |done]. intros x. by rewrite (Hd _ k_procs) by eauto with frame. }
       split; [apply (kmem_inv_data s); try done; apply Hd; eauto with frame|].
       left. split; [intros x y Hx; apply (bool_decide_eq_false_1 _ (Hf x y Hx))|apply Hd; eauto with frame]. }
  destruct Hf as (q & Hj & Hst & _). apply bool_decide_eq_true in Hst.
  destruct (Hcl q Hj) as (s2 & Hc2 & Hu2 & Hl2 & Hd2 & Hrun). rewrite Hrun. clear Hrun Hcl.
  assert (kmem_inv s2 l) as Hk2 by (apply (kmem_inv_data s); try done; apply Hd2; eauto with frame).
  assert (unlocked Lk_kmem s2) as Huk2 by (unfold unlocked; by rewrite Hl2).
  set (q1 := set_p_pid (k_nextpid s) (set_p_state EMBRYO q)).
  assert (k_procs s2 = <[j := q1]> (k_procs s)) as Ep2 by (apply (Hd2 _ k_procs); eauto with frame).
  assert (k_nextpid s2 = k_nextpid s + 1) as En2 by (apply (Hd2 _ k_nextpid); eauto with frame).
  destruct (allocproc_stack_run s2 i n p l j q1) as (r & s3 & Hr & Hc3 & Huk3 & Hl3 & En3 & H3); try done.
  { rewrite Ep2. apply list_lookup_insert_eq. by eapply lookup_lt_Some. }
  exists r, s3. split; [done|]. split; [done|]. split; [unfold unlocked; by rewrite Hl3|]. split; [done|].
  destruct H3 as [(-> & -> & Hk3 & Ep3)|(-> & Hne & Hk3 & Hm3 & q' & Ep3 & Hs1 & Hs2 & Hs3 & Hs4)];
    rewrite Ep2, list_insert_insert_eq in Ep3.
  - split; [eapply (procs_inv_alloc s s3 j q); try done; congruence|]. split; [done|]. right. split; [done|].
    exists j, q. split; [done|]. split; [done|]. rewrite Ep3. f_equal. unfold q1. rewrite <- Hst. by destruct q.
  - split; [eapply (procs_inv_alloc s s3 j q); try done; congruence|]. exists q, q'.
    do 5 (split; [done|]). split; try done; [rewrite Hs4|rewrite Hm3]; f_equal;
      [apply (Hd2 _ k_forkret)|apply (Hd2 _ k_trapret)]; io_free_tac.
Qed.

(** Process 1 runs, two pages are free. *)
Definition one_and_pages : kstate := set_k_mem (k_mem two_pages) (set_k_kmem (k_kmem two_pages) one_running).
Lemma one_and_pages_inv : procs_inv (set_k_nextpid 2 one_and_pages).
Proof.
  assert (forall i p, k_procs one_and_pages !! i = Some p -> p_state p <> UNUSED -> i = 0%nat /\ p_pid p = 1) as H.
  { intros i p Hi Hp. unfold one_and_pages, one_running in Hi. simpl in Hi.
    destruct i as [|i]; [by inversion Hi|]. exfalso. apply Hp. simpl in Hi.
    change (replicate 63 proc0 !! i = Some p) in Hi. apply lookup_replicate in Hi as [-> _]. done. }
  split; simpl.
  - done.
  - intros i p Hi Hp. destruct (H i p Hi Hp). lia.
  - intros i j p q Hi Hj Hp Hq _. destruct (H i p Hi Hp), (H j q Hj Hq). congruence.
  - done.
Qed.

Lemma allocproc_correct_witness :
  exists r s', allocproc (set_k_nextpid 2 one_and_pages) = Ret r s' /\ procs_inv s'.
Proof.
  destruct (allocproc_correct (set_k_nextpid 2 one_and_pages) 0 1 (Some 0%nat) [0x80200000; 0x80201000] one_and_pages_inv)
    as (r & s' & H & _ & _ & _ & Hi & _); try done.
  - exists (set_c_ncli 1 (set_c_proc (Some 0%nat) (cpu0 0))). by repeat split.
  - by apply (kmem_inv_data two_pages), two_pages_inv.
  - exists r, s'. exact (conj H Hi).
Defined.

(* ------------------------------------------------------------------ *)
(** ** No lost wakeup

    Any number of processes that wait for a condition with [sleep], and any number of
    processors that establish the condition under the same lock [lk] and call
    [wakeup]; a process that finds the condition true may reset it.  The steps are the
    atomic actions of [sleep] and [wakeup] in the order of the source; [lk] and
    [ptable.lock] are mutual exclusion locks.  The translated functions take these
    steps: [sleep_steps], [wakeup_steps]. *)
Module Wake.

Inductive who := Sleeper (i : nat) | Waker (j : nat).
#[export] Instance who_eq_dec : EqDecision who.
Proof. solve_decision. Defined.

Inductive spc := SOut | SCheck | SWant | SBoth | SPtable | SMarked | SAsleep | SBack | SDone.
Inductive wpc := WOut | WIn | WSet | WPtable | WWoken | WLeave.

Record st := mk_st {
  cond : bool; lk : option who; pt : option who; sleeping : nat -> bool; sp : nat -> spc; wp : nat -> wpc }.

Inductive step : st -> st -> Prop :=
(** the waiting loop: acquire(lk); while(!cond) sleep(chan, lk) *)
| s_lock c pt sl s w i : s i = SOut ->
    step (mk_st c None pt sl s w) (mk_st c (Some (Sleeper i)) pt sl (fupd s i SCheck) w)
| s_cond l pt sl s w i : s i = SCheck -> step (mk_st true l pt sl s w) (mk_st true l pt sl (fupd s i SDone) w)
| s_call l pt sl s w i : s i = SCheck -> step (mk_st false l pt sl s w) (mk_st false l pt sl (fupd s i SWant) w)
(** acquire(&ptable.lock); release(lk); p->state = SLEEPING; sched() *)
| s_ptable c l sl s w i : s i = SWant ->
    step (mk_st c l None sl s w) (mk_st c l (Some (Sleeper i)) sl (fupd s i SBoth) w)
| s_unlock c l pt sl s w i : s i = SBoth -> step (mk_st c l pt sl s w) (mk_st c None pt sl (fupd s i SPtable) w)
| s_mark c l pt sl s w i : s i = SPtable ->
    step (mk_st c l pt sl s w) (mk_st c l pt (fupd sl i true) (fupd s i SMarked) w)
| s_sched c l pt sl s w i : s i = SMarked -> step (mk_st c l pt sl s w) (mk_st c l None sl (fupd s i SAsleep) w)
(** the scheduler takes ptable.lock and resumes a process that is not asleep;
    release(&ptable.lock); then acquire(lk) and the test again *)
| s_resume c l sl s w i : s i = SAsleep -> sl i = false ->
    step (mk_st c l None sl s w) (mk_st c l (Some (Sleeper i)) sl (fupd s i SBack) w)
| s_unptable c l pt sl s w i : s i = SBack -> step (mk_st c l pt sl s w) (mk_st c l None sl (fupd s i SOut) w)
(** the condition held: use it, or use it up, and release(lk) *)
| s_done c c' l pt sl s w i : s i = SDone -> step (mk_st c l pt sl s w) (mk_st c' None pt sl (fupd s i SOut) w)
(** acquire(lk); cond = 1; acquire(&ptable.lock); wakeup1; release; release(lk) *)
| w_lock c pt sl s w j : w j = WOut ->
    step (mk_st c None pt sl s w) (mk_st c (Some (Waker j)) pt sl s (fupd w j WIn))
| w_set c l pt sl s w j : w j = WIn -> step (mk_st c l pt sl s w) (mk_st true l pt sl s (fupd w j WSet))
| w_ptable c l sl s w j : w j = WSet ->
    step (mk_st c l None sl s w) (mk_st c l (Some (Waker j)) sl s (fupd w j WPtable))
| w_wakeup1 c l pt sl s w j : w j = WPtable ->
    step (mk_st c l pt sl s w) (mk_st c l pt (fun _ => false) s (fupd w j WWoken))
| w_unptable c l pt sl s w j : w j = WWoken -> step (mk_st c l pt sl s w) (mk_st c l None sl s (fupd w j WLeave))
| w_unlock c l pt sl s w j : w j = WLeave -> step (mk_st c l pt sl s w) (mk_st c None pt sl s (fupd w j WOut)).

Inductive steps : st -> st -> Prop :=
| steps_refl x : steps x x
| steps_step x y z : step x y -> steps y z -> steps x z.
Definition initial : st := mk_st false None None (fun _ => false) (fun _ => SOut) (fun _ => WOut).
Definition reachable (x : st) : Prop := steps initial x.

(** Which locks a program counter implies. *)
Definition s_lk (p : spc) : bool := match p with SCheck | SWant | SBoth | SDone => true | _ => false end.
Definition s_pt (p : spc) : bool := match p with SBoth | SPtable | SMarked | SBack => true | _ => false end.
Definition w_lk (p : wpc) : bool := match p with WOut => false | _ => true end.
Definition w_pt (p : wpc) : bool := match p with WPtable | WWoken => true | _ => false end.
(** A waker that has set the condition and not yet run [wakeup1]. *)
Definition pending (p : wpc) : bool := match p with WSet | WPtable => true | _ => false end.
(** The condition a sleeper knows, with [lk] held since it looked. *)
Definition knows (p : spc) : option bool := match p with SWant | SBoth => Some false | SDone => Some true | _ => None end.
Definition lies (p : spc) : bool := match p with SMarked | SAsleep => true | _ => false end.

Record inv (x : st) : Prop := mk_inv {
  i_slk : forall i, s_lk (sp x i) = true <-> lk x = Some (Sleeper i);
  i_spt : forall i, s_pt (sp x i) = true <-> pt x = Some (Sleeper i);
  i_wlk : forall j, w_lk (wp x j) = true <-> lk x = Some (Waker j);
  i_wpt : forall j, w_pt (wp x j) = true <-> pt x = Some (Waker j);
  i_cond : forall i b, knows (sp x i) = Some b -> cond x = b;
  i_sleeping : forall i, sleeping x i = true -> lies (sp x i) = true;
  i_wake : forall i, sp x i = SPtable \/ sleeping x i = true -> cond x = true -> exists j, pending (wp x j) = true }.

Lemma wake_inv_init : inv initial.
Proof. split; simpl; naive_solver. Qed.

Ltac at_party k j := destruct (decide (k = j)) as [->|n]; [rewrite fupd_same|rewrite fupd_other by done].
Lemma knows_lk p b : knows p = Some b -> s_lk p = true.
Proof. by destruct p. Qed.
Lemma pending_lk p : pending p = true -> w_lk p = true /\ p <> WLeave /\ p <> WWoken.
Proof. by destruct p. Qed.
(** Only the holder of [lk] changes the condition. *)
Lemma cond_kept x i k b : inv x -> lk x = Some i -> i <> Sleeper k -> knows (sp x k) = Some b -> False.
Proof. intros I Hl Hne Hk%knows_lk. apply (i_slk x I) in Hk. congruence. Qed.
Lemma pending_holder x j k : inv x -> pending (wp x k) = true -> lk x = Some j -> j = Waker k.
Proof. intros I [Hk _]%pending_lk Hl. apply (i_wlk x I) in Hk. congruence. Qed.

Lemma step_cond a b : inv a -> step a b -> forall k v, knows (sp b k) = Some v -> cond b = v.
Proof.
  intros I Hst k v. pose proof (i_cond a I k v) as Hk. pose proof (fun i => i_cond a I i) as H5. pose proof (cond_kept a) as Hx.
  destruct Hst; simpl in *; try exact Hk; try (at_party k i; [specialize (H5 i v); rewrite H in H5; simpl in *; try done; congruence|try done]).
  - intros Hv. exfalso. eapply (Hx (Sleeper i) k); [done| |congruence|done]. apply (i_slk _ I i). simpl. by rewrite H.
  - intros Hv. exfalso. eapply (Hx (Waker j) k); [done| |congruence|done]. apply (i_wlk _ I j). simpl. by rewrite H.
Qed.
Lemma step_sleeping a b : inv a -> step a b -> forall k, sleeping b k = true -> lies (sp b k) = true.
Proof.
  intros I Hst k. pose proof (i_sleeping a I k) as Hk. pose proof (fun i => i_sleeping a I i) as H6.
  destruct Hst; simpl in *; try exact Hk; try (repeat at_party k i; try done; intros Hs; specialize (H6 i Hs); rewrite H in H6; simpl in *; congruence).
  destruct (decide (k = i)) as [->|]; [by rewrite !fupd_same|by rewrite !fupd_other].
Qed.
Lemma step_wake a b : inv a -> step a b -> forall k, sp b k = SPtable \/ sleeping b k = true -> cond b = true -> exists j, pending (wp b j) = true.
Proof.
  intros I Hst k. pose proof (i_wake a I k) as Hk. pose proof (pending_holder a) as Hp.
  destruct Hst; simpl in *;
    try (intros [E|Hs] Hc; [revert E; at_party k i; [done|intros E]|]; by apply Hk; auto).
  - (* release(lk) *) intros Hs Hc. apply Hk; [|done]. destruct Hs as [E|Hs]; [|by right]. revert E. at_party k i; [|auto].
    pose proof (i_cond _ I i false) as Hf. simpl in Hf. rewrite H in Hf. specialize (Hf eq_refl). congruence.
  - (* p->state = SLEEPING *) intros Hs Hc. apply Hk; [|done]. revert Hs. at_party k i; [auto|]. by rewrite fupd_other.
  - (* release(lk), the condition known *) intros Hs Hc. pose proof (i_cond _ I i true) as Ht. simpl in Ht. rewrite H in Ht.
    apply Hk; [|by apply Ht]. destruct Hs as [E|Hs]; [|by right]. revert E. at_party k i; [done|auto].
  - intros Hs Hc. destruct (Hk Hs Hc) as [m Hm]. destruct (pending_lk _ Hm) as [Hl _]. apply (i_wlk _ I) in Hl. done.
  - intros _ _. exists j. by rewrite fupd_same.
  - intros _ _. exists j. by rewrite fupd_same.
  - (* wakeup1 *) intros [E|?] _; [|done]. pose proof (proj1 (i_spt _ I k)) as E1. pose proof (proj1 (i_wpt _ I j)) as E2.
    simpl in E1, E2. rewrite E in E1. rewrite H in E2. specialize (E1 eq_refl). specialize (E2 eq_refl). congruence.
  - intros Hs Hc. destruct (Hk Hs Hc) as [m Hm]. exists m. rewrite fupd_other; [done|]. intros ->. by rewrite H in Hm.
  - intros Hs Hc. destruct (Hk Hs Hc) as [m Hm]. exists m. rewrite fupd_other; [done|]. intros ->. by rewrite H in Hm.
Qed.

Lemma wake_inv_step a b : inv a -> step a b -> inv b.
Proof.
  intros I Hst. pose proof I as [H1 H2 H3 H4 _ _ _]. pose proof Hst as Hst'.
  destruct Hst as [c q sl s w i Hi|l q sl s w i Hi|l q sl s w i Hi|c l sl s w i Hi|c l q sl s w i Hi|c l q sl s w i Hi|c l q sl s w i Hi
    |c l sl s w i Hi Hsl|c l q sl s w i Hi|c c' l q sl s w i Hi
    |c q sl s w j Hj|c l q sl s w j Hj|c l sl s w j Hj|c l q sl s w j Hj|c l q sl s w j Hj|c l q sl s w j Hj]; cbn [cond lk pt sleeping sp wp] in *.
  1-10: pose proof (H1 i) as A1; pose proof (H2 i) as A2; rewrite Hi in A1, A2; cbn [s_lk s_pt] in A1, A2;
    (split; cbn [cond lk pt sleeping sp wp];
      [intros k; specialize (H1 k); at_party k i; first [clear -H1 A1 n|clear -H1 A1]; naive_solver
      |intros k; specialize (H2 k); at_party k i; first [clear -H2 A2 n|clear -H2 A2]; naive_solver
      |intros k; specialize (H3 k); clear -H3 A1; naive_solver
      |intros k; specialize (H4 k); clear -H4 A2; naive_solver| | |]).
  31-36: pose proof (H3 j) as A3; pose proof (H4 j) as A4; rewrite Hj in A3, A4; cbn [w_lk w_pt] in A3, A4;
    (split; cbn [cond lk pt sleeping sp wp];
      [intros k; specialize (H1 k); clear -H1 A3; naive_solver|intros k; specialize (H2 k); clear -H2 A4; naive_solver
      |intros k; specialize (H3 k); at_party k j; first [clear -H3 A3 n|clear -H3 A3]; naive_solver
      |intros k; specialize (H4 k); at_party k j; first [clear -H4 A4 n|clear -H4 A4]; naive_solver| | |]).
  all: first [exact (step_cond _ _ I Hst')|exact (step_sleeping _ _ I Hst')|exact (step_wake _ _ I Hst')].
Qed.

Lemma wake_inv_steps a b : steps a b -> inv a -> inv b.
Proof. induction 1; eauto using wake_inv_step. Qed.

(** C10: no wakeup is lost: in every interleaving, whenever the condition holds
    and no waker is on its way to [wakeup1] any more, no process is asleep
    (nor about to fall asleep); so a process that sleeps while its condition
    holds has a wakeup still to come. *)
Theorem no_lost_wakeup x :
  reachable x -> cond x = true -> (forall j, pending (wp x j) = false) ->
  forall i, sleeping x i = false /\ sp x i <> SPtable /\ sp x i <> SWant /\ sp x i <> SBoth.
Proof.
  intros Hr Hc Hp i. destruct (wake_inv_steps _ _ Hr wake_inv_init) as [H1 H2 H3 H4 H5 H6 H7].
  assert (~ (sp x i = SPtable \/ sleeping x i = true)) as Hn by (intros H; destruct (H7 i H Hc) as [j Hj]; by rewrite Hp in Hj).
  split; [destruct (sleeping x i); [by destruct Hn; right|done]|]. split; [naive_solver|].
  split; intros E; specialize (H5 i false); rewrite E in H5; specialize (H5 eq_refl); congruence.
Qed.

Lemma no_lost_wakeup_witness :
  let x := mk_st true (Some (Waker 0)) (Some (Waker 0)) (fun _ => false) (fun _ => SOut) (fupd (fupd (fupd (fupd (fun _ => WOut) 0%nat WIn) 0%nat WSet) 0%nat WPtable) 0%nat WWoken) in
  reachable x /\ sleeping x 5%nat = false.
Proof.
  cbv zeta. match goal with |- reachable ?y /\ _ => assert (reachable y) as H end.
  { eapply steps_step; [by apply (w_lock _ _ _ _ _ 0%nat)|]. eapply steps_step; [by apply (w_set false _ _ _ _ _ 0%nat)|].
    eapply steps_step; [by apply (w_ptable _ _ _ _ _ 0%nat)|]. eapply steps_step; [by apply (w_wakeup1 _ _ _ _ _ _ 0%nat)|].
    apply steps_refl. }
  split; [exact H|]. apply (no_lost_wakeup _ H); [done|].
  intros j. simpl. at_party j 0%nat; [done|]. by rewrite !fupd_other.
Defined.

(** *** The translated functions take these steps

    [by_cpu] tells who runs on a processor, [ip] which process is sleeper [i]. *)
Section View.
Context (by_cpu : nat -> who) (ch : chan) (l : lockid) (Hl : l <> Lk_ptable).
Definition holder (x : spinlock) : option who := if truth (lk_locked x) then by_cpu <$> lk_cpu x else None.
Definition view (c : bool) (s : kstate) (sp : nat -> spc) (wp : nat -> wpc) : st :=
  mk_st c (holder (k_locks s l)) (holder (k_locks s Lk_ptable))
    (fun i => match k_procs s !! i with Some p => state_is SLEEPING p && bool_decide (p_chan p = Some ch) | None => false end) sp wp.
(** Equal but for the extension of the three functions. *)
Record same (x y : st) : Prop := mk_same {
  sm_cond : cond x = cond y; sm_lk : lk x = lk y; sm_pt : pt x = pt y;
  sm_sleeping : forall i, sleeping x i = sleeping y i; sm_sp : forall i, sp x i = sp y i; sm_wp : forall j, wp x j = wp y j }.
Lemma holder_free s lk : unlocked lk s -> holder (k_locks s lk) = None.
Proof. unfold unlocked, holder. by intros ->. Qed.
Lemma holder_held s lk i : held_by lk i s -> holder (k_locks s lk) = Some (by_cpu i).
Proof. unfold held_by, holder. by intros [-> ->]. Qed.

(** A call of [sleep] by the process that has looked at the condition. *)
Lemma sleep_steps c s i ip p sp wp :
  on_cpu s i 1 (Some ip) -> held_by l i s -> unlocked Lk_ptable s -> k_procs s !! ip = Some p ->
  by_cpu i = Sleeper ip -> sp ip = SWant ->
  exists s1 k x, sleep ch (Some l) s = Switch s1 k /\ steps (view c s sp wp) x /\ same x (view c s1 (fupd sp ip SMarked) wp).
Proof.
  intros Hc Hh Hu Hp Hi Hs. destruct (sleep_run s i ip p ch l Hc Hh Hl Hu Hp) as (s1 & k & Hrun & _ & Hh1 & Hu1 & Hd1 & _).
  exists s1, k. eexists. split; [exact Hrun|]. unfold view at 1. rewrite (holder_held s l i Hh), (holder_free s _ Hu). split.
  - eapply steps_step; [by apply (s_ptable _ _ _ _ _ ip)|]. eapply steps_step; [apply (s_unlock _ _ _ _ _ _ ip); apply fupd_same|].
    eapply steps_step; [apply (s_mark _ _ _ _ _ _ ip); apply fupd_same|]. apply steps_refl.
  - split; simpl; try done.
    + by rewrite holder_free.
    + by rewrite (holder_held s1 _ i), Hi.
    + intros j. rewrite (Hd1 _ k_procs) by eauto with frame. simpl. at_party j ip.
      * rewrite list_lookup_insert_eq by (by eapply lookup_lt_Some). unfold state_is; simpl. by rewrite !bool_decide_eq_true_2.
      * by rewrite list_lookup_insert_ne.
    + intros j. at_party j ip; [by rewrite fupd_same|by rewrite !fupd_other].
Qed.

(** A call of [wakeup] by a processor that has set the condition. *)
Lemma wakeup_steps c s i d q j sp wp :
  table_size s -> on_cpu s i d q -> 0 <= d -> unlocked Lk_ptable s -> by_cpu i = Waker j -> wp j = WSet ->
  exists s' x, wakeup ch s = Ret tt s' /\ steps (view c s sp wp) x /\ same x (view c s' sp (fupd wp j WLeave)).
Proof.
  intros Ht Hc Hn Hu Hi Hw. destruct (wakeup_run ch s i d q Ht Hc Hu Hn) as (s' & Hrun & _ & Hu' & Hl' & Hd).
  exists s'. eexists. split; [exact Hrun|]. unfold view at 1. rewrite (holder_free s _ Hu). split.
  - eapply steps_step; [by apply (w_ptable _ _ _ _ _ j)|]. eapply steps_step; [apply (w_wakeup1 _ _ _ _ _ _ j); apply fupd_same|].
    eapply steps_step; [apply (w_unptable _ _ _ _ _ _ j); apply fupd_same|]. apply steps_refl.
  - split; simpl; try done.
    + by rewrite Hl'.
    + by rewrite holder_free.
    + intros k. rewrite (Hd _ k_procs) by eauto with frame. simpl. rewrite list_lookup_fmap. destruct (k_procs s !! k) as [p|]; [|done]. simpl.
      unfold wake_one. destruct (state_is SLEEPING p && bool_decide (p_chan p = Some ch)) eqn:E; [done|by rewrite E].
    + intros k. at_party k j; [by rewrite fupd_same|by rewrite !fupd_other].
Qed.
End View.
End Wake.
