(* ===== verification/Sleeplock.v ===== *)
(** * Sleep locks

    [sleeplock.c].  A sleep lock is identified by the structure it lives in
    ([slid]); its inner spin lock is [Lk_sleep]. *)

From S2P Require Import Prelude Mmu Mem State Spinlock Printk Critical Kalloc Vm Sched.

Definition upd_slock (l : slid) (f : sleeplock -> sleeplock) : K unit :=
  modify (fun s => set_k_slocks (fupd (k_slocks s) l (f (k_slocks s l))) s).
Definition get_slock (l : slid) : K sleeplock := gets (fun s => k_slocks s l).

Definition initsleeplock (l : slid) (name : string) : K unit :=
  initlock (Lk_sleep l) "sleep lock" ;;
  upd_slock l (fun x => mk_sleeplock (sl_locked x) name (sl_pid x)) ;;
  upd_slock l (fun x => mk_sleeplock 0 (sl_name x) (sl_pid x)) ;;
  upd_slock l (fun x => mk_sleeplock (sl_locked x) (sl_name x) 0).

(** [myproc()->pid]: a fault when no process runs. *)
Definition mypid : K Z := op <- myproc ;; ip <- deref op ;; p <- get_proc ip ;; ret (p_pid p).

Fixpoint acquiresleep_loop (fuel : nat) (l : slid) : K unit :=
  x <- get_slock l ;;
  if truth (sl_locked x) then
    match fuel with
    | O => nofuel
    | S f => sleep (Ch_sleeplock l) (Some (Lk_sleep l)) ;; acquiresleep_loop f l
    end
  else ret tt.
Definition acquiresleep (l : slid) : K unit :=
  acquire (Lk_sleep l) ;;
  w <- gets k_wait ;; acquiresleep_loop w l ;;
  upd_slock l (fun x => mk_sleeplock 1 (sl_name x) (sl_pid x)) ;;
  pid <- mypid ;;
  upd_slock l (fun x => mk_sleeplock (sl_locked x) (sl_name x) pid) ;;
  release (Lk_sleep l).

Definition releasesleep (l : slid) : K unit :=
  acquire (Lk_sleep l) ;;
  upd_slock l (fun x => mk_sleeplock 0 (sl_name x) (sl_pid x)) ;;
  upd_slock l (fun x => mk_sleeplock (sl_locked x) (sl_name x) 0) ;;
  wakeup (Ch_sleeplock l) ;;
  release (Lk_sleep l).

Definition holdingsleep (l : slid) : K bool :=
  acquire (Lk_sleep l) ;;
  x <- get_slock l ;;
  r <- (if truth (sl_locked x) then pid <- mypid ;; ret (sl_pid x =? pid) else ret false) ;;
  release (Lk_sleep l) ;;
  ret r.

(* ------------------------------------------------------------------ *)
(** ** Behaviour *)

#[export] Instance same_data_slocks : Proper (eq ==> same_data ==> same_data) set_k_slocks.
Proof. same_data_tac. Qed.

(** A process [ip] with record [p] runs on processor [i] at depth [n], and no
    lock below [lk] is held by anybody: neither [lk] nor the table's lock. *)
Record thread (s : kstate) (i : nat) (n : Z) (ip : nat) (p : proc) : Prop := mk_thread {
  th_cpu : on_cpu s i n (Some ip);
  th_depth : 0 <= n;
  th_proc : k_procs s !! ip = Some p;
  th_table : table_size s;
  th_ptable : unlocked Lk_ptable s }.

Lemma thread_ext s s' i n ip p :
  thread s i n ip p -> on_cpu s' i n (Some ip) -> k_procs s' = k_procs s ->
  k_locks s' Lk_ptable = k_locks s Lk_ptable -> thread s' i n ip p.
Proof. intros [H1 H2 H3 H4 H5] Hc Ep El. split; unfold table_size, unlocked in *; rewrite ?Ep, ?El; done. Qed.

(** *** Waiting under a lock

    Process [ip], with record [p], is on processor [j] and holds the spin lock [lk]
    only; since [s0], where it began or was resumed, nothing but its own record has
    changed. *)
Record inside (lk : lockid) (ip : nat) (s0 : kstate) (j : nat) (p : proc) (s : kstate) : Prop := mk_inside {
  in_cpu : on_cpu s j 1 (Some ip);
  in_held : held_by lk j s;
  in_ptable : unlocked Lk_ptable s;
  in_proc : k_procs s !! ip = Some p;
  in_table : table_size s;
  in_data : same_data (set_k_procs (<[ip := p]> (k_procs s0)) s0) s }.
(** The scheduler resumes process [ip] on some processor, with the table's lock held;
    the lock it slept with is free.  It is the process that was handed over in [s];
    the rest of the machine may have done anything. *)
Definition resumed (lk : lockid) (ip : nat) (s t : kstate) : Prop :=
  exists j p, on_cpu t j 1 (Some ip) /\ held_by Lk_ptable j t /\ unlocked lk t /\ table_size t /\
    k_procs t !! ip = Some p /\ p_state p = RUNNING /\ p_pid <$> k_procs s !! ip = Some (p_pid p).
(** It sleeps on [ch], and [lk] is free. *)
Definition sleeps (ch : chan) (lk : lockid) (ip : nat) (s0 s : kstate) : Prop :=
  unlocked lk s /\ (exists j, held_by Lk_ptable j s) /\
  exists p, p_pid <$> k_procs s0 !! ip = Some (p_pid p) /\ same_data (set_k_procs (<[ip := asleep ch p]> (k_procs s0)) s0) s.

Lemma inside_enter s i ip p lk : thread s i 0 ip p -> unlocked lk s -> lk <> Lk_ptable ->
  exists s', acquire lk s = Ret tt s' /\ inside lk ip s i p s'.
Proof.
  intros [Hc Hn Hp Ht Hpt] Hu Hne. destruct (acquire_cpu s i 0 (Some ip) lk Hc Hu) as (s1 & Ha & Hc1 & Hh1 & Hl1 & Hd1).
  exists s1. split; [done|]. assert (k_procs s1 = k_procs s) as Ep by (apply Hd1; eauto with frame).
  split; try done; [unfold unlocked; by rewrite Hl1|by rewrite Ep|unfold table_size; by rewrite Ep|].
  rewrite list_insert_id by done. by rewrite set_k_procs_id.
Qed.
Lemma inside_sleep lk ip s0 j p s ch : inside lk ip s0 j p s -> lk <> Lk_ptable -> p_pid <$> k_procs s0 !! ip = Some (p_pid p) ->
  exists s1 k, sleep ch (Some lk) s = Switch s1 k /\ sleeps ch lk ip s0 s1 /\ p_pid <$> k_procs s1 !! ip = Some (p_pid p) /\
    forall t, resumed lk ip s1 t -> exists j' p' t', k t = Ret tt t' /\ inside lk ip t j' p' t' /\
      p_pid <$> k_procs t !! ip = Some (p_pid p') /\ p_pid p' = p_pid p /\ p_state p' = RUNNING /\ set_p_chan None <$> k_procs t !! ip = Some p'.
Proof.
  intros [H1 H2 H3 H4 H5 H6] Hne Hpid. destruct (sleep_run s j ip p ch lk H1 H2 Hne H3 H4) as (s1 & k & Hs & Hc1 & Hh1 & Hu1 & Hd1 & Hk).
  assert (ip < length (k_procs s0))%nat as Hlt by (destruct (k_procs s0 !! ip) eqn:E; [by eapply lookup_lt_Some|done]).
  assert (same_data (set_k_procs (<[ip:=asleep ch p]> (k_procs s0)) s0) s1) as Hd.
  { transitivity (set_k_procs (<[ip:=asleep ch p]> (k_procs s)) s); [|done]. rewrite (H6 _ k_procs) by eauto with frame.
    cbn [k_procs set_k_procs]. rewrite list_insert_insert_eq. by apply (same_data_procs _ _ eq_refl (set_k_procs (<[ip:=p]> (k_procs s0)) s0) s). }
  assert (p_pid <$> k_procs s1 !! ip = Some (p_pid p)) as Hp1.
  { rewrite (Hd _ k_procs) by eauto with frame. simpl. by rewrite list_lookup_insert_eq. }
  exists s1, k. split; [done|]. split; [|split; [done|]].
  - split; [done|]. split; [by exists j|]. by exists p.
  - intros t (j' & p' & Hct & Hht & Hut & Htt & Hpt & Hst & Hpid').
    destruct (Hk t j' (Some ip) p' Hct Hht Hut Hpt) as (t' & Hrun & Hc' & Hh' & Hu' & Hd').
    assert (ip < length (k_procs t))%nat as Hlt' by (by eapply lookup_lt_Some).
    assert (k_procs t' = <[ip:=set_p_chan None p']> (k_procs t)) as Ep' by (apply (Hd' _ k_procs); eauto with frame).
    exists j', (set_p_chan None p'), t'. split; [done|]. split; [|split; [by rewrite Hpt|split; [simpl; congruence|split; [done|by rewrite Hpt]]]].
    split; try done; [rewrite Ep'; by apply list_lookup_insert_eq|unfold table_size; by rewrite Ep', length_insert].
Qed.

Lemma mypid_run s i n ip p :
  on_cpu s i n (Some ip) -> 0 < n -> k_procs s !! ip = Some p -> mypid s = Ret (p_pid p) s.
Proof.
  intros Hc Hn Hp. destruct (myproc_cpu s i n (Some ip) Hc) as (s' & Hm & _ & _ & _ & E). rewrite (E Hn) in Hm.
  unfold mypid. run Hm. rstep. run (get_proc_ok s ip p Hp). done.
Qed.

(** Locking discipline of the inner lock: [lk] is free and so is the table's. *)
Lemma section_thread s i n ip p lk s1 :
  thread s i n ip p -> lk <> Lk_ptable ->
  on_cpu s1 i (n + 1) (Some ip) -> same_locks lk s s1 -> k_procs s1 = k_procs s ->
  thread s1 i (n + 1) ip p.
Proof.
  intros [H1 H2 H3 H4 H5] Hne Hc Hl Ep. split; unfold table_size, unlocked in *; rewrite ?Ep; try done; [lia|].
  by rewrite Hl.
Qed.

Definition taken (x : sleeplock) (pid : Z) : sleeplock := mk_sleeplock 1 (sl_name x) pid.
Definition freed (x : sleeplock) : sleeplock := mk_sleeplock 0 (sl_name x) 0.

(** The end of [acquiresleep], inner lock held and the sleep lock free. *)
Definition take_slock (l : slid) : K unit :=
  upd_slock l (fun x => mk_sleeplock 1 (sl_name x) (sl_pid x)) ;;
  pid <- mypid ;;
  upd_slock l (fun x => mk_sleeplock (sl_locked x) (sl_name x) pid) ;;
  release (Lk_sleep l).

Lemma set_slocks_twice l f g s :
  set_k_slocks (fupd (k_slocks (set_k_slocks (fupd (k_slocks s) l (f (k_slocks s l))) s)) l
    (g (k_slocks (set_k_slocks (fupd (k_slocks s) l (f (k_slocks s l))) s) l)))
    (set_k_slocks (fupd (k_slocks s) l (f (k_slocks s l))) s) =
  set_k_slocks (fupd (fupd (k_slocks s) l (f (k_slocks s l))) l (g (f (k_slocks s l)))) s.
Proof. simpl. by rewrite fupd_same. Qed.

(** A store at [l], whatever was stored there before. *)
Definition slock_set (s : kstate) (l : slid) (x : sleeplock) (s' : kstate) : Prop :=
  exists f, (forall l', f l' = if decide (l' = l) then x else k_slocks s l') /\ same_data (set_k_slocks f s) s'.

Lemma take_slock_run s i n ip p l :
  on_cpu s i (n + 1) (Some ip) -> 0 <= n -> held_by (Lk_sleep l) i s -> k_procs s !! ip = Some p ->
  exists s', take_slock l s = Ret tt s' /\ on_cpu s' i n (Some ip) /\ unlocked (Lk_sleep l) s' /\
    same_locks (Lk_sleep l) s s' /\ slock_set s l (taken (k_slocks s l) (p_pid p)) s'.
Proof.
  intros Hc Hn Hh Hp. unfold take_slock, upd_slock. rstep.
  erewrite bind_Ret; [|apply (mypid_run _ i (n + 1) ip p); [by apply (on_cpu_ext s)|lia|done]]. cbv beta.
  rstep.
  match goal with |- exists s', release _ ?x = _ /\ _ => set (s2 := x) end.
  destruct (release_cpu s2 i (n + 1) (Some ip) (Lk_sleep l)) as (s3 & Hr & Hc3 & Hu3 & Hl3 & Hd3);
    [by apply (on_cpu_ext s)|lia|done|].
  exists s3. split; [done|]. split; [by replace n with (n + 1 - 1) by lia|]. split; [done|]. split; [done|].
  exists (k_slocks s2). split; [|done].
  intros l'. unfold s2; simpl. unfold fupd. repeat destruct (decide _); done.
Qed.

Lemma slock_set_data s s1 l x s' : same_data s s1 -> slock_set s1 l x s' -> slock_set s l x s'.
Proof.
  intros Hd (f & Hf & Hs). exists f. split.
  - intros l'. rewrite Hf. by rewrite (Hd _ k_slocks) by eauto with frame.
  - transitivity (set_k_slocks f s1); [|done]. by apply same_data_slocks.
Qed.

Lemma acquiresleep_loop_free w l s :
  sl_locked (k_slocks s l) = 0 -> acquiresleep_loop w l s = Ret tt s.
Proof. intros H. destruct w; simpl; unfold get_slock; rstep; by rewrite H. Qed.

Lemma acquiresleep_run s i n ip p l :
  thread s i n ip p -> unlocked (Lk_sleep l) s -> sl_locked (k_slocks s l) = 0 ->
  exists s', acquiresleep l s = Ret tt s' /\ thread s' i n ip p /\ unlocked (Lk_sleep l) s' /\
    same_locks (Lk_sleep l) s s' /\ slock_set s l (taken (k_slocks s l) (p_pid p)) s'.
Proof.
  intros HT Hu Hl. pose proof HT as [Hc Hn Hp Ht Hpt].
  destruct (acquire_cpu s i n (Some ip) (Lk_sleep l) Hc Hu) as (s1 & Ha & Hc1 & Hh1 & Hl1 & Hd1).
  assert (k_slocks s1 = k_slocks s) as Es by (apply Hd1; eauto with frame).
  assert (k_procs s1 = k_procs s) as Ep by (apply Hd1; eauto with frame).
  destruct (take_slock_run s1 i n ip p l) as (s2 & Hr & Hc2 & Hu2 & Hl2 & Hs2); [done|done|done|by rewrite Ep|].
  exists s2. unfold acquiresleep. run Ha. rstep.
  erewrite bind_Ret; [|apply acquiresleep_loop_free; by rewrite Es]. cbv beta.
  rewrite Es in Hs2. pose proof (slock_set_data s s1 l _ s2 Hd1 Hs2) as Hs3.
  assert (same_locks (Lk_sleep l) s s2) as Hls by (intros lk Hlk; rewrite (Hl2 lk Hlk); by apply Hl1).
  split; [exact Hr|]. split; [|done].
  apply (thread_ext s); [done|done| |by apply Hls]. destruct Hs3 as (f & _ & Hd). rewrite (Hd _ k_procs) by eauto with frame. done.
Qed.

Lemma releasesleep_run s i n ip p l :
  thread s i n ip p -> unlocked (Lk_sleep l) s -> p_state p <> SLEEPING ->
  exists s', releasesleep l s = Ret tt s' /\ thread s' i n ip p /\ unlocked (Lk_sleep l) s' /\
    (forall lk, lk <> Lk_sleep l -> lk <> Lk_ptable -> k_locks s' lk = k_locks s lk) /\
    slock_set (set_k_procs (wake_one (Ch_sleeplock l) <$> k_procs s) s) l (freed (k_slocks s l)) s'.
Proof.
  intros HT Hu Hst. pose proof HT as [Hc Hn Hp Ht Hpt].
  destruct (acquire_cpu s i n (Some ip) (Lk_sleep l) Hc Hu) as (s1 & Ha & Hc1 & Hh1 & Hl1 & Hd1).
  assert (k_slocks s1 = k_slocks s) as Es by (apply Hd1; eauto with frame).
  assert (k_procs s1 = k_procs s) as Ep by (apply Hd1; eauto with frame).
  set (f := fupd (fupd (k_slocks s) l (mk_sleeplock 0 (sl_name (k_slocks s l)) (sl_pid (k_slocks s l)))) l (freed (k_slocks s l))).
  set (s2 := set_k_slocks f s1).
  destruct (wakeup_run (Ch_sleeplock l) s2 i (n + 1) (Some ip)) as (s3 & Hw & Hc3 & Hu3 & Hl3 & Hd3).
  { unfold table_size; simpl. by rewrite Ep. } { by apply (on_cpu_ext s1). }
  { unfold unlocked; simpl. by rewrite Hl1. } { lia. }
  destruct (release_cpu s3 i (n + 1) (Some ip) (Lk_sleep l)) as (s4 & Hr & Hc4 & Hu4 & Hl4 & Hd4); [done|lia| |].
  { unfold held_by. by rewrite Hl3. }
  exists s4.
  assert (same_data (set_k_slocks f (set_k_procs (wake_one (Ch_sleeplock l) <$> k_procs s) s)) s4) as Hd.
  { transitivity s3; [|done]. transitivity (set_k_procs (wake_one (Ch_sleeplock l) <$> k_procs s2) s2); [|done].
    simpl. rewrite Ep. change (same_data (set_k_slocks f (set_k_procs (wake_one (Ch_sleeplock l) <$> k_procs s) s))
      (set_k_slocks f (set_k_procs (wake_one (Ch_sleeplock l) <$> k_procs s) s1))).
    apply same_data_slocks; [done|]. by apply same_data_procs. }
  split.
  { unfold releasesleep. run Ha. unfold upd_slock. rstep. rstep.
    match goal with |- bind (wakeup _) _ ?x = _ => assert (x = s2) as -> end; [|by run Hw].
    unfold s2, f, set_k_slocks, freed; simpl. by rewrite Es, fupd_same. }
  assert (k_procs s4 = wake_one (Ch_sleeplock l) <$> k_procs s) as Ep4 by (apply (Hd _ k_procs); eauto with frame).
  split; [split|split; [done|split]].
  - by replace n with (n + 1 - 1) by lia.
  - done.
  - rewrite Ep4, list_lookup_fmap, Hp. simpl. f_equal. unfold wake_one, state_is. by rewrite bool_decide_eq_false_2.
  - unfold table_size in *. by rewrite Ep4, length_fmap.
  - unfold unlocked. by rewrite Hl4.
  - intros lk H1 H2. rewrite Hl4, Hl3 by done. simpl. by apply Hl1.
  - exists f. split; [|done]. intros l'. unfold f, fupd; simpl. repeat destruct (decide _); done.
Qed.

Lemma holdingsleep_run s i n ip p l :
  thread s i n ip p -> unlocked (Lk_sleep l) s ->
  exists s', holdingsleep l s = Ret (truth (sl_locked (k_slocks s l)) && (sl_pid (k_slocks s l) =? p_pid p)) s' /\
    thread s' i n ip p /\ unlocked (Lk_sleep l) s' /\ same_locks (Lk_sleep l) s s' /\ same_data s s'.
Proof.
  intros HT Hu. pose proof HT as [Hc Hn Hp Ht Hpt].
  destruct (acquire_cpu s i n (Some ip) (Lk_sleep l) Hc Hu) as (s1 & Ha & Hc1 & Hh1 & Hl1 & Hd1).
  destruct (release_cpu s1 i (n + 1) (Some ip) (Lk_sleep l)) as (s2 & Hr & Hc2 & Hu2 & Hl2 & Hd2); [done|lia|done|].
  assert (k_slocks s1 = k_slocks s) as Es by (apply Hd1; eauto with frame).
  assert (k_procs s1 = k_procs s) as Ep by (apply Hd1; eauto with frame).
  assert (same_data s s2) as Hd by (by transitivity s1).
  assert (same_locks (Lk_sleep l) s s2) as Hl by (intros lk Hlk; rewrite (Hl2 lk Hlk); by apply Hl1).
  exists s2. split.
  - unfold holdingsleep. run Ha. unfold get_slock. rstep. rewrite Es.
    destruct (truth (sl_locked (k_slocks s l))); [|by rstep; run Hr].
    erewrite bind_Ret; [by run Hr|]. erewrite bind_Ret; [|apply (mypid_run s1 i (n + 1) ip p); [done|lia|by rewrite Ep]]. done.
  - split; [|done]. apply (thread_ext s); [done|by replace n with (n + 1 - 1) by lia| |by apply Hl].
    apply Hd. eauto with frame.
Qed.

Lemma slock_set_same s l x s' : slock_set s l x s' -> k_slocks s' l = x.
Proof.
  intros (f & Hf & Hd). rewrite (Hd _ k_slocks) by eauto with frame. simpl. rewrite Hf. by destruct (decide (l = l)).
Qed.

(** [acquiresleep] when it last looked at the lock, in [s0]: it was taken, and the
    process sleeps; or it was free, and now belongs to the process. *)
Definition found_taken (l : slid) (ip : nat) (_ : unit) (s0 s : kstate) (_ : unit) : Prop :=
  sl_locked (k_slocks s0 l) <> 0 /\ sleeps (Ch_sleeplock l) (Lk_sleep l) ip s0 s.
Definition found_free (l : slid) (ip : nat) (pid : Z) (_ : unit) (s0 : kstate) (_ : unit) (s : kstate) : Prop :=
  sl_locked (k_slocks s0 l) = 0 /\ unlocked (Lk_sleep l) s /\ unlocked Lk_ptable s /\ (exists j, on_cpu s j 0 (Some ip)) /\
  exists p, p_pid p = pid /\ slock_set (set_k_procs (<[ip := p]> (k_procs s0)) s0) l (taken (k_slocks s0 l) pid) s.

Lemma acquiresleep_loop_waits l ip pid : forall w n s0 j p s, (n < w)%nat -> inside (Lk_sleep l) ip s0 j p s ->
  p_pid <$> k_procs s0 !! ip = Some (p_pid p) -> p_pid p = pid ->
  waits (found_taken l ip) (resumed (Lk_sleep l) ip)
    (fun _ s0 _ s => exists j p, p_pid p = pid /\ inside (Lk_sleep l) ip s0 j p s /\ sl_locked (k_slocks s0 l) = 0) n tt s0
    (acquiresleep_loop w l s).
Proof.
  induction w as [|w IH]; intros n s0 j p s Hn HI Hpid Hp; [lia|]. cbn [acquiresleep_loop]. unfold bind at 1, get_slock, gets. cbn [obind].
  assert (k_slocks s = k_slocks s0) as Es by (apply (in_data _ _ _ _ _ _ HI _ k_slocks); eauto with frame). rewrite Es.
  destruct (truth (sl_locked (k_slocks s0 l))) eqn:E; [|apply truth_false in E; simpl; by exists j, p]. apply truth_true in E.
  destruct (inside_sleep _ _ _ _ _ _ (Ch_sleeplock l) HI) as (s1 & k & Hs & Hsl & Hp1 & Hk); [done|done|].
  rewrite (bind_Switch _ _ _ _ _ Hs). exists tt. split; [by split|]. destruct n as [|n]; [done|]. intros t Ht.
  destruct (Hk t Ht) as (j' & p' & t' & Hrun & HI' & Hpid' & Ep & _). rewrite Hrun. cbn [obind]. eapply IH; [lia|exact HI'|done|congruence].
Qed.
Lemma acquiresleep_waits s i ip p l n : thread s i 0 ip p -> unlocked (Lk_sleep l) s -> (n < k_wait s)%nat ->
  waits (found_taken l ip) (resumed (Lk_sleep l) ip) (found_free l ip (p_pid p)) n tt s (acquiresleep l s).
Proof.
  intros HT Hu Hn. destruct (inside_enter s i ip p (Lk_sleep l) HT Hu) as (s1 & Ha & HI); [done|].
  unfold acquiresleep. run Ha. rstep. rewrite (in_data _ _ _ _ _ _ HI _ k_wait) by eauto with frame.
  unfold bind at 1. eapply waits_obind; [apply (acquiresleep_loop_waits l ip (p_pid p) _ n s i p s1 Hn HI); [by rewrite (th_proc _ _ _ _ _ HT)|done]|].
  intros n' [] t [] s2 _ (j & q & Hq & HI2 & Hfree). destruct HI2 as [H1 H2 H3 H4 H5 H6].
  destruct (take_slock_run s2 j 0 ip q l H1 ltac:(lia) H2 H4) as (s3 & Hr & Hc3 & Hu3 & Hl3 & Hs3).
  change (waits (found_taken l ip) (resumed (Lk_sleep l) ip) (found_free l ip (p_pid p)) n' tt t (take_slock l s2)). rewrite Hr.
  assert (k_slocks s2 = k_slocks t) as Es by (apply (H6 _ k_slocks); eauto with frame). rewrite Es, Hq in Hs3.
  split; [done|]. split; [done|]. split; [unfold unlocked; by rewrite Hl3|]. split; [by exists j|]. exists q. split; [done|].
  by eapply slock_set_data.
Qed.

(** C39: a sleep lock belongs to one process.  [acquiresleep] takes the lock only when
    it finds it free: whenever it finds it taken, at first and each time it is
    resumed, in whatever state the lock is then, it leaves the lock as it is and goes
    to sleep on it with the inner lock released, and when it returns the lock was free
    in the state it was last resumed in and now carries the pid of the process.  A free
    lock is taken at once, at any depth; then [holdingsleep] answers yes to the owner,
    and it answers no to every other process; [releasesleep] frees the lock and makes
    exactly the processes that wait for it runnable. *)
Theorem sleeplock_owner s i n ip p l :
  thread s i n ip p -> p_state p <> SLEEPING -> unlocked (Lk_sleep l) s ->
  (n = 0 -> forall m, (m < k_wait s)%nat ->
     waits (found_taken l ip) (resumed (Lk_sleep l) ip) (found_free l ip (p_pid p)) m tt s (acquiresleep l s)) /\
  (sl_locked (k_slocks s l) = 0 ->
     exists s', (acquiresleep l ;; holdingsleep l) s = Ret true s' /\ thread s' i n ip p /\
       k_slocks s' l = taken (k_slocks s l) (p_pid p)) /\
  (forall pid, k_slocks s l = taken (k_slocks s l) pid ->
     exists s', holdingsleep l s = Ret (pid =? p_pid p) s' /\ same_data s s') /\
  (exists s', (releasesleep l ;; holdingsleep l) s = Ret false s' /\ thread s' i n ip p /\
     sl_locked (k_slocks s' l) = 0 /\ k_procs s' = wake_one (Ch_sleeplock l) <$> k_procs s).
Proof.
  intros HT Hst Hu. split; [|split; [|split]].
  - intros -> m Hm. by apply (acquiresleep_waits s i).
  - intros H0. destruct (acquiresleep_run s i n ip p l HT Hu H0) as (s1 & Ha & HT1 & Hu1 & _ & Hs1).
    destruct (holdingsleep_run s1 i n ip p l HT1 Hu1) as (s2 & Hh & HT2 & _ & _ & Hd2).
    rewrite (slock_set_same _ _ _ _ Hs1) in Hh. exists s2. run Ha.
    split; [rewrite Hh; simpl; by rewrite Z.eqb_refl|]. split; [done|].
    rewrite (Hd2 _ k_slocks) by eauto with frame. by eapply slock_set_same.
  - intros pid Hp. destruct (holdingsleep_run s i n ip p l HT Hu) as (s1 & Hh & _ & _ & _ & Hd).
    exists s1. rewrite Hh, Hp. done.
  - destruct (releasesleep_run s i n ip p l HT Hu Hst) as (s1 & Hr & HT1 & Hu1 & _ & Hs1).
    destruct (holdingsleep_run s1 i n ip p l HT1 Hu1) as (s2 & Hh & HT2 & _ & _ & Hd2).
    rewrite (slock_set_same _ _ _ _ Hs1) in Hh. exists s2. run Hr. split; [done|]. split; [done|].
    rewrite (Hd2 _ k_slocks), (Hd2 _ k_procs), (slock_set_same _ _ _ _ Hs1) by eauto with frame. split; [done|].
    destruct Hs1 as (f & _ & Hd1). by rewrite (Hd1 _ k_procs) by eauto with frame.
Qed.

(** The processor of [one_running] outside any critical section. *)
Definition thread_state : kstate := set_k_cpus [set_c_proc (Some 0%nat) (cpu0 0)] one_and_pages.
Lemma thread_state_ok : thread thread_state 0 0 0 (set_p_state RUNNING (set_p_pid 1 proc0)).
Proof. split; try done. exists (set_c_proc (Some 0%nat) (cpu0 0)). by repeat split. Qed.

(** Another process owns the lock of buffer 3. *)
Definition owned_elsewhere : kstate := set_k_slocks (fupd (k_slocks boot) (Sl_buf 3) (mk_sleeplock 1 "buffer" 7)) thread_state.
Lemma sleeplock_owner_witness :
  (exists s', (acquiresleep (Sl_buf 3) ;; holdingsleep (Sl_buf 3)) thread_state = Ret true s' /\ sl_pid (k_slocks s' (Sl_buf 3)) = 1) /\
  waits (found_taken (Sl_buf 3) 0) (resumed (Lk_sleep (Sl_buf 3)) 0) (found_free (Sl_buf 3) 0 1) 2 tt owned_elsewhere (acquiresleep (Sl_buf 3) owned_elsewhere).
Proof.
  assert (thread owned_elsewhere 0 0 0 (set_p_state RUNNING (set_p_pid 1 proc0))) as HT.
  { apply (thread_ext thread_state); [apply thread_state_ok| |done|done].
    apply (on_cpu_ext thread_state); try done. apply thread_state_ok. }
  split.
  - destruct (sleeplock_owner thread_state 0 0 0 _ (Sl_buf 3) thread_state_ok) as (_ & H & _); [done|done|].
    destruct (H eq_refl) as (s' & H1 & _ & H2). exists s'. rewrite H2. exact (conj H1 eq_refl).
  - destruct (sleeplock_owner owned_elsewhere 0 0 0 _ (Sl_buf 3) HT) as (H & _); [done|done|].
    exact (H eq_refl 2%nat ltac:(simpl; lia)).
Defined.
