(* ===== verification/Disk.v ===== *)
(** * Devices and the disk driver

    [x86.h]: port instructions; [picirq.c]; [ioapic.c]; the two implementations
    of the disk driver, [ide.c] and [memide.c], as instances of the interface
    [DiskDriver] that the buffer cache uses.

    The IDE controller is modelled by what its ports do: a command written to
    0x1f7 addresses the sector composed from the bytes last written to 0x1f3,
    0x1f4, 0x1f5 and the low half of 0x1f6, on the disk selected by bit 4 of
    0x1f6; a read command fetches that sector for [insl], a write command lets
    [outsl] replace it.  Its status register does not change while the kernel
    polls it. *)

From S2P Require Import Prelude Mmu Mem State Spinlock Printk Critical Kalloc Vm Sched Sleeplock.

(** [traps.h] *)
Definition T_PGFLT : Z := 14.
Definition T_SYSCALL : Z := 64.
Definition T_IRQ0 : Z := 32.
Definition IRQ_TIMER : Z := 0.
Definition IRQ_KBD : Z := 1.
Definition IRQ_COM1 : Z := 4.
Definition IRQ_IDE : Z := 14.
Definition IRQ_ERROR : Z := 19.
Definition IRQ_SPURIOUS : Z := 31.

(** ** Ports *)
Definition IDE_CMD_READ : Z := 0x20.
Definition IDE_CMD_WRITE : Z := 0x30.
Definition IDE_BSY : Z := 0x80.
Definition IDE_DRDY : Z := 0x40.
Definition IDE_DF : Z := 0x20.
Definition IDE_ERR : Z := 0x01.

(** The sector and the disk the controller's registers select. *)
Definition ide_sector (h : hardware) : Z :=
  let p := hw_ports h in
  p 0x1f3 + 2 ^ 8 * p 0x1f4 + 2 ^ 16 * p 0x1f5 + 2 ^ 24 * Z.land (p 0x1f6) 0xf.
Definition ide_dev (h : hardware) : bool := Z.testbit (hw_ports h 0x1f6) 4.
Definition ide_block (h : hardware) : list Z :=
  (if ide_dev h then hw_disk h else hw_disk0 h) (ide_sector h).
Definition set_ide_block (d : list Z) (h : hardware) : hardware :=
  if ide_dev h then set_hw_disk (fupd (hw_disk h) (ide_sector h) d) h
  else set_hw_disk0 (fupd (hw_disk0 h) (ide_sector h) d) h.

Definition outb_hw (port v : Z) (h : hardware) : hardware :=
  let h := set_hw_ports (fupd (hw_ports h) port (u8 v)) h in
  if (port =? 0x1f7) && (u8 v =? IDE_CMD_READ) then set_hw_latch (ide_block h) h else h.
Definition outb (port v : Z) : K unit := upd_hw (outb_hw port v).
Definition inb_ide_status : K Z := gets (fun s => hw_idests (k_hw s)).
(** [insl(0x1f0, ..., BSIZE/4)] and [outsl(0x1f0, ..., BSIZE/4)]. *)
Definition insl_ide : K (list Z) := gets (fun s => hw_latch (k_hw s)).
Definition outsl_ide (d : list Z) : K unit := upd_hw (set_ide_block d).

(** ** [picirq.c] *)
Definition IO_PIC1 : Z := 0x20.
Definition IO_PIC2 : Z := 0xA0.
Definition picinit : K unit := outb (IO_PIC1 + 1) 0xFF ;; outb (IO_PIC2 + 1) 0xFF.

(** ** [ioapic.c] *)
Definition REG_ID : Z := 0x00.
Definition REG_VER : Z := 0x01.
Definition REG_TABLE : Z := 0x10.
Definition INT_DISABLED : Z := 0x00010000.
Definition ioapicread (reg : Z) : K Z := gets (fun s => hw_ioapic (k_hw s) reg).
Definition ioapicwrite (reg data : Z) : K unit :=
  upd_hw (fun h => set_hw_ioapic (fupd (hw_ioapic h) reg (u32 data)) h).
Definition ioapicinit : K unit :=
  ver <- ioapicread REG_VER ;;
  let maxintr := Z.land (Z.shiftr ver 16) 0xFF in
  idr <- ioapicread REG_ID ;;
  let id := Z.shiftr idr 24 in
  myid <- gets k_ioapicid ;;
  (if negb (id =? myid) then cprintf (bytes "ioapicinit: id isn't equal to ioapicid; not a MP" ++ [NL]) [] else ret tt) ;;
  iter_list (upto (maxintr + 1)) (fun i =>
    ioapicwrite (REG_TABLE + 2 * Z.of_nat i) (Z.lor INT_DISABLED (T_IRQ0 + Z.of_nat i)) ;;
    ioapicwrite (REG_TABLE + 2 * Z.of_nat i + 1) 0).
Definition ioapicenable (irq cpunum : Z) : K unit :=
  ioapicwrite (REG_TABLE + 2 * irq) (T_IRQ0 + irq) ;;
  ioapicwrite (REG_TABLE + 2 * irq + 1) (Z.shiftl cpunum 24).

(** ** The interface of the disk driver *)
Definition B_VALID : Z := 0x2.
Definition B_DIRTY : Z := 0x4.
Definition flag (b : buf) (m : Z) : bool := has_bits (b_flags b) m.
Definition set_flag (m : Z) (b : buf) : buf := set_b_flags (Z.lor (b_flags b) m) b.
Definition clear_flag (m : Z) (b : buf) : buf := set_b_flags (Z.ldiff (b_flags b) m) b.

Class DiskDriver := {
  ideinit : K unit;
  ideintr : K unit;
  iderw : nat -> K unit }.

(** The checks both drivers begin with. *)
Definition iderw_checks (b : nat) : K unit :=
  h <- holdingsleep (Sl_buf b) ;;
  if negb h then panic "iderw: buf not locked" else
  x <- get_buf b ;;
  if Z.land (b_flags x) (Z.lor B_VALID B_DIRTY) =? B_VALID then panic "iderw: nothing to do" else ret tt.

(** ** [memide.c]: the blocks of disk 1 in memory *)
Module MemIde.

(** [memdisk] is the store [hw_disk]; [disksize] is set from the linked image. *)
Definition ideinit (img_size : Z) : K unit := modify (set_k_disksize (img_size / BSIZE)).
Definition ideintr : K unit := ret tt.
Definition iderw (b : nat) : K unit :=
  iderw_checks b ;;
  x <- get_buf b ;;
  if negb (b_dev x =? 1) then panic "iderw: request not for disk 1" else
  size <- gets k_disksize ;;
  if size <=? b_blockno x then panic "iderw: block out of range" else
  (if flag x B_DIRTY then
     upd_buf b (clear_flag B_DIRTY) ;;
     x <- get_buf b ;;
     upd_hw (fun h => set_hw_disk (fupd (hw_disk h) (b_blockno x) (b_data x)) h)
   else
     d <- gets (fun s => hw_disk (k_hw s) (b_blockno x)) ;;
     upd_buf b (set_b_data d)) ;;
  upd_buf b (set_flag B_VALID).

End MemIde.

(** ** [ide.c] *)
Module Ide.

Definition idewait (checkerr : bool) : K Z :=
  r <- inb_ide_status ;;
  if negb (Z.land r (Z.lor IDE_BSY IDE_DRDY) =? IDE_DRDY) then spin else
  if checkerr && has_bits r (Z.lor IDE_DF IDE_ERR) then ret (-1) else ret 0.

Definition ideinit : K unit :=
  initlock Lk_ide "ide" ;;
  n <- gets k_ncpu ;;
  ioapicenable IRQ_IDE (n - 1) ;;
  idewait false ;;
  outb 0x1f6 (Z.lor 0xe0 (Z.shiftl 1 4)) ;;
  r <- inb_ide_status ;;
  when (truth r) (modify (set_k_havedisk1 1)) ;;
  outb 0x1f6 (Z.lor 0xe0 (Z.shiftl 0 4)).

Definition SECTOR_SIZE : Z := 512.
Definition idestart (ob : option nat) : K unit :=
  match ob with
  | None => panic "idestart"
  | Some b =>
      x <- get_buf b ;;
      if FSSIZE <=? b_blockno x then panic "incorrect blockno" else
      let sector_per_block := BSIZE / SECTOR_SIZE in
      let sector := s32 (b_blockno x * sector_per_block) in
      let read_cmd := if sector_per_block =? 1 then IDE_CMD_READ else 0xc4 in
      let write_cmd := if sector_per_block =? 1 then IDE_CMD_WRITE else 0xc5 in
      if 7 <? sector_per_block then panic "idestart" else
      idewait false ;;
      outb 0x3f6 0 ;;
      outb 0x1f2 sector_per_block ;;
      outb 0x1f3 (Z.land sector 0xff) ;;
      outb 0x1f4 (Z.land (Z.shiftr sector 8) 0xff) ;;
      outb 0x1f5 (Z.land (Z.shiftr sector 16) 0xff) ;;
      outb 0x1f6 (Z.lor (Z.lor 0xe0 (Z.shiftl (Z.land (b_dev x) 1) 4)) (Z.land (Z.shiftr sector 24) 0x0f)) ;;
      if flag x B_DIRTY then
        outb 0x1f7 write_cmd ;;
        outsl_ide (b_data x)
      else outb 0x1f7 read_cmd
  end.

Definition ideintr : K unit :=
  acquire Lk_ide ;;
  q <- gets k_idequeue ;;
  match q with
  | None => release Lk_ide
  | Some b =>
      x <- get_buf b ;;
      modify (set_k_idequeue (b_qnext x)) ;;
      (if negb (flag x B_DIRTY) then
         r <- idewait true ;;
         when (0 <=? r) (d <- insl_ide ;; upd_buf b (set_b_data d))
       else ret tt) ;;
      upd_buf b (set_flag B_VALID) ;;
      upd_buf b (clear_flag B_DIRTY) ;;
      wakeup (Ch_buf b) ;;
      q <- gets k_idequeue ;;
      match q with Some _ => idestart q | None => ret tt end ;;
      release Lk_ide
  end.

(** The walk over the [qnext] fields to the end of the queue, from buffer [x] on. *)
Fixpoint append_after (fuel : nat) (x b : nat) : K unit :=
  match fuel with
  | O => nofuel
  | S f =>
      y <- get_buf x ;;
      match b_qnext y with
      | None => upd_buf x (set_b_qnext (Some b))
      | Some z => append_after f z b
      end
  end.
Definition append (b : nat) : K unit :=
  q <- gets k_idequeue ;;
  match q with
  | None => modify (set_k_idequeue (Some b))
  | Some x => append_after (Z.to_nat NBUF + 1) x b
  end.

Fixpoint iderw_wait (fuel : nat) (b : nat) : K unit :=
  x <- get_buf b ;;
  if negb (Z.land (b_flags x) (Z.lor B_VALID B_DIRTY) =? B_VALID) then
    match fuel with
    | O => nofuel
    | S f => sleep (Ch_buf b) (Some Lk_ide) ;; iderw_wait f b
    end
  else ret tt.

Definition iderw (b : nat) : K unit :=
  iderw_checks b ;;
  x <- get_buf b ;;
  have <- gets k_havedisk1 ;;
  if negb (b_dev x =? 0) && negb (truth have) then panic "iderw: ide disk 1 not present" else
  acquire Lk_ide ;;
  upd_buf b (set_b_qnext None) ;;
  append b ;;
  q <- gets k_idequeue ;;
  (if bool_decide (q = Some b) then idestart (Some b) else ret tt) ;;
  w <- gets k_wait ;; iderw_wait w b ;;
  release Lk_ide.

End Ide.

(** The kernel is linked with one of the two drivers ([Makefile]: [OBJS], or
    [MEMFSOBJS] with the image of [FSSIZE] blocks). *)
Definition mem_driver : DiskDriver :=
  {| ideinit := MemIde.ideinit (FSSIZE * BSIZE); ideintr := MemIde.ideintr; iderw := MemIde.iderw |}.
Definition ide_driver : DiskDriver :=
  {| ideinit := Ide.ideinit; ideintr := Ide.ideintr; iderw := Ide.iderw |}.

(* ------------------------------------------------------------------ *)
(** ** The IDE controller is driven correctly *)

(** The byte split of the sector number over the port registers is exact. *)
Lemma sector_split n :
  0 <= n < 2 ^ 28 ->
  u8 (Z.land n 0xff) + 2 ^ 8 * u8 (Z.land (Z.shiftr n 8) 0xff) + 2 ^ 16 * u8 (Z.land (Z.shiftr n 16) 0xff) +
  2 ^ 24 * (Z.land (Z.shiftr n 24) 0xf) = n.
Proof.
  intros Hn. change 0xff with (2 ^ 8 - 1). change 0xf with (2 ^ 4 - 1).
  rewrite !land_ones_mod, !shiftr_div by lia. unfold u8. dlia.
Qed.

(** The drive/head register: disk selector and the top four sector bits. *)
Lemma head_register d k :
  0 <= k < 16 ->
  let r := u8 (Z.lor (Z.lor 0xe0 (Z.shiftl (Z.land d 1) 4)) k) in
  Z.land r 0xf = k /\ Z.testbit r 4 = Z.odd d.
Proof.
  intros Hk. assert (Z.land d 1 = if Z.odd d then 1 else 0) as ->.
  { change 1 with (2 ^ 1 - 1) at 1. rewrite land_ones_mod by lia. rewrite Zmod_odd. done. }
  assert (k = 0 \/ k = 1 \/ k = 2 \/ k = 3 \/ k = 4 \/ k = 5 \/ k = 6 \/ k = 7 \/ k = 8 \/ k = 9 \/ k = 10 \/
    k = 11 \/ k = 12 \/ k = 13 \/ k = 14 \/ k = 15) as Hc by lia.
  destruct (Z.odd d); repeat (destruct Hc as [->|Hc]; [by split|]); subst; by split.
Qed.

(** Device accesses leave the processor's registers alone. *)
Record same_cpu_hw (h h' : hardware) : Prop := mk_same_cpu_hw {
  sh_eflags : hw_eflags h' = hw_eflags h;
  sh_apicid : hw_apicid h' = hw_apicid h;
  sh_lapic : hw_lapic h' = hw_lapic h;
  sh_status : hw_idests h' = hw_idests h }.

Lemma on_cpu_hw s h i n p : same_cpu_hw (k_hw s) h -> on_cpu s i n p -> on_cpu (set_k_hw h s) i n p.
Proof.
  intros [E1 E2 E3 E4] (c & [H1 H2 H3 H4] & H). exists c. split; [|done]. split; try done.
  - rewrite <- H1. apply find_cpu_ext; try done. unfold lapicid; simpl. by rewrite E2, E3.
  - simpl. by rewrite E1.
Qed.

Definition disk_ready (s : kstate) : Prop := Z.land (hw_idests (k_hw s)) (Z.lor IDE_BSY IDE_DRDY) = IDE_DRDY.

Lemma idewait_run s : disk_ready s -> Ide.idewait false s = Ret 0 s.
Proof. intros H. unfold Ide.idewait, inb_ide_status. rstep. by rewrite H. Qed.

Lemma get_buf_ok s b x : k_bufs s !! b = Some x -> get_buf b s = Ret x s.
Proof. intros H. unfold get_buf. rstep. by rewrite H. Qed.
Lemma upd_buf_ok s b x f :
  k_bufs s !! b = Some x -> upd_buf b f s = Ret tt (set_k_bufs (<[b := f x]> (k_bufs s)) s).
Proof. intros H. unfold upd_buf. rstep. by rewrite H. Qed.

(** A second assignment to the same buffer. *)
Lemma upd_buf_again s bs b x f :
  (b < length bs)%nat -> upd_buf b f (set_k_bufs (<[b := x]> bs) s) = Ret tt (set_k_bufs (<[b := f x]> bs) s).
Proof.
  intros Hb. rewrite (upd_buf_ok _ b x); [|simpl; by apply list_lookup_insert_eq].
  change (k_bufs (set_k_bufs (<[b := x]> bs) s)) with (<[b := x]> bs). by rewrite list_insert_insert_eq.
Qed.

Lemma upd_hw_ok f h s : upd_hw f (set_k_hw h s) = Ret tt (set_k_hw (f h) s).
Proof. done. Qed.
Lemma upd_hw_ok0 f s : upd_hw f s = Ret tt (set_k_hw (f (k_hw s)) s).
Proof. done. Qed.

Lemma idestart_run s b x :
  k_bufs s !! b = Some x -> 0 <= b_blockno x < FSSIZE -> b_dev x = 1 -> disk_ready s ->
  exists h, Ide.idestart (Some b) s = Ret tt (set_k_hw h s) /\ same_cpu_hw (k_hw s) h /\
    hw_disk h = (if flag x B_DIRTY then fupd (hw_disk (k_hw s)) (b_blockno x) (b_data x) else hw_disk (k_hw s)) /\
    (flag x B_DIRTY = false -> hw_latch h = hw_disk (k_hw s) (b_blockno x)).
Proof.
  intros Hb Hn Hd Hr. unfold FSSIZE in Hn. unfold Ide.idestart. run (get_buf_ok s b x Hb).
  destruct (Z.leb_spec FSSIZE (b_blockno x)); [unfold FSSIZE in *; lia|]. cbv zeta.
  change (BSIZE / Ide.SECTOR_SIZE) with 1. change (1 =? 1) with true. change (7 <? 1) with false. cbv iota.
  rewrite Z.mul_1_r, s32_small by lia. run (idewait_run s Hr). rewrite Hd.
  unfold outb. erewrite bind_Ret; [|apply upd_hw_ok0]; cbv beta.
  do 5 (erewrite bind_Ret; [|apply upd_hw_ok]; cbv beta).
  assert (0 <= Z.land (Z.shiftr (b_blockno x) 24) 15 < 16) as Hk
    by (change 15 with (2 ^ 4 - 1); rewrite land_ones_mod by lia; apply Z.mod_pos_bound; lia).
  destruct (head_register 1 _ Hk) as [Hlow Hsel]. cbv zeta in Hlow, Hsel.
  pose proof (sector_split (b_blockno x) ltac:(lia)) as Hsec. rewrite <- Hlow in Hsec.
  match goal with |- context [set_k_hw (outb_hw ?p ?v ?h) s] => set (h0 := outb_hw p v h) end.
  assert (forall v, ide_dev (outb_hw 0x1f7 v h0) = true /\ ide_sector (outb_hw 0x1f7 v h0) = b_blockno x) as Hsl.
  { intros v. unfold outb_hw. cbv zeta. destruct (_ && _); (split; [exact Hsel|exact Hsec]). }
  assert (hw_disk h0 = hw_disk (k_hw s) /\ same_cpu_hw (k_hw s) h0) as [Hdk Hsm] by done.
  destruct (flag x B_DIRTY).
  - erewrite bind_Ret; [|apply upd_hw_ok]; cbv beta. unfold outsl_ide. rewrite upd_hw_ok.
    eexists. split; [reflexivity|]. destruct (Hsl IDE_CMD_WRITE) as [H1 H2].
    unfold set_ide_block. rewrite H1, H2. by split.
  - rewrite upd_hw_ok. eexists. split; [reflexivity|]. split; [done|]. split; [done|]. intros _.
    destruct (Hsl IDE_CMD_READ) as [H1 H2].
    change (ide_block (set_hw_ports (fupd (hw_ports h0) 0x1f7 (u8 IDE_CMD_READ)) h0) = hw_disk (k_hw s) (b_blockno x)).
    unfold ide_block. change (ide_dev (set_hw_ports (fupd (hw_ports h0) 0x1f7 (u8 IDE_CMD_READ)) h0)) with (ide_dev (outb_hw 0x1f7 IDE_CMD_READ h0)).
    rewrite H1. change (ide_sector (set_hw_ports (fupd (hw_ports h0) 0x1f7 (u8 IDE_CMD_READ)) h0)) with (ide_sector (outb_hw 0x1f7 IDE_CMD_READ h0)).
    by rewrite H2.
Qed.

(* ------------------------------------------------------------------ *)
(** ** What a driver promises to the buffer cache *)

Definition set_disk (d : Z -> list Z) (s : kstate) : kstate := set_k_hw (set_hw_disk d (k_hw s)) s.
#[export] Instance same_data_disk : Proper (eq ==> same_data ==> same_data) set_disk.
Proof. same_data_tac. Qed.
#[export] Instance same_data_bufs : Proper (eq ==> same_data ==> same_data) set_k_bufs.
Proof. same_data_tac. Qed.

(** Buffer and block after the request: a dirty buffer has been written, a
    clean one has been read; the buffer is valid and clean. *)
Definition synced (disk : Z -> list Z) (x : buf) : buf :=
  if flag x B_DIRTY then set_flag B_VALID (clear_flag B_DIRTY x)
  else set_flag B_VALID (set_b_data (disk (b_blockno x)) x).
Definition synced_disk (disk : Z -> list Z) (x : buf) : Z -> list Z :=
  if flag x B_DIRTY then fupd disk (b_blockno x) (b_data x) else disk.
Definition synced_state (b : nat) (x : buf) (s : kstate) : kstate :=
  set_k_bufs (<[b := synced (hw_disk (k_hw s)) x]> (k_bufs s)) (set_disk (synced_disk (hw_disk (k_hw s)) x) s).

(** A buffer locked by the running process, with work to do. *)
Record request (s : kstate) (i : nat) (n : Z) (ip : nat) (p : proc) (b : nat) (x : buf) : Prop := mk_request {
  rq_thread : thread s i n ip p;
  rq_inner : unlocked (Lk_sleep (Sl_buf b)) s;
  rq_locked : sl_locked (k_slocks s (Sl_buf b)) = 1;
  rq_pid : sl_pid (k_slocks s (Sl_buf b)) = p_pid p;
  rq_buf : k_bufs s !! b = Some x;
  rq_dev : b_dev x = 1;
  rq_block : 0 <= b_blockno x < FSSIZE;
  rq_work : Z.land (b_flags x) (Z.lor B_VALID B_DIRTY) <> B_VALID }.

(** The checks of both drivers pass on such a buffer. *)
Lemma iderw_checks_run s i n ip p b x :
  request s i n ip p b x ->
  exists s', iderw_checks b s = Ret tt s' /\ thread s' i n ip p /\ unlocked (Lk_sleep (Sl_buf b)) s' /\
    same_locks (Lk_sleep (Sl_buf b)) s s' /\ same_data s s' /\ k_bufs s' !! b = Some x.
Proof.
  intros [HT Hu Hl Hp Hb Hd Hn Hw].
  destruct (holdingsleep_run s i n ip p (Sl_buf b) HT Hu) as (s1 & Hh & HT1 & Hu1 & Hl1 & Hd1).
  rewrite Hl, Hp, Z.eqb_refl in Hh. exists s1. unfold iderw_checks. run Hh. simpl.
  assert (k_bufs s1 !! b = Some x) as Hb1 by (rewrite (Hd1 _ k_bufs); eauto with frame).
  run (get_buf_ok s1 b x Hb1). destruct (Z.eqb_spec (Z.land (b_flags x) (Z.lor B_VALID B_DIRTY)) B_VALID); [done|].
  done.
Qed.

(** A driver whose requests complete before they return. *)
Class SyncDriver (D : DiskDriver) (driver_ok : kstate -> Prop) : Prop := {
  driver_data : forall s s', same_data s s' -> driver_ok s -> driver_ok s';
  iderw_sync : forall s i n ip p b x, request s i n ip p b x -> driver_ok s ->
    exists s', iderw b s = Ret tt s' /\ thread s' i n ip p /\ unlocked (Lk_sleep (Sl_buf b)) s' /\
      same_locks (Lk_sleep (Sl_buf b)) s s' /\ same_data (synced_state b x s) s' }.

Definition mem_ok_size (s : kstate) : Prop := k_disksize s = FSSIZE.

#[export] Instance mem_driver_sync : SyncDriver mem_driver mem_ok_size.
Proof.
  split.
  { intros s s' Hd. unfold mem_ok_size. by rewrite (Hd _ k_disksize) by eauto with frame. }
  intros s i n ip p b x Hrq Hsz. pose proof Hrq as [_ _ _ _ _ Hdev Hblk _].
  destruct (iderw_checks_run s i n ip p b x Hrq) as (s1 & Hc & HT1 & Hu1 & Hl1 & Hd1 & Hb1).
  assert (k_disksize s1 = FSSIZE) as E1 by (rewrite (Hd1 _ k_disksize); eauto with frame).
  assert (hw_disk (k_hw s1) = hw_disk (k_hw s)) as E2 by (apply (Hd1 _ (fun s => hw_disk (k_hw s))); eauto with frame).
  assert (k_bufs s1 = k_bufs s) as E3 by (apply Hd1; eauto with frame).
  assert (b < length (k_bufs s1))%nat as Hlt by (by eapply lookup_lt_Some).
  set (s2 := synced_state b x s1).
  assert (MemIde.iderw b s = Ret tt s2) as Hrun.
  { unfold MemIde.iderw. run Hc. run (get_buf_ok s1 b x Hb1). rewrite Hdev. simpl. rstep. rewrite E1.
    destruct (Z.leb_spec FSSIZE (b_blockno x)); [lia|].
    unfold s2, synced_state, synced, synced_disk. destruct (flag x B_DIRTY) eqn:Ef.
    - erewrite (bind_Ret _ _ _ tt (set_disk (fupd (hw_disk (k_hw s1)) (b_blockno x) (b_data x))
        (set_k_bufs (<[b := clear_flag B_DIRTY x]> (k_bufs s1)) s1))).
      2: { run (upd_buf_ok s1 b x (clear_flag B_DIRTY) Hb1).
           erewrite bind_Ret; [|apply get_buf_ok; simpl; by apply list_lookup_insert_eq]. done. }
      erewrite upd_buf_ok; [|simpl; by apply list_lookup_insert_eq].
      unfold set_disk, set_k_bufs, set_k_hw; simpl. by rewrite list_insert_insert_eq.
    - erewrite (bind_Ret _ _ _ tt (set_k_bufs (<[b := set_b_data (hw_disk (k_hw s1) (b_blockno x)) x]> (k_bufs s1)) s1)).
      2: { rstep. by apply upd_buf_ok. }
      erewrite upd_buf_ok; [|simpl; by apply list_lookup_insert_eq].
      unfold set_disk, set_k_bufs, set_k_hw; simpl. rewrite list_insert_insert_eq. f_equal. destruct s1 as [h1]. by destruct h1. }
  exists s2. split; [exact Hrun|]. split; [|split; [done|split; [done|]]].
  - apply (thread_ext s1); try done. apply (on_cpu_hw (set_k_bufs _ s1)); [done|]. apply (on_cpu_ext s1); try done. apply HT1.
  - unfold s2, synced_state. rewrite E2, E3. apply same_data_bufs; [done|]. by apply same_data_disk.
Qed.

(* ------------------------------------------------------------------ *)
(** ** The interrupt-driven driver *)

(** Bits of the flags word. *)
Lemma flag_bits x m : flag x m = negb (Z.land (b_flags x) m =? 0).
Proof. done. Qed.
Lemma valid_clean f : Z.ldiff (Z.lor f B_VALID) B_DIRTY = Z.lor (Z.ldiff f B_DIRTY) B_VALID.
Proof.
  apply Z.bits_inj'. intros n Hn. rewrite Z.ldiff_spec, !Z.lor_spec, Z.ldiff_spec.
  destruct (Z.testbit f n) eqn:Ef; simpl; [|destruct (decide (n = 1)) as [->|]; [done|]].
  - destruct (decide (n = 1)) as [->|]; [done|]. destruct (Z.testbit B_VALID n) eqn:Ev; [|by rewrite orb_false_r].
    exfalso. change B_VALID with (2 ^ 1) in Ev. by rewrite Z.pow2_bits_false in Ev.
  - destruct (Z.testbit B_VALID n) eqn:Ev; [|done]. exfalso.
    change B_VALID with (2 ^ 1) in Ev. by rewrite Z.pow2_bits_false in Ev.
Qed.
Lemma ldiff_clean f m : Z.land f m = 0 -> Z.ldiff f m = f.
Proof.
  intros H. apply Z.bits_inj'. intros n Hn. rewrite Z.ldiff_spec.
  assert (Z.testbit (Z.land f m) n = false) as E by (rewrite H; apply Z.bits_0).
  rewrite Z.land_spec in E. destruct (Z.testbit f n), (Z.testbit m n); done.
Qed.
Lemma valid_only f : Z.land (Z.lor (Z.ldiff f B_DIRTY) B_VALID) (Z.lor B_VALID B_DIRTY) = B_VALID.
Proof.
  apply Z.bits_inj'. intros n Hn. rewrite Z.land_spec, !Z.lor_spec, Z.ldiff_spec.
  destruct (Z.testbit B_VALID n), (Z.testbit B_DIRTY n), (Z.testbit f n); done.
Qed.

(** What [ideintr] does to the buffer at the head of the queue is [synced]. *)
Lemma intr_synced disk x d :
  (flag x B_DIRTY = false -> d = disk (b_blockno x)) ->
  clear_flag B_DIRTY (set_flag B_VALID (if flag x B_DIRTY then x else set_b_data d x)) = synced disk x.
Proof.
  intros Hd. unfold synced. destruct (flag x B_DIRTY) eqn:Ef.
  - unfold clear_flag, set_flag, set_b_flags; simpl. by rewrite valid_clean.
  - rewrite <- Hd by done. unfold clear_flag, set_flag, set_b_flags, set_b_data; simpl. f_equal.
    rewrite valid_clean. f_equal. apply ldiff_clean. unfold flag, has_bits in Ef. apply negb_false_iff, Z.eqb_eq in Ef. done.
Qed.
Lemma synced_flags disk x : Z.land (b_flags (synced disk x)) (Z.lor B_VALID B_DIRTY) = B_VALID.
Proof.
  unfold synced. destruct (flag x B_DIRTY) eqn:Ef; simpl; [apply valid_only|].
  rewrite <- (ldiff_clean (b_flags x) B_DIRTY); [apply valid_only|].
  unfold flag, has_bits in Ef. by apply negb_false_iff, Z.eqb_eq in Ef.
Qed.

(** *** The queue *)

(** The buffers linked through [qnext], from [o] on. *)
Fixpoint queued (bs : list buf) (o : option nat) (l : list nat) : Prop :=
  match l with
  | [] => o = None
  | b :: l' => o = Some b /\ exists x, bs !! b = Some x /\ queued bs (b_qnext x) l'
  end.
(** The buffers but for these links. *)
Definition unlinked (bs : list buf) : list buf := set_b_qnext None <$> bs.
(** The controller works for [x] on a disk that was [disk]: a write has reached it, a
    read is in the data register. *)
Definition in_flight (disk : Z -> list Z) (x : buf) (s : kstate) : Prop :=
  hw_disk (k_hw s) = synced_disk disk x /\ (flag x B_DIRTY = false -> hw_latch (k_hw s) = disk (b_blockno x)).
(** The requests [l] are waiting, the controller works for the first; [disk] is the
    disk without any of them. *)
Record ide_queue (s : kstate) (l : list nat) (disk : Z -> list Z) : Prop := mk_ide_queue {
  iq_chain : queued (k_bufs s) (k_idequeue s) l;
  iq_nodup : NoDup l;
  iq_size : (length (k_bufs s) <= Z.to_nat NBUF + 1)%nat;
  iq_req : forall b x, b ∈ l -> k_bufs s !! b = Some x -> b_dev x = 1 /\ 0 <= b_blockno x < FSSIZE;
  iq_status : hw_idests (k_hw s) = IDE_DRDY;
  iq_head : match l with [] => hw_disk (k_hw s) = disk | b :: _ => forall x, k_bufs s !! b = Some x -> in_flight disk x s end }.

#[export] Instance same_data_queue : Proper (eq ==> same_data ==> same_data) set_k_idequeue.
Proof. same_data_tac. Qed.
Lemma ide_queue_data s s' l disk : same_data s s' -> ide_queue s l disk -> ide_queue s' l disk.
Proof.
  intros Hd [H1 H2 H3 H4 H5 H6].
  pose proof (Hd _ k_bufs ltac:(eauto with frame)) as E1. pose proof (Hd _ k_idequeue ltac:(lock_free_tac)) as E2.
  pose proof (Hd _ (fun s => hw_idests (k_hw s)) ltac:(lock_free_tac)) as E3. pose proof (Hd _ (fun s => hw_disk (k_hw s)) ltac:(lock_free_tac)) as E4.
  pose proof (Hd _ (fun s => hw_latch (k_hw s)) ltac:(lock_free_tac)) as E5. cbv beta in *.
  split; unfold in_flight; rewrite ?E1, ?E2, ?E3, ?E4, ?E5; done.
Qed.
Lemma queued_lookup bs l : forall o b, queued bs o l -> b ∈ l -> is_Some (bs !! b).
Proof.
  induction l as [|c l IH]; intros o b H Hb; [by apply elem_of_nil in Hb|]. destruct H as (_ & x & Hx & H).
  apply elem_of_cons in Hb as [->|Hb]; [by exists x|by eapply IH].
Qed.
Lemma queued_ext bs bs' l : forall o, (forall c, c ∈ l -> bs' !! c = bs !! c) -> queued bs o l -> queued bs' o l.
Proof.
  induction l as [|c l IH]; intros o Hx H; [done|]. destruct H as (E & x & Hl & H). split; [done|]. exists x.
  rewrite Hx by left. split; [done|]. apply IH; [|done]. intros d Hd. apply Hx. by right.
Qed.
Lemma queue_length s l disk b : ide_queue s l disk -> is_Some (k_bufs s !! b) -> b ∉ l -> (length l <= Z.to_nat NBUF)%nat.
Proof.
  intros HQ Hb Hn. pose proof (iq_size _ _ _ HQ) as Hsz.
  assert (b :: l ⊆+ seq 0 (length (k_bufs s))) as Hsub.
  { apply NoDup_submseteq; [apply NoDup_cons; split; [done|apply HQ]|]. intros c Hc. apply elem_of_seq.
    assert (is_Some (k_bufs s !! c)) as Hs by (apply elem_of_cons in Hc as [->|Hc]; [done|by eapply queued_lookup; [apply HQ|]]).
    apply lookup_lt_is_Some in Hs. lia. }
  apply submseteq_length in Hsub. rewrite length_seq in Hsub. cbn [length] in Hsub. lia.
Qed.

Lemma unlinked_set bs c z o : bs !! c = Some z -> unlinked (<[c := set_b_qnext o z]> bs) = unlinked bs.
Proof. intros H. unfold unlinked. rewrite list_fmap_insert. apply list_insert_id. rewrite list_lookup_fmap, H. by destruct z. Qed.
(** [append] walks to the last buffer and links the new one behind it. *)
Lemma append_after_run b y : b_qnext y = None -> forall l fuel x s, queued (k_bufs s) (Some x) (x :: l) -> NoDup (x :: l) -> b ∉ x :: l ->
  k_bufs s !! b = Some y -> (length l < fuel)%nat ->
  exists bs', Ide.append_after fuel x b s = Ret tt (set_k_bufs bs' s) /\ queued bs' (Some x) ((x :: l) ++ [b]) /\
    unlinked bs' = unlinked (k_bufs s) /\ forall c, c ∉ x :: l -> bs' !! c = k_bufs s !! c.
Proof.
  intros Hy. induction l as [|c l IH]; intros fuel x s (_ & z & Hz & Hq) Hnd Hb Hlb Hf; (destruct fuel as [|fuel]; [simpl in Hf; lia|]);
    cbn [Ide.append_after]; run (get_buf_ok s x z Hz).
  - simpl in Hq. rewrite Hq. assert (b <> x) as Hne by set_solver. exists (<[x := set_b_qnext (Some b) z]> (k_bufs s)).
    split; [by rewrite (upd_buf_ok s x z)|]. split; [|split; [by apply unlinked_set|]].
    + split; [done|]. exists (set_b_qnext (Some b) z). split; [apply list_lookup_insert_eq; by eapply lookup_lt_Some|]. split; [done|].
      exists y. by rewrite list_lookup_insert_ne.
    + intros d Hd. apply list_lookup_insert_ne. set_solver.
  - pose proof Hq as (Ec & _). rewrite Ec. apply NoDup_cons in Hnd as [Hx Hnd].
    destruct (IH fuel c s) as (bs' & Hrun & Hq' & Hu & Hout); [by rewrite <- Ec|done|set_solver|done|cbn [length] in Hf; lia|].
    exists bs'. split; [done|]. split; [|split; [done|]].
    + split; [done|]. exists z. rewrite Hout by done. split; [done|]. by rewrite Ec.
    + intros d Hd. apply Hout. set_solver.
Qed.

(** The controller is started on the first request of the queue, if there is one. *)
Lemma start_first s i n p l disk : queued (k_bufs s) (k_idequeue s) l -> NoDup l -> (length (k_bufs s) <= Z.to_nat NBUF + 1)%nat ->
  (forall b x, b ∈ l -> k_bufs s !! b = Some x -> b_dev x = 1 /\ 0 <= b_blockno x < FSSIZE) ->
  hw_idests (k_hw s) = IDE_DRDY -> hw_disk (k_hw s) = disk -> on_cpu s i n p ->
  exists s', match k_idequeue s with Some _ => Ide.idestart (k_idequeue s) | None => ret tt end s = Ret tt s' /\ on_cpu s' i n p /\
    k_locks s' = k_locks s /\ k_bufs s' = k_bufs s /\ k_procs s' = k_procs s /\ k_wait s' = k_wait s /\ ide_queue s' l disk.
Proof.
  intros Hq Hnd Hsz Hreq Hst Hdk Hc. destruct l as [|b l].
  { simpl in Hq. rewrite Hq. exists s. do 6 (split; [done|]). by split. }
  pose proof Hq as (E & x & Hx & _). destruct (Hreq b x ltac:(left) Hx) as [Hdev Hblk].
  destruct (idestart_run s b x Hx Hblk Hdev) as (h & Hrun & Hsm & Hd & Hlt); [unfold disk_ready; by rewrite Hst|].
  rewrite E. exists (set_k_hw h s). split; [done|]. split; [by apply on_cpu_hw|]. do 4 (split; [done|]). split; try done.
  - simpl. by rewrite (sh_status _ _ Hsm).
  - simpl. intros x' Hx'. rewrite Hx in Hx'. injection Hx' as <-. split; simpl.
    + rewrite Hd, Hdk. unfold synced_disk. by destruct (flag x B_DIRTY).
    + intros Hf. by rewrite Hlt, Hdk.
Qed.

(** *** An interrupt: the first request is done, the next one is started *)
Lemma intr_data s1 b x d : k_bufs s1 !! b = Some x -> hw_idests (k_hw s1) = IDE_DRDY -> hw_latch (k_hw s1) = d ->
  (if negb (flag x B_DIRTY) then r <- Ide.idewait true ;; when (0 <=? r) (d <- insl_ide ;; upd_buf b (set_b_data d)) else ret tt) s1 =
  Ret tt (set_k_bufs (<[b := if flag x B_DIRTY then x else set_b_data d x]> (k_bufs s1)) s1).
Proof.
  intros Hb Es El. destruct (flag x B_DIRTY) eqn:Ef; simpl.
  - rewrite list_insert_id by done. unfold ret. f_equal. by destruct s1.
  - unfold Ide.idewait, inb_ide_status. erewrite bind_Ret; [|rstep; rewrite Es; reflexivity].
    simpl. unfold insl_ide. rstep. rewrite (upd_buf_ok s1 b x _ Hb). by rewrite El.
Qed.
Lemma ideintr_serves s i n p b x l disk :
  ide_queue s (b :: l) disk -> k_bufs s !! b = Some x -> on_cpu s i n p -> 0 <= n -> table_size s ->
  unlocked Lk_ide s -> unlocked Lk_ptable s ->
  exists s', Ide.ideintr s = Ret tt s' /\ on_cpu s' i n p /\ unlocked Lk_ide s' /\ unlocked Lk_ptable s' /\
    ide_queue s' l (synced_disk disk x) /\ k_bufs s' = <[b := synced disk x]> (k_bufs s) /\
    k_procs s' = wake_one (Ch_buf b) <$> k_procs s.
Proof.
  intros HQ Hb Hc Hn Ht Hu Hup. pose proof HQ as [(Hq & x' & Hx' & Hch) Hnd Hsz Hreq Hst Hhd].
  rewrite Hb in Hx'. injection Hx' as <-. destruct (Hhd x Hb) as [Hdk Hlt]. apply NoDup_cons in Hnd as [Hnb Hnd].
  destruct (acquire_cpu s i n p Lk_ide Hc Hu) as (s1 & Ha & Hc1 & Hh1 & Hl1 & Hd1).
  assert (k_idequeue s1 = Some b) as Hq1 by (rewrite (Hd1 _ k_idequeue); [done|lock_free_tac]).
  assert (k_bufs s1 = k_bufs s) as Eb by (apply Hd1; eauto with frame).
  assert (k_procs s1 = k_procs s) as Ep by (apply Hd1; eauto with frame).
  assert (hw_latch (k_hw s1) = hw_latch (k_hw s)) as El by (apply (Hd1 _ (fun s => hw_latch (k_hw s))); lock_free_tac).
  assert (hw_idests (k_hw s1) = IDE_DRDY) as Es by (rewrite <- Hst; apply (Hd1 _ (fun s => hw_idests (k_hw s))); lock_free_tac).
  assert (hw_disk (k_hw s1) = synced_disk disk x) as Ed by (rewrite <- Hdk; apply (Hd1 _ (fun s => hw_disk (k_hw s))); lock_free_tac).
  assert (b < length (k_bufs s))%nat as Hlen by (by eapply lookup_lt_Some).
  set (s2 := set_k_bufs (<[b := synced disk x]> (k_bufs s)) (set_k_idequeue (b_qnext x) s1)).
  destruct (wakeup_run (Ch_buf b) s2 i (n + 1) p) as (s3 & Hw & Hc3 & Hu3 & Hl3 & Hd3).
  { unfold table_size in *; simpl. by rewrite Ep. } { by apply (on_cpu_ext s1). } { unfold unlocked; simpl. by rewrite Hl1. } { lia. }
  assert (k_bufs s3 = <[b := synced disk x]> (k_bufs s)) as Eb3 by (apply (Hd3 _ k_bufs); eauto with frame).
  assert (k_idequeue s3 = b_qnext x) as Eq3 by (apply (Hd3 _ k_idequeue); lock_free_tac).
  destruct (start_first s3 i (n + 1) p l (synced_disk disk x)) as (s4 & Hgo & Hc4 & El4 & Eb4 & Ep4 & _ & HQ4).
  { rewrite Eb3, Eq3. eapply queued_ext; [|done]. intros c Hcl. apply list_lookup_insert_ne. set_solver. }
  { done. } { by rewrite Eb3, length_insert. }
  { intros c xc Hcl. rewrite Eb3, list_lookup_insert_ne by set_solver. apply Hreq. by right. }
  { rewrite (Hd3 _ (fun s => hw_idests (k_hw s))) by lock_free_tac. exact Es. }
  { rewrite (Hd3 _ (fun s => hw_disk (k_hw s))) by lock_free_tac. exact Ed. } { done. }
  destruct (release_cpu s4 i (n + 1) p Lk_ide) as (s5 & Hr & Hc5 & Hu5 & Hl5 & Hd5); [done|lia| |].
  { unfold held_by. rewrite El4. by rewrite Hl3. }
  exists s5. split.
  { unfold Ide.ideintr. run Ha. rstep. rewrite Hq1. cbv iota.
    erewrite bind_Ret; [|apply get_buf_ok; rewrite Eb; exact Hb]. cbv beta. rstep.
    set (s1' := set_k_idequeue (b_qnext x) s1).
    erewrite (bind_Ret _ _ _ tt _ (intr_data s1' b x (hw_latch (k_hw s)) ltac:(simpl; by rewrite Eb) Es El)). simpl. rewrite Eb.
    erewrite bind_Ret; [|apply upd_buf_ok; simpl; by apply list_lookup_insert_eq]. cbv beta.
    erewrite bind_Ret; [|apply upd_buf_ok; simpl; apply list_lookup_insert_eq; by rewrite length_insert]. cbv beta.
    match goal with |- bind (wakeup _) _ ?z = _ => assert (z = s2) as -> end.
    { unfold s2, s1', set_k_bufs; simpl. rewrite !list_insert_insert_eq. f_equal. f_equal.
      apply intr_synced. intros Hf. by apply Hlt. }
    run Hw. rstep. rewrite (bind_Ret _ _ _ _ _ Hgo). exact Hr. }
  split; [by replace n with (n + 1 - 1) by lia|]. split; [done|]. split; [unfold unlocked; by rewrite Hl5, El4|].
  split; [by apply (ide_queue_data s4)|]. rewrite (Hd5 _ k_bufs), (Hd5 _ k_procs), Eb4, Ep4, Eb3, (Hd3 _ k_procs) by eauto with frame.
  split; [done|]. simpl. by rewrite Ep.
Qed.

(** *** A request: it joins the queue *)
Lemma append_run s l disk b y : ide_queue s l disk -> b ∉ l -> k_bufs s !! b = Some y -> b_qnext y = None ->
  exists s', Ide.append b s = Ret tt s' /\ queued (k_bufs s') (k_idequeue s') (l ++ [b]) /\ unlinked (k_bufs s') = unlinked (k_bufs s) /\
    k_bufs s' !! b = Some y /\ k_hw s' = k_hw s /\ k_cpus s' = k_cpus s /\ k_ncpu s' = k_ncpu s /\ k_locks s' = k_locks s /\
    k_procs s' = k_procs s /\ k_wait s' = k_wait s /\ k_idequeue s' = Some (hd b l).
Proof.
  intros HQ Hn Hb Hy. pose proof (iq_chain _ _ _ HQ) as Hq. unfold Ide.append. unfold bind at 1, gets. cbn [obind]. destruct l as [|x l].
  - simpl in Hq. rewrite Hq. eexists. split; [reflexivity|]. simpl. split; [|done]. split; [done|]. by exists y.
  - pose proof Hq as (E & _). rewrite E. destruct (append_after_run b y Hy l (Z.to_nat NBUF + 1) x s) as (bs' & Hrun & Hq' & Hu & Hout);
      [by rewrite <- E|apply HQ|done|done| |].
    { pose proof (queue_length _ _ _ b HQ ltac:(by rewrite Hb) Hn) as Hlen. cbn [length] in Hlen. lia. }
    exists (set_k_bufs bs' s). split; [done|]. simpl. rewrite E. split; [done|]. split; [done|]. by rewrite Hout.
Qed.
Lemma unlinked_lookup bs bs' c x : unlinked bs' = unlinked bs -> bs' !! c = Some x -> exists y, bs !! c = Some y /\ set_b_qnext None x = set_b_qnext None y.
Proof.
  intros E Hx. assert (unlinked bs !! c = Some (set_b_qnext None x)) as H by (rewrite <- E; unfold unlinked; by rewrite list_lookup_fmap, Hx).
  unfold unlinked in H. rewrite list_lookup_fmap in H. destruct (bs !! c) as [y|]; [|done]. exists y. split; [done|]. apply (inj Some) in H. by rewrite H.
Qed.
Lemma unlinked_length bs bs' : unlinked bs' = unlinked bs -> length bs' = length bs.
Proof. intros E. apply (f_equal length) in E. unfold unlinked in E. by rewrite !length_fmap in E. Qed.
(** The first part of [iderw], up to the waiting loop. *)
Lemma iderw_joins s i ip p b x l disk :
  request s i 0 ip p b x -> unlocked Lk_ide s -> ide_queue s l disk -> b ∉ l -> k_havedisk1 s = 1 ->
  exists s1, Ide.iderw b s = obind (Ide.iderw_wait (k_wait s) b s1) (fun _ => release Lk_ide) /\
    inside Lk_ide ip s1 i p s1 /\ k_procs s1 = k_procs s /\ ide_queue s1 (l ++ [b]) disk /\ unlinked (k_bufs s1) = unlinked (k_bufs s) /\
    k_bufs s1 !! b = Some (set_b_qnext None x).
Proof.
  intros Hrq Hu HQ Hnb Hhave. pose proof Hrq as [_ _ _ _ Hb Hdev Hblk Hwork].
  destruct (iderw_checks_run s i 0 ip p b x Hrq) as (s1 & Hc & HT1 & Hu1 & Hl1 & Hd1 & Hb1).
  destruct (acquire_cpu s1 i 0 (Some ip) Lk_ide (th_cpu _ _ _ _ _ HT1)) as (s2 & Ha & Hc2 & Hh2 & Hl2 & Hd2).
  { unfold unlocked. by rewrite Hl1. }
  assert (same_data s s2) as Hd by (by transitivity s1).
  assert (ide_queue s2 l disk) as HQ2 by (by apply (ide_queue_data s)).
  assert (k_bufs s2 = k_bufs s) as Eb by (apply Hd; eauto with frame).
  set (s3 := set_k_bufs (<[b := set_b_qnext None x]> (k_bufs s)) s2).
  assert (forall c, c ∈ l -> <[b := set_b_qnext None x]> (k_bufs s) !! c = k_bufs s !! c) as Hoth by (intros c Hcl; apply list_lookup_insert_ne; set_solver).
  assert (ide_queue s3 l disk) as HQ3.
  { destruct HQ2 as [Q1 Q2 Q3 Q4 Q5 Q6]. rewrite Eb in *. split; simpl; try done.
    - by eapply queued_ext.
    - by rewrite length_insert.
    - intros c y Hcl. rewrite Hoth by done. by apply Q4.
    - destruct l as [|c l]; [done|]. intros y. rewrite Hoth by left. apply Q6. }
  destruct (append_run s3 l disk b (set_b_qnext None x) HQ3 Hnb) as (s4 & Happ & Hq4 & Hu4 & Hb4 & E1 & E2 & E3 & E4 & E5 & E6 & E7);
    [simpl; apply list_lookup_insert_eq; by eapply lookup_lt_Some|done|].
  assert (unlinked (k_bufs s4) = unlinked (k_bufs s)) as Hun by (rewrite Hu4; by apply unlinked_set).
  assert (on_cpu s4 i 1 (Some ip)) as Hc4 by (by apply (on_cpu_ext s2)).
  assert (exists s5, (if bool_decide (k_idequeue s4 = Some b) then Ide.idestart (Some b) else ret tt) s4 = Ret tt s5 /\ on_cpu s5 i 1 (Some ip) /\
    k_locks s5 = k_locks s4 /\ k_bufs s5 = k_bufs s4 /\ k_procs s5 = k_procs s4 /\ k_wait s5 = k_wait s4 /\ ide_queue s5 (l ++ [b]) disk) as (s5 & Hgo & Hc5 & El5 & Eb5 & Ep5 & Ew5 & HQ5).
  { assert (NoDup (l ++ [b])) as Hnd by (apply NoDup_app; split; [apply HQ|split; [set_solver|apply NoDup_singleton]]).
    assert ((length (k_bufs s4) <= Z.to_nat NBUF + 1)%nat) as Hsz by (rewrite (unlinked_length _ _ Hun); apply HQ).
    assert (forall c y, c ∈ l ++ [b] -> k_bufs s4 !! c = Some y -> b_dev y = 1 /\ 0 <= b_blockno y < FSSIZE) as Hreq.
    { intros c y Hcl Hy. destruct (unlinked_lookup _ _ _ _ Hun Hy) as (z & Hz & E). assert (b_dev y = b_dev z /\ b_blockno y = b_blockno z) as [-> ->].
      { change (b_dev y) with (b_dev (set_b_qnext None y)). change (b_blockno y) with (b_blockno (set_b_qnext None y)). by rewrite E. }
      apply elem_of_app in Hcl as [Hcl| ->%list_elem_of_singleton]; [by apply (iq_req _ _ _ HQ c)|]. rewrite Hb in Hz. by injection Hz as <-. }
    assert (hw_idests (k_hw s4) = IDE_DRDY) as Hst by (rewrite E1; apply HQ3). destruct l as [|c l]; cbn [hd app] in *.
    - rewrite bool_decide_eq_true_2 by done. destruct (start_first s4 i 1 (Some ip) [b] disk) as (s5 & Hgo & Hrest); try done; [rewrite E1; apply HQ3|].
      exists s5. rewrite E7 in Hgo. done.
    - rewrite bool_decide_eq_false_2 by (intros E; rewrite E7 in E; set_solver). exists s4. do 6 (split; [done|]). split; try done.
      intros y Hy. destruct (unlinked_lookup _ _ _ _ Hu4 Hy) as (z & Hz & E). pose proof (iq_head _ _ _ HQ3 z Hz) as [F1 F2]. unfold in_flight. rewrite E1.
      assert (synced_disk disk y = synced_disk disk z /\ flag y B_DIRTY = flag z B_DIRTY /\ b_blockno y = b_blockno z) as (-> & -> & ->); [|done].
      change (synced_disk disk y) with (synced_disk disk (set_b_qnext None y)). change (flag y B_DIRTY) with (flag (set_b_qnext None y) B_DIRTY).
      change (b_blockno y) with (b_blockno (set_b_qnext None y)). by rewrite E. }
  assert (k_procs s5 = k_procs s) as Ep by (rewrite Ep5, E5; simpl; apply Hd; eauto with frame).
  assert (k_procs s !! ip = Some p /\ table_size s) as [Hp Ht] by (split; apply (rq_thread _ _ _ _ _ _ _ Hrq)).
  exists s5. split; [|split; [|split; [done|split; [done|split; [by rewrite Eb5|by rewrite Eb5]]]]].
  - unfold Ide.iderw. run Hc. run (get_buf_ok s1 b x Hb1). rstep.
    rewrite (Hd1 _ k_havedisk1), Hhave, andb_false_r by lock_free_tac. run Ha.
    erewrite bind_Ret; [|apply upd_buf_ok; by rewrite Eb]. cbv beta. rewrite Eb. fold s3. run Happ. rstep. run Hgo. rstep.
    rewrite Ew5, E6. simpl. by rewrite (Hd _ k_wait) by eauto with frame.
  - split; try done.
    + unfold held_by. by rewrite El5, E4.
    + unfold unlocked. rewrite El5, E4. simpl. rewrite Hl2 by done. apply HT1.
    + by rewrite Ep.
    + unfold table_size. by rewrite Ep.
    + rewrite list_insert_id by (by rewrite Ep). by rewrite set_k_procs_id.
Qed.

(** *** The waiting loop *)
Definition served (s : kstate) (b : nat) : Prop :=
  exists x, k_bufs s !! b = Some x /\ Z.land (b_flags x) (Z.lor B_VALID B_DIRTY) = B_VALID.
Definition iderw_sleeps (b ip : nat) (_ : unit) (s0 s : kstate) (_ : unit) : Prop :=
  ~ served s0 b /\ sleeps (Ch_buf b) Lk_ide ip s0 s.
Definition iderw_returns (b ip : nat) (_ : unit) (s0 : kstate) (_ : unit) (s : kstate) : Prop :=
  served s0 b /\ unlocked Lk_ide s /\ unlocked Lk_ptable s /\ (exists j, on_cpu s j 0 (Some ip)) /\
  exists p, same_data (set_k_procs (<[ip := p]> (k_procs s0)) s0) s.
Definition iderw_resumed (b ip : nat) (s t : kstate) : Prop := resumed Lk_ide ip s t /\ is_Some (k_bufs t !! b).
Lemma iderw_wait_waits b ip : forall w n s0 j p s, (n < w)%nat -> inside Lk_ide ip s0 j p s -> is_Some (k_bufs s0 !! b) ->
  p_pid <$> k_procs s0 !! ip = Some (p_pid p) ->
  waits (iderw_sleeps b ip) (iderw_resumed b ip) (iderw_returns b ip) n tt s0 (obind (Ide.iderw_wait w b s) (fun _ => release Lk_ide)).
Proof.
  induction w as [|w IH]; intros n s0 j p s Hn HI [x Hx] Hpid; [lia|]. pose proof HI as [H1 H2 H3 H4 H5 H6].
  assert (k_bufs s = k_bufs s0) as Eb by (apply (H6 _ k_bufs); eauto with frame). cbn [Ide.iderw_wait].
  rewrite (bind_Ret _ _ _ x s) by (apply get_buf_ok; by rewrite Eb).
  destruct (Z.eqb_spec (Z.land (b_flags x) (Z.lor B_VALID B_DIRTY)) B_VALID) as [E|E]; cbn [negb].
  - destruct (release_cpu s j 1 (Some ip) Lk_ide H1 ltac:(lia) H2) as (s1 & Hr & Hc1 & Hu1 & Hl1 & Hd1). unfold ret. cbn [obind]. rewrite Hr.
    split; [by exists x|]. split; [done|]. split; [unfold unlocked; by rewrite Hl1|]. split; [by exists j|]. exists p. by transitivity s.
  - destruct (inside_sleep _ _ _ _ _ _ (Ch_buf b) HI) as (s1 & k & Hs & Hsl & Hp1 & Hk); [done|done|]. rewrite (bind_Switch _ _ _ _ _ Hs).
    exists tt. split; [split; [|done]; intros (x' & Hx' & E'); congruence|]. destruct n as [|n]; [done|]. intros t [Ht Hbt].
    destruct (Hk t Ht) as (j' & p' & t' & Hrun & HI' & Hpid' & _). rewrite Hrun. cbn [obind]. by apply (IH n t j' p' t'); [lia|..].
Qed.

(** The interrupt-driven driver with the requests [l] under way, beside a kernel [m]
    that has the memory disk and is still to serve them. *)
Definition under_way (s : kstate) (l : list nat) (m : kstate) : Prop :=
  ide_queue s l (hw_disk (k_hw m)) /\ unlinked (k_bufs s) = unlinked (k_bufs m).

(** C13: the interrupt-driven driver does what the memory disk does, request by
    request.  [iderw] appends its request to those that are waiting, starts the
    controller if there are none, and sleeps until the interrupt has come for its own
    buffer: woken in vain it sleeps again, and it returns, with nothing changed and
    its locks free, when the buffer is valid and clean.  Each interrupt finishes the
    first request, with exactly the effect on buffers and disk that [iderw] of
    [memide.c] has in the kernel that runs on the memory disk, wakes the processes that wait for it,
    and starts the controller on the next one; so the two stay in step through any
    number of requests and interrupts, and when none is under way their disks agree. *)
Theorem ide_equivalent l m :
  (forall s i ip p b x N, request s i 0 ip p b x -> unlocked Lk_ide s -> under_way s l m -> b ∉ l -> k_havedisk1 s = 1 -> (S N < k_wait s)%nat ->
     exists s1 k, Ide.iderw b s = Switch s1 k /\ under_way s1 (l ++ [b]) m /\ unlocked Lk_ide s1 /\
       k_procs s1 = <[ip := asleep (Ch_buf b) p]> (k_procs s) /\
       forall t, iderw_resumed b ip s1 t -> waits (iderw_sleeps b ip) (iderw_resumed b ip) (iderw_returns b ip) N tt t (k t)) /\
  (forall t j d q b l', l = b :: l' -> under_way t l m -> on_cpu t j d q -> 0 <= d -> table_size t -> unlocked Lk_ide t -> unlocked Lk_ptable t ->
     forall i n ip p x, request m i n ip p b x -> k_disksize m = FSSIZE ->
     exists t' m', Ide.ideintr t = Ret tt t' /\ MemIde.iderw b m = Ret tt m' /\ under_way t' l' m' /\ served t' b /\
       k_procs t' = wake_one (Ch_buf b) <$> k_procs t /\ on_cpu t' j d q /\ unlocked Lk_ide t' /\ unlocked Lk_ptable t') /\
  (forall s, l = [] -> under_way s l m -> hw_disk (k_hw s) = hw_disk (k_hw m)).
Proof.
  split; [|split].
  - intros s i ip p b x N Hrq Hu [HQ Hun] Hnb Hhave HN. pose proof (th_proc _ _ _ _ _ (rq_thread _ _ _ _ _ _ _ Hrq)) as Hp.
    destruct (iderw_joins s i ip p b x l _ Hrq Hu HQ Hnb Hhave) as (s1 & Hrun & HI & Ep & HQ1 & Hun1 & Hb1).
    destruct (k_wait s) as [|w] eqn:Ew; [lia|]. cbn [Ide.iderw_wait] in Hrun. rewrite (bind_Ret _ _ _ _ _ (get_buf_ok s1 b _ Hb1)) in Hrun.
    change (b_flags (set_b_qnext None x)) with (b_flags x) in Hrun. pose proof (rq_work _ _ _ _ _ _ _ Hrq) as Hwork.
    destruct (Z.eqb_spec (Z.land (b_flags x) (Z.lor B_VALID B_DIRTY)) B_VALID) as [|_]; [done|]. cbn [negb] in Hrun.
    destruct (inside_sleep _ _ _ _ _ _ (Ch_buf b) HI) as (s2 & k & Hs & (Hu2 & _ & Hd2) & Hp2 & Hk); [done|by rewrite Ep, Hp|].
    rewrite (bind_Switch _ _ _ _ _ Hs) in Hrun. eexists s2, _. split; [exact Hrun|].
    pose proof (sleep_run s1 i ip p (Ch_buf b) Lk_ide (in_cpu _ _ _ _ _ _ HI) (in_held _ _ _ _ _ _ HI) ltac:(done) (in_ptable _ _ _ _ _ _ HI) (in_proc _ _ _ _ _ _ HI))
      as (s2' & k' & Hs' & _ & _ & _ & Hd & _). rewrite Hs in Hs'. injection Hs' as <- <-.
    split; [|split; [done|split]].
    + split; [apply (ide_queue_data (set_k_procs (<[ip:=asleep (Ch_buf b) p]> (k_procs s1)) s1)); [done|by destruct HQ1; split]|].
      rewrite (Hd _ k_bufs) by eauto with frame. simpl. by rewrite Hun1.
    + rewrite (Hd _ k_procs) by eauto with frame. simpl. by rewrite Ep.
    + intros t [Ht Hbt]. destruct (Hk t Ht) as (j' & p' & t' & Hk' & HI' & Hpid' & _). cbv beta. rewrite Hk'. cbn [obind].
      by apply (iderw_wait_waits b ip w N t j' p' t'); [lia|..].
  - intros t j d q b l' -> [HQ Hun] Hc Hd Ht Hu Hup i n ip p x Hrq Hsz. pose proof (rq_buf _ _ _ _ _ _ _ Hrq) as Hbm.
    destruct (unlinked_lookup _ _ _ _ (eq_sym Hun) Hbm) as (y & Hy & E).
    destruct (ideintr_serves t j d q b y l' _ HQ Hy Hc Hd Ht Hu Hup) as (t' & Hi & Hc' & Hu' & Hup' & HQ' & Eb' & Ep').
    destruct (iderw_sync (SyncDriver := mem_driver_sync) m i n ip p b x Hrq Hsz) as (m' & Hm & _ & _ & _ & Hdm).
    exists t', m'. split; [done|]. split; [exact Hm|].
    assert (hw_disk (k_hw m') = synced_disk (hw_disk (k_hw m)) x) as Edm by (apply (Hdm _ (fun s => hw_disk (k_hw s))); lock_free_tac).
    assert (k_bufs m' = <[b := synced (hw_disk (k_hw m)) x]> (k_bufs m)) as Ebm by (apply (Hdm _ k_bufs); eauto with frame).
    split; [split|split; [|done]].
    + rewrite Edm. change (synced_disk (hw_disk (k_hw m)) x) with (synced_disk (hw_disk (k_hw m)) (set_b_qnext None x)). rewrite E. exact HQ'.
    + rewrite Ebm, Eb'. unfold unlinked in *. rewrite !list_fmap_insert, Hun. f_equal.
      assert (forall z, set_b_qnext None (synced (hw_disk (k_hw m)) z) = synced (hw_disk (k_hw m)) (set_b_qnext None z)) as Hz
        by (intros z; unfold synced; change (flag (set_b_qnext None z) B_DIRTY) with (flag z B_DIRTY); by destruct (flag z B_DIRTY)).
      by rewrite !Hz, E.
    + exists (synced (hw_disk (k_hw m)) y). rewrite Eb'. split; [apply list_lookup_insert_eq; by eapply lookup_lt_Some|apply synced_flags].
  - intros s -> [HQ _]. apply HQ.
Qed.

(** Process 0 holds the lock of buffer 0, which is to be read from block 7 of an
    idle disk 1. *)
Definition buf7 : buf := set_b_blockno 7 (set_b_dev 1 buf0).
Definition reading : kstate :=
  set_k_hw (set_hw_idests IDE_DRDY (k_hw boot))
    (set_k_havedisk1 1 (set_k_bufs (<[0%nat := buf7]> (k_bufs boot))
      (set_k_slocks (fupd (k_slocks boot) (Sl_buf 0) (mk_sleeplock 1 "buffer" 1))
        (set_k_cpus [set_c_proc (Some 0%nat) (cpu0 0)] one_running)))).

Lemma reading_request : request reading 0 0 0 (set_p_state RUNNING (set_p_pid 1 proc0)) 0 buf7.
Proof. split; try done. split; try done. exists (set_c_proc (Some 0%nat) (cpu0 0)). by repeat split. Qed.
(** A kernel [s] whose disk is idle, the same kernel with the memory disk, and the first
    one when its controller has read block 7 for buffer 0. *)
Section Example.
Context (s : kstate) (Hlen : length (k_bufs s) = 31%nat) (Hst : hw_idests (k_hw s) = IDE_DRDY) (Hq : k_idequeue s = None).
Definition on_memory : kstate := set_k_disksize FSSIZE s.
Definition block_read : kstate := set_k_idequeue (Some 0%nat) (set_k_hw (set_hw_latch (hw_disk (k_hw s) 7) (k_hw s)) s).
Lemma idle_under_way : under_way s [] on_memory.
Proof.
  split; [split|done]; try done; [apply NoDup_nil_2|rewrite Hlen; simpl; lia|].
  intros b x Hb. by apply elem_of_nil in Hb.
Qed.
Lemma block_read_under_way : k_bufs s !! 0%nat = Some buf7 -> under_way block_read [0%nat] on_memory.
Proof.
  intros Hb. split; [split|done]; simpl; try done; [split; [done|by exists buf7]|apply NoDup_singleton|rewrite Hlen; simpl; lia| |].
  - intros b x ->%list_elem_of_singleton. rewrite Hb. intros Hx. apply (inj Some) in Hx. by subst x.
  - intros x. rewrite Hb. intros Hx. apply (inj Some) in Hx. subst x. by split.
Qed.
Lemma request_on_memory i n ip p b x : request s i n ip p b x -> request on_memory i n ip p b x.
Proof.
  intros [H1 H2 H3 H4 H5 H6 H7 H8]. split; try done. apply (thread_ext s); try done. apply (on_cpu_ext s); try done. apply H1.
Qed.
Lemma block_read_cpu i n p : on_cpu s i n p -> on_cpu block_read i n p.
Proof. intros H. apply (on_cpu_ext (set_k_hw (set_hw_latch (hw_disk (k_hw s) 7) (k_hw s)) s)); try done. by apply on_cpu_hw. Qed.
Lemma block_read_rest lk : (unlocked lk s -> unlocked lk block_read) /\ (table_size s -> table_size block_read) /\ k_disksize on_memory = FSSIZE.
Proof. done. Qed.
End Example.
Lemma reading_facts : length (k_bufs reading) = 31%nat /\ hw_idests (k_hw reading) = IDE_DRDY /\ k_idequeue reading = None /\ k_bufs reading !! 0%nat = Some buf7 /\
  unlocked Lk_ide reading /\ k_havedisk1 reading = 1 /\ (1 <? k_wait reading)%nat = true.
Proof. vm_compute. repeat split. Qed.

Lemma ide_equivalent_witness :
  (exists s1 k, Ide.iderw 0%nat reading = Switch s1 k /\ under_way s1 [0%nat] (on_memory reading)) /\
  exists t' m', Ide.ideintr (block_read reading) = Ret tt t' /\ MemIde.iderw 0%nat (on_memory reading) = Ret tt m' /\ under_way t' [] m'.
Proof.
  destruct reading_facts as (F1 & F2 & F3 & F4 & F5 & F6 & F7%Nat.ltb_lt). pose proof (rq_thread _ _ _ _ _ _ _ reading_request) as HT. split.
  - destruct (ide_equivalent [] (on_memory reading)) as [H _].
    destruct (H reading 0%nat 0%nat _ 0%nat buf7 0%nat reading_request F5 (idle_under_way reading F1 F2 F3) (not_elem_of_nil _) F6 F7)
      as (s1 & k & H1 & H2 & _). exists s1, k. exact (conj H1 H2).
  - destruct (block_read_rest reading Lk_ide) as (G1 & G2 & G3). destruct (block_read_rest reading Lk_ptable) as (G4 & _ & _).
    destruct (ide_equivalent [0%nat] (on_memory reading)) as (_ & H & _).
    destruct (H (block_read reading) 0%nat 0 (Some 0%nat) 0%nat [] eq_refl (block_read_under_way reading F1 F2 F4)
      (block_read_cpu reading _ _ _ (th_cpu _ _ _ _ _ HT)) ltac:(lia) (G2 (th_table _ _ _ _ _ HT)) (G1 F5) (G4 (th_ptable _ _ _ _ _ HT))
      0%nat 0 0%nat _ buf7 (request_on_memory reading _ _ _ _ _ _ reading_request) G3) as (t' & m' & H1 & H2 & H3 & _).
    exists t', m'. exact (conj H1 (conj H2 H3)).
Defined.
