(* ===== verification/Bio.v ===== *)
(** * The buffer cache

    [bio.c], over the interface [DiskDriver].  The doubly linked list of
    buffers is the one of the source: [b_prev] and [b_next] are indices, and
    index [NBUF] is [bcache.head]. *)

From S2P Require Import Prelude Mmu Mem State Spinlock Printk Critical Kalloc Vm Sched Sleeplock Disk.

Definition head : nat := Z.to_nat NBUF.

Definition binit : K unit :=
  initlock Lk_bcache "bcache" ;;
  upd_buf head (set_b_prev head) ;;
  upd_buf head (set_b_next head) ;;
  iter_list (upto NBUF) (fun b =>
    h <- get_buf head ;;
    upd_buf b (set_b_next (b_next h)) ;;
    upd_buf b (set_b_prev head) ;;
    initsleeplock (Sl_buf b) "buffer" ;;
    h <- get_buf head ;;
    upd_buf (b_next h) (set_b_prev b) ;;
    upd_buf head (set_b_next b)).

(** The two searches of [bget]; the list has at most [NBUF] members. *)
Fixpoint bget_find (fuel : nat) (b : nat) (dev blockno : Z) : K (option nat) :=
  if decide (b = head) then ret None else
  match fuel with
  | O => nofuel
  | S f =>
      x <- get_buf b ;;
      if (b_dev x =? dev) && (b_blockno x =? blockno) then ret (Some b)
      else bget_find f (b_next x) dev blockno
  end.
Fixpoint bget_recycle (fuel : nat) (b : nat) : K (option nat) :=
  if decide (b = head) then ret None else
  match fuel with
  | O => nofuel
  | S f =>
      x <- get_buf b ;;
      if (b_refcnt x =? 0) && negb (flag x B_DIRTY) then ret (Some b)
      else bget_recycle f (b_prev x)
  end.
Definition bget (dev blockno : Z) : K nat :=
  acquire Lk_bcache ;;
  h <- get_buf head ;;
  r <- bget_find (Z.to_nat NBUF) (b_next h) dev blockno ;;
  match r with
  | Some b =>
      upd_buf b (fun x => set_b_refcnt (u32 (b_refcnt x + 1)) x) ;;
      release Lk_bcache ;;
      acquiresleep (Sl_buf b) ;;
      ret b
  | None =>
      h <- get_buf head ;;
      r <- bget_recycle (Z.to_nat NBUF) (b_prev h) ;;
      match r with
      | Some b =>
          upd_buf b (set_b_dev dev) ;;
          upd_buf b (set_b_blockno blockno) ;;
          upd_buf b (set_b_flags 0) ;;
          upd_buf b (set_b_refcnt 1) ;;
          release Lk_bcache ;;
          acquiresleep (Sl_buf b) ;;
          ret b
      | None => panic "bget: no buffers"
      end
  end.

Definition brelse (b : nat) : K unit :=
  h <- holdingsleep (Sl_buf b) ;;
  if negb h then panic "brelse" else
  releasesleep (Sl_buf b) ;;
  acquire Lk_bcache ;;
  upd_buf b (fun x => set_b_refcnt (u32 (b_refcnt x - 1)) x) ;;
  x <- get_buf b ;;
  when (b_refcnt x =? 0) (
    upd_buf (b_next x) (set_b_prev (b_prev x)) ;;
    x <- get_buf b ;;
    upd_buf (b_prev x) (set_b_next (b_next x)) ;;
    h <- get_buf head ;;
    upd_buf b (set_b_next (b_next h)) ;;
    upd_buf b (set_b_prev head) ;;
    h <- get_buf head ;;
    upd_buf (b_next h) (set_b_prev b) ;;
    upd_buf head (set_b_next b)) ;;
  release Lk_bcache.

Section Driver.
Context {D : DiskDriver}.

Definition bread (dev blockno : Z) : K nat :=
  b <- bget dev blockno ;;
  x <- get_buf b ;;
  (if negb (flag x B_VALID) then iderw b else ret tt) ;;
  ret b.

Definition bwrite (b : nat) : K unit :=
  h <- holdingsleep (Sl_buf b) ;;
  if negb h then panic "bwrite" else
  upd_buf b (set_flag B_DIRTY) ;;
  iderw b.
End Driver.
