(* ===== verification/BioSpec.v ===== *)
(** * The buffer cache: its list, its contents, and the disk

    The doubly linked list of [bio.c] is the order of last use; [bget] searches
    it forwards for a hit and backwards for a buffer to recycle, [brelse] moves a
    buffer to its front.  On top of that, [bread], [bwrite] and [brelse] are
    given their contract towards the logging layer: reads see the latest write,
    and nothing reaches the disk but what [bwrite] is asked to write. *)

From S2P Require Import Prelude Mmu Bytes Mem State Spinlock Printk Critical Kalloc Vm Sched Sleeplock Disk Bio.

(* ------------------------------------------------------------------ *)
(** ** Doubly linked lists *)

(** From [a] through the members [l] to [z], with both kinds of pointers. *)
Fixpoint chain (N P : nat -> nat) (a : nat) (l : list nat) (z : nat) : Prop :=
  match l with
  | [] => N a = z /\ P z = a
  | b :: l' => N a = b /\ P b = a /\ chain N P b l' z
  end.

Lemma chain_ext N P N' P' l : forall a z,
  (forall x, x ∈ a :: l -> N' x = N x) -> (forall x, x ∈ l ++ [z] -> P' x = P x) ->
  chain N P a l z -> chain N' P' a l z.
Proof.
  induction l as [|b l IH]; intros a z HN HP H; simpl in *.
  - by rewrite HN, HP by set_solver.
  - destruct H as (H1 & H2 & H3). rewrite HN, HP by set_solver. split; [done|]. split; [done|].
    apply IH; [| |done]; intros x Hx; [apply HN|apply HP]; set_solver.
Qed.
Lemma chain_app N P l1 b l2 : forall a z,
  chain N P a (l1 ++ b :: l2) z <-> chain N P a l1 b /\ chain N P b l2 z.
Proof. induction l1 as [|c l1 IH]; intros a z; simpl; [tauto|]. rewrite IH. tauto. Qed.
Lemma chain_next N P a l z : chain N P a l z -> N a ∈ l ++ [z].
Proof. destruct l as [|b l]; simpl; [intros [-> _]|intros [-> _]]; set_solver. Qed.
Lemma chain_prev N P l : forall a z, chain N P a l z -> P z ∈ a :: l.
Proof.
  induction l as [|b l IH]; intros a z H; simpl in H; [destruct H as [_ ->]; set_solver|].
  destruct H as (_ & _ & H). apply IH in H. set_solver.
Qed.

(** [b->next->prev = b->prev; b->prev->next = b->next] *)
Lemma chain_unlink N P l1 b l2 : forall a z,
  chain N P a (l1 ++ b :: l2) z -> NoDup (a :: l1 ++ b :: l2) -> NoDup ((l1 ++ b :: l2) ++ [z]) ->
  chain (fupd N (P b) (N b)) (fupd P (N b) (P b)) a (l1 ++ l2) z.
Proof.
  induction l1 as [|d l1 IH]; intros a z H HN HP.
  - simpl in *. destruct H as (H1 & H2 & H3). rewrite H2. destruct l2 as [|c l2]; simpl in *.
    + destruct H3 as [-> H3]. by rewrite !fupd_same.
    + destruct H3 as (-> & H3 & H4). rewrite !fupd_same. split; [done|]. split; [done|].
      rewrite !NoDup_cons in HN, HP. eapply chain_ext; [| |exact H4]; intros x Hx; apply fupd_other; set_solver.
  - simpl in *. destruct H as (H1 & H2 & H3). pose proof H3 as [Hl1 Hl2]%chain_app.
    pose proof (chain_prev _ _ _ _ _ Hl1) as Hp. pose proof (chain_next _ _ _ _ _ Hl2) as Hn.
    rewrite NoDup_cons in HN, HP. destruct HN as [HN HN'], HP as [HP HP'].
    assert (a <> P b /\ d <> N b) as [Ha Hd] by (clear IH H1 H2 H3 Hl1 Hl2; split; intros E; rewrite <- E in *; set_solver).
    rewrite !fupd_other by done. split; [done|]. split; [done|]. by apply IH.
Qed.
(** [b->next = a->next; b->prev = a; a->next->prev = b; a->next = b] *)
Lemma chain_push N P a l z b :
  chain N P a l z -> NoDup (a :: l) -> NoDup (l ++ [z]) -> b ∉ a :: l -> b <> z ->
  chain (fupd (fupd N b (N a)) a b) (fupd (fupd P b a) (N a) b) a (b :: l) z.
Proof.
  intros H HN HP Hb Hz. pose proof (chain_next _ _ _ _ _ H) as Hn.
  assert (N a <> b) as Hne by set_solver. cbn [chain]. rewrite fupd_same, (fupd_other _ (N a) b b), fupd_same by done.
  split; [done|]. split; [done|]. rewrite NoDup_cons in HN. destruct HN as [HN _].
  destruct l as [|c l]; simpl in *.
  - destruct H as [-> H]. by rewrite fupd_other, !fupd_same by set_solver.
  - destruct H as (-> & H1 & H2). rewrite fupd_other, !fupd_same by set_solver. split; [done|]. split; [done|].
    rewrite NoDup_cons in HP. eapply chain_ext; [| |exact H2]; intros x Hx.
    + rewrite !fupd_other; set_solver.
    + rewrite !fupd_other; set_solver.
Qed.

(** A circular list with [h] as its head: the members [l], each once. *)
Definition circle (N P : nat -> nat) (h : nat) (l : list nat) : Prop := chain N P h l h /\ NoDup (h :: l).

Lemma circle_rotate h (l : list nat) : NoDup (h :: l) -> NoDup (l ++ [h]).
Proof. intros H. rewrite Permutation_app_comm. done. Qed.

Lemma circle_front N P h l1 b l2 :
  circle N P h (l1 ++ b :: l2) ->
  let N1 := fupd N (P b) (N b) in let P1 := fupd P (N b) (P b) in
  circle (fupd (fupd N1 b (N1 h)) h b) (fupd (fupd P1 b h) (N1 h) b) h (b :: l1 ++ l2).
Proof.
  intros [H HN] N1 P1. pose proof (circle_rotate _ _ HN) as HP.
  assert (Permutation (h :: l1 ++ b :: l2) (b :: h :: l1 ++ l2)) as Hperm by solve_Permutation.
  assert (NoDup (b :: h :: l1 ++ l2)) as HN2 by (by rewrite <- Hperm). apply NoDup_cons in HN2 as [Hb HN2].
  split.
  - apply chain_push; [by apply chain_unlink|done|by apply circle_rotate|done|set_solver].
  - rewrite NoDup_cons in HN2 |- *. destruct HN2 as [Hh HN2]. rewrite NoDup_cons. set_solver.
Qed.

(* ------------------------------------------------------------------ *)
(** ** The list of buffers *)

Definition nx (bs : list buf) (i : nat) : nat := from_option b_next 0%nat (bs !! i).
Definition prv (bs : list buf) (i : nat) : nat := from_option b_prev 0%nat (bs !! i).
(** A buffer without its place in the list. *)
Definition core (x : buf) : buf := set_b_prev 0%nat (set_b_next 0%nat x).
Definition same_core (bs bs' : list buf) : Prop := core <$> bs' = core <$> bs.

(** [order] is the list, most recently used buffer first. *)
Record lru (bs : list buf) (order : list nat) : Prop := mk_lru {
  lru_size : length bs = S (Z.to_nat NBUF);
  lru_circle : circle (nx bs) (prv bs) head order;
  lru_all : Permutation order (seq 0 (Z.to_nat NBUF)) }.

Lemma lru_bound bs order b : lru bs order -> b ∈ order <-> (b < head)%nat.
Proof. intros [_ _ H]. rewrite H, elem_of_seq. unfold head. lia. Qed.
Lemma lru_length bs order : lru bs order -> length order = Z.to_nat NBUF.
Proof. intros [_ _ H]. by rewrite H, length_seq. Qed.
Lemma lru_lookup bs order b : lru bs order -> (b <= head)%nat -> exists x, bs !! b = Some x /\ nx bs b = b_next x /\ prv bs b = b_prev x.
Proof.
  intros [Hl _ _] Hb. destruct (lookup_lt_is_Some_2 bs b) as [x Hx]; [unfold head in *; lia|].
  exists x. unfold nx, prv. by rewrite Hx.
Qed.

Lemma same_core_length bs bs' : same_core bs bs' -> length bs' = length bs.
Proof. intros H. apply (f_equal length) in H. by rewrite !length_fmap in H. Qed.
Lemma same_core_lookup bs bs' i x :
  same_core bs bs' -> bs !! i = Some x -> exists x', bs' !! i = Some x' /\ core x' = core x.
Proof.
  intros H Hx. assert ((core <$> bs') !! i = Some (core x)) as E by (rewrite H, list_lookup_fmap, Hx; done).
  rewrite list_lookup_fmap in E. destruct (bs' !! i) as [x'|]; [|done]. simpl in E. exists x'. split; [done|]. congruence.
Qed.

Lemma fupd_ext {B} (f g : nat -> B) a v : (forall j, f j = g j) -> forall j, fupd f a v j = fupd g a v j.
Proof. intros H j. unfold fupd. by destruct (decide (j = a)). Qed.

(** The state [s0] with its pointers changed to [N] and [P]. *)
Record relinked (s0 s : kstate) (N P : nat -> nat) : Prop := mk_relinked {
  rl_state : s = set_k_bufs (k_bufs s) s0;
  rl_core : same_core (k_bufs s0) (k_bufs s);
  rl_size : length (k_bufs s) = S head;
  rl_next : forall j, nx (k_bufs s) j = N j;
  rl_prev : forall j, prv (k_bufs s) j = P j }.

(** One pointer read, one pointer assignment. *)
Lemma relinked_get s0 s N P i :
  relinked s0 s N P -> (i <= head)%nat -> exists x, get_buf i s = Ret x s /\ b_next x = N i /\ b_prev x = P i.
Proof.
  intros [_ _ Hl HN HP] Hi. destruct (lookup_lt_is_Some_2 (k_bufs s) i) as [x Hx]; [lia|]. exists x.
  rewrite (get_buf_ok s i x Hx), <- HN, <- HP. unfold nx, prv. by rewrite Hx.
Qed.
Lemma relinked_upd s0 s N P i f :
  relinked s0 s N P -> (i <= head)%nat -> (forall x, core (f x) = core x) ->
  exists s' x, upd_buf i f s = Ret tt s' /\ relinked s0 s' (fupd N i (b_next (f x))) (fupd P i (b_prev (f x))) /\
    b_next x = N i /\ b_prev x = P i.
Proof.
  intros [Hs Hc Hl HN HP] Hi Hf. destruct (lookup_lt_is_Some_2 (k_bufs s) i) as [x Hx]; [lia|].
  eexists _, x. split; [by apply upd_buf_ok|]. split; [split|].
  - rewrite Hs. done.
  - unfold same_core in *. simpl. rewrite list_fmap_insert, Hf, Hc. apply list_insert_id.
    by rewrite <- Hc, list_lookup_fmap, Hx.
  - simpl. by rewrite length_insert.
  - intros j. simpl. unfold nx, fupd. destruct (decide (j = i)) as [->|]; [by rewrite list_lookup_insert_eq by lia|].
    rewrite list_lookup_insert_ne by done. apply HN.
  - intros j. simpl. unfold prv, fupd. destruct (decide (j = i)) as [->|]; [by rewrite list_lookup_insert_eq by lia|].
    rewrite list_lookup_insert_ne by done. apply HP.
  - rewrite <- HN, <- HP. unfold nx, prv. by rewrite Hx.
Qed.
Lemma relinked_ext s0 s N P N' P' :
  (forall j, N' j = N j) -> (forall j, P' j = P j) -> relinked s0 s N P -> relinked s0 s N' P'.
Proof. intros HN HP [H1 H2 H3 H4 H5]. split; try done; intros j; [by rewrite HN|by rewrite HP]. Qed.
Lemma fupd_id {B} (f : nat -> B) a v : f a = v -> forall j, f j = fupd f a v j.
Proof. intros H j. unfold fupd. by destruct (decide (j = a)) as [->|]. Qed.
Lemma relinked_next s0 s N P i v :
  relinked s0 s N P -> (i <= head)%nat -> exists s', upd_buf i (set_b_next v) s = Ret tt s' /\ relinked s0 s' (fupd N i v) P.
Proof.
  intros H Hi. destruct (relinked_upd s0 s N P i (set_b_next v) H Hi) as (s' & x & Hr & H' & _ & Ep); [done|].
  exists s'. split; [done|]. eapply relinked_ext; [done| |exact H']. by apply fupd_id.
Qed.
Lemma relinked_prev s0 s N P i v :
  relinked s0 s N P -> (i <= head)%nat -> exists s', upd_buf i (set_b_prev v) s = Ret tt s' /\ relinked s0 s' N (fupd P i v).
Proof.
  intros H Hi. destruct (relinked_upd s0 s N P i (set_b_prev v) H Hi) as (s' & x & Hr & H' & En & _); [done|].
  exists s'. split; [done|]. eapply relinked_ext; [|done|exact H']. by apply fupd_id.
Qed.
Lemma relinked_refl s : length (k_bufs s) = S head -> relinked s s (nx (k_bufs s)) (prv (k_bufs s)).
Proof. intros H. split; try done. by destruct s. Qed.

(** The pointer assignments of [brelse]: [b] moves to the front. *)
Definition to_front (b : nat) (x : buf) : K unit :=
  upd_buf (b_next x) (set_b_prev (b_prev x)) ;;
  x <- get_buf b ;;
  upd_buf (b_prev x) (set_b_next (b_next x)) ;;
  h <- get_buf head ;;
  upd_buf b (set_b_next (b_next h)) ;;
  upd_buf b (set_b_prev head) ;;
  h <- get_buf head ;;
  upd_buf (b_next h) (set_b_prev b) ;;
  upd_buf head (set_b_next b).

Lemma lru_neighbours bs l1 b l2 :
  lru bs (l1 ++ b :: l2) -> let N := nx bs in let P := prv bs in
  (b <= head /\ N b <= head /\ P b <= head /\ fupd N (P b) (N b) head <= head)%nat /\ b <> head /\ N b <> b.
Proof.
  intros HL N P. pose proof HL as [Hlen [Hch HN] _]. pose proof Hch as [Hc1 Hc2]%chain_app.
  assert (forall x, x ∈ (l1 ++ b :: l2) ++ [head] -> (x <= head)%nat) as Hin.
  { intros x [Hx%(lru_bound _ _ _ HL)|Hx%list_elem_of_singleton]%elem_of_app; lia. }
  pose proof (chain_next _ _ _ _ _ Hc2) as H2. pose proof (chain_prev _ _ _ _ _ Hc1) as H1.
  assert (N b <= head)%nat by (apply Hin; set_solver).
  split; [split; [apply Hin; set_solver|split; [done|split; [apply Hin; set_solver|]]]|].
  - unfold fupd. destruct (decide (head = P b)); [done|]. apply Hin. by apply (chain_next _ _ _ _ _ Hch).
  - apply NoDup_cons in HN as [Hh HN]. split; [set_solver|].
    apply NoDup_app in HN as (_ & _ & HN%NoDup_cons). destruct HN as [HN _].
    intros E. fold N in H2. rewrite E in H2. set_solver.
Qed.

Lemma to_front_run s l1 b l2 x :
  lru (k_bufs s) (l1 ++ b :: l2) -> k_bufs s !! b = Some x ->
  exists bs, to_front b x s = Ret tt (set_k_bufs bs s) /\ same_core (k_bufs s) bs /\ lru bs (b :: l1 ++ l2).
Proof.
  intros HL Hx. pose proof HL as [Hlen Hcir Hperm].
  destruct (lru_neighbours _ _ _ _ HL) as ((Hb & HNb & HPb & HN1h) & Hbh & HNb').
  set (N := nx (k_bufs s)) in *. set (P := prv (k_bufs s)) in *.
  set (N1 := fupd N (P b) (N b)) in *. set (P1 := fupd P (N b) (P b)).
  assert (b_next x = N b /\ b_prev x = P b) as [En0 Ep0] by (unfold N, P, nx, prv; by rewrite Hx).
  destruct (relinked_prev s s N P (N b) (P b) (relinked_refl s Hlen) HNb) as (s1 & Hr1 & R1). fold P1 in R1.
  destruct (relinked_get _ _ _ _ b R1 Hb) as (x2 & Hg2 & En2 & Ep2). unfold P1 in Ep2. rewrite fupd_other in Ep2 by done.
  destruct (relinked_next _ _ _ _ (P b) (N b) R1 HPb) as (s2 & Hr2 & R2). fold N1 in R2.
  destruct (relinked_get _ _ _ _ head R2 (Nat.le_refl _)) as (x3 & Hg3 & En3 & _).
  destruct (relinked_next _ _ _ _ b (N1 head) R2 Hb) as (s3 & Hr3 & R3).
  destruct (relinked_prev _ _ _ _ b head R3 Hb) as (s4 & Hr4 & R4).
  destruct (relinked_get _ _ _ _ head R4 (Nat.le_refl _)) as (x5 & Hg5 & En5 & _). rewrite fupd_other in En5 by done.
  destruct (relinked_prev _ _ _ _ (N1 head) b R4 HN1h) as (s5 & Hr5 & R5).
  destruct (relinked_next _ _ _ _ head b R5 (Nat.le_refl _)) as (s6 & Hr6 & R6).
  exists (k_bufs s6). split; [|split; [apply R6|]].
  - unfold to_front. rewrite En0, Ep0. run Hr1. run Hg2. rewrite En2, Ep2. run Hr2. run Hg3. rewrite En3. run Hr3. run Hr4. run Hg5. rewrite En5.
    run Hr5. rewrite Hr6. f_equal. apply R6.
  - split; [apply R6| |rewrite <- Hperm; solve_Permutation].
    destruct (circle_front N P head l1 b l2 Hcir) as [Hc HN]. split; [|done].
    eapply chain_ext; [| |exact Hc]; intros j _; apply R6.
Qed.

(* ------------------------------------------------------------------ *)
(** ** The searches of [bget] *)

Definition hit (bs : list buf) (dev blockno : Z) (b : nat) : bool :=
  match bs !! b with Some x => (b_dev x =? dev) && (b_blockno x =? blockno) | None => false end.
Definition recyclable (bs : list buf) (b : nat) : bool :=
  match bs !! b with Some x => (b_refcnt x =? 0) && negb (flag x B_DIRTY) | None => false end.

Lemma bget_find_run s dev blockno l : forall a fuel,
  chain (nx (k_bufs s)) (prv (k_bufs s)) a l head -> head ∉ l ->
  (forall x, x ∈ l -> (x < length (k_bufs s))%nat) -> (length l <= fuel)%nat ->
  bget_find fuel (nx (k_bufs s) a) dev blockno s = Ret (List.find (hit (k_bufs s) dev blockno) l) s.
Proof.
  induction l as [|b l IH]; intros a fuel Hch Hh Hin Hf; cbn [chain] in Hch.
  - destruct Hch as [-> _]. destruct fuel; cbn [bget_find]; by destruct (decide (head = head)).
  - destruct Hch as (-> & _ & Hch). apply not_elem_of_cons in Hh as [Hb Hh]. destruct fuel as [|f]; [simpl in Hf; lia|].
    cbn [bget_find]. destruct (decide (b = head)) as [|_]; [congruence|].
    destruct (lookup_lt_is_Some_2 (k_bufs s) b) as [x Hx]; [apply Hin; set_solver|].
    run (get_buf_ok s b x Hx). cbn [List.find]. unfold hit at 1. rewrite Hx.
    destruct ((b_dev x =? dev) && (b_blockno x =? blockno)); [done|].
    assert (b_next x = nx (k_bufs s) b) as -> by (unfold nx; by rewrite Hx).
    apply IH; [done|done| |simpl in Hf; lia]. intros y Hy. apply Hin. set_solver.
Qed.

Lemma bget_recycle_run s l : forall z fuel,
  chain (nx (k_bufs s)) (prv (k_bufs s)) head l z -> head ∉ l ->
  (forall x, x ∈ l -> (x < length (k_bufs s))%nat) -> (length l <= fuel)%nat ->
  bget_recycle fuel (prv (k_bufs s) z) s = Ret (List.find (recyclable (k_bufs s)) (rev l)) s.
Proof.
  induction l as [|b l IH] using rev_ind; intros z fuel Hch Hh Hin Hf.
  - destruct Hch as [_ ->]. destruct fuel; cbn [bget_recycle]; by destruct (decide (head = head)).
  - apply chain_app in Hch as [Hch [_ ->]]. rewrite length_app in Hf. simpl in Hf. destruct fuel as [|f]; [lia|].
    assert (b <> head) by set_solver. cbn [bget_recycle]. destruct (decide (b = head)) as [|_]; [congruence|].
    destruct (lookup_lt_is_Some_2 (k_bufs s) b) as [x Hx]; [apply Hin; set_solver|].
    run (get_buf_ok s b x Hx). rewrite rev_app_distr. cbn [rev app List.find]. unfold recyclable at 1. rewrite Hx.
    destruct ((b_refcnt x =? 0) && negb (flag x B_DIRTY)); [done|].
    assert (b_prev x = prv (k_bufs s) b) as -> by (unfold prv; by rewrite Hx).
    apply IH; [done|set_solver| |lia]. intros y Hy. apply Hin. set_solver.
Qed.

(** Both searches, from the head of a well-formed list. *)
Lemma bget_searches s order dev blockno :
  lru (k_bufs s) order -> exists h, get_buf head s = Ret h s /\
    bget_find (Z.to_nat NBUF) (b_next h) dev blockno s = Ret (List.find (hit (k_bufs s) dev blockno) order) s /\
    bget_recycle (Z.to_nat NBUF) (b_prev h) s = Ret (List.find (recyclable (k_bufs s)) (rev order)) s.
Proof.
  intros HL. pose proof HL as [Hlen [Hch HN] Hp]. destruct (lru_lookup _ _ head HL (Nat.le_refl _)) as (h & Hh & En & Ep).
  exists h. rewrite <- En, <- Ep. split; [by apply get_buf_ok|].
  assert (forall x, x ∈ order -> (x < length (k_bufs s))%nat) as Hin.
  { intros x Hx%(lru_bound _ _ _ HL). rewrite Hlen. unfold head in Hx. lia. }
  apply NoDup_cons in HN as [Hnh _]. pose proof (lru_length _ _ HL) as Hl.
  split; [apply bget_find_run|apply bget_recycle_run]; try done; lia.
Qed.

Lemma find_some_elem {A} (f : A -> bool) l x : List.find f l = Some x -> x ∈ l /\ f x = true.
Proof. intros H. apply List.find_some in H as [H1 H2]. split; [by apply list_elem_of_In|done]. Qed.
Lemma elem_of_rev {A} (l : list A) x : x ∈ rev l <-> x ∈ l.
Proof. rewrite !list_elem_of_In. symmetry. apply in_rev. Qed.
Lemma find_split {A} (f : A -> bool) l x :
  List.find f l = Some x -> exists l1 l2, l = l1 ++ x :: l2 /\ f x = true /\ forall y, y ∈ l1 -> f y = false.
Proof.
  induction l as [|a l IH]; simpl; [done|]. destruct (f a) eqn:E.
  - intros [= ->]. exists [], l. split; [done|]. split; [done|]. intros y []%not_elem_of_nil.
  - intros (l1 & l2 & -> & Hx & Hl)%IH. exists (a :: l1), l2. split; [done|]. split; [done|].
    intros y [->|Hy]%elem_of_cons; [done|by apply Hl].
Qed.
Lemma find_none_elem {A} (f : A -> bool) l x : List.find f l = None -> x ∈ l -> f x = false.
Proof. intros H Hx. eapply List.find_none; [done|]. by apply list_elem_of_In. Qed.

(* ------------------------------------------------------------------ *)
(** ** The contents of the cache

    [V] is what the kernel sees of each block, [Dk] what is on the disk, [held]
    the buffers whose lock the running process (its pid is [pid]) has taken. *)

Record buf_ok (pid : Z) (held : list nat) (V : Z -> list Z) (sl : slid -> sleeplock) (b : nat) (x : buf) : Prop := mk_buf_ok {
  bo_ref : 0 <= b_refcnt x <= 2 ^ 31;
  bo_free : b ∉ held -> b_refcnt x < 2 ^ 31 /\ sl_locked (sl (Sl_buf b)) = 0;
  bo_held : b ∈ held -> 0 < b_refcnt x /\ sl_locked (sl (Sl_buf b)) = 1 /\ sl_pid (sl (Sl_buf b)) = pid /\
    b_dev x = 1 /\ 0 <= b_blockno x < FSSIZE /\ flag x B_VALID = true;
  bo_data : b_dev x = 1 -> flag x B_VALID = true -> b_data x = V (b_blockno x);
  bo_dirty : flag x B_DIRTY = true -> flag x B_VALID = true }.

Record cache_data (pid : Z) (bs : list buf) (sl : slid -> sleeplock) (held : list nat) (V Dk : Z -> list Z) : Prop := mk_cache_data {
  cd_lru : exists order, lru bs order;
  cd_bufs : forall b x, (b < head)%nat -> bs !! b = Some x -> buf_ok pid held V sl b x;
  cd_once : forall b c x y, (b < head)%nat -> (c < head)%nat -> bs !! b = Some x -> bs !! c = Some y ->
    b_dev x = 1 -> b_dev y = 1 -> b_blockno x = b_blockno y -> b = c;
  cd_coherent : forall k, V k = Dk k \/
    exists b x, (b < head)%nat /\ bs !! b = Some x /\ b_dev x = 1 /\ b_blockno x = k /\ flag x B_VALID = true /\
      (flag x B_DIRTY = true \/ b ∈ held) }.

Lemma lru_insert bs order b x y :
  lru bs order -> bs !! b = Some x -> b_next y = b_next x -> b_prev y = b_prev x -> lru (<[b := y]> bs) order.
Proof.
  intros [H1 [Hc HN] H3] Hx En Ep. split; [by rewrite length_insert| |done]. split; [|done].
  assert (b < length bs)%nat by (by eapply lookup_lt_Some).
  eapply chain_ext; [| |exact Hc]; intros j _; unfold nx, prv; (destruct (decide (j = b)) as [->|];
    [rewrite list_lookup_insert_eq by done; by rewrite Hx|by rewrite list_lookup_insert_ne]).
Qed.

(** One buffer changes; its list pointers do not.  The other buffers keep their
    meaning if none of them is for the same block. *)
Section Insert.
Context (pid : Z) (bs : list buf) (sl sl' : slid -> sleeplock) (held held' : list nat) (V V' Dk Dk' : Z -> list Z).
Context (b : nat) (x y : buf).
Context (HC : cache_data pid bs sl held V Dk) (Hb : (b < head)%nat) (Hx : bs !! b = Some x).
Context (Hnext : b_next y = b_next x) (Hprev : b_prev y = b_prev x).
Context (Hsl : forall c, c <> b -> sl' (Sl_buf c) = sl (Sl_buf c)).
Context (Hheld : forall c, c <> b -> c ∈ held' <-> c ∈ held).
Context (Hy : buf_ok pid held' V' sl' b y).
Context (HV : forall c z, (c < head)%nat -> c <> b -> bs !! c = Some z -> b_dev z = 1 -> V' (b_blockno z) = V (b_blockno z)).
Context (Hother : b_dev y = 1 -> forall c z, (c < head)%nat -> c <> b -> bs !! c = Some z -> b_dev z = 1 -> b_blockno z <> b_blockno y).
Context (Hcoh : forall k, V' k = Dk' k \/ (b_dev y = 1 /\ b_blockno y = k /\ flag y B_VALID = true /\ (flag y B_DIRTY = true \/ b ∈ held')) \/
  exists c z, (c < head)%nat /\ c <> b /\ bs !! c = Some z /\ b_dev z = 1 /\ b_blockno z = k /\ flag z B_VALID = true /\
    (flag z B_DIRTY = true \/ c ∈ held)).

Lemma cache_data_insert : cache_data pid (<[b := y]> bs) sl' held' V' Dk'.
Proof.
  destruct HC as [[order HL] Hbuf Honce _]. assert (b < length bs)%nat as Hlt by (by eapply lookup_lt_Some).
  assert (forall c z, <[b := y]> bs !! c = Some z -> (c = b /\ z = y) \/ (c <> b /\ bs !! c = Some z)) as Hcase.
  { intros c z Hz. apply list_lookup_insert_Some in Hz as [(<- & <- & _)|[Hne Hz]]; [by left|right; by split]. }
  split.
  - exists order. by eapply lru_insert.
  - intros c z Hc Hz. destruct (Hcase c z Hz) as [[-> ->]|[Hne Hz']]; [done|].
    destruct (Hbuf c z Hc Hz') as [H1 H2 H3 H4 H5]. split; try done.
    + rewrite Hheld, Hsl by done. done.
    + rewrite Hheld, Hsl by done. done.
    + intros Hd Hv. rewrite (HV c z) by done. auto.
  - intros c d z w Hc Hd Hz Hw Hdz Hdw E.
    destruct (Hcase c z Hz) as [[-> ->]|[Hne Hz']], (Hcase d w Hw) as [[-> ->]|[Hne' Hw']]; try done.
    + exfalso. by apply (Hother Hdz d w).
    + exfalso. by apply (Hother Hdw c z).
    + by apply (Honce c d z w).
  - intros k. destruct (Hcoh k) as [E|[(H1 & H2 & H3 & H4)|(c & z & H1 & H2 & H3 & H4 & H5 & H6 & H7)]]; [by left|right..].
    + exists b, y. rewrite list_lookup_insert_eq by done. done.
    + exists c, z. rewrite list_lookup_insert_ne by done. rewrite Hheld by done. done.
Qed.
End Insert.

(** ** Flags *)
Lemma flag_valid x : flag x B_VALID = Z.testbit (b_flags x) 1.
Proof. apply (has_bit (b_flags x) 1). lia. Qed.
Lemma flag_dirty x : flag x B_DIRTY = Z.testbit (b_flags x) 2.
Proof. apply (has_bit (b_flags x) 2). lia. Qed.
Ltac flags := unfold synced; rewrite ?flag_valid, ?flag_dirty; unfold set_flag, clear_flag; cbn [b_flags set_b_flags set_b_data];
  rewrite ?Z.lor_spec, ?Z.ldiff_spec, ?Z.lor_spec.
Lemma set_dirty_flags x : flag (set_flag B_DIRTY x) B_DIRTY = true /\ flag (set_flag B_DIRTY x) B_VALID = flag x B_VALID.
Proof. split; flags; [apply orb_true_r|apply orb_false_r]. Qed.
Lemma synced_clean d x : flag (synced d x) B_VALID = true /\ flag (synced d x) B_DIRTY = false.
Proof.
  unfold synced. destruct (flag x B_DIRTY) eqn:E; split; flags; try (by rewrite orb_true_r); rewrite ?orb_false_r.
  - apply andb_false_r.
  - by rewrite flag_dirty in E.
Qed.

(** ** The transitions of the cache *)
Section Transitions.
Context (pid : Z) (bs : list buf) (sl sl' : slid -> sleeplock) (held : list nat) (V Dk : Z -> list Z).
Context (b : nat) (x : buf).
Context (HC : cache_data pid bs sl held V Dk) (Hb : (b < head)%nat) (Hx : bs !! b = Some x).
Context (Hsl : forall c, c <> b -> sl' (Sl_buf c) = sl (Sl_buf c)).

(** The only witness of a block the cache is ahead of is not [b]. *)
Lemma coherent_others k :
  (flag x B_DIRTY = false -> b ∉ held -> V k = Dk k \/
    exists c z, (c < head)%nat /\ c <> b /\ bs !! c = Some z /\ b_dev z = 1 /\ b_blockno z = k /\ flag z B_VALID = true /\
      (flag z B_DIRTY = true \/ c ∈ held)) /\
  (b_dev x = 1 -> b_blockno x <> k -> V k = Dk k \/
    exists c z, (c < head)%nat /\ c <> b /\ bs !! c = Some z /\ b_dev z = 1 /\ b_blockno z = k /\ flag z B_VALID = true /\
      (flag z B_DIRTY = true \/ c ∈ held)).
Proof.
  destruct (cd_coherent _ _ _ _ _ _ HC k) as [E|(c & z & H1 & H2 & H3 & H4 & H5 & H6)]; [by split; left|].
  split.
  - intros Hd Hn. right. exists c, z. assert (c <> b); [|done]. intros ->. rewrite Hx in H2. inversion H2; subst.
    destruct H6; congruence.
  - intros Hd Hn. right. exists c, z. assert (c <> b); [|done]. intros ->. rewrite Hx in H2. inversion H2; subst. done.
Qed.

(** [bget] takes a cached buffer, or one it has just filled. *)
Lemma cache_take y :
  b ∉ held -> flag x B_DIRTY = flag y B_DIRTY \/ flag x B_DIRTY = false ->
  b_next y = b_next x -> b_prev y = b_prev x -> b_dev y = 1 -> 0 <= b_blockno y < FSSIZE ->
  flag y B_VALID = true -> b_data y = V (b_blockno y) -> 0 < b_refcnt y <= 2 ^ 31 ->
  (b_dev x = 1 /\ b_blockno x = b_blockno y \/ flag x B_DIRTY = false) ->
  (forall c z, (c < head)%nat -> c <> b -> bs !! c = Some z -> b_dev z = 1 -> b_blockno z <> b_blockno y) ->
  sl_locked (sl' (Sl_buf b)) = 1 -> sl_pid (sl' (Sl_buf b)) = pid ->
  cache_data pid (<[b := y]> bs) sl' (b :: held) V Dk.
Proof.
  intros Hnh Hdy Hnx Hpv Hdev Hblk Hval Hdat Href Hsame Hoth Hlk Hpid.
  eapply cache_data_insert; try done.
  - intros c Hc. rewrite elem_of_cons. tauto.
  - split; try done; [lia|intros Hn; set_solver|intros _; by repeat split; try lia].
  - intros k. destruct (decide (k = b_blockno y)) as [->|Hk].
    + right. left. repeat split; try done. right. set_solver.
    + destruct (coherent_others k) as [H1 H2]. destruct Hsame as [[Hd Hbl]|Hcl].
      * destruct H2 as [E|E]; [done|congruence|by left|by right; right].
      * destruct (H1 Hcl Hnh) as [E|E]; [by left|by right; right].
Qed.

(** Storing into a buffer that is held. *)
Lemma cache_store d :
  b ∈ held -> cache_data pid (<[b := set_b_data d x]> bs) sl held (fupd V (b_blockno x) d) Dk.
Proof.
  intros Hh. pose proof (cd_bufs _ _ _ _ _ _ HC b x Hb Hx) as [H1 H2 H3 H4 H5]. destruct (H3 Hh) as (Hr & Hl & Hp & Hd & Hk & Hv).
  assert (forall c z, (c < head)%nat -> c <> b -> bs !! c = Some z -> b_dev z = 1 -> b_blockno z <> b_blockno x) as Hoth.
  { intros c z Hc Hne Hz Hdz E. apply Hne. by apply (cd_once _ _ _ _ _ _ HC c b z x). }
  eapply cache_data_insert; try done.
  - split; try done. intros _ _. simpl. by rewrite fupd_same.
  - intros c z Hc Hne Hz Hdz. apply fupd_other. by eapply Hoth.
  - intros k. destruct (decide (k = b_blockno x)) as [->|Hne]; [right; left; by repeat split; try right|].
    rewrite fupd_other by done. destruct (coherent_others k) as [_ H6]. destruct H6 as [E|E]; [done|congruence|by left|by right; right].
Qed.

(** Marking a held buffer dirty. *)
Lemma cache_dirty : b ∈ held -> cache_data pid (<[b := set_flag B_DIRTY x]> bs) sl held V Dk.
Proof.
  intros Hh. pose proof (cd_bufs _ _ _ _ _ _ HC b x Hb Hx) as [H1 H2 H3 H4 H5]. destruct (H3 Hh) as (Hr & Hl & Hp & Hd & Hk & Hv).
  destruct (set_dirty_flags x) as [F1 F2].
  eapply cache_data_insert; try done.
  - split; try done; rewrite ?F2; try done. 
  - intros _ c z Hc Hne Hz Hdz E. apply Hne. by apply (cd_once _ _ _ _ _ _ HC c b z x).
  - intros k. destruct (decide (k = b_blockno x)) as [->|Hne].
    + right. left. rewrite F1, F2. by repeat split; try left.
    + destruct (coherent_others k) as [_ H6]. destruct H6 as [E|E]; [done|congruence|by left|by right; right].
Qed.

(** The driver writes a held dirty buffer to the disk. *)
Lemma cache_sync y :
  b ∈ held -> b_next y = b_next x -> b_prev y = b_prev x -> b_dev y = b_dev x -> b_blockno y = b_blockno x ->
  b_refcnt y = b_refcnt x -> b_data y = b_data x -> flag y B_VALID = true ->
  cache_data pid (<[b := y]> bs) sl held V (fupd Dk (b_blockno x) (V (b_blockno x))).
Proof.
  intros Hh Hnx Hpv E1 E2 E3 E4 Hval.
  pose proof (cd_bufs _ _ _ _ _ _ HC b x Hb Hx) as [H1 H2 H3 H4 H5]. destruct (H3 Hh) as (Hr & Hl & Hp & Hd & Hk & Hv).
  eapply cache_data_insert; try done.
  - split; rewrite ?E1, ?E2, ?E3, ?E4; [done|done|intros _; repeat (split; [done|]); done|intros _ _; by apply H4|done].
  - rewrite E1, E2. intros _ c z Hc Hne Hz Hdz E. apply Hne. by apply (cd_once _ _ _ _ _ _ HC c b z x).
  - intros k. destruct (decide (k = b_blockno x)) as [->|Hne]; [left; by rewrite fupd_same|].
    rewrite fupd_other by done. destruct (coherent_others k) as [_ H6]. destruct H6 as [E|E]; [done|congruence|by left|by right; right].
Qed.

(** [brelse] gives up a buffer that agrees with the disk or is pinned. *)
Lemma cache_put held' y :
  b ∈ held -> (forall c, c ∈ held' <-> c ∈ held /\ c <> b) ->
  b_next y = b_next x -> b_prev y = b_prev x -> b_dev y = b_dev x -> b_blockno y = b_blockno x ->
  b_flags y = b_flags x -> b_data y = b_data x -> b_refcnt y = b_refcnt x - 1 ->
  V (b_blockno x) = Dk (b_blockno x) \/ flag x B_DIRTY = true -> sl_locked (sl' (Sl_buf b)) = 0 ->
  cache_data pid (<[b := y]> bs) sl' held' V Dk.
Proof.
  intros Hh Hh' Hnx Hpv E1 E2 E3 E4 E5 Hcl Hsb.
  pose proof (cd_bufs _ _ _ _ _ _ HC b x Hb Hx) as [H1 H2 H3 H4 H5]. destruct (H3 Hh) as (Hr & Hl & Hp & Hd & Hk & Hv).
  assert (forall m, flag y m = flag x m) as Ef by (intros m; unfold flag; by rewrite E3).
  eapply cache_data_insert; try done.
  - intros c Hc. rewrite Hh'. tauto.
  - split; rewrite ?E1, ?E2, ?E4, ?E5, ?Ef; try done; [lia|intros _; split; [lia|done]|].
    intros Hn%Hh'. tauto.
  - rewrite E1, E2. intros _ c z Hc Hne Hz Hdz E. apply Hne. by apply (cd_once _ _ _ _ _ _ HC c b z x).
  - intros k. destruct (decide (k = b_blockno x)) as [->|Hne].
    + destruct Hcl as [Hcl|Hcl]; [by left|]. right. left. rewrite E1, E2, !Ef. by repeat split; try left.
    + destruct (coherent_others k) as [_ H6]. destruct H6 as [E|E]; [done|congruence|by left|].
      right. right. destruct E as (c & z & G1 & G2 & G3). exists c, z. done.
Qed.
End Transitions.

(** the searches of [bget] end within [NBUF] steps on every well-formed
    list.  The first finds the buffer of the block if there is one; the second
    finds the least recently used buffer that is unreferenced and clean, if
    there is one: every buffer used longer ago is in use or dirty. *)
Theorem bget_searches_end s order dev blockno :
  lru (k_bufs s) order ->
  exists h r v, get_buf head s = Ret h s /\
    bget_find (Z.to_nat NBUF) (b_next h) dev blockno s = Ret r s /\
    bget_recycle (Z.to_nat NBUF) (b_prev h) s = Ret v s /\
    match r with
    | Some b => hit (k_bufs s) dev blockno b = true
    | None => forall b, (b < head)%nat -> hit (k_bufs s) dev blockno b = false
    end /\
    match v with
    | Some b => exists newer older, order = newer ++ b :: older /\ recyclable (k_bufs s) b = true /\
        forall c, c ∈ older -> recyclable (k_bufs s) c = false
    | None => forall b, (b < head)%nat -> recyclable (k_bufs s) b = false
    end.
Proof.
  intros HL. destruct (bget_searches s order dev blockno HL) as (h & Hg & Hf & Hr).
  eexists h, _, _. split; [done|]. split; [exact Hf|]. split; [exact Hr|]. split.
  - destruct (List.find _ order) as [b|] eqn:E; [apply find_some_elem in E as [_ E]; exact E|].
    intros b Hb. eapply find_none_elem; [exact E|]. by apply (lru_bound _ _ _ HL).
  - destruct (List.find _ (rev order)) as [b|] eqn:E.
    + apply find_split in E as (l1 & l2 & E & Hb & Hl). exists (rev l2), (rev l1).
      split; [|split; [done|intros c Hc; apply Hl; by apply elem_of_rev]].
      rewrite <- (rev_involutive order), E, rev_app_distr; simpl. by rewrite <- app_assoc.
    + intros b Hb. eapply find_none_elem; [exact E|]. apply elem_of_rev. by apply (lru_bound _ _ _ HL).
Qed.

(* ------------------------------------------------------------------ *)
(** ** The list as [binit] makes it *)

(** The buffers as [binit] links them. *)
Definition linked_bufs : list buf := match binit boot with Ret _ t => k_bufs t | _ => [] end.
(** Buffers that hold no block of device 1 and are not in use. *)
Definition idle_buf (x : buf) : bool := (b_dev x =? 0) && (b_refcnt x =? 0) && (b_flags x =? 0).
Lemma idle_buf_spec x : idle_buf x = true -> b_dev x = 0 /\ b_refcnt x = 0 /\ b_flags x = 0.
Proof. unfold idle_buf. rewrite !andb_true_iff, !Z.eqb_eq. tauto. Qed.

Lemma linked_lru : lru linked_bufs (rev (seq 0 30)).
Proof.
  split; [vm_compute; reflexivity| |symmetry; apply Permutation_rev].
  split; [vm_compute; repeat split|]. apply (bool_decide_unpack _). vm_compute. exact I.
Qed.
Lemma idle_buf_ok pid V b x : idle_buf x = true -> buf_ok pid [] V (k_slocks boot) b x.
Proof.
  intros (E1 & E2 & E3)%idle_buf_spec. split; rewrite ?E1, ?E2; try (unfold flag; rewrite E3); try done.
  - intros H; set_solver.
Qed.
Lemma linked_idle b x : linked_bufs !! b = Some x -> idle_buf x = true.
Proof.
  assert (forallb idle_buf linked_bufs = true) as H by (vm_compute; reflexivity). intros Hb.
  rewrite forallb_forall in H. apply H, list_elem_of_In. by eapply list_elem_of_lookup_2.
Qed.

Definition linked_state : kstate := set_k_bufs linked_bufs boot.
Lemma bget_searches_end_witness :
  exists h r v, get_buf head linked_state = Ret h linked_state /\
    bget_find (Z.to_nat NBUF) (b_next h) 1 7 linked_state = Ret r linked_state /\
    bget_recycle (Z.to_nat NBUF) (b_prev h) linked_state = Ret v linked_state.
Proof.
  destruct (bget_searches_end linked_state (rev (seq 0 30)) 1 7 linked_lru) as (h & r & v & H1 & H2 & H3 & _).
  exists h, r, v. exact (conj H1 (conj H2 H3)).
Defined.
