(* ===== verification/CacheSpec.v ===== *)
(** * What the buffer cache promises to the file system

    [bread], [bwrite] and [brelse] over the driver with crash points: every
    request to the disk is followed by a point where the machine may stop.  The
    disk at each such point satisfies a predicate [G] that the client chooses;
    the cache guarantees that reads return the latest contents and that the disk
    changes only through [bwrite]. *)

From S2P Require Import Prelude Mmu Bytes Mem State Spinlock Printk Critical Kalloc Vm Sched Sleeplock Disk Bio BioSpec.

(** The memory driver with a crash point after each request: the machine either
    stops there (it is never resumed) or goes on in the same state. *)
Definition crash_driver : DiskDriver :=
  {| ideinit := MemIde.ideinit (FSSIZE * BSIZE); ideintr := MemIde.ideintr;
     iderw := fun b => MemIde.iderw b ;; switch |}.

(** The parts of the state the cache does not live in. *)
Record cache_free {B} (f : kstate -> B) : Prop := mk_cache_free {
  cf_lock : lock_free f;
  cf_bufs : forall v s, f (set_k_bufs v s) = f s;
  cf_slocks : forall v s, f (set_k_slocks v s) = f s;
  cf_procs : forall v s, f (set_k_procs v s) = f s;
  cf_disk : forall v s, f (set_disk v s) = f s }.
(** The spin locks the cache takes; the sleep locks of the inodes are not its own. *)
Definition cache_lock (lk : lockid) : bool :=
  match lk with Lk_ptable | Lk_bcache | Lk_sleep (Sl_buf _) => true | _ => false end.
(** Everything else is as it was. *)
Record rest (s s' : kstate) : Prop := mk_rest {
  rest_fun :> forall B (f : kstate -> B), cache_free f -> f s' = f s;
  rest_lock : forall lk, cache_lock lk = false -> k_locks s' lk = k_locks s lk;
  rest_inode : forall j, k_slocks s' (Sl_inode j) = k_slocks s (Sl_inode j) }.
#[export] Instance rest_refl : Reflexive rest.
Proof. done. Qed.
#[export] Instance rest_trans : Transitive rest.
Proof.
  intros s1 s2 s3 [A1 A2 A3] [B1 B2 B3].
  split; intros; [rewrite (B1 _ f) by done; by apply A1|rewrite B2 by done; by apply A2|by rewrite B3].
Qed.
Lemma rest_data lk s s' : same_data s s' -> same_locks lk s s' -> cache_lock lk = true -> rest s s'.
Proof.
  intros H HL Hlk. split; [intros B f Hf; apply H, Hf|intros lk' Hl; apply HL; congruence|].
  intros j. by rewrite (H _ k_slocks) by eauto with frame.
Qed.
Lemma rest_bufs v s : rest s (set_k_bufs v s).
Proof. split; [intros B f Hf; apply Hf|done..]. Qed.
Lemma rest_procs v s : rest s (set_k_procs v s).
Proof. split; [intros B f Hf; apply Hf|done..]. Qed.
Lemma rest_disk v s : rest s (set_disk v s).
Proof. split; [intros B f Hf; apply Hf|done..]. Qed.
Ltac cache_free_tac := split; [lock_free_tac|intros; reflexivity..].
#[export] Hint Resolve rest_data rest_bufs rest_procs rest_disk rest_refl : frame.

Lemma slock_set_rest s b x s' : slock_set s (Sl_buf b) x s' ->
  (forall lk, cache_lock lk = false -> k_locks s' lk = k_locks s lk) -> rest s s'.
Proof.
  intros (f & Hf & Hd) HL. split; [|done|].
  - intros B g Hg. rewrite (Hd _ g) by apply Hg. apply Hg.
  - intros j. rewrite (Hd _ k_slocks) by eauto with frame. simpl. rewrite Hf. by destruct (decide _).
Qed.

(** The one panic of the cache for want of a resource. *)
Definition no_buffers (msg : string) : Prop := msg = "bget: no buffers".
(** References to a buffer and whether it has unsaved contents; a buffer without
    either can be used again. *)
Definition refs (s : kstate) (b : nat) : option (Z * bool) := (fun x => (b_refcnt x, flag x B_DIRTY)) <$> k_bufs s !! b.

(* ------------------------------------------------------------------ *)
(** ** Runs with crash points *)
Section Cache.
Context (i : nat) (n : Z) (ip : nat) (p : proc) (Hst : p_state p <> SLEEPING).
Context (G : (Z -> list Z) -> Prop) (bad : string -> Prop).

(** Every run of [m] from [s] satisfies [G] at each crash point and [Q] at the
    end; it panics only with a message of [bad]. *)
Definition wp {A} (m : K A) (s : kstate) (Q : A -> kstate -> Prop) : Prop :=
  safe (fun t => G (hw_disk (k_hw t))) eq bad Q (m s).

Lemma wp_bind {A B} (m : K A) (f : A -> K B) s Q : wp m s (fun a t => wp (f a) t Q) -> wp (bind m f) s Q.
Proof. intros H. eapply safe_obind; [exact H|]. done. Qed.
Lemma wp_run {A} (m : K A) s a s' (Q : A -> kstate -> Prop) : m s = Ret a s' -> Q a s' -> wp m s Q.
Proof. unfold wp. intros ->. done. Qed.
Lemma wp_step {A B} (m : K A) (f : A -> K B) s a s' Q : m s = Ret a s' -> wp (f a) s' Q -> wp (bind m f) s Q.
Proof. unfold wp, bind. intros ->. done. Qed.
Lemma wp_mono {A} (m : K A) s (Q R : A -> kstate -> Prop) : wp m s Q -> (forall a t, Q a t -> R a t) -> wp m s R.
Proof. apply safe_mono. Qed.

(** The cache in state [s]. *)
Record cache (s : kstate) (held : list nat) (V Dk : Z -> list Z) : Prop := mk_cache {
  ca_thread : thread s i n ip p;
  ca_bcache : unlocked Lk_bcache s;
  ca_inner : forall b, unlocked (Lk_sleep (Sl_buf b)) s;
  ca_data : cache_data (p_pid p) (k_bufs s) (k_slocks s) held V Dk;
  ca_disk : hw_disk (k_hw s) = Dk;
  ca_size : k_disksize s = FSSIZE }.

(** Data that agree, locks that are free. *)
Lemma cache_ext s s' held V Dk :
  cache s held V Dk -> same_data s s' -> thread s' i n ip p -> unlocked Lk_bcache s' ->
  (forall b, unlocked (Lk_sleep (Sl_buf b)) s') -> cache s' held V Dk.
Proof.
  intros [H1 H2 H3 H4 H5 H6] Hd HT Hu1 Hu2. split; try done.
  - by rewrite (Hd _ k_bufs), (Hd _ k_slocks) by eauto with frame.
  - rewrite (Hd _ (fun s => hw_disk (k_hw s))) by eauto with frame. done.
  - by rewrite (Hd _ k_disksize) by eauto with frame.
Qed.

(** ** Reading a block into a buffer that has been locked *)
Definition filled (d : Z -> list Z) (y : buf) : buf := if flag y B_VALID then y else synced d y.
Lemma filled_fields d y :
  b_next (filled d y) = b_next y /\ b_prev (filled d y) = b_prev y /\ b_dev (filled d y) = b_dev y /\
  b_blockno (filled d y) = b_blockno y /\ b_refcnt (filled d y) = b_refcnt y.
Proof. unfold filled, synced. by destruct (flag y B_VALID), (flag y B_DIRTY). Qed.
Definition fill (b : nat) : K nat :=
  x <- get_buf b ;;
  (if negb (flag x B_VALID) then (MemIde.iderw b ;; switch) else ret tt) ;;
  ret b.

Lemma fill_run s b y (Q : nat -> kstate -> Prop) :
  thread s i n ip p -> unlocked (Lk_sleep (Sl_buf b)) s ->
  sl_locked (k_slocks s (Sl_buf b)) = 1 -> sl_pid (k_slocks s (Sl_buf b)) = p_pid p ->
  k_bufs s !! b = Some y -> b_dev y = 1 -> 0 <= b_blockno y < FSSIZE -> k_disksize s = FSSIZE ->
  (flag y B_VALID = false -> flag y B_DIRTY = false) -> G (hw_disk (k_hw s)) ->
  (forall t, thread t i n ip p -> unlocked (Lk_sleep (Sl_buf b)) t -> same_locks (Lk_sleep (Sl_buf b)) s t ->
    same_data (set_k_bufs (<[b := filled (hw_disk (k_hw s)) y]> (k_bufs s)) s) t -> Q b t) ->
  wp (fill b) s Q.
Proof.
  intros HT Hu Hl Hp Hb Hd Hk Hsz Hcl HG HQ. unfold fill. eapply wp_step; [by apply get_buf_ok|]. unfold filled in HQ.
  destruct (flag y B_VALID) eqn:Hv; cbn [negb].
  - eapply wp_step; [done|]. eapply wp_run; [done|]. apply HQ; try done.
    rewrite list_insert_id by done. by destruct s.
  - specialize (Hcl eq_refl).
    destruct (iderw_sync (SyncDriver := mem_driver_sync) s i n ip p b y) as (t & Hr & HTt & Hut & Hlt & Hdt).
    { split; try done. intros E. assert (flag y B_VALID = true); [|congruence]. rewrite flag_valid.
      assert (Z.testbit (Z.land (b_flags y) (Z.lor B_VALID B_DIRTY)) 1 = true) as Ht by (rewrite E; done).
      rewrite Z.land_spec in Ht. by apply andb_true_iff in Ht as [-> _]. }
    { done. }
    change (iderw b s) with (MemIde.iderw b s) in Hr.
    assert (same_data (set_k_bufs (<[b := synced (hw_disk (k_hw s)) y]> (k_bufs s)) s) t) as Hdt'.
    { unfold synced_state, synced_disk in Hdt. rewrite Hcl in Hdt.
      assert (set_disk (hw_disk (k_hw s)) s = s) as E by (destruct s as [h]; by destruct h). by rewrite E in Hdt. }
    apply wp_bind. eapply wp_step; [exact Hr|]. unfold wp, switch. cbn [safe]. split.
    + rewrite (Hdt' _ (fun s => hw_disk (k_hw s))) by eauto with frame. done.
    + intros ? <-. by apply HQ.
Qed.

(** The end of [bget]: leave the critical section, take the buffer's lock. *)
Lemma take_run s s1 held V Dk bs b :
  cache s held V Dk -> on_cpu s1 i (n + 1) (Some ip) -> held_by Lk_bcache i s1 -> same_locks Lk_bcache s s1 -> same_data s s1 ->
  (b < head)%nat -> b ∉ held ->
  exists t, (release Lk_bcache ;; acquiresleep (Sl_buf b) ;; ret b) (set_k_bufs bs s1) = Ret b t /\
    thread t i n ip p /\ unlocked Lk_bcache t /\ (forall c, unlocked (Lk_sleep (Sl_buf c)) t) /\ rest s t /\
    k_bufs t = bs /\ hw_disk (k_hw t) = Dk /\ k_disksize t = FSSIZE /\
    (forall c, c <> b -> k_slocks t (Sl_buf c) = k_slocks s (Sl_buf c)) /\
    sl_locked (k_slocks t (Sl_buf b)) = 1 /\ sl_pid (k_slocks t (Sl_buf b)) = p_pid p.
Proof.
  intros [HT Hub Hui HC Hdk Hsz] Hc1 Hh1 Hl1 Hd1 Hb Hnh. pose proof HT as [Hc Hn Hp Ht Hup].
  destruct (release_cpu (set_k_bufs bs s1) i (n + 1) (Some ip) Lk_bcache) as (s2 & Hr & Hc2 & Hu2 & Hl2 & Hd2);
    [by apply (on_cpu_ext s1)|lia|done|].
  assert (same_data (set_k_bufs bs s) s2) as Hd by (transitivity (set_k_bufs bs s1); [by apply same_data_bufs|done]).
  assert (k_procs s2 = k_procs s) as Ep by (apply (Hd _ k_procs); eauto with frame).
  assert (k_slocks s2 = k_slocks s) as Es by (apply (Hd _ k_slocks); eauto with frame).
  assert (forall lk, lk <> Lk_bcache -> k_locks s2 lk = k_locks s lk) as Hlk by (intros lk H; rewrite (Hl2 lk H); by apply Hl1).
  assert (thread s2 i n ip p) as HT2.
  { apply (thread_ext s); [done|by replace n with (n + 1 - 1) by lia|done|by apply Hlk]. }
  assert (exists x, k_bufs s !! b = Some x) as [x Hx].
  { destruct (cd_lru _ _ _ _ _ _ HC) as [order HL]. destruct (lru_lookup _ _ b HL) as (x & Hx & _); [lia|by exists x]. }
  destruct (acquiresleep_run s2 i n ip p (Sl_buf b) HT2) as (t & Ha & HTt & Hut & Hlt & Hst').
  { unfold unlocked. rewrite Hlk by done. apply Hui. }
  { rewrite Es. by apply (bo_free _ _ _ _ _ _ (cd_bufs _ _ _ _ _ _ HC b x Hb Hx)). }
  pose proof (slock_set_same _ _ _ _ Hst') as Eb.
  exists t. split; [run Hr; by run Ha|]. split; [done|]. split; [unfold unlocked; by rewrite Hlt|]. split; [|split].
  - intros c. unfold unlocked. destruct (decide (c = b)) as [->|]; [done|]. rewrite Hlt by congruence.
    rewrite Hlk by done. apply Hui.
  - transitivity s2; [|eapply slock_set_rest; [done|intros lk Hk; apply Hlt; by destruct lk as [| | | | | | | | | |[]]]].
    transitivity (set_k_bufs bs s); [eauto with frame|]. apply (rest_data Lk_bcache); [done|exact Hlk|done].
  - destruct Hst' as (f & Hf & Hdt).
    rewrite (Hdt _ k_bufs), (Hdt _ k_disksize), (Hdt _ (fun s => hw_disk (k_hw s))) by eauto with frame. simpl.
    rewrite (Hd _ k_bufs), (Hd _ k_disksize), (Hd _ (fun s => hw_disk (k_hw s))) by eauto with frame.
    do 3 (split; [done|]). rewrite Eb. split; [|done]. intros c Hne.
    rewrite (Hdt _ k_slocks) by eauto with frame. simpl. rewrite Hf. destruct (decide (Sl_buf c = Sl_buf b)); [congruence|].
    by rewrite Es.
Qed.

(** The cached buffer, or the recycled one, is [y] when it has been locked. *)
Lemma bread_filled s t held V Dk b x y k (Q : nat -> kstate -> Prop) :
  cache s held V Dk -> G Dk -> (b < head)%nat -> b ∉ held -> k_bufs s !! b = Some x -> 0 <= k < FSSIZE ->
  thread t i n ip p -> unlocked Lk_bcache t -> (forall c, unlocked (Lk_sleep (Sl_buf c)) t) -> rest s t ->
  k_bufs t = <[b := y]> (k_bufs s) -> hw_disk (k_hw t) = Dk -> k_disksize t = FSSIZE ->
  (forall c, c <> b -> k_slocks t (Sl_buf c) = k_slocks s (Sl_buf c)) ->
  sl_locked (k_slocks t (Sl_buf b)) = 1 -> sl_pid (k_slocks t (Sl_buf b)) = p_pid p ->
  b_next y = b_next x -> b_prev y = b_prev x -> b_dev y = 1 -> b_blockno y = k -> 0 < b_refcnt y <= 2 ^ 31 ->
  (flag y B_VALID = false -> flag y B_DIRTY = false) ->
  (flag x B_DIRTY = flag y B_DIRTY \/ flag x B_DIRTY = false) ->
  (b_dev x = 1 /\ b_blockno x = k \/ flag x B_DIRTY = false) ->
  (forall c z, (c < head)%nat -> c <> b -> k_bufs s !! c = Some z -> b_dev z = 1 -> b_blockno z <> k) ->
  (if flag y B_VALID then b_data y = V k else V k = Dk k) -> V k = Dk k \/ flag y B_DIRTY = true ->
  (forall t' z, cache t' (b :: held) V Dk -> k_bufs t' !! b = Some z -> b_blockno z = k -> b_data z = V k ->
    V k = Dk k \/ flag z B_DIRTY = true -> b_refcnt z = b_refcnt y -> flag z B_DIRTY = flag y B_DIRTY ->
    (forall c, c <> b -> k_bufs t' !! c = k_bufs s !! c) -> rest s t' -> Q b t') ->
  wp (fill b) t Q.
Proof.
  intros Hca HG Hb Hnh Hx Hk HT Hub Hui Hrest Ebs Edk Esz Hsl Hsb Hpb En Ep Ed Ebl Href Hvd Hdy Hsame Hoth Hdata Hpin HQ.
  assert (b < length (k_bufs s))%nat as Hlt by (by eapply lookup_lt_Some).
  apply (fill_run t b y); try done; [by rewrite Ebs, list_lookup_insert_eq|by rewrite Ebl|by rewrite Edk|].
  rewrite Edk, Ebs, list_insert_insert_eq. intros t' HTt Hut Hlt' Hdt.
  assert (k_bufs t' = <[b := filled Dk y]> (k_bufs s)) as Eb' by (apply (Hdt _ k_bufs); eauto with frame).
  assert (k_slocks t' = k_slocks t) as Es' by (apply (Hdt _ k_slocks); eauto with frame).
  destruct (filled_fields Dk y) as (F1 & F2 & F3 & F4 & F5).
  assert (flag (filled Dk y) B_VALID = true /\ b_data (filled Dk y) = V k /\ flag (filled Dk y) B_DIRTY = flag y B_DIRTY) as (F6 & F7 & F8).
  { unfold filled. destruct (flag y B_VALID) eqn:Hv; [done|]. destruct (synced_clean Dk y) as [S1 S2]. rewrite Hvd by done.
    split; [done|]. split; [|done]. unfold synced. rewrite Hvd by done. simpl. by rewrite Ebl. }
  apply (HQ t' (filled Dk y)).
  - split; try done; [unfold unlocked; by rewrite Hlt'| | | |].
    + intros c. unfold unlocked. destruct (decide (c = b)) as [->|]; [done|]. rewrite Hlt' by congruence. apply Hui.
    + rewrite Eb', Es'. eapply cache_take; try done; [apply Hca|by rewrite F8|congruence..|congruence| |congruence|by rewrite F5|by rewrite F4, Ebl|].
      * by rewrite F4, Ebl.
      * by rewrite F4, Ebl.
    + rewrite (Hdt _ (fun s => hw_disk (k_hw s))) by eauto with frame. done.
    + rewrite (Hdt _ k_disksize) by eauto with frame. done.
  - by rewrite Eb', list_lookup_insert_eq.
  - congruence.
  - done.
  - by rewrite F8.
  - done.
  - done.
  - intros c Hc. by rewrite Eb', list_lookup_insert_ne.
  - transitivity t; [done|]. transitivity (set_k_bufs (<[b:=filled Dk y]> (k_bufs s)) t); eauto with frame.
Qed.

(** ** [bread] *)

(** What [Q] may use when [bread] of block [k] returns: the buffer is the one more
    that is locked, it holds the latest contents, the others are as they were. *)
Definition bread_post (s : kstate) (held : list nat) (V Dk : Z -> list Z) (k : Z) (Q : nat -> kstate -> Prop) : Prop :=
  forall b t z, cache t (b :: held) V Dk -> b ∉ held -> (b < head)%nat -> k_bufs t !! b = Some z ->
    b_blockno z = k -> b_data z = V k -> V k = Dk k \/ flag z B_DIRTY = true ->
    refs t b = (fun '(r, d) => (r + 1, d)) <$> refs s b ->
    (forall c, c <> b -> k_bufs t !! c = k_bufs s !! c) -> rest s t -> Q b t.
(** [s1] is [s] with the lock of the cache taken. *)
Definition entered (s s1 : kstate) : Prop :=
  on_cpu s1 i (n + 1) (Some ip) /\ held_by Lk_bcache i s1 /\ same_locks Lk_bcache s s1 /\ same_data s s1.
Definition take_buf (b : nat) : K nat := release Lk_bcache ;; acquiresleep (Sl_buf b) ;; ret b.

(** A buffer that the block is in, one reference more. *)
Lemma bread_hit s s1 held V Dk k b x (Q : nat -> kstate -> Prop) :
  cache s held V Dk -> entered s s1 -> G Dk -> 0 <= k < FSSIZE -> b ∉ held -> (b < head)%nat ->
  k_bufs s !! b = Some x -> b_dev x = 1 -> b_blockno x = k -> bread_post s held V Dk k Q ->
  wp (upd_buf b (fun x => set_b_refcnt (u32 (b_refcnt x + 1)) x) ;; take_buf b) s1 (fun b t => wp (fill b) t Q).
Proof.
  intros Hca (Hc1 & Hh1 & Hl1 & Hd1) HG Hk Hnh Hb Hx Hdev Hblk HQ. pose proof Hca as [HT Hub Hui HC Hdk Hsz].
  assert (k_bufs s1 = k_bufs s) as Eb by (apply Hd1; eauto with frame).
  destruct (cd_bufs _ _ _ _ _ _ HC b x Hb Hx) as [B1 B2 B3 B4 B5]. destruct (B2 Hnh) as [B6 _].
  set (y := set_b_refcnt (u32 (b_refcnt x + 1)) x).
  destruct (take_run s s1 held V Dk (<[b := y]> (k_bufs s)) b Hca Hc1 Hh1 Hl1 Hd1 Hb Hnh)
    as (t & Hr & HTt & Hubt & Huit & Hrest & Ebt & Edt & Est & Hslt & Hslb & Hpb).
  eapply wp_step; [apply (upd_buf_ok s1 b x); by rewrite Eb|]. rewrite Eb. eapply wp_run; [exact Hr|].
  assert (b_refcnt y = b_refcnt x + 1) as Er by (unfold y; simpl; rewrite u32_small by lia; done).
  assert (forall c z, (c < head)%nat -> k_bufs s !! c = Some z -> b_dev z = 1 -> b_blockno z = k -> c = b /\ z = x) as Honce.
  { intros c z Hc Hz Hdz E. assert (c = b) as -> by (apply (cd_once _ _ _ _ _ _ HC c b z x); congruence || done). split; congruence. }
  eapply (bread_filled s t held V Dk b x y k); try done; try (by left); try (left; by split).
  - rewrite Er. lia.
  - change (flag y B_VALID) with (flag x B_VALID). change (flag y B_DIRTY) with (flag x B_DIRTY).
    intros Hv. destruct (flag x B_DIRTY); [by rewrite B5 in Hv|done].
  - intros c z Hc Hne Hz Hdz E. apply Hne. by apply (Honce c z).
  - change (flag y B_VALID) with (flag x B_VALID). change (b_data y) with (b_data x).
    destruct (flag x B_VALID) eqn:Hv; [by rewrite B4, Hblk|].
    destruct (cd_coherent _ _ _ _ _ _ HC k) as [E|(c & z & G1 & G2 & G3 & G4 & G5 & _)]; [done|].
    destruct (Honce c z) as [-> ->]; [done..|]. congruence.
  - destruct (cd_coherent _ _ _ _ _ _ HC k) as [E|(c & z & G1 & G2 & G3 & G4 & _ & G6)]; [by left|right].
    destruct (Honce c z) as [-> ->]; [done..|]. by destruct G6.
  - intros t' z H1 H2 H3 H4 H5 H6 H7 H8 H9. apply (HQ b t' z); try done. unfold refs. rewrite H2, Hx. simpl. by rewrite H6, H7, Er.
Qed.

(** A buffer that nobody uses, for a block that is in no buffer. *)
Lemma bread_miss s s1 held V Dk k b x (Q : nat -> kstate -> Prop) :
  cache s held V Dk -> entered s s1 -> G Dk -> 0 <= k < FSSIZE -> (b < head)%nat ->
  k_bufs s !! b = Some x -> b_refcnt x = 0 -> flag x B_DIRTY = false ->
  (forall c z, (c < head)%nat -> k_bufs s !! c = Some z -> b_dev z = 1 -> b_blockno z <> k) -> bread_post s held V Dk k Q ->
  wp (upd_buf b (set_b_dev 1) ;; upd_buf b (set_b_blockno k) ;; upd_buf b (set_b_flags 0) ;; upd_buf b (set_b_refcnt 1) ;;
      take_buf b) s1 (fun b t => wp (fill b) t Q).
Proof.
  intros Hca (Hc1 & Hh1 & Hl1 & Hd1) HG Hk Hb Hx Href Hcl Hmiss HQ. pose proof Hca as [HT Hub Hui HC Hdk Hsz].
  assert (k_bufs s1 = k_bufs s) as Eb by (apply Hd1; eauto with frame).
  assert (b ∉ held) as Hnh.
  { intros Hh. destruct (bo_held _ _ _ _ _ _ (cd_bufs _ _ _ _ _ _ HC b x Hb Hx) Hh). lia. }
  set (y := set_b_refcnt 1 (set_b_flags 0 (set_b_blockno k (set_b_dev 1 x)))).
  destruct (take_run s s1 held V Dk (<[b := y]> (k_bufs s)) b Hca Hc1 Hh1 Hl1 Hd1 Hb Hnh)
    as (t & Hr & HTt & Hubt & Huit & Hrest & Ebt & Edt & Est & Hslt & Hslb & Hpb).
  assert (b < length (k_bufs s))%nat as Hlt by (by eapply lookup_lt_Some).
  eapply wp_step; [apply (upd_buf_ok s1 b x); by rewrite Eb|]. rewrite Eb.
  do 3 (eapply wp_step; [by apply upd_buf_again|]). eapply wp_run; [exact Hr|].
  assert (V k = Dk k) as HV.
  { destruct (cd_coherent _ _ _ _ _ _ HC k) as [E|(c & z & G1 & G2 & G3 & G4 & _)]; [done|]. exfalso. by apply (Hmiss c z). }
  eapply (bread_filled s t held V Dk b x y k); try done; try (by left); try (by right).
  - intros c z Hc Hne Hz Hdz. by apply (Hmiss c z).
  - intros t' z H1 H2 H3 H4 H5 H6 H7 H8 H9. apply (HQ b t' z); try done. unfold refs. rewrite H2, Hx. simpl. rewrite H6, H7, Href, Hcl. done.
Qed.

Lemma bread_spec s held V Dk k (Q : nat -> kstate -> Prop) :
  cache s held V Dk -> G Dk -> 0 <= k < FSSIZE ->
  (forall b x, b ∈ held -> k_bufs s !! b = Some x -> b_blockno x <> k) ->
  bad "bget: no buffers" \/ (exists c, (c < head)%nat /\ refs s c = Some (0, false)) ->
  bread_post s held V Dk k Q -> wp (bread (D := crash_driver) 1 k) s Q.
Proof.
  intros Hca HG Hk Hheld Hfree HQ. pose proof Hca as [HT Hub Hui HC Hdk Hsz]. destruct (cd_lru _ _ _ _ _ _ HC) as [order HL].
  destruct (acquire_cpu s i n (Some ip) Lk_bcache (th_cpu _ _ _ _ _ HT) Hub) as (s1 & Ha & Hin1). pose proof Hin1 as (_ & _ & _ & Hd1).
  assert (k_bufs s1 = k_bufs s) as Eb by (apply Hd1; eauto with frame).
  assert (forall b, b ∈ rev order <-> (b < head)%nat) as Hrev
    by (intros b; rewrite list_elem_of_In, <- in_rev, <- list_elem_of_In; apply (lru_bound _ _ _ HL)).
  destruct (bget_searches s1 order 1 k) as (h & Hg & Hfind & Hrec); [by rewrite Eb|]. rewrite Eb in Hfind, Hrec.
  unfold bread. apply wp_bind. unfold bget. eapply wp_step; [exact Ha|]. eapply wp_step; [exact Hg|].
  eapply wp_step; [exact Hfind|]. cbv beta.
  destruct (List.find (hit (k_bufs s) 1 k) order) as [b|] eqn:Ef.
  - apply find_some_elem in Ef as [Hin Hhit]. assert (b < head)%nat as Hb by (by apply (lru_bound _ _ _ HL)).
    destruct (lru_lookup _ _ b HL) as (x & Hx & _); [lia|]. unfold hit in Hhit. rewrite Hx in Hhit.
    apply andb_true_iff in Hhit as [Hdev%Z.eqb_eq Hblk%Z.eqb_eq].
    eapply bread_hit; try done. intros Hh. by apply (Hheld b x).
  - eapply wp_step; [exact Hg|]. eapply wp_step; [exact Hrec|]. cbv beta.
    destruct (List.find (recyclable (k_bufs s)) (rev order)) as [b|] eqn:Er.
    + apply find_some_elem in Er as [Hb%Hrev Hrc]. destruct (lru_lookup _ _ b HL) as (x & Hx & _); [lia|].
      unfold recyclable in Hrc. rewrite Hx in Hrc. apply andb_true_iff in Hrc as [Href%Z.eqb_eq Hcl%negb_true_iff].
      eapply bread_miss; try done. intros c z Hc Hz Hdz E.
      assert (c ∈ order) as Hco by (by apply (lru_bound _ _ _ HL)).
      pose proof (find_none_elem _ _ c Ef Hco) as Hn. unfold hit in Hn. by rewrite Hz, Hdz, E, !Z.eqb_refl in Hn.
    + destruct Hfree as [Hf|(c & Hc & Hf)]; [exact Hf|]. exfalso. unfold refs in Hf. destruct (k_bufs s !! c) as [z|] eqn:Hz; [|done].
      simpl in Hf. inversion Hf as [[E1 E2]]. pose proof (find_none_elem _ _ c Er (proj2 (Hrev c) Hc)) as Hn.
      unfold recyclable in Hn. by rewrite Hz, E1, E2 in Hn.
Qed.

(** ** [bwrite] *)
Lemma bwrite_spec s held V Dk b x (Q : unit -> kstate -> Prop) :
  cache s held V Dk -> (b < head)%nat -> b ∈ held -> k_bufs s !! b = Some x ->
  let Dk' := fupd Dk (b_blockno x) (V (b_blockno x)) in
  G Dk' ->
  (forall t z, cache t held V Dk' -> k_bufs t = <[b := z]> (k_bufs s) -> b_blockno z = b_blockno x ->
    flag z B_DIRTY = false -> rest s t -> Q tt t) ->
  wp (bwrite (D := crash_driver) b) s Q.
Proof.
  intros Hca Hb Hh Hx Dk' HG HQ. pose proof Hca as [HT Hub Hui HC Hdk Hsz].
  destruct (cd_bufs _ _ _ _ _ _ HC b x Hb Hx) as [B1 B2 B3 B4 B5]. destruct (B3 Hh) as (B6 & B7 & B8 & B9 & B10 & B11).
  destruct (holdingsleep_run s i n ip p (Sl_buf b) HT (Hui b)) as (s1 & Hhs & HT1 & Hu1 & Hl1 & Hd1).
  rewrite B7, B8, Z.eqb_refl in Hhs. unfold bwrite. eapply wp_step; [exact Hhs|]. cbn [truth negb Z.eqb andb].
  assert (k_bufs s1 = k_bufs s) as Eb by (apply Hd1; eauto with frame).
  assert (k_slocks s1 = k_slocks s) as Es by (apply Hd1; eauto with frame).
  assert (hw_disk (k_hw s1) = Dk) as Ed by (rewrite (Hd1 _ (fun s => hw_disk (k_hw s))) by eauto with frame; done).
  assert (b < length (k_bufs s))%nat as Hlt by (by eapply lookup_lt_Some).
  eapply wp_step; [apply (upd_buf_ok s1 b x); by rewrite Eb|]. rewrite Eb.
  set (y := set_flag B_DIRTY x). set (s2 := set_k_bufs (<[b := y]> (k_bufs s)) s1).
  destruct (set_dirty_flags x) as [F1 F2]. fold y in F1, F2.
  destruct (iderw_sync (SyncDriver := mem_driver_sync) s2 i n ip p b y) as (t & Hr & HTt & Hut & Hlt' & Hdt).
  { split; try done.
    - apply (thread_ext s1); try done. apply (on_cpu_ext s1); try done. apply HT1.
    - simpl. by rewrite Es. - simpl. by rewrite Es. - simpl. by rewrite list_lookup_insert_eq.
    - intros E. assert (Z.testbit (Z.land (b_flags y) (Z.lor B_VALID B_DIRTY)) 2 = false) as Ht by (rewrite E; done).
      rewrite Z.land_spec, andb_true_r in Ht. by rewrite flag_dirty, Ht in F1. }
  { unfold mem_ok_size; simpl. rewrite (Hd1 _ k_disksize) by eauto with frame. done. }
  change (iderw b s2) with (MemIde.iderw b s2) in Hr.
  set (z := synced Dk y).
  assert (same_data (set_k_bufs (<[b := z]> (k_bufs s)) (set_disk Dk' s1)) t) as Hdt'.
  { unfold synced_state, synced_disk in Hdt. rewrite F1 in Hdt. simpl in Hdt. rewrite Ed, list_insert_insert_eq in Hdt.
    rewrite (B4 B9 B11) in Hdt. exact Hdt. }
  assert (hw_disk (k_hw t) = Dk') as Edt by (rewrite (Hdt' _ (fun s => hw_disk (k_hw s))) by eauto with frame; done).
  assert (k_bufs t = <[b := z]> (k_bufs s)) as Ebt by (apply (Hdt' _ k_bufs); eauto with frame).
  destruct (synced_clean Dk y) as [S1 S2]. fold z in S1, S2.
  assert (z = set_flag B_VALID (clear_flag B_DIRTY y)) as Ez by (unfold z, synced; by rewrite F1).
  eapply wp_step; [exact Hr|]. unfold wp, switch. cbn [safe]. split; [by rewrite Edt|]. intros ? <-.
  apply (HQ t z); try done; [|by rewrite Ez|].
  - split; try done.
    + unfold unlocked. rewrite Hlt' by done. simpl. by rewrite Hl1.
    + intros c. unfold unlocked. destruct (decide (c = b)) as [->|]; [done|]. rewrite Hlt' by congruence. simpl.
      rewrite Hl1 by congruence. apply Hui.
    + rewrite Ebt. assert (k_slocks t = k_slocks s) as -> by (rewrite (Hdt' _ k_slocks) by eauto with frame; done).
      eapply cache_sync; try done; by rewrite Ez.
    + rewrite (Hdt' _ k_disksize) by eauto with frame. simpl. rewrite (Hd1 _ k_disksize) by eauto with frame. done.
  - transitivity s1; [eauto with frame|]. transitivity (set_disk Dk' s1); [eauto with frame|].
    transitivity (set_k_bufs (<[b := z]> (k_bufs s)) (set_disk Dk' s1)); eauto with frame.
Qed.

(** Only the list pointers of the buffers change. *)
Lemma cache_data_relink pid bs bs' sl held V Dk order :
  cache_data pid bs sl held V Dk -> same_core bs bs' -> lru bs' order -> cache_data pid bs' sl held V Dk.
Proof.
  intros [H1 H2 H3 H4] Hc HL.
  assert (forall c z, bs' !! c = Some z -> exists x, bs !! c = Some x /\ core z = core x) as Hback.
  { intros c z Hz. destruct (same_core_lookup bs' bs c z) as (x & Hx & E); [by symmetry|done|]. exists x. split; [done|congruence]. }
  assert (forall z x, core z = core x -> b_flags z = b_flags x /\ b_dev z = b_dev x /\ b_blockno z = b_blockno x /\
    b_refcnt z = b_refcnt x /\ b_data z = b_data x) as Hcore.
  { intros z x E. unfold core, set_b_prev, set_b_next in E. simpl in E. by inversion E. }
  split.
  - by exists order.
  - intros c z Hcl Hz. destruct (Hback c z Hz) as (x & Hx & (E1 & E2 & E3 & E4 & E5)%Hcore).
    destruct (H2 c x Hcl Hx) as [G1 G2 G3 G4 G5]. split; unfold flag in *; rewrite ?E1, ?E2, ?E3, ?E4, ?E5; done.
  - intros c d z w Hcl Hdl Hz Hw. destruct (Hback c z Hz) as (x & Hx & (_ & -> & -> & _)%Hcore).
    destruct (Hback d w Hw) as (y & Hy & (_ & -> & -> & _)%Hcore). by apply (H3 c d x y).
  - intros k. destruct (H4 k) as [E|(c & x & G1 & G2 & G3 & G4 & G5 & G6)]; [by left|right].
    destruct (same_core_lookup _ _ _ _ Hc G2) as (z & Hz & (E1 & E2 & E3 & E4 & E5)%Hcore). exists c, z.
    unfold flag in *. rewrite E1, E2, E3. done.
Qed.

(** ** [brelse] *)

(** What a client knows of a buffer it holds. *)
Definition blk (s : kstate) (b : nat) : option (Z * bool) := (fun x => (b_blockno x, flag x B_DIRTY)) <$> k_bufs s !! b.

Lemma core_lookup {A} (f : buf -> A) s t c : (forall x y, core y = core x -> f y = f x) ->
  same_core (k_bufs s) (k_bufs t) -> f <$> k_bufs t !! c = f <$> k_bufs s !! c.
Proof.
  intros Hf H. assert ((core <$> k_bufs t) !! c = (core <$> k_bufs s) !! c) as E by (by rewrite H).
  rewrite !list_lookup_fmap in E. destruct (k_bufs s !! c) as [x|], (k_bufs t !! c) as [y|]; try done.
  simpl in *. f_equal. apply Hf. congruence.
Qed.
Lemma blk_core s t c : same_core (k_bufs s) (k_bufs t) -> blk t c = blk s c.
Proof. apply core_lookup. intros x y E. unfold core, set_b_prev, set_b_next in E. inversion E as [[E1 E2 E3 E4 E5 E6]]. unfold flag. by rewrite E1, E3. Qed.
Lemma refs_core s t c : same_core (k_bufs s) (k_bufs t) -> refs t c = refs s c.
Proof. apply core_lookup. intros x y E. unfold core, set_b_prev, set_b_next in E. inversion E as [[E1 E2 E3 E4 E5 E6]]. unfold flag. by rewrite E1, E4. Qed.

(** The list part of [brelse], in the critical section. *)
Lemma brelse_list s b x order :
  lru (k_bufs s) order -> (b < head)%nat -> k_bufs s !! b = Some x ->
  exists bs order', when (b_refcnt x =? 0) (to_front b x) s = Ret tt (set_k_bufs bs s) /\ same_core (k_bufs s) bs /\ lru bs order' /\
    order' = if b_refcnt x =? 0 then b :: filter (fun c => c <> b) order else order.
Proof.
  intros HL Hb Hx. destruct (b_refcnt x =? 0); cbn [when].
  - pose proof HL as [_ [_ HN] _]. apply NoDup_cons in HN as [_ HN].
    destruct (list_elem_of_split order b) as (l1 & l2 & E); [by apply (lru_bound _ _ _ HL)|]. subst order.
    destruct (to_front_run s l1 b l2 x HL Hx) as (bs & Hr & Hc & HL'). exists bs, (b :: l1 ++ l2). do 3 (split; [done|]).
    f_equal. apply NoDup_app in HN as (_ & H1 & H2%NoDup_cons). destruct H2 as [H2 _]. rewrite filter_app, filter_cons_False by tauto.
    assert (forall l : list nat, b ∉ l -> filter (fun c => c <> b) l = l) as Hid.
    { induction l as [|c l IH]; intros Hn; [done|]. apply not_elem_of_cons in Hn as [Hn1 Hn2].
      rewrite filter_cons_True by done. f_equal. by apply IH. }
    rewrite !Hid; [done|done|]. intros Hin. apply (H1 b Hin). set_solver.
  - exists (k_bufs s), order. split; [by destruct s|]. done.
Qed.

Lemma brelse_run s held V Dk b x order :
  cache s held V Dk -> (b < head)%nat -> b ∈ held -> k_bufs s !! b = Some x -> lru (k_bufs s) order ->
  let y := set_b_refcnt (b_refcnt x - 1) x in
  exists t, brelse b s = Ret tt t /\ thread t i n ip p /\ unlocked Lk_bcache t /\ (forall c, unlocked (Lk_sleep (Sl_buf c)) t) /\
    same_core (<[b := y]> (k_bufs s)) (k_bufs t) /\
    lru (k_bufs t) (if b_refcnt y =? 0 then b :: filter (fun c => c <> b) order else order) /\
    (forall c, c <> b -> k_slocks t (Sl_buf c) = k_slocks s (Sl_buf c)) /\ sl_locked (k_slocks t (Sl_buf b)) = 0 /\
    hw_disk (k_hw t) = Dk /\ k_disksize t = FSSIZE /\ rest s t.
Proof.
  intros Hca Hb Hh Hx HL y. pose proof Hca as [HT Hub Hui HC Hdk Hsz].
  destruct (cd_bufs _ _ _ _ _ _ HC b x Hb Hx) as [B1 B2 B3 B4 B5]. destruct (B3 Hh) as (B6 & B7 & B8 & B9 & B10 & B11).
  destruct (holdingsleep_run s i n ip p (Sl_buf b) HT (Hui b)) as (s1 & Hhs & HT1 & Hu1 & Hl1 & Hd1).
  rewrite B7, B8, Z.eqb_refl in Hhs.
  destruct (releasesleep_run s1 i n ip p (Sl_buf b) HT1 Hu1 Hst) as (s2 & Hrs & HT2 & Hu2 & Hl2 & Hs2).
  assert (forall lk, lk <> Lk_sleep (Sl_buf b) -> lk <> Lk_ptable -> k_locks s2 lk = k_locks s lk) as Hlk
    by (intros lk H1 H2; rewrite Hl2, Hl1 by done; done).
  pose proof (slock_set_same _ _ _ _ Hs2) as Esb. destruct Hs2 as (f & Hf & Hd2).
  assert (k_bufs s2 = k_bufs s) as Eb by (rewrite (Hd2 _ k_bufs) by eauto with frame; simpl; apply Hd1; eauto with frame).
  destruct (acquire_cpu s2 i n (Some ip) Lk_bcache (th_cpu _ _ _ _ _ HT2)) as (s3 & Ha & Hc3 & Hh3 & Hl3 & Hd3);
    [unfold unlocked; by rewrite Hlk|].
  assert (k_bufs s3 = k_bufs s) as Eb3 by (rewrite (Hd3 _ k_bufs); eauto with frame).
  assert (b < length (k_bufs s))%nat as Hlt by (by eapply lookup_lt_Some).
  set (s4 := set_k_bufs (<[b := y]> (k_bufs s)) s3).
  destruct (brelse_list s4 b y order) as (bs & order' & Hr4 & C4 & L4 & ->); [by eapply lru_insert|done|by apply list_lookup_insert_eq|].
  destruct (release_cpu (set_k_bufs bs s4) i (n + 1) (Some ip) Lk_bcache) as (t & Hr & Hct & Hut & Hlt' & Hdt);
    [by apply (on_cpu_ext s3)|destruct HT; lia|done|].
  assert (k_bufs t = bs) as Ebt by (apply (Hdt _ k_bufs); eauto with frame).
  assert (forall B (g : kstate -> B), lock_free g -> (forall v s, g (set_k_bufs v s) = g s) -> g t = g s2) as Hg
    by (intros B g H1 H2; rewrite (Hdt _ g H1), H2; unfold s4; rewrite H2; by apply Hd3).
  exists t. split; [|split; [|split; [done|split; [|split; [by rewrite Ebt|split; [by rewrite Ebt|]]]]]].
  - unfold brelse. run Hhs. cbn [truth negb Z.eqb andb]. run Hrs. run Ha.
    erewrite bind_Ret; [|apply (upd_buf_ok s3 b x); by rewrite Eb3]. cbv beta.
    rewrite Eb3. rewrite u32_small by lia. fold y. fold s4.
    erewrite bind_Ret; [|apply (get_buf_ok s4 b y); by apply list_lookup_insert_eq]. cbv beta.
    erewrite bind_Ret; [|exact Hr4]. exact Hr.
  - apply (thread_ext s2); [done|by replace n with (n + 1 - 1) by lia|by apply (Hg _ k_procs); eauto with frame|].
    rewrite Hlt' by done. simpl. by apply Hl3.
  - intros c. unfold unlocked. rewrite Hlt' by done. simpl. rewrite Hl3 by done.
    destruct (decide (c = b)) as [->|]; [done|]. rewrite Hlk by congruence. apply Hui.
  - rewrite (Hg _ k_slocks), (Hg _ (fun s => hw_disk (k_hw s))), (Hg _ k_disksize) by (eauto with frame || done).
    rewrite Esb. split; [|split; [done|split; [|split]]].
    + intros c Hne. rewrite (Hd2 _ k_slocks) by eauto with frame. simpl. rewrite Hf. destruct (decide (Sl_buf c = Sl_buf b)); [congruence|].
      simpl. by rewrite (Hd1 _ k_slocks) by eauto with frame.
    + rewrite (Hd2 _ (fun s => hw_disk (k_hw s))) by eauto with frame. simpl.
      rewrite (Hd1 _ (fun s => hw_disk (k_hw s))) by eauto with frame. done.
    + rewrite (Hd2 _ k_disksize) by eauto with frame. simpl. rewrite (Hd1 _ k_disksize) by eauto with frame. done.
    + split.
      * intros B g Hgf. rewrite (Hg _ g) by apply Hgf. rewrite (Hd2 _ g) by apply Hgf.
        rewrite (cf_slocks g Hgf), (cf_procs g Hgf). apply Hd1, Hgf.
      * intros lk Hk. assert (lk <> Lk_bcache /\ lk <> Lk_ptable /\ lk <> Lk_sleep (Sl_buf b)) as (N1 & N2 & N3) by (by destruct lk as [| | | | | | | | | |[]]).
        rewrite Hlt' by done. simpl. rewrite Hl3 by done. by apply Hlk.
      * intros j. rewrite (Hg _ k_slocks) by (eauto with frame || done). rewrite (Hd2 _ k_slocks) by eauto with frame. simpl. rewrite Hf.
        simpl. by rewrite (Hd1 _ k_slocks) by eauto with frame.
Qed.

Lemma brelse_spec s held held' V Dk b x (Q : unit -> kstate -> Prop) :
  cache s held V Dk -> (b < head)%nat -> b ∈ held -> k_bufs s !! b = Some x ->
  (forall c, c ∈ held' <-> c ∈ held /\ c <> b) ->
  V (b_blockno x) = Dk (b_blockno x) \/ flag x B_DIRTY = true ->
  (forall t, cache t held' V Dk -> (forall c, c <> b -> blk t c = blk s c) -> rest s t ->
    (forall c, refs t c = if decide (c = b) then (fun '(r, d) => (r - 1, d)) <$> refs s c else refs s c) -> Q tt t) ->
  wp (brelse b) s Q.
Proof.
  intros Hca Hb Hh Hx Hh' Hcl HQ. destruct (cd_lru _ _ _ _ _ _ (ca_data _ _ _ _ Hca)) as [order HL].
  destruct (brelse_run s held V Dk b x order Hca Hb Hh Hx HL) as (t & Hr & HT & Hu & Hui & Hc & HLt & Hs1 & Hs2 & Hd & Hz & Hrest).
  set (y := set_b_refcnt (b_refcnt x - 1) x) in *. assert (b < length (k_bufs s))%nat as Hlt by (by eapply lookup_lt_Some).
  eapply wp_run; [exact Hr|]. apply HQ; [|intros c Hne|done|intros c].
  - split; try done. eapply cache_data_relink; [|exact Hc|exact HLt]. eapply cache_put; try done. apply Hca.
  - etransitivity; [apply (blk_core (set_k_bufs (<[b := y]> (k_bufs s)) s) t c Hc)|].
    unfold blk; simpl. by rewrite list_lookup_insert_ne.
  - etransitivity; [apply (refs_core (set_k_bufs (<[b := y]> (k_bufs s)) s) t c Hc)|].
    unfold refs; simpl. destruct (decide (c = b)) as [->|]; [by rewrite list_lookup_insert_eq, Hx|by rewrite list_lookup_insert_ne].
Qed.
End Cache.

(* ------------------------------------------------------------------ *)
(** ** The contract of the buffer cache *)

(** C20: [bread] returns the latest contents.  With the buffers [held] locked by
    the process and a cache that satisfies its invariant, [bread] of a block the
    process has not locked returns, without touching the disk, a buffer that is
    now locked too and holds what was last stored into the block, on the disk or
    not; the invariant (at most one buffer per block, a circular list of all the
    buffers, unsaved contents only in dirty or locked buffers) holds again.  The
    only other outcome is the panic for want of a buffer. *)
Theorem bread_coherent i n ip p s held V Dk k :
  cache i n ip p s held V Dk -> 0 <= k < FSSIZE ->
  (forall b x, b ∈ held -> k_bufs s !! b = Some x -> b_blockno x <> k) ->
  safe (fun t => hw_disk (k_hw t) = Dk) eq no_buffers
    (fun b t => cache i n ip p t (b :: held) V Dk /\ b ∉ held /\
       exists z, k_bufs t !! b = Some z /\ b_blockno z = k /\ b_data z = V k)
    (bread (D := crash_driver) 1 k s).
Proof.
  intros Hca Hk Hh. apply (bread_spec i n ip p (fun d => d = Dk) no_buffers s held V Dk k); [done|done|done|done|by left|].
  intros b t z Hc Hnh _ Hz Eb Ed _ _ _ _. split; [done|]. split; [done|]. by exists z.
Qed.

(** [bwrite] makes the contents of a locked buffer durable: the request
    changes that block of the disk to what the buffer holds and no other, and the
    invariant of the cache is kept with the new disk. *)
Theorem bwrite_durable i n ip p s held V Dk b x :
  cache i n ip p s held V Dk -> (b < head)%nat -> b ∈ held -> k_bufs s !! b = Some x ->
  safe (fun t => hw_disk (k_hw t) = fupd Dk (b_blockno x) (b_data x)) eq no_buffers
    (fun _ t => cache i n ip p t held V (fupd Dk (b_blockno x) (b_data x)))
    (bwrite (D := crash_driver) b s).
Proof.
  intros Hca Hb Hh Hx.
  destruct (cd_bufs _ _ _ _ _ _ (ca_data _ _ _ _ _ _ _ _ Hca) b x Hb Hx) as [_ _ B3 B4 _].
  destruct (B3 Hh) as (_ & _ & _ & B9 & _ & B11). rewrite (B4 B9 B11).
  apply (bwrite_spec i n ip p (fun d => d = fupd Dk (b_blockno x) (V (b_blockno x))) no_buffers s held V Dk b x); [done|done|done|done|done|]. intros t z Hc _ _ _ _. exact Hc.
Qed.

(** the list of buffers is in order of use.  [brelse] of the last reference
    to a buffer moves it to the front of the list and leaves the order of the
    others; a buffer that is still referenced stays where it is. *)
Theorem brelse_lru i n ip p s held V Dk b x order :
  p_state p <> SLEEPING -> cache i n ip p s held V Dk -> (b < head)%nat -> b ∈ held -> k_bufs s !! b = Some x ->
  lru (k_bufs s) order ->
  exists t, brelse b s = Ret tt t /\ same_core (<[b := set_b_refcnt (b_refcnt x - 1) x]> (k_bufs s)) (k_bufs t) /\
    lru (k_bufs t) (if b_refcnt x =? 1 then b :: filter (fun c => c <> b) order else order) /\
    sl_locked (k_slocks t (Sl_buf b)) = 0.
Proof.
  intros Hst Hca Hb Hh Hx HL.
  destruct (brelse_run i n ip p Hst s held V Dk b x order Hca Hb Hh Hx HL) as (t & Hr & _ & _ & _ & Hc & HLt & _ & Hs & _).
  exists t. split; [done|]. split; [done|]. split; [|done].
  simpl in HLt. replace (b_refcnt x =? 1) with (b_refcnt x - 1 =? 0); [done|]. destruct (Z.eqb_spec (b_refcnt x) 1), (Z.eqb_spec (b_refcnt x - 1) 0); lia || done.
Qed.

(* ------------------------------------------------------------------ *)
(** ** A cache as [binit] makes it *)

Definition init_proc : proc := set_p_state RUNNING (set_p_pid 1 proc0).
(** The disk is [d]; process 0 runs on processor 0. *)
Definition fresh_cache (d : Z -> list Z) : kstate :=
  set_k_bufs linked_bufs (set_k_hw (set_hw_disk d (k_hw boot)) thread_state).
Lemma fresh_cache_ok d : cache 0 0 0 init_proc (fresh_cache d) [] d d.
Proof.
  split; [|done|done| |done|done].
  - apply (thread_ext thread_state); [apply thread_state_ok| |done|done]. exists (set_c_proc (Some 0%nat) (cpu0 0)). by repeat split.
  - change (cache_data 1 linked_bufs (k_slocks boot) [] d d). split.
    + eexists. apply linked_lru.
    + intros b x _ Hb. apply idle_buf_ok. by eapply linked_idle.
    + intros b c x y _ _ Hx _ E. apply linked_idle, idle_buf_spec in Hx. lia.
    + by left.
Qed.

Lemma bread_coherent_witness :
  safe (fun t => hw_disk (k_hw t) = fun k => replicate 512 k) eq no_buffers
    (fun b t => cache 0 0 0 init_proc t [b] (fun k => replicate 512 k) (fun k => replicate 512 k) /\ b ∉ [] /\
       exists z, k_bufs t !! b = Some z /\ b_blockno z = 7 /\ b_data z = replicate 512 7)
    (bread (D := crash_driver) 1 7 (fresh_cache (fun k => replicate 512 k))).
Proof.
  apply (bread_coherent 0 0 0 init_proc (fresh_cache (fun k => replicate 512 k)) [] (fun k => replicate 512 k));
    [apply fresh_cache_ok|unfold FSSIZE; lia|intros b x []%not_elem_of_nil].
Defined.

(** Buffer 0, the last of the list, holds block 7 and is locked by process 0. *)
Definition locked7 : buf := mk_buf B_VALID 1 7 1 1 head None (replicate 512 7).
Definition held7 (d : Z -> list Z) : kstate :=
  set_k_bufs (<[0%nat := locked7]> linked_bufs)
    (set_k_slocks (fupd (k_slocks boot) (Sl_buf 0) (mk_sleeplock 1 "buffer" 1)) (fresh_cache d)).
Lemma one_locked_data bs order x0 (d : Z -> list Z) :
  lru bs order -> (forall b x, bs !! b = Some x -> idle_buf x = true) ->
  bs !! 0%nat = Some x0 -> b_next x0 = head -> b_prev x0 = 1%nat ->
  cache_data 1 (<[0%nat := locked7]> bs) (fupd (k_slocks boot) (Sl_buf 0) (mk_sleeplock 1 "buffer" 1)) [0%nat]
    (fupd d 7 (replicate 512 7)) d.
Proof.
  intros Hl Hi Hx0 En Ep. split.
  - exists order. eapply lru_insert; [exact Hl|exact Hx0|by rewrite En|by rewrite Ep].
  - intros b x _ [(<- & <- & _)|(Hne & Hb)]%list_lookup_insert_Some.
    + split; [done|intros []; by left|intros _; split; [done|]; by rewrite fupd_same|intros _ _; by rewrite fupd_same|done].
    + destruct (idle_buf_spec _ (Hi b x Hb)) as (E1 & E2 & E3).
      split; rewrite ?E1, ?E2; try (unfold flag; rewrite E3); [done| |intros ->%list_elem_of_singleton|done|done]; [|done].
      intros _. rewrite fupd_other by congruence. done.
  - intros b c x y _ _ [(<- & <- & _)|(_ & Hx)]%list_lookup_insert_Some [(<- & <- & _)|(_ & Hy)]%list_lookup_insert_Some E E'; [done| | |];
      exfalso; [apply Hi, idle_buf_spec in Hy|apply Hi, idle_buf_spec in Hx..]; lia.
  - intros k. destruct (decide (k = 7)) as [->|Hk]; [right|left; by rewrite fupd_other].
    exists 0%nat, locked7. split; [apply Nat.ltb_lt; reflexivity|]. split; [apply list_lookup_insert_eq; by eapply lookup_lt_Some|].
    do 3 (split; [done|]). right. by left.
Qed.
Lemma linked_last : exists x, linked_bufs !! 0%nat = Some x /\ b_next x = head /\ b_prev x = 1%nat.
Proof. eexists. split; [vm_compute; reflexivity|by vm_compute]. Qed.
Lemma held7_ok d : cache 0 0 0 init_proc (held7 d) [0%nat] (fupd d 7 (replicate 512 7)) d.
Proof.
  destruct linked_last as (x0 & Hx0 & En & Ep). pose proof (one_locked_data _ _ _ d linked_lru linked_idle Hx0 En Ep) as H. clear Hx0.
  split; [|done|done|exact H|done|done].
  apply (thread_ext thread_state); [apply thread_state_ok| |done|done]. exists (set_c_proc (Some 0%nat) (cpu0 0)). by repeat split.
Qed.
Lemma held7_buf d : k_bufs (held7 d) !! 0%nat = Some locked7.
Proof. destruct linked_last as (x0 & Hx0 & _). apply list_lookup_insert_eq. by eapply lookup_lt_Some. Qed.
Lemma held7_lru d : lru (k_bufs (held7 d)) (rev (seq 0 30)).
Proof.
  destruct linked_last as (x0 & Hx0 & En & Ep). change (lru (<[0%nat := locked7]> linked_bufs) (rev (seq 0 30))).
  eapply lru_insert; [exact linked_lru|exact Hx0|by rewrite En|by rewrite Ep].
Qed.

Lemma bwrite_durable_witness :
  safe (fun t => hw_disk (k_hw t) = fupd (fun _ => replicate 512 0) 7 (replicate 512 7)) eq no_buffers
    (fun _ t => cache 0 0 0 init_proc t [0%nat] (fupd (fun _ => replicate 512 0) 7 (replicate 512 7))
       (fupd (fun _ => replicate 512 0) 7 (replicate 512 7)))
    (bwrite (D := crash_driver) 0 (held7 (fun _ => replicate 512 0))).
Proof.
  apply (bwrite_durable 0 0 0 init_proc (held7 (fun _ => replicate 512 0)) [0%nat] _ (fun _ => replicate 512 0) 0 locked7);
    [apply held7_ok|apply Nat.ltb_lt; reflexivity|by left|apply held7_buf].
Defined.

Lemma brelse_lru_witness :
  exists t, brelse 0 (held7 (fun _ => replicate 512 0)) = Ret tt t /\ lru (k_bufs t) (0%nat :: rev (seq 1 29)) /\
    sl_locked (k_slocks t (Sl_buf 0)) = 0.
Proof.
  destruct (brelse_lru 0 0 0 init_proc (held7 (fun _ => replicate 512 0)) [0%nat]
    (fupd (fun _ => replicate 512 0) 7 (replicate 512 7)) (fun _ => replicate 512 0) 0 locked7 (rev (seq 0 30)))
    as (t & H1 & _ & H2 & H3); [done|apply held7_ok|apply Nat.ltb_lt; reflexivity|by left|apply held7_buf|apply held7_lru|].
  exists t. exact (conj H1 (conj H2 H3)).
Defined.
