(* ===== verification/Log.v ===== *)
(** * The logging layer

    [log.c], and [readsb] of [fs.c].  The log header on disk holds [n] and the
    block numbers as 32-bit words; [log.lh] is [lg_n] and [lg_block]. *)

From S2P Require Import Prelude Mmu Bytes Mem State Spinlock Printk Critical Kalloc Vm Sched Sleeplock Disk Bio.

(** [memmove] and stores into [b->data]. *)
Definition set_data (b : nat) (f : list Z -> list Z) : K unit :=
  upd_buf b (fun x => set_b_data (f (b_data x)) x).
Definition get_data (b : nat) : K (list Z) := x <- get_buf b ;; ret (b_data x).

(** [log.lh.block[i]]: a fault outside the array. *)
Definition lh_block (i : nat) : K Z := l <- gets k_log ;; deref (lg_block l !! i).
Definition set_lh_block (i : nat) (v : Z) : K unit :=
  lh_block i ;; upd_log (fun l => set_lg_block (<[i := v]> (lg_block l)) l).

(** [sizeof(struct logheader)] *)
Definition sizeof_logheader : Z := 4 + 4 * LOGSIZE.
(** [fs.h]: the fields of the superblock in block 1. *)
Definition parse_sb (d : list Z) : superblock :=
  mk_superblock (get32 0 d) (get32 4 d) (get32 8 d) (get32 12 d) (get32 16 d) (get32 20 d) (get32 24 d).

Section Driver.
Context {D : DiskDriver}.

Definition readsb (dev : Z) : K superblock :=
  bp <- bread dev 1 ;;
  d <- get_data bp ;;
  brelse bp ;;
  ret (parse_sb d).

(** The body of the loops of [install_trans] and [write_log]: copy block [src]
    to block [dst] through the cache and write it; [first] is read first. *)
Definition install_one (tail : nat) : K unit :=
  l <- gets k_log ;;
  lbuf <- bread (lg_dev l) (u32 (lg_start l + Z.of_nat tail + 1)) ;;
  blk <- lh_block tail ;;
  dbuf <- bread (lg_dev l) (u32 blk) ;;
  d <- get_data lbuf ;;
  set_data dbuf (fun _ => d) ;;
  bwrite dbuf ;;
  brelse lbuf ;;
  brelse dbuf.
Definition install_trans : K unit :=
  l <- gets k_log ;;
  iter_list (upto (lg_n l)) install_one.

Definition read_head : K unit :=
  l <- gets k_log ;;
  buf <- bread (lg_dev l) (u32 (lg_start l)) ;;
  d <- get_data buf ;;
  upd_log (set_lg_n (s32 (get32 0 d))) ;;
  iter_list (upto (s32 (get32 0 d))) (fun i => set_lh_block i (s32 (get32 (4 + 4 * Z.of_nat i) d))) ;;
  brelse buf.

Definition write_head : K unit :=
  l <- gets k_log ;;
  buf <- bread (lg_dev l) (u32 (lg_start l)) ;;
  set_data buf (put32 0 (lg_n l)) ;;
  iter_list (upto (lg_n l)) (fun i =>
    v <- lh_block i ;; set_data buf (put32 (4 + 4 * Z.of_nat i) v)) ;;
  bwrite buf ;;
  brelse buf.

Definition recover_from_log : K unit :=
  read_head ;;
  install_trans ;;
  upd_log (set_lg_n 0) ;;
  write_head.

Definition initlog (dev : Z) : K unit :=
  if BSIZE <=? sizeof_logheader then panic "initlog: too big logheader" else
  initlock Lk_log "log" ;;
  sb <- readsb dev ;;
  upd_log (set_lg_start (s32 (sb_logstart sb))) ;;
  upd_log (set_lg_size (s32 (sb_nlog sb))) ;;
  upd_log (set_lg_dev dev) ;;
  recover_from_log.

Definition write_log_one (tail : nat) : K unit :=
  l <- gets k_log ;;
  to <- bread (lg_dev l) (u32 (lg_start l + Z.of_nat tail + 1)) ;;
  blk <- lh_block tail ;;
  from <- bread (lg_dev l) (u32 blk) ;;
  d <- get_data from ;;
  set_data to (fun _ => d) ;;
  bwrite to ;;
  brelse from ;;
  brelse to.
Definition write_log : K unit :=
  l <- gets k_log ;;
  iter_list (upto (lg_n l)) write_log_one.

Definition commit : K unit :=
  l <- gets k_log ;;
  when (0 <? lg_n l) (
    write_log ;;
    write_head ;;
    install_trans ;;
    upd_log (set_lg_n 0) ;;
    write_head).

(** [while(1)]: [fuel] bounds the number of wakeups. *)
Fixpoint begin_op_loop (fuel : nat) : K unit :=
  l <- gets k_log ;;
  if truth (lg_committing l) || (LOGSIZE <? lg_n l + (lg_outstanding l + 1) * MAXOPBLOCKS) then
    match fuel with
    | O => nofuel
    | S f => sleep Ch_log (Some Lk_log) ;; begin_op_loop f
    end
  else
    upd_log (set_lg_outstanding (lg_outstanding l + 1)) ;;
    release Lk_log.
Definition begin_op : K unit :=
  acquire Lk_log ;;
  w <- gets k_wait ;; begin_op_loop w.

Definition end_op : K unit :=
  acquire Lk_log ;;
  upd_log (fun l => set_lg_outstanding (lg_outstanding l - 1) l) ;;
  l <- gets k_log ;;
  if truth (lg_committing l) then panic "log.committing" else
  do_commit <- (if lg_outstanding l =? 0 then upd_log (set_lg_committing 1) ;; ret true
                else wakeup Ch_log ;; ret false) ;;
  release Lk_log ;;
  when do_commit (
    commit ;;
    acquire Lk_log ;;
    upd_log (set_lg_committing 0) ;;
    wakeup Ch_log ;;
    release Lk_log).

(** The index at which [log_write] records block [n]: its entry or the end. *)
Fixpoint absorb (bl : list Z) (n : nat) (blockno : Z) : nat :=
  match n, bl with
  | S n', v :: bl' => if u32 v =? blockno then O else S (absorb bl' n' blockno)
  | _, _ => O
  end.
Definition log_write (b : nat) : K unit :=
  l <- gets k_log ;;
  if (LOGSIZE <=? lg_n l) || (lg_size l - 1 <=? lg_n l) then panic "too big a transaction" else
  if lg_outstanding l <? 1 then panic "log_write outside of trans" else
  acquire Lk_log ;;
  x <- get_buf b ;;
  l <- gets k_log ;;
  let i := absorb (lg_block l) (Z.to_nat (lg_n l)) (b_blockno x) in
  set_lh_block i (s32 (b_blockno x)) ;;
  when (Z.of_nat i =? lg_n l) (upd_log (set_lg_n (lg_n l + 1))) ;;
  upd_buf b (set_flag B_DIRTY) ;;
  release Lk_log.
End Driver.
