(* ===== verification/LogSpec.v ===== *)
(** * Transactions are atomic

    [commit] of [log.c], run on the driver with crash points: whenever the
    machine stops, replaying the log found on the disk (what [recover_from_log]
    does at boot) gives either all the writes of the transaction or none. *)

From S2P Require Import Prelude Mmu Bytes Mem State Spinlock Printk Critical Kalloc Vm Sched Sleeplock Disk Bio BioSpec CacheSpec Log.

(* ------------------------------------------------------------------ *)
(** ** The log on the disk *)

(** The header block: the count and the home blocks. *)
Definition hdr_n (h : list Z) : Z := s32 (get32 0 h).
Definition hdr_block (h : list Z) (j : nat) : Z := s32 (get32 (4 + 4 * Z.of_nat j) h).
(** The disk that recovery leaves: each logged block copied to its home. *)
Definition replay (start : Z) (d : Z -> list Z) : Z -> list Z :=
  fold_left (fun acc j => fupd acc (u32 (hdr_block (d start) j)) (d (start + Z.of_nat j + 1)))
    (seq 0 (Z.to_nat (hdr_n (d start)))) d.

Lemma fold_fupd_other (f : nat -> Z) (g : nat -> list Z) l h : forall d : Z -> list Z,
  (forall j, j ∈ l -> f j <> h) -> fold_left (fun acc j => fupd acc (f j) (g j)) l d h = d h.
Proof.
  induction l as [|j l IH]; intros d H; [done|]. cbn [fold_left]. rewrite IH by (intros; apply H; set_solver).
  apply fupd_other. intros E. by apply (H j); [set_solver|].
Qed.
Lemma fold_fupd_in (f : nat -> Z) (g : nat -> list Z) l j : forall d : Z -> list Z,
  (forall a b, a ∈ l -> b ∈ l -> f a = f b -> a = b) -> NoDup l -> j ∈ l ->
  fold_left (fun acc j => fupd acc (f j) (g j)) l d (f j) = g j.
Proof.
  induction l as [|a l IH]; intros d Hinj HN Hj; [set_solver|]. cbn [fold_left]. apply NoDup_cons in HN as [Ha HN].
  apply elem_of_cons in Hj as [->|Hj].
  - rewrite fold_fupd_other; [apply fupd_same|]. intros b Hb E. assert (b = a) by (apply Hinj; set_solver). congruence.
  - apply IH; [|done|done]. intros b c Hb Hc. apply Hinj; set_solver.
Qed.

(** ** The bytes of the header *)
Definition put_header (n : Z) (bl : list Z) (h : list Z) : list Z :=
  fold_left (fun h j => put32 (4 + 4 * Z.of_nat j) (nth j bl 0) h) (seq 0 (Z.to_nat n)) (put32 0 n h).

Lemma put_blocks_spec bl m : forall a h,
  length h = Z.to_nat BSIZE -> (a + m <= 30)%nat ->
  let h' := fold_left (fun h j => put32 (4 + 4 * Z.of_nat j) (nth j bl 0) h) (seq a m) h in
  length h' = Z.to_nat BSIZE /\ get32 0 h' = get32 0 h /\
  (forall j, (a <= j < a + m)%nat -> get32 (4 + 4 * Z.of_nat j) h' = u32 (nth j bl 0)) /\
  (forall j, (j < a \/ a + m <= j < 30)%nat -> get32 (4 + 4 * Z.of_nat j) h' = get32 (4 + 4 * Z.of_nat j) h).
Proof.
  assert (Z.to_nat BSIZE = 512%nat) as EB by done. rewrite EB.
  induction m as [|m IH]; intros a h Hh Ha; cbn [seq fold_left]; [by repeat split; intros; lia|].
  set (h1 := put32 (4 + 4 * Z.of_nat a) (nth a bl 0) h).
  assert (length h1 = 512%nat) as H1 by (unfold h1, put32; rewrite length_put; rewrite ?length_le_bytes; lia).
  destruct (IH (S a) h1 H1 ltac:(lia)) as (G1 & G2 & G3 & G4). split; [done|]. split; [|split].
  - rewrite G2. unfold h1. apply get32_put32_other; lia.
  - intros j Hj. destruct (decide (j = a)) as [->|]; [|apply G3; lia].
    rewrite G4 by lia. unfold h1. apply get32_put32_same; lia.
  - intros j Hj. rewrite G4 by lia. unfold h1. apply get32_put32_other; lia.
Qed.
Lemma put_header_spec k bl h :
  length h = Z.to_nat BSIZE -> 0 <= k <= 30 -> (forall j, (j < Z.to_nat k)%nat -> 0 <= nth j bl 0 < 2 ^ 31) ->
  length (put_header k bl h) = Z.to_nat BSIZE /\ hdr_n (put_header k bl h) = k /\
  forall j, (j < Z.to_nat k)%nat -> hdr_block (put_header k bl h) j = nth j bl 0.
Proof.
  intros Hh Hk Hbl. assert (Z.to_nat BSIZE = 512%nat) as EB by done.
  assert (length (put32 0 k h) = Z.to_nat BSIZE) as H0 by (unfold put32; rewrite length_put; rewrite ?length_le_bytes; lia).
  destruct (put_blocks_spec bl (Z.to_nat k) 0 (put32 0 k h) H0 ltac:(lia)) as (G1 & G2 & G3 & _).
  split; [exact G1|]. unfold hdr_n, hdr_block, put_header. split.
  - rewrite G2, get32_put32_same by lia. rewrite u32_small by lia. apply s32_small. lia.
  - intros j Hj. rewrite G3 by lia. specialize (Hbl j Hj). rewrite u32_small by lia. apply s32_small. lia.
Qed.

(* ------------------------------------------------------------------ *)
(** ** Steps of the log code *)
Section Steps.
Context (i : nat) (n : Z) (ip : nat) (p : proc) (Hst : p_state p <> SLEEPING).
Context (G : (Z -> list Z) -> Prop).
Notation cache := (cache i n ip p).
Notation wp := (wp G no_buffers).

Lemma wp_iter (I : nat -> kstate -> Prop) (body : nat -> K unit) k s (Q : unit -> kstate -> Prop) :
  (forall j t, (j < k)%nat -> I j t -> wp (body j) t (fun _ t' => I (S j) t')) ->
  I 0%nat s -> (forall t, I k t -> Q tt t) -> wp (iter_list (seq 0 k) body) s Q.
Proof.
  intros Hb H0 HQ. assert (forall m a t, (a + m = k)%nat -> I a t -> wp (iter_list (seq a m) body) t Q) as H.
  { induction m as [|m IH]; intros a t Ha HI; cbn [seq iter_list].
    - eapply wp_run; [done|]. apply HQ. by replace k with a by lia.
    - apply wp_bind. eapply wp_mono; [apply Hb; [lia|exact HI]|]. intros u t' HI'. apply IH; [lia|done]. }
  by apply (H k 0%nat).
Qed.

Lemma held_buf s held V Dk b :
  cache s held V Dk -> (b < head)%nat -> b ∈ held ->
  exists x, k_bufs s !! b = Some x /\ b_data x = V (b_blockno x).
Proof.
  intros Hca Hb Hh. pose proof (ca_data _ _ _ _ _ _ _ _ Hca) as HC. destruct (cd_lru _ _ _ _ _ _ HC) as [order HL].
  destruct (lru_lookup _ _ b HL) as (x & Hx & _); [lia|]. exists x. split; [done|].
  destruct (cd_bufs _ _ _ _ _ _ HC b x Hb Hx) as [_ _ H3 H4 _]. destruct (H3 Hh) as (_ & _ & _ & H5 & _ & H6). auto.
Qed.

Lemma cache_bufs s held V V' Dk bs :
  cache s held V Dk -> cache_data (p_pid p) bs (k_slocks s) held V' Dk -> cache (set_k_bufs bs s) held V' Dk.
Proof.
  intros [H1 H2 H3 H4 H5 H6] HC. split; try done. apply (thread_ext s); try done. apply (on_cpu_ext s); try done. apply H1.
Qed.

Lemma set_data_spec s held V Dk b k dirty f (Q : unit -> kstate -> Prop) :
  cache s held V Dk -> (b < head)%nat -> b ∈ held -> blk s b = Some (k, dirty) ->
  (forall t, cache t held (fupd V k (f (V k))) Dk -> (forall c, blk t c = blk s c) -> rest s t -> Q tt t) ->
  wp (set_data b f) s Q.
Proof.
  intros Hca Hb Hh Hk HQ. destruct (held_buf s held V Dk b Hca Hb Hh) as (x & Hx & Hdat).
  unfold blk in Hk. rewrite Hx in Hk. simpl in Hk. inversion Hk; subst k dirty.
  assert (b < length (k_bufs s))%nat as Hlt by (by eapply lookup_lt_Some).
  unfold set_data. eapply wp_run; [by apply upd_buf_ok|]. apply HQ.
  - eapply cache_bufs; [exact Hca|]. rewrite Hdat. eapply cache_store; try done. apply Hca.
  - intros c. unfold blk; simpl. destruct (decide (c = b)) as [->|]; [by rewrite list_lookup_insert_eq, Hx|].
    by rewrite list_lookup_insert_ne.
  - eauto with frame.
Qed.

Lemma get_data_run s held V Dk b k dirty :
  cache s held V Dk -> (b < head)%nat -> b ∈ held -> blk s b = Some (k, dirty) -> get_data b s = Ret (V k) s.
Proof.
  intros Hca Hb Hh Hk. destruct (held_buf s held V Dk b Hca Hb Hh) as (x & Hx & Hdat).
  unfold blk in Hk. rewrite Hx in Hk. simpl in Hk. inversion Hk; subst. unfold get_data. run (get_buf_ok s b x Hx). by rewrite Hdat.
Qed.

(** [bread], [bwrite] and [brelse] in terms of block numbers. *)
Lemma bread_blk s held V Dk k (Q : nat -> kstate -> Prop) :
  cache s held V Dk -> G Dk -> 0 <= k < FSSIZE ->
  (forall b d, b ∈ held -> blk s b <> Some (k, d)) ->
  (forall b t d, cache t (b :: held) V Dk -> b ∉ held -> (b < head)%nat -> blk t b = Some (k, d) ->
    V k = Dk k \/ d = true -> (forall c, c ∈ held -> blk t c = blk s c) -> rest s t -> Q b t) ->
  wp (bread (D := crash_driver) 1 k) s Q.
Proof.
  intros Hca HG Hk Hh HQ. eapply bread_spec; try done; [|by left|].
  - intros b x Hb Hx E. apply (Hh b (flag x B_DIRTY) Hb). unfold blk. rewrite Hx. simpl. by rewrite E.
  - intros b t z H1 H2 H3 H4 H5 H6 H7 H8 H9 H10. apply (HQ b t (flag z B_DIRTY)); try done.
    + unfold blk. rewrite H4. simpl. by rewrite H5.
    + intros c Hc. unfold blk. rewrite H9; [done|]. intros ->. done.
Qed.
Lemma bwrite_blk s held V Dk b k d (Q : unit -> kstate -> Prop) :
  cache s held V Dk -> (b < head)%nat -> b ∈ held -> blk s b = Some (k, d) -> G (fupd Dk k (V k)) ->
  (forall t, cache t held V (fupd Dk k (V k)) -> blk t b = Some (k, false) -> (forall c, c <> b -> blk t c = blk s c) ->
    rest s t -> Q tt t) ->
  wp (bwrite (D := crash_driver) b) s Q.
Proof.
  intros Hca Hb Hh Hk HG HQ. destruct (held_buf s held V Dk b Hca Hb Hh) as (x & Hx & _).
  unfold blk in Hk. rewrite Hx in Hk. simpl in Hk. inversion Hk; subst.
  assert (b < length (k_bufs s))%nat as Hlt by (by eapply lookup_lt_Some).
  eapply bwrite_spec; try done. intros t z H1 H2 H3 H4 H5. apply HQ; try done.
  - unfold blk. rewrite H2, list_lookup_insert_eq by done. simpl. by rewrite H3, H4.
  - intros c Hc. unfold blk. by rewrite H2, list_lookup_insert_ne.
Qed.
Lemma brelse_blk s held held' V Dk b k d (Q : unit -> kstate -> Prop) :
  cache s held V Dk -> (b < head)%nat -> b ∈ held -> blk s b = Some (k, d) ->
  (forall c, c ∈ held' <-> c ∈ held /\ c <> b) -> V k = Dk k \/ d = true ->
  (forall t, cache t held' V Dk -> (forall c, c <> b -> blk t c = blk s c) -> rest s t -> Q tt t) ->
  wp (brelse b) s Q.
Proof.
  intros Hca Hb Hh Hk Hh' Hcl HQ. destruct (held_buf s held V Dk b Hca Hb Hh) as (x & Hx & _).
  unfold blk in Hk. rewrite Hx in Hk. simpl in Hk. inversion Hk; subst. eapply brelse_spec; [done..|]. auto.
Qed.

(** Copying one held block to another, writing it and releasing both. *)
Lemma copy_spec s V Dk src dst ks kd ds dd held (Q : unit -> kstate -> Prop) :
  cache s held V Dk -> (src < head)%nat -> (dst < head)%nat -> src <> dst -> (forall c, c ∈ held <-> c = src \/ c = dst) ->
  blk s src = Some (ks, ds) -> blk s dst = Some (kd, dd) -> ks <> kd -> V ks = Dk ks \/ ds = true ->
  G (fupd Dk kd (V ks)) ->
  (forall t V', cache t [] V' (fupd Dk kd (V ks)) -> (forall k, V' k = if decide (k = kd) then V ks else V k) -> rest s t -> Q tt t) ->
  wp (d <- get_data src ;; set_data dst (fun _ => d) ;; bwrite (D := crash_driver) dst ;; brelse src ;; brelse dst) s Q.
Proof.
  intros Hca Hs Hd Hne Hheld Hbs Hbd Hk Hcl HG HQ.
  eapply wp_step; [eapply get_data_run; [exact Hca|done|apply Hheld; by left|exact Hbs]|]. cbv beta.
  apply wp_bind. eapply set_data_spec; [exact Hca|exact Hd|apply Hheld; by right|exact Hbd|]. intros s1 Hc1 Hb1 R1.
  set (V1 := fupd V kd (V ks)) in *. assert (V1 kd = V ks) as Ekd by apply fupd_same.
  assert (V1 ks = V ks) as Eks by (by apply fupd_other).
  apply wp_bind. eapply bwrite_blk; [exact Hc1|exact Hd|apply Hheld; by right|by rewrite Hb1|by rewrite Ekd|].
  rewrite Ekd. intros s2 Hc2 Hbd2 Hb2 R2.
  apply wp_bind. eapply (brelse_blk s2 held [dst]); [exact Hc2|exact Hs|apply Hheld; by left|by rewrite Hb2, Hb1| | |].
  { intros c. rewrite Hheld, list_elem_of_singleton. naive_solver. }
  { rewrite Eks, fupd_other by done. exact Hcl. }
  intros s3 Hc3 Hb3 R3. eapply (brelse_blk s3 [dst] []); [exact Hc3|exact Hd|set_solver|by rewrite Hb3| | |].
  { intros c. rewrite list_elem_of_singleton. split; [set_solver|]. tauto. }
  { left. by rewrite Ekd, fupd_same. }
  intros t Hct _ R4. apply (HQ t V1 Hct).
  - intros k. unfold V1, fupd. by destruct (decide (k = kd)).
  - transitivity s1; [done|]. transitivity s2; [done|]. by transitivity s3.
Qed.

(** ** [write_head] *)
Lemma lh_block_run s lg j h :
  k_log s = lg -> lg_block lg !! j = Some h -> lh_block j s = Ret h s.
Proof. intros El Hj. unfold lh_block. rstep. by rewrite El, Hj. Qed.

Lemma write_head_spec s V Dk lg start (Q : unit -> kstate -> Prop) :
  cache s [] V Dk -> k_log s = lg -> lg_dev lg = 1 -> lg_start lg = start -> 0 <= start < FSSIZE ->
  0 <= lg_n lg <= 30 -> (forall j, (j < Z.to_nat (lg_n lg))%nat -> lg_block lg !! j = Some (nth j (lg_block lg) 0)) ->
  let h := put_header (lg_n lg) (lg_block lg) (V start) in
  G Dk -> G (fupd Dk start h) ->
  (forall t V', cache t [] V' (fupd Dk start h) -> (forall k, V' k = if decide (k = start) then h else V k) -> rest s t -> Q tt t) ->
  wp (write_head (D := crash_driver)) s Q.
Proof.
  intros Hca El Edev Est Hs Hn Hbl h HG HG' HQ. unfold write_head. eapply wp_step; [done|]. rewrite El, Edev, Est.
  rewrite u32_small by (unfold FSSIZE in *; lia).
  apply wp_bind. eapply bread_blk; [exact Hca|exact HG|exact Hs|set_solver|]. intros b s1 d Hc1 Hnb Hb Hk1 Hcl1 _ R1.
  apply wp_bind. eapply set_data_spec; [exact Hc1|exact Hb|set_solver|exact Hk1|]. intros s2 Hc2 Hb2 R2.
  apply wp_bind.
  apply (wp_iter (fun j t => exists V', cache t [b] V' Dk /\ blk t b = Some (start, d) /\ rest s t /\
    V' start = fold_left (fun h j => put32 (4 + 4 * Z.of_nat j) (nth j (lg_block lg) 0) h) (seq 0 j) (put32 0 (lg_n lg) (V start)) /\
    forall k, k <> start -> V' k = V k)).
  - intros j t Hj (V' & Hct & Hbt & Rt & E1 & E2).
    assert (k_log t = lg) as Elt by (rewrite (Rt _ k_log) by cache_free_tac; done).
    eapply wp_step; [eapply lh_block_run; [exact Elt|by apply Hbl]|].
    eapply set_data_spec; [exact Hct|exact Hb|set_solver|exact Hbt|]. intros t' Hct' Hbt' Rt'.
    eexists. split; [exact Hct'|]. split; [by rewrite Hbt'|]. split; [by transitivity t|]. split.
    + rewrite fupd_same, E1, seq_S, fold_left_app. done.
    + intros k Hk. rewrite fupd_other by done. by apply E2.
  - exists (fupd V start (put32 0 (lg_n lg) (V start))). split; [exact Hc2|]. split; [by rewrite Hb2|].
    split; [by transitivity s1|]. split; [by rewrite fupd_same|]. intros k Hk. by apply fupd_other.
  - intros t (V' & Hct & Hbt & Rt & E1 & E2). change (V' start = h) in E1.
    apply wp_bind. eapply bwrite_blk; [exact Hct|exact Hb|set_solver|exact Hbt|by rewrite E1|].
    rewrite E1. intros t1 Hc3 Hb3 _ R3. eapply (brelse_blk t1 [b] []); [exact Hc3|exact Hb|set_solver|exact Hb3| | |].
    + intros c. rewrite list_elem_of_singleton. split; [set_solver|tauto].
    + left. by rewrite fupd_same.
    + intros t2 Hc4 _ R4. apply (HQ t2 V' Hc4); [|transitivity t; [done|by transitivity t1]].
      intros k. destruct (decide (k = start)) as [->|]; [done|by apply E2].
Qed.

(** ** [install_trans] *)
Definition outside (start h : Z) : Prop := h < start \/ start + LOGSIZE < h.

(** The log holds the blocks [homes]. *)
Record log_holds (lg : logstate) (start : Z) (homes : list Z) : Prop := mk_log_holds {
  lh_dev : lg_dev lg = 1;
  lh_start : lg_start lg = start;
  lh_n : lg_n lg = Z.of_nat (length homes);
  lh_blocks : forall j h, homes !! j = Some h -> lg_block lg !! j = Some h;
  lh_fits : 0 <= start /\ start + LOGSIZE < FSSIZE;
  lh_max : (length homes <= Z.to_nat LOGSIZE)%nat;
  lh_homes : forall h, h ∈ homes -> 0 <= h < FSSIZE /\ outside start h;
  lh_once : NoDup homes }.

(** One round of [install_trans] or [write_log]: the addresses it computes. *)
Lemma log_addr lg start homes j :
  log_holds lg start homes -> (j < length homes)%nat ->
  u32 (start + Z.of_nat j + 1) = start + Z.of_nat j + 1 /\ 0 <= start + Z.of_nat j + 1 < FSSIZE /\
  exists h, homes !! j = Some h /\ lg_block lg !! j = Some h /\ u32 h = h /\ 0 <= h < FSSIZE /\ outside start h /\
    h <> start + Z.of_nat j + 1.
Proof.
  intros [H1 H2 H3 H4 H5 H6 H7 H8] Hj. unfold outside, LOGSIZE, MAXOPBLOCKS, FSSIZE in *.
  assert (length homes <= 30)%nat as H6' by exact H6.
  split; [apply u32_small; lia|]. split; [lia|].
  destruct (lookup_lt_is_Some_2 homes j Hj) as [h Hh]. exists h. split; [done|]. split; [by apply H4|].
  destruct (H7 h) as [R Ho]; [by eapply list_elem_of_lookup_2|]. split; [apply u32_small; lia|]. split; [done|]. split; [done|].
  lia.
Qed.

(** The disk during installation: the log is complete, the blocks outside it
    that are not being installed are those of [T]. *)
Record installing (start : Z) (homes : list Z) (H : list Z) (T Dk : Z -> list Z) : Prop := mk_installing {
  in_head : Dk start = H;
  in_log : forall j h, homes !! j = Some h -> Dk (start + Z.of_nat j + 1) = T h;
  in_rest : forall h, outside start h -> h ∉ homes -> Dk h = T h }.

Lemma installing_home start homes H T Dk h :
  installing start homes H T Dk -> outside start h -> (forall j x, homes !! j = Some x -> h <> start + Z.of_nat j + 1) ->
  h ∈ homes -> h <> start -> installing start homes H T (fupd Dk h (T h)).
Proof.
  intros [H1 H2 H3] Ho Hlog Hin Hne. split.
  - by rewrite fupd_other.
  - intros j x Hj. rewrite fupd_other; [by apply H2|]. intros E. by apply (Hlog j x Hj).
  - intros x Hx Hnx. rewrite fupd_other; [by apply H3|]. congruence.
Qed.

Lemma install_trans_spec s V Dk lg start homes H T (Q : unit -> kstate -> Prop) :
  cache s [] V Dk -> k_log s = lg -> log_holds lg start homes ->
  installing start homes H T Dk -> installing start homes H T V ->
  (forall d, installing start homes H T d -> G d) ->
  (forall t V' Dk', cache t [] V' Dk' -> installing start homes H T Dk' -> installing start homes H T V' ->
    (forall h, outside start h -> Dk' h = T h) -> (forall h, outside start h -> V' h = T h) -> rest s t -> Q tt t) ->
  wp (install_trans (D := crash_driver)) s Q.
Proof.
  intros Hca El HL HD HV HG HQ. pose proof HL as [L1 L2 L3 L4 L5 L6 L7 L8].
  unfold install_trans. eapply wp_step; [done|]. rewrite El, L3. unfold upto. rewrite Nat2Z.id.
  apply (wp_iter (fun j t => exists V' Dk', cache t [] V' Dk' /\ installing start homes H T Dk' /\ installing start homes H T V' /\
    rest s t /\ forall m h, (m < j)%nat -> homes !! m = Some h -> Dk' h = T h /\ V' h = T h)).
  - intros j t Hj (V' & Dk' & Hct & HDt & HVt & Rt & Hdone).
    destruct (log_addr lg start homes j HL Hj) as (E1 & R1 & h & Hh & Hbl & E2 & R2 & O2 & N2).
    assert (k_log t = lg) as Elt by (rewrite (Rt _ k_log) by cache_free_tac; done).
    assert (h ∈ homes) as Hin by (by eapply list_elem_of_lookup_2).
    unfold install_one. eapply wp_step; [done|]. rewrite Elt, L1, L2, E1.
    apply wp_bind. eapply bread_blk; [exact Hct|by apply HG|exact R1|set_solver|]. intros b1 t1 d1 Hc1 Hn1 Hb1 Hk1 Hcl1 _ Rt1.
    eapply wp_step; [eapply (lh_block_run t1 lg); [rewrite (Rt1 _ k_log) by cache_free_tac; exact Elt|exact Hbl]|].
    rewrite E2. apply wp_bind. eapply bread_blk; [exact Hc1|by apply HG|exact R2| |].
    { intros c d ->%list_elem_of_singleton. rewrite Hk1. congruence. }
    intros b2 t2 d2 Hc2 Hn2 Hb2 Hk2 Hcl2 Hold Rt2.
    assert (V' (start + Z.of_nat j + 1) = T h) as EV by (by apply HVt).
    assert (forall m x, homes !! m = Some x -> h <> start + Z.of_nat m + 1) as Hnl.
    { intros m x Hm. assert (m < length homes)%nat by (by eapply lookup_lt_Some).
      unfold outside, LOGSIZE, MAXOPBLOCKS in *. assert (length homes <= 30)%nat by exact L6. lia. }
    assert (h <> start) as Hns by (unfold outside, LOGSIZE, MAXOPBLOCKS in O2; lia).
    eapply (copy_spec t2 V' Dk' b1 b2 (start + Z.of_nat j + 1) h); [exact Hc2|done|done|set_solver| |by rewrite Hold by set_solver|exact Hk2|done|done| |].
    { intros c. set_solver. }
    { rewrite EV. apply HG. by apply installing_home. }
    rewrite EV. intros t3 V3 Hc3 EV3 Rt3. eexists _, _. split; [exact Hc3|]. split; [by apply installing_home|]. split; [|split].
    + destruct HVt as [V1 V2 V4]. split.
      * rewrite EV3. by destruct (decide (start = h)).
      * intros m x Hm. rewrite EV3. destruct (decide _) as [E|]; [by apply Hnl in Hm|by apply V2].
      * intros x Hx Hnx. rewrite EV3. destruct (decide (x = h)) as [->|]; [done|by apply V4].
    + transitivity t; [done|]. transitivity t1; [done|]. by transitivity t2.
    + intros m x Hm Hx. rewrite EV3. unfold fupd. destruct (decide (x = h)) as [->|Hne]; [done|].
      apply (Hdone m x); [|done]. assert (m <> j) by congruence. lia.
  - exists V, Dk. split; [done|]. split; [done|]. split; [done|]. split; [done|]. intros m h Hm. lia.
  - intros t (V' & Dk' & Hct & HDt & HVt & Rt & Hdone). apply (HQ t V' Dk' Hct HDt HVt); [| |done].
    all: intros h Ho; destruct (decide (h ∈ homes)) as [Hin|Hn]; [|by eapply in_rest].
    all: apply list_elem_of_lookup_1 in Hin as [m Hm]; apply (Hdone m h); [by eapply lookup_lt_Some|done].
Qed.

(** ** [write_log] *)
Lemma write_log_spec s V Dk lg start homes (Q : unit -> kstate -> Prop) :
  cache s [] V Dk -> k_log s = lg -> log_holds lg start homes ->
  (forall d, d start = Dk start -> (forall h, outside start h -> d h = Dk h) -> G d) ->
  (forall t V' Dk', cache t [] V' Dk' -> V' start = V start -> Dk' start = Dk start ->
    (forall h, outside start h -> V' h = V h /\ Dk' h = Dk h) ->
    (forall j h, homes !! j = Some h -> V' (start + Z.of_nat j + 1) = V h /\ Dk' (start + Z.of_nat j + 1) = V h) ->
    rest s t -> Q tt t) ->
  wp (write_log (D := crash_driver)) s Q.
Proof.
  intros Hca El HL HG HQ. pose proof HL as [L1 L2 L3 L4 L5 L6 L7 L8].
  unfold write_log. eapply wp_step; [done|]. rewrite El, L3. unfold upto. rewrite Nat2Z.id.
  apply (wp_iter (fun j t => exists V' Dk', cache t [] V' Dk' /\ V' start = V start /\ Dk' start = Dk start /\
    (forall h, outside start h -> V' h = V h /\ Dk' h = Dk h) /\ rest s t /\
    forall m h, (m < j)%nat -> homes !! m = Some h -> V' (start + Z.of_nat m + 1) = V h /\ Dk' (start + Z.of_nat m + 1) = V h)).
  - intros j t Hj (V' & Dk' & Hct & EV & ED & Hout & Rt & Hdone).
    destruct (log_addr lg start homes j HL Hj) as (E1 & R1 & h & Hh & Hbl & E2 & R2 & O2 & N2).
    assert (k_log t = lg) as Elt by (rewrite (Rt _ k_log) by cache_free_tac; done).
    assert (G Dk') as HGD by (apply HG; [done|apply Hout]).
    set (a := start + Z.of_nat j + 1) in *.
    assert (forall x, outside start x -> x <> a) as Ha.
    { intros x Hx. unfold outside, LOGSIZE, MAXOPBLOCKS, a in *. assert (length homes <= 30)%nat by exact L6. lia. }
    unfold write_log_one. eapply wp_step; [done|]. rewrite Elt, L1, L2. fold a. rewrite E1.
    apply wp_bind. eapply bread_blk; [exact Hct|done|exact R1|set_solver|]. intros b1 t1 d1 Hc1 Hn1 Hb1 Hk1 Hcl1 _ Rt1.
    eapply wp_step; [eapply (lh_block_run t1 lg); [rewrite (Rt1 _ k_log) by cache_free_tac; exact Elt|exact Hbl]|].
    rewrite E2. apply wp_bind. eapply bread_blk; [exact Hc1|done|exact R2| |].
    { intros c d ->%list_elem_of_singleton. rewrite Hk1. congruence. }
    intros b2 t2 d2 Hc2 Hn2 Hb2 Hk2 Hcl2 Hold Rt2.
    eapply (copy_spec t2 V' Dk' b2 b1 h a); [exact Hc2|done|done|set_solver|intros c; set_solver|exact Hk2
      |by rewrite Hold by set_solver|done|done| |].
    { apply HG; [rewrite fupd_other by (unfold a; lia); done|]. intros x Hx. rewrite fupd_other by (by apply Ha). by apply Hout. }
    intros t3 V3 Hc3 EV3 Rt3. eexists _, _. split; [exact Hc3|]. rewrite EV3.
    split; [destruct (decide (start = a)); [unfold a in *; lia|done]|]. split; [rewrite fupd_other by (unfold a; lia); done|].
    split; [|split].
    + intros x Hx. rewrite EV3, fupd_other by (by apply Ha). destruct (decide (x = a)) as [E|]; [by apply Ha in E|by apply Hout].
    + transitivity t; [done|]. transitivity t1; [done|]. by transitivity t2.
    + intros m x Hm Hx. rewrite EV3. unfold fupd. destruct (decide (start + Z.of_nat m + 1 = a)) as [E|Hne].
      * assert (m = j) as -> by (unfold a in E; lia). assert (x = h) as -> by congruence. split; by apply Hout.
      * apply Hdone; [|done]. assert (m <> j) by (intros ->; done). lia.
  - exists V, Dk. do 5 (split; [done|]). intros m h Hm. lia.
  - intros t (V' & Dk' & Hct & EV & ED & Hout & Rt & Hdone). apply (HQ t V' Dk'); try done.
    intros j h Hj. apply Hdone; [by eapply lookup_lt_Some|done].
Qed.

Lemma cache_log s held V Dk f :
  cache s held V Dk -> exists t, upd_log f s = Ret tt t /\ cache t held V Dk /\ k_log t = f (k_log s) /\ k_bufs t = k_bufs s.
Proof.
  intros [H1 H2 H3 H4 H5 H6]. eexists. split; [reflexivity|]. split; [|done]. split; try done.
  apply (thread_ext s); try done. apply (on_cpu_ext s); try done. apply H1.
Qed.
End Steps.

(* ------------------------------------------------------------------ *)
(** ** Replaying the log *)

(** A complete log is replayed to [T]; an empty one changes nothing. *)
Lemma replay_installing start homes H T d h :
  installing start homes H T d -> NoDup homes -> (forall x, x ∈ homes -> u32 x = x) ->
  hdr_n H = Z.of_nat (length homes) -> (forall j x, homes !! j = Some x -> hdr_block H j = x) ->
  outside start h -> replay start d h = T h.
Proof.
  intros [H1 H2 H3] HN Hu Hn Hb Ho. unfold replay. rewrite H1, Hn, Nat2Z.id.
  assert (forall j, j ∈ seq 0 (length homes) -> exists x, homes !! j = Some x /\ u32 (hdr_block H j) = x) as Hj.
  { intros j [_ Hj]%elem_of_seq. destruct (lookup_lt_is_Some_2 homes j) as [x Hx]; [lia|]. exists x. split; [done|].
    rewrite (Hb j x Hx). apply Hu. by eapply list_elem_of_lookup_2. }
  destruct (decide (h ∈ homes)) as [Hin|Hni].
  - apply list_elem_of_lookup_1 in Hin as [m Hm]. assert (m < length homes)%nat by (by eapply lookup_lt_Some).
    destruct (Hj m) as (x & Hx & E); [apply elem_of_seq; lia|]. assert (x = h) as -> by congruence. rewrite <- E at 1.
    rewrite (fold_fupd_in (fun j => u32 (hdr_block H j)) (fun j => d (start + Z.of_nat j + 1))); [by apply H2| |apply NoDup_seq|apply elem_of_seq; lia].
    intros a b Ha Hb' E'. destruct (Hj a Ha) as (xa & Hxa & Ea), (Hj b Hb') as (xb & Hxb & Eb). eapply NoDup_lookup; [exact HN|exact Hxa|congruence].
  - rewrite (fold_fupd_other (fun j => u32 (hdr_block H j)) (fun j => d (start + Z.of_nat j + 1))); [by apply H3|].
    intros j Hjs E. destruct (Hj j Hjs) as (x & Hx & Ex). apply Hni. rewrite <- E, Ex. by eapply list_elem_of_lookup_2.
Qed.
Lemma replay_empty start d h : hdr_n (d start) = 0 -> replay start d h = d h.
Proof. intros E. unfold replay. by rewrite E. Qed.

(* ------------------------------------------------------------------ *)
(** ** The transaction *)

(** After recovery the file system is in its old or in its new state. *)
Definition atomic (start : Z) (old new d : Z -> list Z) : Prop :=
  (forall h, outside start h -> replay start d h = old h) \/ (forall h, outside start h -> replay start d h = new h).

(** A transaction ready to commit: the log on the disk is empty, the logged
    blocks are [homes], and only they differ between cache ([V]) and disk ([Dk]). *)
Record transaction (s : kstate) (start : Z) (homes : list Z) (V Dk : Z -> list Z) : Prop := mk_transaction {
  tr_log : log_holds (k_log s) start homes;
  tr_header : length (V start) = Z.to_nat BSIZE;
  tr_empty : hdr_n (Dk start) = 0;
  tr_clean : forall h, outside start h -> h ∉ homes -> V h = Dk h }.

Lemma log_holds_nth lg start homes j :
  log_holds lg start homes -> (j < length homes)%nat ->
  exists h, homes !! j = Some h /\ nth j (lg_block lg) 0 = h /\ 0 <= h < FSSIZE /\ lg_block lg !! j = Some h.
Proof.
  intros HL Hj. destruct (log_addr lg start homes j HL Hj) as (_ & _ & h & Hh & Hb & _ & R & _).
  exists h. split; [done|]. split; [by rewrite nth_lookup, Hb|]. done.
Qed.
Lemma log_header lg start homes h :
  log_holds lg start homes -> length h = Z.to_nat BSIZE ->
  let H := put_header (lg_n lg) (lg_block lg) h in
  length H = Z.to_nat BSIZE /\ hdr_n H = Z.of_nat (length homes) /\ (forall j x, homes !! j = Some x -> hdr_block H j = x).
Proof.
  intros HL Hh H. pose proof HL as [L1 L2 L3 L4 L5 L6 L7 L8]. assert (length homes <= 30)%nat by exact L6.
  destruct (put_header_spec (lg_n lg) (lg_block lg) h Hh) as (G1 & G2 & G3); [lia| |].
  { intros j Hj. rewrite L3, Nat2Z.id in Hj. destruct (log_holds_nth lg start homes j HL Hj) as (x & _ & -> & R & _).
    unfold FSSIZE in R. lia. }
  split; [done|]. split; [unfold H; congruence|]. intros j x Hx. unfold H. rewrite G3.
  - destruct (log_holds_nth lg start homes j HL) as (y & Hy & -> & _); [by eapply lookup_lt_Some|congruence].
  - rewrite L3, Nat2Z.id. by eapply lookup_lt_Some.
Qed.

(** The spin locks that the log code leaves alone. *)
Definition other_locks (s t : kstate) : Prop := forall lk, cache_lock lk = false -> k_locks t lk = k_locks s lk.

Section Commit.
Context (i : nat) (n : Z) (ip : nat) (p : proc) (Hst : p_state p <> SLEEPING).
Context (start : Z) (homes : list Z) (V Dk : Z -> list Z).
Let G := atomic start Dk V.

(** From a complete log to an empty one. *)
Lemma install_and_clear s V1 D1 lg H (Q : unit -> kstate -> Prop) (T : Z -> list Z) (GT : (Z -> list Z) -> Prop) :
  cache i n ip p s [] V1 D1 -> k_log s = lg -> log_holds lg start homes ->
  installing start homes H T D1 -> installing start homes H T V1 ->
  length H = Z.to_nat BSIZE ->
  (forall d, installing start homes H T d -> GT d) ->
  (forall d, hdr_n (d start) = 0 -> (forall h, outside start h -> d h = T h) -> GT d) ->
  (forall t V' D', cache i n ip p t [] V' D' -> lg_n (k_log t) = 0 -> hdr_n (D' start) = 0 ->
    (forall h, outside start h -> D' h = T h /\ V' h = T h) -> other_locks s t -> Q tt t) ->
  wp GT no_buffers (install_trans (D := crash_driver) ;; upd_log (set_lg_n 0) ;; write_head (D := crash_driver)) s Q.
Proof.
  intros Hca El HL HD HV HH HG1 HG2 HQ. pose proof HL as [L1 L2 L3 L4 L5 L6 L7 L8].
  apply wp_bind. eapply install_trans_spec; [exact Hst|exact Hca|exact El|exact HL|exact HD|exact HV|exact HG1|].
  intros t V2 D2 Hc2 HD2 HV2 Hout HoutV R2.
  assert (k_log t = lg) as Elt by (rewrite (R2 _ k_log) by cache_free_tac; done).
  destruct (cache_log i n ip p t [] V2 D2 (set_lg_n 0) Hc2) as (t1 & Hu & Hc3 & El3 & _). eapply wp_step; [exact Hu|].
  rewrite Elt in El3. assert (V2 start = H) as EH by apply HV2.
  destruct (put_header_spec 0 (lg_block lg) H HH) as (P1 & P2 & _); [lia|simpl; lia|].
  eapply (write_head_spec i n ip p Hst GT t1 V2 D2 (set_lg_n 0 lg) start); simpl; rewrite ?EH; try done; [unfold LOGSIZE, MAXOPBLOCKS, FSSIZE in *; lia|intros j Hj; lia|by apply HG1| |].
  - apply HG2; [by rewrite fupd_same|]. intros h Ho. rewrite fupd_other; [by apply Hout|].
    unfold outside, LOGSIZE, MAXOPBLOCKS in Ho. lia.
  - intros t2 V4 Hc4 EV4 R4. apply (HQ t2 V4 _ Hc4).
    + rewrite (R4 _ k_log) by cache_free_tac. by rewrite El3.
    + by rewrite fupd_same.
    + intros h Ho. assert (h <> start) by (unfold outside, LOGSIZE, MAXOPBLOCKS in Ho; lia).
      rewrite fupd_other, EV4 by done. destruct (decide (h = start)); [done|]. split; [by apply Hout|by apply HoutV].
    + intros lk Hlk. rewrite (rest_lock _ _ R4 lk Hlk). injection Hu as <-. simpl. by apply (rest_lock _ _ R2).
Qed.

Lemma commit_wp s (Q : unit -> kstate -> Prop) :
  cache i n ip p s [] V Dk -> transaction s start homes V Dk ->
  (forall t V' D', cache i n ip p t [] V' D' -> lg_n (k_log t) = 0 -> hdr_n (D' start) = 0 ->
    (forall h, outside start h -> D' h = V h /\ V' h = V h) -> other_locks s t -> Q tt t) ->
  wp G no_buffers (commit (D := crash_driver)) s Q.
Proof.
  intros Hca [HL Hlen Hempty Hclean] HQ. pose proof HL as [L1 L2 L3 L4 L5 L6 L7 L8]. set (lg := k_log s) in *.
  unfold commit. eapply wp_step; [done|]. fold lg. destruct (Z.ltb_spec 0 (lg_n lg)) as [Hpos|Hz]; cbn [when].
  2: { assert (homes = []) as Eh by (apply nil_length_inv; lia). eapply wp_run; [done|]. apply (HQ s V Dk Hca); [fold lg; lia|done| |done].
       intros h Ho. split; [|done]. symmetry. apply Hclean; [done|]. rewrite Eh. set_solver. }
  assert (forall h, outside start h -> h <> start) as Hs by (unfold outside, LOGSIZE, MAXOPBLOCKS; lia).
  assert (forall d, d start = Dk start -> (forall h, outside start h -> d h = Dk h) -> G d) as Hold.
  { intros d E Ho. left. intros h Hh. rewrite replay_empty by (by rewrite E). by apply Ho. }
  apply wp_bind. eapply write_log_spec; [exact Hst|exact Hca|reflexivity|exact HL|exact Hold|].
  intros t1 V1 D1 Hc1 EV1 ED1 Hout1 Hlog1 R1.
  assert (k_log t1 = lg) as El1 by (rewrite (R1 _ k_log) by cache_free_tac; done).
  set (H := put_header (lg_n lg) (lg_block lg) (V start)).
  destruct (log_header lg start homes (V start) HL Hlen) as (H1 & H2 & H3). fold H in H1, H2, H3.
  assert (length homes <= 30)%nat by exact L6.
  assert (forall d, installing start homes H V d -> G d) as Hnew.
  { intros d Hd. right. intros h Ho. apply (replay_installing start homes H V d h); try done.
    intros x Hx. apply u32_small. destruct (L7 x Hx) as [R _]. unfold FSSIZE in R. lia. }
  assert (installing start homes H V (fupd D1 start H)) as HD2.
  { split; [by rewrite fupd_same| |].
    - intros j h Hj. rewrite fupd_other by lia. by apply Hlog1.
    - intros h Ho Hn. rewrite fupd_other by (by apply Hs). destruct (Hout1 h Ho) as [_ ->]. symmetry. by apply Hclean. }
  apply wp_bind. eapply (write_head_spec i n ip p Hst G t1 V1 D1 lg start); rewrite ?EV1; fold H; try done.
  { unfold LOGSIZE, MAXOPBLOCKS, FSSIZE in *; lia. } { lia. }
  { intros j Hj. rewrite L3, Nat2Z.id in Hj. by destruct (log_holds_nth lg start homes j HL Hj) as (h & _ & -> & _ & Hb). }
  { apply Hold; [done|]. intros h Ho. by apply Hout1. } { by apply Hnew. }
  intros t2 V2 Hc2 EV2 R2.
  apply (install_and_clear t2 V2 (fupd D1 start H) lg H Q V G); try done.
  - rewrite (R2 _ k_log) by cache_free_tac. done.
  - split; [rewrite EV2; by destruct (decide (start = start))| |].
    + intros j h Hj. rewrite EV2. destruct (decide _); [lia|]. by apply Hlog1.
    + intros h Ho Hn. rewrite EV2. destruct (decide (h = start)) as [->|]; [by apply Hs in Ho|]. by apply Hout1.
  - intros d Hd Ho. right. intros h Hh. rewrite replay_empty by done. by apply Ho.
  - intros t V' D' Hct E1 E2 E3 E4. apply (HQ t V' D'); try done.
    intros lk Hlk. rewrite (E4 lk Hlk), (rest_lock _ _ R2 lk Hlk). by apply (rest_lock _ _ R1).
Qed.
End Commit.

(** C1: a transaction is atomic with respect to crashes.  Run [commit] with a
    crash point after every request to the disk, on any transaction whose log on
    disk is empty: whenever the machine stops, replaying the log found on the
    disk gives for every block outside the log either its contents before the
    transaction or, for all of them, the contents in the cache; when [commit]
    returns, the new contents are in place and the log is empty.  The only panic
    is the buffer cache's, for want of a buffer (and the disk is atomic then,
    too). *)
Theorem commit_atomic i n ip p s start homes V Dk :
  p_state p <> SLEEPING -> cache i n ip p s [] V Dk -> transaction s start homes V Dk ->
  safe (fun t => atomic start Dk V (hw_disk (k_hw t))) eq no_buffers
    (fun _ t => lg_n (k_log t) = 0 /\ hdr_n (hw_disk (k_hw t) start) = 0 /\
       forall h, outside start h -> hw_disk (k_hw t) h = V h)
    (commit (D := crash_driver) s).
Proof.
  intros Hst Hca Htr. apply (commit_wp i n ip p Hst start homes V Dk s _ Hca Htr).
  intros t V' D' Hct H1 H2 H3 _. rewrite (ca_disk _ _ _ _ _ _ _ _ Hct). split; [done|]. split; [done|]. intros h Ho. by apply H3.
Qed.

(* ------------------------------------------------------------------ *)
(** ** Recovery *)

(** What a header block says: the log holds the blocks [homes]. *)
Record logged (start : Z) (H : list Z) (homes : list Z) : Prop := mk_logged {
  lo_size : length H = Z.to_nat BSIZE;
  lo_n : hdr_n H = Z.of_nat (length homes);
  lo_blocks : forall j x, homes !! j = Some x -> hdr_block H j = x;
  lo_fits : 0 <= start /\ start + LOGSIZE < FSSIZE;
  lo_max : (length homes <= Z.to_nat LOGSIZE)%nat;
  lo_homes : forall h, h ∈ homes -> 0 <= h < FSSIZE /\ outside start h;
  lo_once : NoDup homes }.

(** A disk whose log is complete is being installed towards its own replay. *)
Lemma installing_self start homes D :
  logged start (D start) homes -> installing start homes (D start) (replay start D) D.
Proof.
  intros [H1 H2 H3 H4 H5 H6 H7].
  assert (forall j, j ∈ seq 0 (length homes) -> exists x, homes !! j = Some x /\ u32 (hdr_block (D start) j) = x) as Hj.
  { intros j [_ Hj]%elem_of_seq. destruct (lookup_lt_is_Some_2 homes j) as [x Hx]; [lia|]. exists x. split; [done|].
    rewrite (H3 j x Hx). apply u32_small. destruct (H6 x) as [R _]; [by eapply list_elem_of_lookup_2|]. unfold FSSIZE in R. lia. }
  split; [done| |].
  - intros j h Hh. assert (j < length homes)%nat by (by eapply lookup_lt_Some).
    destruct (Hj j) as (x & Hx & E); [apply elem_of_seq; lia|]. assert (x = h) as -> by congruence.
    unfold replay. rewrite H2, Nat2Z.id. rewrite <- E.
    rewrite (fold_fupd_in (fun j => u32 (hdr_block (D start) j)) (fun j => D (start + Z.of_nat j + 1)));
      [done| |apply NoDup_seq|apply elem_of_seq; lia].
    intros a b Ha Hb E'. destruct (Hj a Ha) as (xa & Hxa & Ea), (Hj b Hb) as (xb & Hxb & Eb). eapply NoDup_lookup; [exact H7|exact Hxa|congruence].
  - intros h Ho Hni. unfold replay. rewrite H2, Nat2Z.id.
    rewrite (fold_fupd_other (fun j => u32 (hdr_block (D start) j)) (fun j => D (start + Z.of_nat j + 1))); [done|].
    intros j Hjs E. destruct (Hj j Hjs) as (x & Hx & Ex). apply Hni. rewrite <- E, Ex. by eapply list_elem_of_lookup_2.
Qed.

Section Recover.
Context (i : nat) (n : Z) (ip : nat) (p : proc) (Hst : p_state p <> SLEEPING).
Context (start : Z) (homes : list Z) (G : (Z -> list Z) -> Prop).

Lemma read_head_spec s V Dk (Q : unit -> kstate -> Prop) :
  cache i n ip p s [] V Dk -> V start = Dk start -> logged start (Dk start) homes ->
  lg_dev (k_log s) = 1 -> lg_start (k_log s) = start -> length (lg_block (k_log s)) = Z.to_nat LOGSIZE -> G Dk ->
  (forall t, cache i n ip p t [] V Dk -> log_holds (k_log t) start homes -> Q tt t) ->
  wp G no_buffers (read_head (D := crash_driver)) s Q.
Proof.
  intros Hca EV HL Edev Est Hlen HG HQ. pose proof HL as [O1 O2 O3 O4 O5 O6 O7]. assert (length homes <= 30)%nat by exact O5.
  unfold read_head. eapply wp_step; [done|]. rewrite Edev, Est. rewrite u32_small by (unfold LOGSIZE, MAXOPBLOCKS, FSSIZE in *; lia).
  apply wp_bind. eapply bread_blk; [exact Hca|exact HG|unfold LOGSIZE, MAXOPBLOCKS, FSSIZE in *; lia|set_solver|].
  intros b s1 d Hc1 _ Hb Hk1 Hcl1 _ R1. assert (k_log s1 = k_log s) as El1 by (apply R1; cache_free_tac).
  eapply wp_step; [eapply get_data_run; [exact Hc1|exact Hb|set_solver|exact Hk1]|]. rewrite EV. fold (hdr_n (Dk start)).
  destruct (cache_log i n ip p s1 [b] V Dk (set_lg_n (hdr_n (Dk start))) Hc1) as (s2 & Hu & Hc2 & El2 & Eb2).
  eapply wp_step; [exact Hu|]. unfold upto. rewrite O2 at 1. rewrite Nat2Z.id. apply wp_bind.
  apply (wp_iter G (fun j t => cache i n ip p t [b] V Dk /\ blk t b = Some (start, d) /\ lg_dev (k_log t) = 1 /\ lg_start (k_log t) = start /\
    lg_n (k_log t) = hdr_n (Dk start) /\ length (lg_block (k_log t)) = Z.to_nat LOGSIZE /\
    forall m h, (m < j)%nat -> homes !! m = Some h -> lg_block (k_log t) !! m = Some h)).
  - intros j t Hj (Hct & Hbt & E1 & E2 & E3 & E4 & E5).
    assert (j < length (lg_block (k_log t)))%nat as Hlt by (rewrite E4; unfold LOGSIZE, MAXOPBLOCKS; lia).
    destruct (lookup_lt_is_Some_2 _ _ Hlt) as [v Hv]. unfold set_lh_block.
    eapply wp_step; [by apply (lh_block_run t (k_log t) j v)|]. fold (hdr_block (Dk start) j).
    destruct (cache_log i n ip p t [b] V Dk (fun l => set_lg_block (<[j := hdr_block (Dk start) j]> (lg_block l)) l) Hct)
      as (t1 & Hu1 & Hct1 & El3 & Eb3). eapply wp_run; [exact Hu1|]. rewrite El3; simpl. rewrite length_insert.
    split; [done|]. split; [unfold blk; by rewrite Eb3|]. do 4 (split; [done|]). intros m h Hm Hh.
    destruct (decide (m = j)) as [->|]; [rewrite list_lookup_insert_eq by done; f_equal; by apply O3|].
    rewrite list_lookup_insert_ne by done. apply E5; [lia|done].
  - rewrite El2, El1; simpl. split; [done|]. split; [unfold blk in *; by rewrite Eb2|]. do 4 (split; [done|]). intros m h Hm. lia.
  - intros t (Hct & Hbt & E1 & E2 & E3 & E4 & E5).
    eapply (brelse_blk i n ip p Hst G t [b] []); [exact Hct|exact Hb|set_solver|exact Hbt| |by left|].
    { intros c. rewrite list_elem_of_singleton. split; [set_solver|tauto]. }
    intros t' Hct' _ R. apply HQ; [exact Hct'|]. rewrite (R _ k_log) by cache_free_tac.
    split; try done; try (by rewrite E3). intros j h Hj. apply E5; [by eapply lookup_lt_Some|done].
Qed.
End Recover.

(** C7: recovery replays the log and survives its own crashes.  Run
    [recover_from_log] on a disk whose header is that of a log, with a cache that
    agrees with the disk and a crash point after every request: wherever the
    machine stops, the disk still has the same replay (so the next boot recovers
    the same state); when it returns, the disk is that replay and the log is
    empty, on disk and in memory. *)
Theorem recovery_idempotent i n ip p s start homes V Dk :
  p_state p <> SLEEPING -> cache i n ip p s [] V Dk -> (forall k, V k = Dk k) -> logged start (Dk start) homes ->
  lg_dev (k_log s) = 1 -> lg_start (k_log s) = start -> length (lg_block (k_log s)) = Z.to_nat LOGSIZE ->
  safe (fun t => forall h, outside start h -> replay start (hw_disk (k_hw t)) h = replay start Dk h) eq no_buffers
    (fun _ t => lg_n (k_log t) = 0 /\ hdr_n (hw_disk (k_hw t) start) = 0 /\
       forall h, outside start h -> hw_disk (k_hw t) h = replay start Dk h)
    (recover_from_log (D := crash_driver) s).
Proof.
  intros Hst Hca EV HL Edev Est Hlen. set (G := fun d => forall h, outside start h -> replay start d h = replay start Dk h).
  pose proof HL as [O1 O2 O3 O4 O5 O6 O7]. pose proof (installing_self start homes Dk HL) as HI.
  assert (forall d, installing start homes (Dk start) (replay start Dk) d -> G d) as HG.
  { intros d Hd h Ho. apply (replay_installing start homes (Dk start) (replay start Dk) d h); try done.
    intros x Hx. apply u32_small. destruct (O6 x Hx) as [R _]. unfold FSSIZE in R. lia. }
  change (wp G no_buffers (recover_from_log (D := crash_driver)) s (fun _ t => lg_n (k_log t) = 0 /\ hdr_n (hw_disk (k_hw t) start) = 0 /\
       forall h, outside start h -> hw_disk (k_hw t) h = replay start Dk h)).
  unfold recover_from_log. apply wp_bind. eapply (read_head_spec i n ip p Hst start homes G s V Dk); [exact Hca|by apply EV|exact HL|exact Edev|exact Est|exact Hlen|by apply HG|].
  intros t Hct HLt. eapply (install_and_clear i n ip p Hst start homes t V Dk (k_log t) (Dk start)); [exact Hct|done|exact HLt|exact HI| |exact O1|exact HG| |].
  - destruct HI as [I1 I2 I3]. split; [by rewrite EV|intros j h Hj; rewrite EV; by apply I2|intros h Ho Hn; rewrite EV; by apply I3].
  - intros d Hd Ho h Hh. rewrite replay_empty by done. by apply Ho.
  - intros t' V' D' Hct' H1 H2 H3. rewrite (ca_disk _ _ _ _ _ _ _ _ Hct'). split; [done|]. split; [done|]. intros h Ho. by apply H3.
Qed.

(* ------------------------------------------------------------------ *)
(** ** A transaction on a concrete disk *)

(** Block 100 has been changed in buffer 0, the last of the list. *)
Definition dirty100 : buf := mk_buf (Z.lor B_VALID B_DIRTY) 1 100 0 1 head None (replicate 512 7).
Definition zeros : Z -> list Z := fun _ => replicate 512 0.
Definition with100 : Z -> list Z := fupd zeros 100 (replicate 512 7).
(** A log at block 2, with [d] on the disk and the buffers [bs]. *)
Definition log_state (n : Z) (d : Z -> list Z) (bs : list buf) : kstate :=
  set_k_log (mk_log 2 30 0 1 1 n (100 :: replicate 29 0))
    (set_k_bufs bs (set_k_hw (set_hw_disk d (k_hw boot)) thread_state)).

Lemma thread_log_state m d bs : thread (log_state m d bs) 0 0 0 init_proc.
Proof. apply (thread_ext thread_state); [apply thread_state_ok| |done|done]. exists (set_c_proc (Some 0%nat) (cpu0 0)). by repeat split. Qed.

Lemma log_state_clean m d : cache 0 0 0 init_proc (log_state m d linked_bufs) [] d d.
Proof.
  split; [apply thread_log_state|done|done| |done|done]. exact (ca_data _ _ _ _ _ _ _ _ (fresh_cache_ok d)).
Qed.
Lemma one_dirty_data bs order x0 :
  lru bs order -> (forall b x, bs !! b = Some x -> idle_buf x = true) ->
  bs !! 0%nat = Some x0 -> b_next x0 = head -> b_prev x0 = 1%nat ->
  cache_data 1 (<[0%nat := dirty100]> bs) (k_slocks boot) [] with100 zeros.
Proof.
  intros Hl Hi Hx0 En Ep. split.
  - exists order. eapply lru_insert; [exact Hl|exact Hx0|by rewrite En|by rewrite Ep].
  - intros b x _ [(<- & <- & _)|(_ & Hb)]%list_lookup_insert_Some; [|apply idle_buf_ok; by eapply Hi].
    split; [done|done|intros []%not_elem_of_nil|done|done].
  - intros b c x y _ _ [(<- & <- & _)|(_ & Hx)]%list_lookup_insert_Some [(<- & <- & _)|(_ & Hy)]%list_lookup_insert_Some E E'; [done| | |];
      exfalso; [apply Hi, idle_buf_spec in Hy|apply Hi, idle_buf_spec in Hx..]; lia.
  - intros k. destruct (decide (k = 100)) as [->|Hk]; [right|left; unfold with100; by rewrite fupd_other].
    exists 0%nat, dirty100. split; [apply Nat.ltb_lt; reflexivity|]. split; [apply list_lookup_insert_eq; by eapply lookup_lt_Some|].
    do 3 (split; [done|]). by left.
Qed.
Lemma log_state_dirty :
  cache 0 0 0 init_proc (log_state 1 zeros (<[0%nat := dirty100]> linked_bufs)) [] with100 zeros.
Proof.
  destruct linked_last as (x0 & Hx0 & En & Ep).
  pose proof (one_dirty_data _ _ _ linked_lru linked_idle Hx0 En Ep) as H. clear Hx0.
  split; [apply thread_log_state|done|done|exact H|done|done].
Qed.

(** The disk after a crash between the write of the header and the installation. *)
Definition head100 : list Z := put32 4 100 (put32 0 1 (replicate 512 0)).
Definition crashed : Z -> list Z := fupd (fupd zeros 3 (replicate 512 7)) 2 head100.

Lemma outside_100 : forall h, h ∈ [100] -> 0 <= h < FSSIZE /\ outside 2 h.
Proof. intros h ->%list_elem_of_singleton. unfold FSSIZE, outside, LOGSIZE, MAXOPBLOCKS. lia. Qed.
Lemma log_holds_100 : log_holds (mk_log 2 30 0 1 1 1 (100 :: replicate 29 0)) 2 [100].
Proof.
  split; [done|done|done| |unfold FSSIZE, LOGSIZE, MAXOPBLOCKS; lia|apply Nat.leb_le; reflexivity|exact outside_100|apply NoDup_singleton].
  intros [|j] h H; by simplify_eq/=.
Qed.

Lemma commit_atomic_witness :
  safe (fun t => atomic 2 zeros with100 (hw_disk (k_hw t))) eq no_buffers
    (fun _ t => lg_n (k_log t) = 0 /\ hdr_n (hw_disk (k_hw t) 2) = 0 /\
       forall h, outside 2 h -> hw_disk (k_hw t) h = with100 h)
    (commit (D := crash_driver) (log_state 1 zeros (<[0%nat := dirty100]> linked_bufs))).
Proof.
  apply (commit_atomic 0 0 0 init_proc _ 2 [100]); [done|exact log_state_dirty|].
  split; [exact log_holds_100|done|by vm_compute|].
  intros h _ Hh. apply fupd_other. intros ->. apply Hh. by left.
Defined.

Lemma recovery_idempotent_witness :
  safe (fun t => forall h, outside 2 h -> replay 2 (hw_disk (k_hw t)) h = replay 2 crashed h) eq no_buffers
    (fun _ t => lg_n (k_log t) = 0 /\ hdr_n (hw_disk (k_hw t) 2) = 0 /\
       forall h, outside 2 h -> hw_disk (k_hw t) h = replay 2 crashed h)
    (recover_from_log (D := crash_driver) (log_state 0 crashed linked_bufs)).
Proof.
  apply (recovery_idempotent 0 0 0 init_proc _ 2 [100] crashed);
    [done|apply log_state_clean|done| |done|done|done].
  split; [by vm_compute|by vm_compute| |unfold FSSIZE, LOGSIZE, MAXOPBLOCKS; lia|apply Nat.leb_le; reflexivity|exact outside_100|apply NoDup_singleton].
  intros [|j] h H; simplify_eq/=; by vm_compute.
Defined.
