(* ===== verification/Inode.v ===== *)
(** * Blocks and inodes

    [fs.c]: the free-block bitmap, inode allocation, the inode cache and the
    block map of a file. *)

From S2P Require Import Prelude Mmu Bytes Mem State Spinlock Printk Critical Kalloc Vm Sched Sleeplock Disk Bio Log.

(** [fs.h] *)
Definition IBLOCK (i : Z) (sb : superblock) : Z := u32 (i / IPB + sb_inodestart sb).
Definition BBLOCK (b : Z) (sb : superblock) : Z := u32 (b / BPB + sb_bmapstart sb).

(** [fs.h]: [struct dinode], at byte [off] of a block. *)
Record dinode := mk_dinode {
  di_type : Z; di_major : Z; di_minor : Z; di_nlink : Z; di_size : Z; di_addrs : list Z }.
Definition addr_list (n : nat) (off : Z) (d : list Z) : list Z :=
  (fun k => get32 (off + 4 * Z.of_nat k) d) <$> seq 0 n.
Definition get_dinode (off : Z) (d : list Z) : dinode :=
  mk_dinode (s16 (get16 off d)) (s16 (get16 (off + 2) d)) (s16 (get16 (off + 4) d)) (s16 (get16 (off + 6) d))
    (get32 (off + 8) d) (addr_list (Z.to_nat NDIRECT + 1) (off + 12) d).
Definition put_dinode (off : Z) (x : dinode) (d : list Z) : list Z :=
  put (off + 12) (words (di_addrs x)) (put32 (off + 8) (di_size x) (put16 (off + 6) (di_nlink x)
    (put16 (off + 4) (di_minor x) (put16 (off + 2) (di_major x) (put16 off (di_type x) d))))).
(** Byte offset of inode [inum] in its block. *)
Definition dinode_off (inum : Z) : Z := inum mod IPB * sizeof_dinode.

Section Driver.
Context {D : DiskDriver}.

Definition bzero (dev bno : Z) : K unit :=
  bp <- bread dev bno ;;
  set_data bp (fun _ => replicate (Z.to_nat BSIZE) 0) ;;
  log_write bp ;;
  brelse bp.

(** The inner loop of [balloc]: the first clear bit from [bi] on. *)
Fixpoint free_bit (fuel : nat) (d : list Z) (b bi size : Z) : option Z :=
  match fuel with
  | O => None
  | S f =>
      if (bi <? BPB) && (b + bi <? size) then
        let m := Z.shiftl 1 (bi mod 8) in
        if Z.land (nth (Z.to_nat (bi / 8)) d 0) m =? 0 then Some bi else free_bit f d b (bi + 1) size
      else None
  end.
Definition set_bit (bi : Z) (d : list Z) : list Z :=
  alter (fun x => u8 (Z.lor x (Z.shiftl 1 (bi mod 8)))) (Z.to_nat (bi / 8)) d.
Definition clear_bit (bi : Z) (d : list Z) : list Z :=
  alter (fun x => u8 (Z.ldiff x (Z.shiftl 1 (bi mod 8)))) (Z.to_nat (bi / 8)) d.
Fixpoint balloc_loop (fuel : nat) (dev b : Z) : K Z :=
  sb <- gets k_sb ;;
  if b <? sb_size sb then
    match fuel with
    | O => nofuel
    | S f =>
        bp <- bread dev (BBLOCK b sb) ;;
        d <- get_data bp ;;
        match free_bit (Z.to_nat BPB) d b 0 (sb_size sb) with
        | Some bi =>
            set_data bp (set_bit bi) ;;
            log_write bp ;;
            brelse bp ;;
            bzero dev (b + bi) ;;
            ret (b + bi)
        | None => brelse bp ;; balloc_loop f dev (b + BPB)
        end
    end
  else panic "balloc: out of blocks".
Definition balloc (dev : Z) : K Z :=
  sb <- gets k_sb ;;
  balloc_loop (Z.to_nat (sb_size sb / BPB + 1)) dev 0.

Definition bfree (dev b : Z) : K unit :=
  sb <- gets k_sb ;;
  bp <- bread dev (BBLOCK b sb) ;;
  let bi := b mod BPB in
  let m := Z.shiftl 1 (bi mod 8) in
  d <- get_data bp ;;
  if Z.land (nth (Z.to_nat (bi / 8)) d 0) m =? 0 then panic "freeing free block" else
  set_data bp (clear_bit bi) ;;
  log_write bp ;;
  brelse bp.

Definition iinit (dev : Z) : K unit :=
  initlock Lk_icache "icache" ;;
  iter_list (upto NINODE) (fun i => initsleeplock (Sl_inode i) "inode") ;;
  sb <- readsb dev ;;
  modify (set_k_sb sb) ;;
  cprintf (bytes "sb: size %d nblocks %d ninodes %d nlog %d logstart %d inodestart %d bmap start %d" ++ [NL])
    (PInt <$> [sb_size sb; sb_nblocks sb; sb_ninodes sb; sb_nlog sb; sb_logstart sb; sb_inodestart sb; sb_bmapstart sb]).

(** The scan of [iget]: a cached entry, else the first empty slot. *)
Fixpoint iget_scan (l : list inode) (i : nat) (dev inum : Z) (empty : option nat) : option nat * option nat :=
  match l with
  | [] => (None, empty)
  | x :: l' =>
      if (0 <? i_ref x) && (i_dev x =? dev) && (i_inum x =? inum) then (Some i, empty)
      else iget_scan l' (S i) dev inum
             (match empty with None => if i_ref x =? 0 then Some i else None | _ => empty end)
  end.
Definition iget (dev inum : Z) : K nat :=
  acquire Lk_icache ;;
  l <- gets k_inodes ;;
  match iget_scan (take (Z.to_nat NINODE) l) 0 dev inum None with
  | (Some i, _) =>
      upd_inode i (fun x => set_i_ref (i_ref x + 1) x) ;;
      release Lk_icache ;;
      ret i
  | (None, None) => panic "iget: no inodes"
  | (None, Some i) =>
      upd_inode i (set_i_dev dev) ;;
      upd_inode i (set_i_inum inum) ;;
      upd_inode i (set_i_ref 1) ;;
      upd_inode i (set_i_valid 0) ;;
      release Lk_icache ;;
      ret i
  end.

Fixpoint ialloc_loop (fuel : nat) (dev type inum : Z) : K nat :=
  sb <- gets k_sb ;;
  if inum <? sb_ninodes sb then
    match fuel with
    | O => nofuel
    | S f =>
        bp <- bread dev (IBLOCK inum sb) ;;
        d <- get_data bp ;;
        let off := dinode_off inum in
        if s16 (get16 off d) =? 0 then
          set_data bp (put off (replicate (Z.to_nat sizeof_dinode) 0)) ;;
          set_data bp (put16 off type) ;;
          log_write bp ;;
          brelse bp ;;
          iget dev inum
        else brelse bp ;; ialloc_loop f dev type (inum + 1)
    end
  else panic "ialloc: no inodes".
Definition ialloc (dev type : Z) : K nat :=
  sb <- gets k_sb ;; ialloc_loop (Z.to_nat (sb_ninodes sb)) dev type 1.

Definition iupdate (ip : nat) : K unit :=
  x <- get_inode ip ;;
  sb <- gets k_sb ;;
  bp <- bread (i_dev x) (IBLOCK (i_inum x) sb) ;;
  x <- get_inode ip ;;
  set_data bp (put_dinode (dinode_off (i_inum x))
    (mk_dinode (i_type x) (i_major x) (i_minor x) (i_nlink x) (i_size x) (i_addrs x))) ;;
  log_write bp ;;
  brelse bp.

Definition idup (ip : nat) : K nat :=
  acquire Lk_icache ;;
  upd_inode ip (fun x => set_i_ref (i_ref x + 1) x) ;;
  release Lk_icache ;;
  ret ip.

Definition ilock (oip : option nat) : K unit :=
  match oip with
  | None => panic "ilock"
  | Some ip =>
      x <- get_inode ip ;;
      if i_ref x <? 1 then panic "ilock" else
      acquiresleep (Sl_inode ip) ;;
      x <- get_inode ip ;;
      when (i_valid x =? 0) (
        sb <- gets k_sb ;;
        bp <- bread (i_dev x) (IBLOCK (i_inum x) sb) ;;
        d <- get_data bp ;;
        let dip := get_dinode (dinode_off (i_inum x)) d in
        upd_inode ip (fun x => set_i_addrs (di_addrs dip) (set_i_size (di_size dip) (set_i_nlink (di_nlink dip)
          (set_i_minor (di_minor dip) (set_i_major (di_major dip) (set_i_type (di_type dip) x)))))) ;;
        brelse bp ;;
        upd_inode ip (set_i_valid 1) ;;
        x <- get_inode ip ;;
        if i_type x =? 0 then panic "ilock: no type" else ret tt)
  end.

Definition iunlock (oip : option nat) : K unit :=
  match oip with
  | None => panic "iunlock"
  | Some ip =>
      h <- holdingsleep (Sl_inode ip) ;;
      if negb h then panic "iunlock" else
      x <- get_inode ip ;;
      if i_ref x <? 1 then panic "iunlock" else
      releasesleep (Sl_inode ip)
  end.

(** [ip->addrs[i]], a fault outside the array. *)
Definition get_addr (ip : nat) (i : Z) : K Z := x <- get_inode ip ;; deref (i_addrs x !! Z.to_nat i).
Definition set_addr (ip : nat) (i a : Z) : K unit :=
  upd_inode ip (fun x => set_i_addrs (<[Z.to_nat i := a]> (i_addrs x)) x).

Definition bmap (ip : nat) (bn : Z) : K Z :=
  x <- get_inode ip ;;
  if bn <? NDIRECT then
    addr <- get_addr ip bn ;;
    if addr =? 0 then addr <- balloc (i_dev x) ;; set_addr ip bn addr ;; ret addr else ret addr
  else
  let bn := bn - NDIRECT in
  if bn <? NINDIRECT then
    addr <- get_addr ip NDIRECT ;;
    addr <- (if addr =? 0 then addr <- balloc (i_dev x) ;; set_addr ip NDIRECT addr ;; ret addr else ret addr) ;;
    bp <- bread (i_dev x) addr ;;
    d <- get_data bp ;;
    addr <- (if get32 (4 * bn) d =? 0 then
               addr <- balloc (i_dev x) ;; set_data bp (put32 (4 * bn) addr) ;; log_write bp ;; ret addr
             else ret (get32 (4 * bn) d)) ;;
    brelse bp ;;
    ret addr
  else panic "bmap: out of range".

Definition itrunc (ip : nat) : K unit :=
  iter_list (upto NDIRECT) (fun i =>
    x <- get_inode ip ;;
    a <- get_addr ip (Z.of_nat i) ;;
    when (truth a) (bfree (i_dev x) a ;; set_addr ip (Z.of_nat i) 0)) ;;
  x <- get_inode ip ;;
  a <- get_addr ip NDIRECT ;;
  when (truth a) (
    bp <- bread (i_dev x) a ;;
    iter_list (upto NINDIRECT) (fun j =>
      d <- get_data bp ;;
      let aj := get32 (4 * Z.of_nat j) d in
      when (truth aj) (bfree (i_dev x) aj)) ;;
    brelse bp ;;
    bfree (i_dev x) a ;;
    set_addr ip NDIRECT 0) ;;
  upd_inode ip (set_i_size 0) ;;
  iupdate ip.

Definition iput (ip : nat) : K unit :=
  acquiresleep (Sl_inode ip) ;;
  x <- get_inode ip ;;
  when (truth (i_valid x) && (i_nlink x =? 0)) (
    acquire Lk_icache ;;
    x <- get_inode ip ;;
    let r := i_ref x in
    release Lk_icache ;;
    when (r =? 1) (
      itrunc ip ;;
      upd_inode ip (set_i_type 0) ;;
      iupdate ip ;;
      upd_inode ip (set_i_valid 0))) ;;
  releasesleep (Sl_inode ip) ;;
  acquire Lk_icache ;;
  upd_inode ip (fun x => set_i_ref (i_ref x - 1) x) ;;
  release Lk_icache.

Definition iunlockput (ip : nat) : K unit := iunlock (Some ip) ;; iput ip.
End Driver.

(* ------------------------------------------------------------------ *)
(** ** On-disk inodes *)

(** The 64 bytes of an on-disk inode. *)
Definition dinode_bytes (x : dinode) : list Z :=
  le_bytes 2 (di_type x) ++ le_bytes 2 (di_major x) ++ le_bytes 2 (di_minor x) ++ le_bytes 2 (di_nlink x) ++
  le_bytes 4 (di_size x) ++ words (di_addrs x).
Record dinode_ok (x : dinode) : Prop := mk_dinode_ok {
  dk_type : - 2 ^ 15 <= di_type x < 2 ^ 15;
  dk_major : - 2 ^ 15 <= di_major x < 2 ^ 15;
  dk_minor : - 2 ^ 15 <= di_minor x < 2 ^ 15;
  dk_nlink : - 2 ^ 15 <= di_nlink x < 2 ^ 15;
  dk_size : 0 <= di_size x < 2 ^ 32;
  dk_naddrs : length (di_addrs x) = (Z.to_nat NDIRECT + 1)%nat;
  dk_addrs : Forall (fun a => 0 <= a < 2 ^ 32) (di_addrs x) }.

Lemma dinode_bytes_length x : dinode_ok x -> length (dinode_bytes x) = Z.to_nat sizeof_dinode.
Proof. intros H. unfold dinode_bytes. rewrite !length_app, !length_le_bytes, words_length, (dk_naddrs x H). done. Qed.
Lemma dinode_off_range inum : 0 <= dinode_off inum /\ dinode_off inum + sizeof_dinode <= BSIZE.
Proof. unfold dinode_off, IPB, BSIZE, sizeof_dinode. change (512 / 64) with 8. dlia. Qed.

(** The assignments of [iupdate] together store those bytes. *)
Lemma put_dinode_bytes off x d :
  dinode_ok x -> 0 <= off -> off + sizeof_dinode <= Z.of_nat (length d) ->
  put_dinode off x d = put off (dinode_bytes x) d.
Proof.
  intros Hx H0 Hd. pose proof (dk_naddrs x Hx) as Ha. unfold sizeof_dinode in Hd.
  pose proof (words_length (di_addrs x)) as Lw. rewrite Ha in Lw. change (4 * (Z.to_nat NDIRECT + 1))%nat with 52%nat in Lw.
  unfold put_dinode, put16, put32, dinode_bytes.
  rewrite (put_adj off 2), (put_adj off 4), (put_adj off 6), (put_adj off 8), (put_adj off 12);
    rewrite ?length_app, ?length_le_bytes, ?Lw; try lia.
  by rewrite <- !app_assoc.
Qed.

(** Reading them back at offset 0. *)
Lemma get_dinode_bytes x : dinode_ok x -> get_dinode 0 (dinode_bytes x) = x.
Proof.
  intros [H1 H2 H3 H4 H5 H6 H7]. destruct x as [t ma mi nl sz ad]. simpl in *.
  set (hdr := le_bytes 2 t ++ le_bytes 2 ma ++ le_bytes 2 mi ++ le_bytes 2 nl ++ le_bytes 4 sz).
  assert (dinode_bytes (mk_dinode t ma mi nl sz ad) = hdr ++ words ad) as E
    by (unfold dinode_bytes, hdr; simpl; by rewrite <- ?app_assoc).
  assert (forall k, 0 <= k -> get32 (0 + 12 + k) (hdr ++ words ad) = get32 k (words ad)) as Hw.
  { intros k Hk. unfold get32. change (0 + 12) with (Z.of_nat (length hdr)). by rewrite slice_app. }
  unfold get_dinode. rewrite E. f_equal; [unfold get16..|unfold get32|].
  1-4: etransitivity; [|by apply s16_small]; f_equal; first
    [exact (le_value_bytes 2 t)|exact (le_value_bytes 2 ma)|exact (le_value_bytes 2 mi)|exact (le_value_bytes 2 nl)].
  - etransitivity; [exact (le_value_bytes 4 sz)|]. by apply Z.mod_small.
  - unfold addr_list. change (Z.to_nat NDIRECT + 1)%nat with 13%nat in *. rewrite <- H6. apply list_eq. intros k.
    rewrite list_lookup_fmap. destruct (decide (k < length ad)%nat) as [Hk|Hk].
    + rewrite lookup_seq_lt by done. simpl. destruct (lookup_lt_is_Some_2 ad k Hk) as [v Hv]. rewrite Hv.
      change (0 + k)%nat with k. rewrite Hw by lia. rewrite (get32_words ad k v Hv). f_equal. apply u32_small.
      by apply (Forall_lookup_1 _ _ _ _ H7 Hv).
    + rewrite lookup_seq_ge by lia. by rewrite lookup_ge_None_2 by lia.
Qed.

Lemma slice_sub k n j m l : 0 <= k -> 0 <= j -> 0 <= m -> j + m <= n -> slice j m (slice k n l) = slice (k + j) m l.
Proof.
  intros. unfold slice. rewrite Z2Nat.inj_add by done. rewrite <- drop_drop.
  replace (Z.to_nat n) with (Z.to_nat j + (Z.to_nat n - Z.to_nat j))%nat by lia.
  rewrite <- take_drop_commute, take_take. f_equal. lia.
Qed.
(** A dinode depends on its 64 bytes only. *)
Lemma get_dinode_slice off d :
  0 <= off -> get_dinode off d = get_dinode 0 (slice off sizeof_dinode d).
Proof.
  intros H0. unfold get_dinode, get16, get32, addr_list, get32, sizeof_dinode. rewrite !slice_sub by lia.
  rewrite Z.add_0_r. f_equal. apply list_fmap_ext. intros k y Hk. apply lookup_seq in Hk as [-> Hk].
  change (Z.to_nat NDIRECT + 1)%nat with 13%nat in Hk. rewrite slice_sub by lia. do 2 f_equal. lia.
Qed.

(** what [iupdate] writes [ilock] reads back: storing an inode in its slot of
    an inode block and loading that slot gives the same inode, fields of either
    sign included; every other slot of the block, and the block's length, are
    unchanged. *)
Theorem dinode_roundtrip x d inum :
  dinode_ok x -> length d = Z.to_nat BSIZE ->
  let d' := put_dinode (dinode_off inum) x d in
  length d' = length d /\ get_dinode (dinode_off inum) d' = x /\
  forall j, j mod IPB <> inum mod IPB -> get_dinode (dinode_off j) d' = get_dinode (dinode_off j) d.
Proof.
  intros Hx Hd d'. pose proof (dinode_off_range inum) as [R1 R2]. pose proof (dinode_bytes_length x Hx) as Hl.
  assert (Z.of_nat (length d) = BSIZE) as Hd' by (rewrite Hd; done).
  assert (Z.to_nat sizeof_dinode = 64%nat) as Es by done. unfold sizeof_dinode in R2.
  unfold d'. rewrite put_dinode_bytes by (done || unfold sizeof_dinode; lia).
  split; [apply length_put; [done|lia]|]. split.
  - rewrite get_dinode_slice by done. replace sizeof_dinode with (Z.of_nat (length (dinode_bytes x))) by (rewrite Hl; done).
    rewrite slice_put_same by lia. by apply get_dinode_bytes.
  - intros j Hj. pose proof (dinode_off_range j) as [R3 R4]. unfold sizeof_dinode in R4. rewrite !(get_dinode_slice (dinode_off j)) by done. f_equal.
    apply slice_put_other; try done; [lia|]. rewrite Hl, Es. unfold dinode_off, sizeof_dinode in *. lia.
Qed.
Lemma dinode_roundtrip_witness :
  let x := mk_dinode 2 (-1) 0 1 5000 (replicate 13 7) in
  get_dinode (dinode_off 9) (put_dinode (dinode_off 9) x (replicate 512 0)) = x.
Proof.
  cbv zeta. apply (dinode_roundtrip (mk_dinode 2 (-1) 0 1 5000 (replicate 13 7)) (replicate 512 0) 9); [|done].
  split; simpl; try lia; try done. repeat constructor; lia.
Defined.

(* ------------------------------------------------------------------ *)
(** ** The free-block bitmap *)

(** Bit [bi] of a bitmap block: the block is in use. *)
Definition bit (d : list Z) (bi : Z) : bool := Z.testbit (nth (Z.to_nat (bi / 8)) d 0) (bi mod 8).

Lemma free_bit_spec d b size fuel : forall bi, 0 <= bi ->
  match free_bit fuel d b bi size with
  | Some r => bi <= r < bi + Z.of_nat fuel /\ r < BPB /\ b + r < size /\ bit d r = false /\
      forall j, bi <= j < r -> bit d j = true
  | None => forall j, bi <= j < bi + Z.of_nat fuel -> j < BPB -> b + j < size -> bit d j = true
  end.
Proof.
  induction fuel as [|f IH]; intros bi Hbi; cbn [free_bit]; [intros j Hj; lia|].
  destruct (Z.ltb_spec bi BPB), (Z.ltb_spec (b + bi) size); cbn [andb]; try (intros j Hj Hb Hs; lia).
  rewrite mask_bit by (apply Z.mod_pos_bound; lia). fold (bit d bi). destruct (bit d bi) eqn:Eb; cbn [negb].
  - specialize (IH (bi + 1) ltac:(lia)). destruct (free_bit f d b (bi + 1) size) as [r|].
    + destruct IH as (H1 & H2 & H3 & H4 & H5). do 4 (split; [done || lia|]). intros j Hj.
      destruct (decide (j = bi)) as [->|]; [done|]. apply H5. lia.
    + intros j Hj Hjb Hjs. destruct (decide (j = bi)) as [->|]; [done|]. apply IH; lia.
  - split; [lia|]. split; [done|]. split; [done|]. split; [done|]. intros j Hj. lia.
Qed.

Lemma bit_alter g d bi bj :
  0 <= bi -> 0 <= bj -> (Z.to_nat (bi / 8) < length d)%nat ->
  bit (alter g (Z.to_nat (bi / 8)) d) bj =
  if decide (bi / 8 = bj / 8) then Z.testbit (g (nth (Z.to_nat (bj / 8)) d 0)) (bj mod 8) else bit d bj.
Proof.
  intros Hi Hj Hlt. unfold bit. destruct (decide (bi / 8 = bj / 8)) as [<-|Hne].
  - rewrite !nth_lookup, list_lookup_alter_eq. destruct (lookup_lt_is_Some_2 d _ Hlt) as [v ->]. done.
  - rewrite !nth_lookup, list_lookup_alter_ne; [done|]. intros E. apply Hne.
    apply Z2Nat.inj in E; [done|apply Z.div_pos; lia..].
Qed.

Lemma u8_testbit z k : 0 <= k < 8 -> Z.testbit (u8 z) k = Z.testbit z k.
Proof. intros Hk. unfold u8. by rewrite Z.mod_pow2_bits_low by lia. Qed.

Lemma bitmap_index (d : list Z) z : length d = Z.to_nat BSIZE -> 0 <= z < BPB -> (Z.to_nat (z / 8) < length d)%nat.
Proof.
  intros Hd Hz. rewrite Hd. unfold BPB, BSIZE in *. apply Z2Nat.inj_lt; [apply Z.div_pos; lia|lia|]. dlia.
Qed.
Lemma set_bit_spec (d : list Z) bi j : length d = Z.to_nat BSIZE -> 0 <= bi < BPB -> 0 <= j < BPB ->
  bit (set_bit bi d) j = if decide (j = bi) then true else bit d j.
Proof.
  intros Hd Hb Hj. pose proof (bitmap_index d bi Hd Hb) as Hin. assert (0 <= j mod 8 < 8) as Hk' by (apply Z.mod_pos_bound; lia).
  assert (0 <= bi mod 8 < 8) as Hk by (apply Z.mod_pos_bound; lia). unfold set_bit.
  rewrite bit_alter by (done || lia). destruct (decide (bi / 8 = j / 8)) as [E|Hne].
  - rewrite u8_testbit, Z.lor_spec, Z.shiftl_1_l, Z.pow2_bits_eqb by lia.
    destruct (decide (j = bi)) as [->|Hn]; [by rewrite Z.eqb_refl, orb_true_r|].
    destruct (Z.eqb_spec (bi mod 8) (j mod 8)) as [E2|]; [exfalso; apply Hn; dlia|by rewrite orb_false_r].
  - destruct (decide (j = bi)) as [->|]; done.
Qed.

(** the search of [balloc] finds the first clear bit of the bitmap block
    below the size of the disk, or there is none; [set_bit] then marks exactly
    that block as used, [clear_bit] (of [bfree]) exactly undoes it. *)
Theorem bitmap_allocation d b size :
  length d = Z.to_nat BSIZE ->
  match free_bit (Z.to_nat BPB) d b 0 size with
  | Some bi => 0 <= bi < BPB /\ b + bi < size /\ bit d bi = false /\ (forall j, 0 <= j < bi -> bit d j = true) /\
      (forall j, 0 <= j < BPB -> bit (set_bit bi d) j = if decide (j = bi) then true else bit d j) /\
      (forall j, 0 <= j < BPB -> bit (clear_bit bi (set_bit bi d)) j = bit d j)
  | None => forall j, 0 <= j < BPB -> b + j < size -> bit d j = true
  end.
Proof.
  intros Hd. pose proof (free_bit_spec d b size (Z.to_nat BPB) 0 ltac:(lia)) as H.
  assert (Z.of_nat (Z.to_nat BPB) = BPB) as EB by done. rewrite EB in H.
  destruct (free_bit _ _ _ _ _) as [bi|]; [|intros j Hj Hs; apply H; lia].
  destruct H as (H1 & H2 & H3 & H4 & H5).
  assert (0 <= bi mod 8 < 8) as Hk by (apply Z.mod_pos_bound; lia).
  assert (forall j, 0 <= j < BPB -> bit (set_bit bi d) j = if decide (j = bi) then true else bit d j) as Hset
    by (intros j Hj; apply set_bit_spec; done || lia).
  do 4 (split; [done || lia|]). split; [done|]. intros j Hj.
  assert (0 <= j mod 8 < 8) as Hk' by (apply Z.mod_pos_bound; lia). unfold clear_bit.
  assert (length (set_bit bi d) = length d) as Els by apply length_alter.
  rewrite bit_alter by (rewrite ?Els; try (apply bitmap_index; done || lia); lia). specialize (Hset j Hj). unfold bit in Hset at 1.
  destruct (decide (bi / 8 = j / 8)) as [E|Hne].
  - rewrite u8_testbit, Z.ldiff_spec, Z.shiftl_1_l, Z.pow2_bits_eqb, Hset by lia.
    destruct (decide (j = bi)) as [->|Hn]; [by rewrite Z.eqb_refl, H4|].
    destruct (Z.eqb_spec (bi mod 8) (j mod 8)) as [E2|]; [exfalso; apply Hn; dlia|]. by rewrite andb_true_r.
  - fold (bit (set_bit bi d) j) in Hset. rewrite Hset. destruct (decide (j = bi)) as [->|]; done.
Qed.
Lemma bitmap_allocation_witness :
  free_bit (Z.to_nat BPB) (255 :: replicate 511 0) 0 0 1000 = Some 8 /\ bit (255 :: replicate 511 0) 8 = false.
Proof.
  pose proof (bitmap_allocation (255 :: replicate 511 0) 0 1000) as H.
  assert (free_bit (Z.to_nat BPB) (255 :: replicate 511 0) 0 0 1000 = Some 8) as E by (vm_compute; reflexivity).
  rewrite E in H. split; [exact E|]. destruct (H eq_refl) as (_ & _ & H3 & _). exact H3.
Defined.

(* ------------------------------------------------------------------ *)
(** ** The inode cache *)

(** A slot that is in use for inode [inum] of device [dev]. *)
Definition caches (x : inode) (dev inum : Z) : bool := (0 <? i_ref x) && (i_dev x =? dev) && (i_inum x =? inum).
(** Every inode is cached at most once; reference counts are not negative. *)
Record icache_inv (l : list inode) : Prop := mk_icache_inv {
  ic_size : length l = Z.to_nat NINODE;
  ic_ref : forall i x, l !! i = Some x -> 0 <= i_ref x;
  ic_once : forall i j x y, l !! i = Some x -> l !! j = Some y -> 0 < i_ref x -> 0 < i_ref y ->
    i_dev x = i_dev y -> i_inum x = i_inum y -> i = j }.

Lemma iget_scan_spec l dev inum : forall k empty,
  match iget_scan l k dev inum empty with
  | (Some i, _) => exists x, l !! (i - k)%nat = Some x /\ (k <= i)%nat /\ caches x dev inum = true
  | (None, e) => (forall j x, l !! j = Some x -> caches x dev inum = false) /\
      match e with
      | Some i => empty = Some i \/ empty = None /\ exists x, l !! (i - k)%nat = Some x /\ (k <= i)%nat /\ i_ref x = 0
      | None => empty = None /\ forall j x, l !! j = Some x -> i_ref x <> 0
      end
  end.
Proof.
  induction l as [|x l IH]; intros k empty; cbn [iget_scan].
  - split; [done|]. destruct empty; [by left|done].
  - fold (caches x dev inum). destruct (caches x dev inum) eqn:Ec.
    { exists x. rewrite Nat.sub_diag. done. }
    assert (forall i y, l !! (i - S k)%nat = Some y -> (S k <= i)%nat -> (x :: l) !! (i - k)%nat = Some y) as Hs.
    { intros i y Hy Hi. replace (i - k)%nat with (S (i - S k)) by lia. done. }
    specialize (IH (S k) (match empty with None => if i_ref x =? 0 then Some k else None | _ => empty end)).
    destruct (iget_scan l (S k) dev inum _) as [[i|] e].
    + destruct IH as (y & Hy & Hi & Hc). exists y. split; [by apply Hs|]. split; [lia|done].
    + destruct IH as [Hno He]. split.
      { intros [|j] y Hj; [by inversion Hj; subst|by apply (Hno j)]. }
      destruct e as [i|].
      * destruct empty as [i0|]; [left; by destruct He as [?|[? _]]|]. right. split; [done|].
        destruct (Z.eqb_spec (i_ref x) 0) as [E0|].
        -- destruct He as [[= <-]|[? _]]; [|done]. exists x. by rewrite Nat.sub_diag.
        -- destruct He as [?|(_ & y & Hy & Hi & H0)]; [done|]. exists y. split; [by apply Hs|]. split; [lia|done].
      * destruct empty as [i0|]; [by destruct He|]. split; [done|].
        destruct (Z.eqb_spec (i_ref x) 0); [by destruct He|]. destruct He as [_ He].
        intros [|j] y Hj; [by inversion Hj; subst|by apply (He j)].
Qed.

Lemma caches_true x dev inum : caches x dev inum = true <-> 0 < i_ref x /\ i_dev x = dev /\ i_inum x = inum.
Proof. unfold caches. rewrite !andb_true_iff, Z.ltb_lt, !Z.eqb_eq. tauto. Qed.
Lemma get_inode_ok s i x : k_inodes s !! i = Some x -> get_inode i s = Ret x s.
Proof. intros H. unfold get_inode. rstep. by rewrite H. Qed.
Lemma upd_inode_ok s i x f :
  k_inodes s !! i = Some x -> upd_inode i f s = Ret tt (set_k_inodes (<[i := f x]> (k_inodes s)) s).
Proof. intros H. unfold upd_inode. rstep. by rewrite H. Qed.
Lemma upd_inode_again s l i x f :
  (i < length l)%nat -> upd_inode i f (set_k_inodes (<[i := x]> l) s) = Ret tt (set_k_inodes (<[i := f x]> l) s).
Proof.
  intros Hi. rewrite (upd_inode_ok _ i x); [|simpl; by apply list_lookup_insert_eq].
  change (k_inodes (set_k_inodes (<[i := x]> l) s)) with (<[i := x]> l). by rewrite list_insert_insert_eq.
Qed.
#[export] Instance same_data_inodes : Proper (eq ==> same_data ==> same_data) set_k_inodes.
Proof. same_data_tac. Qed.

(** Replacing a slot keeps the invariant if no other slot caches its inode. *)
Lemma icache_inv_insert l i x :
  icache_inv l -> 0 <= i_ref x ->
  (forall j y, l !! j = Some y -> j <> i -> caches y (i_dev x) (i_inum x) = false) -> icache_inv (<[i := x]> l).
Proof.
  intros [H1 H2 H3] Hx Hno. split; [by rewrite length_insert| |].
  - intros j y Hj. apply list_lookup_insert_Some in Hj as [(-> & <- & _)|[_ Hj]]; [done|by eapply H2].
  - intros j k y z Hj Hk Hy Hz Ed Ei.
    apply list_lookup_insert_Some in Hj as [(<- & <- & _)|[Hij Hj]];
      apply list_lookup_insert_Some in Hk as [(Hki & Hkz & _)|[Hik Hk]]; subst; try done.
    + assert (caches z (i_dev x) (i_inum x) = true) by (by apply caches_true). by rewrite (Hno k z) in H.
    + assert (caches y (i_dev z) (i_inum z) = true) by (by apply caches_true). by rewrite (Hno j y) in H.
    + by apply (H3 j k y z).
Qed.

(** The slot that [iget] hands out, from the one it finds. *)
Definition one_more (x : inode) : inode := set_i_ref (i_ref x + 1) x.
Definition claimed (dev inum : Z) (x : inode) : inode := set_i_valid 0 (set_i_ref 1 (set_i_inum inum (set_i_dev dev x))).
Lemma icache_inv_more l k x : icache_inv l -> l !! k = Some x -> 0 < i_ref x -> icache_inv (<[k := one_more x]> l).
Proof.
  intros HI Hk Hr. apply icache_inv_insert; [done|simpl; lia|]. simpl. intros j y Hj Hne.
  destruct (caches y (i_dev x) (i_inum x)) eqn:Ey; [|done]. apply caches_true in Ey as (Hy0 & Hyd & Hyi).
  exfalso. apply Hne. by apply (ic_once _ HI j k y x).
Qed.
(** Leaving the critical section with the table [v]. *)
Lemma icache_leave s s1 i n p v : on_cpu s1 i (n + 1) p -> 0 <= n -> held_by Lk_icache i s1 -> same_locks Lk_icache s s1 -> same_data s s1 ->
  exists s', release Lk_icache (set_k_inodes v s1) = Ret tt s' /\ on_cpu s' i n p /\ unlocked Lk_icache s' /\
    same_locks Lk_icache s s' /\ same_data (set_k_inodes v s) s'.
Proof.
  intros Hc1 Hn Hh1 Hl1 Hd1. destruct (release_cpu (set_k_inodes v s1) i (n + 1) p Lk_icache) as (s3 & Hr & Hc3 & Hu3 & Hl3 & Hd3);
    [by apply (on_cpu_ext s1)|lia|done|]. exists s3. split; [done|]. split; [by replace n with (n + 1 - 1) by lia|].
  split; [done|]. split; [intros lk Hlk; rewrite (Hl3 lk Hlk); by apply Hl1|].
  transitivity (set_k_inodes v s1); [by apply same_data_inodes|done].
Qed.
Lemma iget_run s i n p dev inum :
  icache_inv (k_inodes s) -> on_cpu s i n p -> 0 <= n -> unlocked Lk_icache s ->
  match iget dev inum s with
  | Ret k s' => exists x x', k_inodes s !! k = Some x /\ icache_inv (<[k := x']> (k_inodes s)) /\
      (caches x dev inum = true /\ x' = one_more x \/ i_ref x = 0 /\ x' = claimed dev inum x) /\
      on_cpu s' i n p /\ unlocked Lk_icache s' /\ same_locks Lk_icache s s' /\ same_data (set_k_inodes (<[k := x']> (k_inodes s)) s) s'
  | Panic msg => msg = "iget: no inodes" /\
      forall k x, k_inodes s !! k = Some x -> i_ref x <> 0 /\ caches x dev inum = false
  | _ => False
  end.
Proof.
  intros HI Hc Hn Hu. pose proof HI as [Hsz _ _].
  destruct (acquire_cpu s i n p Lk_icache Hc Hu) as (s1 & Ha & Hc1 & Hh1 & Hl1 & Hd1).
  assert (k_inodes s1 = k_inodes s) as E1 by (apply Hd1; eauto with frame).
  pose proof (iget_scan_spec (k_inodes s) dev inum 0 None) as Hscan.
  unfold iget. run Ha. rstep. rewrite E1, take_ge by (rewrite Hsz; done).
  assert (forall k x, k_inodes s !! k = Some x -> (k < length (k_inodes s))%nat) as Hlt by (intros ? ? H; by eapply lookup_lt_Some).
  destruct (iget_scan (k_inodes s) 0 dev inum None) as [[k|] [e|]].
  1-2: destruct Hscan as (x & Hk & _ & Hca); rewrite Nat.sub_0_r in Hk; pose proof (proj1 (caches_true x dev inum) Hca) as (Hr0 & _);
    erewrite bind_Ret; [|apply (upd_inode_ok s1 k x); by rewrite E1]; cbv beta; rewrite E1; fold (one_more x);
    destruct (icache_leave s s1 i n p (<[k := one_more x]> (k_inodes s))) as (s3 & Hr & H3); [done..|]; run Hr;
    exists x, (one_more x); split; [done|]; split; [by apply icache_inv_more|]; split; [by left|done].
  - destruct Hscan as (Hno & [?|(_ & x & Hk & _ & H0)]); [done|]. rewrite Nat.sub_0_r in Hk.
    erewrite bind_Ret; [|apply (upd_inode_ok s1 e x); by rewrite E1]. cbv beta. rewrite E1.
    do 3 (erewrite bind_Ret; [|by eapply upd_inode_again, Hlt]; cbv beta). fold (claimed dev inum x).
    destruct (icache_leave s s1 i n p (<[e := claimed dev inum x]> (k_inodes s))) as (s3 & Hr & H3); [done..|]. run Hr.
    exists x, (claimed dev inum x). split; [done|]. split; [|split; [by right|done]].
    apply icache_inv_insert; [done|simpl; lia|]. intros j y Hj _. by apply (Hno j y).
  - destruct Hscan as (Hno & _ & Hall). split; [done|]. intros k x Hk. split; [by apply (Hall k)|by apply (Hno k)].
Qed.

(** C40: [iget] returns the one slot of the cache for the inode, with its count
    raised by one: the slot that already caches it, or else the first free slot,
    which it claims with count 1 and contents invalid.  No other slot changes, the
    cache never holds an inode twice, and [iget] panics only when the inode is
    not cached and every slot is in use. *)
Theorem iget_unique s i n p dev inum :
  icache_inv (k_inodes s) -> on_cpu s i n p -> 0 <= n -> unlocked Lk_icache s ->
  match iget dev inum s with
  | Ret k s' => exists x x', k_inodes s !! k = Some x /\ k_inodes s' = <[k := x']> (k_inodes s) /\
      i_dev x' = dev /\ i_inum x' = inum /\ i_ref x' = i_ref x + 1 /\ icache_inv (k_inodes s') /\
      (caches x dev inum = true \/ i_ref x = 0 /\ i_valid x' = 0) /\
      on_cpu s' i n p /\ unlocked Lk_icache s' /\ same_locks Lk_icache s s'
  | Panic msg => msg = "iget: no inodes" /\
      forall k x, k_inodes s !! k = Some x -> i_ref x <> 0 /\ caches x dev inum = false
  | _ => False
  end.
Proof.
  intros HI Hc Hn Hu. pose proof (iget_run s i n p dev inum HI Hc Hn Hu) as H. destruct (iget dev inum s) as [k s'| | | | |]; try done.
  destruct H as (x & x' & Hk & HI' & Hx & Hc' & Hu' & Hl' & Hd). exists x, x'.
  assert (k_inodes s' = <[k := x']> (k_inodes s)) as -> by (apply (Hd _ k_inodes); eauto with frame).
  split; [done|]. split; [done|].
  destruct Hx as [[Hca ->]|[H0 ->]].
  - pose proof (proj1 (caches_true x dev inum) Hca) as (_ & Hdv & Hin). split_and!; try done. by left.
  - split_and!; try done; [simpl; lia|by right].
Qed.
Lemma iget_unique_witness :
  match iget 1 7 one_running with Ret k s' => icache_inv (k_inodes s') | _ => False end.
Proof.
  assert (icache_inv (k_inodes one_running)) as HI.
  { assert (forall i x, k_inodes one_running !! i = Some x -> x = inode0) as H
      by (intros i x Hx; change (replicate 50 inode0 !! i = Some x) in Hx; by apply lookup_replicate in Hx as [-> _]).
    split; [done| |].
    - intros i x Hx. by rewrite (H _ _ Hx).
    - intros i j x y Hx _ Hr. rewrite (H _ _ Hx) in Hr. simpl in Hr. lia. }
  assert (match iget 1 7 one_running with Ret _ _ => True | _ => False end) as E by (vm_compute; exact I).
  pose proof (iget_unique one_running 0 1 (Some 0%nat) 1 7 HI) as H.
  destruct (iget 1 7 one_running); [|contradiction E..].
  destruct H as (x & x' & _ & _ & _ & _ & _ & Hi & _); [|lia|done|exact Hi].
  exists (set_c_ncli 1 (set_c_proc (Some 0%nat) (cpu0 0))). by repeat split.
Defined.
