(* ===== verification/Console.v ===== *)
(** * Console input, the keyboard and the serial port

    The input half of [console.c]: the line discipline [consoleintr] on the
    ring buffer [input], [consoleread], [consolewrite], [consoleinit];
    [kbd.c] and [kbd.h]; [uart.c]. *)

From S2P Require Import Prelude Mmu Bytes Mem State Spinlock Printk Critical Kalloc Vm Sched Sleeplock Disk Bio Log Inode.

(** ** [kbd.c] *)
Definition SHIFT : Z := Z.shiftl 1 0.
Definition CTL : Z := Z.shiftl 1 1.
Definition ALT : Z := Z.shiftl 1 2.
Definition CAPSLOCK : Z := Z.shiftl 1 3.
Definition NUMLOCK : Z := Z.shiftl 1 4.
Definition SCROLLLOCK : Z := Z.shiftl 1 5.
Definition E0ESC : Z := Z.shiftl 1 6.

Definition shiftcode (c : Z) : Z :=
  if c =? 0x1D then CTL else if c =? 0x2A then SHIFT else if c =? 0x36 then SHIFT
  else if c =? 0x38 then ALT else if c =? 0x9D then CTL else if c =? 0xB8 then ALT else 0.
Definition togglecode (c : Z) : Z :=
  if c =? 0x3A then CAPSLOCK else if c =? 0x45 then NUMLOCK else if c =? 0x46 then SCROLLLOCK else 0.

(** The entries at and above 0x97 that the three maps share. *)
Definition ext_keys (enter div c : Z) : Z :=
  if c =? 0x9C then enter else if c =? 0xB5 then div
  else if c =? 0xC8 then 0xE2 else if c =? 0xD0 then 0xE3
  else if c =? 0xC9 then 0xE6 else if c =? 0xD1 then 0xE7
  else if c =? 0xCB then 0xE4 else if c =? 0xCD then 0xE5
  else if c =? 0x97 then 0xE0 else if c =? 0xCF then 0xE1
  else if c =? 0xD2 then 0xE8 else if c =? 0xD3 then 0xE9 else 0.
Definition key_row (l : list Z) (ext : Z -> Z) (c : Z) : Z :=
  match l !! Z.to_nat c with Some k => k | None => ext c end.

Definition keypad : list Z := replicate 13 0 ++ bytes "789-456+1230." .
Definition normalmap : Z -> Z :=
  key_row ([0; 0x1B] ++ bytes "1234567890-=" ++ [8; 9] ++ bytes "qwertyuiop[]" ++ [10; 0] ++ bytes "asdfghjkl;'`"
    ++ [0; 92] ++ bytes "zxcvbnm,./" ++ [0; 42; 0; 32] ++ keypad ++ replicate 4 0) (ext_keys 10 47).
Definition shiftmap : Z -> Z :=
  key_row ([0; 27] ++ bytes "!@#$%^&*()_+" ++ [8; 9] ++ bytes "QWERTYUIOP{}" ++ [10; 0] ++ bytes "ASDFGHJKL:"
    ++ [34; 126; 0; 124] ++ bytes "ZXCVBNM<>?" ++ [0; 42; 0; 32] ++ keypad ++ replicate 4 0) (ext_keys 10 47).
Definition ctl (l : list Z) : list Z := (fun c => c - 64) <$> l.
Definition ctlmap : Z -> Z :=
  key_row (replicate 16 0 ++ ctl (bytes "QWERTYUIOP") ++ [0; 0; 13; 0] ++ ctl (bytes "ASDFGHJKL") ++ [0; 0; 0; 0]
    ++ ctl (92 :: bytes "ZXCVBNM") ++ [0; 0] ++ [u8 (47 - 64); 0; 0]) (ext_keys 13 (u8 (47 - 64))).

(** The decoder on one scan code: new [shift] state and result. *)
Definition kbd_decode (shift data : Z) : Z * Z :=
  if data =? 0xE0 then (Z.lor shift E0ESC, 0)
  else if has_bits data 0x80 then
    let data := if has_bits shift E0ESC then data else Z.land data 0x7F in
    (Z.ldiff shift (Z.lor (shiftcode data) E0ESC), 0)
  else
    let '(data, shift) := if has_bits shift E0ESC then (Z.lor data 0x80, Z.ldiff shift E0ESC) else (data, shift) in
    let shift := Z.lxor (Z.lor shift (shiftcode data)) (togglecode data) in
    let sel := Z.land shift (Z.lor CTL SHIFT) in
    let c := if sel =? 0 then normalmap data else if sel =? 1 then shiftmap data else ctlmap data in
    let c := if has_bits shift CAPSLOCK then
               if (97 <=? c) && (c <=? 122) then c + 65 - 97
               else if (65 <=? c) && (c <=? 90) then c + 97 - 65 else c
             else c in
    (shift, c).
Definition kbdgetc : K Z :=
  q <- gets (fun s => hw_kbd (k_hw s)) ;;
  match q with
  | [] => ret (-1)
  | data :: q' =>
      upd_hw (set_hw_kbd q') ;;
      shift <- gets k_kbdshift ;;
      let '(shift', c) := kbd_decode shift data in
      modify (set_k_kbdshift shift') ;;
      ret c
  end.

(** ** [uart.c] *)
Definition COM1 : Z := 0x3f8.
(** [status] is the line status register: 0xFF when there is no serial port. *)
Definition uartinit (status : Z) : K unit :=
  outb (COM1 + 2) 0 ;;
  outb (COM1 + 3) 0x80 ;;
  outb (COM1 + 0) (115200 / 9600) ;;
  outb (COM1 + 1) 0 ;;
  outb (COM1 + 3) 0x03 ;;
  outb (COM1 + 4) 0 ;;
  outb (COM1 + 1) 0x01 ;;
  if status =? 0xFF then ret tt else
  upd_hw (set_hw_uart 1) ;;
  ioapicenable IRQ_COM1 0 ;;
  iter_list (bytes "xv6..." ++ [NL]) uartputc.
Definition uartgetc : K Z :=
  u <- gets (fun s => hw_uart (k_hw s)) ;;
  if u =? 0 then ret (-1) else
  q <- gets (fun s => hw_uartin (k_hw s)) ;;
  match q with [] => ret (-1) | c :: q' => upd_hw (set_hw_uartin q') ;; ret c end.

(** ** [console.c]: input *)
Definition INPUT_BUF : Z := 128.
Definition Ctl (c : Z) : Z := c - 64.
Definition upd_input (f : inputbuf -> inputbuf) : K unit := modify (fun s => set_k_input (f (k_input s)) s).
Definition input_at (i : Z) (x : inputbuf) : Z := ring_at INPUT_BUF (in_buf x) i.

(** ^U: erase back to the start of the line. *)
Fixpoint kill_line (fuel : nat) : K unit :=
  x <- gets k_input ;;
  if negb (in_e x =? in_w x) && negb (input_at (u32 (in_e x - 1)) x =? NL) then
    match fuel with
    | O => nofuel
    | S f => upd_input (set_in_e (u32 (in_e x - 1))) ;; consputc BACKSPACE ;; kill_line f
    end
  else ret tt.

(** One character; the result says whether ^P was typed. *)
Definition consoleintr_char (c : Z) : K bool :=
  x <- gets k_input ;;
  if c =? Ctl 80 then ret true
  else if c =? Ctl 85 then kill_line (Z.to_nat INPUT_BUF + 1) ;; ret false
  else if (c =? Ctl 72) || (c =? 127) then
    when (negb (in_e x =? in_w x)) (upd_input (set_in_e (u32 (in_e x - 1))) ;; consputc BACKSPACE) ;;
    ret false
  else
    when (negb (c =? 0) && (u32 (in_e x - in_r x) <? INPUT_BUF)) (
      let c := if c =? 13 then NL else c in
      upd_input (fun x => set_in_e (u32 (in_e x + 1))
        (set_in_buf (<[Z.to_nat (in_e x mod INPUT_BUF) := u8 c]> (in_buf x)) x)) ;;
      consputc c ;;
      x <- gets k_input ;;
      when ((c =? NL) || (c =? Ctl 68) || (in_e x =? u32 (in_r x + INPUT_BUF))) (
        upd_input (fun x => set_in_w (in_e x) x) ;;
        wakeup Ch_input)) ;;
    ret false.

(** The loop ends when the device has no more characters. *)
Fixpoint consoleintr_loop (fuel : nat) (getc : K Z) (doprocdump : bool) : K bool :=
  c <- getc ;;
  if 0 <=? c then
    match fuel with
    | O => nofuel
    | S f => d <- consoleintr_char c ;; consoleintr_loop f getc (doprocdump || d)
    end
  else ret doprocdump.
Definition consoleintr (fuel : nat) (getc : K Z) : K unit :=
  acquire Lk_cons ;;
  d <- consoleintr_loop fuel getc false ;;
  release Lk_cons ;;
  when d procdump.

Definition kbdintr : K unit :=
  q <- gets (fun s => hw_kbd (k_hw s)) ;; consoleintr (length q) kbdgetc.
Definition uartintr : K unit :=
  q <- gets (fun s => hw_uartin (k_hw s)) ;; consoleintr (length q) uartgetc.

Section Driver.
Context {D : DiskDriver}.

(** [myproc()->killed] *)
Definition mykilled : K bool := op <- myproc ;; ip <- deref op ;; p <- get_proc ip ;; ret (truth (p_killed p)).

(** The inner loop of [consoleread]: [false] when the process was killed. *)
Fixpoint consoleread_wait (fuel : nat) : K bool :=
  x <- gets k_input ;;
  if in_r x =? in_w x then
    kd <- mykilled ;;
    if kd then ret false else
    match fuel with
    | O => nofuel
    | S f => sleep Ch_input (Some Lk_cons) ;; consoleread_wait f
    end
  else ret true.
(** [k] bytes are still wanted; the result is how many stay unread, [None] if
    the process was killed.  [wr off bs] stores at [dst + off]. *)
Fixpoint consoleread_loop (k : nat) (target : Z) (wr : Z -> list Z -> K unit) : K (option Z) :=
  match k with
  | O => ret (Some 0)
  | S k' =>
      let n := Z.of_nat k in
      w <- gets k_wait ;; ok <- consoleread_wait w ;;
      if negb ok then ret None else
      x <- gets k_input ;;
      let c := input_at (in_r x) x in
      upd_input (set_in_r (u32 (in_r x + 1))) ;;
      if c =? Ctl 68 then
        when (n <? target) (upd_input (fun x => set_in_r (u32 (in_r x - 1)) x)) ;;
        ret (Some n)
      else
        wr (target - n) [c] ;;
        if c =? NL then ret (Some (n - 1)) else consoleread_loop k' target wr
  end.
Definition consoleread (ip : nat) (wr : Z -> list Z -> K unit) (n : Z) : K Z :=
  iunlock (Some ip) ;;
  let target := n in
  acquire Lk_cons ;;
  r <- consoleread_loop (Z.to_nat n) target wr ;;
  release Lk_cons ;;
  ilock (Some ip) ;;
  match r with None => ret (-1) | Some rest => ret (target - rest) end.

(** [rd off n] loads [n] bytes at [buf + off]. *)
Definition consolewrite (ip : nat) (rd : Z -> Z -> K (list Z)) (n : Z) : K Z :=
  iunlock (Some ip) ;;
  acquire Lk_cons ;;
  iter_list (upto n) (fun i =>
    bs <- rd (Z.of_nat i) 1 ;;
    match bs with [c] => consputc (Z.land c 0xff) | _ => fault end) ;;
  release Lk_cons ;;
  ilock (Some ip) ;;
  ret n.
End Driver.

Definition CONSOLE : nat := 1.
Definition consoleinit : K unit :=
  initlock Lk_cons "console" ;;
  modify (fun s => set_k_devsw (<[CONSOLE := mk_devsw (Some Dev_console) (Some Dev_console)]> (k_devsw s)) s) ;;
  modify (set_k_cons_locking 1) ;;
  ioapicenable IRQ_KBD 0.

(* ------------------------------------------------------------------ *)
(** ** The line discipline

    The ring holds the committed bytes, from [r] to [w], which [consoleread] may
    take, and the line being edited, from [w] to [e]. *)
Definition n_committed (x : inputbuf) : Z := u32 (in_w x - in_r x).
Definition n_editing (x : inputbuf) : Z := u32 (in_e x - in_w x).
Definition committed (x : inputbuf) : list Z := ring INPUT_BUF (in_buf x) (in_r x) (Z.to_nat (n_committed x)).
Definition editing (x : inputbuf) : list Z := ring INPUT_BUF (in_buf x) (in_w x) (Z.to_nat (n_editing x)).

Record input_inv (x : inputbuf) : Prop := mk_input_inv {
  ii_size : length (in_buf x) = Z.to_nat INPUT_BUF;
  ii_r : 0 <= in_r x < 2 ^ 32;
  ii_w : 0 <= in_w x < 2 ^ 32;
  ii_e : 0 <= in_e x < 2 ^ 32;
  ii_room : n_committed x + n_editing x <= INPUT_BUF;
  ii_line : NL ∉ editing x }.

(** What a typed character does to the two parts. *)
Definition line_step (c : Z) (q : list Z * list Z) : list Z * list Z :=
  let '(cm, ed) := q in
  if c =? Ctl 80 then (cm, ed)
  else if c =? Ctl 85 then (cm, [])
  else if (c =? Ctl 72) || (c =? 127) then (cm, removelast ed)
  else if negb (c =? 0) && (Z.of_nat (length cm + length ed) <? INPUT_BUF) then
    let c := if c =? 13 then NL else c in
    if (c =? NL) || (c =? Ctl 68) || (Z.of_nat (S (length cm + length ed)) =? INPUT_BUF)
    then (cm ++ ed ++ [c], []) else (cm, ed ++ [c])
  else (cm, ed).

Lemma committed_length x : Z.of_nat (length (committed x)) = n_committed x.
Proof. unfold committed, n_committed. rewrite ring_length, Z2Nat.id; [done|]. apply u32_range. Qed.
Lemma editing_length x : Z.of_nat (length (editing x)) = n_editing x.
Proof. unfold editing, n_editing. rewrite ring_length, Z2Nat.id; [done|]. apply u32_range. Qed.

(** Slots: the ring's size divides the range of the counters. *)
Lemma u32_input z : u32 z mod INPUT_BUF = z mod INPUT_BUF.
Proof. unfold u32, INPUT_BUF. dlia. Qed.
Lemma editing_slot x : (in_w x + n_editing x) mod INPUT_BUF = in_e x mod INPUT_BUF.
Proof. unfold n_editing, u32, INPUT_BUF. dlia. Qed.

(** The three ways in which the counters move. *)
Definition drop_last (x : inputbuf) : inputbuf := set_in_e (u32 (in_e x - 1)) x.
Definition add_char (c : Z) (x : inputbuf) : inputbuf :=
  set_in_e (u32 (in_e x + 1)) (set_in_buf (<[Z.to_nat (in_e x mod INPUT_BUF) := u8 c]> (in_buf x)) x).
Definition commit_line (x : inputbuf) : inputbuf := set_in_w (in_e x) x.

Lemma drop_last_spec x :
  input_inv x -> in_e x <> in_w x ->
  input_inv (drop_last x) /\ committed (drop_last x) = committed x /\
  editing x = editing (drop_last x) ++ [input_at (u32 (in_e x - 1)) x].
Proof.
  intros [H1 H2 H3 H4 H5 H6] Hne.
  assert (n_editing (drop_last x) = n_editing x - 1 /\ 0 < n_editing x) as [El Hpos].
  { unfold n_editing, drop_last, u32 in *; simpl. dlia. }
  assert (editing x = editing (drop_last x) ++ [input_at (u32 (in_e x - 1)) x]) as Ee.
  { unfold editing. rewrite El. replace (Z.to_nat (n_editing x)) with (S (Z.to_nat (n_editing x - 1))) by lia.
    rewrite ring_snoc. f_equal. f_equal. apply ring_at_congr. rewrite u32_input, Z2Nat.id by lia.
    rewrite <- (Zminus_mod_idemp_l (in_e x)), <- editing_slot, Zminus_mod_idemp_l. f_equal. lia. }
  split; [|done]. split; try done.
  - apply u32_range.
  - rewrite El. change (n_committed (drop_last x)) with (n_committed x). lia.
  - intros Hin. apply H6. rewrite Ee. apply elem_of_app. by left.
Qed.

Lemma add_char_spec x c :
  input_inv x -> n_committed x + n_editing x < INPUT_BUF -> 0 <= c < 256 ->
  committed (add_char c x) = committed x /\ editing (add_char c x) = editing x ++ [c] /\
  length (in_buf (add_char c x)) = Z.to_nat INPUT_BUF /\ n_editing (add_char c x) = n_editing x + 1 /\
  0 <= in_e (add_char c x) < 2 ^ 32.
Proof.
  intros [H1 H2 H3 H4 H5 H6] Hroom Hc.
  pose proof (u32_range (in_w x - in_r x)) as R1. pose proof (u32_range (in_e x - in_w x)) as R2.
  fold (n_committed x) in R1. fold (n_editing x) in R2.
  assert (n_editing (add_char c x) = n_editing x + 1) as El.
  { unfold n_editing, n_committed, add_char, u32, INPUT_BUF in *; simpl. dlia. }
  split; [|split; [|split; [|split; [done|apply u32_range]]]].
  - unfold committed. change (n_committed (add_char c x)) with (n_committed x). simpl.
    assert (in_e x mod INPUT_BUF = (in_r x + n_committed x + n_editing x) mod INPUT_BUF) as ->
      by (unfold n_editing, n_committed, u32, INPUT_BUF; dlia).
    apply ring_store_out; [done|]. lia.
  - unfold editing. rewrite El, Z2Nat.inj_add by lia. change (Z.to_nat 1) with 1%nat. rewrite Nat.add_1_r. simpl.
    rewrite (u8_small c) by done. apply ring_store; [done|done|lia|]. rewrite Z2Nat.id by lia. by rewrite editing_slot.
  - simpl. by rewrite length_insert.
Qed.

Lemma commit_line_spec x :
  length (in_buf x) = Z.to_nat INPUT_BUF -> 0 <= in_r x < 2 ^ 32 -> 0 <= in_e x < 2 ^ 32 ->
  n_committed x + n_editing x <= INPUT_BUF ->
  input_inv (commit_line x) /\ committed (commit_line x) = committed x ++ editing x /\ editing (commit_line x) = [].
Proof.
  intros H1 H2 H3 H4.
  pose proof (u32_range (in_w x - in_r x)) as R1. pose proof (u32_range (in_e x - in_w x)) as R2.
  fold (n_committed x) in R1. fold (n_editing x) in R2.
  assert (n_committed (commit_line x) = n_committed x + n_editing x) as Ec.
  { unfold n_editing, n_committed, commit_line, u32, INPUT_BUF in *; simpl. dlia. }
  assert (n_editing (commit_line x) = 0) as E0 by (unfold n_editing; simpl; by rewrite Z.sub_diag).
  assert (editing (commit_line x) = []) as E1 by (unfold editing; by rewrite E0).
  split; [|split; [|done]].
  - split; try done; [rewrite Ec, E0; lia|rewrite E1; apply not_elem_of_nil].
  - unfold committed, editing. rewrite Ec, Z2Nat.inj_add, ring_app by lia. f_equal. apply ring_congr.
    rewrite Z2Nat.id by lia. unfold commit_line, n_committed, u32, INPUT_BUF; simpl. dlia.
Qed.

(** Characters echo to the screen and the serial port; the input becomes [x]. *)
Definition echoed (s : kstate) (x : inputbuf) (s' : kstate) : Prop :=
  screen_ok s' /\ exists o crt, s' = set_k_input x (set_k_crt crt (set_k_out o s)).

Lemma consputc_echo s c : screen_ok s -> exists s', consputc c s = Ret tt s' /\ echoed s (k_input s) s'.
Proof.
  intros H. destruct (consputc_run s c H) as (crt & Hr & Hp & _). eexists. split; [exact Hr|].
  split; [split; [apply H|exact Hp]|]. by eexists _, crt.
Qed.
Lemma echoed_trans s x s1 y s2 : echoed s x s1 -> echoed s1 y s2 -> echoed s y s2.
Proof. intros [_ (o1 & c1 & ->)] [H (o2 & c2 & ->)]. split; [done|]. by exists o2, c2. Qed.
Lemma echoed_input s x : screen_ok s -> echoed s x (set_k_input x s).
Proof. intros H. split; [done|]. exists (k_out s), (k_crt s). by destruct s. Qed.
Lemma echoed_at s x s' : echoed s x s' -> k_input s' = x.
Proof. by intros [_ (o & c & ->)]. Qed.

Lemma kill_line_run fuel : forall s,
  screen_ok s -> input_inv (k_input s) -> (length (editing (k_input s)) < fuel)%nat ->
  exists s' x, kill_line fuel s = Ret tt s' /\ echoed s x s' /\ input_inv x /\
    committed x = committed (k_input s) /\ editing x = [].
Proof.
  induction fuel as [|f IH]; intros s Hs HI Hlen; [lia|]. cbn [kill_line]. rstep. pose proof (ii_line _ HI) as Hline.
  destruct (Z.eqb_spec (in_e (k_input s)) (in_w (k_input s))) as [E|Hne]; cbn [negb andb].
  - exists s, (k_input s). split; [done|]. split; [|split; [done|split; [done|]]].
    + split; [done|]. exists (k_out s), (k_crt s). by destruct s.
    + apply nil_length_inv. pose proof (editing_length (k_input s)) as El. unfold n_editing in El.
      rewrite E, Z.sub_diag in El. change (u32 0) with 0 in El. lia.
  - destruct (drop_last_spec _ HI Hne) as (HI' & Hc & He). rewrite He in Hline, Hlen.
    destruct (Z.eqb_spec (input_at (u32 (in_e (k_input s) - 1)) (k_input s)) NL) as [EN|_].
    { exfalso. apply Hline. rewrite EN. apply elem_of_app. right. by apply list_elem_of_singleton. }
    cbn [negb andb]. unfold upd_input. rstep. set (s1 := set_k_input _ s).
    destruct (consputc_echo s1 BACKSPACE Hs) as (s2 & Hr & Hecho). run Hr.
    destruct (IH s2) as (s3 & x & Hk & Hecho3 & HIx & Hcx & Hex).
    { apply Hecho. } { by rewrite (echoed_at _ _ _ Hecho). }
    { rewrite (echoed_at _ _ _ Hecho). change (k_input s1) with (drop_last (k_input s)). rewrite length_app in Hlen.
      simpl in Hlen. lia. }
    exists s3, x. split; [done|]. split; [|split; [done|split; [|done]]].
    + eapply echoed_trans; [by apply (echoed_input s (drop_last (k_input s)))|]. eapply echoed_trans; done.
    + rewrite Hcx, (echoed_at _ _ _ Hecho). exact Hc.
Qed.

(** The context of the interrupt handler, the console's lock held. *)
Record typing (s : kstate) (i : nat) (n : Z) (p : option nat) : Prop := mk_typing {
  ty_screen : screen_ok s;
  ty_input : input_inv (k_input s);
  ty_cpu : on_cpu s i n p;
  ty_depth : 0 <= n;
  ty_table : table_size s;
  ty_ptable : unlocked Lk_ptable s }.
Definition line (s : kstate) : list Z * list Z := (committed (k_input s), editing (k_input s)).

Lemma echoed_typing s i n p x s' : typing s i n p -> echoed s x s' -> input_inv x -> typing s' i n p.
Proof. intros [H1 H2 H3 H4 H5 H6] [Hs (o & c & ->)] Hx. split; try done. by apply (on_cpu_ext s). Qed.

(** Locks other than the table's, and the bytes waiting in the serial port. *)
Definition same_port (s s' : kstate) : Prop :=
  same_locks Lk_ptable s s' /\ hw_uartin (k_hw s') = hw_uartin (k_hw s) /\ hw_uart (k_hw s') = hw_uart (k_hw s).
Lemma echoed_port s x s' : echoed s x s' -> same_port s s'.
Proof. by intros [_ (o & c & ->)]. Qed.
Lemma same_port_trans s1 s2 s3 : same_port s1 s2 -> same_port s2 s3 -> same_port s1 s3.
Proof.
  intros (H1 & H2 & H3) (H4 & H5 & H6). split; [|split; congruence]. intros lk Hlk. by rewrite (H4 lk Hlk), (H1 lk Hlk).
Qed.

(** Committing the line wakes the readers. *)
Lemma commit_run s i n p :
  screen_ok s -> on_cpu s i n p -> 0 <= n -> table_size s -> unlocked Lk_ptable s ->
  input_inv (commit_line (k_input s)) ->
  exists s', (upd_input (fun x => set_in_w (in_e x) x) ;; wakeup Ch_input) s = Ret tt s' /\
    typing s' i n p /\ k_input s' = commit_line (k_input s) /\ same_port s s'.
Proof.
  intros Hs Hc Hn Ht Hu HI. unfold upd_input. rstep. set (s1 := set_k_input _ s).
  destruct (wakeup_run Ch_input s1 i n p) as (s2 & Hw & Hc2 & Hu2 & Hl2 & Hd2); [done|by apply (on_cpu_ext s)|done|done|].
  assert (k_input s2 = commit_line (k_input s)) as Ei by (rewrite (Hd2 _ k_input); [done|lock_free_tac]).
  exists s2. split; [done|]. split; [|split; [done|split; [done|]]].
  - split; try done; [|by rewrite Ei|].
    + unfold screen_ok. by rewrite (Hd2 _ k_panicked), (Hd2 _ k_crt) by lock_free_tac.
    + unfold table_size. rewrite (Hd2 _ k_procs) by lock_free_tac. simpl. by rewrite length_fmap.
  - rewrite (Hd2 _ (fun s => hw_uartin (k_hw s))), (Hd2 _ (fun s => hw_uart (k_hw s))) by lock_free_tac. done.
Qed.

(** The code's tests for room, in terms of the two parts. *)
Lemma input_level x :
  0 <= in_r x < 2 ^ 32 -> 0 <= in_e x < 2 ^ 32 -> n_committed x + n_editing x <= INPUT_BUF ->
  u32 (in_e x - in_r x) = n_committed x + n_editing x.
Proof. unfold n_committed, n_editing, u32, INPUT_BUF. intros. dlia. Qed.
Lemma input_full x :
  0 <= in_r x < 2 ^ 32 -> 0 <= in_e x < 2 ^ 32 -> n_committed x + n_editing x <= INPUT_BUF ->
  (in_e x =? u32 (in_r x + INPUT_BUF)) = (n_committed x + n_editing x =? INPUT_BUF).
Proof.
  intros. rewrite <- input_level by done. unfold u32, INPUT_BUF.
  destruct (Z.eqb_spec (in_e x) ((in_r x + 128) mod 2 ^ 32)), (Z.eqb_spec ((in_e x - in_r x) mod 2 ^ 32) 128); try done; dlia.
Qed.

(** An ordinary character with room in the buffer. *)
Lemma type_char_run s i n p c :
  typing s i n p -> n_committed (k_input s) + n_editing (k_input s) < INPUT_BUF -> 0 <= c < 256 ->
  let '(cm, ed) := line s in
  exists s', (upd_input (fun x => set_in_e (u32 (in_e x + 1))
        (set_in_buf (<[Z.to_nat (in_e x mod INPUT_BUF) := u8 c]> (in_buf x)) x)) ;;
      consputc c ;;
      x <- gets k_input ;;
      when ((c =? NL) || (c =? Ctl 68) || (in_e x =? u32 (in_r x + INPUT_BUF))) (
        upd_input (fun x => set_in_w (in_e x) x) ;;
        wakeup Ch_input)) s = Ret tt s' /\ typing s' i n p /\
    line s' = (if (c =? NL) || (c =? Ctl 68) || (n_committed (k_input s) + n_editing (k_input s) + 1 =? INPUT_BUF)
               then (cm ++ ed ++ [c], []) else (cm, ed ++ [c])) /\ same_port s s'.
Proof.
  intros HT Hroom Hc. unfold line. pose proof HT as [Hs HI Hcpu Hn Ht Hu]. set (x := k_input s) in *.
  destruct (add_char_spec x c HI Hroom Hc) as (E1 & E2 & Hlen & En & He).
  assert (n_committed (add_char c x) = n_committed x) as Ec by done.
  set (s1 := set_k_input (add_char c x) s).
  destruct (consputc_echo s1 c Hs) as (s2 & Hr & Hecho1).
  pose proof (echoed_trans _ _ _ _ _ (echoed_input s (add_char c x) Hs) Hecho1) as Hecho. clear Hecho1.
  pose proof (echoed_at _ _ _ Hecho) as Ex. change (k_input s1) with (add_char c x) in Ex.
  unfold upd_input at 1. rstep. run Hr. rstep. rewrite Ex.
  rewrite (input_full (add_char c x)); [|apply HI|done|lia]. rewrite Ec, En.
  replace (n_committed x + (n_editing x + 1)) with (n_committed x + n_editing x + 1) by lia.
  destruct ((c =? NL) || (c =? Ctl 68) || (n_committed x + n_editing x + 1 =? INPUT_BUF)) eqn:Hcm; cbn [when].
  - destruct (commit_line_spec (add_char c x)) as (HI3 & E3 & E4); [done|apply HI|done|lia|].
    pose proof Hecho as [Hs2 (o & crt & Es2)].
    destruct (commit_run s2 i n p Hs2) as (s3 & Hr3 & HT3 & Ex3 & Hp3); rewrite ?Ex; try done;
      [rewrite Es2; by apply (on_cpu_ext s)|by rewrite Es2|by rewrite Es2|].
    exists s3. split; [exact Hr3|]. split; [done|]. rewrite Ex3, Ex, E3, E4, E1, E2.
    split; [done|]. eapply same_port_trans; [by eapply echoed_port|done].
  - exists s2. split; [done|]. split; [|rewrite Ex, E1, E2; split; [done|by eapply echoed_port]].
    eapply echoed_typing; [done|done|]. apply orb_false_iff in Hcm as [Hcm Hful%Z.eqb_neq].
    apply orb_false_iff in Hcm as [HNL%Z.eqb_neq _].
    change (input_inv (add_char c x)). split; try done; try apply HI.
    + rewrite Ec, En. lia.
    + rewrite E2. intros [H|H%list_elem_of_singleton]%elem_of_app; [by apply (ii_line x HI)|done].
Qed.

Lemma consoleintr_char_run s i n p c :
  typing s i n p -> 0 <= c < 256 ->
  exists s', consoleintr_char c s = Ret (c =? Ctl 80) s' /\ typing s' i n p /\
    line s' = line_step c (line s) /\ same_port s s'.
Proof.
  intros HT Hc. pose proof HT as [Hs HI Hcpu Hn Ht Hu].
  unfold consoleintr_char, line, line_step. rstep. destruct (Z.eqb_spec c (Ctl 80)); [by exists s|].
  destruct (c =? Ctl 85).
  { destruct (kill_line_run (Z.to_nat INPUT_BUF + 1) s Hs HI) as (s' & x & Hr & He & Hx & E1 & E2).
    { pose proof (editing_length (k_input s)). pose proof (ii_room _ HI). pose proof (u32_range (in_w (k_input s) - in_r (k_input s))).
      unfold n_committed in *. lia. }
    run Hr. exists s'. split; [done|]. split; [by eapply echoed_typing|]. rewrite (echoed_at _ _ _ He), E1, E2.
    split; [done|]. by eapply echoed_port. }
  destruct ((c =? Ctl 72) || (c =? 127)).
  { destruct (Z.eqb_spec (in_e (k_input s)) (in_w (k_input s))) as [E|Hne]; cbn [negb when].
    - rstep. exists s. split; [done|]. split; [done|]. split; [|done].
      assert (editing (k_input s) = []) as ->; [|done]. apply nil_length_inv.
      pose proof (editing_length (k_input s)) as El. unfold n_editing in El. rewrite E, Z.sub_diag in El.
      change (u32 0) with 0 in El. lia.
    - destruct (drop_last_spec _ HI Hne) as (HI' & E1 & E2). unfold upd_input.
      destruct (consputc_echo (set_k_input (drop_last (k_input s)) s) BACKSPACE Hs) as (s' & Hr & He).
      erewrite bind_Ret; [|rstep; exact Hr]. cbv beta. exists s'. split; [done|].
      pose proof (echoed_trans _ _ _ _ _ (echoed_input s (drop_last (k_input s)) Hs) He) as He'.
      split; [by eapply echoed_typing|]. rewrite (echoed_at _ _ _ He'). simpl. rewrite E1, E2, removelast_last.
      split; [done|]. by eapply echoed_port. }
  rewrite Nat2Z.inj_succ, Nat2Z.inj_add, committed_length, editing_length, input_level by apply HI.
  destruct (negb (c =? 0) && (n_committed (k_input s) + n_editing (k_input s) <? INPUT_BUF)) eqn:Hok; cbn [when].
  2: { rstep. by exists s. }
  apply andb_true_iff in Hok as [_ Hroom%Z.ltb_lt].
  destruct (type_char_run s i n p (if c =? 13 then NL else c) HT Hroom) as (s' & Hr & HT' & Hl & Hp).
  { case_Z; [unfold NL|]; lia. }
  run Hr. exists s'. split; [done|]. split; [done|]. split; [|done]. unfold line in Hl. rewrite Hl.
  replace (Z.succ (n_committed (k_input s) + n_editing (k_input s))) with
    (n_committed (k_input s) + n_editing (k_input s) + 1) by lia. done.
Qed.

(** C32: a burst of bytes from the serial port is edited exactly as [line_step]
    prescribes, one byte after the other: ^U and backspace stop at the committed
    bytes, a line is committed (and readers are woken) at newline, ^D or when the
    ring is full, input beyond the 128 bytes is dropped.  The handler always
    finishes, reports ^P, and keeps [r], [w], [e] in order across wrap-around. *)
Theorem console_line_editing q : forall s i n p d,
  typing s i n p -> hw_uartin (k_hw s) = q -> hw_uart (k_hw s) = 1 -> Forall (fun c => 0 <= c < 256) q ->
  exists s', consoleintr_loop (length q) uartgetc d s = Ret (d || existsb (Z.eqb (Ctl 80)) q) s' /\
    typing s' i n p /\ line s' = fold_left (fun l c => line_step c l) q (line s) /\
    hw_uartin (k_hw s') = [] /\ same_locks Lk_ptable s s'.
Proof.
  induction q as [|c q IH]; intros s i n p d HT Hq Hu Hb.
  - exists s. rewrite orb_false_r. split; [|done]. cbn [consoleintr_loop length].
    assert (uartgetc s = Ret (-1) s) as Hg by (unfold uartgetc; rstep; rewrite Hu; cbn [Z.eqb]; rstep; by rewrite Hq).
    run Hg. done.
  - apply Forall_cons in Hb as [Hc Hb]. set (s1 := set_k_hw (set_hw_uartin q (k_hw s)) s).
    assert (uartgetc s = Ret c s1) as Hg by (unfold uartgetc; rstep; rewrite Hu; cbn [Z.eqb]; rstep; by rewrite Hq).
    assert (typing s1 i n p) as HT1.
    { destruct HT as [H1 H2 H3 H4 H5 H6]. split; try done. by apply on_cpu_hw. }
    destruct (consoleintr_char_run s1 i n p c HT1 Hc) as (s2 & Hr & HT2 & Hl & Hlk & E1 & E2).
    destruct (IH s2 i n p (d || (c =? Ctl 80)) HT2) as (s3 & Hr3 & HT3 & Hl3 & E3 & Hlk3); [by rewrite E1|by rewrite E2|done|].
    exists s3. split; [|split; [done|split; [|split; [done|]]]].
    + cbn [consoleintr_loop length]. run Hg. destruct (Z.leb_spec 0 c); [|lia]. run Hr. rewrite Hr3. f_equal.
      cbn [existsb]. by rewrite orb_assoc, (Z.eqb_sym c).
    + by rewrite Hl3, Hl.
    + intros lk Hne. by rewrite (Hlk3 lk Hne), (Hlk lk Hne).
Qed.

(** The machine after [boot] with a serial port on which "ab", backspace and
    newline have arrived. *)
Definition typed_ab : kstate :=
  set_k_hw (set_hw_uart 1 (set_hw_uartin [97; 98; 8; 10] (k_hw boot)))
    (set_k_cpus [set_c_ncli 1 (set_c_proc (Some 0%nat) (cpu0 0))] one_running).
Lemma console_line_editing_witness :
  exists s', consoleintr_loop 4 uartgetc false typed_ab = Ret false s' /\ line s' = ([97; 10], []).
Proof.
  destruct (console_line_editing [97; 98; 8; 10] typed_ab 0 1 (Some 0%nat) false) as (s' & H & _ & Hl & _); [|done|done| |].
  - split; try done.
    + split; try done. apply not_elem_of_nil.
    + exists (set_c_ncli 1 (set_c_proc (Some 0%nat) (cpu0 0))). by repeat split.
  - repeat constructor; lia.
  - exists s'. split; [exact H|]. rewrite Hl. reflexivity.
Defined.
