(* ===== verification/Fs.v ===== *)
(** * File contents, directories and path names

    [fs.c]: [stati], [readi], [writei], [namecmp], [dirlookup], [dirlink],
    [skipelem], [namex], [namei], [nameiparent].

    A destination [char *dst] is the function [wr] that stores bytes at an
    offset from it, a source is the function [rd] that loads them; [readi] also
    returns the bytes it stored, for callers that read into a local structure.
    Path names and path elements are byte lists without their NUL. *)

From S2P Require Import Prelude Mmu Bytes Mem State Spinlock Printk Critical Kalloc Vm Sched Sleeplock Disk Bio Log Inode Console.

(** [stat.h]: [struct stat] *)
Record stat := mk_stat { st_type : Z; st_dev : Z; st_ino : Z; st_nlink : Z; st_size : Z }.
Definition stati (ip : nat) : K stat :=
  x <- get_inode ip ;;
  ret (mk_stat (i_type x) (i_dev x) (i_inum x) (i_nlink x) (i_size x)).

(** [fs.h]: [struct dirent] *)
Record dirent := mk_dirent { de_inum : Z; de_name : list Z }.
Definition parse_dirent (d : list Z) : dirent := mk_dirent (get16 0 d) (slice 2 DIRSIZ d).
Definition dirent_bytes (e : dirent) : list Z := le_bytes 2 (de_inum e) ++ de_name e.

(** [strncmp(s, t, DIRSIZ)] on arrays of at most [DIRSIZ] bytes, a missing byte
    being the NUL. *)
Fixpoint strncmp_list (n : nat) (s t : list Z) : Z :=
  match n with
  | O => 0
  | S n' =>
      let a := hd 0 s in let b := hd 0 t in
      if truth a && (a =? b) then strncmp_list n' (tl s) (tl t) else a - b
  end.
Definition namecmp (s t : list Z) : Z := strncmp_list (Z.to_nat DIRSIZ) s t.
(** [strncpy(de.name, name, DIRSIZ)] *)
Definition strncpy_list (n : nat) (s : list Z) : list Z := take n s ++ replicate (n - length s) 0.

(** The path without its first element, and the element. *)
Fixpoint skip_slashes (p : list Z) : list Z :=
  match p with c :: p' => if c =? 47 then skip_slashes p' else p | [] => [] end.
Fixpoint span_elem (p : list Z) : list Z * list Z :=
  match p with
  | c :: p' => if c =? 47 then ([], p) else let '(e, r) := span_elem p' in (c :: e, r)
  | [] => ([], [])
  end.
Definition skipelem (path : list Z) : option (list Z * list Z) :=
  let path := skip_slashes path in
  match path with
  | [] => None
  | _ =>
      let '(s, rest) := span_elem path in
      Some (take (Z.to_nat DIRSIZ) s, skip_slashes rest)
  end.

Section Driver.
Context {D : DiskDriver}.

Definition no_store : Z -> list Z -> K unit := fun _ _ => ret tt.

(** The copy loops; each iteration handles at least one byte. *)
Fixpoint readi_loop (fuel : nat) (ip : nat) (wr : Z -> list Z -> K unit) (tot off n : Z) (acc : list Z) : K (list Z) :=
  if tot <? n then
    match fuel with
    | O => nofuel
    | S f =>
        x <- get_inode ip ;;
        addr <- bmap ip (off / BSIZE) ;;
        bp <- bread (i_dev x) addr ;;
        let m := Z.min (n - tot) (BSIZE - off mod BSIZE) in
        d <- get_data bp ;;
        let bs := slice (off mod BSIZE) m d in
        wr tot bs ;;
        brelse bp ;;
        readi_loop f ip wr (tot + m) (off + m) n (acc ++ bs)
    end
  else ret acc.
Definition dev_read (x : inode) : K (option devfn) :=
  l <- gets k_devsw ;;
  if (i_major x <? 0) || (NDEV <=? i_major x) then ret None else
  d <- deref (l !! Z.to_nat (i_major x)) ;; ret (dv_read d).
Definition dev_write (x : inode) : K (option devfn) :=
  l <- gets k_devsw ;;
  if (i_major x <? 0) || (NDEV <=? i_major x) then ret None else
  d <- deref (l !! Z.to_nat (i_major x)) ;; ret (dv_write d).

Definition readi (ip : nat) (wr : Z -> list Z -> K unit) (off n : Z) : K (Z * list Z) :=
  x <- get_inode ip ;;
  if i_type x =? T_DEV then
    f <- dev_read x ;;
    match f with
    | None => ret (-1, [])
    | Some Dev_console => r <- consoleread ip wr (s32 n) ;; ret (r, [])
    end
  else
  if (i_size x <? off) || (u32 (off + n) <? off) then ret (-1, []) else
  let n := if i_size x <? off + n then i_size x - off else n in
  bs <- readi_loop (Z.to_nat n) ip wr 0 off n [] ;;
  ret (s32 n, bs).

Fixpoint writei_loop (fuel : nat) (ip : nat) (rd : Z -> Z -> K (list Z)) (tot off n : Z) : K Z :=
  if tot <? n then
    match fuel with
    | O => nofuel
    | S f =>
        x <- get_inode ip ;;
        addr <- bmap ip (off / BSIZE) ;;
        bp <- bread (i_dev x) addr ;;
        let m := Z.min (n - tot) (BSIZE - off mod BSIZE) in
        bs <- rd tot m ;;
        set_data bp (put (off mod BSIZE) bs) ;;
        log_write bp ;;
        brelse bp ;;
        writei_loop f ip rd (tot + m) (off + m) n
    end
  else ret off.
Definition writei (ip : nat) (rd : Z -> Z -> K (list Z)) (off n : Z) : K Z :=
  x <- get_inode ip ;;
  if i_type x =? T_DEV then
    f <- dev_write x ;;
    match f with
    | None => ret (-1)
    | Some Dev_console => consolewrite ip rd (s32 n)
    end
  else
  if (i_size x <? off) || (u32 (off + n) <? off) then ret (-1) else
  if MAXFILE * BSIZE <? u32 (off + n) then ret (-1) else
  off <- writei_loop (Z.to_nat n) ip rd 0 off n ;;
  x <- get_inode ip ;;
  when ((0 <? n) && (i_size x <? off)) (upd_inode ip (set_i_size off) ;; iupdate ip) ;;
  ret (s32 n).

(** Sources and destinations in the kernel. *)
Definition rd_list (l : list Z) : Z -> Z -> K (list Z) := fun off n => ret (slice off n l).

(** [readi(dp, (char * )&de, off, sizeof(de))] *)
Definition read_dirent (dp : nat) (off : Z) (msg : string) : K dirent :=
  '(r, bs) <- readi dp no_store off sizeof_dirent ;;
  if negb (r =? sizeof_dirent) then panic msg else ret (parse_dirent bs).

Fixpoint dirlookup_loop (fuel : nat) (dp : nat) (name : list Z) (off : Z) : K (option (nat * Z)) :=
  x <- get_inode dp ;;
  if off <? i_size x then
    match fuel with
    | O => nofuel
    | S f =>
        de <- read_dirent dp off "dirlookup read" ;;
        if de_inum de =? 0 then dirlookup_loop f dp name (off + sizeof_dirent)
        else if namecmp name (de_name de) =? 0 then
          ip <- iget (i_dev x) (de_inum de) ;; ret (Some (ip, off))
        else dirlookup_loop f dp name (off + sizeof_dirent)
    end
  else ret None.
(** The inode of the entry and the entry's offset ([*poff]). *)
Definition dirlookup (dp : nat) (name : list Z) : K (option (nat * Z)) :=
  x <- get_inode dp ;;
  if negb (i_type x =? T_DIR) then panic "dirlookup not DIR" else
  dirlookup_loop (Z.to_nat (i_size x / sizeof_dirent + 1)) dp name 0.

Fixpoint empty_slot (fuel : nat) (dp : nat) (off : Z) : K Z :=
  x <- get_inode dp ;;
  if off <? i_size x then
    match fuel with
    | O => nofuel
    | S f =>
        de <- read_dirent dp off "dirlink read" ;;
        if de_inum de =? 0 then ret off else empty_slot f dp (off + sizeof_dirent)
    end
  else ret off.
Definition dirlink (dp : nat) (name : list Z) (inum : Z) : K Z :=
  r <- dirlookup dp name ;;
  match r with
  | Some (ip, _) => iput ip ;; ret (-1)
  | None =>
      x <- get_inode dp ;;
      off <- empty_slot (Z.to_nat (i_size x / sizeof_dirent + 1)) dp 0 ;;
      let de := mk_dirent (u16 inum) (strncpy_list (Z.to_nat DIRSIZ) name) in
      r <- writei dp (rd_list (dirent_bytes de)) off sizeof_dirent ;;
      if negb (r =? sizeof_dirent) then panic "dirlink" else ret 0
  end.

(** [fuel] bounds the number of path elements. *)
Fixpoint namex_loop (fuel : nat) (ip : nat) (path : list Z) (parent : bool) : K (option (nat * list Z)) :=
  match skipelem path with
  | None => if parent then iput ip ;; ret None else ret (Some (ip, []))
  | Some (name, path) =>
      match fuel with
      | O => nofuel
      | S f =>
          ilock (Some ip) ;;
          x <- get_inode ip ;;
          if negb (i_type x =? T_DIR) then iunlockput ip ;; ret None
          else if parent && bool_decide (path = []) then iunlock (Some ip) ;; ret (Some (ip, name))
          else
            next <- dirlookup ip name ;;
            match next with
            | None => iunlockput ip ;; ret None
            | Some (nip, _) => iunlockput ip ;; namex_loop f nip path parent
            end
      end
  end.
Definition namex (path : list Z) (parent : bool) : K (option (nat * list Z)) :=
  ip <- (match path with
         | c :: _ => if c =? 47 then iget ROOTDEV ROOTINO
                     else op <- myproc ;; i <- deref op ;; p <- get_proc i ;; cwd <- deref (p_cwd p) ;; idup cwd
         | [] => op <- myproc ;; i <- deref op ;; p <- get_proc i ;; cwd <- deref (p_cwd p) ;; idup cwd
         end) ;;
  namex_loop (length path) ip path parent.
Definition namei (path : list Z) : K (option nat) :=
  r <- namex path false ;; ret (fst <$> r).
Definition nameiparent (path : list Z) : K (option (nat * list Z)) := namex path true.
End Driver.

(* ------------------------------------------------------------------ *)
(** ** Path elements *)

(** Reference definition: the non-empty pieces between slashes.  [cur] is the
    piece read so far, in reverse. *)
Fixpoint pieces (cur path : list Z) : list (list Z) :=
  match path with
  | [] => if bool_decide (cur = []) then [] else [reverse cur]
  | c :: p => if c =? 47 then (if bool_decide (cur = []) then [] else [reverse cur]) ++ pieces [] p
              else pieces (c :: cur) p
  end.
Definition elements (path : list Z) : list (list Z) := pieces [] path.

Lemma skip_slashes_spec p :
  elements (skip_slashes p) = elements p /\ (length (skip_slashes p) <= length p)%nat /\ hd 0 (skip_slashes p) <> 47.
Proof.
  induction p as [|c p IH]; [done|]. cbn [skip_slashes]. destruct (Z.eqb_spec c 47) as [->|Hc].
  - destruct IH as (H1 & H2 & H3). split; [exact H1|]. split; [simpl; lia|done].
  - done.
Qed.
Lemma span_elem_spec p : forall cur e r, span_elem p = (e, r) ->
  p = e ++ r /\ 47 ∉ e /\ (r = [] \/ hd 0 r = 47) /\
  pieces cur p = (if bool_decide (reverse e ++ cur = []) then [] else [reverse cur ++ e]) ++ elements r.
Proof.
  induction p as [|c p IH]; intros cur e r H; cbn [span_elem] in H.
  - inversion H; subst. split; [done|]. split; [apply not_elem_of_nil|]. split; [by left|].
    cbn [pieces]. rewrite app_nil_r. change (elements []) with (@nil (list Z)). rewrite app_nil_r. done.
  - destruct (Z.eqb_spec c 47) as [->|Hc].
    + inversion H; subst. split; [done|]. split; [apply not_elem_of_nil|]. split; [by right|].
      cbn [pieces]. rewrite Z.eqb_refl, app_nil_r. done.
    + destruct (span_elem p) as [e' r'] eqn:E. inversion H; subst.
      destruct (IH (c :: cur) e' r eq_refl) as (-> & H2 & H3 & H4).
      split; [done|]. split; [rewrite not_elem_of_cons; done|]. split; [done|].
      cbn [pieces]. destruct (Z.eqb_spec c 47); [done|]. rewrite H4, reverse_cons, (reverse_cons e' c), <- !app_assoc. done.
Qed.

(** [skipelem] splits off exactly the first element of a path: it returns 0
    iff the path has none; otherwise the name is the first element, truncated to
    [DIRSIZ], without a slash and not empty, and what remains denotes exactly the
    remaining elements, does not start with a slash and is shorter, so the loop
    of [namex] ends after at most as many rounds as the path has bytes. *)
Theorem skipelem_splits path :
  match skipelem path with
  | None => elements path = []
  | Some (name, rest) => exists e, elements path = e :: elements rest /\ name = take (Z.to_nat DIRSIZ) e /\
      e <> [] /\ (47 ∉ e) /\ hd 0 rest <> 47 /\ (length rest < length path)%nat
  end.
Proof.
  destruct (skip_slashes_spec path) as (H1 & H2 & H3). unfold skipelem. rewrite <- H1.
  destruct (skip_slashes path) as [|c p] eqn:Ep; [done|].
  destruct (span_elem (c :: p)) as [e r] eqn:E. destruct (span_elem_spec (c :: p) [] e r E) as (E1 & E2 & E3 & E4).
  destruct (skip_slashes_spec r) as (H4 & H5 & H6).
  assert (e <> []) as Hne.
  { intros ->. simpl in E1. cbn [span_elem] in E. destruct (Z.eqb_spec c 47); [done|]. destruct (span_elem p); done. }
  exists e. rewrite H4. split; [|split; [done|split; [done|split; [done|split; [done|]]]]].
  - unfold elements at 1. rewrite E4, app_nil_r, bool_decide_eq_false_2; [done|].
    intros Hr%(f_equal reverse). by rewrite reverse_involutive in Hr.
  - rewrite E1, length_app in H2. destruct e; [done|]. simpl in H2. lia.
Qed.

(* ------------------------------------------------------------------ *)
(** ** Directory entries *)

Lemma strncmp_list_spec n : forall s t,
  strncmp_list n s t = 0 <-> cstr (take n s) = cstr (take n t).
Proof.
  induction n as [|n IH]; intros s t; [done|]. cbn [strncmp_list].
  destruct s as [|a s], t as [|b t]; cbn [hd tl take cstr]; try done.
  - destruct (Z.eqb_spec b 0) as [->|Hb]; [done|]. cbn [truth negb Z.eqb andb]. split; [lia|done].
  - unfold truth. destruct (Z.eqb_spec a 0) as [->|Ha]; [done|]. cbn [negb andb].
    destruct (Z.eqb_spec a 0); [done|]. split; [lia|done].
  - unfold truth. destruct (Z.eqb_spec a 0) as [->|Ha]; cbn [negb andb].
    + destruct (Z.eqb_spec b 0) as [->|]; [done|]. split; [lia|done].
    + destruct (Z.eqb_spec a b) as [<-|Hab].
      * rewrite IH. destruct (Z.eqb_spec a 0); [done|]. split; [by intros ->|by intros [=]].
      * destruct (Z.eqb_spec b 0); split; try lia; by intros [=].
Qed.

Lemma not_elem_of_take {A} (x : A) n l : x ∉ l -> x ∉ take n l.
Proof. intros H Hin. apply H. rewrite <- (take_drop n l). apply elem_of_app. by left. Qed.
Lemma cstr_nonzero l r : 0 ∉ l -> cstr (l ++ r) = l ++ cstr r.
Proof.
  induction l as [|c l IH]; intros H; [done|]. apply not_elem_of_cons in H as [Hc Hl]. cbn [cstr app].
  destruct (Z.eqb_spec c 0); [done|]. by rewrite IH.
Qed.
Lemma cstr_zeros n : cstr (replicate n 0) = [].
Proof. by destruct n. Qed.
Lemma cstr_padded n s : 0 ∉ s -> cstr (take n (strncpy_list n s)) = take n s.
Proof.
  intros H. unfold strncpy_list. rewrite take_ge by (rewrite length_app, length_take, length_replicate; lia).
  rewrite cstr_nonzero, cstr_zeros, app_nil_r; [done|]. by apply not_elem_of_take.
Qed.

(** a directory entry written by [dirlink] reads back as the same entry, and
    [namecmp] then matches it with exactly the names that agree with it in their
    first [DIRSIZ] characters. *)
Theorem dirent_roundtrip inum name name' :
  0 <= inum < 2 ^ 16 -> (0 ∉ name) -> (0 ∉ name') ->
  let de := parse_dirent (dirent_bytes (mk_dirent (u16 inum) (strncpy_list (Z.to_nat DIRSIZ) name))) in
  length (dirent_bytes (mk_dirent (u16 inum) (strncpy_list (Z.to_nat DIRSIZ) name))) = Z.to_nat sizeof_dirent /\
  de = mk_dirent inum (strncpy_list (Z.to_nat DIRSIZ) name) /\
  (namecmp name' (de_name de) = 0 <-> take (Z.to_nat DIRSIZ) name' = take (Z.to_nat DIRSIZ) name).
Proof.
  intros Hi Hn Hn' de. set (nm := strncpy_list (Z.to_nat DIRSIZ) name) in *.
  assert (length nm = Z.to_nat DIRSIZ) as Hl
    by (unfold nm, strncpy_list; rewrite length_app, length_take, length_replicate; lia).
  assert (u16 inum = inum) as Eu by (by apply Z.mod_small).
  assert (de = mk_dirent inum nm) as Ed.
  { unfold de, parse_dirent, dirent_bytes. cbn [de_inum de_name]. f_equal.
    - rewrite Eu. etransitivity; [exact (le_value_bytes 2 inum)|]. by apply Z.mod_small.
    - change (slice 2 DIRSIZ (le_bytes 2 (u16 inum) ++ nm)) with
        (slice (Z.of_nat (length (le_bytes 2 (u16 inum))) + 0) DIRSIZ (le_bytes 2 (u16 inum) ++ nm)).
      rewrite slice_app by lia. unfold slice. rewrite drop_0. apply take_ge. lia. }
  split; [|split; [done|]].
  - unfold dirent_bytes. rewrite length_app, length_le_bytes. cbn [de_name]. by rewrite Hl.
  - rewrite Ed. cbn [de_name]. unfold namecmp. rewrite strncmp_list_spec. unfold nm. rewrite cstr_padded by done.
    assert (cstr (take (Z.to_nat DIRSIZ) name') = take (Z.to_nat DIRSIZ) name') as ->; [|done].
    rewrite <- (app_nil_r (take _ name')) at 1. rewrite cstr_nonzero by (by apply not_elem_of_take). by rewrite app_nil_r.
Qed.
Lemma dirent_roundtrip_witness :
  de_inum (parse_dirent (dirent_bytes (mk_dirent (u16 5) (strncpy_list (Z.to_nat DIRSIZ) [65; 66])))) = 5.
Proof.
  destruct (dirent_roundtrip 5 [65; 66] [65]) as (_ & -> & _); [lia| | |reflexivity].
  - intros H. rewrite !elem_of_cons, elem_of_nil in H. lia.
  - intros H. rewrite !elem_of_cons, elem_of_nil in H. lia.
Defined.
