(* ===== verification/Mkfs.v ===== *)
(** * The file-system builder

    [HW2/src/mkfs.c], which runs on the host and writes the image that the kernel
    mounts.  The image file is a list of sectors; a read past its end, an [assert]
    that fails and a file that cannot be opened end the program ([Panic]).  The host
    is little-endian, as the kernel is. *)

From S2P Require Import Prelude Mmu Bytes Mem State Inode Fs.

Module Mkfs.

Definition NINODES : Z := 200.
Definition nbitmap : Z := FSSIZE / (BSIZE * 8) + 1.
Definition ninodeblocks : Z := NINODES / IPB + 1.
Definition nlog : Z := LOGSIZE.
Definition nmeta : Z := 2 + nlog + ninodeblocks + nbitmap.
Definition nblocks : Z := FSSIZE - nmeta.
Definition zeroes : list Z := replicate (Z.to_nat BSIZE) 0.

Record builder := mk_builder { b_img : list (list Z); b_sb : superblock; b_freeinode : Z; b_freeblock : Z }.
Definition set_img (im : list (list Z)) (s : builder) : builder := mk_builder im (b_sb s) (b_freeinode s) (b_freeblock s).
Definition F (A : Type) : Type := M builder A.

(** [xshort] and [xint]: the bytes of the result in memory, read back by the host. *)
Definition xshort (x : Z) : Z := le_value [u8 x; u8 (Z.shiftr x 8)].
Definition xint (x : Z) : Z := le_value [u8 x; u8 (Z.shiftr x 8); u8 (Z.shiftr x 16); u8 (Z.shiftr x 24)].

(** A write behind the end leaves a hole, which reads as zeroes. *)
Definition store_sector (k : nat) (buf : list Z) (im : list (list Z)) : list (list Z) :=
  if decide (k < length im)%nat then <[k := buf]> im else im ++ replicate (k - length im) zeroes ++ [buf].
Definition place (sec : Z) : nat := Z.to_nat (u32 (sec * BSIZE) / BSIZE).
Definition wsect (sec : Z) (buf : list Z) : F unit :=
  modify (fun s => set_img (store_sector (place sec) buf (b_img s)) s).
Definition rsect (sec : Z) : F (list Z) := fun s =>
  match b_img s !! place sec with Some d => Ret d s | None => Panic "read" end.

Definition winode (inum : Z) (ip : dinode) : F unit :=
  sb <- gets b_sb ;;
  let bn := IBLOCK inum sb in
  buf <- rsect bn ;;
  wsect bn (put_dinode (dinode_off inum) ip buf).
Definition rinode (inum : Z) : F dinode :=
  sb <- gets b_sb ;;
  buf <- rsect (IBLOCK inum sb) ;;
  ret (get_dinode (dinode_off inum) buf).

Definition ialloc (type : Z) : F Z :=
  inum <- gets b_freeinode ;;
  modify (fun s => mk_builder (b_img s) (b_sb s) (u32 (b_freeinode s + 1)) (b_freeblock s)) ;;
  winode inum (mk_dinode (s16 (xshort type)) 0 0 (s16 (xshort 1)) (xint 0) (replicate (Z.to_nat NDIRECT + 1) 0)) ;;
  ret inum.

Definition balloc (used : Z) : F unit :=
  if used <? BSIZE * 8 then
    sb <- gets b_sb ;;
    wsect (sb_bmapstart sb) (foldl (fun buf i => set_bit i buf) zeroes (seqZ 0 used))
  else panic "assert".

(** [freeblock++] *)
Definition next_block : F Z :=
  b <- gets b_freeblock ;;
  modify (fun s => mk_builder (b_img s) (b_sb s) (b_freeinode s) (u32 (b + 1))) ;;
  ret (xint b).
Definition addr (din : dinode) (k : Z) : Z := nth (Z.to_nat k) (di_addrs din) 0.
Definition set_addr (din : dinode) (k v : Z) : dinode :=
  mk_dinode (di_type din) (di_major din) (di_minor din) (di_nlink din) (di_size din) (<[Z.to_nat k := v]> (di_addrs din)).
Definition set_size (din : dinode) (v : Z) : dinode :=
  mk_dinode (di_type din) (di_major din) (di_minor din) (di_nlink din) v (di_addrs din).

(** An address in the inode, allocated if it is 0. *)
Definition own_addr (din : dinode) (k : Z) : F dinode :=
  if xint (addr din k) =? 0 then b <- next_block ;; ret (set_addr din k b) else ret din.
(** The block in entry [fbn - NDIRECT] of the indirect block, allocated if it is 0. *)
Definition own_entry (din : dinode) (fbn : Z) : F Z :=
  indirect <- rsect (xint (addr din NDIRECT)) ;;
  let off := 4 * (fbn - NDIRECT) in
  indirect <- (if get32 off indirect =? 0 then
                 b <- next_block ;;
                 wsect (xint (addr din NDIRECT)) (put32 off b indirect) ;;
                 ret (put32 off b indirect)
               else ret indirect) ;;
  ret (xint (get32 off indirect)).
(** The block of the file's block [fbn]. *)
Definition iappend_block (din : dinode) (fbn : Z) : F (dinode * Z) :=
  if fbn <? NDIRECT then
    din <- own_addr din fbn ;;
    ret (din, xint (addr din fbn))
  else
    din <- own_addr din NDIRECT ;;
    x <- own_entry din fbn ;;
    ret (din, x).

Fixpoint iappend_loop (fuel : nat) (din : dinode) (off : Z) (p : list Z) : F (dinode * Z) :=
  match p with
  | [] => ret (din, off)
  | _ :: _ =>
      match fuel with
      | O => nofuel
      | S f =>
          let fbn := off / BSIZE in
          if fbn <? MAXFILE then
            '(din, x) <- iappend_block din fbn ;;
            let n1 := Z.to_nat (Z.min (Z.of_nat (length p)) (u32 ((fbn + 1) * BSIZE - off))) in
            buf <- rsect x ;;
            wsect x (put (off - fbn * BSIZE) (take n1 p) buf) ;;
            iappend_loop f din (u32 (off + Z.of_nat n1)) (drop n1 p)
          else panic "assert"
      end
  end.
Definition iappend (inum : Z) (p : list Z) : F unit :=
  din <- rinode inum ;;
  '(din, off) <- iappend_loop (length p) din (xint (di_size din)) p ;;
  winode inum (set_size din (xint off)).

(** What the host has: which image files can be created, and for each file that can
    be opened the blocks that [read] returns. *)
Record host := mk_host { creates : list Z -> bool; reads : list Z -> option (list (list Z)) }.

Definition entry (inum : Z) (name : list Z) : list Z := dirent_bytes (mk_dirent (xshort inum) (strncpy_list (Z.to_nat DIRSIZ) name)).
Definition skip_underscore (name : list Z) : list Z :=
  match name with c :: name' => if c =? 95 then name' else name | [] => [] end.
Definition add_file (h : host) (rootino : Z) (name : list Z) : F unit :=
  if bool_decide (47 ∈ name) then panic "assert" else
  match reads h name with
  | None => panic "open"
  | Some blocks =>
      inum <- ialloc T_FILE ;;
      iappend rootino (entry inum (skip_underscore name)) ;;
      iter_list blocks (iappend inum)
  end.
(** The empty image and its superblock. *)
Definition format : F unit :=
  modify (fun s => mk_builder [] (mk_superblock (xint FSSIZE) (xint nblocks) (xint NINODES) (xint nlog) (xint 2)
    (xint (2 + nlog)) (xint (2 + nlog + ninodeblocks))) (b_freeinode s) nmeta) ;;
  iter_list (seqZ 0 FSSIZE) (fun i => wsect i zeroes) ;;
  sb <- gets b_sb ;;
  wsect 1 (put 0 (words [sb_size sb; sb_nblocks sb; sb_ninodes sb; sb_nlog sb; sb_logstart sb; sb_inodestart sb;
    sb_bmapstart sb]) zeroes).
(** The size of the root directory, and the bitmap. *)
Definition finish (rootino : Z) : F unit :=
  din <- rinode rootino ;;
  let off := xint (di_size din) in
  winode rootino (set_size din (xint (u32 ((off / BSIZE + 1) * BSIZE)))) ;;
  used <- gets b_freeblock ;;
  balloc used.
Definition main (h : host) (args : list (list Z)) : F unit :=
  match args with
  | [] => panic "Usage: mkfs fs.img files..."
  | image :: names =>
      if creates h image then
        format ;;
        rootino <- ialloc T_DIR ;;
        if rootino =? ROOTINO then
          iappend rootino (entry rootino (bytes ".")) ;;
          iappend rootino (entry rootino (bytes "..")) ;;
          iter_list names (add_file h rootino) ;;
          finish rootino
        else panic "assert"
      else panic "open"
  end.
(** [freeinode] is 1 at the start. *)
Definition builder0 : builder := mk_builder [] (mk_superblock 0 0 0 0 0 0 0) 1 0.

End Mkfs.
