(* ===== verification/MkfsSpec.v ===== *)
(** * The file-system builder: the image that it writes

    The promises of [Mkfs.v]: the image holds the files that were given, each readable
    through its inode the way the kernel reads it, no two of them sharing a block, and
    the bitmap marks exactly the blocks in use.  Every allocated block carries a label
    that says which inode owns it and why; the labels keep the files apart. *)

From S2P Require Import Prelude Mmu Bytes Mem State Log Inode Fs Mkfs.

Module MkfsSpec.
Import Mkfs.

(** ** Sectors *)
Definition sector (im : list (list Z)) (b : Z) : list Z := nth (Z.to_nat b) im [].
Definition upd (im : list (list Z)) (b : Z) (d : list Z) : list (list Z) := <[Z.to_nat b := d]> im.
Record shape (im : list (list Z)) : Prop := mk_shape {
  sh_len : length im = Z.to_nat FSSIZE;
  sh_sec : forall b, 0 <= b < FSSIZE -> length (sector im b) = Z.to_nat BSIZE }.

Lemma place_small b : 0 <= b < FSSIZE -> place b = Z.to_nat b.
Proof. intros H. unfold place, BSIZE. rewrite u32_small by (unfold FSSIZE in *; lia). f_equal. by rewrite Z.div_mul. Qed.
Lemma xint_id x : 0 <= x < 2 ^ 32 -> xint x = x.
Proof.
  intros H. unfold xint, u8. cbn [le_value]. rewrite !Z.shiftr_div_pow2 by lia. change (2 ^ 8) with 256.
  change (2 ^ 16) with 65536. change (2 ^ 24) with 16777216. dlia.
Qed.
Lemma xshort_id x : 0 <= x < 2 ^ 16 -> xshort x = x.
Proof. intros H. unfold xshort, u8. cbn [le_value]. rewrite !Z.shiftr_div_pow2 by lia. change (2 ^ 8) with 256. dlia. Qed.

Lemma sector_upd im b c d : shape im -> 0 <= b < FSSIZE -> 0 <= c ->
  sector (upd im b d) c = if decide (c = b) then d else sector im c.
Proof.
  intros H Hb Hc. unfold sector, upd. rewrite !nth_lookup. pose proof (sh_len _ H) as L.
  assert (Z.to_nat b < Z.to_nat FSSIZE)%nat as Hl by (apply Z2Nat.inj_lt; lia).
  destruct (decide (c = b)) as [->|Hn].
  - rewrite list_lookup_insert_eq by lia. done.
  - rewrite list_lookup_insert_ne by lia. done.
Qed.
Lemma shape_upd im b d : shape im -> 0 <= b < FSSIZE -> length d = Z.to_nat BSIZE -> shape (upd im b d).
Proof.
  intros H Hb Hd. split; [unfold upd; rewrite length_insert; apply H|].
  intros c Hc. rewrite sector_upd by (done || lia). destruct (decide (c = b)); [done|by apply H].
Qed.
Lemma rsect_run s b : shape (b_img s) -> 0 <= b < FSSIZE -> rsect b s = Ret (sector (b_img s) b) s.
Proof.
  intros H Hb. unfold rsect. rewrite place_small by done. unfold sector. rewrite nth_lookup.
  destruct (b_img s !! Z.to_nat b) as [d|] eqn:E; [done|]. apply lookup_ge_None in E. rewrite (sh_len _ H) in E.
  exfalso. unfold FSSIZE in *. lia.
Qed.
Lemma wsect_run s b d : shape (b_img s) -> 0 <= b < FSSIZE ->
  wsect b d s = Ret tt (set_img (upd (b_img s) b d) s).
Proof.
  intros H Hb. unfold wsect, modify. rewrite place_small by done. unfold store_sector, upd.
  rewrite decide_True; [done|]. rewrite (sh_len _ H). unfold FSSIZE in *. lia.
Qed.

(** ** Files in an image *)
(** The block that holds block [k] of a file, as [bmap] of the kernel finds it. *)
Definition block_of (im : list (list Z)) (din : dinode) (k : Z) : Z :=
  if k <? NDIRECT then addr din k else get32 (4 * (k - NDIRECT)) (sector im (addr din NDIRECT)).
Definition byte_at (im : list (list Z)) (din : dinode) (o : Z) : Z :=
  nth (Z.to_nat (o mod BSIZE)) (sector im (block_of im din (o / BSIZE))) 0.
Definition contents (im : list (list Z)) (din : dinode) : list Z := byte_at im din <$> seqZ 0 (di_size din).

(** Why a block is in use. *)
Inductive label := Data (inum k : Z) | Indirect (inum : Z).
#[export] Instance label_eq : EqDecision label.
Proof. solve_decision. Defined.
Definition owner (x : label) : Z := match x with Data i _ | Indirect i => i end.

(** The inode [din] of file [inum] has [nb] blocks and holds the bytes [F]. *)
Record stored (im : list (list Z)) (own : Z -> label) (fb inum : Z) (din : dinode) (nb : Z) (F : list Z) : Prop := mk_stored {
  st_din : dinode_ok din;
  st_nb : 0 <= nb <= MAXFILE;
  st_used : forall k, 0 <= k < nb -> nmeta <= block_of im din k < fb /\ own (block_of im din k) = Data inum k;
  st_free : forall k, nb <= k < MAXFILE -> block_of im din k = 0;
  st_ind : addr din NDIRECT = 0 /\ nb <= NDIRECT \/
    nmeta <= addr din NDIRECT < fb /\ own (addr din NDIRECT) = Indirect inum;
  st_bytes : forall o, 0 <= o < MAXFILE * BSIZE -> byte_at im din o = nth (Z.to_nat o) F 0 }.

(** The rest of the image: block 0 and the blocks not yet allocated are zero. *)
Record image_ok (im : list (list Z)) (fb : Z) : Prop := mk_image_ok {
  io_shape : shape im;
  io_fb : nmeta <= fb <= FSSIZE;
  io_zero : forall b, b = 0 \/ fb <= b < FSSIZE -> sector im b = zeroes }.

(** A file depends on its own blocks only. *)
Lemma stored_frame im im' own own' fb fb' inum din nb F :
  stored im own fb inum din nb F -> fb <= fb' -> sector im' 0 = sector im 0 ->
  (forall b, nmeta <= b < fb -> own' b = own b) ->
  (forall b, nmeta <= b < fb -> owner (own b) = inum -> sector im' b = sector im b) ->
  stored im' own' fb' inum din nb F.
Proof.
  intros [H1 H2 H3 H4 H5 H7] Hfb H0 Hown Hsec.
  assert (sector im' (addr din NDIRECT) = sector im (addr din NDIRECT)) as Ei.
  { destruct H5 as [[-> _]|[Hr Ho]]; [done|]. apply Hsec; [done|]. by rewrite Ho. }
  assert (forall k, block_of im' din k = block_of im din k) as Eb by (intros k; unfold block_of; by rewrite Ei).
  split; try done.
  - intros k Hk. rewrite Eb. destruct (H3 k Hk) as [Hr Ho]. split; [lia|]. by rewrite Hown.
  - intros k Hk. rewrite Eb. by apply H4.
  - destruct H5 as [H5|[Hr Ho]]; [by left|right]. split; [lia|]. by rewrite Hown.
  - intros o Ho. rewrite <- H7 by done. unfold byte_at. rewrite Eb. f_equal.
    assert (0 <= o / BSIZE < MAXFILE) as Hk by (unfold MAXFILE, NDIRECT, NINDIRECT, BSIZE in *; dlia).
    destruct (decide (o / BSIZE < nb)).
    + destruct (H3 (o / BSIZE) ltac:(lia)) as [Hr Hl]. apply Hsec; [done|]. by rewrite Hl.
    + by rewrite H4 by lia.
Qed.

(** ** Allocation *)
Definition give (own : Z -> label) (b : Z) (x : label) : Z -> label := fun c => if decide (c = b) then x else own c.
Lemma image_ok_next im fb : image_ok im fb -> fb < FSSIZE -> image_ok im (fb + 1).
Proof. intros [H1 H2 H3] H. split; [done|lia|]. intros b Hb. apply H3. lia. Qed.
Lemma image_ok_upd im fb b d : image_ok im fb -> nmeta <= b < fb -> length d = Z.to_nat BSIZE -> image_ok (upd im b d) fb.
Proof.
  intros [H1 H2 H3] Hb Hd. assert (0 < nmeta) by done. split; [apply shape_upd; done || lia|done|].
  intros c Hc. rewrite sector_upd by (done || lia). rewrite decide_False by lia. by apply H3.
Qed.
Lemma addr_set din j v k : dinode_ok din -> 0 <= j <= NDIRECT -> 0 <= k ->
  addr (set_addr din j v) k = if decide (k = j) then v else addr din k.
Proof.
  intros H Hj Hk. unfold addr, set_addr. cbn [di_addrs]. rewrite !nth_lookup.
  pose proof (dk_naddrs _ H) as L. unfold NDIRECT in *. change (Z.to_nat 12 + 1)%nat with 13%nat in L.
  destruct (decide (k = j)) as [->|]; [by rewrite list_lookup_insert_eq by lia|]. by rewrite list_lookup_insert_ne by lia.
Qed.
Lemma dinode_ok_addr din j v : dinode_ok din -> 0 <= v < 2 ^ 32 -> dinode_ok (set_addr din j v).
Proof.
  intros [] Hv. split; try done; cbn [di_addrs set_addr]; [by rewrite length_insert|]. by apply Forall_insert.
Qed.
Lemma zero_word k : get32 k zeroes = 0.
Proof.
  unfold get32, slice, zeroes. rewrite drop_replicate, take_replicate. generalize ((Z.to_nat 4 `min` (Z.to_nat BSIZE - Z.to_nat k))%nat).
  induction n as [|n IH]; [done|]. cbn [replicate le_value]. lia.
Qed.
Lemma zero_byte k : nth k zeroes 0 = 0.
Proof. rewrite nth_lookup. destruct (zeroes !! k) eqn:E; [|done]. by apply lookup_replicate in E as [-> _]. Qed.

(** A file with its bytes unchanged but another set of blocks. *)
Section Alloc.
Context (im : list (list Z)) (own : Z -> label) (fb inum : Z) (din : dinode) (nb : Z) (F : list Z).
Hypothesis Hi : image_ok im fb.
Hypothesis Hs : stored im own fb inum din nb F.
Hypothesis Hfb : fb < FSSIZE.

Lemma give_old x b : nmeta <= b < fb -> give own fb x b = own b.
Proof. intros H. unfold give. rewrite decide_False by lia. done. Qed.

(** Bytes behind the last block are zero. *)
Lemma bytes_behind o : nb <= o / BSIZE -> 0 <= o < MAXFILE * BSIZE -> nth (Z.to_nat o) F 0 = 0.
Proof.
  intros Hk Ho. rewrite <- (st_bytes _ _ _ _ _ _ _ Hs o Ho). unfold byte_at.
  rewrite (st_free _ _ _ _ _ _ _ Hs) by (unfold MAXFILE, NDIRECT, NINDIRECT, BSIZE in *; dlia).
  rewrite (io_zero _ _ Hi) by lia. apply zero_byte.
Qed.

(** The bytes of a file that gained block [fb] at position [nb]. *)
Lemma bytes_gain im' din' : (forall k, 0 <= k < MAXFILE -> block_of im' din' k = if decide (k = nb) then fb else block_of im din k) ->
  sector im' fb = zeroes -> sector im' 0 = zeroes ->
  (forall k, 0 <= k < nb -> sector im' (block_of im din k) = sector im (block_of im din k)) ->
  forall o, 0 <= o < MAXFILE * BSIZE -> byte_at im' din' o = nth (Z.to_nat o) F 0.
Proof.
  intros Hb Hz H0 Hk o Ho. assert (0 <= o / BSIZE < MAXFILE) as Hr by (unfold MAXFILE, NDIRECT, NINDIRECT, BSIZE in *; dlia).
  unfold byte_at. rewrite Hb by done. destruct (decide (o / BSIZE = nb)) as [E|].
  - rewrite Hz, zero_byte. symmetry. apply bytes_behind; lia.
  - destruct (decide (o / BSIZE < nb)).
    + rewrite Hk by lia. by apply (st_bytes _ _ _ _ _ _ _ Hs).
    + rewrite (st_free _ _ _ _ _ _ _ Hs) by lia. rewrite H0, zero_byte. symmetry. apply bytes_behind; lia.
Qed.

Lemma alloc_direct : nb < NDIRECT -> stored im (give own fb (Data inum nb)) (fb + 1) inum (set_addr din nb fb) (nb + 1) F.
Proof.
  intros Hn. pose proof Hs as [H1 H2 H3 H4 H5 H7]. pose proof (io_fb _ _ Hi) as Hf.
  assert (0 < nmeta) as Hm by done. assert (NDIRECT < MAXFILE) as Hx by done.
  assert (forall k, 0 <= k < MAXFILE -> block_of im (set_addr din nb fb) k = if decide (k = nb) then fb else block_of im din k) as Eb.
  { intros k Hk. unfold block_of. rewrite !addr_set by (done || lia). rewrite (decide_False (P := NDIRECT = nb)) by lia.
    destruct (Z.ltb_spec k NDIRECT); [done|]. by rewrite decide_False by lia. }
  split; try lia.
  - apply dinode_ok_addr; [done|]. unfold FSSIZE in *. lia.
  - intros k Hk. rewrite Eb by lia. destruct (decide (k = nb)) as [->|].
    + split; [lia|]. unfold give. by rewrite decide_True.
    + destruct (H3 k ltac:(lia)) as [Hr Ho]. split; [lia|]. by rewrite give_old.
  - intros k Hk. rewrite Eb, decide_False by lia. apply H4. lia.
  - rewrite addr_set, decide_False by (done || lia). destruct H5 as [H5|[Hr Ho]]; [left; lia|right].
    split; [lia|]. by rewrite give_old.
  - apply bytes_gain; [done|apply (io_zero _ _ Hi); lia..|done].
Qed.

Lemma alloc_indirect : addr din NDIRECT = 0 -> stored im (give own fb (Indirect inum)) (fb + 1) inum (set_addr din NDIRECT fb) nb F.
Proof.
  intros Ha. pose proof Hs as [H1 H2 H3 H4 H5 H7]. pose proof (io_fb _ _ Hi) as Hf.
  assert (0 < nmeta) as Hm by done. assert (NDIRECT < MAXFILE) as Hx by done.
  assert (forall k, 0 <= k < MAXFILE -> block_of im (set_addr din NDIRECT fb) k = block_of im din k) as Eb.
  { intros k Hk. unfold block_of. rewrite !addr_set by (done || lia). rewrite (decide_True (P := NDIRECT = NDIRECT)) by done.
    destruct (Z.ltb_spec k NDIRECT); [by rewrite decide_False by lia|]. rewrite Ha, !(io_zero _ _ Hi) by lia. done. }
  split; try done.
  - apply dinode_ok_addr; [done|]. unfold FSSIZE in *. lia.
  - intros k Hk. rewrite Eb by lia. destruct (H3 k ltac:(lia)) as [Hr Ho]. split; [lia|]. by rewrite give_old.
  - intros k Hk. rewrite Eb by lia. by apply H4.
  - rewrite addr_set, decide_True by (done || lia). right. split; [lia|]. unfold give. by rewrite decide_True.
  - intros o Ho. rewrite <- H7 by done. unfold byte_at. rewrite Eb; [done|]. unfold MAXFILE, NDIRECT, NINDIRECT, BSIZE in *. dlia.
Qed.

Lemma alloc_entry a : addr din NDIRECT = a -> nmeta <= a < fb -> NDIRECT <= nb < MAXFILE ->
  stored (upd im a (put32 (4 * (nb - NDIRECT)) fb (sector im a))) (give own fb (Data inum nb)) (fb + 1) inum din (nb + 1) F.
Proof.
  intros Ha Hr Hn. pose proof Hs as [H1 H2 H3 H4 H5 H7]. pose proof (io_fb _ _ Hi) as Hf. pose proof (io_shape _ _ Hi) as Hsh.
  assert (0 < nmeta) as Hm by done.
  set (im' := upd im a (put32 (4 * (nb - NDIRECT)) fb (sector im a))).
  pose proof (sh_sec _ Hsh a ltac:(lia)) as Hl.
  assert (forall b, 0 <= b -> b <> a -> sector im' b = sector im b) as Eo
    by (intros b Hb Hne; unfold im'; rewrite sector_upd, decide_False by (done || lia); done).
  assert (forall k, 0 <= k < MAXFILE -> block_of im' din k = if decide (k = nb) then fb else block_of im din k) as Eb.
  { intros k Hk. unfold block_of. rewrite Ha. unfold im'. rewrite sector_upd, decide_True by (done || lia).
    destruct (Z.ltb_spec k NDIRECT); [by rewrite decide_False by lia|].
    unfold MAXFILE, NDIRECT, NINDIRECT, BSIZE, FSSIZE in *. change (512 / 4) with 128 in *. destruct (decide (k = nb)) as [->|].
    - rewrite get32_put32_same by lia. apply u32_small. lia.
    - rewrite get32_put32_other by lia. done. }
  assert (own a = Indirect inum) as Hoa by (destruct H5 as [[H5 _]|[_ H5]]; [lia|by rewrite <- Ha]).
  assert (forall k, 0 <= k < nb -> block_of im din k <> a) as Hna.
  { intros k Hk E. destruct (H3 k Hk) as [_ Ho]. rewrite E, Hoa in Ho. done. }
  split; try lia; try done.
  - intros k Hk. rewrite Eb by lia. destruct (decide (k = nb)) as [->|].
    + split; [lia|]. unfold give. by rewrite decide_True.
    + destruct (H3 k ltac:(lia)) as [Hr' Ho]. split; [lia|]. by rewrite give_old.
  - intros k Hk. rewrite Eb, decide_False by lia. apply H4. lia.
  - rewrite Ha. right. split; [lia|]. by rewrite give_old.
  - apply bytes_gain; [done|rewrite Eo by lia; apply (io_zero _ _ Hi); lia..|].
    intros k Hk. destruct (H3 k Hk) as [Hr' _]. apply Eo; [lia|]. by apply Hna.
Qed.
End Alloc.

(** Blocks of a file with [nb] data blocks. *)
Definition cost (nb : Z) : Z := nb + if NDIRECT <? nb then 1 else 0.
Definition tight (din : dinode) (nb : Z) : Prop := nb <= NDIRECT -> addr din NDIRECT = 0.
Record same_kind (d d' : dinode) : Prop := mk_same_kind {
  sk_type : di_type d' = di_type d; sk_major : di_major d' = di_major d; sk_minor : di_minor d' = di_minor d;
  sk_nlink : di_nlink d' = di_nlink d; sk_size : di_size d' = di_size d }.
(** From one point of [iappend] to a later one: the file has got the bytes [F'], its
    blocks were taken from the free ones, and nothing else has changed. *)
Record extends (inum : Z) (s : builder) (own : Z -> label) (din : dinode)
    (s' : builder) (own' : Z -> label) (din' : dinode) (nb' : Z) (F' : list Z) : Prop := mk_extends {
  ex_img : image_ok (b_img s') (b_freeblock s');
  ex_st : stored (b_img s') own' (b_freeblock s') inum din' nb' F';
  ex_le : b_freeblock s <= b_freeblock s';
  ex_own : forall b, nmeta <= b < b_freeblock s -> own' b = own b;
  ex_sec : forall b, 0 <= b < nmeta \/ nmeta <= b < b_freeblock s /\ owner (own b) <> inum ->
    sector (b_img s') b = sector (b_img s) b;
  ex_kind : same_kind din din';
  ex_sb : b_sb s' = b_sb s;
  ex_fi : b_freeinode s' = b_freeinode s }.
Lemma same_kind_refl d : same_kind d d.
Proof. by split. Qed.
Lemma same_kind_trans d1 d2 d3 : same_kind d1 d2 -> same_kind d2 d3 -> same_kind d1 d3.
Proof. intros [] []. split; congruence. Qed.
Lemma extends_refl inum s own din nb F : image_ok (b_img s) (b_freeblock s) ->
  stored (b_img s) own (b_freeblock s) inum din nb F -> extends inum s own din s own din nb F.
Proof. intros Hi Hs. split; try done; lia. Qed.
Lemma extends_trans inum s1 o1 d1 s2 o2 d2 n2 F2 s3 o3 d3 n3 F3 :
  extends inum s1 o1 d1 s2 o2 d2 n2 F2 -> extends inum s2 o2 d2 s3 o3 d3 n3 F3 ->
  extends inum s1 o1 d1 s3 o3 d3 n3 F3.
Proof.
  intros H1 H2. pose proof (ex_le _ _ _ _ _ _ _ _ _ H1) as L1. pose proof (ex_le _ _ _ _ _ _ _ _ _ H2) as L2.
  pose proof (ex_own _ _ _ _ _ _ _ _ _ H1) as O1. split; try apply H2.
  - lia.
  - intros b Hb. rewrite (ex_own _ _ _ _ _ _ _ _ _ H2) by lia. by apply O1.
  - intros b Hb. rewrite (ex_sec _ _ _ _ _ _ _ _ _ H2).
    + by apply (ex_sec _ _ _ _ _ _ _ _ _ H1).
    + destruct Hb as [Hb|[Hb Ho]]; [by left|right]. split; [lia|]. by rewrite O1.
  - eapply same_kind_trans; [apply H1|apply H2].
  - etrans; [apply H2|apply H1].
  - etrans; [apply H2|apply H1].
Qed.

Definition bump (s : builder) : builder := mk_builder (b_img s) (b_sb s) (b_freeinode s) (b_freeblock s + 1).
Lemma next_block_run s : 0 <= b_freeblock s < FSSIZE -> next_block s = Ret (b_freeblock s) (bump s).
Proof. intros H. unfold next_block, bind, gets, modify. cbn [obind]. unfold ret, FSSIZE in *. rewrite xint_id, u32_small by lia. done. Qed.
Lemma addr_range din k : dinode_ok din -> 0 <= addr din k < 2 ^ 32.
Proof.
  intros H. unfold addr. rewrite nth_lookup. destruct (di_addrs din !! Z.to_nat k) as [a|] eqn:E; [|done].
  by apply (Forall_lookup_1 _ _ _ _ (dk_addrs _ H) E).
Qed.
Lemma own_addr_run s din k : dinode_ok din -> 0 <= b_freeblock s < FSSIZE \/ addr din k <> 0 ->
  own_addr din k s = if decide (addr din k = 0) then Ret (set_addr din k (b_freeblock s)) (bump s) else Ret din s.
Proof.
  intros H Hf. unfold own_addr. rewrite xint_id by by apply addr_range.
  destruct (Z.eqb_spec (addr din k) 0) as [E|E]; [|by rewrite decide_False]. rewrite decide_True by done.
  rewrite (bind_Ret _ _ _ _ _ (next_block_run s ltac:(destruct Hf; done))). done.
Qed.

(** Taking the next free block. *)
Lemma extends_bump inum s own x din din' nb' F : image_ok (b_img s) (b_freeblock s) -> b_freeblock s < FSSIZE ->
  stored (b_img s) (give own (b_freeblock s) x) (b_freeblock s + 1) inum din' nb' F -> same_kind din din' ->
  extends inum s own din (bump s) (give own (b_freeblock s) x) din' nb' F.
Proof.
  intros Hi Hf Hs Hk. split; cbn [bump b_img b_freeblock b_sb b_freeinode]; try done.
  - by apply image_ok_next.
  - lia.
  - intros b Hb. by apply give_old.
Qed.
Lemma cost_S nb : cost (nb + 1) = if decide (nb = NDIRECT) then cost nb + 2 else cost nb + 1.
Proof. unfold cost. destruct (Z.ltb_spec NDIRECT (nb + 1)), (Z.ltb_spec NDIRECT nb), (decide (nb = NDIRECT)); lia. Qed.

Section Block.
Context (inum : Z) (s : builder) (own : Z -> label) (din : dinode) (nb : Z) (F : list Z).
Hypothesis Hi : image_ok (b_img s) (b_freeblock s).
Hypothesis Hs : stored (b_img s) own (b_freeblock s) inum din nb F.

Lemma direct_run k : 0 <= k <= nb -> k < NDIRECT -> b_freeblock s + Z.max nb (k + 1) - nb <= FSSIZE ->
  exists s' own' din', iappend_block din k s = Ret (din', block_of (b_img s') din' k) s' /\
    extends inum s own din s' own' din' (Z.max nb (k + 1)) F /\
    b_freeblock s' = b_freeblock s + Z.max nb (k + 1) - nb /\ addr din' NDIRECT = addr din NDIRECT.
Proof.
  intros Hk Hd Hc. pose proof (io_fb _ _ Hi) as Hf. pose proof (st_din _ _ _ _ _ _ _ Hs) as Hok.
  assert (0 < nmeta) as Hm by done. assert (NDIRECT < MAXFILE) as Hx by done.
  unfold iappend_block. destruct (Z.ltb_spec k NDIRECT); [|lia].
  assert (forall im d, block_of im d k = addr d k) as Eb by (intros; unfold block_of; destruct (Z.ltb_spec k NDIRECT); done || lia).
  destruct (decide (k < nb)) as [Hlt|].
  - destruct (st_used _ _ _ _ _ _ _ Hs k ltac:(lia)) as [Hr _]. rewrite Eb in Hr.
    exists s, own, din. rewrite Z.max_l by lia. split; [|split; [by apply extends_refl|split; [lia|done]]].
    erewrite bind_Ret by (rewrite own_addr_run, decide_False by (done || lia); reflexivity).
    cbv beta. rewrite Eb, xint_id by by apply addr_range. done.
  - assert (k = nb) as -> by lia. rewrite Z.max_r in * by lia.
    pose proof (st_free _ _ _ _ _ _ _ Hs nb ltac:(lia)) as Ez. rewrite Eb in Ez.
    exists (bump s), (give own (b_freeblock s) (Data inum nb)), (set_addr din nb (b_freeblock s)). split_and!.
    + erewrite bind_Ret by (rewrite own_addr_run, decide_True by (done || lia); reflexivity).
      cbv beta. rewrite Eb, xint_id; [done|]. apply addr_range, dinode_ok_addr; [done|]. unfold FSSIZE in *. lia.
    + apply extends_bump; try done; [lia|]. apply alloc_direct; done || lia.
    + cbn [bump b_freeblock]. lia.
    + rewrite addr_set, decide_False by (done || lia). done.
Qed.

Lemma entry_run k : nmeta <= addr din NDIRECT < b_freeblock s -> NDIRECT <= k <= nb -> k < MAXFILE ->
  b_freeblock s + Z.max nb (k + 1) - nb <= FSSIZE ->
  exists s' own', own_entry din k s = Ret (block_of (b_img s') din k) s' /\
    extends inum s own din s' own' din (Z.max nb (k + 1)) F /\ b_freeblock s' = b_freeblock s + Z.max nb (k + 1) - nb.
Proof.
  intros Ha Hk Hx Hc. pose proof (io_fb _ _ Hi) as Hf. pose proof (io_shape _ _ Hi) as Hsh.
  pose proof (st_din _ _ _ _ _ _ _ Hs) as Hok. assert (0 < nmeta) as Hm by done.
  assert (0 < NDIRECT) as Hp by done. set (a := addr din NDIRECT) in *.
  assert (forall im, block_of im din k = get32 (4 * (k - NDIRECT)) (sector im a)) as Eb
    by (intros im; unfold block_of; destruct (Z.ltb_spec k NDIRECT); done || lia).
  unfold own_entry. fold a. rewrite (xint_id a) by (unfold FSSIZE in *; lia).
  erewrite bind_Ret by (apply rsect_run; done || lia). cbv zeta. rewrite <- Eb.
  destruct (decide (k < nb)) as [Hlt|].
  - destruct (st_used _ _ _ _ _ _ _ Hs k ltac:(lia)) as [Hr _].
    destruct (Z.eqb_spec (block_of (b_img s) din k) 0); [lia|].
    exists s, own. rewrite Z.max_l by lia. split; [|split; [by apply extends_refl|lia]].
    erewrite bind_Ret by reflexivity. rewrite <- Eb, xint_id by (unfold FSSIZE in *; lia). done.
  - assert (k = nb) as -> by lia. rewrite Z.max_r in * by lia. rewrite (st_free _ _ _ _ _ _ _ Hs nb) by lia. cbn [Z.eqb].
    set (d := put32 (4 * (nb - NDIRECT)) (b_freeblock s) (sector (b_img s) a)).
    pose proof (sh_sec _ Hsh a ltac:(lia)) as Hl.
    assert (length d = Z.to_nat BSIZE) as Hd.
    { unfold d, put32. rewrite length_put; [done|..]; unfold MAXFILE, NDIRECT, NINDIRECT, BSIZE in *; [lia|].
      rewrite length_le_bytes. change (512 / 4) with 128 in *. lia. }
    pose proof (alloc_entry _ _ _ _ _ _ _ Hi Hs ltac:(lia) a eq_refl Ha ltac:(lia)) as Hs'. fold d in Hs'.
    exists (set_img (upd (b_img s) a d) (bump s)), (give own (b_freeblock s) (Data inum nb)). split_and!.
    + erewrite bind_Ret by (erewrite bind_Ret by (apply next_block_run; lia); cbv beta; fold d;
        erewrite bind_Ret by (apply wsect_run; done || lia); reflexivity).
      unfold ret. rewrite Eb. cbn [set_img b_img]. rewrite sector_upd, decide_True by (done || lia).
      assert (get32 (4 * (nb - NDIRECT)) d = b_freeblock s) as ->; [|by rewrite xint_id by (unfold FSSIZE in *; lia)].
      unfold d. rewrite get32_put32_same; [apply u32_small; unfold FSSIZE in *; lia|lia|].
      unfold MAXFILE, NDIRECT, NINDIRECT, BSIZE in *. change (512 / 4) with 128 in *. lia.
    + split; cbn [set_img bump b_img b_freeblock b_sb b_freeinode]; try done; try lia.
      * apply image_ok_upd; [by apply image_ok_next; [|lia]|lia|done].
      * intros b Hb. by apply give_old.
      * intros b Hb. rewrite sector_upd by (done || lia). rewrite decide_False; [done|]. intros ->.
        destruct Hb as [Hb|[_ Hb]]; [lia|]. destruct (st_ind _ _ _ _ _ _ _ Hs) as [[E _]|[_ E]]; fold a in E; [lia|]. by rewrite E in Hb.
    + cbn [set_img bump b_freeblock]. lia.
Qed.
End Block.

Lemma iappend_block_run inum s own din nb F k : image_ok (b_img s) (b_freeblock s) ->
  stored (b_img s) own (b_freeblock s) inum din nb F -> tight din nb -> 0 <= k <= nb -> k < MAXFILE ->
  b_freeblock s + cost (Z.max nb (k + 1)) - cost nb <= FSSIZE ->
  exists s' own' din', iappend_block din k s = Ret (din', block_of (b_img s') din' k) s' /\
    extends inum s own din s' own' din' (Z.max nb (k + 1)) F /\ tight din' (Z.max nb (k + 1)) /\
    b_freeblock s' = b_freeblock s + cost (Z.max nb (k + 1)) - cost nb.
Proof.
  intros Hi Hs Ht Hk Hx Hc. pose proof (io_fb _ _ Hi) as Hf. assert (0 < nmeta) as Hm by done.
  pose proof (st_din _ _ _ _ _ _ _ Hs) as Hok. set (nb' := Z.max nb (k + 1)) in *.
  destruct (decide (k < NDIRECT)) as [Hd|Hd].
  - assert (cost nb' - cost nb = nb' - nb) as Ec by (unfold cost, nb'; repeat case_Z; lia).
    destruct (direct_run _ _ _ _ _ _ Hi Hs k Hk Hd ltac:(fold nb'; lia)) as (s' & own' & din' & E & He & Ef & Ea). fold nb' in He, Ef.
    exists s', own', din'. split_and!; [done..| |lia]. intros Hn. rewrite Ea. apply Ht. unfold nb' in Hn. lia.
  - unfold iappend_block. destruct (Z.ltb_spec k NDIRECT); [lia|].
    assert (tight din nb') as Ht' by (intros Hn; unfold nb' in Hn; lia).
    destruct (st_ind _ _ _ _ _ _ _ Hs) as [[Ea Hn]|[Ha _]].
    + assert (k = nb /\ nb = NDIRECT) as [-> ->] by lia. set (din1 := set_addr din NDIRECT (b_freeblock s)).
      assert (nb' = NDIRECT + 1) as En by (unfold nb'; lia). assert (cost nb' = cost NDIRECT + 2) as Ec by (rewrite En; done).
      pose proof (alloc_indirect _ _ _ _ _ _ _ Hi Hs ltac:(lia) Ea) as Hs1.
      assert (extends inum s own din (bump s) (give own (b_freeblock s) (Indirect inum)) din1 NDIRECT F) as He1
        by (apply extends_bump; try done; lia).
      assert (addr din1 NDIRECT = b_freeblock s) as Ea1 by (unfold din1; rewrite addr_set, decide_True by done; done).
      destruct (entry_run _ _ _ _ _ _ (ex_img _ _ _ _ _ _ _ _ _ He1) Hs1 NDIRECT) as (s' & own' & E & He & Ef);
        fold nb' in E, He, Ef || fold nb'; cbn [bump b_freeblock] in *; fold din1 in E, He || fold din1; rewrite ?Ea1; try lia.
      exists s', own', din1. split_and!; [|by eapply extends_trans|intros Hq; lia|lia].
      erewrite bind_Ret by (rewrite own_addr_run, decide_True by (done || lia); reflexivity). fold din1.
      erewrite bind_Ret by exact E. done.
    + assert (nb <> NDIRECT) as Hne by (intros ->; rewrite Ht in Ha by lia; lia).
      assert (cost nb' - cost nb = nb' - nb) as Ec by (unfold cost, nb'; repeat case_Z; lia).
      destruct (entry_run _ _ _ _ _ _ Hi Hs k Ha ltac:(lia) Hx) as (s' & own' & E & He & Ef); fold nb'; [lia|fold nb' in He, Ef].
      exists s', own', din. split_and!; [|done..|lia].
      erewrite bind_Ret by (rewrite own_addr_run, decide_False by (done || lia); reflexivity).
      erewrite bind_Ret by exact E. done.
Qed.

(** ** Writing *)
Lemma nth_put off q l j : 0 <= off -> (Z.to_nat off + length q <= length l)%nat ->
  nth j (put off q l) 0 = if decide (Z.to_nat off <= j < Z.to_nat off + length q)%nat then nth (j - Z.to_nat off) q 0 else nth j l 0.
Proof.
  intros H0 Hl. unfold put. rewrite !nth_lookup.
  assert (length (take (Z.to_nat off) l) = Z.to_nat off) as Et by (rewrite length_take; lia).
  destruct (decide _) as [[H1 H2]|Hn].
  - rewrite lookup_app_r, Et by lia. by rewrite lookup_app_l by lia.
  - destruct (decide (j < Z.to_nat off)%nat).
    + rewrite lookup_app_l, lookup_take_lt by lia. done.
    + rewrite lookup_app_r, Et, lookup_app_r, lookup_drop by lia. do 2 f_equal. lia.
Qed.
Lemma nth_app_snoc (F q : list Z) o : nth o (F ++ q) 0 = if decide (length F <= o)%nat then nth (o - length F) q 0 else nth o F 0.
Proof. destruct (decide _); [by rewrite app_nth2 by lia|by rewrite app_nth1 by lia]. Qed.

Section Store.
Context (im : list (list Z)) (own : Z -> label) (fb inum : Z) (din : dinode) (nb : Z) (F q : list Z).
Hypothesis Hi : image_ok im fb.
Hypothesis Hs : stored im own fb inum din nb F.
Let off := Z.of_nat (length F).
Let k := off / BSIZE.
Hypothesis Hk : k < nb.
Hypothesis Hq : off + Z.of_nat (length q) <= (k + 1) * BSIZE.
Let x := block_of im din k.
Definition store_at : list (list Z) := upd im x (put (off - k * BSIZE) q (sector im x)).

Lemma k_range : 0 <= k < nb.
Proof. split; [|done]. unfold k, off, BSIZE. apply Z.div_pos; lia. Qed.
Lemma off_range : 0 <= off - k * BSIZE /\ off - k * BSIZE + Z.of_nat (length q) <= BSIZE.
Proof. unfold k, BSIZE in *. dlia. Qed.
Lemma store_length : length (put (off - k * BSIZE) q (sector im x)) = Z.to_nat BSIZE.
Proof.
  destruct (st_used _ _ _ _ _ _ _ Hs k k_range) as [Hx _]. fold x in Hx. pose proof (io_fb _ _ Hi). assert (0 < nmeta) by done.
  pose proof (sh_sec _ (io_shape _ _ Hi) x ltac:(lia)) as Hl. pose proof off_range as [H1 H2].
  rewrite length_put; [done|done|]. rewrite Hl. lia.
Qed.
Lemma stored_write : stored store_at own fb inum din nb (F ++ q).
Proof.
  pose proof Hs as [H1 H2 H3 H4 H5 H7]. pose proof (io_fb _ _ Hi) as Hf. assert (0 < nmeta) as Hm by done.
  destruct (H3 k k_range) as [Hx Hox]. fold x in Hx, Hox.
  assert (forall c, 0 <= c -> sector store_at c = if decide (c = x) then put (off - k * BSIZE) q (sector im x) else sector im c) as Es
    by (intros c Hc; unfold store_at; apply sector_upd; [apply (io_shape _ _ Hi)|lia|done]).
  assert (forall j, block_of store_at din j = block_of im din j) as Eb.
  { intros j. unfold block_of. rewrite Es, decide_False; [done|..].
    - intros E. destruct H5 as [[H5 _]|[_ H5]]; [lia|]. rewrite E, Hox in H5. done.
    - apply addr_range. done. }
  assert (forall j, 0 <= j < MAXFILE -> block_of im din j = x -> j = k) as Hinj.
  { intros j Hj E. destruct (decide (j < nb)); [|rewrite H4 in E by lia; lia].
    destruct (H3 j ltac:(lia)) as [_ Hl]. rewrite E, Hox in Hl. congruence. }
  split; try done; [intros j Hj; rewrite Eb; auto..|].
  intros o Ho. rewrite nth_app_snoc. pose proof (H7 o Ho) as Hb. unfold byte_at in *. rewrite Eb.
  assert (0 <= o / BSIZE < MAXFILE) as Hr by (unfold MAXFILE, NDIRECT, NINDIRECT, BSIZE in *; dlia).
  assert (0 <= block_of im din (o / BSIZE)) as Hnn.
  { destruct (decide (o / BSIZE < nb)); [destruct (H3 (o / BSIZE) ltac:(lia)); lia|rewrite H4; lia]. }
  rewrite Es by done. pose proof off_range as [R1 R2]. pose proof (sh_sec _ (io_shape _ _ Hi) x ltac:(lia)) as Hl.
  destruct (decide (block_of im din (o / BSIZE) = x)) as [E|Hne].
  - pose proof (Hinj _ Hr E) as Ek. rewrite E in Hb. rewrite nth_put by (rewrite ?Hl; lia).
    assert (o = k * BSIZE + o mod BSIZE /\ 0 <= o mod BSIZE < BSIZE) as [Eo Em] by (unfold k, BSIZE in *; dlia).
    destruct (decide _) as [Hd|Hd], (decide _) as [Hd'|Hd']; try (unfold off in *; lia).
    + f_equal. unfold off in *. lia.
    + rewrite Hb. rewrite !nth_overflow; [done|unfold off in *; lia..].
  - rewrite Hb. destruct (decide (length F <= Z.to_nat o)%nat) as [Hd|]; [|done].
    rewrite !nth_overflow; [done| |lia]. destruct (decide (Z.to_nat o - length F < length q)%nat); [|lia].
    exfalso. apply Hne. assert (o / BSIZE = k) as ->; [|done]. unfold k, off, BSIZE in *. dlia.
Qed.
End Store.

Definition blocks (n : Z) : Z := (n + BSIZE - 1) / BSIZE.
Lemma blocks_le n m : n <= m -> blocks n <= blocks m.
Proof. intros H. unfold blocks, BSIZE. apply Z.div_le_mono; lia. Qed.
Lemma cost_le n m : n <= m -> cost n <= cost m.
Proof. intros H. unfold cost. repeat case_Z; lia. Qed.
(** The chunk of one round ends at the block boundary or with the data. *)
Lemma chunk_blocks off n : 0 <= off -> 0 < n -> let k := off / BSIZE in let n1 := Z.min n (u32 ((k + 1) * BSIZE - off)) in
  off < 2 ^ 32 - 1 -> 0 < n1 <= n /\ off + n1 <= (k + 1) * BSIZE /\ blocks off <= k + 1 /\ blocks (off + n1) = k + 1 /\ k <= blocks off.
Proof.
  intros H0 Hn k n1 H1. assert (0 < (k + 1) * BSIZE - off <= BSIZE) as Hr by (unfold k, BSIZE; dlia).
  unfold n1. rewrite u32_small by (unfold BSIZE in *; lia). unfold blocks, k, BSIZE in *. dlia.
Qed.

(** One round: the block is there, the chunk is stored. *)
Lemma store_run inum s own din nb F q : image_ok (b_img s) (b_freeblock s) ->
  stored (b_img s) own (b_freeblock s) inum din nb F ->
  let off := Z.of_nat (length F) in let k := off / BSIZE in k < nb -> off + Z.of_nat (length q) <= (k + 1) * BSIZE ->
  let x := block_of (b_img s) din k in
  exists s', (buf <- rsect x ;; wsect x (put (off - k * BSIZE) q buf)) s = Ret tt s' /\
    extends inum s own din s' own din nb (F ++ q) /\ b_freeblock s' = b_freeblock s.
Proof.
  intros Hi Hs off k Hk Hq x. assert (0 <= k < nb) as Hr by (split; [apply Z.div_pos; unfold BSIZE; lia|done]).
  destruct (st_used _ _ _ _ _ _ _ Hs k Hr) as [Hx Ho]. fold x in Hx, Ho.
  pose proof (io_fb _ _ Hi) as Hf. pose proof (io_shape _ _ Hi) as Hsh. assert (0 < nmeta) as Hm by done.
  exists (set_img (store_at (b_img s) din F q) s). split.
  - erewrite bind_Ret by (apply rsect_run; done || lia). rewrite wsect_run by (done || lia). done.
  - split; [|done]. split; cbn [set_img b_img b_freeblock b_sb b_freeinode]; try done.
    + apply image_ok_upd; [done..|]. by apply (store_length _ own (b_freeblock s) inum din nb).
    + by apply stored_write.
    + intros b Hb. unfold store_at. fold off k x. rewrite sector_upd by (done || lia). rewrite decide_False; [done|].
      intros ->. destruct Hb as [Hb|[_ Hb]]; [lia|]. by rewrite Ho in Hb.
Qed.

Lemma iappend_loop_run inum fuel : forall s own din F p, image_ok (b_img s) (b_freeblock s) ->
  let nb := blocks (Z.of_nat (length F)) in let nb' := blocks (Z.of_nat (length (F ++ p))) in
  stored (b_img s) own (b_freeblock s) inum din nb F -> tight din nb -> (length p <= fuel)%nat ->
  Z.of_nat (length (F ++ p)) <= MAXFILE * BSIZE -> b_freeblock s + cost nb' - cost nb <= FSSIZE ->
  exists s' own' din', iappend_loop fuel din (Z.of_nat (length F)) p s = Ret (din', Z.of_nat (length (F ++ p))) s' /\
    extends inum s own din s' own' din' nb' (F ++ p) /\ tight din' nb' /\ b_freeblock s' = b_freeblock s + cost nb' - cost nb.
Proof.
  induction fuel as [|f IH]; intros s own din F p Hi nb nb' Hs Ht Hl Hmax Hc.
  all: destruct p as [|c p']; [|cbn [length] in Hl; try lia].
  1, 2: unfold nb' in *; rewrite !app_nil_r in *; exists s, own, din; split_and!; [done|by apply extends_refl|done|unfold nb; lia].
  set (p := c :: p') in *. set (off := Z.of_nat (length F)) in *. rewrite length_app, Nat2Z.inj_add in Hmax. fold off in Hmax.
  assert (MAXFILE * BSIZE = 71680) as Em by done. assert (Z.of_nat (length p) = Z.of_nat (length p') + 1) as Ep by (unfold p; cbn [length]; lia).
  destruct (chunk_blocks off (Z.of_nat (length p)) ltac:(lia) ltac:(lia) ltac:(lia)) as (C1 & C2 & C3 & C4 & C5).
  set (k := off / BSIZE) in *. set (n1 := Z.min (Z.of_nat (length p)) (u32 ((k + 1) * BSIZE - off))) in *.
  assert (nb = blocks off) as Enb by done. assert (0 <= k) as Hk0 by (apply Z.div_pos; [lia|done]).
  assert (k < MAXFILE) as Hk by (apply Z.div_lt_upper_bound; [done|]; change (BSIZE * MAXFILE) with 71680; lia).
  set (q := take (Z.to_nat n1) p). assert (Z.of_nat (length q) = n1) as Eq by (unfold q; rewrite length_take; lia).
  assert (F ++ p = (F ++ q) ++ drop (Z.to_nat n1) p) as Es by (rewrite <- app_assoc; unfold q; by rewrite take_drop).
  assert (Z.max nb (k + 1) = k + 1) as Emax by (unfold nb; lia).
  assert (cost (k + 1) <= cost nb') as Hcc by (apply cost_le; unfold nb'; rewrite <- C4; apply blocks_le; rewrite length_app; unfold off; lia).
  destruct (iappend_block_run inum s own din nb F k Hi Hs Ht ltac:(lia) Hk ltac:(rewrite Emax; lia)) as (s1 & o1 & d1 & E1 & X1 & T1 & F1).
  rewrite Emax in X1, T1, F1.
  destruct (store_run inum s1 o1 d1 (k + 1) F q) as (s2 & E2 & X2 & F2); [apply X1|apply X1|fold off k; lia..|]. fold off k in E2.
  assert (Z.of_nat (length (F ++ q)) = off + n1) as Efq by (rewrite length_app; unfold off; lia).
  destruct (IH s2 o1 d1 (F ++ q) (drop (Z.to_nat n1) p)) as (s' & o' & d' & E & X & T & Ef); rewrite ?Efq, ?C4, <- ?Es; try done.
  - apply X2.
  - apply X2.
  - rewrite length_drop. unfold p. cbn [length]. lia.
  - rewrite length_app. unfold off in *. lia.
  - fold nb'. lia.
  - rewrite ?Efq, ?C4, <- ?Es in *. exists s', o', d'. split_and!; [|by eapply extends_trans; [|eapply extends_trans]|done|fold nb' in Ef; lia].
    unfold p at 1. cbn [iappend_loop]. fold p off k. destruct (Z.ltb_spec k MAXFILE); [|lia].
    erewrite bind_Ret by exact E1. cbv beta iota zeta. fold n1 q. unfold bind at 1. unfold bind at 1 in E2.
    destruct (rsect _ s1) as [buf s1'| | | | |]; try done. cbn [obind] in E2 |- *. erewrite bind_Ret by exact E2.
    rewrite u32_small by lia. rewrite Z2Nat.id by lia. exact E.
Qed.

(** ** Inodes *)
Definition sb0 : superblock := mk_superblock FSSIZE nblocks NINODES nlog 2 (2 + nlog) (2 + nlog + ninodeblocks).
Definition ib (inum : Z) : Z := inum / IPB + (2 + nlog).
Definition inode_of (im : list (list Z)) (inum : Z) : dinode := get_dinode (dinode_off inum) (sector im (ib inum)).
Lemma ib_range inum : 0 <= inum < NINODES -> 1 < ib inum < 2 + nlog + ninodeblocks.
Proof. intros H. unfold ib, ninodeblocks, nlog, LOGSIZE, NINODES, MAXOPBLOCKS, IPB, BSIZE, sizeof_dinode in *. change (512 / 64) with 8. dlia. Qed.
Lemma IBLOCK_ib inum : 0 <= inum < NINODES -> IBLOCK inum sb0 = ib inum.
Proof. intros H. pose proof (ib_range inum H) as Hr. unfold IBLOCK. apply u32_small. assert (2 + nlog + ninodeblocks = 58) by done. unfold ib in *. cbn [sb0 sb_inodestart]. lia. Qed.
Lemma ib_low inum : 0 <= inum < NINODES -> 1 < ib inum < nmeta - 1 /\ ib inum < FSSIZE.
Proof. intros H. pose proof (ib_range inum H). assert (nmeta = 59) by done. assert (2 + nlog + ninodeblocks = 58) by done. unfold FSSIZE. lia. Qed.

(** The image after [winode]. *)
Definition put_inode (im : list (list Z)) (inum : Z) (din : dinode) : list (list Z) :=
  upd im (ib inum) (put_dinode (dinode_off inum) din (sector im (ib inum))).
Section Winode.
Context (im : list (list Z)) (inum : Z) (din : dinode).
Hypothesis Hsh : shape im.
Hypothesis Hn : 0 <= inum < NINODES.
Hypothesis Hok : dinode_ok din.
Lemma put_inode_sector b : 0 <= b -> b <> ib inum -> sector (put_inode im inum din) b = sector im b.
Proof. intros H0 Hb. pose proof (ib_low inum Hn). unfold put_inode. rewrite sector_upd, decide_False by (done || lia). done. Qed.
Lemma put_inode_shape : shape (put_inode im inum din).
Proof.
  pose proof (ib_low inum Hn). apply shape_upd; [done|lia|].
  assert (length (sector im (ib inum)) = Z.to_nat BSIZE) as Hl by (apply Hsh; lia).
  destruct (dinode_roundtrip din (sector im (ib inum)) inum Hok Hl) as (-> & _). done.
Qed.
Lemma put_inode_get j : 0 <= j < NINODES -> inode_of (put_inode im inum din) j = if decide (j = inum) then din else inode_of im j.
Proof.
  intros Hj. pose proof (ib_low inum Hn). pose proof (ib_low j Hj).
  assert (length (sector im (ib inum)) = Z.to_nat BSIZE) as Hl by (apply Hsh; lia).
  destruct (dinode_roundtrip din (sector im (ib inum)) inum Hok Hl) as (_ & Hsame & Hother).
  unfold inode_of, put_inode. rewrite sector_upd by (done || lia). destruct (decide (ib j = ib inum)) as [E|].
  - rewrite E. destruct (decide (j = inum)) as [->|]; [done|]. apply Hother. unfold ib, IPB, BSIZE, sizeof_dinode in *.
    change (512 / 64) with 8 in *. dlia.
  - destruct (decide (j = inum)) as [->|]; done.
Qed.
Lemma winode_run s : b_img s = im -> b_sb s = sb0 -> winode inum din s = Ret tt (set_img (put_inode im inum din) s).
Proof.
  intros Ei Esb. pose proof (ib_low inum Hn). unfold winode, put_inode. erewrite bind_Ret by reflexivity.
  rewrite Esb, IBLOCK_ib by done. erewrite bind_Ret by (apply rsect_run; [by rewrite Ei|lia]).
  rewrite wsect_run by (rewrite ?Ei; done || lia). by rewrite Ei.
Qed.
Lemma rinode_run s : b_img s = im -> b_sb s = sb0 -> rinode inum s = Ret (inode_of im inum) s.
Proof.
  intros Ei Esb. pose proof (ib_low inum Hn). unfold rinode. erewrite bind_Ret by reflexivity.
  rewrite Esb, IBLOCK_ib by done. erewrite bind_Ret by (apply rsect_run; [by rewrite Ei|lia]). by rewrite Ei.
Qed.
End Winode.

(** ** The file system as a list of files

    File [i] of the list, with its type and its bytes, has inode [i + 1]. *)
Definition size (F : list Z) : Z := Z.of_nat (length F).
Definition file_cost (x : Z * list Z) : Z := cost (blocks (size (snd x))).
Definition total (A : list (Z * list Z)) : Z := foldr (fun x n => file_cost x + n) 0 A.
Record file_ok (im : list (list Z)) (own : Z -> label) (fb inum ty : Z) (F : list Z) : Prop := mk_file_ok {
  fo_st : stored im own fb inum (inode_of im inum) (blocks (size F)) F;
  fo_tight : tight (inode_of im inum) (blocks (size F));
  fo_size : di_size (inode_of im inum) = size F;
  fo_type : di_type (inode_of im inum) = ty;
  fo_nlink : di_nlink (inode_of im inum) = 1;
  fo_max : size F <= MAXFILE * BSIZE }.
Definition sb_sector : list Z := put 0 (words [FSSIZE; nblocks; NINODES; nlog; 2; 2 + nlog; 2 + nlog + ninodeblocks]) zeroes.
Record represents (s : builder) (own : Z -> label) (A : list (Z * list Z)) : Prop := mk_represents {
  rp_img : image_ok (b_img s) (b_freeblock s);
  rp_sb : b_sb s = sb0;
  rp_super : sector (b_img s) 1 = sb_sector;
  rp_max : Z.of_nat (length A) < NINODES;
  rp_fi : b_freeinode s = Z.of_nat (length A) + 1;
  rp_fb : b_freeblock s = nmeta + total A;
  rp_file : forall i ty F, A !! i = Some (ty, F) -> file_ok (b_img s) own (b_freeblock s) (Z.of_nat i + 1) ty F }.

Lemma size_nonneg F : 0 <= size F.
Proof. unfold size. lia. Qed.
Lemma file_cost_nonneg x : 0 <= file_cost x.
Proof.
  unfold file_cost, cost. assert (0 <= blocks (size x.2)) by (apply Z.div_pos; [pose proof (size_nonneg x.2); unfold BSIZE; lia|done]).
  case_Z; lia.
Qed.
Lemma total_blocks_nonneg A : 0 <= total A.
Proof. induction A as [|x A IH]; simpl; [lia|]. pose proof (file_cost_nonneg x). lia. Qed.
Lemma total_blocks_app A B : total (A ++ B) = total A + total B.
Proof. induction A as [|x A IH]; simpl; [done|]. rewrite IH. lia. Qed.
Lemma total_insert A i x y : A !! i = Some x -> total (<[i := y]> A) = total A + file_cost y - file_cost x.
Proof.
  revert i. induction A as [|z A IH]; intros [|i] H; simpl in *; [done..| |].
  - simplify_eq. lia.
  - rewrite (IH i H). lia.
Qed.

(** A file in an image that differs in no block of the file and not in its inode. *)
Lemma file_ok_frame im im' own own' fb fb' inum ty F : file_ok im own fb inum ty F -> fb <= fb' ->
  inode_of im' inum = inode_of im inum -> sector im' 0 = sector im 0 ->
  (forall b, nmeta <= b < fb -> own' b = own b) ->
  (forall b, nmeta <= b < fb -> owner (own b) = inum -> sector im' b = sector im b) ->
  file_ok im' own' fb' inum ty F.
Proof.
  intros [H1 H2 H3 H4 H5 H6] Hfb Ei H0 Ho Hs. split; rewrite ?Ei; try done. by eapply stored_frame.
Qed.
Lemma image_ok_inode im fb inum din : image_ok im fb -> 0 <= inum < NINODES -> dinode_ok din -> image_ok (put_inode im inum din) fb.
Proof.
  intros [H1 H2 H3] Hn Hd. pose proof (ib_low inum Hn). split; [by apply put_inode_shape|done|].
  intros b Hb. rewrite put_inode_sector by (done || lia). by apply H3.
Qed.

(** The empty file. *)
Lemma stored_empty im own fb inum din : image_ok im fb -> dinode_ok din -> di_addrs din = replicate (Z.to_nat NDIRECT + 1) 0 ->
  stored im own fb inum din 0 [] /\ tight din 0.
Proof.
  intros Hi Hd Ea. assert (forall k, addr din k = 0) as E0.
  { intros k. unfold addr. rewrite Ea, nth_lookup. destruct (replicate _ _ !! _) eqn:E; [|done]. by apply lookup_replicate in E as [-> _]. }
  assert (sector im 0 = zeroes) as Ez by (apply (io_zero _ _ Hi); by left).
  assert (forall k, block_of im din k = 0) as Eb by (intros k; unfold block_of; rewrite !E0, Ez, zero_word; by case_Z).
  split; [|by intros _]. split; try done; [intros k Hk; lia|left; by rewrite E0|].
  intros o Ho. unfold byte_at. rewrite Eb, Ez, zero_byte. by destruct (Z.to_nat o).
Qed.
Definition inode0 (ty : Z) : dinode := mk_dinode ty 0 0 1 0 (replicate (Z.to_nat NDIRECT + 1) 0).
Lemma inode0_ok ty : 0 <= ty < 2 ^ 15 -> dinode_ok (inode0 ty).
Proof. intros H. split; cbn [inode0 di_type di_major di_minor di_nlink di_size di_addrs]; try lia; [by rewrite length_replicate|]. by apply Forall_replicate. Qed.

Lemma ialloc_run s own A ty : represents s own A -> 0 <= ty < 2 ^ 15 -> Z.of_nat (length A) + 1 < NINODES ->
  exists s', ialloc ty s = Ret (Z.of_nat (length A) + 1) s' /\ represents s' own (A ++ [(ty, [])]).
Proof.
  intros [H1 H2 H3 Hcnt H4 H5 H6] Hty Hn. set (inum := Z.of_nat (length A) + 1) in *. pose proof (inode0_ok ty Hty) as Hok.
  pose proof (io_fb _ _ H1) as Hf. assert (1 < nmeta) as Hm by done. pose proof (io_shape _ _ H1) as Hsh. pose proof (ib_low inum ltac:(lia)) as Hib.
  exists (mk_builder (put_inode (b_img s) inum (inode0 ty)) sb0 (inum + 1) (b_freeblock s)). split.
  - unfold ialloc. erewrite bind_Ret by reflexivity. erewrite bind_Ret by reflexivity. rewrite H4. fold inum.
    assert (mk_dinode (s16 (xshort ty)) 0 0 (s16 (xshort 1)) (xint 0) (replicate (Z.to_nat NDIRECT + 1) 0) = inode0 ty) as ->.
    { assert (s16 ty = ty) as Es by (rewrite <- (Z.mod_small ty (2 ^ 16)) at 1 by lia; apply s16_small; lia).
      by rewrite xshort_id, Es by lia. }
    erewrite bind_Ret by (apply winode_run; done || lia). unfold ret, set_img. cbn. rewrite u32_small, H2 by (unfold NINODES in *; lia). done.
  - split; cbn [b_img b_sb b_freeinode b_freeblock]; try done.
    + apply image_ok_inode; done || lia.
    + rewrite put_inode_sector; done || lia.
    + rewrite length_app. simpl. lia.
    + rewrite length_app. unfold inum. simpl. lia.
    + rewrite total_blocks_app, H5. change (total [(ty, [])]) with 0. lia.
    + intros i ty' F HF. apply lookup_app_Some in HF as [HF|[Hge HF]].
      * pose proof (lookup_lt_Some _ _ _ HF) as Hlt. apply (file_ok_frame (b_img s) _ own _ (b_freeblock s)); [by apply H6|lia|..|done|].
        -- rewrite put_inode_get, decide_False by (done || (unfold inum in *; lia)). done.
        -- apply put_inode_sector; done || lia.
        -- intros b Hb _. apply put_inode_sector; done || lia.
      * destruct (i - length A)%nat eqn:Ei; [|done]. injection HF as <- <-. assert (Z.of_nat i + 1 = inum) as -> by (unfold inum; lia).
        assert (inode_of (put_inode (b_img s) inum (inode0 ty)) inum = inode0 ty) as E
          by (rewrite put_inode_get, decide_True by (done || lia); done).
        destruct (stored_empty (put_inode (b_img s) inum (inode0 ty)) own (b_freeblock s) inum (inode0 ty))
          as [S1 S2]; [apply image_ok_inode; done || lia|done..|]. by split; rewrite ?E.
Qed.

Lemma stored_size im own fb inum din nb F v : stored im own fb inum din nb F -> 0 <= v < 2 ^ 32 -> stored im own fb inum (set_size din v) nb F.
Proof. intros [H1 H2 H3 H4 H5 H7] Hv. split; try done. by destruct H1. Qed.

(** [iappend] appends to the file. *)
Lemma iappend_run s own A i ty F p : represents s own A -> A !! i = Some (ty, F) ->
  size (F ++ p) <= MAXFILE * BSIZE -> nmeta + total (<[i := (ty, F ++ p)]> A) <= FSSIZE ->
  exists s' own', iappend (Z.of_nat i + 1) p s = Ret tt s' /\ represents s' own' (<[i := (ty, F ++ p)]> A).
Proof.
  intros [H1 H2 H3 Hcnt H4 H5 H6] HF Hmax Hfit. pose proof (lookup_lt_Some _ _ _ HF) as Hlt. set (inum := Z.of_nat i + 1) in *. pose proof (H6 _ _ _ HF) as Hfile. fold inum in Hfile.
  assert (0 <= inum < NINODES) as Hn by (unfold inum; lia).
  destruct Hfile as [G1 G2 G3 G4 G5 G6]. assert (MAXFILE * BSIZE = 71680) as Em by done. pose proof (size_nonneg F) as HF0. pose proof (size_nonneg (F ++ p)) as HFp.
  rewrite (total_insert _ _ _ _ HF) in Hfit. unfold file_cost in Hfit. cbn [snd] in Hfit.
  assert (1 < nmeta) as Hm by done. pose proof (ib_low inum ltac:(lia)) as Hib.
  destruct (iappend_loop_run inum (length p) s own (inode_of (b_img s) inum) F p H1 G1 G2 ltac:(done) Hmax)
    as (s1 & own1 & din1 & E & [X1 X2 X3 X4 X5 X6 X7 X8] & T & Ef); fold (size F) (size (F ++ p)) in *; [rewrite H5; lia|].
  set (din2 := set_size din1 (size (F ++ p))).
  assert (dinode_ok din2) as Hok by (apply (stored_size _ _ _ _ _ _ _ _ X2); lia).
  pose proof (io_shape _ _ X1) as Hsh. pose proof (io_shape _ _ H1) as Hsh0. pose proof (io_fb _ _ H1) as Hf. pose proof (io_fb _ _ X1) as Hf1.
  exists (set_img (put_inode (b_img s1) inum din2) s1), own1. split.
  - unfold iappend. erewrite bind_Ret by (apply rinode_run; done || lia). rewrite G3, xint_id by lia.
    erewrite bind_Ret by exact E. cbv beta iota. rewrite xint_id by lia. fold din2. apply winode_run; done || congruence.
  - split; cbn [set_img b_img b_sb b_freeinode b_freeblock].
    + apply image_ok_inode; done || lia.
    + congruence.
    + rewrite put_inode_sector, X5 by (done || lia). done.
    + by rewrite length_insert.
    + by rewrite length_insert, X8.
    + rewrite (total_insert _ _ _ _ HF). unfold file_cost. cbn [snd]. lia.
    + intros j ty' F' HF'. destruct (decide (j = i)) as [->|Hne].
      * rewrite list_lookup_insert_eq in HF' by (by eapply lookup_lt_Some). injection HF' as <- <-. fold inum.
        assert (inode_of (put_inode (b_img s1) inum din2) inum = din2) as Ei by (rewrite put_inode_get, decide_True by (done || lia); done).
        split; rewrite ?Ei; try done.
        -- apply stored_size; [|lia]. apply (stored_frame (b_img s1) _ own1 _ (b_freeblock s1)); [done|lia|apply put_inode_sector; done || lia|done|].
           intros b Hb _. apply put_inode_sector; done || lia.
        -- cbn [din2 set_size di_type]. by rewrite (sk_type _ _ X6).
        -- cbn [din2 set_size di_nlink]. by rewrite (sk_nlink _ _ X6).
      * rewrite list_lookup_insert_ne in HF' by done. pose proof (H6 _ _ _ HF') as Hj.
        assert (Z.of_nat j + 1 <> inum) as Hji by (unfold inum; lia).
        pose proof (lookup_lt_Some _ _ _ HF'). pose proof (ib_low (Z.of_nat j + 1) ltac:(lia)).
        apply (file_ok_frame (b_img s) _ own _ (b_freeblock s)); try done.
        -- rewrite put_inode_get, decide_False by (done || lia). unfold inode_of. by rewrite X5 by lia.
        -- rewrite put_inode_sector, X5 by (done || lia). done.
        -- intros b Hb Ho. rewrite put_inode_sector, X5 by (done || lia). done.
Qed.

(** ** The files of the command line *)
Lemma file_cost_le ty F G : size F <= size G -> file_cost (ty, F) <= file_cost (ty, G).
Proof. intros H. apply cost_le, blocks_le. done. Qed.
Lemma file_size_app F G : size (F ++ G) = size F + size G.
Proof. unfold size. rewrite length_app. lia. Qed.

Lemma chunks_run chunks : forall s own A i ty F, represents s own A -> A !! i = Some (ty, F) ->
  size (F ++ concat chunks) <= MAXFILE * BSIZE -> nmeta + total (<[i := (ty, F ++ concat chunks)]> A) <= FSSIZE ->
  exists s' own', iter_list chunks (iappend (Z.of_nat i + 1)) s = Ret tt s' /\ represents s' own' (<[i := (ty, F ++ concat chunks)]> A).
Proof.
  induction chunks as [|c chunks IH]; intros s own A i ty F H HF Hmax Hfit.
  - exists s, own. split; [done|]. cbn [concat]. by rewrite app_nil_r, list_insert_id.
  - cbn [concat] in *. rewrite app_assoc in *. pose proof (file_size_app (F ++ c) (concat chunks)) as Es. pose proof (size_nonneg (concat chunks)).
    destruct (iappend_run s own A i ty F c H HF) as (s1 & o1 & E1 & R1); [lia| |].
    { rewrite (total_insert _ _ _ _ HF) in Hfit. rewrite (total_insert _ _ _ _ HF). pose proof (file_cost_le ty (F ++ c) ((F ++ c) ++ concat chunks)). lia. }
    destruct (IH s1 o1 _ i ty (F ++ c) R1) as (s' & o' & E & R'); [|done|by rewrite list_insert_insert_eq|].
    { apply list_lookup_insert_eq. by eapply lookup_lt_Some. }
    exists s', o'. rewrite list_insert_insert_eq in R'. split; [|done]. cbn [iter_list]. by erewrite bind_Ret by exact E1.
Qed.

Definition fits (A : list (Z * list Z)) : Prop :=
  nmeta + total A <= FSSIZE /\ Forall (fun x => size (snd x) <= MAXFILE * BSIZE) A /\ Z.of_nat (length A) < NINODES.
(** The file is there, and its name has no slash. *)
Definition given (h : host) (name F : list Z) : Prop := 47 ∉ name /\ exists chunks, reads h name = Some chunks /\ concat chunks = F.

Lemma entry_size inum name : size (entry inum name) = sizeof_dirent.
Proof.
  unfold size, entry, dirent_bytes, strncpy_list. cbn [de_inum de_name].
  rewrite !length_app, length_take, length_replicate, length_le_bytes. change (Z.to_nat DIRSIZ) with 14%nat. unfold sizeof_dirent. lia.
Qed.

Lemma last_insert {A} (y x z : A) l : <[S (length l) := z]> (y :: l ++ [x]) = y :: l ++ [z].
Proof. change (y :: <[length l := z]> (l ++ [x]) = y :: l ++ [z]). by rewrite insert_app_r_alt, Nat.sub_diag by lia. Qed.
Lemma last_lookup {A} (y x : A) l : (y :: l ++ [x]) !! S (length l) = Some x.
Proof. change ((l ++ [x]) !! length l = Some x). by rewrite lookup_app_r, Nat.sub_diag by lia. Qed.

Lemma add_file_run h s own R fs name F : represents s own ((T_DIR, R) :: fs) -> given h name F ->
  let R' := R ++ entry (Z.of_nat (length fs) + 2) (skip_underscore name) in
  fits ((T_DIR, R') :: fs ++ [(T_FILE, F)]) ->
  exists s' own', add_file h ROOTINO name s = Ret tt s' /\ represents s' own' ((T_DIR, R') :: fs ++ [(T_FILE, F)]).
Proof.
  intros H [Hn (chunks & Hr & <-)] R' (Hfit & Hsz & Hcnt). unfold add_file. rewrite bool_decide_false by done. rewrite Hr.
  cbn [length] in Hcnt. rewrite length_app in Hcnt. cbn [length] in Hcnt.
  apply Forall_cons in Hsz as [Hs1 Hs2]. apply Forall_app in Hs2 as [_ Hs2]. apply Forall_cons in Hs2 as [Hs2 _]. cbn [snd] in *.
  cbn [total foldr] in Hfit. fold (total (fs ++ [(T_FILE, concat chunks)])) in Hfit. rewrite total_blocks_app in Hfit. cbn [total foldr] in Hfit.
  fold (total fs) in Hfit. pose proof (file_cost_nonneg (T_FILE, concat chunks)) as Hc.
  destruct (ialloc_run s own _ T_FILE H ltac:(done)) as (s1 & E1 & R1); [cbn [length]; lia|].
  cbn [length] in E1. erewrite bind_Ret by exact E1. replace (Z.of_nat (S (length fs)) + 1) with (Z.of_nat (length fs) + 2) by lia.
  assert (total [(T_FILE, [])] = 0) as E0 by done.
  destruct (iappend_run s1 own _ 0 T_DIR R (entry (Z.of_nat (length fs) + 2) (skip_underscore name)) R1 eq_refl) as (s2 & o2 & E2 & R2); [done|..].
  { fold R'. cbn [app insert list_insert total foldr]. fold (total (fs ++ [(T_FILE, [])])). rewrite total_blocks_app, E0. lia. }
  fold R' in R2. cbn [app insert list_insert] in R2. change (Z.of_nat 0 + 1) with ROOTINO in E2. erewrite bind_Ret by exact E2.
  destruct (chunks_run chunks s2 o2 _ (S (length fs)) T_FILE [] R2) as (s' & o' & E & R3).
  - apply last_lookup.
  - done.
  - rewrite last_insert. cbn [total foldr app]. fold (total (fs ++ [(T_FILE, concat chunks)])). rewrite total_blocks_app. cbn [total foldr]. fold (total fs). lia.
  - exists s', o'. rewrite last_insert in R3. split; [|done]. by replace (Z.of_nat (length fs) + 2) with (Z.of_nat (S (length fs)) + 1) by lia.
Qed.

(** The directory entries of the files, the first with inode [k]. *)
Fixpoint entries (k : Z) (names : list (list Z)) : list Z :=
  match names with [] => [] | name :: names' => entry k (skip_underscore name) ++ entries (k + 1) names' end.
Definition files (R : list Z) (Fs : list (list Z)) : list (Z * list Z) := (T_DIR, R) :: ((fun F => (T_FILE, F)) <$> Fs).

Lemma total_prefix A B : total A <= total (A ++ B).
Proof. rewrite total_blocks_app. pose proof (total_blocks_nonneg B). lia. Qed.
Lemma fits_prefix R R' A B : size R <= size R' -> fits ((T_DIR, R') :: A ++ B) -> fits ((T_DIR, R) :: A).
Proof.
  intros HR (H1 & H2 & H3). split_and!.
  - pose proof (total_prefix A B). pose proof (file_cost_le T_DIR R R' HR). cbn [total foldr] in *. fold (total (A ++ B)) in H1. fold (total A). lia.
  - apply Forall_cons in H2 as [H2 H2']. apply Forall_app in H2' as [H2' _]. apply Forall_cons. split; [|done]. cbn [snd] in *. lia.
  - cbn [length] in *. rewrite length_app in H3. lia.
Qed.

Lemma names_run h names Fs : Forall2 (given h) names Fs -> forall s own R fs, represents s own ((T_DIR, R) :: fs) ->
  let R' := R ++ entries (Z.of_nat (length fs) + 2) names in let A' := (T_DIR, R') :: fs ++ ((fun F => (T_FILE, F)) <$> Fs) in
  fits A' -> exists s' own', iter_list names (add_file h ROOTINO) s = Ret tt s' /\ represents s' own' A'.
Proof.
  induction 1 as [|name F names Fs Hg Hgs IH]; intros s own R fs H R' A' Hf.
  - exists s, own. unfold A', R'. cbn [entries fmap list_fmap]. by rewrite !app_nil_r.
  - set (R1 := R ++ entry (Z.of_nat (length fs) + 2) (skip_underscore name)).
    assert (R' = R1 ++ entries (Z.of_nat (length (fs ++ [(T_FILE, F)])) + 2) names) as ER.
    { unfold R', R1. cbn [entries]. rewrite app_assoc, length_app. do 2 f_equal. cbn [length]. lia. }
    assert (A' = (T_DIR, R') :: (fs ++ [(T_FILE, F)]) ++ ((fun F => (T_FILE, F)) <$> Fs)) as EA
      by (unfold A'; cbn [fmap list_fmap]; by rewrite <- app_assoc).
    destruct (add_file_run h s own R fs name F H Hg) as (s1 & o1 & E1 & H1).
    { fold R1. rewrite EA in Hf. apply (fits_prefix R1) in Hf; [done|]. rewrite ER, file_size_app. pose proof (size_nonneg (entries (Z.of_nat (length (fs ++ [(T_FILE, F)])) + 2) names)). lia. }
    destruct (IH s1 o1 R1 _ H1) as (s' & o' & E & H'); [by rewrite <- ER, <- EA|]. rewrite <- ER, <- EA in H'.
    exists s', o'. split; [|done]. cbn [iter_list]. by erewrite bind_Ret by exact E1.
Qed.

(** ** The empty image *)
Lemma format_run n : forall s k, b_img s = replicate k zeroes -> Z.of_nat (k + n) <= FSSIZE ->
  iter_list (seqZ (Z.of_nat k) (Z.of_nat n)) (fun i => wsect i zeroes) s = Ret tt (set_img (replicate (k + n) zeroes) s).
Proof.
  induction n as [|n IH]; intros s k Hs Hn.
  - cbn. rewrite Nat.add_0_r, <- Hs. by destruct s.
  - rewrite seqZ_cons by lia. cbn [iter_list]. set (s1 := set_img (replicate (k + 1) zeroes) s).
    assert (wsect (Z.of_nat k) zeroes s = Ret tt s1) as E1.
    { unfold wsect, modify, s1. rewrite place_small by lia. rewrite Hs, Nat2Z.id. unfold store_sector.
      rewrite length_replicate, decide_False, Nat.sub_diag by lia. by rewrite replicate_add. }
    erewrite bind_Ret by exact E1. replace (Z.succ (Z.of_nat k)) with (Z.of_nat (k + 1)) by lia.
    replace (Z.pred (Z.of_nat (S n))) with (Z.of_nat n) by lia. rewrite IH by (done || lia).
    unfold s1. cbn [set_img b_img b_sb b_freeinode b_freeblock]. by replace (k + 1 + n)%nat with (k + S n)%nat by lia.
Qed.
Definition blank : list (list Z) := replicate (Z.to_nat FSSIZE) zeroes.
Lemma blank_sector b : 0 <= b < FSSIZE -> sector blank b = zeroes.
Proof.
  intros Hb. unfold sector, blank. rewrite nth_lookup, lookup_replicate_2; [done|]. apply Z2Nat.inj_lt; lia.
Qed.
Lemma blank_represents own : represents (mk_builder (upd blank 1 sb_sector) sb0 1 nmeta) own [].
Proof.
  assert (length sb_sector = Z.to_nat BSIZE) as Hl by (vm_compute; reflexivity). assert (1 < nmeta < FSSIZE) as Hm by done.
  assert (shape blank) as Hsh by (split; [apply length_replicate|intros b Hb; rewrite blank_sector by done; apply length_replicate]).
  split; cbn [b_img b_sb b_freeinode b_freeblock]; try done.
  - split; [apply shape_upd; done || lia|lia|]. intros b Hb. rewrite sector_upd, decide_False by (done || lia). apply blank_sector. lia.
Qed.

(** ** The bitmap *)
Lemma bitmap_upto n : Z.of_nat n <= BPB -> let d := foldl (fun buf i => set_bit i buf) zeroes (seqZ 0 (Z.of_nat n)) in
  length d = Z.to_nat BSIZE /\ forall j, 0 <= j < BPB -> bit d j = (j <? Z.of_nat n).
Proof.
  induction n as [|n IH]; intros Hn d.
  - split; [done|]. intros j Hj. unfold bit. change d with zeroes. rewrite zero_byte, Z.bits_0. by destruct (Z.ltb_spec j (Z.of_nat 0)); [lia|].
  - destruct IH as [Hl Hb]; [lia|]. unfold d. replace (Z.of_nat (S n)) with (Z.of_nat n + 1) by lia.
    rewrite seqZ_app, foldl_app by lia. assert (seqZ (0 + Z.of_nat n) 1 = [Z.of_nat n]) as -> by (rewrite Z.add_0_l, seqZ_cons by lia; by rewrite seqZ_nil by lia). cbn [foldl].
    set (e := foldl _ zeroes _) in *. split.
    + unfold set_bit. by rewrite length_alter.
    + intros j Hj. rewrite set_bit_spec by (done || lia). destruct (decide (j = Z.of_nat n)) as [->|].
      * by destruct (Z.ltb_spec (Z.of_nat n) (Z.of_nat n + 1)); [|lia].
      * rewrite Hb by done. repeat case_Z; done || lia.
Qed.

(** ** The finished image *)
(** Block [k] of file [inum] is in use. *)
Definition in_use (A : list (Z * list Z)) (inum k : Z) : Prop :=
  exists ty F, A !! Z.to_nat (inum - 1) = Some (ty, F) /\ 1 <= inum /\ 0 <= k < blocks (size F).
Record filesystem (im : list (list Z)) (R : list Z) (Fs : list (list Z)) : Prop := mk_filesystem {
  fs_shape : shape im;
  fs_count : Z.of_nat (length Fs) + 1 < NINODES;
  fs_range : forall inum k, in_use (files R Fs) inum k -> k < MAXFILE /\ nmeta <= block_of im (inode_of im inum) k < FSSIZE /\
    (NDIRECT <= k -> nmeta <= addr (inode_of im inum) NDIRECT < FSSIZE);
  fs_super : parse_sb (sector im 1) = sb0;
  fs_file : forall i F, Fs !! i = Some F -> let din := inode_of im (Z.of_nat i + 2) in
    contents im din = F /\ di_type din = T_FILE /\ di_nlink din = 1 /\ di_size din = size F;
  fs_root : let din := inode_of im ROOTINO in
    contents im din = R ++ replicate (Z.to_nat (BSIZE - size R mod BSIZE)) 0 /\ di_type din = T_DIR /\ di_nlink din = 1 /\
    di_size din = (size R / BSIZE + 1) * BSIZE;
  fs_apart : forall inum k inum' k', in_use (files R Fs) inum k -> in_use (files R Fs) inum' k' ->
    block_of im (inode_of im inum) k = block_of im (inode_of im inum') k' -> inum = inum' /\ k = k';
  fs_bitmap : exists used, (forall b, 0 <= b < BPB -> bit (sector im (sb_bmapstart sb0)) b = (b <? used)) /\
    forall inum k, in_use (files R Fs) inum k -> nmeta <= block_of im (inode_of im inum) k < used }.

(** Reading a file gives its bytes, and zeroes behind them. *)
Lemma contents_stored im own fb inum din nb F : stored im own fb inum din nb F -> size F <= di_size din <= MAXFILE * BSIZE ->
  contents im din = F ++ replicate (Z.to_nat (di_size din - size F)) 0.
Proof.
  intros Hs Hd. unfold contents. apply list_eq. intros i. rewrite list_lookup_fmap. unfold size in *.
  destruct (decide (Z.of_nat i < di_size din)) as [Hi|Hi].
  - rewrite lookup_seqZ_lt by lia. cbn. rewrite (st_bytes _ _ _ _ _ _ _ Hs) by lia. rewrite nth_lookup, Z.add_0_l, Nat2Z.id.
    destruct (F !! i) as [b|] eqn:E; [by erewrite lookup_app_l_Some by exact E|].
    apply lookup_ge_None in E. rewrite lookup_app_r by done. by rewrite lookup_replicate_2 by lia.
  - rewrite lookup_seqZ_ge by lia. symmetry. apply lookup_ge_None. rewrite length_app, length_replicate. lia.
Qed.

(** A change of the size of the root and the bitmap keep the files. *)
Section Finish.
Context (s : builder) (own : Z -> label) (R : list Z) (Fs : list (list Z)).
Let A := files R Fs.
Hypothesis Hr : represents s own A.
Let v := (size R / BSIZE + 1) * BSIZE.
Hypothesis Hv : v <= MAXFILE * BSIZE.
Let din := set_size (inode_of (b_img s) ROOTINO) v.
Let im1 := put_inode (b_img s) ROOTINO din.
Context (d : list Z) (Hd : length d = Z.to_nat BSIZE).
Hypothesis Hbit : forall j, 0 <= j < BPB -> bit d j = (j <? b_freeblock s).
Let im := upd im1 (sb_bmapstart sb0) d.

Lemma finish_facts : shape (b_img s) /\ dinode_ok din /\ shape im1 /\ size R <= v /\ v < 2 ^ 32.
Proof.
  pose proof (io_shape _ _ (rp_img _ _ _ Hr)) as Hsh. pose proof (size_nonneg R) as HR. assert (MAXFILE * BSIZE = 71680) as Em by done.
  assert (size R <= v) as Hle by (unfold v, BSIZE; dlia).
  assert (dinode_ok din) as Hok by (eapply stored_size; [apply (fo_st _ _ _ _ _ _ (rp_file _ _ _ Hr 0 T_DIR R eq_refl))|lia]).
  split_and!; try done; [by apply put_inode_shape|lia].
Qed.
Lemma finish_sector b : 0 <= b -> b <> ib ROOTINO -> b <> sb_bmapstart sb0 -> sector im b = sector (b_img s) b.
Proof.
  intros H0 H1 H2. destruct finish_facts as (F1 & F2 & F3 & _). unfold im. rewrite sector_upd, decide_False by done. by apply put_inode_sector.
Qed.
Lemma finish_inode j : 0 <= j < NINODES -> inode_of im j = if decide (j = ROOTINO) then din else inode_of (b_img s) j.
Proof.
  intros Hj. destruct finish_facts as (F1 & F2 & F3 & _). rewrite <- put_inode_get by done. fold im1. unfold inode_of.
  pose proof (ib_range j Hj). unfold im. rewrite sector_upd by (done || lia).
  rewrite decide_False; [done|]. cbn [sb0 sb_bmapstart]. lia.
Qed.
Lemma finish_file i ty F : A !! i = Some (ty, F) ->
  stored im own (b_freeblock s) (Z.of_nat i + 1) (inode_of im (Z.of_nat i + 1)) (blocks (size F)) F /\
  di_type (inode_of im (Z.of_nat i + 1)) = ty /\ di_nlink (inode_of im (Z.of_nat i + 1)) = 1.
Proof.
  intros HF. pose proof (lookup_lt_Some _ _ _ HF) as Hlt. pose proof (rp_max _ _ _ Hr) as Hmax. destruct (rp_file _ _ _ Hr _ _ _ HF) as [G1 G2 G3 G4 G5 G6].
  destruct finish_facts as (_ & _ & _ & Hv0 & Hv1). pose proof (size_nonneg R) as HR0.
  assert (nmeta = 59 /\ sb_bmapstart sb0 = 58 /\ ib ROOTINO = 32) as (E1 & E2 & E3) by done.
  assert (stored im own (b_freeblock s) (Z.of_nat i + 1) (inode_of (b_img s) (Z.of_nat i + 1)) (blocks (size F)) F) as Hst.
  { apply (stored_frame (b_img s) _ own _ (b_freeblock s)); try done; [apply finish_sector; lia|]. intros b Hb _. apply finish_sector; lia. }
  rewrite finish_inode by lia. destruct (decide (Z.of_nat i + 1 = ROOTINO)) as [E|]; [|done].
  rewrite E in *. split; [apply stored_size; [done|lia]|]. done.
Qed.
Lemma finish_filesystem : filesystem im R Fs.
Proof.
  destruct finish_facts as (F1 & F2 & F3 & F4 & F5). pose proof (size_nonneg R) as HR0. pose proof (rp_max _ _ _ Hr) as Hmax.
  assert (nmeta = 59 /\ sb_bmapstart sb0 = 58 /\ ib ROOTINO = 32) as (E1 & E2 & E3) by done.
  assert (forall inum k, in_use A inum k -> nmeta <= block_of im (inode_of im inum) k < b_freeblock s /\ own (block_of im (inode_of im inum) k) = Data inum k) as Hu.
  { intros inum k (ty & F & HF & Hi & Hk). destruct (finish_file _ _ _ HF) as (Hst & _).
    replace (Z.of_nat (Z.to_nat (inum - 1)) + 1) with inum in Hst by lia. by apply (st_used _ _ _ _ _ _ _ Hst). }
  pose proof (io_fb _ _ (rp_img _ _ _ Hr)) as Hfb. split.
  - by apply shape_upd.
  - unfold A, files in Hmax. cbn [length] in Hmax. rewrite length_fmap in Hmax. lia.
  - intros inum k H. pose proof (Hu _ _ H) as [Hb _]. destruct H as (ty & F & HF & Hi & Hk). destruct (finish_file _ _ _ HF) as (Hst & _).
    replace (Z.of_nat (Z.to_nat (inum - 1)) + 1) with inum in Hst by lia. pose proof (st_nb _ _ _ _ _ _ _ Hst). split_and!; [lia..|].
    intros Hk'. destruct (st_ind _ _ _ _ _ _ _ Hst); lia.
  - rewrite finish_sector by lia. rewrite (rp_super _ _ _ Hr). vm_compute. reflexivity.
  - intros i F HF. assert (A !! S i = Some (T_FILE, F)) as HA.
    { change (((fun F => (T_FILE, F)) <$> Fs) !! i = Some (T_FILE, F)). rewrite list_lookup_fmap, HF. done. }
    pose proof (rp_file _ _ _ Hr _ _ _ HA) as [_ _ G3 _ _ G6]. pose proof (lookup_lt_Some _ _ _ HA) as Hlt.
    destruct (finish_file _ _ _ HA) as (Hst & Ht & Hl). replace (Z.of_nat (S i) + 1) with (Z.of_nat i + 2) in * by lia.
    assert (di_size (inode_of im (Z.of_nat i + 2)) = size F) as Es by (rewrite finish_inode, decide_False by (unfold ROOTINO; lia); done).
    cbv zeta. split; [|done]. rewrite (contents_stored _ _ _ _ _ _ _ Hst) by lia. rewrite Es, Z.sub_diag. apply app_nil_r.
  - destruct (finish_file 0 T_DIR R eq_refl) as (Hst & Ht & Hl). change (Z.of_nat 0 + 1) with ROOTINO in *.
    assert (di_size (inode_of im ROOTINO) = v) as Es by (rewrite finish_inode, decide_True by done; done).
    cbv zeta. split; [|done]. rewrite (contents_stored _ _ _ _ _ _ _ Hst) by lia. rewrite Es. do 3 f_equal. unfold v, BSIZE. dlia.
  - intros inum k inum' k' H1 H2 E. destruct (Hu _ _ H1) as [_ L1]. destruct (Hu _ _ H2) as [_ L2]. rewrite E, L2 in L1. by simplify_eq.
  - exists (b_freeblock s). split; [|intros inum k H; by apply Hu]. intros b Hb. unfold im. rewrite sector_upd, decide_True by done. by apply Hbit.
Qed.
End Finish.

(** ** The program *)
Definition root_bytes (names : list (list Z)) : list Z := entry ROOTINO (bytes ".") ++ entry ROOTINO (bytes "..") ++ entries 2 names.
Lemma entries_size names : forall k, size (entries k names) = sizeof_dirent * Z.of_nat (length names).
Proof.
  induction names as [|n names IH]; intros k; [done|]. cbn [entries length]. rewrite file_size_app, entry_size, IH. lia.
Qed.
Lemma root_size names : size (root_bytes names) = 16 * (Z.of_nat (length names) + 2).
Proof. unfold root_bytes. rewrite !file_size_app, !entry_size, entries_size. unfold sizeof_dirent. lia. Qed.

Lemma format_all : format builder0 = Ret tt (mk_builder (upd blank 1 sb_sector) sb0 1 nmeta).
Proof.
  unfold format. set (sb1 := mk_superblock _ _ _ _ _ _ _). assert (sb1 = sb0) as -> by (vm_compute; reflexivity).
  erewrite bind_Ret by reflexivity. cbn [builder0 b_freeinode].
  change (seqZ 0 FSSIZE) with (seqZ (Z.of_nat 0) (Z.of_nat (Z.to_nat FSSIZE))).
  erewrite bind_Ret by (apply format_run; done). cbn [set_img b_sb b_freeinode b_freeblock]. rewrite Nat.add_0_l. fold blank.
  erewrite bind_Ret by reflexivity. cbn [b_sb sb0 sb_size sb_nblocks sb_ninodes sb_nlog sb_logstart sb_inodestart sb_bmapstart].
  fold sb_sector. rewrite wsect_run; [done| |done]. cbn [b_img].
  split; [apply length_replicate|]. intros b Hb. rewrite blank_sector by done. apply length_replicate.
Qed.

Lemma finish_run s own R Fs : represents s own (files R Fs) -> (size R / BSIZE + 1) * BSIZE <= MAXFILE * BSIZE ->
  exists s', finish ROOTINO s = Ret tt s' /\ filesystem (b_img s') R Fs.
Proof.
  intros Hr Hv. pose proof (rp_file _ _ _ Hr 0 T_DIR R eq_refl) as [G1 G2 G3 G4 G5 G6]. change (Z.of_nat 0 + 1) with ROOTINO in *.
  pose proof (rp_img _ _ _ Hr) as Hi. pose proof (io_shape _ _ Hi) as Hsh. pose proof (io_fb _ _ Hi) as Hf. pose proof (rp_sb _ _ _ Hr) as Esb.
  pose proof (size_nonneg R) as HR. assert (MAXFILE * BSIZE = 71680) as Em by done.
  assert (0 <= (size R / BSIZE + 1) * BSIZE) as H0 by (unfold BSIZE; dlia).
  destruct (bitmap_upto (Z.to_nat (b_freeblock s))) as [Hl Hb]; [unfold FSSIZE in *; change BPB with 4096; lia|].
  rewrite Z2Nat.id in Hl, Hb by (change nmeta with 59 in *; lia).
  destruct (finish_facts s own R Fs Hr Hv _ Hl) as (_ & Hok & Hsh1 & _).
  pose proof (finish_filesystem s own R Fs Hr Hv _ Hl Hb) as Hfs. eexists. split; [|exact (Hfs : filesystem (b_img (set_img _ s)) R Fs)].
  unfold finish. erewrite bind_Ret by (apply (rinode_run (b_img s)); done). cbv zeta. rewrite G3, (xint_id (size R)), u32_small, xint_id by lia.
  erewrite bind_Ret by (apply (winode_run (b_img s)); done). erewrite bind_Ret by reflexivity. cbn [set_img b_freeblock].
  unfold balloc. destruct (Z.ltb_spec (b_freeblock s) (BSIZE * 8)); [|unfold FSSIZE, BSIZE in *; lia].
  erewrite bind_Ret by reflexivity. cbn [b_sb set_img]. rewrite Esb, wsect_run; [|done..]. reflexivity.
Qed.

Definition dots : list Z := entry ROOTINO (bytes ".") ++ entry ROOTINO (bytes "..").
Lemma root_run s own : represents s own [] -> exists s1 s2 s3 own', ialloc T_DIR s = Ret ROOTINO s1 /\
  iappend ROOTINO (entry ROOTINO (bytes ".")) s1 = Ret tt s2 /\ iappend ROOTINO (entry ROOTINO (bytes "..")) s2 = Ret tt s3 /\
  represents s3 own' [(T_DIR, dots)].
Proof.
  intros H. destruct (ialloc_run s own [] T_DIR H) as (s1 & E1 & H1); [done..|].
  assert (forall R, size R <= 32 -> nmeta + total [(T_DIR, R)] <= FSSIZE) as Hfit.
  { intros R HR. assert (blocks (size R) <= 1) as Hb by (unfold blocks, BSIZE; pose proof (size_nonneg R); dlia).
    change (nmeta + (cost (blocks (size R)) + 0) <= FSSIZE). pose proof (cost_le _ _ Hb). change (cost 1) with 1 in *. change nmeta with 59. unfold FSSIZE. lia. }
  pose proof (entry_size ROOTINO (bytes ".")) as S1. pose proof (entry_size ROOTINO (bytes "..")) as S2. unfold sizeof_dirent in *.
  assert (size [] = 0) as S0 by done. assert (MAXFILE * BSIZE = 71680) as Em by done.
  destruct (iappend_run s1 own _ 0 T_DIR [] (entry ROOTINO (bytes ".")) H1 eq_refl) as (s2 & o2 & E2 & H2);
    [rewrite file_size_app; lia|apply Hfit; rewrite file_size_app; lia|].
  destruct (iappend_run s2 o2 _ 0 T_DIR (entry ROOTINO (bytes ".")) (entry ROOTINO (bytes "..")) H2 eq_refl) as (s3 & o3 & E3 & H3);
    [rewrite file_size_app; lia|apply Hfit; rewrite file_size_app; lia|].
  exists s1, s2, s3, o3. done.
Qed.

Lemma mkfs_run h image names Fs : creates h image = true -> Forall2 (given h) names Fs ->
  fits (files (root_bytes names) Fs) ->
  exists s, main h (image :: names) builder0 = Ret tt s /\ filesystem (b_img s) (root_bytes names) Fs.
Proof.
  intros Hc Hg Hf. pose proof Hf as (_ & _ & Hcnt). unfold files in Hcnt. cbn [length] in Hcnt. rewrite length_fmap, <- (Forall2_length _ _ _ Hg) in Hcnt.
  assert (root_bytes names = dots ++ entries 2 names) as ER by (unfold root_bytes, dots; by rewrite app_assoc).
  destruct (root_run _ _ (blank_represents (fun _ => Indirect 0))) as (s1 & s2 & s3 & o3 & E1 & E2 & E3 & H3).
  destruct (names_run h names Fs Hg s3 o3 dots [] H3) as (s4 & o4 & E4 & H4).
  { change (fits (files (dots ++ entries 2 names) Fs)). by rewrite <- ER. }
  change (represents s4 o4 (files (dots ++ entries 2 names) Fs)) in H4. rewrite <- ER in H4.
  destruct (finish_run s4 o4 (root_bytes names) Fs H4) as (s5 & E5 & H5).
  { rewrite root_size. unfold NINODES in Hcnt. unfold MAXFILE, NDIRECT, NINDIRECT, BSIZE. change (512 / 4) with 128. dlia. }
  exists s5. split; [|done]. unfold main. rewrite Hc, (bind_Ret _ _ _ _ _ format_all), (bind_Ret _ _ _ _ _ E1).
  change (ROOTINO =? ROOTINO) with true. cbv iota. by rewrite (bind_Ret _ _ _ _ _ E2), (bind_Ret _ _ _ _ _ E3), (bind_Ret _ _ _ _ _ E4).
Qed.

(** C9: [mkfs] builds the file system that it was asked for.  When the files can be
    read and fit on the disk, it ends, and the image has the superblock that the
    kernel expects; the file of every argument, read through the inode with its
    number, holds exactly the bytes of the host's file; the root directory holds
    [.], [..] and one entry per file, and zeroes; no block belongs to two files or to
    two places of one, and all of them lie on the disk; and the bitmap marks exactly the
    blocks below one bound, under which they all are. *)
Theorem mkfs_builds h image names Fs : creates h image = true -> Forall2 (given h) names Fs ->
  fits (files (root_bytes names) Fs) ->
  exists s, main h (image :: names) builder0 = Ret tt s /\ filesystem (b_img s) (root_bytes names) Fs.
Proof. apply mkfs_run. Qed.

Definition sample_host : host := mk_host (fun _ => true) (fun name =>
  if decide (name = bytes "_cat") then Some [replicate 512 7; replicate 100 8] else
  if decide (name = bytes "README") then Some (replicate 14 (replicate 512 9)) else None).
(** Two files, one of them with an indirect block. *)
Lemma mkfs_builds_witness :
  let Fs := [replicate 512 7 ++ replicate 100 8; replicate (14 * 512) 9] in
  exists s, main sample_host [bytes "fs.img"; bytes "_cat"; bytes "README"] builder0 = Ret tt s /\
    filesystem (b_img s) (root_bytes [bytes "_cat"; bytes "README"]) Fs.
Proof.
  cbv zeta. apply mkfs_builds; [reflexivity| |].
  - assert (forall name : list Z, bool_decide (47 ∈ name) = false -> 47 ∉ name) as Hn by (intros name H; exact (bool_decide_eq_false_1 _ H)).
    apply Forall2_cons; split; [|apply Forall2_cons; split; [|by apply Forall2_nil]].
    + split; [apply Hn; vm_compute; reflexivity|]. exists [replicate 512 7; replicate 100 8]. split; vm_compute; reflexivity.
    + split; [apply Hn; vm_compute; reflexivity|]. exists (replicate 14 (replicate 512 9)). split; vm_compute; reflexivity.
  - split_and!; [vm_compute; discriminate| |vm_compute; reflexivity].
    apply Forall_cons; split; [|apply Forall_cons; split; [|apply Forall_cons; split; [|by apply Forall_nil]]]; vm_compute; discriminate.
Defined.
(** The inodes end before the bitmap, and [ialloc] does not look: inode 208 would lie
    in the block of the bitmap. *)
Example ialloc_unchecked : ib 199 < sb_bmapstart sb0 /\ ib 208 = sb_bmapstart sb0.
Proof. done. Qed.

End MkfsSpec.
