(* ===== verification/FsSpec.v ===== *)
(** * Reading a file system

    The read path of [fs.c] ([iget], [ilock], [bmap], [readi], [dirlookup],
    [iunlock], [iput], [namei]) run on the buffer cache and the driver with crash
    points, over a disk that holds an image as [mkfs.c] builds it: a path name finds
    the inode of its file, and the bytes that come back are the bytes of the file
    that was put in.  Nothing on the disk changes, and no run panics. *)

From S2P Require Import Prelude Mmu Bytes Mem State Spinlock Printk Critical Kalloc Vm Sched Sleeplock Disk Bio BioSpec CacheSpec Log LogSpec Inode Console Fs Mkfs MkfsSpec.

Module FsSpec.
Import MkfsSpec.

Definition inode_din (x : inode) : dinode := mk_dinode (i_type x) (i_major x) (i_minor x) (i_nlink x) (i_size x) (i_addrs x).
(** The cached buffers nobody holds have no reference and no unsaved contents. *)
Definition quiet (s : kstate) (held : list nat) : Prop :=
  forall c, (c < head)%nat -> refs s c = Some (if decide (c ∈ held) then 1 else 0, false).

(** ** Files on a disk [V] *)
Definition block_at (V : Z -> list Z) (din : dinode) (k : Z) : Z :=
  if k <? NDIRECT then Mkfs.addr din k else get32 (4 * (k - NDIRECT)) (V (Mkfs.addr din NDIRECT)).
(** [m] bytes of the file from [off] on, and all of them. *)
Definition fbytes (V : Z -> list Z) (din : dinode) (off m : Z) : list Z :=
  (fun o => nth (Z.to_nat (o mod BSIZE)) (V (block_at V din (o / BSIZE))) 0) <$> seqZ off m.
Definition fcontents (V : Z -> list Z) (din : dinode) : list Z := fbytes V din 0 (di_size din).
Definition inode_at (V : Z -> list Z) (inum : Z) : dinode := get_dinode (dinode_off inum) (V (ib inum)).
(** The first [sz] bytes of the file have their blocks. *)
Record readable (V : Z -> list Z) (din : dinode) (sz : Z) : Prop := mk_readable {
  rd_addrs : length (di_addrs din) = Z.to_nat (NDIRECT + 1);
  rd_blocks : forall k, 0 <= k -> k * BSIZE < sz -> k < MAXFILE /\ 0 < block_at V din k < FSSIZE /\
    length (V (block_at V din k)) = Z.to_nat BSIZE /\ (NDIRECT <= k -> 0 < Mkfs.addr din NDIRECT < FSSIZE) }.

Section Read.
Context (i : nat) (n : Z) (ip : nat) (p : proc) (Hst : p_state p <> SLEEPING).
(** What the kernel sees of the disk, and what is on it; [G] holds of the disk. *)
Context (V Dk : Z -> list Z) (G : (Z -> list Z) -> Prop) (HG : G Dk) (bad : string -> Prop).
Notation run := (wp G bad).
Notation cache s held := (cache i n ip p s held V Dk).

(** The kernel between two operations on files: the disk is [V], the table
    of inodes is [I], and of its sleep locks the process has exactly those of [lk]. *)
Record fsys (s : kstate) (I : list inode) (lk : list nat) : Prop := mk_fsys {
  fy_cache : cache s [];
  fy_quiet : bad "bget: no buffers" \/ quiet s [];
  fy_sb : k_sb s = sb0;
  fy_inodes : k_inodes s = I;
  fy_icache : unlocked Lk_icache s;
  fy_inner : forall j, unlocked (Lk_sleep (Sl_inode j)) s;
  fy_mine : forall j, j ∈ lk -> sl_locked (k_slocks s (Sl_inode j)) = 1 /\ sl_pid (k_slocks s (Sl_inode j)) = p_pid p;
  fy_free : forall j, j ∉ lk -> sl_locked (k_slocks s (Sl_inode j)) = 0 }.

Lemma fsys_rest s t I lk : fsys s I lk -> rest s t -> cache t [] -> bad "bget: no buffers" \/ quiet t [] -> fsys t I lk.
Proof.
  intros [H1 H2 H3 H4 H5 H6 H7 H8] HR Hc Hq. split; try done.
  - rewrite (HR _ k_sb) by cache_free_tac. done.
  - rewrite (HR _ k_inodes) by cache_free_tac. done.
  - unfold unlocked. by rewrite (rest_lock _ _ HR).
  - intros j. unfold unlocked. rewrite (rest_lock _ _ HR) by done. apply H6.
  - intros j Hj. rewrite (rest_inode _ _ HR). by apply H7.
  - intros j Hj. rewrite (rest_inode _ _ HR). by apply H8.
Qed.

(** ** One block at a time *)
(** Buffer [b] is locked and holds block [k]; nothing else has changed since [s]. *)
Record busy (s t : kstate) (b : nat) (k : Z) : Prop := mk_busy {
  bz_cache : cache t [b];
  bz_quiet : bad "bget: no buffers" \/ quiet t [b];
  bz_buf : (b < head)%nat;
  bz_blk : exists d, blk t b = Some (k, d) /\ (V k = Dk k \/ d = true);
  bz_rest : rest s t }.

Lemma bread_fs s I lk k (Q : nat -> kstate -> Prop) :
  fsys s I lk -> 0 <= k < FSSIZE -> (forall b t, busy s t b k -> Q b t) -> run (bread (D := crash_driver) 1 k) s Q.
Proof.
  intros Hf Hk HQ. pose proof (fy_quiet _ _ _ Hf) as Hq. apply (bread_spec i n ip p _ _ s [] V Dk k); try done; [apply Hf|set_solver| |].
  { destruct Hq as [Hq|Hq]; [by left|right]. exists 0%nat. assert (0 < head)%nat as H0 by (apply Nat.ltb_lt; reflexivity).
    split; [done|]. by rewrite (Hq _ H0). }
  intros b t z Hc _ Hb Hz Ez _ Hcl Hr Ho HR. apply HQ. split; [done| |done| |done].
  - destruct Hq as [Hq|Hq]; [by left|right]. rewrite (Hq b Hb), decide_False in Hr by set_solver.
    intros c Hcb. destruct (decide (c = b)) as [->|Hne]; [by rewrite Hr, decide_True by set_solver|].
    unfold refs. rewrite (Ho c Hne). fold (refs s c). rewrite (Hq c Hcb), !decide_False by set_solver. done.
  - exists (flag z B_DIRTY). split; [|done]. unfold blk. rewrite Hz. simpl. by rewrite Ez.
Qed.
Lemma get_data_fs s t b k : busy s t b k -> get_data b t = Ret (V k) t.
Proof. intros [H1 H2 H3 (d & H4 & _) H5]. eapply get_data_run; [exact H1|done|set_solver|exact H4]. Qed.
Lemma brelse_fs s I lk t b k (Q : unit -> kstate -> Prop) :
  fsys s I lk -> busy s t b k -> (forall t', fsys t' I lk -> rest s t' -> Q tt t') -> run (brelse b) t Q.
Proof.
  intros Hf [H1 H2 H3 (d & H4 & Hcl) H5] HQ. destruct (held_buf i n ip p t [b] V Dk b H1 H3) as (x & Hx & _); [set_solver|].
  unfold blk in H4. rewrite Hx in H4. injection H4 as <- <-.
  eapply (brelse_spec i n ip p Hst _ _ t [b] []); [done|done|set_solver|done| |done|].
  - intros c. rewrite list_elem_of_singleton. split; [set_solver|]. tauto.
  - intros t' Hc _ HR Hrf. assert (rest s t') as HRs by (by transitivity t). apply HQ; [|done]. apply (fsys_rest s); [done|done|done|]. destruct H2 as [H2|H2]; [by left|right].
    intros c Hcb. rewrite Hrf, (H2 c Hcb). rewrite (decide_False (P := c ∈ [])) by set_solver.
    destruct (decide (c = b)) as [->|Hne]; [rewrite decide_True by set_solver|rewrite decide_False by set_solver]; done.
Qed.

Lemma inode_fs s I lk j x : fsys s I lk -> I !! j = Some x -> get_inode j s = Ret x s.
Proof. intros Hf Hj. apply get_inode_ok. by rewrite (fy_inodes _ _ _ Hf). Qed.
Lemma get_addr_fs s I lk j x k : fsys s I lk -> I !! j = Some x -> length (i_addrs x) = Z.to_nat (NDIRECT + 1) -> 0 <= k <= NDIRECT ->
  get_addr j k s = Ret (Mkfs.addr (inode_din x) k) s.
Proof.
  intros Hf Hj Hl Hk. unfold get_addr. run (inode_fs s I lk j x Hf Hj). unfold Mkfs.addr. simpl.
  destruct (lookup_lt_is_Some_2 (i_addrs x) (Z.to_nat k)) as [v Hv]; [lia|]. rewrite (nth_lookup_Some _ _ _ _ Hv), Hv. done.
Qed.

(** ** [bmap]: the block of a file that has been allocated *)
Lemma bmap_fs s I lk j x sz k (Q : Z -> kstate -> Prop) :
  fsys s I lk -> I !! j = Some x -> i_dev x = 1 -> readable V (inode_din x) sz -> 0 <= k -> k * BSIZE < sz ->
  (forall t, fsys t I lk -> rest s t -> Q (block_at V (inode_din x) k) t) -> run (bmap (D := crash_driver) j k) s Q.
Proof.
  intros Hf Hj Hd [Hl Hb] H0 Hk HQ. destruct (Hb k H0 Hk) as (Hm & Hr & _ & Hi). simpl in Hl.
  pose proof (fun k => get_addr_fs s I lk j x k Hf Hj Hl) as Ha.
  unfold bmap. eapply wp_step; [by eapply inode_fs|]. unfold block_at in *. destruct (Z.ltb_spec k NDIRECT) as [Hlt|Hge].
  - eapply wp_step; [apply Ha; lia|]. destruct (Z.eqb_spec (Mkfs.addr (inode_din x) k) 0); [lia|]. eapply wp_run; [done|]. by apply HQ.
  - assert (MAXFILE = NDIRECT + NINDIRECT) as EM by done. destruct (Z.ltb_spec (k - NDIRECT) NINDIRECT); [|lia].
    specialize (Hi Hge). eapply wp_step; [apply Ha; unfold NDIRECT; lia|]. eapply wp_step.
    { destruct (Z.eqb_spec (Mkfs.addr (inode_din x) NDIRECT) 0); [lia|reflexivity]. }
    rewrite Hd. apply wp_bind. eapply bread_fs; [exact Hf|lia|]. intros b t Hbz.
    eapply wp_step; [by eapply get_data_fs|]. eapply wp_step.
    { destruct (Z.eqb_spec (get32 (4 * (k - NDIRECT)) (V (Mkfs.addr (inode_din x) NDIRECT))) 0); [lia|reflexivity]. }
    apply wp_bind. eapply brelse_fs; [exact Hf|exact Hbz|]. intros t' Hf' HR. eapply wp_run; [done|]. by apply HQ.
Qed.
(** ** [readi] *)
Lemma fbytes_chunk din off m : 0 <= off -> 0 <= m -> off mod BSIZE + m <= BSIZE -> length (V (block_at V din (off / BSIZE))) = Z.to_nat BSIZE ->
  slice (off mod BSIZE) m (V (block_at V din (off / BSIZE))) = fbytes V din off m.
Proof.
  intros H0 Hm Hle Hl. pose proof (Z.mod_pos_bound off BSIZE ltac:(done)) as Hb. unfold fbytes, slice.
  apply list_eq. intros c. rewrite list_lookup_fmap. destruct (decide (Z.of_nat c < m)) as [Hc|Hc].
  - rewrite lookup_take_lt, lookup_drop, lookup_seqZ_lt by lia. simpl.
    replace ((off + Z.of_nat c) / BSIZE) with (off / BSIZE) by (unfold BSIZE in *; dlia).
    replace ((off + Z.of_nat c) mod BSIZE) with (off mod BSIZE + Z.of_nat c) by (unfold BSIZE in *; dlia).
    rewrite Z2Nat.inj_add, Nat2Z.id by lia.
    destruct (lookup_lt_is_Some_2 (V (block_at V din (off / BSIZE))) (Z.to_nat (off mod BSIZE) + c)) as [v Hv]; [lia|].
    by rewrite Hv, (nth_lookup_Some _ _ _ _ Hv).
  - rewrite lookup_seqZ_ge by lia. apply lookup_ge_None. rewrite length_take. lia.
Qed.
Lemma fbytes_app din off a b : 0 <= a -> 0 <= b -> fbytes V din off a ++ fbytes V din (off + a) b = fbytes V din off (a + b).
Proof. intros. unfold fbytes. rewrite <- fmap_app. f_equal. symmetry. by apply seqZ_app. Qed.
Lemma fbytes_contents din off m : 0 <= off -> 0 <= m -> off + m <= di_size din -> fbytes V din off m = slice off m (fcontents V din).
Proof.
  intros H0 Hm Hs. unfold fcontents, fbytes, slice. rewrite <- fmap_drop, <- fmap_take. f_equal.
  replace (seqZ 0 (di_size din)) with (seqZ 0 off ++ seqZ off (m + (di_size din - off - m))).
  - rewrite drop_app_ge, length_seqZ, Nat.sub_diag, drop_0 by (rewrite length_seqZ; lia).
    rewrite seqZ_app, take_app_le, take_ge by (rewrite ?length_seqZ; lia). done.
  - change off with (0 + off) at 2. rewrite <- seqZ_app by lia. f_equal. lia.
Qed.

Lemma readi_loop_fs I lk j x sz N fuel : I !! j = Some x -> i_dev x = 1 -> readable V (inode_din x) sz ->
  forall s tot off acc (Q : list Z -> kstate -> Prop), fsys s I lk -> 0 <= off -> 0 <= tot <= N -> off + (N - tot) <= sz -> N - tot <= Z.of_nat fuel ->
  (forall t, fsys t I lk -> Q (acc ++ fbytes V (inode_din x) off (N - tot)) t) ->
  run (readi_loop (D := crash_driver) fuel j no_store tot off N acc) s Q.
Proof.
  intros Hj Hd Hrd. induction fuel as [|fuel IH]; intros s tot off acc Q Hf H0 Ht Hsz Hfu HQ; cbn [readi_loop].
  - assert (tot = N) as -> by lia. rewrite Z.ltb_irrefl. eapply wp_run; [done|]. specialize (HQ s Hf). rewrite Z.sub_diag in HQ.
    by rewrite app_nil_r in HQ.
  - destruct (Z.ltb_spec tot N) as [Hlt|Hge].
    2: { assert (tot = N) as -> by lia. eapply wp_run; [done|]. specialize (HQ s Hf). rewrite Z.sub_diag in HQ. by rewrite app_nil_r in HQ. }
    assert (0 < BSIZE) as HB by done. pose proof (Z.mod_pos_bound off BSIZE HB) as Hm. set (m := Z.min (N - tot) (BSIZE - off mod BSIZE)).
    assert (0 <= off / BSIZE /\ off / BSIZE * BSIZE < sz) as [Hk0 Hk] by (unfold BSIZE in *; dlia).
    destruct (rd_blocks _ _ _ Hrd _ Hk0 Hk) as (_ & Hb & Hlb & _).
    eapply wp_step; [by eapply inode_fs|]. apply wp_bind. eapply bmap_fs; try done. intros t1 Hf1 _. rewrite Hd.
    apply wp_bind. eapply bread_fs; [exact Hf1|lia|]. intros b t2 Hbz. eapply wp_step; [by eapply get_data_fs|]. fold m.
    rewrite fbytes_chunk by (done || lia). eapply wp_step; [done|].
    apply wp_bind. eapply brelse_fs; [exact Hf1|exact Hbz|]. intros t3 Hf3 _. apply IH; try (done || lia).
    intros t Hft. rewrite <- app_assoc, fbytes_app by lia. replace (m + (N - (tot + m))) with (N - tot) by lia. by apply HQ.
Qed.

(** The bytes from [off] on, as many as asked for and there are. *)
Lemma readi_fs s I lk j x sz off N (Q : Z * list Z -> kstate -> Prop) :
  fsys s I lk -> I !! j = Some x -> i_dev x = 1 -> i_type x <> T_DEV -> readable V (inode_din x) sz ->
  0 <= off <= i_size x -> 0 <= N < 2 ^ 31 -> off + N < 2 ^ 32 -> off + Z.min N (i_size x - off) <= sz ->
  (forall t, fsys t I lk -> Q (Z.min N (i_size x - off), slice off (Z.min N (i_size x - off)) (fcontents V (inode_din x))) t) ->
  run (readi (D := crash_driver) j no_store off N) s Q.
Proof.
  intros Hf Hj Hd Hty Hrd Ho HN Hov Hsz HQ. unfold readi. eapply wp_step; [by eapply inode_fs|].
  destruct (Z.eqb_spec (i_type x) T_DEV); [done|]. rewrite u32_small by lia.
  destruct (Z.ltb_spec (i_size x) off); [lia|]. destruct (Z.ltb_spec (off + N) off); [lia|]. cbn [orb].
  set (N' := if i_size x <? off + N then i_size x - off else N).
  assert (N' = Z.min N (i_size x - off)) as E by (unfold N'; destruct (Z.ltb_spec (i_size x) (off + N)); lia). clearbody N'. rewrite <- E in *.
  apply wp_bind. eapply (readi_loop_fs I lk j x sz N'); try (done || lia). intros t Hft. rewrite Z.sub_0_r, app_nil_l.
  eapply wp_run; [done|]. rewrite s32_small by lia. rewrite fbytes_contents by (done || simpl; lia). by apply HQ.
Qed.
(** ** Locks and slots of inodes *)
Lemma cache_data_slocks pid bs sl sl' held V' Dk' :
  cache_data pid bs sl held V' Dk' -> (forall b, sl' (Sl_buf b) = sl (Sl_buf b)) -> cache_data pid bs sl' held V' Dk'.
Proof.
  intros [H1 H2 H3 H4] E. split; try done. intros b x Hb Hx. destruct (H2 b x Hb Hx) as [B1 B2 B3 B4 B5]. split; rewrite ?E; done.
Qed.
(** An operation on the inodes that leaves the buffers, the disk and the locks that
    were free. *)
Lemma fsys_move s t I I' lk lk' : fsys s I lk -> thread t i n ip p -> (forall l, l <> Lk_ptable -> unlocked l s -> unlocked l t) ->
  k_bufs t = k_bufs s -> hw_disk (k_hw t) = hw_disk (k_hw s) -> k_disksize t = k_disksize s -> k_sb t = k_sb s -> k_inodes t = I' ->
  (forall b, k_slocks t (Sl_buf b) = k_slocks s (Sl_buf b)) ->
  (forall j, j ∈ lk' -> sl_locked (k_slocks t (Sl_inode j)) = 1 /\ sl_pid (k_slocks t (Sl_inode j)) = p_pid p) ->
  (forall j, j ∉ lk' -> sl_locked (k_slocks t (Sl_inode j)) = 0) -> fsys t I' lk'.
Proof.
  intros [[C1 C2 C3 C4 C5 C6] H2 H3 H4 H5 H6 H7 H8] HT Hl Eb Ed Ez Es Ei Hsl Hm Hf. split; try done.
  - split; try congruence; [by apply Hl|intros b; by apply Hl|rewrite Eb; by eapply cache_data_slocks].
  - destruct H2 as [H2|H2]; [by left|right]. intros c Hc. unfold refs. rewrite Eb. by apply H2.
  - congruence.
  - by apply Hl.
  - intros j. by apply Hl.
Qed.
Lemma fsys_data s t I I' lk : fsys s I lk -> on_cpu t i n (Some ip) -> same_locks Lk_icache s t -> unlocked Lk_icache t ->
  same_data (set_k_inodes I' s) t -> fsys t I' lk.
Proof.
  intros Hf Hc Hl Hu Hd. pose proof (ca_thread _ _ _ _ _ _ _ _ (fy_cache _ _ _ Hf)) as HT.
  assert (k_slocks t = k_slocks s) as Es by (apply (Hd _ k_slocks); eauto with frame).
  eapply (fsys_move s); [exact Hf| | |apply (Hd _ k_bufs)|apply (Hd _ (fun s => hw_disk (k_hw s)))|apply (Hd _ k_disksize)|
    apply (Hd _ k_sb)|apply (Hd _ k_inodes)|by rewrite Es|rewrite Es; apply Hf|rewrite Es; apply Hf]; eauto with frame.
  - apply (thread_ext s); [done|done|apply (Hd _ k_procs); eauto with frame|by apply Hl].
  - intros l _ Hs. destruct (decide (l = Lk_icache)) as [->|]; [done|]. unfold unlocked. by rewrite Hl.
Qed.

Lemma acquiresleep_fs s I lk j : fsys s I lk -> j ∉ lk -> exists t, acquiresleep (Sl_inode j) s = Ret tt t /\ fsys t I (j :: lk).
Proof.
  intros Hf Hj. pose proof Hf as [[HT _ _ _ _ _] _ _ Hi _ Hin Hm Hfr].
  destruct (acquiresleep_run s i n ip p (Sl_inode j) HT (Hin j) (Hfr j Hj)) as (t & Hr & HTt & Hu & Hl & f & Hsl & Hd).
  assert (k_slocks t = f) as Es by (apply (Hd _ k_slocks); eauto with frame). exists t. split; [done|].
  eapply (fsys_move s); [exact Hf|done| |apply (Hd _ k_bufs)|apply (Hd _ (fun s => hw_disk (k_hw s)))|apply (Hd _ k_disksize)|
    apply (Hd _ k_sb)| |..]; eauto with frame; rewrite ?Es.
  - intros l _ Hs. destruct (decide (l = Lk_sleep (Sl_inode j))) as [->|]; [done|]. unfold unlocked. by rewrite Hl.
  - rewrite (Hd _ k_inodes) by eauto with frame. done.
  - intros b. by rewrite Hsl.
  - intros c Hc. rewrite Hsl. destruct (decide (Sl_inode c = Sl_inode j)) as [E|Hne]; [done|]. apply Hm. set_solver.
  - intros c Hc. rewrite Hsl. destruct (decide (Sl_inode c = Sl_inode j)) as [E|Hne]; [set_solver|]. apply Hfr. set_solver.
Qed.
Lemma releasesleep_fs s I lk lk' j : fsys s I lk -> (forall c, c ∈ lk' <-> c ∈ lk /\ c <> j) ->
  exists t, releasesleep (Sl_inode j) s = Ret tt t /\ fsys t I lk'.
Proof.
  intros Hf Hlk. pose proof Hf as [[HT _ _ _ _ _] _ _ Hi _ Hin Hm Hfr].
  destruct (releasesleep_run s i n ip p (Sl_inode j) HT (Hin j) Hst) as (t & Hr & HTt & Hu & Hl & f & Hsl & Hd).
  assert (k_slocks t = f) as Es by (apply (Hd _ k_slocks); eauto with frame). exists t. split; [done|].
  eapply (fsys_move s); [exact Hf|done| |apply (Hd _ k_bufs)|apply (Hd _ (fun s => hw_disk (k_hw s)))|apply (Hd _ k_disksize)|
    apply (Hd _ k_sb)| |..]; eauto with frame; rewrite ?Es.
  - intros l Hp Hs. destruct (decide (l = Lk_sleep (Sl_inode j))) as [->|]; [done|]. unfold unlocked. by rewrite Hl.
  - rewrite (Hd _ k_inodes) by eauto with frame. done.
  - intros b. by rewrite Hsl.
  - intros c [Hc Hne]%Hlk. rewrite Hsl. destruct (decide (Sl_inode c = Sl_inode j)) as [E|_]; [congruence|]. by apply Hm.
  - intros c Hc. rewrite Hsl. destruct (decide (Sl_inode c = Sl_inode j)) as [E|Hne]; [done|]. apply Hfr. intros H. apply Hc, Hlk. split; congruence.
Qed.

Lemma fsys_inodes s I I' lk : fsys s I lk -> fsys (set_k_inodes I' s) I' lk.
Proof.
  intros Hf. pose proof (ca_thread _ _ _ _ _ _ _ _ (fy_cache _ _ _ Hf)) as HT. apply (fsys_data s _ I); try done.
  - apply (on_cpu_ext s); try done. apply HT.
  - apply Hf.
Qed.
Lemma rest_inodes v s t : rest s t -> rest (set_k_inodes v s) (set_k_inodes v t).
Proof.
  intros HR. split; [|apply HR..]. intros B f [[L1 L2 L3] H1 H2 H3 H4].
  apply (HR _ (fun s => f (set_k_inodes v s))). split; [split|..]; intros w u;
    [apply (L1 w (set_k_inodes v u))|apply (L2 w (set_k_inodes v u))|apply (L3 w (set_k_inodes v u))|apply (H1 w (set_k_inodes v u))|
     apply (H2 w (set_k_inodes v u))|apply (H3 w (set_k_inodes v u))|apply (H4 w (set_k_inodes v u))].
Qed.
Lemma busy_inodes v s t b k : busy s t b k -> busy (set_k_inodes v s) (set_k_inodes v t) b k.
Proof.
  intros [[C1 C2 C3 C4 C5 C6] H2 H3 H4 H5]. split; try done; [|by apply rest_inodes].
  split; try done. apply (thread_ext t); try done. apply (on_cpu_ext t); try done. apply C1.
Qed.

(** The slot with the contents of the inode on the disk. *)
Definition fill_slot (x : inode) : inode :=
  let dip := inode_at V (i_inum x) in
  set_i_addrs (di_addrs dip) (set_i_size (di_size dip) (set_i_nlink (di_nlink dip)
    (set_i_minor (di_minor dip) (set_i_major (di_major dip) (set_i_type (di_type dip) x))))).
Definition loaded (x : inode) : inode := if i_valid x =? 0 then set_i_valid 1 (fill_slot x) else x.

Lemma ilock_fs s I lk j x (Q : unit -> kstate -> Prop) : fsys s I lk -> j ∉ lk -> I !! j = Some x -> 0 < i_ref x -> i_dev x = 1 ->
  0 <= i_inum x < Mkfs.NINODES -> di_type (inode_at V (i_inum x)) <> 0 ->
  (forall t, fsys t (<[j := loaded x]> I) (j :: lk) -> Q tt t) -> run (ilock (D := crash_driver) (Some j)) s Q.
Proof.
  intros Hf Hj Hx Hr Hd Hin Hty HQ. unfold ilock. eapply wp_step; [by eapply inode_fs|]. destruct (Z.ltb_spec (i_ref x) 1); [lia|].
  destruct (acquiresleep_fs s I lk j Hf Hj) as (t & Ha & Hft). eapply wp_step; [exact Ha|]. eapply wp_step; [by eapply inode_fs|].
  unfold loaded in HQ. destruct (Z.eqb_spec (i_valid x) 0) as [Hv|Hv]; cbn [when].
  2: { eapply wp_run; [done|]. apply HQ. by rewrite list_insert_id. }
  assert (j < length I)%nat as Hlt by (by eapply lookup_lt_Some). destruct (ib_low (i_inum x) Hin) as [Hib1 Hib2].
  eapply wp_step; [done|]. rewrite (fy_sb _ _ _ Hft), IBLOCK_ib, Hd by done. apply wp_bind. eapply bread_fs; [exact Hft|lia|]. intros b t1 Hbz.
  eapply wp_step; [by eapply get_data_fs|]. cbv zeta. fold (inode_at V (i_inum x)).
  assert (k_inodes t1 = I) as E1 by (rewrite (bz_rest _ _ _ _ Hbz _ k_inodes) by cache_free_tac; apply Hft).
  eapply wp_step; [apply upd_inode_ok; rewrite E1; exact Hx|]. rewrite E1. fold (fill_slot x).
  set (v := <[j := fill_slot x]> I). apply wp_bind. eapply (brelse_fs (set_k_inodes v t) v (j :: lk)); [by eapply fsys_inodes|by apply busy_inodes|].
  intros t2 Hf2 _. assert (v !! j = Some (fill_slot x)) as Hv2 by (by apply list_lookup_insert_eq).
  eapply wp_step; [apply upd_inode_ok; rewrite (fy_inodes _ _ _ Hf2); exact Hv2|]. rewrite (fy_inodes _ _ _ Hf2). unfold v. rewrite list_insert_insert_eq.
  set (w := <[j := set_i_valid 1 (fill_slot x)]> I). pose proof (fsys_inodes t2 _ w _ Hf2) as Hf3.
  eapply wp_step; [eapply inode_fs; [exact Hf3|by apply list_lookup_insert_eq]|]. change (i_type (set_i_valid 1 (fill_slot x))) with (di_type (inode_at V (i_inum x))).
  destruct (Z.eqb_spec (di_type (inode_at V (i_inum x))) 0); [done|].
  eapply wp_run; [done|]. by apply HQ.
Qed.

Lemma iunlock_fs s I lk lk' j x (Q : unit -> kstate -> Prop) : fsys s I lk -> j ∈ lk -> I !! j = Some x -> 0 < i_ref x ->
  (forall c, c ∈ lk' <-> c ∈ lk /\ c <> j) -> (forall t, fsys t I lk' -> Q tt t) -> run (iunlock (Some j)) s Q.
Proof.
  intros Hf Hj Hx Hr Hlk HQ. pose proof Hf as [[HT _ _ _ _ _] _ _ Hi _ Hin Hm Hfr]. destruct (Hm j Hj) as [M1 M2].
  destruct (holdingsleep_run s i n ip p (Sl_inode j) HT (Hin j)) as (s1 & Hh & HT1 & Hu1 & Hl1 & Hd1). rewrite M1, M2, Z.eqb_refl in Hh.
  assert (fsys s1 I lk) as Hf1.
  { assert (k_slocks s1 = k_slocks s) as Es by (apply (Hd1 _ k_slocks); eauto with frame).
    eapply (fsys_move s); [exact Hf|done| |apply (Hd1 _ k_bufs)|apply (Hd1 _ (fun s => hw_disk (k_hw s)))|apply (Hd1 _ k_disksize)|
      apply (Hd1 _ k_sb)|rewrite (Hd1 _ k_inodes)|by rewrite Es|by rewrite Es|by rewrite Es]; eauto with frame.
    intros l _ Hs. destruct (decide (l = Lk_sleep (Sl_inode j))) as [->|]; [done|]. unfold unlocked. by rewrite Hl1. }
  unfold iunlock. eapply wp_step; [exact Hh|]. cbn [truth negb Z.eqb andb]. eapply wp_step; [by eapply inode_fs|].
  destruct (Z.ltb_spec (i_ref x) 1); [lia|]. destruct (releasesleep_fs s1 I lk lk' j Hf1 Hlk) as (t & Hrs & Hft).
  eapply wp_run; [exact Hrs|]. by apply HQ.
Qed.

(** Dropping a reference to a file that has a link. *)
Definition one_less (x : inode) : inode := set_i_ref (i_ref x - 1) x.
Lemma iput_fs s I lk j x (Q : unit -> kstate -> Prop) : fsys s I lk -> j ∉ lk -> I !! j = Some x -> i_nlink x <> 0 ->
  (forall t, fsys t (<[j := one_less x]> I) lk -> Q tt t) -> run (iput (D := crash_driver) j) s Q.
Proof.
  intros Hf Hj Hx Hn HQ. destruct (acquiresleep_fs s I lk j Hf Hj) as (s1 & Ha & Hf1).
  destruct (releasesleep_fs s1 I (j :: lk) lk j Hf1) as (s2 & Hr & Hf2); [set_solver|].
  unfold iput. eapply wp_step; [exact Ha|]. eapply wp_step; [by eapply inode_fs|].
  destruct (Z.eqb_spec (i_nlink x) 0); [done|]. rewrite andb_false_r. eapply wp_step; [done|]. eapply wp_step; [exact Hr|].
  pose proof (ca_thread _ _ _ _ _ _ _ _ (fy_cache _ _ _ Hf2)) as HT.
  destruct (acquire_cpu s2 i n (Some ip) Lk_icache (th_cpu _ _ _ _ _ HT) (fy_icache _ _ _ Hf2)) as (s3 & Ha3 & Hc3 & Hh3 & Hl3 & Hd3).
  assert (k_inodes s3 = I) as E3 by (rewrite (Hd3 _ k_inodes) by eauto with frame; apply Hf2).
  eapply wp_step; [exact Ha3|]. eapply wp_step; [apply upd_inode_ok; rewrite E3; exact Hx|]. rewrite E3. fold (one_less x).
  destruct (icache_leave s2 s3 i n (Some ip) (<[j := one_less x]> I) Hc3 (th_depth _ _ _ _ _ HT) Hh3 Hl3 Hd3) as (t & Ht & Hct & Hut & Hlt & Hdt).
  eapply wp_run; [exact Ht|]. apply HQ. by eapply (fsys_data s2).
Qed.

(** A reference to an inode, when a slot is free: slot [k] has one more. *)
Definition got (I : list inode) (inum : Z) (k : nat) (I' : list inode) : Prop :=
  exists x x', I !! k = Some x /\ I' = <[k := x']> I /\ icache_inv I' /\
    (caches x 1 inum = true /\ x' = one_more x \/ i_ref x = 0 /\ x' = claimed 1 inum x).
Definition free_slot (I : list inode) : Prop := exists k x, I !! k = Some x /\ i_ref x = 0.
Lemma iget_fs s I lk inum (Q : nat -> kstate -> Prop) : fsys s I lk -> icache_inv I -> free_slot I ->
  (forall k I' t, got I inum k I' -> fsys t I' lk -> Q k t) -> run (iget 1 inum) s Q.
Proof.
  intros Hf HI (e & y & He & Hy) HQ. pose proof (ca_thread _ _ _ _ _ _ _ _ (fy_cache _ _ _ Hf)) as HT. pose proof (fy_inodes _ _ _ Hf) as Ei.
  pose proof (iget_run s i n (Some ip) 1 inum) as H. rewrite Ei in H. specialize (H HI (th_cpu _ _ _ _ _ HT) (th_depth _ _ _ _ _ HT) (fy_icache _ _ _ Hf)).
  unfold wp. destruct (iget 1 inum s) as [k t| | | | |]; try done; cbn [safe].
  - destruct H as (x & x' & Hk & HI' & Hx & Hc & Hu & Hl & Hd). apply (HQ k (<[k := x']> I) t); [by exists x, x'|by eapply fsys_data].
  - destruct H as [_ H]. by destruct (H e y He).
Qed.

(** ** The table of inodes agrees with the disk *)
(** Slot [x] is in use for inode [inum]. *)
Record names_inode (x : inode) (inum : Z) : Prop := mk_names_inode {
  ni_ref : 0 < i_ref x;
  ni_dev : i_dev x = 1;
  ni_inum : i_inum x = inum;
  ni_valid : i_valid x <> 0 -> inode_din x = inode_at V inum }.
Definition fresh (I : list inode) : Prop :=
  forall k x, I !! k = Some x -> 0 < i_ref x -> i_dev x = 1 -> i_valid x <> 0 -> inode_din x = inode_at V (i_inum x).
Lemma got_slot I inum k I' : fresh I -> got I inum k I' ->
  exists x', I' !! k = Some x' /\ names_inode x' inum /\ fresh I' /\ icache_inv I' /\ (forall c, c <> k -> I' !! c = I !! c).
Proof.
  intros HF (x & x' & Hk & -> & HI & Hx). exists x'. assert (k < length I)%nat as Hlt by (by eapply lookup_lt_Some).
  assert (names_inode x' inum) as Hn.
  { destruct Hx as [[(Hr & Hd & Hi)%caches_true ->]|[Hr ->]]; [|by split].
    split; simpl; try (done || lia). intros Hv. rewrite <- Hi. by apply (HF k x). }
  split; [by apply list_lookup_insert_eq|]. split; [done|]. split; [|split; [done|intros c Hc; by apply list_lookup_insert_ne]].
  intros c y [(<- & <- & _)|[Hne Hy]]%list_lookup_insert_Some Hr Hd Hv; [|by eapply HF].
  rewrite (ni_inum _ _ Hn). by apply Hn.
Qed.
Lemma got_other I inum k I' r y : got I inum k I' -> I !! r = Some y -> 0 < i_ref y -> i_inum y <> inum -> k <> r.
Proof. intros (x & x' & Hk & _ & _ & [[(_ & _ & Hi)%caches_true _]|[H0 _]]) Hr Hp Hne ->; simplify_eq; lia. Qed.
Lemma loaded_names x inum : names_inode x inum -> names_inode (loaded x) inum /\ inode_din (loaded x) = inode_at V inum /\ i_ref (loaded x) = i_ref x.
Proof.
  intros [H1 H2 H3 H4]. unfold loaded. destruct (Z.eqb_spec (i_valid x) 0) as [Hv|Hv].
  - rewrite <- H3. split; [by split|done].
  - split; [by split|]. split; [by apply H4|done].
Qed.
(** Replacing a slot by one for the same inode. *)
Lemma table_same I k x y : icache_inv I -> fresh I -> I !! k = Some x -> names_inode x (i_inum x) -> names_inode y (i_inum x) ->
  icache_inv (<[k := y]> I) /\ fresh (<[k := y]> I).
Proof.
  intros HI HF Hk Hx Hy. split.
  - apply icache_inv_insert; [done|destruct Hy; lia|]. intros j z Hj Hne. destruct (caches z (i_dev y) (i_inum y)) eqn:Ez; [|done].
    apply caches_true in Ez as (Z1 & Z2 & Z3). exfalso. apply Hne. destruct Hx, Hy. by apply (ic_once _ HI j k z x); congruence || lia.
  - intros c z [(<- & <- & _)|[Hne Hz]]%list_lookup_insert_Some Hr Hd Hv; [|by eapply HF]. rewrite (ni_inum _ _ Hy). by apply Hy.
Qed.

(** ** [dirlookup] *)
Definition record (e : Z * list Z) : list Z := Mkfs.entry (fst e) (snd e).
Definition entry_ok (e : Z * list Z) : Prop := 0 < fst e < 2 ^ 16 /\ 0 ∉ snd e.
Lemma record_at es : forall k e pad, es !! k = Some e -> slice (sizeof_dirent * Z.of_nat k) sizeof_dirent (concat (record <$> es) ++ pad) = record e.
Proof.
  assert (forall e, length (record e) = Z.to_nat sizeof_dirent) as Hl by (intros e; pose proof (entry_size (fst e) (snd e)) as H; unfold size in H; unfold record; lia).
  unfold slice. induction es as [|a es IH]; intros k e pad Hk; [done|]. cbn [fmap list_fmap concat]. rewrite <- app_assoc. destruct k as [|k].
  - injection Hk as ->. rewrite Z.mul_0_r, drop_0, <- (Hl e), take_app_length. done.
  - replace (Z.to_nat (sizeof_dirent * Z.of_nat (S k))) with (length (record a) + Z.to_nat (sizeof_dirent * Z.of_nat k))%nat
      by (rewrite Hl; unfold sizeof_dirent; lia). rewrite drop_app_add. by apply IH.
Qed.
Lemma records_size es : size (concat (record <$> es)) = sizeof_dirent * Z.of_nat (length es).
Proof.
  induction es as [|a es IH]; [done|]. cbn [fmap list_fmap concat length]. rewrite file_size_app, IH. unfold record. rewrite entry_size. unfold sizeof_dirent. lia.
Qed.
Lemma record_fields e name : entry_ok e -> 0 ∉ name -> let de := parse_dirent (record e) in
  de_inum de = fst e /\ (namecmp name (de_name de) = 0 <-> take (Z.to_nat DIRSIZ) name = take (Z.to_nat DIRSIZ) (snd e)).
Proof.
  intros [Hi Hn] Hn'. destruct (dirent_roundtrip (fst e) (snd e) name) as (_ & E & H); [lia|done|done|].
  assert (u16 (fst e) = fst e) as Eu by (apply Z.mod_small; lia). rewrite Eu in E, H.
  unfold record, Mkfs.entry. rewrite xshort_id by lia. split; [by rewrite E|exact H].
Qed.

(** Slot [dp] is a directory with the entries [es]. *)
Record directory (I : list inode) (dp : nat) (x : inode) (es : list (Z * list Z)) : Prop := mk_directory {
  dr_slot : I !! dp = Some x;
  dr_dev : i_dev x = 1;
  dr_type : i_type x = T_DIR;
  dr_entries : Forall entry_ok es;
  dr_bytes : exists pad, fcontents V (inode_din x) = concat (record <$> es) ++ pad;
  dr_read : readable V (inode_din x) (size (concat (record <$> es)));
  dr_size : 0 <= i_size x < 2 ^ 31 }.
Lemma directory_fits I dp x es : directory I dp x es -> sizeof_dirent * Z.of_nat (length es) <= i_size x.
Proof.
  intros HD. destruct (dr_bytes _ _ _ _ HD) as [pad E]. apply (f_equal length) in E. unfold fcontents, fbytes in E.
  rewrite length_fmap, length_seqZ, length_app in E. pose proof (records_size es) as Hs. unfold size in Hs. pose proof (dr_size _ _ _ _ HD).
  change (di_size (inode_din x)) with (i_size x) in E. unfold sizeof_dirent in *. lia.
Qed.
Lemma read_dirent_fs s I lk dp x es k e msg (Q : dirent -> kstate -> Prop) : fsys s I lk -> directory I dp x es -> es !! k = Some e ->
  (forall t, fsys t I lk -> Q (parse_dirent (record e)) t) -> run (read_dirent (D := crash_driver) dp (sizeof_dirent * Z.of_nat k) msg) s Q.
Proof.
  intros Hf HD Hk HQ. pose proof (directory_fits _ _ _ _ HD) as Hfit. pose proof HD as [D1 D2 D3 D4 [pad D5] D6 D7].
  pose proof (lookup_lt_Some _ _ _ Hk) as Hlt. rewrite records_size in D6. unfold sizeof_dirent in *.
  assert (Z.min 16 (i_size x - 16 * Z.of_nat k) = 16) as Em by lia.
  unfold read_dirent, sizeof_dirent. apply wp_bind. eapply readi_fs; try done; try lia; [by rewrite D3|]. intros t Ht. rewrite Em, D5.
  change (run (ret (parse_dirent (slice (sizeof_dirent * Z.of_nat k) sizeof_dirent (concat (record <$> es) ++ pad)))) t Q).
  rewrite (record_at es k e pad Hk). eapply wp_run; [done|]. by apply HQ.
Qed.

Section Lookup.
Context (I : list inode) (lk : list nat) (dp : nat) (x : inode) (es : list (Z * list Z)) (HD : directory I dp x es).
Context (HI : icache_inv I) (Hfree : free_slot I).
(** The first entry that matches [name] is number [k], for inode [inum]. *)
Context (name : list Z) (Hname : 0 ∉ name) (k : nat) (inum : Z) (nm : list Z) (Hk : es !! k = Some (inum, nm)).
Context (Hmatch : take (Z.to_nat DIRSIZ) name = take (Z.to_nat DIRSIZ) nm).
Context (Hfirst : forall c e, (c < k)%nat -> es !! c = Some e -> take (Z.to_nat DIRSIZ) name <> take (Z.to_nat DIRSIZ) (snd e)).

Lemma dirlookup_loop_fs fuel : forall s c (Q : option (nat * Z) -> kstate -> Prop), fsys s I lk -> (c <= k)%nat -> (k < c + fuel)%nat ->
  (forall r I' t, got I inum r I' -> fsys t I' lk -> Q (Some (r, sizeof_dirent * Z.of_nat k)) t) ->
  run (dirlookup_loop (D := crash_driver) fuel dp name (sizeof_dirent * Z.of_nat c)) s Q.
Proof.
  induction fuel as [|fuel IH]; intros s c Q Hf Hc Hfu HQ; [lia|]. pose proof (directory_fits _ _ _ _ HD) as Hfit.
  pose proof (lookup_lt_Some _ _ _ Hk) as Hlt. destruct (lookup_lt_is_Some_2 es c ltac:(lia)) as [e He].
  destruct (record_fields e name (Forall_lookup_1 _ _ _ _ (dr_entries _ _ _ _ HD) He) Hname) as [P1 P2].
  destruct (Forall_lookup_1 _ _ _ _ (dr_entries _ _ _ _ HD) He) as [Hpos _].
  cbn [dirlookup_loop]. eapply wp_step; [by eapply inode_fs, HD|]. unfold sizeof_dirent in *.
  destruct (Z.ltb_spec (16 * Z.of_nat c) (i_size x)); [|lia]. apply wp_bind. eapply (read_dirent_fs s I lk dp x es c e); [done..|]. intros t Ht.
  rewrite P1. destruct (Z.eqb_spec (fst e) 0); [lia|]. destruct (decide (c = k)) as [->|Hne].
  - rewrite He in Hk. injection Hk as ->. rewrite (proj2 P2 Hmatch). cbn [Z.eqb]. rewrite (dr_dev _ _ _ _ HD).
    apply wp_bind. eapply iget_fs; [exact Ht|done|done|]. intros r I' t' Hg Ht'. eapply wp_run; [done|]. by eapply HQ.
  - destruct (Z.eqb_spec (namecmp name (de_name (parse_dirent (record e)))) 0) as [E|]; [exfalso; apply (Hfirst c e); [lia|done|by apply P2]|].
    replace (16 * Z.of_nat c + 16) with (16 * Z.of_nat (S c)) by lia. apply IH; [done|lia|lia|done].
Qed.
Lemma dirlookup_fs s (Q : option (nat * Z) -> kstate -> Prop) : fsys s I lk ->
  (forall r I' t, got I inum r I' -> fsys t I' lk -> Q (Some (r, sizeof_dirent * Z.of_nat k)) t) -> run (dirlookup (D := crash_driver) dp name) s Q.
Proof.
  intros Hf HQ. pose proof (directory_fits _ _ _ _ HD) as Hfit. pose proof (lookup_lt_Some _ _ _ Hk) as Hlt.
  unfold dirlookup. eapply wp_step; [by eapply inode_fs, HD|]. rewrite (dr_type _ _ _ _ HD). cbn [Z.eqb negb T_DIR Pos.eqb].
  apply (dirlookup_loop_fs _ s 0); [done|lia| |done]. unfold sizeof_dirent in *. dlia.
Qed.
End Lookup.
(** ** [namei] of a file in the root directory *)
Record root_dir (es : list (Z * list Z)) : Prop := mk_root_dir {
  rt_type : di_type (inode_at V ROOTINO) = T_DIR;
  rt_nlink : di_nlink (inode_at V ROOTINO) = 1;
  rt_entries : Forall entry_ok es;
  rt_bytes : exists pad, fcontents V (inode_at V ROOTINO) = concat (record <$> es) ++ pad;
  rt_read : readable V (inode_at V ROOTINO) (size (concat (record <$> es)));
  rt_size : 0 <= di_size (inode_at V ROOTINO) < 2 ^ 31 }.
Lemma root_directory I r x es : root_dir es -> I !! r = Some x -> i_dev x = 1 -> inode_din x = inode_at V ROOTINO -> directory I r x es.
Proof. intros [R1 R2 R3 R4 R5 R6] Hr Hd E. rewrite <- E in *. by split. Qed.

(** Two slots of the table are free. *)
Definition free_slots (I : list inode) : Prop := exists a b x y, a <> b /\ I !! a = Some x /\ i_ref x = 0 /\ I !! b = Some y /\ i_ref y = 0.
Lemma free_slots_left I I' r : free_slots I -> (forall c, c <> r -> I' !! c = I !! c) -> free_slot I'.
Proof.
  intros (a & b & x & y & Hab & Ha & Hx & Hb & Hy) Ho. destruct (decide (a = r)) as [->|]; [exists b, y|exists a, x]; by rewrite Ho.
Qed.
Lemma free_slots_one I : free_slots I -> free_slot I.
Proof. intros (a & _ & x & _ & _ & Ha & Hx & _). by exists a, x. Qed.

Section Path.
Context (es : list (Z * list Z)) (Hroot : root_dir es).
Context (name : list Z) (Hname : 0 ∉ name) (k : nat) (inum : Z) (nm : list Z) (Hk : es !! k = Some (inum, nm)) (Hinum : inum <> ROOTINO).
Context (Hmatch : take (Z.to_nat DIRSIZ) name = take (Z.to_nat DIRSIZ) nm).
Context (Hfirst : forall c e, (c < k)%nat -> es !! c = Some e -> take (Z.to_nat DIRSIZ) name <> take (Z.to_nat DIRSIZ) (snd e)).

(** [iunlockput] of the directory, when slot [r'] holds the file that was found. *)
Lemma iunlockput_fs s I r x (Q : unit -> kstate -> Prop) : fsys s I [r] -> I !! r = Some x -> names_inode x ROOTINO -> i_nlink x <> 0 ->
  (forall t, fsys t (<[r := one_less x]> I) [] -> Q tt t) -> run (iunlockput (D := crash_driver) r) s Q.
Proof.
  intros Hf Hr [N1 N2 N3 N4] Hn HQ. unfold iunlockput. apply wp_bind.
  eapply (iunlock_fs s I [r] []); [done|set_solver|done|done| |]; [intros c; rewrite list_elem_of_singleton; split; [set_solver|tauto]|].
  intros t Ht. eapply iput_fs; [exact Ht|set_solver|done|done|done].
Qed.

Lemma namei_fs s I q (Q : option nat -> kstate -> Prop) : fsys s I [] -> icache_inv I -> fresh I -> free_slots I ->
  skipelem (47 :: q) = Some (name, []) ->
  (forall r y t I', fsys t I' [] -> I' !! r = Some y -> names_inode y inum -> Q (Some r) t) -> run (namei (D := crash_driver) (47 :: q)) s Q.
Proof.
  intros Hf HI HF Hfs Hsk HQ. unfold namei, namex. cbn [Z.eqb Pos.eqb]. apply wp_bind, wp_bind.
  apply (iget_fs s I []); [done|done|by apply free_slots_one|]. intros r I1 s1 Hg Hf1.
  destruct (got_slot _ _ _ _ HF Hg) as (x & Hx & Hn & HF1 & HI1 & Ho1). pose proof Hn as [N1 N2 N3 N4].
  cbn [length namex_loop]. rewrite Hsk. apply wp_bind. eapply (ilock_fs s1 I1 [] r x); [done|set_solver|done|done|done|by rewrite N3| |].
  { rewrite N3, (rt_type _ Hroot). done. }
  intros s2 Hf2. destruct (loaded_names _ _ Hn) as (Hn2 & Ed2 & _). set (y := loaded x) in *. clearbody y.
  assert (r < length I1)%nat as Hlt by (by eapply lookup_lt_Some). destruct (table_same I1 r x y HI1 HF1 Hx) as [HI2 HF2]; [by rewrite N3..|].
  set (I2 := <[r := y]> I1) in *. assert (I2 !! r = Some y) as Hy by (by apply list_lookup_insert_eq).
  pose proof (root_directory I2 r y es Hroot Hy (ni_dev _ _ Hn2) Ed2) as HD. eapply wp_step; [by eapply inode_fs|].
  rewrite (dr_type _ _ _ _ HD). cbn [Z.eqb Pos.eqb negb T_DIR andb]. apply wp_bind. eapply (dirlookup_fs I2 [r] r y es HD HI2); try done.
  { apply (free_slots_left I _ r); [done|]. intros c Hc. unfold I2. rewrite list_lookup_insert_ne by done. by apply Ho1. }
  intros r' I3 s3 Hg3 Hf3. destruct (got_slot _ _ _ _ HF2 Hg3) as (z & Hz & Hnz & _ & _ & Ho3).
  assert (r' <> r) as Hne by (eapply got_other; [exact Hg3|exact Hy|apply Hn2|rewrite (ni_inum _ _ Hn2); done]).
  apply wp_bind. eapply (iunlockput_fs s3 I3 r y); [done|by rewrite Ho3|done| |].
  { change (di_nlink (inode_din y) <> 0). rewrite Ed2, (rt_nlink _ Hroot). done. }
  intros s4 Hf4. assert (namex_loop (D := crash_driver) (length q) r' [] false s4 = Ret (Some (r', [])) s4) as E by (by destruct (length q)).
  eapply wp_run; [exact E|]. eapply wp_run; [done|]. apply (HQ r' z s4 (<[r := one_less y]> I3)); [done|by rewrite list_lookup_insert_ne|done].
Qed.
End Path.
End Read.

(** ** From the host's files to the kernel's reads *)

(** Open by name and read, as [exec] does with the header of a program. *)
Definition read_file (path : list Z) (off N : Z) : K (option (Z * list Z)) :=
  r <- namei (D := crash_driver) path ;;
  match r with
  | None => ret None
  | Some f => ilock (D := crash_driver) (Some f) ;; v <- readi (D := crash_driver) f no_store off N ;; ret (Some v)
  end.

(** The kernel runs process [ip] on processor [i], the disk is [im] and the tables
    of buffers and of inodes hold nothing that contradicts it; no lock is taken, no
    buffer is in use and two slots for inodes are free. *)
Record ready (i : nat) (n : Z) (ip : nat) (p : proc) (im : list (list Z)) (s : kstate) : Prop := mk_ready {
  ry_state : p_state p <> SLEEPING;
  ry_fsys : fsys i n ip p (sector im) (sector im) (fun _ => False) s (k_inodes s) [];
  ry_once : icache_inv (k_inodes s);
  ry_fresh : fresh (sector im) (k_inodes s);
  ry_slots : free_slots (k_inodes s) }.

(** The entries of the root directory: inode and name. *)
Fixpoint listing (k : Z) (names : list (list Z)) : list (Z * list Z) :=
  match names with [] => [] | name :: names' => (k, Mkfs.skip_underscore name) :: listing (k + 1) names' end.
Definition root_listing (names : list (list Z)) : list (Z * list Z) := (ROOTINO, bytes ".") :: (ROOTINO, bytes "..") :: listing 2 names.
Lemma listing_lookup names : forall k c, listing k names !! c = (fun name => (k + Z.of_nat c, Mkfs.skip_underscore name)) <$> names !! c.
Proof.
  induction names as [|a names IH]; intros k c; [by rewrite !lookup_nil|]. destruct c as [|c]; cbn [listing].
  - simpl. by rewrite Z.add_0_r.
  - change (listing (k + 1) names !! c = (fun name => (k + Z.of_nat (S c), Mkfs.skip_underscore name)) <$> names !! c). rewrite IH.
    destruct (names !! c); [|done]. simpl. do 2 f_equal. lia.
Qed.
Lemma root_records names : root_bytes names = concat (record <$> root_listing names).
Proof.
  unfold root_bytes, root_listing. cbn [fmap list_fmap concat]. unfold record. cbn [fst snd]. do 2 f_equal.
  generalize 2. induction names as [|a names IH]; intros k; [done|]. cbn [entries listing fmap list_fmap concat]. by rewrite IH.
Qed.
Lemma skip_underscore_nul name : 0 ∉ name -> 0 ∉ Mkfs.skip_underscore name.
Proof. destruct name as [|c name]; [done|]. simpl. destruct (c =? 95); [|done]. by intros [_ ?]%not_elem_of_cons. Qed.
Lemma root_listing_ok names : Forall (fun name => 0 ∉ name) names -> Z.of_nat (length names) + 1 < Mkfs.NINODES -> Forall entry_ok (root_listing names).
Proof.
  intros Hn Hl. assert (forall name : list Z, bool_decide (0 ∈ name) = false -> 0 ∉ name) as Hb by (intros name H; exact (bool_decide_eq_false_1 _ H)).
  unfold root_listing. apply Forall_cons; split; [split; [done|by apply Hb]|]. apply Forall_cons; split; [split; [done|by apply Hb]|].
  apply Forall_lookup_2. intros c e. rewrite listing_lookup. destruct (names !! c) as [name|] eqn:E; [|done]. intros [= <-].
  apply lookup_lt_Some in E as Hlt. unfold Mkfs.NINODES in Hl. split; [simpl; lia|]. apply skip_underscore_nul. by apply (Forall_lookup_1 _ _ _ _ Hn E).
Qed.

Section Image.
Context (im : list (list Z)) (R : list Z) (Fs : list (list Z)) (Hfs : filesystem im R Fs).
Lemma image_readable c ty F : files R Fs !! c = Some (ty, F) -> readable (sector im) (inode_of im (Z.of_nat c + 1)) (size F).
Proof.
  intros HF. split; [unfold inode_of, get_dinode, addr_list; cbn [di_addrs]; rewrite length_fmap, length_seq; done|].
  intros k H0 Hk. assert (in_use (files R Fs) (Z.of_nat c + 1) k) as Hu.
  { exists ty, F. replace (Z.to_nat (Z.of_nat c + 1 - 1)) with c by lia. split; [done|]. split; [lia|]. unfold blocks, BSIZE in *. dlia. }
  destruct (fs_range _ _ _ Hfs _ _ Hu) as (H1 & H2 & H3). change Mkfs.nmeta with 59 in *.
  change (block_at (sector im)) with (block_of im). split; [done|]. split; [lia|]. split; [apply (sh_sec _ (fs_shape _ _ _ Hfs)); lia|].
  intros H. specialize (H3 H). lia.
Qed.
Lemma image_root names : R = root_bytes names -> Forall (fun name => 0 ∉ name) names -> length names = length Fs -> size R <= MAXFILE * BSIZE ->
  root_dir (sector im) (root_listing names).
Proof.
  intros ER Hn Hl Hsz. pose proof (fs_count _ _ _ Hfs) as Hc. destruct (fs_root _ _ _ Hfs) as (H1 & H2 & H3 & Es).
  rewrite ER in H1 at 1. rewrite root_records in H1. pose proof (image_readable 0 T_DIR R eq_refl) as Hr. rewrite ER, root_records in Hr.
  split; [done|done|apply root_listing_ok; [done|lia]|by eexists|exact Hr|].
  change (inode_at (sector im) ROOTINO) with (inode_of im ROOTINO). rewrite Es. change (MAXFILE * BSIZE) with 71680 in Hsz. unfold BSIZE. pose proof (size_nonneg R). dlia.
Qed.
End Image.
(** ** Paths with one element *)
Lemma pieces_nonempty path : forall cur, cur <> [] -> pieces cur path <> [].
Proof.
  induction path as [|c path IH]; intros cur Hc; cbn [pieces]; [by rewrite bool_decide_false|].
  destruct (c =? 47); [by rewrite bool_decide_false|]. by apply IH.
Qed.
Lemma one_element path e : elements path = [e] -> skipelem path = Some (take (Z.to_nat DIRSIZ) e, []).
Proof.
  intros He. pose proof (skipelem_splits path) as H. destruct (skipelem path) as [[name r]|]; [|by rewrite H in He].
  destruct H as (e' & H1 & -> & _ & _ & Hr & _). rewrite He in H1. injection H1 as <- Hn. destruct r as [|c r]; [done|].
  unfold elements in Hn. cbn [pieces hd] in *. destruct (Z.eqb_spec c 47); [done|]. by destruct (pieces_nonempty r [c]).
Qed.

(** The entry that a path finds: the first with its name. *)
Definition finds (names : list (list Z)) (path : list Z) (k : nat) : Prop :=
  exists e name, hd 0 path = 47 /\ elements path = [e] /\ 0 ∉ e /\ names !! k = Some name /\
    let prefix := take (Z.to_nat DIRSIZ) e in
    prefix = take (Z.to_nat DIRSIZ) (Mkfs.skip_underscore name) /\ prefix <> bytes "." /\ prefix <> bytes ".." /\
    forall c other, (c < k)%nat -> names !! c = Some other -> prefix <> take (Z.to_nat DIRSIZ) (Mkfs.skip_underscore other).

Lemma read_file_fs i n ip p im names Fs s path k F off N : ready i n ip p im s -> filesystem im (root_bytes names) Fs ->
  Forall (fun name => 0 ∉ name) names -> length names = length Fs -> size (root_bytes names) <= MAXFILE * BSIZE ->
  finds names path k -> Fs !! k = Some F -> 0 <= off <= size F -> 0 <= N < 2 ^ 31 -> size F <= MAXFILE * BSIZE ->
  wp (fun d => d = sector im) (fun _ => False) (read_file path off N) s
    (fun r t => r = Some (size (slice off N F), slice off N F) /\ hw_disk (k_hw t) = sector im).
Proof.
  intros [Hst Hf HI HF Hfree] Hfs Hn Hl Hsz (e & name & Hh & He & H0 & Hk & Hm & Hd1 & Hd2 & Hfirst) HFk Hoff HN HsF.
  pose proof (image_root _ _ _ Hfs names eq_refl Hn Hl Hsz) as Hroot.
  destruct (fs_file _ _ _ Hfs k F HFk) as (F1 & F2 & F3 & F4). pose proof (lookup_lt_Some _ _ _ HFk) as Hlt. pose proof (fs_count _ _ _ Hfs) as Hc.
  assert (readable (sector im) (inode_of im (Z.of_nat k + 2)) (size F)) as Hrd.
  { replace (Z.of_nat k + 2) with (Z.of_nat (S k) + 1) by lia. apply (image_readable _ _ _ Hfs _ T_FILE).
    change (((fun F => (T_FILE, F)) <$> Fs) !! k = Some (T_FILE, F)). by rewrite list_lookup_fmap, HFk. }
  pose proof (one_element path e He) as Hsk. destruct path as [|c q]; [done|]. simpl in Hh. subst c. unfold read_file. apply wp_bind.
  set (prefix := take (Z.to_nat DIRSIZ) e) in *.
  assert (take (Z.to_nat DIRSIZ) prefix = prefix) as Et by (unfold prefix; by rewrite take_take, Nat.min_id).
  eapply (namei_fs i n ip p Hst (sector im) (sector im) (fun d => d = sector im) eq_refl (fun _ => False) (root_listing names) Hroot prefix (not_elem_of_take 0 _ e H0) (S (S k)) (Z.of_nat k + 2)
    (Mkfs.skip_underscore name)); [..|exact Hsk|].
  - change (listing 2 names !! k = Some (Z.of_nat k + 2, Mkfs.skip_underscore name)). rewrite listing_lookup, Hk. simpl. do 2 f_equal. lia.
  - unfold ROOTINO. lia.
  - by rewrite Et.
  - intros c x Hck Hx. rewrite Et. destruct c as [|[|c]]; [injection Hx as <-; exact Hd1|injection Hx as <-; exact Hd2|].
    change (listing 2 names !! c = Some x) in Hx. rewrite listing_lookup in Hx. destruct (names !! c) as [other|] eqn:Eo; [|done].
    injection Hx as <-. apply (Hfirst c); [lia|done].
  - exact Hf.
  - done.
  - done.
  - done.
  - intros r y t I' Ht Hr Hy. pose proof Hy as [N1 N2 N3 N4]. apply wp_bind.
    eapply (ilock_fs i n ip p Hst (sector im) (sector im) (fun d => d = sector im) eq_refl (fun _ => False) t I' [] r y); [done|set_solver|done|done|done|rewrite N3; lia| |].
    { rewrite N3. change (di_type (inode_of im (Z.of_nat k + 2)) <> 0). by rewrite F2. }
    intros t2 Ht2. destruct (loaded_names (sector im) y _ Hy) as ([M1 M2 M3 M4] & Ed & _). set (z := loaded (sector im) y) in *.
    change (inode_at (sector im) (Z.of_nat k + 2)) with (inode_of im (Z.of_nat k + 2)) in Ed. clearbody z.
    assert (i_size z = size F) as Esz by (rewrite <- F4, <- Ed; done). assert (i_type z = T_FILE) as Ety by (rewrite <- F2, <- Ed; done).
    assert (r < length I')%nat as Hrl by (by eapply lookup_lt_Some). apply wp_bind. change (MAXFILE * BSIZE) with 71680 in *.
    eapply (readi_fs i n ip p Hst (sector im) (sector im) (fun d => d = sector im) eq_refl (fun _ => False) t2 _ [r] r z (size F)); try (done || lia || (by rewrite Ed)); [by apply list_lookup_insert_eq|by rewrite Ety|].
    intros t3 Ht3. eapply wp_run; [done|]. split; [|apply Ht3]. rewrite Ed. change (fcontents (sector im)) with (contents im). rewrite F1, Esz. unfold size, slice. rewrite length_take, length_drop. unfold size in *.
    f_equal. f_equal; [lia|]. destruct (decide (N <= Z.of_nat (length F) - off)); [by rewrite Z.min_l by lia|].
    rewrite Z.min_r, !take_ge by (rewrite ?length_drop; lia). done.
Qed.
(** C3: a file given to [mkfs] is what the kernel reads.  When [mkfs] builds an image
    from files that can be read and fit on the disk, and the kernel runs on that
    image, then [namei] of an absolute path whose one element is a file's name (its
    first [DIRSIZ] bytes, without the leading underscore that [mkfs] drops), [ilock]
    and [readi] return the bytes of the host's file from the offset on, as many as
    were asked for and there are, and their count.  They do so in every run: through
    direct and indirect blocks, whatever the caches of buffers and inodes hold, with
    no panic, and at every request to the disk and at the end the disk is the image. *)
Theorem host_file_read h image names Fs : Mkfs.creates h image = true -> Forall2 (given h) names Fs ->
  fits (files (root_bytes names) Fs) -> Forall (fun name => 0 ∉ name) names ->
  exists b, Mkfs.main h (image :: names) Mkfs.builder0 = Ret tt b /\
    forall i n ip p s path k F off N, ready i n ip p (Mkfs.b_img b) s -> finds names path k -> Fs !! k = Some F ->
      0 <= off <= size F -> 0 <= N < 2 ^ 31 ->
      safe (fun t => hw_disk (k_hw t) = sector (Mkfs.b_img b)) eq (fun _ => False)
        (fun r t => r = Some (size (slice off N F), slice off N F) /\ hw_disk (k_hw t) = sector (Mkfs.b_img b)) (read_file path off N s).
Proof.
  intros Hc Hg Hfit Hn. destruct (mkfs_run h image names Fs Hc Hg Hfit) as (b & Hb & Hfs). exists b. split; [done|].
  intros i n ip p s path k F off N Hr Hp HF Ho HN. destruct Hfit as (_ & Hsz & _). pose proof Hsz as Hsz'.
  apply Forall_cons in Hsz as [Hs0 Hs]. apply (read_file_fs i n ip p _ names Fs s path k F off N); try done; [by eapply Forall2_length|].
  rewrite Forall_fmap in Hs. apply (Forall_lookup_1 _ _ _ _ Hs HF).
Qed.

(** *** A kernel that has just started *)
Definition started (im : list (list Z)) : kstate := set_k_sb sb0 (fresh_cache (sector im)).
Lemma started_bufs im : k_bufs (started im) = linked_bufs.
Proof. reflexivity. Qed.
Lemma started_inodes im : k_inodes (started im) = replicate 50 State.inode0.
Proof. reflexivity. Qed.
Lemma started_quiet im : quiet (started im) [].
Proof.
  intros c Hc. rewrite decide_False by set_solver. unfold refs. rewrite started_bufs.
  destruct (lru_lookup _ _ c linked_lru) as (x & Hx & _); [lia|]. rewrite Hx. apply linked_idle, idle_buf_spec in Hx as (E1 & E2 & E3).
  simpl. unfold flag. by rewrite E2, E3.
Qed.
Lemma started_cache im : cache 0 0 0 init_proc (started im) [] (sector im) (sector im).
Proof.
  destruct (fresh_cache_ok (sector im)) as [C1 C2 C3 C4 C5 C6]. split; [|exact C2|exact C3|exact C4|exact C5|exact C6].
  apply (thread_ext (fresh_cache (sector im))); [exact C1| |reflexivity|reflexivity].
  apply (on_cpu_ext (fresh_cache (sector im))); [reflexivity..|apply C1].
Qed.
Lemma started_ready im : ready 0 0 0 init_proc im (started im).
Proof.
  assert (forall c x, k_inodes (started im) !! c = Some x -> x = State.inode0) as Hi
    by (intros c x; rewrite started_inodes; by intros [-> _]%lookup_replicate).
  split; [discriminate| | | |].
  - split; [apply started_cache|right; apply started_quiet|reflexivity..| | |].
    + intros j. reflexivity.
    + intros j Hj. by apply not_elem_of_nil in Hj.
    + intros j _. reflexivity.
  - split; [by rewrite started_inodes, length_replicate|intros c x Hx; by rewrite (Hi _ _ Hx)|]. intros c d x y Hx _ H. rewrite (Hi _ _ Hx) in H. simpl in H. lia.
  - intros c x Hx H. rewrite (Hi _ _ Hx) in H. simpl in H. lia.
  - rewrite started_inodes. exists 0%nat, 1%nat, State.inode0, State.inode0. done.
Qed.

(** The second file of the image, with an indirect block, from byte 6000 on. *)
Lemma host_file_read_witness :
  exists b, Mkfs.main sample_host [bytes "fs.img"; bytes "_cat"; bytes "README"] Mkfs.builder0 = Ret tt b /\
    safe (fun t => hw_disk (k_hw t) = sector (Mkfs.b_img b)) eq (fun _ => False)
      (fun r t => r = Some (1168, replicate 1168 9) /\ hw_disk (k_hw t) = sector (Mkfs.b_img b)) (read_file (bytes "/README") 6000 4096 (started (Mkfs.b_img b))).
Proof.
  assert (forall c (name : list Z), bool_decide (c ∈ name) = false -> c ∉ name) as Hn by (intros c name H; exact (bool_decide_eq_false_1 _ H)).
  destruct (host_file_read sample_host (bytes "fs.img") [bytes "_cat"; bytes "README"] [replicate 512 7 ++ replicate 100 8; replicate (14 * 512) 9])
    as (b & Hb & H); [reflexivity| | | |].
  - apply Forall2_cons; split; [|apply Forall2_cons; split; [|by apply Forall2_nil]].
    + split; [apply Hn; vm_compute; reflexivity|]. exists [replicate 512 7; replicate 100 8]. split; vm_compute; reflexivity.
    + split; [apply Hn; vm_compute; reflexivity|]. exists (replicate 14 (replicate 512 9)). split; vm_compute; reflexivity.
  - split_and!; [vm_compute; discriminate| |vm_compute; reflexivity].
    apply Forall_cons; split; [|apply Forall_cons; split; [|apply Forall_cons; split; [|by apply Forall_nil]]]; vm_compute; discriminate.
  - apply Forall_cons; split; [apply Hn; vm_compute; reflexivity|]. apply Forall_cons; split; [apply Hn; vm_compute; reflexivity|by apply Forall_nil].
  - exists b. split; [exact Hb|].
    refine (H 0%nat 0 0%nat init_proc (started (Mkfs.b_img b)) (bytes "/README") 1%nat (replicate (14 * 512) 9) 6000 4096 _ _ _ _ _).
    + apply started_ready.
    + exists (bytes "README"), (bytes "README"). split; [reflexivity|]. split; [vm_compute; reflexivity|]. split; [apply Hn; vm_compute; reflexivity|].
      split; [reflexivity|]. cbv zeta. split; [vm_compute; reflexivity|]. split; [vm_compute; discriminate|]. split; [vm_compute; discriminate|].
      intros [|c] other Hc Ho; [|lia]. injection Ho as <-. vm_compute. discriminate.
    + reflexivity.
    + change (size (replicate (14 * 512) 9)) with 7168. lia.
    + lia.
Defined.
End FsSpec.
