(* ===== verification/WriteSpec.v ===== *)
(** * Writing a file is atomic

    [writei] of [fs.c] inside a transaction: the bytes go to the buffers and the
    blocks to the log ([log_write]); the disk changes when the transaction commits.
    Whenever the machine stops, what recovery leaves is the file before the write or
    the file after it. *)

From S2P Require Import Prelude Mmu Bytes Mem State Spinlock Printk Critical Kalloc Vm Sched Sleeplock Disk Bio BioSpec CacheSpec Log LogSpec Inode Console Fs Mkfs MkfsSpec FsSpec.

Module WriteSpec.
Import MkfsSpec FsSpec.

Lemma wp_weaken {A} (G G' : (Z -> list Z) -> Prop) bad (m : K A) s Q : (forall d, G d -> G' d) -> wp G bad m s Q -> wp G' bad m s Q.
Proof.
  intros H. unfold wp. generalize (m s). induction o as [| |t k IH| | |]; cbn [safe]; try done.
  intros [H1 H2]. split; [by apply H|]. intros s' E. by apply IH, H2.
Qed.

(* ------------------------------------------------------------------ *)
(** ** The log entry of a block *)
Definition with_home (homes : list Z) (k : Z) : list Z := if decide (k ∈ homes) then homes else homes ++ [k].
Lemma absorb_spec bl homes k : (forall j h, homes !! j = Some h -> bl !! j = Some h) -> (forall h, h ∈ homes -> u32 h = h) ->
  let a := absorb bl (length homes) k in
  (a <= length homes)%nat /\ (k ∈ homes -> homes !! a = Some k) /\ (k ∉ homes -> a = length homes).
Proof.
  revert bl. induction homes as [|h homes IH]; intros bl Hbl Hu; [destruct bl; (split; [simpl; lia|split; [set_solver|done]])|].
  destruct bl as [|v bl]; [by specialize (Hbl 0%nat h eq_refl)|]. assert (v = h) as -> by (specialize (Hbl 0%nat h eq_refl); by injection Hbl).
  destruct (IH bl) as (H1 & H2 & H3); [intros j x; apply (Hbl (S j))|intros x Hx; apply Hu; by right|].
  cbn [length absorb]. rewrite Hu by (by left). destruct (Z.eqb_spec h k) as [->|Hne].
  - split; [lia|]. split; [done|]. intros Hk. exfalso. apply Hk. by left.
  - split; [lia|]. split.
    + intros [->|Hk]%elem_of_cons; [done|]. by apply H2.
    + intros Hk. f_equal. apply H3. set_solver.
Qed.
(** The log after [log_write] of block [k]. *)
Definition logged_at (lg : logstate) (k : Z) : logstate :=
  let a := absorb (lg_block lg) (Z.to_nat (lg_n lg)) k in
  let lg1 := set_lg_block (<[a := s32 k]> (lg_block lg)) lg in
  if Z.of_nat a =? lg_n lg then set_lg_n (lg_n lg + 1) lg1 else lg1.
(** Blocks that a transaction may still log. *)
Definition room (lg : logstate) : Z := Z.min LOGSIZE (lg_size lg - 1) - lg_n lg.
Record log_open (lg : logstate) (start : Z) (homes : list Z) : Prop := mk_log_open {
  lo_holds : log_holds lg start homes;
  lo_len : length (lg_block lg) = Z.to_nat LOGSIZE;
  lo_active : 1 <= lg_outstanding lg }.
Lemma logged_open lg start homes k : log_open lg start homes -> 0 < room lg -> 0 <= k < FSSIZE -> outside start k ->
  log_open (logged_at lg k) start (with_home homes k) /\ room lg - 1 <= room (logged_at lg k).
Proof.
  intros [HL Hlen Hact] Hroom Hk Ho. pose proof HL as [L1 L2 L3 L4 L5 L6 L7 L8].
  assert (forall h, h ∈ homes -> u32 h = h) as Hu by (intros h Hh; apply u32_small; destruct (L7 h Hh) as [R _]; unfold FSSIZE in R; lia).
  destruct (absorb_spec (lg_block lg) homes k L4 Hu) as (A1 & A2 & A3). unfold logged_at, room in *. rewrite L3, Nat2Z.id in *.
  set (a := absorb (lg_block lg) (length homes) k) in *. rewrite s32_small by (unfold FSSIZE in Hk; lia). unfold with_home.
  assert (Z.of_nat (length homes) < LOGSIZE) as Hlt by lia. destruct (decide (k ∈ homes)) as [Hin|Hn].
  - specialize (A2 Hin). assert (a < length homes)%nat as Ha by (by eapply lookup_lt_Some). destruct (Z.eqb_spec (Z.of_nat a) (Z.of_nat (length homes))); [lia|].
    rewrite (list_insert_id (lg_block lg)) by (by apply L4). split; [|simpl; lia]. by destruct lg.
  - rewrite (A3 Hn), Z.eqb_refl. split; [|simpl; lia]. split; [|simpl; by rewrite length_insert|done].
    split; try done; simpl; rewrite ?length_app; cbn [length]; try lia.
    + intros j h Hj. apply lookup_app_Some in Hj as [Hj|[Hj1 Hj2]].
      * rewrite list_lookup_insert_ne; [by apply L4|]. apply lookup_lt_Some in Hj. lia.
      * apply list_lookup_singleton_Some in Hj2 as [Hj2 <-]. replace j with (length homes) by lia. apply list_lookup_insert_eq. rewrite Hlen. lia.
    + intros h [Hh| ->%list_elem_of_singleton]%elem_of_app; [by apply L7|done].
    + apply NoDup_app. split; [done|]. split; [|apply NoDup_singleton]. intros h Hh ->%list_elem_of_singleton. done.
Qed.
(* ------------------------------------------------------------------ *)
(** ** The bytes of a file *)
Definition fbyte (V : Z -> list Z) (din : dinode) (o : Z) : Z := nth (Z.to_nat (o mod BSIZE)) (V (block_at V din (o / BSIZE))) 0.
(** The blocks of the first [sz] bytes: outside the log, each in one place of the
    file, none the indirect block. *)
Record writable (start : Z) (V : Z -> list Z) (din : dinode) (sz : Z) : Prop := mk_writable {
  wr_read : readable V din sz;
  wr_outside : forall k, 0 <= k -> k * BSIZE < sz -> outside start (block_at V din k);
  wr_apart : forall k k', 0 <= k -> k * BSIZE < sz -> 0 <= k' -> k' * BSIZE < sz -> block_at V din k = block_at V din k' -> k = k';
  wr_index : forall k, NDIRECT * BSIZE < sz -> 0 <= k -> k * BSIZE < sz -> block_at V din k <> Mkfs.addr din NDIRECT }.

Section Store.
Context (start : Z) (V : Z -> list Z) (din : dinode) (sz : Z) (HW : writable start V din sz).
Context (k : Z) (Hk0 : 0 <= k) (Hk : k * BSIZE < sz) (d : list Z) (Hd : length d = Z.to_nat BSIZE).
Definition stored : Z -> list Z := fupd V (block_at V din k) d.
Lemma stored_block j : 0 <= j -> j * BSIZE < sz -> block_at stored din j = block_at V din j.
Proof.
  intros H0 Hj. unfold block_at. destruct (Z.ltb_spec j NDIRECT) as [|Hge]; [done|]. unfold stored. rewrite fupd_other; [done|].
  intros E. apply (wr_index _ _ _ _ HW k); [unfold NDIRECT, BSIZE in *; lia|done|done|done].
Qed.
Lemma stored_byte o : 0 <= o < sz -> fbyte stored din o = if decide (o / BSIZE = k) then nth (Z.to_nat (o mod BSIZE)) d 0 else fbyte V din o.
Proof.
  intros Ho. assert (0 <= o / BSIZE /\ o / BSIZE * BSIZE < sz) as [H0 H1] by (unfold BSIZE in *; dlia).
  unfold fbyte. rewrite stored_block by done. unfold stored. destruct (decide (o / BSIZE = k)) as [->|Hne]; [by rewrite fupd_same|].
  rewrite fupd_other; [done|]. intros E. apply Hne. by apply (wr_apart _ _ _ _ HW).
Qed.
Lemma stored_writable : writable start stored din sz.
Proof.
  destruct HW as [[R1 R2] W2 W3 W4]. split; [split; [done|]|..].
  - intros j H0 Hj. rewrite stored_block by done. destruct (R2 j H0 Hj) as (A1 & A2 & A3 & A4). split_and!; try done; try lia.
    unfold stored, fupd. by destruct (decide (block_at V din j = block_at V din k)).
  - intros j H0 Hj. rewrite stored_block by done. by apply W2.
  - intros j j' H0 Hj H0' Hj'. rewrite !stored_block by done. by apply W3.
  - intros j Hs H0 Hj. rewrite stored_block by done. by apply W4.
Qed.
End Store.

Lemma nth_drop_add c j (l : list Z) : nth j (drop c l) 0 = nth (c + j) l 0.
Proof. by rewrite !nth_lookup, lookup_drop. Qed.
Lemma nth_take_below c j (l : list Z) : (j < c)%nat -> nth j (take c l) 0 = nth j l 0.
Proof. intros H. by rewrite !nth_lookup, lookup_take_lt. Qed.

(** Blocks that [m] bytes from [off] on touch. *)
Definition touched (off m : Z) : Z := if m <=? 0 then 0 else (off + m - 1) / BSIZE - off / BSIZE + 1.
Lemma touched_step off m : 0 <= off -> 0 < m -> let c := Z.min m (BSIZE - off mod BSIZE) in touched (off + c) (m - c) = touched off m - 1.
Proof.
  intros H0 Hm c. assert (0 < c <= m) as Hc by (unfold c, BSIZE; dlia). unfold touched. destruct (Z.leb_spec m 0); [lia|].
  unfold c, BSIZE in *. destruct (Z.leb_spec (m - Z.min m (512 - off mod 512)) 0); dlia.
Qed.
(** [V'] is [V] with the bytes [bs] of the file from [off] on. *)
Definition wrote (V V' : Z -> list Z) (din : dinode) (sz off : Z) (bs : list Z) : Prop :=
  (forall o, 0 <= o < sz -> fbyte V' din o = if decide (off <= o < off + size bs) then nth (Z.to_nat (o - off)) bs 0 else fbyte V din o) /\
  (forall h, (forall k, 0 <= k -> k * BSIZE < sz -> h <> block_at V din k) -> V' h = V h).
Lemma wrote_step start V din sz off bs c V' : writable start V din sz -> 0 <= off -> off + size bs <= sz ->
  0 < c <= size bs -> off mod BSIZE + c <= BSIZE ->
  let k := off / BSIZE in let d := put (off mod BSIZE) (take (Z.to_nat c) bs) (V (block_at V din k)) in
  wrote (stored V din k d) V' din sz (off + c) (drop (Z.to_nat c) bs) -> wrote V V' din sz off bs.
Proof.
  intros HW H0 Hsz Hc Hle k d [W1 W2]. assert (0 <= k /\ k * BSIZE < sz) as [Hk0 Hk] by (unfold k, BSIZE in *; dlia).
  destruct (rd_blocks _ _ _ (wr_read _ _ _ _ HW) k Hk0 Hk) as (_ & _ & Hlen & _).
  pose proof (Z.mod_pos_bound off BSIZE ltac:(done)) as Hm. unfold size in *.
  assert (length (take (Z.to_nat c) bs) = Z.to_nat c) as Ht by (rewrite length_take; lia).
  assert (length d = Z.to_nat BSIZE) as Hd by (unfold d; rewrite length_put; lia). split.
  - intros o Ho. rewrite W1, length_drop by done. unfold size. rewrite (stored_byte _ _ _ _ HW k Hk0 Hk d) by done.
    destruct (decide (off <= o < off + Z.of_nat (length bs))) as [Hin|Hin]; destruct (decide _) as [H1|H1]; try lia.
    + rewrite nth_drop_add. f_equal. lia.
    + assert (o < off + c) by lia. rewrite decide_True by (unfold k, BSIZE in *; dlia). unfold d. rewrite nth_put by lia.
      rewrite Ht, decide_True by (unfold k, BSIZE in *; dlia). rewrite nth_take_below by (unfold BSIZE in *; dlia). f_equal. unfold BSIZE in *; dlia.
    + destruct (decide (o / BSIZE = k)) as [E|]; [|done]. unfold d, fbyte. rewrite nth_put by lia. rewrite Ht, E.
      rewrite decide_False; [done|]. unfold k, BSIZE in *. dlia.
  - intros h Hh. rewrite W2.
    + unfold stored. rewrite fupd_other; [done|]. by apply Hh.
    + intros j Hj0 Hj. rewrite (stored_block _ _ _ _ HW k Hk0 Hk d) by done. by apply Hh.
Qed.

(* ------------------------------------------------------------------ *)
(** ** Inside a transaction *)
Section Write.
Context (i : nat) (n : Z) (ip : nat) (p : proc) (Hst : p_state p <> SLEEPING).
Context (Dk : Z -> list Z) (start : Z) (G : (Z -> list Z) -> Prop) (HG : G Dk).
Notation run := (wp G no_buffers).

(** What lies beside the buffers: inodes, locks and the log. *)
Record side (s : kstate) (I : list inode) (lk : list nat) (lg : logstate) : Prop := mk_side {
  sd_sb : k_sb s = sb0;
  sd_inodes : k_inodes s = I;
  sd_log : k_log s = lg;
  sd_icache : unlocked Lk_icache s;
  sd_llock : unlocked Lk_log s;
  sd_inner : forall j, unlocked (Lk_sleep (Sl_inode j)) s;
  sd_mine : forall j, j ∈ lk -> sl_locked (k_slocks s (Sl_inode j)) = 1 /\ sl_pid (k_slocks s (Sl_inode j)) = p_pid p;
  sd_free : forall j, j ∉ lk -> sl_locked (k_slocks s (Sl_inode j)) = 0 }.
Lemma side_rest s t I lk lg : side s I lk lg -> rest s t -> side t I lk lg.
Proof.
  intros [H1 H2 H3 H4 H5 H6 H7 H8] HR. split; try (unfold unlocked; rewrite (rest_lock _ _ HR) by done; done).
  - by rewrite (HR _ k_sb) by cache_free_tac.
  - by rewrite (HR _ k_inodes) by cache_free_tac.
  - by rewrite (HR _ k_log) by cache_free_tac.
  - intros j. unfold unlocked. rewrite (rest_lock _ _ HR) by done. apply H6.
  - intros j Hj. rewrite (rest_inode _ _ HR). by apply H7.
  - intros j Hj. rewrite (rest_inode _ _ HR). by apply H8.
Qed.
(** The kernel sees [V]; only logged blocks differ from the disk. *)
Record txn (s : kstate) (V : Z -> list Z) (homes : list Z) (I : list inode) (lk : list nat) (lg : logstate) : Prop := mk_txn {
  tx_cache : cache i n ip p s [] V Dk;
  tx_side : side s I lk lg;
  tx_log : log_open lg start homes;
  tx_clean : forall h, outside start h -> h ∉ homes -> V h = Dk h }.
Lemma txn_fsys s V homes I lk lg : txn s V homes I lk lg -> fsys i n ip p V Dk no_buffers s I lk.
Proof. intros [H1 [S1 S2 S3 S4 S5 S6 S7 S8] H3 H4]. split; try done. by left. Qed.
Lemma txn_of s t V homes I lk lg : txn s V homes I lk lg -> rest s t -> cache i n ip p t [] V Dk -> txn t V homes I lk lg.
Proof. intros [H1 H2 H3 H4] HR Hc. split; try done. by eapply side_rest. Qed.

(** A critical section that ends with the log [lg'] and the rest as before. *)
Lemma log_leave s s1 held V I lk lg lg' : cache i n ip p s held V Dk -> side s I lk lg ->
  on_cpu s1 i (n + 1) (Some ip) -> held_by Lk_log i s1 -> same_locks Lk_log s s1 -> same_data s s1 ->
  exists t, release Lk_log (set_k_log lg' s1) = Ret tt t /\ cache i n ip p t held V Dk /\ side t I lk lg' /\ k_bufs t = k_bufs s.
Proof.
  intros [C1 C2 C3 C4 C5 C6] [S1 S2 S3 S4 S5 S6 S7 S8] Hc1 Hh1 Hl1 Hd1.
  destruct (release_cpu (set_k_log lg' s1) i (n + 1) (Some ip) Lk_log) as (t & Hr & Hct & Hut & Hlt & Hdt);
    [by apply (on_cpu_ext s1)|destruct C1; lia|done|].
  assert (same_locks Lk_log s t) as HL by (intros l H; rewrite (Hlt l H); by apply Hl1).
  assert (forall B (f : kstate -> B), lock_free f -> (forall v s, f (set_k_log v s) = f s) -> f t = f s) as Hsame
    by (intros B f H1 H2; rewrite (Hdt _ f H1), H2; by apply Hd1).
  exists t. split; [done|]. split; [|split; [|by apply (Hsame _ k_bufs); eauto with frame]].
  - split.
    + apply (thread_ext s); [done|by replace n with (n + 1 - 1) by lia|by apply (Hsame _ k_procs); eauto with frame|by apply HL].
    + unfold unlocked. by rewrite HL.
    + intros c. unfold unlocked. rewrite HL by done. apply C3.
    + by rewrite (Hsame _ k_bufs), (Hsame _ k_slocks) by (eauto with frame || done).
    + by rewrite (Hsame _ (fun s => hw_disk (k_hw s))) by (eauto with frame || done).
    + by rewrite (Hsame _ k_disksize) by (eauto with frame || done).
  - split; try (unfold unlocked; rewrite HL by done; done); try done.
    + by rewrite (Hsame _ k_sb) by (eauto with frame || done).
    + by rewrite (Hsame _ k_inodes) by (eauto with frame || done).
    + apply (Hdt _ k_log); eauto with frame.
    + intros j. unfold unlocked. rewrite HL by done. apply S6.
    + intros j Hj. rewrite (Hsame _ k_slocks) by (eauto with frame || done). by apply S7.
    + intros j Hj. rewrite (Hsame _ k_slocks) by (eauto with frame || done). by apply S8.
Qed.

(** ** [log_write] *)
Lemma log_write_run s V I lk lg homes b k d :
  cache i n ip p s [b] V Dk -> (b < head)%nat -> blk s b = Some (k, d) -> side s I lk lg -> log_open lg start homes -> 0 < room lg ->
  exists t, log_write b s = Ret tt t /\ cache i n ip p t [b] V Dk /\ blk t b = Some (k, true) /\ side t I lk (logged_at lg k).
Proof.
  intros Hca Hb Hk Hs [HL Hlen Hact] Hroom. pose proof (sd_log _ _ _ _ Hs) as S3. pose proof HL as [L1 L2 L3 L4 L5 L6 L7 L8].
  destruct (held_buf i n ip p s [b] V Dk b Hca Hb) as (x & Hx & _); [set_solver|]. unfold blk in Hk. rewrite Hx in Hk. injection Hk as Ek _.
  pose proof (ca_thread _ _ _ _ _ _ _ _ Hca) as HT. assert (b < length (k_bufs s))%nat as Hlt by (by eapply lookup_lt_Some).
  destruct (acquire_cpu s i n (Some ip) Lk_log (th_cpu _ _ _ _ _ HT) (sd_llock _ _ _ _ Hs)) as (s1 & Ha & Hc1 & Hh1 & Hl1 & Hd1).
  assert (k_bufs s1 = k_bufs s) as Eb by (apply Hd1; eauto with frame). assert (k_log s1 = lg) as El by (rewrite (Hd1 _ k_log) by eauto with frame; done).
  set (a := absorb (lg_block lg) (Z.to_nat (lg_n lg)) k).
  assert (a < length (lg_block lg))%nat as Haa.
  { destruct (absorb_spec (lg_block lg) homes k L4) as (A1 & _); [intros h Hh; apply u32_small; destruct (L7 h Hh) as [R _]; unfold FSSIZE in R; lia|].
    unfold a. rewrite L3, Nat2Z.id, Hlen. unfold room in Hroom. lia. }
  destruct (lookup_lt_is_Some_2 _ _ Haa) as [v Hv]. set (bs := <[b := set_flag B_DIRTY x]> (k_bufs s)). set (lg' := logged_at lg k).
  destruct (log_leave (set_k_bufs bs s) (set_k_bufs bs s1) [b] V I lk lg lg') as (t & Hr & Hct & Hst' & Ebt);
    [|by eapply side_rest; [exact Hs|apply rest_bufs]| |done|done| |].
  { eapply cache_bufs; [exact Hca|]. eapply cache_dirty; try done; [apply Hca|set_solver]. }
  { by apply (on_cpu_ext s1). }
  { by apply same_data_bufs. }
  exists t. split; [|split; [done|split; [|done]]].
  - unfold log_write. rstep. rewrite S3. unfold room in Hroom. destruct (Z.leb_spec LOGSIZE (lg_n lg)); [lia|].
    destruct (Z.leb_spec (lg_size lg - 1) (lg_n lg)); [lia|]. cbn [orb]. destruct (Z.ltb_spec (lg_outstanding lg) 1); [lia|].
    run Ha. erewrite bind_Ret; [|apply (get_buf_ok s1 b x); by rewrite Eb]. cbv beta. rstep. rewrite El, Ek. fold a.
    set (s2 := set_k_log (set_lg_block (<[a := s32 k]> (lg_block lg)) lg) s1).
    assert (set_lh_block a (s32 k) s1 = Ret tt s2) as Es.
    { unfold set_lh_block. erewrite bind_Ret; [|by apply (lh_block_run s1 lg a v)]. cbv beta. unfold upd_log, modify. by rewrite El. }
    erewrite bind_Ret; [|exact Es]. cbv beta.
    assert (when (Z.of_nat a =? lg_n lg) (upd_log (set_lg_n (lg_n lg + 1))) s2 = Ret tt (set_k_log lg' s1)) as Ew.
    { unfold lg', logged_at. fold a. destruct (Z.of_nat a =? lg_n lg); cbn [when]; done. }
    erewrite bind_Ret; [|exact Ew]. cbv beta. erewrite bind_Ret; [|apply (upd_buf_ok (set_k_log lg' s1) b x); simpl; by rewrite Eb]. cbv beta.
    change (k_bufs (set_k_log lg' s1)) with (k_bufs s1). rewrite Eb. exact Hr.
  - unfold blk. rewrite Ebt. unfold bs. simpl. rewrite list_lookup_insert_eq by done. simpl. destruct (set_dirty_flags x) as [-> _]. by rewrite Ek.
Qed.

(** Storing into a block: read, change, log, release. *)
Lemma store_busy s t V homes I lk lg b k f (c : K Z) (Q : Z -> kstate -> Prop) :
  txn s V homes I lk lg -> busy i n ip p V Dk no_buffers s t b k -> 0 <= k < FSSIZE -> outside start k -> 0 < room lg ->
  (forall t', txn t' (fupd V k (f (V k))) (with_home homes k) I lk (logged_at lg k) -> run c t' Q) ->
  run (set_data b f ;; log_write b ;; brelse b ;; c) t Q.
Proof.
  intros [T1 T2 T3 T4] [B1 _ B3 (d & B4 & B5) B6] Hk Ho Hroom HQ. set (V' := fupd V k (f (V k))).
  apply wp_bind. eapply set_data_spec; [exact B1|done|set_solver|exact B4|]. fold V'. intros t1 Hc1 Hb1 R1.
  destruct (log_write_run t1 V' I lk lg homes b k d) as (t2 & Hr & Hc2 & Hb2 & Hs2); try done; [by rewrite Hb1|by eapply side_rest; [eapply side_rest|]|].
  eapply wp_step; [exact Hr|]. apply wp_bind. eapply (brelse_blk i n ip p Hst G t2 [b] []); [exact Hc2|done|set_solver|exact Hb2| |by right|].
  { intros e. rewrite list_elem_of_singleton. split; [set_solver|]. tauto. }
  intros t3 Hc3 _ R3. apply HQ. split; [done|by eapply side_rest|by apply logged_open|].
  intros h Hh Hn. unfold with_home in Hn. assert (h <> k /\ h ∉ homes) as [Hne Hnh] by (destruct (decide (k ∈ homes)); set_solver).
  unfold V'. rewrite fupd_other by done. by apply T4.
Qed.
(** ** [writei], where the file has its blocks *)
Definition same_users (lg lg' : logstate) : Prop := lg_outstanding lg' = lg_outstanding lg /\ lg_committing lg' = lg_committing lg.
Lemma logged_users lg k : same_users lg (logged_at lg k).
Proof. unfold logged_at. by destruct (_ =? _). Qed.

Lemma writei_loop_tx I lk j x sz N bs fuel : I !! j = Some x -> i_dev x = 1 -> size bs = N ->
  forall s V homes lg tot off (Q : Z -> kstate -> Prop), txn s V homes I lk lg -> writable start V (inode_din x) sz ->
  0 <= off -> 0 <= tot <= N -> off + (N - tot) <= sz -> N - tot <= Z.of_nat fuel -> touched off (N - tot) <= room lg ->
  (forall t V' homes' lg', txn t V' homes' I lk lg' -> same_users lg lg' -> writable start V' (inode_din x) sz ->
    wrote V V' (inode_din x) sz off (drop (Z.to_nat tot) bs) -> Q (off + (N - tot)) t) ->
  run (writei_loop (D := crash_driver) fuel j (rd_list bs) tot off N) s Q.
Proof.
  intros Hj Hd Hbs. assert (length bs = Z.to_nat N) as Hlb by (unfold size in Hbs; lia).
  induction fuel as [|fuel IH]; intros s V homes lg tot off Q HT HW H0 Ht Hsz Hfu Hroom HQ; cbn [writei_loop]; destruct (Z.ltb_spec tot N) as [Hlt|Hge]; try lia.
  1,3: assert (tot = N) as -> by lia; eapply wp_run; [done|]; specialize (HQ s V homes lg HT); rewrite Z.sub_diag, Z.add_0_r in HQ; apply HQ; try done;
    rewrite drop_ge by lia; split; [|done]; intros o Ho; rewrite decide_False; [done|]; unfold size; simpl; lia.
  pose proof (Z.mod_pos_bound off BSIZE ltac:(done)) as Hm. set (m := Z.min (N - tot) (BSIZE - off mod BSIZE)). set (k := off / BSIZE).
  assert (0 < m <= N - tot /\ off mod BSIZE + m <= BSIZE) as [Hm0 Hm1] by (unfold m; lia).
  assert (0 <= k /\ k * BSIZE < sz) as [Hk0 Hk] by (unfold k, BSIZE in *; dlia).
  pose proof (touched_step off (N - tot) H0 ltac:(lia)) as Hts. cbv zeta in Hts. fold m in Hts.
  replace (N - tot - m) with (N - (tot + m)) in Hts by lia.
  assert (0 < touched off (N - tot)) as Hpos by (unfold touched; destruct (Z.leb_spec (N - tot) 0); [lia|]; unfold BSIZE in *; dlia).
  destruct (rd_blocks _ _ _ (wr_read _ _ _ _ HW) k Hk0 Hk) as (_ & Hb & Hlen & _). pose proof (wr_outside _ _ _ _ HW k Hk0 Hk) as Hout.
  pose proof (txn_fsys _ _ _ _ _ _ HT) as Hf. eapply wp_step; [by eapply inode_fs|]. fold k. apply wp_bind.
  eapply (bmap_fs i n ip p Hst V Dk G HG no_buffers s I lk j x sz k); try done; [apply HW|]. intros t1 Hf1 R1. rewrite Hd. cbv zeta.
  assert (txn t1 V homes I lk lg) as HT1 by (eapply txn_of; [exact HT|exact R1|apply Hf1]).
  apply wp_bind. eapply (bread_fs i n ip p Hst V Dk G HG no_buffers t1 I lk); [exact Hf1|lia|]. intros b t2 Hbz. fold m.
  eapply wp_step; [done|]. change (slice tot m bs) with (take (Z.to_nat m) (drop (Z.to_nat tot) bs)).
  eapply store_busy; [exact HT1|exact Hbz|lia|done|lia|]. set (d := put _ _ _).
  assert (length (drop (Z.to_nat tot) bs) = Z.to_nat (N - tot)) as Hld by (rewrite length_drop; lia).
  assert (length d = Z.to_nat BSIZE) as Hdl by (unfold d; rewrite length_put; rewrite ?length_take; lia).
  intros t3 HT3. fold (stored V (inode_din x) k d) in HT3. destruct (logged_open lg start homes (block_at V (inode_din x) k) (tx_log _ _ _ _ _ _ HT)) as [_ Hr]; [lia|lia|done|].
  eapply IH; [exact HT3|by apply (stored_writable _ _ _ _ HW k Hk0 Hk d)|lia..|].
  intros t V' homes' lg' HT' Hu HW' Hwr. replace (off + m + (N - (tot + m))) with (off + (N - tot)) by lia. apply (HQ t V' homes' lg'); try done.
  - destruct Hu, (logged_users lg (block_at V (inode_din x) k)). split; congruence.
  - unfold size in *. apply (wrote_step start V (inode_din x) sz off _ m V'); try done; rewrite ?Hld; try lia; [unfold size; lia..|].
    rewrite drop_drop. replace (Z.to_nat tot + Z.to_nat m)%nat with (Z.to_nat (tot + m)) by lia. exact Hwr.
Qed.

Lemma writei_tx s V homes I lk lg j x bs off (Q : Z -> kstate -> Prop) : txn s V homes I lk lg -> I !! j = Some x -> i_dev x = 1 -> i_type x <> T_DEV ->
  writable start V (inode_din x) (i_size x) -> i_size x <= MAXFILE * BSIZE -> 0 <= off -> off + size bs <= i_size x -> touched off (size bs) <= room lg ->
  (forall t V' homes' lg', txn t V' homes' I lk lg' -> same_users lg lg' -> writable start V' (inode_din x) (i_size x) ->
    wrote V V' (inode_din x) (i_size x) off bs -> Q (size bs) t) ->
  run (writei (D := crash_driver) j (rd_list bs) off (size bs)) s Q.
Proof.
  intros HT Hj Hd Hty HW Hmax H0 Hsz Hroom HQ. change (MAXFILE * BSIZE) with 71680 in *. pose proof (size_nonneg bs) as Hn.
  pose proof (txn_fsys _ _ _ _ _ _ HT) as Hf. unfold writei. eapply wp_step; [by eapply inode_fs|].
  destruct (Z.eqb_spec (i_type x) T_DEV); [done|]. rewrite u32_small by lia.
  destruct (Z.ltb_spec (i_size x) off); [lia|]. destruct (Z.ltb_spec (off + size bs) off); [lia|]. cbn [orb].
  change (MAXFILE * BSIZE) with 71680. destruct (Z.ltb_spec 71680 (off + size bs)); [lia|].
  apply wp_bind. eapply (writei_loop_tx I lk j x (i_size x) (size bs) bs); try done; try lia; [by rewrite Z.sub_0_r|].
  intros t V' homes' lg' HT' Hu HW' Hwr. rewrite Z.sub_0_r in *. eapply wp_step; [by eapply inode_fs, Hj; apply (txn_fsys _ _ _ _ _ _ HT')|].
  destruct (Z.ltb_spec (i_size x) (off + size bs)); [lia|]. rewrite andb_false_r. eapply wp_step; [done|]. eapply wp_run; [done|].
  rewrite s32_small by lia. by apply (HQ t V' homes' lg').
Qed.
(** ** [begin_op] and [end_op] *)
(** No transaction is open and none is being committed. *)
Record log_idle (lg : logstate) : Prop := mk_log_idle {
  li_holds : log_holds lg start [];
  li_len : length (lg_block lg) = Z.to_nat LOGSIZE;
  li_users : lg_outstanding lg = 0;
  li_committing : lg_committing lg = 0 }.
Lemma log_holds_users lg homes a b : log_holds lg start homes -> log_holds (set_lg_committing b (set_lg_outstanding a lg)) start homes.
Proof. by intros []. Qed.

Lemma begin_op_tx s V I lk lg : cache i n ip p s [] V Dk -> side s I lk lg -> log_idle lg -> (forall h, outside start h -> V h = Dk h) ->
  exists t, begin_op s = Ret tt t /\ txn t V [] I lk (set_lg_outstanding 1 lg).
Proof.
  intros Hca Hs [HL Hlen Hu Hcm] Hcl. pose proof (ca_thread _ _ _ _ _ _ _ _ Hca) as HT. pose proof HL as [_ _ L3 _ _ _ _ _].
  destruct (acquire_cpu s i n (Some ip) Lk_log (th_cpu _ _ _ _ _ HT) (sd_llock _ _ _ _ Hs)) as (s1 & Ha & Hc1 & Hh1 & Hl1 & Hd1).
  assert (k_log s1 = lg) as El by (rewrite (Hd1 _ k_log) by eauto with frame; apply Hs).
  destruct (log_leave s s1 [] V I lk lg (set_lg_outstanding 1 lg) Hca Hs Hc1 Hh1 Hl1 Hd1) as (t & Hr & Hct & Hst' & _).
  exists t. split; [|split; try done; [|by intros h Hh _; apply Hcl]].
  - unfold begin_op. run Ha. rstep.
    assert (forall f, begin_op_loop f s1 = release Lk_log (set_k_log (set_lg_outstanding 1 lg) s1)) as E; [|by rewrite E].
    intros f. assert (forall m : K unit, (l <- gets k_log ;; if truth (lg_committing l) || (LOGSIZE <? lg_n l + (lg_outstanding l + 1) * MAXOPBLOCKS)
      then m else upd_log (set_lg_outstanding (lg_outstanding l + 1)) ;; release Lk_log) s1 = release Lk_log (set_k_log (set_lg_outstanding 1 lg) s1)) as E.
    { intros m. unfold bind at 1, gets. cbn [obind]. rewrite El, Hcm, Hu, L3.
      change (truth 0 || (LOGSIZE <? Z.of_nat (length (@nil Z)) + (0 + 1) * MAXOPBLOCKS)) with false. cbv iota.
      unfold bind, upd_log, modify. cbn [obind]. by rewrite El. }
    destruct f; apply E.
  - split; [|done|simpl; lia]. exact (log_holds_users lg [] 1 (lg_committing lg) HL).
Qed.

Lemma end_op_tx s V homes I lk lg (Q : unit -> kstate -> Prop) : txn s V homes I lk lg -> lg_outstanding lg = 1 -> lg_committing lg = 0 ->
  length (V start) = Z.to_nat BSIZE -> hdr_n (Dk start) = 0 -> (forall d, atomic start Dk V d -> G d) ->
  (forall t, hdr_n (hw_disk (k_hw t) start) = 0 -> (forall h, outside start h -> hw_disk (k_hw t) h = V h) -> Q tt t) ->
  run (end_op (D := crash_driver)) s Q.
Proof.
  intros [Hca Hs [HL Hlen _] Hcl] Hu Hcm Hst0 Hemp HGa HQ. pose proof (ca_thread _ _ _ _ _ _ _ _ Hca) as HT.
  destruct (acquire_cpu s i n (Some ip) Lk_log (th_cpu _ _ _ _ _ HT) (sd_llock _ _ _ _ Hs)) as (s1 & Ha & Hc1 & Hh1 & Hl1 & Hd1).
  assert (k_log s1 = lg) as El by (rewrite (Hd1 _ k_log) by eauto with frame; apply Hs).
  set (lg' := set_lg_committing 1 (set_lg_outstanding 0 lg)).
  destruct (log_leave s s1 [] V I lk lg lg' Hca Hs Hc1 Hh1 Hl1 Hd1) as (t & Hr & Hct & Hst' & _).
  unfold end_op. eapply wp_step; [exact Ha|]. eapply wp_step; [reflexivity|]. eapply wp_step; [reflexivity|].
  cbn [k_log set_k_log]. rewrite El. cbn [lg_committing set_lg_outstanding lg_outstanding]. rewrite Hcm, Hu. cbn [truth negb Z.eqb Z.sub Z.add Z.opp Z.pos_sub].
  eapply wp_step; [unfold upd_log, modify, bind, ret; cbn [obind]; reflexivity|]. cbn [k_log set_k_log].
  change (set_k_log (set_lg_committing 1 (set_lg_outstanding (1 - 1) lg)) (set_k_log (set_lg_outstanding (1 - 1) lg) s1)) with (set_k_log lg' s1).
  eapply wp_step; [exact Hr|]. cbn [when]. apply wp_bind. eapply wp_weaken; [exact HGa|].
  apply (commit_wp i n ip p Hst start homes V Dk t); [done|split; try done; rewrite (sd_log _ _ _ _ Hst'); by apply log_holds_users|].
  intros t2 V2 D2 Hc2 _ Hh2 Hout Hlk. pose proof (ca_thread _ _ _ _ _ _ _ _ Hc2) as HT2.
  assert (unlocked Lk_log t2) as Hu2 by (unfold unlocked; rewrite Hlk by done; apply Hst').
  destruct (acquire_cpu t2 i n (Some ip) Lk_log (th_cpu _ _ _ _ _ HT2) Hu2) as (t3 & Ha3 & Hc3 & Hh3 & Hl3 & Hd3).
  eapply wp_step; [exact Ha3|]. eapply wp_step; [reflexivity|]. set (t4 := set_k_log _ t3).
  destruct (wakeup_run Ch_log t4 i (n + 1) (Some ip)) as (t5 & Hw & Hc5 & Hu5 & Hl5 & Hd5);
    [unfold table_size; simpl; rewrite (Hd3 _ k_procs) by eauto with frame; apply HT2|by apply (on_cpu_ext t3)|
     unfold unlocked; simpl; rewrite Hl3 by done; apply HT2|destruct HT2; lia|].
  eapply wp_step; [exact Hw|].
  destruct (release_cpu t5 i (n + 1) (Some ip) Lk_log Hc5) as (t6 & Hr6 & _ & _ & _ & Hd6); [destruct HT2; lia| |].
  { destruct Hh3 as [A1 A2]. unfold held_by. rewrite Hl5 by done. by split. }
  eapply wp_run; [exact Hr6|]. assert (hw_disk (k_hw t6) = D2) as Ed.
  { rewrite (Hd6 _ (fun s => hw_disk (k_hw s))), (Hd5 _ (fun s => hw_disk (k_hw s))) by eauto with frame. simpl.
    rewrite (Hd3 _ (fun s => hw_disk (k_hw s))) by eauto with frame. apply Hc2. }
  apply HQ; rewrite Ed; [done|]. intros h Hh. by apply Hout.
Qed.
End Write.
(* ------------------------------------------------------------------ *)
(** ** A write to a file, from [begin_op] to [end_op] *)

Lemma list_eq_nth (l k : list Z) : length l = length k -> (forall j, (j < length l)%nat -> nth j l 0 = nth j k 0) -> l = k.
Proof.
  intros Hl Hn. apply list_eq. intros j. destruct (decide (j < length l)%nat) as [Hj|Hj].
  - specialize (Hn j Hj). rewrite !nth_lookup in Hn. destruct (lookup_lt_is_Some_2 l j Hj) as [x Hx].
    destruct (lookup_lt_is_Some_2 k j ltac:(lia)) as [y Hy]. rewrite Hx, Hy in *. by simpl in Hn; subst.
  - rewrite !lookup_ge_None_2 by lia. done.
Qed.
Lemma fcontents_nth V din o : 0 <= o < di_size din -> nth (Z.to_nat o) (fcontents V din) 0 = fbyte V din o.
Proof.
  intros Ho. unfold fcontents, fbytes. rewrite nth_lookup, list_lookup_fmap, lookup_seqZ_lt by lia. simpl. by rewrite Z2Nat.id by lia.
Qed.
Lemma fcontents_length V din : length (fcontents V din) = Z.to_nat (di_size din).
Proof. unfold fcontents, fbytes. by rewrite length_fmap, length_seqZ. Qed.
Lemma wrote_contents V V' din off bs : wrote V V' din (di_size din) off bs -> 0 <= off -> off + size bs <= di_size din ->
  fcontents V' din = put off bs (fcontents V din).
Proof.
  intros [Hw _] H0 Hsz. unfold size in *. pose proof (fcontents_length V din) as Hl.
  apply list_eq_nth; [rewrite length_put by lia; by rewrite !fcontents_length|]. rewrite fcontents_length. intros j Hj.
  rewrite nth_put by lia. replace j with (Z.to_nat (Z.of_nat j)) by lia. rewrite !fcontents_nth by lia. rewrite Hw by lia. unfold size.
  destruct (decide (off <= Z.of_nat j < off + Z.of_nat (length bs))), (decide _); lia || done || (f_equal; lia).
Qed.
(** A file is its blocks: disks that agree outside the log hold the same bytes. *)
Lemma fcontents_ext start V d din : writable start V din (di_size din) -> (NDIRECT * BSIZE < di_size din -> outside start (Mkfs.addr din NDIRECT)) ->
  (forall h, outside start h -> d h = V h) -> fcontents d din = fcontents V din.
Proof.
  intros HW Hidx Hd. unfold fcontents, fbytes. apply list_fmap_ext. intros c o Ho. apply lookup_seqZ in Ho as [-> Ho].
  assert (0 <= (0 + Z.of_nat c) / BSIZE /\ (0 + Z.of_nat c) / BSIZE * BSIZE < di_size din) as [H0 H1] by (unfold BSIZE in *; dlia).
  assert (block_at d din ((0 + Z.of_nat c) / BSIZE) = block_at V din ((0 + Z.of_nat c) / BSIZE)) as ->.
  { unfold block_at. destruct (Z.ltb_spec ((0 + Z.of_nat c) / BSIZE) NDIRECT); [done|]. rewrite Hd; [done|]. apply Hidx. unfold NDIRECT, BSIZE in *. lia. }
  rewrite Hd; [done|]. by apply (wr_outside _ _ _ _ HW).
Qed.

(** One transaction that writes [bs] at [off], as [filewrite] runs it. *)
Definition write_file (j : nat) (off : Z) (bs : list Z) : K Z :=
  begin_op ;;
  r <- writei (D := crash_driver) j (rd_list bs) off (size bs) ;;
  end_op (D := crash_driver) ;;
  ret r.
(** The disk [d], after recovery, has the file before or after the write and nothing
    else changed. *)
Definition old_or_new (start : Z) (Dk : Z -> list Z) (din : dinode) (off : Z) (bs : list Z) (d : Z -> list Z) : Prop :=
  (fcontents (replay start d) din = fcontents Dk din \/ fcontents (replay start d) din = put off bs (fcontents Dk din)) /\
  (forall h, outside start h -> (forall k, 0 <= k -> k * BSIZE < di_size din -> h <> block_at Dk din k) -> replay start d h = Dk h).

(** C2: writing into a file is atomic.  In a kernel at rest, with no transaction open,
    run [begin_op], [writei] of some bytes inside the file and [end_op], which commits,
    on the driver with crash points.  Whenever the machine stops, what recovery makes of
    the disk is the file with its old bytes or the file with exactly the new bytes in
    place of the old ones, however many blocks they span, direct or indirect, and
    every other block outside the log is untouched.  When the call returns, it returns
    the number of bytes, and the disk itself has the new file and an empty log.  The
    only panic is the buffer cache's, for want of a buffer. *)
Theorem write_atomic i n ip p s Dk start I lk lg j x off bs :
  p_state p <> SLEEPING -> cache i n ip p s [] Dk Dk -> side p s I lk lg -> log_idle start lg -> lg_size lg = Mkfs.nlog ->
  length (Dk start) = Z.to_nat BSIZE -> hdr_n (Dk start) = 0 ->
  I !! j = Some x -> i_dev x = 1 -> i_type x <> T_DEV -> i_size x <= MAXFILE * BSIZE -> let din := inode_din x in
  writable start Dk din (i_size x) -> (NDIRECT * BSIZE < i_size x -> outside start (Mkfs.addr din NDIRECT)) ->
  0 <= off -> off + size bs <= i_size x -> touched off (size bs) <= Mkfs.nlog - 1 ->
  safe (fun t => old_or_new start Dk din off bs (hw_disk (k_hw t))) eq no_buffers
    (fun r t => r = size bs /\ fcontents (hw_disk (k_hw t)) din = put off bs (fcontents Dk din) /\ hdr_n (hw_disk (k_hw t) start) = 0 /\
       forall h, outside start h -> (forall k, 0 <= k -> k * BSIZE < i_size x -> h <> block_at Dk din k) -> hw_disk (k_hw t) h = Dk h)
    (write_file j off bs s).
Proof.
  intros Hst Hca Hs Hl Hlsz Hlen Hemp Hj Hd Hty Hmax din HW Hidx H0 Hsz Hroom. pose proof Hl as [HL _ Hu Hcm].
  set (G := old_or_new start Dk din off bs). change (wp G no_buffers (write_file j off bs) s
    (fun r t => r = size bs /\ fcontents (hw_disk (k_hw t)) din = put off bs (fcontents Dk din) /\ hdr_n (hw_disk (k_hw t) start) = 0 /\
       forall h, outside start h -> (forall k, 0 <= k -> k * BSIZE < i_size x -> h <> block_at Dk din k) -> hw_disk (k_hw t) h = Dk h)).
  assert (G Dk) as HG.
  { split; [left; apply (fcontents_ext start); try done|]; intros h Hh; [|intros _]; by apply replay_empty. }
  destruct (begin_op_tx i n ip p Dk start s Dk I lk lg Hca Hs Hl) as (s1 & Hb & HT1); [done|].
  unfold write_file. eapply wp_step; [exact Hb|]. apply wp_bind.
  eapply (writei_tx i n ip p Hst Dk start G HG s1 Dk [] I lk _ j x bs off); try done.
  { unfold room. simpl. rewrite Hlsz, (lh_n _ _ _ HL). unfold Mkfs.nlog, LOGSIZE in *. simpl. lia. }
  intros t V homes lg' HT [U1 U2] HW' Hwr. pose proof (wrote_contents _ _ _ _ _ Hwr H0 Hsz) as Enew. fold din in Enew, HW'.
  assert (forall h, outside start h -> (forall k, 0 <= k -> k * BSIZE < i_size x -> h <> block_at Dk din k) -> V h = Dk h) as Hoth by (intros h _; apply Hwr).
  apply wp_bind. eapply (end_op_tx i n ip p Hst Dk start G t V homes I lk lg'); try done.
  - rewrite U2. simpl. exact Hcm.
  - rewrite (proj2 Hwr); [done|]. intros k Hk0 Hk E. pose proof (wr_outside _ _ _ _ HW k Hk0 Hk) as Ho. unfold din in Ho. rewrite <- E in Ho.
    unfold outside, LOGSIZE, MAXOPBLOCKS in Ho. lia.
  - intros d [Ho|Hn].
    + split; [left; by apply (fcontents_ext start)|]. intros h Hh _. by apply Ho.
    + split; [right; rewrite <- Enew; by apply (fcontents_ext start)|]. intros h Hh Hb'. rewrite Hn by done. by apply Hoth.
  - intros t2 Hh2 Hout. eapply wp_run; [done|]. split; [done|]. split; [rewrite <- Enew; by apply (fcontents_ext start)|]. split; [done|].
    intros h Hh Hb'. rewrite Hout by done. by apply Hoth.
Qed.
(** *** A file of two blocks, and a write across both *)
Definition two_blocks : inode := mk_inode 1 5 1 1 T_FILE 0 0 1 1024 (100 :: 101 :: replicate 11 0).
Definition idle_log : logstate := mk_log 2 30 0 0 1 0 (replicate 30 0).
Definition at_rest : kstate := set_k_log idle_log (set_k_inodes [two_blocks] (set_k_sb sb0 (fresh_cache zeros))).
Lemma at_rest_cache : cache 0 0 0 init_proc at_rest [] zeros zeros.
Proof.
  destruct (fresh_cache_ok zeros) as [C1 C2 C3 C4 C5 C6]. split; [|exact C2|exact C3|exact C4|exact C5|exact C6].
  apply (thread_ext (fresh_cache zeros)); [exact C1| |reflexivity|reflexivity].
  apply (on_cpu_ext (fresh_cache zeros)); [reflexivity..|apply C1].
Qed.
Lemma at_rest_side : side init_proc at_rest [two_blocks] [] idle_log.
Proof.
  split; [reflexivity..| | |].
  - intros j. reflexivity.
  - intros j Hj. by apply not_elem_of_nil in Hj.
  - intros j _. reflexivity.
Qed.
Lemma idle_log_idle : log_idle 2 idle_log.
Proof.
  split; [|reflexivity..]. split; [reflexivity..| |unfold FSSIZE, LOGSIZE, MAXOPBLOCKS; lia|apply Nat.leb_le; reflexivity| |apply NoDup_nil_2].
  - intros j h. by rewrite lookup_nil.
  - intros h Hh. by apply not_elem_of_nil in Hh.
Qed.
Lemma two_blocks_at k : 0 <= k -> k * BSIZE < 1024 -> block_at zeros (inode_din two_blocks) k = 100 + k.
Proof. intros H0 H. assert (k = 0 \/ k = 1) as [->| ->] by (unfold BSIZE in H; lia); reflexivity. Qed.
Lemma two_blocks_writable : writable 2 zeros (inode_din two_blocks) 1024.
Proof.
  split; [split; [reflexivity|]|..].
  - intros k H0 Hk. rewrite two_blocks_at by done. change MAXFILE with 140. unfold BSIZE, FSSIZE, NDIRECT in *.
    split; [lia|]. split; [lia|]. split; [reflexivity|lia].
  - intros k H0 Hk. rewrite two_blocks_at by done. unfold outside, LOGSIZE, MAXOPBLOCKS, BSIZE in *. lia.
  - intros k k' H0 Hk H0' Hk'. rewrite !two_blocks_at by done. lia.
  - intros k Hs. unfold NDIRECT, BSIZE in Hs. lia.
Qed.
Lemma write_atomic_witness : let din := inode_din two_blocks in let bs := replicate 100 7 in
  safe (fun t => old_or_new 2 zeros din 500 bs (hw_disk (k_hw t))) eq no_buffers
    (fun r t => r = 100 /\ fcontents (hw_disk (k_hw t)) din = put 500 bs (fcontents zeros din) /\ hdr_n (hw_disk (k_hw t) 2) = 0 /\
       forall h, outside 2 h -> (forall k, 0 <= k -> k * BSIZE < 1024 -> h <> block_at zeros din k) -> hw_disk (k_hw t) h = zeros h)
    (write_file 0 500 bs at_rest).
Proof.
  cbv zeta. refine (write_atomic 0 0 0 init_proc at_rest zeros 2 [two_blocks] [] idle_log 0 two_blocks 500 (replicate 100 7)
    _ at_rest_cache at_rest_side idle_log_idle eq_refl eq_refl _ eq_refl eq_refl _ _ two_blocks_writable _ _ _ _).
  - discriminate.
  - by vm_compute.
  - discriminate.
  - vm_compute. discriminate.
  - intros H. vm_compute in H. discriminate.
  - lia.
  - vm_compute. discriminate.
  - vm_compute. discriminate.
Defined.
End WriteSpec.
