(* ===== verification/Pipe.v ===== *)
(** * Pipes

    [pipe.c] without [pipealloc], which is in [File].  The pipe at page address
    [p] is [k_pipes p]; user buffers are addressed through the running process's
    page table. *)

From S2P Require Import Prelude Mmu Bytes Mem State Spinlock Printk Critical Kalloc Vm VmSpec Umem Sched Sleeplock Disk Bio Log Inode Console.

Definition PIPESIZE : Z := 512.
Definition get_pipe (p : Z) : K pipe := gets (fun s => k_pipes s p).

Definition pipeclose (p : Z) (writable : bool) : K unit :=
  acquire (Lk_pipe p) ;;
  (if writable then upd_pipe p (set_pi_writeopen 0) ;; wakeup (Ch_nread p)
   else upd_pipe p (set_pi_readopen 0) ;; wakeup (Ch_nwrite p)) ;;
  x <- get_pipe p ;;
  if (pi_readopen x =? 0) && (pi_writeopen x =? 0) then
    release (Lk_pipe p) ;;
    kfree p
  else release (Lk_pipe p).

(** [p->data[p->nwrite++ % PIPESIZE] = c] and its reading counterpart. *)
Definition pipe_push (c : Z) (x : pipe) : pipe :=
  set_pi_nwrite (u32 (pi_nwrite x + 1))
    (set_pi_data (<[Z.to_nat (pi_nwrite x mod PIPESIZE) := u8 c]> (pi_data x)) x).
Definition pipe_head (x : pipe) : Z := ring_at PIPESIZE (pi_data x) (pi_nread x).
Definition pipe_pop (x : pipe) : pipe := set_pi_nread (u32 (pi_nread x + 1)) x.
Definition pipe_full (x : pipe) : bool := pi_nwrite x =? u32 (pi_nread x + PIPESIZE).
Definition pipe_empty (x : pipe) : bool := pi_nread x =? pi_nwrite x.

(** [false]: the reader is gone or the process was killed. *)
Fixpoint pipewrite_wait (fuel : nat) (p : Z) : K bool :=
  x <- get_pipe p ;;
  if pipe_full x then
    kd <- (if pi_readopen x =? 0 then ret true else mykilled) ;;
    if kd then ret false else
    match fuel with
    | O => nofuel
    | S f => wakeup (Ch_nread p) ;; sleep (Ch_nwrite p) (Some (Lk_pipe p)) ;; pipewrite_wait f p
    end
  else ret true.
(** [k] bytes of [n] are left to write. *)
Fixpoint pipewrite_loop (k : nat) (p addr : Z) : K bool :=
  match k with
  | O => ret true
  | S k' =>
      w <- gets k_wait ;; ok <- pipewrite_wait w p ;;
      if negb ok then ret false else
      c <- load8 addr ;;
      upd_pipe p (pipe_push c) ;;
      pipewrite_loop k' p (addr + 1)
  end.
Definition pipewrite (p addr n : Z) : K Z :=
  acquire (Lk_pipe p) ;;
  ok <- pipewrite_loop (Z.to_nat n) p addr ;;
  if negb ok then release (Lk_pipe p) ;; ret (-1) else
  wakeup (Ch_nread p) ;;
  release (Lk_pipe p) ;;
  ret n.

Fixpoint piperead_wait (fuel : nat) (p : Z) : K bool :=
  x <- get_pipe p ;;
  if pipe_empty x && truth (pi_writeopen x) then
    kd <- mykilled ;;
    if kd then ret false else
    match fuel with
    | O => nofuel
    | S f => sleep (Ch_nread p) (Some (Lk_pipe p)) ;; piperead_wait f p
    end
  else ret true.
(** At most [k] bytes; the result is the number copied. *)
Fixpoint piperead_loop (k : nat) (p addr i : Z) : K Z :=
  match k with
  | O => ret i
  | S k' =>
      x <- get_pipe p ;;
      if pipe_empty x then ret i else
      upd_pipe p pipe_pop ;;
      store8 (addr + i) (pipe_head x) ;;
      piperead_loop k' p addr (i + 1)
  end.
Definition piperead (p addr n : Z) : K Z :=
  acquire (Lk_pipe p) ;;
  w <- gets k_wait ;; ok <- piperead_wait w p ;;
  if negb ok then release (Lk_pipe p) ;; ret (-1) else
  i <- piperead_loop (Z.to_nat n) p addr 0 ;;
  wakeup (Ch_nwrite p) ;;
  release (Lk_pipe p) ;;
  ret i.

(* ------------------------------------------------------------------ *)
(** ** A pipe is a bounded queue *)

(** The counters are 32-bit and wrap; their difference is the fill level. *)
Definition pipe_level (x : pipe) : Z := u32 (pi_nwrite x - pi_nread x).
Record pipe_inv (x : pipe) : Prop := mk_pipe_inv {
  pv_size : length (pi_data x) = Z.to_nat PIPESIZE;
  pv_bytes : Forall (fun c => 0 <= c < 256) (pi_data x);
  pv_read : 0 <= pi_nread x < 2 ^ 32;
  pv_write : 0 <= pi_nwrite x < 2 ^ 32;
  pv_level : pipe_level x <= PIPESIZE }.

(** The abstract contents: the bytes between the two counters, oldest first. *)
Definition pipe_queue (x : pipe) : list Z := ring PIPESIZE (pi_data x) (pi_nread x) (Z.to_nat (pipe_level x)).

(** The buffer size divides the range of the counters, so a wrapped counter
    names the same slot. *)
Lemma u32_slot z : u32 z mod PIPESIZE = z mod PIPESIZE.
Proof. unfold u32, PIPESIZE. dlia. Qed.

Lemma pipe_level_range x : 0 <= pipe_level x < 2 ^ 32.
Proof. apply u32_range. Qed.

Lemma pipe_full_level x : pipe_inv x -> pipe_full x = true <-> pipe_level x = PIPESIZE.
Proof.
  intros [H1 H0 H2 H3 H4]. unfold pipe_full, pipe_level, u32, PIPESIZE in *. rewrite Z.eqb_eq. dlia.
Qed.
Lemma pipe_empty_level x : pipe_inv x -> pipe_empty x = true <-> pipe_level x = 0.
Proof.
  intros [H1 H0 H2 H3 H4]. unfold pipe_empty, pipe_level, u32, PIPESIZE in *. rewrite Z.eqb_eq. dlia.
Qed.

(** The slot after the last byte. *)
Lemma pipe_end x : pi_nwrite x mod PIPESIZE = (pi_nread x + pipe_level x) mod PIPESIZE.
Proof. unfold pipe_level, u32, PIPESIZE. dlia. Qed.

Lemma pipe_push_spec x c :
  pipe_inv x -> pipe_full x = false ->
  pipe_inv (pipe_push c x) /\ pipe_queue (pipe_push c x) = pipe_queue x ++ [u8 c].
Proof.
  intros HI Hf. pose proof HI as [H1 H0 H2 H3 H4]. pose proof (pipe_level_range x).
  assert (pipe_level x < PIPESIZE) as Hlt.
  { destruct (decide (pipe_level x = PIPESIZE)) as [E|]; [|lia]. apply (pipe_full_level x HI) in E. congruence. }
  assert (pipe_level (pipe_push c x) = pipe_level x + 1) as El.
  { unfold pipe_level, pipe_push, u32, PIPESIZE in *; simpl. dlia. }
  split.
  - split; simpl; [by rewrite length_insert|apply Forall_insert; [done|apply u8_range]|done|apply u32_range|lia].
  - unfold pipe_queue. rewrite El, Z2Nat.inj_add by lia. change (Z.to_nat 1) with 1%nat. rewrite Nat.add_1_r.
    apply ring_store; [done|done|lia|]. rewrite Z2Nat.id by lia. apply pipe_end.
Qed.

Lemma pipe_pop_spec x :
  pipe_inv x -> pipe_empty x = false ->
  pipe_inv (pipe_pop x) /\ pipe_queue x = pipe_head x :: pipe_queue (pipe_pop x).
Proof.
  intros HI He. pose proof HI as [H1 H0 H2 H3 H4]. pose proof (pipe_level_range x) as Hr.
  assert (0 < pipe_level x) as Hpos.
  { destruct (decide (pipe_level x = 0)) as [E|]; [|lia]. apply (pipe_empty_level x HI) in E. congruence. }
  assert (pipe_level (pipe_pop x) = pipe_level x - 1) as El.
  { unfold pipe_level, pipe_pop, u32, PIPESIZE in *; simpl. dlia. }
  split.
  - split; try done; [apply u32_range|rewrite El; lia].
  - unfold pipe_queue. rewrite El. replace (Z.to_nat (pipe_level x)) with (S (Z.to_nat (pipe_level x - 1))) by lia.
    rewrite ring_S. f_equal. apply ring_congr. symmetry. apply u32_slot.
Qed.

Lemma pipe_queue_length x : pipe_inv x -> Z.of_nat (length (pipe_queue x)) = pipe_level x.
Proof.
  intros HI. unfold pipe_queue. rewrite ring_length, Z2Nat.id; [done|apply pipe_level_range].
Qed.
Lemma pipe_not_full x : pipe_inv x -> Z.of_nat (length (pipe_queue x)) < PIPESIZE -> pipe_full x = false.
Proof.
  intros HI H. rewrite pipe_queue_length in H by done. destruct (pipe_full x) eqn:E; [|done].
  apply pipe_full_level in E; [lia|done].
Qed.
Lemma pipe_empty_queue x : pipe_inv x -> pipe_empty x = bool_decide (pipe_queue x = []).
Proof.
  intros HI. pose proof (pipe_queue_length x HI). destruct (pipe_empty x) eqn:E.
  - apply pipe_empty_level in E; [|done]. symmetry. apply bool_decide_eq_true_2, nil_length_inv. lia.
  - symmetry. apply bool_decide_eq_false_2. intros Hq. rewrite Hq in H. simpl in H.
    assert (pipe_empty x = true) by (apply pipe_empty_level; [done|lia]). congruence.
Qed.
Lemma pipe_head_byte x : pipe_inv x -> 0 <= pipe_head x < 256.
Proof.
  intros HI. unfold pipe_head, ring_at. rewrite nth_lookup.
  destruct (pi_data x !! _) as [c|] eqn:E; simpl; [|lia]. by apply (Forall_lookup_1 _ _ _ _ (pv_bytes x HI) E).
Qed.

(** The pipe at [p] becomes [x], the others stay. *)
Definition pipe_set (f g : Z -> pipe) (p : Z) (x : pipe) : Prop := forall q, g q = if decide (q = p) then x else f q.
Lemma pipe_set_at f g p x : pipe_set f g p x -> g p = x.
Proof. intros H. rewrite H. by destruct (decide (p = p)). Qed.
Lemma pipe_set_upd f g p x h : pipe_set (fupd f p h) g p x -> pipe_set f g p x.
Proof. intros H q. rewrite H. unfold fupd. by destruct (decide (q = p)). Qed.
Lemma pipe_set_id f p : pipe_set f f p (f p).
Proof. intros q. by destruct (decide (q = p)) as [->|]. Qed.

#[export] Instance same_data_pipes : Proper (eq ==> same_data ==> same_data) set_k_pipes.
Proof. same_data_tac. Qed.
#[export] Instance same_data_mem : Proper (eq ==> same_data ==> same_data) set_k_mem.
Proof. same_data_tac. Qed.
Lemma io_free_pgdir : io_free cur_pgdir. Proof. io_free_tac. Qed.
#[export] Hint Resolve io_free_pgdir : frame.

(** The reading loop, while there is data. *)
Lemma piperead_loop_run p N addr k : forall s i,
  pipe_inv (k_pipes s p) -> user_buf (k_mem s) (cur_pgdir s) addr N -> (i + k <= N)%nat ->
  let q := pipe_queue (k_pipes s p) in let c := Nat.min k (length q) in
  exists f x m, piperead_loop k p addr (Z.of_nat i) s = Ret (Z.of_nat (i + c)) (set_k_mem m (set_k_pipes f s)) /\
    pipe_set (k_pipes s) f p x /\ pipe_inv x /\ pipe_queue x = drop c q /\
    ubytes m (cur_pgdir s) addr (i + c) = ubytes (k_mem s) (cur_pgdir s) addr i ++ take c q.
Proof.
  induction k as [|k IH]; intros s i HI HB HN q c; cbn [piperead_loop].
  - exists (k_pipes s), (k_pipes s p), (k_mem s). unfold c. cbn [Nat.min]. rewrite Nat.add_0_r, drop_0, take_0, app_nil_r.
    split; [by destruct s|]. split; [apply pipe_set_id|]. done.
  - unfold get_pipe. rstep. rewrite pipe_empty_queue by done. fold q. destruct (bool_decide_reflect (q = [])) as [Hq|Hne].
    + exists (k_pipes s), (k_pipes s p), (k_mem s). unfold c. rewrite Hq. cbn [length Nat.min].
      rewrite Nat.add_0_r, drop_0, take_0, app_nil_r. split; [by destruct s|]. split; [apply pipe_set_id|]. done.
    + assert (pipe_empty (k_pipes s p) = false) as He by (rewrite pipe_empty_queue by done; by apply bool_decide_eq_false_2).
      destruct (pipe_pop_spec (k_pipes s p) HI He) as [HI' Hq]. fold q in Hq.
      unfold upd_pipe. rstep. set (s1 := set_k_pipes (fupd (k_pipes s) p (pipe_pop (k_pipes s p))) s).
      destruct (store8_run s1 addr N i (pipe_head (k_pipes s p)) HB ltac:(lia)) as (a & Ha & Hst). run Hst.
      set (v := pipe_head (k_pipes s p)) in *.
      set (s2 := set_k_mem (st8 (k_mem s1) a v) s1).
      destruct (user_buf_store _ _ _ _ i a v HB ltac:(lia) Ha) as [HB2 _].
      assert (k_pipes s2 p = pipe_pop (k_pipes s p)) as Ep by (simpl; by rewrite fupd_same).
      destruct (IH s2 (S i)) as (f & x & m & Hrun & Hset & Hx & Hqx & Hby); [by rewrite Ep|done|lia|].
      rewrite Ep in *. set (q' := pipe_queue (pipe_pop (k_pipes s p))) in *.
      assert (c = S (Nat.min k (length q'))) as Ec by (unfold c; rewrite Hq; done).
      exists f, x, m. replace (Z.of_nat i + 1) with (Z.of_nat (S i)) by lia. rewrite Hrun, Ec, <- Nat.add_succ_comm.
      split; [done|]. split; [by apply pipe_set_upd in Hset|]. split; [done|]. split; [by rewrite Hqx, Hq|].
      change (cur_pgdir s2) with (cur_pgdir s) in *. change (k_mem s2) with (st8 (k_mem s) a v) in Hby.
      rewrite Hby, Hq, ubytes_snoc. cbn [take]. rewrite <- app_assoc. f_equal.
      * apply ubytes_ext. intros j Hj. rewrite (ubyte_store _ _ _ N i j) by (done || lia).
        destruct (decide (j = i)); [lia|done].
      * rewrite (ubyte_store _ _ _ N i i) by (done || lia). destruct (decide (i = i)); [|done].
        by rewrite u8_small by (by apply pipe_head_byte).
Qed.

Lemma mykilled_run s i n ip pr :
  on_cpu s i n (Some ip) -> 0 < n -> k_procs s !! ip = Some pr -> mykilled s = Ret (truth (p_killed pr)) s.
Proof.
  intros Hc Hn Hp. destruct (myproc_cpu s i n (Some ip) Hc) as (s' & Hm & _ & _ & _ & E). rewrite (E Hn) in Hm.
  unfold mykilled. run Hm. rstep. run (get_proc_ok s ip pr Hp). done.
Qed.
(** A wakeup by a process that holds a lock. *)
Lemma inside_wakeup lk ip s0 j q s ch : inside lk ip s0 j q s -> lk <> Lk_ptable -> p_state q = RUNNING -> (ip < length (k_procs s0))%nat ->
  exists s', wakeup ch s = Ret tt s' /\ inside lk ip (set_k_procs (wake_one ch <$> k_procs s0) s0) j q s'.
Proof.
  intros [H1 H2 H3 H4 H5 H6] Hne Hst Hlt. destruct (wakeup_run ch s j 1 (Some ip) H5 H1 H3 ltac:(lia)) as (s' & Hw & Hc & Hu & Hl & Hd).
  assert (wake_one ch q = q) as Eq by (unfold wake_one, state_is; by rewrite Hst).
  assert (k_procs s' = wake_one ch <$> k_procs s) as Ep by (apply (Hd _ k_procs); eauto with frame).
  exists s'. split; [done|]. split; try done.
  - unfold held_by. by rewrite Hl.
  - by rewrite Ep, list_lookup_fmap, H4; simpl; rewrite Eq.
  - unfold table_size. by rewrite Ep, length_fmap.
  - cbn [k_procs set_k_procs]. transitivity (set_k_procs (wake_one ch <$> k_procs s) s); [|done].
    assert (wake_one ch <$> k_procs s = <[ip:=q]> (wake_one ch <$> k_procs s0)) as ->.
    { rewrite (H6 _ k_procs) by eauto with frame. cbn [k_procs set_k_procs]. by rewrite list_fmap_insert, Eq. }
    exact (same_data_procs (<[ip:=q]> (wake_one ch <$> k_procs s0)) _ eq_refl _ _ H6).
Qed.

(** *** Writing

    Pipe [y] is pipe [x] with [bs] appended. *)
Record appended (x : pipe) (bs : list Z) (y : pipe) : Prop := mk_appended {
  ap_inv : pipe_inv y;
  ap_queue : pipe_queue y = pipe_queue x ++ bs;
  ap_nread : pi_nread y = pi_nread x;
  ap_readopen : pi_readopen y = pi_readopen x;
  ap_writeopen : pi_writeopen y = pi_writeopen x }.
Lemma appended_nil x : pipe_inv x -> appended x [] x.
Proof. intros H. split; try done. by rewrite app_nil_r. Qed.
Lemma appended_push x bs y c : appended x bs y -> pipe_full y = false -> 0 <= c < 256 -> appended x (bs ++ [c]) (pipe_push c y).
Proof.
  intros [H1 H2 H3 H4 H5] Hf Hc. destruct (pipe_push_spec y c H1 Hf) as [HI Hq]. rewrite u8_small in Hq by done.
  split; try done. by rewrite Hq, H2, <- app_assoc.
Qed.

Section Writing.
Context (p : Z) (ip : nat) (addr : Z) (data : list Z).

(** The bytes [d0] to [d] of the buffer. *)
Definition part (d0 d : nat) : list Z := take (d - d0) (drop d0 data).
(** The user buffer at [addr] is mapped and holds [data]. *)
Definition user_data (s : kstate) : Prop :=
  mem_ok (k_mem s) /\ ubytes (k_mem s) (cur_pgdir s) addr (length data) = data /\
  forall j, (j < length data)%nat -> is_Some (cell (k_mem s) (cur_pgdir s) (addr + Z.of_nat j)).
(** [q] is the record of the process in [s0], up to the channel that [sleep] clears. *)
Definition own (s0 : kstate) (q : proc) : Prop := set_p_chan None <$> k_procs s0 !! ip = Some (set_p_chan None q).
(** Nobody will read, or the writer has been killed. *)
Definition given_up (s0 : kstate) : bool :=
  (pi_readopen (k_pipes s0 p) =? 0) || from_option (fun q => truth (p_killed q)) false (k_procs s0 !! ip).
(** [s0] with the bytes [d0] to [d] in the pipe. *)
Definition holds_part (d0 d : nat) (s0 : kstate) (f : Z -> pipe) : Prop :=
  (d0 <= d <= length data)%nat /\ exists x, pipe_set (k_pipes s0) f p x /\ appended (k_pipes s0 p) (part d0 d) x.
Definition woken (ch : chan) (s : kstate) : kstate := set_k_procs (wake_one ch <$> k_procs s) s.

(** The writer sleeps: it has written up to byte [d], the pipe is full, the readers
    have been woken, the pipe's lock is free. *)
Definition write_sleeps (d0 : nat) (s0 s : kstate) (d : nat) : Prop :=
  given_up s0 = false /\ (d < length data)%nat /\
  exists f, holds_part d0 d s0 f /\ Z.of_nat (length (pipe_queue (f p))) = PIPESIZE /\
    sleeps (Ch_nwrite p) (Lk_pipe p) ip (woken (Ch_nread p) (set_k_pipes f s0)) s.
(** It is resumed, in whatever state the pipe is then. *)
Definition write_resumed (s t : kstate) : Prop :=
  resumed (Lk_pipe p) ip s t /\ pipe_inv (k_pipes t p) /\ user_data t /\ k_wait t = k_wait s.
(** It returns: with the rest of the buffer in the pipe and the readers woken, or with
    -1, the pipe full of what it held and some more of the buffer. *)
Definition write_returns (d0 : nat) (s0 : kstate) (r : Z) (s : kstate) : Prop :=
  unlocked (Lk_pipe p) s /\ unlocked Lk_ptable s /\ (exists j, on_cpu s j 0 (Some ip)) /\
  exists d f q, holds_part d0 d s0 f /\ own s0 q /\
    ((r = Z.of_nat (length data) /\ d = length data /\
      same_data (set_k_procs (<[ip := q]> (wake_one (Ch_nread p) <$> k_procs s0)) (set_k_pipes f s0)) s) \/
     (r = -1 /\ (d < length data)%nat /\ Z.of_nat (length (pipe_queue (f p))) = PIPESIZE /\ given_up s0 = true /\
      same_data (set_k_procs (<[ip := q]> (k_procs s0)) (set_k_pipes f s0)) s)).

(** Half way through, with the pipe's lock held. *)
Record writing (W d0 d : nat) (s0 : kstate) (j : nat) (q : proc) (s : kstate) : Prop := mk_writing {
  wr_in : inside (Lk_pipe p) ip (set_k_pipes (k_pipes s) s0) j q s;
  wr_part : holds_part d0 d s0 (k_pipes s);
  wr_own : own s0 q;
  wr_run : p_state q = RUNNING;
  wr_user : user_data s0;
  wr_wait : k_wait s0 = W }.

Lemma own_pid s0 q : own s0 q -> p_pid <$> k_procs s0 !! ip = Some (p_pid q) /\ p_killed <$> k_procs s0 !! ip = Some (p_killed q) /\ (ip < length (k_procs s0))%nat.
Proof.
  unfold own. destruct (k_procs s0 !! ip) as [r|] eqn:E; [|done]. simpl. intros H. apply (inj Some) in H.
  split; [f_equal; by apply (f_equal p_pid) in H|]. split; [f_equal; by apply (f_equal p_killed) in H|by eapply lookup_lt_Some].
Qed.
Lemma writing_pipe W d0 d s0 j q s : writing W d0 d s0 j q s -> appended (k_pipes s0 p) (part d0 d) (k_pipes s p).
Proof. intros H. destruct (wr_part _ _ _ _ _ _ _ H) as (_ & x & Hset & Ha). by rewrite (pipe_set_at _ _ _ _ Hset). Qed.
Lemma full_length x : pipe_inv x -> pipe_full x = true -> Z.of_nat (length (pipe_queue x)) = PIPESIZE.
Proof. intros HI Hf. rewrite pipe_queue_length by done. by apply pipe_full_level. Qed.
Lemma user_data_byte s d : user_data s -> (d < length data)%nat ->
  0 <= ubyte (k_mem s) (cur_pgdir s) (addr + Z.of_nat d) < 256 /\ data !! d = Some (ubyte (k_mem s) (cur_pgdir s) (addr + Z.of_nat d)).
Proof.
  intros (Hm & Hd & _) Hlt. split; [unfold ubyte; destruct (cell _ _ _); simpl; [apply Hm|lia]|].
  rewrite <- Hd at 1. unfold ubytes. rewrite list_lookup_fmap, lookup_seq_lt by done. done.
Qed.
Lemma part_snoc d0 d c : (d0 <= d)%nat -> data !! d = Some c -> part d0 (S d) = part d0 d ++ [c].
Proof.
  intros Hle Hc. unfold part. replace (S d - d0)%nat with (S (d - d0)) by lia. apply take_S_r.
  rewrite lookup_drop. by replace (d0 + (d - d0))%nat with d by lia.
Qed.

(** Nobody will read a full pipe: the answer to the test in the waiting loop. *)
Lemma given_up_run W d0 d s0 j q s : writing W d0 d s0 j q s ->
  (if pi_readopen (k_pipes s p) =? 0 then ret true else mykilled) s = Ret (given_up s0) s.
Proof.
  intros HW. unfold given_up. rewrite (ap_readopen _ _ _ (writing_pipe _ _ _ _ _ _ _ HW)).
  destruct (pi_readopen (k_pipes s0 p) =? 0); [done|]. destruct HW as [HI _ Ho _ _ _].
  rewrite (mykilled_run s j 1 ip q); [|by apply (in_cpu _ _ _ _ _ _ HI)|lia|by apply (in_proc _ _ _ _ _ _ HI)].
  destruct (own_pid s0 q Ho) as (_ & Hk & _). destruct (k_procs s0 !! ip) as [r|]; [|done]. simpl in *. by injection Hk as ->.
Qed.

(** The waiting loop leaves with room in the pipe, or gives up. *)
Lemma pipewrite_wait_waits W : forall w n d0 d s0 j q s, (n < w)%nat -> (d < length data)%nat -> writing W d0 d s0 j q s ->
  waits write_sleeps write_resumed (fun d0 s0 (ok : bool) s => exists j q, writing W d0 d s0 j q s /\
    pipe_full (k_pipes s p) = negb ok /\ (ok = false -> given_up s0 = true)) n d0 s0 (pipewrite_wait w p s).
Proof.
  induction w as [|w IH]; intros n d0 d s0 j q s Hn Hlt HW; [lia|]. cbn [pipewrite_wait]. unfold get_pipe. rstep.
  destruct (pipe_full (k_pipes s p)) eqn:Ef; [|by exists j, q]. run (given_up_run _ _ _ _ _ _ _ HW).
  destruct (given_up s0) eqn:Eg; [by exists j, q|]. pose proof (writing_pipe _ _ _ _ _ _ _ HW) as Hap.
  pose proof HW as [HI HP Ho Hst Hus Hwt]. destruct (own_pid s0 q Ho) as (Hpid & _ & Hl).
  destruct (inside_wakeup _ _ _ _ _ _ (Ch_nread p) HI ltac:(done) Hst Hl) as (s1 & Hw & HI1). run Hw.
  destruct (inside_sleep _ _ _ _ _ _ (Ch_nwrite p) HI1) as (s2 & k & Hs & Hsl & Hp2 & Hk); [done| |].
  { cbn [k_procs set_k_procs set_k_pipes]. rewrite list_lookup_fmap. destruct (k_procs s0 !! ip) as [r|]; [|done]. simpl in *.
    unfold wake_one. by destruct (_ && _). }
  rewrite (bind_Switch _ _ _ _ _ Hs). exists d. split.
  { split; [done|]. split; [done|]. exists (k_pipes s). split; [done|]. split; [by apply full_length; [apply Hap|]|done]. }
  destruct n as [|n]; [done|]. intros t (Ht & HIt & Hut & Hwt').
  destruct (Hk t Ht) as (j' & q' & t' & Hrun & HI' & _ & _ & Hst' & Ho'). rewrite Hrun. cbn [obind].
  assert (k_pipes t' = k_pipes t) as Et by (apply (in_data _ _ _ _ _ _ HI' _ k_pipes); eauto with frame).
  apply (IH n d d t j' q' t'); [lia|done|]. split; try done.
  - rewrite Et. by destruct t.
  - rewrite Et. split; [lia|]. exists (k_pipes t p). split; [apply pipe_set_id|]. unfold part. rewrite Nat.sub_diag. by apply appended_nil.
  - unfold own. rewrite Ho'. destruct (k_procs t !! ip); [|done]. simpl in Ho'. by injection Ho' as <-.
  - rewrite Hwt'. destruct Hsl as (_ & _ & q2 & _ & Hd). rewrite (Hd _ k_wait) by eauto with frame. done.
Qed.

(** One byte more. *)
Lemma writing_push W d0 d s0 j q s : writing W d0 d s0 j q s -> (d < length data)%nat -> pipe_full (k_pipes s p) = false ->
  exists c s', load8 (addr + Z.of_nat d) s = Ret c s /\ upd_pipe p (pipe_push c) s = Ret tt s' /\ writing W d0 (S d) s0 j q s'.
Proof.
  intros HW Hlt Hf. pose proof (writing_pipe _ _ _ _ _ _ _ HW) as Hap. destruct HW as [HI (Hle & x & Hset & Ha) Ho Hst Hus Hwt].
  destruct (user_data_byte s0 d Hus Hlt) as [Hc Hby]. pose proof (in_data _ _ _ _ _ _ HI) as Hd.
  assert (k_mem s = k_mem s0) as Em by (apply (Hd _ k_mem); eauto with frame).
  assert (cur_pgdir s = cur_pgdir s0) as Eg by (apply (Hd _ cur_pgdir); eauto with frame).
  set (c := ubyte (k_mem s0) (cur_pgdir s0) (addr + Z.of_nat d)) in *.
  set (f := fupd (k_pipes s) p (pipe_push c (k_pipes s p))).
  exists c, (set_k_pipes f s). split; [|split; [done|]].
  { destruct Hus as (_ & _ & Hmap). specialize (Hmap d Hlt). rewrite <- Em, <- Eg in Hmap. rewrite (load8_run s _ Hmap).
    unfold c. by rewrite Em, Eg. }
  split; try done.
  - destruct HI as [H1 H2 H3 H4 H5 H6]. split; try done; [by apply (on_cpu_ext s)|].
    by apply (same_data_pipes f f eq_refl _ _ H6).
  - split; [lia|]. exists (pipe_push c (k_pipes s p)). cbn [k_pipes set_k_pipes]. split.
    + intros q'. unfold f, fupd. destruct (decide (q' = p)); [done|]. rewrite Hset. by destruct (decide (q' = p)).
    + rewrite (part_snoc _ _ c) by (done || lia). by apply appended_push.
Qed.

Lemma pipewrite_loop_waits W : forall k n d0 d s0 j q s, (n < W)%nat -> (d + k = length data)%nat -> writing W d0 d s0 j q s ->
  waits write_sleeps write_resumed (fun d0 s0 (ok : bool) s => exists d j q, writing W d0 d s0 j q s /\
    if ok then d = length data else (d < length data)%nat /\ pipe_full (k_pipes s p) = true /\ given_up s0 = true)
    n d0 s0 (pipewrite_loop k p (addr + Z.of_nat d) s).
Proof.
  induction k as [|k IH]; intros n d0 d s0 j q s Hn Hk HW; cbn [pipewrite_loop]; [exists d, j, q; split; [done|lia]|].
  rstep. assert (k_wait s = W) as ->.
  { rewrite (in_data _ _ _ _ _ _ (wr_in _ _ _ _ _ _ _ HW) _ k_wait) by eauto with frame. by apply (wr_wait _ _ _ _ _ _ _ HW). }
  unfold bind at 1. eapply waits_obind; [apply (pipewrite_wait_waits W W n d0 d s0 j q s); [done|lia|done]|].
  intros n' d1 t ok s1 Hn' (j1 & q1 & HW1 & Hf & Hg). destruct ok; cbn [negb] in *; [|exists d, j1, q1; split; [done|]; auto with lia].
  destruct (writing_push W d1 d t j1 q1 s1 HW1 ltac:(lia) Hf) as (c & s2 & Hld & Hup & HW2). run Hld. run Hup.
  replace (addr + Z.of_nat d + 1) with (addr + Z.of_nat (S d)) by lia. by apply (IH n' d1 (S d) t j1 q1); [lia|lia|].
Qed.

Lemma pipewrite_waits s i pr n :
  thread s i 0 ip pr -> p_state pr = RUNNING -> unlocked (Lk_pipe p) s -> pipe_inv (k_pipes s p) -> user_data s -> (n < k_wait s)%nat ->
  waits write_sleeps write_resumed write_returns n 0%nat s (pipewrite p addr (Z.of_nat (length data)) s).
Proof.
  intros HT Hst Hu HI Hus Hn. destruct (inside_enter s i ip pr (Lk_pipe p) HT Hu) as (s1 & Ha & Hin); [done|].
  assert (k_pipes s1 = k_pipes s) as Ep by (apply (in_data _ _ _ _ _ _ Hin _ k_pipes); eauto with frame).
  assert (writing (k_wait s) 0 0 s i pr s1) as HW.
  { split; try done; [rewrite Ep; by destruct s| |unfold own; by rewrite (th_proc _ _ _ _ _ HT)].
    rewrite Ep. split; [lia|]. exists (k_pipes s p). split; [apply pipe_set_id|by apply appended_nil]. }
  unfold pipewrite. run Ha. rewrite Nat2Z.id. unfold bind at 1.
  pose proof (pipewrite_loop_waits (k_wait s) (length data) n 0 0 s i pr s1 Hn eq_refl HW) as HL. rewrite Z.add_0_r in HL.
  eapply waits_obind; [exact HL|].
  intros n' d0 t ok s2 _ (d & j & q & HW2 & Hok). destruct HW2 as [HI2 HP Ho Hr Hus2 Hwt]. destruct ok; cbn [negb].
  - destruct (inside_wakeup _ _ _ _ _ _ (Ch_nread p) HI2) as (s3 & Hwk & HI3); [done|done|by apply own_pid in Ho as (_ & _ & ?)|]. run Hwk.
    destruct HI3 as [H1 H2 H3 H4 H5 H6]. destruct (release_cpu s3 j 1 (Some ip) (Lk_pipe p) H1) as (s4 & Hrl & Hc4 & Hu4 & Hl4 & Hd4); [lia|done|]. run Hrl.
    split; [done|]. split; [unfold unlocked; by rewrite Hl4|]. split; [by exists j|]. exists d, (k_pipes s2), q. split; [done|]. split; [done|].
    left. split; [done|]. split; [done|]. by transitivity s3.
  - destruct Hok as (Hlt & Hf & Hg). destruct HI2 as [H1 H2 H3 H4 H5 H6].
    destruct (release_cpu s2 j 1 (Some ip) (Lk_pipe p) H1) as (s4 & Hrl & Hc4 & Hu4 & Hl4 & Hd4); [lia|done|]. run Hrl.
    split; [done|]. split; [unfold unlocked; by rewrite Hl4|]. split; [by exists j|]. exists d, (k_pipes s2), q. split; [done|]. split; [done|].
    right. split; [done|]. split; [done|]. split; [|split; [done|by transitivity s2]].
    destruct HP as (_ & x & Hset & Hap). rewrite (pipe_set_at _ _ _ _ Hset) in *. by apply full_length; [apply Hap|].
Qed.

(** A full pipe holds more than fits when bytes are left. *)
Lemma part_room s f d : holds_part 0 d s f -> (d < length data)%nat -> Z.of_nat (length (pipe_queue (f p))) = PIPESIZE ->
  PIPESIZE < Z.of_nat (length (pipe_queue (k_pipes s p)) + length data).
Proof.
  intros (_ & x & Hset & Hap) Hlt. rewrite (pipe_set_at _ _ _ _ Hset), (ap_queue _ _ _ Hap), length_app.
  unfold part. rewrite length_take. lia.
Qed.
End Writing.

(** C34: [pipewrite] appends the whole user buffer, in order, to whatever queue it
    finds, and never overruns the pipe.  It may sleep any number of times: it sleeps
    only when the pipe holds [PIPESIZE] bytes and bytes are left, with everything the
    pipe held followed by a prefix of the buffer in it, the readers woken and the lock
    free; resumed in any state, it appends what is left after that prefix.  It returns
    [n] with the rest of the buffer in the queue and the readers woken, or -1 with the
    pipe full when there is no reader or it was killed.  A buffer for which there is
    room is written at once.  The counters may wrap around; other pipes and all of
    memory stay as they are. *)
Theorem pipewrite_appends s i ip pr p addr data n :
  thread s i 0 ip pr -> p_state pr = RUNNING -> unlocked (Lk_pipe p) s -> pipe_inv (k_pipes s p) ->
  user_data addr data s -> (n < k_wait s)%nat ->
  let o := pipewrite p addr (Z.of_nat (length data)) s in
  waits (write_sleeps p ip data) (write_resumed p ip addr data) (write_returns p ip data) n 0%nat s o /\
  (Z.of_nat (length (pipe_queue (k_pipes s p)) + length data) <= PIPESIZE -> exists s', o = Ret (Z.of_nat (length data)) s').
Proof.
  intros HT Hst Hu HI Hus Hn o. pose proof (pipewrite_waits p ip addr data s i pr n HT Hst Hu HI Hus Hn) as Hw. fold o in Hw.
  split; [done|]. intros Hfit. destruct o as [r s'| |s' k| | |]; try done.
  - destruct Hw as (_ & _ & _ & d & f & q & HP & _ & [(-> & _)|(_ & Hlt & Hl & _)]); [by exists s'|].
    pose proof (part_room p data s f d HP Hlt Hl). lia.
  - destruct Hw as (d & (_ & Hlt & f & HP & Hl & _) & _). pose proof (part_room p data s f d HP Hlt Hl). lia.
Qed.

(** C33: [piperead] from a pipe that holds data or has no writer returns the
    number [c] of bytes it took, the minimum of [n] and the queue's length: the
    user buffer starts with exactly the [c] oldest bytes, in order, and the queue
    has lost exactly those; the writers are woken and the lock is free. *)
Theorem piperead_takes s i d ip pr p addr n :
  thread s i d ip pr -> unlocked (Lk_pipe p) s -> pipe_inv (k_pipes s p) ->
  pipe_queue (k_pipes s p) <> [] \/ pi_writeopen (k_pipes s p) = 0 ->
  user_buf (k_mem s) (cur_pgdir s) addr n ->
  let q := pipe_queue (k_pipes s p) in let c := Nat.min n (length q) in
  exists s', piperead p addr (Z.of_nat n) s = Ret (Z.of_nat c) s' /\
    on_cpu s' i d (Some ip) /\ unlocked (Lk_pipe p) s' /\ unlocked Lk_ptable s' /\
    pipe_inv (k_pipes s' p) /\ pipe_queue (k_pipes s' p) = drop c q /\
    ubytes (k_mem s') (cur_pgdir s) addr c = take c q /\
    (forall p', p' <> p -> k_pipes s' p' = k_pipes s p') /\
    k_procs s' = wake_one (Ch_nwrite p) <$> k_procs s.
Proof.
  intros HT Hu HI Hdata HB q c. pose proof HT as [Hc Hd Hp Ht Hup].
  destruct (acquire_cpu s i d (Some ip) (Lk_pipe p) Hc Hu) as (s1 & Ha & Hc1 & Hh1 & Hl1 & Hd1).
  assert (k_pipes s1 = k_pipes s) as E1 by (apply Hd1; eauto with frame).
  assert (k_mem s1 = k_mem s) as E2 by (apply Hd1; eauto with frame).
  assert (cur_pgdir s1 = cur_pgdir s) as E3 by (apply Hd1; eauto with frame).
  destruct (piperead_loop_run p n addr n s1 0) as (f & x & m & Hrun & Hset & Hx & Hqx & Hby); rewrite ?E1, ?E2, ?E3; try done.
  rewrite E1 in Hrun, Hset, Hqx, Hby. fold q in Hrun, Hqx, Hby. fold c in Hrun, Hqx, Hby. rewrite E3 in Hby.
  set (s2 := set_k_mem m (set_k_pipes f s1)) in *.
  destruct (wakeup_run (Ch_nwrite p) s2 i (d + 1) (Some ip)) as (s3 & Hw & Hc3 & Hu3 & Hl3 & Hd3).
  { unfold table_size in *. simpl. rewrite (Hd1 _ k_procs); eauto with frame. } { by apply (on_cpu_ext s1). }
  { unfold unlocked; simpl. by rewrite Hl1. } { lia. }
  destruct (release_cpu s3 i (d + 1) (Some ip) (Lk_pipe p) Hc3) as (s4 & Hr & Hc4 & Hu4 & Hl4 & Hd4); [lia| |].
  { unfold held_by. by rewrite Hl3. }
  assert (forall w, piperead_wait w p s1 = Ret true s1) as Hwait.
  { intros w. assert (pipe_empty (k_pipes s1 p) && truth (pi_writeopen (k_pipes s1 p)) = false) as He.
    { rewrite E1, pipe_empty_queue by done. destruct Hdata as [Hne|H0].
      - by rewrite bool_decide_eq_false_2. - rewrite H0. apply andb_false_r. }
    destruct w; cbn [piperead_wait]; unfold get_pipe; rstep; by rewrite He. }
  exists s4. split.
  { unfold piperead. run Ha. rstep. run (Hwait (k_wait s1)). cbn [negb]. rewrite Nat2Z.id. run Hrun. run Hw. run Hr. done. }
  split; [by replace d with (d + 1 - 1) by lia|]. split; [done|]. split; [unfold unlocked; by rewrite Hl4|].
  rewrite (Hd4 _ k_pipes), (Hd3 _ k_pipes), (Hd4 _ k_mem), (Hd3 _ k_mem), (Hd4 _ k_procs), (Hd3 _ k_procs) by eauto with frame.
  simpl. rewrite (pipe_set_at _ _ _ _ Hset). split; [done|]. split; [done|]. split; [exact Hby|]. split.
  - intros p' Hp'. rewrite Hset. by destruct (decide (p' = p)).
  - by rewrite (Hd1 _ k_procs) by eauto with frame.
Qed.

(** A process whose first page is mapped, with a pipe at [0x80304000]. *)
Definition mapped_mem : mem := st32 (st32 (fun _ => 0) 0x80300000 0x301007) 0x80301000 0x302007.
Definition one_pipe (x : pipe) : kstate :=
  set_k_mem mapped_mem (set_k_pipes (fun _ => x)
    (set_k_hw (set_hw_cr3 0x300000 (k_hw boot)) (set_k_cpus [set_c_proc (Some 0%nat) (cpu0 0)] one_running))).
Lemma one_pipe_thread x : thread (one_pipe x) 0 0 0 (set_p_state RUNNING (set_p_pid 1 proc0)).
Proof. split; try done. exists (set_c_proc (Some 0%nat) (cpu0 0)). by repeat split. Qed.
Lemma mapped_cell j : (j < 2)%nat -> cell mapped_mem 0x80300000 (Z.of_nat j) = Some (0x80302000 + Z.of_nat j).
Proof. intros Hj. destruct j as [|[|]]; [done|done|lia]. Qed.
Lemma mapped_buf : user_buf mapped_mem 0x80300000 0 2.
Proof.
  split.
  - intros i Hi. rewrite Z.add_0_l, mapped_cell by done. by eexists.
  - intros i Hi. destruct i as [|[|]]; [done|done|lia].
  - intros i j a Hi Hj. rewrite !Z.add_0_l, !mapped_cell by done. intros E1 E2. inversion E1. inversion E2. lia.
  - intros i j a Hi Hj. rewrite Z.add_0_l, mapped_cell by done. intros E. inversion E.
    split.
    + assert (PDX (u32 (0 + Z.of_nat j)) = 0) as -> by (destruct j as [|[|]]; [done|done|lia]). lia.
    + intros e. assert (pte_addr mapped_mem 0x80300000 (u32 (0 + Z.of_nat j)) = Some 0x80301000) as ->
        by (destruct j as [|[|]]; [done|done|lia]). intros [= <-]. lia.
Qed.
Lemma pipe0_inv nr nw ro wo :
  0 <= nr < 2 ^ 32 -> 0 <= nw < 2 ^ 32 -> u32 (nw - nr) <= PIPESIZE ->
  pipe_inv (mk_pipe (replicate 512 0) nr nw ro wo).
Proof. intros H1 H2 H3. split; try done. by apply (Forall_replicate (fun c => 0 <= c < 256) 512 0). Qed.

(** An empty pipe whose counters are about to wrap, and a full one. *)
Definition wrapping : pipe := mk_pipe (replicate 512 0) (2 ^ 32 - 1) (2 ^ 32 - 1) 1 1.
Definition filled : pipe := mk_pipe (replicate 512 0) 7 519 1 1.
Lemma pipewrite_appends_witness :
  (exists s', pipewrite 0x80304000 0 2 (one_pipe wrapping) = Ret 2 s') /\
  waits (write_sleeps 0x80304000 0 [0; 0]) (write_resumed 0x80304000 0 0 [0; 0]) (write_returns 0x80304000 0 [0; 0]) 3 0%nat
    (one_pipe filled) (pipewrite 0x80304000 0 2 (one_pipe filled)).
Proof.
  assert (forall x, user_data 0 [0; 0] (one_pipe x)) as Hus.
  { intros x. split; [apply st32_ok, st32_ok; intros a; lia|]. split; [reflexivity|].
    intros j Hj. rewrite Z.add_0_l. change (is_Some (cell mapped_mem 0x80300000 (Z.of_nat j))). rewrite mapped_cell by exact Hj. by eexists. }
  split.
  - destruct (pipewrite_appends _ 0 0 _ 0x80304000 0 [0; 0] 3 (one_pipe_thread wrapping)) as [_ H];
      [done|done|by apply pipe0_inv|by apply Hus|simpl; lia|]. by apply H.
  - destruct (pipewrite_appends _ 0 0 _ 0x80304000 0 [0; 0] 3 (one_pipe_thread filled)) as [H _];
      [done|done|by apply pipe0_inv|by apply Hus|simpl; lia|]. exact H.
Defined.

Lemma piperead_takes_witness :
  let x := mk_pipe (replicate 512 0) (2 ^ 32 - 1) 2 1 1 in
  exists s', piperead 0x80304000 0 (Z.of_nat 2) (one_pipe x) = Ret 2 s' /\
    pipe_queue (k_pipes s' 0x80304000) = [0].
Proof.
  cbv zeta. set (x := mk_pipe (replicate 512 0) (2 ^ 32 - 1) 2 1 1).
  assert (pipe_inv x) as HI by (by apply pipe0_inv).
  destruct (piperead_takes (one_pipe x) 0 0 0 _ 0x80304000 0 2 (one_pipe_thread x)) as (s' & H & _ & _ & _ & _ & Hq & _);
    [done|exact HI|left; discriminate|apply mapped_buf|].
  exists s'. split; [exact H|]. rewrite Hq. reflexivity.
Defined.

