(* ===== verification/File.v ===== *)
(** * Open files

    [file.c], and [pipealloc] of [pipe.c]. *)

From S2P Require Import Prelude Mmu Bytes Mem State Spinlock Printk Critical Kalloc Vm VmSpec Umem Sched Sleeplock Disk Bio Log Inode Console Fs Pipe.

Definition fileinit : K unit := initlock Lk_ftable "ftable".

Definition filealloc : K (option nat) :=
  acquire Lk_ftable ;;
  r <- for_list (upto NFILE) (fun i =>
    f <- get_file i ;;
    if f_ref f =? 0 then
      upd_file i (set_f_ref 1) ;;
      release Lk_ftable ;;
      ret (Some i)
    else ret None) ;;
  match r with Some i => ret (Some i) | None => release Lk_ftable ;; ret None end.

Definition filedup (f : nat) : K nat :=
  acquire Lk_ftable ;;
  x <- get_file f ;;
  if f_ref x <? 1 then panic "filedup" else
  upd_file f (fun x => set_f_ref (f_ref x + 1) x) ;;
  release Lk_ftable ;;
  ret f.

Section Driver.
Context {D : DiskDriver}.

Definition fileclose (f : nat) : K unit :=
  acquire Lk_ftable ;;
  x <- get_file f ;;
  if f_ref x <? 1 then panic "fileclose" else
  upd_file f (set_f_ref (f_ref x - 1)) ;;
  if 0 <? f_ref x - 1 then release Lk_ftable else
  ff <- get_file f ;;
  upd_file f (set_f_ref 0) ;;
  upd_file f (set_f_type FD_NONE) ;;
  release Lk_ftable ;;
  match f_type ff with
  | FD_PIPE => pipeclose (f_pipe ff) (truth (f_writable ff))
  | FD_INODE => begin_op ;; ip <- deref (f_ip ff) ;; iput ip ;; end_op
  | FD_NONE => ret tt
  end.

Definition filestat (f : nat) : K (option stat) :=
  x <- get_file f ;;
  match f_type x with
  | FD_INODE =>
      ilock (f_ip x) ;;
      ip <- deref (f_ip x) ;; st <- stati ip ;;
      iunlock (f_ip x) ;;
      ret (Some st)
  | _ => ret None
  end.

Definition fileread (f : nat) (addr n : Z) : K Z :=
  x <- get_file f ;;
  if f_readable x =? 0 then ret (-1) else
  match f_type x with
  | FD_PIPE => piperead (f_pipe x) addr n
  | FD_INODE =>
      ilock (f_ip x) ;;
      ip <- deref (f_ip x) ;;
      x <- get_file f ;;
      '(r, _) <- readi ip (fun off bs => copy_bytes (addr + off) bs) (f_off x) (u32 n) ;;
      when (0 <? r) (upd_file f (fun x => set_f_off (u32 (f_off x + r)) x)) ;;
      iunlock (f_ip x) ;;
      ret r
  | FD_NONE => panic "fileread"
  end.

(** [((MAXOPBLOCKS-1-1-2) / 2) * 512] *)
Definition write_max : Z := (MAXOPBLOCKS - 1 - 1 - 2) / 2 * 512.
(** The loop of [filewrite]; the result is the final [i]. *)
Fixpoint filewrite_loop (fuel : nat) (f : nat) (addr n i : Z) : K Z :=
  if i <? n then
    match fuel with
    | O => nofuel
    | S fu =>
        let n1 := Z.min (n - i) write_max in
        begin_op ;;
        x <- get_file f ;;
        ilock (f_ip x) ;;
        ip <- deref (f_ip x) ;;
        x <- get_file f ;;
        r <- writei ip (fun off m => load_bytes (addr + i + off) (Z.to_nat m)) (f_off x) (u32 n1) ;;
        when (0 <? r) (upd_file f (fun x => set_f_off (u32 (f_off x + r)) x)) ;;
        iunlock (f_ip x) ;;
        end_op ;;
        if r <? 0 then ret i else
        if negb (r =? n1) then panic "short filewrite" else
        filewrite_loop fu f addr n (i + r)
    end
  else ret i.
Definition filewrite (f : nat) (addr n : Z) : K Z :=
  x <- get_file f ;;
  if f_writable x =? 0 then ret (-1) else
  match f_type x with
  | FD_PIPE => pipewrite (f_pipe x) addr n
  | FD_INODE =>
      i <- filewrite_loop (Z.to_nat (n / write_max + 1)) f addr n 0 ;;
      ret (if i =? n then n else -1)
  | FD_NONE => panic "filewrite"
  end.

(** [pipe.c]: the two ends, or [None] after the [bad] label. *)
Definition pipealloc : K (option (nat * nat)) :=
  let bad (p : Z) (f0 f1 : option nat) : K (option (nat * nat)) :=
    when (truth p) (kfree p) ;;
    match f0 with Some f => fileclose f | None => ret tt end ;;
    match f1 with Some f => fileclose f | None => ret tt end ;;
    ret None in
  f0 <- filealloc ;;
  match f0 with
  | None => bad 0 None None
  | Some a =>
      f1 <- filealloc ;;
      match f1 with
      | None => bad 0 f0 None
      | Some b =>
          p <- kalloc ;;
          if p =? 0 then bad 0 f0 f1 else
          upd_pipe p (set_pi_readopen 1) ;;
          upd_pipe p (set_pi_writeopen 1) ;;
          upd_pipe p (set_pi_nwrite 0) ;;
          upd_pipe p (set_pi_nread 0) ;;
          initlock (Lk_pipe p) "pipe" ;;
          upd_file a (fun x => set_f_pipe p (set_f_writable 0 (set_f_readable 1 (set_f_type FD_PIPE x)))) ;;
          upd_file b (fun x => set_f_pipe p (set_f_writable 1 (set_f_readable 0 (set_f_type FD_PIPE x)))) ;;
          ret (Some (a, b))
      end
  end.
End Driver.
