(* ===== verification/ProcLife.v ===== *)
(** * The life of a process

    [proc.c]: [userinit], [growproc], [fork], [exit], [wait], [forkret]. *)

From S2P Require Import Prelude Mmu Bytes Mem State Spinlock Printk Critical Kalloc Vm VmSpec Umem Sched Sleeplock Disk Bio Log Inode Console Fs Pipe File.

(** [safestrcpy(dst, t, sizeof dst)] on an array: after a copied NUL the code
    stores one more. *)
Definition safestrcpy_array (dst t : list Z) : list Z :=
  let n := length dst in
  let s := cstr t in
  put 0 (if decide (length s < n - 1)%nat then s ++ [0; 0] else take (n - 1) s ++ [0]) dst.

(** [myproc()], used as a non-null pointer. *)
Definition curproc : K nat := op <- myproc ;; deref op.

Section Driver.
Context {D : DiskDriver}.

(** [allocproc] is a parameter: HW3 has one of its own. *)
Definition userinit_with (allocproc : K (option nat)) : K unit :=
  op <- allocproc ;;
  modify (set_k_initproc op) ;;
  ip <- deref op ;;
  pgdir <- setupkvm ;;
  upd_proc ip (set_p_pgdir pgdir) ;;
  if pgdir =? 0 then panic "userinit: out of memory?" else
  code <- gets k_initcode ;;
  inituvm pgdir code (Z.of_nat (length code)) ;;
  upd_proc ip (set_p_sz PGSIZE) ;;
  upd_proc ip (set_p_tf tf0) ;;
  upd_proc ip (fun p => set_p_tf (set_tf_cs (Z.lor (Z.shiftl SEG_UCODE 3) DPL_USER) (p_tf p)) p) ;;
  upd_proc ip (fun p => set_p_tf (set_tf_ds (Z.lor (Z.shiftl SEG_UDATA 3) DPL_USER) (p_tf p)) p) ;;
  upd_proc ip (fun p => set_p_tf (set_tf_es (tf_ds (p_tf p)) (p_tf p)) p) ;;
  upd_proc ip (fun p => set_p_tf (set_tf_ss (tf_ds (p_tf p)) (p_tf p)) p) ;;
  upd_proc ip (fun p => set_p_tf (set_tf_eflags FL_IF (p_tf p)) p) ;;
  upd_proc ip (fun p => set_p_tf (set_tf_esp PGSIZE (p_tf p)) p) ;;
  upd_proc ip (fun p => set_p_tf (set_tf_eip 0 (p_tf p)) p) ;;
  upd_proc ip (fun p => set_p_name (safestrcpy_array (p_name p) (bytes "initcode")) p) ;;
  cwd <- namei [47] ;;
  upd_proc ip (set_p_cwd cwd) ;;
  acquire Lk_ptable ;;
  upd_proc ip (set_p_state RUNNABLE) ;;
  release Lk_ptable.
Definition userinit : K unit := userinit_with allocproc.

Definition growproc (n : Z) : K Z :=
  ip <- curproc ;;
  p <- get_proc ip ;;
  let sz := p_sz p in
  r <- (if 0 <? n then sz <- allocuvm (p_pgdir p) sz (u32 (sz + n)) ;; ret (if sz =? 0 then None else Some sz)
        else if n <? 0 then sz <- deallocuvm (p_pgdir p) sz (u32 (sz + n)) ;; ret (if sz =? 0 then None else Some sz)
        else ret (Some sz)) ;;
  match r with
  | None => ret (-1)
  | Some sz => upd_proc ip (set_p_sz sz) ;; switchuvm (Some ip) ;; ret 0
  end.

Definition fork_with (allocproc : K (option nat)) : K Z :=
  cur <- curproc ;;
  onp <- allocproc ;;
  match onp with
  | None => ret (-1)
  | Some np =>
      c <- get_proc cur ;;
      pgdir <- copyuvm (p_pgdir c) (p_sz c) ;;
      upd_proc np (set_p_pgdir pgdir) ;;
      if pgdir =? 0 then
        n <- get_proc np ;;
        kfree (p_kstack n) ;;
        upd_proc np (set_p_kstack 0) ;;
        upd_proc np (set_p_state UNUSED) ;;
        ret (-1)
      else
      c <- get_proc cur ;;
      upd_proc np (set_p_sz (p_sz c)) ;;
      upd_proc np (set_p_parent (Some cur)) ;;
      upd_proc np (set_p_tf (p_tf c)) ;;
      upd_proc np (fun p => set_p_tf (set_tf_eax 0 (p_tf p)) p) ;;
      iter_list (upto NOFILE) (fun i =>
        c <- get_proc cur ;;
        ofd <- deref (p_ofile c !! i) ;;
        match ofd with
        | Some f => f' <- filedup f ;; upd_proc np (fun p => set_p_ofile (<[i := Some f']> (p_ofile p)) p)
        | None => ret tt
        end) ;;
      c <- get_proc cur ;;
      cwd <- deref (p_cwd c) ;;
      cwd' <- idup cwd ;;
      upd_proc np (set_p_cwd (Some cwd')) ;;
      c <- get_proc cur ;;
      upd_proc np (fun p => set_p_name (safestrcpy_array (p_name p) (p_name c)) p) ;;
      n <- get_proc np ;;
      let pid := p_pid n in
      acquire Lk_ptable ;;
      upd_proc np (set_p_state RUNNABLE) ;;
      release Lk_ptable ;;
      ret pid
  end.
Definition fork : K Z := fork_with allocproc.

(** [wakeup1] on a process pointer, which may be null. *)
Definition wakeup1_proc (op : option nat) : K unit :=
  match op with Some p => wakeup1 (Ch_proc p) | None => ret tt end.

(** The body of the loop that passes children on to [init]. *)
Definition reparent (cur i : nat) : K unit :=
  p <- get_proc i ;;
  when (bool_decide (p_parent p = Some cur)) (
    init <- gets k_initproc ;;
    upd_proc i (set_p_parent init) ;;
    p <- get_proc i ;;
    when (state_is ZOMBIE p) (wakeup1_proc init)).

Definition exit : K unit :=
  cur <- curproc ;;
  init <- gets k_initproc ;;
  if bool_decide (init = Some cur) then panic "init exiting" else
  iter_list (upto NOFILE) (fun fd =>
    c <- get_proc cur ;;
    ofd <- deref (p_ofile c !! fd) ;;
    match ofd with
    | Some f => fileclose f ;; upd_proc cur (fun p => set_p_ofile (<[fd := None]> (p_ofile p)) p)
    | None => ret tt
    end) ;;
  begin_op ;;
  c <- get_proc cur ;;
  cwd <- deref (p_cwd c) ;;
  iput cwd ;;
  end_op ;;
  upd_proc cur (set_p_cwd None) ;;
  acquire Lk_ptable ;;
  c <- get_proc cur ;;
  wakeup1_proc (p_parent c) ;;
  iter_list (upto NPROC) (reparent cur) ;;
  upd_proc cur (set_p_state ZOMBIE) ;;
  sched ;;
  panic "zombie exit".

(** The slot of a reaped child: [wait] of HW2 also clears the counters. *)
Definition reap (p : proc) : proc :=
  set_p_syscounts (replicate 23 0) (set_p_trapcounts (replicate 23 0) (set_p_state UNUSED
    (set_p_killed 0 (set_p_name (<[0%nat := 0]> (p_name p)) (set_p_parent None (set_p_pid 0 p)))))).
(** One scan of the table: whether there are children, and the pid of a reaped
    one. *)
Fixpoint wait_scan (l : list nat) (cur : nat) (havekids : bool) : K (bool * option Z) :=
  match l with
  | [] => ret (havekids, None)
  | i :: l' =>
      p <- get_proc i ;;
      if negb (bool_decide (p_parent p = Some cur)) then wait_scan l' cur havekids
      else if state_is ZOMBIE p then
        let pid := p_pid p in
        kfree (p_kstack p) ;;
        upd_proc i (set_p_kstack 0) ;;
        freevm (p_pgdir p) ;;
        upd_proc i reap ;;
        release Lk_ptable ;;
        ret (true, Some pid)
      else wait_scan l' cur true
  end.
Fixpoint wait_loop (fuel : nat) (cur : nat) : K Z :=
  '(havekids, r) <- wait_scan (upto NPROC) cur false ;;
  match r with
  | Some pid => ret pid
  | None =>
      c <- get_proc cur ;;
      if negb havekids || truth (p_killed c) then release Lk_ptable ;; ret (-1) else
      match fuel with
      | O => nofuel
      | S f => sleep (Ch_proc cur) (Some Lk_ptable) ;; wait_loop f cur
      end
  end.
Definition wait : K Z :=
  cur <- curproc ;;
  acquire Lk_ptable ;;
  w <- gets k_wait ;; wait_loop w cur.

Definition forkret : K unit :=
  release Lk_ptable ;;
  first <- gets k_first ;;
  when (truth first) (
    modify (set_k_first 0) ;;
    iinit ROOTDEV ;;
    initlog ROOTDEV).
End Driver.
