(* ===== verification/Exec.v ===== *)
(** * Program loading and system-call arguments

    [vm.c]: [loaduvm]; [exec.c]; [syscall.c]: [fetchint], [fetchstr],
    [argint], [argptr], [argstr].  A failing function that returns -1 and
    otherwise stores through its pointer argument is an [option]; a fetched
    string is its bytes. *)

From S2P Require Import Prelude Mmu Bytes Mem State Spinlock Printk Critical Kalloc Vm VmSpec Umem Sched Sleeplock Disk Bio Log Inode Console Fs Pipe File ProcLife.

(** ** Arguments *)
Definition fetchint (addr : Z) : K (option Z) :=
  cur <- curproc ;; p <- get_proc cur ;;
  if (p_sz p <=? addr) || (p_sz p <? u32 (addr + 4)) then ret None else
  v <- load32 addr ;;
  ret (Some (s32 v)).

(** The scan [for(s = *pp; s < ep; s++)]. *)
Fixpoint fetchstr_loop (fuel : nat) (s ep : Z) : K (option (list Z)) :=
  if s <? ep then
    match fuel with
    | O => nofuel
    | S f =>
        c <- load8 s ;;
        if c =? 0 then ret (Some []) else
        r <- fetchstr_loop f (s + 1) ep ;;
        ret (cons c <$> r)
    end
  else ret None.
Definition fetchstr (addr : Z) : K (option (list Z)) :=
  cur <- curproc ;; p <- get_proc cur ;;
  if p_sz p <=? addr then ret None else
  fetchstr_loop (Z.to_nat (p_sz p - addr)) addr (p_sz p).

Definition argint (n : Z) : K (option Z) :=
  cur <- curproc ;; p <- get_proc cur ;;
  fetchint (u32 (tf_esp (p_tf p) + 4 + 4 * n)).

Definition argptr (n size : Z) : K (option Z) :=
  cur <- curproc ;;
  i <- argint n ;;
  match i with
  | None => ret None
  | Some i =>
      p <- get_proc cur ;;
      if (size <? 0) || (p_sz p <=? u32 i) || (p_sz p <? u32 (u32 i + size)) then ret None else ret (Some (u32 i))
  end.

Definition argstr (n : Z) : K (option (list Z)) :=
  a <- argint n ;;
  match a with None => ret None | Some a => fetchstr (u32 a) end.

(** ** [elf.h] *)
Definition ELF_MAGIC : Z := 0x464C457F.
Definition ELF_PROG_LOAD : Z := 1.
Record elfhdr := mk_elfhdr { e_magic : Z; e_entry : Z; e_phoff : Z; e_phnum : Z }.
Record proghdr := mk_proghdr { ph_type : Z; ph_off : Z; ph_vaddr : Z; ph_filesz : Z; ph_memsz : Z }.
Definition sizeof_elfhdr : Z := 52.
Definition sizeof_proghdr : Z := 32.
Definition parse_elfhdr (d : list Z) : elfhdr := mk_elfhdr (get32 0 d) (get32 24 d) (get32 28 d) (get16 44 d).
Definition parse_proghdr (d : list Z) : proghdr :=
  mk_proghdr (get32 0 d) (get32 4 d) (get32 8 d) (get32 16 d) (get32 20 d).

Section Driver.
Context {D : DiskDriver}.

Fixpoint loaduvm_loop (fuel : nat) (pgdir addr : Z) (ip : nat) (offset sz i : Z) : K Z :=
  if i <? sz then
    match fuel with
    | O => nofuel
    | S f =>
        pte <- walkpgdir pgdir (u32 (addr + i)) false ;;
        if pte =? 0 then panic "loaduvm: address should exist" else
        e <- ld pte ;;
        let pa := PTE_ADDR e in
        let n := if sz - i <? PGSIZE then sz - i else PGSIZE in
        '(r, _) <- readi ip (fun off bs => mem_store (fun m => Vm.store_bytes m (P2V pa + off) bs)) (u32 (offset + i)) n ;;
        if negb (r =? n) then ret (-1) else loaduvm_loop f pgdir addr ip offset sz (i + PGSIZE)
    end
  else ret 0.
Definition loaduvm (pgdir addr : Z) (ip : nat) (offset sz : Z) : K Z :=
  if negb (u32 addr mod PGSIZE =? 0) then panic "loaduvm: addr must be page aligned" else
  loaduvm_loop (Z.to_nat ((sz + PGSIZE - 1) / PGSIZE)) pgdir addr ip offset sz 0.

(** The loop over the program headers: the new size, [None] for [goto bad]. *)
Fixpoint exec_load (allocuvm : Z -> Z -> Z -> K Z) (k : nat) (ip : nat) (pgdir off sz : Z) : K (option Z) :=
  match k with
  | O => ret (Some sz)
  | S k' =>
      '(r, bs) <- readi ip no_store off sizeof_proghdr ;;
      if negb (r =? sizeof_proghdr) then ret None else
      let ph := parse_proghdr bs in
      if negb (ph_type ph =? ELF_PROG_LOAD) then exec_load allocuvm k' ip pgdir (u32 (off + sizeof_proghdr)) sz else
      if ph_memsz ph <? ph_filesz ph then ret None else
      if u32 (ph_vaddr ph + ph_memsz ph) <? ph_vaddr ph then ret None else
      sz <- allocuvm pgdir sz (u32 (ph_vaddr ph + ph_memsz ph)) ;;
      if sz =? 0 then ret None else
      if negb (ph_vaddr ph mod PGSIZE =? 0) then ret None else
      r <- loaduvm pgdir (ph_vaddr ph) ip (ph_off ph) (ph_filesz ph) ;;
      if r <? 0 then ret None else
      exec_load allocuvm k' ip pgdir (u32 (off + sizeof_proghdr)) sz
  end.

(** Pushing the argument strings: the stack pointer and the saved pointers. *)
Fixpoint exec_push (args : list (list Z)) (argc : Z) (pgdir sp : Z) (acc : list Z) : K (option (Z * list Z)) :=
  match args with
  | [] => ret (Some (sp, acc))
  | a :: args' =>
      if MAXARG <=? argc then ret None else
      let len := Z.of_nat (length a) in
      let sp := Z.land (u32 (sp - (len + 1))) (u32 (Z.lnot 3)) in
      r <- copyout pgdir sp (a ++ [0]) (len + 1) ;;
      if r <? 0 then ret None else exec_push args' (argc + 1) pgdir sp (acc ++ [sp])
  end.

(** The part of the path after the last slash. *)
Fixpoint last_elem (last s : list Z) : list Z :=
  match s with [] => last | c :: s' => if c =? 47 then last_elem s' s' else last_elem last s' end.

(** [allocuvm] is a parameter: HW3 has one of its own. *)
Definition exec_with (allocuvm : Z -> Z -> Z -> K Z) (path : list Z) (argv : list (list Z)) : K Z :=
  cur <- curproc ;;
  begin_op ;;
  oip <- namei path ;;
  match oip with
  | None => end_op ;; cprintf (bytes "exec: fail" ++ [NL]) [] ;; ret (-1)
  | Some ip =>
      let bad (pgdir : Z) (locked : bool) : K Z :=
        when (truth pgdir) (freevm pgdir) ;;
        when locked (iunlockput ip ;; end_op) ;;
        ret (-1) in
      ilock (Some ip) ;;
      '(r, bs) <- readi ip no_store 0 sizeof_elfhdr ;;
      let elf := parse_elfhdr bs in
      if negb (r =? sizeof_elfhdr) then bad 0 true else
      if negb (e_magic elf =? ELF_MAGIC) then bad 0 true else
      pgdir <- setupkvm ;;
      if pgdir =? 0 then bad 0 true else
      osz <- exec_load allocuvm (Z.to_nat (e_phnum elf)) ip pgdir (e_phoff elf) 0 ;;
      match osz with
      | None => bad pgdir true
      | Some sz =>
          iunlockput ip ;;
          end_op ;;
          let sz := PGROUNDUP sz in
          sz <- allocuvm pgdir sz (u32 (sz + 2 * PGSIZE)) ;;
          if sz =? 0 then bad pgdir false else
          clearpteu pgdir (sz - 2 * PGSIZE) ;;
          pushed <- exec_push argv 0 pgdir sz [] ;;
          match pushed with
          | None => bad pgdir false
          | Some (sp, ptrs) =>
              let argc := Z.of_nat (length argv) in
              let ustack := [0xffffffff; argc; u32 (sp - (argc + 1) * 4)] ++ ptrs ++ [0] in
              let sp := u32 (sp - (3 + argc + 1) * 4) in
              r <- copyout pgdir sp (words ustack) ((3 + argc + 1) * 4) ;;
              if r <? 0 then bad pgdir false else
              upd_proc cur (fun p => set_p_name (safestrcpy_array (p_name p) (last_elem path path)) p) ;;
              c <- get_proc cur ;;
              let oldpgdir := p_pgdir c in
              upd_proc cur (set_p_pgdir pgdir) ;;
              upd_proc cur (set_p_sz sz) ;;
              upd_proc cur (fun p => set_p_tf (set_tf_eip (e_entry elf) (p_tf p)) p) ;;
              upd_proc cur (fun p => set_p_tf (set_tf_esp sp (p_tf p)) p) ;;
              switchuvm (Some cur) ;;
              freevm oldpgdir ;;
              ret 0
          end
      end
  end.
Definition exec : list Z -> list (list Z) -> K Z := exec_with allocuvm.
End Driver.
