(* ===== verification/Sysfile.v ===== *)
(** * File-system calls

    [sysfile.c]. *)

From S2P Require Import Prelude Mmu Bytes Mem State Spinlock Printk Critical Kalloc Vm VmSpec Umem Sched Sleeplock Disk Bio Log Inode Console Fs Pipe File ProcLife Exec.

(** The descriptor and the file. *)
Definition argfd (n : Z) : K (option (Z * nat)) :=
  fd <- argint n ;;
  match fd with
  | None => ret None
  | Some fd =>
      if (fd <? 0) || (NOFILE <=? fd) then ret None else
      cur <- curproc ;; p <- get_proc cur ;;
      ofd <- deref (p_ofile p !! Z.to_nat fd) ;;
      ret (match ofd with Some f => Some (fd, f) | None => None end)
  end.

Definition fdalloc (f : nat) : K Z :=
  cur <- curproc ;;
  r <- for_list (upto NOFILE) (fun fd =>
    p <- get_proc cur ;;
    ofd <- deref (p_ofile p !! fd) ;;
    match ofd with
    | None => upd_proc cur (fun p => set_p_ofile (<[fd := Some f]> (p_ofile p)) p) ;; ret (Some (Z.of_nat fd))
    | Some _ => ret None
    end) ;;
  ret (match r with Some fd => fd | None => -1 end).

Definition sys_dup : K Z :=
  a <- argfd 0 ;;
  match a with
  | None => ret (-1)
  | Some (_, f) => fd <- fdalloc f ;; if fd <? 0 then ret (-1) else filedup f ;; ret fd
  end.

(** [struct stat] in user memory. *)
Definition sizeof_stat : Z := 20.
(** Stores of the fields; the two holes of the structure are not written. *)
Definition store_stat (a : Z) (st : stat) : K unit :=
  copy_bytes (a + 4) (le_bytes 4 (st_dev st)) ;;
  copy_bytes (a + 8) (le_bytes 4 (st_ino st)) ;;
  copy_bytes a (le_bytes 2 (st_type st)) ;;
  copy_bytes (a + 12) (le_bytes 2 (st_nlink st)) ;;
  copy_bytes (a + 16) (le_bytes 4 (st_size st)).

Section Driver.
Context {D : DiskDriver}.

(** The argument checks of [read] and [write]. *)
Definition rw_args : K (option (nat * Z * Z)) :=
  a <- argfd 0 ;;
  match a with
  | None => ret None
  | Some (_, f) =>
      n <- argint 2 ;;
      match n with
      | None => ret None
      | Some n => p <- argptr 1 n ;; ret (match p with Some p => Some (f, p, n) | None => None end)
      end
  end.
Definition sys_read : K Z :=
  a <- rw_args ;; match a with None => ret (-1) | Some (f, p, n) => fileread f p n end.
Definition sys_write : K Z :=
  a <- rw_args ;; match a with None => ret (-1) | Some (f, p, n) => filewrite f p n end.

Definition sys_close : K Z :=
  a <- argfd 0 ;;
  match a with
  | None => ret (-1)
  | Some (fd, f) =>
      cur <- curproc ;;
      upd_proc cur (fun p => set_p_ofile (<[Z.to_nat fd := None]> (p_ofile p)) p) ;;
      fileclose f ;;
      ret 0
  end.

Definition sys_fstat : K Z :=
  a <- argfd 0 ;;
  match a with
  | None => ret (-1)
  | Some (_, f) =>
      p <- argptr 1 sizeof_stat ;;
      match p with
      | None => ret (-1)
      | Some p =>
          st <- filestat f ;;
          match st with None => ret (-1) | Some st => store_stat p st ;; ret 0 end
      end
  end.

Definition sys_link : K Z :=
  old <- argstr 0 ;;
  match old with
  | None => ret (-1)
  | Some old =>
  new <- argstr 1 ;;
  match new with
  | None => ret (-1)
  | Some new =>
  begin_op ;;
  oip <- namei old ;;
  match oip with
  | None => end_op ;; ret (-1)
  | Some ip =>
  ilock (Some ip) ;;
  x <- get_inode ip ;;
  if i_type x =? T_DIR then iunlockput ip ;; end_op ;; ret (-1) else
  upd_inode ip (fun x => set_i_nlink (s16 (i_nlink x + 1)) x) ;;
  iupdate ip ;;
  iunlock (Some ip) ;;
  let bad : K Z :=
    ilock (Some ip) ;;
    upd_inode ip (fun x => set_i_nlink (s16 (i_nlink x - 1)) x) ;;
    iupdate ip ;;
    iunlockput ip ;;
    end_op ;;
    ret (-1) in
  odp <- nameiparent new ;;
  match odp with
  | None => bad
  | Some (dp, name) =>
      ilock (Some dp) ;;
      d <- get_inode dp ;; x <- get_inode ip ;;
      failed <- (if negb (i_dev d =? i_dev x) then ret true
                 else r <- dirlink dp name (i_inum x) ;; ret (r <? 0)) ;;
      if (failed : bool) then iunlockput dp ;; bad else
      iunlockput dp ;;
      iput ip ;;
      end_op ;;
      ret 0
  end end end end.

Fixpoint isdirempty_loop (fuel : nat) (dp : nat) (off : Z) : K bool :=
  x <- get_inode dp ;;
  if off <? i_size x then
    match fuel with
    | O => nofuel
    | S f =>
        de <- read_dirent dp off "isdirempty: readi" ;;
        if negb (de_inum de =? 0) then ret false else isdirempty_loop f dp (off + sizeof_dirent)
    end
  else ret true.
Definition isdirempty (dp : nat) : K bool :=
  x <- get_inode dp ;;
  isdirempty_loop (Z.to_nat (i_size x / sizeof_dirent + 1)) dp (2 * sizeof_dirent).

Definition sys_unlink : K Z :=
  path <- argstr 0 ;;
  match path with
  | None => ret (-1)
  | Some path =>
  begin_op ;;
  odp <- nameiparent path ;;
  match odp with
  | None => end_op ;; ret (-1)
  | Some (dp, name) =>
  ilock (Some dp) ;;
  let bad : K Z := iunlockput dp ;; end_op ;; ret (-1) in
  if (namecmp name (bytes ".") =? 0) || (namecmp name (bytes "..") =? 0) then bad else
  r <- dirlookup dp name ;;
  match r with
  | None => bad
  | Some (ip, off) =>
  ilock (Some ip) ;;
  x <- get_inode ip ;;
  if i_nlink x <? 1 then panic "unlink: nlink < 1" else
  full <- (if i_type x =? T_DIR then e <- isdirempty ip ;; ret (negb e) else ret false) ;;
  if (full : bool) then iunlockput ip ;; bad else
  r <- writei dp (rd_list (replicate (Z.to_nat sizeof_dirent) 0)) off sizeof_dirent ;;
  if negb (r =? sizeof_dirent) then panic "unlink: writei" else
  x <- get_inode ip ;;
  when (i_type x =? T_DIR) (
    upd_inode dp (fun x => set_i_nlink (s16 (i_nlink x - 1)) x) ;;
    iupdate dp) ;;
  iunlockput dp ;;
  upd_inode ip (fun x => set_i_nlink (s16 (i_nlink x - 1)) x) ;;
  iupdate ip ;;
  iunlockput ip ;;
  end_op ;;
  ret 0
  end end end.

Definition create (path : list Z) (type major minor : Z) : K (option nat) :=
  odp <- nameiparent path ;;
  match odp with
  | None => ret None
  | Some (dp, name) =>
  ilock (Some dp) ;;
  r <- dirlookup dp name ;;
  match r with
  | Some (ip, _) =>
      iunlockput dp ;;
      ilock (Some ip) ;;
      x <- get_inode ip ;;
      if (type =? T_FILE) && (i_type x =? T_FILE) then ret (Some ip) else
      iunlockput ip ;;
      ret None
  | None =>
      d <- get_inode dp ;;
      ip <- ialloc (i_dev d) type ;;
      ilock (Some ip) ;;
      upd_inode ip (set_i_major major) ;;
      upd_inode ip (set_i_minor minor) ;;
      upd_inode ip (set_i_nlink 1) ;;
      iupdate ip ;;
      when (type =? T_DIR) (
        upd_inode dp (fun x => set_i_nlink (s16 (i_nlink x + 1)) x) ;;
        iupdate dp ;;
        x <- get_inode ip ;;
        r <- dirlink ip (bytes ".") (i_inum x) ;;
        if r <? 0 then panic "create dots" else
        d <- get_inode dp ;;
        r <- dirlink ip (bytes "..") (i_inum d) ;;
        if r <? 0 then panic "create dots" else ret tt) ;;
      x <- get_inode ip ;;
      r <- dirlink dp name (i_inum x) ;;
      if r <? 0 then panic "create: dirlink" else
      iunlockput dp ;;
      ret (Some ip)
  end end.

(** The inode [sys_open] opens, locked. *)
Definition open_inode (path : list Z) (omode : Z) : K (option nat) :=
  if has_bits omode O_CREATE then
    r <- create path T_FILE 0 0 ;;
    match r with None => end_op ;; ret None | Some ip => ret (Some ip) end
  else
    r <- namei path ;;
    match r with
    | None => end_op ;; ret None
    | Some ip =>
        ilock (Some ip) ;;
        x <- get_inode ip ;;
        if (i_type x =? T_DIR) && negb (omode =? O_RDONLY) then iunlockput ip ;; end_op ;; ret None
        else ret (Some ip)
    end.
Definition sys_open : K Z :=
  path <- argstr 0 ;;
  match path with
  | None => ret (-1)
  | Some path =>
  omode <- argint 1 ;;
  match omode with
  | None => ret (-1)
  | Some omode =>
  begin_op ;;
  oip <- open_inode path omode ;;
  match oip with
  | None => ret (-1)
  | Some ip =>
  f <- filealloc ;;
  fd <- (match f with None => ret (-1) | Some f => fdalloc f end) ;;
  match f with
  | Some f =>
      if fd <? 0 then fileclose f ;; iunlockput ip ;; end_op ;; ret (-1) else
      iunlock (Some ip) ;;
      end_op ;;
      upd_file f (fun x =>
        set_f_writable (b2z (has_bits omode O_WRONLY || has_bits omode O_RDWR))
          (set_f_readable (b2z (negb (has_bits omode O_WRONLY)))
            (set_f_off 0 (set_f_ip (Some ip) (set_f_type FD_INODE x))))) ;;
      ret fd
  | None => iunlockput ip ;; end_op ;; ret (-1)
  end end end end.

Definition sys_mkdir : K Z :=
  begin_op ;;
  path <- argstr 0 ;;
  oip <- (match path with None => ret None | Some path => create path T_DIR 0 0 end) ;;
  match oip with
  | None => end_op ;; ret (-1)
  | Some ip => iunlockput ip ;; end_op ;; ret 0
  end.

Definition sys_mknod : K Z :=
  begin_op ;;
  path <- argstr 0 ;;
  oip <- (match path with
          | None => ret None
          | Some path =>
              major <- argint 1 ;;
              match major with
              | None => ret None
              | Some major =>
                  minor <- argint 2 ;;
                  match minor with
                  | None => ret None
                  | Some minor => create path T_DEV (s16 major) (s16 minor)
                  end
              end
          end) ;;
  match oip with
  | None => end_op ;; ret (-1)
  | Some ip => iunlockput ip ;; end_op ;; ret 0
  end.

Definition sys_chdir : K Z :=
  cur <- curproc ;;
  begin_op ;;
  path <- argstr 0 ;;
  oip <- (match path with None => ret None | Some path => namei path end) ;;
  match oip with
  | None => end_op ;; ret (-1)
  | Some ip =>
      ilock (Some ip) ;;
      x <- get_inode ip ;;
      if negb (i_type x =? T_DIR) then iunlockput ip ;; end_op ;; ret (-1) else
      iunlock (Some ip) ;;
      c <- get_proc cur ;;
      cwd <- deref (p_cwd c) ;;
      iput cwd ;;
      end_op ;;
      upd_proc cur (set_p_cwd (Some ip)) ;;
      ret 0
  end.

(** The loop over the argument vector; [k] is [NELEM(argv) - i]. *)
Fixpoint exec_args (k : nat) (uargv i : Z) : K (option (list (list Z))) :=
  match k with
  | O => ret None
  | S k' =>
      uarg <- fetchint (u32 (uargv + 4 * i)) ;;
      match uarg with
      | None => ret None
      | Some uarg =>
          if uarg =? 0 then ret (Some []) else
          s <- fetchstr (u32 uarg) ;;
          match s with
          | None => ret None
          | Some s => r <- exec_args k' uargv (i + 1) ;; ret (cons s <$> r)
          end
      end
  end.
Definition sys_exec_with (exec : list Z -> list (list Z) -> K Z) : K Z :=
  path <- argstr 0 ;;
  match path with
  | None => ret (-1)
  | Some path =>
      uargv <- argint 1 ;;
      match uargv with
      | None => ret (-1)
      | Some uargv =>
          argv <- exec_args (Z.to_nat MAXARG) (u32 uargv) 0 ;;
          match argv with None => ret (-1) | Some argv => exec path argv end
      end
  end.
Definition sys_exec : K Z := sys_exec_with exec.

Definition sys_pipe : K Z :=
  fd <- argptr 0 8 ;;
  match fd with
  | None => ret (-1)
  | Some fd =>
      p <- pipealloc ;;
      match p with
      | None => ret (-1)
      | Some (rf, wf) =>
          fd0 <- fdalloc rf ;;
          fd1 <- (if fd0 <? 0 then ret (-1) else fdalloc wf) ;;
          if (fd0 <? 0) || (fd1 <? 0) then
            when (0 <=? fd0) (cur <- curproc ;; upd_proc cur (fun p => set_p_ofile (<[Z.to_nat fd0 := None]> (p_ofile p)) p)) ;;
            fileclose rf ;;
            fileclose wf ;;
            ret (-1)
          else
          store32 fd fd0 ;;
          store32 (fd + 4) fd1 ;;
          ret 0
      end
  end.
End Driver.
