(* ===== verification/Trap.v ===== *)
(** * System calls, traps and their counters

    [sysproc.c]; [syscall.c]: the dispatcher; [trap.c], with the counters of
    HW2: [trapnos], [countSyscalls], [sys_countTraps]. *)

From S2P Require Import Prelude Mmu Bytes Mem State Spinlock Printk Critical Kalloc Vm VmSpec Umem Sched Sleeplock Disk Bio Log Inode Console Fs Pipe File ProcLife Exec Sysfile.

(** ** [trap.c]: counters *)
Definition trapnos (trapno : Z) : Z :=
  if (0 <=? trapno) && (trapno <=? 19) then trapno
  else if (32 <=? trapno) && (trapno <? 64) then 20
  else if trapno =? 64 then 21
  else 22.

Definition trapnames : list string :=
  [ "Divide error                 "; "Debug exception              "; "Non-maskable interrupt       ";
    "Breakpoint                   "; "Overflow                     "; "Bounds check                 ";
    "Illegal opcode               "; "Device not available         "; "Double fault                 ";
    "Reserved (not used since 486)"; "Invalid task switch segment  "; "Segment not present          ";
    "Stack exception              "; "General protection fault     "; "Page fault                   ";
    "Reserved                     "; "Floating point error         "; "Aligment check               ";
    "Machine check                "; "SIMD floating point error    "; "Interrupts                   ";
    "System call                  "; "Catchall                     " ].
(** [syscall.c]; index 0 is a null pointer. *)
Definition sysnames : list string :=
  [ ""; "fork       "; "exit       "; "wait       "; "pipe       "; "read       "; "kill       "; "exec       ";
    "fstat      "; "chdir      "; "dup        "; "getpid     "; "sbrk       "; "sleep      "; "uptime     ";
    "open       "; "write      "; "mknod      "; "unlink     "; "link       "; "mkdir      "; "close      ";
    "countTraps " ].
Definition sysname (n : nat) : list Z := bytes (nth n sysnames "").

(** [++a[i]] on an [int] array. *)
Definition incr (i : Z) (l : list Z) : list Z := alter (fun c => s32 (c + 1)) (Z.to_nat i) l.

(** A printing loop over the counters [i], [i+1], ... [i+n-1]: lines for the
    non-zero ones and their sum. *)
Fixpoint count_loop (n i : nat) (counts : list Z) (line : nat -> Z -> K unit) (c : Z) : K Z :=
  match n with
  | O => ret c
  | S n' =>
      s <- deref (counts !! i) ;;
      when (truth s) (line i s) ;;
      count_loop n' (S i) counts line (if truth s then s32 (c + s) else c)
  end.
Definition countSyscalls : K Z :=
  cur <- curproc ;; p <- get_proc cur ;;
  cprintf (NL :: bytes "-----[ Syscalls ]-----" ++ [NL]) [] ;;
  c <- count_loop 22 1 (p_syscounts p) (fun i s =>
    cprintf (bytes " %s" ++ [9] ++ bytes " : %d" ++ [NL]) [PStr (Some (sysname i)); PInt s]) 0 ;;
  cprintf (bytes "  Total Syscalls : %d" ++ [NL]) [PInt c] ;;
  ret c.
Definition sys_countTraps : K Z :=
  countSyscalls ;;
  cur <- curproc ;; p <- get_proc cur ;;
  cprintf (NL :: bytes "-------------[ Traps ]--------------" ++ [NL]) [] ;;
  c <- count_loop (23 - 1) 0 (p_trapcounts p) (fun i s =>
    cprintf (bytes " %s : %d" ++ [NL]) [PStr (Some (bytes (nth i trapnames ""))); PInt s]) 0 ;;
  cprintf (bytes "  Total Traps                  : %d" ++ [NL]) [PInt c] ;;
  ret c.

Section Driver.
Context {D : DiskDriver}.

(** ** [sysproc.c] *)
Definition sys_fork : K Z := fork.
Definition sys_exit : K Z := exit ;; ret 0.
Definition sys_wait : K Z := wait.
Definition sys_kill : K Z :=
  pid <- argint 0 ;; match pid with None => ret (-1) | Some pid => kill pid end.
Definition sys_getpid : K Z := cur <- curproc ;; p <- get_proc cur ;; ret (p_pid p).
Definition sys_sbrk : K Z :=
  n <- argint 0 ;;
  match n with
  | None => ret (-1)
  | Some n =>
      cur <- curproc ;; p <- get_proc cur ;;
      let addr := s32 (p_sz p) in
      r <- growproc n ;;
      if r <? 0 then ret (-1) else ret addr
  end.
(** [ticks - ticks0 < n] compares as [uint]. *)
Fixpoint sys_sleep_loop (fuel : nat) (ticks0 n : Z) : K bool :=
  t <- gets k_ticks ;;
  if u32 (t - ticks0) <? u32 n then
    kd <- mykilled ;;
    if kd then ret false else
    match fuel with
    | O => nofuel
    | S f => sleep Ch_ticks (Some Lk_tickslock) ;; sys_sleep_loop f ticks0 n
    end
  else ret true.
Definition sys_sleep : K Z :=
  n <- argint 0 ;;
  match n with
  | None => ret (-1)
  | Some n =>
      acquire Lk_tickslock ;;
      ticks0 <- gets k_ticks ;;
      w <- gets k_wait ;;
      ok <- sys_sleep_loop w ticks0 n ;;
      release Lk_tickslock ;;
      ret (if ok : bool then 0 else -1)
  end.
Definition sys_uptime : K Z :=
  acquire Lk_tickslock ;;
  x <- gets k_ticks ;;
  release Lk_tickslock ;;
  ret (s32 x).

(** ** [syscall.c] *)
Definition syscalls : list (K Z) :=
  [ sys_fork; sys_exit; sys_wait; sys_pipe; sys_read; sys_kill; sys_exec; sys_fstat; sys_chdir; sys_dup; sys_getpid;
    sys_sbrk; sys_sleep; sys_uptime; sys_open; sys_write; sys_mknod; sys_unlink; sys_link; sys_mkdir; sys_close;
    sys_countTraps ].
Definition set_eax (v : Z) (p : proc) : proc := set_p_tf (set_tf_eax (u32 v) (p_tf p)) p.
(** Entry [num] of the table, whose index 0 is null. *)
Definition syscall_entry (num : Z) : option (K Z) :=
  if (0 <? num) && (num <? 23) then syscalls !! Z.to_nat (num - 1) else None.
Definition syscall : K unit :=
  cur <- curproc ;; p <- get_proc cur ;;
  let num := s32 (tf_eax (p_tf p)) in
  match syscall_entry num with
  | Some f =>
      upd_proc cur (fun p => set_p_syscounts (incr num (p_syscounts p)) p) ;;
      r <- f ;;
      upd_proc cur (set_eax r)
  | None =>
      cprintf (bytes "%d %s: unknown sys call %d" ++ [NL]) [PInt (p_pid p); PStr (Some (cstr (p_name p))); PInt num] ;;
      upd_proc cur (set_eax (-1))
  end.

(** ** [trap.c] *)
Definition tvinit : K unit :=
  iter_list (upto 256) (fun i =>
    v <- gets (fun s => k_vectors s !! i) ;; v <- deref v ;;
    modify (fun s => set_k_idt (<[i := SETGATE false (Z.shiftl SEG_KCODE 3) v 0]> (k_idt s)) s)) ;;
  v <- gets (fun s => k_vectors s !! Z.to_nat T_SYSCALL) ;; v <- deref v ;;
  modify (fun s => set_k_idt (<[Z.to_nat T_SYSCALL := SETGATE true (Z.shiftl SEG_KCODE 3) v DPL_USER]> (k_idt s)) s) ;;
  initlock Lk_tickslock "time".
Definition idtinit : K unit := upd_hw (set_hw_idtr 1).

(** [lapic.c]: the end-of-interrupt register. *)
Definition EOI : Z := 0xB0 / 4.
Definition lapicw (index value : Z) : K unit :=
  upd_hw (fun h => set_hw_lapicreg (fupd (hw_lapicreg h) index (u32 value)) h).
Definition lapiceoi : K unit :=
  l <- gets (fun s => hw_lapic (k_hw s)) ;; when (truth l) (lapicw EOI 0).

(** [myproc() && myproc()->killed && (tf->cs&3) == DPL_USER] *)
Definition exit_if_killed (tf : trapframe) : K unit :=
  op <- myproc ;;
  match op with
  | None => ret tt
  | Some _ => kd <- mykilled ;; when (kd && (Z.land (tf_cs tf) 3 =? DPL_USER)) exit
  end.

Definition trap_default (tf : trapframe) : K unit :=
  op <- myproc ;;
  cr2 <- gets (fun s => hw_cr2 (k_hw s)) ;;
  match op with
  | Some ip =>
      if Z.land (tf_cs tf) 3 =? 0 then
        c <- cpuid ;;
        cprintf (bytes "unexpected trap %d from cpu %d eip %x (cr2=0x%x)" ++ [NL])
          [PInt (tf_trapno tf); PInt c; PInt (tf_eip tf); PInt cr2] ;;
        panic "trap"
      else
        p <- get_proc ip ;;
        c <- cpuid ;;
        cprintf (bytes "pid %d %s: trap %d err %d on cpu %d eip 0x%x addr 0x%x--kill proc" ++ [NL])
          [PInt (p_pid p); PStr (Some (cstr (p_name p))); PInt (tf_trapno tf); PInt (tf_err tf); PInt c;
           PInt (tf_eip tf); PInt cr2] ;;
        upd_proc ip (set_p_killed 1)
  | None =>
      c <- cpuid ;;
      cprintf (bytes "unexpected trap %d from cpu %d eip %x (cr2=0x%x)" ++ [NL])
        [PInt (tf_trapno tf); PInt c; PInt (tf_eip tf); PInt cr2] ;;
      panic "trap"
  end.

Definition trap_dispatch (tf : trapframe) : K unit :=
  let no := tf_trapno tf in
  if no =? T_IRQ0 + IRQ_TIMER then
    c <- cpuid ;;
    when (c =? 0) (
      acquire Lk_tickslock ;;
      t <- gets k_ticks ;;
      modify (set_k_ticks (u32 (t + 1))) ;;
      wakeup Ch_ticks ;;
      release Lk_tickslock) ;;
    lapiceoi
  else if no =? T_IRQ0 + IRQ_IDE then ideintr ;; lapiceoi
  else if no =? T_IRQ0 + IRQ_IDE + 1 then ret tt
  else if no =? T_IRQ0 + IRQ_KBD then kbdintr ;; lapiceoi
  else if no =? T_IRQ0 + IRQ_COM1 then uartintr ;; lapiceoi
  else if (no =? T_IRQ0 + 7) || (no =? T_IRQ0 + IRQ_SPURIOUS) then
    c <- cpuid ;;
    cprintf (bytes "cpu%d: spurious interrupt at %x:%x" ++ [NL]) [PInt c; PInt (tf_cs tf); PInt (tf_eip tf)] ;;
    lapiceoi
  else trap_default tf.

(** The end of [trap], after an interrupt or an exception. *)
Definition trap_return (tf : trapframe) : K unit :=
  exit_if_killed tf ;;
  op <- myproc ;;
  (match op with
   | None => ret tt
   | Some ip => p <- get_proc ip ;; when (state_is RUNNING p && (tf_trapno tf =? T_IRQ0 + IRQ_TIMER)) yield
   end) ;;
  exit_if_killed tf.

Definition trap (tf : trapframe) : K unit :=
  op <- myproc ;;
  (match op with
   | None => ret tt
   | Some ip => upd_proc ip (fun p => set_p_trapcounts (incr (trapnos (s32 (tf_trapno tf))) (p_trapcounts p)) p)
   end) ;;
  if tf_trapno tf =? T_SYSCALL then
    kd <- mykilled ;;
    when kd exit ;;
    cur <- curproc ;;
    upd_proc cur (set_p_tf tf) ;;
    syscall ;;
    kd <- mykilled ;;
    when kd exit
  else
  trap_dispatch tf ;;
  trap_return tf.
End Driver.
