(* ===== verification/TrapSpec.v ===== *)
(** * The trap and system-call counters

    What the additions of HW2 to [trap.c] and [syscall.c] compute: each trap and
    each system call adds one to the right counter, and [sys_countTraps] prints
    and returns the sums, from which the last counter is missing. *)

From S2P Require Import Prelude Mmu Bytes Mem State Spinlock Printk Critical Cprintf Kalloc Vm VmSpec Umem Sched Sleeplock Disk Bio Log Inode Console Fs Pipe File ProcLife Exec Sysfile Trap.

(** A process [ip] that may print. *)
Record printer (s : kstate) (i : nat) (n : Z) (ip : nat) (p : proc) : Prop := mk_printer {
  pn_console : console_free s i n (Some ip);
  pn_proc : k_procs s !! ip = Some p }.

Lemma printer_data s s' i n ip p :
  printer s i n ip p -> on_cpu s' i n (Some ip) -> k_locks s' = k_locks s -> same_data s s' -> printer s' i n ip p.
Proof.
  intros [[H1 H2 H3 H4] H5] Hc El Hd. split; [split; [done|done|unfold unlocked; by rewrite El|]|].
  - split; [rewrite (Hd _ k_panicked) by lock_free_tac|rewrite (Hd _ k_crt) by lock_free_tac]; apply H4.
  - by rewrite (Hd _ k_procs) by eauto with frame.
Qed.
Lemma printer_printed s s' i n ip p txt : printer s i n ip p -> console_free s' i n (Some ip) -> printed s s' txt -> printer s' i n ip p.
Proof. intros [_ H] Hc [_ _ Hp]. split; [done|]. by rewrite (Hp _ k_procs) by eauto with frame. Qed.

Lemma myproc_printer s i n ip p :
  printer s i n ip p -> exists s', myproc s = Ret (Some ip) s' /\ printer s' i n ip p /\ printed s s' [].
Proof.
  intros H. destruct (myproc_cpu s i n (Some ip) (cf_cpu _ _ _ _ (pn_console _ _ _ _ _ H))) as (s' & Hm & Hc & Hl & Hd & _).
  exists s'. split; [done|]. split; [by eapply printer_data|]. split.
  - rewrite (Hd _ k_out) by lock_free_tac. by rewrite app_nil_r.
  - intros lk _. by rewrite Hl.
  - intros B f Hf. apply Hd. by apply io_lock_free.
Qed.
Lemma curproc_run s i n ip p :
  printer s i n ip p -> exists s', curproc s = Ret ip s' /\ printer s' i n ip p /\ printed s s' [].
Proof. intros H. destruct (myproc_printer s i n ip p H) as (s' & Hm & H'). exists s'. unfold curproc. by run Hm. Qed.
Lemma mykilled_printer s i n ip p :
  printer s i n ip p -> exists s', mykilled s = Ret (truth (p_killed p)) s' /\ printer s' i n ip p /\ printed s s' [].
Proof.
  intros H. destruct (myproc_printer s i n ip p H) as (s' & Hm & H' & Hp). exists s'. unfold mykilled. run Hm. rstep.
  by run (get_proc_ok s' ip p (pn_proc _ _ _ _ _ H')).
Qed.
Lemma say s i n ip p fmt args txt :
  printer s i n ip p -> render fmt args = Some txt ->
  exists s', cprintf fmt args s = Ret tt s' /\ printer s' i n ip p /\ printed s s' txt.
Proof.
  intros H Hr. destruct (cprintf_run s i n (Some ip) fmt args txt (pn_console _ _ _ _ _ H) Hr) as (s' & H1 & H2 & H3).
  exists s'. split; [done|]. split; [by eapply printer_printed|done].
Qed.

(** ** The printing loops *)
Definition total (l : list Z) : Z := foldr Z.add 0 l.
(** The text of a loop over [l] whose first index is [i]. *)
Fixpoint lines_of (line : nat -> Z -> list Z) (i : nat) (l : list Z) : list Z :=
  match l with
  | [] => []
  | s :: l' => (if truth s then line i s else []) ++ lines_of line (S i) l'
  end.
Definition counter (c : Z) : Prop := 0 <= c.

Lemma total_nonneg l : Forall counter l -> 0 <= total l.
Proof. induction 1 as [|x l Hx _ IH]; simpl; [lia|unfold counter in Hx; lia]. Qed.

Lemma count_loop_run i n ip p line text : forall l counts j c s,
  (forall j v t, printer t i n ip p -> exists t', line j v t = Ret tt t' /\ printer t' i n ip p /\ printed t t' (text j v)) ->
  take (length l) (drop j counts) = l -> Forall counter l -> 0 <= c -> c + total l < 2 ^ 31 -> printer s i n ip p ->
  exists s', count_loop (length l) j counts line c s = Ret (c + total l) s' /\ printer s' i n ip p /\
    printed s s' (lines_of text j l).
Proof.
  induction l as [|v l IH]; intros counts j c s Hline Hl HF Hc Hs Hp; simpl.
  - exists s. rewrite Z.add_0_r. split; [done|]. split; [done|apply printed_refl].
  - assert (counts !! j = Some v) as Hv.
    { rewrite <- (Nat.add_0_r j), <- lookup_drop. simpl in Hl. destruct (drop j counts); simplify_eq/=. done. }
    assert (take (length l) (drop (S j) counts) = l) as Hl'.
    { replace (S j) with (j + 1)%nat by lia. rewrite <- drop_drop. simpl in Hl.
      destruct (drop j counts) as [|a r]; simplify_eq/=. by rewrite drop_0. }
    inversion HF as [|? ? Hv0 HF']; subst. simpl in Hs. pose proof (total_nonneg l HF') as Ht. unfold counter in Hv0.
    rewrite Hv. rstep.
    assert (exists s1, when (truth v) (line j v) s = Ret tt s1 /\ printer s1 i n ip p /\ printed s s1 (if truth v then text j v else []))
      as (s1 & H1 & Hp1 & Hr1).
    { destruct (truth v); [by apply Hline|]. exists s. split; [done|]. split; [done|apply printed_refl]. }
    run H1. destruct (IH counts (S j) (if truth v then s32 (c + v) else c) s1 Hline Hl' HF') as (s2 & H2 & Hp2 & Hr2); [| |done|].
    { destruct (truth v); [rewrite s32_small by lia|]; lia. }
    { destruct (truth v); [rewrite s32_small by lia|]; lia. }
    exists s2. rewrite H2. split; [f_equal|split; [done|by eapply printed_trans]].
    destruct (truth v) eqn:E; [rewrite s32_small by lia; lia|]. apply truth_false in E. lia.
Qed.

(** ** The report *)
Definition dec (z : Z) : list Z := decimal (s32 z).
Definition sys_line (i : nat) (v : Z) : list Z := [32] ++ sysname i ++ [9] ++ bytes " : " ++ dec v ++ [NL].
Definition trap_line (i : nat) (v : Z) : list Z := [32] ++ bytes (nth i trapnames "") ++ bytes " : " ++ dec v ++ [NL].
Definition sys_report (sc : list Z) : list Z :=
  (NL :: bytes "-----[ Syscalls ]-----" ++ [NL]) ++ lines_of sys_line 1 (drop 1 sc) ++
  bytes "  Total Syscalls : " ++ dec (total (drop 1 sc)) ++ [NL].
Definition trap_report (tc : list Z) : list Z :=
  (NL :: bytes "-------------[ Traps ]--------------" ++ [NL]) ++ lines_of trap_line 0 (take 22 tc) ++
  bytes "  Total Traps                  : " ++ dec (total (take 22 tc)) ++ [NL].

(** Counters as [proc.h] declares them, with room in [int] for their sum. *)
Record counters (l : list Z) : Prop := mk_counters {
  ct_size : length l = 23%nat;
  ct_pos : Forall counter l;
  ct_sum : total l < 2 ^ 31 }.
Lemma total_app l k : total (l ++ k) = total l + total k.
Proof. unfold total. induction l; simpl; lia. Qed.
Lemma counters_drop l : counters l -> Forall counter (drop 1 l) /\ total (drop 1 l) < 2 ^ 31 /\ length (drop 1 l) = 22%nat.
Proof.
  intros [H1 H2 H3]. rewrite <- (take_drop 1 l) in H2, H3. rewrite total_app in H3. apply Forall_app in H2 as [H4 H5].
  pose proof (total_nonneg _ H4). rewrite length_drop, H1. split; [done|]. split; [lia|done].
Qed.
Lemma counters_take l : counters l -> Forall counter (take 22 l) /\ total (take 22 l) < 2 ^ 31 /\ length (take 22 l) = 22%nat.
Proof.
  intros [H1 H2 H3]. rewrite <- (take_drop 22 l) in H2, H3. rewrite total_app in H3. apply Forall_app in H2 as [H4 H5].
  pose proof (total_nonneg _ H5). rewrite length_take, H1. split; [done|]. split; [lia|done].
Qed.

Lemma sys_line_printed i n ip p j v t :
  printer t i n ip p -> exists t', cprintf (bytes " %s" ++ [9] ++ bytes " : %d" ++ [NL]) [PStr (Some (sysname j)); PInt v] t = Ret tt t' /\
    printer t' i n ip p /\ printed t t' (sys_line j v).
Proof. intros H. by apply say. Qed.
Lemma trap_line_printed i n ip p j v t :
  printer t i n ip p -> exists t', cprintf (bytes " %s : %d" ++ [NL]) [PStr (Some (bytes (nth j trapnames ""))); PInt v] t = Ret tt t' /\
    printer t' i n ip p /\ printed t t' (trap_line j v).
Proof. intros H. by apply say. Qed.

Lemma countSyscalls_run s i n ip p :
  printer s i n ip p -> counters (p_syscounts p) ->
  exists s', countSyscalls s = Ret (total (drop 1 (p_syscounts p))) s' /\ printer s' i n ip p /\
    printed s s' (sys_report (p_syscounts p)).
Proof.
  intros H0 Hc. destruct (counters_drop _ Hc) as (C1 & C2 & C3). set (sc := p_syscounts p) in *.
  destruct (curproc_run s i n ip p H0) as (s1 & R1 & H1 & P1).
  destruct (say s1 i n ip p (NL :: bytes "-----[ Syscalls ]-----" ++ [NL]) [] _ H1 eq_refl) as (s2 & R2 & H2 & P2).
  destruct (count_loop_run i n ip p (fun j v => cprintf (bytes " %s" ++ [9] ++ bytes " : %d" ++ [NL]) [PStr (Some (sysname j)); PInt v])
    sys_line (drop 1 sc) sc 1 0 s2) as (s3 & R3 & H3 & P3); [apply sys_line_printed|by rewrite take_ge|done|lia|lia|done|].
  rewrite C3 in R3. rewrite Z.add_0_l in R3.
  destruct (say s3 i n ip p (bytes "  Total Syscalls : %d" ++ [NL]) [PInt (total (drop 1 sc))] _ H3 eq_refl) as (s4 & R4 & H4 & P4).
  exists s4. split; [|split; [done|]].
  - unfold countSyscalls. run R1. run (get_proc_ok s1 ip p (pn_proc _ _ _ _ _ H1)). run R2. run R3. run R4. done.
  - exact (printed_trans _ _ _ _ _ P1 (printed_trans _ _ _ _ _ P2 (printed_trans _ _ _ _ _ P3 P4))).
Qed.

(** C31: [sys_countTraps] prints the report of the process that calls it: a line
    for each non-zero counter and the two sums; it changes nothing else.  It
    returns the sum of the trap counters 0 to 21: counter 22, for the traps with
    no entry of their own, is neither printed nor counted. *)
Theorem sys_countTraps_report s i n ip p :
  printer s i n ip p -> counters (p_syscounts p) -> counters (p_trapcounts p) ->
  exists s', sys_countTraps s = Ret (total (p_trapcounts p) - nth 22 (p_trapcounts p) 0) s' /\ printer s' i n ip p /\
    printed s s' (sys_report (p_syscounts p) ++ trap_report (p_trapcounts p)).
Proof.
  intros H0 Hs Hc. destruct (counters_take _ Hc) as (C1 & C2 & C3). set (tc := p_trapcounts p) in *.
  assert (total tc - nth 22 tc 0 = total (take 22 tc)) as ->.
  { rewrite <- (take_drop 22 tc) at 1. rewrite total_app. destruct Hc as [L _ _].
    do 23 (destruct tc as [|? tc]; [done|]). destruct tc; [simpl; lia|done]. }
  destruct (countSyscalls_run s i n ip p H0 Hs) as (s0 & R0 & H00 & P0).
  destruct (curproc_run s0 i n ip p H00) as (s1 & R1 & H1 & P1).
  destruct (say s1 i n ip p (NL :: bytes "-------------[ Traps ]--------------" ++ [NL]) [] _ H1 eq_refl) as (s2 & R2 & H2 & P2).
  destruct (count_loop_run i n ip p (fun j v => cprintf (bytes " %s : %d" ++ [NL]) [PStr (Some (bytes (nth j trapnames ""))); PInt v])
    trap_line (take 22 tc) tc 0 0 s2) as (s3 & R3 & H3 & P3); [apply trap_line_printed|by rewrite drop_0, C3|done|lia|lia|done|].
  rewrite C3 in R3. rewrite Z.add_0_l in R3.
  destruct (say s3 i n ip p (bytes "  Total Traps                  : %d" ++ [NL]) [PInt (total (take 22 tc))] _ H3 eq_refl)
    as (s4 & R4 & H4 & P4).
  exists s4. split; [|split; [done|]].
  - unfold sys_countTraps. run R0. run R1. run (get_proc_ok s1 ip p (pn_proc _ _ _ _ _ H1)). run R2. run R3. run R4. done.
  - apply (printed_trans s s0); [exact P0|].
    exact (printed_trans _ _ _ _ _ P1 (printed_trans _ _ _ _ _ P2 (printed_trans _ _ _ _ _ P3 P4))).
Qed.

(** Process 0 with one system call (write), two interrupts and one unknown trap. *)
Definition counted : proc :=
  set_p_trapcounts (<[20%nat := 2]> (<[22%nat := 1]> (replicate 23 0)))
    (set_p_syscounts (<[16%nat := 1]> (replicate 23 0)) (set_p_state RUNNING (set_p_pid 1 proc0))).
(** Process 0 is [p] and runs on a machine with a serial port. *)
Definition running (p : proc) : kstate :=
  set_k_procs (<[0%nat := p]> (k_procs boot)) (set_k_cpus [set_c_proc (Some 0%nat) (cpu0 0)] serial).
Lemma running_printer p : printer (running p) 0 0 0 p.
Proof.
  split; [|done]. split; [exists (set_c_proc (Some 0%nat) (cpu0 0)); by repeat split|done|done|split; [done|simpl; lia]].
Qed.
Lemma counters_sys : counters (p_syscounts counted).
Proof. split; [done|apply (bool_decide_unpack (Forall (fun c => 0 <= c) _)); by vm_compute|by vm_compute]. Qed.
Lemma counters_trap : counters (p_trapcounts counted).
Proof. split; [done|apply (bool_decide_unpack (Forall (fun c => 0 <= c) _)); by vm_compute|by vm_compute]. Qed.
Lemma sys_countTraps_report_witness :
  exists s', sys_countTraps (running counted) = Ret 2 s' /\ total (p_trapcounts counted) = 3.
Proof.
  destruct (sys_countTraps_report (running counted) 0 0 0 counted (running_printer counted) counters_sys counters_trap) as (s' & H & _).
  exists s'. exact (conj H eq_refl).
Defined.

Lemma io_free_set_procs {B} (f : kstate -> B) v : io_free f -> io_free (fun s => f (set_k_procs v s)).
Proof.
  intros Hf. split; intros x s; [exact (io_hw f Hf x (set_k_procs v s))|exact (io_cpus f Hf x (set_k_procs v s))
    |exact (io_locks f Hf x (set_k_procs v s))|exact (io_out f Hf x (set_k_procs v s))|exact (io_crt f Hf x (set_k_procs v s))].
Qed.

(** ** [trap] counts *)

(** The counter of a trap number, by the processor's and the kernel's numbering:
    exceptions have one each, interrupts share one, so do system calls, and so does
    everything else. *)
Inductive counted_as : Z -> nat -> Prop :=
| as_exception no : (no <= 19)%nat -> counted_as (Z.of_nat no) no
| as_interrupt irq : 0 <= irq < 32 -> counted_as (T_IRQ0 + irq) 20
| as_syscall : counted_as T_SYSCALL 21
| as_reserved no : 20 <= no < T_IRQ0 -> counted_as no 22
| as_unused no : T_SYSCALL < no -> counted_as no 22.
(** One more in counter [k]. *)
Definition counted_once (k : nat) (p : proc) : proc :=
  set_p_trapcounts (<[k := s32 (nth k (p_trapcounts p) 0 + 1)]> (p_trapcounts p)) p.
(** [s'] is [s], but process [ip] has the record [p] (and the processor's interrupt
    bookkeeping may differ). *)
Definition only_proc (s : kstate) (ip : nat) (p : proc) (s' : kstate) : Prop :=
  printed (set_k_procs (<[ip := p]> (k_procs s)) s) s' [].

Lemma counted_as_index no k : 0 <= no < 2 ^ 32 -> counted_as no k -> trapnos (s32 no) = Z.of_nat k /\ (k < 23)%nat.
Proof.
  intros Hr H. assert (s32 no = no \/ s32 no < 0 /\ 2 ^ 31 <= no) as Hs.
  { unfold s32. cbv zeta. rewrite Z.mod_small by lia. destruct (Z.ltb_spec no (2 ^ 31)); lia. }
  destruct H; unfold T_IRQ0, T_SYSCALL in *; (split; [|lia]); unfold trapnos;
    repeat match goal with |- context [?a <=? ?b] => destruct (Z.leb_spec a b) | |- context [?a <? ?b] => destruct (Z.ltb_spec a b)
      | |- context [?a =? ?b] => destruct (Z.eqb_spec a b) end; simpl; lia.
Qed.
Lemma incr_nth k l : (k < length l)%nat -> incr (Z.of_nat k) l = <[k := s32 (nth k l 0 + 1)]> l.
Proof.
  intros Hk. unfold incr. rewrite Nat2Z.id. apply list_eq. intros j. destruct (decide (j = k)) as [->|].
  - rewrite list_lookup_alter_eq, list_lookup_insert_eq by done. rewrite nth_lookup. by destruct (lookup_lt_is_Some_2 l k Hk) as [c ->].
  - by rewrite list_lookup_alter_ne, list_lookup_insert_ne.
Qed.

Lemma only_proc_upd s i n ip p q s' : printer s i n ip p -> printed s s' [] -> printer s' i n ip p ->
  let s2 := set_k_procs (<[ip := q]> (k_procs s')) s' in printer s2 i n ip q /\ only_proc s ip q s2.
Proof.
  intros H [A1 A2 A3] [[H1 H2 H3 H4] H5] s2. split.
  - split; [split; [by apply (on_cpu_ext s')|done|done|done]|]. unfold s2. simpl. apply list_lookup_insert_eq. by eapply lookup_lt_Some.
  - split; [done|done|]. intros B f Hf. unfold s2. rewrite (A3 _ k_procs) by eauto with frame.
    apply (A3 _ (fun t => f (set_k_procs (<[ip:=q]> (k_procs s)) t))), (io_free_set_procs f _ Hf).
Qed.
Lemma only_proc_trans s ip p q s1 s2 : only_proc s ip p s1 -> only_proc s1 ip q s2 -> only_proc s ip q s2.
Proof.
  intros H1 H2. assert (<[ip:=q]> (k_procs s1) = <[ip:=q]> (k_procs s)) as Ep.
  { rewrite (pr_rest _ _ _ H1 _ k_procs) by eauto with frame. simpl. by rewrite list_insert_insert_eq. }
  destruct H1 as [A1 A2 A3], H2 as [B1 B2 B3]. rewrite Ep in *. split.
  - rewrite B1. simpl. rewrite app_nil_r, A1. simpl. by rewrite app_nil_r.
  - intros lk Hlk. rewrite B2 by done. by apply A2.
  - intros B f Hf. rewrite (B3 _ f Hf). apply (A3 _ (fun t => f (set_k_procs (<[ip:=q]> (k_procs s)) t))), (io_free_set_procs f _ Hf).
Qed.
(** A step that only looks. *)
Lemma only_proc_look s i n ip q s1 s2 : only_proc s ip q s1 -> printer s1 i n ip q -> printed s1 s2 [] -> only_proc s ip q s2.
Proof.
  intros H1 H2 H3. apply (only_proc_trans s ip q q s1); [done|]. unfold only_proc.
  rewrite list_insert_id by apply (pn_proc _ _ _ _ _ H2). by rewrite set_k_procs_id.
Qed.

Section Traps.
Context {D : DiskDriver} (s : kstate) (i : nat) (n : Z) (ip : nat) (p : proc) (tf : trapframe) (k : nat).
Context (HP : printer s i n ip p) (Hsize : length (p_trapcounts p) = 23%nat).
Context (Hno : 0 <= tf_trapno tf < 2 ^ 32) (Hk : counted_as (tf_trapno tf) k).
(** The process with its trap counted. *)
Notation q := (counted_once k p).

Lemma trap_counted : exists s1, printer s1 i n ip q /\ only_proc s ip q s1 /\ trap tf s =
  (if tf_trapno tf =? T_SYSCALL then
     kd <- mykilled ;; when kd exit ;; cur <- curproc ;; upd_proc cur (set_p_tf tf) ;; syscall ;; kd <- mykilled ;; when kd exit
   else trap_dispatch tf ;; trap_return tf) s1.
Proof.
  destruct (counted_as_index _ _ Hno Hk) as [Hi Hlt]. destruct (myproc_printer s i n ip p HP) as (s1 & Hm & H1 & P1).
  destruct (only_proc_upd s i n ip p q s1 HP P1 H1) as [H2 H3]. eexists. split; [exact H2|]. split; [exact H3|].
  unfold trap. run Hm. cbv iota. run (upd_proc_ok s1 ip p
    (fun p => set_p_trapcounts (incr (trapnos (s32 (tf_trapno tf))) (p_trapcounts p)) p) (pn_proc _ _ _ _ _ H1)).
  rewrite Hi, incr_nth by (by rewrite Hsize). done.
Qed.

(** A process that has not been killed enters the system call with its trap frame
    saved. *)
Lemma trap_syscall : tf_trapno tf = T_SYSCALL -> p_killed p = 0 ->
  exists s1, printer s1 i n ip (set_p_tf tf q) /\ only_proc s ip (set_p_tf tf q) s1 /\
    trap tf s = (syscall ;; kd <- mykilled ;; when kd exit) s1.
Proof.
  intros E Hkd. destruct trap_counted as (s1 & H1 & O1 & ->). rewrite E, Z.eqb_refl.
  destruct (mykilled_printer s1 i n ip q H1) as (s2 & R2 & H2 & P2). run R2. simpl (p_killed _). rewrite Hkd. cbn [truth Z.eqb negb when]. rstep.
  destruct (curproc_run s2 i n ip q H2) as (s3 & R3 & H3 & P3). run R3. run (upd_proc_ok s3 ip q (set_p_tf tf) (pn_proc _ _ _ _ _ H3)).
  destruct (only_proc_upd s2 i n ip q (set_p_tf tf q) s3 H2 P3 H3) as [H4 O4]. eexists. split; [exact H4|]. split; [|done].
  eapply only_proc_trans; [|exact O4]. by eapply only_proc_look.
Qed.

(** [getpid()], from the trap to the return. *)
Lemma trap_getpid : tf_trapno tf = T_SYSCALL -> p_killed p = 0 -> tf_eax tf = 11 -> length (p_syscounts p) = 23%nat ->
  exists s', trap tf s = Ret tt s' /\
    only_proc s ip (set_p_tf (set_tf_eax (u32 (p_pid p)) tf)
      (set_p_syscounts (<[11%nat := s32 (nth 11 (p_syscounts p) 0 + 1)]> (p_syscounts p)) q)) s'.
Proof.
  intros E Hkd Hax Hsl. destruct (trap_syscall E Hkd) as (s1 & H1 & O1 & ->). set (r := set_p_tf tf q) in *.
  destruct (curproc_run s1 i n ip r H1) as (s2 & R2 & H2 & P2).
  set (r1 := set_p_syscounts (incr 11 (p_syscounts r)) r).
  destruct (only_proc_upd s1 i n ip r r1 s2 H1 P2 H2) as [H3 O3]. set (s3 := set_k_procs (<[ip:=r1]> (k_procs s2)) s2) in *.
  destruct (curproc_run s3 i n ip r1 H3) as (s4 & R4 & H4 & P4).
  set (r2 := set_eax (p_pid r1) r1). destruct (only_proc_upd s3 i n ip r1 r2 s4 H3 P4 H4) as [H5 O5].
  set (s5 := set_k_procs (<[ip:=r2]> (k_procs s4)) s4) in *.
  destruct (mykilled_printer s5 i n ip r2 H5) as (s6 & R6 & H6 & P6).
  assert (syscall s1 = Ret tt s5) as Hs.
  { unfold syscall. run R2. run (get_proc_ok s2 ip r (pn_proc _ _ _ _ _ H2)). cbv zeta. change (tf_eax (p_tf r)) with (tf_eax tf).
    rewrite Hax. change (syscall_entry (s32 11)) with (Some (sys_getpid)). change (s32 11) with 11. cbv iota.
    run (upd_proc_ok s2 ip r (fun p => set_p_syscounts (incr 11 (p_syscounts p)) p) (pn_proc _ _ _ _ _ H2)). fold r1. fold s3.
    erewrite (bind_Ret _ _ _ (p_pid r1) s4); [exact (upd_proc_ok s4 ip r1 _ (pn_proc _ _ _ _ _ H4))|].
    unfold sys_getpid. run R4. run (get_proc_ok s4 ip r1 (pn_proc _ _ _ _ _ H4)). done. }
  exists s6. split.
  - run Hs. run R6. change (p_killed r2) with (p_killed p). by rewrite Hkd.
  - assert (incr 11 (p_syscounts p) = <[11%nat:=s32 (nth 11 (p_syscounts p) 0 + 1)]> (p_syscounts p)) as <-
      by (apply (incr_nth 11); rewrite Hsl; lia).
    apply (only_proc_look s i n ip r2 s5); [|exact H5|done].
    eapply only_proc_trans; [exact O1|]. eapply only_proc_trans; [exact O3|]. exact O5.
Qed.

(** The second disk channel's interrupt is ignored. *)
Lemma trap_ignored : tf_trapno tf = T_IRQ0 + IRQ_IDE + 1 -> p_killed p = 0 -> exists s', trap tf s = Ret tt s' /\ only_proc s ip q s'.
Proof.
  intros E Hkd. destruct trap_counted as (s1 & H1 & O1 & ->). rewrite E.
  assert (forall t, printer t i n ip q -> exists t', exit_if_killed tf t = Ret tt t' /\ printer t' i n ip q /\ printed t t' []) as Hex.
  { intros t H. destruct (myproc_printer t i n ip q H) as (t1 & R1 & HT1 & P1). destruct (mykilled_printer t1 i n ip q HT1) as (t2 & R2 & HT2 & P2).
    exists t2. unfold exit_if_killed. run R1. run R2. simpl (p_killed _). rewrite Hkd. split; [done|]. split; [done|].
    exact (printed_trans _ _ _ _ _ P1 P2). }
  destruct (Hex s1 H1) as (s2 & R2 & H2 & P2). destruct (myproc_printer s2 i n ip q H2) as (s3 & R3 & H3 & P3).
  destruct (Hex s3 H3) as (s4 & R4 & H4 & P4). exists s4. split.
  - change (T_IRQ0 + IRQ_IDE + 1 =? T_SYSCALL) with false. cbv iota.
    assert (trap_dispatch tf s1 = Ret tt s1) as Hd by (unfold trap_dispatch; rewrite E; reflexivity). run Hd.
    unfold trap_return. run R2. run R3. erewrite (bind_Ret _ _ _ tt s3); [exact R4|].
    run (get_proc_ok s3 ip q (pn_proc _ _ _ _ _ H3)). rewrite E, andb_false_r. done.
  - apply (only_proc_look s i n ip _ s1); [exact O1|exact H1|].
    exact (printed_trans _ _ _ _ _ P2 (printed_trans _ _ _ _ _ P3 P4)).
Qed.
End Traps.

(** C38: [trap] counts every trap of a running process once, in the counter of its
    kind (20 exceptions, interrupts, system calls, all others), before it acts on
    it, and changes no other counter and nothing else: an interrupt or exception is
    then dispatched, and a system call made, in a state that differs from the first
    only in that counter (and in the saved trap frame).  Run to the end, an ignored
    interrupt leaves just the count; [getpid()] also adds one to its system-call
    counter and returns the pid.  With no process running nothing is counted. *)
Theorem trap_counts {D : DiskDriver} s i n op tf k :
  console_free s i n op -> 0 <= tf_trapno tf < 2 ^ 32 -> counted_as (tf_trapno tf) k ->
  match op with
  | None => tf_trapno tf <> T_SYSCALL ->
      exists s1, printed s s1 [] /\ trap tf s = (trap_dispatch tf ;; trap_return tf) s1
  | Some ip => forall p, k_procs s !! ip = Some p -> length (p_trapcounts p) = 23%nat -> length (p_syscounts p) = 23%nat ->
      let q := counted_once k p in
      (tf_trapno tf <> T_SYSCALL -> exists s1, only_proc s ip q s1 /\ trap tf s = (trap_dispatch tf ;; trap_return tf) s1) /\
      (p_killed p = 0 -> tf_trapno tf = T_SYSCALL ->
         exists s1, only_proc s ip (set_p_tf tf q) s1 /\ trap tf s = (syscall ;; kd <- mykilled ;; when kd exit) s1) /\
      (p_killed p = 0 -> tf_trapno tf = T_IRQ0 + IRQ_IDE + 1 -> exists s', trap tf s = Ret tt s' /\ only_proc s ip q s') /\
      (p_killed p = 0 -> tf_trapno tf = T_SYSCALL -> tf_eax tf = 11 ->
         exists s', trap tf s = Ret tt s' /\
           only_proc s ip (set_p_tf (set_tf_eax (u32 (p_pid p)) tf)
             (set_p_syscounts (<[11%nat := s32 (nth 11 (p_syscounts p) 0 + 1)]> (p_syscounts p)) q)) s')
  end.
Proof.
  intros Hc Hno Hk. destruct op as [ip|].
  - intros p Hp Hl Hsl q. assert (printer s i n ip p) as HP by (by split).
    split; [|split; [|split]]; intros.
    + destruct (trap_counted s i n ip p tf k HP Hl Hno Hk) as (s1 & _ & H2 & H3). exists s1. split; [done|].
      rewrite H3. by destruct (Z.eqb_spec (tf_trapno tf) T_SYSCALL).
    + destruct (trap_syscall s i n ip p tf k HP Hl Hno Hk) as (s1 & _ & H2 & H3); [done|done|]. by exists s1.
    + by apply (trap_ignored s i n ip p tf k HP Hl Hno Hk).
    + by apply (trap_getpid s i n ip p tf k HP Hl Hno Hk).
  - intros Hne. destruct (myproc_cpu s i n None (cf_cpu _ _ _ _ Hc)) as (s1 & Hm & _ & Hl & Hd & _). exists s1. split.
    + split; [rewrite (Hd _ k_out) by lock_free_tac; by rewrite app_nil_r|intros lk _; by rewrite Hl|].
      intros B f Hf. apply Hd. by apply io_lock_free.
    + unfold trap. run Hm. rstep. by destruct (Z.eqb_spec (tf_trapno tf) T_SYSCALL).
Qed.

(** Process 0 of [counted] calls [getpid()]. *)
Lemma trap_counts_witness :
  let tf := mk_trapframe 0 0 0 0 0 0 0 11 0 0 0 0 T_SYSCALL 0 0 0 0 0 0 in
  exists s', trap (D := mem_driver) tf (running counted) = Ret tt s' /\
    only_proc (running counted) 0 (set_p_tf (set_tf_eax 1 tf)
      (set_p_syscounts (<[11%nat := 1]> (p_syscounts counted)) (set_p_trapcounts (<[21%nat := 1]> (p_trapcounts counted)) counted))) s'.
Proof.
  intros tf. pose proof (trap_counts (D := mem_driver) (running counted) 0 0 (Some 0%nat) tf 21
    (pn_console _ _ _ _ _ (running_printer counted)) ltac:(done) as_syscall) as H.
  destruct (H counted eq_refl eq_refl eq_refl) as (_ & _ & _ & H4). exact (H4 eq_refl eq_refl eq_refl).
Defined.

(** a system call with a number outside the table (zero, negative or too
    large) prints one line, returns -1 to the process and counts nothing. *)
Theorem syscall_unknown {D : DiskDriver} s i n ip p :
  printer s i n ip p -> (let num := s32 (tf_eax (p_tf p)) in num <= 0 \/ 23 <= num) ->
  exists s', syscall s = Ret tt s' /\ k_procs s' = <[ip := set_eax (-1) p]> (k_procs s) /\
    k_out s' = k_out s ++ flat_map (sent s) (dec (p_pid p) ++ [32] ++ cstr (p_name p) ++ bytes ": unknown sys call " ++
      dec (s32 (tf_eax (p_tf p))) ++ [NL]).
Proof.
  intros H Hn. cbv zeta in Hn. set (num := s32 (tf_eax (p_tf p))) in *.
  destruct (curproc_run s i n ip p H) as (s1 & R1 & H1 & P1).
  destruct (say s1 i n ip p (bytes "%d %s: unknown sys call %d" ++ [NL]) [PInt (p_pid p); PStr (Some (cstr (p_name p))); PInt num] _ H1 eq_refl)
    as (s2 & R2 & H2 & P2).
  assert (syscall_entry num = None) as En.
  { unfold syscall_entry. destruct (Z.ltb_spec 0 num), (Z.ltb_spec num 23); try done; lia. }
  eexists. split; [|split].
  - unfold syscall. run R1. run (get_proc_ok s1 ip p (pn_proc _ _ _ _ _ H1)). cbv zeta. fold num. rewrite En. run R2.
    rewrite (upd_proc_ok s2 ip p _ (pn_proc _ _ _ _ _ H2)). reflexivity.
  - simpl. rewrite (pr_rest _ _ _ P2 _ k_procs), (pr_rest _ _ _ P1 _ k_procs) by eauto with frame. done.
  - pose proof (pr_out _ _ _ (printed_trans _ _ _ _ _ P1 P2)) as Ho. exact Ho.
Qed.
Lemma syscall_unknown_witness :
  exists s', syscall (D := mem_driver) (running (set_eax 99 counted)) = Ret tt s' /\
    k_procs s' = <[0%nat := set_eax (-1) (set_eax 99 counted)]> (k_procs (running (set_eax 99 counted))).
Proof.
  destruct (syscall_unknown (D := mem_driver) (running (set_eax 99 counted)) 0 0 0 (set_eax 99 counted)) as (s' & H1 & H2 & _).
  - apply running_printer.
  - right. by vm_compute.
  - exists s'. exact (conj H1 H2).
Defined.
