(* ===== verification/Shared.v ===== *)
(** * Shared memory pages (HW3)

    [HW3/xv6-src/vm.c]: the regions of shared pages and their references,
    [allocuvm] bounded by them; [HW3/xv6-src/proc.c]: [allocproc] and [wait] as
    changed for them; [HW3/xv6-src/sysproc.c]: the two system calls.  Everything
    else of that tree is the code of HW2. *)

From S2P Require Import Prelude Mmu Bytes Mem State Spinlock Printk Critical Kalloc Vm VmSpec Umem Sched Sleeplock Disk Bio Log Inode Console Fs Pipe File ProcLife Exec.

Module Hw3.

Definition get_region (key : nat) : K sharedRegion_t := r <- gets (fun s => k_regions s !! key) ;; deref r.
Definition upd_region (key : nat) (f : sharedRegion_t -> sharedRegion_t) : K unit :=
  r <- get_region key ;; modify (fun s => set_k_regions (<[key := f r]> (k_regions s)) s).
(** [p->shared + key] *)
Definition get_ref (p key : nat) : K sharedReference_t := x <- get_proc p ;; deref (p_shared x !! key).
Definition upd_ref (p key : nat) (f : sharedReference_t -> sharedReference_t) : K unit :=
  upd_proc p (fun x => set_p_shared (alter f key (p_shared x)) x).

(** [(void * )-1] *)
Definition ERR : Z := u32 (-1).

Definition allocuvm (pgdir oldsz newsz : Z) : K Z :=
  cur <- curproc ;; p <- get_proc cur ;;
  allocuvm_below (p_shaddr p) pgdir oldsz newsz.

(** The mapping loop: pages [k], [k+1], ... of the region, downwards from
    [shaddr]; [false] when [mappages] fails. *)
Fixpoint map_loop (n : nat) (p key k : nat) : K bool :=
  match n with
  | O => ret true
  | S n' =>
      upd_proc p (fun x => set_p_shaddr (u32 (p_shaddr x - PGSIZE)) x) ;;
      x <- get_proc p ;;
      r <- get_region key ;;
      pa <- deref (sr_pages r !! k) ;;
      res <- mappages (p_pgdir x) (p_shaddr x) PGSIZE pa (Z.lor PTE_W PTE_U) ;;
      if res <? 0 then ret false else map_loop n' p key (S k)
  end.
Definition mapSharedRegion (p key : nat) : K Z :=
  ref <- get_ref p key ;;
  valid <- (match sh_region ref with None => ret false | Some i => r <- get_region i ;; ret (truth (sr_valid r)) end) ;;
  if (valid : bool) then ret (sh_va ref) else
  pushcli ;;
  r <- get_region key ;;
  ok <- map_loop (Z.to_nat (sr_pageCount r)) p key 0 ;;
  if negb ok then ret ERR else
  upd_region key (fun r => set_sr_refCount (s32 (sr_refCount r + 1)) r) ;;
  popcli ;;
  upd_ref p key (set_sh_region (Some key)) ;;
  x <- get_proc p ;;
  upd_ref p key (set_sh_va (p_shaddr x)) ;;
  ret (p_shaddr x).

(** [count] zeroed pages; [false] when memory runs out. *)
Fixpoint region_pages (n : nat) (key i : nat) : K bool :=
  match n with
  | O => ret true
  | S n' =>
      mem <- kalloc ;;
      if mem =? 0 then cprintf (bytes "allocuvm out of memory" ++ [NL]) [] ;; ret false else
      mem_store (fun m => memset m mem 0 PGSIZE) ;;
      upd_region key (fun r => set_sr_pages (<[i := V2P mem]> (sr_pages r)) r) ;;
      region_pages n' key (S i)
  end.
Definition allocSharedVM (key count : Z) : K Z :=
  if (key <? 0) || (MAX_SH_KEY <=? key) || (count <=? 0) || (MAX_SH_PAGES <? count) then ret ERR else
  let key := Z.to_nat key in
  cur <- curproc ;;
  r <- get_region key ;;
  if negb (truth (sr_valid r)) then
    pushcli ;;
    ok <- region_pages (Z.to_nat count) key 0 ;;
    if negb ok then ret ERR else
    upd_region key (set_sr_valid 1) ;;
    upd_region key (set_sr_refCount 0) ;;
    upd_region key (set_sr_pageCount count) ;;
    popcli ;;
    mapSharedRegion cur key
  else if sr_pageCount r <? count then ret ERR
  else mapSharedRegion cur key.

(** Clearing the page-table entries; [false] when a table is missing. *)
Fixpoint unmap_loop (n : nat) (pgdir va : Z) : K bool :=
  match n with
  | O => ret true
  | S n' =>
      pte <- walkpgdir pgdir va false ;;
      if pte =? 0 then ret false else
      st pte 0 ;;
      unmap_loop n' pgdir (u32 (va + PGSIZE))
  end.
Fixpoint free_loop (n : nat) (key i : nat) : K unit :=
  match n with
  | O => ret tt
  | S n' =>
      r <- get_region key ;;
      pa <- deref (sr_pages r !! i) ;;
      kfree (P2V pa) ;;
      upd_region key (fun r => set_sr_pages (<[i := 0]> (sr_pages r)) r) ;;
      free_loop n' key (S i)
  end.
(** One reference less; with the last one the pages are freed. *)
Definition count_off (key : nat) : K unit :=
  r <- get_region key ;;
  if truth (sr_valid r) then
    upd_region key (set_sr_refCount (s32 (sr_refCount r - 1))) ;;
    r <- get_region key ;;
    if sr_refCount r =? 0 then
      pushcli ;;
      free_loop (Z.to_nat (sr_pageCount r)) key 0 ;;
      upd_region key (set_sr_valid 0) ;;
      upd_region key (set_sr_pageCount 0) ;;
      popcli
    else ret tt
  else ret tt.
Definition deallocProcSharedVM (p : nat) (key : Z) : K Z :=
  if (key <? 0) || (MAX_SH_KEY <=? key) then ret (-1) else
  let key := Z.to_nat key in
  ref <- get_ref p key ;;
  match sh_region ref with
  | None => ret (-1)
  | Some _ =>
      if sh_va ref =? 0 then ret (-1) else
      r <- get_region key ;;
      x <- get_proc p ;;
      ok <- unmap_loop (Z.to_nat (sr_pageCount r)) (p_pgdir x) (sh_va ref) ;;
      if negb ok then ret (-1) else
      upd_ref p key (set_sh_region None) ;;
      upd_ref p key (set_sh_va 0) ;;
      count_off key ;;
      r <- get_region key ;;
      ret (sr_refCount r)
  end.

Definition deallocProcAllSharedVM (p : nat) : K unit :=
  iter_list (upto MAX_SH_KEY) (fun key =>
    ref <- get_ref p key ;;
    match sh_region ref with
    | None => ret tt
    | Some i =>
        r <- get_region i ;;
        when (truth (sr_valid r) && negb (sh_va ref =? 0)) (
          n <- deallocProcSharedVM p (Z.of_nat key) ;;
          x <- get_proc p ;;
          cprintf (bytes "Shared page not freed! pid:%d id:%d refs:%d" ++ [NL]) [PInt (p_pid x); PInt (Z.of_nat key); PInt n])
    end).

Definition deallocSharedVM (key : Z) : K Z := cur <- curproc ;; deallocProcSharedVM cur key.

(** ** [HW3/xv6-src/proc.c] *)
Definition allocproc : K (option nat) :=
  acquire Lk_ptable ;;
  r <- gets (find_proc (state_is UNUSED)) ;;
  match r with
  | None => release Lk_ptable ;; ret None
  | Some i =>
      upd_proc i (set_p_state EMBRYO) ;;
      pid <- gets k_nextpid ;;
      modify (set_k_nextpid (s32 (pid + 1))) ;;
      upd_proc i (set_p_pid pid) ;;
      upd_proc i (set_p_shaddr KERNBASE) ;;
      release Lk_ptable ;;
      allocproc_stack i
  end.

Definition growproc (n : Z) : K Z :=
  ip <- curproc ;;
  p <- get_proc ip ;;
  let sz := p_sz p in
  r <- (if 0 <? n then sz <- allocuvm (p_pgdir p) sz (u32 (sz + n)) ;; ret (if sz =? 0 then None else Some sz)
        else if n <? 0 then sz <- deallocuvm (p_pgdir p) sz (u32 (sz + n)) ;; ret (if sz =? 0 then None else Some sz)
        else ret (Some sz)) ;;
  match r with
  | None => ret (-1)
  | Some sz => upd_proc ip (set_p_sz sz) ;; switchuvm (Some ip) ;; ret 0
  end.

Definition reap (p : proc) : proc :=
  set_p_state UNUSED (set_p_killed 0 (set_p_name (<[0%nat := 0]> (p_name p)) (set_p_parent None (set_p_pid 0 p)))).
Fixpoint wait_scan (l : list nat) (cur : nat) (havekids : bool) : K (bool * option Z) :=
  match l with
  | [] => ret (havekids, None)
  | i :: l' =>
      p <- get_proc i ;;
      if negb (bool_decide (p_parent p = Some cur)) then wait_scan l' cur havekids
      else if state_is ZOMBIE p then
        let pid := p_pid p in
        deallocProcAllSharedVM i ;;
        p <- get_proc i ;;
        kfree (p_kstack p) ;;
        upd_proc i (set_p_kstack 0) ;;
        freevm (p_pgdir p) ;;
        upd_proc i reap ;;
        release Lk_ptable ;;
        ret (true, Some pid)
      else wait_scan l' cur true
  end.
Fixpoint wait_loop (fuel : nat) (cur : nat) : K Z :=
  '(havekids, r) <- wait_scan (upto NPROC) cur false ;;
  match r with
  | Some pid => ret pid
  | None =>
      c <- get_proc cur ;;
      if negb havekids || truth (p_killed c) then release Lk_ptable ;; ret (-1) else
      match fuel with
      | O => nofuel
      | S f => sleep (Ch_proc cur) (Some Lk_ptable) ;; wait_loop f cur
      end
  end.
Definition wait : K Z :=
  cur <- curproc ;;
  acquire Lk_ptable ;;
  w <- gets k_wait ;; wait_loop w cur.

(** ** [HW3/xv6-src/sysproc.c] *)
Definition sys_GetSharedPage : K Z :=
  key <- argint 0 ;;
  match key with
  | None => ret ERR
  | Some key =>
      count <- argint 1 ;;
      match count with None => ret ERR | Some count => allocSharedVM key count end
  end.
Definition sys_FreeSharedPage : K Z :=
  key <- argint 0 ;;
  match key with None => ret (-1) | Some key => deallocSharedVM key end.

End Hw3.
