(* ===== verification/SharedSpec.v ===== *)
(** * Shared memory: what two processes see

    The promises of the shared-page calls of HW3 ([Shared.v]): the pages of a region
    are mapped, downwards from the process's shared-memory pointer, in the order that
    makes byte [x] of the region the same physical byte in every process; references
    are counted; the last one to leave frees the pages. *)

From S2P Require Import Prelude Mmu Mem State Spinlock Printk Critical Kalloc Vm VmSpec Umem Sched Shared.

Module Hw3Spec.
Import Hw3.

(** ** Frames *)
Section Frames.
Context {B} (f : kstate -> B) (Hf : io_free f)
  (Hk : forall v s, f (set_k_kmem v s) = f s) (Hm : forall v s, f (set_k_mem v s) = f s).

Lemma frame_walkpgdir pgdir va alloc : preserves f (walkpgdir pgdir va alloc).
Proof.
  unfold walkpgdir, ld, st, mem_store. pose proof (frame_kalloc f Hf Hk). frame; apply preserves_modify; auto.
Qed.
Lemma frame_mappages pgdir va size pa perm : preserves f (mappages pgdir va size pa perm).
Proof.
  unfold mappages. generalize (S (Z.to_nat (u32 (PGROUNDDOWN (u32 (va + size - 1)) - PGROUNDDOWN va) / PGSIZE))).
  generalize (PGROUNDDOWN va) (PGROUNDDOWN (u32 (va + size - 1))). clear va size. intros a last fuel. revert a pa.
  induction fuel as [|fuel IH]; intros a pa; cbn [mappages_loop]; [apply preserves_nofuel|].
  unfold ld, st, mem_store. pose proof frame_walkpgdir. frame; apply preserves_modify; auto.
Qed.
End Frames.
#[local] Hint Resolve frame_walkpgdir frame_mappages : frame.

Lemma vm_ctx_ext s s' i n p l pgdir :
  k_hw s' = k_hw s -> k_cpus s' = k_cpus s -> k_ncpu s' = k_ncpu s -> k_locks s' = k_locks s ->
  k_mem s' = k_mem s -> k_kmem s' = k_kmem s -> k_end s' = k_end s ->
  vm_ctx s i n p l pgdir -> vm_ctx s' i n p l pgdir.
Proof.
  intros E1 E2 E3 E4 E5 E6 E7 [H1 [H2 H3 H4] H5]. split; [by apply (ready_ext s)| |by rewrite E5, E7].
  split; rewrite ?E5, ?E6, ?E7; done.
Qed.

Lemma get_region_ok s key r : k_regions s !! key = Some r -> get_region key s = Ret r s.
Proof. intros H. unfold get_region. rstep. by rewrite H. Qed.
Lemma upd_region_ok s key r f : k_regions s !! key = Some r ->
  upd_region key f s = Ret tt (set_k_regions (<[key := f r]> (k_regions s)) s).
Proof. intros H. unfold upd_region. run (get_region_ok s key r H). done. Qed.

(** ** The mapping loop *)
Section MapLoop.
Context (i : nat) (n : Z) (cp : option nat) (pgdir : Z) (p key : nat) (r : sharedRegion_t).
Context (Hpages : forall j pa, sr_pages r !! j = Some pa -> pa mod PGSIZE = 0 /\ 0 <= pa < 2 ^ 32).

Lemma map_loop_ok cnt : forall s l k x, vm_ctx s i n cp l pgdir -> k_procs s !! p = Some x -> p_pgdir x = pgdir ->
  k_regions s !! key = Some r -> (k + cnt <= length (sr_pages r))%nat ->
  p_shaddr x mod PGSIZE = 0 -> Z.of_nat cnt * PGSIZE <= p_shaddr x < 2 ^ 32 ->
  (forall va, p_shaddr x - Z.of_nat cnt * PGSIZE <= va < p_shaddr x -> translate (k_mem s) pgdir va = None) ->
  exists ok s' l' a, map_loop cnt p key k s = Ret ok s' /\ l' `suffix_of` l /\ vm_ctx s' i n cp l' pgdir /\
    k_procs s' = <[p := set_p_shaddr a x]> (k_procs s) /\ k_regions s' = k_regions s /\
    (forall y, pt_footprint (k_mem s') l' pgdir y -> pt_footprint (k_mem s) l pgdir y) /\
    (forall y, ~ pt_footprint (k_mem s) l pgdir y -> k_mem s' y = k_mem s y) /\
    (ok = false -> l' = []) /\
    (ok = true -> a = p_shaddr x - Z.of_nat cnt * PGSIZE /\
      forall j pa o, (j < cnt)%nat -> sr_pages r !! (k + j)%nat = Some pa -> 0 <= o < PGSIZE ->
        translate (k_mem s') pgdir (p_shaddr x - (Z.of_nat j + 1) * PGSIZE + o) = Some (pa + o)) /\
    (forall va, 0 <= va < 2 ^ 32 -> va < p_shaddr x - Z.of_nat cnt * PGSIZE \/ p_shaddr x <= va ->
      translate (k_mem s') pgdir va = translate (k_mem s) pgdir va).
Proof.
  induction cnt as [|cnt IH]; intros s l k x Hc Hp Hpg Hr Hk Hal Hrange Hfree; cbn [map_loop].
  - exists true, s, l, (p_shaddr x). split; [done|]. split; [done|]. split; [done|]. split; [|split_and!; try done].
    + rewrite list_insert_id; [done|]. by destruct x.
    + intros _. split; [lia|]. intros; lia.
  - set (top := p_shaddr x) in *. run (upd_proc_ok s p x (fun x => set_p_shaddr (u32 (p_shaddr x - PGSIZE)) x) Hp).
    fold top. assert (u32 (top - PGSIZE) = top - PGSIZE) as Etop by (apply u32_small; unfold PGSIZE in *; lia). rewrite Etop.
    set (x1 := set_p_shaddr (top - PGSIZE) x). set (s1 := set_k_procs (<[p := x1]> (k_procs s)) s).
    assert (k_procs s1 !! p = Some x1) as Hp1 by (apply list_lookup_insert_eq; by eapply lookup_lt_Some).
    assert (k_regions s1 !! key = Some r) as Hr1 by done.
    run (get_proc_ok s1 p x1 Hp1). run (get_region_ok s1 key r Hr1).
    destruct (lookup_lt_is_Some_2 (sr_pages r) k) as [pa Hpa]; [lia|]. rewrite Hpa. cbn [deref]. rstep.
    destruct (Hpages k pa Hpa) as [Hpam Hpar]. change (p_pgdir x1) with (p_pgdir x). rewrite Hpg. change (p_shaddr x1) with (top - PGSIZE).
    assert (vm_ctx s1 i n cp l pgdir) as Hc1 by (by apply (vm_ctx_ext s)).
    assert (PGROUNDDOWN (top - PGSIZE) = top - PGSIZE) as Ernd by (rewrite PGROUNDDOWN_eq by (unfold PGSIZE in *; lia); unfold PGSIZE in *; dlia).
    assert ((top - PGSIZE + PGSIZE - 1) / PGSIZE = (top - PGSIZE) / PGSIZE) as Edv by (unfold PGSIZE in *; dlia).
    destruct (mappages_run s1 i n cp l pgdir (top - PGSIZE) PGSIZE pa (Z.lor PTE_W PTE_U) Hc1) as (res & s2 & l2 & Hrun & Hsuf & Hc2 & Hres & Hother & Hout & Hfoot);
      try (unfold PGSIZE in *; lia); try done.
    { intros va Hva. apply Hfree. unfold PGSIZE in *. lia. }
    run Hrun.
    assert (k_procs s2 = k_procs s1 /\ k_regions s2 = k_regions s1) as [Eps Ers].
    { split; [apply (frame_mappages k_procs) in Hrun|apply (frame_mappages k_regions) in Hrun]; try done; split; intros; reflexivity. }
    change (k_mem s1) with (k_mem s) in *.
    destruct Hres as [[-> Htr]|[-> ->]].
    + cbn [Z.ltb Z.compare]. assert (k_procs s2 !! p = Some x1) as Hp2 by (by rewrite Eps).
      destruct (IH s2 l2 (S k) x1) as (ok & s' & l' & a & Hl & Hsuf' & Hc' & Hprocs & Hregs & Hfoot' & Hout' & Hf' & Ht' & Hother'); try done; try lia;
        change (p_shaddr x1) with (top - PGSIZE) in *.
      { by rewrite Ers. } { unfold PGSIZE in *. dlia. } { unfold PGSIZE in *. lia. }
      { intros va Hva. rewrite Hother; [apply Hfree; unfold PGSIZE in *; lia|unfold PGSIZE in *; lia|].
        left. unfold PGSIZE in *. dlia. }
      exists ok, s', l', a. split; [done|]. split; [by etrans|]. split; [done|]. split; [|split; [by rewrite Hregs, Ers|split; [|split; [|split; [done|split]]]]].
      * rewrite Hprocs, Eps. simpl. rewrite list_insert_insert. destruct (decide (p = p)); [|done]. f_equal.
      * intros y Hy. by apply Hfoot, Hfoot'.
      * intros y Hy. rewrite Hout'; [by apply Hout|]. intros Hy'. by apply Hy, Hfoot.
      * intros Hok. destruct (Ht' Hok) as [-> Htj]. split; [unfold PGSIZE in *; lia|]. intros j pa' o Hj Hpa' Ho.
        destruct j as [|j].
        -- rewrite Nat.add_0_r in Hpa'. simplify_eq. rewrite Hother' by (unfold PGSIZE in *; lia).
           destruct (Htr (top - (Z.of_nat 0 + 1) * PGSIZE + o)) as [-> _]; [unfold PGSIZE in *; lia|]. rewrite Ernd. f_equal. unfold PGSIZE in *. lia.
        -- replace (top - (Z.of_nat (S j) + 1) * PGSIZE + o) with (top - PGSIZE - (Z.of_nat j + 1) * PGSIZE + o) by lia.
           apply Htj; [lia| |done]. by replace (S k + j)%nat with (k + S j)%nat by lia.
      * intros va Hva Hor. rewrite Hother' by (unfold PGSIZE in *; lia). apply Hother; [done|]. unfold PGSIZE in *. dlia.
    + cbn [Z.ltb Z.compare]. exists false, s2, [], (top - PGSIZE). split; [done|]. split; [done|]. split; [done|].
      split; [by rewrite Eps|]. split; [done|]. split; [done|]. split; [done|]. split; [done|]. split; [done|].
      intros va Hva Hor. apply Hother; [done|]. unfold PGSIZE in *. dlia.
Qed.
End MapLoop.

(** ** Attaching a region *)

(** Byte [x] of the region lies at [va + x]; the first page is the topmost one. *)
Definition visible (m : mem) (pgdir va : Z) (r : sharedRegion_t) : Prop :=
  forall j pa o, Z.of_nat j < sr_pageCount r -> sr_pages r !! j = Some pa -> 0 <= o < PGSIZE ->
    translate m pgdir (va + (sr_pageCount r - 1 - Z.of_nat j) * PGSIZE + o) = Some (pa + o).

(** A region whose pages are there. *)
Record region_ok (r : sharedRegion_t) : Prop := mk_region_ok {
  ro_pages : forall j pa, sr_pages r !! j = Some pa -> pa mod PGSIZE = 0 /\ 0 <= pa < 2 ^ 32;
  ro_count : 0 <= sr_pageCount r <= Z.of_nat (length (sr_pages r));
  ro_refs : 0 <= sr_refCount r < 2 ^ 31 - 1 }.
(** Process [p], which does not hold region [key], has room for it below its
    shared-memory pointer. *)
Record can_attach (s : kstate) (p key : nat) (x : proc) (r : sharedRegion_t) : Prop := mk_can_attach {
  ca_proc : k_procs s !! p = Some x;
  ca_region : k_regions s !! key = Some r;
  ca_ok : region_ok r;
  ca_ref : exists ref, p_shared x !! key = Some ref /\ sh_region ref = None;
  ca_align : p_shaddr x mod PGSIZE = 0;
  ca_room : sr_pageCount r * PGSIZE <= p_shaddr x < 2 ^ 32;
  ca_free : forall va, p_shaddr x - sr_pageCount r * PGSIZE <= va < p_shaddr x ->
    translate (k_mem s) (p_pgdir x) va = None }.
(** The process and the region afterwards. *)
Definition attached (key : nat) (va : Z) (x : proc) : proc :=
  set_p_shared (alter (fun _ => mk_reference (Some key) va) key (p_shared x)) (set_p_shaddr va x).
Definition counted (r : sharedRegion_t) : sharedRegion_t := set_sr_refCount (sr_refCount r + 1) r.

Lemma upd_ref_ok s p x key f : k_procs s !! p = Some x ->
  upd_ref p key f s = Ret tt (set_k_procs (<[p := set_p_shared (alter f key (p_shared x)) x]> (k_procs s)) s).
Proof. intros H. unfold upd_ref. by rewrite (upd_proc_ok s p x). Qed.
Lemma get_ref_ok s p x key ref : k_procs s !! p = Some x -> p_shared x !! key = Some ref -> get_ref p key s = Ret ref s.
Proof. intros H Hr. unfold get_ref. run (get_proc_ok s p x H). by rewrite Hr. Qed.

Lemma aligned_ERR a : a mod PGSIZE = 0 -> a <> ERR.
Proof. intros H ->. vm_compute in H. done. Qed.
Lemma aligned_sub a k : a mod PGSIZE = 0 -> (a - k * PGSIZE) mod PGSIZE = 0.
Proof. unfold PGSIZE. intros H. dlia. Qed.
Lemma vm_ctx_cpu s s' i n n' p l pgdir : vm_ctx s i n p l pgdir -> on_cpu s' i n' p -> k_locks s' = k_locks s ->
  same_data s s' -> vm_ctx s' i n' p l pgdir.
Proof.
  intros [[_ Hun]%ready_on_cpu [H1 H2 H3] Hpt] Hon Hlk Hsd.
  pose proof (same_data_field k_mem s s' Hsd ltac:(lock_free_tac)) as E1.
  pose proof (same_data_field k_kmem s s' Hsd ltac:(lock_free_tac)) as E2.
  pose proof (same_data_field k_end s s' Hsd ltac:(lock_free_tac)) as E3.
  split; [apply ready_on_cpu; split; [done|]; unfold unlocked; by rewrite Hlk| |by rewrite E1, E3].
  split; rewrite ?E1, ?E2, ?E3; done.
Qed.
Lemma vm_ctx_on_cpu s i n p l pgdir : vm_ctx s i n p l pgdir -> on_cpu s i n p.
Proof. intros [[? _]%ready_on_cpu _ _]. done. Qed.

Lemma mapSharedRegion_ok s i n cp l p key x r :
  vm_ctx s i n cp l (p_pgdir x) -> can_attach s p key x r ->
  exists va s' l', mapSharedRegion p key s = Ret va s' /\ l' `suffix_of` l /\
    (forall y, pt_footprint (k_mem s') l' (p_pgdir x) y -> pt_footprint (k_mem s) l (p_pgdir x) y) /\
    (forall y, ~ pt_footprint (k_mem s) l (p_pgdir x) y -> k_mem s' y = k_mem s y) /\
    (va = ERR /\ l' = [] /\ vm_ctx s' i (n + 1) cp l' (p_pgdir x) \/
     va = p_shaddr x - sr_pageCount r * PGSIZE /\ va <> ERR /\ vm_ctx s' i n cp l' (p_pgdir x) /\
     k_procs s' = <[p := attached key va x]> (k_procs s) /\
     k_regions s' = <[key := counted r]> (k_regions s) /\
     visible (k_mem s') (p_pgdir x) va r /\
     (forall y, 0 <= y < 2 ^ 32 -> y < va \/ p_shaddr x <= y ->
        translate (k_mem s') (p_pgdir x) y = translate (k_mem s) (p_pgdir x) y)).
Proof.
  intros Hc [Hp Hr [Hpages Hcnt Hrefs] (ref & Href & Hnone) Hal Hroom Hfree].
  unfold mapSharedRegion. run (get_ref_ok s p x key ref Hp Href). rewrite Hnone. rstep. cbv beta iota.
  destruct (pushcli_cpu s i n cp (vm_ctx_on_cpu _ _ _ _ _ _ Hc)) as (s1 & Hpush & Hon1 & Hlk1 & Hsd1). run Hpush.
  pose proof (vm_ctx_cpu s s1 i n (n + 1) cp l _ Hc Hon1 Hlk1 Hsd1) as Hc1.
  pose proof (same_data_field k_mem s s1 Hsd1 ltac:(lock_free_tac)) as Em.
  pose proof (same_data_field k_procs s s1 Hsd1 ltac:(lock_free_tac)) as Eps.
  pose proof (same_data_field k_regions s s1 Hsd1 ltac:(lock_free_tac)) as Ers.
  assert (k_procs s1 !! p = Some x) as Hp1 by (by rewrite Eps). assert (k_regions s1 !! key = Some r) as Hr1 by (by rewrite Ers).
  run (get_region_ok s1 key r Hr1).
  destruct (map_loop_ok i (n + 1) cp (p_pgdir x) p key r Hpages (Z.to_nat (sr_pageCount r)) s1 l 0 x)
    as (ok & s2 & l2 & a & Hl & Hsuf & Hc2 & Eps2 & Ers2 & Hfoot & Hout & Hf & Ht & Hoth); try done;
    rewrite ?Z2Nat.id in * by lia; try lia.
  { rewrite Em. done. }
  run Hl. rewrite Em in *. destruct ok; change (negb true) with false; change (negb false) with true; cbv iota.
  - destruct (Ht eq_refl) as [-> Hvis]. set (va := p_shaddr x - sr_pageCount r * PGSIZE) in *.
    assert (k_regions s2 !! key = Some r) as Hr2 by (by rewrite Ers2).
    run (upd_region_ok s2 key r (fun r => set_sr_refCount (s32 (sr_refCount r + 1)) r) Hr2).
    rewrite s32_small by lia. fold (counted r). set (s3 := set_k_regions _ s2).
    assert (vm_ctx s3 i (n + 1) cp l2 (p_pgdir x)) as Hc3 by (by apply (vm_ctx_ext s2)).
    pose proof (vm_ctx_on_cpu _ _ _ _ _ _ Hc3) as Hon3. pose proof (vm_ctx_on_cpu _ _ _ _ _ _ Hc) as (c0 & [_ _ Hn0 _] & Hn1 & _).
    destruct (popcli_cpu s3 i (n + 1) cp Hon3 ltac:(lia)) as (s4 & Hpop & Hon4 & Hlk4 & Hsd4). run Hpop.
    replace (n + 1 - 1) with n in Hon4 by lia. pose proof (vm_ctx_cpu s3 s4 i (n + 1) n cp l2 _ Hc3 Hon4 Hlk4 Hsd4) as Hc4.
    pose proof (same_data_field k_mem s3 s4 Hsd4 ltac:(lock_free_tac)) as Em4.
    pose proof (same_data_field k_procs s3 s4 Hsd4 ltac:(lock_free_tac)) as Eps4.
    pose proof (same_data_field k_regions s3 s4 Hsd4 ltac:(lock_free_tac)) as Ers4.
    change (k_mem s3) with (k_mem s2) in Em4. change (k_procs s3) with (k_procs s2) in Eps4.
    assert (p < length (k_procs s))%nat as Hlt by (by eapply lookup_lt_Some).
    assert (k_procs s4 !! p = Some (set_p_shaddr va x)) as Hp4.
    { rewrite Eps4, Eps2, Eps. apply list_lookup_insert_eq. done. }
    run (upd_ref_ok s4 p (set_p_shaddr va x) key (set_sh_region (Some key)) Hp4). set (x5 := set_p_shared _ _). set (s5 := set_k_procs _ s4).
    assert (k_procs s5 !! p = Some x5) as Hp5 by (apply list_lookup_insert_eq; by rewrite Eps4, Eps2, Eps, length_insert).
    run (get_proc_ok s5 p x5 Hp5). run (upd_ref_ok s5 p x5 key (set_sh_va (p_shaddr x5)) Hp5). change (p_shaddr x5) with va.
    exists va. eexists. exists l2. split; [reflexivity|]. split; [done|]. cbn [k_mem set_k_procs s5]. rewrite Em4.
    split; [done|]. split; [done|]. right. split; [done|]. split.
    { apply aligned_ERR. by apply aligned_sub. }
    split; [by apply (vm_ctx_ext s4)|]. split; [|split; [|split; [|done]]].
    + simpl. rewrite Eps4, Eps2, Eps, !list_insert_insert_eq. f_equal. unfold x5, attached, set_p_shared, set_p_shaddr. simpl.
      f_equal. by rewrite list_alter_alter_eq.
    + simpl. rewrite Ers4. simpl. by rewrite Ers2, Ers.
    + intros j pa o Hj Hpa Ho. replace (va + (sr_pageCount r - 1 - Z.of_nat j) * PGSIZE + o) with (p_shaddr x - (Z.of_nat j + 1) * PGSIZE + o) by (unfold va; lia).
      apply Hvis; [lia|done|done].
  - exists ERR, s2, l2. split; [done|]. split; [done|]. split; [done|]. split; [done|]. left. split; [done|]. split; [by apply Hf|done].
Qed.


(** ** Two page tables *)

(** The memory of a page table: its directory and its tables. *)
Definition pt_area (m : mem) (pgdir a : Z) : Prop :=
  in_page pgdir a \/ (exists d, 0 <= d < 1024 /\ present (pde m pgdir d) = true /\ in_page (tab m pgdir d) a).

Lemma footprint_area m l pgdir a : pt_footprint m l pgdir a <-> pt_area m pgdir a \/ exists q, q ∈ l /\ in_page q a.
Proof. unfold pt_footprint, pt_area. tauto. Qed.
Lemma area_not_free kend m l pgdir a q : pt_inv kend m l pgdir -> Forall (page_ok kend) l -> pt_area m pgdir a ->
  q ∈ l -> ~ in_page q a.
Proof.
  intros HI Hl Ha Hq Hqa. rewrite Forall_forall in Hl. pose proof (Hl q Hq) as Hqo.
  destruct Ha as [Ha|(d & Hd & Hpd & Ha)].
  - destruct (pt_dir _ _ _ _ HI) as [Hdo Hdn].
    destruct (pages_disjoint q pgdir) as [|]; [apply Hqo|apply Hdo|intros ->; done| |]; unfold in_page in *; lia.
  - destruct (pt_tab _ _ _ _ HI d Hd Hpd) as (Hto & Htn & _).
    destruct (pages_disjoint q (tab m pgdir d)) as [|]; [apply Hqo|apply Hto|intros ->; done| |]; unfold in_page in *; lia.
Qed.
(** A page table whose memory nobody writes keeps its invariant and its meaning. *)
Section Kept.
Context (m m' : mem) (pgdir : Z) (Hsame : forall a, pt_area m pgdir a -> m' a = m a).

Lemma kept_pde d : 0 <= d < 1024 -> pde m' pgdir d = pde m pgdir d.
Proof. intros Hd. apply pde_ext; [done|]. intros a Ha. apply Hsame. by left. Qed.
Lemma kept_tab d : 0 <= d < 1024 -> tab m' pgdir d = tab m pgdir d.
Proof. intros Hd. unfold tab. by rewrite kept_pde. Qed.
Lemma kept_area a : pt_area m' pgdir a <-> pt_area m pgdir a.
Proof.
  unfold pt_area. split; (intros [Ha|(d & Hd & Hpd & Ha)]; [by left|right; exists d]);
    [rewrite kept_pde in Hpd by done; rewrite kept_tab in Ha by done|rewrite kept_pde, kept_tab by done]; done.
Qed.
Lemma kept_translate va : 0 <= va < 2 ^ 32 -> translate m' pgdir va = translate m pgdir va.
Proof.
  intros Hva. pose proof (PDX_range va Hva). unfold translate, pte_val, pte_addr. rewrite kept_pde, kept_tab by done.
  destruct (present (pde m pgdir (PDX va))) eqn:Hp; [|done]. pose proof (PTX_range va Hva).
  erewrite (ld32_ext m' m); [done|]. intros a Ha. apply Hsame. right. exists (PDX va). unfold in_page, PGSIZE.
  split; [done|]. split; [done|lia].
Qed.
Lemma kept_inv kend l l' : pt_inv kend m l pgdir -> mem_ok m' -> l' `suffix_of` l -> pt_inv kend m' l' pgdir.
Proof.
  intros [H1 [H2 H2'] H3 H4] Hm' [z ->]. split; [done|set_solver| |].
  - intros d Hd. rewrite kept_pde, kept_tab by done. intros Hp. destruct (H3 d Hd Hp) as (? & ? & ?). set_solver.
  - intros d d' Hd Hd'. rewrite !kept_pde, !kept_tab by done. by apply H4.
Qed.
End Kept.


Lemma map_end p key : preserves k_end (mapSharedRegion p key).
Proof.
  assert (forall n k, preserves k_end (map_loop n p key k)) as Hl.
  { induction n as [|n IH]; intros k; cbn [map_loop]; [apply preserves_ret|]. unfold upd_proc, get_proc, get_region.
    pose proof (frame_mappages k_end io_free_end (fun _ _ => eq_refl) (fun _ _ => eq_refl)). frame. }
  unfold mapSharedRegion, get_ref, upd_ref, upd_proc, get_proc, upd_region, get_region.
  pose proof (frame_pushcli k_end io_free_end). pose proof (frame_popcli k_end io_free_end). frame.
Qed.
(** A byte of a visible region. *)
Lemma visible_byte m pgdir va r b : region_ok r -> visible m pgdir va r -> 0 <= b < sr_pageCount r * PGSIZE ->
  exists pa, sr_pages r !! Z.to_nat (sr_pageCount r - 1 - b / PGSIZE) = Some pa /\ translate m pgdir (va + b) = Some (pa + b mod PGSIZE).
Proof.
  intros [_ Hcnt _] Hv Hb. assert (0 <= b / PGSIZE < sr_pageCount r /\ 0 <= b mod PGSIZE < PGSIZE) as [Hq Hm] by (unfold PGSIZE in *; dlia).
  destruct (lookup_lt_is_Some_2 (sr_pages r) (Z.to_nat (sr_pageCount r - 1 - b / PGSIZE))) as [pa Hpa]; [lia|].
  exists pa. split; [done|]. rewrite <- (Hv (Z.to_nat (sr_pageCount r - 1 - b / PGSIZE)) pa (b mod PGSIZE) ltac:(lia) Hpa Hm). f_equal. rewrite Z2Nat.id by lia.
  unfold PGSIZE. dlia.
Qed.
(** The second process is still ready to attach after the first one has. *)
Lemma can_attach_after s s1 p q key va x y r : p <> q -> can_attach s p key x r -> can_attach s q key y r ->
  sr_refCount r < 2 ^ 31 - 2 -> k_procs s1 = <[p := attached key va x]> (k_procs s) ->
  k_regions s1 = <[key := counted r]> (k_regions s) ->
  (forall v, 0 <= v < 2 ^ 32 -> translate (k_mem s1) (p_pgdir y) v = translate (k_mem s) (p_pgdir y) v) ->
  can_attach s1 q key y (counted r).
Proof.
  intros Hne [Hp _ _ _ _ _ _] [Hq Hr [H1 H2 H3] H4 H5 H6 H7] Hrc Ep Er Ht. split; try done.
  - rewrite Ep. by rewrite list_lookup_insert_ne.
  - rewrite Er. apply list_lookup_insert_eq. by eapply lookup_lt_Some.
  - split; simpl; try done. lia.
  - simpl. intros v Hv. rewrite Ht by (unfold PGSIZE in *; lia). by apply H7.
Qed.

(** C11: two processes that attach the same region share its memory: unless the
    kernel runs out of pages for page tables, byte [b] of the region, [b] bytes above
    the address each of them got, is the same physical byte for both, whatever
    addresses they got; and both references are counted. *)
Theorem shared_memory_agrees s i n cp l p q key x y r : p <> q ->
  vm_ctx s i n cp l (p_pgdir x) -> vm_ctx s i n cp l (p_pgdir y) ->
  (forall a, pt_area (k_mem s) (p_pgdir x) a -> pt_area (k_mem s) (p_pgdir y) a -> False) ->
  can_attach s p key x r -> can_attach s q key y r -> sr_refCount r < 2 ^ 31 - 2 ->
  exists va s1, mapSharedRegion p key s = Ret va s1 /\
    (va = ERR /\ kmem_inv s1 [] \/
     exists vb s2, mapSharedRegion q key s1 = Ret vb s2 /\
      (vb = ERR /\ kmem_inv s2 [] \/
       k_regions s2 !! key = Some (set_sr_refCount (sr_refCount r + 2) r) /\
       forall b, 0 <= b < sr_pageCount r * PGSIZE -> exists pa,
         translate (k_mem s2) (p_pgdir x) (va + b) = Some pa /\ translate (k_mem s2) (p_pgdir y) (vb + b) = Some pa)).
Proof.
  intros Hne Hcx Hcy Hsep Hax Hay Hrc.
  destruct (mapSharedRegion_ok s i n cp l p key x r Hcx Hax) as (va & s1 & l1 & Hrun & Hsuf & Hfoot & Hout & Hres).
  exists va, s1. split; [done|].
  destruct Hres as [(-> & -> & Hc1)|(Eva & Hva & Hc1 & Ep1 & Er1 & Hvis & _)]; [left; split; [done|apply Hc1]|right].
  pose proof (ki_pages _ _ (vc_free _ _ _ _ _ _ Hcy)) as Hpgs.
  assert (forall a, pt_area (k_mem s) (p_pgdir y) a -> k_mem s1 a = k_mem s a) as Hkeep.
  { intros a Ha. apply Hout. rewrite footprint_area. intros [Hx|(f & Hf & Hfa)]; [by apply (Hsep a)|].
    by apply (area_not_free _ _ _ _ _ f (vc_pt _ _ _ _ _ _ Hcy) Hpgs Ha Hf). }
  assert (vm_ctx s1 i n cp l1 (p_pgdir y)) as Hcy1.
  { destruct Hc1 as [Hr1 Hf1 Hp1]. split; [done|done|]. apply (kept_inv (k_mem s) (k_mem s1) (p_pgdir y) Hkeep _ l l1); [|apply Hp1|done].
    rewrite (map_end _ _ _ _ _ Hrun). apply Hcy. }
  pose proof (kept_translate _ _ _ Hkeep) as Hty.
  pose proof (can_attach_after s s1 p q key va x y r Hne Hax Hay Hrc Ep1 Er1 Hty) as Hay1.
  destruct (mapSharedRegion_ok s1 i n cp l1 q key y (counted r) Hcy1 Hay1) as (vb & s2 & l2 & Hrun2 & Hsuf2 & Hfoot2 & Hout2 & Hres2).
  exists vb, s2. split; [done|].
  destruct Hres2 as [(-> & -> & Hc2)|(Evb & Hvb & Hc2 & Ep2 & Er2 & Hvis2 & _)]; [left; split; [done|apply Hc2]|right].
  split.
  - rewrite Er2, list_lookup_insert_eq; [f_equal; unfold counted; simpl; unfold set_sr_refCount; simpl; f_equal; lia|].
    eapply lookup_lt_Some, (ca_region _ _ _ _ _ Hay1).
  - assert (forall a, pt_area (k_mem s1) (p_pgdir x) a -> k_mem s2 a = k_mem s1 a) as Hkeep2.
    { intros a Ha. apply Hout2. rewrite footprint_area. intros [Hy|(f & Hf & Hfa)].
      - apply (kept_area _ _ _ Hkeep) in Hy. assert (pt_footprint (k_mem s) l (p_pgdir x) a) as Hfa.
        { apply Hfoot, footprint_area. by left. }
        apply footprint_area in Hfa as [Hx|(f & Hf & Hfa)]; [by apply (Hsep a)|].
        by apply (area_not_free _ _ _ _ _ f (vc_pt _ _ _ _ _ _ Hcy) Hpgs Hy Hf).
      - by apply (area_not_free _ _ _ _ _ f (vc_pt _ _ _ _ _ _ Hc1) (ki_pages _ _ (vc_free _ _ _ _ _ _ Hc1)) Ha Hf). }
    intros b Hb. destruct Hax as [_ _ Hok _ _ Hrx _]. destruct Hay as [_ _ _ _ _ Hry _].
    destruct (visible_byte _ _ _ _ b Hok Hvis Hb) as (pa & Hpa & Htr).
    destruct (visible_byte _ _ _ _ b (ca_ok _ _ _ _ _ Hay1) Hvis2 Hb) as (pa' & Hpa' & Htr').
    simpl in Hpa'. simplify_eq. exists (pa + b mod PGSIZE). split; [|done].
    rewrite (kept_translate _ _ _ Hkeep2); [done|]. unfold PGSIZE in *. lia.
Qed.

(** ** Leaving a region *)

(** Storing into an entry that exists. *)
Lemma set_entry s i n cp l pgdir va a e : vm_ctx s i n cp l pgdir -> 0 <= va < 2 ^ 32 ->
  pte_addr (k_mem s) pgdir va = Some a -> let s' := set_k_mem (st32 (k_mem s) a e) s in
  vm_ctx s' i n cp l pgdir /\
  (forall v, 0 <= v < 2 ^ 32 -> pte_addr (k_mem s') pgdir v = pte_addr (k_mem s) pgdir v) /\
  (forall v, 0 <= v < 2 ^ 32 -> pte_val (k_mem s') pgdir v = if v / PGSIZE =? va / PGSIZE then u32 e else pte_val (k_mem s) pgdir v) /\
  (forall y, pt_area (k_mem s') pgdir y <-> pt_area (k_mem s) pgdir y) /\
  (forall y, ~ pt_area (k_mem s) pgdir y -> k_mem s' y = k_mem s y).
Proof.
  intros [Hrd Hfr Hpt] Hva Ha s'. simpl.
  pose proof (set_pte_pde _ _ _ _ _ _ e Hpt Hva Ha) as Hpde. pose proof (set_pte_tab _ _ _ _ _ _ e Hpt Hva Ha) as Htab.
  destruct (pte_slot _ _ _ _ 0 Hva Ha) as (Hp & _ & Hin & Hle).
  split; [|split; [|split; [|split]]].
  - split; [by apply (ready_ext s)| |exact (set_pte_inv _ _ _ _ _ _ _ Hpt Hva Ha)].
    destruct Hfr as [Hl Hd Hg]. split; try done. apply (linked_ext (k_mem s)); [done|].
    intros q Hq. simpl. rewrite Forall_forall in Hg.
    destruct (pt_tab _ _ _ _ Hpt (PDX va) (PDX_range va Hva) Hp) as (Ht & Hnin & _). apply ld32_st32_other.
    destruct (pages_disjoint (tab (k_mem s) pgdir (PDX va)) q) as [|];
      [apply Ht|by apply Hg|intros E; by rewrite E in Hnin| |]; unfold in_page, PGSIZE in *; lia.
  - intros v Hv. unfold pte_addr. by rewrite Hpde, Htab by (by apply PDX_range).
  - intros v Hv. destruct (Z.eqb_spec (v / PGSIZE) (va / PGSIZE)) as [E|E].
    + by rewrite (set_pte_same _ _ _ _ _ _ _ Hpt Hva Ha).
    + by rewrite (set_pte_other _ _ _ _ _ _ _ Hpt Hva Ha).
  - intros y. unfold pt_area. split; (intros [Hy|(d & Hd & Hpd & Hy)]; [by left|right; exists d]);
      [rewrite Hpde in Hpd by done; rewrite Htab in Hy by done|rewrite Hpde, Htab by done]; done.
  - intros y Hy. apply st32_other. destruct (decide (y < a \/ a + 4 <= y)); [done|exfalso]. apply Hy. right.
    exists (PDX va). unfold in_page in *. split; [by apply PDX_range|]. split; [done|lia].
Qed.

(** The loop that clears the entries of [cnt] pages from [va]. *)
Lemma unmap_loop_ok i n cp l pgdir cnt : forall s va, vm_ctx s i n cp l pgdir ->
  0 <= va -> va + Z.of_nat cnt * PGSIZE < 2 ^ 32 ->
  (forall v, va <= v < va + Z.of_nat cnt * PGSIZE -> is_Some (pte_addr (k_mem s) pgdir v)) ->
  exists s', unmap_loop cnt pgdir va s = Ret true s' /\ vm_ctx s' i n cp l pgdir /\
    (forall v, 0 <= v < 2 ^ 32 -> translate (k_mem s') pgdir v =
       if (va / PGSIZE <=? v / PGSIZE) && (v / PGSIZE <? va / PGSIZE + Z.of_nat cnt) then None else translate (k_mem s) pgdir v) /\
    (forall y, pt_area (k_mem s') pgdir y <-> pt_area (k_mem s) pgdir y) /\
    (forall y, ~ pt_area (k_mem s) pgdir y -> k_mem s' y = k_mem s y) /\
    s' = set_k_mem (k_mem s') s.
Proof.
  induction cnt as [|cnt IH]; intros s va Hc Hva Htop Haddr; cbn [unmap_loop].
  - exists s. split; [done|]. split; [done|]. split; [|split; [done|split; [done|by destruct s]]].
    intros v Hv. destruct (Z.leb_spec (va / PGSIZE) (v / PGSIZE)), (Z.ltb_spec (v / PGSIZE) (va / PGSIZE + Z.of_nat 0)); simpl; try done; lia.
  - rewrite (bind_Ret _ _ _ _ _ (walk_lookup s pgdir va)). destruct (Haddr va) as [a Ha]; [unfold PGSIZE in *; lia|]. rewrite Ha.
    assert (0 <= va < 2 ^ 32) as Hvr by (unfold PGSIZE in *; lia).
    pose proof (pte_addr_pos _ _ _ _ _ _ (vc_pt _ _ _ _ _ _ Hc) Hvr Ha). destruct (Z.eqb_spec a 0); [lia|].
    unfold st. rstep. destruct (set_entry s i n cp l pgdir va a 0 Hc Hvr Ha) as (Hc1 & Haddr1 & Hval1 & Harea1 & Hout1).
    set (s1 := set_k_mem (st32 (k_mem s) a 0) s) in *.
    destruct cnt as [|cnt].
    + cbn [unmap_loop]. exists s1. split; [done|]. split; [done|]. split; [|done]. intros v Hv. unfold translate. rewrite Hval1 by done.
      destruct (Z.eqb_spec (v / PGSIZE) (va / PGSIZE)) as [E|E].
      * rewrite E. destruct (Z.leb_spec (va / PGSIZE) (va / PGSIZE)), (Z.ltb_spec (va / PGSIZE) (va / PGSIZE + Z.of_nat 1)); simpl; done || lia.
      * destruct (Z.leb_spec (va / PGSIZE) (v / PGSIZE)), (Z.ltb_spec (v / PGSIZE) (va / PGSIZE + Z.of_nat 1)); simpl; done || lia.
    + rewrite u32_small by (unfold PGSIZE in *; lia). assert ((va + PGSIZE) / PGSIZE = va / PGSIZE + 1) as Edv by (unfold PGSIZE; dlia).
      destruct (IH s1 (va + PGSIZE) Hc1) as (s' & Hrun & Hc' & Htr & Harea & Hout & Es); try (unfold PGSIZE in *; lia).
      { intros v Hv. rewrite Haddr1 by (unfold PGSIZE in *; lia). apply Haddr. unfold PGSIZE in *. lia. }
      exists s'. split; [done|]. split; [done|]. split; [|split; [|split]].
      * intros v Hv. rewrite Htr, Edv by done. unfold translate at 1. rewrite Hval1 by done. fold (translate (k_mem s) pgdir v).
        destruct (Z.eqb_spec (v / PGSIZE) (va / PGSIZE)) as [E|E].
        -- rewrite E. repeat case_Z; simpl; try done; lia.
        -- repeat case_Z; simpl; try done; lia.
      * intros y. by rewrite Harea.
      * intros y Hy. rewrite Hout; [by apply Hout1|]. by rewrite Harea1.
      * rewrite Es. done.
Qed.

(** Giving back a page that no page table uses. *)
Definition loose (m : mem) (pgdir v : Z) : Prop := forall a, in_page v a -> pt_area m pgdir a -> False.
Lemma kfree_vm s i n cp l pgdir v : vm_ctx s i n cp l pgdir -> page_ok (k_end s) v -> v ∉ l -> loose (k_mem s) pgdir v ->
  exists s', kfree v s = Ret tt s' /\ vm_ctx s' i n cp (v :: l) pgdir /\
    (forall a, ~ in_page v a -> k_mem s' a = k_mem s a) /\ k_procs s' = k_procs s /\ k_regions s' = k_regions s /\ k_end s' = k_end s.
Proof.
  intros [Hrd Hfr Hpt] Hv Hnin Hloose. destruct (kfree_run s i n cp l v Hrd Hfr Hv Hnin) as (s' & Hrun & Hfr' & Hmem & Hrd' & _ & Hok).
  exists s'. split; [done|].
  assert (k_procs s' = k_procs s /\ k_regions s' = k_regions s /\ k_end s' = k_end s) as (E1 & E2 & E3).
  { split_and!; [apply (frame_kfree k_procs) in Hrun|apply (frame_kfree k_regions) in Hrun|apply (frame_kfree k_end) in Hrun]; try done; split; intros; reflexivity. }
  assert (forall a, ~ in_page v a -> k_mem s' a = k_mem s a) as Hmem' by (intros a Ha; apply Hmem; unfold in_page in Ha; lia).
  split; [|done]. split; [done|done|]. rewrite E3.
  assert (forall a, pt_area (k_mem s) pgdir a -> k_mem s' a = k_mem s a) as Hkeep.
  { intros a Ha. apply Hmem'. intros Hva. by apply (Hloose a). }
  specialize (Hok (pt_mem _ _ _ _ Hpt)).
  pose proof (kept_inv _ _ _ Hkeep _ _ l Hpt Hok ltac:(done)) as [H1 [H2 H2'] H3 H4].
  assert (forall q, in_page q q) as Hself by (intros q; unfold in_page, PGSIZE; lia). split; try done.
  - split; [done|]. intros [->|Hin]%elem_of_cons; [|done]. apply (Hloose v (Hself v)). left. apply Hself.
  - intros d Hd Hpd. destruct (H3 d Hd Hpd) as (H5 & H6 & H7). split; [done|]. split; [|done].
    intros [E|Hin]%elem_of_cons; [|done]. apply (Hloose v (Hself v)). apply (kept_area _ _ _ Hkeep). right. exists d.
    split; [done|]. split; [done|]. rewrite E. apply Hself.
Qed.

(** The loop that gives back the pages [ps] of the region. *)
Lemma free_loop_ok i n cp pgdir key ps : forall s l r pre post, vm_ctx s i n cp l pgdir -> k_regions s !! key = Some r ->
  sr_pages r = pre ++ ps ++ post -> NoDup (map P2V ps) ->
  (forall v, v ∈ map P2V ps -> page_ok (k_end s) v /\ v ∉ l /\ loose (k_mem s) pgdir v) ->
  exists s', free_loop (length ps) key (length pre) s = Ret tt s' /\ vm_ctx s' i n cp (rev (map P2V ps) ++ l) pgdir /\
    k_regions s' = <[key := set_sr_pages (pre ++ replicate (length ps) 0 ++ post) r]> (k_regions s) /\
    k_procs s' = k_procs s /\
    (forall a, (forall v, v ∈ map P2V ps -> ~ in_page v a) -> k_mem s' a = k_mem s a).
Proof.
  induction ps as [|pa ps IH]; intros s l r pre post Hc Hr Hpages Hnd Hps; cbn [length free_loop].
  - exists s. split; [done|]. split; [done|]. split; [|done]. rewrite list_insert_id; [done|].
    simpl in *. rewrite <- Hpages, Hr. by destruct r.
  - run (get_region_ok s key r Hr). assert (sr_pages r !! length pre = Some pa) as Hpa.
    { rewrite Hpages. by apply list_lookup_middle. }
    rewrite Hpa. cbn [deref]. rstep. destruct (Hps (P2V pa) ltac:(left)) as (Hok & Hnin & Hloose).
    destruct (kfree_vm s i n cp l pgdir (P2V pa) Hc Hok Hnin Hloose) as (s1 & Hk & Hc1 & Hmem1 & Ep1 & Er1 & Ee1). run Hk.
    assert (k_regions s1 !! key = Some r) as Hr1 by (by rewrite Er1).
    run (upd_region_ok s1 key r (fun r => set_sr_pages (<[length pre := 0]> (sr_pages r)) r) Hr1).
    set (r2 := set_sr_pages _ r). set (s2 := set_k_regions _ s1). simpl in Hnd. apply NoDup_cons in Hnd as [Hnd1 Hnd2].
    destruct (IH s2 (P2V pa :: l) r2 (pre ++ [0]) post) as (s' & Hrun & Hc' & Er' & Ep' & Hmem').
    + by apply (vm_ctx_ext s1).
    + apply list_lookup_insert_eq. rewrite Er1. by eapply lookup_lt_Some.
    + simpl. rewrite Hpages. replace (length pre) with (length pre + 0)%nat by lia. rewrite insert_app_r. simpl. by rewrite <- app_assoc.
    + done.
    + intros v Hv. destruct (Hps v ltac:(by right)) as (H1 & H2 & H3). split; [change (page_ok (k_end s1) v); by rewrite Ee1|].
      split; [intros [->|]%elem_of_cons; done|].
      intros a Ha Hpt. apply (H3 a Ha). revert Hpt. apply (kept_area (k_mem s) (k_mem s2)). intros y Hy. simpl. apply Hmem1.
      intros Hin. by apply (Hloose y).
    + rewrite length_app in Hrun. cbn [length] in Hrun. replace (length pre + 1)%nat with (S (length pre)) in Hrun by lia.
      exists s'. split; [done|]. split; [by rewrite <- app_assoc in *; simpl; rewrite <- app_assoc|]. split; [|split].
      * rewrite Er'. simpl. rewrite Er1, list_insert_insert_eq. rewrite <- !app_assoc. done.
      * by rewrite Ep'.
      * intros a Ha. rewrite Hmem'; [apply Hmem1, Ha; left|]. intros v Hv. apply Ha. by right.
Qed.

(** Process [p] holds region [key] at [va]; the pages of the region are [ps]. *)
Record holds_region (s : kstate) (l : list Z) (p key : nat) (x : proc) (r : sharedRegion_t) (va : Z) (ps post : list Z) : Prop := mk_holds {
  hr_proc : k_procs s !! p = Some x;
  hr_region : k_regions s !! key = Some r;
  hr_ref : p_shared x !! key = Some (mk_reference (Some key) va);
  hr_valid : sr_valid r <> 0;
  hr_refs : 1 <= sr_refCount r < 2 ^ 31;
  hr_pages : sr_pages r = ps ++ post;
  hr_count : sr_pageCount r = Z.of_nat (length ps);
  hr_va : 0 < va /\ va + sr_pageCount r * PGSIZE < 2 ^ 32;
  hr_mapped : forall v, va <= v < va + sr_pageCount r * PGSIZE -> is_Some (pte_addr (k_mem s) (p_pgdir x) v);
  hr_nodup : NoDup (map P2V ps);
  hr_loose : forall v, v ∈ map P2V ps -> page_ok (k_end s) v /\ v ∉ l /\ loose (k_mem s) (p_pgdir x) v }.
Definition detached (key : nat) (x : proc) : proc := set_p_shared (alter (fun _ => mk_reference None 0) key (p_shared x)) x.
(** The region without its last reference. *)
Definition dropped (r : sharedRegion_t) (ps post : list Z) : sharedRegion_t :=
  mk_region 0 0 0 (replicate (length ps) 0 ++ post).

(** The reference is counted off: the region stays, or its pages are freed. *)
Lemma count_off_ok s i n cp l pgdir key r ps post : vm_ctx s i n cp l pgdir -> k_regions s !! key = Some r ->
  sr_valid r <> 0 -> 1 <= sr_refCount r < 2 ^ 31 -> sr_pages r = ps ++ post -> sr_pageCount r = Z.of_nat (length ps) ->
  NoDup (map P2V ps) -> (forall v, v ∈ map P2V ps -> page_ok (k_end s) v /\ v ∉ l /\ loose (k_mem s) pgdir v) ->
  exists s' r', count_off key s = Ret tt s' /\ k_procs s' = k_procs s /\ k_regions s' = <[key := r']> (k_regions s) /\
    (forall a, pt_area (k_mem s) pgdir a -> k_mem s' a = k_mem s a) /\
    sr_refCount r' = sr_refCount r - 1 /\
    if sr_refCount r =? 1 then r' = dropped r ps post /\ vm_ctx s' i n cp (rev (map P2V ps) ++ l) pgdir
    else r' = set_sr_refCount (sr_refCount r - 1) r /\ vm_ctx s' i n cp l pgdir.
Proof.
  intros Hc Hr Hvalid Hrefs Hpages Hcount Hnd Hps. unfold count_off. run (get_region_ok s key r Hr).
  assert (truth (sr_valid r) = true) as -> by (by apply truth_true). cbv iota.
  run (upd_region_ok s key r (set_sr_refCount (s32 (sr_refCount r - 1))) Hr). rewrite s32_small by lia.
  set (r1 := set_sr_refCount (sr_refCount r - 1) r). set (s1 := set_k_regions _ s).
  assert (key < length (k_regions s))%nat as Hlt by (by eapply lookup_lt_Some).
  assert (k_regions s1 !! key = Some r1) as Hr1 by (by apply list_lookup_insert_eq).
  run (get_region_ok s1 key r1 Hr1). change (sr_refCount r1) with (sr_refCount r - 1).
  assert (vm_ctx s1 i n cp l pgdir) as Hc1 by (by apply (vm_ctx_ext s)).
  destruct (Z.eqb_spec (sr_refCount r) 1) as [E|E].
  - destruct (Z.eqb_spec (sr_refCount r - 1) 0); [|lia].
    destruct (pushcli_cpu s1 i n cp (vm_ctx_on_cpu _ _ _ _ _ _ Hc1)) as (s2 & Hpush & Hon2 & Hlk2 & Hsd2). run Hpush.
    pose proof (vm_ctx_cpu s1 s2 i n (n + 1) cp l _ Hc1 Hon2 Hlk2 Hsd2) as Hc2.
    pose proof (same_data_field k_mem s1 s2 Hsd2 ltac:(lock_free_tac)) as Em2. change (k_mem s1) with (k_mem s) in Em2.
    pose proof (same_data_field k_procs s1 s2 Hsd2 ltac:(lock_free_tac)) as Ep2. change (k_procs s1) with (k_procs s) in Ep2.
    pose proof (same_data_field k_regions s1 s2 Hsd2 ltac:(lock_free_tac)) as Er2.
    pose proof (same_data_field k_end s1 s2 Hsd2 ltac:(lock_free_tac)) as Ee2. change (k_end s1) with (k_end s) in Ee2.
    change (sr_pageCount r1) with (sr_pageCount r). rewrite Hcount, Nat2Z.id.
    assert (k_regions s2 !! key = Some r1) as Hr2 by (by rewrite Er2).
    destruct (free_loop_ok i (n + 1) cp pgdir key ps s2 l r1 [] post Hc2 Hr2 Hpages Hnd) as (s3 & Hrun & Hc3 & Er3 & Ep3 & Hmem3).
    { by rewrite Ee2, Em2. }
    run Hrun. cbn [app] in Er3. set (r3 := set_sr_pages _ r1) in Er3.
    assert (k_regions s3 !! key = Some r3) as Hr3 by (rewrite Er3, Er2; apply list_lookup_insert_eq; simpl; by rewrite length_insert).
    run (upd_region_ok s3 key r3 (set_sr_valid 0) Hr3). set (r4 := set_sr_valid 0 r3). set (s4 := set_k_regions _ s3).
    assert (k_regions s4 !! key = Some r4) as Hr4 by (simpl; apply list_lookup_insert_eq; rewrite Er3, Er2; simpl; by rewrite !length_insert).
    run (upd_region_ok s4 key r4 (set_sr_pageCount 0) Hr4). set (s5 := set_k_regions _ s4).
    assert (vm_ctx s5 i (n + 1) cp (rev (map P2V ps) ++ l) pgdir) as Hc5 by (by apply (vm_ctx_ext s3)).
    pose proof (vm_ctx_on_cpu _ _ _ _ _ _ Hc1) as (c0 & [_ _ Hn0 _] & Hn1 & _).
    destruct (popcli_cpu s5 i (n + 1) cp (vm_ctx_on_cpu _ _ _ _ _ _ Hc5) ltac:(lia)) as (s6 & Hpop & Hon6 & Hlk6 & Hsd6).
    replace (n + 1 - 1) with n in Hon6 by lia. pose proof (vm_ctx_cpu s5 s6 i (n + 1) n cp _ _ Hc5 Hon6 Hlk6 Hsd6) as Hc6.
    exists s6, (dropped r ps post). split; [done|]. rewrite (same_data_field k_procs s5 s6 Hsd6 ltac:(lock_free_tac)),
      (same_data_field k_regions s5 s6 Hsd6 ltac:(lock_free_tac)), (same_data_field k_mem s5 s6 Hsd6 ltac:(lock_free_tac)).
    split; [simpl; by rewrite Ep3|]. split; [|split; [|split; [simpl; lia|done]]].
    + simpl. rewrite !list_insert_insert_eq, Er3, Er2. simpl. rewrite !list_insert_insert_eq. f_equal. unfold dropped, r4, r3, r1. simpl.
      unfold set_sr_pageCount, set_sr_valid, set_sr_pages, set_sr_refCount. simpl. f_equal. lia.
    + intros a Ha. simpl. rewrite Hmem3, Em2; [done|]. intros v Hv Hin. by apply (proj2 (proj2 (Hps v Hv)) a).
  - destruct (Z.eqb_spec (sr_refCount r - 1) 0); [lia|]. exists s1, r1. split; [done|]. done.
Qed.

(** C21: [deallocProcSharedVM] takes the region out of the process's address space
    and nothing else, and counts the reference off.  While references remain the
    region stays; with the last one its pages, all of them and only them, go back
    to the page allocator and the region becomes invalid. *)
Theorem leave_correct s i n cp l p key x r va ps post : Z.of_nat key < MAX_SH_KEY ->
  vm_ctx s i n cp l (p_pgdir x) -> holds_region s l p key x r va ps post ->
  exists s', deallocProcSharedVM p (Z.of_nat key) s = Ret (sr_refCount r - 1) s' /\
    k_procs s' = <[p := detached key x]> (k_procs s) /\
    (forall v, 0 <= v < 2 ^ 32 -> translate (k_mem s') (p_pgdir x) v =
       if (va / PGSIZE <=? v / PGSIZE) && (v / PGSIZE <? va / PGSIZE + sr_pageCount r) then None
       else translate (k_mem s) (p_pgdir x) v) /\
    if sr_refCount r =? 1
    then k_regions s' = <[key := dropped r ps post]> (k_regions s) /\ vm_ctx s' i n cp (rev (map P2V ps) ++ l) (p_pgdir x)
    else k_regions s' = <[key := set_sr_refCount (sr_refCount r - 1) r]> (k_regions s) /\ vm_ctx s' i n cp l (p_pgdir x).
Proof.
  intros Hkey Hc [Hp Hr Href Hvalid Hrefs Hpages Hcount Hva Hmapped Hnd Hloose].
  unfold deallocProcSharedVM. destruct (Z.ltb_spec (Z.of_nat key) 0); [lia|]. destruct (Z.leb_spec MAX_SH_KEY (Z.of_nat key)); [lia|].
  cbn [orb]. rewrite Nat2Z.id. run (get_ref_ok s p x key _ Hp Href). cbn [sh_region sh_va].
  destruct (Z.eqb_spec va 0); [lia|]. run (get_region_ok s key r Hr). run (get_proc_ok s p x Hp).
  destruct (unmap_loop_ok i n cp l (p_pgdir x) (Z.to_nat (sr_pageCount r)) s va Hc) as (s1 & Hrun & Hc1 & Htr1 & Harea1 & Hout1 & Es1);
    rewrite ?Z2Nat.id in * by lia; try lia; [done|]. run Hrun. change (negb true) with false. cbv iota.
  assert (k_procs s1 !! p = Some x) as Hp1 by (by rewrite Es1). assert (k_regions s1 !! key = Some r) as Hr1 by (by rewrite Es1).
  run (upd_ref_ok s1 p x key (set_sh_region None) Hp1). set (x2 := set_p_shared _ x). set (s2 := set_k_procs _ s1).
  assert (p < length (k_procs s))%nat as Hlt by (by eapply lookup_lt_Some).
  assert (k_procs s2 !! p = Some x2) as Hp2 by (apply list_lookup_insert_eq; by rewrite Es1).
  run (upd_ref_ok s2 p x2 key (set_sh_va 0) Hp2). set (s3 := set_k_procs _ s2).
  assert (k_procs s3 = <[p := detached key x]> (k_procs s)) as Ep3.
  { simpl. rewrite list_insert_insert_eq. replace (k_procs s1) with (k_procs s) by (by rewrite Es1). f_equal. unfold detached, x2, set_p_shared. simpl.
    f_equal. by rewrite list_alter_alter_eq. }
  assert (vm_ctx s3 i n cp l (p_pgdir x)) as Hc3 by (by apply (vm_ctx_ext s1)).
  destruct (count_off_ok s3 i n cp l (p_pgdir x) key r ps post Hc3) as (s4 & r4 & Hoff & Ep4 & Er4 & Hmem4 & Hrc & Hcase); try done.
  { intros v Hv. destruct (Hloose v Hv) as (H1 & H2 & H3). simpl. rewrite Es1. simpl. split; [done|]. split; [done|].
    intros a Ha Ha'. apply (H3 a Ha). by apply Harea1. }
  run Hoff. assert (k_regions s3 = k_regions s) as Er3 by (simpl; by rewrite Es1). rewrite Er3 in Er4.
  assert (k_regions s4 !! key = Some r4) as Hr4 by (rewrite Er4; apply list_lookup_insert_eq; by eapply lookup_lt_Some).
  run (get_region_ok s4 key r4 Hr4). exists s4. rewrite Hrc. split; [done|]. split; [by rewrite Ep4|]. split.
  - intros v Hv. rewrite <- Htr1 by done. by apply (kept_translate (k_mem s1) (k_mem s4)).
  - rewrite Er4. destruct (sr_refCount r =? 1); destruct Hcase as [-> ?]; done.
Qed.

(** ** A concrete machine: two processes, a region of one page, two free pages *)
Definition proc_at (pgdir : Z) : proc := set_p_shaddr KERNBASE (set_p_pgdir pgdir proc0).
Definition region1 : sharedRegion_t := mk_region 1 0 1 (0x300000 :: replicate 63 0).
Definition duo : kstate :=
  set_k_regions (<[5%nat := region1]> (k_regions two_pages))
    (set_k_procs (proc_at 0x80202000 :: proc_at 0x80203000 :: k_procs two_pages) two_pages).
Lemma duo_pde pgdir d : 0x80202000 <= pgdir -> 0 <= d < 1024 -> pde (k_mem duo) pgdir d = 0.
Proof. intros Hp Hd. unfold pde. simpl. rewrite !ld32_st32_other by lia. done. Qed.
Lemma duo_ctx pgdir : page_ok (k_end duo) pgdir -> 0x80202000 <= pgdir -> vm_ctx duo 0 0 None [0x80200000; 0x80201000] pgdir.
Proof.
  intros Hok Hp. split; [apply (ready_ext two_pages); [done..|apply two_pages_ready]| |].
  - destruct two_pages_inv as [H1 H2 H3]. by split.
  - split.
    + apply st32_ok, st32_ok. intros a. lia.
    + split; [done|]. rewrite !not_elem_of_cons. repeat split; try lia. apply not_elem_of_nil.
    + intros d Hd. by rewrite duo_pde.
    + intros d d' Hd _. by rewrite duo_pde.
Qed.
Lemma duo_attach p pgdir : 0x80202000 <= pgdir -> k_procs duo !! p = Some (proc_at pgdir) -> can_attach duo p 5 (proc_at pgdir) region1.
Proof.
  intros Hpg Hp. split; [done|done| |by eexists|done|split; done|].
  - split; [|simpl; lia|simpl; lia]. intros [|j] pa Hj; cbn [sr_pages region1] in Hj; [injection Hj as <-; by split|]. change (replicate 63 0 !! j = Some pa) in Hj.
    apply lookup_replicate in Hj as [-> _]. split; [done|lia].
  - intros va Hva. apply translate_None. unfold pte_val, pte_addr. cbn [p_shaddr proc_at set_p_shaddr sr_pageCount region1] in Hva.
    rewrite duo_pde; [done|done|]. apply PDX_range. unfold KERNBASE, PGSIZE in *. lia.
Qed.
Lemma shared_memory_agrees_witness : exists va s1, mapSharedRegion 0 5 duo = Ret va s1 /\
  (va = ERR /\ kmem_inv s1 [] \/
   exists vb s2, mapSharedRegion 1 5 s1 = Ret vb s2 /\
     (vb = ERR /\ kmem_inv s2 [] \/
      k_regions s2 !! 5%nat = Some (set_sr_refCount 2 region1) /\
      forall b, 0 <= b < 1 * PGSIZE -> exists pa,
        translate (k_mem s2) 0x80202000 (va + b) = Some pa /\ translate (k_mem s2) 0x80203000 (vb + b) = Some pa)).
Proof.
  apply (shared_memory_agrees duo 0 0 None [0x80200000; 0x80201000] 0 1 5 (proc_at 0x80202000) (proc_at 0x80203000) region1).
  - done.
  - apply duo_ctx; [by repeat split|]. simpl. lia.
  - apply duo_ctx; [by repeat split|]. simpl. lia.
  - simpl. intros a [H1|(d & Hd & Hp & _)]; [|by rewrite duo_pde in Hp by lia].
    intros [H2|(d & Hd & Hp & _)]; [|by rewrite duo_pde in Hp by lia]. unfold in_page, PGSIZE in *. lia.
  - apply duo_attach; [lia|done].
  - apply duo_attach; [lia|done].
  - simpl. lia.
Defined.

(** The first process holds the region, at the topmost page below the kernel. *)
Definition holder : kstate :=
  set_k_mem (st32 (k_mem duo) (0x80202000 + 4 * 511) 0x204007)
   (set_k_regions (<[5%nat := set_sr_refCount 1 region1]> (k_regions duo))
    (set_k_procs (<[0%nat := attached 5 (KERNBASE - PGSIZE) (proc_at 0x80202000)]> (k_procs duo)) duo)).
Lemma holder_pde d : 0 <= d < 1024 -> pde (k_mem holder) 0x80202000 d = if d =? 511 then 0x204007 else 0.
Proof.
  intros Hd. unfold pde. simpl. destruct (Z.eqb_spec d 511) as [->|Hne]; [by rewrite ld32_st32_same|].
  rewrite ld32_st32_other by lia. apply (duo_pde 0x80202000 d); lia.
Qed.
Lemma holder_tab d : 0 <= d < 1024 -> present (pde (k_mem holder) 0x80202000 d) = true -> d = 511 /\ tab (k_mem holder) 0x80202000 d = 0x80204000.
Proof.
  intros Hd. unfold tab. rewrite holder_pde by done. destruct (Z.eqb_spec d 511); [|done]. intros _. split; [done|]. by vm_compute.
Qed.
Lemma holder_ctx : vm_ctx holder 0 0 None [0x80200000; 0x80201000] 0x80202000.
Proof.
  assert (vm_ctx duo 0 0 None [0x80200000; 0x80201000] 0x80202000) as [Hr [Hl Hd Hg] [Hm _ _ _]].
  { apply duo_ctx; [by repeat split|lia]. }
  split; [by apply (ready_ext duo)| |].
  - split; [|done|done]. apply (linked_ext (k_mem duo)); [done|]. intros q Hq. simpl. apply ld32_st32_other.
    rewrite !elem_of_cons, elem_of_nil in Hq. lia.
  - split.
    + by apply st32_ok.
    + split; [by repeat split|]. rewrite !not_elem_of_cons. repeat split; try lia. apply not_elem_of_nil.
    + intros d Hd' Hp. destruct (holder_tab d Hd' Hp) as [_ ->]. split; [by repeat split|]. split; [|lia].
      rewrite !not_elem_of_cons. repeat split; try lia. apply not_elem_of_nil.
    + intros d d' Hd' Hd'' Hp Hp' Hne. destruct (holder_tab d Hd' Hp), (holder_tab d' Hd'' Hp'). lia.
Qed.
Lemma holder_holds : holds_region holder [0x80200000; 0x80201000] 0 5 (attached 5 (KERNBASE - PGSIZE) (proc_at 0x80202000))
  (set_sr_refCount 1 region1) (KERNBASE - PGSIZE) [0x300000] (replicate 63 0).
Proof.
  split; try done.
  - intros v Hv. unfold pte_addr. cbn [p_pgdir attached set_p_shared set_p_shaddr proc_at set_p_pgdir].
    assert (PDX v = 511) as -> by (unfold KERNBASE, PGSIZE in Hv; simpl in Hv; rewrite PDX_eq by lia; dlia).
    rewrite holder_pde by lia. simpl. done.
  - repeat constructor. set_solver.
  - intros v ->%list_elem_of_singleton. split; [by repeat split|]. split.
    + rewrite !not_elem_of_cons. repeat split; try (vm_compute; lia). apply not_elem_of_nil.
    + intros a Ha Hpt. change (P2V 0x300000) with 0x80300000 in Ha. cbn [p_pgdir attached set_p_shared set_p_shaddr proc_at set_p_pgdir] in Hpt.
      destruct Hpt as [Hin|(d & Hd & Hp & Hin)]; [|destruct (holder_tab d Hd Hp) as [_ E]; rewrite E in Hin]; unfold in_page, PGSIZE in *; lia.
Qed.
Lemma leave_correct_witness : exists s', deallocProcSharedVM 0 5 holder = Ret 0 s' /\
  vm_ctx s' 0 0 None [0x80300000; 0x80200000; 0x80201000] 0x80202000.
Proof.
  destruct (leave_correct holder 0 0 None _ 0 5 (attached 5 (KERNBASE - PGSIZE) (proc_at 0x80202000)) _ _ _ _ eq_refl holder_ctx holder_holds) as (s' & Hrun & _ & _ & _ & Hc).
  exists s'. exact (conj Hrun Hc).
Defined.
End Hw3Spec.
