(* ===== verification/Hw3Sys.v ===== *)
(** * The system calls of HW3

    [HW3/xv6-src/proc.c], [sysproc.c] and [syscall.c]: the functions whose text is that
    of HW2 but which call one that HW3 has changed ([allocproc], [allocuvm],
    [growproc], [wait]), and the table of system calls with the two new ones. *)

From S2P Require Import Prelude Mmu Bytes Mem State Spinlock Printk Critical Kalloc Vm VmSpec Umem Sched Sleeplock Disk Bio Log Inode Console Fs Pipe File ProcLife Exec Sysfile Trap Shared SharedSpec.

Module Hw3Sys.
Import Hw3.

Section Driver.
Context {D : DiskDriver}.

Definition userinit : K unit := userinit_with allocproc.
Definition fork : K Z := fork_with allocproc.
Definition exec : list Z -> list (list Z) -> K Z := exec_with allocuvm.

Definition sys_fork : K Z := fork.
Definition sys_wait : K Z := wait.
Definition sys_exec : K Z := sys_exec_with exec.
Definition sys_sbrk : K Z :=
  n <- argint 0 ;;
  match n with
  | None => ret (-1)
  | Some n =>
      cur <- curproc ;; p <- get_proc cur ;;
      let addr := s32 (p_sz p) in
      r <- growproc n ;;
      if r <? 0 then ret (-1) else ret addr
  end.

(** ** [HW3/xv6-src/syscall.c] *)
Definition syscalls : list (K Z) :=
  [ sys_fork; sys_exit; sys_wait; sys_pipe; sys_read; sys_kill; sys_exec; sys_fstat; sys_chdir; sys_dup; sys_getpid;
    sys_sbrk; sys_sleep; sys_uptime; sys_open; sys_write; sys_mknod; sys_unlink; sys_link; sys_mkdir; sys_close;
    sys_GetSharedPage; sys_FreeSharedPage ].
(** Entry [num] of the table, whose index 0 is null. *)
Definition syscall_entry (num : Z) : option (K Z) :=
  if (0 <? num) && (num <? 24) then syscalls !! Z.to_nat (num - 1) else None.
Definition syscall : K unit :=
  cur <- curproc ;; p <- get_proc cur ;;
  let num := s32 (tf_eax (p_tf p)) in
  match syscall_entry num with
  | Some f => r <- f ;; upd_proc cur (set_eax r)
  | None =>
      cprintf (bytes "%d %s: unknown sys call %d" ++ [NL]) [PInt (p_pid p); PStr (Some (cstr (p_name p))); PInt num] ;;
      upd_proc cur (set_eax (-1))
  end.
End Driver.

(** ** Shared pages and [freevm]

    [exec] frees the page table of the old image with [freevm], which gives every page
    below the kernel back, also those of a region that the process holds. *)
Import Hw3Spec.
Definition mapped : kstate := set_k_mem (st32 (k_mem holder) (0x80204000 + 4 * 1023) 0x300007) holder.
Example freevm_frees_shared : translate (k_mem mapped) 0x80202000 (KERNBASE - PGSIZE) = Some 0x300000 /\
  match freevm 0x80202000 mapped with
  | Ret _ s =>
      let first := km_freelist (k_kmem s) in
      let second := ld32 (k_mem s) first in
      first = 0x80202000 /\ second = 0x80204000 /\ ld32 (k_mem s) second = P2V 0x300000 /\
      (fun r => (sr_valid r, sr_refCount r)) <$> (k_regions s !! 5%nat) = Some (1, 1)
  | _ => False
  end.
Proof. split; [reflexivity|]. vm_compute. repeat split. Qed.
End Hw3Sys.
