(* ===== verification/Shlex.v ===== *)
(** * The lexical layer of the shells

    What [sh.c] and [hwsh.c] share: skipping white space, [peek], the scanning
    of a word.  A [char *] into the command line, whose end is [es], is the rest
    of the line from there: [s < es] is "not empty", and the character at [es]
    is NUL.  The line has no NUL inside, since [es] is at [strlen(s)]. *)

From S2P Require Import Prelude.

Definition ptr : Type := list Z.
Definition at_ptr (s : ptr) : Z := hd 0 s.
(** [strchr(set, c)] for a [c] that is not NUL, as a truth value. *)
Definition strchr (set : list Z) (c : Z) : bool := existsb (Z.eqb c) set.
#[global] Arguments strchr : simpl never.
(** [" \t\r\n\v"] *)
Definition whitespace : list Z := [32; 9; 13; 10; 11].

(** [while(s < es && strchr(whitespace, *s)) s++;] *)
Fixpoint skip_ws (s : ptr) : ptr :=
  match s with
  | [] => []
  | c :: s' => if strchr whitespace c then skip_ws s' else s
  end.
(** [while(s < es && !strchr(whitespace, *s) && !strchr(symbols, *s)) s++;] *)
Fixpoint skip_word (symbols : list Z) (s : ptr) : ptr :=
  match s with
  | [] => []
  | c :: s' => if negb (strchr whitespace c) && negb (strchr symbols c) then skip_word symbols s' else s
  end.
(** The value of [peek] and the pointer it leaves. *)
Definition peek (s : ptr) (toks : list Z) : bool * ptr :=
  let s := skip_ws s in (truth (at_ptr s) && strchr toks (at_ptr s), s).
(** The characters from [q] up to [eq]. *)
Definition text (q eq : ptr) : list Z := take (length q - length eq) q.

(** The string in memory whose bytes are [l]: up to the first NUL. *)
Fixpoint c_string (l : list Z) : list Z :=
  match l with [] => [] | c :: l' => if c =? 0 then [] else c :: c_string l' end.

(* ------------------------------------------------------------------ *)
(** ** Lemmas *)

Lemma c_string_prefix t l : 0 ∉ t -> (l = [] \/ exists r, l = 0 :: r) -> c_string (t ++ l) = t.
Proof.
  intros H Hl. induction t as [|c t IH]; simpl; [by destruct Hl as [->|[r ->]]|].
  apply not_elem_of_cons in H as [Hc Ht]. assert (c <> 0) as ->%Z.eqb_neq by done. by rewrite IH.
Qed.

Lemma strchr_In set c : strchr set c = true <-> c ∈ set.
Proof.
  unfold strchr. rewrite existsb_exists. split.
  - intros (x & Hx & E%Z.eqb_eq). subst. by apply list_elem_of_In.
  - intros H. exists c. split; [by apply list_elem_of_In|apply Z.eqb_refl].
Qed.
Lemma strchr_nonzero set c : 0 ∉ set -> strchr set c = true -> truth c = true.
Proof. intros H Hc%strchr_In. apply truth_true. by intros ->. Qed.

Lemma skip_ws_app s : exists w, s = w ++ skip_ws s /\ Forall (fun c => strchr whitespace c = true) w.
Proof.
  induction s as [|c s (w & E & HF)]; [exists []; split; [done|constructor]|]. simpl.
  destruct (strchr whitespace c) eqn:Hc; [|exists []; split; [done|constructor]].
  exists (c :: w). split; [simpl; by rewrite <- E|by constructor].
Qed.
Lemma skip_ws_idem s : skip_ws (skip_ws s) = skip_ws s.
Proof. induction s as [|c s IH]; simpl; [done|]. destruct (strchr whitespace c) eqn:E; simpl; [done|by rewrite E]. Qed.
Lemma skip_ws_head s c r : skip_ws s = c :: r -> strchr whitespace c = false.
Proof. intros H. pose proof (skip_ws_idem s) as Hi. rewrite H in Hi. simpl in Hi. destruct (strchr whitespace c); [|done].
  exfalso. apply (f_equal length) in Hi. destruct (skip_ws_app r) as (w & E & _). apply (f_equal length) in E.
  rewrite length_app in E. simpl in Hi. lia.
Qed.
Lemma skip_ws_length s : (length (skip_ws s) <= length s)%nat.
Proof. destruct (skip_ws_app s) as (w & E & _). rewrite E at 2. rewrite length_app. lia. Qed.
Lemma skip_ws_sub s c : c ∈ skip_ws s -> c ∈ s.
Proof. destruct (skip_ws_app s) as (w & E & _). rewrite E at 2. set_solver. Qed.

(** A word and what follows it. *)
Lemma skip_word_app symbols s :
  exists w, s = w ++ skip_word symbols s /\ Forall (fun c => strchr whitespace c = false /\ strchr symbols c = false) w /\
    (forall c r, skip_word symbols s = c :: r -> strchr whitespace c = true \/ strchr symbols c = true).
Proof.
  induction s as [|c s (w & E & HF & Hn)]; [exists []; split; [done|]; split; [constructor|done]|]. simpl.
  destruct (strchr whitespace c) eqn:Hc, (strchr symbols c) eqn:Hs; simpl;
    try (exists []; split; [done|]; split; [constructor|]; intros c' r [= <- <-]; auto; done).
  exists (c :: w). split; [simpl; by rewrite <- E|]. split; [by constructor|done].
Qed.
Lemma text_word w r : text (w ++ r) r = w.
Proof. unfold text. rewrite length_app. replace (length w + length r - length r)%nat with (length w) by lia. apply take_app_length. Qed.
