(* ===== verification/Hwsh.v ===== *)
(** * The shell of HW1

    [HW1/hwsh.c]: commands separated by [;] (sequence) and [&] (parallel).  The
    static variables [invalid] and [expectingParallel] are part of the parser's
    state, and a pointer the code returns without having assigned it is the
    command [Undef]. *)

From S2P Require Import Prelude Shlex.

Module Hwsh.

Definition MAXARGS : nat := 10.
(** ["<|>;&"] *)
Definition symbols : list Z := [60; 124; 62; 59; 38].
Definition SEMI : Z := 59.
Definition AMP : Z := 38.

(** [struct cmd]: [Exec] is type [' '], [Seq] [';'], [Par] ['&'], [Invalid] the
    dummy of type -1. *)
Inductive cmd :=
| Exec (argv : list (list Z))
| Seq (c next : cmd)
| Par (c next : cmd)
| Invalid (argv : list (list Z))
| Undef.

Record parser := mk_parser { ps : ptr; invalid : bool; expectingParallel : bool }.
Definition P (A : Type) : Type := M parser A.
Definition set_ps (v : ptr) : P unit := modify (fun s => mk_parser v (invalid s) (expectingParallel s)).
Definition set_invalid (v : bool) : P unit := modify (fun s => mk_parser (ps s) v (expectingParallel s)).
Definition set_expecting (v : bool) : P unit := modify (fun s => mk_parser (ps s) (invalid s) v).

(** [gettoken]: the token, [q], [eq] and the pointer after it. *)
Definition gettoken_at (s : ptr) : Z * ptr * ptr * ptr :=
  let q := skip_ws s in
  let c := at_ptr q in
  let '(r, eq) :=
    if c =? 0 then (c, q)
    else if (c =? SEMI) || (c =? AMP) then (c, tl q)
    else (97, skip_word symbols q) in
  (r, q, eq, skip_ws eq).
Definition gettoken : P (Z * ptr * ptr) :=
  s <- gets ps ;;
  let '(r, q, eq, s') := gettoken_at s in
  set_ps s' ;; ret (r, q, eq).
Definition peek (toks : list Z) : P bool :=
  s <- gets ps ;;
  let '(b, s') := Shlex.peek s toks in
  set_ps s' ;; ret b.

(** [strncpy] of [n] bytes into a block of [n + 1], and a NUL. *)
Definition mkcopy (s es : ptr) : list Z := text s es.

Definition execcmd : list (list Z) := [].
Definition parallelcmd (set_cmd next : cmd) : cmd := Par set_cmd next.
Definition sequencecmd (set_cmd next : cmd) : cmd := Seq set_cmd next.

(** The loop of [parseexec]: it ends after [MAXARGS] words at the latest. *)
Fixpoint parseexec_loop (fuel : nat) (argv : list (list Z)) : P (list (list Z)) :=
  match fuel with
  | O => nofuel
  | S f =>
      stop <- peek [SEMI; AMP] ;;
      if (stop : bool) then ret argv else
      '(tok, q, eq) <- gettoken ;;
      if tok =? 0 then ret argv else
      if negb (tok =? 97) then panic "syntax error" else
      let argv := argv ++ [mkcopy q eq] in
      if decide (MAXARGS <= length argv)%nat then panic "too many args" else
      parseexec_loop f argv
  end.
Definition parseexec : P cmd :=
  argv <- parseexec_loop MAXARGS execcmd ;;
  ret (Exec argv).

Fixpoint parseparallel (fuel : nat) : P cmd :=
  match fuel with
  | O => nofuel
  | S f =>
      st <- gets id ;;
      if expectingParallel st && (at_ptr (ps st) =? 0) then
        set_invalid true ;; set_expecting false ;; ret Undef
      else
      cmd <- parseexec ;;
      hasSymbol <- peek [AMP] ;;
      st <- gets id ;;
      if (negb (invalid st) && hasSymbol) || expectingParallel st then
        let e := hasSymbol || negb (expectingParallel st) in
        set_expecting e ;;
        bad <- (if (e : bool) then
                  gettoken ;;
                  semi <- peek [SEMI] ;;
                  if (semi : bool) then set_expecting false ;; set_invalid true ;; ret true else ret false
                else ret false) ;;
        if (bad : bool) then ret cmd else
        next <- parseparallel f ;;
        ret (parallelcmd cmd next)
      else ret cmd
  end.

(** [parseline] calls [parsesequence] and is called by it. *)
Definition parseline_with (parsesequence : P cmd) : P cmd :=
  v <- peek [AMP] ;;
  set_invalid v ;;
  if (v : bool) then ret Undef else parsesequence.
Fixpoint parsesequence (fuel : nat) : P cmd :=
  match fuel with
  | O => nofuel
  | S f =>
      s <- gets ps ;;
      cmd <- parseparallel (2 * length s + 2) ;;
      inv <- gets invalid ;;
      semi <- (if (inv : bool) then ret false else peek [SEMI]) ;;
      if (semi : bool) then
        gettoken ;;
        next <- parseline_with (parsesequence f) ;;
        ret (sequencecmd cmd next)
      else ret cmd
  end.
Definition parseline : P cmd :=
  s <- gets ps ;; parseline_with (parsesequence (S (length s))).

Definition parse_dummy : P cmd :=
  set_invalid false ;;
  argv <- parseexec_loop MAXARGS execcmd ;;
  ret (Invalid argv).
(** [parsecmd], in the fresh child of [main]: both statics are zero. *)
Definition parsecmd_body : P cmd :=
  cmd <- parseline ;;
  inv <- gets invalid ;;
  if (inv : bool) then parse_dummy else
  peek [] ;;
  s <- gets ps ;;
  match s with [] => ret cmd | _ => panic "leftovers" end.
Definition parsecmd (line : list Z) : out parser cmd := parsecmd_body (mk_parser line false false).

(** ** Running commands

    What a process does from its first system call on.  [Execvp] goes on only if
    it fails, [Fork] has the child and the parent, [WaitAll] is the loop that
    calls [wait] until it returns -1, [Crash] a memory access that has no
    meaning. *)
Inductive act :=
| Exit (code : Z)
| Execvp (argv : list (list Z)) (failed : act)
| Print (msg : list Z) (k : act)
| Fork (child parent : act)
| Wait (k : act)
| WaitAll (k : act)
| Crash
| Running.

(** [runcmd] of a command that is not null.  The loop of the case ['&'] casts
    each [next] to [struct parallelcmd *]: a [Seq] node has the same fields, the
    fields of an empty [Exec] are null ([runcmd(0)] exits, and the loop ends),
    any other node is not a [parallelcmd]. *)
Fixpoint runcmd (c : cmd) : act :=
  match c with
  | Exec [] => Crash
  | Exec argv => Execvp argv (Print (nth 0 argv [] ++ bytes ": Command not found" ++ [NL]) (Exit 0))
  | Seq c next => Fork (runcmd c) (Wait (runcmd next))
  | Par c next =>
      Fork (runcmd c)
        ((fix loop (prcmd : cmd) : act :=
            match prcmd with
            | Par c next | Seq c next => Fork (runcmd c) (loop next)
            | Exec [] => Fork (Exit 0) (WaitAll (Exit 0))
            | _ => Crash
            end) next)
  | Invalid _ => Print (bytes "Invalid Syntax" ++ [NL]) (Exit (-1))
  | Undef => Crash
  end.

(** The child of [main] on one line. *)
Definition run_line (line : list Z) : act :=
  match parsecmd line with
  | Ret c _ => runcmd c
  | Panic msg => Print (bytes msg ++ [NL]) (Exit (-1))
  | _ => Crash
  end.
(** [main]: [input] are the lines [fgets] delivers, at the end of the file none.
    The result of [getcmd] is not used.  [fuel] rounds are observed. *)
Definition getcmd (input : list (list Z)) : list Z * Z :=
  let buf := hd [] input in (buf, match buf with [] => -1 | _ => 0 end).
Fixpoint main_loop (fuel : nat) (input : list (list Z)) : act :=
  match fuel with
  | O => Running
  | S f => let '(buf, _) := getcmd input in Fork (run_line buf) (Wait (main_loop f (tl input)))
  end.

(* ------------------------------------------------------------------ *)
(** ** The grammar, independently of the parser *)

Inductive tok := Word (w : list Z) | Semi | Amp.
Definition flush (w : list Z) : list tok := match w with [] => [] | _ => [Word w] end.
(** The tokens of a line; [w] is the word being read. *)
Fixpoint lex (w : list Z) (s : ptr) : list tok :=
  match s with
  | [] => flush w
  | c :: s' =>
      if strchr whitespace c then flush w ++ lex [] s'
      else if c =? SEMI then flush w ++ Semi :: lex [] s'
      else if c =? AMP then flush w ++ Amp :: lex [] s'
      else lex (w ++ [c]) s'
  end.
(** A line is a list of groups separated by [;], a group a list of commands
    separated by [&], a command a list of words; none of the lists of groups and
    commands is empty. *)
Definition command : Type := list (list Z).
Fixpoint groups (ts : list tok) : list (list command) :=
  match ts with
  | [] => [[[]]]
  | Word w :: ts' => match groups ts' with (c :: cs) :: gs => ((w :: c) :: cs) :: gs | gs => gs end
  | Amp :: ts' => match groups ts' with g :: gs => ([] :: g) :: gs | gs => gs end
  | Semi :: ts' => [[]] :: groups ts'
  end.
(** A group with [&] must begin and end with a command that is not empty. *)
Definition nonempty {A} (l : list A) : bool := match l with [] => false | _ => true end.
Definition group_ok (g : list command) : bool :=
  match g with
  | c :: ((_ :: _) as cs) => nonempty c && nonempty (List.last cs [])
  | _ => true
  end.
(** The tree of a group: the list of parallel commands ends with an empty
    [Exec]. *)
Fixpoint ast_tail (cs : list command) : cmd :=
  match cs with [] => Exec [] | c :: cs' => Par (Exec c) (ast_tail cs') end.
Definition ast_group (g : list command) : cmd :=
  match g with [] => Exec [] | [c] => Exec c | _ => ast_tail g end.
Fixpoint ast_line (gs : list (list command)) : cmd :=
  match gs with [] => Exec [] | [g] => ast_group g | g :: gs' => Seq (ast_group g) (ast_line gs') end.

(** Lines without NUL and without the characters [<], [|], [>], which are in
    [symbols] but have no token. *)
Definition plain (s : ptr) : Prop := forall c, c ∈ s -> c ∉ [0; 60; 124; 62].

(* ------------------------------------------------------------------ *)
(** ** Tokens *)

Lemma plain_cons c s : plain (c :: s) <-> c ∉ [0; 60; 124; 62] /\ plain s.
Proof. unfold plain. split; [intros H; split; [apply H; by left|intros x Hx; apply H; by right]|]. intros [H1 H2] x [->|Hx]%elem_of_cons; auto. Qed.
Lemma plain_sub s s' : (forall c, c ∈ s' -> c ∈ s) -> plain s -> plain s'.
Proof. intros H Hp c Hc. by apply Hp, H. Qed.

Lemma lex_skip_ws s : lex [] (skip_ws s) = lex [] s.
Proof. induction s as [|c s IH]; simpl; [done|]. destruct (strchr whitespace c) eqn:E; simpl; [done|by rewrite E]. Qed.
Lemma lex_word w : forall u s, Forall (fun c => strchr whitespace c = false /\ strchr symbols c = false) w ->
  (forall c r, s = c :: r -> strchr whitespace c = true \/ strchr symbols c = true) -> plain s -> u ++ w <> [] ->
  lex u (w ++ s) = Word (u ++ w) :: lex [] s.
Proof.
  induction w as [|c w IH]; intros u s HF Hs Hp Hne; simpl.
  - rewrite app_nil_r in *. assert (flush u = [Word u]) as Ef by (by destruct u).
    destruct s as [|c r]; simpl; [done|]. apply plain_cons in Hp as [Hc _]. rewrite Ef.
    destruct (strchr whitespace c) eqn:Ew; [done|]. destruct (Z.eqb_spec c SEMI) as [->|]; [done|].
    destruct (Z.eqb_spec c AMP) as [->|]; [done|]. exfalso. destruct (Hs c r eq_refl) as [|H]; [congruence|].
    apply strchr_In in H. unfold symbols, SEMI, AMP in *. set_solver.
  - inversion HF as [|? ? [H1 H2] HF']; subst. rewrite H1.
    assert (c <> SEMI /\ c <> AMP) as [N1 N2].
    { split; intros ->; by vm_compute in H2. }
    apply Z.eqb_neq in N1, N2. rewrite N1, N2. rewrite IH; [by rewrite <- app_assoc|done|done|done|by destruct u].
Qed.

(** The first token of a line, and [gettoken]. *)
Lemma gettoken_lex s :
  plain s ->
  exists q eq s', skip_ws s' = s' /\ plain s' /\ (length s' <= length s)%nat /\
  match lex [] s with
  | [] => gettoken_at s = (0, q, eq, s')
  | Word w :: ts => gettoken_at s = (97, q, eq, s') /\ mkcopy q eq = w /\ lex [] s' = ts /\ (length s' < length s)%nat
  | Semi :: ts => gettoken_at s = (SEMI, q, eq, s') /\ lex [] s' = ts /\ (length s' < length s)%nat
  | Amp :: ts => gettoken_at s = (AMP, q, eq, s') /\ lex [] s' = ts /\ (length s' < length s)%nat
  end.
Proof.
  intros Hp. pose proof (skip_ws_length s) as Hl. assert (plain (skip_ws s)) as Hq by (by eapply plain_sub; [apply skip_ws_sub|]).
  rewrite <- lex_skip_ws. unfold gettoken_at. cbv zeta. destruct (skip_ws s) as [|c q] eqn:Eq; simpl.
  { exists [], [], []. split; [done|]. split; [intros ? []%not_elem_of_nil|]. split; [lia|done]. }
  pose proof (skip_ws_head _ _ _ Eq) as Hw. rewrite Hw. apply plain_cons in Hq as [Hc Hq].
  assert (c <> 0) as H0 by set_solver. apply Z.eqb_neq in H0. rewrite H0. simpl in Hl.
  pose proof (skip_ws_length q) as Hlq.
  destruct (Z.eqb_spec c SEMI) as [->|N1]; [|destruct (Z.eqb_spec c AMP) as [->|N2]]; simpl.
  1-2: eexists _, _, (skip_ws q); split; [apply skip_ws_idem|]; split; [by eapply plain_sub; [apply skip_ws_sub|]|]; split; [lia|];
    split; [done|]; split; [apply lex_skip_ws|lia].
  destruct (skip_word_app symbols (c :: q)) as (w & E & HF & Hn). set (r := skip_word symbols (c :: q)) in *.
  assert (strchr symbols c = false) as Hs.
  { destruct (strchr symbols c) eqn:E'; [|done]. apply strchr_In in E'. unfold symbols, SEMI, AMP in *. set_solver. }
  assert (w <> []) as Hne.
  { intros ->. simpl in E. destruct (Hn c q); [by rewrite E| |]; congruence. }
  assert (plain r) as Hr. { intros x Hx. assert (x ∈ c :: q) as [->|]%elem_of_cons by (rewrite E; set_solver); auto. }
  assert (lex [c] q = Word w :: lex [] r) as ->.
  { pose proof (lex_word w [] r HF Hn Hr Hne) as Hlex. rewrite <- E in Hlex. simpl in Hlex. rewrite Hw in Hlex.
    apply Z.eqb_neq in N1, N2. rewrite N1, N2 in Hlex. exact Hlex. }
  pose proof (skip_ws_length r). assert (S (length q) = length w + length r)%nat by (apply (f_equal length) in E; rewrite length_app in E; done).
  assert (0 < length w)%nat by (destruct w; [done|simpl; lia]).
  exists (c :: q), r, (skip_ws r). split; [apply skip_ws_idem|]. split; [by eapply plain_sub; [apply skip_ws_sub|]|].
  split; [lia|]. split; [unfold r; simpl; by rewrite Hw|]. split; [|split; [apply lex_skip_ws|lia]].
  unfold mkcopy. rewrite E. apply text_word.
Qed.

(* ------------------------------------------------------------------ *)
(** ** The parser on tokens *)

(** The parser is at the tokens [ts], with these values of the statics. *)
Record at_toks (st : parser) (ts : list tok) (i e : bool) : Prop := mk_at_toks {
  at_plain : plain (ps st);
  at_lex : lex [] (ps st) = ts;
  at_invalid : invalid st = i;
  at_expecting : expectingParallel st = e }.
Definition skipped (st : parser) : Prop := skip_ws (ps st) = ps st.
(** What [peek] of some of [;] and [&] says. *)
Definition starts (toks : list Z) (ts : list tok) : bool :=
  match ts with Semi :: _ => strchr toks SEMI | Amp :: _ => strchr toks AMP | _ => false end.

Lemma lex_pending u r : u <> [] -> exists w ts, lex u r = Word w :: ts.
Proof.
  revert u. induction r as [|c r IH]; intros u Hu; simpl.
  - destruct u; [done|]. by eexists _, _.
  - assert (flush u = [Word u]) as -> by (by destruct u). simpl. repeat (case_match; [by eexists _, _|]). apply IH. by destruct u.
Qed.
Lemma peek_run toks st ts i e :
  at_toks st ts i e -> (forall c, c ∈ toks -> c = SEMI \/ c = AMP) ->
  exists st', peek toks st = Ret (starts toks ts) st' /\ at_toks st' ts i e /\ skipped st' /\ (length (ps st') <= length (ps st))%nat.
Proof.
  intros [H1 H2 H3 H4] Ht. exists (mk_parser (skip_ws (ps st)) (invalid st) (expectingParallel st)).
  split; [|split; [split; simpl; try done; [by eapply plain_sub; [apply skip_ws_sub|]|by rewrite lex_skip_ws]|
    split; [apply skip_ws_idem|apply skip_ws_length]]].
  unfold peek, bind, gets; simpl. f_equal. rewrite <- lex_skip_ws in H2.
  assert (plain (skip_ws (ps st))) as Hp by (by eapply plain_sub; [apply skip_ws_sub|]).
  destruct (skip_ws (ps st)) as [|c r] eqn:E; simpl in H2; subst ts; [done|]. simpl.
  apply plain_cons in Hp as [Hc _]. assert (truth c = true) as -> by (apply truth_true; set_solver). simpl.
  rewrite (skip_ws_head _ _ _ E). destruct (Z.eqb_spec c SEMI) as [->|N1]; [done|].
  destruct (Z.eqb_spec c AMP) as [->|N2]; [done|].
  assert (strchr toks c = false) as ->.
  { destruct (strchr toks c) eqn:E'; [|done]. apply strchr_In, Ht in E'. tauto. }
  by destruct (lex_pending [c] r) as (w & ts & ->).
Qed.

(** The words at the front, and the tokens after them. *)
Fixpoint words (ts : list tok) : command := match ts with Word w :: ts' => w :: words ts' | _ => [] end.
Fixpoint after (ts : list tok) : list tok := match ts with Word w :: ts' => after ts' | _ => ts end.

Lemma parseexec_loop_run : forall fuel argv st ts i e,
  at_toks st ts i e -> (length argv + length (words ts) < MAXARGS)%nat -> (MAXARGS <= fuel + length argv)%nat ->
  exists st', parseexec_loop fuel argv st = Ret (argv ++ words ts) st' /\ at_toks st' (after ts) i e /\ skipped st' /\
    (length (ps st') <= length (ps st))%nat.
Proof.
  induction fuel as [|f IH]; intros argv st ts i e H Hl Hf; [lia|]. cbn [parseexec_loop].
  destruct (peek_run [SEMI; AMP] st ts i e H) as (s1 & R1 & H1 & K1 & L1); [intros c; rewrite !elem_of_cons, elem_of_nil; tauto|].
  rewrite (bind_Ret _ _ _ _ _ R1). destruct (gettoken_lex (ps s1) (at_plain _ _ _ _ H1)) as (q & eq & s' & K' & P' & L' & Hm).
  rewrite (at_lex _ _ _ _ H1) in Hm. destruct ts as [|[w| |] ts]; simpl.
  - unfold gettoken, bind, gets; simpl. rewrite Hm; simpl. rewrite app_nil_r. eexists. split; [done|]. split; [|split; [done|simpl; lia]].
    destruct H1 as [P1 E1 I1 X1]. split; try done. simpl. unfold gettoken_at in Hm. cbv zeta in Hm. rewrite K1 in Hm.
    destruct (ps s1) as [|c r] eqn:Ep; simpl in Hm; [by injection Hm as <- <- <-|]. exfalso.
    apply plain_cons in P1 as [Hc _]. assert (c <> 0) as H0%Z.eqb_neq by set_solver. rewrite H0 in Hm.
    destruct ((c =? SEMI) || (c =? AMP)); [injection Hm as -> _ _ _; set_solver|done].
  - destruct Hm as (Eg & Ew & El & Lt). unfold gettoken at 1, bind at 1 2, gets; simpl. rewrite Eg; simpl. rewrite Ew.
    destruct (decide _) as [Hge|_]; [rewrite length_app in Hge; simpl in Hge, Hl; lia|].
    destruct (IH (argv ++ [w]) (mk_parser s' (invalid s1) (expectingParallel s1)) ts i e) as (s2 & R2 & H2 & K2 & L2).
    + destruct H1. by split.
    + rewrite length_app; simpl in *; lia.
    + rewrite length_app; simpl in *; lia.
    + exists s2. rewrite R2. rewrite <- app_assoc. split; [done|]. split; [done|]. split; [done|simpl in L2; lia].
  - rewrite app_nil_r. by exists s1.
  - rewrite app_nil_r. by exists s1.
Qed.
Lemma parseexec_run st ts i e :
  at_toks st ts i e -> (length (words ts) < MAXARGS)%nat ->
  exists st', parseexec st = Ret (Exec (words ts)) st' /\ at_toks st' (after ts) i e /\ skipped st' /\ (length (ps st') <= length (ps st))%nat.
Proof.
  intros H Hl. destruct (parseexec_loop_run MAXARGS [] st ts i e H) as (s1 & R & H'); [cbn [length]; lia|cbn [length]; lia|].
  exists s1. unfold parseexec. by rewrite (bind_Ret _ _ _ _ _ R).
Qed.

(** ** Groups of commands *)
Lemma groups_split ts :
  match after ts with
  | [] => groups ts = [[words ts]]
  | Amp :: t => exists c g gs, groups t = (c :: g) :: gs /\ groups ts = (words ts :: c :: g) :: gs
  | Semi :: t => groups ts = [words ts] :: groups t
  | Word _ :: _ => False
  end.
Proof.
  assert (forall ts, exists c g gs, groups ts = (c :: g) :: gs) as Hshape.
  { clear. induction ts as [|[w| |] ts (c & g & gs & E)]; simpl; rewrite ?E; by eexists _, _, _. }
  induction ts as [|[w| |] ts IH]; simpl; [done| |done|].
  - destruct (after ts) as [|[w'| |] t]; [by rewrite IH|done|by rewrite IH|]. destruct IH as (c & g & gs & E & ->). by exists c, g, gs.
  - destruct (Hshape ts) as (c & g & gs & E). exists c, g, gs. by rewrite E.
Qed.
Lemma words_nil ts : words ts = [] -> after ts = ts.
Proof. by destruct ts as [|[w| |] ts]. Qed.

(** The tokens from the first [;] on. *)
Fixpoint rest (ts : list tok) : list tok :=
  match ts with [] => [] | Semi :: _ => ts | _ :: t => rest t end.
Lemma rest_after ts : rest (after ts) = rest ts.
Proof. by induction ts as [|[w| |] ts IH]. Qed.
Lemma rest_groups ts :
  match rest ts with
  | [] => exists g, groups ts = [g]
  | Semi :: t => exists g, groups ts = g :: groups t
  | _ => False
  end.
Proof.
  induction ts as [|[w| |] ts IH]; simpl; [by eexists| |by eexists|].
  - destruct (rest ts) as [|[w'| |] t]; [|done| |done]; destruct IH as [g ->]; destruct g; by eexists.
  - destruct (rest ts) as [|[w'| |] t]; [|done| |done]; destruct IH as [g ->]; by eexists.
Qed.

Definition small (gs : list (list command)) : Prop := Forall (Forall (fun c => length c < MAXARGS)%nat) gs.
Lemma small_words ts : small (groups ts) -> (length (words ts) < MAXARGS)%nat.
Proof.
  intros H. pose proof (groups_split ts) as Hg. destruct (after ts) as [|[w| |] t]; [|done| |].
  - rewrite Hg in H. inversion H as [|? ? H1 _]; subst. by inversion H1.
  - rewrite Hg in H. inversion H as [|? ? H1 _]; subst. by inversion H1.
  - destruct Hg as (c & g & gs & _ & E). rewrite E in H. inversion H as [|? ? H1 _]; subst. by inversion H1.
Qed.
Lemma small_amp ts t : small (groups ts) -> after ts = Amp :: t -> small (groups t).
Proof.
  intros H E. pose proof (groups_split ts) as Hg. rewrite E in Hg. destruct Hg as (c & g & gs & E1 & E2).
  rewrite E2 in H. rewrite E1. inversion H as [|? ? H1 H2]; subst. constructor; [by inversion H1|done].
Qed.

Lemma skipped_end st ts i e : at_toks st ts i e -> skipped st -> (at_ptr (ps st) =? 0) = match ts with [] => true | _ => false end.
Proof.
  intros [H1 H2 _ _] Hs. unfold skipped in Hs. destruct (ps st) as [|c r] eqn:E; simpl; [by subst|].
  apply plain_cons in H1 as [Hc _]. assert (c <> 0) as ->%Z.eqb_neq by set_solver.
  subst ts. cbn [lex]. rewrite (skip_ws_head _ _ _ Hs). repeat case_match; try done.
  destruct (lex_pending [c] r) as (w & t & Ew); [done|]. simpl in *. congruence.
Qed.

(** [gettoken] on an operator. *)
Lemma gettoken_op st x ts i e :
  at_toks st (x :: ts) i e -> x = Semi \/ x = Amp ->
  exists a st', gettoken st = Ret a st' /\ at_toks st' ts i e /\ skipped st' /\ (length (ps st') < length (ps st))%nat.
Proof.
  intros [H1 H2 H3 H4] Hx. destruct (gettoken_lex (ps st) H1) as (q & eq & s' & K & Pl & _ & Hm). rewrite H2 in Hm.
  destruct Hx as [-> | ->]; destruct Hm as (Eg & El & Lt); eexists _, (mk_parser s' (invalid st) (expectingParallel st));
    unfold gettoken, bind, gets; simpl; rewrite Eg; simpl; repeat split; try done.
Qed.

(** ** [parseparallel] *)

(** The outcome when the line is invalid: the flag is set, and what is left does
    not begin with a word. *)
Definition gives_up (o : out parser cmd) : Prop :=
  exists c st ts, o = Ret c st /\ at_toks st ts true false /\ words ts = [].
(** The outcome on a good group. *)
Definition parses (o : out parser cmd) (c : cmd) (ts : list tok) (n : nat) : Prop :=
  exists st, o = Ret c st /\ at_toks st (rest ts) false false /\ (length (ps st) <= n)%nat.

Lemma set_flags_at st ts i e i' e' : at_toks st ts i e -> at_toks (mk_parser (ps st) i' e') ts i' e'.
Proof. intros [H1 H2 _ _]. by split. Qed.

(** After the commands before it, an operator [&] and what follows. *)
Lemma par_next st t e :
  at_toks st (Amp :: t) false e ->
  exists st', at_toks st' t false true /\ skipped st' /\ (length (ps st') < length (ps st))%nat /\
    forall (k : bool -> P cmd), (set_expecting true ;;
      bad <- (gettoken ;; semi <- peek [SEMI] ;;
              if (semi : bool) then set_expecting false ;; set_invalid true ;; ret true else ret false) ;; k bad) st =
    if starts [SEMI] t then k true (mk_parser (ps st') true false) else k false st'.
Proof.
  intros H. pose proof (set_flags_at st _ false e false true H) as H0.
  destruct (gettoken_op _ Amp t false true H0) as (a & s1 & R1 & H1 & K1 & L1); [by right|].
  destruct (peek_run [SEMI] s1 t false true H1) as (s2 & R2 & H2 & K2 & L2); [intros c ->%list_elem_of_singleton; by left|].
  exists s2. split; [done|]. split; [done|]. split; [simpl in *; lia|]. intros k.
  assert (set_expecting true st = Ret tt (mk_parser (ps st) false true)) as Rs
    by (unfold set_expecting, modify; by rewrite (at_invalid _ _ _ _ H)).
  rewrite (bind_Ret _ _ _ _ _ Rs). unfold bind at 1 2. rewrite R1. cbn [obind]. unfold bind at 1. rewrite R2. cbn [obind].
  destruct (starts [SEMI] t); [done|]. done.
Qed.

(** One call, up to its recursive call. *)
Definition call_next (f : nat) (c : command) : P cmd := next <- parseparallel f ;; ret (parallelcmd (Exec c) next).
Lemma par_step f st ts e :
  at_toks st ts false e -> (e = true -> ts <> [] /\ skipped st) -> (length (words ts) < MAXARGS)%nat ->
  exists st', (length (ps st') <= length (ps st))%nat /\
  match after ts with
  | Amp :: t => at_toks st' t false true /\ skipped st' /\ (length (ps st') < length (ps st))%nat /\
      parseparallel (S f) st = if starts [SEMI] t then Ret (Exec (words ts)) (mk_parser (ps st') true false) else call_next f (words ts) st'
  | _ => at_toks st' (after ts) false false /\
      parseparallel (S f) st = if e then call_next f (words ts) st' else Ret (Exec (words ts)) st'
  end.
Proof.
  intros H He Hsm. cbn [parseparallel]. erewrite bind_Ret by reflexivity. cbv beta. unfold id.
  assert (expectingParallel st && (at_ptr (ps st) =? 0) = false) as ->.
  { rewrite (at_expecting _ _ _ _ H). destruct e; [|done]. destruct (He eq_refl) as [Hne Hk].
    rewrite (skipped_end _ _ _ _ H Hk). by destruct ts. }
  destruct (parseexec_run st ts false e H Hsm) as (s1 & R1 & H1 & K1 & L1).
  rewrite (bind_Ret _ _ _ _ _ R1). destruct (peek_run [AMP] s1 _ _ _ H1) as (s2 & R2 & H2 & K2 & L2);
    [intros c ->%list_elem_of_singleton; by right|].
  rewrite (bind_Ret _ _ _ _ _ R2). erewrite (bind_Ret _ _ s2) by reflexivity. unfold id.
  rewrite (at_invalid _ _ _ _ H2), (at_expecting _ _ _ _ H2). cbn [negb andb orb].
  assert (forall x, after ts = x -> (forall t, x <> Amp :: t) -> starts [AMP] x = false) as Hno.
  { intros x Ex Hx. destruct x as [|[w| |] t]; try done. by destruct (Hx t). }
  destruct (after ts) as [|[w| |] t] eqn:Ea.
  4: { destruct (par_next s2 t e H2) as (s3 & H3 & K3 & L3 & Hk). exists s3. split; [lia|]. split; [done|]. split; [done|].
       split; [lia|]. change (starts [AMP] (Amp :: t)) with true. cbn [orb negb andb].
       etransitivity; [apply (Hk (fun bad => if (bad : bool) then ret (Exec (words ts)) else call_next f (words ts)))|].
       by destruct (starts [SEMI] t). }
  all: rewrite (Hno _ eq_refl) by done; cbn [orb]; destruct e; cbn [negb].
  all: try (exists s2; split; [lia|]; split; [done|]; done).
  all: exists (mk_parser (ps s2) false false); split; [simpl; lia|]; split; [by eapply set_flags_at|];
    unfold set_expecting, bind at 1, modify; cbn [obind]; rewrite (at_invalid _ _ _ _ H2); reflexivity.
Qed.

(** The end of a group, once no further command is expected. *)
Lemma par_end f st ts :
  at_toks st ts false false -> words ts = [] -> starts [AMP] ts = false -> parses (parseparallel (S f) st) (Exec []) ts (length (ps st)).
Proof.
  intros H Hw Ha. destruct (par_step f st ts false H) as (s1 & L1 & Hs); [done|rewrite Hw; unfold MAXARGS; simpl; lia|].
  rewrite (words_nil ts Hw), Hw in Hs. destruct ts as [|[w| |] t]; try done; destruct Hs as [H1 ->]; by exists s1.
Qed.

Lemma parses_next f c st cs ts ts' n n' :
  parses (parseparallel f st) cs ts' n' -> rest ts = rest ts' -> (n' <= n)%nat -> parses (call_next f c st) (Par (Exec c) cs) ts n.
Proof. intros (s & R & H & L) E Hn. exists s. unfold call_next. rewrite (bind_Ret _ _ _ _ _ R), E. split; [done|]. split; [done|lia]. Qed.
Lemma gives_up_next f c st : gives_up (parseparallel f st) -> gives_up (call_next f c st).
Proof. intros (c' & s & ts & R & H). eexists _, s, ts. unfold call_next. rewrite (bind_Ret _ _ _ _ _ R). done. Qed.
Lemma starts_semi ts : starts [SEMI] ts = true -> exists t, ts = Semi :: t.
Proof. destruct ts as [|[w| |] t]; simpl; try done. by eexists. Qed.
(** [a & ;] *)
Lemma gives_up_semi c st t e : at_toks st (Semi :: t) false e -> gives_up (Ret c (mk_parser (ps st) true false)).
Proof. intros H. eexists _, _, (Semi :: t). split; [done|]. split; [by eapply set_flags_at|done]. Qed.

Lemma par_true : forall fuel st ts,
  at_toks st ts false true -> skipped st -> (2 * length (ps st) + 1 <= fuel)%nat -> starts [SEMI] ts = false -> small (groups ts) ->
  forall g gs, groups ts = g :: gs ->
  if nonempty (List.last g []) then parses (parseparallel fuel st) (ast_tail g) ts (length (ps st))
  else gives_up (parseparallel fuel st).
Proof.
  induction fuel as [|f IH]; intros st ts H Hk Hf Hs Hsm g gs Hg; [lia|].
  destruct (decide (ts = [])) as [->|Hne].
  { injection Hg as <- <-. cbn [List.last nonempty parseparallel]. erewrite bind_Ret by reflexivity. cbv beta. unfold id.
    rewrite (at_expecting _ _ _ _ H), (skipped_end _ _ _ _ H Hk). cbn [andb].
    eexists _, _, []. split; [done|]. split; [|done]. by eapply set_flags_at in H. }
  assert (1 <= length (ps st))%nat as Hlen.
  { destruct (ps st) as [|c r] eqn:Ep; [|simpl; lia]. destruct H as [_ Hx _ _]. rewrite Ep in Hx. by subst. }
  destruct (par_step f st ts true H) as (s1 & L1 & Hst); [done|by apply small_words|].
  pose proof (groups_split ts) as Hsp. destruct (after ts) as [|[w| |] t] eqn:Ea; [|done| |].
  1-2: destruct Hst as [H1 ->]; assert (g = [words ts]) as -> by (rewrite Hsp in Hg; congruence); cbn [List.last].
  1-2: assert (words ts <> []) as Hw by (intros Hw; apply words_nil in Hw; rewrite Ea in Hw; by rewrite <- Hw in *).
  1-2: assert (nonempty (words ts) = true) as -> by (by destruct (words ts)); destruct f as [|f]; [lia|];
    eapply parses_next; [by eapply par_end|by rewrite <- rest_after, Ea|lia].
  destruct Hst as (H1 & K1 & L1' & ->). destruct Hsp as (c & g' & gs' & E1 & E2). rewrite E2 in Hg. injection Hg as <- <-.
  change (List.last (words ts :: c :: g') []) with (List.last (c :: g') []).
  destruct (starts [SEMI] t) eqn:Es.
  - apply starts_semi in Es as [t' ->]. simpl in E1. injection E1 as <- <- _. simpl. by eapply gives_up_semi.
  - specialize (IH s1 t H1 K1 ltac:(lia) Es (small_amp _ _ Hsm Ea) _ _ E1).
    destruct (nonempty (List.last (c :: g') [])); [|by apply gives_up_next].
    eapply parses_next; [exact IH|by rewrite <- rest_after, Ea|lia].
Qed.

Lemma par_false fuel st ts :
  at_toks st ts false false -> (2 * length (ps st) + 2 <= fuel)%nat -> starts [AMP] ts = false -> small (groups ts) ->
  forall g gs, groups ts = g :: gs ->
  if group_ok g then parses (parseparallel fuel st) (ast_group g) ts (length (ps st)) else gives_up (parseparallel fuel st).
Proof.
  intros H Hf Ha Hsm g gs Hg. destruct fuel as [|f]; [lia|].
  destruct (par_step f st ts false H) as (s1 & L1 & Hst); [done|by apply small_words|].
  pose proof (groups_split ts) as Hsp. destruct (after ts) as [|[w| |] t] eqn:Ea; [|done| |].
  1-2: destruct Hst as [H1 ->]; assert (g = [words ts]) as -> by (rewrite Hsp in Hg; congruence); simpl;
    exists s1; rewrite <- rest_after, Ea; done.
  destruct Hst as (H1 & K1 & L1' & ->). destruct Hsp as (c & g' & gs' & E1 & E2). rewrite E2 in Hg. injection Hg as <- <-.
  assert (nonempty (words ts) = true) as Hw.
  { destruct (words ts) eqn:Hw; [|done]. apply words_nil in Hw. rewrite Hw in Ea. by rewrite Ea in Ha. }
  cbn [group_ok]. rewrite Hw. cbn [andb].
  destruct (starts [SEMI] t) eqn:Es.
  - apply starts_semi in Es as [t' ->]. simpl in E1. injection E1 as <- <- _. simpl. by eapply gives_up_semi.
  - pose proof (par_true f s1 t H1 K1 ltac:(lia) Es (small_amp _ _ Hsm Ea) _ _ E1) as Hp.
    destruct (nonempty (List.last (c :: g') [])); [|by apply gives_up_next].
    eapply parses_next; [exact Hp|by rewrite <- rest_after, Ea|lia].
Qed.

(** ** [parsesequence] and [parseline] *)
Lemma parseline_run : forall fuel st ts,
  at_toks st ts false false -> (S (length (ps st)) <= fuel)%nat -> small (groups ts) ->
  if forallb group_ok (groups ts)
  then exists st', parseline_with (parsesequence fuel) st = Ret (ast_line (groups ts)) st' /\ at_toks st' [] false false
  else gives_up (parseline_with (parsesequence fuel) st).
Proof.
  induction fuel as [|f IH]; intros st ts H Hf Hsm; [lia|].
  destruct (peek_run [AMP] st ts false false H) as (s1 & R1 & H1 & K1 & L1); [intros c ->%list_elem_of_singleton; by right|].
  unfold parseline_with at 1 2. rewrite !(bind_Ret _ _ _ _ _ R1).
  assert (set_invalid (starts [AMP] ts) s1 = Ret tt (mk_parser (ps s1) (starts [AMP] ts) false)) as Rs
    by (unfold set_invalid, modify; by rewrite (at_expecting _ _ _ _ H1)).
  rewrite !(bind_Ret _ _ _ _ _ Rs). destruct (starts [AMP] ts) eqn:Ea.
  { assert (exists t, ts = Amp :: t) as [t ->] by (destruct ts as [|[w| |] t]; try done; by eexists).
    pose proof (groups_split (Amp :: t)) as (c & g & gs & E1 & E2). rewrite E2. simpl.
    eexists _, _, (Amp :: t). split; [done|]. split; [by eapply set_flags_at|done]. }
  assert (at_toks (mk_parser (ps s1) false false) ts false false) as H2 by (by eapply set_flags_at).
  destruct (groups ts) as [|g gs] eqn:Eg; [by pose proof (rest_groups ts) as Hr; rewrite Eg in Hr; repeat case_match; destruct Hr|].
  cbn [parsesequence]. erewrite !(bind_Ret (gets ps)) by reflexivity. cbv beta.
  pose proof (par_false (2 * length (ps s1) + 2) _ ts H2 ltac:(simpl; lia) Ea ltac:(by rewrite Eg) g gs Eg) as Hp.
  cbn [forallb ps]. destruct (group_ok g); cbn [andb].
  2: { destruct Hp as (c & s2 & ts2 & R2 & H3 & Hw). eexists _, s2, ts2. rewrite (bind_Ret _ _ _ _ _ R2).
       erewrite (bind_Ret (gets invalid)) by reflexivity. rewrite (at_invalid _ _ _ _ H3). done. }
  destruct Hp as (s2 & R2 & H3 & L3). rewrite !(bind_Ret _ _ _ _ _ R2). erewrite !(bind_Ret (gets invalid)) by reflexivity.
  rewrite (at_invalid _ _ _ _ H3). destruct (peek_run [SEMI] s2 _ _ _ H3) as (s3 & R3 & H4 & K4 & L4);
    [intros c ->%list_elem_of_singleton; by left|]. rewrite !(bind_Ret _ _ _ _ _ R3).
  pose proof (rest_groups ts) as Hr. rewrite Eg in Hr. destruct (rest ts) as [|[w| |] t] eqn:Er; [|done| |done].
  { destruct Hr as [g0 [= -> ->]]. simpl. by exists s3. }
  destruct Hr as [g0 [= -> ->]]. cbn [starts]. change (strchr [SEMI] SEMI) with true. cbv match.
  destruct (gettoken_op s3 Semi t _ _ H4) as (a & s4 & R4 & H5 & _ & L5); [by left|].
  rewrite !(bind_Ret _ _ _ _ _ R4). inversion Hsm as [|? ? _ Hsm']; subst. simpl in L3.
  specialize (IH s4 t H5 ltac:(lia) Hsm').
  destruct (groups t) as [|g' gs'] eqn:Egt; [by pose proof (rest_groups t) as Hr; rewrite Egt in Hr; repeat case_match; destruct Hr|].
  destruct (forallb group_ok (g' :: gs')).
  - destruct IH as (s5 & R5 & H6). exists s5. rewrite (bind_Ret _ _ _ _ _ R5). split; [|done]. by destruct gs'.
  - destruct IH as (c & s5 & ts5 & R5 & H6 & Hw). eexists _, s5, ts5. rewrite (bind_Ret _ _ _ _ _ R5). done.
Qed.

(** C6: the parser of the HW1 shell implements its grammar.  For every line
    without NUL and redirection characters, whose commands have fewer than
    [MAXARGS] words: the parser returns (it neither loops nor runs out of the line),
    and its result is the tree of the line split at [;], then at [&], then at
    white space; if some group has a [&] with no command before its first one or
    after its last one, the result is the invalid command. *)
Theorem parsecmd_grammar line :
  plain line -> small (groups (lex [] line)) ->
  exists st, parsecmd line =
    Ret (if forallb group_ok (groups (lex [] line)) then ast_line (groups (lex [] line)) else Invalid []) st.
Proof.
  intros Hp Hsm. assert (at_toks (mk_parser line false false) (lex [] line) false false) as H by done.
  pose proof (parseline_run (S (length line)) _ _ H ltac:(simpl; lia) Hsm) as Hl.
  unfold parsecmd, parsecmd_body, parseline. destruct (forallb group_ok (groups (lex [] line))).
  - destruct Hl as (s1 & R1 & H1). destruct (peek_run [] s1 [] _ _ H1) as (s2 & R2 & H2 & K2 & _); [intros c []%not_elem_of_nil|].
    exists s2. erewrite bind_Ret; [|erewrite bind_Ret by reflexivity; exact R1].
    erewrite (bind_Ret (gets invalid)) by reflexivity. rewrite (at_invalid _ _ _ _ H1). rewrite (bind_Ret _ _ _ _ _ R2).
    erewrite (bind_Ret (gets ps)) by reflexivity. cbv beta. pose proof (skipped_end _ _ _ _ H2 K2) as He.
    destruct (ps s2) as [|c r] eqn:E; [done|]. destruct H2 as [P2 _ _ _]. rewrite E in P2. apply plain_cons in P2 as [Hc _].
    apply Z.eqb_eq in He. simpl in He. set_solver.
  - destruct Hl as (c & s1 & ts & R1 & H1 & Hw).
    destruct (parseexec_loop_run MAXARGS [] (mk_parser (ps s1) false false) ts false false) as (s2 & R2 & _);
      [by eapply set_flags_at|rewrite Hw; unfold MAXARGS; simpl; lia|cbn [length]; lia|].
    exists s2. erewrite bind_Ret; [|erewrite bind_Ret by reflexivity; exact R1].
    erewrite (bind_Ret (gets invalid)) by reflexivity. rewrite (at_invalid _ _ _ _ H1). unfold parse_dummy.
    erewrite (bind_Ret (set_invalid false)) by (unfold set_invalid, modify; by rewrite (at_expecting _ _ _ _ H1)).
    rewrite (bind_Ret _ _ _ _ _ R2). by rewrite Hw.
Qed.

Lemma parsecmd_grammar_witness :
  exists st, parsecmd (bytes "ls -l & wc; echo  hi ") =
    Ret (Seq (Par (Exec [bytes "ls"; bytes "-l"]) (Par (Exec [bytes "wc"]) (Exec []))) (Exec [bytes "echo"; bytes "hi"])) st.
Proof.
  destruct (parsecmd_grammar (bytes "ls -l & wc; echo  hi ")) as (st & H).
  - intros c Hc. assert (Forall (fun c => c ∉ [0; 60; 124; 62]) (bytes "ls -l & wc; echo  hi ")) as HF
      by (apply (bool_decide_unpack _); vm_compute; exact I). rewrite Forall_forall in HF. by apply HF.
  - apply (bool_decide_unpack _). vm_compute. exact I.
  - exists st. exact H.
Defined.

(* ------------------------------------------------------------------ *)
(** ** The order of execution *)

(** [Start] and [End] of a program; [Orphan]: a process ended before its
    children. *)
Inductive event := Start (argv : command) | End (argv : command) | Orphan.
(** [t] is an interleaving of the lists [ls]. *)
Inductive shuffle : list (list event) -> list event -> Prop :=
| sh_nil ls : Forall (fun l => l = []) ls -> shuffle ls []
| sh_cons ls e r ls' t : Permutation ls ((e :: r) :: ls') -> shuffle (r :: ls') t -> shuffle ls (e :: t).
(** What is left at the end of a process. *)
Definition ends (kids : list (list event)) (t : list event) : Prop :=
  t = match kids with [] => [] | _ => [Orphan] end.

(** The runs of a process with the children [kids], given by what each has still
    to do: at any time a child may take a step; [wait] waits for one child that
    has ended, and returns at once if there is none; [fork] and [execvp] may
    fail. *)
Inductive tr : act -> list (list event) -> list event -> Prop :=
| tr_kid a kids e r kids' t : Permutation kids ((e :: r) :: kids') -> tr a (r :: kids') t -> tr a kids (e :: t)
| tr_exit code kids t : ends kids t -> tr (Exit code) kids t
| tr_crash kids t : ends kids t -> tr Crash kids t
| tr_exec argv k kids t : ends kids t -> tr (Execvp argv k) kids (Start argv :: End argv :: t)
| tr_exec_fails argv k kids t : tr k kids t -> tr (Execvp argv k) kids t
| tr_print msg k kids t : tr k kids t -> tr (Print msg k) kids t
| tr_fork c p kids u t : tr c [] u -> tr p (u :: kids) t -> tr (Fork c p) kids t
| tr_fork_fails c p kids t : tr p kids t -> tr (Fork c p) kids t
| tr_wait k kids kids' t : Permutation kids ([] :: kids') -> tr k kids' t -> tr (Wait k) kids t
| tr_wait_none k t : tr k [] t -> tr (Wait k) [] t
| tr_waitall k kids kids' t : Permutation kids ([] :: kids') -> tr (WaitAll k) kids' t -> tr (WaitAll k) kids t
| tr_waitall_none k t : tr k [] t -> tr (WaitAll k) [] t.

(** What one command may do: run once, or not at all. *)
Definition once (c : command) (t : list event) : Prop := t = [] \/ (c <> [] /\ t = [Start c; End c]).

Lemma shuffle_perm ls ls' t : Permutation ls ls' -> shuffle ls t -> shuffle ls' t.
Proof.
  intros Hp H. destruct H as [ls H|ls e r l t H1 H2]; [constructor; by rewrite <- Hp|].
  apply (sh_cons _ e r l); [by rewrite <- Hp|done].
Qed.
Lemma shuffle_cons_nil ls t : shuffle ls t -> shuffle ([] :: ls) t.
Proof.
  induction 1 as [ls H|ls e r l t H1 H2 IH]; [constructor; by constructor|].
  apply (sh_cons _ e r ([] :: l)); [rewrite H1; apply Permutation_swap|]. eapply shuffle_perm; [apply Permutation_swap|done].
Qed.

Lemma shuffle_drop_nil ls t : shuffle ([] :: ls) t -> shuffle ls t.
Proof.
  assert (forall l, shuffle l t -> forall ls, Permutation l ([] :: ls) -> shuffle ls t) as Hx; [|intros H; by eapply Hx].
  clear ls. induction 1 as [l H|l e r l' t H1 H2 IH2]; intros ls Hp.
  - constructor. rewrite Hp in H. by inversion H.
  - rewrite Hp in H1. assert ([] ∈ l') as Hin.
    { assert ([] ∈ (e :: r) :: l') as [|]%elem_of_cons by (rewrite <- H1; by left); done. }
    apply elem_of_Permutation in Hin as [l'' Hl]. rewrite Hl in H1. rewrite (Permutation_swap [] (e :: r)) in H1.
    apply Permutation_cons_inv in H1. apply (sh_cons _ e r l''); [done|]. apply IH2. rewrite Hl. apply Permutation_swap.
Qed.

Lemma nil_not_perm {A} (x : A) l : ~ Permutation [] (x :: l).
Proof. intros H. by apply Permutation_nil_cons in H. Qed.

Ltac no_kids := match goal with H : Permutation [] (_ :: _) |- _ => by destruct (nil_not_perm _ _ H) end.
Lemma run_exit code t : tr (Exit code) [] t -> t = [].
Proof. intros H. inversion H as [? ? ? ? ? ? Hp| ? ? ? He| | | | | | | | | |]; subst; [no_kids|done]. Qed.

(** A process without children that executes one command. *)
Lemma run_exec c t : tr (runcmd (Exec c)) [] t -> once c t.
Proof.
  intros H. destruct c as [|w ws]; simpl in H.
  - inversion H; subst; [no_kids|by left].
  - inversion H as [| | | ? ? ? ? He | ? ? ? ? Hk | | | | | | |]; subst; [no_kids| |].
    + unfold ends in He. subst. right. by split.
    + left. inversion Hk; subst; [no_kids|]. by eapply run_exit.
Qed.

(** The processes of a group: one for each command, one for the end of the
    list. *)
Fixpoint group_act (cs : list command) : act :=
  match cs with
  | [] => Fork (Exit 0) (WaitAll (Exit 0))
  | c :: cs' => Fork (runcmd (Exec c)) (group_act cs')
  end.
Lemma runcmd_tail c cs : runcmd (ast_tail (c :: cs)) = group_act (c :: cs).
Proof.
  cbn [ast_tail runcmd group_act]. f_equal. induction cs as [|d cs IH]; [done|]. cbn [ast_tail group_act]. by rewrite IH.
Qed.

Lemma waitall_shuffle kids t : tr (WaitAll (Exit 0)) kids t -> shuffle kids t.
Proof.
  remember (WaitAll (Exit 0)) as a eqn:Ea. induction 1; simplify_eq.
  - eapply sh_cons; [done|by apply IHtr].
  - eapply shuffle_perm; [symmetry; done|]. apply shuffle_cons_nil. by apply IHtr.
  - apply run_exit in H as ->. by constructor.
Qed.

Lemma group_shuffle cs : forall kids t, tr (group_act cs) kids t ->
  exists us, Forall2 once cs us /\ shuffle (kids ++ us) t.
Proof.
  induction cs as [|c cs IH]; intros kids t H.
  - remember (group_act []) as a eqn:Ea. cbn [group_act] in Ea. induction H; simplify_eq.
    + destruct IHtr as (us & HF & Hs); [done|]. exists us. split; [done|]. eapply sh_cons; [|exact Hs]. by rewrite H.
    + apply run_exit in H as ->. apply waitall_shuffle in H0. exists []. split; [done|]. rewrite app_nil_r.
      by apply shuffle_drop_nil.
    + exists []. split; [done|]. rewrite app_nil_r. by apply waitall_shuffle.
  - remember (group_act (c :: cs)) as a eqn:Ea. cbn [group_act] in Ea. induction H; simplify_eq.
    + destruct IHtr as (us & HF & Hs); [done|]. exists us. split; [done|]. eapply sh_cons; [|exact Hs]. by rewrite H.
    + apply run_exec in H. apply IH in H0 as (us & HF & Hs). exists (u :: us). split; [by constructor|].
      eapply shuffle_perm; [|exact Hs]. simpl. apply Permutation_middle.
    + apply IH in H as (us & HF & Hs). exists ([] :: us). split; [constructor; [by left|done]|].
      eapply shuffle_perm; [apply Permutation_middle|]. by apply shuffle_cons_nil.
Qed.

(** What a group may do: an interleaving of its commands. *)
Definition group_run (g : list command) (t : list event) : Prop := exists us, Forall2 once g us /\ shuffle us t.
Lemma run_group g t : g <> [] -> tr (runcmd (ast_group g)) [] t -> group_run g t.
Proof.
  destruct g as [|c [|d g]]; [done| |].
  - intros _ H%run_exec. exists [t]. split; [constructor; [done|constructor]|].
    clear H. induction t as [|e t IH]; [constructor; by constructor|]. by apply (sh_cons _ e t []).
  - intros _. change (ast_group (c :: d :: g)) with (ast_tail (c :: d :: g)). rewrite runcmd_tail.
    intros H. apply group_shuffle in H. exact H.
Qed.

Lemma wait_one k u t : tr (Wait k) [u] t -> exists t', t = u ++ t' /\ tr k [] t'.
Proof.
  remember (Wait k) as a eqn:Ea. remember [u] as l eqn:El. intros H. revert u El. induction H; intros u' El; simplify_eq.
  - symmetry in H. apply Permutation_singleton_r in H. simplify_eq. destruct (IHtr eq_refl _ eq_refl) as (t' & -> & Hk). by exists t'.
  - symmetry in H. apply Permutation_singleton_r in H. simplify_eq. by exists t.
Qed.

(** C16: the HW1 shell runs a line in the right order.  Take any interleaving of
    the processes the shell starts for a parsed line, with any [fork] and
    [execvp] failing: the groups separated by [;] run one after the other, each
    one complete before the next begins; the commands of a group, separated by
    [&], run in any interleaving, each at most once; and no process is left
    running when its parent ends. *)
Theorem runcmd_order gs t :
  gs <> [] -> Forall (fun g => g <> []) gs -> tr (runcmd (ast_line gs)) [] t ->
  exists us, t = concat us /\ Forall2 group_run gs us.
Proof.
  intros Hne HF. revert t. induction gs as [|g gs IH]; [done|]. intros t H. inversion HF as [|? ? Hg HF']; subst.
  destruct gs as [|g' gs].
  - exists [t]. split; [simpl; by rewrite app_nil_r|]. constructor; [by apply run_group|constructor].
  - change (ast_line (g :: g' :: gs)) with (Seq (ast_group g) (ast_line (g' :: gs))) in H. cbn [runcmd] in H.
    assert (exists u t', group_run g u /\ t = u ++ t' /\ tr (runcmd (ast_line (g' :: gs))) [] t') as (u & t' & Hu & -> & Ht').
    { inversion H as [| | | | | |? ? ? u ? Hc Hp|? ? ? ? Hp| | | |]; subst; [no_kids| |].
      - apply run_group in Hc; [|done]. apply wait_one in Hp as (t' & -> & Hk). by exists u, t'.
      - exists [], t. split; [|split; [done|]].
        + exists ((fun _ => []) <$> g). split; [clear; induction g; constructor; [by left|done]|].
          constructor. clear. induction g; by constructor.
        + inversion Hp; subst; [no_kids|no_kids|done]. }
    destruct (IH ltac:(done) HF' t' Ht') as (us & -> & HF2). exists (u :: us). split; [done|]. by constructor.
Qed.

(** [a & b ; c], the first two overlapping. *)
Definition ca : command := [[97]].
Definition cb : command := [[98]].
Definition cc : command := [[99]].
Definition overlapping : list event := [Start ca; Start cb; End cb; End ca; Start cc; End cc].
Lemma exec_trace c : c <> [] -> tr (runcmd (Exec c)) [] [Start c; End c].
Proof. destruct c; [done|]. intros _. simpl. by apply tr_exec. Qed.
Lemma overlapping_trace : tr (runcmd (ast_line [[ca; cb]; [cc]])) [] overlapping.
Proof.
  change (runcmd (ast_line [[ca; cb]; [cc]])) with (Fork (runcmd (ast_tail [ca; cb])) (Wait (runcmd (Exec cc)))). rewrite runcmd_tail.
  apply tr_fork with (u := [Start ca; Start cb; End cb; End ca]).
  - cbn [group_act]. apply tr_fork with (u := [Start ca; End ca]); [by apply exec_trace|].
    apply tr_fork with (u := [Start cb; End cb]); [by apply exec_trace|]. apply tr_fork with (u := []); [by constructor|].
    apply tr_kid with (r := [End ca]) (kids' := [[]; [Start cb; End cb]]); [solve_Permutation|].
    apply tr_kid with (r := [End cb]) (kids' := [[End ca]; []]); [solve_Permutation|].
    apply tr_kid with (r := []) (kids' := [[End ca]; []]); [solve_Permutation|].
    apply tr_kid with (r := []) (kids' := [[]; []]); [solve_Permutation|].
    do 3 (eapply tr_waitall; [reflexivity|]). apply tr_waitall_none. by constructor.
  - do 4 (eapply tr_kid; [reflexivity|]). eapply tr_wait; [reflexivity|]. by apply exec_trace.
Qed.
Lemma runcmd_order_witness : exists us, overlapping = concat us /\ Forall2 group_run [[ca; cb]; [cc]] us.
Proof.
  apply (runcmd_order [[ca; cb]; [cc]] overlapping); [done|by repeat constructor|exact overlapping_trace].
Defined.

(** The end of the input is not noticed: [main] goes on forking for ever, and
    every child crashes on the empty command. *)
Lemma eof_forks n : main_loop (S n) [] = Fork Crash (Wait (main_loop n [])).
Proof. reflexivity. Qed.

End Hwsh.
