(* ===== verification/Shell.v ===== *)
(** * The shell of xv6

    [HW2/src/sh.c].  Pointers into the command line are rests of the line, as in
    [Shlex]; the words of a command are pairs of pointers until [nulterminate]
    writes a NUL at the end of each into the line. *)

From stdpp Require Import gmap.
From S2P Require Import Prelude Mmu Shlex.

Module Sh.

Definition MAXARGS : nat := 10.
(** ["<|>&;()"] *)
Definition symbols : list Z := [60; 124; 62; 38; 59; 40; 41].
Definition LT : Z := 60.
Definition GT : Z := 62.
Definition BAR : Z := 124.
Definition AMP : Z := 38.
Definition SEMI : Z := 59.
Definition LPAR : Z := 40.
Definition RPAR : Z := 41.
Definition APPEND : Z := 43.
(** [struct cmd]: a word is [W], a pair of pointers in the parser and a string
    once it is terminated. *)
Inductive cmd (W : Type) : Type :=
| EXEC (argv : list W)
| REDIR (c : cmd W) (file : W) (mode fd : Z)
| PIPE (left right : cmd W)
| LIST (left right : cmd W)
| BACK (c : cmd W).
Arguments EXEC {W} argv.
Arguments REDIR {W} c file mode fd.
Arguments PIPE {W} left right.
Arguments LIST {W} left right.
Arguments BACK {W} c.
Definition word : Type := ptr * ptr.

Definition P (A : Type) : Type := M ptr A.

(** [gettoken]: the token, [q], [eq] and the pointer after it. *)
Definition gettoken_at (s : ptr) : Z * ptr * ptr * ptr :=
  let q := skip_ws s in
  let c := at_ptr q in
  let '(r, eq) :=
    if c =? 0 then (c, q)
    else if (c =? BAR) || (c =? LPAR) || (c =? RPAR) || (c =? SEMI) || (c =? AMP) || (c =? LT) then (c, tl q)
    else if c =? GT then if at_ptr (tl q) =? GT then (APPEND, tl (tl q)) else (c, tl q)
    else (97, skip_word symbols q) in
  (r, q, eq, skip_ws eq).
Definition gettoken : P (Z * ptr * ptr) :=
  s <- gets id ;;
  let '(r, q, eq, s') := gettoken_at s in
  modify (fun _ => s') ;; ret (r, q, eq).
Definition peek (toks : list Z) : P bool :=
  s <- gets id ;;
  let '(b, s') := Shlex.peek s toks in
  modify (fun _ => s') ;; ret b.

Definition redircmd (subcmd : cmd word) (q eq : ptr) (mode fd : Z) : cmd word := REDIR subcmd (q, eq) mode fd.
Definition pipecmd (left right : cmd word) : cmd word := PIPE left right.
Definition listcmd (left right : cmd word) : cmd word := LIST left right.
Definition backcmd (subcmd : cmd word) : cmd word := BACK subcmd.

(** [parseredirs]: the redirections in the order of the line, each a function
    that wraps the command. *)
Definition redir : Type := cmd word -> cmd word.
Definition redir_of (tok : Z) (q eq : ptr) : redir := fun c =>
  if tok =? LT then redircmd c q eq O_RDONLY 0
  else if tok =? GT then redircmd c q eq (Z.lor O_WRONLY O_CREATE) 1
  else if tok =? APPEND then redircmd c q eq (Z.lor O_WRONLY O_CREATE) 1
  else c.
Fixpoint parseredirs_loop (fuel : nat) (wrap : redir) : P redir :=
  match fuel with
  | O => nofuel
  | S f =>
      more <- peek [LT; GT] ;;
      if (more : bool) then
        '(tok, _, _) <- gettoken ;;
        '(t, q, eq) <- gettoken ;;
        if negb (t =? 97) then panic "missing file for redirection" else
        parseredirs_loop f (fun c => redir_of tok q eq (wrap c))
      else ret wrap
  end.
Definition parseredirs (wrap : redir) : P redir :=
  s <- gets id ;; parseredirs_loop (S (length s)) wrap.

(** The loop of [parseexec]: the words, and the redirections around the
    command; the command itself is built at the end, where the code has filled
    in [argv] through the pointer [cmd]. *)
Fixpoint parseexec_loop (fuel : nat) (argv : list word) (wrap : redir) : P (cmd word) :=
  match fuel with
  | O => nofuel
  | S f =>
      stop <- peek [BAR; RPAR; AMP; SEMI] ;;
      if (stop : bool) then ret (wrap (EXEC argv)) else
      '(tok, q, eq) <- gettoken ;;
      if tok =? 0 then ret (wrap (EXEC argv)) else
      if negb (tok =? 97) then panic "syntax" else
      let argv := argv ++ [(q, eq)] in
      if decide (MAXARGS <= length argv)%nat then panic "too many args" else
      wrap <- parseredirs wrap ;;
      parseexec_loop f argv wrap
  end.
(** [while(peek(ps, es, "&"))] *)
Fixpoint back_loop (fuel : nat) (c : cmd word) : P (cmd word) :=
  match fuel with
  | O => nofuel
  | S f =>
      b <- peek [AMP] ;;
      if (b : bool) then gettoken ;; back_loop f (backcmd c) else ret c
  end.

(** The parser proper; [n] bounds the depth of the calls. *)
Fixpoint parseline (n : nat) : P (cmd word) :=
  match n with
  | O => nofuel
  | S n =>
      cmd <- parsepipe n ;;
      s <- gets id ;;
      cmd <- back_loop (S (length s)) cmd ;;
      semi <- peek [SEMI] ;;
      if (semi : bool) then gettoken ;; r <- parseline n ;; ret (listcmd cmd r) else ret cmd
  end
with parsepipe (n : nat) : P (cmd word) :=
  match n with
  | O => nofuel
  | S n =>
      cmd <- parseexec n ;;
      bar <- peek [BAR] ;;
      if (bar : bool) then gettoken ;; r <- parsepipe n ;; ret (pipecmd cmd r) else ret cmd
  end
with parseexec (n : nat) : P (cmd word) :=
  match n with
  | O => nofuel
  | S n =>
      block <- peek [LPAR] ;;
      if (block : bool) then parseblock n else
      wrap <- parseredirs (fun c => c) ;;
      parseexec_loop MAXARGS [] wrap
  end
with parseblock (n : nat) : P (cmd word) :=
  match n with
  | O => nofuel
  | S n =>
      l <- peek [LPAR] ;;
      if negb l then panic "parseblock" else
      gettoken ;;
      cmd <- parseline n ;;
      r <- peek [RPAR] ;;
      if negb r then panic "syntax - missing )" else
      gettoken ;;
      wrap <- parseredirs (fun c => c) ;;
      ret (wrap cmd)
  end.

(** [*p = 0] in the line [buf], of which [p] is a rest; at its end there is a
    NUL already. *)
Definition terminate (buf : list Z) (w : word) : list Z := <[(length buf - length (snd w))%nat := 0]> buf.
Fixpoint nulterminate (buf : list Z) (c : cmd word) : list Z :=
  match c with
  | EXEC argv => foldl terminate buf argv
  | REDIR c file _ _ => terminate (nulterminate buf c) file
  | PIPE l r => nulterminate (nulterminate buf l) r
  | LIST l r => nulterminate (nulterminate buf l) r
  | BACK c => nulterminate buf c
  end.

(** [parsecmd]: the command and the line after [nulterminate]. *)
Definition parse_all (s : list Z) : P (cmd word) :=
  cmd <- parseline (4 * length s + 4) ;;
  peek [] ;;
  rest <- gets id ;;
  match rest with [] => ret cmd | _ => panic "syntax" end.
Definition parsecmd (s : list Z) : out ptr (cmd word * list Z) :=
  match parse_all s s with
  | Ret c r => Ret (c, nulterminate s c) r
  | Panic msg => Panic msg
  | _ => Fuel
  end.
(** The string a [char *] into [buf] points to. *)
Definition string_at (buf : list Z) (q : ptr) : list Z := c_string (drop (length buf - length q) buf).
Fixpoint map_words {A B} (f : A -> B) (c : cmd A) : cmd B :=
  match c with
  | EXEC argv => EXEC (f <$> argv)
  | REDIR c file mode fd => REDIR (map_words f c) (f file) mode fd
  | PIPE l r => PIPE (map_words f l) (map_words f r)
  | LIST l r => LIST (map_words f l) (map_words f r)
  | BACK c => BACK (map_words f c)
  end.

(* ------------------------------------------------------------------ *)
(** ** The parser ends, and its words are words of the line *)

Definition wordch (c : Z) : Prop := strchr whitespace c = false /\ strchr symbols c = false.
(** [q] up to [eq] is a maximal run of word characters of the line. *)
Record word_ok (line : list Z) (w : word) : Prop := mk_word_ok {
  wo_suffix : fst w `suffix_of` line;
  wo_text : exists t, fst w = t ++ snd w /\ Forall wordch t /\ t <> [];
  wo_end : forall c r, snd w = c :: r -> ~ wordch c }.
Fixpoint words {W} (c : cmd W) : list W :=
  match c with
  | EXEC argv => argv
  | REDIR c file _ _ => words c ++ [file]
  | PIPE l r | LIST l r => words l ++ words r
  | BACK c => words c
  end.
Definition cmd_ok (line : list Z) (c : cmd word) : Prop := Forall (word_ok line) (words c).
Definition wrap_ok (line : list Z) (f : redir) : Prop := forall c, cmd_ok line c -> cmd_ok line (f c).

(** [m] returns at a later place of the line with [Q], or panics. *)
Definition ok {A} (m : P A) (s : ptr) (Q : A -> ptr -> Prop) : Prop :=
  match m s with Ret a s' => s' `suffix_of` s /\ Q a s' | Panic _ => True | _ => False end.
Lemma ok_ret {A} (a : A) s (Q : A -> ptr -> Prop) : Q a s -> ok (ret a) s Q.
Proof. by split. Qed.
Lemma ok_panic {A} msg s (Q : A -> ptr -> Prop) : ok (panic msg) s Q.
Proof. done. Qed.
Lemma ok_bind {A B} (m : P A) (f : A -> P B) s Q :
  ok m s (fun a s' => s' `suffix_of` s -> ok (f a) s' Q) -> ok (bind m f) s Q.
Proof.
  unfold ok, bind. destruct (m s) as [a s'| | | | |]; simpl; try done. intros [H1 H2]. specialize (H2 H1).
  destruct (f a s') as [b s2| | | | |]; try done. destruct H2 as [H2 H3]. split; [by transitivity s'|done].
Qed.
Lemma ok_mono {A} (m : P A) s (Q R : A -> ptr -> Prop) : ok m s Q -> (forall a s', Q a s' -> R a s') -> ok m s R.
Proof. unfold ok. destruct (m s); try done. intros [H1 H2] H. split; [done|by apply H]. Qed.
Lemma ok_gets s (Q : ptr -> ptr -> Prop) : Q s s -> ok (gets id) s Q.
Proof. by split. Qed.

Section Line.
Context (line : list Z) (Hnul : 0 ∉ line).

Lemma suffix_nul (s : ptr) c r : s `suffix_of` line -> s = c :: r -> (c =? 0) = false.
Proof. intros [k E] ->. apply Z.eqb_neq. intros ->. apply Hnul. rewrite E. set_solver. Qed.
Lemma skip_ws_suffix s : skip_ws s `suffix_of` s.
Proof. destruct (skip_ws_app s) as (w & E & _). exists w. done. Qed.

Lemma gettoken_ok s :
  s `suffix_of` line ->
  ok gettoken s (fun '(tok, q, eq) s' =>
    (tok = 97 -> word_ok line (q, eq)) /\ ((length s' < length s)%nat \/ (tok = 0 /\ s' = []))).
Proof.
  intros Hs. unfold ok, gettoken, bind, gets, id; simpl. unfold gettoken_at. cbv zeta.
  pose proof (skip_ws_suffix s) as Hq. pose proof (skip_ws_length s) as Hl. destruct (skip_ws s) as [|c q] eqn:Eq; simpl.
  { split; [done|]. split; [done|by right]. }
  assert (c :: q `suffix_of` line) as Hcq by (by transitivity s). rewrite (suffix_nul _ c q Hcq eq_refl).
  assert (q `suffix_of` s) as Hqs by (transitivity (c :: q); [by exists [c]|done]). simpl in Hl.
  assert (forall e, e `suffix_of` q -> skip_ws e `suffix_of` s /\ (length (skip_ws e) < length s)%nat) as Hgo.
  { intros e He. split; [transitivity e; [apply skip_ws_suffix|by transitivity q]|].
    pose proof (skip_ws_length e). apply suffix_length in He. lia. }
  destruct ((c =? BAR) || (c =? LPAR) || (c =? RPAR) || (c =? SEMI) || (c =? AMP) || (c =? LT)) eqn:E1; simpl.
  { destruct (Hgo q) as [G1 G2]; [done|]. split; [done|]. split; [|by left]. intros ->. by vm_compute in E1. }
  destruct (Z.eqb_spec c GT) as [->|N2].
  { assert (tl q `suffix_of` q) as Ht by (destruct q; [done|by exists [z]]).
    destruct (Hgo q) as [G1 G2]; [done|]. destruct (Hgo (tl q) Ht) as [G3 G4]. destruct (at_ptr q =? GT); simpl; (split; [done|]); (split; [done|by left]). }
  assert (wordch c) as Hc.
  { split; [by eapply skip_ws_head|]. destruct (strchr symbols c) eqn:E'; [|done]. apply strchr_In in E'. exfalso.
    unfold symbols, BAR, LPAR, RPAR, SEMI, AMP, LT, GT in *. rewrite !elem_of_cons in E'.
    repeat match goal with H : (_ || _) = false |- _ => apply orb_false_iff in H as [? ?] end.
    repeat match goal with H : (_ =? _) = false |- _ => apply Z.eqb_neq in H end. set_solver. }
  destruct (skip_word_app symbols (c :: q)) as (w & E & HF & Hn). set (e := skip_word symbols (c :: q)) in *.
  assert (w <> []) as Hw. { intros ->. simpl in E. destruct Hc as [C1 C2]. destruct (Hn c q); [by rewrite E| |]; congruence. }
  assert (e `suffix_of` q) as He. { destruct w as [|c' w]; [done|]. injection E as _ E. by exists w. }
  destruct (Hgo e He) as [G1 G2]. change (if negb (strchr whitespace c) && negb (strchr symbols c) then skip_word symbols q else c :: q) with e.
  simpl. split; [done|]. split; [|by left]. intros _. split; simpl; [done|by exists w|].
  intros c' r Er [C1 C2]. destruct (Hn c' r Er); congruence.
Qed.

Lemma peek_ok toks s :
  s `suffix_of` line -> ok (peek toks) s (fun b s' => s' = skip_ws s /\ (b = true -> (0 < length s')%nat)).
Proof.
  intros Hs. unfold ok, peek, bind, gets, id; simpl. split; [apply skip_ws_suffix|]. split; [done|].
  destruct (skip_ws s); simpl; [done|lia].
Qed.

Lemma redir_of_ok tok q eq : word_ok line (q, eq) -> wrap_ok line (redir_of tok q eq).
Proof.
  intros Hw c Hc. unfold redir_of, redircmd. repeat case_match; try done; apply Forall_app; (split; [done|by constructor]).
Qed.

Lemma parseredirs_ok wrap s : s `suffix_of` line -> wrap_ok line wrap -> ok (parseredirs wrap) s (fun f _ => wrap_ok line f).
Proof.
  intros Hs Hw. unfold parseredirs. apply ok_bind, ok_gets. intros _.
  assert (forall fuel s wrap, s `suffix_of` line -> wrap_ok line wrap -> (length s < fuel)%nat ->
    ok (parseredirs_loop fuel wrap) s (fun f _ => wrap_ok line f)) as Hx; [|apply Hx; [done|done|lia]].
  clear s wrap Hs Hw. induction fuel as [|f IH]; intros s wrap Hs Hw Hf; [lia|]. cbn [parseredirs_loop].
  apply ok_bind. eapply ok_mono; [by apply peek_ok|]. intros b s1 [-> Hb] Hs1. destruct b; [|by apply ok_ret].
  apply ok_bind. eapply ok_mono; [apply gettoken_ok; by transitivity s|]. intros [[tok q0] eq0] s2 [_ Hl] Hs2.
  apply ok_bind. eapply ok_mono; [apply gettoken_ok; transitivity (skip_ws s); [done|by transitivity s]|].
  intros [[t q] eq] s3 [Ha _] Hs3. destruct (Z.eqb_spec t 97) as [->|]; [|apply ok_panic]. cbn [negb].
  specialize (Hb eq_refl). apply IH.
  - transitivity s2; [done|]. transitivity (skip_ws s); [done|]. by transitivity s.
  - intros c Hc. apply redir_of_ok; [by apply Ha|by apply Hw].
  - apply suffix_length in Hs1, Hs2, Hs3. destruct Hl as [|[_ ->]]; simpl in *; lia.
Qed.

Lemma parseexec_loop_ok : forall fuel argv wrap s,
  s `suffix_of` line -> Forall (word_ok line) argv -> wrap_ok line wrap -> (MAXARGS <= fuel + length argv)%nat -> (length argv < MAXARGS)%nat ->
  ok (parseexec_loop fuel argv wrap) s (fun c _ => cmd_ok line c).
Proof.
  induction fuel as [|f IH]; intros argv wrap s Hs Hf Hw Hm Hn; [lia|]. cbn [parseexec_loop].
  apply ok_bind. eapply ok_mono; [by apply peek_ok|]. intros b s1 [-> Hb] Hs1. destruct b; [by apply ok_ret, Hw|].
  apply ok_bind. eapply ok_mono; [apply gettoken_ok; by transitivity s|]. intros [[tok q] eq] s2 [Ha _] Hs2.
  destruct (Z.eqb_spec tok 0); [by apply ok_ret, Hw|]. destruct (Z.eqb_spec tok 97) as [->|]; [|apply ok_panic]. cbn [negb].
  destruct (decide _) as [|Hd]; [apply ok_panic|]. assert (s2 `suffix_of` line) as Hs2l by (transitivity (skip_ws s); [done|by transitivity s]).
  apply ok_bind. eapply ok_mono; [by apply parseredirs_ok|]. intros wrap' s3 Hw' Hs3. apply IH; [by transitivity s2| |done| |].
  - apply Forall_app. split; [done|]. constructor; [by apply Ha|constructor].
  - rewrite length_app. simpl. lia.
  - lia.
Qed.

Lemma back_loop_ok : forall fuel c s,
  s `suffix_of` line -> cmd_ok line c -> (length s < fuel)%nat -> ok (back_loop fuel c) s (fun c _ => cmd_ok line c).
Proof.
  induction fuel as [|f IH]; intros c s Hs Hc Hf; [lia|]. cbn [back_loop].
  apply ok_bind. eapply ok_mono; [by apply peek_ok|]. intros b s1 [-> Hb] Hs1. destruct b; [|by apply ok_ret].
  apply ok_bind. eapply ok_mono; [apply gettoken_ok; by transitivity s|]. intros [[tok q] eq] s2 [_ Hl] Hs2.
  specialize (Hb eq_refl). apply IH; [transitivity (skip_ws s); [done|by transitivity s]|done|].
  apply suffix_length in Hs1, Hs2. destruct Hl as [|[_ ->]]; simpl in *; lia.
Qed.

(** Consuming an operator after [peek] has seen it. *)
Lemma operator_ok {A} (m : P A) s Q :
  s `suffix_of` line -> (0 < length s)%nat ->
  (forall s', s' `suffix_of` line -> (length s' < length s)%nat -> ok m s' Q) -> ok (gettoken ;; m) s Q.
Proof.
  intros Hs Hl Hm. apply ok_bind. eapply ok_mono; [by apply gettoken_ok|]. intros [[tok q] eq] s2 [_ H] Hs2.
  apply Hm; [by transitivity s|]. destruct H as [|[_ ->]]; simpl; lia.
Qed.

Definition parses (n k : nat) (m : P (cmd word)) : Prop :=
  forall s, s `suffix_of` line -> (4 * length s + k <= n)%nat -> ok m s (fun c _ => cmd_ok line c).
Lemma parser_ok : forall n, parses n 4 (parseline n) /\ parses n 3 (parsepipe n) /\ parses n 2 (parseexec n) /\ parses n 1 (parseblock n).
Proof.
  induction n as [|n (IHl & IHp & IHe & IHb)]; [repeat split; intros s Hs Hn; lia|]. repeat split; intros s Hs Hn.
  - cbn [parseline]. apply ok_bind. eapply ok_mono; [apply IHp; [done|lia]|]. intros c s1 Hc Hs1.
    assert (s1 `suffix_of` line) as Hs1l by (by transitivity s).
    apply ok_bind, ok_gets. intros _. apply ok_bind. eapply ok_mono; [apply back_loop_ok; [done|done|lia]|]. intros c' s2 Hc' Hs2.
    assert (s2 `suffix_of` line) as Hs2l by (by transitivity s1).
    apply ok_bind. eapply ok_mono; [by apply peek_ok|]. intros b s3 [-> Hb] Hs3. destruct b; [|by apply ok_ret].
    apply operator_ok; [by transitivity s2|by apply Hb|]. intros s4 Hs4 Hl.
    apply ok_bind. eapply ok_mono; [apply IHl; [done|apply suffix_length in Hs1, Hs2, Hs3; lia]|]. intros r s5 Hr _. apply ok_ret. by apply Forall_app.
  - cbn [parsepipe]. apply ok_bind. eapply ok_mono; [apply IHe; [done|lia]|]. intros c s1 Hc Hs1.
    assert (s1 `suffix_of` line) as Hs1l by (by transitivity s).
    apply ok_bind. eapply ok_mono; [by apply peek_ok|]. intros b s3 [-> Hb] Hs3. destruct b; [|by apply ok_ret].
    apply operator_ok; [by transitivity s1|by apply Hb|]. intros s4 Hs4 Hl.
    apply ok_bind. eapply ok_mono; [apply IHp; [done|apply suffix_length in Hs1, Hs3; lia]|]. intros r s5 Hr _. apply ok_ret. by apply Forall_app.
  - cbn [parseexec]. apply ok_bind. eapply ok_mono; [by apply peek_ok|]. intros b s1 [-> Hb] Hs1.
    assert (skip_ws s `suffix_of` line) as Hs1l by (by transitivity s).
    destruct b; [apply IHb; [done|apply suffix_length in Hs1; lia]|].
    apply ok_bind. eapply ok_mono; [apply parseredirs_ok; [done|intros ? ?; done]|]. intros wrap s2 Hw Hs2.
    apply parseexec_loop_ok; [by transitivity (skip_ws s)|constructor|done|cbn [length]; lia|unfold MAXARGS; simpl; lia].
  - cbn [parseblock]. apply ok_bind. eapply ok_mono; [by apply peek_ok|]. intros b s1 [-> Hb] Hs1.
    assert (skip_ws s `suffix_of` line) as Hs1l by (by transitivity s).
    destruct b; [|apply ok_panic]. cbn [negb]. apply operator_ok; [done|by apply Hb|]. intros s2 Hs2 Hl.
    apply suffix_length in Hs1. apply ok_bind. eapply ok_mono; [apply IHl; [done|lia]|]. intros c s3 Hc Hs3.
    assert (s3 `suffix_of` line) as Hs3l by (by transitivity s2).
    apply ok_bind. eapply ok_mono; [by apply peek_ok|]. intros b s4 [-> Hb4] Hs4. destruct b; [|apply ok_panic]. cbn [negb].
    apply operator_ok; [by transitivity s3|by apply Hb4|]. intros s5 Hs5 _.
    apply ok_bind. eapply ok_mono; [apply parseredirs_ok; [done|intros ? ?; done]|]. intros wrap s6 Hw _. apply ok_ret. by apply Hw.
Qed.
End Line.

(** ** [nulterminate] *)
Lemma nulterminate_words buf c : nulterminate buf c = foldl terminate buf (words c).
Proof.
  revert buf. induction c as [argv|c IH f m fd|l IHl r IHr|l IHl r IHr|c IH]; intros buf; simpl; rewrite ?foldl_app; [done| | | |done].
  - simpl. by rewrite IH.
  - by rewrite IHl, IHr.
  - by rewrite IHl, IHr.
Qed.
Lemma terminate_length buf ws : length (foldl terminate buf ws) = length buf.
Proof. revert buf. induction ws as [|w ws IH]; intros buf; simpl; [done|]. rewrite IH. unfold terminate. apply length_insert. Qed.
(** The places that become NUL. *)
Lemma terminate_lookup ws : forall buf i,
  (i < length buf)%nat ->
  foldl terminate buf ws !! i =
    if decide (Exists (fun w : word => i = length buf - length (snd w))%nat ws) then Some 0 else buf !! i.
Proof.
  induction ws as [|w ws IH]; intros buf i Hi; cbn [foldl]; [rewrite decide_False; [done|intros H; inversion H]|].
  assert (length (terminate buf w) = length buf) as El by apply length_insert.
  rewrite IH by lia. rewrite El. case_decide as H.
  - rewrite decide_True by (by right). done.
  - unfold terminate. destruct (decide (i = length buf - length (snd w))%nat) as [E|E].
    + rewrite decide_True by (by left). rewrite <- E. by apply list_lookup_insert_eq.
    + rewrite decide_False by (by rewrite Exists_cons; intros [|]). by apply list_lookup_insert_ne.
Qed.

(** Reading back a word of the terminated line. *)
Lemma string_at_word line ws w :
  0 ∉ line -> Forall (word_ok line) ws -> w ∈ ws ->
  string_at (foldl terminate line ws) (fst w) = text (fst w) (snd w).
Proof.
  intros Hnul HF Hw. rewrite Forall_forall in HF. destruct (HF w Hw) as [[k Ek] (t & Et & Ht & Hne) He].
  unfold string_at. rewrite terminate_length. destruct w as [q eq]; simpl in *. subst q. rewrite text_word.
  assert (length line = length k + length t + length eq)%nat as El by (rewrite Ek, !length_app; lia).
  replace (length line - length (t ++ eq))%nat with (length k) by (rewrite length_app; lia).
  set (buf := foldl terminate line ws). assert (length buf = length line) as Hb by apply terminate_length.
  assert (take (length t) (drop (length k) buf) = t) as Htake.
  { apply list_eq_same_length with (n := length t); [done|rewrite length_take, length_drop; lia|].
    intros j x y Hj Hx Hy. rewrite lookup_take_lt, lookup_drop in Hx by lia.
    unfold buf in Hx. rewrite terminate_lookup in Hx by lia.
    assert (line !! (length k + j)%nat = Some y) as Hl by (rewrite Ek, lookup_app_r, lookup_app_l by lia; replace (length k + j - length k)%nat with j by lia; done).
    case_decide as HE; [|congruence]. exfalso. apply Exists_exists in HE as ([q' eq'] & Hin & Ei). simpl in Ei.
    destruct (HF _ Hin) as [[k' Ek'] (t' & Et' & _) He']. simpl in *. subst q'.
    assert (length line = length k' + length t' + length eq')%nat as El' by (rewrite Ek', !length_app; lia).
    rewrite Ek', app_assoc, lookup_app_r in Hl by (rewrite length_app; lia).
    replace (length k + j - length (k' ++ t'))%nat with 0%nat in Hl by (rewrite length_app; lia).
    destruct eq' as [|c r]; [done|]. injection Hl as ->. apply (He' y r eq_refl). rewrite Forall_forall in Ht. apply Ht.
    by eapply list_elem_of_lookup_2. }
  rewrite <- (take_drop (length t) (drop (length k) buf)), Htake. apply c_string_prefix.
  - intros H0. apply Hnul. rewrite Ek. set_solver.
  - rewrite drop_drop. destruct eq as [|c r].
    + left. apply nil_length_inv. rewrite length_drop, Hb. simpl in El. lia.
    + right. assert (buf !! (length k + length t)%nat = Some 0) as H0.
      { unfold buf. rewrite terminate_lookup by (simpl in El; lia). case_decide as HE; [done|]. destruct HE.
        apply Exists_exists. exists (t ++ c :: r, c :: r). split; [done|]. simpl in *. lia. }
      apply drop_S in H0. rewrite H0. by eexists.
Qed.

Lemma map_words_ext {A B} (f g : A -> B) (c : cmd A) : (forall w, w ∈ words c -> f w = g w) -> map_words f c = map_words g c.
Proof.
  induction c as [argv|c IH f0 m fd|l IHl r IHr|l IHl r IHr|c IH]; simpl; intros H.
  - f_equal. apply list_fmap_ext. intros i x Hx. apply H. by eapply list_elem_of_lookup_2.
  - rewrite IH by set_solver. f_equal. apply H. set_solver.
  - rewrite IHl, IHr by set_solver. done.
  - rewrite IHl, IHr by set_solver. done.
  - by rewrite IH.
Qed.

(** C19: the parser of the xv6 shell is total: on every line it returns a command
    or reports a syntax error, and never loops.  The words of the command are
    runs of word characters of the line; after [nulterminate] has overwritten
    the character behind each of them, every pointer in the command reads as
    exactly its word: no terminator cuts another word. *)
Theorem parsecmd_total line :
  0 ∉ line ->
  match parsecmd line with
  | Ret (c, buf) _ => map_words (fun w => string_at buf (fst w)) c = map_words (fun w => text (fst w) (snd w)) c /\
      forall w, w ∈ words c -> Forall wordch (text (fst w) (snd w)) /\ text (fst w) (snd w) <> []
  | Panic _ => True
  | _ => False
  end.
Proof.
  intros Hnul. assert (ok (parse_all line) line (fun c _ => cmd_ok line c)) as Hp.
  { unfold parse_all. apply ok_bind. eapply ok_mono; [apply (parser_ok line Hnul); [done|lia]|]. intros c s1 Hc Hs1.
    apply ok_bind. eapply ok_mono; [by apply (peek_ok line)|]. intros b s2 [-> _] Hs2. apply ok_bind, ok_gets. intros _.
    unfold id. destruct (skip_ws s1); [by apply ok_ret|apply ok_panic]. }
  unfold parsecmd. unfold ok in Hp. destruct (parse_all line line) as [c r| | | | |]; try done. destruct Hp as [_ Hc].
  split.
  - apply map_words_ext. intros w Hw. rewrite nulterminate_words. by apply string_at_word.
  - intros w Hw. unfold cmd_ok in Hc. rewrite Forall_forall in Hc. destruct (Hc w Hw) as [_ (t & Et & Ht & Hne) _].
    rewrite Et, text_word. done.
Qed.
Lemma parsecmd_total_witness :
  match parsecmd (bytes "ls>f;(a|b)") with
  | Ret (c, buf) _ => map_words (fun w => string_at buf (fst w)) c = map_words (fun w => text (fst w) (snd w)) c
  | _ => False
  end.
Proof.
  assert (0 ∉ bytes "ls>f;(a|b)") as H by (apply (bool_decide_unpack _); vm_compute; exact I).
  pose proof (parsecmd_total (bytes "ls>f;(a|b)") H) as Ht.
  assert (exists c b r, parsecmd (bytes "ls>f;(a|b)") = Ret (c, b) r) as (c & b & r & E) by (eexists _, _, _; vm_compute; reflexivity).
  rewrite E in Ht. rewrite E. exact (proj1 Ht).
Defined.

End Sh.
