(* ===== verification/ShellPrint.v ===== *)
(** * Printing and parsing shell commands

    A printer for the commands of [sh.c], with parentheses where they are
    needed, and the proof that [parseline] reads back what it prints. *)

From stdpp Require Import gmap.
From S2P Require Import Prelude Mmu Shlex Shell.

Module ShPrint.
Import Sh.

(** ** The printer *)
Definition command : Type := cmd (list Z).
(** The place where a command stands: a line, the left side of [;], a part of a
    pipe, the left side of [|]. *)
Inductive place := Line | Item | Pipe | Simple.
Definition paren (b : bool) (ts : list (list Z)) : list (list Z) := if b then [[LPAR]] ++ ts ++ [[RPAR]] else ts.
Definition redir_sym (fd : Z) : list Z := if fd =? 0 then [LT] else [GT].
Fixpoint show (p : place) (c : command) : list (list Z) :=
  match c with
  | EXEC argv => argv
  | REDIR c file _ fd => show Simple c ++ [redir_sym fd; file]
  | PIPE l r => paren (match p with Simple => true | _ => false end) (show Simple l ++ [[BAR]] ++ show Pipe r)
  | LIST l r => paren (match p with Line => false | _ => true end) (show Item l ++ [[SEMI]] ++ show Line r)
  | BACK c => paren (match p with Line | Item => false | _ => true end) (show Item c ++ [[AMP]])
  end.
(** The text: every token followed by a space. *)
Definition spell (ts : list (list Z)) : list Z := flat_map (fun t => t ++ [32]) ts.
Lemma spell_cons t ts : spell (t :: ts) = t ++ 32 :: spell ts.
Proof. unfold spell; simpl. by rewrite <- app_assoc. Qed.
#[local] Arguments spell : simpl never.
Definition print (c : command) : list Z := spell (show Line c).

(** ** Printable commands *)
Definition good_word (w : list Z) : Prop := Forall wordch w /\ 0 ∉ w /\ w <> [].
Fixpoint printable (c : command) : Prop :=
  match c with
  | EXEC argv => Forall good_word argv /\ (length argv < MAXARGS)%nat
  | REDIR c file mode fd => printable c /\ good_word file /\
      ((mode = O_RDONLY /\ fd = 0) \/ (mode = Z.lor O_WRONLY O_CREATE /\ fd = 1))
  | PIPE l r | LIST l r => printable l /\ printable r
  | BACK c => printable c
  end.

(** ** Tokens *)
Definition good_tok (t : list Z) : Prop := good_word t \/ exists c, t = [c] /\ c ∈ symbols.
Definition code (t : list Z) : Z := if strchr symbols (hd 0 t) then hd 0 t else 97.

Lemma good_word_head w : good_word w -> exists c w', w = c :: w' /\ wordch c /\ c <> 0.
Proof. intros (H1 & H2 & H3). destruct w as [|c w]; [done|]. exists c, w. inversion H1; subst. set_solver. Qed.
Lemma good_tok_head t : good_tok t -> exists c t', t = c :: t' /\ strchr whitespace c = false /\ c <> 0.
Proof.
  intros [(c & w & -> & [H1 _] & H2)%good_word_head|(c & -> & Hc)]; [by exists c, w|]. exists c, []. split; [done|].
  unfold symbols in Hc. rewrite !elem_of_cons, elem_of_nil in Hc. naive_solver.
Qed.
Lemma skip_ws_spell ts : Forall good_tok ts -> skip_ws (spell ts) = spell ts.
Proof.
  intros H. destruct ts as [|t ts]; [done|]. inversion H as [|? ? Ht _]; subst.
  destruct (good_tok_head t Ht) as (c & t' & -> & Hc & _). rewrite spell_cons. simpl. by rewrite Hc.
Qed.
Lemma skip_ws_space ts : Forall good_tok ts -> skip_ws (32 :: spell ts) = spell ts.
Proof. intros H. simpl. by apply skip_ws_spell. Qed.

Lemma peek_spell toks ts :
  Forall good_tok ts -> peek toks (spell ts) = Ret (match ts with [] => false | t :: _ => strchr toks (hd 0 t) end) (spell ts).
Proof.
  intros H. unfold peek, bind, gets, id; simpl. rewrite skip_ws_spell by done. f_equal.
  destruct ts as [|t ts]; [done|]. inversion H as [|? ? Ht _]; subst. destruct (good_tok_head t Ht) as (c & t' & -> & _ & Hc).
  rewrite spell_cons. simpl. apply truth_true in Hc. by rewrite Hc.
Qed.

Lemma skip_word_good w r : Forall wordch w -> (forall c r', r = c :: r' -> strchr whitespace c = true) -> skip_word symbols (w ++ r) = r.
Proof.
  intros H Hr. induction H as [|c w [H1 H2] _ IH]; simpl.
  - destruct r as [|c r]; [done|]. simpl. by rewrite (Hr c r eq_refl).
  - by rewrite H1, H2.
Qed.
Lemma gettoken_spell t ts :
  Forall good_tok (t :: ts) ->
  exists q eq, gettoken (spell (t :: ts)) = Ret (code t, q, eq) (spell ts) /\ (good_word t -> code t = 97 /\ text q eq = t).
Proof.
  intros H. inversion H as [|? ? Ht Hts]; subst.
  assert (spell (t :: ts) = t ++ 32 :: spell ts) as Es by apply spell_cons.
  exists (t ++ 32 :: spell ts), (32 :: spell ts). rewrite text_word. split.
  2: { intros (c & w & -> & [_ Hs] & _)%good_word_head. unfold code. simpl. by rewrite Hs. }
  unfold gettoken, bind, gets, id; simpl. unfold gettoken_at. rewrite skip_ws_spell, Es by done. cbv zeta.
  destruct Ht as [Hw|(c & -> & Hc)].
  - destruct (good_word_head t Hw) as (c & w & -> & [H1 H2] & H0). destruct Hw as (Hw & _ & _).
    unfold code. simpl hd. rewrite H2. change (at_ptr ((c :: w) ++ 32 :: spell ts)) with c. apply Z.eqb_neq in H0. rewrite H0.
    assert (((c =? BAR) || (c =? LPAR) || (c =? RPAR) || (c =? SEMI) || (c =? AMP) || (c =? LT)) = false /\ (c =? GT) = false) as [-> ->].
    { assert (forall x, x ∈ symbols -> (c =? x) = false) as Hx.
      { intros x Hx. apply Z.eqb_neq. intros ->. apply strchr_In in Hx. congruence. }
      rewrite !Hx; [done|unfold symbols, BAR, LPAR, RPAR, SEMI, AMP, LT, GT; set_solver..]. }
    rewrite skip_word_good by (done || by intros ? ? [= <- _]). rewrite skip_ws_space by done. done.
  - unfold symbols in Hc. rewrite !elem_of_cons, elem_of_nil in Hc.
    destruct Hc as [->|[->|[->|[->|[->|[->|[->|[]]]]]]]]; cbn -[skip_ws spell]; by rewrite skip_ws_space.
Qed.

(** ** The parser on printed tokens *)
Definition word_text (w : word) : list Z := text (fst w) (snd w).
(** [m] reads [c] off the text of [ts] and leaves [ts']. *)
Definition reads (m : P (cmd word)) (ts : list (list Z)) (c : command) (ts' : list (list Z)) : Prop :=
  exists c', m (spell ts) = Ret c' (spell ts') /\ map_words word_text c' = c.

(** The tokens that may follow: nothing, or one of [follow]. *)
Definition follows (follow : list Z) (ts : list (list Z)) : Prop :=
  Forall good_tok ts /\ match ts with [] => True | t :: _ => exists c, t = [c] /\ c ∈ follow end.
Lemma follows_peek follow toks ts :
  follows follow ts -> (forall c, c ∈ follow -> c ∉ toks) -> peek toks (spell ts) = Ret false (spell ts).
Proof.
  intros [HG Hf] Hd. rewrite peek_spell by done. f_equal. destruct ts as [|t ts]; [done|]. destruct Hf as (c & -> & Hc). simpl.
  destruct (strchr toks c) eqn:E; [|done]. apply strchr_In in E. by destruct (Hd c Hc).
Qed.
Lemma follows_mono f f' ts : follows f ts -> (forall c, c ∈ f -> c ∈ f') -> follows f' ts.
Proof. intros [H1 H2] Hf. split; [done|]. destruct ts; [done|]. destruct H2 as (c & -> & Hc). exists c. auto. Qed.
Lemma follows_op f c ts : c ∈ f -> c ∈ symbols -> Forall good_tok ts -> follows f ([c] :: ts).
Proof. intros H1 H2 H3. split; [constructor; [right; by exists c|done]|by exists c]. Qed.

Definition after_simple : list Z := [BAR; RPAR; AMP; SEMI].
Definition after_pipe : list Z := [RPAR; AMP; SEMI].
Definition after_line : list Z := [RPAR].

(** Redirections, in the order of the line. *)
Definition rd : Type := list Z * Z * Z.
Definition rd_ok (r : rd) : Prop := let '(f, m, d) := r in good_word f /\ ((m = O_RDONLY /\ d = 0) \/ (m = Z.lor O_WRONLY O_CREATE /\ d = 1)).
Definition rd_toks (rs : list rd) : list (list Z) := flat_map (fun '(f, _, d) => [redir_sym d; f]) rs.
Definition rd_wrap (rs : list rd) (c : command) : command := foldl (fun c '(f, m, d) => REDIR c f m d) c rs.
Lemma redir_sym_good d : good_tok (redir_sym d) /\ strchr [LT; GT] (hd 0 (redir_sym d)) = true.
Proof. unfold redir_sym. destruct (d =? 0); (split; [right; eexists; split; [done|]; unfold symbols, LT, GT; set_solver|done]). Qed.
Lemma rd_toks_good rs : Forall rd_ok rs -> Forall good_tok (rd_toks rs).
Proof.
  induction 1 as [|[[f m] d] rs [Hf _] _ IH]; [constructor|]. simpl. constructor; [apply redir_sym_good|]. constructor; [by left|done].
Qed.

(** What may follow redirections: no further one. *)
Definition no_redir (ts : list (list Z)) : Prop := Forall good_tok ts /\ match ts with [] => True | t :: _ => strchr [LT; GT] (hd 0 t) = false end.
Lemma parseredirs_reads rs : forall ts wrap,
  Forall rd_ok rs -> no_redir ts ->
  exists wrap', parseredirs wrap (spell (rd_toks rs ++ ts)) = Ret wrap' (spell ts) /\
    forall c, map_words word_text (wrap' c) = rd_wrap rs (map_words word_text (wrap c)).
Proof.
  intros ts wrap HF [Hts Hh]. unfold parseredirs. erewrite bind_Ret by reflexivity. cbv beta. unfold id.
  assert (length rs < S (length (spell (rd_toks rs ++ ts))))%nat as Hf.
  { clear. induction rs as [|[[f m] d] rs IH]; simpl; [lia|]. rewrite !spell_cons, !length_app. simpl. rewrite length_app. simpl in *. lia. }
  revert Hf. generalize (S (length (spell (rd_toks rs ++ ts)))) as fuel. intros fuel. revert fuel wrap.
  induction HF as [|[[f m] d] rs [Hf Hm] HF IH]; intros fuel wrap Hl; (destruct fuel as [|fuel]; [simpl in Hl; lia|]); cbn [parseredirs_loop].
  - exists wrap. simpl. rewrite (bind_Ret _ _ _ _ _ (peek_spell _ _ Hts)). split; [|done]. destruct ts; [done|]. by rewrite Hh.
  - simpl rd_toks. assert (Forall good_tok (redir_sym d :: f :: rd_toks rs ++ ts)) as HG.
    { constructor; [apply redir_sym_good|]. constructor; [by left|]. apply Forall_app. split; [by apply rd_toks_good|done]. }
    simpl app. rewrite (bind_Ret _ _ _ _ _ (peek_spell _ _ HG)). rewrite (proj2 (redir_sym_good d)).
    destruct (gettoken_spell _ _ HG) as (q0 & e0 & R1 & _). rewrite (bind_Ret _ _ _ _ _ R1). inversion HG as [|? ? _ HG']; subst.
    destruct (gettoken_spell _ _ HG') as (q & e & R2 & Hw). rewrite (bind_Ret _ _ _ _ _ R2). destruct (Hw Hf) as [-> Et].
    cbn [Z.eqb negb]. destruct (IH fuel (fun c => redir_of (code (redir_sym d)) q e (wrap c))) as (wrap' & R & HW); [simpl in Hl; lia|].
    exists wrap'. split; [exact R|]. intros c. rewrite HW. unfold rd_wrap. simpl. f_equal.
    destruct Hm as [[-> ->]|[-> ->]]; cbn; unfold word_text; simpl; by rewrite Et.
Qed.

(** Words followed by redirections. *)
Lemma exec_reads argv rs ts : forall fuel acc wrap,
  Forall good_word argv -> Forall rd_ok rs -> follows after_simple ts -> argv <> [] ->
  (length acc + length argv < MAXARGS)%nat -> (MAXARGS <= fuel + length acc)%nat ->
  exists c', parseexec_loop fuel acc wrap (spell (argv ++ rd_toks rs ++ ts)) = Ret c' (spell ts) /\
    exists acc', word_text <$> acc' = (word_text <$> acc) ++ argv /\
    map_words word_text c' = rd_wrap rs (map_words word_text (wrap (EXEC acc'))).
Proof.
  assert (forall fuel acc wrap, follows after_simple ts -> parseexec_loop (S fuel) acc wrap (spell ts) = Ret (wrap (EXEC acc)) (spell ts)) as Hend.
  { intros fuel acc wrap [HG Hf]. cbn [parseexec_loop]. rewrite (bind_Ret _ _ _ _ _ (peek_spell _ _ HG)).
    destruct ts as [|t ts']; [done|]. destruct Hf as (c & -> & Hc). cbn [hd].
    assert (strchr [BAR; RPAR; AMP; SEMI] c = true) as -> by (by apply strchr_In). done. }
  induction argv as [|w argv IH]; intros fuel acc wrap HF HR Hts Hne Hl Hm; [done|].
  inversion HF as [|? ? Hw HF']; subst. destruct fuel as [|fuel]; [simpl in Hl; lia|]. cbn [parseexec_loop].
  assert (Forall good_tok ((w :: argv) ++ rd_toks rs ++ ts)) as HG.
  { apply Forall_app. split; [eapply Forall_impl; [exact HF|intros ? ?; by left]|]. apply Forall_app. split; [by apply rd_toks_good|apply Hts]. }
  rewrite (bind_Ret _ _ _ _ _ (peek_spell _ _ HG)). simpl app.
  destruct (good_word_head w Hw) as (ch & w' & Ew & [_ Hsym] & _).
  assert (forall toks, (forall c, c ∈ toks -> c ∈ symbols) -> strchr toks (hd 0 w) = false) as Hnot.
  { intros toks Hsub. destruct (strchr toks (hd 0 w)) eqn:E; [|done]. apply strchr_In, Hsub, strchr_In in E. rewrite Ew in E. simpl in E. congruence. }
  rewrite Hnot by (unfold symbols, BAR, RPAR, AMP, SEMI; set_solver).
  destruct (gettoken_spell _ _ HG) as (q & e & R & Hq). simpl app in R. rewrite (bind_Ret _ _ _ _ _ R). destruct (Hq Hw) as [-> Et].
  change (97 =? 0) with false. change (97 =? 97) with true. cbv beta match delta [negb].
  destruct (decide _) as [Hd|_]; [rewrite length_app in Hd; simpl in *; lia|].
  inversion HG as [|? ? _ HG']; subst. destruct argv as [|w2 argv].
  - destruct (parseredirs_reads rs ts wrap HR) as (wrap' & R2 & HW); [split; [apply Hts|]|].
    { destruct Hts as [_ Hf]. destruct ts as [|t ts']; [done|]. destruct Hf as (c & -> & Hc). simpl. unfold after_simple in Hc.
      rewrite !elem_of_cons, elem_of_nil in Hc. naive_solver. }
    cbn [app]. rewrite (bind_Ret _ _ _ _ _ R2). destruct fuel as [|fuel]; [simpl in *; lia|]. rewrite Hend by done.
    eexists. split; [done|]. exists (acc ++ [(q, e)]). split; [|by rewrite HW]. rewrite fmap_app. simpl. unfold word_text at 2. simpl. by rewrite Et.
  - inversion HF' as [|? ? Hw2 _]; subst.
    destruct (parseredirs_reads [] ((w2 :: argv) ++ rd_toks rs ++ ts) wrap) as (wrap' & R2 & HW); [constructor|split; [done|]|].
    { destruct (good_word_head w2 Hw2) as (c2 & w2' & -> & [_ Hs2] & _). simpl. destruct (strchr [LT; GT] c2) eqn:E; [|done].
      apply strchr_In in E. assert (c2 ∈ symbols) as Hin by (unfold symbols; unfold LT, GT in E; set_solver). apply strchr_In in Hin. congruence. }
    rewrite (bind_Ret _ _ _ _ _ R2).
    destruct (IH fuel (acc ++ [(q, e)]) wrap' HF' HR Hts ltac:(done)) as (c' & R3 & acc' & E1 & E2).
    { rewrite length_app. simpl in *. lia. } { rewrite length_app. simpl in *. lia. }
    exists c'. split; [exact R3|]. exists acc'. rewrite E1, E2, HW. split; [|done].
    rewrite fmap_app. simpl. unfold word_text at 2. simpl. by rewrite Et, <- app_assoc.
Qed.

(** ** The theorem, by induction on the command *)
Lemma spell_app a b : spell (a ++ b) = spell a ++ spell b.
Proof. unfold spell. apply flat_map_app. Qed.
Lemma sym_good c : c ∈ symbols -> good_tok [c].
Proof. intros H. right. by exists c. Qed.
Lemma show_good c : forall p, printable c -> Forall good_tok (show p c).
Proof.
  assert (forall b ts, Forall good_tok ts -> Forall good_tok (paren b ts)) as Hp.
  { intros b ts H. destruct b; [|done]. unfold paren. constructor; [apply sym_good; unfold symbols, LPAR; set_solver|].
    apply Forall_app. split; [done|]. constructor; [apply sym_good; unfold symbols, RPAR; set_solver|constructor]. }
  induction c as [argv|c IH f m fd|l IHl r IHr|l IHl r IHr|c IH]; intros p H; simpl in H; cbn [show]; try apply Hp; try apply Forall_app.
  - eapply Forall_impl; [apply H|]. intros ? ?. by left.
  - destruct H as (H1 & H2 & _). split; [by apply IH|]. constructor; [apply redir_sym_good|]. constructor; [by left|constructor].
  - destruct H as [H1 H2]. split; [by apply IHl|]. constructor; [apply sym_good; unfold symbols, BAR; set_solver|by apply IHr].
  - destruct H as [H1 H2]. split; [by apply IHl|]. constructor; [apply sym_good; unfold symbols, SEMI; set_solver|by apply IHr].
  - split; [by apply IH|]. constructor; [apply sym_good; unfold symbols, AMP; set_solver|constructor].
Qed.

Definition size (ts : list (list Z)) : nat := length (spell ts).
Lemma size_app a b : size (a ++ b) = (size a + size b)%nat.
Proof. unfold size. by rewrite spell_app, length_app. Qed.
Lemma size_cons c ts : size ([c] :: ts) = (2 + size ts)%nat.
Proof. unfold size. rewrite spell_cons. done. Qed.

Definition reads_simple (c : command) : Prop := forall rs n ts,
  Forall rd_ok rs -> follows after_simple ts -> (4 * size (show Simple c ++ rd_toks rs ++ ts) + 2 <= n)%nat ->
  reads (parseexec n) (show Simple c ++ rd_toks rs ++ ts) (rd_wrap rs c) ts.
Definition reads_pipe (c : command) : Prop := forall n ts,
  follows after_pipe ts -> (4 * size (show Pipe c ++ ts) + 3 <= n)%nat -> reads (parsepipe n) (show Pipe c ++ ts) c ts.
Definition item (n : nat) : P (cmd word) := c <- parsepipe n ;; s <- gets id ;; back_loop (S (length s)) c.
Definition reads_item (c : command) : Prop := forall k n ts,
  follows [RPAR; SEMI] ts -> (4 * size (show Item c ++ replicate k [AMP] ++ ts) + 3 <= n)%nat ->
  reads (item n) (show Item c ++ replicate k [AMP] ++ ts) (Nat.iter k BACK c) ts.
Definition reads_line (c : command) : Prop := forall n ts,
  follows after_line ts -> (4 * size (show Line c ++ ts) + 4 <= n)%nat -> reads (parseline n) (show Line c ++ ts) c ts.

Lemma follows_good f ts : follows f ts -> Forall good_tok ts.
Proof. by intros [H _]. Qed.
(** [peek] and [gettoken] on an operator. *)
Lemma op_spell c toks ts :
  c ∈ symbols -> c ∈ toks -> Forall good_tok ts ->
  peek toks (spell ([c] :: ts)) = Ret true (spell ([c] :: ts)) /\ exists a, gettoken (spell ([c] :: ts)) = Ret a (spell ts).
Proof.
  intros Hc Ht HG. assert (Forall good_tok ([c] :: ts)) as HG' by (constructor; [by apply sym_good|done]). split.
  - rewrite peek_spell by done. simpl. apply strchr_In in Ht. by rewrite Ht.
  - destruct (gettoken_spell _ _ HG') as (q & e & R & _). by eexists.
Qed.
(** A command at [Pipe] that is printed like at [Simple]. *)
Lemma simple_pipe c : show Pipe c = show Simple c -> reads_simple c -> reads_pipe c.
Proof.
  intros E H n ts Hf Hn. rewrite E in *. destruct n as [|n]; [lia|].
  destruct (H [] n ts) as (c' & R & Ec); [by apply Forall_nil|eapply follows_mono; [exact Hf|unfold after_pipe, after_simple; set_solver]|simpl; lia|].
  simpl app in R. exists c'. split; [|done]. cbn [parsepipe]. rewrite (bind_Ret _ _ _ _ _ R).
  rewrite (bind_Ret _ _ _ _ _ (follows_peek _ [BAR] _ Hf ltac:(unfold after_pipe, RPAR, AMP, SEMI, BAR; set_solver))). done.
Qed.
Lemma back_reads k : forall fuel c ts,
  (k < fuel)%nat -> follows [RPAR; SEMI] ts -> back_loop fuel c (spell (replicate k [AMP] ++ ts)) = Ret (Nat.iter k BACK c) (spell ts).
Proof.
  induction k as [|k IH]; intros fuel c ts Hl Hf; (destruct fuel as [|fuel]; [lia|]); cbn [back_loop replicate app].
  - rewrite (bind_Ret _ _ _ _ _ (follows_peek _ [AMP] _ Hf ltac:(unfold RPAR, AMP, SEMI; set_solver))). done.
  - assert (Forall good_tok (replicate k [AMP] ++ ts)) as HG.
    { apply Forall_app. split; [|by eapply follows_good]. apply Forall_replicate, sym_good. unfold symbols, AMP. set_solver. }
    destruct (op_spell AMP [AMP] _ ltac:(unfold symbols, AMP; set_solver) ltac:(set_solver) HG) as (R1 & a & R2).
    rewrite (bind_Ret _ _ _ _ _ R1), (bind_Ret _ _ _ _ _ R2), IH by (done || lia). unfold backcmd. by rewrite Nat.iter_succ_r.
Qed.
Lemma map_iter {A B} (f : A -> B) k c : map_words f (Nat.iter k BACK c) = Nat.iter k BACK (map_words f c).
Proof. induction k; simpl; [done|by f_equal]. Qed.
Lemma pipe_item c : show Item c = show Pipe c -> reads_pipe c -> reads_item c.
Proof.
  intros E H k n ts Hf Hn. rewrite E in *. destruct (H n (replicate k [AMP] ++ ts)) as (c' & R & Ec); [|lia|].
  - split; [|destruct k; [|exists AMP; split; [done|unfold after_pipe; set_solver]]].
    + apply Forall_app. split; [|by eapply follows_good]. apply Forall_replicate, sym_good. unfold symbols, AMP. set_solver.
    + simpl. eapply follows_mono; [exact Hf|]. unfold after_pipe. set_solver.
  - exists (Nat.iter k BACK c'). split; [|by rewrite map_iter, Ec]. unfold item. rewrite (bind_Ret _ _ _ _ _ R).
    erewrite bind_Ret by reflexivity. cbv beta. unfold id. apply back_reads; [|done].
    rewrite spell_app, length_app. assert (k <= length (spell (replicate k [AMP])))%nat; [|lia].
    clear. induction k; [lia|]. simpl replicate. rewrite spell_cons, length_app. simpl. lia.
Qed.
Lemma item_line c : show Line c = show Item c -> reads_item c -> reads_line c.
Proof.
  intros E H n ts Hf Hn. rewrite E in *. destruct n as [|n]; [lia|].
  destruct (H 0%nat n ts) as (c' & R & Ec); [eapply follows_mono; [exact Hf|unfold after_line; set_solver]|simpl; lia|].
  exists c'. split; [|done]. cbn [parseline]. simpl app in R. unfold item in R.
  apply bind_Ret_inv in R as (c1 & s1 & R1 & R). apply bind_Ret_inv in R as (s2 & s3 & R2 & R).
  rewrite (bind_Ret _ _ _ _ _ R1), (bind_Ret _ _ _ _ _ R2), (bind_Ret _ _ _ _ _ R).
  rewrite (bind_Ret _ _ _ _ _ (follows_peek _ [SEMI] _ Hf ltac:(unfold after_line, RPAR, SEMI; set_solver))). done.
Qed.
(** A command in parentheses. *)
Lemma block_simple c : printable c -> show Simple c = paren true (show Line c) -> reads_line c -> reads_simple c.
Proof.
  intros Hp E H rs n ts HR Hf Hn. rewrite E in *. unfold paren in *.
  assert (Forall good_tok (rd_toks rs ++ ts)) as HG by (apply Forall_app; split; [by apply rd_toks_good|by eapply follows_good]).
  assert (Forall good_tok ([RPAR] :: rd_toks rs ++ ts)) as HG1 by (constructor; [apply sym_good; unfold symbols, RPAR; set_solver|done]).
  assert (Forall good_tok (show Line c ++ [RPAR] :: rd_toks rs ++ ts)) as HG2 by (apply Forall_app; split; [by apply show_good|done]).
  assert (([[LPAR]] ++ show Line c ++ [[RPAR]]) ++ rd_toks rs ++ ts = [LPAR] :: (show Line c ++ [RPAR] :: rd_toks rs ++ ts)) as Et
    by (simpl; by rewrite <- app_assoc).
  rewrite Et in *. rewrite size_cons in Hn. destruct n as [|[|n]]; [lia|lia|].
  destruct (op_spell LPAR [LPAR] _ ltac:(unfold symbols, LPAR; set_solver) ltac:(set_solver) HG2) as (P1 & a1 & T1).
  destruct (op_spell RPAR [RPAR] _ ltac:(unfold symbols, RPAR; set_solver) ltac:(set_solver) HG) as (P2 & a2 & T2).
  destruct (H n ([RPAR] :: rd_toks rs ++ ts)) as (c' & R & Ec); [by apply follows_op; [unfold after_line; set_solver|unfold symbols, RPAR; set_solver|]|lia|].
  destruct (parseredirs_reads rs ts (fun c => c) HR) as (wrap & RW & HW).
  { split; [by eapply follows_good|]. destruct Hf as [_ Hf]. destruct ts as [|t ts']; [done|]. destruct Hf as (x & -> & Hx).
    unfold after_simple, BAR, RPAR, AMP, SEMI in Hx. rewrite !elem_of_cons, elem_of_nil in Hx. naive_solver. }
  exists (wrap c'). split; [|by rewrite HW, Ec].
  cbn [parseexec parseblock]. rewrite (bind_Ret _ _ _ _ _ P1), (bind_Ret _ _ _ _ _ P1). cbn [negb].
  rewrite (bind_Ret _ _ _ _ _ T1), (bind_Ret _ _ _ _ _ R), (bind_Ret _ _ _ _ _ P2). cbn [negb].
  rewrite (bind_Ret _ _ _ _ _ T2), (bind_Ret _ _ _ _ _ RW). done.
Qed.
Lemma exec_simple argv : printable (EXEC argv) -> reads_simple (EXEC argv).
Proof.
  intros [HF Hl] rs n ts HR Hf Hn. cbn [show] in *. destruct n as [|n]; [lia|]. cbn [parseexec].
  assert (no_redir ts) as Hno.
  { split; [by eapply follows_good|]. destruct Hf as [_ Hf]. destruct ts as [|t ts']; [done|]. destruct Hf as (x & -> & Hx).
    unfold after_simple, BAR, RPAR, AMP, SEMI in Hx. rewrite !elem_of_cons, elem_of_nil in Hx. naive_solver. }
  assert (Forall good_tok (argv ++ rd_toks rs ++ ts)) as HG.
  { apply Forall_app. split; [eapply Forall_impl; [exact HF|intros ? ?; by left]|]. apply Forall_app. split; [by apply rd_toks_good|by eapply follows_good]. }
  assert (peek [LPAR] (spell (argv ++ rd_toks rs ++ ts)) = Ret false (spell (argv ++ rd_toks rs ++ ts))) as HP.
  { rewrite peek_spell by done. f_equal. destruct argv as [|w argv].
    - destruct rs as [|[[f m] d] rs]; simpl.
      + destruct Hf as [_ Hf]. destruct ts as [|t ts']; [done|]. destruct Hf as (x & -> & Hx).
        unfold after_simple, BAR, RPAR, AMP, SEMI in Hx. rewrite !elem_of_cons, elem_of_nil in Hx. naive_solver.
      + unfold redir_sym. by destruct (d =? 0).
    - inversion HF as [|? ? Hw _]; subst. destruct (good_word_head w Hw) as (c & w' & -> & [_ Hs] & _). simpl.
      destruct (strchr [LPAR] c) eqn:E'; [|done]. apply strchr_In, list_elem_of_singleton in E' as ->. by vm_compute in Hs. }
  unfold reads. cbn [parseexec]. destruct argv as [|w argv].
  - destruct (parseredirs_reads rs ts (fun c => c) HR Hno) as (wrap & RW & HW). exists (wrap (EXEC [])). split; [|by rewrite HW].
    rewrite (bind_Ret _ _ _ _ _ HP), (bind_Ret _ _ _ _ _ RW). unfold MAXARGS. cbn [parseexec_loop].
    rewrite (bind_Ret _ _ _ _ _ (peek_spell _ _ (follows_good _ _ Hf))). destruct Hf as [_ Hf]. destruct ts as [|t ts']; [done|].
    destruct Hf as (x & -> & Hx). cbn [hd]. assert (strchr [BAR; RPAR; AMP; SEMI] x = true) as -> by (by apply strchr_In). done.
  - destruct (parseredirs_reads [] ((w :: argv) ++ rd_toks rs ++ ts) (fun c => c)) as (wrap & RW & HW); [by apply Forall_nil|split; [done|]|].
    { inversion HF as [|? ? Hw _]; subst. destruct (good_word_head w Hw) as (c & w' & -> & [_ Hs] & _). simpl.
      destruct (strchr [LT; GT] c) eqn:E'; [|done]. apply strchr_In in E'.
      assert (c ∈ symbols) as Hin by (unfold symbols; unfold LT, GT in E'; set_solver). apply strchr_In in Hin. congruence. }
    destruct (exec_reads (w :: argv) rs ts MAXARGS [] wrap HF HR Hf ltac:(done)) as (c' & R & acc & Ea & Ec); [simpl in *; lia|cbn [length]; lia|].
    exists c'. rewrite (bind_Ret _ _ _ _ _ HP), (bind_Ret _ _ _ _ _ RW). split; [exact R|].
    rewrite Ec, HW. unfold rd_wrap at 2. simpl. by rewrite Ea.
Qed.

Lemma command_reads c : printable c -> reads_simple c /\ reads_pipe c /\ reads_item c /\ reads_line c.
Proof.
  induction c as [argv|c IH f m fd|l IHl r IHr|l IHl r IHr|c IH]; intros Hp.
  - pose proof (exec_simple argv Hp) as H1. pose proof (simple_pipe (EXEC argv) eq_refl H1) as H2. pose proof (pipe_item (EXEC argv) eq_refl H2) as H3.
    pose proof (item_line (EXEC argv) eq_refl H3). done.
  - destruct Hp as (Hc & Hf & Hm). destruct (IH Hc) as (IH1 & _).
    assert (reads_simple (REDIR c f m fd)) as H1.
    { intros rs n ts HR Hts Hn. cbn [show] in *.
      assert ((show Simple c ++ [redir_sym fd; f]) ++ rd_toks rs ++ ts = show Simple c ++ rd_toks ((f, m, fd) :: rs) ++ ts) as E
        by (simpl; by rewrite <- app_assoc).
      rewrite E in *. apply (IH1 ((f, m, fd) :: rs)); [constructor; done|done|done]. }
    pose proof (simple_pipe (REDIR c f m fd) eq_refl H1) as H2. pose proof (pipe_item (REDIR c f m fd) eq_refl H2) as H3. pose proof (item_line (REDIR c f m fd) eq_refl H3). done.
  - destruct Hp as [Hl Hr]. destruct (IHl Hl) as (IHl1 & _), (IHr Hr) as (_ & IHr2 & _).
    assert (reads_pipe (PIPE l r)) as H2.
    { intros n ts Hts Hn. cbn [show paren] in *. rewrite <- app_assoc in *. rewrite <- app_assoc in *. cbn [app] in *. destruct n as [|n]; [lia|].
      assert (Forall good_tok (show Pipe r ++ ts)) as HG by (apply Forall_app; split; [by apply show_good|by eapply follows_good]).
      destruct (op_spell BAR [BAR] _ ltac:(unfold symbols, BAR; set_solver) ltac:(set_solver) HG) as (P1 & a1 & T1).
      rewrite size_app, size_cons in Hn.
      destruct (IHl1 [] n ([BAR] :: show Pipe r ++ ts)) as (l' & R1 & E1); [by apply Forall_nil|by apply follows_op; [unfold after_simple; set_solver|unfold symbols, BAR; set_solver|]| |].
      { simpl. rewrite size_app, size_cons. lia. }
      destruct (IHr2 n ts Hts) as (r' & R2 & E2); [lia|]. exists (PIPE l' r'). split; [|simpl; by rewrite E1, E2].
      cbn [parsepipe]. simpl app in R1. rewrite (bind_Ret _ _ _ _ _ R1), (bind_Ret _ _ _ _ _ P1), (bind_Ret _ _ _ _ _ T1), (bind_Ret _ _ _ _ _ R2). done. }
    pose proof (pipe_item (PIPE l r) eq_refl H2) as H3. pose proof (item_line (PIPE l r) eq_refl H3) as H4.
    pose proof (block_simple (PIPE l r) (conj Hl Hr) eq_refl H4). done.
  - destruct Hp as [Hl Hr]. destruct (IHl Hl) as (_ & _ & IHl3 & _), (IHr Hr) as (_ & _ & _ & IHr4).
    assert (reads_line (LIST l r)) as H4.
    { intros n ts Hts Hn. cbn [show paren] in *. rewrite <- app_assoc in *. rewrite <- app_assoc in *. cbn [app] in *. destruct n as [|n]; [lia|].
      assert (Forall good_tok (show Line r ++ ts)) as HG by (apply Forall_app; split; [by apply show_good|by eapply follows_good]).
      destruct (op_spell SEMI [SEMI] _ ltac:(unfold symbols, SEMI; set_solver) ltac:(set_solver) HG) as (P1 & a1 & T1).
      rewrite size_app, size_cons in Hn.
      destruct (IHl3 0%nat n ([SEMI] :: show Line r ++ ts)) as (l' & R1 & E1); [by apply follows_op; [set_solver|unfold symbols, SEMI; set_solver|]| |].
      { simpl. rewrite size_app, size_cons. lia. }
      destruct (IHr4 n ts Hts) as (r' & R2 & E2); [lia|]. exists (LIST l' r'). split; [|simpl in *; by rewrite E1, E2].
      cbn [parseline]. simpl app in R1. unfold item in R1.
      apply bind_Ret_inv in R1 as (c1 & s1 & R1 & R). apply bind_Ret_inv in R as (s2 & s3 & R3 & R).
      rewrite (bind_Ret _ _ _ _ _ R1), (bind_Ret _ _ _ _ _ R3), (bind_Ret _ _ _ _ _ R), (bind_Ret _ _ _ _ _ P1), (bind_Ret _ _ _ _ _ T1), (bind_Ret _ _ _ _ _ R2). done. }
    pose proof (block_simple (LIST l r) (conj Hl Hr) eq_refl H4) as H1. pose proof (simple_pipe (LIST l r) eq_refl H1) as H2.
    pose proof (pipe_item (LIST l r) eq_refl H2). done.
  - destruct (IH Hp) as (_ & _ & IH3 & _).
    assert (reads_item (BACK c)) as H3.
    { intros k n ts Hts Hn. cbn [show paren] in *.
      assert ((show Item c ++ [[AMP]]) ++ replicate k [AMP] ++ ts = show Item c ++ replicate (S k) [AMP] ++ ts) as E by (simpl; by rewrite <- app_assoc).
      rewrite E in *. destruct (IH3 (S k) n ts Hts Hn) as (c' & R & Ec). exists c'. split; [done|]. by rewrite Ec, Nat.iter_succ_r. }
    pose proof (item_line (BACK c) eq_refl H3) as H4. pose proof (block_simple (BACK c) Hp eq_refl H4) as H1. pose proof (simple_pipe (BACK c) eq_refl H1). done.
Qed.

(** C14: parsing is the inverse of printing.  For every command whose words can be
    written (words of word characters, fewer than [MAXARGS] of them,
    redirections of the two kinds), the parser reads the printed line completely
    and gives back the command: precedence of [|], [&], [;], the nesting of
    parentheses and the order of redirections included. *)
Theorem print_parse c : printable c -> exists c', parse_all (print c) (print c) = Ret c' [] /\ map_words word_text c' = c.
Proof.
  intros Hp. destruct (command_reads c Hp) as (_ & _ & _ & H4). unfold print.
  destruct (H4 (4 * size (show Line c) + 4)%nat []) as (c' & R & Ec); [done|rewrite app_nil_r; lia|].
  rewrite app_nil_r in R. exists c'. split; [|done]. unfold parse_all. rewrite (bind_Ret _ _ _ _ _ R). done.
Qed.
Lemma print_parse_witness : exists c',
  parse_all (print (LIST (BACK (PIPE (EXEC [bytes "a"]) (LIST (EXEC [bytes "b"]) (REDIR (EXEC [bytes "c"]) (bytes "f") 513 1)))) (EXEC [])))
            (print (LIST (BACK (PIPE (EXEC [bytes "a"]) (LIST (EXEC [bytes "b"]) (REDIR (EXEC [bytes "c"]) (bytes "f") 513 1)))) (EXEC []))) = Ret c' [] /\
  print (LIST (BACK (PIPE (EXEC [bytes "a"]) (LIST (EXEC [bytes "b"]) (REDIR (EXEC [bytes "c"]) (bytes "f") 513 1)))) (EXEC [])) =
    bytes "a | ( b ; c > f ) & ; ".
Proof.
  destruct (print_parse (LIST (BACK (PIPE (EXEC [bytes "a"]) (LIST (EXEC [bytes "b"]) (REDIR (EXEC [bytes "c"]) (bytes "f") 513 1)))) (EXEC []))) as (c' & H & _).
  - assert (forall x, x ∈ [97; 98; 99; 102] -> good_word [x]) as Hw.
    { intros x Hx. rewrite !elem_of_cons, elem_of_nil in Hx.
      destruct Hx as [->|[->|[->|[->|[]]]]]; (split; [by repeat constructor|split; [set_solver|done]]). }
    assert (forall x, x ∈ [97; 98; 99; 102] -> printable (EXEC [[x]])) as He.
    { intros x Hx. split; [constructor; [by apply Hw|constructor]|unfold MAXARGS; simpl; lia]. }
    split; [split; [apply (He 97); set_solver|split; [apply (He 98); set_solver|split; [apply (He 99); set_solver|]]]|].
    + split; [apply (Hw 102); set_solver|by right].
    + split; [by apply Forall_nil|unfold MAXARGS; simpl; lia].
  - exists c'. exact (conj H eq_refl).
Defined.
End ShPrint.
