(* ===== verification/ShellRun.v ===== *)
(** * Running shell commands

    [runcmd], [fork1], [panic] and [main] of [HW2/src/sh.c], as the tree of the
    system calls a process makes, and the file descriptors the programs get. *)

From stdpp Require Import gmap.
From S2P Require Import Prelude Mmu Shlex Shell.

Module ShRun.
Import Sh.

Definition command : Type := cmd (list Z).

(** What a process does from its next system call on.  [Exec] goes on if it
    fails; [Open], [MkPipe] and [Fork] have a continuation for failure.  [NoFuel] is
    the end of the loop bound of the model. *)
Inductive act :=
| Exit
| Exec (path : list Z) (argv : list (list Z)) (failed : act)
| Close (fd : Z) (k : act)
| Open (file : list Z) (mode : Z) (k : Z -> act) (failed : act)
| Dup (fd : Z) (k : act)
| MkPipe (k : Z -> Z -> act) (failed : act)
| Fork (child parent failed : act)
| Wait (k : act)
| Chdir (path : list Z) (k failed : act)
| Print (fd : Z) (msg : list Z) (k : act)
| NoFuel.

Definition panic (s : list Z) : act := Print 2 (s ++ [NL]) Exit.
Definition fork1 (child parent : act) : act := Fork child parent (panic (bytes "fork")).

Fixpoint runcmd (c : command) : act :=
  match c with
  | EXEC [] => Exit
  | EXEC (path :: args) => Exec path (path :: args) (Print 2 (bytes "exec " ++ path ++ bytes " failed" ++ [NL]) Exit)
  | REDIR c file mode fd =>
      Close fd (Open file mode (fun _ => runcmd c) (Print 2 (bytes "open " ++ file ++ bytes " failed" ++ [NL]) Exit))
  | LIST l r => fork1 (runcmd l) (Wait (runcmd r))
  | PIPE l r =>
      MkPipe (fun p0 p1 =>
        fork1 (Close 1 (Dup p1 (Close p0 (Close p1 (runcmd l)))))
       (fork1 (Close 0 (Dup p0 (Close p0 (Close p1 (runcmd r)))))
       (Close p0 (Close p1 (Wait (Wait Exit))))))
      (panic (bytes "pipe"))
  | BACK c => fork1 (runcmd c) Exit
  end.

(** One round of the loop of [main] on the line [buf]; [k] is the next round, [rc] the
    [runcmd] in use. *)
Section Line.
Context (rc : command -> act).
Definition run_line (buf : list Z) : act :=
  match parsecmd buf with
  | Ret (c, b) _ => rc (map_words (fun w => string_at b (fst w)) c)
  | Panic msg => panic (bytes msg)
  | _ => NoFuel
  end.
Definition main_line (buf : list Z) (k : act) : act :=
  if (nth 0 buf 0 =? 99) && (nth 1 buf 0 =? 100) && (nth 2 buf 0 =? 32) then
    let dir := drop 3 (take (length buf - 1) buf) in
    Chdir dir k (Print 2 (bytes "cannot cd " ++ dir ++ [NL]) k)
  else fork1 (run_line buf) (Wait k).
End Line.

(* ------------------------------------------------------------------ *)
(** ** Descriptors *)

Inductive ofile := Console | Named (path : list Z) (mode : Z) | ReadEnd (pipe : nat) | WriteEnd (pipe : nat).
#[export] Instance ofile_eq : EqDecision ofile.
Proof. solve_decision. Defined.
Definition fdt : Type := gmap Z ofile.
(** The lowest free descriptor, which [open], [dup] and [pipe] use. *)
Definition lowest (T : fdt) : Z :=
  default (-1) (List.find (fun k => bool_decide (T !! k = None)) (Z.of_nat <$> seq 0 16)).

(** The programs executed, with their descriptors, when no call fails; [n] numbers
    the pipes.  The child of a [fork] is listed before the parent. *)
Fixpoint run (a : act) (T : fdt) (n : nat) : list (list (list Z) * fdt) * nat :=
  match a with
  | Exit | NoFuel => ([], n)
  | Exec _ argv _ => ([(argv, T)], n)
  | Close fd k => run k (delete fd T) n
  | Open file mode k _ => run (k (lowest T)) (<[lowest T := Named file mode]> T) n
  | Dup fd k => match T !! fd with Some f => run k (<[lowest T := f]> T) n | None => run k T n end
  | MkPipe k _ =>
      let p0 := lowest T in
      let T1 := <[p0 := ReadEnd n]> T in
      let p1 := lowest T1 in
      run (k p0 p1) (<[p1 := WriteEnd n]> T1) (S n)
  | Fork child parent _ =>
      let '(l, n1) := run child T n in
      let '(r, n2) := run parent T n1 in
      (l ++ r, n2)
  | Wait k | Print _ _ k | Chdir _ k _ => run k T n
  end.

(** What the command means: the programs in order, each with its standard
    descriptors. *)
Fixpoint meant (c : command) (T : fdt) (n : nat) : list (list (list Z) * fdt) * nat :=
  match c with
  | EXEC [] => ([], n)
  | EXEC argv => ([(argv, T)], n)
  | REDIR c file mode fd => meant c (<[fd := Named file mode]> T) n
  | LIST l r => let '(a, n1) := meant l T n in let '(b, n2) := meant r T n1 in (a ++ b, n2)
  | PIPE l r =>
      let '(a, n1) := meant l (<[1 := WriteEnd n]> T) (S n) in
      let '(b, n2) := meant r (<[0 := ReadEnd n]> T) n1 in
      (a ++ b, n2)
  | BACK c => meant c T n
  end.

(** Descriptors 0, 1 and 2, and no other, as [main] sets them up. *)
Definition std (a b c : ofile) : fdt := {[ 0 := a; 1 := b; 2 := c ]}.
(** Redirections are of descriptors 0 and 1. *)
Fixpoint redirs_ok (c : command) : Prop :=
  match c with
  | EXEC _ => True
  | REDIR c _ _ fd => (fd = 0 \/ fd = 1) /\ redirs_ok c
  | PIPE l r | LIST l r => redirs_ok l /\ redirs_ok r
  | BACK c => redirs_ok c
  end.

(** Maps with the same lookups at the standard descriptors. *)
Lemma std_insert0 x a b c : <[0 := x]> (std a b c) = std x b c.
Proof. reflexivity. Qed.
Lemma std_insert1 x a b c : <[1 := x]> (std a b c) = std a x c.
Proof. reflexivity. Qed.

Lemma runcmd_meant c : redirs_ok c -> forall x y z n, run (runcmd c) (std x y z) n = meant c (std x y z) n.
Proof.
  induction c as [argv|c IH f m fd|l IHl r IHr|l IHl r IHr|c IH]; intros Hc x y z n.
  - by destruct argv.
  - destruct Hc as [[-> | ->] Hc]; cbn [runcmd run meant].
    + change (<[lowest (delete 0 (std x y z)) := Named f m]> (delete 0 (std x y z))) with (std (Named f m) y z). by rewrite IH.
    + change (<[lowest (delete 1 (std x y z)) := Named f m]> (delete 1 (std x y z))) with (std x (Named f m) z). by rewrite IH.
  - destruct Hc as [Hl Hr]. cbn [runcmd run meant]. unfold fork1. cbn [run].
    change (lowest (std x y z)) with 3. change (lowest (<[3 := ReadEnd n]> (std x y z))) with 4.
    set (T := <[4 := WriteEnd n]> (<[3 := ReadEnd n]> (std x y z))).
    change (delete 1 T !! 4) with (Some (WriteEnd n)). change (delete 0 T !! 3) with (Some (ReadEnd n)). cbv match beta.
    change (lowest (delete 1 T)) with 1. change (lowest (delete 0 T)) with 0.
    change (delete 4 (delete 3 (<[1 := WriteEnd n]> (delete 1 T)))) with (std x (WriteEnd n) z).
    change (delete 4 (delete 3 (<[0 := ReadEnd n]> (delete 0 T)))) with (std (ReadEnd n) y z).
    rewrite IHl, std_insert0, std_insert1 by done. destruct (meant l (std x (WriteEnd n) z) (S n)) as [a n1].
    rewrite IHr by done. destruct (meant r (std (ReadEnd n) y z) n1) as [b n2]. by rewrite app_nil_r.
  - destruct Hc as [Hl Hr]. cbn [runcmd run meant]. unfold fork1. cbn [run]. rewrite IHl by done.
    destruct (meant l (std x y z) n) as [a n1]. by rewrite IHr.
  - cbn [runcmd run meant]. unfold fork1. cbn [run]. rewrite IH by done. destruct (meant c (std x y z) n) as [a n1]. by rewrite app_nil_r.
Qed.

(** C18: the shell connects programs as the command says.  Start from a process
    with descriptors 0, 1 and 2 open.  The programs [runcmd] executes, through
    all its [close], [open], [pipe], [dup] and [fork] calls, are those of the
    command, in its order; each has exactly the descriptors 0, 1 and 2, with the
    redirections of the command and the ends of its pipes in place: no pipe end
    is leaked to any program. *)
Theorem runcmd_connects c : redirs_ok c -> forall x y z n, run (runcmd c) (std x y z) n = meant c (std x y z) n.
Proof. apply runcmd_meant. Qed.
Lemma runcmd_connects_witness :
  run (runcmd (PIPE (EXEC [bytes "cat"]) (REDIR (EXEC [bytes "wc"]) (bytes "out") 513 1))) (std Console Console Console) 0 =
    ([([bytes "cat"], std Console (WriteEnd 0) Console); ([bytes "wc"], std (ReadEnd 0) (Named (bytes "out") 513) Console)], 1%nat).
Proof.
  rewrite (runcmd_connects (PIPE (EXEC [bytes "cat"]) (REDIR (EXEC [bytes "wc"]) (bytes "out") 513 1))); [reflexivity|].
  split; [exact I|split; [right; reflexivity|exact I]].
Defined.

End ShRun.
