(* ===== verification/Grep.v ===== *)
(** * grep

    [HW2/src/grep.c]: the matcher for [^ . * $] and the loop over the lines of a
    file.  C strings are lists of bytes without their NUL. *)

From S2P Require Import Prelude Shlex.

Module Grep.

Definition STAR : Z := 42.
Definition DOLLAR : Z := 36.
Definition DOT : Z := 46.
Definition CARET : Z := 94.

(** The loop of [matchstar], with [matchhere] of the rest of the expression as
    [here]. *)
Fixpoint matchstar_loop (here : list Z -> bool) (c : Z) (text : list Z) : bool :=
  if here text then true else
  match text with
  | [] => false
  | t :: text' => if (t =? c) || (c =? DOT) then matchstar_loop here c text' else false
  end.
Fixpoint matchhere (re text : list Z) : bool :=
  match re with
  | [] => true
  | c :: re1 =>
      match re1 with
      | s :: re2 =>
          if s =? STAR then matchstar_loop (matchhere re2) c text
          else match text with
               | [] => false
               | t :: text' => if (c =? DOT) || (c =? t) then matchhere re1 text' else false
               end
      | [] =>
          if c =? DOLLAR then match text with [] => true | _ => false end
          else match text with
               | [] => false
               | t :: text' => if (c =? DOT) || (c =? t) then matchhere re1 text' else false
               end
      end
  end.
Definition matchstar (c : Z) (re text : list Z) : bool := matchstar_loop (matchhere re) c text.
(** The loop of [match]. *)
Fixpoint match_loop (re text : list Z) : bool :=
  if matchhere re text then true else
  match text with [] => false | _ :: text' => match_loop re text' end.
Definition match_ (re text : list Z) : bool :=
  match re with
  | c :: re' => if c =? CARET then matchhere re' text else match_loop re text
  | [] => match_loop re text
  end.

(** ** [grep] *)

(** [strchr(p, '\n')] in the text [p]: what is before it and what is after. *)
Fixpoint split_line (p : list Z) : option (list Z * list Z) :=
  match p with
  | [] => None
  | c :: p' => if c =? 0 then None else if c =? NL then Some ([], p') else
      match split_line p' with Some (l, r) => Some (c :: l, r) | None => None end
  end.
(** The inner loop: the matching lines written, and the text left at [p];
    [fuel] bounds the number of lines. *)
Fixpoint lines_loop (fuel : nat) (pattern p : list Z) : list Z * list Z :=
  match fuel with
  | O => ([], p)
  | S f =>
      match split_line p with
      | None => ([], p)
      | Some (l, r) =>
          let '(out, rest) := lines_loop f pattern r in
          ((if match_ pattern l then l ++ [NL] else []) ++ out, rest)
      end
  end.
Definition sizeof_buf : nat := 1024.
(** One round: [m] bytes are in [buf], [n] more have been read.  The result is
    the output and the bytes kept for the next round. *)
Definition grep_round (pattern buf new : list Z) : list Z * list Z :=
  let text := buf ++ new in
  let '(out, p) := lines_loop (length text) pattern text in
  (out, if decide (length p = length text) then [] else p).
(** [read(fd, ., n)]: the file offers its data in pieces; a call takes the next
    piece, or its first [n] bytes. *)
Definition read (n : nat) (input : list (list Z)) : list Z * list (list Z) :=
  match input with
  | [] => ([], [])
  | c :: cs => if decide (length c <= n)%nat then (c, cs) else (take n c, drop n c :: cs)
  end.
(** [fuel] bounds the number of rounds. *)
Fixpoint grep_loop (fuel : nat) (pattern buf : list Z) (input : list (list Z)) : option (list Z) :=
  match fuel with
  | O => None
  | S f =>
      let '(new, input') := read (sizeof_buf - length buf - 1) input in
      match new with
      | [] => Some []
      | _ =>
          let '(out, buf') := grep_round pattern buf new in
          match grep_loop f pattern buf' input' with Some o => Some (out ++ o) | None => None end
      end
  end.
Definition grep (pattern : list Z) (input : list (list Z)) : option (list Z) :=
  grep_loop (S (length (concat input))) pattern [] input.

(* ------------------------------------------------------------------ *)
(** ** The language of an expression *)

Inductive item := Char (c : Z) | Star (c : Z).
Definition any (c t : Z) : Prop := c = DOT \/ c = t.
(** An expression: its items, and whether it ends with [$]. *)
Fixpoint parse (re : list Z) : list item * bool :=
  match re with
  | [] => ([], false)
  | c :: re1 =>
      match re1 with
      | s :: re2 =>
          if s =? STAR then let '(l, e) := parse re2 in (Star c :: l, e)
          else let '(l, e) := parse re1 in (Char c :: l, e)
      | [] => if c =? DOLLAR then ([], true) else ([Char c], false)
      end
  end.
Inductive word_of : list item -> list Z -> Prop :=
| w_nil : word_of [] []
| w_char c t l w : any c t -> word_of l w -> word_of (Char c :: l) (t :: w)
| w_star_nil c l w : word_of l w -> word_of (Star c :: l) w
| w_star_cons c t l w : any c t -> word_of (Star c :: l) w -> word_of (Star c :: l) (t :: w).
(** [text] begins with a word of the expression, and is that word if the
    expression ends with [$]. *)
Definition begins (re text : list Z) : Prop :=
  exists w rest, text = w ++ rest /\ word_of (fst (parse re)) w /\ (snd (parse re) = true -> rest = []).

Lemma parse_star c re : parse (c :: STAR :: re) = (Star c :: fst (parse re), snd (parse re)).
Proof. simpl. by destruct (parse re). Qed.
Lemma parse_char c s re : s <> STAR -> parse (c :: s :: re) = (Char c :: fst (parse (s :: re)), snd (parse (s :: re))).
Proof. intros H%Z.eqb_neq. cbn [parse]. rewrite H. by destruct (parse (s :: re)) as [l e] eqn:E; cbn [parse] in E; rewrite E. Qed.

(** One unfolding of [matchhere], as the source has it. *)
Lemma matchhere_star c re text : matchhere (c :: STAR :: re) text = matchstar c re text.
Proof. reflexivity. Qed.
Lemma matchhere_char c re text :
  (forall re', re <> STAR :: re') -> (c = DOLLAR -> re <> []) ->
  matchhere (c :: re) text = match text with [] => false | t :: text' => ((c =? DOT) || (c =? t)) && matchhere re text' end.
Proof.
  intros H1 H2. destruct re as [|s re]; cbn [matchhere].
  - destruct (Z.eqb_spec c DOLLAR) as [->|]; [by destruct H2|]. destruct text; [done|]. by destruct (_ || _).
  - destruct (Z.eqb_spec s STAR) as [->|]; [by destruct (H1 re)|]. destruct text; [done|]. by destruct (_ || _).
Qed.
Lemma any_spec c t : ((c =? DOT) || (c =? t)) = true <-> any c t.
Proof. unfold any. rewrite orb_true_iff, !Z.eqb_eq. done. Qed.

Lemma matchstar_spec (here : list Z -> bool) (R : list Z -> Prop) c text :
  (forall t, here t = true <-> R t) ->
  matchstar_loop here c text = true <-> exists w rest, text = w ++ rest /\ Forall (any c) w /\ R rest.
Proof.
  intros Hh. induction text as [|t text IH]; simpl.
  - destruct (here []) eqn:E.
    + split; [intros _|done]. exists [], []. split; [done|]. split; [constructor|by apply Hh].
    + split; [done|]. intros (w & rest & Ew & _ & HR). destruct w, rest; try done. apply Hh in HR. congruence.
  - destruct (here (t :: text)) eqn:E.
    { split; [intros _|done]. exists [], (t :: text). split; [done|]. split; [constructor|by apply Hh]. }
    assert (((t =? c) || (c =? DOT)) = true <-> any c t) as Ha.
    { unfold any. rewrite orb_true_iff, !Z.eqb_eq. split; intros [->|]; auto. }
    split.
    + destruct ((t =? c) || (c =? DOT)); [|done]. intros (w & rest & -> & HF & HR)%IH. exists (t :: w), rest.
      split; [done|]. split; [constructor; [by apply Ha|done]|done].
    + intros (w & rest & Ew & HF & HR). destruct w as [|t' w]; simpl in Ew; [apply Hh in HR; subst rest; congruence|].
      injection Ew as <- ->. inversion HF as [|? ? H1 H2]; subst. apply Ha in H1. rewrite H1. apply IH. by exists w, rest.
Qed.
Lemma star_word c l w rest : Forall (any c) w -> word_of l rest -> word_of (Star c :: l) (w ++ rest).
Proof. intros H Hr. induction H; simpl; by constructor. Qed.
Lemma star_word_inv c l u : word_of (Star c :: l) u -> exists w rest, u = w ++ rest /\ Forall (any c) w /\ word_of l rest.
Proof.
  remember (Star c :: l) as s eqn:Es. induction 1 as [|c' t l' w H1 H2 IH|c' l' w H|c' t l' w H1 H2 IH]; simplify_eq.
  - exists [], w. split; [done|]. split; [constructor|done].
  - destruct (IH eq_refl) as (w1 & rest & -> & HF & Hr). exists (t :: w1), rest. split; [done|]. split; [by constructor|done].
Qed.

Lemma matchhere_spec re : forall text, matchhere re text = true <-> begins re text.
Proof.
  remember (length re) as k eqn:Hk. revert re Hk. induction k as [k IH] using lt_wf_ind. intros re -> text.
  destruct re as [|c re].
  { simpl. split; [intros _|done]. exists [], text. split; [done|]. split; [constructor|done]. }
  assert ((exists re', re = STAR :: re') \/ ~ exists re', re = STAR :: re') as [[re' ->]|Hns].
  { destruct re as [|s re]; [right; by intros [? ?]|]. destruct (decide (s = STAR)) as [->|]; [left; by exists re|right; by intros [? [= ? ?]]]. }
  - rewrite matchhere_star. unfold matchstar. rewrite (matchstar_spec _ (begins re')) by (apply (IH (length re')); simpl; lia).
    unfold begins. rewrite parse_star. cbn [fst snd]. split.
    + intros (w & rest & -> & HF & v & r & -> & Hw & He). exists (w ++ v), r. rewrite <- app_assoc. split; [done|].
      split; [by apply star_word|done].
    + intros (u & r & -> & Hu & He). apply star_word_inv in Hu as (w & v & -> & HF & Hv). exists w, (v ++ r).
      rewrite <- app_assoc. split; [done|]. split; [done|]. by exists v, r.
  - destruct (decide (c = DOLLAR /\ re = [])) as [[-> ->]|Hnd].
    + simpl. split.
      * destruct text; [|done]. intros _. exists [], []. split; [done|]. split; [constructor|done].
      * intros (w & rest & -> & Hw & He). inversion Hw; subst. by rewrite He.
    + rewrite matchhere_char; [|intros re' ->; apply Hns; by exists re'|intros -> ->; by apply Hnd].
      assert (parse (c :: re) = (Char c :: fst (parse re), snd (parse re))) as Ep.
      { destruct re as [|s re].
        - simpl. destruct (Z.eqb_spec c DOLLAR) as [->|]; [by destruct Hnd|done].
        - apply parse_char. intros ->. apply Hns. by exists re. }
      unfold begins. rewrite Ep. cbn [fst snd]. destruct text as [|t text].
      * split; [done|]. intros (w & rest & Ew & Hw & _). inversion Hw; subst. done.
      * rewrite andb_true_iff, any_spec, (IH (length re)) by (simpl; lia || done). unfold begins. split.
        -- intros (Ha & w & rest & -> & Hw & He). exists (t :: w), rest. split; [done|]. split; [by constructor|done].
        -- intros (w & rest & Ew & Hw & He). inversion Hw as [|? t' ? w' Ha Hw'| |]; subst. injection Ew as <- ->.
           split; [done|]. by exists w', rest.
Qed.

(** C23: the matcher of [grep] decides its language.  [match] finds an expression
    in a text iff some part of the text is a word of the expression: [c] and [.]
    stand for one character, [c*] and [.*] for any number of them; the part is at
    the start of the text if the expression begins with [^], at its end if it
    ends with [$]. *)
Theorem match_correct re text :
  match_ re text = true <->
  if hd 0 re =? CARET then begins (tl re) text
  else exists pre post, text = pre ++ post /\ begins re post.
Proof.
  assert (forall re text, match_loop re text = true <-> exists pre post, text = pre ++ post /\ begins re post) as Hl.
  { clear. intros re text. induction text as [|t text IH]; simpl.
    - destruct (matchhere re []) eqn:E.
      + split; [intros _|done]. exists [], []. split; [done|by apply matchhere_spec].
      + split; [done|]. intros (pre & post & Ep & Hb). destruct pre, post; try done. apply matchhere_spec in Hb. congruence.
    - destruct (matchhere re (t :: text)) eqn:E.
      + split; [intros _|done]. exists [], (t :: text). split; [done|by apply matchhere_spec].
      + rewrite IH. split.
        * intros (pre & post & -> & Hb). by exists (t :: pre), post.
        * intros (pre & post & Ep & Hb). destruct pre as [|x pre]; simpl in Ep.
          -- subst post. apply matchhere_spec in Hb. congruence.
          -- injection Ep as <- ->. by exists pre, post. }
  unfold match_. destruct re as [|c re]; [apply Hl|]. simpl. destruct (c =? CARET); [apply matchhere_spec|apply Hl].
Qed.


(** ** The lines of a file *)

(** The complete lines, without their newline, and what follows the last. *)
Fixpoint complete (s : list Z) : list (list Z) :=
  match s with
  | [] => []
  | c :: s' =>
      if c =? NL then [] :: complete s'
      else match complete s' with [] => [] | l :: ls => (c :: l) :: ls end
  end.
Fixpoint tail (s : list Z) : list Z :=
  match s with
  | [] => []
  | c :: s' => if decide (NL ∈ s') then tail s' else if c =? NL then s' else c :: s'
  end.
Definition hits (pattern : list Z) (ls : list (list Z)) : list Z :=
  flat_map (fun l => if match_ pattern l then l ++ [NL] else []) ls.

Lemma split_line_spec p : 0 ∉ p ->
  match split_line p with
  | Some (l, r) => p = l ++ NL :: r /\ NL ∉ l
  | None => NL ∉ p
  end.
Proof.
  induction p as [|c p IH]; simpl; intros H0; [set_solver|]. apply not_elem_of_cons in H0 as [H1 H2].
  assert (c <> 0) as ->%Z.eqb_neq by done. destruct (Z.eqb_spec c NL) as [->|Hc]; [split; [done|set_solver]|].
  specialize (IH H2). destruct (split_line p) as [[l r]|]; [destruct IH as [-> Hl]; split; [done|set_solver]|set_solver].
Qed.
Lemma complete_line l r : NL ∉ l -> complete (l ++ NL :: r) = l :: complete r.
Proof.
  induction l as [|c l IH]; simpl; [done|]. intros [Hc Hl]%not_elem_of_cons.
  assert (c <> NL) as ->%Z.eqb_neq by done. by rewrite IH.
Qed.
Lemma complete_none s : NL ∉ s <-> complete s = [].
Proof.
  induction s as [|c s IH]; simpl; [set_solver|]. destruct (Z.eqb_spec c NL) as [->|Hc]; [split; [set_solver|done]|].
  destruct (complete s); split; try done; [intros _; apply not_elem_of_cons; split; [done|by apply IH]|].
  intros [_ H]%not_elem_of_cons. by apply IH in H.
Qed.
Lemma tail_none s : NL ∉ s -> tail s = s.
Proof.
  destruct s as [|c s]; simpl; [done|]. intros [H1 H2]%not_elem_of_cons. rewrite decide_False by done.
  assert (c <> NL) as ->%Z.eqb_neq by done. done.
Qed.
Lemma tail_line l r : NL ∉ l -> tail (l ++ NL :: r) = tail r.
Proof.
  induction l as [|c l IH]; simpl; [intros _|intros [Hc Hl]%not_elem_of_cons].
  - destruct (decide (NL ∈ r)); [done|]. by rewrite tail_none.
  - rewrite decide_True by set_solver. by apply IH.
Qed.

Lemma lines_loop_spec pattern : forall fuel p, 0 ∉ p -> (length p <= fuel)%nat ->
  lines_loop fuel pattern p = (hits pattern (complete p), tail p).
Proof.
  induction fuel as [|f IH]; intros p H0 Hl; [by destruct p; [|simpl in Hl; lia]|]. cbn [lines_loop].
  pose proof (split_line_spec p H0) as Hs. destruct (split_line p) as [[l r]|].
  - destruct Hs as [-> Hn]. rewrite length_app in Hl. simpl in Hl. rewrite IH by (set_solver || lia). by rewrite complete_line, tail_line.
  - assert (complete p = []) as -> by (by apply complete_none). by rewrite tail_none.
Qed.
(** Lines found in a part of the text are found in the whole. *)
Lemma complete_app : forall n s t, (length s <= n)%nat -> 0 ∉ s -> complete (s ++ t) = complete s ++ complete (tail s ++ t).
Proof.
  induction n as [|n IH]; intros s t Hn H0; [by destruct s; [|simpl in Hn; lia]|].
  pose proof (split_line_spec s H0) as Hs. destruct (split_line s) as [[l r]|].
  - destruct Hs as [-> Hl]. rewrite length_app in Hn. simpl in Hn. rewrite <- app_assoc. cbn [app].
    rewrite !complete_line, tail_line by done. cbn [app]. f_equal. apply IH; [lia|set_solver].
  - assert (complete s = []) as -> by (by apply complete_none). by rewrite tail_none.
Qed.
Lemma tail_length s : NL ∈ s -> (length (tail s) < length s)%nat.
Proof.
  induction s as [|c s IH]; simpl; [set_solver|]. intros Hc. destruct (decide (NL ∈ s)) as [H|H]; [specialize (IH H); lia|].
  destruct (Z.eqb_spec c NL); [lia|]. set_solver.
Qed.
Lemma tail_sub s : tail s `suffix_of` s.
Proof.
  induction s as [|c s IH]; simpl; [done|]. assert (s `suffix_of` c :: s) by (by exists [c]). repeat case_match; try done. by transitivity s.
Qed.
Lemma hits_app pattern a b : hits pattern (a ++ b) = hits pattern a ++ hits pattern b.
Proof. apply flat_map_app. Qed.

Definition short (ls : list (list Z)) : Prop := Forall (fun l => length l < sizeof_buf - 1)%nat ls.
Lemma first_long s t : NL ∉ s -> short (complete (s ++ t)) -> (sizeof_buf - 1 <= length s)%nat -> NL ∉ s ++ t.
Proof.
  intros Hs Hsh Hl Hin. assert (exists l r, t = l ++ NL :: r /\ NL ∉ l) as (l & r & -> & Hn).
  { assert (NL ∈ t) as Ht by set_solver. clear -Ht. induction t as [|c t IH]; [set_solver|].
    destruct (decide (c = NL)) as [->|]; [exists [], t; split; [done|set_solver]|]. destruct IH as (l & r & -> & Hn); [set_solver|].
    exists (c :: l), r. split; [done|set_solver]. }
  rewrite app_assoc, complete_line in Hsh by set_solver. inversion Hsh as [|? ? H _]; subst. rewrite length_app in H. lia.
Qed.

Lemma grep_step f pattern buf input new input' :
  read (sizeof_buf - length buf - 1) input = (new, input') -> new <> [] -> 0 ∉ buf ++ new ->
  grep_loop (S f) pattern buf input =
    app (hits pattern (complete (buf ++ new))) <$>
      grep_loop f pattern (if decide (NL ∈ buf ++ new) then tail (buf ++ new) else []) input'.
Proof.
  intros Hr Hne H0. cbn [grep_loop]. rewrite Hr. destruct new as [|y new0] eqn:En; [done|]. rewrite <- En in *. clear Hne.
  unfold grep_round. rewrite lines_loop_spec by (done || lia).
  assert ((if decide (length (tail (buf ++ new)) = length (buf ++ new)) then [] else tail (buf ++ new)) =
    if decide (NL ∈ buf ++ new) then tail (buf ++ new) else []) as ->.
  { destruct (decide (NL ∈ buf ++ new)) as [Hin|Hin].
    - rewrite decide_False; [done|]. pose proof (tail_length _ Hin). lia.
    - rewrite decide_True; [done|]. by rewrite tail_none. }
  by destruct (grep_loop f pattern _ input').
Qed.

Lemma grep_loop_spec pattern : forall fuel buf file,
  (length file < fuel)%nat -> (length buf < sizeof_buf - 1)%nat -> 0 ∉ buf ++ file -> NL ∉ buf -> short (complete (buf ++ file)) ->
  grep_loop fuel pattern buf [file] = Some (hits pattern (complete (buf ++ file))).
Proof.
  induction fuel as [|f IH]; intros buf file Hf Hb H0 Hnb Hs; [lia|].
  destruct file as [|x file0] eqn:Ef; [cbn; by rewrite app_nil_r, (proj1 (complete_none buf))|]. rewrite <- Ef in *.
  assert (file <> []) as Hfne by (by rewrite Ef). clear x file0 Ef.
  set (n := (sizeof_buf - length buf - 1)%nat). assert (1 <= n)%nat as Hn by (unfold n; lia).
  destruct (decide (length file <= n)%nat) as [Hle|Hgt].
  - erewrite grep_step with (new := file); [|unfold read; fold n; by rewrite decide_True|done|done].
    destruct f as [|f]; [destruct file; simpl in *; [done|lia]|]. cbn. by rewrite app_nil_r.
  - assert (0 < length file)%nat by (destruct file; [done|simpl; lia]).
    set (new := take n file). set (rest := drop n file).
    assert (file = new ++ rest) as E by (unfold new, rest; by rewrite take_drop).
    assert (length new = n) as Ln by (unfold new; rewrite length_take; lia).
    assert (length rest = (length file - n)%nat) as Lr by (unfold rest; apply length_drop).
    erewrite grep_step with (new := new) (input' := [rest]); [|unfold read; fold n; by rewrite decide_False|intros Hx; rewrite Hx in Ln; simpl in Ln; lia|rewrite E in H0; set_solver].
    assert (buf ++ file = (buf ++ new) ++ rest) as Et by (rewrite E, app_assoc; done). rewrite Et in *.
    assert (0 ∉ buf ++ new) as H0' by set_solver. assert (0 ∉ rest) as H0r by set_solver.
    destruct (decide (NL ∈ buf ++ new)) as [Hin|Hin].
    + pose proof (complete_app (length (buf ++ new)) (buf ++ new) rest ltac:(lia) H0') as Ec.
      pose proof (tail_length _ Hin) as Htl. assert (length (buf ++ new) = sizeof_buf - 1)%nat as Lt by (rewrite length_app, Ln; unfold n; lia).
      rewrite IH; [|lia|lia| | |].
      * rewrite Ec, hits_app. reflexivity.
      * destruct (tail_sub (buf ++ new)) as [k Ek]. rewrite Ek in H0'. set_solver.
      * clear. generalize (buf ++ new) as s. induction s as [|c s IHs]; simpl; [set_solver|].
        destruct (decide (NL ∈ s)); [done|]. destruct (Z.eqb_spec c NL); [done|]. apply not_elem_of_cons. by split.
      * rewrite Ec in Hs. by apply Forall_app in Hs as [_ Hs].
    + assert (NL ∉ (buf ++ new) ++ rest) as Hno by (apply first_long; [done|done|rewrite length_app, Ln; unfold n; lia]).
      rewrite (proj1 (complete_none _) Hno), (proj1 (complete_none _) Hin).
      assert (complete rest = []) as Er by (apply complete_none; set_solver).
      rewrite IH; [change ([] ++ rest) with rest; rewrite Er; reflexivity|lia|unfold sizeof_buf; simpl; lia|done|set_solver|change ([] ++ rest) with rest; rewrite Er; constructor].
Qed.

(** C24: [grep] on a file prints the matching lines.  For a file without NUL
    bytes, of any length, whose lines are shorter than the buffer: the 1024-byte
    buffer and its refilling make no difference; the output is exactly the
    complete lines that match, in order, each with its newline. *)
Theorem grep_file pattern file :
  0 ∉ file -> short (complete file) -> grep pattern [file] = Some (hits pattern (complete file)).
Proof.
  intros H0 Hs. unfold grep. rewrite (grep_loop_spec pattern _ [] file); try done.
  - simpl. rewrite app_nil_r. lia.
  - unfold sizeof_buf. simpl. lia.
  - set_solver.
Qed.
Lemma grep_file_witness :
  grep (bytes "a.*c$") [bytes "abc" ++ [NL] ++ bytes "abcd" ++ [NL] ++ bytes "xaac" ++ [NL] ++ bytes "ac"] =
    Some (bytes "abc" ++ [NL] ++ bytes "xaac" ++ [NL]).
Proof.
  rewrite (grep_file (bytes "a.*c$") (bytes "abc" ++ [NL] ++ bytes "abcd" ++ [NL] ++ bytes "xaac" ++ [NL] ++ bytes "ac"));
    [reflexivity|apply (bool_decide_unpack _); vm_compute; exact I|apply (bool_decide_unpack _); vm_compute; exact I].
Defined.

(** On a pipe the data can arrive in pieces.  A piece without a newline is thrown
    away when it is all the buffer holds: the line it begins is not matched as a
    whole. *)
Lemma grep_loses_pieces :
  grep (bytes "abc") [bytes "ab"; bytes "c" ++ [NL]] = Some [] /\
  grep (bytes "abc") [bytes "abc" ++ [NL]] = Some (bytes "abc" ++ [NL]).
Proof. split; reflexivity. Qed.

End Grep.
