(* ===== verification/Umalloc.v ===== *)
(** * The memory allocator of user programs

    [HW2/src/umalloc.c] (Kernighan and Ritchie).  The headers in memory are two
    functions on addresses, the fields [ptr] and [size]; the free list is
    circular, sorted by address, and contains the static header [base].  A header
    takes [sizeof(Header)] = 8 bytes and sizes count such units. *)

From S2P Require Import Prelude Mmu Mem State.

Module Umalloc.

Definition UNIT : Z := 8.
Record heap := mk_heap {
  h_ptr : Z -> Z;
  h_size : Z -> Z;
  h_base : Z;      (* the address of [base] *)
  h_freep : Z;
  h_brk : Z;       (* the end of the process's memory *)
  h_limit : Z }.   (* how far the kernel lets it grow *)
Definition H (A : Type) : Type := M heap A.
Definition ptr (p : Z) : H Z := gets (fun h => h_ptr h p).
Definition size (p : Z) : H Z := gets (fun h => h_size h p).
Definition set_ptr (p v : Z) : H unit :=
  modify (fun h => mk_heap (fupd (h_ptr h) p v) (h_size h) (h_base h) (h_freep h) (h_brk h) (h_limit h)).
Definition set_size (p v : Z) : H unit :=
  modify (fun h => mk_heap (h_ptr h) (fupd (h_size h) p v) (h_base h) (h_freep h) (h_brk h) (h_limit h)).
Definition set_freep (v : Z) : H unit :=
  modify (fun h => mk_heap (h_ptr h) (h_size h) (h_base h) v (h_brk h) (h_limit h)).
(** [sbrk], as [growproc] of the kernel serves it: the old end, or -1 when there is
    no memory; a negative amount shrinks unless the unsigned sum wraps. *)
Definition set_brk (v : Z) : H unit :=
  modify (fun h => mk_heap (h_ptr h) (h_size h) (h_base h) (h_freep h) v (h_limit h)).
Definition sbrk (n : Z) : H Z :=
  brk <- gets h_brk ;;
  lim <- gets h_limit ;;
  if 0 <? n then (if brk + n <=? lim then set_brk (brk + n) ;; ret brk else ret (-1))
  else if n <? 0 then (if brk <=? u32 (brk + n) then ret brk else set_brk (u32 (brk + n)) ;; ret brk)
  else ret brk.

(** The search of [free]. *)
Fixpoint free_find (fuel : nat) (bp p : Z) : H Z :=
  q <- ptr p ;;
  if (p <? bp) && (bp <? q) then ret p
  else if (q <=? p) && ((p <? bp) || (bp <? q)) then ret p
  else match fuel with O => nofuel | S f => free_find f bp q end.
(** Join with the upper neighbour, or link to it. *)
Definition join_upper (bp p : Z) : H unit :=
  q <- ptr p ;;
  sz <- size bp ;;
  if u32 (bp + UNIT * sz) =? q then
    qs <- size q ;; set_size bp (u32 (sz + qs)) ;;
    q <- ptr p ;; qq <- ptr q ;; set_ptr bp qq
  else set_ptr bp q.
(** Join with the lower neighbour, or link from it. *)
Definition join_lower (bp p : Z) : H unit :=
  ps <- size p ;;
  if u32 (p + UNIT * ps) =? bp then
    sz <- size bp ;; set_size p (u32 (ps + sz)) ;;
    q <- ptr bp ;; set_ptr p q
  else set_ptr p bp.
Definition free (fuel : nat) (ap : Z) : H unit :=
  let bp := u32 (ap - UNIT) in
  fp <- gets h_freep ;;
  p <- free_find fuel bp fp ;;
  join_upper bp p ;;
  join_lower bp p ;;
  set_freep p.

Definition morecore (fuel : nat) (nu : Z) : H Z :=
  let nu := if nu <? 4096 then 4096 else nu in
  p <- sbrk (s32 (u32 (nu * UNIT))) ;;
  if p =? -1 then ret 0 else
  set_size p nu ;;
  free fuel (u32 (p + UNIT)) ;;
  gets h_freep.

Definition units (nbytes : Z) : Z := u32 (u32 (nbytes + UNIT - 1) / UNIT + 1).
(** A block that is large enough: take all of it or its upper part. *)
Definition take (nunits prevp p : Z) : H Z :=
  ps <- size p ;;
  p <- (if ps =? nunits then q <- ptr p ;; set_ptr prevp q ;; ret p
        else
          set_size p (u32 (ps - nunits)) ;;
          ps <- size p ;;
          let p := u32 (p + UNIT * ps) in
          set_size p nunits ;; ret p) ;;
  set_freep prevp ;;
  ret (u32 (p + UNIT)).
(** The loop of [malloc], at [p] with its predecessor [prevp]. *)
Fixpoint malloc_loop (fuel ffuel : nat) (nunits prevp p : Z) : H Z :=
  ps <- size p ;;
  if nunits <=? ps then take nunits prevp p
  else
  fp <- gets h_freep ;;
  p <- (if p =? fp then morecore ffuel nunits else ret p) ;;
  if p =? 0 then ret 0 else
  match fuel with
  | O => nofuel
  | S f => q <- ptr p ;; malloc_loop f ffuel nunits p q
  end.
Definition malloc (fuel ffuel : nat) (nbytes : Z) : H Z :=
  let nunits := units nbytes in
  fp <- gets h_freep ;;
  b <- gets h_base ;;
  prevp <- (if fp =? 0 then
              set_freep b ;; set_ptr b b ;; set_size b 0 ;; ret b
            else ret fp) ;;
  q <- ptr prevp ;;
  malloc_loop fuel ffuel nunits prevp q.

(* ------------------------------------------------------------------ *)
(** ** The free list *)

(** From [a] the pointers go through [l] to [z]. *)
Fixpoint links (f : Z -> Z) (a : Z) (l : list Z) (z : Z) : Prop :=
  match l with [] => f a = z | b :: l' => f a = b /\ links f b l' z end.
(** The blocks of [l] lie one after the other, from [lo] on and below [hi]. *)
Fixpoint spaced (sz : Z -> Z) (lo : Z) (l : list Z) (hi : Z) : Prop :=
  match l with [] => lo <= hi | b :: l' => lo <= b /\ 1 <= sz b /\ spaced sz (b + UNIT * sz b) l' hi end.

(** No block of [l] ends where another begins: neighbours have been joined. *)
Definition joined (sz : Z -> Z) (l : list Z) : Prop := forall b c, b ∈ l -> c ∈ l -> b + UNIT * sz b <> c.

Record free_list (h : heap) (l : list Z) : Prop := mk_free_list {
  fl_links : links (h_ptr h) (h_base h) l (h_base h);
  fl_spaced : spaced (h_size h) (h_base h + UNIT) l (h_brk h);
  fl_freep : h_freep h ∈ h_base h :: l;
  fl_base : 0 < h_base h /\ h_size h (h_base h) = 0;
  fl_limit : h_brk h <= h_limit h /\ h_limit h < 2 ^ 31;
  fl_joined : joined (h_size h) l }.
(** The addresses in free blocks. *)
Definition covers (sz : Z -> Z) (l : list Z) (u : Z) : Prop := exists b, b ∈ l /\ b <= u < b + UNIT * sz b.

Lemma links_app f l1 : forall a b l2 z, links f a (l1 ++ b :: l2) z <-> links f a l1 b /\ links f b l2 z.
Proof.
  induction l1 as [|c l1 IH]; intros a b l2 z; simpl; [done|]. rewrite IH. tauto.
Qed.
Lemma links_ext f g l : forall a z, (forall x, x ∈ a :: l -> g x = f x) -> links f a l z -> links g a l z.
Proof.
  induction l as [|b l IH]; intros a z Hx; simpl; [rewrite Hx by set_solver; done|].
  intros [H1 H2]. rewrite Hx by set_solver. split; [done|]. apply IH; [|done]. intros x Hx'. apply Hx. set_solver.
Qed.
Lemma spaced_app sz l1 : forall lo l2 hi, spaced sz lo (l1 ++ l2) hi <-> exists mid, spaced sz lo l1 mid /\ spaced sz mid l2 hi /\
  (l1 = [] -> mid = lo) /\ (forall b l', l1 = l' ++ [b] -> mid = b + UNIT * sz b).
Proof.
  induction l1 as [|c l1 IH]; intros lo l2 hi; simpl.
  - split.
    + intros Hs. exists lo. split; [lia|]. split; [done|]. split; [done|]. intros b [|? ?] E; done.
    + intros (mid & _ & Hs & E & _). by rewrite <- E.
  - rewrite IH. split.
    + intros (H1 & H2 & mid & H3 & H4 & H5 & H6). exists mid. split; [done|]. split; [done|]. split; [done|].
      intros b l' E. destruct l' as [|x l']; injection E as -> ->; [by apply H5|by eapply H6].
    + intros (mid & (H1 & H2 & H3) & H4 & _ & H6). split; [done|]. split; [done|]. exists mid. split; [done|]. split; [done|]. split.
      * intros ->. by apply (H6 c []).
      * intros b l' ->. by apply (H6 b (c :: l')).
Qed.
Lemma spaced_ext sz sz' l : forall lo hi, (forall x, x ∈ l -> sz' x = sz x) -> spaced sz lo l hi -> spaced sz' lo l hi.
Proof.
  induction l as [|b l IH]; intros lo hi Hx; simpl; [done|]. rewrite Hx by set_solver. intros (H1 & H2 & H3).
  split; [done|]. split; [done|]. apply IH; [|done]. intros x Hx'. apply Hx. set_solver.
Qed.
Lemma spaced_le sz l : forall lo hi, spaced sz lo l hi -> lo <= hi.
Proof. induction l as [|c l IH]; simpl; intros lo hi; [done|]. intros (H1 & H2 & H3). apply IH in H3. unfold UNIT in *. lia. Qed.
Lemma spaced_bounds sz l lo hi b : spaced sz lo l hi -> b ∈ l -> lo <= b /\ 1 <= sz b /\ b + UNIT * sz b <= hi.
Proof.
  revert lo. induction l as [|c l IH]; intros lo Hs Hb; [set_solver|]. simpl in Hs. destruct Hs as (H1 & H2 & H3).
  apply elem_of_cons in Hb as [->|Hb]; [apply spaced_le in H3; lia|]. specialize (IH _ H3 Hb). unfold UNIT in *. lia.
Qed.
(** A block that reaches the upper end is the last one. *)
Lemma spaced_last sz l lo hi b d : spaced sz lo l hi -> b ∈ l -> b + UNIT * sz b = hi -> List.last l d = b.
Proof.
  intros Hs Hb E. destruct (list_elem_of_split _ _ Hb) as (m1 & m2 & ->). destruct m2 as [|c m2]; [apply List.last_last|].
  apply spaced_app in Hs as (mid & _ & (_ & _ & Hc) & _). destruct (spaced_bounds _ _ _ _ c Hc ltac:(left)) as (H1 & H2 & H3).
  unfold UNIT in *. lia.
Qed.
Lemma joined_ext sz sz' l : (forall x, x ∈ l -> sz' x = sz x) -> joined sz l -> joined sz' l.
Proof. intros E HJ b c Hb Hc. rewrite E by done. by apply HJ. Qed.
Lemma joined_sub sz l l' : (forall x, x ∈ l' -> x ∈ l) -> joined sz l -> joined sz l'.
Proof. intros Hs HJ b c Hb Hc. auto. Qed.
Lemma joined_app sz l1 l2 hi : joined sz l1 -> joined sz l2 -> (forall b c, b ∈ l1 -> c ∈ l2 -> b + UNIT * sz b <> c) ->
  (forall b, b ∈ l1 -> b < hi) -> (forall c, c ∈ l2 -> hi <= c /\ 1 <= sz c) -> joined sz (l1 ++ l2).
Proof.
  intros H1 H2 H3 H4 H5 b c [Hb|Hb]%elem_of_app [Hc|Hc]%elem_of_app; [by apply H1|by apply H3| |by apply H2].
  specialize (H4 _ Hc). specialize (H5 _ Hb). unfold UNIT. lia.
Qed.
(** A gap in the list splits it. *)
Lemma spaced_cut sz l : forall lo hi x y, spaced sz lo l hi -> lo <= x -> x < y <= hi ->
  (forall b, b ∈ l -> b + UNIT * sz b <= x \/ y <= b) ->
  exists l1 l2, l = l1 ++ l2 /\ spaced sz lo l1 x /\ spaced sz y l2 hi.
Proof.
  induction l as [|c l IH]; simpl; intros lo hi x y Hs Hlo Hxy Hd; [by exists [], []; split; [|simpl; lia]|].
  destruct Hs as (H1 & H2 & H3). destruct (Hd c ltac:(left)) as [Hc|Hc].
  - destruct (IH _ _ x y H3 Hc Hxy) as (l1 & l2 & -> & Ha & Hb); [intros b Hb; apply Hd; by right|].
    by exists (c :: l1), l2.
  - by exists [], (c :: l).
Qed.
(** The successor of an element. *)
Lemma links_next f l : forall a z l1 x l2, links f a l z -> a :: l = l1 ++ x :: l2 -> f x = hd z l2.
Proof.
  induction l as [|b l IH]; simpl; intros a z l1 x l2 Hl E.
  - destruct l1 as [|? [|]]; [|done|done]. by injection E as <- <-.
  - destruct Hl as [H1 H2]. destruct l1 as [|a' l1]; [by injection E as <- <-|]. injection E as -> E. by eapply IH.
Qed.
Lemma links_tail f l : forall a z l1 x l2, links f a l z -> a :: l = l1 ++ x :: l2 -> links f x l2 z.
Proof.
  intros a z [|a' l1] x l2 Hl E; injection E as -> E; [by rewrite <- E|]. rewrite E in Hl. by apply links_app in Hl as [_ Hl].
Qed.
(** On the circle every element is reached from every other one. *)
Lemma links_circle f a l x y : links f a l a -> NoDup (a :: l) -> x ∈ a :: l -> y ∈ a :: l -> x <> y ->
  exists w, links f x w y /\ (forall z, z ∈ x :: w -> z ∈ a :: l /\ z <> y) /\ (length w < length l)%nat.
Proof.
  intros Hl Hnd Hx Hy Hne. apply list_elem_of_split in Hx as (l1 & l2 & E).
  assert (length (a :: l) = length (l1 ++ x :: l2)) as Hlen by (by rewrite E).
  pose proof (links_tail _ _ _ _ _ _ _ Hl E) as Hx2.
  assert (y ∈ l1 \/ y ∈ l2) as [Hy1|Hy2] by (rewrite E in Hy; set_solver).
  - destruct (list_elem_of_split _ _ Hy1) as (m1 & m2 & ->). exists (l2 ++ m1).
    rewrite !length_app in Hlen. cbn [length] in Hlen. rewrite length_app. rewrite E in Hnd.
    split; [|split; [|lia]].
    + destruct m1 as [|a' m1]; [rewrite app_nil_r; simpl in E; injection E as -> _; done|].
      simpl in E. injection E as <- E. apply links_app. split; [done|].
      rewrite E, <- app_assoc in Hl. simpl in Hl. by apply links_app in Hl as [Hl _].
    + intros z Hz. rewrite E. apply NoDup_app in Hnd as (H1 & H2 & H3). apply NoDup_app in H1 as (H4 & H5 & H6).
      split; [set_solver|]. intros ->. apply elem_of_cons in Hz as [->|[Hz|Hz]%elem_of_app]; [done| |by apply (H5 y Hz); left].
      apply (H2 y); [set_solver|by right].
  - destruct (list_elem_of_split _ _ Hy2) as (m1 & m2 & ->). exists m1. apply links_app in Hx2 as [Hx2 _].
    rewrite !length_app in Hlen. cbn [length] in Hlen. rewrite length_app in Hlen. cbn [length] in Hlen.
    split; [done|]. split; [|lia]. rewrite E in *. intros z Hz. split; [set_solver|]. intros ->.
    apply NoDup_app in Hnd as (_ & _ & H3). apply NoDup_cons in H3 as [_ H3].
    apply NoDup_app in H3 as (_ & H3 & _). apply elem_of_cons in Hz as [->|Hz]; [done|]. apply (H3 y Hz). by left.
Qed.
Lemma spaced_NoDup sz l : forall lo hi a, spaced sz lo l hi -> a < lo -> NoDup (a :: l).
Proof.
  induction l as [|c l IH]; intros lo hi a Hs Ha; [repeat constructor; set_solver|].
  pose proof (fun b => spaced_bounds _ _ _ _ b Hs) as Hb. simpl in Hs. destruct Hs as (H1 & H2 & H3).
  apply NoDup_cons. split; [|eapply IH; [done|unfold UNIT; lia]]. intros Hin. specialize (Hb _ Hin). lia.
Qed.

(** The search stops at [p] with successor [q]. *)
Definition stops (bp p q : Z) : bool :=
  ((p <? bp) && (bp <? q)) || ((q <=? p) && ((p <? bp) || (bp <? q))).
Lemma find_path bp y h w : forall fuel x, links (h_ptr h) x w y ->
  (forall z, z ∈ x :: w -> stops bp z (h_ptr h z) = false) -> stops bp y (h_ptr h y) = true ->
  (length w < fuel)%nat -> free_find fuel bp x h = Ret y h.
Proof.
  assert (forall fuel, stops bp y (h_ptr h y) = true -> free_find fuel bp y h = Ret y h) as Hy.
  { intros fuel Hst. destruct fuel; cbn -[Z.ltb Z.leb]; unfold bind, ptr, gets; cbn -[Z.ltb Z.leb];
      unfold stops in Hst; apply orb_true_iff in Hst as [Hst|Hst]; rewrite Hst; repeat case_match; done. }
  induction w as [|c w IH]; intros [|fuel] x Hl Hn Hst Hf; cbn [length] in Hf; try lia;
    pose proof (Hn x ltac:(left)) as Hx; unfold stops in Hx; apply orb_false_iff in Hx as [Hx1 Hx2];
    cbn -[Z.ltb Z.leb]; unfold bind, ptr, gets; cbn -[Z.ltb Z.leb]; rewrite Hx1, Hx2.
  - simpl in Hl. rewrite Hl. by apply Hy.
  - destruct Hl as [-> Hl]. apply IH; [done| |done|lia]. intros z Hz. apply Hn. by right.
Qed.

Lemma last_app {A} (l : list A) x d : List.last (l ++ [x]) d = x.
Proof. apply List.last_last. Qed.
(** Only the predecessor of the block's place satisfies the test. *)
Lemma stops_pred h l1 l2 bp y hi z :
  links (h_ptr h) (h_base h) (l1 ++ l2) (h_base h) -> spaced (h_size h) (h_base h + UNIT) l1 bp ->
  spaced (h_size h) y l2 hi -> bp < y -> z ∈ h_base h :: l1 ++ l2 ->
  NoDup (h_base h :: l1 ++ l2) ->
  stops bp z (h_ptr h z) = bool_decide (z = List.last l1 (h_base h)).
Proof.
  intros Hl H1 H2 Hy Hz Hnd. pose proof (spaced_le _ _ _ _ H1) as Hle. unfold UNIT in Hle.
  pose proof (fun b => spaced_bounds _ _ _ _ b H1) as Hb1. pose proof (fun b => spaced_bounds _ _ _ _ b H2) as Hb2.
  unfold UNIT in *. unfold stops.
  rewrite app_comm_cons in Hz. apply elem_of_app in Hz as [Hz|Hz].
  - destruct (list_elem_of_split _ _ Hz) as (m1 & m2 & E).
    assert (h_ptr h z = hd (h_base h) (m2 ++ l2)) as -> by
      (eapply links_next; [done|by rewrite app_comm_cons, E, <- app_assoc]).
    assert (z < bp) as Hzb by (apply elem_of_cons in Hz as [->|Hz]; [lia|specialize (Hb1 _ Hz); lia]).
    destruct (Z.ltb_spec z bp); [|lia]. destruct m2 as [|q m2].
    + assert (z = List.last l1 (h_base h)) as Hlast.
      { destruct m1 as [|a m1]; simpl in E; injection E as E1 E2; [by subst|]. rewrite E2. by rewrite last_app. }
      rewrite bool_decide_true by done. destruct l2 as [|c l2]; simpl.
      * destruct (Z.leb_spec (h_base h) z) as [|Hlt]; [by rewrite orb_true_r|].
        apply elem_of_cons in Hz as [->|Hz]; [lia|specialize (Hb1 _ Hz); lia].
      * specialize (Hb2 c ltac:(left)). destruct (Z.ltb_spec bp c); [done|lia].
    + assert (q ∈ l1 /\ z < q) as [Hq Hzq].
      { destruct m1 as [|a m1]; simpl in E; injection E as E1 E2; subst.
        - split; [left|]. specialize (Hb1 q ltac:(left)). lia.
        - split; [set_solver|]. apply spaced_app in H1 as (mid & H3 & H4 & _). simpl in H4. unfold UNIT in H4. lia. }
      simpl. specialize (Hb1 _ Hq). rewrite bool_decide_false.
      * destruct (Z.ltb_spec bp q); [lia|]. destruct (Z.leb_spec q z); [lia|done].
      * intros Heq. rewrite app_comm_cons, E in Hnd. apply NoDup_app in Hnd as (Hnd & _ & _).
        apply NoDup_app in Hnd as (_ & _ & Hnd). apply NoDup_cons in Hnd as [Hnd _]. apply Hnd. rewrite Heq.
        assert (exists k w, q :: m2 = k ++ [w]) as (k & w & Ek) by
          (destruct (exists_last (l := q :: m2)) as (k & w & ?); [done|]; by exists k, w).
        rewrite Ek in E |- *. destruct m1 as [|a m1]; simpl in E; injection E as E1 E2; rewrite E2.
        -- rewrite last_app. set_solver.
        -- rewrite app_comm_cons, app_assoc, last_app. set_solver.
  - specialize (Hb2 _ Hz). destruct (Z.ltb_spec z bp); [lia|]. simpl.
    rewrite bool_decide_false.
    + destruct (list_elem_of_split _ _ Hz) as (m1 & m2 & ->).
      assert (h_ptr h z = hd (h_base h) m2) as -> by
        (eapply links_next; [done|by rewrite app_comm_cons, app_assoc]).
      destruct m2 as [|q m2]; simpl.
      * destruct (Z.ltb_spec bp (h_base h)); [lia|]. by rewrite andb_false_r.
      * apply spaced_app in H2 as (mid & H3 & H4 & _). simpl in H4. unfold UNIT in H4.
        destruct (Z.leb_spec q z); [lia|done].
    + intros ->. destruct l1 as [|c l1] using rev_ind; simpl in *; [lia|]. rewrite last_app in *.
      specialize (Hb1 c ltac:(set_solver)). lia.
Qed.

Lemma covers_cons sz b l u : covers sz (b :: l) u <-> b <= u < b + UNIT * sz b \/ covers sz l u.
Proof.
  unfold covers. split; [intros (c & [->|Hc]%elem_of_cons & Hu); eauto|].
  intros [Hu|(c & Hc & Hu)]; [exists b|exists c]; split; try done; [left|by right].
Qed.
Lemma covers_app sz l1 l2 u : covers sz (l1 ++ l2) u <-> covers sz l1 u \/ covers sz l2 u.
Proof. unfold covers. setoid_rewrite elem_of_app. naive_solver. Qed.
Lemma covers_ext sz sz' l u : (forall x, x ∈ l -> sz' x = sz x) -> covers sz' l u <-> covers sz l u.
Proof. intros E. unfold covers. split; intros (b & Hb & Hu); exists b; rewrite E in * by done; done. Qed.

(** [h'] differs from [h] in the headers at [ws] only. *)
Definition only (ws : list Z) (h h' : heap) : Prop :=
  (forall x, x ∉ ws -> h_ptr h' x = h_ptr h x /\ h_size h' x = h_size h x) /\
  h_base h' = h_base h /\ h_brk h' = h_brk h /\ h_limit h' = h_limit h.

Ltac hcbn := cbn [h_ptr h_size h_base h_freep h_brk h_limit] in *.
Ltac hrun := unfold bind, ptr, size, gets, set_ptr, set_size, set_freep, modify; cbn [obind]; hcbn.
Lemma only_ptr h p v : only [p] h (mk_heap (fupd (h_ptr h) p v) (h_size h) (h_base h) (h_freep h) (h_brk h) (h_limit h)).
Proof. split; [|done]. intros x Hx. hcbn. rewrite fupd_other by set_solver. done. Qed.
Lemma only_both h p v w : only [p] h (mk_heap (fupd (h_ptr h) p v) (fupd (h_size h) p w) (h_base h) (h_freep h) (h_brk h) (h_limit h)).
Proof. split; [|done]. intros x Hx. hcbn. rewrite !fupd_other by set_solver. done. Qed.
Lemma join_upper_ok h bp p l2 :
  h_ptr h p = hd (h_base h) l2 -> (forall q l2', l2 = q :: l2' -> links (h_ptr h) q l2' (h_base h)) ->
  p < bp -> 0 <= h_base h < bp -> 1 <= h_size h bp -> spaced (h_size h) (bp + UNIT * h_size h bp) l2 (h_brk h) ->
  h_brk h < 2 ^ 31 -> joined (h_size h) l2 ->
  exists h1 l2', join_upper bp p h = Ret tt h1 /\ only [bp] h h1 /\ h_freep h1 = h_freep h /\
    links (h_ptr h1) bp l2' (h_base h) /\ h_size h bp <= h_size h1 bp /\ (length l2' <= length l2)%nat /\
    spaced (h_size h1) (bp + UNIT * h_size h1 bp) l2' (h_brk h) /\
    joined (h_size h1) (bp :: l2') /\ (forall x, x ∈ l2' -> x ∈ l2) /\
    forall u, covers (h_size h1) (bp :: l2') u <-> covers (h_size h) (bp :: l2) u.
Proof.
  intros Hq Hl Hp Hb Hsz Hs Hbrk HJ. pose proof (spaced_le _ _ _ _ Hs) as Hle. unfold UNIT in *.
  unfold join_upper. hrun. rewrite Hq, (u32_small (bp + UNIT * h_size h bp)) by (unfold UNIT; lia). unfold UNIT.
  destruct l2 as [|q l2]; cbn [hd] in *.
  - destruct (Z.eqb_spec (bp + 8 * h_size h bp) (h_base h)); [lia|]. eexists _, []. split; [reflexivity|]. hcbn.
    split; [apply only_ptr|]. simpl. rewrite fupd_same. split; [done|]. split; [done|]. split; [lia|]. split; [done|]. split; [done|]. split; [|done].
    intros b c ->%list_elem_of_singleton ->%list_elem_of_singleton. unfold UNIT. lia.
  - pose proof Hs as (H1 & H2 & H3). pose proof (spaced_le _ _ _ _ H3) as Hle'. unfold UNIT in *.
    specialize (Hl q l2 eq_refl). pose proof (fun x => spaced_bounds _ _ _ _ x H3) as Hb3. unfold UNIT in Hb3.
    assert (forall x, x ∈ q :: l2 -> x <> bp) as Hne by (intros x [->|Hx]%elem_of_cons; [|specialize (Hb3 _ Hx)]; lia).
    destruct (Z.eqb_spec (bp + 8 * h_size h bp) q) as [E|E].
    + hrun. rewrite Hq, u32_small by lia. eexists _, l2. split; [reflexivity|]. hcbn. split; [apply only_both|].
      split; [done|]. rewrite fupd_same. split; [|split; [lia|split; [cbn [length]; lia|split; [|split; [|split; [by right|]]]]]].
      * destruct l2 as [|c l2]; simpl in Hl |- *; rewrite fupd_same; [done|]. destruct Hl as [-> Hl]. split; [done|].
        eapply links_ext; [|done]. intros x Hx. apply fupd_other. apply Hne. by right.
      * unfold UNIT. replace (bp + 8 * (h_size h bp + h_size h q)) with (q + 8 * h_size h q) by lia.
        eapply spaced_ext; [|done]. intros x Hx. apply fupd_other, Hne. by right.
      * apply (joined_app _ [bp] l2 q).
        -- intros b c ->%list_elem_of_singleton ->%list_elem_of_singleton. rewrite fupd_same. unfold UNIT. lia.
        -- apply (joined_ext (h_size h)); [intros x Hx; apply fupd_other, Hne; by right|]. apply (joined_sub _ (q :: l2)); [by right|done].
        -- intros b c ->%list_elem_of_singleton Hc. rewrite fupd_same. specialize (HJ q c ltac:(left) ltac:(by right)). unfold UNIT in *. lia.
        -- intros b ->%list_elem_of_singleton. lia.
        -- intros c Hc. rewrite fupd_other by (apply Hne; by right). specialize (Hb3 _ Hc). lia.
      * intros u. rewrite !covers_cons, fupd_same, (covers_ext (h_size h)); [unfold UNIT; intuition lia|].
        intros x Hx. apply fupd_other, Hne. by right.
    + eexists _, (q :: l2). split; [reflexivity|]. hcbn. split; [apply only_ptr|]. simpl. rewrite fupd_same.
      split; [done|]. split; [|split; [lia|split; [lia|split; [done|split; [|done]]]]]; [|apply (joined_app _ [bp] (q :: l2) q); [..|done| | |]].
      2: intros b c ->%list_elem_of_singleton ->%list_elem_of_singleton; unfold UNIT; lia.
      2: intros b c ->%list_elem_of_singleton [->|Hc]%elem_of_cons; [done|specialize (Hb3 _ Hc); unfold UNIT; lia].
      2: intros b ->%list_elem_of_singleton; lia.
      2: intros c [->|Hc]%elem_of_cons; [lia|specialize (Hb3 _ Hc); lia].
      split; [done|]. eapply links_ext; [|done]. intros x Hx. by apply fupd_other, Hne.
Qed.

Lemma covers_nil sz u : ~ covers sz [] u.
Proof. intros (b & Hb & _). by apply elem_of_nil in Hb. Qed.
Lemma spaced_weaken sz l lo hi lo' hi' : spaced sz lo l hi -> lo' <= lo -> hi <= hi' -> spaced sz lo' l hi'.
Proof.
  revert lo lo'. induction l as [|b l IH]; simpl; intros lo lo'; [lia|]. intros (H1 & H2 & H3) ? ?.
  split; [lia|]. split; [done|]. eapply IH; [done|lia|done].
Qed.
Lemma spaced_join sz l1 l2 lo m hi : spaced sz lo l1 m -> spaced sz m l2 hi -> spaced sz lo (l1 ++ l2) hi.
Proof.
  revert lo. induction l1 as [|b l1 IH]; simpl; intros lo; [intros; by eapply spaced_weaken|].
  intros (H1 & H2 & H3) ?. eauto.
Qed.
(** Redirecting the last pointer of a path. *)
Lemma links_redirect f a l z y : links f a l z -> NoDup (a :: l) ->
  links (fupd f (List.last l a) y) a l y.
Proof.
  revert a. induction l as [|b l IH]; intros a Hl Hnd; simpl in Hl; [by simpl; rewrite fupd_same|].
  destruct Hl as [H1 H2]. apply NoDup_cons in Hnd as [Ha Hnd].
  rewrite list_last_cons. split; [|by apply IH]. rewrite fupd_other; [done|]. intros E. apply Ha. rewrite E. clear.
  destruct l as [|c l] using rev_ind; [left|]. rewrite last_app. set_solver.
Qed.
Lemma last_in {A} (l : list A) a : List.last l a ∈ a :: l.
Proof. destruct l as [|c l] using rev_ind; [left|]. rewrite last_app. set_solver. Qed.

Lemma join_lower_ok h l1 bp l2 q : let p := List.last l1 (h_base h) in
  links (h_ptr h) (h_base h) l1 q -> links (h_ptr h) bp l2 (h_base h) ->
  spaced (h_size h) (h_base h + UNIT) l1 bp -> 1 <= h_size h bp -> spaced (h_size h) (bp + UNIT * h_size h bp) l2 (h_brk h) ->
  0 < h_base h /\ h_size h (h_base h) = 0 -> h_brk h < 2 ^ 31 ->
  joined (h_size h) l1 -> joined (h_size h) (bp :: l2) -> (forall b c, b ∈ l1 -> c ∈ l2 -> b + UNIT * h_size h b <> c) ->
  exists h2 l', join_lower bp p h = Ret tt h2 /\ only [p] h h2 /\ h_freep h2 = h_freep h /\
    links (h_ptr h2) (h_base h) l' (h_base h) /\ spaced (h_size h2) (h_base h + UNIT) l' (h_brk h) /\
    p ∈ h_base h :: l' /\ h_size h2 (h_base h) = 0 /\ (length l' <= length l1 + S (length l2))%nat /\
    (p ∈ l' /\ h_size h bp <= h_size h2 p \/ h_ptr h2 p = bp /\ bp ∈ l' /\ h_size h2 bp = h_size h bp) /\ joined (h_size h2) l' /\
    forall u, covers (h_size h2) l' u <-> covers (h_size h) (l1 ++ bp :: l2) u.
Proof.
  intros p Hl1 Hl2 Hs1 Hbp Hs2 [Hb0 Hbs] Hbrk HJ1 HJ2 HJ3.
  pose proof (spaced_le _ _ _ _ Hs1) as Hle1. pose proof (spaced_le _ _ _ _ Hs2) as Hle2.
  pose proof (fun x => spaced_bounds _ _ _ _ x Hs2) as Hb2. pose proof (fun x => spaced_bounds _ _ _ _ x Hs1) as Hb1.
  assert (NoDup (h_base h :: l1)) as Hnd by (eapply spaced_NoDup; [done|unfold UNIT; lia]).
  assert (p < bp /\ 0 <= p) as [Hpb Hp0].
  { subst p. pose proof (last_in l1 (h_base h)) as Hin. unfold UNIT in *.
    apply elem_of_cons in Hin as [E|Hin]; [rewrite E; lia|specialize (Hb1 _ Hin); lia]. }
  assert (forall x, x ∈ bp :: l2 -> x <> p) as Hne.
  { intros x [->|Hx]%elem_of_cons; [lia|specialize (Hb2 _ Hx); unfold UNIT in *; lia]. }
  unfold join_lower. hrun.
  destruct (decide (u32 (p + UNIT * h_size h p) = bp)) as [E|E].
  - (* the lower neighbour ends where the block starts *)
    rewrite E, Z.eqb_refl. hrun.
    destruct l1 as [|c k] using rev_ind; [subst p; simpl in E; rewrite Hbs, Z.mul_0_r, Z.add_0_r, u32_small in E by (unfold UNIT in *; lia); unfold UNIT in *; lia|].
    clear IHk. assert (p = c) as Ep by (subst p; apply last_app). clearbody p. subst p.
    specialize (Hb1 c ltac:(set_solver)). unfold UNIT in *. rewrite u32_small in E by lia. rewrite u32_small by lia.
    assert (forall x, x ∈ h_base h :: k -> x <> c) as Hnc.
    { intros x Hx ->. rewrite app_comm_cons in Hnd. apply NoDup_app in Hnd as (_ & Hnd & _). apply (Hnd c Hx). left. }
    apply spaced_app in Hs1 as (mid & Hk & (Hc1 & Hc2 & Hc3) & _). apply links_app in Hl1 as [Hl1 Hlc].
    eexists _, (k ++ c :: l2). split; [reflexivity|]. hcbn. split; [apply only_both|]. split; [done|].
    split; [|split; [|split; [set_solver|split; [by rewrite fupd_other by (apply Hnc; left)|split]]]].
    + apply links_app. split.
      * eapply links_ext; [|done]. intros x Hx. by apply fupd_other, Hnc.
      * destruct l2 as [|d l2]; simpl in Hl2 |- *; rewrite fupd_same; [done|]. destruct Hl2 as [-> Hl2]. split; [done|].
        eapply links_ext; [|done]. intros x Hx. apply fupd_other, Hne. by right.
    + apply spaced_join with c.
      * eapply spaced_ext; [intros x Hx; apply fupd_other, Hnc; by right|]. by eapply spaced_weaken.
      * simpl. rewrite fupd_same. split; [lia|]. split; [lia|]. unfold UNIT.
        replace (c + 8 * (h_size h c + h_size h bp)) with (bp + 8 * h_size h bp) by lia.
        eapply spaced_ext; [|done]. intros x Hx. apply fupd_other, Hne. by right.
    + rewrite !length_app. cbn [length]. lia.
    + split; [left; rewrite fupd_same; split; [set_solver|lia]|]. split.
      { apply (joined_app _ k (c :: l2) c).
        - apply (joined_ext (h_size h)); [intros x Hx; apply fupd_other, Hnc; by right|]. apply (joined_sub _ (k ++ [c])); [set_solver|done].
        - apply (joined_app _ [c] l2 bp).
          + intros x y ->%list_elem_of_singleton ->%list_elem_of_singleton. rewrite fupd_same. unfold UNIT. lia.
          + apply (joined_ext (h_size h)); [intros x Hx; apply fupd_other, Hne; by right|]. apply (joined_sub _ (bp :: l2)); [by right|done].
          + intros x y ->%list_elem_of_singleton Hy. rewrite fupd_same. specialize (HJ2 bp y ltac:(left) ltac:(by right)). unfold UNIT in *. lia.
          + intros x ->%list_elem_of_singleton. lia.
          + intros x Hx. rewrite fupd_other by (apply Hne; by right). specialize (Hb2 _ Hx). unfold UNIT in *. lia.
        - intros x y Hx Hy. rewrite fupd_other by (apply Hnc; by right). apply elem_of_cons in Hy as [->|Hy]; [apply HJ1; set_solver|apply HJ3; set_solver].
        - intros x Hx. pose proof (spaced_bounds _ _ _ _ _ Hk Hx). unfold UNIT in *. lia.
        - intros x [->|Hx]%elem_of_cons; [rewrite fupd_same; lia|]. rewrite fupd_other by (apply Hne; by right).
          specialize (Hb2 _ Hx). unfold UNIT in *. lia. }
      intros u. rewrite <- app_assoc, !covers_app. cbn [app].
      rewrite !covers_cons, fupd_same, !(covers_ext (h_size h) (fupd (h_size h) c (h_size h c + h_size h bp))).
      * unfold UNIT. assert (c <= u < c + 8 * (h_size h c + h_size h bp) <-> c <= u < c + 8 * h_size h c \/ bp <= u < bp + 8 * h_size h bp) as -> by lia.
        pose proof (covers_nil (h_size h) u). tauto.
      * intros x Hx. apply fupd_other, Hne. by right.
      * intros x Hx. apply fupd_other, Hnc. by right.
  - destruct (Z.eqb_spec (u32 (p + UNIT * h_size h p)) bp); [done|].
    eexists _, (l1 ++ bp :: l2). split; [reflexivity|]. hcbn. split; [apply only_ptr|]. split; [done|].
    split; [|split; [|split; [|split; [done|split; [|split; [|split; [|done]]]]]]].
    + apply links_app. split; [by eapply links_redirect|]. eapply links_ext; [|done]. intros x Hx. by apply fupd_other, Hne.
    + apply spaced_join with bp; [done|]. simpl. split; [lia|]. by split.
    + subst p. pose proof (last_in l1 (h_base h)). set_solver.
    + rewrite !length_app. cbn [length]. lia.
    + right. rewrite fupd_same. split; [done|]. split; [set_solver|done].
    + apply (joined_app _ _ _ bp); [done|done| | |].
      * intros x y Hx [->|Hy]%elem_of_cons; [|by apply HJ3]. intros Ex. apply E.
        assert (p = x) as -> by (by eapply spaced_last). rewrite Ex. apply u32_small. unfold UNIT in *. lia.
      * intros x Hx. specialize (Hb1 _ Hx). unfold UNIT in *. lia.
      * intros x [->|Hx]%elem_of_cons; [lia|]. specialize (Hb2 _ Hx). unfold UNIT in *. lia.
Qed.

Lemma hd_links f a l z : links f a l z -> f a = hd z l /\ forall q l', l = q :: l' -> links f q l' z.
Proof. destruct l as [|b l]; simpl; [done|]. intros [H1 H2]. split; [done|]. intros q l' E. by injection E as <- <-. Qed.
(** The search ends at the one block [p] where it may stop. *)
Lemma free_find_ok fuel h l bp p : links (h_ptr h) (h_base h) l (h_base h) -> NoDup (h_base h :: l) -> h_freep h ∈ h_base h :: l -> p ∈ h_base h :: l ->
  (forall z, z ∈ h_base h :: l -> stops bp z (h_ptr h z) = bool_decide (z = p)) -> (length l <= fuel)%nat -> free_find fuel bp (h_freep h) h = Ret p h.
Proof.
  intros Hl Hnd Hf Hp Hst Hfuel. destruct (decide (h_freep h = p)) as [E|E].
  - rewrite E. destruct fuel; cbn [free_find]; unfold bind, ptr, gets; cbn [obind]; specialize (Hst p Hp);
      rewrite bool_decide_true in Hst by done; unfold stops in Hst; apply orb_true_iff in Hst as [Hst|Hst];
      rewrite Hst; repeat case_match; done.
  - destruct (links_circle _ _ _ _ _ Hl Hnd Hf Hp E) as (w & Hw & Hz & Hlen). apply find_path with w; [done| | |lia].
    + intros z Hzw. destruct (Hz z Hzw) as [H1 H2]. rewrite Hst by done. by apply bool_decide_false.
    + rewrite Hst by done. by apply bool_decide_true.
Qed.
Lemma free_ok fuel h l bp : free_list h l -> h_base h + UNIT <= bp -> 1 <= h_size h bp -> bp + UNIT * h_size h bp <= h_brk h ->
  (forall b, b ∈ l -> b + UNIT * h_size h b <= bp \/ bp + UNIT * h_size h bp <= b) -> (length l <= fuel)%nat ->
  exists h' l', free fuel (bp + UNIT) h = Ret tt h' /\ free_list h' l' /\ only [bp; h_freep h'] h h' /\
    h_freep h' ∈ h_base h :: l /\ (length l' <= S (length l))%nat /\
    (h_freep h' ∈ l' /\ h_size h bp <= h_size h' (h_freep h') \/
     h_ptr h' (h_freep h') ∈ l' /\ h_size h bp <= h_size h' (h_ptr h' (h_freep h'))) /\
    forall u, covers (h_size h') l' u <-> covers (h_size h) l u \/ bp <= u < bp + UNIT * h_size h bp.
Proof.
  intros [Hl Hs Hf [Hb0 Hbs] [Hlim Hmax] HJ] Hlo Hsz Hhi Hd Hfuel.
  destruct (spaced_cut _ _ _ _ bp (bp + UNIT * h_size h bp) Hs Hlo ltac:(unfold UNIT in *; lia) Hd) as (l1 & l2 & -> & Hs1 & Hs2).
  assert (NoDup (h_base h :: l1 ++ l2)) as Hnd by (eapply spaced_NoDup; [done|unfold UNIT; lia]).
  set (p := List.last l1 (h_base h)).
  assert (p ∈ h_base h :: l1 ++ l2) as Hp by (pose proof (last_in l1 (h_base h)); set_solver).
  pose proof (fun z Hz => stops_pred h l1 l2 bp _ _ z Hl Hs1 Hs2 ltac:(unfold UNIT; lia) Hz Hnd) as Hst. fold p in Hst.
  assert (free_find fuel bp (h_freep h) h = Ret p h) as Hfind by (eapply free_find_ok; done).
  assert (0 < bp < 2 ^ 31) as Hbp by (unfold UNIT in *; lia).
  assert (p < bp) as Hpb.
  { subst p. pose proof (last_in l1 (h_base h)) as Hin. unfold UNIT in *. pose proof (fun x => spaced_bounds _ _ _ _ x Hs1) as Hb1.
    apply elem_of_cons in Hin as [E|Hin]; [rewrite E; lia|specialize (Hb1 _ Hin); unfold UNIT in *; lia]. }
  assert (exists q, links (h_ptr h) (h_base h) l1 q /\ links (h_ptr h) p l2 (h_base h)) as (q & Hl1 & Hl2).
  { subst p. clear -Hl. destruct l1 as [|c k] using rev_ind; [by exists (h_ptr h (h_base h))|]. clear IHk.
    rewrite <- app_assoc in Hl. simpl in Hl. apply links_app in Hl as [H1 H2]. rewrite last_app. exists (h_ptr h c).
    split; [|done]. apply links_app. done. }
  destruct (hd_links _ _ _ _ Hl2) as [Hhd Htl].
  destruct (join_upper_ok h bp p l2 Hhd Htl Hpb ltac:(unfold UNIT in *; lia) Hsz Hs2 ltac:(lia))
    as (h1 & l2' & Hj & [Ho1 (Hob & Hobrk & Holim)] & Hfp1 & Hl2' & Hsz1 & Hlen1 & Hs2' & HJ2 & Hsub & Hc1);
    [apply (joined_sub _ (l1 ++ l2)); [set_solver|done]|].
  assert (forall x, x ∈ h_base h :: l1 -> x ∉ [bp]) as Hnb.
  { intros x Hx Hx'. apply list_elem_of_singleton in Hx'. subst x. pose proof (fun x => spaced_bounds _ _ _ _ x Hs1) as Hb1. unfold UNIT in *.
    apply elem_of_cons in Hx as [E|Hx]; [lia|specialize (Hb1 _ Hx); lia]. }
  assert (forall x, x ∈ h_base h1 :: l1 -> h_ptr h1 x = h_ptr h x /\ h_size h1 x = h_size h x) as Hkeep.
  { rewrite Hob. intros x Hx. by apply Ho1, Hnb. }
  destruct (join_lower_ok h1 l1 bp l2' q) as (h2 & l' & Hj2 & [Ho2 (Hob2 & Hobrk2 & Holim2)] & Hfp2 & Hll & Hss & Hpin & Hbs2 & Hlen2 & Hfit & HJ' & Hc2);
    rewrite ?Hob, ?Hobrk in *; try lia; try done.
  - eapply links_ext; [|done]. intros x Hx. by apply Hkeep.
  - eapply spaced_ext; [|done]. intros x Hx. apply Hkeep. by right.
  - split; [done|]. destruct (Hkeep (h_base h) ltac:(left)) as [_ ->]. done.
  - apply (joined_ext (h_size h)); [intros x Hx; apply Hkeep; by right|]. apply (joined_sub _ (l1 ++ l2)); [set_solver|done].
  - intros b c Hb Hc. destruct (Hkeep b ltac:(by right)) as [_ ->]. apply HJ; [set_solver|]. apply Hsub in Hc. set_solver.
  - fold p in Hj2, Ho2, Hfit, Hpin. exists (mk_heap (h_ptr h2) (h_size h2) (h_base h2) p (h_brk h2) (h_limit h2)), l'.
    rewrite length_app in *. hcbn. rewrite Hob2, Hobrk2, Holim2, Holim, ?Hobrk in *.
    split; [|split; [|split; [|split; [done|split; [lia|split]]]]].
    + unfold free. rewrite (u32_small (bp + UNIT - UNIT)) by lia. replace (bp + UNIT - UNIT) with bp by lia.
      unfold bind at 1, gets. cbn [obind]. rewrite (bind_Ret _ _ _ _ _ Hfind), (bind_Ret _ _ _ _ _ Hj), (bind_Ret _ _ _ _ _ Hj2).
      unfold set_freep, modify. congruence.
    + by split.
    + split; [|by hcbn]. intros x Hx. hcbn. destruct (Ho2 x) as [-> ->]; [set_solver|]. apply Ho1. set_solver.
    + destruct Hfit as [[H1 H2]|(H1 & H2 & H3)]; [left; split; [done|lia]|]. right. rewrite H1. split; [done|lia].
    + intros u. rewrite Hc2, !covers_app. specialize (Hc1 u). rewrite !covers_cons in *.
      rewrite (covers_ext (h_size h) (h_size h1) l1) by (intros x Hx; apply Hkeep; by right). tauto.
Qed.

(** [p] is the address of a fresh block of [n] units: the rest of the memory that
    was free, or came from the kernel, is still free, and no other header in use
    changed. *)
Record fresh (h : heap) (l : list Z) (n p : Z) (h' : heap) (l' : list Z) : Prop := mk_fresh {
  fr_list : free_list h' l';
  fr_size : h_size h' (p - UNIT) = n;
  fr_range : h_base h + UNIT <= p - UNIT /\ p - UNIT + UNIT * n <= h_brk h';
  fr_apart : forall u, p - UNIT <= u < p - UNIT + UNIT * n -> ~ covers (h_size h') l' u;
  fr_covers : forall u, covers (h_size h') l' u \/ p - UNIT <= u < p - UNIT + UNIT * n <->
    covers (h_size h) l u \/ h_brk h <= u < h_brk h';
  fr_frame : forall x, ~ covers (h_size h) l x -> x <> h_base h -> x < h_brk h ->
    h_ptr h' x = h_ptr h x /\ h_size h' x = h_size h x;
  fr_base : h_base h' = h_base h /\ h_limit h' = h_limit h;
  fr_brk : h_brk h <= h_brk h' }.

Lemma spaced_apart sz l1 b l2 lo hi : spaced sz lo (l1 ++ b :: l2) hi ->
  (forall u, b <= u < b + UNIT * sz b -> ~ covers sz (l1 ++ l2) u).
Proof.
  intros Hs u Hu Hc. apply spaced_app in Hs as (mid & H1 & (H2 & H3 & H4) & _).
  apply covers_app in Hc as [(c & Hc & Hcu)|(c & Hc & Hcu)].
  - destruct (spaced_bounds _ _ _ _ _ H1 Hc). lia.
  - destruct (spaced_bounds _ _ _ _ _ H4 Hc). lia.
Qed.
(** The predecessor on the list. *)
Lemma links_prev f a l x p : links f a l a -> NoDup (a :: l) -> x ∈ a :: l -> f x = p -> p ∈ l ->
  exists l1 l2, l = l1 ++ p :: l2 /\ x = List.last l1 a.
Proof.
  intros Hl Hnd Hx Hp Hin. destruct (list_elem_of_split _ _ Hx) as (m1 & m2 & E).
  rewrite (links_next _ _ _ _ _ _ _ Hl E) in Hp. destruct m2 as [|q m2]; simpl in Hp; subst p.
  - apply NoDup_cons in Hnd as [Hnd _]. done.
  - destruct m1 as [|a' m1]; simpl in E; injection E as -> ->; [by exists [], m2|].
    exists (m1 ++ [x]), m2. rewrite <- app_assoc, last_app. done.
Qed.

(** The block [p] behind [l1] is large enough. *)
Section Take.
Context (h : heap) (l1 l2 : list Z) (p n : Z) (HF : free_list h (l1 ++ p :: l2)) (Hn : 1 <= n <= h_size h p).
Let prevp := List.last l1 (h_base h).

Lemma take_NoDup : NoDup (h_base h :: l1) /\ p ∉ h_base h :: l1 /\ p ∉ l2 /\ prevp ∉ l2.
Proof.
  destruct HF as [Hl Hs Hf [Hb0 Hbs] [Hlim Hmax] HJ].
  assert (NoDup ((h_base h :: l1) ++ p :: l2)) as (H1 & H2 & H3)%NoDup_app by (eapply spaced_NoDup; [exact Hs|unfold UNIT; lia]).
  apply NoDup_cons in H3 as [H3 _]. split; [done|]. split; [intros H; apply (H2 p H); by left|]. split; [done|].
  intros H. apply (H2 _ (last_in l1 (h_base h))). by right.
Qed.
Lemma take_spaced : exists mid, spaced (h_size h) (h_base h + UNIT) l1 mid /\ mid <= p /\ spaced (h_size h) (p + UNIT * h_size h p) l2 (h_brk h) /\
  h_base h + UNIT <= p /\ p + UNIT * h_size h p <= h_brk h.
Proof.
  destruct HF as [Hl Hs Hf [Hb0 Hbs] [Hlim Hmax] HJ]. pose proof (spaced_bounds _ _ _ _ p Hs ltac:(set_solver)) as Hpb.
  pose proof Hs as (mid & Hs1 & (Hm1 & Hm2 & Hs2) & _)%spaced_app. exists mid. split; [done|]. split; [lia|]. split; [done|]. unfold UNIT in *. lia.
Qed.

(** All of it: the block leaves the list. *)
Lemma take_whole : h_size h p = n -> exists q h' l', take n prevp p h = Ret q h' /\ fresh h (l1 ++ p :: l2) n q h' l'.
Proof.
  intros E. destruct take_NoDup as (N1 & N2 & N3 & N4). destruct take_spaced as (mid & Hs1 & Hm & Hs2 & P1 & P2).
  destruct HF as [Hl Hs Hf [Hb0 Hbs] [Hlim Hmax] HJ]. pose proof (spaced_apart _ _ _ _ _ _ Hs) as Hap. pose proof Hl as [Hl1 Hl2]%links_app.
  unfold UNIT in *. unfold take. hrun. destruct (Z.eqb_spec (h_size h p) n); [|done].
  unfold ret. hrun. rewrite u32_small by (unfold UNIT; lia). eexists _, _, (l1 ++ l2). split; [reflexivity|].
  split; hcbn; rewrite ?Z.add_simpl_r; try done.
  - split; hcbn; try done.
    + destruct l2 as [|c l2']; [rewrite app_nil_r; simpl in Hl2; rewrite Hl2; by eapply links_redirect|].
      simpl in Hl2. destruct Hl2 as [Hc Hl2]. rewrite Hc. apply links_app. split; [by eapply links_redirect|].
      eapply links_ext; [|done]. intros x Hx. apply fupd_other. intros ->. done.
    + eapply spaced_join; [done|]. eapply spaced_weaken; [done|unfold UNIT; lia|lia].
    + pose proof (last_in l1 (h_base h)). set_solver.
    + apply (joined_sub _ (l1 ++ p :: l2)); [set_solver|done].
  - unfold UNIT. lia.
  - intros u Hu. apply Hap. by rewrite E.
  - intros u. rewrite !covers_app, covers_cons, E. unfold UNIT. intuition lia.
  - intros x Hx Hxb _. split; [|done]. apply fupd_other. intros ->. apply Hx.
    pose proof (last_in l1 (h_base h)) as Hi. fold prevp in Hi. apply elem_of_cons in Hi as [|Hi]; [done|].
    exists prevp. split; [set_solver|]. destruct (spaced_bounds _ _ _ _ _ Hs1 Hi). unfold UNIT in *. lia.
Qed.

(** The tail of it: the block stays, smaller. *)
Lemma take_tail : h_size h p <> n -> exists q h' l', take n prevp p h = Ret q h' /\ fresh h (l1 ++ p :: l2) n q h' l'.
Proof.
  intros E. destruct take_NoDup as (N1 & N2 & N3 & N4). destruct take_spaced as (mid & Hs1 & Hm & Hs2 & P1 & P2).
  destruct HF as [Hl Hs Hf [Hb0 Hbs] [Hlim Hmax] HJ]. pose proof (spaced_apart _ _ _ _ _ _ Hs) as Hap.
  unfold UNIT in *. unfold take. hrun. destruct (Z.eqb_spec (h_size h p) n); [done|].
  unfold ret. hrun. rewrite fupd_same. rewrite (u32_small (h_size h p - n)) by lia. unfold UNIT.
  rewrite (u32_small (p + 8 * (h_size h p - n))) by lia. rewrite u32_small by lia.
  set (r := p + 8 * (h_size h p - n)) in *. set (sz := fupd (fupd (h_size h) p (h_size h p - n)) r n).
  assert (forall x, x ∈ h_base h :: l1 ++ l2 -> sz x = h_size h x) as Hsz.
  { intros x Hx. rewrite app_comm_cons in Hx. subst sz. rewrite !fupd_other; [done|intros ->; set_solver|]. intros ->.
    apply elem_of_app in Hx as [[Hx|Hx]%elem_of_cons|Hx]; [lia| |].
    - pose proof (spaced_bounds _ _ _ _ _ Hs1 Hx). unfold UNIT in *. lia.
    - pose proof (spaced_bounds _ _ _ _ _ Hs2 Hx). unfold UNIT in *. lia. }
  assert (sz p = h_size h p - n) as Hszp by (subst sz; rewrite fupd_other, fupd_same by lia; done).
  assert (forall u, covers sz (l1 ++ p :: l2) u <-> covers (h_size h) (l1 ++ l2) u \/ p <= u < r) as Hcv.
  { intros u. rewrite covers_app, covers_cons, covers_app, Hszp, !(covers_ext (h_size h) sz); [unfold UNIT; intuition lia| |];
      intros x Hx; apply Hsz; set_solver. }
  eexists _, _, (l1 ++ p :: l2). split; [reflexivity|].
  split; hcbn; rewrite ?Z.add_simpl_r; fold sz; try done.
  - split; hcbn; try done.
    + eapply spaced_join; [eapply spaced_ext; [|done]; intros x Hx; apply Hsz; set_solver|].
      simpl. rewrite Hszp. split; [lia|]. split; [lia|]. apply spaced_weaken with (p + UNIT * h_size h p) (h_brk h); [|unfold UNIT; lia|lia].
      eapply spaced_ext; [|done]. intros x Hx; apply Hsz; set_solver.
    + pose proof (last_in l1 (h_base h)). set_solver.
    + split; [done|]. rewrite Hsz by left. done.
    + intros x y Hx Hy. destruct (decide (x = p)) as [->|Hxp].
      * rewrite Hszp. intros Ey. apply elem_of_app in Hy as [Hy|[Hy|Hy]%elem_of_cons]; unfold UNIT in *; [|lia|].
        -- pose proof (spaced_bounds _ _ _ _ _ Hs1 Hy). unfold UNIT in *. lia.
        -- pose proof (spaced_bounds _ _ _ _ _ Hs2 Hy). unfold UNIT in *. lia.
      * rewrite Hsz by set_solver. by apply HJ.
  - apply fupd_same.
  - unfold UNIT. lia.
  - intros u Hu. rewrite Hcv. unfold UNIT in Hu. intros [Hc|Hc]; [|lia]. apply (Hap u); [lia|done].
  - intros u. rewrite Hcv, !covers_app, covers_cons. unfold UNIT. intuition lia.
  - intros x Hx Hxb Hxk. split; [done|]. subst sz. rewrite !fupd_other; [done| |];
      intros ->; apply Hx; exists p; (split; [set_solver|unfold UNIT; lia]).
Qed.
End Take.

Lemma take_ok h l n prevp : free_list h l -> prevp ∈ h_base h :: l -> 1 <= n <= h_size h (h_ptr h prevp) ->
  exists p h' l', take n prevp (h_ptr h prevp) h = Ret p h' /\ fresh h l n p h' l'.
Proof.
  intros HF Hp Hn. pose proof HF as [Hl Hs Hf [Hb0 Hbs] [Hlim Hmax] HJ]. remember (h_ptr h prevp) as p eqn:Hpe.
  assert (NoDup (h_base h :: l)) as Hnd by (eapply spaced_NoDup; [done|unfold UNIT; lia]).
  assert (p ∈ l) as Hin.
  { destruct (list_elem_of_split _ _ Hp) as (m1 & m2 & E). rewrite (links_next _ _ _ _ _ _ _ Hl E) in Hpe.
    destruct m2 as [|q m2]; simpl in Hpe; subst p; [lia|]. destruct m1; injection E as _ ->; set_solver. }
  destruct (links_prev _ _ _ _ p Hl Hnd Hp (eq_sym Hpe) Hin) as (l1 & l2 & -> & ->).
  destruct (decide (h_size h p = n)); [by apply take_whole|by apply take_tail].
Qed.

Lemma free_list_NoDup h l : free_list h l -> NoDup (h_base h :: l).
Proof. intros Hf. eapply spaced_NoDup; [apply Hf|unfold UNIT; lia]. Qed.
Lemma free_list_next h l x : free_list h l -> x ∈ h_base h :: l -> h_ptr h x ∈ h_base h :: l.
Proof.
  intros [Hl _ _ _ _ _] Hx. destruct (list_elem_of_split _ _ Hx) as (m1 & m2 & E). rewrite (links_next _ _ _ _ _ _ _ Hl E), E.
  destruct m2 as [|q m2]; simpl; [rewrite <- E; left|set_solver].
Qed.
Lemma free_list_pos h l x : free_list h l -> x ∈ h_base h :: l -> 0 < x.
Proof.
  intros [_ Hs _ [Hb _] _ _] [->|Hx]%elem_of_cons; [done|]. pose proof (spaced_bounds _ _ _ _ _ Hs Hx). unfold UNIT in *. lia.
Qed.
Lemma malloc_loop_take fuel ff n prevp p h : n <= h_size h p -> malloc_loop fuel ff n prevp p h = take n prevp p h.
Proof. intros Hn. destruct fuel; cbn [malloc_loop]; unfold bind at 1, size, gets; cbn [obind]; destruct (Z.leb_spec n (h_size h p)); done || lia. Qed.
Lemma malloc_loop_next f ff n prevp p h : h_size h p < n -> p <> h_freep h -> p <> 0 ->
  malloc_loop (S f) ff n prevp p h = malloc_loop f ff n p (h_ptr h p) h.
Proof.
  intros Hn Hf H0. cbn [malloc_loop]. unfold bind, size, gets, ptr, ret. cbn [obind].
  destruct (Z.leb_spec n (h_size h p)); [lia|]. cbn [obind]. destruct (Z.eqb_spec p (h_freep h)); [done|]. cbn [obind].
  destruct (Z.eqb_spec p 0); done.
Qed.

(** From [p] to [y] the loop takes a block or arrives at [y]. *)
Lemma scan_ok h l ff n y w : free_list h l -> 1 <= n -> forall fuel prevp p,
  prevp ∈ h_base h :: l -> h_ptr h prevp = p -> links (h_ptr h) p w y -> (forall z, z ∈ p :: w -> z <> h_freep h) ->
  (length w < fuel)%nat ->
  (exists p' h' l', malloc_loop fuel ff n prevp p h = Ret p' h' /\ fresh h l n p' h' l') \/
  exists prevp', prevp' ∈ h_base h :: l /\ h_ptr h prevp' = y /\
    malloc_loop fuel ff n prevp p h = malloc_loop (fuel - S (length w)) ff n prevp' y h.
Proof.
  intros Hfl Hn. induction w as [|c w IH]; intros fuel prevp p Hprev Hp Hw Hne Hf;
    (destruct (Z.le_gt_cases n (h_size h p)) as [Hfit|Hfit];
      [left; rewrite malloc_loop_take by done; subst p; by apply take_ok|]);
    (destruct fuel as [|fuel]; [lia|]); rewrite malloc_loop_next;
    try (by apply Hne; left); try lia;
    try (enough (0 < p) by lia; eapply free_list_pos; [done|subst p; by apply free_list_next]).
  - right. exists p. split; [subst p; by apply free_list_next|]. split; [done|]. simpl in Hw. rewrite Hw.
    f_equal. simpl. lia.
  - destruct Hw as [Hc Hw]. rewrite Hc. cbn [length] in Hf |- *.
    destruct (IH fuel p c) as [Hl|Hr]; [subst p; by apply free_list_next|done|done| |lia| |].
    + intros z Hz. apply Hne. by right.
    + by left.
    + right. destruct Hr as (x & H1 & H2 & H3). exists x. split; [done|]. split; [done|]. rewrite H3. f_equal.
Qed.

Lemma sbrk_grow n h : 0 < n ->
  sbrk n h = if h_brk h + n <=? h_limit h then Ret (h_brk h) (mk_heap (h_ptr h) (h_size h) (h_base h) (h_freep h) (h_brk h + n) (h_limit h))
             else Ret (-1) h.
Proof. intros Hn. unfold sbrk, bind, gets. cbn [obind]. destruct (Z.ltb_spec 0 n); [|lia]. by destruct (_ <=? _). Qed.
(** More memory: none, or a free block of the size asked for, next to [freep]. *)
Lemma morecore_ok ff h l n : free_list h l -> 1 <= n < 2 ^ 28 -> (length l <= ff)%nat ->
  morecore ff n h = Ret 0 h \/
  exists h' l', morecore ff n h = Ret (h_freep h') h' /\ free_list h' l' /\ (length l' <= S (length l))%nat /\
    h_freep h' <> 0 /\ h_brk h + UNIT * n <= h_brk h' /\ h_base h' = h_base h /\ h_limit h' = h_limit h /\
    (h_freep h' ∈ l' /\ n <= h_size h' (h_freep h') \/ n <= h_size h' (h_ptr h' (h_freep h'))) /\
    (forall u, covers (h_size h') l' u <-> covers (h_size h) l u \/ h_brk h <= u < h_brk h') /\
    forall x, ~ covers (h_size h) l x -> x <> h_base h -> x < h_brk h -> h_ptr h' x = h_ptr h x /\ h_size h' x = h_size h x.
Proof.
  intros Hfl Hn Hff. pose proof Hfl as [Hl Hs Hf [Hb0 Hbs] [Hlim Hmax] HJ]. unfold morecore.
  set (nu := if n <? 4096 then 4096 else n). assert (n <= nu < 2 ^ 28) as Hnu by (subst nu; case_Z; lia).
  assert (1 <= nu) as Hnu1 by lia. clearbody nu. unfold UNIT in *.
  rewrite u32_small, s32_small by lia. pose proof (sbrk_grow (nu * 8) h ltac:(lia)) as Hsb.
  destruct (Z.leb_spec (h_brk h + nu * 8) (h_limit h)) as [Hok|Hno]; rewrite (bind_Ret _ _ _ _ _ Hsb); [right|by left].
  pose proof (spaced_le _ _ _ _ Hs) as Hle. set (bp := h_brk h) in *. destruct (Z.eqb_spec bp (-1)); [lia|].
  rewrite (bind_Ret (set_size bp nu) _ _ tt _ eq_refl). hcbn.
  match goal with |- context [bind (free _ _) _ ?x] => set (h1 := x) end.
  assert (forall x, x ∈ h_base h :: l -> h_size h1 x = h_size h x /\ x <> bp) as Hkeep.
  { intros x Hx. assert (x <> bp) by (apply elem_of_cons in Hx as [->|Hx]; [lia|]; pose proof (spaced_bounds _ _ _ _ _ Hs Hx); unfold UNIT in *; lia).
    split; [|done]. subst h1. hcbn. by apply fupd_other. }
  assert (free_list h1 l) as Hfl1.
  { split; [done| |done| | |].
    - eapply spaced_weaken; [eapply spaced_ext; [|done]|done|subst h1; hcbn; lia]. intros x Hx. apply Hkeep. by right.
    - split; [done|]. change (h_base h1) with (h_base h). destruct (Hkeep (h_base h) ltac:(left)) as [-> _]. done.
    - subst h1. hcbn. lia.
    - apply (joined_ext (h_size h)); [|done]. intros x Hx. apply Hkeep. by right. }
  assert (h_size h1 bp = nu) as Hszbp by (subst h1; hcbn; apply fupd_same).
  destruct (free_ok ff h1 l bp Hfl1) as (h' & l' & Hrun & Hfl' & [Hon (Hob & Hobrk & Holim)] & Hfp & Hlen & Hfit & Hcov); rewrite ?Hszbp; unfold UNIT; try lia.
  { done. } { subst h1. hcbn. lia. }
  { intros b Hb. left. destruct (Hkeep b ltac:(by right)) as [-> _]. pose proof (spaced_bounds _ _ _ _ _ Hs Hb). unfold UNIT in *. lia. }
  unfold UNIT in Hrun. rewrite (u32_small (bp + 8)) by lia. rewrite (bind_Ret _ _ _ _ _ Hrun). rewrite Hszbp in *.
  assert (h_brk h' = bp + nu * 8) as Hbrk' by (rewrite Hobrk; done).
  exists h', l'. split; [done|]. split; [done|]. split; [done|]. split; [pose proof (free_list_pos _ _ _ Hfl1 Hfp); lia|].
  split; [lia|]. split; [done|]. split; [done|]. split; [destruct Hfit as [[? ?]|[? ?]]; [left|right]; [split; [done|]|]; lia|]. split.
  - intros u. rewrite Hcov, (covers_ext (h_size h) (h_size h1)) by (intros x Hx; apply Hkeep; by right). unfold UNIT. rewrite Hbrk'. intuition lia.
  - intros x Hx Hxb Hxk. destruct (Hon x) as [H1 H2].
    + intros [E|E%list_elem_of_singleton]%elem_of_cons; [lia|]. subst x. apply elem_of_cons in Hfp as [E|Hin]; [done|].
      apply Hx. exists (h_freep h'). split; [done|]. pose proof (spaced_bounds _ _ _ _ _ Hs Hin). unfold UNIT in *. lia.
    + rewrite H1, H2. subst h1. hcbn. split; [done|]. apply fupd_other. lia.
Qed.

Lemma fresh_trans h l h1 l1 n p h' l' : h_brk h <= h_brk h1 -> h_base h1 = h_base h -> h_limit h1 = h_limit h ->
  (forall u, covers (h_size h1) l1 u <-> covers (h_size h) l u \/ h_brk h <= u < h_brk h1) ->
  (forall x, ~ covers (h_size h) l x -> x <> h_base h -> x < h_brk h -> h_ptr h1 x = h_ptr h x /\ h_size h1 x = h_size h x) ->
  fresh h1 l1 n p h' l' -> fresh h l n p h' l'.
Proof.
  intros Hle Hb Hlm Hc Hfr [F1 F2 F3 F4 F5 F6 F7 F8]. rewrite Hb, Hlm in *. split; try done; [| |lia].
  - intros u. rewrite F5, Hc. intuition lia.
  - intros x Hx Hxb Hxk. destruct (Hfr x Hx Hxb Hxk) as [E1 E2]. destruct (F6 x) as [-> ->]; [|done|lia|done].
    rewrite Hc. intros [H1|H1]; [done|lia].
Qed.

(** After more memory came, the loop finds it. *)
Lemma malloc_loop_found h l fuel ff n : free_list h l -> 1 <= n -> (length l < fuel)%nat ->
  (h_freep h ∈ l /\ n <= h_size h (h_freep h) \/ n <= h_size h (h_ptr h (h_freep h))) ->
  exists p h' l', malloc_loop fuel ff n (h_freep h) (h_ptr h (h_freep h)) h = Ret p h' /\ fresh h l n p h' l'.
Proof.
  intros Hfl Hn Hfuel Hfit. pose proof (fl_freep _ _ Hfl) as Hf.
  destruct (Z.le_gt_cases n (h_size h (h_ptr h (h_freep h)))) as [Hq|Hq].
  { rewrite malloc_loop_take by done. by apply take_ok. }
  destruct Hfit as [[Hin Hsz]|?]; [|lia].
  assert (h_ptr h (h_freep h) <> h_freep h) as Hne by (intros E; rewrite E in Hq; lia).
  destruct (links_circle _ _ _ _ _ (fl_links _ _ Hfl) (free_list_NoDup _ _ Hfl) (free_list_next _ _ _ Hfl Hf) Hf Hne)
    as (w & Hw & Hz & Hlen).
  destruct (scan_ok h l ff n _ w Hfl Hn fuel (h_freep h) _ Hf eq_refl Hw) as [Hdone|(x & Hx & Hxn & Hrun)]; [|lia|done|].
  - intros z Hzw. by apply Hz.
  - rewrite Hrun, malloc_loop_take by done. rewrite <- Hxn. apply take_ok; [done|done|]. rewrite Hxn. lia.
Qed.
Lemma malloc_loop_core fuel ff n prevp h : h_size h (h_freep h) < n ->
  malloc_loop fuel ff n prevp (h_freep h) h =
    (p <- morecore ff n ;; if p =? 0 then ret 0 else
     match fuel with O => nofuel | S f => q <- ptr p ;; malloc_loop f ff n p q end) h.
Proof.
  intros Hn. destruct fuel; cbn [malloc_loop]; unfold bind at 1, size, gets; cbn [obind];
    (destruct (Z.leb_spec n (h_size h (h_freep h))); [lia|]); unfold bind at 1; cbn [obind]; rewrite Z.eqb_refl; done.
Qed.
Lemma malloc_loop_ok h l fuel ff n : free_list h l -> 1 <= n < 2 ^ 28 ->
  (2 * length l + 4 <= fuel)%nat -> (length l <= ff)%nat ->
  exists p h', malloc_loop fuel ff n (h_freep h) (h_ptr h (h_freep h)) h = Ret p h' /\
    (p = 0 /\ h' = h \/ exists l', fresh h l n p h' l').
Proof.
  intros Hfl Hn Hfuel Hff. pose proof (fl_freep _ _ Hfl) as Hf.
  assert (exists prevp k, (length l + 3 <= k)%nat /\ prevp ∈ h_base h :: l /\ h_ptr h prevp = h_freep h /\
    ((exists p h' l', malloc_loop fuel ff n (h_freep h) (h_ptr h (h_freep h)) h = Ret p h' /\ fresh h l n p h' l') \/
     malloc_loop fuel ff n (h_freep h) (h_ptr h (h_freep h)) h = malloc_loop k ff n prevp (h_freep h) h)) as (prevp & k & Hk & Hpin & Hpn & Hcase).
  { destruct (decide (h_ptr h (h_freep h) = h_freep h)) as [E|E].
    - exists (h_freep h), fuel. split; [lia|]. split; [done|]. split; [done|]. right. by rewrite E.
    - destruct (links_circle _ _ _ _ _ (fl_links _ _ Hfl) (free_list_NoDup _ _ Hfl) (free_list_next _ _ _ Hfl Hf) Hf E)
        as (w & Hw & Hz & Hlen).
      destruct (scan_ok h l ff n _ w Hfl ltac:(lia) fuel (h_freep h) _ Hf eq_refl Hw) as [Hdone|(x & Hx & Hxn & Hrun)]; [|lia| |].
      + intros z Hzw. by apply Hz.
      + assert (exists x, x ∈ h_base h :: l /\ h_ptr h x = h_freep h) as (x & Hx & Hxn).
        { clear -Hw Hz Hfl Hf. revert Hw Hz. generalize (free_list_next _ _ _ Hfl Hf). generalize (h_ptr h (h_freep h)).
          induction w as [|c w IH]; intros a Ha Hw Hz; [by exists a|]. destruct Hw as [<- Hw].
          apply (IH (h_ptr h a)); [by apply free_list_next|done|]. intros z Hzw. apply Hz. by right. }
        exists x, fuel. split; [lia|]. split; [done|]. split; [done|]. by left.
      + exists x, (fuel - S (length w))%nat. split; [lia|]. split; [done|]. split; [done|]. by right. }
  destruct Hcase as [(p & h' & l' & Hrun & Hfr)|Hrun]; [exists p, h'; split; [done|]; right; by exists l'|]. rewrite Hrun.
  destruct (Z.le_gt_cases n (h_size h (h_freep h))) as [Hfit|Hfit].
  { rewrite malloc_loop_take by done. rewrite <- Hpn. destruct (take_ok h l n prevp Hfl Hpin) as (p & h' & l' & Ht & Hfr); [rewrite Hpn; lia|].
    exists p, h'. split; [done|]. right. by exists l'. }
  rewrite malloc_loop_core by done.
  destruct (morecore_ok ff h l n Hfl Hn Hff) as [H0|(h1 & l1 & H1 & Hfl1 & Hlen & Hne & Hbrk & Hb & Hlm & Hfit1 & Hc & Hfr1)].
  { rewrite (bind_Ret _ _ _ _ _ H0). exists 0, h. split; [done|]. by left. }
  rewrite (bind_Ret _ _ _ _ _ H1). destruct (Z.eqb_spec (h_freep h1) 0); [done|]. destruct k as [|k]; [lia|].
  unfold bind, ptr, gets. cbn [obind].
  assert (length l1 < k)%nat as Hk1 by lia. destruct (malloc_loop_found h1 l1 k ff n Hfl1 ltac:(lia) Hk1 Hfit1) as (p & h' & l' & Hr & Hfr).
  exists p, h'. split; [done|]. right. exists l'. unfold UNIT in *. by apply (fresh_trans h l h1 l1); [lia|..].
Qed.

(* ------------------------------------------------------------------ *)
(** ** The allocator's promise

    [heap_inv start h l live]: the memory that came from the kernel, from [start]
    to the break, is cut into the free blocks [l] and the blocks [live] that the
    program holds; no two of them overlap. *)
Definition apart (sz : Z -> Z) (b c : Z) : Prop := b + UNIT * sz b <= c \/ c + UNIT * sz c <= b.
Record heap_inv (start : Z) (h : heap) (l live : list Z) : Prop := mk_heap_inv {
  hi_list : free_list h l;
  hi_start : start <= h_brk h;
  hi_live : forall b, b ∈ live -> h_base h + UNIT <= b /\ 1 <= h_size h b /\ b + UNIT * h_size h b <= h_brk h;
  hi_free_live : forall b c, b ∈ l -> c ∈ live -> apart (h_size h) b c;
  hi_live_live : forall i j b c, live !! i = Some b -> live !! j = Some c -> i <> j -> apart (h_size h) b c;
  hi_tiled : forall u, start <= u < h_brk h <-> covers (h_size h) l u \/ covers (h_size h) live u }.
(** Before the first call. *)
Definition unused (start : Z) (h : heap) : Prop :=
  h_freep h = 0 /\ h_brk h = start /\ 0 < h_base h /\ h_base h + UNIT <= start /\ start <= h_limit h < 2 ^ 31.
Definition heap_ok (start : Z) (h : heap) (l live : list Z) : Prop :=
  heap_inv start h l live \/ unused start h /\ l = [] /\ live = [].

Lemma apart_points sz b c : 1 <= sz b -> 1 <= sz c ->
  (forall u, b <= u < b + UNIT * sz b -> c <= u < c + UNIT * sz c -> False) -> apart sz b c.
Proof. intros Hb Hc Hu. unfold apart, UNIT in *. specialize (Hu (Z.max b c)). lia. Qed.
Lemma live_not_free sz l lo hi c u : spaced sz lo l hi -> (forall b, b ∈ l -> apart sz b c) ->
  c <= u < c + UNIT * sz c -> ~ covers sz l u.
Proof. intros Hs Ha Hu (b & Hb & Hbu). specialize (Ha b Hb). unfold apart, UNIT in *. lia. Qed.
(** The blocks in use have kept their headers and no free block reaches them. *)
Lemma free_live_kept h' l' (live : list Z) : free_list h' l' -> (forall c, c ∈ live -> 1 <= h_size h' c) ->
  (forall c u, c ∈ live -> c <= u < c + UNIT * h_size h' c -> ~ covers (h_size h') l' u) ->
  forall b c, b ∈ l' -> c ∈ live -> apart (h_size h') b c.
Proof.
  intros Hfl Hc1 Hc b c Hb Hin. apply apart_points; [|auto|].
  - by destruct (spaced_bounds _ _ _ _ _ (fl_spaced _ _ Hfl) Hb) as (_ & ? & _).
  - intros u Hu Hu'. apply (Hc c u Hin Hu'). by exists b.
Qed.
Lemma units_facts nbytes : 0 <= nbytes < 2 ^ 32 ->
  1 <= units nbytes <= 2 ^ 29 /\
  (nbytes <= 2 ^ 32 - 8 -> nbytes <= UNIT * (units nbytes - 1) < nbytes + UNIT) /\
  (2 ^ 32 - 8 < nbytes -> units nbytes = 1).
Proof.
  intros Hn. unfold units, UNIT, u32.
  destruct (Z.le_gt_cases nbytes (2 ^ 32 - 8)) as [H|H].
  - rewrite (Z.mod_small (nbytes + 8 - 1)) by lia. rewrite Z.mod_small by dlia. repeat split; try lia; dlia.
  - assert ((nbytes + 8 - 1) mod 2 ^ 32 = nbytes + 7 - 2 ^ 32) as -> by (symmetry; apply Z.mod_unique with 1; lia).
    rewrite (Z.div_small (nbytes + 7 - 2 ^ 32)) by lia. rewrite Z.mod_small by lia. lia.
Qed.
(** C37: the number of units [malloc] asks for.  It holds the data and one header
    with less than a unit to spare, except that for the seven largest requests the
    32-bit sum wraps around and one unit, with no room for data, is asked for. *)
Theorem units_bounds nbytes : 0 <= nbytes < 2 ^ 32 ->
  1 <= units nbytes <= 2 ^ 29 /\
  (nbytes <= 2 ^ 32 - 8 -> nbytes <= UNIT * (units nbytes - 1) < nbytes + UNIT) /\
  (2 ^ 32 - 8 < nbytes -> units nbytes = 1).
Proof. apply units_facts. Qed.
Lemma units_bounds_witness : units 0xFFFFFFFF = 1 /\ units 100 = 14.
Proof. split; [apply (units_bounds 0xFFFFFFFF); lia|]. pose proof (units_bounds 100). reflexivity. Defined.

(** The first call sets up an empty list. *)
Lemma unused_inv start h : unused start h ->
  heap_inv start (mk_heap (fupd (h_ptr h) (h_base h) (h_base h)) (fupd (h_size h) (h_base h) 0) (h_base h) (h_base h) (h_brk h) (h_limit h)) [] [].
Proof.
  intros (H1 & H2 & H3 & H4 & H5). split; hcbn; [|lia|set_solver|set_solver|set_solver|].
  - unfold UNIT in *. split; hcbn; simpl; rewrite ?fupd_same; [done|unfold UNIT; lia|left|done|lia|intros b c Hb; by apply elem_of_nil in Hb].
  - intros u. split; [lia|]. intros [Hc|Hc]; by apply covers_nil in Hc.
Qed.
(** A fresh block joins the blocks in use. *)
Lemma fresh_inv start h l live n p h' l' : heap_inv start h l live -> 1 <= n -> fresh h l n p h' l' ->
  heap_inv start h' l' (p - UNIT :: live).
Proof.
  intros [Hfl Hst Hlive Hfree Hlv Htile] Hn [F1 F2 F3 F4 F5 F6 [F7 F7'] F8].
  assert (forall c u, c ∈ live -> c <= u < c + UNIT * h_size h c -> ~ covers (h_size h) l u) as Hout.
  { intros c u Hc Hu. eapply live_not_free; [apply Hfl| |done]. intros b Hb. by apply Hfree. }
  assert (forall c, c ∈ live -> h_size h' c = h_size h c) as Hsame.
  { intros c Hc. destruct (Hlive c Hc) as (H4 & H5 & H6). unfold UNIT in *. apply F6; [apply (Hout c c Hc)| |]; unfold UNIT; lia. }
  assert (forall c u, c ∈ live -> c <= u < c + UNIT * h_size h c ->
    ~ covers (h_size h') l' u /\ ~ (p - UNIT <= u < p - UNIT + UNIT * n)) as Hnew.
  { intros c u Hc Hu. destruct (Hlive c Hc) as (H4 & H5 & H6). specialize (Hout c u Hc Hu). specialize (F5 u).
    split; intros Hx; (assert (covers (h_size h) l u \/ h_brk h <= u < h_brk h') as [?|?] by tauto); try done; lia. }
  split; [done|lia|..]; rewrite ?F7.
  - intros c [->|Hc]%elem_of_cons; [rewrite F2; lia|]. rewrite Hsame by done. destruct (Hlive c Hc). lia.
  - apply free_live_kept; [done| |].
    + intros c [->|Hc]%elem_of_cons; [by rewrite F2|]. rewrite Hsame by done. by apply Hlive.
    + intros c u [->|Hc]%elem_of_cons; [rewrite F2; apply F4|]. rewrite Hsame by done. intros Hu. by apply (Hnew c).
  - assert (forall c, c ∈ live -> apart (h_size h') (p - UNIT) c) as Hpc.
    { intros c Hc. apply apart_points; [by rewrite F2|rewrite Hsame by done; by apply Hlive|]. rewrite F2, Hsame by done.
      intros u Hu Hu'. by apply (Hnew c u Hc Hu'). }
    intros [|i] [|j] b c Hi Hj Hij; simpl in *; simplify_eq.
    + apply Hpc. by eapply list_elem_of_lookup_2.
    + apply or_comm. apply Hpc. by eapply list_elem_of_lookup_2.
    + unfold apart. rewrite !Hsame by (by eapply list_elem_of_lookup_2). apply (Hlv i j); [done|done|lia].
  - intros u. rewrite covers_cons, F2, (covers_ext (h_size h) (h_size h') live) by done. specialize (F5 u). specialize (Htile u).
    assert (start <= u < h_brk h' <-> start <= u < h_brk h \/ h_brk h <= u < h_brk h') as -> by lia. tauto.
Qed.
(** C12: [malloc] returns (the loop always ends), and either the kernel has no
    memory, the result is 0 and the heap is as it was, or the result is the address
    of a new block that overlaps no block in use and no free block, has room for
    the request, and the heap stays cut into free blocks and blocks in use. *)
Theorem malloc_correct start h l live nbytes fuel ff : heap_ok start h l live -> 0 <= nbytes <= 2 ^ 31 - 16 ->
  (2 * length l + 4 <= fuel)%nat -> (length l <= ff)%nat ->
  exists p h', malloc fuel ff nbytes h = Ret p h' /\
    (p = 0 /\ heap_inv start h' l live \/
     exists l', p <> 0 /\ heap_inv start h' l' (p - UNIT :: live) /\ nbytes <= UNIT * (h_size h' (p - UNIT) - 1)).
Proof.
  intros Hok Hn Hfuel Hff. destruct (units_facts nbytes ltac:(lia)) as (Hu1 & Hu2 & Hu3).
  assert (exists h1, malloc fuel ff nbytes h = malloc_loop fuel ff (units nbytes) (h_freep h1) (h_ptr h1 (h_freep h1)) h1 /\
    heap_inv start h1 l live) as (h1 & -> & Hinv).
  { destruct Hok as [Hinv|(Hun & -> & ->)].
    - exists h. split; [|done]. unfold malloc, bind, gets. cbn [obind].
      pose proof (free_list_pos _ _ _ (hi_list _ _ _ _ Hinv) (fl_freep _ _ (hi_list _ _ _ _ Hinv))).
      destruct (Z.eqb_spec (h_freep h) 0); [lia|done].
    - eexists. split; [|by apply unused_inv]. unfold malloc, bind, gets. cbn [obind]. destruct Hun as (-> & _). done. }
  destruct (malloc_loop_ok h1 l fuel ff (units nbytes) (hi_list _ _ _ _ Hinv)) as (p & h' & -> & Hcase); [unfold UNIT in *; lia|lia|done|].
  exists p, h'. split; [done|]. destruct Hcase as [[-> ->]|(l' & Hfr)]; [by left|right]. exists l'.
  split; [|split; [by apply (fresh_inv start h1 l live (units nbytes)); [|lia|]|]]; destruct Hfr as [F1 F2 F3 F4 F5 F6 F7 F8]; unfold UNIT in *; [|rewrite F2; lia].
  pose proof (fl_base _ _ (hi_list _ _ _ _ Hinv)). lia.
Qed.
(** C22: [free] of a block in use returns, and makes the block free: the heap stays
    cut into free blocks and the other blocks in use, and no two free blocks touch
    ([fl_joined]): the block has been joined with its free neighbours, below and
    above. *)
Theorem free_correct start h l l1 b l2 fuel : heap_inv start h l (l1 ++ b :: l2) -> (length l <= fuel)%nat ->
  exists h' l', free fuel (b + UNIT) h = Ret tt h' /\ heap_inv start h' l' (l1 ++ l2) /\ joined (h_size h') l' /\
    forall u, covers (h_size h') l' u <-> covers (h_size h) l u \/ b <= u < b + UNIT * h_size h b.
Proof.
  intros [Hfl Hst Hlive Hfree Hlv Htile] Hfuel.
  assert (b ∈ l1 ++ b :: l2) as Hb by set_solver. destruct (Hlive b Hb) as (H1 & H2 & H3).
  destruct (free_ok fuel h l b Hfl H1 H2 H3) as (h' & l' & Hrun & Hfl' & [Hon (Hob & Hobrk & Holim)] & Hfp & Hlen & _ & Hcov); [|done|].
  { intros c Hc. by apply Hfree. }
  exists h', l'. split; [done|]. split; [|split; [apply Hfl'|done]].
  assert (forall c, c ∈ l1 ++ l2 -> apart (h_size h) b c) as Hbc.
  { intros c Hc. pose proof (Hlv (length l1)) as Hlv'. apply elem_of_app in Hc as [Hc|Hc]; apply list_elem_of_lookup in Hc as [i Hi].
    - apply (Hlv' i b c); [by apply list_lookup_middle|by apply lookup_app_l_Some|]. apply lookup_lt_Some in Hi. lia.
    - apply (Hlv' (length l1 + S i)%nat b c); [by apply list_lookup_middle| |lia]. rewrite lookup_app_r by lia.
      replace (length l1 + S i - length l1)%nat with (S i) by lia. done. }
  assert (forall c, c ∈ l1 ++ l2 -> h_size h' c = h_size h c) as Hsame.
  { intros c Hc. assert (c ∈ l1 ++ b :: l2) as Hc' by set_solver. destruct (Hlive c Hc') as (H4 & H5 & H6). apply Hon.
    intros [->|E%list_elem_of_singleton]%elem_of_cons.
    - pose proof (Hbc b Hc) as Hx. unfold apart, UNIT in *. lia.
    - subst c. apply elem_of_cons in Hfp as [E|Hin]; [unfold UNIT in *; lia|].
      pose proof (Hfree _ _ Hin Hc') as Hx. unfold apart, UNIT in *. lia. }
  assert (forall c, c ∈ l1 ++ l2 -> 1 <= h_size h' c) as Hc1.
  { intros c Hc. rewrite Hsame by done. apply Hlive. set_solver. }
  split; [done|lia|..]; rewrite ?Hob, ?Hobrk.
  - intros c Hc. rewrite Hsame by done. apply Hlive. set_solver.
  - apply free_live_kept; [done|done|]. intros c u Hc Hu. rewrite Hsame in Hu by done. rewrite Hcov. intros [Hx|Hx].
    + revert Hx. eapply live_not_free; [apply Hfl| |done]. intros d Hd. apply Hfree; [done|set_solver].
    + specialize (Hbc c Hc). unfold apart in Hbc. lia.
  - intros i j c d Hi Hj Hij. unfold apart. rewrite !Hsame by (eapply list_elem_of_lookup_2; done).
    assert (forall i (c : Z), (l1 ++ l2) !! i = Some c -> (l1 ++ b :: l2) !! (if decide (i < length l1)%nat then i else S i) = Some c) as Hsh.
    { clear. intros i c Hi. case_decide; [rewrite lookup_app_l in * by done; done|]. rewrite lookup_app_r in * by lia.
      replace (S i - length l1)%nat with (S (i - length l1)) by lia. done. }
    apply (Hlv _ _ _ _ (Hsh _ _ Hi) (Hsh _ _ Hj)). repeat case_decide; lia.
  - intros u. rewrite Htile, Hcov, !covers_app, covers_cons, !(covers_ext (h_size h) (h_size h')); [tauto| |];
      intros c Hc; apply Hsame; set_solver.
Qed.

(** A session: three blocks are taken from one core request, the middle one is
    given back, and so is the last, which joins its neighbours. *)
Definition heap0 : heap := mk_heap (fun _ => 0) (fun _ => 0) 0x500 0 0x1000 0x40000.
Definition session : H (Z * Z * Z) :=
  a <- malloc 20 20 100 ;; b <- malloc 20 20 200 ;; c <- malloc 20 20 300 ;;
  free 20 b ;; free 20 c ;; ret (a, b, c).
Example session_runs : exists h, session heap0 = Ret (0x8f98, 0x8ec8, 0x8d90) h /\
  h_ptr h 0x500 = 0x1000 /\ h_ptr h 0x1000 = 0x500 /\ h_size h 0x1000 = 4096 - 14 /\ h_size h 0x8f90 = 14.
Proof. eexists. vm_compute. repeat split. Qed.
Lemma heap0_unused : unused 0x1000 heap0.
Proof. unfold unused, heap0, UNIT. hcbn. lia. Qed.
Lemma malloc_correct_witness : exists p h', malloc 4 0 100 heap0 = Ret p h' /\
  (p = 0 /\ heap_inv 0x1000 h' [] [] \/ exists l', p <> 0 /\ heap_inv 0x1000 h' l' [p - UNIT] /\ 100 <= UNIT * (h_size h' (p - UNIT) - 1)).
Proof. apply (malloc_correct 0x1000 heap0 [] []); [right; split; [apply heap0_unused|done]|lia|simpl; lia|simpl; lia]. Defined.
(** One block in use, and the rest of the core request free. *)
Definition heap1 : heap := mk_heap (fun x => if x =? 0x500 then 0x1000 else 0x500)
  (fun x => if x =? 0x1000 then 4090 else if x =? 0x8fd0 then 6 else 0) 0x500 0x500 0x9000 0x40000.
Lemma heap1_inv : heap_inv 0x1000 heap1 [0x1000] [0x8fd0].
Proof.
  split.
  - split; [done|vm_compute; intuition congruence|left|done|simpl; lia|].
    intros b c ->%list_elem_of_singleton ->%list_elem_of_singleton. done.
  - simpl. lia.
  - intros b ->%list_elem_of_singleton. unfold UNIT. simpl. lia.
  - intros b c ->%list_elem_of_singleton ->%list_elem_of_singleton. unfold apart, UNIT. simpl. lia.
  - intros [|i] [|j] b c Hi Hj Hij; simpl in *; try done.
  - intros u. rewrite !covers_cons. unfold UNIT. simpl. pose proof (covers_nil (h_size heap1) u). intuition lia.
Qed.
Lemma free_correct_witness : exists h' l', free 1 (0x8fd0 + UNIT) heap1 = Ret tt h' /\ heap_inv 0x1000 h' l' ([] ++ []) /\ joined (h_size h') l' /\
  forall u, covers (h_size h') l' u <-> covers (h_size heap1) [0x1000] u \/ 0x8fd0 <= u < 0x8fd0 + UNIT * h_size heap1 0x8fd0.
Proof. apply (free_correct 0x1000 heap1 [0x1000] [] 0x8fd0 [] 1); [apply heap1_inv|simpl; lia]. Defined.
End Umalloc.
