(* ===== verification/Boot.v ===== *)
(** * The boot loader

    [HW2/src/bootmain.c]: it runs before paging, so its memory is the physical one;
    the disk controller is the one of [Disk.v].  The kernel's ELF file lies on disk 0
    from sector 1 on. *)

From S2P Require Import Prelude Mmu Mem State Disk.

Module Boot.

Definition SECTSIZE : Z := 512.
Definition ELF_MAGIC : Z := 0x464C457F.
Record machine := mk_machine { bt_mem : mem; bt_hw : hardware }.
Definition B (A : Type) : Type := M machine A.
Definition outb (port v : Z) : B unit := modify (fun s => mk_machine (bt_mem s) (outb_hw port v (bt_hw s))).
(** [insl] of a whole sector. *)
Definition insl (dst cnt : Z) : B unit := modify (fun s =>
  mk_machine (fun x => if (dst <=? x) && (x <? dst + 4 * cnt) then nth (Z.to_nat (x - dst)) (hw_latch (bt_hw s)) 0 else bt_mem s x) (bt_hw s)).
Definition store (f : mem -> mem) : B unit := modify (fun s => mk_machine (f (bt_mem s)) (bt_hw s)).

Definition waitdisk : B unit :=
  st <- gets (fun s => hw_idests (bt_hw s)) ;;
  if negb (Z.land st 0xC0 =? 0x40) then spin else ret tt.
Definition readsect (dst offset : Z) : B unit :=
  waitdisk ;;
  outb 0x1F2 1 ;;
  outb 0x1F3 offset ;;
  outb 0x1F4 (Z.shiftr offset 8) ;;
  outb 0x1F5 (Z.shiftr offset 16) ;;
  outb 0x1F6 (Z.lor (Z.shiftr offset 24) 0xE0) ;;
  outb 0x1F7 0x20 ;;
  waitdisk ;;
  insl dst (SECTSIZE / 4).
Fixpoint readseg_loop (fuel : nat) (pa epa offset : Z) : B unit :=
  if pa <? epa then
    match fuel with
    | O => nofuel
    | S f => readsect pa offset ;; readseg_loop f (u32 (pa + SECTSIZE)) epa (u32 (offset + 1))
    end
  else ret tt.
Definition readseg (pa count offset : Z) : B unit :=
  let epa := u32 (pa + count) in
  let pa := u32 (pa - offset mod SECTSIZE) in
  let offset := offset / SECTSIZE + 1 in
  readseg_loop (Z.to_nat (epa / SECTSIZE) + 1) pa epa offset.

(** [struct elfhdr] and [struct proghdr] in memory. *)
Definition ld16 (m : mem) (a : Z) : Z := m a + m (a + 1) * 2 ^ 8.
Definition elf_magic (m : mem) (e : Z) : Z := ld32 m e.
Definition elf_entry (m : mem) (e : Z) : Z := ld32 m (e + 24).
Definition elf_phoff (m : mem) (e : Z) : Z := ld32 m (e + 28).
Definition elf_phnum (m : mem) (e : Z) : Z := ld16 m (e + 44).
Definition sizeof_proghdr : Z := 32.
Definition ph_off (m : mem) (p : Z) : Z := ld32 m (p + 4).
Definition ph_paddr (m : mem) (p : Z) : Z := ld32 m (p + 12).
Definition ph_filesz (m : mem) (p : Z) : Z := ld32 m (p + 16).
Definition ph_memsz (m : mem) (p : Z) : Z := ld32 m (p + 20).

(** The body of the loop over the program headers. *)
Definition load_seg (ph : Z) : B unit :=
  m <- gets bt_mem ;;
  let pa := ph_paddr m ph in
  readseg pa (ph_filesz m ph) (ph_off m ph) ;;
  m <- gets bt_mem ;;
  when (ph_filesz m ph <? ph_memsz m ph)
    (store (fun m => stosb m (u32 (pa + ph_filesz m ph)) 0 (ph_memsz m ph - ph_filesz m ph))).
Fixpoint load_loop (n : nat) (ph : Z) : B unit :=
  match n with O => ret tt | S n' => load_seg ph ;; load_loop n' (ph + sizeof_proghdr) end.
(** [None]: no ELF file, the loader returns; [Some entry]: the kernel is called. *)
Definition bootmain : B (option Z) :=
  let elf := 0x10000 in
  readseg elf 4096 0 ;;
  m <- gets bt_mem ;;
  if negb (elf_magic m elf =? ELF_MAGIC) then ret None else
  load_loop (Z.to_nat (elf_phnum m elf)) (elf + elf_phoff m elf) ;;
  m <- gets bt_mem ;;
  ret (Some (elf_entry m elf)).

(* ------------------------------------------------------------------ *)
(** ** The file on the disk *)

(** Byte [k] of the file that starts in sector 1. *)
Definition file_byte (d : Z -> list Z) (k : Z) : Z := nth (Z.to_nat (k mod SECTSIZE)) (d (k / SECTSIZE + 1)) 0.
(** The controller is ready and its disk 0 holds [d]. *)
Definition disk_ready (d : Z -> list Z) (s : machine) : Prop :=
  hw_disk0 (bt_hw s) = d /\ Z.land (hw_idests (bt_hw s)) 0xC0 = 0x40.

Lemma waitdisk_ok d s : disk_ready d s -> waitdisk s = Ret tt s.
Proof. intros [_ Hs]. unfold waitdisk, bind, gets. cbn [obind]. by rewrite Hs. Qed.

Lemma u8_shift x k : 0 <= k -> u8 (Z.shiftr x k) = (x / 2 ^ k) mod 256.
Proof. intros Hk. unfold u8. by rewrite Z.shiftr_div_pow2. Qed.
(** The seven port writes select sector [offset] of disk 0 and fetch it. *)
Lemma select_sector h offset : 0 <= offset < 2 ^ 28 ->
  let h' := outb_hw 0x1F7 0x20 (outb_hw 0x1F6 (Z.lor (Z.shiftr offset 24) 0xE0) (outb_hw 0x1F5 (Z.shiftr offset 16)
    (outb_hw 0x1F4 (Z.shiftr offset 8) (outb_hw 0x1F3 offset (outb_hw 0x1F2 1 h))))) in
  hw_latch h' = hw_disk0 h offset /\ hw_disk0 h' = hw_disk0 h /\ hw_idests h' = hw_idests h.
Proof.
  intros Ho h'. split; [|done].
  assert (u8 (Z.lor (Z.shiftr offset 24) 0xE0) = offset / 2 ^ 24 + 0xE0) as E6.
  { rewrite Z.shiftr_div_pow2 by lia. assert (0 <= offset / 2 ^ 24 < 2 ^ 4) as Hr by dlia.
    rewrite Z.lor_comm. change 0xE0 with (Z.shiftl 14 4). rewrite lor_disjoint_add by lia.
    change (14 * 2 ^ 4) with 224. change (Z.shiftl 14 4) with 224. unfold u8. rewrite Z.mod_small; lia. }
  match goal with h' := outb_hw _ _ ?x |- _ => set (h0 := x) in * end.
  assert (ide_sector h0 = offset /\ ide_dev h0 = false) as [Es Ed].
  { unfold ide_sector, ide_dev. assert (hw_ports h0 0x1f3 = u8 offset) as -> by reflexivity.
    assert (hw_ports h0 0x1f4 = u8 (Z.shiftr offset 8)) as -> by reflexivity.
    assert (hw_ports h0 0x1f5 = u8 (Z.shiftr offset 16)) as -> by reflexivity.
    assert (hw_ports h0 0x1f6 = u8 (Z.lor (Z.shiftr offset 24) 0xE0)) as -> by reflexivity.
    rewrite E6, !u8_shift by lia. change 0xf with (2 ^ 4 - 1). rewrite land_ones_mod by lia. split; [unfold u8; dlia|].
    replace (offset / 2 ^ 24 + 0xE0) with (Z.lor (Z.shiftl 14 4) (offset / 2 ^ 24)) by (rewrite lor_disjoint_add; [lia|lia|dlia]).
    rewrite Z.lor_spec. assert (Z.testbit (offset / 2 ^ 24) 4 = false) as -> by (apply Z.testbit_false; [lia|]; rewrite Z.div_small by dlia; done). done. }
  change (hw_latch h') with ((if ide_dev h0 then hw_disk h else hw_disk0 h) (ide_sector h0)). by rewrite Ed, Es.
Qed.

(** One sector. *)
Lemma readsect_ok d s dst offset : disk_ready d s -> 0 <= offset < 2 ^ 28 ->
  exists s', readsect dst offset s = Ret tt s' /\ disk_ready d s' /\
    forall x, bt_mem s' x = if (dst <=? x) && (x <? dst + SECTSIZE) then nth (Z.to_nat (x - dst)) (d offset) 0 else bt_mem s x.
Proof.
  intros Hr Ho. destruct (select_sector (bt_hw s) offset Ho) as (H1 & H2 & H3). unfold readsect.
  rewrite (bind_Ret _ _ _ _ _ (waitdisk_ok d s Hr)). destruct Hr as [Hd Hs].
  unfold outb, bind, modify. cbn [obind bt_mem bt_hw].
  match goal with |- context [waitdisk ?m] => set (s1 := m) end.
  assert (disk_ready d s1) as Hr1 by (split; [by rewrite <- Hd, <- H2|by rewrite <- Hs, <- H3]).
  rewrite (waitdisk_ok d s1 Hr1). cbn [obind]. eexists. split; [reflexivity|]. split; [done|].
  intros x. cbn [bt_mem]. change (4 * (SECTSIZE / 4)) with SECTSIZE. change (bt_mem s1) with (bt_mem s).
  replace (hw_latch (bt_hw s1)) with (d offset); [done|]. rewrite <- Hd. symmetry. exact H1.
Qed.

(** [k] sectors. *)
Lemma readseg_loop_ok d k : forall fuel s pa epa offset, disk_ready d s ->
  0 <= pa -> epa <= pa + Z.of_nat k * SECTSIZE -> pa + Z.of_nat k * SECTSIZE < epa + SECTSIZE ->
  epa < 2 ^ 31 -> 0 <= offset -> offset + Z.of_nat k < 2 ^ 28 -> (k <= fuel)%nat ->
  exists s', readseg_loop fuel pa epa offset s = Ret tt s' /\ disk_ready d s' /\
    forall x, bt_mem s' x = if (pa <=? x) && (x <? pa + Z.of_nat k * SECTSIZE)
      then nth (Z.to_nat ((x - pa) mod SECTSIZE)) (d (offset + (x - pa) / SECTSIZE)) 0 else bt_mem s x.
Proof.
  induction k as [|k IH]; intros fuel s pa epa offset Hr Hpa Hhi Hlo Hmax Ho Hok Hf.
  - destruct fuel; cbn [readseg_loop]; (destruct (Z.ltb_spec pa epa); [lia|]); exists s; (split; [done|]; split; [done|]);
      intros x; destruct (Z.leb_spec pa x), (Z.ltb_spec x (pa + Z.of_nat 0 * SECTSIZE)); simpl; done || lia.
  - destruct fuel as [|fuel]; [lia|]. cbn [readseg_loop]. unfold SECTSIZE in *. destruct (Z.ltb_spec pa epa); [|lia].
    destruct (readsect_ok d s pa offset Hr ltac:(lia)) as (s1 & Hrun & Hr1 & Hm1).
    rewrite (bind_Ret _ _ _ _ _ Hrun), !u32_small by lia.
    destruct (IH fuel s1 (pa + 512) epa (offset + 1)) as (s' & Hrun' & Hr' & Hm'); try lia; [done|].
    exists s'. split; [done|]. split; [done|]. intros x. rewrite Hm', Hm1. unfold SECTSIZE.
    destruct (Z.leb_spec (pa + 512) x), (Z.ltb_spec x (pa + 512 + Z.of_nat k * 512)),
      (Z.leb_spec pa x), (Z.ltb_spec x (pa + Z.of_nat (S k) * 512)); cbn [andb]; try lia; try done.
    + f_equal; [f_equal; dlia|]. f_equal. dlia.
    + destruct (Z.ltb_spec x (pa + 512)); [lia|done].
    + destruct (Z.ltb_spec x (pa + 512)); [|lia]. f_equal; [f_equal; dlia|]. f_equal. dlia.
Qed.

(** The sectors [readseg] writes: from the sector boundary below the segment's
    first byte to the one above its last. *)
Definition seg_start (pa offset : Z) : Z := pa - offset mod SECTSIZE.
Definition seg_sectors (count offset : Z) : Z := if count =? 0 then (offset mod SECTSIZE + 511) / SECTSIZE else (offset mod SECTSIZE + count + 511) / SECTSIZE.
Definition seg_end (pa count offset : Z) : Z := seg_start pa offset + SECTSIZE * seg_sectors count offset.

(** [readseg] puts the file's bytes into memory, and writes only whole sectors
    around them. *)
Lemma readseg_ok d s pa count offset : disk_ready d s -> 0 <= count -> 0 <= offset ->
  offset mod SECTSIZE <= pa -> pa + count < 2 ^ 31 -> offset + count < 2 ^ 32 ->
  exists s', readseg pa count offset s = Ret tt s' /\ disk_ready d s' /\
    forall x, bt_mem s' x = if (seg_start pa offset <=? x) && (x <? seg_end pa count offset)
      then file_byte d (offset + (x - pa)) else bt_mem s x.
Proof.
  intros Hr Hc Ho Hpa Hmax Hfile. unfold readseg. rewrite !u32_small by (unfold SECTSIZE in *; dlia).
  set (k := seg_sectors count offset).
  assert (0 <= k /\ pa + count <= seg_start pa offset + k * SECTSIZE < pa + count + SECTSIZE) as [Hk0 Hk].
  { subst k. unfold seg_sectors, seg_start, SECTSIZE in *. destruct (Z.eqb_spec count 0) as [->|]; dlia. }
  destruct (readseg_loop_ok d (Z.to_nat k) (Z.to_nat ((pa + count) / SECTSIZE) + 1) s (seg_start pa offset) (pa + count) (offset / SECTSIZE + 1))
    as (s' & Hrun & Hr' & Hm'); rewrite ?Z2Nat.id in * by lia; try done; unfold seg_start, SECTSIZE in *; try lia; try dlia.
  exists s'. split; [exact Hrun|]. split; [done|]. intros x. rewrite Hm'. unfold seg_end, seg_start, SECTSIZE. fold k.
  replace (pa - offset mod 512 + 512 * k) with (pa - offset mod 512 + k * 512) by lia.
  destruct (Z.leb_spec (pa - offset mod 512) x), (Z.ltb_spec x (pa - offset mod 512 + k * 512)); simpl; try done.
  unfold file_byte, SECTSIZE. f_equal; [f_equal; dlia|]. f_equal. dlia.
Qed.

(** ** The segments of the file *)
Record seg := mk_seg { sg_pa : Z; sg_filesz : Z; sg_memsz : Z; sg_off : Z }.
(** The header page, and the program header at [p] in it. *)
Definition hdr (d : Z -> list Z) : mem := fun x => file_byte d (x - 0x10000).
Definition seg_at (m : mem) (p : Z) : seg := mk_seg (ph_paddr m p) (ph_filesz m p) (ph_memsz m p) (ph_off m p).
Fixpoint segs_at (m : mem) (p : Z) (n : nat) : list seg :=
  match n with O => [] | S n' => seg_at m p :: segs_at m (p + sizeof_proghdr) n' end.
(** Where the loader writes for a segment, and where the segment ends. *)
Definition sg_low (g : seg) : Z := seg_start (sg_pa g) (sg_off g).
Definition sg_top (g : seg) : Z := sg_pa g + Z.max (sg_filesz g) (sg_memsz g).
(** The segments lie above the header page and below 2 GB, and none of them, rounded
    down to a sector, reaches back into an earlier one. *)
Definition seg_ok (g : seg) : Prop :=
  0x11000 <= sg_low g /\ sg_top g < 2 ^ 31 /\ sg_off g + sg_filesz g < 2 ^ 32.
Fixpoint ascending (l : list seg) : Prop :=
  match l with [] => True | g :: l' => Forall (fun h => sg_top g <= sg_low h) l' /\ ascending l' end.
(** Memory holds the segment: the file's bytes, then zeros. *)
Definition loaded (d : Z -> list Z) (m : mem) (g : seg) : Prop :=
  (forall x, sg_pa g <= x < sg_pa g + sg_filesz g -> m x = file_byte d (sg_off g + (x - sg_pa g))) /\
  (forall x, sg_pa g + sg_filesz g <= x < sg_pa g + sg_memsz g -> m x = 0).
Definition agree (d : Z -> list Z) (m : mem) : Prop := forall x, 0x10000 <= x < 0x11000 -> m x = hdr d x.
Definition bytes_ok (d : Z -> list Z) : Prop := forall k, 0 <= file_byte d k < 256.

Lemma ld32_agree d m a : agree d m -> 0x10000 <= a -> a + 4 <= 0x11000 -> ld32 m a = ld32 (hdr d) a.
Proof. intros H H1 H2. unfold ld32. by rewrite !H by lia. Qed.
Lemma ld32_hdr d a : bytes_ok d -> 0 <= ld32 (hdr d) a < 2 ^ 32.
Proof. intros H. apply ld32_range. intros x. apply H. Qed.
Lemma seg_at_agree d m p : agree d m -> 0x10000 <= p -> p + sizeof_proghdr <= 0x11000 -> seg_at m p = seg_at (hdr d) p.
Proof.
  intros H H1 H2. unfold seg_at, ph_paddr, ph_filesz, ph_memsz, ph_off, sizeof_proghdr in *.
  by rewrite !(ld32_agree d m) by (done || lia).
Qed.

(** One segment. *)
Lemma load_one d s p g : disk_ready d s -> agree d (bt_mem s) -> bytes_ok d -> 0x10000 <= p -> p + sizeof_proghdr <= 0x11000 ->
  g = seg_at (hdr d) p -> seg_ok g ->
  exists s', load_seg p s = Ret tt s' /\
    disk_ready d s' /\ loaded d (bt_mem s') g /\ forall x, x < sg_low g -> bt_mem s' x = bt_mem s x.
Proof.
  intros Hr Ha Hb Hp1 Hp2 Hg (H1 & H2 & H3). pose proof (seg_at_agree d (bt_mem s) p Ha Hp1 Hp2) as Es. rewrite <- Hg in Es.
  unfold load_seg, bind at 1, gets at 1. cbn [obind].
  assert (ph_paddr (bt_mem s) p = sg_pa g /\ ph_filesz (bt_mem s) p = sg_filesz g /\ ph_off (bt_mem s) p = sg_off g) as (-> & -> & ->) by (by rewrite <- Es).
  assert (0 <= sg_filesz g < 2 ^ 32 /\ 0 <= sg_memsz g < 2 ^ 32 /\ 0 <= sg_off g < 2 ^ 32 /\ 0 <= sg_pa g) as (Hf & Hm & Ho & Hpa0).
  { rewrite Hg. simpl. pose proof (fun a => ld32_hdr d a Hb) as Hx. unfold ph_filesz, ph_memsz, ph_off, ph_paddr.
    pose proof (Hx (p + 16)). pose proof (Hx (p + 20)). pose proof (Hx (p + 4)). pose proof (Hx (p + 12)). lia. }
  unfold sg_low, sg_top, seg_start, SECTSIZE in *.
  destruct (readseg_ok d s (sg_pa g) (sg_filesz g) (sg_off g) Hr) as (s1 & Hrun & Hr1 & Hm1); unfold SECTSIZE in *; try lia.
  rewrite (bind_Ret _ _ _ _ _ Hrun). unfold bind at 1, gets at 1. cbn [obind].
  assert (forall x, x < sg_pa g - sg_off g mod 512 -> bt_mem s1 x = bt_mem s x) as Hlow.
  { intros x Hx. rewrite Hm1. unfold seg_start, SECTSIZE. destruct (Z.leb_spec (sg_pa g - sg_off g mod 512) x); [lia|done]. }
  assert (agree d (bt_mem s1)) as Ha1 by (intros x Hx; rewrite Hlow by lia; by apply Ha).
  pose proof (seg_at_agree d (bt_mem s1) p Ha1 Hp1 Hp2) as Es1. rewrite <- Hg in Es1.
  assert (ph_filesz (bt_mem s1) p = sg_filesz g /\ ph_memsz (bt_mem s1) p = sg_memsz g) as [Ef Em] by (by rewrite <- Es1). rewrite Ef, Em.
  assert (forall x, sg_pa g <= x < sg_pa g + sg_filesz g -> bt_mem s1 x = file_byte d (sg_off g + (x - sg_pa g))) as Hfile.
  { intros x Hx. rewrite Hm1. unfold seg_end, seg_start, seg_sectors, SECTSIZE. destruct (Z.eqb_spec (sg_filesz g) 0); [lia|].
    destruct (Z.leb_spec (sg_pa g - sg_off g mod 512) x); [|dlia].
    destruct (Z.ltb_spec x (sg_pa g - sg_off g mod 512 + 512 * ((sg_off g mod 512 + sg_filesz g + 511) / 512))); [done|dlia]. }
  destruct (Z.ltb_spec (sg_filesz g) (sg_memsz g)) as [Hlt|Hge]; cbn [when].
  - unfold store, modify. eexists. split; [reflexivity|]. split; [done|]. cbn [bt_mem]. rewrite Ef, Em, u32_small by lia. unfold stosb. split; [split|].
    + intros x Hx. destruct (Z.leb_spec (sg_pa g + sg_filesz g) x); [lia|]. by apply Hfile.
    + intros x Hx. destruct (Z.leb_spec (sg_pa g + sg_filesz g) x), (Z.ltb_spec x (sg_pa g + sg_filesz g + (sg_memsz g - sg_filesz g))); done || lia.
    + intros x Hx. destruct (Z.leb_spec (sg_pa g + sg_filesz g) x); [dlia|]. by apply Hlow.
  - exists s1. split; [done|]. split; [done|]. split; [split; [done|lia]|done].
Qed.

Lemma loaded_ext d m m' g : 0 <= sg_filesz g -> (forall x, sg_pa g <= x < sg_top g -> m' x = m x) -> loaded d m g -> loaded d m' g.
Proof. intros H0 H [H1 H2]. unfold sg_top in H. split; intros x Hx; rewrite H by lia; auto. Qed.
Lemma load_loop_ok d n : forall s p, disk_ready d s -> agree d (bt_mem s) -> bytes_ok d -> 0x10000 <= p ->
  p + Z.of_nat n * sizeof_proghdr <= 0x11000 -> Forall seg_ok (segs_at (hdr d) p n) -> ascending (segs_at (hdr d) p n) ->
  exists s', load_loop n p s = Ret tt s' /\ disk_ready d s' /\ Forall (loaded d (bt_mem s')) (segs_at (hdr d) p n) /\
    forall x, Forall (fun g => x < sg_low g) (segs_at (hdr d) p n) -> bt_mem s' x = bt_mem s x.
Proof.
  induction n as [|n IH]; intros s p Hr Ha Hb Hp Hn Hok Has; cbn [load_loop segs_at] in *; [by exists s; split; [|split; [|split]]|].
  apply Forall_cons in Hok as [Hg Hok]. destruct Has as [Hup Has]. set (g := seg_at (hdr d) p) in *.
  destruct (load_one d s p g Hr Ha Hb Hp ltac:(unfold sizeof_proghdr in *; lia) eq_refl Hg) as (s1 & Hrun & Hr1 & Hld & Hlow).
  rewrite (bind_Ret _ _ _ _ _ Hrun). pose proof Hg as (Hg1 & _).
  destruct (IH s1 (p + sizeof_proghdr) Hr1) as (s' & Hrun' & Hr' & Hall & Hlow'); try done; try (unfold sizeof_proghdr in *; lia).
  { intros x Hx. rewrite Hlow by lia. by apply Ha. }
  exists s'. split; [done|]. split; [done|]. split.
  - apply Forall_cons. split; [|done]. eapply loaded_ext; [apply (ld32_hdr d (p + 16) Hb)| |done]. intros x Hx. apply Hlow'.
    eapply Forall_impl; [apply Hup|]. intros h Hh. simpl in Hh. lia.
  - intros x Hx. apply Forall_cons in Hx as [Hx Hx']. rewrite Hlow' by done. by apply Hlow.
Qed.

(** C25: the boot loader.  If the file in sector 1 and up starts with the ELF magic
    number, its program headers lie in the first page, and its segments are in
    ascending order so that none, rounded down to a sector boundary, reaches back
    into an earlier one, then the loader terminates, every segment is in memory, its
    bytes from the file and the rest zero, and the entry point of the file is called;
    with another magic number the loader returns. *)
Theorem bootmain_loads d s : disk_ready d s -> bytes_ok d ->
  let n := Z.to_nat (elf_phnum (hdr d) 0x10000) in
  let p := 0x10000 + elf_phoff (hdr d) 0x10000 in
  (p + Z.of_nat n * sizeof_proghdr <= 0x11000) ->
  Forall seg_ok (segs_at (hdr d) p n) -> ascending (segs_at (hdr d) p n) ->
  exists s', bootmain s = Ret (if elf_magic (hdr d) 0x10000 =? ELF_MAGIC then Some (elf_entry (hdr d) 0x10000) else None) s' /\
    (elf_magic (hdr d) 0x10000 = ELF_MAGIC -> Forall (loaded d (bt_mem s')) (segs_at (hdr d) p n)).
Proof.
  intros Hr Hb n p Hp Hok Has. unfold bootmain.
  destruct (readseg_ok d s 0x10000 4096 0 Hr) as (s1 & Hrun & Hr1 & Hm1); [lia|lia|done|lia|lia|].
  rewrite (bind_Ret _ _ _ _ _ Hrun). unfold bind at 1, gets at 1. cbn [obind].
  assert (agree d (bt_mem s1)) as Ha.
  { intros x Hx. rewrite Hm1. change (seg_start 0x10000 0) with 0x10000. change (seg_end 0x10000 4096 0) with 0x11000.
    destruct (Z.leb_spec 0x10000 x), (Z.ltb_spec x 0x11000); try lia. cbn [andb]. unfold hdr. f_equal. }
  unfold elf_magic, elf_phnum, elf_phoff, ld16 in *. rewrite (ld32_agree d (bt_mem s1)), (ld32_agree d (bt_mem s1) (0x10000 + 28)), !(Ha (0x10000 + 44)), !(Ha (0x10000 + 44 + 1)) by (done || lia).
  destruct (Z.eqb_spec (ld32 (hdr d) 0x10000) ELF_MAGIC) as [E|E]; cbn [negb]; [|by exists s1].
  assert (0x10000 <= p) as Hp0 by (subst p; pose proof (ld32_hdr d (0x10000 + 28) Hb); lia).
  destruct (load_loop_ok d n s1 p Hr1 Ha Hb Hp0 Hp Hok Has) as (s2 & Hrun2 & _ & Hall & Hlow).
  rewrite (bind_Ret _ _ _ _ _ Hrun2). exists s2. split; [|done]. unfold bind, gets, ret, elf_entry. cbn [obind]. f_equal. f_equal.
  assert (agree d (bt_mem s2)) as Ha2.
  { intros x Hx. rewrite Hlow; [by apply Ha|]. eapply Forall_impl; [apply Hok|]. intros g (Hg & _). lia. }
  by rewrite (ld32_agree d (bt_mem s2)) by (done || lia).
Qed.

(** A kernel file with two segments: 600 bytes of the file at 0x100000 followed by
    zeros up to 0x100400, and 16 bytes at 0x101008 that start inside a sector. *)
Definition put32_at (a v : Z) (f : Z -> Z) : Z -> Z := fun k => if (a <=? k) && (k <? a + 4) then byte_of v (k - a) else f k.
Definition kernel_file : Z -> Z :=
  put32_at 0 ELF_MAGIC (put32_at 24 0x10000c (put32_at 28 52 (put32_at 44 2
  (put32_at (52 + 4) 0x1000 (put32_at (52 + 12) 0x100000 (put32_at (52 + 16) 600 (put32_at (52 + 20) 0x400
  (put32_at (84 + 4) 0x1288 (put32_at (84 + 12) 0x101008 (put32_at (84 + 16) 16 (put32_at (84 + 20) 16 (fun k => k mod 251)))))))))))).
Definition kernel_disk (b : Z) : list Z := map (fun i => kernel_file ((b - 1) * 512 + Z.of_nat i)) (seq 0 512).
Definition booting : machine := mk_machine (fun _ => 0) (k_hw (boot_state 0 0 kernel_disk)).
Lemma kernel_byte k : file_byte kernel_disk k = kernel_file k.
Proof.
  unfold file_byte, kernel_disk, SECTSIZE. assert (0 <= k mod 512 < 512) by (apply Z.mod_pos_bound; lia).
  rewrite (nth_indep _ 0 (kernel_file ((k / 512 + 1 - 1) * 512 + Z.of_nat 0))) by (rewrite length_map, length_seq; lia).
  rewrite (map_nth (fun i => kernel_file ((k / 512 + 1 - 1) * 512 + Z.of_nat i))), seq_nth by lia. f_equal. dlia.
Qed.
Lemma kernel_bytes : bytes_ok kernel_disk.
Proof.
  intros k. rewrite kernel_byte. unfold kernel_file.
  assert (forall a v f, (forall k, 0 <= f k < 256) -> forall k, 0 <= put32_at a v f k < 256) as Hput.
  { intros a v f Hf j. unfold put32_at. destruct (_ && _); [apply u8_range|apply Hf]. }
  repeat apply Hput. intros j. assert (0 <= j mod 251 < 251) by (apply Z.mod_pos_bound; lia). lia.
Qed.
Lemma bootmain_loads_witness : exists s', bootmain booting = Ret (Some 0x10000c) s' /\
  loaded kernel_disk (bt_mem s') (mk_seg 0x100000 600 0x400 0x1000) /\ loaded kernel_disk (bt_mem s') (mk_seg 0x101008 16 16 0x1288).
Proof.
  assert (segs_at (hdr kernel_disk) (0x10000 + elf_phoff (hdr kernel_disk) 0x10000) (Z.to_nat (elf_phnum (hdr kernel_disk) 0x10000)) =
    [mk_seg 0x100000 600 0x400 0x1000; mk_seg 0x101008 16 16 0x1288]) as E by (vm_compute; reflexivity).
  destruct (bootmain_loads kernel_disk booting) as (s' & Hrun & Hall).
  - split; [done|]. vm_compute. done.
  - apply kernel_bytes.
  - vm_compute. congruence.
  - rewrite E. repeat (apply Forall_cons; split; [repeat split; vm_compute; congruence|]). by apply Forall_nil.
  - rewrite E. split; [apply Forall_cons; split; [vm_compute; congruence|by apply Forall_nil]|]. by split; [apply Forall_nil|].
  - exists s'. rewrite E in Hall. specialize (Hall ltac:(vm_compute; reflexivity)).
    apply Forall_cons in Hall as [H1 Hall]. apply Forall_cons in Hall as [H2 _]. split; [exact Hrun|exact (conj H1 H2)].
Defined.
End Boot.
