(* ===== verification/Mp.v ===== *)
(** * Starting the machine

    [HW2/src/mp.c]: the search for the MP tables and the enumeration of processors;
    [lapic.c]: the local interrupt controller, the start of another processor, the
    clock; [main.c]: the order of initialisation.  The tables are read from kernel
    memory; entries of the configuration table are seen as a list by [laid_out]. *)

From S2P Require Import Prelude Mmu Mem State Spinlock Printk Critical Kalloc Vm Umem Sched Sleeplock Disk Bio Log Inode Console Fs Pipe File ProcLife Trap.

Module Mp.

(** ** [mp.h] *)
Definition MPPROC : Z := 0.
Definition MPBUS : Z := 1.
Definition MPIOAPIC : Z := 2.
Definition MPIOINTR : Z := 3.
Definition MPLINTR : Z := 4.
Definition sizeof_mp : Z := 16.
Definition sizeof_mpconf : Z := 44.
Definition sizeof_mpproc : Z := 20.
Definition sizeof_mpioapic : Z := 8.
Definition ld16 (m : mem) (a : Z) : Z := m a + m (a + 1) * 2 ^ 8.
(** Fields of [struct mp] and [struct mpconf]. *)
Definition mp_physaddr (m : mem) (p : Z) : Z := ld32 m (p + 4).
Definition mp_imcrp (m : mem) (p : Z) : Z := m (p + 12).
Definition conf_length (m : mem) (c : Z) : Z := ld16 m (c + 4).
Definition conf_version (m : mem) (c : Z) : Z := m (c + 6).
Definition conf_lapicaddr (m : mem) (c : Z) : Z := ld32 m (c + 36).

(** ** [mp.c] *)
Fixpoint sum_loop (m : mem) (addr : Z) (n : nat) (acc : Z) : Z :=
  match n with O => acc | S n' => sum_loop m (addr + 1) n' (s32 (acc + m addr)) end.
Definition sum (m : mem) (addr len : Z) : Z := u8 (sum_loop m addr (Z.to_nat len) 0).
(** [memcmp(p, sig, 4) == 0] with a string literal. *)
Fixpoint sig_at (m : mem) (p : Z) (sig : list Z) : bool :=
  match sig with [] => true | c :: sig' => (m p =? c) && sig_at m (p + 1) sig' end.

Fixpoint mpsearch1_loop (m : mem) (n : nat) (p e : Z) : Z :=
  if p <? e then
    if sig_at m p (bytes "_MP_") && (sum m p sizeof_mp =? 0) then p
    else match n with O => 0 | S n' => mpsearch1_loop m n' (p + sizeof_mp) e end
  else 0.
Definition mpsearch1 (m : mem) (a len : Z) : Z :=
  let addr := P2V a in mpsearch1_loop m (Z.to_nat len) addr (addr + len).
Definition mpsearch (m : mem) : Z :=
  let bda := P2V 0x400 in
  let p := Z.shiftl (Z.lor (Z.shiftl (m (bda + 0x0F)) 8) (m (bda + 0x0E))) 4 in
  let r := if truth p then mpsearch1 m p 1024
           else mpsearch1 m (u32 (Z.lor (Z.shiftl (m (bda + 0x14)) 8) (m (bda + 0x13)) * 1024 - 1024)) 1024 in
  if truth r then r else mpsearch1 m 0xF0000 0x10000.
(** The configuration table and the floating pointer. *)
Definition mpconfig (m : mem) : option (Z * Z) :=
  let mp := mpsearch m in
  if (mp =? 0) || (mp_physaddr m mp =? 0) then None else
  let conf := P2V (mp_physaddr m mp) in
  if negb (sig_at m conf (bytes "PCMP")) then None else
  if negb (conf_version m conf =? 1) && negb (conf_version m conf =? 4) then None else
  if negb (sum m conf (conf_length m conf) =? 0) then None else
  Some (conf, mp).

(** The loop over the entries of the table; [ismp] is the local flag. *)
Fixpoint entries_loop (fuel : nat) (p e : Z) (ismp : bool) : K bool :=
  if p <? e then
    match fuel with
    | O => nofuel
    | S f =>
        m <- gets k_mem ;;
        if m p =? MPPROC then
          n <- gets k_ncpu ;;
          when (n <? NCPU) (
            upd_cpu (Z.to_nat n) (fun c => mk_cpu (m (p + 1)) (c_ts c) (c_gdt c) (c_started c) (c_ncli c) (c_intena c) (c_proc c)) ;;
            modify (set_k_ncpu (n + 1))) ;;
          entries_loop f (p + sizeof_mpproc) e ismp
        else if m p =? MPIOAPIC then
          modify (set_k_ioapicid (m (p + 1))) ;;
          entries_loop f (p + sizeof_mpioapic) e ismp
        else if (m p =? MPBUS) || (m p =? MPIOINTR) || (m p =? MPLINTR) then entries_loop f (p + 8) e ismp
        else entries_loop f p e false
    end
  else ret ismp.
(** The byte the IMCR holds is a parameter: the port is not readable in the model of
    the other devices. *)
Definition mpinit (fuel : nat) (imcr : Z) : K unit :=
  m <- gets k_mem ;;
  match mpconfig m with
  | None => panic "Expect to run on an SMP"
  | Some (conf, mp) =>
      upd_hw (set_hw_lapic (conf_lapicaddr m conf)) ;;
      ismp <- entries_loop fuel (conf + sizeof_mpconf) (conf + conf_length m conf) true ;;
      if negb ismp then panic "Didn't find a suitable machine" else
      when (truth (mp_imcrp m mp)) (outb 0x22 0x70 ;; outb 0x23 (Z.lor imcr 1))
  end.

(* ------------------------------------------------------------------ *)
(** ** The checksum *)

Fixpoint byte_sum (m : mem) (addr : Z) (n : nat) : Z :=
  match n with O => 0 | S n' => m addr + byte_sum m (addr + 1) n' end.
Lemma u8_s32 x : u8 (s32 x) = u8 x.
Proof. unfold u8, s32. destruct (_ <? _); dlia. Qed.
Lemma u8_add_l x y : u8 (u8 x + y) = u8 (x + y).
Proof. unfold u8. by rewrite Zplus_mod_idemp_l. Qed.
Lemma sum_loop_spec m n : forall addr acc, u8 (sum_loop m addr n acc) = u8 (acc + byte_sum m addr n).
Proof.
  induction n as [|n IH]; intros addr acc; simpl; [by rewrite Z.add_0_r|]. rewrite IH.
  rewrite <- u8_add_l, u8_s32, u8_add_l. f_equal. lia.
Qed.
Lemma sum_spec m addr len : sum m addr len = byte_sum m addr (Z.to_nat len) mod 256.
Proof. unfold sum. by rewrite sum_loop_spec. Qed.

(* ------------------------------------------------------------------ *)
(** ** The entries of the table *)

Inductive entry :=
| E_proc (apicid : Z)
| E_ioapic (id : Z)
| E_skip (t : Z).
Definition skipped (t : Z) : bool := (t =? MPBUS) || (t =? MPIOINTR) || (t =? MPLINTR).
Definition entry_size (x : entry) : Z := match x with E_proc _ => sizeof_mpproc | E_ioapic _ => sizeof_mpioapic | E_skip _ => 8 end.
Definition entry_at (m : mem) (p : Z) (x : entry) : Prop :=
  match x with
  | E_proc a => m p = MPPROC /\ m (p + 1) = a
  | E_ioapic a => m p = MPIOAPIC /\ m (p + 1) = a
  | E_skip t => m p = t /\ skipped t = true
  end.
(** [es] lies in memory from [p], every entry starting below [e], and ends at [q]. *)
Fixpoint laid_out (m : mem) (p e : Z) (es : list entry) (q : Z) : Prop :=
  match es with
  | [] => p = q
  | x :: es' => p < e /\ entry_at m p x /\ laid_out m (p + entry_size x) e es' q
  end.
(** What the kernel records of an entry. *)
Definition set_c_apicid (a : Z) (c : cpu) : cpu := mk_cpu a (c_ts c) (c_gdt c) (c_started c) (c_ncli c) (c_intena c) (c_proc c).
Definition record (s : kstate) (x : entry) : kstate :=
  match x with
  | E_proc a => if k_ncpu s <? NCPU then set_k_ncpu (k_ncpu s + 1) (set_k_cpus (alter (set_c_apicid a) (Z.to_nat (k_ncpu s)) (k_cpus s)) s) else s
  | E_ioapic a => set_k_ioapicid a s
  | E_skip _ => s
  end.
(** The table of processors has its [NCPU] entries and the count is in range. *)
Definition table_ok (s : kstate) : Prop := length (k_cpus s) = Z.to_nat NCPU /\ 0 <= k_ncpu s <= NCPU.

Lemma record_mem s x : k_mem (record s x) = k_mem s.
Proof. destruct x; simpl; try done. by destruct (_ <? _). Qed.
Lemma record_ok s x : table_ok s -> table_ok (record s x).
Proof.
  intros [H1 H2]. destruct x; simpl; try done. destruct (Z.ltb_spec (k_ncpu s) NCPU); [|done].
  split; simpl; [by rewrite length_alter|lia].
Qed.

Lemma record_proc s a : record s (E_proc a) =
  if k_ncpu s <? NCPU then set_k_ncpu (k_ncpu s + 1) (set_k_cpus (alter (set_c_apicid a) (Z.to_nat (k_ncpu s)) (k_cpus s)) s) else s.
Proof. done. Qed.
(** The loop body on an entry it knows. *)
Lemma entries_step f p e b s x : table_ok s -> p < e -> entry_at (k_mem s) p x ->
  entries_loop (S f) p e b s = entries_loop f (p + entry_size x) e b (record s x).
Proof.
  intros [Hlen Hn] Hp Hx. cbn [entries_loop]. destruct (Z.ltb_spec p e); [|lia]. unfold bind at 1, gets at 1. cbn [obind].
  destruct x as [a|a|t]; destruct Hx as [Ht Ha]; rewrite Ht.
  - cbn [Z.eqb MPPROC]. rstep. cbn [record entry_size]. destruct (Z.ltb_spec (k_ncpu s) NCPU) as [Hlt|Hge]; cbn [when]; [|done].
    destruct (lookup_lt_is_Some_2 (k_cpus s) (Z.to_nat (k_ncpu s))) as [c Hc]; [unfold NCPU in *; lia|].
    unfold bind at 1, bind at 1. rewrite (upd_cpu_ok s _ c _ Hc). cbn [obind modify]. rewrite Ha.
    f_equal. f_equal. f_equal. apply list_eq. intros j. destruct (decide (Z.to_nat (k_ncpu s) = j)) as [<-|Hne].
    + rewrite list_lookup_insert_eq by (by eapply lookup_lt_Some). by rewrite list_lookup_alter_eq, Hc.
    + by rewrite list_lookup_insert_ne, list_lookup_alter_ne by done.
  - change (MPIOAPIC =? MPPROC) with false. change (MPIOAPIC =? MPIOAPIC) with true. cbv iota. rstep. cbn [record entry_size]. by rewrite Ha.
  - unfold skipped in Ha. assert ((t =? MPPROC) = false /\ (t =? MPIOAPIC) = false) as [-> ->].
    { unfold MPPROC, MPIOAPIC, MPBUS, MPIOINTR, MPLINTR in *. lia. }
    by rewrite Ha.
Qed.
Lemma entries_run m e es : forall f p q b s, table_ok s -> k_mem s = m -> laid_out m p e es q ->
  entries_loop (length es + f) p e b s = entries_loop f q e b (foldl record s es).
Proof.
  induction es as [|x es IH]; intros f p q b s Hok Hm Hl; simpl in Hl; [by subst q|]. destruct Hl as (Hp & Hx & Hl).
  cbn [length Nat.add foldl]. rewrite (entries_step _ _ _ _ _ x) by (try done; by rewrite Hm). apply IH; [by apply record_ok|by rewrite record_mem|done].
Qed.

(** The processors named in the table, the first [NCPU] of them. *)
Definition procs_of (es : list entry) : list Z := omap (fun x => match x with E_proc a => Some a | _ => None end) es.
Lemma foldl_record es : forall s, table_ok s ->
  let s' := foldl record s es in
  k_ncpu s' = Z.min NCPU (k_ncpu s + Z.of_nat (length (procs_of es))) /\
  (forall i c, k_cpus s' !! i = Some c -> exists c0, k_cpus s !! i = Some c0 /\
     c = match procs_of es !! (i - Z.to_nat (k_ncpu s))%nat with
         | Some a => if decide (Z.to_nat (k_ncpu s) <= i < Z.to_nat NCPU)%nat then set_c_apicid a c0 else c0
         | None => c0 end).
Proof.
  induction es as [|x es IH]; intros s Hok s'; [split; [subst s'; cbn [foldl procs_of omap list_omap length]; destruct Hok; lia|]; intros i c Hc; by exists c|].
  destruct (IH (record s x) (record_ok _ x Hok)) as [H1 H2]. subst s'. cbn [foldl].
  destruct x as [a|a|t]; cbn [procs_of omap list_omap] in *; try done.
  destruct Hok as [Hlen Hn]. change (omap _ es) with (procs_of es). pose proof (record_proc s a) as Er. destruct (Z.ltb_spec (k_ncpu s) NCPU) as [Hlt|Hge]; rewrite Er in *.
  - cbn [k_ncpu set_k_ncpu k_cpus set_k_cpus] in *. split; [rewrite H1; cbn [length]; lia|].
    intros i c Hc. destruct (H2 i c Hc) as (c1 & Hc1 & ->).
    replace (Z.to_nat (k_ncpu s + 1)) with (S (Z.to_nat (k_ncpu s))) in * by lia.
    destruct (decide (i = Z.to_nat (k_ncpu s))) as [->|Hne].
    + rewrite list_lookup_alter_eq in Hc1. destruct (k_cpus s !! Z.to_nat (k_ncpu s)) as [c0|]; [|done]. simpl in Hc1. simplify_eq.
      exists c0. split; [done|]. rewrite Nat.sub_diag. cbn [lookup list_lookup].
      destruct (decide (Z.to_nat (k_ncpu s) <= Z.to_nat (k_ncpu s) < Z.to_nat NCPU)%nat); [|lia].
      destruct (procs_of es !! _); [|done]. destruct (decide (S (Z.to_nat (k_ncpu s)) <= Z.to_nat (k_ncpu s) < Z.to_nat NCPU)%nat); [lia|done].
    + rewrite list_lookup_alter_ne in Hc1 by done. exists c1. split; [done|].
      destruct (decide (Z.to_nat (k_ncpu s) <= i < Z.to_nat NCPU)%nat) as [Hi|Hi].
      * replace (i - Z.to_nat (k_ncpu s))%nat with (S (i - S (Z.to_nat (k_ncpu s)))) by lia. cbn [lookup list_lookup].
        destruct (decide (S (Z.to_nat (k_ncpu s)) <= i < Z.to_nat NCPU)%nat); [done|lia].
      * destruct (decide (S (Z.to_nat (k_ncpu s)) <= i < Z.to_nat NCPU)%nat); [lia|]. by repeat case_match.
  - split; [rewrite H1; cbn [length]; lia|]. intros i c Hc. destruct (H2 i c Hc) as (c0 & Hc0 & ->). exists c0. split; [done|].
    assert (forall y, (Z.to_nat (k_ncpu s) <= y < Z.to_nat NCPU)%nat -> False) as Hno by (intros y; lia).
    by repeat case_match; try (exfalso; eapply Hno; done).
Qed.

(** The I/O controllers named in the table; the kernel keeps the last one. *)
Definition ioapics_of (es : list entry) : list Z := omap (fun x => match x with E_ioapic a => Some a | _ => None end) es.
Lemma foldl_ioapic es : forall s, k_ioapicid (foldl record s es) = List.last (ioapics_of es) (k_ioapicid s).
Proof.
  induction es as [|x es IH]; intros s; [done|]. cbn [foldl]. rewrite IH. destruct x as [a|a|t]; cbn [record]; [by destruct (_ <? _)| |done].
  change (ioapics_of (E_ioapic a :: es)) with (a :: ioapics_of es). by rewrite list_last_cons.
Qed.

Lemma mpconfig_sound m conf mp : mpconfig m = Some (conf, mp) ->
  byte_sum m conf (Z.to_nat (conf_length m conf)) mod 256 = 0 /\ conf = P2V (mp_physaddr m mp) /\ sig_at m conf (bytes "PCMP") = true.
Proof.
  unfold mpconfig. intros H. repeat case_match; simplify_eq. repeat match goal with H : negb _ = false |- _ => apply negb_false_iff in H end.
  split; [|done]. match goal with H : (sum _ _ _ =? 0) = true |- _ => apply Z.eqb_eq in H; rewrite sum_spec in H; exact H end.
Qed.
Lemma entries_end f q e b s : e <= q -> entries_loop f q e b s = Ret b s.
Proof. intros H. destruct f; cbn [entries_loop]; by destruct (Z.ltb_spec q e); [lia|]. Qed.
Lemma table_ok_lapic s v : table_ok s -> table_ok (set_k_hw v s).
Proof. done. Qed.
Lemma upd_hw_run f s : upd_hw f s = Ret tt (set_k_hw (f (k_hw s)) s).
Proof. done. Qed.

(** C26: the start of the machine on a table whose entries are all of known types:
    [mpinit] terminates; the table it used has a good checksum and signature; the
    first [NCPU] processors of the table are recorded, in the table's order, with
    their APIC ids, and the further ones are left out; the I/O controller recorded is
    the last one the table names, and the one known before where it names none. *)
Theorem mpinit_enumerates s fuel imcr conf mp es q : table_ok s -> k_ncpu s = 0 ->
  mpconfig (k_mem s) = Some (conf, mp) ->
  let e := conf + conf_length (k_mem s) conf in
  laid_out (k_mem s) (conf + sizeof_mpconf) e es q -> e <= q -> (length es <= fuel)%nat ->
  exists s', mpinit fuel imcr s = Ret tt s' /\
    byte_sum (k_mem s) conf (Z.to_nat (conf_length (k_mem s) conf)) mod 256 = 0 /\
    sig_at (k_mem s) conf (bytes "PCMP") = true /\
    k_ncpu s' = Z.min NCPU (Z.of_nat (length (procs_of es))) /\
    (forall i a, procs_of es !! i = Some a -> (i < Z.to_nat NCPU)%nat -> exists c, k_cpus s' !! i = Some c /\ c_apicid c = a) /\
    k_ioapicid s' = List.last (ioapics_of es) (k_ioapicid s) /\
    hw_lapic (k_hw s') = conf_lapicaddr (k_mem s) conf.
Proof.
  intros Hok Hn0 Hc e Hl He Hf. destruct (mpconfig_sound _ _ _ Hc) as (Hsum & _ & Hsig).
  unfold mpinit. unfold bind at 1, gets at 1. cbn [obind]. rewrite Hc. unfold bind at 1. rewrite upd_hw_run. cbn [obind].
  set (s1 := set_k_hw _ s). assert (table_ok s1) as Hok1 by done.
  assert (entries_loop fuel (conf + sizeof_mpconf) e true s1 = Ret true (foldl record s1 es)) as Hrun.
  { replace fuel with (length es + (fuel - length es))%nat by lia. rewrite (entries_run (k_mem s) e es (fuel - length es) (conf + sizeof_mpconf) q true s1 Hok1 eq_refl Hl). by apply entries_end. }
  rewrite (bind_Ret _ _ _ _ _ Hrun). cbn [negb]. destruct (foldl_record es s1 Hok1) as [H1 H2]. change (k_ncpu s1) with (k_ncpu s) in *.
  change (k_cpus s1) with (k_cpus s) in *. rewrite Hn0 in *. set (s2 := foldl record s1 es) in *.
  assert (hw_lapic (k_hw s2) = conf_lapicaddr (k_mem s) conf) as Hlap.
  { subst s2. change (conf_lapicaddr (k_mem s) conf) with (hw_lapic (k_hw s1)). clear. generalize s1. induction es as [|x es IH]; intros t; [done|].
    cbn [foldl]. rewrite IH. destruct x; simpl; try done. by destruct (_ <? _). }
  assert (k_ioapicid s2 = List.last (ioapics_of es) (k_ioapicid s)) as Hio by apply (foldl_ioapic es s1).
  assert (table_ok s2) as [Hlen _].
  { subst s2. clear -Hok1. revert Hok1. generalize s1. induction es as [|x es IH]; intros t Ht; [done|]. cbn [foldl]. by apply IH, record_ok. }
  assert (forall i a, procs_of es !! i = Some a -> (i < Z.to_nat NCPU)%nat -> exists c, k_cpus s2 !! i = Some c /\ c_apicid c = a) as Hids.
  { intros i a Ha Hi. destruct (lookup_lt_is_Some_2 (k_cpus s2) i) as [c Hcc]; [lia|]. exists c. split; [done|].
    destruct (H2 i c Hcc) as (c0 & _ & ->). rewrite Nat.sub_0_r, Ha. case_decide; [done|lia]. }
  destruct (truth (mp_imcrp (k_mem s) mp)); cbn [when].
  - eexists. split; [reflexivity|]. by split_and!.
  - exists s2. split; [done|]. by split_and!.
Qed.

(** C36: a table with an entry of an unknown type.  The code's [break] leaves the
    [switch] and not the loop, and the pointer is not advanced: [mpinit] never
    returns, and the panic that the flag [ismp] is for is never reached. *)
Theorem mpinit_unknown_hangs s fuel imcr conf mp es q : table_ok s -> mpconfig (k_mem s) = Some (conf, mp) ->
  let e := conf + conf_length (k_mem s) conf in
  laid_out (k_mem s) (conf + sizeof_mpconf) e es q -> q < e -> MPLINTR < k_mem s q ->
  mpinit fuel imcr s = Fuel.
Proof.
  intros Hok Hc e Hl Hq Hbad. unfold mpinit. unfold bind at 1, gets at 1. cbn [obind]. rewrite Hc. unfold bind at 1. rewrite upd_hw_run. cbn [obind].
  set (s1 := set_k_hw _ s). assert (table_ok s1) as Hok1 by done.
  assert (forall f b t, k_mem t = k_mem s -> entries_loop f q e b t = Fuel) as Hstuck.
  { induction f as [|f IH]; intros b t Ht; cbn [entries_loop]; (destruct (Z.ltb_spec q e); [|lia]); [done|].
    unfold bind at 1, gets at 1. cbn [obind]. rewrite Ht. unfold MPPROC, MPIOAPIC, MPBUS, MPIOINTR, MPLINTR in *.
    repeat match goal with |- context [k_mem s q =? ?c] => destruct (Z.eqb_spec (k_mem s q) c); [lia|] end. by apply IH. }
  assert (forall f p b t, table_ok t -> k_mem t = k_mem s -> laid_out (k_mem s) p e es q -> entries_loop f p e b t = Fuel) as Hrun.
  { clear -Hstuck. induction es as [|x es IH]; intros f p b t Ht Hm Hl; simpl in Hl; [subst q; by apply Hstuck|].
    destruct Hl as (Hp & Hx & Hl). destruct f as [|f].
    - cbn [entries_loop]. by destruct (Z.ltb_spec p e); [|lia].
    - rewrite (entries_step _ _ _ _ _ x) by (try done; by rewrite Hm). apply IH; [by apply record_ok|by rewrite record_mem|done]. }
  unfold bind. rewrite Hrun; done.
Qed.

(** A machine with two processors and one I/O controller. *)
Definition image (a : Z) (l : list Z) (m : mem) : mem := fun x => if (a <=? x) && (x <? a + Z.of_nat (length l)) then nth (Z.to_nat (x - a)) l 0 else m x.
Definition mp_bytes : list Z := bytes "_MP_" ++ [0; 0x10; 0x0F; 0; 1; 4; 0x81; 0; 0; 0; 0; 0].
Definition conf_bytes (last : Z) (chk : Z) : list Z :=
  bytes "PCMP" ++ [92; 0; 4; chk] ++ replicate 20 0 ++ [0; 0; 0; 0; 0; 0; 3; 0; 0; 0; 0xE0; 0xFE; 0; 0; 0; 0] ++
  ([0; 0] ++ replicate 18 0) ++ ([0; 1] ++ replicate 18 0) ++ [last; 2; 0; 0; 0; 0; 0; 0].
Definition tables (last chk : Z) : mem := image 0x800F0000 mp_bytes (image 0x800F1000 (conf_bytes last chk) (fun _ => 0)).
Definition duo_cpus (last chk : Z) : kstate :=
  set_k_ncpu 0 (set_k_cpus (replicate 8 (cpu0 0)) (set_k_mem (tables last chk) boot)).
Lemma duo_cpus_ok last chk : table_ok (duo_cpus last chk).
Proof. by split. Qed.
Lemma mpinit_enumerates_witness : exists s', mpinit 3 0 (duo_cpus 2 138) = Ret tt s' /\ k_ncpu s' = 2 /\
  (exists c, k_cpus s' !! 1%nat = Some c /\ c_apicid c = 1) /\ k_ioapicid s' = 2.
Proof.
  destruct (mpinit_enumerates (duo_cpus 2 138) 3 0 0x800F1000 0x800F0000 [E_proc 0; E_proc 1; E_ioapic 2] (0x800F1000 + 92))
    as (s' & H1 & _ & _ & H2 & H3 & H4 & _).
  - apply duo_cpus_ok.
  - done.
  - vm_compute. reflexivity.
  - vm_compute. repeat split.
  - vm_compute. congruence.
  - simpl. lia.
  - exists s'. exact (conj H1 (conj H2 (conj (H3 1%nat 1 eq_refl ltac:(vm_compute; lia)) H4))).
Defined.
Lemma mpinit_unknown_hangs_witness : mpinit 1000 0 (duo_cpus 9 131) = Fuel.
Proof.
  apply (mpinit_unknown_hangs (duo_cpus 9 131) 1000 0 0x800F1000 0x800F0000 [E_proc 0; E_proc 1] (0x800F1000 + 84)).
  - apply duo_cpus_ok.
  - vm_compute. reflexivity.
  - vm_compute. repeat split.
  - vm_compute. congruence.
  - vm_compute. congruence.
Defined.
End Mp.

(** ** [lapic.c] *)
Module Lapic.

Definition ID : Z := 0x20 / 4.
Definition VER : Z := 0x30 / 4.
Definition TPR : Z := 0x80 / 4.
Definition SVR : Z := 0xF0 / 4.
Definition ENABLE : Z := 0x100.
Definition ESR : Z := 0x280 / 4.
Definition ICRLO : Z := 0x300 / 4.
Definition INIT : Z := 0x500.
Definition STARTUP : Z := 0x600.
Definition DELIVS : Z := 0x1000.
Definition ASSERT : Z := 0x4000.
Definition LEVEL : Z := 0x8000.
Definition BCAST : Z := 0x80000.
Definition ICRHI : Z := 0x310 / 4.
Definition TIMER : Z := 0x320 / 4.
Definition X1 : Z := 0xB.
Definition PERIODIC : Z := 0x20000.
Definition PCINT : Z := 0x340 / 4.
Definition LINT0 : Z := 0x350 / 4.
Definition LINT1 : Z := 0x360 / 4.
Definition ERROR : Z := 0x370 / 4.
Definition MASKED : Z := 0x10000.
Definition TICR : Z := 0x380 / 4.
Definition TDCR : Z := 0x3E0 / 4.
Definition lapicr (index : Z) : K Z := gets (fun s => hw_lapicreg (k_hw s) index).

Definition lapicinit : K unit :=
  l <- gets (fun s => hw_lapic (k_hw s)) ;;
  if negb (truth l) then ret tt else
  lapicw SVR (Z.lor ENABLE (T_IRQ0 + IRQ_SPURIOUS)) ;;
  lapicw TDCR X1 ;;
  lapicw TIMER (Z.lor PERIODIC (T_IRQ0 + IRQ_TIMER)) ;;
  lapicw TICR 10000000 ;;
  lapicw LINT0 MASKED ;;
  lapicw LINT1 MASKED ;;
  v <- lapicr VER ;;
  when (4 <=? Z.land (Z.shiftr v 16) 0xFF) (lapicw PCINT MASKED) ;;
  lapicw ERROR (T_IRQ0 + IRQ_ERROR) ;;
  lapicw ESR 0 ;;
  lapicw ESR 0 ;;
  lapicw EOI 0 ;;
  lapicw ICRHI 0 ;;
  lapicw ICRLO (Z.lor (Z.lor BCAST INIT) LEVEL) ;;
  icr <- lapicr ICRLO ;;
  if has_bits icr DELIVS then spin else
  lapicw TPR 0.

Definition microdelay (us : Z) : K unit := ret tt.
Definition CMOS_PORT : Z := 0x70.
Definition CMOS_RETURN : Z := 0x71.
Definition st16 (m : mem) (a v : Z) : mem := st8 (st8 m a v) (a + 1) (Z.shiftr v 8).
Definition lapicstartap (apicid addr : Z) : K unit :=
  outb CMOS_PORT 0xF ;;
  outb (CMOS_PORT + 1) 0x0A ;;
  let wrv := P2V (Z.lor (Z.shiftl 0x40 4) 0x67) in
  mem_store (fun m => st16 m wrv 0) ;;
  mem_store (fun m => st16 m (wrv + 2) (Z.shiftr addr 4)) ;;
  lapicw ICRHI (Z.shiftl apicid 24) ;;
  lapicw ICRLO (Z.lor (Z.lor INIT LEVEL) ASSERT) ;;
  microdelay 200 ;;
  lapicw ICRLO (Z.lor INIT LEVEL) ;;
  microdelay 100 ;;
  iter_list (upto 2) (fun _ =>
    lapicw ICRHI (Z.shiftl apicid 24) ;;
    lapicw ICRLO (Z.lor STARTUP (Z.shiftr addr 12)) ;;
    microdelay 200).

(** The real-time clock: [dev n reg] is what register [reg] holds at the [n]-th
    access. *)
Record rtcdate := mk_date { second : Z; minute : Z; hour : Z; day : Z; month : Z; year : Z }.
#[export] Instance rtcdate_eq_dec : EqDecision rtcdate.
Proof. solve_decision. Defined.
Definition CMOS_STATA : Z := 0x0a.
Definition CMOS_STATB : Z := 0x0b.
Definition CMOS_UIP : Z := Z.shiftl 1 7.
Definition SECS : Z := 0x00.
Definition MINS : Z := 0x02.
Definition HOURS : Z := 0x04.
Definition DAY : Z := 0x07.
Definition MONTH : Z := 0x08.
Definition YEAR : Z := 0x09.

Section Clock.
Context (dev : nat -> Z -> Z).
Definition C (A : Type) : Type := M nat A.
Definition cmos_read (reg : Z) : C Z := fun n => Ret (u8 (dev n reg)) (S n).
Definition fill_rtcdate : C rtcdate :=
  a <- cmos_read SECS ;; b <- cmos_read MINS ;; c <- cmos_read HOURS ;;
  d <- cmos_read DAY ;; e <- cmos_read MONTH ;; f <- cmos_read YEAR ;;
  ret (mk_date a b c d e f).
Fixpoint read_stable (fuel : nat) : C rtcdate :=
  t1 <- fill_rtcdate ;;
  sa <- cmos_read CMOS_STATA ;;
  if has_bits sa CMOS_UIP then match fuel with O => nofuel | S f => read_stable f end else
  t2 <- fill_rtcdate ;;
  if decide (t1 = t2) then ret t1 else match fuel with O => nofuel | S f => read_stable f end.
Definition CONV (x : Z) : Z := Z.shiftr x 4 * 10 + Z.land x 0xf.
Definition conv (t : rtcdate) : rtcdate :=
  mk_date (CONV (second t)) (CONV (minute t)) (CONV (hour t)) (CONV (day t)) (CONV (month t)) (CONV (year t)).
Definition cmostime (fuel : nat) : C rtcdate :=
  sb <- cmos_read CMOS_STATB ;;
  let bcd := Z.land sb (Z.shiftl 1 2) =? 0 in
  t1 <- read_stable fuel ;;
  let t1 := if bcd then conv t1 else t1 in
  ret (mk_date (second t1) (minute t1) (hour t1) (day t1) (month t1) (year t1 + 2000)).
End Clock.

(** Two decimal digits in a byte. *)
Definition bcd (v : Z) : Z := 16 * (v / 10) + v mod 10.
Lemma CONV_bcd v : 0 <= v < 100 -> CONV (bcd v) = v.
Proof.
  intros H. unfold CONV, bcd. change 0xf with (2 ^ 4 - 1). rewrite land_ones_mod, Z.shiftr_div_pow2 by lia. dlia.
Qed.
Definition enc (t : rtcdate) (reg : Z) : Z :=
  if reg =? SECS then bcd (second t) else if reg =? MINS then bcd (minute t) else if reg =? HOURS then bcd (hour t)
  else if reg =? DAY then bcd (day t) else if reg =? MONTH then bcd (month t) else if reg =? YEAR then bcd (year t - 2000) else 0.
Definition date_ok (t : rtcdate) : Prop :=
  0 <= second t < 60 /\ 0 <= minute t < 60 /\ 0 <= hour t < 24 /\ 1 <= day t <= 31 /\ 1 <= month t <= 12 /\ 2000 <= year t < 2100.

(** On a clock that does not tick meanwhile the first attempt succeeds, and the
    date comes back from its BCD registers. *)
Lemma cmostime_quiet dev t n : date_ok t ->
  (forall i, (n < i < n + 14)%nat -> dev i = enc t) -> u8 (dev n CMOS_STATB) = 2 ->
  cmostime dev 0 n = Ret t (n + 14)%nat.
Proof.
  intros (H1 & H2 & H3 & H4 & H5 & H6) Hdev Hb.
  assert (forall v, 0 <= v < 100 -> u8 (bcd v) = bcd v) as Hu by (intros v Hv; unfold bcd, u8; rewrite Z.mod_small; dlia).
  assert (forall k, (n < k)%nat -> (k + 6 <= n + 14)%nat ->
    fill_rtcdate dev k = Ret (mk_date (bcd (second t)) (bcd (minute t)) (bcd (hour t)) (bcd (day t)) (bcd (month t)) (bcd (year t - 2000))) (k + 6)%nat) as Hfill.
  { intros k Hk1 Hk2. unfold fill_rtcdate, bind, cmos_read, ret. cbn [obind]. rewrite !Hdev by lia. unfold enc. cbn [Z.eqb SECS MINS HOURS DAY MONTH YEAR].
    simpl. rewrite !Hu by lia. f_equal. lia. }
  unfold cmostime, bind at 1, cmos_read at 1. cbn [obind]. rewrite Hb. cbn [read_stable].
  unfold bind at 1, bind at 1. rewrite Hfill by lia. cbn [obind]. unfold bind at 1, cmos_read at 1. cbn [obind]. rewrite Hdev by lia.
  change (has_bits (u8 (enc t CMOS_STATA)) CMOS_UIP) with false. cbv iota. unfold bind at 1. rewrite Hfill by lia. cbn [obind].
  rewrite decide_True by done. unfold ret. cbn [obind]. change (Z.land 2 (Z.shiftl 1 2) =? 0) with true. cbv iota. unfold conv. simpl.
  rewrite !CONV_bcd by lia. f_equal; [|lia]. destruct t; simpl. f_equal. lia.
Qed.
End Lapic.

(** ** [main.c] *)
Section Main.
Context {D : DiskDriver}.
Import Mp Lapic.

(** [xchg(&(mycpu()->started), 1)] *)
Definition set_started (v : Z) (c : cpu) : cpu := mk_cpu (c_apicid c) (c_ts c) (c_gdt c) v (c_ncli c) (c_intena c) (c_proc c).
Definition mpmain (rounds : nat) : K unit :=
  id <- cpuid ;;
  id' <- cpuid ;;
  cprintf (bytes "cpu%d: starting %d" ++ [NL]) [PInt id; PInt id'] ;;
  idtinit ;;
  c <- mycpu ;;
  upd_cpu c (set_started 1) ;;
  scheduler rounds.
Definition mpenter (rounds : nat) : K unit := switchkvm ;; seginit ;; lapicinit ;; mpmain rounds.

(** The image of [entryother.S] that the linker provides, the addresses of
    [mpenter] and [entrypgdir]. *)
Record linked_code := mk_linked { lc_entryother : list Z; lc_mpenter : Z; lc_entrypgdir : Z }.
(** [while(c->started == 0)]: the other processors run meanwhile. *)
Fixpoint wait_started (fuel : nat) (i : nat) : K unit :=
  c <- get_cpu i ;;
  if truth (c_started c) then ret tt
  else match fuel with O => nofuel | S f => switch ;; wait_started f i end.
Definition store_bytes (a : Z) (l : list Z) (m : mem) : mem := image a l m.
Definition startothers (fuel : nat) (lc : linked_code) : K unit :=
  let code := P2V 0x7000 in
  mem_store (store_bytes code (lc_entryother lc)) ;;
  n <- gets k_ncpu ;;
  iter_list (upto n) (fun i =>
    me <- mycpu ;;
    if bool_decide (i = me) then ret tt else
    stack <- kalloc ;;
    st (code - 4) (stack + KSTACKSIZE) ;;
    st (code - 8) (lc_mpenter lc) ;;
    st (code - 12) (V2P (lc_entrypgdir lc)) ;;
    c <- get_cpu i ;;
    lapicstartap (c_apicid c) (V2P code) ;;
    wait_started fuel i).

(** The parameters stand for what the devices answer: the IMCR byte and the line
    status of the serial port. *)
Definition main (fuel rounds : nat) (lc : linked_code) (imcr uart_status : Z) : K unit :=
  kend <- gets k_end ;;
  kinit1 kend (P2V (4 * 1024 * 1024)) ;;
  kvmalloc ;;
  mpinit fuel imcr ;;
  lapicinit ;;
  seginit ;;
  picinit ;;
  ioapicinit ;;
  consoleinit ;;
  uartinit uart_status ;;
  pinit ;;
  tvinit ;;
  binit ;;
  fileinit ;;
  ideinit ;;
  startothers fuel lc ;;
  kinit2 (P2V (4 * 1024 * 1024)) (P2V PHYSTOP) ;;
  userinit ;;
  mpmain rounds.

(** The page directory used while the kernel starts: 4-Mbyte pages. *)
Definition entrypgdir (i : Z) : Z :=
  if i =? 0 then Z.lor (Z.lor (Z.lor 0 PTE_P) PTE_W) PTE_PS
  else if i =? Z.shiftr KERNBASE PDXSHIFT then Z.lor (Z.lor (Z.lor 0 PTE_P) PTE_W) PTE_PS
  else 0.
End Main.

(** What the hardware makes of an address with 4-Mbyte pages. *)
Definition big_translate (dir : Z -> Z) (x : Z) : option Z :=
  let e := dir (PDX x) in
  if has_bits e PTE_P && has_bits e PTE_PS then Some (Z.land e 0xFFC00000 + x mod 2 ^ 22) else None.
(** The first 4 Mbytes are visible at 0, where the processor runs when paging is
    switched on, and at [KERNBASE], where the kernel is linked; nothing else is. *)
Lemma entrypgdir_maps x : 0 <= x < 2 ^ 32 ->
  big_translate entrypgdir x =
    if x <? 2 ^ 22 then Some x else if (KERNBASE <=? x) && (x <? KERNBASE + 2 ^ 22) then Some (x - KERNBASE) else None.
Proof.
  intros Hx. unfold big_translate, entrypgdir. rewrite PDX_eq by done. change (Z.shiftr KERNBASE PDXSHIFT) with 512. unfold KERNBASE. change (2 ^ 22) with 4194304.
  destruct (Z.ltb_spec x (4194304)); [|destruct (Z.leb_spec 0x80000000 x), (Z.ltb_spec x (0x80000000 + 4194304))]; simpl andb; cbv iota.
  - assert (x / 4194304 = 0) as -> by dlia. cbn -[Z.modulo Z.add Z.land Z.lor]. change (Z.land (Z.lor (Z.lor (Z.lor 0 PTE_P) PTE_W) PTE_PS) 0xFFC00000) with 0. f_equal. dlia.
  - assert (x / 4194304 = 512) as -> by dlia. cbn -[Z.modulo Z.add Z.land Z.lor]. change (Z.land (Z.lor (Z.lor (Z.lor 0 PTE_P) PTE_W) PTE_PS) 0xFFC00000) with 0. f_equal. dlia.
  - destruct (Z.eqb_spec (x / 4194304) 0); [dlia|]. destruct (Z.eqb_spec (x / 4194304) 512); [dlia|]. done.
  - destruct (Z.eqb_spec (x / 4194304) 0); [dlia|]. destruct (Z.eqb_spec (x / 4194304) 512); [dlia|]. done.
  - destruct (Z.eqb_spec (x / 4194304) 0); [dlia|]. destruct (Z.eqb_spec (x / 4194304) 512); [dlia|]. done.
Qed.
