(* ===== verification/Ulib.v ===== *)
(** * The library of user programs

    [HW2/src/ulib.c] on a byte memory, and [HW2/src/printf.c]: the format is run
    through the code's two-state machine, and every byte goes out by one [write].
    The reference rendering of a format looks ahead instead. *)

From S2P Require Import Prelude Mmu Mem State Spinlock Printk.

Module Ulib.

(** ** [ulib.c]; a loop bound stands for the length of the strings *)
Fixpoint strcpy (fuel : nat) (m : mem) (s t : Z) : option mem :=
  match fuel with
  | O => None
  | S f => let m' := st8 m s (m t) in if m t =? 0 then Some m' else strcpy f m' (s + 1) (t + 1)
  end.
Fixpoint strcmp (fuel : nat) (m : mem) (p q : Z) : option Z :=
  match fuel with
  | O => None
  | S f => if truth (m p) && (m p =? m q) then strcmp f m (p + 1) (q + 1) else Some (m p - m q)
  end.
Fixpoint strlen_loop (fuel : nat) (m : mem) (s n : Z) : option Z :=
  match fuel with O => None | S f => if truth (m (s + n)) then strlen_loop f m s (n + 1) else Some n end.
Definition strlen (fuel : nat) (m : mem) (s : Z) : option Z := strlen_loop fuel m s 0.
Definition memset (m : mem) (dst c n : Z) : mem := stosb m dst c n.
(** The address of the first [c], or 0. *)
Fixpoint strchr (fuel : nat) (m : mem) (s c : Z) : option Z :=
  match fuel with
  | O => None
  | S f => if truth (m s) then (if m s =? c then Some s else strchr f m (s + 1) c) else Some 0
  end.
Fixpoint atoi_loop (fuel : nat) (m : mem) (s n : Z) : option Z :=
  match fuel with
  | O => None
  | S f => if (48 <=? m s) && (m s <=? 57) then atoi_loop f m (s + 1) (s32 (n * 10 + m s - 48)) else Some n
  end.
Definition atoi (fuel : nat) (m : mem) (s : Z) : option Z := atoi_loop fuel m s 0.
(** [while(n-- > 0) *dst++ = *src++;] *)
Definition memmove (m : mem) (vdst vsrc n : Z) : mem := copy_up m vdst vsrc (Z.to_nat n).

(** [gets] reads bytes from the standard input, whose rest is [input]; the end of
    the list is a [read] that returns less than 1. *)
Fixpoint gets_loop (n : nat) (m : mem) (buf i : Z) (input : list Z) : mem * Z * list Z :=
  match n with
  | O => (m, i, input)
  | S n' =>
      match input with
      | [] => (m, i, [])
      | c :: input' =>
          let m := st8 m (buf + i) c in
          if (c =? 10) || (c =? 13) then (m, i + 1, input') else gets_loop n' m buf (i + 1) input'
      end
  end.
(** [for(i = 0; i+1 < max; )] runs at most [max - 1] times. *)
Definition gets (m : mem) (buf max : Z) (input : list Z) : mem * list Z :=
  let '(m, i, input') := gets_loop (Z.to_nat (max - 1)) m buf 0 input in
  (st8 m (buf + i) 0, input').

(** [stat]: the system calls are parameters; the state is the kernel's. *)
Section Stat.
Context {S St : Type} (open : list Z -> Z -> M S Z) (fstat : Z -> M S (Z * St)) (close : Z -> M S Z).
Definition stat (n : list Z) : M S (Z * option St) :=
  fd <- open n O_RDONLY ;;
  if fd <? 0 then ret (-1, None) else
  '(r, st) <- fstat fd ;;
  close fd ;;
  ret (r, Some st).
(** No descriptor is left open: [stat] ends in the state in which [close] has undone
    what [open] did. *)
Lemma stat_closes n s s1 fd r st : open n O_RDONLY s = Ret fd s1 -> 0 <= fd -> fstat fd s1 = Ret (r, st) s1 -> close fd s1 = Ret 0 s ->
  stat n s = Ret (r, Some st) s.
Proof.
  intros Ho Hfd Hs Hc. unfold stat. rewrite (bind_Ret _ _ _ _ _ Ho). destruct (Z.ltb_spec fd 0); [lia|].
  by rewrite (bind_Ret _ _ _ _ _ Hs), (bind_Ret _ _ _ _ _ Hc).
Qed.
Lemma stat_missing n s s1 fd : open n O_RDONLY s = Ret fd s1 -> fd < 0 -> stat n s = Ret (-1, None) s1.
Proof. intros Ho Hfd. unfold stat. rewrite (bind_Ret _ _ _ _ _ Ho). by destruct (Z.ltb_spec fd 0); [|lia]. Qed.
End Stat.

(** ** [printf.c] *)
Definition W (A : Type) : Type := M (list (Z * Z)) A.
Definition udigits : list Z := bytes "0123456789ABCDEF".
Definition putc (fd c : Z) : W unit := modify (fun out => out ++ [(fd, u8 c)]).
Definition printint (fd xx base : Z) (sgn : bool) : W unit :=
  iter_list (rev (printint_buf udigits xx base sgn)) (putc fd).
Fixpoint printf_loop (fd : Z) (fmt : list Z) (args : list parg) (state : Z) : W unit :=
  match fmt with
  | [] => ret tt
  | c :: fmt' =>
      let c := Z.land c 0xff in
      if state =? 0 then
        if c =? 37 then printf_loop fd fmt' args 37
        else putc fd c ;; printf_loop fd fmt' args state
      else if state =? 37 then
        if c =? 100 then
          match args with PInt z :: args' => printint fd (s32 z) 10 true ;; printf_loop fd fmt' args' 0 | _ => fault end
        else if (c =? 120) || (c =? 112) then
          match args with PInt z :: args' => printint fd (s32 z) 16 false ;; printf_loop fd fmt' args' 0 | _ => fault end
        else if c =? 115 then
          match args with
          | PStr s :: args' => iter_list (match s with Some l => l | None => bytes "(null)" end) (putc fd) ;; printf_loop fd fmt' args' 0
          | _ => fault end
        else if c =? 99 then
          match args with PInt z :: args' => putc fd z ;; printf_loop fd fmt' args' 0 | _ => fault end
        else if c =? 37 then putc fd c ;; printf_loop fd fmt' args 0
        else putc fd 37 ;; putc fd c ;; printf_loop fd fmt' args 0
      else printf_loop fd fmt' args state
  end.
Definition printf (fd : Z) (fmt : list Z) (args : list parg) : W unit := printf_loop fd fmt args 0.

(* ------------------------------------------------------------------ *)
(** ** What a format stands for *)

(** One directive [%d] with the arguments: the text and the arguments left. *)
Definition directive (d : Z) (args : list parg) : option (list Z * list parg) :=
  if d =? 100 then match args with PInt z :: args' => Some (rev (printint_buf udigits (s32 z) 10 true), args') | _ => None end
  else if (d =? 120) || (d =? 112) then match args with PInt z :: args' => Some (rev (printint_buf udigits (s32 z) 16 false), args') | _ => None end
  else if d =? 115 then match args with PStr s :: args' => Some (match s with Some l => l | None => bytes "(null)" end, args') | _ => None end
  else if d =? 99 then match args with PInt z :: args' => Some ([u8 z], args') | _ => None end
  else Some (if d =? 37 then [37] else [37; d], args).
Inductive renders : list Z -> list parg -> list Z -> Prop :=
| R_nil args : renders [] args []
| R_char c fmt args txt : c <> 37 -> renders fmt args txt -> renders (c :: fmt) args (c :: txt)
| R_dir d fmt args t args' txt : directive d args = Some (t, args') -> renders fmt args' txt ->
    renders (37 :: d :: fmt) args (t ++ txt)
| R_lone args : renders [37] args [].

Definition byte (c : Z) : Prop := 0 <= c < 256.
Lemma putc_iter fd l out : Forall byte l -> iter_list l (putc fd) out = Ret tt (out ++ map (pair fd) l).
Proof.
  intros Hl. revert out. induction l as [|c l IH]; intros out; cbn [iter_list map]; [by rewrite app_nil_r|].
  apply Forall_cons in Hl as [Hc Hl]. unfold bind, putc, modify. cbn [obind]. rewrite IH by done. rewrite u8_small by done.
  by rewrite <- app_assoc.
Qed.
Lemma land_byte c : byte c -> Z.land c 0xff = c.
Proof. intros H. change 0xff with (2 ^ 8 - 1). rewrite land_ones_mod by lia. apply Z.mod_small. unfold byte in H. lia. Qed.
Definition arg_ok (a : parg) : Prop := match a with PStr (Some l) => Forall byte l | _ => True end.

Lemma bytes_byte s : Forall byte (bytes s).
Proof. induction s as [|a s IH]; cbn [bytes]; constructor; [|done]. pose proof (Ascii.nat_ascii_bounded a). unfold byte. lia. Qed.
Lemma udigit_byte x : byte (digit_char udigits x).
Proof.
  unfold digit_char. destruct (nth_in_or_default (Z.to_nat x) udigits 0) as [Hin| ->]; [|done].
  pose proof (bytes_byte "0123456789ABCDEF") as Hall. fold udigits in Hall.
  rewrite Forall_forall in Hall. apply Hall. by apply list_elem_of_In.
Qed.
Lemma printint_bytes xx base sgn : Forall byte (rev (printint_buf udigits xx base sgn)).
Proof.
  apply Forall_rev. unfold printint_buf. apply Forall_app. split.
  - generalize (if sgn && (xx <? 0) then u32 (- xx) else u32 xx). induction digit_fuel as [|f IH]; intros x; cbn [digit_loop]; [done|].
    apply Forall_cons. split; [apply udigit_byte|]. destruct (_ =? 0); [done|apply IH].
  - destruct (_ && _); [|done]. constructor; [unfold byte; lia|done].
Qed.
Lemma directive_args d args t args' : byte d -> Forall arg_ok args -> directive d args = Some (t, args') -> Forall byte t /\ Forall arg_ok args'.
Proof.
  unfold directive. intros Hd Ha H.
  repeat match goal with H : context [if ?b then _ else _] |- _ => destruct b end;
    repeat match goal with H : context [match ?l with _ => _ end] |- _ => destruct l end; simplify_eq;
    repeat match goal with H : Forall arg_ok (_ :: _) |- _ => apply Forall_cons in H as [? ?] end; split; try done;
    try apply printint_bytes; try apply (bytes_byte "(null)"); repeat (apply Forall_cons; split); try apply Forall_nil; try apply u8_range; unfold byte in *; try done; lia.
Qed.
(** The machine in state ['%'] prints one directive. *)
Lemma printf_directive fd d fmt args t args' out : byte d -> Forall arg_ok args -> directive d args = Some (t, args') ->
  printf_loop fd (d :: fmt) args 37 out = printf_loop fd fmt args' 0 (out ++ map (pair fd) t).
Proof.
  intros Hd Ha Hdir. pose proof (directive_args d args t args' Hd Ha Hdir) as [Ht _]. cbn [printf_loop]. rewrite land_byte by done.
  change (37 =? 0) with false. change (37 =? 37) with true. cbv iota. unfold directive in Hdir. unfold printint.
  destruct (d =? 100); [|destruct ((d =? 120) || (d =? 112)); [|destruct (d =? 115); [|destruct (d =? 99)]]].
  1, 2, 3: destruct args as [|[z|o] args]; simplify_eq; unfold bind; rewrite putc_iter by done; done.
  - destruct args as [|[z|o] args]; simplify_eq. unfold bind, putc, modify. cbn [obind map]. done.
  - simplify_eq. destruct (Z.eqb_spec d 37) as [->|Hne].
    + done.
    + unfold bind, putc, modify. cbn [obind map]. rewrite (u8_small d) by done. by rewrite <- app_assoc.
Qed.

(** The machine prints what the format stands for. *)
Lemma printf_run fd fmt args txt out : renders fmt args txt -> Forall byte fmt -> Forall arg_ok args ->
  printf fd fmt args out = Ret tt (out ++ map (pair fd) txt).
Proof.
  intros Hr. unfold printf. revert out. induction Hr as [args|c fmt args txt Hc Hr IH|d fmt args t args' txt Hd Hr IH|args]; intros out Hb Ha.
  - simpl. by rewrite app_nil_r.
  - apply Forall_cons in Hb as [Hc' Hb]. cbn [printf_loop map]. rewrite land_byte by done. change (0 =? 0) with true. cbv iota.
    destruct (Z.eqb_spec c 37); [done|]. unfold bind, putc, modify. cbn [obind]. rewrite IH by done. rewrite u8_small by done. by rewrite <- app_assoc.
  - apply Forall_cons in Hb as [H1 Hb]. apply Forall_cons in Hb as [H2 Hb].
    destruct (directive_args d args t args' H2 Ha Hd) as [Ht Ha'].
    change (printf_loop fd (37 :: d :: fmt) args 0 out) with (printf_loop fd (d :: fmt) args 37 out).
    rewrite (printf_directive fd d fmt args t args') by done. rewrite IH by done. by rewrite map_app, app_assoc.
  - simpl. by rewrite app_nil_r.
Qed.
(** the two-state machine of [printf] prints, byte by byte on the given
    descriptor, the text that the format and the arguments stand for. *)
Theorem printf_renders fd fmt args txt out : renders fmt args txt -> Forall byte fmt -> Forall arg_ok args ->
  printf fd fmt args out = Ret tt (out ++ map (pair fd) txt).
Proof. apply printf_run. Qed.
Definition sample_fmt : list Z := bytes "pid %d: %s 0x%x%%".
Lemma printf_renders_witness : printf 1 sample_fmt [PInt (-7); PStr None; PInt 0xBEEF] [] =
  Ret tt ([] ++ map (pair 1) (bytes "pid -7: (null) 0xBEEF%")).
Proof.
  apply printf_renders.
  - unfold sample_fmt. cbn -[directive].
    do 4 (apply R_char; [done|]). apply (R_dir 100 _ _ (bytes "-7") [PStr None; PInt 0xBEEF]); [reflexivity|].
    do 2 (apply R_char; [done|]). apply (R_dir 115 _ _ (bytes "(null)") [PInt 0xBEEF]); [reflexivity|].
    do 3 (apply R_char; [done|]). apply (R_dir 120 _ _ (bytes "BEEF") []); [reflexivity|].
    apply (R_dir 37 [] [] [37] [] []); [reflexivity|]. apply R_nil.
  - apply bytes_byte.
  - repeat (apply Forall_cons; split; [done|]). by apply Forall_nil.
Defined.

(* ------------------------------------------------------------------ *)
(** ** Strings in memory *)

Lemma cstring_cons m s c l : cstring m s (c :: l) <-> m s = c /\ c <> 0 /\ cstring m (s + 1) l.
Proof.
  unfold cstring. split.
  - intros [H1 H2]. destruct (H1 0) as [Ha Hb]; [cbn [length]; lia|]. rewrite Z.add_0_r in *. simpl in Ha. split; [done|]. split; [congruence|]. split.
    + intros i Hi. destruct (H1 (i + 1)) as [Hc Hd]; [cbn [length]; lia|]. replace (s + (i + 1)) with (s + 1 + i) in * by lia.
      split; [|done]. rewrite Hc. replace (Z.to_nat (i + 1)) with (S (Z.to_nat i)) by lia. done.
    + cbn [length] in H2. by replace (s + 1 + Z.of_nat (length l)) with (s + Z.of_nat (S (length l))) by lia.
  - intros (Ha & Hb & H1 & H2). split.
    + intros i Hi. cbn [length] in Hi. destruct (decide (i = 0)) as [->|Hne]; [rewrite Z.add_0_r; simpl; split; congruence|].
      destruct (H1 (i - 1)) as [Hc Hd]; [lia|]. replace (s + 1 + (i - 1)) with (s + i) in * by lia. split; [|done]. rewrite Hc.
      replace (Z.to_nat i) with (S (Z.to_nat (i - 1))) by lia. done.
    + cbn [length]. by replace (s + Z.of_nat (S (length l))) with (s + 1 + Z.of_nat (length l)) by lia.
Qed.
Lemma cstring_nil m s : cstring m s [] <-> m s = 0.
Proof. unfold cstring. simpl. rewrite Z.add_0_r. split; [tauto|]. intros H. split; [intros i Hi; lia|done]. Qed.

(** Decimal digits read from the left. *)
Definition digit (c : Z) : Prop := 48 <= c <= 57.
Fixpoint dec (acc : Z) (l : list Z) : Z := match l with [] => acc | c :: l' => dec (acc * 10 + (c - 48)) l' end.
Lemma dec_ge l : Forall digit l -> forall acc, 0 <= acc -> acc <= dec acc l.
Proof.
  induction 1 as [|c l Hc Hl IH]; intros acc Ha; simpl; [lia|]. unfold digit in Hc. specialize (IH (acc * 10 + (c - 48))). lia.
Qed.
(** The digits, then something that is no digit. *)
Lemma atoi_loop_dec m l : Forall digit l -> forall fuel s acc, (forall i, 0 <= i < Z.of_nat (length l) -> m (s + i) = nth (Z.to_nat i) l 0) ->
  ~ digit (m (s + Z.of_nat (length l))) -> 0 <= acc -> dec acc l < 2 ^ 31 -> (length l < fuel)%nat -> atoi_loop fuel m s acc = Some (dec acc l).
Proof.
  induction 1 as [|c l Hc Hl IH]; intros fuel s acc Hm Hend Ha Hd Hf; (destruct fuel as [|fuel]; [lia|]); cbn [atoi_loop length dec] in *.
  - rewrite Z.add_0_r in Hend. destruct (Z.leb_spec 48 (m s)), (Z.leb_spec (m s) 57); simpl; try done. exfalso. apply Hend. done.
  - pose proof (Hm 0 ltac:(lia)) as H0. rewrite Z.add_0_r in H0. simpl in H0. rewrite H0. pose proof Hc as [H1 H2].
    destruct (Z.leb_spec 48 c), (Z.leb_spec c 57); try lia. cbn [andb].
    pose proof (dec_ge l Hl (acc * 10 + (c - 48)) ltac:(lia)) as Hge.
    replace (acc * 10 + c - 48) with (acc * 10 + (c - 48)) by lia. rewrite s32_small by lia. apply IH; try done; try lia.
    + intros i Hi. replace (s + 1 + i) with (s + (i + 1)) by lia. rewrite Hm by lia. by replace (Z.to_nat (i + 1)) with (S (Z.to_nat i)) by lia.
    + by replace (s + 1 + Z.of_nat (length l)) with (s + Z.of_nat (S (length l))) by lia.
Qed.
Lemma dec_app l1 l2 : forall acc, dec acc (l1 ++ l2) = dec (dec acc l1) l2.
Proof. induction l1 as [|c l1 IH]; intros acc; simpl; [done|]. apply IH. Qed.
Lemma udigit_dec d : 0 <= d < 10 -> digit_char udigits d = 48 + d.
Proof.
  intros Hd. assert (d = 0 \/ d = 1 \/ d = 2 \/ d = 3 \/ d = 4 \/ d = 5 \/ d = 6 \/ d = 7 \/ d = 8 \/ d = 9) as H by lia.
  repeat destruct H as [->|H]; try done. by subst d.
Qed.
Lemma digit_loop_dec fuel : forall x, 0 <= x < 10 ^ Z.of_nat fuel -> (0 < fuel)%nat ->
  Forall digit (digit_loop fuel udigits x 10) /\ dec 0 (rev (digit_loop fuel udigits x 10)) = x.
Proof.
  induction fuel as [|f IH]; intros x Hx Hf; [lia|]. cbn [digit_loop].
  assert (0 <= x mod 10 < 10) as Hm by (apply Z.mod_pos_bound; lia). rewrite udigit_dec by done.
  destruct (Z.eqb_spec (x / 10) 0) as [E|E].
  - split; [constructor; [unfold digit; lia|done]|]. simpl. dlia.
  - assert (0 < f)%nat as Hf'. { destruct f; [|lia]. change (10 ^ Z.of_nat 1) with 10 in Hx. exfalso. apply E. apply Z.div_small. lia. }
    destruct (IH (x / 10)) as [H1 H2]; [|done|].
    { split; [dlia|]. apply Z.div_lt_upper_bound; [lia|]. rewrite <- Z.pow_succ_r by lia. replace (Z.succ (Z.of_nat f)) with (Z.of_nat (S f)) by lia. lia. }
    split; [constructor; [unfold digit; lia|done]|]. simpl. rewrite dec_app, H2. simpl. dlia.
Qed.

(** [atoi] reads back what [printf] prints for [%d]: the decimal text of a
    non-negative [int], followed by anything but a digit, gives the number. *)
Theorem atoi_printint m s n fuel : 0 <= n < 2 ^ 31 ->
  let txt := rev (printint_buf udigits n 10 true) in
  (forall i, 0 <= i < Z.of_nat (length txt) -> m (s + i) = nth (Z.to_nat i) txt 0) ->
  ~ digit (m (s + Z.of_nat (length txt))) -> (length txt < fuel)%nat ->
  atoi fuel m s = Some n.
Proof.
  intros Hn txt Hm Hend Hf. unfold atoi.
  assert (txt = rev (digit_loop digit_fuel udigits n 10)) as E.
  { subst txt. unfold printint_buf. destruct (Z.ltb_spec n 0); [lia|]. cbn [andb]. by rewrite app_nil_r, u32_small by lia. }
  assert (n < 10 ^ Z.of_nat digit_fuel) as Hlt by (change (10 ^ Z.of_nat digit_fuel) with (10 ^ 32); lia).
  destruct (digit_loop_dec digit_fuel n ltac:(lia) ltac:(unfold digit_fuel; lia)) as [Hd Hv].
  rewrite (atoi_loop_dec m txt); try done; try lia; rewrite E; [by rewrite Hv|by apply Forall_rev|lia].
Qed.
Lemma atoi_printint_witness : atoi 4 (fun a => nth (Z.to_nat a) (bytes "450") 0) 0 = Some 450.
Proof.
  apply (atoi_printint _ 0 450 4); [lia| | |].
  - intros i Hi. done.
  - vm_compute. intros [H _]. by apply H.
  - vm_compute. lia.
Defined.

(** Comparison of strings: the sign of the first difference. *)
Fixpoint lex (a b : list Z) : Z :=
  match a, b with
  | [], [] => 0
  | [], d :: _ => - d
  | c :: _, [] => c
  | c :: a', d :: b' => if c =? d then lex a' b' else c - d
  end.
Lemma strcmp_lex m a : forall fuel p q b, cstring m p a -> cstring m q b -> (length a < fuel)%nat ->
  strcmp fuel m p q = Some (lex a b).
Proof.
  induction a as [|c a IH]; intros fuel p q b Ha Hb Hf; (destruct fuel as [|fuel]; [lia|]); cbn [strcmp lex].
  - apply cstring_nil in Ha. rewrite Ha. simpl. destruct b as [|d b]; [apply cstring_nil in Hb; by rewrite Hb|].
    apply cstring_cons in Hb as (-> & _). done.
  - apply cstring_cons in Ha as (Hc & Hc0 & Ha). rewrite Hc. apply truth_true in Hc0. rewrite Hc0. cbn [andb]. cbn [length] in Hf.
    destruct b as [|d b]; [apply cstring_nil in Hb; rewrite Hb|apply cstring_cons in Hb as (Hd & _ & Hb); rewrite Hd].
    + apply truth_true in Hc0. destruct (Z.eqb_spec c 0); [done|]. f_equal. lia.
    + destruct (Z.eqb_spec c d); [|done]. apply IH; [done|done|lia].
Qed.
Lemma strcmp_equal m p q a b fuel : cstring m p a -> cstring m q b -> (length a < fuel)%nat ->
  exists r, strcmp fuel m p q = Some r /\ (r = 0 <-> a = b).
Proof.
  intros Ha Hb Hf. exists (lex a b). split; [by apply strcmp_lex|].
  revert p q b Ha Hb. clear Hf. induction a as [|c a IH]; intros p q [|d b] Ha Hb; simpl.
  - done.
  - apply cstring_cons in Hb as (_ & H & _). split; [lia|done].
  - apply cstring_cons in Ha as (_ & H & _). split; [lia|done].
  - apply cstring_cons in Ha as (_ & H & Ha). apply cstring_cons in Hb as (_ & H' & Hb). destruct (Z.eqb_spec c d) as [->|Hne].
    + rewrite (IH _ _ b Ha Hb). split; [by intros ->|by intros [= ->]].
    + split; [lia|intros [= -> _]; done].
Qed.

(** The user library's [memmove] copies upwards only: with the target inside the
    source it repeats the first bytes, where the kernel's copy keeps them. *)
Lemma memmove_forward m dst src n x : mem_ok m -> 0 <= n -> ~ (src < dst < src + n) ->
  memmove m dst src n x = Mem.memmove m dst src n x.
Proof.
  intros Hm Hn Hov. unfold memmove, Mem.memmove. destruct (Z.ltb_spec src dst), (Z.ltb_spec dst (src + n)); cbn [andb]; try done. lia.
Qed.
Example memmove_overlap : let m := fun a => if a =? 0 then 1 else if a =? 1 then 2 else if a =? 2 then 3 else 0 in
  map (memmove m 1 0 2) [0; 1; 2] = [1; 1; 1] /\ map (Mem.memmove m 1 0 2) [0; 1; 2] = [1; 1; 2].
Proof. by vm_compute. Qed.

End Ulib.
