(* ===== verification/ShellMain.v ===== *)
(** * The loops of the shells

    [getcmd] and [main] of [HW2/src/sh.c], and the shell of HW3
    ([HW3/xv6-src/sh.c]), whose [runcmd] has the plumbing of pipes commented out.
    The input that the shell reads is a list of bytes. *)

From stdpp Require Import gmap.
From S2P Require Import Prelude Mmu Mem State Spinlock Printk Ulib Shlex Shell ShellRun.

Module ShMain.
Import Sh ShRun.

(** The buffer [buf] after [memset] and [gets], and the rest of the input. *)
Definition getcmd (nbuf : Z) (input : list Z) : list Z * list Z :=
  let '(m, input') := Ulib.gets (Ulib.memset (fun _ => 0) 0 0 nbuf) 0 nbuf input in
  (m <$> seqZ 0 nbuf, input').

(** Descriptors 0, 1 and 2 are opened if they are not; a loop bound of [NOFILE]
    is enough. *)
Fixpoint open_console (fuel : nat) (k : act) : act :=
  match fuel with
  | O => NoFuel
  | S f => Open (bytes "console") O_RDWR (fun fd => if 3 <=? fd then Close fd k else open_console f k) k
  end.

Section Main.
Context (rc : command -> act).
(** [-1] of [getcmd] is an empty buffer. *)
Fixpoint main_loop (fuel : nat) (input : list Z) : act :=
  match fuel with
  | O => NoFuel
  | S f =>
      let '(buf, input') := getcmd 100 input in
      Print 2 (bytes "$ ") (if nth 0 buf 0 =? 0 then Exit else main_line rc (c_string buf) (main_loop f input'))
  end.
Definition main_with (fuel : nat) (input : list Z) : act := open_console (Z.to_nat NOFILE) (main_loop fuel input).
End Main.
Definition main : nat -> list Z -> act := main_with runcmd.

(** ** [HW3/xv6-src/sh.c] *)
Module Hw3.
Fixpoint runcmd (c : command) : act :=
  match c with
  | EXEC [] => Exit
  | EXEC (path :: args) => Exec path (path :: args) (Print 2 (bytes "exec " ++ path ++ bytes " failed" ++ [NL]) Exit)
  | REDIR c file mode fd =>
      Close fd (Open file mode (fun _ => runcmd c) (Print 2 (bytes "open " ++ file ++ bytes " failed" ++ [NL]) Exit))
  | LIST l r => fork1 (runcmd l) (Wait (runcmd r))
  | PIPE l r =>
      MkPipe (fun p0 p1 => fork1 (runcmd l) (fork1 (runcmd r) (Close p0 (Close p1 (Wait (Wait Exit))))))
      (panic (bytes "pipe"))
  | BACK c => fork1 (runcmd c) Exit
  end.
Definition main : nat -> list Z -> act := main_with runcmd.
End Hw3.

(* ------------------------------------------------------------------ *)
(** ** Reading lines *)

(** A byte that may stand inside a line. *)
Definition inline (c : Z) : Prop := 0 < c < 256 /\ c <> 10 /\ c <> 13.
Lemma gets_loop_line buf rest l : forall n m i, Forall inline l -> (length l < n)%nat ->
  exists m', Ulib.gets_loop n m buf i (l ++ NL :: rest) = (m', i + Z.of_nat (length l) + 1, rest) /\
    (forall j c, (l ++ [NL]) !! j = Some c -> m' (buf + i + Z.of_nat j) = c) /\
    (forall x, x < buf + i \/ buf + i + Z.of_nat (length l) < x -> m' x = m x).
Proof.
  induction l as [|c l IH]; intros n m i Hl Hn; (destruct n as [|n]; [simpl in Hn; lia|]).
  - cbn [app Ulib.gets_loop length]. change ((NL =? 10) || (NL =? 13)) with true. cbv iota.
    exists (st8 m (buf + i) NL). split; [by replace (i + Z.of_nat 0 + 1) with (i + 1) by lia|]. split.
    + intros [|j] c H; [|done]. injection H as <-. unfold st8. rewrite Z.add_0_r, Z.eqb_refl. done.
    + intros x Hx. unfold st8. destruct (Z.eqb_spec x (buf + i)); [lia|done].
  - apply Forall_cons in Hl as [(Hc & H10 & H13) Hl]. cbn [app Ulib.gets_loop length] in *.
    destruct (Z.eqb_spec c 10), (Z.eqb_spec c 13); try lia. cbn [orb].
    destruct (IH n (st8 m (buf + i) c) (i + 1) Hl ltac:(lia)) as (m' & E & Hin & Hout).
    exists m'. split; [rewrite E; by replace (i + 1 + Z.of_nat (length l) + 1) with (i + Z.of_nat (S (length l)) + 1) by lia|]. split.
    + intros [|j] d H; simpl in H.
      * injection H as <-. rewrite Hout by lia. unfold st8. rewrite Z.add_0_r, Z.eqb_refl. apply u8_small. lia.
      * replace (buf + i + Z.of_nat (S j)) with (buf + (i + 1) + Z.of_nat j) by lia. by apply Hin.
    + intros x Hx. rewrite Hout by lia. unfold st8. destruct (Z.eqb_spec x (buf + i)); [lia|done].
Qed.

Lemma inline_nonzero l : Forall inline l -> 0 ∉ l ++ [NL].
Proof.
  intros H Hin. apply elem_of_app in Hin as [Hin|Hin].
  - rewrite Forall_forall in H. destruct (H 0 Hin) as [? _]. lia.
  - by apply list_elem_of_singleton in Hin.
Qed.

Lemma getcmd_line nbuf l rest : Forall inline l -> Z.of_nat (length l) + 2 <= nbuf ->
  exists r, getcmd nbuf (l ++ NL :: rest) = ((l ++ [NL]) ++ 0 :: r, rest).
Proof.
  intros Hl Hn. set (k := Z.of_nat (length l)) in *. unfold getcmd, Ulib.gets.
  destruct (gets_loop_line 0 rest l (Z.to_nat (nbuf - 1)) (Ulib.memset (fun _ => 0) 0 0 nbuf) 0 Hl) as (m & E & Hin & Hout); [lia|].
  rewrite E. fold k. set (m1 := st8 m (0 + (0 + k + 1)) 0).
  replace nbuf with ((k + 1) + (1 + (nbuf - k - 2))) by lia. rewrite seqZ_app, (seqZ_cons (0 + (k + 1))) by lia.
  exists (m1 <$> seqZ (Z.succ (0 + (k + 1))) (Z.pred (1 + (nbuf - k - 2)))). f_equal.
  rewrite fmap_app. f_equal.
  - apply list_eq_same_length with (n := (length l + 1)%nat); [rewrite length_app; simpl; lia|rewrite length_fmap, length_seqZ; lia|].
    intros j x y Hj Hx Hy. rewrite list_lookup_fmap, lookup_seqZ_lt in Hx by lia. simpl in Hx. injection Hx as <-.
    unfold m1, st8. destruct (Z.eqb_spec (0 + Z.of_nat j) (0 + (0 + k + 1))); [lia|]. by apply Hin.
  - rewrite fmap_cons. f_equal. unfold m1, st8. by replace (0 + (k + 1) =? 0 + (0 + k + 1)) with true by lia.
Qed.

(** The command lines, each with a prompt before it; the shell ends at the end of the
    input. *)
Fixpoint session (rc : command -> act) (lines : list (list Z)) : act :=
  Print 2 (bytes "$ ") (match lines with
  | [] => Exit
  | l :: lines' => main_line rc (l ++ [NL]) (session rc lines')
  end).

Lemma main_loop_lines rc lines : forall fuel, Forall (fun l => Forall inline l /\ Z.of_nat (length l) <= 98) lines -> (length lines < fuel)%nat ->
  main_loop rc fuel (concat ((fun l => l ++ [NL]) <$> lines)) = session rc lines.
Proof.
  induction lines as [|l lines IH]; intros fuel Hl Hf; (destruct fuel as [|fuel]; [simpl in Hf; lia|]).
  - reflexivity.
  - apply Forall_cons in Hl as [[Hi Hn] Hl]. rewrite fmap_cons. cbn [concat main_loop session]. rewrite <- app_assoc. cbn [app].
    destruct (getcmd_line 100 l (concat ((fun l => l ++ [NL]) <$> lines)) Hi ltac:(lia)) as (r & E). rewrite E.
    pose proof (inline_nonzero l Hi) as Hz. rewrite c_string_prefix by (done || (right; by eexists)). rewrite IH by (done || (simpl in Hf; lia)).
    assert (nth 0 ((l ++ [NL]) ++ 0 :: r) 0 =? 0 = false) as ->; [|done].
    destruct l as [|c l]; [done|]. apply Z.eqb_neq. intros E0. simpl in E0. apply Hz. rewrite E0. by left.
Qed.

(* ------------------------------------------------------------------ *)
(** ** Scripts *)

(** The line is the command [c], and no [cd]. *)
Definition line_means (l : list Z) (c : command) : Prop :=
  (Forall inline l /\ Z.of_nat (length l) <= 98) /\ redirs_ok c /\
  (nth 0 l 0 =? 99) && (nth 1 l 0 =? 100) && (nth 2 l 0 =? 32) = false /\
  exists c' b s, parsecmd (l ++ [NL]) = Ret (c', b) s /\ c = map_words (fun w => string_at b (fst w)) c'.
(** The programs of a list of commands, one command after the other. *)
Fixpoint meant_all (cs : list command) (T : fdt) (n : nat) : list (list (list Z) * fdt) * nat :=
  match cs with
  | [] => ([], n)
  | c :: cs' => let '(a, n1) := meant c T n in let '(b, n2) := meant_all cs' T n1 in (a ++ b, n2)
  end.
Definition tty : ofile := Named (bytes "console") O_RDWR.

(** [main] opens exactly the three standard descriptors. *)
Lemma open_console_run k n : run (open_console (Z.to_nat NOFILE) k) ∅ n = run k (std tty tty tty) n.
Proof.
  change (Z.to_nat NOFILE) with 16%nat. cbn [open_console run].
  change (lowest ∅) with 0. change (<[0 := Named (bytes "console") O_RDWR]> (∅ : fdt)) with ({[ 0 := tty ]} : fdt).
  change (lowest {[ 0 := tty ]}) with 1. change (lowest (<[1 := Named (bytes "console") O_RDWR]> {[ 0 := tty ]})) with 2.
  change (lowest (<[2 := Named (bytes "console") O_RDWR]> (<[1 := Named (bytes "console") O_RDWR]> {[ 0 := tty ]}))) with 3.
  reflexivity.
Qed.
Lemma main_line_run l c k T n : line_means l c -> forall x y z, T = std x y z ->
  run (main_line runcmd (l ++ [NL]) k) T n = let '(a, n1) := meant c T n in let '(b, n2) := run k T n1 in (a ++ b, n2).
Proof.
  intros (_ & Hc & Hcd & c' & b & s & Hp & ->) x y z ->. unfold main_line.
  assert (forall i, (i < 3)%nat -> nth i (l ++ [NL]) 0 = nth i l 0 \/ nth i (l ++ [NL]) 0 = NL /\ nth i l 0 = 0) as Hnth.
  { intros i _. destruct (decide (i < length l)%nat); [left; by rewrite app_nth1|].
    rewrite app_nth2 by lia. rewrite (nth_overflow l) by lia. destruct (i - length l)%nat as [|[|]]; [by right|by left..]. }
  assert ((nth 0 (l ++ [NL]) 0 =? 99) && (nth 1 (l ++ [NL]) 0 =? 100) && (nth 2 (l ++ [NL]) 0 =? 32) = false) as ->.
  { apply not_true_is_false. intros H. rewrite !andb_true_iff, !Z.eqb_eq in H. destruct H as [[H0 H1] H2].
    destruct (Hnth 0%nat ltac:(lia)) as [E0|[E0 _]], (Hnth 1%nat ltac:(lia)) as [E1|[E1 _]], (Hnth 2%nat ltac:(lia)) as [E2|[E2 _]]; unfold NL in *; try lia. }
  unfold run_line. rewrite Hp. unfold fork1. cbn [run]. rewrite runcmd_meant by done. by destruct (meant _ (std x y z) n).
Qed.

(** C15: the shell runs a script.  Started without open descriptors on an input of
    lines, none of them a [cd], each read by the parser as a command, the shell
    executes exactly the programs that the commands mean, line by line and in order,
    each with the console as its descriptors 0, 1 and 2 unless the command says
    otherwise; it ends at the end of the input. *)
Theorem shell_runs_script lines cs fuel n : Forall2 line_means lines cs -> (length lines < fuel)%nat ->
  run (main fuel (concat ((fun l => l ++ [NL]) <$> lines))) ∅ n = meant_all cs (std tty tty tty) n.
Proof.
  intros H Hf. unfold main, main_with. rewrite open_console_run, main_loop_lines; [|eapply Forall2_Forall_l; [exact H|]; apply Forall_true; intros c l Hm; apply Hm|done].
  clear Hf. revert n. induction H as [|l c lines cs Hl Hls IH]; intros n; [done|]. cbn [session run meant_all].
  rewrite (main_line_run _ _ _ _ _ Hl _ _ _ eq_refl). destruct (meant c (std tty tty tty) n) as [a n1]. by rewrite IH.
Qed.
Lemma shell_runs_script_witness :
  run (main 3 (bytes "ls|wc" ++ [NL] ++ bytes "echo a>f" ++ [NL])) ∅ 0 =
    ([([bytes "ls"], std tty (WriteEnd 0) tty); ([bytes "wc"], std (ReadEnd 0) tty tty);
      ([bytes "echo"; bytes "a"], std tty (Named (bytes "f") 513) tty)], 1%nat).
Proof.
  set (cs := [PIPE (EXEC [bytes "ls"]) (EXEC [bytes "wc"]); REDIR (EXEC [bytes "echo"; bytes "a"]) (bytes "f") 513 1]).
  transitivity (meant_all cs (std tty tty tty) 0); [|vm_compute; reflexivity].
  apply (shell_runs_script [bytes "ls|wc"; bytes "echo a>f"] cs 3 0); [|simpl; lia].
  assert (forall l, forallb (fun c => (0 <? c) && (c <? 256) && negb (c =? 10) && negb (c =? 13)) l = true -> Forall inline l) as Hi.
  { induction l as [|c l IH]; intros H; [constructor|]. cbn [forallb] in H. apply andb_true_iff in H as [H1 H2].
    constructor; [unfold inline; lia|auto]. }
  apply Forall2_cons; split; [|apply Forall2_cons; split; [|apply Forall2_nil; exact I]].
  - split; [split; [apply Hi; reflexivity|simpl; lia]|]. split; [split; exact I|]. split; [reflexivity|]. vm_compute. by eauto.
  - split; [split; [apply Hi; reflexivity|simpl; lia]|]. split; [split; [by right|exact I]|]. split; [reflexivity|]. vm_compute. by eauto.
Defined.

(* ------------------------------------------------------------------ *)
(** ** The shell of HW3 *)
Fixpoint pipe_free (c : command) : Prop :=
  match c with
  | EXEC _ => True
  | REDIR c _ _ _ | BACK c => pipe_free c
  | PIPE _ _ => False
  | LIST l r => pipe_free l /\ pipe_free r
  end.
(** Without pipes it does what the shell of HW2 does; ... *)
Lemma hw3_pipe_free c : pipe_free c -> Hw3.runcmd c = runcmd c.
Proof.
  induction c as [argv|c IH f m fd|l IHl r IHr|l IHl r IHr|c IH]; intros H; cbn [Hw3.runcmd runcmd]; try done.
  - by rewrite IH.
  - destruct H as [Hl Hr]. by rewrite IHl, IHr.
  - by rewrite IH.
Qed.
(** ... but it connects nothing: both programs of a pipe have the shell's own
    descriptors, and both ends of the pipe besides. *)
Lemma hw3_pipe_unconnected p a q b x y z n :
  let T := <[4 := WriteEnd n]> (<[3 := ReadEnd n]> (std x y z)) in
  run (Hw3.runcmd (PIPE (EXEC (p :: a)) (EXEC (q :: b)))) (std x y z) n = ([(p :: a, T); (q :: b, T)], S n).
Proof. reflexivity. Qed.

End ShMain.
