(* ===== verification/Uprog.v ===== *)
(** * Small user programs

    [HW2/src/wc.c], [cat.c], [echo.c], [kill.c] and [main] of [grep.c] on top of [Ulib.v].  A file that is
    read is the list of the blocks that the calls of [read] return and the value of
    the last call, 0 at the end or negative; [fs] says which files can be opened. *)

From S2P Require Import Prelude Mmu Mem State Spinlock Printk Shlex Grep Ulib.

Module Uprog.
Import Ulib.

Definition source : Type := list (list Z) * Z.

(** ** [wc.c] *)
Definition space (c : Z) : bool := (c =? 32) || (c =? 13) || (c =? 9) || (c =? 10) || (c =? 11).
Record counts := mk_counts { n_l : Z; n_w : Z; n_c : Z; inword : bool }.
Definition wc_byte (k : counts) (b : Z) : counts :=
  let c := s32 (n_c k + 1) in
  let l := if b =? 10 then s32 (n_l k + 1) else n_l k in
  if space b then mk_counts l (n_w k) c false
  else if negb (inword k) then mk_counts l (s32 (n_w k + 1)) c true
  else mk_counts l (n_w k) c (inword k).
(** [while((n = read(...)) > 0) for(i=0; i<n; i++) ...] *)
Definition wc_loop (blocks : list (list Z)) (k : counts) : counts := foldl (fun k blk => foldl wc_byte k blk) k blocks.
(** [false]: the program has called [exit]. *)
Definition wc (f : source) (name : list Z) : W bool :=
  let k := wc_loop (fst f) (mk_counts 0 0 0 false) in
  if snd f <? 0 then printf 1 (bytes "wc: read error" ++ [NL]) [] ;; ret false
  else printf 1 (bytes "%d %d %d %s" ++ [NL]) [PInt (n_l k); PInt (n_w k); PInt (n_c k); PStr (Some name)] ;; ret true.
Fixpoint each (cmd : list Z) (run : source -> list Z -> W bool) (fs : list Z -> option source) (args : list (list Z)) : W unit :=
  match args with
  | [] => ret tt
  | a :: args' =>
      match fs a with
      | None => printf 1 (cmd ++ bytes ": cannot open %s" ++ [NL]) [PStr (Some a)]
      | Some f => go <- run f a ;; if (go : bool) then each cmd run fs args' else ret tt
      end
  end.
Definition wc_main (fs : list Z -> option source) (stdin : source) (args : list (list Z)) : W unit :=
  match args with [] => wc stdin [] ;; ret tt | _ => each (bytes "wc") wc fs args end.

(** ** [cat.c]; [wr] is what [write(1, buf, n)] returns for a block *)
Section Cat.
Context (wr : list Z -> Z).
Fixpoint cat_loop (blocks : list (list Z)) (fin : Z) : W bool :=
  match blocks with
  | [] => if fin <? 0 then printf 1 (bytes "cat: read error" ++ [NL]) [] ;; ret false else ret true
  | blk :: blocks' =>
      let n := wr blk in
      modify (fun out => out ++ map (pair 1) (take (Z.to_nat n) blk)) ;;
      if negb (n =? Z.of_nat (length blk)) then printf 1 (bytes "cat: write error" ++ [NL]) [] ;; ret false
      else cat_loop blocks' fin
  end.
Definition cat (f : source) : W bool := cat_loop (fst f) (snd f).
Definition cat_main (fs : list Z -> option source) (stdin : source) (args : list (list Z)) : W unit :=
  match args with [] => cat stdin ;; ret tt | _ => each (bytes "cat") (fun f _ => cat f) fs args end.
End Cat.

(** ** [echo.c] *)
Fixpoint echo_main (args : list (list Z)) : W unit :=
  match args with
  | [] => ret tt
  | a :: args' =>
      printf 1 (bytes "%s%s") [PStr (Some a); PStr (Some (match args' with [] => [NL] | _ => bytes " " end))] ;;
      echo_main args'
  end.

(** ** [kill.c]: the ids passed to [kill] *)
Definition kill_main (fuel : nat) (m : mem) (argv : list Z) : W (option (list Z)) :=
  match argv with
  | [] => printf 2 (bytes "usage: kill pid..." ++ [NL]) [] ;; ret (Some [])
  | _ => ret (mapM (atoi fuel m) argv)
  end.

(** ** [main] of [grep.c]; a file offers its bytes in pieces *)
Definition grep (pattern : list Z) (input : list (list Z)) : W unit :=
  match Grep.grep pattern input with
  | Some out => modify (fun o => o ++ map (pair 1) out)
  | None => nofuel
  end.
Fixpoint grep_files (pattern : list Z) (fs : list Z -> option (list (list Z))) (args : list (list Z)) : W unit :=
  match args with
  | [] => ret tt
  | a :: args' =>
      match fs a with
      | None => printf 1 (bytes "grep: cannot open %s" ++ [NL]) [PStr (Some a)]
      | Some f => grep pattern f ;; grep_files pattern fs args'
      end
  end.
Definition grep_main (fs : list Z -> option (list (list Z))) (stdin : list (list Z)) (args : list (list Z)) : W unit :=
  match args with
  | [] => printf 2 (bytes "usage: grep pattern [file ...]" ++ [NL]) []
  | [pattern] => grep pattern stdin
  | pattern :: files => grep_files pattern fs files
  end.

(* ------------------------------------------------------------------ *)
(** ** What the numbers of [wc] mean *)

Definition lines (l : list Z) : Z := Z.of_nat (length (filter (fun c => c = 10) l)).
(** A word starts where a byte that is no space follows a space or nothing. *)
Definition starts (l : list Z) (i : nat) : Prop :=
  match l !! i with Some c => space c = false | None => False end /\
  match i with 0%nat => True | S j => match l !! j with Some c => space c = true | None => False end end.
#[export] Instance starts_dec l i : Decision (starts l i).
Proof. unfold starts. destruct (l !! i), i; try (destruct (l !! i)); apply _. Defined.
Definition words (l : list Z) : Z := Z.of_nat (length (filter (starts l) (seq 0 (length l)))).
(** Inside a word after the bytes [l]. *)
Definition in_word (l : list Z) : bool := match last l with Some c => negb (space c) | None => false end.

Lemma lines_snoc l c : lines (l ++ [c]) = lines l + (if c =? 10 then 1 else 0).
Proof.
  unfold lines. rewrite filter_app, length_app. destruct (Z.eqb_spec c 10) as [->|Hne].
  - rewrite filter_cons_True by done. simpl. lia.
  - rewrite filter_cons_False by done. simpl. lia.
Qed.
Lemma starts_app l c i : (i < length l)%nat -> starts (l ++ [c]) i <-> starts l i.
Proof.
  intros Hi. unfold starts. rewrite lookup_app_l by done. destruct i as [|j]; [done|]. by rewrite lookup_app_l by lia.
Qed.
Lemma filter_same {A} (P Q : A -> Prop) `{forall x, Decision (P x), forall x, Decision (Q x)} (L : list A) :
  (forall x, x ∈ L -> P x <-> Q x) -> filter P L = filter Q L.
Proof.
  induction L as [|x L IH]; intros Hx; [done|]. rewrite !filter_cons. rewrite IH by (intros y Hy; apply Hx; by right).
  pose proof (Hx x ltac:(left)). repeat case_decide; tauto || done.
Qed.
Lemma starts_last l c : starts (l ++ [c]) (length l) <-> space c = false /\ in_word l = false.
Proof.
  unfold starts, in_word. rewrite lookup_app_r, Nat.sub_diag by lia. cbn [lookup list_lookup].
  destruct l as [|d l] using rev_ind; [simpl; tauto|]. clear IHl. rewrite last_snoc, length_app. cbn [length]. rewrite Nat.add_1_r.
  rewrite lookup_app_l by (rewrite length_app; simpl; lia). rewrite lookup_app_r, Nat.sub_diag by lia. cbn [lookup list_lookup].
  rewrite negb_false_iff. tauto.
Qed.
Lemma words_snoc l c : words (l ++ [c]) = words l + (if space c then 0 else if in_word l then 0 else 1).
Proof.
  unfold words. rewrite length_app. cbn [length]. rewrite Nat.add_1_r, seq_S, filter_app, length_app. cbn [Nat.add].
  rewrite (filter_same (starts (l ++ [c])) (starts l)).
  - rewrite filter_cons, filter_nil. pose proof (starts_last l c) as Hs. case_decide as Hd; simpl.
    + apply Hs in Hd as [-> ->]. lia.
    + destruct (space c); [lia|]. destruct (in_word l); [lia|]. exfalso. apply Hd. by apply Hs.
  - intros i Hi. apply elem_of_seq in Hi. apply starts_app. lia.
Qed.
Lemma in_word_snoc l c : in_word (l ++ [c]) = negb (space c).
Proof. unfold in_word. by rewrite last_snoc. Qed.
Lemma words_bound l : 0 <= words l <= Z.of_nat (length l).
Proof.
  unfold words. assert (length (filter (starts l) (seq 0 (length l))) <= length l)%nat; [|lia].
  etrans; [apply length_filter|]. by rewrite length_seq.
Qed.
Lemma lines_bound l : 0 <= lines l <= Z.of_nat (length l).
Proof. unfold lines. pose proof (length_filter (fun c => c = 10) l). lia. Qed.

(** The counters after a prefix. *)
Definition counted (l : list Z) : counts := mk_counts (lines l) (words l) (Z.of_nat (length l)) (in_word l).
Lemma wc_byte_counted l b : Z.of_nat (length l) < 2 ^ 31 - 1 -> wc_byte (counted l) b = counted (l ++ [b]).
Proof.
  intros Hl. pose proof (words_bound l). pose proof (lines_bound l). unfold wc_byte, counted. cbn [n_l n_w n_c inword].
  rewrite lines_snoc, words_snoc, in_word_snoc, length_app. cbn [length].
  rewrite (s32_small (Z.of_nat (length l) + 1)), (s32_small (lines l + 1)), (s32_small (words l + 1)) by lia.
  assert ((if b =? 10 then lines l + 1 else lines l) = lines l + (if b =? 10 then 1 else 0)) as -> by (destruct (b =? 10); lia).
  destruct (space b); [f_equal; lia|]. destruct (in_word l); simpl; f_equal; lia.
Qed.
Lemma wc_loop_counted blocks : forall l, Z.of_nat (length (l ++ concat blocks)) < 2 ^ 31 ->
  wc_loop blocks (counted l) = counted (l ++ concat blocks).
Proof.
  induction blocks as [|blk blocks IH]; intros l Hl; cbn [wc_loop foldl concat] in *; [by rewrite app_nil_r|].
  assert (forall k, Z.of_nat (length (k ++ blk)) < 2 ^ 31 -> foldl wc_byte (counted k) blk = counted (k ++ blk)) as Hb.
  { clear. induction blk as [|b blk IH]; intros k Hk; simpl; [by rewrite app_nil_r|].
    rewrite wc_byte_counted by (rewrite length_app in Hk; cbn [length] in Hk; lia). rewrite IH; rewrite <- app_assoc; done. }
  rewrite app_assoc in *. rewrite Hb by (rewrite length_app in Hl; lia). by apply IH.
Qed.

(** A format of decimals and strings. *)
Lemma renders_text txt fmt args t : Forall (fun c => c <> 37) txt -> renders fmt args t -> renders (txt ++ fmt) args (txt ++ t).
Proof. intros Ht Hr. induction Ht; simpl; [done|]. by constructor. Qed.
Definition decimal (n : Z) : list Z := rev (printint_buf udigits (s32 n) 10 true).

(** [wc] prints the number of newlines, of words and of bytes of the file, in
    whatever blocks the file is read: a word is counted where a byte that is no space
    follows a space or starts the file. *)
Theorem wc_counts blocks name out : Z.of_nat (length (concat blocks)) < 2 ^ 31 -> Forall byte name ->
  let d := concat blocks in
  wc (blocks, 0) name out =
    Ret true (out ++ map (pair 1) (decimal (lines d) ++ bytes " " ++ decimal (words d) ++ bytes " " ++ decimal (Z.of_nat (length d)) ++ bytes " " ++ name ++ [NL])).
Proof.
  intros Hlen Hname d. unfold wc. cbn [fst snd]. change (mk_counts 0 0 0 false) with (counted []).
  rewrite wc_loop_counted by done. change ([] ++ concat blocks) with d. cbn [Z.ltb Z.compare]. cbv iota. unfold bind. rewrite (printf_run 1 _ _
    (decimal (lines d) ++ bytes " " ++ decimal (words d) ++ bytes " " ++ decimal (Z.of_nat (length d)) ++ bytes " " ++ name ++ [NL])); [done| | |].
  - change (bytes "%d %d %d %s" ++ [NL]) with (37 :: 100 :: 32 :: 37 :: 100 :: 32 :: 37 :: 100 :: 32 :: 37 :: 115 :: [NL]).
    unfold decimal. eapply R_dir; [reflexivity|]. cbn [bytes app]. constructor; [done|]. eapply R_dir; [reflexivity|]. constructor; [done|].
    eapply R_dir; [reflexivity|]. constructor; [done|]. eapply R_dir; [reflexivity|]. constructor; [done|]. constructor.
  - apply Forall_app. split; [apply bytes_byte|]. constructor; [done|constructor].
  - repeat (apply Forall_cons; split; [done|]). by apply Forall_nil.
Qed.
Lemma wc_counts_witness : wc ([bytes "to b"; bytes "e or" ++ [NL] ++ bytes "not"], 0) (bytes "f") [] =
  Ret true ([] ++ map (pair 1) (decimal 1 ++ bytes " " ++ decimal 4 ++ bytes " " ++ decimal 12 ++ bytes " " ++ bytes "f" ++ [NL])).
Proof. apply (wc_counts [bytes "to b"; bytes "e or" ++ [NL] ++ bytes "not"] (bytes "f") []); [vm_compute; done|apply bytes_byte]. Defined.

(** [echo] prints its arguments with single spaces and a newline. *)
Fixpoint joined (args : list (list Z)) : list Z :=
  match args with [] => [] | [a] => a ++ [NL] | a :: args' => a ++ bytes " " ++ joined args' end.
Lemma echo_prints args : Forall (Forall byte) args -> forall out, echo_main args out = Ret tt (out ++ map (pair 1) (joined args)).
Proof.
  induction 1 as [|a args Ha Hargs IH]; intros out; cbn [echo_main joined]; [by rewrite app_nil_r|]. unfold bind.
  rewrite (printf_run 1 _ _ (a ++ match args with [] => [NL] | _ => bytes " " end ++ [])).
  - cbn [obind]. rewrite IH. f_equal. rewrite <- app_assoc. f_equal. rewrite <- map_app. f_equal.
    rewrite <- app_assoc. f_equal. destruct args; [done|]. by rewrite <- app_assoc.
  - eapply R_dir; [reflexivity|]. eapply R_dir; [reflexivity|]. constructor.
  - apply bytes_byte.
  - apply Forall_cons. split; [done|]. apply Forall_cons. split; [|done]. destruct args; [constructor; [done|constructor]|apply bytes_byte].
Qed.
(** [cat] copies the blocks when every write is complete. *)
Lemma cat_copies wr blocks : (forall b, wr b = Z.of_nat (length b)) -> forall out,
  cat wr (blocks, 0) out = Ret true (out ++ map (pair 1) (concat blocks)).
Proof.
  intros Hwr. unfold cat. cbn [fst snd]. induction blocks as [|b blocks IH]; intros out; cbn [cat_loop concat]; [by rewrite app_nil_r|].
  unfold bind, modify. cbn [obind]. rewrite Hwr, Nat2Z.id, Z.eqb_refl, take_ge by lia. cbn [negb]. rewrite IH, map_app. by rewrite app_assoc.
Qed.

(** [grep] prints the matching lines of each of its files in turn. *)
Definition plain (fs : list Z -> option (list (list Z))) (a file : list Z) : Prop :=
  fs a = Some [file] /\ 0 ∉ file /\ Grep.short (Grep.complete file).
Lemma grep_files_print pattern fs args files : Forall2 (plain fs) args files -> forall out,
  grep_files pattern fs args out = Ret tt (out ++ map (pair 1) (concat ((fun f => Grep.hits pattern (Grep.complete f)) <$> files))).
Proof.
  induction 1 as [|a f args files (Ha & H0 & Hs) Hr IH]; intros out; cbn [grep_files fmap list_fmap concat]; [by rewrite app_nil_r|].
  rewrite Ha. assert (Grep.grep pattern [f] = Some (Grep.hits pattern (Grep.complete f))) as E.
  { unfold Grep.grep. rewrite (Grep.grep_loop_spec pattern _ [] f); try done; [cbn [concat]; rewrite app_nil_r; lia|apply Nat.ltb_lt; reflexivity|set_solver]. }
  unfold bind, grep. rewrite E. unfold modify. cbn [obind]. rewrite IH. by rewrite map_app, <- app_assoc.
Qed.
Lemma grep_main_usage fs stdin out : exists msg, grep_main fs stdin [] out = Ret tt (out ++ map (pair 2) msg).
Proof.
  exists (bytes "usage: grep pattern [file ...]" ++ [NL]). cbn [grep_main]. apply printf_run.
  - rewrite <- (app_nil_r (bytes _ ++ _)). apply renders_text; [|constructor].
    apply (bool_decide_unpack _). vm_compute. exact I.
  - apply Forall_app. split; [apply bytes_byte|]. constructor; [done|constructor].
  - constructor.
Qed.
End Uprog.
