(* ===== verification/Ls.v ===== *)
(** * Programs that work on directories

    [HW2/src/ls.c], [mkdir.c], [rm.c] and [ln.c].  The system calls are parameters:
    what [open] with [fstat] and [read] finds, what [stat] says of a path, whether a
    change of a directory succeeds after the ones made before. *)

From S2P Require Import Prelude Mmu Bytes Mem State Spinlock Printk Fs Ulib Uprog Shlex.

Module Ls.
Import Ulib Uprog.

(** ** [ls.c] *)
(** The characters after the last slash, found from the end. *)
Fixpoint back_to_slash (rpath acc : list Z) : list Z :=
  match rpath with [] => acc | c :: rpath' => if c =? 47 then acc else back_to_slash rpath' (c :: acc) end.
Definition fmtname (path : list Z) : list Z :=
  let p := back_to_slash (rev path) [] in
  if DIRSIZ <=? Z.of_nat (length p) then p else p ++ replicate (Z.to_nat (DIRSIZ - Z.of_nat (length p))) 32.

Definition print_stat (path : list Z) (st : Fs.stat) : W unit :=
  printf 1 (bytes "%s %d %d %d" ++ [NL]) [PStr (Some (fmtname path)); PInt (st_type st); PInt (st_ino st); PInt (st_size st)].

Section Calls.
(** [open] and [fstat] of a path, with the bytes that can be read; [stat]. *)
Context (opens : list Z -> option (option Fs.stat * list Z)) (stats : list Z -> option Fs.stat).

(** [while(read(fd, &de, sizeof(de)) == sizeof(de))] *)
Fixpoint ls_entries (fuel : nat) (path data : list Z) : W unit :=
  if Z.of_nat (length data) <? sizeof_dirent then ret tt else
  match fuel with
  | O => nofuel
  | S f =>
      let de := parse_dirent (take (Z.to_nat sizeof_dirent) data) in
      let rest := drop (Z.to_nat sizeof_dirent) data in
      if de_inum de =? 0 then ls_entries f path rest else
      let buf := path ++ [47] ++ c_string (de_name de) in
      match stats buf with
      | None => printf 1 (bytes "ls: cannot stat %s" ++ [NL]) [PStr (Some buf)] ;; ls_entries f path rest
      | Some st => print_stat buf st ;; ls_entries f path rest
      end
  end.
Definition ls (path : list Z) : W unit :=
  match opens path with
  | None => printf 2 (bytes "ls: cannot open %s" ++ [NL]) [PStr (Some path)]
  | Some (None, _) => printf 2 (bytes "ls: cannot stat %s" ++ [NL]) [PStr (Some path)]
  | Some (Some st, data) =>
      if st_type st =? T_FILE then print_stat path st
      else if st_type st =? T_DIR then
        if 512 <? Z.of_nat (length path) + 1 + DIRSIZ + 1 then printf 1 (bytes "ls: path too long" ++ [NL]) []
        else ls_entries (length data) path data
      else ret tt
  end.
Definition ls_main (args : list (list Z)) : W unit :=
  match args with [] => ls (bytes ".") | _ => iter_list args ls end.
End Calls.

(** ** [mkdir.c], [rm.c], [ln.c]; the result is the list of the calls made *)
Fixpoint until_failure (fmt : list Z) (call : list (list Z) -> list Z -> Z) (made args : list (list Z)) : W (list (list Z)) :=
  match args with
  | [] => ret made
  | a :: args' =>
      if call made a <? 0 then printf 2 fmt [PStr (Some a)] ;; ret (made ++ [a]) else until_failure fmt call (made ++ [a]) args'
  end.
Definition mkdir_main (mkdir : list (list Z) -> list Z -> Z) (args : list (list Z)) : W (list (list Z)) :=
  match args with
  | [] => printf 2 (bytes "Usage: mkdir files..." ++ [NL]) [] ;; ret []
  | _ => until_failure (bytes "mkdir: %s failed to create" ++ [NL]) mkdir [] args
  end.
Definition rm_main (unlink : list (list Z) -> list Z -> Z) (args : list (list Z)) : W (list (list Z)) :=
  match args with
  | [] => printf 2 (bytes "Usage: rm files..." ++ [NL]) [] ;; ret []
  | _ => until_failure (bytes "rm: %s failed to delete" ++ [NL]) unlink [] args
  end.
Definition ln_main (link : list Z -> list Z -> Z) (args : list (list Z)) : W unit :=
  match args with
  | [old; new] => if link old new <? 0 then printf 2 (bytes "link %s %s: failed" ++ [NL]) [PStr (Some old); PStr (Some new)] else ret tt
  | _ => printf 2 (bytes "Usage: ln old new" ++ [NL]) []
  end.

(* ------------------------------------------------------------------ *)
(** ** What [ls] prints *)

Lemma back_to_slash_spec name dir : 47 ∉ name -> forall acc, back_to_slash (rev name ++ 47 :: dir) acc = name ++ acc.
Proof.
  intros H. induction name as [|c name IH] using rev_ind; intros acc; [done|].
  rewrite rev_app_distr. cbn [rev app back_to_slash]. assert (c <> 47) as Hc by set_solver. destruct (Z.eqb_spec c 47); [done|].
  rewrite IH by set_solver. by rewrite <- app_assoc.
Qed.
Lemma fmtname_padded path name : 47 ∉ name -> (length name <= 14)%nat ->
  fmtname (path ++ [47] ++ name) = name ++ replicate (14 - length name) 32.
Proof.
  intros Hn Hl. unfold fmtname. rewrite !rev_app_distr. cbn [rev app]. rewrite <- app_assoc. cbn [app]. rewrite back_to_slash_spec, app_nil_r by done.
  unfold DIRSIZ. destruct (Z.leb_spec 14 (Z.of_nat (length name))).
  - replace (14 - length name)%nat with 0%nat by lia. cbn [replicate]. by rewrite app_nil_r.
  - do 2 f_equal. lia.
Qed.

(** The line for one file. *)
Definition stat_line (name : list Z) (st : Fs.stat) : list Z :=
  name ++ bytes " " ++ decimal (st_type st) ++ bytes " " ++ decimal (st_ino st) ++ bytes " " ++ decimal (st_size st) ++ [NL].
Lemma print_stat_run path st out : Forall byte (fmtname path) ->
  print_stat path st out = Ret tt (out ++ map (pair 1) (stat_line (fmtname path) st)).
Proof.
  intros Hb. unfold print_stat. apply printf_run.
  - change (bytes "%s %d %d %d" ++ [NL]) with (37 :: 115 :: 32 :: 37 :: 100 :: 32 :: 37 :: 100 :: 32 :: 37 :: 100 :: [NL]).
    unfold stat_line, decimal. eapply R_dir; [reflexivity|]. cbn [bytes app]. do 3 (constructor; [done|]; eapply R_dir; [reflexivity|]).
    constructor; [done|]. constructor.
  - apply Forall_app. split; [apply bytes_byte|]. by apply Forall_cons.
  - repeat (apply Forall_cons; split; [done|]). by apply Forall_nil.
Qed.

(** A directory entry as [dirlink] and [mkfs] write it. *)
Definition name_ok (name : list Z) : Prop := Forall byte name /\ 0 ∉ name /\ 47 ∉ name /\ (length name <= 14)%nat.
Definition record (e : Z * list Z) : list Z := dirent_bytes (mk_dirent (fst e) (strncpy_list (Z.to_nat DIRSIZ) (snd e))).
Definition entry_ok (stats : list Z -> option Fs.stat) (path : list Z) (e : Z * list Z) : Prop :=
  0 <= fst e < 2 ^ 16 /\ name_ok (snd e) /\ (fst e <> 0 -> is_Some (stats (path ++ [47] ++ snd e))).
(** Its line, if it is in use. *)
Definition entry_line (stats : list Z -> option Fs.stat) (path : list Z) (e : Z * list Z) : list Z :=
  if fst e =? 0 then [] else
  match stats (path ++ [47] ++ snd e) with
  | Some st => stat_line (snd e ++ replicate (14 - length (snd e)) 32) st
  | None => []
  end.

Lemma record_length e : (length (snd e) <= 14)%nat -> length (record e) = Z.to_nat sizeof_dirent.
Proof.
  intros H. unfold record, dirent_bytes, strncpy_list. cbn [de_inum de_name]. change (Z.to_nat DIRSIZ) with 14%nat.
  rewrite !length_app, length_le_bytes, length_take, length_replicate. change (Z.to_nat sizeof_dirent) with 16%nat. lia.
Qed.
Lemma record_parse e : 0 <= fst e < 2 ^ 16 -> 0 ∉ snd e -> (length (snd e) <= 14)%nat ->
  de_inum (parse_dirent (record e)) = fst e /\ c_string (de_name (parse_dirent (record e))) = snd e.
Proof.
  intros Hi Hz Hl. destruct (dirent_roundtrip (fst e) (snd e) (snd e) Hi Hz Hz) as (_ & E & _). assert (u16 (fst e) = fst e) as Eu by (by apply Z.mod_small). rewrite Eu in E.
  unfold record. rewrite E. cbn [de_inum de_name]. split; [done|]. unfold strncpy_list. change (Z.to_nat DIRSIZ) with 14%nat.
  rewrite take_ge by done. apply c_string_prefix; [done|]. destruct (14 - length (snd e))%nat; [by left|right; by eexists].
Qed.

Lemma ls_entries_run stats path es : Forall (entry_ok stats path) es -> forall fuel out,
  (length (concat (record <$> es)) <= fuel)%nat ->
  ls_entries stats fuel path (concat (record <$> es)) out = Ret tt (out ++ map (pair 1) (concat (entry_line stats path <$> es))).
Proof.
  induction 1 as [|e es (Hi & (Hb & Hz & Hs & Hl) & Hst) Hes IH]; intros fuel out Hf.
  - destruct fuel; simpl; by rewrite app_nil_r.
  - rewrite !fmap_cons in *. cbn [concat] in *. pose proof (record_length e Hl) as Hr. rewrite length_app, Hr in Hf. change (Z.to_nat sizeof_dirent) with 16%nat in Hf.
    destruct fuel as [|fuel]; [lia|]. cbn [ls_entries]. rewrite length_app, Hr.
    destruct (Z.ltb_spec (Z.of_nat (Z.to_nat sizeof_dirent + length (concat (record <$> es)))) sizeof_dirent) as [Hlt|_]; [unfold sizeof_dirent in Hlt; lia|].
    rewrite take_app_length', drop_app_length' by done. destruct (record_parse e Hi Hz Hl) as [-> ->]. unfold entry_line at 1.
    destruct (Z.eqb_spec (fst e) 0) as [E0|E0]; [apply IH; lia|].
    destruct (Hst E0) as [st Est]. rewrite Est. unfold bind.
    pose proof (fmtname_padded path (snd e) Hs Hl) as En.
    rewrite print_stat_run; rewrite En; [|apply Forall_app; split; [done|by apply Forall_replicate]].
    cbn [obind]. rewrite IH by lia. by rewrite map_app, app_assoc.
Qed.

(** [ls] of a directory prints, in the order of the directory, one line for every
    entry in use: its name padded to the width of a name, its type, its inode number
    and its size; entries with inode number 0 are skipped. *)
Theorem ls_directory opens stats path st es out : opens path = Some (Some st, concat (record <$> es)) -> st_type st = T_DIR ->
  Z.of_nat (length path) + DIRSIZ + 2 <= 512 -> Forall (entry_ok stats path) es ->
  ls opens stats path out = Ret tt (out ++ map (pair 1) (concat (entry_line stats path <$> es))).
Proof.
  intros Ho Ht Hp He. unfold ls. rewrite Ho, Ht. change (T_DIR =? T_FILE) with false. change (T_DIR =? T_DIR) with true. cbv iota.
  destruct (Z.ltb_spec 512 (Z.of_nat (length path) + 1 + DIRSIZ + 1)); [lia|]. by apply ls_entries_run.
Qed.
Lemma ls_directory_witness :
  let stats := fun p => if decide (p = bytes "./cat") then Some (mk_stat T_FILE 1 2 1 612) else None in
  ls (fun _ => Some (Some (mk_stat T_DIR 1 1 1 512), concat (record <$> [(2, bytes "cat"); (0, bytes "old")]))) stats (bytes ".") [] =
    Ret tt ([] ++ map (pair 1) (bytes "cat            2 2 612" ++ [NL])).
Proof.
  cbv zeta. set (stats := fun p => if decide (p = bytes "./cat") then Some (mk_stat T_FILE 1 2 1 612) else None).
  rewrite (ls_directory _ stats (bytes ".") (mk_stat T_DIR 1 1 1 512) [(2, bytes "cat"); (0, bytes "old")] []);
    [vm_compute; reflexivity|reflexivity|reflexivity|vm_compute; discriminate|].
  assert (forall (c : Z) (l : list Z), bool_decide (c ∈ l) = false -> c ∉ l) as Hn by (intros c l H; exact (bool_decide_eq_false_1 _ H)).
  apply Forall_cons; split; [|apply Forall_cons; split; [|apply Forall_nil; exact I]].
  - split; [simpl; lia|]. split; [|intros _; vm_compute; eauto]. split; [apply bytes_byte|]. split; [apply Hn; reflexivity|]. split; [apply Hn; reflexivity|simpl; lia].
  - split; [simpl; lia|]. split; [|intros H; by destruct H]. split; [apply bytes_byte|]. split; [apply Hn; reflexivity|]. split; [apply Hn; reflexivity|simpl; lia].
Defined.

(** [mkdir] and [rm] stop at the first call that fails. *)
Lemma until_failure_all fmt call : forall args made out, (forall m a, 0 <= call m a) -> until_failure fmt call made args out = Ret (made ++ args) out.
Proof.
  induction args as [|a args IH]; intros made out H; cbn [until_failure]; [by rewrite app_nil_r|].
  destruct (Z.ltb_spec (call made a) 0) as [Hlt|_]; [specialize (H made a); lia|]. rewrite IH by done. by rewrite <- app_assoc.
Qed.

End Ls.
