(* ===== verification/Init.v ===== *)
(** * The first program

    [HW2/src/init.c]: a program that never ends.  It is the tree of its system calls:
    each node is a call, its branches are the answers of the kernel. *)

From ITree Require Import ITree ITreeFacts.
From Paco Require Import paco.
From S2P Require Import Prelude Mmu Shlex.

Module Init.

Variant sysE : Type -> Type :=
| Open (path : list Z) (mode : Z) : sysE Z
| Mknod (path : list Z) (major minor : Z) : sysE Z
| Dup (fd : Z) : sysE Z
| Fork : sysE Z
| Exec (path : list Z) (argv : list (list Z)) : sysE Z
| Wait : sysE Z
| Printf (fd : Z) (msg : list Z) : sysE unit
| Exit : sysE void.

Local Notation call := ITree.trigger.
Local Notation leaf r := (go (RetF r)).
Local Notation "x <== t ;;; k" := (ITree.bind t (fun x => k)) (at level 62, t at next level, right associativity).
Local Notation "t ;;; k" := (ITree.bind t (fun _ => k)) (at level 62, right associativity).
Definition say (msg : list Z) : itree sysE unit := call (Printf 1 (msg ++ [NL])).
(** [exit] does not return. *)
Definition exit {R} : itree sysE R := v <== call Exit ;;; match (v : void) with end.
Definition argv : list (list Z) := [bytes "sh"].

(** [while((wpid=wait()) >= 0 && wpid != pid) printf(1, "zombie!\n");] *)
Definition wait_loop (pid : Z) : itree sysE unit :=
  ITree.iter (fun _ : unit =>
    wpid <== call Wait ;;;
    if (0 <=? wpid) && negb (wpid =? pid) then say (bytes "zombie!") ;;; leaf (inl tt) else leaf (inr tt)) tt.
(** The body of [for(;;)]. *)
Definition round : itree sysE unit :=
  say (bytes "init: starting sh") ;;;
  pid <== call Fork ;;;
  if (pid <? 0) then say (bytes "init: fork failed") ;;; exit
  else if (pid =? 0) then call (Exec (bytes "sh") argv) ;;; say (bytes "init: exec sh failed") ;;; exit
  else wait_loop pid.
Definition main : itree sysE void :=
  fd <== call (Open (bytes "console") O_RDWR) ;;;
  (if (fd <? 0) then call (Mknod (bytes "console") 1 1) ;;; call (Open (bytes "console") O_RDWR) ;;; leaf tt else leaf tt) ;;;
  call (Dup 0) ;;;
  call (Dup 0) ;;;
  ITree.iter (fun _ : unit => round ;;; leaf (inl tt)) tt.

(* ------------------------------------------------------------------ *)
(** ** One shell at a time *)

(** What [init] is about to do: open the console, create it, open what it created,
    duplicate the descriptor [k] times; then no shell runs, the shell is process
    [pid], it is the child that is to become the shell, the child whose [exec] failed,
    or the parent whose [fork] failed.  The number bounds the steps until the next call
    of [fork], [wait] or [exit]. *)
Inductive phase :=
| Start | NoConsole | Created | Opened (k : nat)
| Free (n : nat) | Busy (pid : Z) (n : nat) | Child | Failed (n : nat) | Lost (n : nat).
Definition tick (ph : phase) : option phase :=
  match ph with
  | Free (S n) => Some (Free n) | Busy pid (S n) => Some (Busy pid n) | Failed (S n) => Some (Failed n) | Lost (S n) => Some (Lost n)
  | _ => None
  end.
(** What it may print then. *)
Definition message (ph : phase) : list Z :=
  match ph with
  | Free _ => bytes "init: starting sh" | Busy _ _ => bytes "zombie!"
  | Failed _ => bytes "init: exec sh failed" | Lost _ => bytes "init: fork failed" | _ => []
  end.
Definition bound : nat := 8.
Definition only {B} (P : Prop) `{Decision P} (x : B) : option B := if decide P then Some x else None.
(** The calls that are allowed, and what follows from the answer.  In the phases of
    the set-up and in the child there is one call to make and nothing else is
    allowed. *)
Definition next {A} (ph : phase) (e : sysE A) : option (A -> phase) :=
  match e, ph with
  | Open path mode, Start => only (path = bytes "console" /\ mode = O_RDWR) (fun fd => if (fd <? 0) then NoConsole else Opened 2)
  | Mknod path major minor, NoConsole => only (path = bytes "console" /\ major = 1 /\ minor = 1) (fun _ => Created)
  | Open path mode, Created => only (path = bytes "console" /\ mode = O_RDWR) (fun _ => Opened 2)
  | Dup fd, Opened 2 => only (fd = 0) (fun _ => Opened 1)
  | Dup fd, Opened 1 => only (fd = 0) (fun _ => Free bound)
  | Printf fd msg, _ => ph' ← tick ph; only (fd = 1 /\ msg = message ph ++ [NL]) (fun _ => ph')
  | Fork, Free _ => Some (fun a => if (a <? 0) then Lost bound else if (a =? 0) then Child else Busy a bound)
  | Wait, Busy pid _ => Some (fun a => if (a <? 0) || (a =? pid) then Free bound else Busy pid bound)
  | Exec path av, Child => only (path = bytes "sh" /\ av = argv) (fun _ => Failed bound)
  | Exit, Failed _ | Exit, Lost _ => Some (fun _ => ph)
  | _, _ => None
  end.
Inductive followsF (r : phase -> itree sysE void -> Prop) (ph : phase) : itree' sysE void -> Prop :=
| f_tau ph' t : tick ph = Some ph' -> r ph' t -> followsF r ph (TauF t)
| f_vis A (e : sysE A) f k : next ph e = Some f -> (forall a, r (f a) (k a)) -> followsF r ph (VisF e k).
Definition follows_step (r : phase -> itree sysE void -> Prop) (ph : phase) (t : itree sysE void) : Prop := followsF r ph (observe t).
Lemma follows_mon : monotone2 follows_step.
Proof. intros ph t r r' H HR. unfold follows_step in *. destruct H; econstructor; eauto. Qed.
#[local] Hint Resolve follows_mon : paco.
Definition follows (ph : phase) (t : itree sysE void) : Prop := paco2 follows_step bot2 ph t.

#[local] Arguments bytes : simpl never.
Definition loop : itree sysE void := ITree.iter (fun _ : unit => round ;;; leaf (inl tt)) tt.
(** The loop inside [wait_loop]. *)
Definition waiting (pid : Z) : itree sysE void :=
  ITree.bind (wait_loop pid ;;; leaf (inl tt)) (fun lr : unit + void => match lr with inl l => go (TauF (ITree.iter (fun _ : unit => round ;;; leaf (inl tt)) l)) | inr v => leaf v end).
Inductive place : phase -> itree sysE void -> Prop :=
| at_top n t : (1 <= n)%nat -> observe t = observe loop -> place (Free n) t
| at_wait pid n t : observe t = observe (waiting pid) -> place (Busy pid n) t.
(** The answer [a] of a call, inside two or three sequences. *)
Lemma answer2 {A B C D} (K : C -> itree sysE D) (J : B -> itree sysE C) (body : A -> itree sysE B) a :
  observe (ITree.subst K (ITree.subst J (ITree.subst body (leaf a)))) = observe (ITree.subst K (ITree.subst J (body a))).
Proof. reflexivity. Qed.
Lemma answer3 {A B C D E} (K : D -> itree sysE E) (J : C -> itree sysE D) (L : B -> itree sysE C) (body : A -> itree sysE B) a :
  observe (ITree.subst K (ITree.subst J (ITree.subst L (ITree.subst body (leaf a))))) =
  observe (ITree.subst K (ITree.subst J (ITree.subst L (body a)))).
Proof. reflexivity. Qed.

(** One call, or one silent step, and on to the next node. *)
Ltac open_node := left; pfold; unfold follows_step.
Ltac node := open_node; cbn.
Ltac silent := eapply f_tau; [reflexivity|].
Ltac event := eapply f_vis; [reflexivity|]; cbn.

Lemma place_follows : forall ph t, place ph t -> follows ph t.
Proof.
  pcofix CIH. intros ph t [n t' Hn E|pid n t' E]; pfold; unfold follows_step; rewrite E; cbn.
  - destruct n as [|n]; [lia|]. event. intros u. node. event. intros a. destruct (a <? 0) eqn:E1; [|destruct (a =? 0) eqn:E2].
    + open_node. rewrite answer2, E1. cbn. event. intros ?. node. event. intros [].
    + open_node. rewrite answer2, E1, E2. cbn. event. intros ?. node. event. intros ?. node. event. intros [].
    + right. apply CIH, at_wait. by rewrite answer2, E1, E2.
  - event. intros a. destruct (Z.ltb_spec a 0) as [H1|H1]; [|destruct (a =? pid) eqn:E2]; cbn; open_node; rewrite answer3.
    + destruct (Z.leb_spec 0 a); [lia|]. cbn. silent. right. apply CIH, at_top; [lia|done].
    + rewrite E2, andb_false_r. cbn. silent. right. apply CIH, at_top; [lia|done].
    + rewrite E2. destruct (Z.leb_spec 0 a); [|lia]. cbn. event. intros ?. node. silent. right. by apply CIH, at_wait.
Qed.

Lemma answer0 {A B} (body : A -> itree sysE B) a : observe (ITree.subst body (leaf a)) = observe (body a).
Proof. reflexivity. Qed.

(** C17: [init] supervises one shell, for ever.  Whatever the kernel answers: it sets up
    the console and its two copies of the descriptor and nothing else; it calls [fork]
    only when no shell of its own runs; the child does nothing but execute [sh] with
    its arguments, and only where that call returns does it report and exit; the parent
    waits until the child it forked is the one returned (or there is nothing to wait
    for), taking any number of orphans meanwhile, and then starts the next shell; it
    ends only when [fork] failed.  Between two such calls it makes at most 8 steps, so
    it never stops supervising. *)
Theorem init_supervises : follows Start main.
Proof.
  assert (forall t, observe t = observe (call (Dup 0) ;;; call (Dup 0) ;;; loop) -> follows (Opened 2) t) as Htail.
  { intros t E. pfold. unfold follows_step. rewrite E. cbn. event. intros ?. node. event. intros ?. left.
    apply place_follows, at_top; [unfold bound; lia|done]. }
  pfold. unfold follows_step. cbn. event. intros fd. destruct (fd <? 0) eqn:E.
  - open_node. rewrite answer0, E. cbn. event. intros ?. node. event. intros ?. left. by apply Htail.
  - left. apply Htail. by rewrite answer0, E.
Qed.
End Init.
